(* ===== verification/_CoqProject ===== *)
-Q . S2P
Prelude.v
Memory.v
KUtils.v
Queue.v
MemLayout.v
Cpu.v
Palloc.v
Multiboot.v
Paging.v
KernelHeap.v
HeapPages.v
AddressSpace.v
AddressDup.v
EarlyPaging.v
ProcMem.v
Thread.v
Scheduler.v
SchedulerLoop.v
BlockDev.v
Fat.v
FatDir.v
FatPath.v
ThreadLock.v
ExclusiveBuffer.v
LibcString.v
LibcConvert.v
Printf.v
Stdio.v
LibcIo.v
LibcHeap.v
UserBreak.v
AtaPio.v
AtaCache.v
Pci.v
AtaInit.v
Vfs.v
FatVfs.v
Devfs.v
ProcFork.v
SyscallFile.v
Elf.v
ElfLoad.v
ElfExec.v
LibcEnv.v
Segmentation.v
Interrupts.v
Platform.v
IoApic.v
Mpt.v
Apic.v
Shootdown.v
Serial.v
Debug.v
Checkpoint.v
