(* ===== verification/Prelude.v ===== *)
(** * Verification of the yaos2 kernel and its C library

    yaos2 is an i386 kernel with symmetric multiprocessing, a small C library and a
    user program (src/kernel, src/libc, src/extras).  This library models the parts
    that carry its logic and proves what makes them correct.

    ** How the parts fit together

    A boot loader starts the kernel with a memory map; the boot code maps the kernel, the
    tables of the firmware name the CPUs and interrupt controllers, and the other CPUs are
    started.  A user program calls the C library (src/libc), whose [brk], [open], [read], ...
    trap through the interrupt table into the system calls (kernel/kernel/syscall).  The file
    system calls use the descriptor table of the process (kernel/proc.c) and the virtual
    filesystem (kernel/vfs), which passes them to a mounted filesystem: devfs, which shows
    registered drivers, or FAT.  FAT reads a block device, which is a whole drive of
    the ATA driver, with its sector cache, or an MBR partition of one; the driver is
    started by the PCI registry and moves sectors by port I/O.  Programs are ELF files loaded
    into a new address space; fork copies one.  Threads are run by the scheduler on all CPUs,
    preempted by the timer of the local APIC, and wait on mutexes and conditions; exclusive
    buffers and the serial ports are built on those.  Below all of it are the CPU spinlocks
    with their interrupt and preemption counters, the physical page allocator, the page tables,
    kept coherent between the CPUs by inter-processor interrupts, and the kernel heap.

    ** Files

    The order is that of dependency; every file opens with what it holds.

    - [Prelude] (this file): outcomes of kernel code ([Done], [Panic], [Hang]), the
      state-passing monad [M] with its notation, total-correctness triples ([returns])
      with their rules and the tactic [step], 32-bit arithmetic, list lemmas, hints.
    - [Memory], [KUtils]: byte memory; kernel/utils.h, kernel/utils.c.
    - [Queue]: the LIST and STAILQ macros of kernel/queue.h on pointers, shown to be
      lists; the other files use lists.
    - [MemLayout]: arch/memlayout.h, arch/i386/memlayout.c.
    - [Cpu]: arch/i386/cpu/cpu.c, spinlock.c.
    - [Palloc], [Multiboot], [Paging], [KernelHeap], [HeapPages]: arch/i386/palloc.c,
      multiboot_init.c, paging/core.c, kernel.c and ipi.c, heap.c, and page allocator,
      tables and heap put together.
    - [AddressSpace], [AddressDup], [EarlyPaging]: page directories as address spaces, their
      copies (the rest of paging/core.c), boot/early_paging.c.
    - [ProcMem], [Thread], [ProcFork]: arch/i386/proc.c and syscall/brk.c, thread.c,
      proc_fork.  [SyscallFile] works on the processes of [ProcMem], through their page
      tables.
    - [Scheduler], [SchedulerLoop], [ThreadLock], [ExclusiveBuffer]:
      arch/i386/scheduler.c, thread_lock.c, kernel/exclusive_buffer.c.
    - [BlockDev]: kernel/block.h, block/registry.c, block/mbr.c.
    - [Fat], [FatDir], [FatPath], [FatVfs]: fs/fat.c, fs/fat_core.c, fs/fat_vfs.c.
    - [AtaPio], [AtaCache], [AtaInit], [Pci]: devices/ata_pio.c, drivers/ata/generic.c,
      devices/pci.c and pci/config.h.
    - [Vfs], [Devfs], [SyscallFile]: kernel/vfs, fs/devfs*.c, char/registry.c,
      kernel/proc.c, syscall/file.c.
    - [Elf], [ElfLoad], [ElfExec]: exec/elf/core.c: the code, loading, starting a program.
    - [LibcString], [LibcConvert], [Printf], [Stdio], [LibcIo], [LibcHeap], [LibcEnv]:
      libc/string, libc/stdlib/convert.c, kernel/printf.c and libc/stdio/nprintf.c, string.c,
      libc/unistd.c and libc/stdio/stream.c, stdout.c, libc/stdlib/heap.c, env.c, exit.c.
    - [UserBreak]: the library's brk and sbrk over the kernel's break system calls.
    - [Segmentation], [Interrupts]: descriptor tables and the task state segment, the
      interrupt table, its dispatch and the system call gate.
    - [Platform], [IoApic], [Mpt], [Apic]: accesses to devices as a history, pit.c, pic.c;
      the two halves of apic.c; mpt.c.
    - [Shootdown], [Checkpoint]: paging/ipi.c and cpu/checkpoint.c as steps of all CPUs.
    - [Serial], [Debug]: serial.c; vga_debug.c and the call stacks of debug.c.

    ** How the code is represented

    A function of the kernel becomes a function of the same name in [M] over a record
    of the static variables and structures it uses.  [kpanic] and a failed [kassert]
    are [Panic]; waiting for something that no step of this thread can bring about, or
    exhausted fuel, is [Hang].  Words are [Z] with their wrap-around written out
    ([u8], [u16], [u32], [s32], ...).  Structures that live in memory the program hands out (free
    pages, heap headers, page tables, directory entries) are kept in byte memory at
    the offsets the compiler gives them; other structures are records.

    Components meet at interfaces: [PageSource] is what the heap needs of pages and
    [HeapPages] discharges it; [bdev_ok] is the contract of block devices, kept by
    partitions if their parent keeps it; [SectorSource] is what the ATA cache needs of
    the transfers and [AtaCache.channel_source] discharges it; [Break] is what the user
    heap needs of brk and sbrk and [UserBreak.kernel_break] discharges it; [is_file] is what the
    virtual filesystem needs of a node, discharged by [FatVfs] for the files of a FAT
    volume; [EbHeap] and [StackHeap] are what exclusive buffers and threads need of the
    heap.  Hardware and code that is not in the repository are parameters with their
    documented behaviour as a class ([Ports] with [AtaChannel], [PciPorts] with
    [PciConfig], [Answers] for what devices answer to the accesses made so far, the trap
    instruction of the C library), each with an executable instance in a witness.

    One CPU's code is a function; several CPUs are a step relation over the states such
    functions transform ([SchedulerLoop], [Shootdown], [Checkpoint]), and properties hold of all
    states it reaches.  Code that blocks in the middle is cut where it blocks, or, in
    [Serial], written in a resumption monad.

    ** What is proved

    - Scheduling: in every state reachable by any interleaving of the scheduler's
      operations on any number of CPUs no thread runs twice or is queued while it
      runs, every enabled operation completes, what is notified is run, an exit status
      reaches the parent.  Mutexes exclude, hand over and release atomically with a
      wait; exclusive buffers are bounded FIFOs.
    - Processors: no active CPU keeps an outdated translation when a change of non-global
      translations has been propagated, under every interleaving; a checkpoint lets no CPU through before all have
      entered and then all; a panic stops the other CPUs and shows its message.
    - Memory: the allocator gets the available pages below 4 GB of the boot loader's map; every
      operation of the page allocator, of the page tables and of the heap keeps its
      invariant and has its functional behaviour on every branch; heap blocks are
      disjoint, aligned and mapped; the boot tables map what they must; a process's memory
      behaves as bytes, the break maps what it grows by if there are pages enough.
    - Processes: fork copies memory, files and registers; a program is loaded and starts
      at its entry with its arguments.
    - Platform: descriptor tables are well typed, a system call reaches its handler, a
      tick is counted and preempts; local and I/O APICs are programmed to a given abstract
      state; the MP tables are read back; starting another CPU makes
      exactly the accesses of the start sequence.
    - Storage: reading a sector terminates and returns it, through the cache too; the
      contents of a file of at most a sector opened by its path are those on the volume; long
      names are read back.  What is beyond the first sector of a cluster is not covered: the
      code does not read it correctly.  The PCI registry holds the functions that are present.
    - Files: a file object is a sequence of bytes with a position; the descriptors of
      the system calls; the output of a serial device is a queue.
    - Library: formatted output equals a reference function and stays in its buffer; the
      output of printf reaches the file; the user heap hands out disjoint blocks; the
      environment is found.

    ** Bounds and fuel

    Loops over a count recurse on it.  Other loops take fuel, and the theorem that
    uses them says which fuel is enough: a scan for a NUL byte needs one more than the
    length of the string; conversions need 32 iterations for 32 bits; the polling loops
    of the ATA driver need one more than the number of readings for which the drive
    may be busy; loops that fill and flush buffers move a byte per turn; the recursion
    of block-device registration is bounded by the eight slots of the registry; walks
    along a cluster chain by the number of clusters asked for; waits for a device by the
    number of readings after which it answers, a hypothesis of the theorem.

    ** Not modelled

    Assembly (.S files; the stack frames they use are in [Thread] and [Interrupts]); the
    order of initialization (init.c, kernel.c) and smp.c, which call the modelled parts
    one after another; the wrappers of the process system calls (syscall/proc.c), which
    switch CR3 around modelled functions; kdprintf and its redirection; boot/early_debug.c;
    the kernel's tests and the user program.  Within the modelled parts: the macros of
    queue.h the program does not use, the fields of locks and threads kept for
    debugging, and printed messages. *)

From stdpp Require Import base list gmap strings.
From Stdlib Require Import ZArith Lia.

#[global] Open Scope Z_scope.

(** ** Outcomes

    Kernel code returns, stops the machine with [kpanic] / a failed [kassert],
    or never returns: it spins, waits for another agent, or loops. *)

Inductive outcome (A : Type) : Type :=
| Done (a : A)
| Panic (why : string)
| Hang.

Arguments Done {A} a.
Arguments Panic {A} why.
Arguments Hang {A}.

(** ** Stateful computations: explicit state passing over outcomes *)

Definition M (S A : Type) : Type := S → outcome (A * S).

Definition ret {S A} (a : A) : M S A := fun s => Done (a, s).

Definition bind {S A B} (m : M S A) (k : A → M S B) : M S B :=
  fun s => match m s with
           | Done (a, s') => k a s'
           | Panic w => Panic w
           | Hang => Hang
           end.

Definition get {S} : M S S := fun s => Done (s, s).

Definition gets {S A} (f : S → A) : M S A := fun s => Done (f s, s).

Definition modify {S} (f : S → S) : M S unit := fun s => Done (tt, f s).

Definition kpanic {S A} (why : string) : M S A := fun _ => Panic why.

Definition hang {S A} : M S A := fun _ => Hang.

(** [kassert(expr)] of kernel/debug.h: panics when the condition fails. *)
Definition kassert {S} (why : string) (b : bool) : M S unit :=
  if b then ret tt else kpanic why.

(** [if (b) m;] with nothing in the else branch. *)
Definition when {S} (b : bool) (m : M S unit) : M S unit :=
  if b then m else ret tt.

Declare Scope kernel_scope.
Delimit Scope kernel_scope with kernel.
#[global] Open Scope kernel_scope.

Notation "x <- m ;; k" := (bind m (fun x => k))
  (at level 100, m at next level, right associativity) : kernel_scope.
Notation "m ;;; k" := (bind m (fun _ => k))
  (at level 100, right associativity) : kernel_scope.

(** [for (i = i0; i < i0 + n; i++) body(i)]. *)
Fixpoint for_up {S} (n : nat) (i : Z) (body : Z → M S unit) : M S unit :=
  match n with
  | O => ret tt
  | S n' => body i ;;; for_up n' (i + 1) body
  end.

(** Run a computation on one component of a larger state. *)
Definition zoom {S T A} (g : S → T) (p : T → S → S) (m : M T A) : M S A :=
  fun s => match m (g s) with
           | Done (a, t) => Done (a, p t s)
           | Panic w => Panic w
           | Hang => Hang
           end.

(** ** Machine integers of the i386 target *)

Definition u8 (x : Z) : Z := x mod 2 ^ 8.
Definition u16 (x : Z) : Z := x mod 2 ^ 16.
Definition u32 (x : Z) : Z := x mod 2 ^ 32.
Definition u64 (x : Z) : Z := x mod 2 ^ 64.

(** Two's complement reading of the low 32 bits ([int], [long]). *)
Definition s32 (x : Z) : Z :=
  let y := u32 x in if y <? 2 ^ 31 then y else y - 2 ^ 32.

(** Two's complement reading of a byte (plain [char] is signed on i386). *)
Definition s8 (x : Z) : Z :=
  let y := u8 x in if y <? 2 ^ 7 then y else y - 2 ^ 8.

Definition UINT_MAX : Z := 2 ^ 32 - 1.
Definition INT_MAX : Z := 2 ^ 31 - 1.

Definition is_u32 (x : Z) : Prop := 0 ≤ x < 2 ^ 32.

(** ** Lemmas on computations *)

Section computations.
Context {S A B : Type}.

Lemma bind_run (m : M S A) (k : A → M S B) s a s' :
  m s = Done (a, s') → bind m k s = k a s'.
Proof. unfold bind. by intros ->. Qed.

Lemma bind_Done_inv (m : M S A) (k : A → M S B) s b s'' :
  bind m k s = Done (b, s'') →
  ∃ a s', m s = Done (a, s') ∧ k a s' = Done (b, s'').
Proof.
  unfold bind. destruct (m s) as [[a s']| |] eqn:E; try done. eauto.
Qed.

Lemma bind_Panic (m : M S A) (k : A → M S B) s w :
  m s = Panic w → bind m k s = Panic w.
Proof. unfold bind. by intros ->. Qed.

Lemma bind_Hang (m : M S A) (k : A → M S B) s :
  m s = Hang → bind m k s = Hang.
Proof. unfold bind. by intros ->. Qed.

Lemma bind_assoc_run {C : Type} (m : M S A) (f : A → M S B) (g : B → M S C) s :
  bind m (fun a => bind (f a) g) s = bind (bind m f) g s.
Proof. unfold bind. by destruct (m s) as [[a s']| |]. Qed.

Lemma kassert_true (w : string) (s : S) (b : bool) :
  b = true → kassert w b s = Done (tt, s).
Proof. by intros ->. Qed.

Lemma for_up_split (n m : nat) i (body : Z → M S unit) s :
  for_up (n + m) i body s =
  bind (for_up n i body) (fun _ => for_up m (i + Z.of_nat n) body) s.
Proof.
  revert i s. induction n as [|n IH]; intros i s.
  - cbn. by rewrite Z.add_0_r.
  - change (for_up (Datatypes.S n + m) i body s)
      with (bind (body i) (fun _ => for_up (n + m) (i + 1) body) s).
    cbn [for_up]. unfold bind.
    destruct (body i s) as [[a s']| |] eqn:E; try done.
    rewrite IH. unfold bind.
    by replace (i + Z.of_nat (Datatypes.S n)) with (i + 1 + Z.of_nat n) by lia.
Qed.

End computations.

(** The computation returns, with a result and a state that satisfy [Q]. *)
Definition returns {S A} (m : M S A) (s : S) (Q : A → S → Prop) : Prop :=
  match m s with
  | Done (a, s') => Q a s'
  | Panic _ | Hang => False
  end.

Lemma returns_run {S A} (m : M S A) s a s' (Q : A → S → Prop) :
  m s = Done (a, s') → Q a s' → returns m s Q.
Proof. unfold returns. by intros ->. Qed.

Lemma returns_inv {S A} (m : M S A) s (Q : A → S → Prop) :
  returns m s Q → ∃ a s', m s = Done (a, s') ∧ Q a s'.
Proof. unfold returns. destruct (m s) as [[a s']| |]; [eauto|done|done]. Qed.

Lemma returns_bind {S A B} (m : M S A) (k : A → M S B) s (Q : A → S → Prop) (R : B → S → Prop) :
  returns m s Q → (∀ a s', Q a s' → returns (k a) s' R) → returns (bind m k) s R.
Proof. unfold returns at 1, bind, returns. destruct (m s) as [[a s']| |]; [|done|done]. intros H K. by apply K. Qed.

Lemma returns_mono {S A} (m : M S A) s (Q R : A → S → Prop) :
  returns m s Q → (∀ a s', Q a s' → R a s') → returns m s R.
Proof. unfold returns. destruct (m s) as [[a s']| |]; [eauto|done|done]. Qed.

(** A loop whose body always returns and preserves an indexed invariant
    returns in a state satisfying the invariant at its end. *)
Lemma for_up_inv {S} (I : Z → S → Prop) (body : Z → M S unit) n i s :
  I i s →
  (∀ j s0, i ≤ j < i + Z.of_nat n → I j s0 →
     ∃ s1, body j s0 = Done (tt, s1) ∧ I (j + 1) s1) →
  ∃ s', for_up n i body s = Done (tt, s') ∧ I (i + Z.of_nat n) s'.
Proof.
  revert i s. induction n as [|n IH]; intros i s H0 Hstep.
  - exists s. cbn. split; [done|]. by replace (i + Z.of_nat 0) with i by lia.
  - destruct (Hstep i s ltac:(lia) H0) as (s1 & E & H1).
    destruct (IH (i + 1) s1 H1) as (s2 & E2 & H2).
    { intros j s0 Hj. apply Hstep. lia. }
    exists s2. split; [|by replace (i + Z.of_nat (Datatypes.S n))
                          with (i + 1 + Z.of_nat n) by lia].
    cbn [for_up]. by rewrite (bind_run _ _ _ _ _ E).
Qed.

(** Invert a successful run of a sequence of computations. *)
Ltac run_inv H :=
  repeat match type of H with
  | bind _ _ _ = Done _ =>
      let a := fresh "a" in let s := fresh "s" in let E := fresh "E" in
      apply bind_Done_inv in H as (a & s & E & H)
  end.

(** The first step of a sequence, by what is known of it. *)
Tactic Notation "step" uconstr(l) "as" simple_intropattern(v) simple_intropattern(s) simple_intropattern(C) :=
  eapply returns_bind; [apply l; first [done | by left | idtac] | intros v s C; cbn beta in * ].

(** Evaluate the plumbing of a computation on a known state. *)
Ltac run_simpl :=
  cbn [bind ret get gets modify kpanic kassert when hang zoom fst snd] in *.

(** ** Lemmas on machine integers *)

Lemma u8_range x : 0 ≤ u8 x < 2 ^ 8.
Proof. apply Z.mod_pos_bound. lia. Qed.

Lemma u16_range x : 0 ≤ u16 x < 2 ^ 16.
Proof. apply Z.mod_pos_bound. lia. Qed.

Lemma u32_range x : 0 ≤ u32 x < 2 ^ 32.
Proof. apply Z.mod_pos_bound. lia. Qed.

Lemma u8_small x : 0 ≤ x < 2 ^ 8 → u8 x = x.
Proof. apply Z.mod_small. Qed.

Lemma u16_small x : 0 ≤ x < 2 ^ 16 → u16 x = x.
Proof. apply Z.mod_small. Qed.

Lemma u32_small x : 0 ≤ x < 2 ^ 32 → u32 x = x.
Proof. apply Z.mod_small. Qed.

Lemma u32_u32 x : u32 (u32 x) = u32 x.
Proof. unfold u32. apply Z.mod_mod. lia. Qed.

Lemma u32_add_l x y : u32 (u32 x + y) = u32 (x + y).
Proof. unfold u32. by rewrite Zplus_mod_idemp_l. Qed.

Lemma u32_add_r x y : u32 (x + u32 y) = u32 (x + y).
Proof. unfold u32. by rewrite Zplus_mod_idemp_r. Qed.

Lemma s32_range x : - 2 ^ 31 ≤ s32 x < 2 ^ 31.
Proof.
  unfold s32. pose proof (u32_range x). destruct (Z.ltb_spec (u32 x) (2 ^ 31)); lia.
Qed.

Lemma s32_small x : - 2 ^ 31 ≤ x < 2 ^ 31 → s32 x = x.
Proof.
  intros H. unfold s32, u32. destruct (Z.ltb_spec (x mod 2 ^ 32) (2 ^ 31)) as [L|L];
  destruct (Z.le_gt_cases 0 x) as [P|P].
  - rewrite Z.mod_small; lia.
  - replace (x mod 2 ^ 32) with (x + 2 ^ 32) in L; [lia|].
    apply (Z.mod_unique _ _ (-1)); lia.
  - rewrite Z.mod_small in L; lia.
  - replace (x mod 2 ^ 32) with (x + 2 ^ 32); [lia|].
    apply (Z.mod_unique _ _ (-1)); lia.
Qed.

Lemma u32_s32 x : u32 (s32 x) = u32 x.
Proof.
  unfold s32. destruct (Z.ltb_spec (u32 x) (2 ^ 31)).
  - apply u32_u32.
  - unfold u32 at 1. replace (u32 x - 2 ^ 32) with (u32 x + (-1) * 2 ^ 32) by lia.
    rewrite Z_mod_plus_full. apply u32_u32.
Qed.

Lemma land_pow2 v k : 0 ≤ k → Z.land v (2 ^ k) = if Z.testbit v k then 2 ^ k else 0.
Proof.
  intros Hk. apply Z.bits_inj'. intros n Hn. rewrite Z.land_spec, Z.pow2_bits_eqb by done.
  destruct (Z.eqb_spec k n) as [->|Hne].
  - destruct (Z.testbit v n) eqn:E; cbn; [by rewrite Z.pow2_bits_true|by rewrite Z.bits_0].
  - rewrite andb_false_r. destruct (Z.testbit v k); [|by rewrite Z.bits_0].
    by rewrite Z.pow2_bits_false.
Qed.

Create HintDb word.
Create Rewrite HintDb word.
#[export] Hint Resolve u8_range u16_range u32_range s32_range : word.
#[export] Hint Rewrite u32_u32 u32_add_l u32_add_r u32_s32 : word.

(** Drop the wrap-around of an expression that provably does not overflow. *)
Ltac unwrap :=
  repeat match goal with
  | |- context [u32 ?x] => rewrite (u32_small x) by lia
  end.

Ltac unwrap_in H :=
  repeat match type of H with
  | context [u32 ?x] => rewrite (u32_small x) in H by lia
  end.

(** Linear arithmetic with division and remainder by constants. *)
Ltac dlia := Z.div_mod_to_equations; lia.

(** Turn boolean comparisons into the propositions they decide. *)
Ltac zbool :=
  repeat match goal with
  | H : (_ =? _) = true |- _ => apply Z.eqb_eq in H
  | H : (_ =? _) = false |- _ => apply Z.eqb_neq in H
  | H : (_ <? _) = true |- _ => apply Z.ltb_lt in H
  | H : (_ <? _) = false |- _ => apply Z.ltb_ge in H
  | H : (_ <=? _) = true |- _ => apply Z.leb_le in H
  | H : (_ <=? _) = false |- _ => apply Z.leb_gt in H
  | H : andb _ _ = true |- _ => apply andb_prop in H as [? ?]
  | H : orb _ _ = false |- _ => apply orb_false_elim in H as [? ?]
  | H : negb _ = true |- _ => apply negb_true_iff in H
  | H : negb _ = false |- _ => apply negb_false_iff in H
  end.
