(* ===== verification/Memory.v ===== *)
(** * Byte-addressed memory

    The flat i386 address space as the kernel sees it: a total map from
    addresses to bytes, with the little-endian 32-bit accesses the C code makes
    through [uint32_t *] and structure fields, and the same encodings on byte
    buffers (a packed structure read from a disk or a file). *)

From stdpp Require Import base list strings.
From Stdlib Require Import ZArith Lia.
From S2P Require Import Prelude.

Definition mem : Type := Z → Z.

(** Store one byte. *)
Definition store8 (m : mem) (a v : Z) : mem :=
  fun x => if x =? a then u8 v else m x.

Definition load32 (m : mem) (a : Z) : Z :=
  m a + 2 ^ 8 * m (a + 1) + 2 ^ 16 * m (a + 2) + 2 ^ 24 * m (a + 3).

Definition store32 (m : mem) (a v : Z) : mem :=
  store8 (store8 (store8 (store8 m a v) (a + 1) (v / 2 ^ 8))
    (a + 2) (v / 2 ^ 16)) (a + 3) (v / 2 ^ 24).

(** The [n] bytes at [a]. *)
Fixpoint read_bytes (m : mem) (a : Z) (n : nat) : list Z :=
  match n with
  | O => []
  | S n' => m a :: read_bytes m (a + 1) n'
  end.

Fixpoint write_bytes (m : mem) (a : Z) (l : list Z) : mem :=
  match l with
  | [] => m
  | b :: l' => write_bytes (store8 m a b) (a + 1) l'
  end.

(** Every cell holds a byte. *)
Definition byte_mem (m : mem) : Prop := ∀ a, 0 ≤ m a < 2 ^ 8.

Definition byte_list (l : list Z) : Prop := Forall (fun b => 0 ≤ b < 2 ^ 8) l.

(** Little-endian value of a byte string. *)
Fixpoint le_val (l : list Z) : Z :=
  match l with
  | [] => 0
  | b :: l' => b + 2 ^ 8 * le_val l'
  end.

(** Little-endian encoding of [v] in [n] bytes. *)
Fixpoint le_bytes (n : nat) (v : Z) : list Z :=
  match n with
  | O => []
  | S n' => u8 v :: le_bytes n' (v / 2 ^ 8)
  end.

(** Byte, 16-bit and 32-bit fields of a packed structure held in a buffer;
    bytes past the end of the buffer read as zero. *)
Definition get8 (l : list Z) (off : nat) : Z := nth off l 0.
Definition get16 (l : list Z) (off : nat) : Z := get8 l off + 2 ^ 8 * get8 l (off + 1).
Definition get32 (l : list Z) (off : nat) : Z :=
  get16 l off + 2 ^ 16 * get16 l (off + 2).

(** The characters of a C string literal. *)
Definition chars (s : string) : list Z :=
  map (fun c => Z.of_N (Ascii.N_of_ascii c)) (String.list_ascii_of_string s).

(** ** Lemmas *)

Lemma store8_eq m a v : store8 m a v a = u8 v.
Proof. unfold store8. by rewrite Z.eqb_refl. Qed.

Lemma store8_ne m a v x : x ≠ a → store8 m a v x = m x.
Proof. intros H. unfold store8. by rewrite (proj2 (Z.eqb_neq x a) H). Qed.

Lemma byte_mem_store8 m a v : byte_mem m → byte_mem (store8 m a v).
Proof.
  intros H x. unfold store8. destruct (x =? a); [apply u8_range|apply H].
Qed.

Lemma byte_mem_store32 m a v : byte_mem m → byte_mem (store32 m a v).
Proof. intros H. unfold store32. by do 4 apply byte_mem_store8. Qed.

Lemma store32_frame m a v x : (x < a ∨ a + 4 ≤ x) → store32 m a v x = m x.
Proof. intros H. unfold store32. by rewrite !store8_ne by lia. Qed.

Lemma load32_range m a : byte_mem m → 0 ≤ load32 m a < 2 ^ 32.
Proof.
  intros H. unfold load32.
  pose proof (H a). pose proof (H (a + 1)). pose proof (H (a + 2)). pose proof (H (a + 3)).
  lia.
Qed.

Lemma load32_ext m1 m2 a :
  (∀ x, a ≤ x < a + 4 → m1 x = m2 x) → load32 m1 a = load32 m2 a.
Proof. intros H. unfold load32. by rewrite !H by lia. Qed.

Lemma le_split32 v :
  0 ≤ v < 2 ^ 32 →
  u8 v + 2 ^ 8 * u8 (v / 2 ^ 8) + 2 ^ 16 * u8 (v / 2 ^ 16) + 2 ^ 24 * u8 (v / 2 ^ 24) = v.
Proof.
  intros H. unfold u8.
  pose proof (Z.div_mod v (2 ^ 8) ltac:(lia)).
  pose proof (Z.div_mod (v / 2 ^ 8) (2 ^ 8) ltac:(lia)).
  pose proof (Z.div_mod (v / 2 ^ 16) (2 ^ 8) ltac:(lia)).
  pose proof (Z.div_mod (v / 2 ^ 24) (2 ^ 8) ltac:(lia)).
  assert (E1 : v / 2 ^ 16 = v / 2 ^ 8 / 2 ^ 8) by (rewrite Z.div_div by lia; f_equal; lia).
  assert (E2 : v / 2 ^ 24 = v / 2 ^ 16 / 2 ^ 8) by (rewrite Z.div_div by lia; f_equal; lia).
  assert (v / 2 ^ 24 / 2 ^ 8 = 0).
  { rewrite Z.div_div by lia. apply Z.div_small. lia. }
  lia.
Qed.

Lemma load32_store32_eq m a v : 0 ≤ v < 2 ^ 32 → load32 (store32 m a v) a = v.
Proof.
  intros H. unfold load32, store32.
  rewrite store8_eq. rewrite (store8_ne _ (a + 3)) by lia. rewrite store8_ne by lia.
  rewrite store8_ne by lia. rewrite store8_eq.
  rewrite (store8_ne _ (a + 3)) by lia. rewrite (store8_ne _ (a + 2)) by lia.
  rewrite store8_eq. rewrite (store8_ne _ (a + 3)) by lia. rewrite store8_eq.
  by apply le_split32.
Qed.

Lemma load32_store32_ne m a b v :
  (b + 4 ≤ a ∨ a + 4 ≤ b) → load32 (store32 m a v) b = load32 m b.
Proof. intros H. apply load32_ext. intros x Hx. apply store32_frame. lia. Qed.

Lemma length_read_bytes m a n : length (read_bytes m a n) = n.
Proof. revert a. induction n as [|n IH]; intros a; cbn; [done|by rewrite IH]. Qed.

Lemma read_bytes_lookup m a n i :
  (i < n)%nat → read_bytes m a n !! i = Some (m (a + Z.of_nat i)).
Proof.
  revert a i. induction n as [|n IH]; intros a i Hi; [lia|].
  destruct i as [|i]; cbn.
  - by rewrite Z.add_0_r.
  - rewrite IH by lia. do 2 f_equal. lia.
Qed.

Lemma read_bytes_ext m1 m2 a n :
  (∀ x, a ≤ x < a + Z.of_nat n → m1 x = m2 x) → read_bytes m1 a n = read_bytes m2 a n.
Proof.
  revert a. induction n as [|n IH]; intros a H; cbn; [done|].
  rewrite (H a) by lia. f_equal. apply IH. intros x Hx. apply H. lia.
Qed.

Lemma read_bytes_app m a n k :
  read_bytes m a (n + k) = read_bytes m a n ++ read_bytes m (a + Z.of_nat n) k.
Proof.
  revert a. induction n as [|n IH]; intros a; cbn.
  - by rewrite Z.add_0_r.
  - rewrite IH. do 3 f_equal. lia.
Qed.

Lemma write_bytes_frame m a l x :
  (x < a ∨ a + Z.of_nat (length l) ≤ x) → write_bytes m a l x = m x.
Proof.
  revert m a. induction l as [|b l IH]; intros m a H; cbn in *; [done|].
  rewrite IH by lia. apply store8_ne. lia.
Qed.

Lemma write_bytes_lookup m a l i b :
  l !! i = Some b → write_bytes m a l (a + Z.of_nat i) = u8 b.
Proof.
  revert m a i. induction l as [|c l IH]; intros m a i H; [done|].
  destruct i as [|i]; cbn in *.
  - injection H as ->. rewrite write_bytes_frame by lia.
    rewrite Z.add_0_r. apply store8_eq.
  - replace (a + Z.of_nat (S i)) with (a + 1 + Z.of_nat i) by lia. by apply IH.
Qed.

Lemma read_write_bytes m a l :
  byte_list l → read_bytes (write_bytes m a l) a (length l) = l.
Proof.
  intros Hl. apply list_eq. intros i.
  destruct (decide (i < length l)%nat) as [Hi|Hi].
  - rewrite read_bytes_lookup by done.
    destruct (lookup_lt_is_Some_2 l i Hi) as [b Hb]. rewrite Hb.
    rewrite (write_bytes_lookup _ _ _ _ _ Hb).
    rewrite u8_small; [done|]. apply (Forall_lookup_1 _ _ _ _ Hl Hb).
  - rewrite !lookup_ge_None_2; rewrite ?length_read_bytes; try done; lia.
Qed.

Lemma byte_mem_write m a l : byte_mem m → byte_mem (write_bytes m a l).
Proof.
  revert m a. induction l as [|b l IH]; intros m a H; [done|]. cbn. apply IH. by apply byte_mem_store8.
Qed.

Lemma length_le_bytes n v : length (le_bytes n v) = n.
Proof. revert v. induction n as [|n IH]; intros v; cbn; [done|by rewrite IH]. Qed.

Lemma le_val_bytes n v : le_val (le_bytes n v) = v mod 2 ^ (8 * Z.of_nat n).
Proof.
  revert v. induction n as [|n IH]; intros v.
  - cbn [le_bytes le_val]. change (2 ^ (8 * Z.of_nat 0)) with 1. by rewrite Z.mod_1_r.
  - cbn [le_bytes le_val]. rewrite IH. unfold u8.
    replace (8 * Z.of_nat (S n)) with (8 + 8 * Z.of_nat n) by lia.
    rewrite Z.pow_add_r by lia. rewrite Z.rem_mul_r by lia. lia.
Qed.

Lemma byte_list_le_bytes n v : byte_list (le_bytes n v).
Proof.
  revert v. induction n as [|n IH]; intros v; constructor; [apply u8_range|apply IH].
Qed.

Create HintDb mem.
#[export] Hint Resolve byte_mem_store8 byte_mem_store32 : mem.
