(* ===== verification/KUtils.v ===== *)
(** * kernel/include/kernel/utils.h and kernel/kernel/utils.c

    The memory and string helpers every kernel component is built on, over the
    byte memory of [Memory].  Loops that count a [size_t] down recurse on that
    count; loops that look for a NUL byte take a fuel bound and return [None]
    when the bound is exhausted before the terminator is met. *)

From stdpp Require Import base list.
From Stdlib Require Import ZArith Lia.
From S2P Require Import Prelude Memory.

(** [memset_volatile], line by line the same loop as [kmemset]. *)
Fixpoint memset_volatile_loop (len : nat) (m : mem) (p val : Z) : mem :=
  match len with
  | O => m
  | S len' => memset_volatile_loop len' (store8 m p val) (p + 1) val
  end.

Definition memset_volatile (m : mem) (v val len : Z) : mem :=
  memset_volatile_loop (Z.to_nat len) m v val.

Fixpoint kmemset_loop (len : nat) (m : mem) (p val : Z) : mem :=
  match len with
  | O => m
  | S len' => kmemset_loop len' (store8 m p val) (p + 1) val
  end.

Definition kmemset (m : mem) (v val len : Z) : mem :=
  kmemset_loop (Z.to_nat len) m v val.

(** Moves bytes and clears each source byte behind itself. *)
Fixpoint kmemmove_loop (len : nat) (m : mem) (p1 p2 : Z) : mem :=
  match len with
  | O => m
  | S len' => kmemmove_loop len' (store8 (store8 m p1 (m p2)) p2 0) (p1 + 1) (p2 + 1)
  end.

Definition kmemmove (m : mem) (v1 v2 len : Z) : mem :=
  kmemmove_loop (Z.to_nat len) m v1 v2.

Fixpoint kstrncmp_loop (len : nat) (m : mem) (p1 p2 : Z) : bool :=
  match len with
  | O => true
  | S len' => if negb (m p1 =? m p2) then false else kstrncmp_loop len' m (p1 + 1) (p2 + 1)
  end.

Definition kstrncmp (m : mem) (p1 p2 len : Z) : bool :=
  kstrncmp_loop (Z.to_nat len) m p1 p2.

(** Copies exactly [len] bytes; returns the memory and the advanced pointer. *)
Fixpoint kstrncpy_loop (len : nat) (m : mem) (p1 p2 : Z) : mem * Z :=
  match len with
  | O => (m, p1)
  | S len' => kstrncpy_loop len' (store8 m p1 (m p2)) (p1 + 1) (p2 + 1)
  end.

Definition kstrncpy (m : mem) (p1 p2 len : Z) : mem * Z :=
  kstrncpy_loop (Z.to_nat len) m p1 p2.

Definition kmemcpy (m : mem) (v1 v2 len : Z) : mem * Z := kstrncpy m v1 v2 len.

Definition kmemcmp (m : mem) (p1 p2 len : Z) : bool := kstrncmp m p1 p2 len.

Fixpoint kstrlen_loop (fuel : nat) (m : mem) (p result : Z) : option Z :=
  match fuel with
  | O => None
  | S fuel' => if m p =? 0 then Some result else kstrlen_loop fuel' m (p + 1) (result + 1)
  end.

Definition kstrlen (fuel : nat) (m : mem) (p : Z) : option Z := kstrlen_loop fuel m p 0.

Fixpoint kmstrlen_loop (fuel : nat) (m : mem) (p max result : Z) : option Z :=
  match fuel with
  | O => None
  | S fuel' =>
      if m p =? 0 then Some result
      else if result >? max then Some (-1)
      else kmstrlen_loop fuel' m (p + 1) max (result + 1)
  end.

Definition kmstrlen (fuel : nat) (m : mem) (p max : Z) : option Z :=
  kmstrlen_loop fuel m p max 0.

Definition kstrcpy (fuel : nat) (m : mem) (to from : Z) : option (mem * Z) :=
  len ← kstrlen fuel m from;
  Some (fst (kstrncpy m to from len), to).

Fixpoint kstrchr (fuel : nat) (m : mem) (str chr : Z) : option (option Z) :=
  match fuel with
  | O => None
  | S fuel' =>
      if m str =? 0 then Some None
      else if s8 (m str) =? chr then Some (Some str)
      else kstrchr fuel' m (str + 1) chr
  end.

Definition kstrcat (fuel : nat) (m : mem) (to from : Z) : option (mem * Z) :=
  len ← kstrlen fuel m to;
  r ← kstrcpy fuel m (to + len) from;
  Some (fst r, to).

Fixpoint kmemchr_loop (num : nat) (m : mem) (p val : Z) : option Z :=
  match num with
  | O => None
  | S num' => if m p =? val then Some p else kmemchr_loop num' m (p + 1) val
  end.

Definition kmemchr (m : mem) (v val num : Z) : option Z := kmemchr_loop (Z.to_nat num) m v val.

Definition kmin (x y : Z) : Z := if x >? y then y else x.
Definition kmax (x y : Z) : Z := if x >? y then x else y.

(** [kstrcmp] measures [p1] twice: the length of [p2] is never taken. *)
Definition kstrcmp (fuel : nat) (m : mem) (p1 p2 : Z) : option bool :=
  l1 ← kstrlen fuel m p1;
  l2 ← kstrlen fuel m p1;
  if negb (l1 =? l2) then Some false
  else Some (kstrncmp_loop (Z.to_nat l1) m p1 p2).

(** ** Strings held in memory *)

(** A NUL-terminated string [s] starts at [p]. *)
Definition cstring (m : mem) (p : Z) (s : list Z) : Prop :=
  read_bytes m p (length s) = s ∧ m (p + Z.of_nat (length s)) = 0 ∧
  Forall (fun c => c ≠ 0) s.

(** ** Numbers of system calls (user/yaos2/kernel/syscalls.h) *)

Definition SYSCALL_EXIT : Z := 1.
Definition SYSCALL_WAIT : Z := 2.
Definition SYSCALL_FORK : Z := 3.
Definition SYSCALL_GETPID : Z := 4.
Definition SYSCALL_BRK : Z := 5.
Definition SYSCALL_SBRK : Z := 6.
Definition SYSCALL_GETENVPTR : Z := 7.
Definition SYSCALL_OPEN : Z := 8.
Definition SYSCALL_CLOSE : Z := 9.
Definition SYSCALL_READ : Z := 10.
Definition SYSCALL_WRITE : Z := 11.
Definition SYSCALL_LSEEK : Z := 12.

(** ** Error codes of system calls (user/yaos2/kernel/errno.h) *)

Definition EUNSPEC : Z := 2.
Definition EOVERFLOW : Z := 101.
Definition EPARAM : Z := 102.

(** ** Lemmas *)

Lemma kmemset_loop_spec len m p val a :
  kmemset_loop len m p val a =
  if (p <=? a) && (a <? p + Z.of_nat len) then u8 val else m a.
Proof.
  revert m p. induction len as [|len IH]; intros m p; cbn [kmemset_loop].
  - destruct (Z.leb_spec p a), (Z.ltb_spec a (p + Z.of_nat 0)); cbn; done || lia.
  - rewrite IH. unfold store8.
    destruct (Z.leb_spec (p + 1) a), (Z.ltb_spec a (p + 1 + Z.of_nat len)),
      (Z.leb_spec p a), (Z.ltb_spec a (p + Z.of_nat (S len))),
      (Z.eqb_spec a p); cbn; try done; lia.
Qed.

Lemma kmemset_in m v val len a : v ≤ a < v + len → kmemset m v val len a = u8 val.
Proof.
  intros H. unfold kmemset. rewrite kmemset_loop_spec.
  rewrite (proj2 (Z.leb_le _ _)), (proj2 (Z.ltb_lt _ _)) by lia. done.
Qed.

Lemma kmemset_out m v val len a : (a < v ∨ v + Z.max 0 len ≤ a) → kmemset m v val len a = m a.
Proof.
  intros H. unfold kmemset. rewrite kmemset_loop_spec.
  destruct (Z.leb_spec v a), (Z.ltb_spec a (v + Z.of_nat (Z.to_nat len))); cbn; done || lia.
Qed.

Lemma kmemset_byte_mem m v val len : byte_mem m → byte_mem (kmemset m v val len).
Proof.
  intros H a. unfold kmemset. rewrite kmemset_loop_spec.
  destruct (_ && _); [apply u8_range|apply H].
Qed.

Lemma kstrncpy_frame len m p1 p2 a :
  (a < p1 ∨ p1 + Z.of_nat len ≤ a) → fst (kstrncpy_loop len m p1 p2) a = m a.
Proof.
  revert m p1 p2. induction len as [|len IH]; intros m p1 p2 H; cbn; [done|].
  rewrite IH by lia. apply store8_ne. lia.
Qed.

Lemma kstrncpy_loop_in len m p1 p2 i :
  byte_mem m → (p1 + Z.of_nat len ≤ p2 ∨ p2 + Z.of_nat len ≤ p1) →
  0 ≤ i < Z.of_nat len → fst (kstrncpy_loop len m p1 p2) (p1 + i) = m (p2 + i).
Proof.
  revert m p1 p2 i. induction len as [|len IH]; intros m p1 p2 i Hm Hd Hi; [lia|].
  cbn [kstrncpy_loop]. destruct (Z.eq_dec i 0) as [->|Hi0].
  - rewrite kstrncpy_frame by lia. rewrite !Z.add_0_r, store8_eq.
    apply u8_small, Hm.
  - replace (p1 + i) with (p1 + 1 + (i - 1)) by lia. rewrite IH by (auto with mem; lia).
    rewrite store8_ne by lia. f_equal. lia.
Qed.

Lemma kmemcpy_in m v1 v2 len i :
  byte_mem m → (v1 + len ≤ v2 ∨ v2 + len ≤ v1) → 0 ≤ i < len →
  fst (kmemcpy m v1 v2 len) (v1 + i) = m (v2 + i).
Proof. intros. apply kstrncpy_loop_in; [done|lia|lia]. Qed.

Lemma kmemcpy_out m v1 v2 len a :
  (a < v1 ∨ v1 + Z.max 0 len ≤ a) → fst (kmemcpy m v1 v2 len) a = m a.
Proof. intros. apply kstrncpy_frame. lia. Qed.

Lemma kstrncpy_byte_mem len m p1 p2 :
  byte_mem m → byte_mem (fst (kstrncpy_loop len m p1 p2)).
Proof.
  revert m p1 p2. induction len as [|len IH]; intros m p1 p2 H; cbn; [done|].
  apply IH. by apply byte_mem_store8.
Qed.

Lemma kmemcpy_byte_mem m v1 v2 len : byte_mem m → byte_mem (fst (kmemcpy m v1 v2 len)).
Proof. apply kstrncpy_byte_mem. Qed.

Lemma read_bytes_kmemcpy m v1 v2 len :
  byte_mem m → (v1 + Z.of_nat len ≤ v2 ∨ v2 + Z.of_nat len ≤ v1) →
  read_bytes (fst (kmemcpy m v1 v2 (Z.of_nat len))) v1 len = read_bytes m v2 len.
Proof.
  intros Hm Hd. apply list_eq. intros i. destruct (decide (i < len)%nat).
  - rewrite !read_bytes_lookup by done. f_equal. apply kmemcpy_in; auto; lia.
  - rewrite !lookup_ge_None_2; rewrite ?length_read_bytes; try done; lia.
Qed.

Lemma kstrncmp_loop_spec len m p1 p2 :
  kstrncmp_loop len m p1 p2 = true ↔ read_bytes m p1 len = read_bytes m p2 len.
Proof.
  revert p1 p2. induction len as [|len IH]; intros p1 p2; cbn; [done|].
  destruct (Z.eqb_spec (m p1) (m p2)) as [E|E]; cbn.
  - rewrite IH, E. split; [by intros ->|by intros [= ->]].
  - split; [done|]. by intros [= ? _].
Qed.

Lemma cstring_cons m p c s : cstring m p (c :: s) → m p = c ∧ c ≠ 0 ∧ cstring m (p + 1) s.
Proof.
  intros (H1 & H2 & H3). cbn in H1. injection H1 as Hc Hs. inversion H3; subst.
  split; [done|]. split; [done|]. split; [done|]. split; [|done].
  rewrite <- H2. f_equal. cbn [length]. lia.
Qed.

Lemma cstring_nil m p : cstring m p [] → m p = 0.
Proof. intros (_ & H & _). by rewrite Z.add_0_r in H. Qed.

Lemma kstrlen_loop_spec fuel m p s acc :
  cstring m p s → (length s < fuel)%nat →
  kstrlen_loop fuel m p acc = Some (acc + Z.of_nat (length s)).
Proof.
  revert p s acc. induction fuel as [|fuel IH]; intros p s acc Hs Hf; [lia|].
  cbn [kstrlen_loop]. destruct s as [|c s].
  - apply cstring_nil in Hs. rewrite Hs. cbn. f_equal. lia.
  - destruct (cstring_cons _ _ _ _ Hs) as (-> & Hc & Ht).
    rewrite (proj2 (Z.eqb_neq c 0) Hc). rewrite (IH _ s); [|done|cbn in Hf; lia].
    f_equal. cbn [length]. lia.
Qed.

Lemma kstrlen_cstring fuel m p s :
  cstring m p s → (length s < fuel)%nat → kstrlen fuel m p = Some (Z.of_nat (length s)).
Proof. intros H Hf. unfold kstrlen. rewrite (kstrlen_loop_spec _ _ _ s); done. Qed.

Lemma kstrncmp_loop_prefix m p1 p2 s1 s2 :
  cstring m p1 s1 → cstring m p2 s2 →
  kstrncmp_loop (length s1) m p1 p2 = true ↔ s1 `prefix_of` s2.
Proof.
  revert p1 p2 s2. induction s1 as [|c s1 IH]; intros p1 p2 s2 H1 H2; cbn [length kstrncmp_loop].
  - split; [intros _; apply prefix_nil|done].
  - destruct (cstring_cons _ _ _ _ H1) as (-> & Hc & H1').
    destruct s2 as [|d s2].
    + rewrite (cstring_nil _ _ H2), (proj2 (Z.eqb_neq c 0) Hc). cbn.
      split; [done|]. intros H. by apply prefix_nil_not in H.
    + destruct (cstring_cons _ _ _ _ H2) as (-> & _ & H2').
      destruct (Z.eqb_spec c d) as [->|E]; cbn.
      * rewrite (IH (p1 + 1) (p2 + 1) s2 H1' H2'). split; [by apply prefix_cons|].
        apply prefix_cons_inv_2.
      * split; [done|]. intros H. by apply prefix_cons_inv_1 in H.
Qed.

(** On two NUL-terminated strings [kstrcmp] decides whether the first is a
    prefix of the second, not whether they are equal. *)
Lemma kstrcmp_decides_prefix fuel m p1 p2 s1 s2 :
  cstring m p1 s1 → cstring m p2 s2 → (length s1 < fuel)%nat →
  kstrcmp fuel m p1 p2 = Some (bool_decide (s1 `prefix_of` s2)).
Proof.
  intros H1 H2 Hf. unfold kstrcmp. rewrite (kstrlen_cstring _ _ _ s1) by done. cbn.
  rewrite Z.eqb_refl. cbn. rewrite Nat2Z.id. f_equal.
  apply eq_bool_prop_intro. rewrite bool_decide_spec, <- (kstrncmp_loop_prefix m p1 p2 s1 s2 H1 H2).
  apply Is_true_true.
Qed.

(** Inside the moved range the destination holds the old source bytes. *)
Lemma kmemmove_loop_frame len m p1 p2 a :
  (a < p1 ∨ p1 + Z.of_nat len ≤ a) → (a < p2 ∨ p2 + Z.of_nat len ≤ a) →
  kmemmove_loop len m p1 p2 a = m a.
Proof.
  revert m p1 p2. induction len as [|len IH]; intros m p1 p2 H1 H2; cbn; [done|].
  rewrite IH by lia. rewrite !store8_ne by lia. done.
Qed.

Lemma kmemmove_loop_in len m p1 p2 i :
  byte_mem m → (p1 + Z.of_nat len ≤ p2 ∨ p2 + Z.of_nat len ≤ p1) →
  0 ≤ i < Z.of_nat len →
  kmemmove_loop len m p1 p2 (p1 + i) = m (p2 + i) ∧ kmemmove_loop len m p1 p2 (p2 + i) = 0.
Proof.
  revert m p1 p2 i. induction len as [|len IH]; intros m p1 p2 i Hm Hd Hi; [lia|].
  cbn [kmemmove_loop]. set (m' := store8 (store8 m p1 (m p2)) p2 0).
  assert (Hm' : byte_mem m') by (unfold m'; auto with mem).
  destruct (Z.eq_dec i 0) as [->|Hi0].
  - rewrite !kmemmove_loop_frame by lia. unfold m'. rewrite !Z.add_0_r.
    rewrite (store8_ne _ p2) by lia. rewrite !store8_eq. split; [apply u8_small, Hm|done].
  - destruct (IH m' (p1 + 1) (p2 + 1) (i - 1) Hm' ltac:(lia) ltac:(lia)) as [E1 E2].
    replace (p1 + 1 + (i - 1)) with (p1 + i) in E1 by lia.
    replace (p2 + 1 + (i - 1)) with (p2 + i) in E1, E2 by lia.
    rewrite E1, E2. split; [|done]. unfold m'. by rewrite !store8_ne by lia.
Qed.

Lemma kmstrlen_loop_spec fuel m p max s acc :
  cstring m p s → (length s < fuel)%nat →
  kmstrlen_loop fuel m p max acc =
  Some (if acc + Z.of_nat (length s) <=? Z.max acc (max + 1)
        then acc + Z.of_nat (length s) else -1).
Proof.
  revert p s acc. induction fuel as [|fuel IH]; intros p s acc Hs Hf; [lia|].
  cbn [kmstrlen_loop]. destruct s as [|c s].
  - apply cstring_nil in Hs. rewrite Hs. cbn [length].
    destruct (Z.leb_spec (acc + Z.of_nat 0) (Z.max acc (max + 1))); cbn; f_equal; lia.
  - destruct (cstring_cons _ _ _ _ Hs) as (-> & Hc & Ht).
    rewrite (proj2 (Z.eqb_neq c 0) Hc). cbn [length] in *.
    rewrite Z.gtb_ltb. destruct (Z.ltb_spec max acc).
    + destruct (Z.leb_spec (acc + Z.of_nat (S (length s))) (Z.max acc (max + 1))); [lia|done].
    + rewrite (IH _ s) by (done || lia).
      destruct (Z.leb_spec (acc + 1 + Z.of_nat (length s)) (Z.max (acc + 1) (max + 1))),
        (Z.leb_spec (acc + Z.of_nat (S (length s))) (Z.max acc (max + 1)));
        (done || (f_equal; lia) || lia).
Qed.

(** ** Properties *)

(** [kstrcmp] on two C strings returns a boolean (the scan terminates), and
    that boolean is true exactly when the first string is a prefix of the
    second: the length of the second argument plays no role. *)
Theorem kstrcmp_is_prefix_test fuel m p1 p2 s1 s2 :
  cstring m p1 s1 → cstring m p2 s2 → (length s1 < fuel)%nat →
  ∃ b, kstrcmp fuel m p1 p2 = Some b ∧ (b = true ↔ ∃ t, s2 = s1 ++ t).
Proof.
  intros H1 H2 Hf. exists (bool_decide (s1 `prefix_of` s2)).
  split; [by apply kstrcmp_decides_prefix|]. by rewrite bool_decide_eq_true.
Qed.

Definition utils_example_mem : mem :=
  write_bytes (write_bytes (fun _ => 0) 100 [116; 116; 121]) 200 [116; 116; 121; 48].

Lemma kstrcmp_is_prefix_test_witness :
  ∃ b, kstrcmp 10 utils_example_mem 100 200 = Some b ∧
       (b = true ↔ ∃ t, [116; 116; 121; 48] = [116; 116; 121] ++ t).
Proof.
  apply (kstrcmp_is_prefix_test 10 utils_example_mem 100 200
           [116; 116; 121] [116; 116; 121; 48]).
  - split; [reflexivity|]. split; [reflexivity|]. repeat constructor; lia.
  - split; [reflexivity|]. split; [reflexivity|]. repeat constructor; lia.
  - cbn. lia.
Defined.

(** [kmemmove] between disjoint ranges leaves the old source bytes at the
    destination, zeroes the source, and touches nothing else. *)
Theorem kmemmove_moves m v1 v2 len :
  byte_mem m → 0 ≤ len → (v1 + len ≤ v2 ∨ v2 + len ≤ v1) →
  read_bytes (kmemmove m v1 v2 len) v1 (Z.to_nat len) = read_bytes m v2 (Z.to_nat len) ∧
  (∀ a, v2 ≤ a < v2 + len → kmemmove m v1 v2 len a = 0) ∧
  (∀ a, (a < v1 ∨ v1 + len ≤ a) → (a < v2 ∨ v2 + len ≤ a) → kmemmove m v1 v2 len a = m a).
Proof.
  intros Hm Hl Hd. unfold kmemmove. split; [|split].
  - apply list_eq. intros i. destruct (decide (i < Z.to_nat len)%nat).
    + rewrite !read_bytes_lookup by done. f_equal.
      apply kmemmove_loop_in; [done|lia|lia].
    + rewrite !lookup_ge_None_2; rewrite ?length_read_bytes; try done; lia.
  - intros a Ha. replace a with (v2 + (a - v2)) by lia.
    apply kmemmove_loop_in; [done|lia|lia].
  - intros a H1 H2. apply kmemmove_loop_frame; lia.
Qed.

Lemma kmemmove_moves_witness :
  read_bytes (kmemmove utils_example_mem 300 200 4) 300 4 = [116; 116; 121; 48].
Proof.
  change 4%nat with (Z.to_nat 4). rewrite (proj1 (kmemmove_moves utils_example_mem 300 200 4
    ltac:(intros a; unfold utils_example_mem; cbn [write_bytes];
          repeat apply byte_mem_store8; intros x; cbn; lia) ltac:(lia) ltac:(lia))).
  reflexivity.
Defined.

(** [kmstrlen] on a C string returns its length as long as it is at most
    one more than the limit, and -1 for every longer string. *)
Theorem kmstrlen_limit fuel m p max s :
  cstring m p s → 0 ≤ max → (length s < fuel)%nat →
  kmstrlen fuel m p max =
  Some (if Z.of_nat (length s) <=? max + 1 then Z.of_nat (length s) else -1).
Proof.
  intros Hs Hm Hf. unfold kmstrlen. rewrite (kmstrlen_loop_spec _ _ _ _ s) by done.
  rewrite !Z.add_0_l. by replace (Z.max 0 (max + 1)) with (max + 1) by lia.
Qed.

Lemma kmstrlen_limit_witness :
  kmstrlen 10 utils_example_mem 200 3 = Some 4 ∧ kmstrlen 10 utils_example_mem 200 2 = Some (-1).
Proof.
  assert (H : cstring utils_example_mem 200 [116; 116; 121; 48]).
  { split; [reflexivity|]. split; [reflexivity|]. repeat constructor; lia. }
  split.
  - exact (kmstrlen_limit 10 _ 200 3 _ H ltac:(lia) ltac:(cbn; lia)).
  - exact (kmstrlen_limit 10 _ 200 2 _ H ltac:(lia) ltac:(cbn; lia)).
Defined.
