(* ===== verification/Queue.v ===== *)
(** * kernel/include/kernel/queue.h: intrusive lists

    The LIST and STAILQ macros the kernel uses, at the level of the pointers
    they write.  Elements are non-zero addresses, [NULL] is 0, and the
    "address of a pointer field" ([le_prev], [stqh_last]) is a [slot]: the head's
    first-element field or the next field of an element.

    The refinement theorems at the end show that every sequence of operations on
    a well-formed list implements the same sequence on mathematical lists, which
    is what the scheduler, the VFS, devfs and the FAT node cache rely on. *)

From stdpp Require Import base list.
From Stdlib Require Import ZArith Lia.
From S2P Require Import Prelude.

(** The address of a pointer field. *)
Inductive slot : Type :=
| HeadSlot
| NextSlot (e : Z).

#[export] Instance slot_eq_dec : EqDecision slot.
Proof. solve_decision. Defined.

(** Pointer-valued and slot-valued structure fields, indexed by element. *)
Definition upd {A : Type} (f : Z → A) (e : Z) (v : A) : Z → A :=
  fun x => if x =? e then v else f x.

Lemma upd_eq {A} (f : Z → A) e v : upd f e v e = v.
Proof. unfold upd. by rewrite Z.eqb_refl. Qed.

Lemma upd_ne {A} (f : Z → A) e v x : x ≠ e → upd f e v x = f x.
Proof. intros H. unfold upd. by rewrite (proj2 (Z.eqb_neq x e) H). Qed.

(** The last slot of a chain of elements entered through slot [s]. *)
Fixpoint end_slot (s : slot) (l : list Z) : slot :=
  match l with
  | [] => s
  | e :: l' => end_slot (NextSlot e) l'
  end.

(** ** Doubly linked lists *)

Module LIST.

Record state := mk {
  lh_first : Z;
  le_next : Z → Z;
  le_prev : Z → slot;
}.

(** Read and write through the address of a pointer field. *)
Definition deref (st : state) (s : slot) : Z :=
  match s with
  | HeadSlot => lh_first st
  | NextSlot e => le_next st e
  end.

Definition assign (st : state) (s : slot) (v : Z) : state :=
  match s with
  | HeadSlot => mk v (le_next st) (le_prev st)
  | NextSlot e => mk (lh_first st) (upd (le_next st) e v) (le_prev st)
  end.

Definition set_prev (st : state) (e : Z) (s : slot) : state :=
  mk (lh_first st) (le_next st) (upd (le_prev st) e s).

Definition LIST_INIT (st : state) : state := assign st HeadSlot 0.

Definition LIST_INSERT_HEAD (st : state) (elm : Z) : state :=
  let st1 := assign st (NextSlot elm) (lh_first st) in
  let st2 := if negb (le_next st1 elm =? 0)
             then set_prev st1 (lh_first st1) (NextSlot elm) else st1 in
  let st3 := assign st2 HeadSlot elm in
  set_prev st3 elm HeadSlot.

Definition LIST_REMOVE (st : state) (elm : Z) : state :=
  let st1 := if negb (le_next st elm =? 0)
             then set_prev st (le_next st elm) (le_prev st elm) else st in
  assign st1 (le_prev st1 elm) (le_next st1 elm).

(** The elements a [LIST_FOREACH] visits from [var] on. *)
Fixpoint LIST_FOREACH (fuel : nat) (st : state) (var : Z) : option (list Z) :=
  if var =? 0 then Some []
  else match fuel with
       | O => None
       | S fuel' => cons var <$> LIST_FOREACH fuel' st (le_next st var)
       end.

Definition LIST_EMPTY (st : state) : bool := lh_first st =? 0.
Definition LIST_FIRST (st : state) : Z := lh_first st.
Definition LIST_NEXT (st : state) (elm : Z) : Z := le_next st elm.

(** Slot [s] starts a segment holding exactly the elements [l]. *)
Fixpoint seg (st : state) (s : slot) (l : list Z) : Prop :=
  match l with
  | [] => True
  | e :: l' => deref st s = e ∧ e ≠ 0 ∧ le_prev st e = s ∧ seg st (NextSlot e) l'
  end.

(** The list head represents the sequence [l]. *)
Definition rep (st : state) (l : list Z) : Prop :=
  NoDup l ∧ seg st HeadSlot l ∧ deref st (end_slot HeadSlot l) = 0.

(** The operations as data, their execution, and their abstract meaning. *)
Inductive op : Type :=
| InsertHead (e : Z)
| Remove (e : Z).

Definition exec (st : state) (o : op) : state :=
  match o with
  | InsertHead e => LIST_INSERT_HEAD st e
  | Remove e => LIST_REMOVE st e
  end.

Fixpoint remove_first (e : Z) (l : list Z) : list Z :=
  match l with
  | [] => []
  | x :: l' => if x =? e then l' else x :: remove_first e l'
  end.

(** The operation is legal on [l] and turns it into the result. *)
Definition spec (l : list Z) (o : op) : option (list Z) :=
  match o with
  | InsertHead e => if decide (e ≠ 0 ∧ e ∉ l) then Some (e :: l) else None
  | Remove e => if decide (e ∈ l) then Some (remove_first e l) else None
  end.

Fixpoint spec_all (l : list Z) (os : list op) : option (list Z) :=
  match os with
  | [] => Some l
  | o :: os' => spec l o ≫= fun l' => spec_all l' os'
  end.

End LIST.

(** ** Singly linked tail queues *)

Module STAILQ.

Record state := mk {
  stqh_first : Z;
  stqh_last : slot;
  stqe_next : Z → Z;
}.

Definition deref (st : state) (s : slot) : Z :=
  match s with
  | HeadSlot => stqh_first st
  | NextSlot e => stqe_next st e
  end.

Definition assign (st : state) (s : slot) (v : Z) : state :=
  match s with
  | HeadSlot => mk v (stqh_last st) (stqe_next st)
  | NextSlot e => mk (stqh_first st) (stqh_last st) (upd (stqe_next st) e v)
  end.

Definition set_last (st : state) (s : slot) : state :=
  mk (stqh_first st) s (stqe_next st).

Definition STAILQ_INIT (st : state) : state := set_last (assign st HeadSlot 0) HeadSlot.

Definition STAILQ_INSERT_HEAD (st : state) (elm : Z) : state :=
  let st1 := assign st (NextSlot elm) (stqh_first st) in
  let st2 := if stqe_next st1 elm =? 0 then set_last st1 (NextSlot elm) else st1 in
  assign st2 HeadSlot elm.

Definition STAILQ_INSERT_TAIL (st : state) (elm : Z) : state :=
  let st1 := assign st (NextSlot elm) 0 in
  let st2 := assign st1 (stqh_last st1) elm in
  set_last st2 (NextSlot elm).

Definition STAILQ_REMOVE_HEAD (st : state) : state :=
  let st1 := assign st HeadSlot (stqe_next st (stqh_first st)) in
  if stqh_first st1 =? 0 then set_last st1 HeadSlot else st1.

Definition STAILQ_EMPTY (st : state) : bool := stqh_first st =? 0.
Definition STAILQ_FIRST (st : state) : Z := stqh_first st.

Fixpoint seg (st : state) (s : slot) (l : list Z) : Prop :=
  match l with
  | [] => True
  | e :: l' => deref st s = e ∧ e ≠ 0 ∧ seg st (NextSlot e) l'
  end.

Definition rep (st : state) (l : list Z) : Prop :=
  NoDup l ∧ seg st HeadSlot l ∧ deref st (end_slot HeadSlot l) = 0 ∧
  stqh_last st = end_slot HeadSlot l.

Inductive op : Type :=
| InsertHead (e : Z)
| InsertTail (e : Z)
| RemoveHead.

Definition exec (st : state) (o : op) : state :=
  match o with
  | InsertHead e => STAILQ_INSERT_HEAD st e
  | InsertTail e => STAILQ_INSERT_TAIL st e
  | RemoveHead => STAILQ_REMOVE_HEAD st
  end.

Definition spec (l : list Z) (o : op) : option (list Z) :=
  match o with
  | InsertHead e => if decide (e ≠ 0 ∧ e ∉ l) then Some (e :: l) else None
  | InsertTail e => if decide (e ≠ 0 ∧ e ∉ l) then Some (l ++ [e]) else None
  | RemoveHead => match l with [] => None | _ :: l' => Some l' end
  end.

Fixpoint spec_all (l : list Z) (os : list op) : option (list Z) :=
  match os with
  | [] => Some l
  | o :: os' => spec l o ≫= fun l' => spec_all l' os'
  end.

End STAILQ.

(** ** Lemmas on doubly linked lists *)

Module LISTFacts.
Import LIST.

Lemma end_slot_app s l1 l2 : end_slot s (l1 ++ l2) = end_slot (end_slot s l1) l2.
Proof. revert s. induction l1 as [|e l1 IH]; intros s; cbn; [done|apply IH]. Qed.

Lemma end_slot_in s l : end_slot s l = s ∨ ∃ e, e ∈ l ∧ end_slot s l = NextSlot e.
Proof.
  revert s. induction l as [|e l IH]; intros s; cbn; [by left|]. right.
  destruct (IH (NextSlot e)) as [->|(x & Hx & ->)].
  - exists e. split; [apply list_elem_of_here|done].
  - exists x. split; [by apply list_elem_of_further|done].
Qed.

Lemma seg_app st s l1 l2 : seg st s (l1 ++ l2) ↔ seg st s l1 ∧ seg st (end_slot s l1) l2.
Proof.
  revert s. induction l1 as [|e l1 IH]; intros s; cbn; [tauto|]. rewrite IH. tauto.
Qed.

(** A segment only depends on the slot it starts at and on the fields of its
    own elements. *)
Lemma seg_ext st st' s l :
  (l ≠ [] → deref st' s = deref st s) →
  (∀ e, e ∈ l → le_next st' e = le_next st e ∧ le_prev st' e = le_prev st e) →
  seg st s l → seg st' s l.
Proof.
  revert s. induction l as [|e l IH]; intros s H1 H2 H; cbn in *; [done|].
  destruct H as (He & Hn & Hp & Ht). split; [by rewrite H1|]. split; [done|].
  split; [rewrite (proj2 (H2 e (list_elem_of_here _ _))); done|].
  apply IH; [|intros x Hx; apply H2; by apply list_elem_of_further|done].
  intros _. apply (proj1 (H2 e (list_elem_of_here _ _))).
Qed.

(** Where the element after slot [s] hangs from. *)
Lemma seg_cons_inv st s e l :
  seg st s (e :: l) → deref st s = e ∧ e ≠ 0 ∧ le_prev st e = s ∧ seg st (NextSlot e) l.
Proof. done. Qed.

Lemma seg_nonzero st s l e : seg st s l → e ∈ l → e ≠ 0.
Proof.
  revert s. induction l as [|x l IH]; intros s H Hin; [by apply elem_of_nil in Hin|].
  apply elem_of_cons in Hin as [->|Hin]; [apply H|]. eapply IH; [apply H|done].
Qed.

(** Moving the entry slot of a segment: the first element's back pointer. *)
Lemma seg_reslot st st' s s' l :
  seg st s l → deref st' s' = deref st s →
  (∀ e, e ∈ l → le_next st' e = le_next st e) →
  (∀ e l', l = e :: l' → le_prev st' e = s') →
  (∀ e0 e l', l = e0 :: l' → e ∈ l' → le_prev st' e = le_prev st e) →
  seg st' s' l.
Proof.
  intros H Hd Hn Hp1 Hp2. destruct l as [|e l]; [done|].
  destruct H as (He & Hz & Hp & Ht). cbn. split; [by rewrite Hd|]. split; [done|].
  split; [by eapply Hp1|]. apply (seg_ext st); [| |done].
  - intros _. apply (Hn e). apply list_elem_of_here.
  - intros x Hx. split; [apply Hn; by apply list_elem_of_further|by eapply Hp2].
Qed.

Lemma deref_end_ext st st' s l :
  deref st' s = deref st s → (∀ e, e ∈ l → le_next st' e = le_next st e) →
  deref st' (end_slot s l) = deref st (end_slot s l).
Proof.
  intros Hs Hn. destruct (end_slot_in s l) as [->|(e & He & ->)]; [done|]. by apply Hn.
Qed.

(** What the two list operations do to each field. *)
Lemma insert_head_first st e : lh_first (LIST_INSERT_HEAD st e) = e.
Proof. unfold LIST_INSERT_HEAD. by destruct (negb _). Qed.

Lemma insert_head_next st e x :
  le_next (LIST_INSERT_HEAD st e) x = if x =? e then lh_first st else le_next st x.
Proof. unfold LIST_INSERT_HEAD. by destruct (negb _). Qed.

Lemma insert_head_prev st e x :
  le_prev (LIST_INSERT_HEAD st e) x =
  if x =? e then HeadSlot
  else if negb (lh_first st =? 0) && (x =? lh_first st) then NextSlot e else le_prev st x.
Proof.
  unfold LIST_INSERT_HEAD. cbn. rewrite upd_eq. destruct (lh_first st =? 0); cbn; [done|].
  unfold upd. done.
Qed.

Lemma remove_prev st e x :
  le_prev (LIST_REMOVE st e) x =
  if negb (le_next st e =? 0) && (x =? le_next st e) then le_prev st e else le_prev st x.
Proof.
  unfold LIST_REMOVE. destruct (le_next st e =? 0); cbn.
  - by destruct (le_prev st e).
  - by destruct (upd (le_prev st) (le_next st e) (le_prev st e) e).
Qed.

(** Removal writes the removed element's successor through its back pointer,
    provided the element is not its own successor. *)
Lemma remove_deref st e s :
  le_next st e ≠ e →
  deref (LIST_REMOVE st e) s = if decide (s = le_prev st e) then le_next st e else deref st s.
Proof.
  intros He. unfold LIST_REMOVE.
  set (st1 := if negb (le_next st e =? 0) then _ else st).
  assert (E1 : le_prev st1 e = le_prev st e).
  { unfold st1. destruct (negb _); [|done]. cbn. apply upd_ne. auto. }
  assert (E2 : ∀ x, deref st1 x = deref st x).
  { intros x. unfold st1. by destruct (negb _), x. }
  change (le_next st1 e) with (deref st1 (NextSlot e)). rewrite E1, E2. clearbody st1.
  destruct (le_prev st e) as [|a] eqn:Ea, s as [|b]; cbn; try done.
  - apply (E2 (NextSlot b)).
  - apply (E2 HeadSlot).
  - unfold upd. destruct (Z.eqb_spec b a) as [->|Hne].
    + by rewrite decide_True.
    + rewrite decide_False by congruence. apply (E2 (NextSlot b)).
Qed.

Lemma rep_insert_head st l e :
  rep st l → e ≠ 0 → e ∉ l → rep (LIST_INSERT_HEAD st e) (e :: l).
Proof.
  intros (Hnd & Hseg & Hend) He Hin.
  assert (Hnxt : ∀ x, x ∈ l → le_next (LIST_INSERT_HEAD st e) x = le_next st x).
  { intros x Hx. rewrite insert_head_next. destruct (Z.eqb_spec x e); [congruence|done]. }
  assert (Hent : deref (LIST_INSERT_HEAD st e) (NextSlot e) = deref st HeadSlot).
  { cbn [deref]. by rewrite insert_head_next, Z.eqb_refl. }
  split; [by constructor|]. split.
  - cbn [seg]. split; [apply insert_head_first|]. split; [done|].
    split; [by rewrite insert_head_prev, Z.eqb_refl|].
    apply (seg_reslot st _ HeadSlot); [done|done|done| |].
    + intros x l' ->. destruct Hseg as (Hx & Hx0 & _). cbn in Hx. rewrite insert_head_prev.
      destruct (Z.eqb_spec x e) as [->|_]; [by destruct Hin; left|].
      by rewrite Hx, (proj2 (Z.eqb_neq x 0) Hx0), Z.eqb_refl.
    + intros x0 x l' -> Hx. destruct Hseg as (Hx1 & _). cbn in Hx1. rewrite insert_head_prev.
      destruct (Z.eqb_spec x e) as [->|_]; [by destruct Hin; right|].
      apply NoDup_cons in Hnd as [Hnd _]. rewrite Hx1.
      destruct (Z.eqb_spec x x0) as [->|_]; [done|]. by rewrite andb_false_r.
  - destruct l as [|y l]; cbn [end_slot] in *; [by rewrite Hent|].
    rewrite <- Hend. apply deref_end_ext.
    + apply (Hnxt y). by left.
    + intros x Hx. apply Hnxt. by right.
Qed.

(** The chain of a represented list around one of its elements. *)
Lemma rep_middle st l1 e l2 :
  rep st (l1 ++ e :: l2) →
  le_prev st e = end_slot HeadSlot l1 ∧ e ≠ 0 ∧
  deref st (end_slot HeadSlot l1) = e ∧
  seg st HeadSlot l1 ∧ seg st (NextSlot e) l2 ∧ deref st (end_slot (NextSlot e) l2) = 0 ∧
  NoDup (l1 ++ l2) ∧ (e ∉ l1) ∧ e ∉ l2.
Proof.
  intros (Hnd & Hseg & Hend). rewrite end_slot_app in Hend. cbn in Hend.
  apply seg_app in Hseg as (H1 & H2 & H3 & H4 & H5).
  apply NoDup_app in Hnd as (N1 & N2 & N3). apply NoDup_cons in N3 as [N3 N4].
  split; [done|]. split; [done|]. split; [done|]. split; [done|]. split; [done|].
  split; [done|]. split; [|split; [|done]].
  - apply NoDup_app. split; [done|]. split; [|done]. intros x Hx Hx2. apply (N2 x Hx). by right.
  - intros Hx. apply (N2 e Hx). by left.
Qed.

Lemma next_of_middle st e l2 :
  seg st (NextSlot e) l2 → deref st (end_slot (NextSlot e) l2) = 0 →
  e ≠ 0 → e ∉ l2 → le_next st e ≠ e.
Proof.
  intros H Hend He Hin. destruct l2 as [|y l2]; cbn in *.
  - congruence.
  - destruct H as (-> & _). intros ->. apply Hin. by left.
Qed.

Lemma end_slot_fresh s l : l ≠ [] → (∀ x, x ∈ l → s ≠ NextSlot x) → end_slot s l ≠ s.
Proof.
  intros Hl Hs. destruct l as [|e l]; [done|]. cbn.
  destruct (end_slot_in (NextSlot e) l) as [->|(y & Hy & ->)];
    intros E; symmetry in E; revert E; apply Hs; [by left|by right].
Qed.

(** Only the pointer at the end of the segment may change. *)
Lemma seg_ext_end st st' s l :
  NoDup l → (∀ x, x ∈ l → s ≠ NextSlot x) →
  (∀ s', s' ≠ end_slot s l → deref st' s' = deref st s') →
  (∀ e, e ∈ l → le_prev st' e = le_prev st e) →
  seg st s l → seg st' s l.
Proof.
  revert s. induction l as [|e l IH]; intros s Hnd Hs Hd Hp H; [done|].
  destruct H as (He & Hz & Hpe & Ht). apply NoDup_cons in Hnd as [Hn Hnd]. cbn.
  split; [rewrite Hd; [done|intros E; symmetry in E; revert E; by apply end_slot_fresh]|].
  split; [done|]. split; [rewrite Hp; [done|by left]|].
  apply IH; [done| |done|intros x Hx; apply Hp; by right|done].
  intros x Hx [= ->]. done.
Qed.

(** The element an element points to is the first of the remaining segment. *)
Lemma next_in_seg st e l2 :
  seg st (NextSlot e) l2 → deref st (end_slot (NextSlot e) l2) = 0 →
  (l2 = [] ∧ le_next st e = 0) ∨ (∃ y l', l2 = y :: l' ∧ le_next st e = y ∧ y ≠ 0).
Proof.
  intros H Hend. destruct l2 as [|y l2]; [by left|right].
  exists y, l2. split; [done|]. split; apply H.
Qed.

Lemma rep_remove st l1 e l2 : rep st (l1 ++ e :: l2) → rep (LIST_REMOVE st e) (l1 ++ l2).
Proof.
  intros H. destruct (rep_middle _ _ _ _ H)
    as (Hp & He & Hd & S1 & S2 & Hend & Hnd & N1 & N2).
  pose proof (next_of_middle _ _ _ S2 Hend He N2) as Hne.
  assert (Hdr := fun s => remove_deref st e s Hne). rewrite Hp in Hdr.
  apply NoDup_app in Hnd as (D1 & D12 & D2).
  assert (Hsep : ∀ x, x ∈ l2 → NextSlot x ≠ end_slot HeadSlot l1).
  { intros x Hx E. destruct (end_slot_in HeadSlot l1) as [E2|(y & Hy & E2)];
      rewrite E2 in E; [done|]. injection E as ->. by apply (D12 y). }
  assert (Hprev : ∀ x, x ≠ le_next st e → le_prev (LIST_REMOVE st e) x = le_prev st x).
  { intros x Hx. rewrite remove_prev, (proj2 (Z.eqb_neq _ _) Hx). by rewrite andb_false_r. }
  assert (Hnx : ∀ x, x ∈ l2 → le_next (LIST_REMOVE st e) x = le_next st x).
  { intros x Hx. rewrite (Hdr (NextSlot x) : le_next _ x = _). rewrite decide_False; auto. }
  assert (Hent : deref (LIST_REMOVE st e) (end_slot HeadSlot l1) = deref st (NextSlot e)).
  { rewrite Hdr. by rewrite decide_True. }
  pose proof (next_in_seg _ _ _ S2 Hend) as Hcase.
  split; [by apply NoDup_app|]. split.
  - apply seg_app. split.
    + apply (seg_ext_end st); [done|done| | |done].
      * intros s' Hs'. rewrite Hdr. by rewrite decide_False.
      * intros x Hx. apply Hprev. intros ->. destruct Hcase as [[-> Hc]|(y & l' & -> & Hc & Hy)].
        -- rewrite Hc in Hx. by apply (seg_nonzero _ _ _ _ S1) in Hx.
        -- rewrite Hc in Hx. apply (D12 y Hx). by left.
    + apply (seg_reslot st _ (NextSlot e)); [done|done|done| |].
      * intros y l' ->. destruct S2 as (Hy & Hy0 & _). cbn in Hy.
        rewrite remove_prev, Hy, (proj2 (Z.eqb_neq y 0) Hy0), Z.eqb_refl. done.
      * intros y x l' -> Hx. apply Hprev. destruct S2 as (Hy & _). cbn in Hy. rewrite Hy.
        intros ->. apply NoDup_cons in D2 as [D2 _]. done.
  - rewrite end_slot_app. destruct l2 as [|y l2]; cbn [end_slot] in *; [by rewrite Hent|].
    rewrite <- Hend. apply deref_end_ext; [apply (Hnx y); by left|].
    intros x Hx. apply Hnx. by right.
Qed.

Lemma remove_first_middle e l1 l2 : e ∉ l1 → remove_first e (l1 ++ e :: l2) = l1 ++ l2.
Proof.
  induction l1 as [|x l1 IH]; intros H; cbn.
  - by rewrite Z.eqb_refl.
  - destruct (Z.eqb_spec x e) as [->|_]; [by destruct H; left|].
    rewrite IH; [done|]. intros Hx. apply H. by right.
Qed.

Lemma rep_exec st l o l' : rep st l → spec l o = Some l' → rep (exec st o) l'.
Proof.
  intros Hr Hs. destruct o as [e|e]; cbn in *; case_decide as Hc; simplify_eq.
  - apply rep_insert_head; tauto.
  - apply list_elem_of_split in Hc as (l1 & l2 & ->).
    pose proof (rep_middle _ _ _ _ Hr) as (_ & _ & _ & _ & _ & _ & _ & N1 & _).
    rewrite remove_first_middle by done. by apply rep_remove.
Qed.

Lemma rep_exec_all os st l l' :
  rep st l → spec_all l os = Some l' → rep (fold_left exec os st) l'.
Proof.
  revert st l. induction os as [|o os IH]; intros st l Hr Hs; cbn in *; [by simplify_eq|].
  destruct (spec l o) as [l1|] eqn:E; [|done]. cbn in Hs.
  eapply IH; [|done]. by eapply rep_exec.
Qed.

Lemma foreach_seg fuel st s l :
  seg st s l → deref st (end_slot s l) = 0 → (length l ≤ fuel)%nat →
  LIST_FOREACH fuel st (deref st s) = Some l.
Proof.
  revert s fuel. induction l as [|e l IH]; intros s fuel H Hend Hf; cbn in Hend.
  - rewrite Hend. by destruct fuel.
  - destruct H as (He & Hz & _ & Ht). rewrite He. destruct fuel as [|fuel]; [cbn in Hf; lia|].
    cbn [LIST_FOREACH]. rewrite (proj2 (Z.eqb_neq e 0) Hz).
    pose proof (IH (NextSlot e) fuel Ht Hend ltac:(cbn in Hf; lia)) as E. cbn [deref] in E.
    by rewrite E.
Qed.

Lemma rep_init st : rep (LIST_INIT st) [].
Proof. split; [constructor|]. done. Qed.

End LISTFacts.

(** ** Lemmas on tail queues *)

Module STAILQFacts.
Import STAILQ.

Lemma sq_seg_app st s l1 l2 : seg st s (l1 ++ l2) ↔ seg st s l1 ∧ seg st (end_slot s l1) l2.
Proof.
  revert s. induction l1 as [|e l1 IH]; intros s; cbn; [tauto|]. rewrite IH. tauto.
Qed.

Lemma sq_seg_ext_end st st' s l :
  NoDup l → (∀ x, x ∈ l → s ≠ NextSlot x) →
  (∀ s', s' ≠ end_slot s l → (s' = s ∨ ∃ x, x ∈ l ∧ s' = NextSlot x) →
     deref st' s' = deref st s') →
  seg st s l → seg st' s l.
Proof.
  revert s. induction l as [|e l IH]; intros s Hnd Hs Hd H; [done|].
  destruct H as (He & Hz & Ht). apply NoDup_cons in Hnd as [Hn Hnd]. cbn.
  split; [rewrite Hd; [done| |by left];
    intros E; symmetry in E; revert E; by apply LISTFacts.end_slot_fresh|].
  split; [done|]. apply IH; [done| | |done].
  - intros x Hx [= ->]. done.
  - intros s' Hs' Hin. apply Hd; [done|]. right.
    destruct Hin as [->|(x & Hx & ->)]; eexists; (split; [|done]); [by left|by right].
Qed.

Lemma sq_rep_insert_tail st l e :
  rep st l → e ≠ 0 → e ∉ l → rep (STAILQ_INSERT_TAIL st e) (l ++ [e]).
Proof.
  intros (Hnd & Hseg & Hend & Hlast) He Hin.
  assert (Hes : end_slot HeadSlot l ≠ NextSlot e).
  { destruct (LISTFacts.end_slot_in HeadSlot l) as [->|(y & Hy & ->)]; congruence. }
  assert (Hd : ∀ s, deref (STAILQ_INSERT_TAIL st e) s =
    if decide (s = end_slot HeadSlot l) then e
    else if decide (s = NextSlot e) then 0 else deref st s).
  { intros s. unfold STAILQ_INSERT_TAIL. cbn [assign stqh_last]. rewrite Hlast.
    destruct (end_slot HeadSlot l) as [|a], s as [|b].
    - by rewrite decide_True.
    - rewrite decide_False by done. change (upd (stqe_next st) e 0 b =
        if decide (NextSlot b = NextSlot e) then 0 else stqe_next st b).
      case_decide as E; [injection E as ->; apply upd_eq|apply upd_ne; congruence].
    - by rewrite !decide_False by done.
    - change (upd (upd (stqe_next st) e 0) a e b =
        if decide (NextSlot b = NextSlot a) then e
        else if decide (NextSlot b = NextSlot e) then 0 else stqe_next st b).
      case_decide as E1; [injection E1 as ->; apply upd_eq|]. rewrite upd_ne by congruence.
      case_decide as E2; [injection E2 as ->; apply upd_eq|apply upd_ne; congruence]. }
  split; [|split; [|split]].
  - apply NoDup_app. split; [done|]. split; [|apply NoDup_singleton].
    intros x Hx ->%list_elem_of_singleton. done.
  - apply sq_seg_app. split.
    + apply (sq_seg_ext_end st); [done|done| |done].
      intros s' Hs' Hcase. rewrite Hd, decide_False by done. rewrite decide_False; [done|].
      destruct Hcase as [->|(x & Hx & ->)]; [done|]. intros [= ->]. done.
    + cbn. rewrite Hd, decide_True by done. done.
  - rewrite LISTFacts.end_slot_app. cbn [end_slot]. rewrite Hd.
    rewrite decide_False by congruence. by rewrite decide_True.
  - rewrite LISTFacts.end_slot_app. done.
Qed.

Lemma sq_rep_insert_head st l e :
  rep st l → e ≠ 0 → e ∉ l → rep (STAILQ_INSERT_HEAD st e) (e :: l).
Proof.
  intros (Hnd & Hseg & Hend & Hlast) He Hin.
  assert (Hd : ∀ s, deref (STAILQ_INSERT_HEAD st e) s =
    if decide (s = HeadSlot) then e
    else if decide (s = NextSlot e) then stqh_first st else deref st s).
  { intros s. unfold STAILQ_INSERT_HEAD.
    destruct s as [|b]; [by destruct (stqe_next _ e =? 0)|].
    rewrite decide_False by done.
    transitivity (upd (stqe_next st) e (stqh_first st) b); [by destruct (stqe_next _ e =? 0)|].
    destruct (decide (NextSlot b = NextSlot e)) as [[= ->]|Hne]; [apply upd_eq|].
    cbn [deref]. apply upd_ne. congruence. }
  assert (Hseg' : seg (STAILQ_INSERT_HEAD st e) (NextSlot e) l).
  { destruct l as [|y l]; [done|]. destruct Hseg as (Hy & Hy0 & Ht). cbn [seg].
    rewrite Hd, decide_False, decide_True by done. split; [done|]. split; [done|].
    apply NoDup_cons in Hnd as [Hn Hnd].
    apply (sq_seg_ext_end st); [done|intros x Hx [= ->]; done| |done].
    intros s' _ Hcase. rewrite Hd. rewrite !decide_False; [done| |];
      destruct Hcase as [->|(x & Hx & ->)]; try done; intros [= ->]; apply Hin;
      [by left|by right]. }
  split; [by constructor|]. split; [|split].
  - cbn [seg]. rewrite Hd, decide_True by done. done.
  - destruct l as [|y l]; cbn [end_slot] in *.
    + by rewrite Hd, decide_False, decide_True by done.
    + rewrite Hd. destruct (LISTFacts.end_slot_in (NextSlot y) l) as [E|(x & Hx & E)];
        rewrite E in *; (rewrite !decide_False; [done| |done]); intros [= ->]; apply Hin;
        [by left|by right].
  - unfold STAILQ_INSERT_HEAD. cbn. rewrite upd_eq. destruct l as [|y l].
    + cbn in Hend. by rewrite Hend.
    + destruct Hseg as (Hy & Hy0 & _). cbn in Hy. rewrite Hy, (proj2 (Z.eqb_neq y 0) Hy0).
      cbn. by rewrite Hlast.
Qed.

Lemma sq_rep_remove_head st e l : rep st (e :: l) → rep (STAILQ_REMOVE_HEAD st) l.
Proof.
  intros (Hnd & (He & Hz & Hseg) & Hend & Hlast). cbn in *.
  apply NoDup_cons in Hnd as [Hn Hnd].
  assert (Hd : ∀ s, deref (STAILQ_REMOVE_HEAD st) s =
    if decide (s = HeadSlot) then stqe_next st e else deref st s).
  { intros s. unfold STAILQ_REMOVE_HEAD. cbn. rewrite He. by destruct (_ =? 0), s. }
  split; [done|]. destruct l as [|y l].
  - cbn in *. split; [done|]. unfold STAILQ_REMOVE_HEAD. cbn. rewrite He, Hend. done.
  - destruct Hseg as (Hy & Hy0 & Ht). apply NoDup_cons in Hnd as [Hn' Hnd]. split; [|split].
    + cbn [seg]. rewrite Hd, decide_True by done. split; [done|]. split; [done|].
      apply (sq_seg_ext_end st); [done|intros x Hx [= ->]; done| |done].
      intros s' _ Hcase. rewrite Hd, decide_False; [done|].
      by destruct Hcase as [->|(x & Hx & ->)].
    + cbn [end_slot] in *. rewrite Hd.
      destruct (LISTFacts.end_slot_in (NextSlot y) l) as [E|(x & Hx & E)]; rewrite E in *;
        by rewrite decide_False.
    + unfold STAILQ_REMOVE_HEAD. cbn in *. rewrite He, Hy, (proj2 (Z.eqb_neq y 0) Hy0).
      cbn. done.
Qed.

Lemma sq_rep_exec st l o l' : rep st l → spec l o = Some l' → rep (exec st o) l'.
Proof.
  intros Hr Hs. destruct o as [e|e|]; cbn in *.
  - case_decide; simplify_eq. apply sq_rep_insert_head; tauto.
  - case_decide; simplify_eq. apply sq_rep_insert_tail; tauto.
  - destruct l; simplify_eq. by eapply sq_rep_remove_head.
Qed.

Lemma sq_rep_exec_all os st l l' :
  rep st l → spec_all l os = Some l' → rep (fold_left exec os st) l'.
Proof.
  revert st l. induction os as [|o os IH]; intros st l Hr Hs; cbn in *; [by simplify_eq|].
  destruct (spec l o) as [l1|] eqn:E; [|done]. cbn in Hs.
  eapply IH; [|done]. by eapply sq_rep_exec.
Qed.

Lemma sq_rep_init st : rep (STAILQ_INIT st) [].
Proof. split; [constructor|]. done. Qed.

End STAILQFacts.

(** ** Refinement theorems *)

(** Starting from LIST_INIT, running any legal sequence of LIST_INSERT_HEAD
    and LIST_REMOVE on the pointers and then walking the list with LIST_FOREACH
    visits exactly the elements, in order, that the same operations produce on
    mathematical lists. *)
Theorem list_refines os st0 l :
  LIST.spec_all [] os = Some l →
  let st := fold_left LIST.exec os (LIST.LIST_INIT st0) in
  LIST.LIST_FOREACH (length l) st (LIST.LIST_FIRST st) = Some l ∧
  LIST.LIST_EMPTY st = bool_decide (l = []).
Proof.
  intros Hs st. pose proof (LISTFacts.rep_exec_all os _ _ _ (LISTFacts.rep_init st0) Hs) as
    (_ & Hseg & Hend). fold st in Hseg, Hend. split.
  - by apply (LISTFacts.foreach_seg (length l) st HeadSlot).
  - unfold LIST.LIST_EMPTY. destruct l as [|e l]; cbn in *.
    + rewrite Hend. done.
    + destruct Hseg as (-> & Hz & _). rewrite (proj2 (Z.eqb_neq e 0) Hz). done.
Qed.

Lemma list_refines_witness :
  let st0 := LIST.mk 7 (fun _ => 9) (fun _ => NextSlot 3) in
  let os := [LIST.InsertHead 5; LIST.InsertHead 6; LIST.InsertHead 8; LIST.Remove 6] in
  let st := fold_left LIST.exec os (LIST.LIST_INIT st0) in
  LIST.LIST_FOREACH 2 st (LIST.LIST_FIRST st) = Some [8; 5].
Proof.
  exact (proj1 (list_refines
    [LIST.InsertHead 5; LIST.InsertHead 6; LIST.InsertHead 8; LIST.Remove 6]
    (LIST.mk 7 (fun _ => 9) (fun _ => NextSlot 3)) [8; 5] eq_refl)).
Defined.

(** Starting from STAILQ_INIT, any legal sequence of head and tail
    insertions and head removals keeps the pointer queue equal to the
    corresponding mathematical queue: STAILQ_FIRST is its head (NULL when it is
    empty) and the tail pointer is where the next INSERT_TAIL must write. *)
Theorem stailq_refines os st0 l :
  STAILQ.spec_all [] os = Some l →
  let st := fold_left STAILQ.exec os (STAILQ.STAILQ_INIT st0) in
  STAILQ.rep st l ∧ STAILQ.STAILQ_FIRST st = match l with [] => 0 | e :: _ => e end ∧
  STAILQ.STAILQ_EMPTY st = bool_decide (l = []).
Proof.
  intros Hs st. pose proof (STAILQFacts.sq_rep_exec_all os _ _ _ (STAILQFacts.sq_rep_init st0) Hs)
    as Hr. fold st in Hr. split; [done|]. destruct Hr as (_ & Hseg & Hend & _).
  unfold STAILQ.STAILQ_FIRST, STAILQ.STAILQ_EMPTY. destruct l as [|e l]; cbn in *.
  - by rewrite Hend.
  - destruct Hseg as (-> & Hz & _). by rewrite (proj2 (Z.eqb_neq e 0) Hz).
Qed.

Lemma stailq_refines_witness :
  let st0 := STAILQ.mk 7 (NextSlot 3) (fun _ => 9) in
  let os := [STAILQ.InsertTail 5; STAILQ.InsertTail 6; STAILQ.InsertHead 8;
             STAILQ.RemoveHead; STAILQ.RemoveHead] in
  let st := fold_left STAILQ.exec os (STAILQ.STAILQ_INIT st0) in
  STAILQ.STAILQ_FIRST st = 6.
Proof.
  exact (proj1 (proj2 (stailq_refines
    [STAILQ.InsertTail 5; STAILQ.InsertTail 6; STAILQ.InsertHead 8;
     STAILQ.RemoveHead; STAILQ.RemoveHead]
    (STAILQ.mk 7 (NextSlot 3) (fun _ => 9)) [6] eq_refl))).
Defined.
