(* ===== verification/MemLayout.v ===== *)
(** * arch/i386/memlayout.c and arch/memlayout.h: the virtual memory map

    The table of kernel memory regions built from the linker's symbols, and the
    queries on it: which region an address belongs to, the static translation
    between physical and virtual addresses, and the paging flags of a region.
    The linker symbols are arguments ([symbols]); [layout_ok] states what the
    linker script (arch/i386/multiboot.ld) guarantees of them. *)

From stdpp Require Import base list strings.
From Stdlib Require Import ZArith Lia.
From S2P Require Import Prelude.

(** ** Constants *)

Definition PAGE_SIZE : Z := 4096.
Definition PHYS_NULL : Z := 0.

Definition KM_PHYS_BASE : Z := 0.
Definition KM_VIRT_BASE : Z := 0xC0000000 + KM_PHYS_BASE.
Definition KM_DEV_VIRT_BASE : Z := 0xFE000000.
Definition KM_DEV_VIRT_END : Z := 0xFFC00000.
Definition KM_PHYS_AP_ENTRY_BASE : Z := 0x00008000.

Definition PAGE_BIT_PRESENT : Z := 0x001.
Definition PAGE_BIT_RW : Z := 0x002.
Definition PAGE_BIT_USER : Z := 0x004.
Definition PAGE_BIT_GLOBAL : Z := 0x100.

Definition VM_BIT_STATIC : Z := 0x01.
Definition VM_BIT_EXECUTABLE : Z := 0x02.
Definition VM_NOF_REGIONS : Z := 9.
Definition VM_PALLOC_REGION : nat := 5.
Definition VM_DYNAMIC_REGION : nat := 6.

(** ** Page rounding (kernel/paging.h) *)

Definition align_to_next_page (x : Z) : Z :=
  Z.land (u32 (x + PAGE_SIZE - 1)) (Z.lxor (PAGE_SIZE - 1) UINT_MAX).
Definition mask_to_page (x : Z) : Z := Z.land (u32 x) (Z.lxor (PAGE_SIZE - 1) UINT_MAX).
Definition is_aligned_to_page_size (x : Z) : bool := u32 x =? mask_to_page x.

(** ** The map *)

Record vm_region := {
  vbase : Z;
  pbase : Z;
  rsize : Z;
  rflags : Z;
  rpflags : Z;
}.

(** Addresses the linker script defines. *)
Record symbols := {
  kernel_low_begin : Z;
  kernel_low_end : Z;
  kernel_mem_ro_begin : Z;
  boot_stack_top : Z;
  boot_stack_bottom : Z;
  kernel_mem_ro_end : Z;
  kernel_mem_rw_begin : Z;
  kernel_mem_rw_end : Z;
  kernel_mem_break : Z;
  kernel_ap_entry_begin : Z;
  kernel_ap_entry_end : Z;
}.

Definition km_paddr (v : Z) : Z := u32 (v - KM_VIRT_BASE).
Definition km_vaddr (p : Z) : Z := u32 (KM_VIRT_BASE + p).

Definition KM_FREE_PHYS_BASE (sy : symbols) : Z := km_paddr (kernel_mem_break sy).

Definition KM_PHYS_AP_ENTRY_END (sy : symbols) : Z :=
  u32 (KM_PHYS_AP_ENTRY_BASE + (kernel_ap_entry_end sy - kernel_ap_entry_begin sy)).

Definition create_vm_map (sy : symbols) : list vm_region :=
  [ (* Low (<1M) memory region. *)
    {| vbase := kernel_low_begin sy;
       pbase := km_paddr (kernel_low_begin sy);
       rsize := u32 (km_paddr (kernel_low_end sy) - km_paddr (kernel_low_begin sy));
       rflags := VM_BIT_STATIC;
       rpflags := PAGE_BIT_RW |};
    (* Kernel's read-only region. *)
    {| vbase := kernel_mem_ro_begin sy;
       pbase := km_paddr (kernel_mem_ro_begin sy);
       rsize := u32 (boot_stack_top sy - kernel_mem_ro_begin sy);
       rflags := Z.lor VM_BIT_EXECUTABLE VM_BIT_STATIC;
       rpflags := PAGE_BIT_GLOBAL |};
    (* Boot stack region. *)
    {| vbase := boot_stack_top sy;
       pbase := km_paddr (boot_stack_top sy);
       rsize := u32 (boot_stack_bottom sy - boot_stack_top sy);
       rflags := Z.lor VM_BIT_EXECUTABLE VM_BIT_STATIC;
       rpflags := Z.lor PAGE_BIT_RW PAGE_BIT_GLOBAL |};
    (* Kernel's read-only region. *)
    {| vbase := boot_stack_bottom sy;
       pbase := km_paddr (boot_stack_bottom sy);
       rsize := u32 (kernel_mem_ro_end sy - boot_stack_bottom sy);
       rflags := Z.lor VM_BIT_EXECUTABLE VM_BIT_STATIC;
       rpflags := PAGE_BIT_GLOBAL |};
    (* Kernel's R/W region. *)
    {| vbase := kernel_mem_rw_begin sy;
       pbase := km_paddr (kernel_mem_rw_begin sy);
       rsize := u32 (km_paddr (kernel_mem_rw_end sy) - km_paddr (kernel_mem_rw_begin sy));
       rflags := Z.lor VM_BIT_EXECUTABLE VM_BIT_STATIC;
       rpflags := Z.lor PAGE_BIT_RW PAGE_BIT_GLOBAL |};
    (* Free physical memory. *)
    {| vbase := KM_FREE_PHYS_BASE sy;
       pbase := KM_FREE_PHYS_BASE sy;
       rsize := u32 (kernel_low_begin sy - KM_FREE_PHYS_BASE sy);
       rflags := VM_BIT_STATIC;
       rpflags := PAGE_BIT_RW |};
    (* Dynamic kernel memory region. *)
    {| vbase := kernel_mem_break sy;
       pbase := PHYS_NULL;
       rsize := u32 (KM_DEV_VIRT_BASE - kernel_mem_break sy);
       rflags := 0;
       rpflags := Z.lor PAGE_BIT_RW PAGE_BIT_GLOBAL |};
    (* Memory mapped devices region. *)
    {| vbase := KM_DEV_VIRT_BASE;
       pbase := KM_DEV_VIRT_BASE;
       rsize := u32 (KM_DEV_VIRT_END - KM_DEV_VIRT_BASE);
       rflags := VM_BIT_STATIC;
       rpflags := Z.lor PAGE_BIT_RW PAGE_BIT_GLOBAL |};
    (* AP entry region. *)
    {| vbase := KM_PHYS_AP_ENTRY_BASE;
       pbase := KM_PHYS_AP_ENTRY_BASE;
       rsize := u32 (KM_PHYS_AP_ENTRY_END sy - KM_PHYS_AP_ENTRY_BASE);
       rflags := VM_BIT_STATIC;
       rpflags := PAGE_BIT_RW |} ].

(** ** Queries *)

Definition in_region_v (v : Z) (r : vm_region) : bool :=
  (vbase r <=? v) && (v <? u32 (vbase r + rsize r)).
Definition in_region_p (p : Z) (r : vm_region) : bool :=
  (pbase r <=? p) && (p <? u32 (pbase r + rsize r)).

(** The first region of the map that satisfies the test; [None] is NULL. *)
Fixpoint first_region (f : vm_region → bool) (map : list vm_region) : option vm_region :=
  match map with
  | [] => None
  | r :: map' => if f r then Some r else first_region f map'
  end.

Definition get_region_v (vm_map : list vm_region) (v : Z) : option vm_region :=
  first_region (in_region_v v) vm_map.
Definition get_region_p (vm_map : list vm_region) (p : Z) : option vm_region :=
  first_region (in_region_p p) vm_map.

Definition vm_map_walk (vm_map : list vm_region) (p : Z) (panic : bool) : outcome Z :=
  match get_region_p vm_map p with
  | Some region => Done (u32 (vbase region + (p - pbase region)))
  | None =>
      if panic then Panic "vm_map_walk(): physical address could not be resolved" else Done 0
  end.

Definition vm_map_rev_walk (vm_map : list vm_region) (v : Z) (panic : bool) : outcome Z :=
  match get_region_v vm_map v with
  | Some region => Done (u32 (pbase region + (v - vbase region)))
  | None =>
      if panic then Panic "vm_map_walk(): physical address could not be resolved"
      else Done PHYS_NULL
  end.

Definition vm_exists (vm_map : list vm_region) (v : Z) : bool :=
  match get_region_v vm_map v with Some _ => true | None => false end.

Definition vm_is_static (vm_map : list vm_region) (v : Z) : bool :=
  match get_region_v vm_map v with
  | Some region => negb (Z.land (rflags region) VM_BIT_STATIC =? 0)
  | None => false
  end.

Definition vm_is_static_p (vm_map : list vm_region) (p : Z) : bool :=
  match get_region_p vm_map p with
  | Some region => negb (Z.land (rflags region) VM_BIT_STATIC =? 0)
  | None => false
  end.

Definition vm_get_pflags (vm_map : list vm_region) (v : Z) : Z :=
  match get_region_v vm_map v with
  | Some region => rpflags region
  | None => 0
  end.

(** What the linker script guarantees of the symbols. *)
Record layout_ok (sy : symbols) : Prop := {
  lo_low_begin : kernel_low_begin sy = 0xC0000000;
  lo_low_end : kernel_low_end sy = 0xC0100000;
  lo_ro_begin : kernel_mem_ro_begin sy = 0xC0100000;
  lo_stack_top : kernel_mem_ro_begin sy ≤ boot_stack_top sy;
  lo_stack_bottom : boot_stack_top sy ≤ boot_stack_bottom sy;
  lo_ro_end : boot_stack_bottom sy ≤ kernel_mem_ro_end sy;
  lo_rw_begin : kernel_mem_ro_end sy ≤ kernel_mem_rw_begin sy;
  lo_rw_end : kernel_mem_rw_begin sy ≤ kernel_mem_rw_end sy;
  lo_break : kernel_mem_rw_end sy ≤ kernel_mem_break sy;
  lo_break_dev : kernel_mem_break sy < 0xFE000000;
  lo_break_aligned : kernel_mem_break sy mod PAGE_SIZE = 0;
  lo_ap_size : 0 ≤ kernel_ap_entry_end sy - kernel_ap_entry_begin sy < 0xF8000;
}.

Definition example_symbols : symbols := {|
  kernel_low_begin := 0xC0000000; kernel_low_end := 0xC0100000;
  kernel_mem_ro_begin := 0xC0100000; boot_stack_top := 0xC0104000;
  boot_stack_bottom := 0xC0108000; kernel_mem_ro_end := 0xC0120000;
  kernel_mem_rw_begin := 0xC0120000; kernel_mem_rw_end := 0xC0540000;
  kernel_mem_break := 0xC0800000; kernel_ap_entry_begin := 0xC0102000;
  kernel_ap_entry_end := 0xC0103000 |}.

(** ** Lemmas *)

Lemma example_layout_ok : layout_ok example_symbols.
Proof. constructor; cbn; try done; lia. Qed.

(** Masking to a page clears the twelve low bits. *)
Lemma land_page_mask x : 0 ≤ x < 2 ^ 32 → Z.land x 0xFFFFF000 = x - x mod 4096.
Proof.
  intros H. replace 0xFFFFF000 with (Z.shiftl (Z.ones 20) 12) by reflexivity.
  change 4096 with (2 ^ 12). rewrite <- Z.land_ones by lia.
  replace (Z.land x (Z.shiftl (Z.ones 20) 12)) with (Z.ldiff x (Z.ones 12)).
  - pose proof (Z.sub_nocarry_ldiff x (Z.land x (Z.ones 12))) as E.
    assert (E2 : Z.ldiff (Z.land x (Z.ones 12)) x = 0).
    { apply Z.bits_inj'. intros n Hn. rewrite Z.ldiff_spec, Z.land_spec, Z.bits_0.
      by destruct (Z.testbit x n), (Z.testbit (Z.ones 12) n). }
    rewrite E by done. apply Z.bits_inj'. intros n Hn.
    rewrite !Z.ldiff_spec, Z.land_spec. by destruct (Z.testbit x n), (Z.testbit (Z.ones 12) n).
  - apply Z.bits_inj'. intros n Hn. rewrite Z.land_spec, Z.ldiff_spec, Z.shiftl_spec by done.
    destruct (Z.lt_ge_cases n 12).
    + rewrite (Z.ones_spec_low 12) by lia. rewrite (Z.testbit_neg_r (Z.ones 20)) by lia.
      by destruct (Z.testbit x n).
    + rewrite (Z.ones_spec_high 12) by lia. destruct (Z.lt_ge_cases n 32).
      * by rewrite (Z.ones_spec_low 20) by lia.
      * rewrite (Z.bits_above_log2 x n).
        -- done.
        -- lia.
        -- destruct (Z.eq_dec x 0) as [->|]; [cbn; lia|].
           apply Z.log2_lt_pow2; [lia|]. apply (Z.lt_le_trans _ (2 ^ 32)); [lia|].
           apply Z.pow_le_mono_r; lia.
Qed.

Lemma mask_to_page_eq x : 0 ≤ x < 2 ^ 32 → mask_to_page x = x - x mod PAGE_SIZE.
Proof.
  intros H. unfold mask_to_page. rewrite u32_small by done.
  change (Z.lxor (PAGE_SIZE - 1) UINT_MAX) with 0xFFFFF000. by apply land_page_mask.
Qed.

Lemma align_to_next_page_eq x :
  0 ≤ x → x + PAGE_SIZE - 1 < 2 ^ 32 →
  align_to_next_page x = (x + PAGE_SIZE - 1) - (x + PAGE_SIZE - 1) mod PAGE_SIZE.
Proof.
  intros H0 H. unfold align_to_next_page, PAGE_SIZE in *. rewrite u32_small by lia.
  change (Z.lxor (4096 - 1) UINT_MAX) with 0xFFFFF000. apply land_page_mask. lia.
Qed.

Lemma is_aligned_to_page_size_true x :
  0 ≤ x < 2 ^ 32 → is_aligned_to_page_size x = true ↔ x mod PAGE_SIZE = 0.
Proof.
  intros H. unfold is_aligned_to_page_size. rewrite u32_small, mask_to_page_eq by done.
  rewrite Z.eqb_eq. lia.
Qed.

Lemma km_paddr_high v : 0xC0000000 ≤ v < 2 ^ 32 → km_paddr v = v - 0xC0000000.
Proof. intros H. unfold km_paddr, KM_VIRT_BASE, KM_PHYS_BASE. rewrite u32_small; lia. Qed.

Lemma first_region_In f map r : first_region f map = Some r → r ∈ map ∧ f r = true.
Proof.
  induction map as [|x map IH]; cbn; [done|]. destruct (f x) eqn:E.
  - intros [= ->]. split; [by left|done].
  - intros H. destruct (IH H). split; [by right|done].
Qed.

(** If the regions that satisfy the test are all the same, it is the first. *)
Lemma first_region_unique f map r :
  r ∈ map → f r = true → (∀ r', r' ∈ map → f r' = true → r' = r) →
  first_region f map = Some r.
Proof.
  induction map as [|x map IH]; intros Hin Hf Hu; [by apply elem_of_nil in Hin|]. cbn.
  destruct (f x) eqn:E.
  - f_equal. apply Hu; [by left|done].
  - apply IH; [|done|intros; apply Hu; [by right|done]].
    apply elem_of_cons in Hin as [->|]; [congruence|done].
Qed.

(** The kernel's regions, with the wrap-around of the size computations gone. *)
Lemma create_vm_map_eq sy : layout_ok sy →
  create_vm_map sy =
  let S := kernel_mem_break sy in
  [ Build_vm_region 0xC0000000 0 0x100000 VM_BIT_STATIC PAGE_BIT_RW;
    Build_vm_region 0xC0100000 0x100000 (boot_stack_top sy - 0xC0100000) 3 PAGE_BIT_GLOBAL;
    Build_vm_region (boot_stack_top sy) (boot_stack_top sy - 0xC0000000)
      (boot_stack_bottom sy - boot_stack_top sy) 3 0x102;
    Build_vm_region (boot_stack_bottom sy) (boot_stack_bottom sy - 0xC0000000)
      (kernel_mem_ro_end sy - boot_stack_bottom sy) 3 PAGE_BIT_GLOBAL;
    Build_vm_region (kernel_mem_rw_begin sy) (kernel_mem_rw_begin sy - 0xC0000000)
      (kernel_mem_rw_end sy - kernel_mem_rw_begin sy) 3 0x102;
    Build_vm_region (S - 0xC0000000) (S - 0xC0000000) (0x180000000 - S) VM_BIT_STATIC PAGE_BIT_RW;
    Build_vm_region S 0 (0xFE000000 - S) 0 0x102;
    Build_vm_region 0xFE000000 0xFE000000 0x1C00000 VM_BIT_STATIC 0x102;
    Build_vm_region 0x8000 0x8000 (kernel_ap_entry_end sy - kernel_ap_entry_begin sy)
      VM_BIT_STATIC PAGE_BIT_RW ].
Proof.
  intros []. unfold create_vm_map, KM_FREE_PHYS_BASE, KM_PHYS_AP_ENTRY_END.
  rewrite lo_low_begin0, lo_low_end0, lo_ro_begin0 in *.
  rewrite !km_paddr_high by lia.
  unfold KM_PHYS_AP_ENTRY_BASE, KM_DEV_VIRT_BASE, KM_DEV_VIRT_END, PHYS_NULL.
  unwrap. cbn zeta.
  repeat match goal with
  | |- _ :: _ = _ :: _ => f_equal
  | |- Build_vm_region _ _ _ _ _ = Build_vm_region _ _ _ _ _ => f_equal; try reflexivity; lia
  end.
Qed.

Lemma in_region_v_spec v r :
  0 ≤ vbase r + rsize r < 2 ^ 32 → in_region_v v r = true ↔ vbase r ≤ v < vbase r + rsize r.
Proof.
  intros H. unfold in_region_v. rewrite u32_small by done.
  rewrite andb_true_iff, Z.leb_le, Z.ltb_lt. done.
Qed.

Lemma in_region_p_spec p r :
  0 ≤ pbase r + rsize r < 2 ^ 32 → in_region_p p r = true ↔ pbase r ≤ p < pbase r + rsize r.
Proof.
  intros H. unfold in_region_p. rewrite u32_small by done.
  rewrite andb_true_iff, Z.leb_le, Z.ltb_lt. done.
Qed.

(** Walk down the region table, refuting every region whose bounds exclude the
    address. *)
Ltac region_search :=
  repeat (cbn [first_region];
    match goal with
    | |- context [if in_region_v ?v ?r then _ else _] =>
        let E := fresh "E" in destruct (in_region_v v r) eqn:E;
        [ apply in_region_v_spec in E; cbn [vbase rsize] in *; [|lia]
        | apply not_true_iff_false in E; rewrite in_region_v_spec in E;
          cbn [vbase rsize] in *; [|lia] ]
    | |- context [if in_region_p ?p ?r then _ else _] =>
        let E := fresh "E" in destruct (in_region_p p r) eqn:E;
        [ apply in_region_p_spec in E; cbn [pbase rsize] in *; [|lia]
        | apply not_true_iff_false in E; rewrite in_region_p_spec in E;
          cbn [pbase rsize] in *; [|lia] ]
    end; try (exfalso; lia)).

(** Physical pages of the free-memory region belong to that region. *)
Lemma get_region_p_free sy p : layout_ok sy →
  KM_FREE_PHYS_BASE sy ≤ p < KM_VIRT_BASE →
  get_region_p (create_vm_map sy) p = create_vm_map sy !! VM_PALLOC_REGION.
Proof.
  intros Hl Hp. unfold get_region_p. rewrite (create_vm_map_eq sy Hl).
  destruct Hl. unfold KM_FREE_PHYS_BASE, KM_VIRT_BASE, KM_PHYS_BASE in Hp.
  rewrite km_paddr_high in Hp by lia.
  cbn zeta. region_search. reflexivity.
Qed.

Lemma get_region_v_free sy v : layout_ok sy →
  KM_FREE_PHYS_BASE sy ≤ v < KM_VIRT_BASE →
  get_region_v (create_vm_map sy) v = create_vm_map sy !! VM_PALLOC_REGION.
Proof.
  intros Hl Hp. unfold get_region_v. rewrite (create_vm_map_eq sy Hl).
  destruct Hl. unfold KM_FREE_PHYS_BASE, KM_VIRT_BASE, KM_PHYS_BASE in Hp.
  rewrite km_paddr_high in Hp by lia.
  cbn zeta. region_search. reflexivity.
Qed.

(** A virtual address inside a region of the map is found in that region: the
    regions are pairwise disjoint in the virtual address space. *)
Lemma get_region_v_in sy r v : layout_ok sy → r ∈ create_vm_map sy →
  vbase r ≤ v < vbase r + rsize r → get_region_v (create_vm_map sy) v = Some r.
Proof.
  intros Hl. unfold get_region_v. rewrite (create_vm_map_eq sy Hl). destruct Hl.
  cbn zeta.
  intros Hin Hv. repeat (apply elem_of_cons in Hin as [->|Hin]);
    [..|by apply elem_of_nil in Hin]; cbn [vbase rsize] in Hv; region_search; reflexivity.
Qed.

Lemma create_vm_map_bounds sy r : layout_ok sy → r ∈ create_vm_map sy →
  0 ≤ vbase r ∧ 0 ≤ pbase r ∧ 0 ≤ rsize r ∧
  vbase r + rsize r < 2 ^ 32 ∧ pbase r + rsize r < 2 ^ 32.
Proof.
  intros Hl. rewrite (create_vm_map_eq sy Hl). destruct Hl.
  cbn zeta.
  intros Hin. repeat (apply elem_of_cons in Hin as [->|Hin]);
    [..|by apply elem_of_nil in Hin]; cbn; lia.
Qed.

(** The free-memory region is mapped one to one. *)
Lemma vm_map_walk_free sy p panic : layout_ok sy →
  KM_FREE_PHYS_BASE sy ≤ p < KM_VIRT_BASE →
  vm_map_walk (create_vm_map sy) p panic = Done p ∧
  vm_is_static_p (create_vm_map sy) p = true.
Proof.
  intros Hl Hp. unfold vm_map_walk, vm_is_static_p. rewrite (get_region_p_free sy p Hl Hp).
  rewrite (create_vm_map_eq sy Hl). cbn. split; [|done]. f_equal.
  destruct Hl. unfold KM_FREE_PHYS_BASE, KM_VIRT_BASE, KM_PHYS_BASE in Hp.
  rewrite km_paddr_high in Hp by lia. rewrite u32_small; lia.
Qed.

(** ** Properties *)

(** Every physical address the map knows translates to a virtual address
    that translates back to it: vm_map_rev_walk undoes vm_map_walk on the
    kernel's region table. *)
Theorem vm_map_walk_roundtrip sy p : layout_ok sy →
  is_Some (get_region_p (create_vm_map sy) p) →
  ∃ v, vm_map_walk (create_vm_map sy) p true = Done v ∧
       vm_map_rev_walk (create_vm_map sy) v true = Done p.
Proof.
  intros Hl [r Hr]. unfold vm_map_walk. rewrite Hr. eexists. split; [done|].
  apply first_region_In in Hr as [Hin Hp].
  destruct (create_vm_map_bounds sy r Hl Hin) as (B1 & B2 & B3 & B4 & B5).
  apply in_region_p_spec in Hp; [|lia].
  unfold vm_map_rev_walk. rewrite (u32_small (vbase r + _)) by lia.
  rewrite (get_region_v_in sy r) by (done || lia). f_equal. rewrite u32_small; lia.
Qed.

Lemma vm_map_walk_roundtrip_witness :
  ∃ v, vm_map_walk (create_vm_map example_symbols) 0x120010 true = Done v ∧
       vm_map_rev_walk (create_vm_map example_symbols) v true = Done 0x120010.
Proof.
  apply (vm_map_walk_roundtrip example_symbols 0x120010 example_layout_ok).
  vm_compute. eauto.
Defined.

(** The physical pages handed to the page allocator are mapped one to one:
    their virtual address is their physical address, in both directions, and
    the page tables can be reached through it (the region is static). *)
Theorem free_region_identity sy p : layout_ok sy →
  KM_FREE_PHYS_BASE sy ≤ p < KM_VIRT_BASE →
  vm_map_walk (create_vm_map sy) p true = Done p ∧
  vm_map_rev_walk (create_vm_map sy) p true = Done p ∧
  vm_is_static_p (create_vm_map sy) p = true ∧
  Z.land (vm_get_pflags (create_vm_map sy) p) PAGE_BIT_GLOBAL = 0.
Proof.
  intros Hl Hp. destruct (vm_map_walk_free sy p true Hl Hp) as [Hw Hs].
  unfold vm_map_rev_walk, vm_get_pflags. rewrite (get_region_v_free sy p Hl Hp).
  split; [done|]. split; [|split; [done|by rewrite (create_vm_map_eq sy Hl)]].
  rewrite (create_vm_map_eq sy Hl). cbn. destruct Hl. unfold KM_FREE_PHYS_BASE, KM_VIRT_BASE, KM_PHYS_BASE in Hp.
  rewrite km_paddr_high in Hp by lia. rewrite u32_small; [f_equal|]; lia.
Qed.

Lemma free_region_identity_witness :
  vm_map_walk (create_vm_map example_symbols) 0x900000 true = Done 0x900000.
Proof.
  apply (free_region_identity example_symbols 0x900000 example_layout_ok).
  split; vm_compute; [discriminate|reflexivity].
Defined.
