(* ===== verification/Cpu.v ===== *)
(** * arch/i386/cpu/cpu.c, arch/cpu.h and arch/i386/cpu/spinlock.c

    The per-CPU records with their interrupt-disable and preemption counters,
    and the recursive CPU spinlocks built on them, as run by one CPU: the
    [machine] holds the CPU table, the number the local APIC returns, the
    interrupt flag of EFLAGS and CR3.  Waiting for a lock held elsewhere is
    [Hang].  The debug-only fields of a spinlock (name, TID, call stack) and the
    segmentation fields of a CPU are not modelled. *)

From stdpp Require Import base list strings gmap.
From Stdlib Require Import ZArith Lia.
From S2P Require Import Prelude.

Definition X86_CPU_MAGIC : Z := 0x86.
Definition MAX_CPUS : Z := 8.
Definition CPU_SPINLOCK_INVALID_CPU : Z := -1.

Record x86_cpu := mk_cpu {
  magic : Z;
  num : Z;
  active : bool;
  lapic_id : Z;
  int_enabled : bool;
  cli_stack : Z;
  preempt_disabled : Z;
}.

Definition zero_cpu : x86_cpu := mk_cpu 0 0 false 0 false 0 0.

Record machine := mk_machine {
  cpus : list x86_cpu;
  nof_cpus : Z;
  initial_cpu : x86_cpu;
  nof_active_cpus : Z;
  eflags_if : bool;
  lapic_get_id : Z;
  cr3 : Z;
  yaos2_initialized : bool;
}.

(** A [struct x86_cpu *]. *)
Inductive cpu_ptr : Type :=
| InitialCpu
| CpuAt (i : nat).

(** ** Field updates *)

Definition set_cpus (l : list x86_cpu) (m : machine) : machine :=
  mk_machine l (nof_cpus m) (initial_cpu m) (nof_active_cpus m) (eflags_if m)
    (lapic_get_id m) (cr3 m) (yaos2_initialized m).
Definition set_nof_cpus (n : Z) (m : machine) : machine :=
  mk_machine (cpus m) n (initial_cpu m) (nof_active_cpus m) (eflags_if m)
    (lapic_get_id m) (cr3 m) (yaos2_initialized m).
Definition set_initial_cpu (c : x86_cpu) (m : machine) : machine :=
  mk_machine (cpus m) (nof_cpus m) c (nof_active_cpus m) (eflags_if m)
    (lapic_get_id m) (cr3 m) (yaos2_initialized m).
Definition set_nof_active (n : Z) (m : machine) : machine :=
  mk_machine (cpus m) (nof_cpus m) (initial_cpu m) n (eflags_if m)
    (lapic_get_id m) (cr3 m) (yaos2_initialized m).
Definition set_if (b : bool) (m : machine) : machine :=
  mk_machine (cpus m) (nof_cpus m) (initial_cpu m) (nof_active_cpus m) b
    (lapic_get_id m) (cr3 m) (yaos2_initialized m).
Definition set_cr3 (c : Z) (m : machine) : machine :=
  mk_machine (cpus m) (nof_cpus m) (initial_cpu m) (nof_active_cpus m) (eflags_if m)
    (lapic_get_id m) c (yaos2_initialized m).

Definition set_active (b : bool) (c : x86_cpu) : x86_cpu :=
  mk_cpu (magic c) (num c) b (lapic_id c) (int_enabled c) (cli_stack c) (preempt_disabled c).
Definition set_int_enabled (b : bool) (c : x86_cpu) : x86_cpu :=
  mk_cpu (magic c) (num c) (active c) (lapic_id c) b (cli_stack c) (preempt_disabled c).
Definition set_cli_stack (n : Z) (c : x86_cpu) : x86_cpu :=
  mk_cpu (magic c) (num c) (active c) (lapic_id c) (int_enabled c) n (preempt_disabled c).
Definition set_preempt (n : Z) (c : x86_cpu) : x86_cpu :=
  mk_cpu (magic c) (num c) (active c) (lapic_id c) (int_enabled c) (cli_stack c) n.

(** Dereference a CPU pointer. *)
Definition read_cpu (p : cpu_ptr) : M machine x86_cpu :=
  gets (fun m => match p with
                 | InitialCpu => initial_cpu m
                 | CpuAt i => default zero_cpu (cpus m !! i)
                 end).

Definition write_cpu (p : cpu_ptr) (f : x86_cpu → x86_cpu) : M machine unit :=
  modify (fun m => match p with
                   | InitialCpu => set_initial_cpu (f (initial_cpu m)) m
                   | CpuAt i => set_cpus (alter f i (cpus m)) m
                   end).

(** [cpu_get_eflags() & EFLAGS_IF], [cpu_force_cli()] and [cpu_force_sti()]. *)
Definition cpu_get_eflags_if : M machine bool := gets eflags_if.
Definition cpu_force_cli : M machine unit := modify (set_if false).
Definition cpu_force_sti : M machine unit := modify (set_if true).

(** ** cpu.c *)

Definition verify_cpu (c : x86_cpu) : bool := magic c =? X86_CPU_MAGIC.

Definition cpu_add (cpu_has_cpuid : bool) (id : Z) : M machine unit :=
  m <- get ;;
  if nof_cpus m =? MAX_CPUS then kpanic "cpu_add(): too many CPUs" else
  kassert "is_yaos2_initialized() == false" (negb (yaos2_initialized m)) ;;;
  if int_enabled (initial_cpu m) || (cli_stack (initial_cpu m) >? 0)
     || (preempt_disabled (initial_cpu m) >? 0)
  then kpanic "cpu_add(): initial CPU has state information" else
  (if negb cpu_has_cpuid then kpanic "init_cpu(): CPU does not support CPUID" else
   modify (set_cpus (<[Z.to_nat (nof_cpus m) :=
     mk_cpu X86_CPU_MAGIC (nof_cpus m) false id false 0 0]> (cpus m))) ;;;
   modify (set_nof_cpus (nof_cpus m + 1))).

(** Index of the first registered CPU with the given local APIC id, scanning
    [n] entries from [i]. *)
Fixpoint find_cpu (l : list x86_cpu) (n i : nat) (id : Z) : option nat :=
  match n with
  | O => None
  | S n' =>
      match l !! i with
      | Some c => if verify_cpu c && (lapic_id c =? id) then Some i else find_cpu l n' (S i) id
      | None => None
      end
  end.

Definition cpu_current : M machine cpu_ptr :=
  m <- get ;;
  if nof_cpus m =? 0 then ret InitialCpu else
  match find_cpu (cpus m) (Z.to_nat (nof_cpus m)) 0 (lapic_get_id m) with
  | Some i => ret (CpuAt i)
  | None => kpanic "cpu_current(): called from an unregistered CPU"
  end.

Definition push_no_interrupts : M machine unit :=
  eflags <- cpu_get_eflags_if ;;
  n <- gets nof_cpus ;;
  if n =? 0 then kassert "(eflags & EFLAGS_IF) == 0" (negb eflags) else
  cpu_force_cli ;;;
  cpu <- cpu_current ;;
  c <- read_cpu cpu ;;
  when (cli_stack c =? 0) (write_cpu cpu (set_int_enabled eflags)) ;;;
  write_cpu cpu (fun c => set_cli_stack (cli_stack c + 1) c).

Definition pop_no_interrupts : M machine unit :=
  eflags <- cpu_get_eflags_if ;;
  n <- gets nof_cpus ;;
  if n =? 0 then kassert "(eflags & EFLAGS_IF) == 0" (negb eflags) else
  if eflags then kpanic "pop_no_interrupts(): interrupts enabled" else
  cpu <- cpu_current ;;
  write_cpu cpu (fun c => set_cli_stack (cli_stack c - 1) c) ;;;
  c <- read_cpu cpu ;;
  if cli_stack c <? 0 then kpanic "pop_no_interrupts(): stack underflow" else
  when ((cli_stack c =? 0) && int_enabled c) cpu_force_sti.

Definition preempt_disable : M machine unit :=
  n <- gets nof_cpus ;;
  if n =? 0 then
    eflags <- cpu_get_eflags_if ;;
    kassert "(cpu_get_eflags() & EFLAGS_IF) == 0" (negb eflags)
  else
  push_no_interrupts ;;;
  cpu <- cpu_current ;;
  write_cpu cpu (fun c => set_preempt (preempt_disabled c + 1) c) ;;;
  pop_no_interrupts.

Definition preempt_enable : M machine unit :=
  n <- gets nof_cpus ;;
  if n =? 0 then
    eflags <- cpu_get_eflags_if ;;
    kassert "(cpu_get_eflags() & EFLAGS_IF) == 0" (negb eflags)
  else
  push_no_interrupts ;;;
  cpu <- cpu_current ;;
  write_cpu cpu (fun c => set_preempt (preempt_disabled c - 1) c) ;;;
  c <- read_cpu cpu ;;
  if preempt_disabled c <? 0 then kpanic "preempt_enable(): underflow" else
  pop_no_interrupts.

(** The receiver runs for every registered CPU but the current one. *)
Fixpoint enumerate_loop (n i : nat) (cur : Z) (receiver : cpu_ptr → M machine unit)
  : M machine unit :=
  match n with
  | O => ret tt
  | S n' =>
      c <- read_cpu (CpuAt i) ;;
      when (verify_cpu c && negb (lapic_id c =? cur)) (receiver (CpuAt i)) ;;;
      enumerate_loop n' (S i) cur receiver
  end.

Definition cpu_enumerate_other_cpus (receiver : cpu_ptr → M machine unit) : M machine unit :=
  preempt_disable ;;;
  m <- get ;;
  enumerate_loop (Z.to_nat (nof_cpus m)) 0 (lapic_get_id m) receiver ;;;
  preempt_enable.

Definition cpu_set_active (flag : bool) : M machine unit :=
  preempt_disable ;;;
  cpu <- cpu_current ;;
  c <- read_cpu cpu ;;
  when (Bool.eqb (active c) false) (modify (fun m => set_nof_active (nof_active_cpus m + 1) m)) ;;;
  write_cpu cpu (set_active flag) ;;;
  preempt_enable.

(** Returns the previous CR3; loading the same value is skipped. *)
Definition cpu_set_cr3 (v : Z) : M machine Z :=
  preempt_disable ;;;
  prev_cr3 <- gets cr3 ;;
  when (negb (v =? prev_cr3)) (modify (set_cr3 v)) ;;;
  preempt_enable ;;;
  ret prev_cr3.

Definition cpu_set_interrupts_with_cpu (cpu : cpu_ptr) (state : bool) : M machine bool :=
  c <- read_cpu cpu ;;
  let prev := int_enabled c in
  (if state then
     write_cpu cpu (set_int_enabled true) ;;;
     write_cpu cpu (set_cli_stack 0) ;;;
     cpu_force_sti
   else
     cpu_force_cli ;;;
     write_cpu cpu (set_int_enabled false) ;;;
     write_cpu cpu (set_cli_stack 0)) ;;;
  ret prev.

(** ** spinlock.c *)

Record cpu_spinlock := mk_spinlock {
  locked : Z;
  lnum : Z;
  lcpu : Z;
}.

(** A spinlock and the machine of the CPU that operates on it. *)
Record lock_state := mk_ls {
  ls_mach : machine;
  ls_lock : cpu_spinlock;
}.

Definition on_mach {A} (m : M machine A) : M lock_state A :=
  zoom ls_mach (fun m' s => mk_ls m' (ls_lock s)) m.
Definition set_lock (f : cpu_spinlock → cpu_spinlock) : M lock_state unit :=
  modify (fun s => mk_ls (ls_mach s) (f (ls_lock s))).

Definition cpu_spinlock_create : cpu_spinlock := mk_spinlock 0 0 CPU_SPINLOCK_INVALID_CPU.

(** The atomic exchange of [locked] with 1; returns the old value. *)
Definition asm_xchg1 : M lock_state Z :=
  l <- gets ls_lock ;;
  set_lock (fun l => mk_spinlock 1 (lnum l) (lcpu l)) ;;;
  ret (locked l).

Definition spin_interruptible : M lock_state unit :=
  on_mach cpu_force_cli ;;;
  old <- asm_xchg1 ;;
  if old =? 0 then ret tt else hang.

Definition spin_uninterruptible : M lock_state unit :=
  old <- asm_xchg1 ;;
  if old =? 0 then ret tt else hang.

Definition cpu_spinlock_held : M lock_state bool :=
  on_mach push_no_interrupts ;;;
  l <- gets ls_lock ;;
  r <- (if locked l =? 0 then ret false
        else cpu <- on_mach cpu_current ;;
             c <- on_mach (read_cpu cpu) ;;
             ret (lcpu l =? num c)) ;;
  on_mach pop_no_interrupts ;;;
  ret r.

Definition cpu_spinlock_acquire : M lock_state unit :=
  eflags <- on_mach cpu_get_eflags_if ;;
  on_mach preempt_disable ;;;
  on_mach push_no_interrupts ;;;
  held <- cpu_spinlock_held ;;
  (if held then
     set_lock (fun l => mk_spinlock (locked l) (lnum l + 1) (lcpu l))
   else
     (if eflags then spin_interruptible else spin_uninterruptible) ;;;
     set_lock (fun l => mk_spinlock (locked l) 1 (lcpu l)) ;;;
     cpu <- on_mach cpu_current ;;
     c <- on_mach (read_cpu cpu) ;;
     set_lock (fun l => mk_spinlock (locked l) (lnum l) (num c))) ;;;
  on_mach pop_no_interrupts.

Definition cpu_spinlock_release : M lock_state unit :=
  on_mach push_no_interrupts ;;;
  l <- gets ls_lock ;;
  if lcpu l =? CPU_SPINLOCK_INVALID_CPU then
    kpanic "cpu_spinlock_release(): called on an unheld spinlock"
  else
  held <- cpu_spinlock_held ;;
  if negb held then kpanic "cpu_spinlock_release(): called on an unheld spinlock" else
  set_lock (fun l => mk_spinlock (locked l) (lnum l - 1) (lcpu l)) ;;;
  l <- gets ls_lock ;;
  (if lnum l >? 0 then ret tt
   else
     set_lock (fun l => mk_spinlock (locked l) (lnum l) CPU_SPINLOCK_INVALID_CPU) ;;;
     set_lock (fun l => mk_spinlock 0 (lnum l) (lcpu l))) ;;;
  on_mach pop_no_interrupts ;;;
  on_mach preempt_enable.

(** ** Well-formed machines *)

(** CPU [i], with record [c], is the one executing; its interrupt-disable count
    is non-negative and agrees with the interrupt flag. *)
Record running_on (m : machine) (i : nat) (c : x86_cpu) : Prop := {
  ro_some : nof_cpus m ≠ 0;
  ro_find : find_cpu (cpus m) (Z.to_nat (nof_cpus m)) 0 (lapic_get_id m) = Some i;
  ro_cpu : cpus m !! i = Some c;
  ro_cli : 0 ≤ cli_stack c;
  ro_preempt : 0 ≤ preempt_disabled c;
  ro_if : 0 < cli_stack c → eflags_if m = false;
  ro_sync : cli_stack c = 0 → int_enabled c = eflags_if m;
}.

(** The machine with CPU [i]'s record and the interrupt flag replaced. *)
Definition with_cpu (m : machine) (i : nat) (c : x86_cpu) (b : bool) : machine :=
  set_if b (set_cpus (<[i := c]> (cpus m)) m).

Definition free_lock : cpu_spinlock := mk_spinlock 0 0 CPU_SPINLOCK_INVALID_CPU.

(** ** Helper lemmas *)

Lemma find_cpu_insert l n j i c c' id :
  l !! i = Some c → magic c' = magic c → lapic_id c' = lapic_id c →
  find_cpu (<[i := c']> l) n j id = find_cpu l n j id.
Proof.
  intros Hi Hm Hl. revert j. induction n as [|n IH]; intros j; cbn; [done|].
  destruct (decide (i = j)) as [->|Hne].
  - rewrite list_lookup_insert_eq by (by eapply lookup_lt_Some). rewrite Hi.
    unfold verify_cpu. rewrite Hm, Hl. by rewrite IH.
  - rewrite list_lookup_insert_ne by done. destruct (l !! j); [|done]. by rewrite IH.
Qed.

Lemma find_cpu_Some l n i id k : find_cpu l n i id = Some k → ∃ c, l !! k = Some c ∧ verify_cpu c = true ∧ lapic_id c = id.
Proof.
  revert i. induction n as [|n IH]; intros i; cbn; [done|]. destruct (l !! i) as [c|] eqn:E; [|done].
  destruct (verify_cpu c && (lapic_id c =? id)) eqn:Ev; [|by apply IH]. intros [= <-]. zbool. exists c. naive_solver.
Qed.

Lemma with_cpu_with_cpu m i c b c' b' :
  with_cpu (with_cpu m i c b) i c' b' = with_cpu m i c' b'.
Proof. unfold with_cpu, set_if, set_cpus. cbn. by rewrite list_insert_insert_eq. Qed.

Lemma with_cpu_same m i c : cpus m !! i = Some c → with_cpu m i c (eflags_if m) = m.
Proof.
  intros H. unfold with_cpu, set_if, set_cpus. cbn. rewrite list_insert_id by done.
  by destruct m.
Qed.

Lemma alter_cpu m i c f :
  cpus m !! i = Some c → set_cpus (alter f i (cpus m)) m = with_cpu m i (f c) (eflags_if m).
Proof.
  intros H. unfold with_cpu, set_if, set_cpus. cbn. f_equal.
  rewrite list_insert_alter. by apply list_alter_ext; [congruence|].
Qed.

(** The record of the executing CPU changes; its identity does not. *)
Lemma running_with_cpu m i c c' b :
  running_on m i c → magic c' = magic c → lapic_id c' = lapic_id c →
  0 ≤ cli_stack c' → 0 ≤ preempt_disabled c' →
  (0 < cli_stack c' → b = false) → (cli_stack c' = 0 → int_enabled c' = b) →
  running_on (with_cpu m i c' b) i c'.
Proof.
  intros H ? ? ? ? ? ?. destruct H as [Hs Hf Hc _ _ _ _]. split; cbn; try done.
  - by erewrite find_cpu_insert.
  - apply list_lookup_insert_eq. by eapply lookup_lt_Some.
Qed.

Section running.
Context (m : machine) (i : nat) (c : x86_cpu).
Hypothesis RO : running_on m i c.

Lemma cpu_current_run : cpu_current m = Done (CpuAt i, m).
Proof.
  destruct RO as [Hs Hf _ _ _ _ _]. unfold cpu_current, bind, get.
  rewrite (proj2 (Z.eqb_neq _ _) Hs), Hf. done.
Qed.

Lemma read_cpu_run : read_cpu (CpuAt i) m = Done (c, m).
Proof. unfold read_cpu, gets. by rewrite (ro_cpu _ _ _ RO). Qed.

Lemma write_cpu_run f : write_cpu (CpuAt i) f m = Done (tt, with_cpu m i (f c) (eflags_if m)).
Proof. unfold write_cpu, modify. by rewrite (alter_cpu _ _ _ _ (ro_cpu _ _ _ RO)). Qed.

Lemma nof_cpus_eqb : (nof_cpus m =? 0) = false.
Proof. apply Z.eqb_neq, (ro_some _ _ _ RO). Qed.

Lemma running_push : running_on (with_cpu m i (set_cli_stack (cli_stack c + 1) c) false) i
                       (set_cli_stack (cli_stack c + 1) c).
Proof.
  pose proof RO as [? ? ? ? ? ? ?]. eapply running_with_cpu; try done; cbn; lia.
Qed.

Lemma push_run :
  push_no_interrupts m =
  Done (tt, with_cpu m i (set_cli_stack (cli_stack c + 1) c) false).
Proof.
  unfold push_no_interrupts, cpu_get_eflags_if. unfold gets, bind at 1 2.
  rewrite nof_cpus_eqb. unfold cpu_force_cli, modify, bind at 1.
  assert (Hc : cpus (set_if false m) !! i = Some c) by apply RO.
  assert (Hf : cpu_current (set_if false m) = Done (CpuAt i, set_if false m)).
  { unfold cpu_current, bind, get. cbn. by rewrite nof_cpus_eqb, (ro_find _ _ _ RO). }
  rewrite (bind_run _ _ _ _ _ Hf). unfold bind at 1. unfold read_cpu, gets.
  rewrite Hc. cbn [default id].
  unfold when. destruct (Z.eqb_spec (cli_stack c) 0) as [E|E].
  - unfold write_cpu, modify, bind. rewrite (alter_cpu _ _ _ _ Hc).
    erewrite alter_cpu; [|apply list_lookup_insert_eq; by eapply lookup_lt_Some].
    rewrite with_cpu_with_cpu. do 2 f_equal.
    rewrite <- (ro_sync _ _ _ RO E). by destruct c.
  - unfold ret, write_cpu, modify, bind. by rewrite (alter_cpu _ _ _ _ Hc).
Qed.

Lemma pop_run :
  0 < cli_stack c →
  pop_no_interrupts m =
  Done (tt, with_cpu m i (set_cli_stack (cli_stack c - 1) c)
              ((cli_stack c - 1 =? 0) && int_enabled c)).
Proof.
  intros Hpos. unfold pop_no_interrupts, cpu_get_eflags_if. unfold gets, bind at 1 2.
  rewrite nof_cpus_eqb, (ro_if _ _ _ RO Hpos). rewrite (bind_run _ _ _ _ _ cpu_current_run).
  rewrite (bind_run _ _ _ _ _ (write_cpu_run _)). rewrite (ro_if _ _ _ RO Hpos).
  set (c' := set_cli_stack (cli_stack c - 1) c).
  assert (E : read_cpu (CpuAt i) (with_cpu m i c' false) = Done (c', with_cpu m i c' false)).
  { unfold read_cpu, gets. cbn. rewrite list_lookup_insert_eq; [done|].
    eapply lookup_lt_Some, RO. }
  rewrite (bind_run _ _ _ _ _ E). change (cli_stack c') with (cli_stack c - 1).
  rewrite (proj2 (Z.ltb_ge (cli_stack c - 1) 0)) by lia. unfold when.
  change (int_enabled c') with (int_enabled c).
  by destruct ((cli_stack c - 1 =? 0) && int_enabled c).
Qed.

End running.

Section brackets.
Context (m : machine) (i : nat) (c : x86_cpu).
Hypothesis RO : running_on m i c.

Lemma running_pushed_pop c' :
  magic c' = magic c → lapic_id c' = lapic_id c → 0 ≤ preempt_disabled c' →
  cli_stack c' = cli_stack c + 1 → int_enabled c' = int_enabled c →
  pop_no_interrupts (with_cpu m i c' false) =
  Done (tt, with_cpu m i (set_cli_stack (cli_stack c) c') (eflags_if m)).
Proof.
  intros Hm Hl Hp Hs Hi. pose proof RO as [? ? ? ? ? Hif Hsync].
  rewrite (pop_run _ i c') by
    (try (eapply running_with_cpu; try done; lia); lia).
  rewrite with_cpu_with_cpu. do 3 f_equal; [f_equal; lia|].
  rewrite Hs, Hi. replace (cli_stack c + 1 - 1) with (cli_stack c) by lia.
  destruct (Z.eqb_spec (cli_stack c) 0) as [E|E]; cbn; [by apply Hsync|].
  symmetry. apply Hif. lia.
Qed.

Lemma push_pop_run : bind push_no_interrupts (fun _ => pop_no_interrupts) m = Done (tt, m).
Proof.
  rewrite (bind_run _ _ _ _ _ (push_run _ _ _ RO)).
  rewrite running_pushed_pop; try done; [|apply RO].
  rewrite <- (with_cpu_same m i c) at 3 by apply RO. by destruct c.
Qed.

(** What [preempt_disable] and [preempt_enable] do to the machine: only the
    counter of the executing CPU changes. *)
Definition preempted (n : Z) : machine := with_cpu m i (set_preempt n c) (eflags_if m).

Lemma running_preempted n : 0 ≤ n → running_on (preempted n) i (set_preempt n c).
Proof. intros. pose proof RO as [? ? ? ? ? ? ?]. by eapply running_with_cpu. Qed.

Lemma preempt_disable_run :
  preempt_disable m = Done (tt, preempted (preempt_disabled c + 1)).
Proof.
  pose proof RO as [? ? ? ? ? ? ?].
  unfold preempt_disable. unfold bind at 1, gets. rewrite (nof_cpus_eqb _ _ _ RO).
  rewrite (bind_run _ _ _ _ _ (push_run _ _ _ RO)).
  pose proof (running_push _ _ _ RO) as RO'.
  rewrite (bind_run _ _ _ _ _ (cpu_current_run _ _ _ RO')).
  rewrite (bind_run _ _ _ _ _ (write_cpu_run _ _ _ RO' _)).
  rewrite with_cpu_with_cpu. cbn [eflags_if with_cpu set_if].
  rewrite running_pushed_pop; cbn; try done; lia.
Qed.

Lemma preempt_enable_run :
  0 < preempt_disabled c →
  preempt_enable m = Done (tt, preempted (preempt_disabled c - 1)).
Proof.
  intros Hpos. pose proof RO as [? ? ? ? ? ? ?].
  unfold preempt_enable. unfold bind at 1, gets. rewrite (nof_cpus_eqb _ _ _ RO).
  rewrite (bind_run _ _ _ _ _ (push_run _ _ _ RO)).
  pose proof (running_push _ _ _ RO) as RO'.
  rewrite (bind_run _ _ _ _ _ (cpu_current_run _ _ _ RO')).
  rewrite (bind_run _ _ _ _ _ (write_cpu_run _ _ _ RO' _)).
  rewrite with_cpu_with_cpu. cbn [eflags_if with_cpu set_if].
  set (c' := set_preempt _ _).
  assert (RO2 : running_on (with_cpu m i c' false) i c').
  { eapply running_with_cpu; try done; cbn; lia. }
  rewrite (bind_run _ _ _ _ _ (read_cpu_run _ _ _ RO2)).
  replace (preempt_disabled c' <? 0) with false
    by (symmetry; apply Z.ltb_ge; cbn; lia).
  rewrite running_pushed_pop; cbn; try done; lia.
Qed.

End brackets.

Lemma on_mach_run {A} (f : M machine A) m l a m' :
  f m = Done (a, m') → on_mach f (mk_ls m l) = Done (a, mk_ls m' l).
Proof. intros E. unfold on_mach, zoom. cbn. by rewrite E. Qed.

(** Step over one machine operation of a locked computation. *)
Ltac step_mach E := rewrite (bind_run _ _ _ _ _ (on_mach_run _ _ _ _ _ E)).

(** The lock is held by the CPU with record [c]. *)
Definition held_by (l : cpu_spinlock) (c : x86_cpu) : bool :=
  negb (locked l =? 0) && (lcpu l =? num c).

Section locks.
Context (m : machine) (i : nat) (c : x86_cpu).
Hypothesis RO : running_on m i c.

Lemma held_run l :
  cpu_spinlock_held (mk_ls m l) = Done (held_by l c, mk_ls m l).
Proof.
  unfold cpu_spinlock_held. step_mach (push_run _ _ _ RO).
  unfold bind at 1, gets. cbn [ls_lock].
  pose proof (running_push _ _ _ RO) as RO'. set (m' := with_cpu _ _ _ _) in *.
  set (c' := set_cli_stack _ _) in *.
  assert (Hpop : pop_no_interrupts m' = Done (tt, m)).
  { pose proof (push_pop_run _ _ _ RO) as E.
    by rewrite (bind_run _ _ _ _ _ (push_run _ _ _ RO)) in E. }
  assert (E : (if locked l =? 0 then ret false
               else cpu <- on_mach cpu_current;;
                    c <- on_mach (read_cpu cpu);; ret (lcpu l =? num c)) (mk_ls m' l)
              = Done (held_by l c, mk_ls m' l)).
  { unfold held_by. destruct (locked l =? 0); [done|].
    step_mach (cpu_current_run _ _ _ RO'). by step_mach (read_cpu_run _ _ _ RO'). }
  rewrite (bind_run _ _ _ _ _ E). by step_mach Hpop.
Qed.

End locks.

Section bracketed_locks.
Context (m : machine) (i : nat) (c : x86_cpu).
Hypothesis RO : running_on m i c.

(** Acquiring: a lock held by this CPU is taken again, a free one is taken, and
    the CPU waits for one held elsewhere; one more level of preemption is
    disabled. *)
Lemma acquire_run l :
  cpu_spinlock_acquire (mk_ls m l) =
  if held_by l c then
    Done (tt, mk_ls (preempted m i c (preempt_disabled c + 1))
                (mk_spinlock (locked l) (lnum l + 1) (lcpu l)))
  else if locked l =? 0 then
    Done (tt, mk_ls (preempted m i c (preempt_disabled c + 1)) (mk_spinlock 1 1 (num c)))
  else Hang.
Proof.
  pose proof RO as [? ? ? ? ? ? ?].
  unfold cpu_spinlock_acquire. unfold bind at 1, on_mach at 1, zoom, cpu_get_eflags_if, gets.
  cbn [ls_mach ls_lock]. step_mach (preempt_disable_run _ _ _ RO).
  pose proof (running_preempted _ _ _ RO (preempt_disabled c + 1) ltac:(lia)) as RO1.
  set (m1 := preempted _ _ _ _) in *. set (c1 := set_preempt _ _) in *.
  step_mach (push_run _ _ _ RO1). pose proof (running_push _ _ _ RO1) as RO2.
  set (m2 := with_cpu _ _ _ _) in *. set (c2 := set_cli_stack _ _) in *.
  assert (Hpop : pop_no_interrupts m2 = Done (tt, m1)).
  { pose proof (push_pop_run _ _ _ RO1) as E.
    by rewrite (bind_run _ _ _ _ _ (push_run _ _ _ RO1)) in E. }
  assert (Hcli : set_if false m2 = m2) by done.
  rewrite (bind_run _ _ _ _ _ (held_run _ _ _ RO2 l)).
  change (held_by l c2) with (held_by l c). destruct (held_by l c) eqn:Hh.
  - unfold bind at 1, set_lock, modify. cbn [ls_mach ls_lock].
    by rewrite (on_mach_run _ _ _ _ _ Hpop).
  - assert (E : (if eflags_if m then spin_interruptible else spin_uninterruptible) (mk_ls m2 l)
              = if locked l =? 0 then Done (tt, mk_ls m2 (mk_spinlock 1 (lnum l) (lcpu l)))
                else Hang).
    { destruct (eflags_if m); unfold spin_interruptible, spin_uninterruptible;
        [step_mach (eq_refl : cpu_force_cli m2 = Done (tt, set_if false m2)); rewrite Hcli|];
        unfold asm_xchg1, bind, gets, set_lock, modify, ret; cbn; by destruct (locked l =? 0). }
    destruct (locked l =? 0) eqn:El; unfold bind at 1; unfold bind at 1; rewrite E; [|done].
    unfold bind at 1, set_lock at 1, modify. cbn [ls_mach ls_lock locked lnum lcpu].
    step_mach (cpu_current_run _ _ _ RO2). step_mach (read_cpu_run _ _ _ RO2).
    unfold set_lock, modify. cbn [ls_mach ls_lock locked lnum lcpu].
    by rewrite (on_mach_run _ _ _ _ _ Hpop).
Qed.

(** Releasing one level of a lock held by this CPU. *)
Lemma release_run l :
  held_by l c = true → lcpu l ≠ CPU_SPINLOCK_INVALID_CPU → 0 < preempt_disabled c →
  cpu_spinlock_release (mk_ls m l) =
  Done (tt, mk_ls (preempted m i c (preempt_disabled c - 1))
              (if lnum l - 1 >? 0 then mk_spinlock (locked l) (lnum l - 1) (lcpu l)
               else mk_spinlock 0 (lnum l - 1) CPU_SPINLOCK_INVALID_CPU)).
Proof.
  intros Hh Hv Hp. unfold cpu_spinlock_release. step_mach (push_run _ _ _ RO).
  pose proof (running_push _ _ _ RO) as RO'. set (m' := with_cpu _ _ _ _) in *.
  set (c' := set_cli_stack _ _) in *.
  assert (Hpop : pop_no_interrupts m' = Done (tt, m)).
  { pose proof (push_pop_run _ _ _ RO) as E.
    by rewrite (bind_run _ _ _ _ _ (push_run _ _ _ RO)) in E. }
  unfold bind at 1, gets at 1. cbn [ls_lock]. rewrite (proj2 (Z.eqb_neq _ _) Hv).
  rewrite (bind_run _ _ _ _ _ (held_run _ _ _ RO' l)).
  change (held_by l c') with (held_by l c). rewrite Hh. cbn [negb].
  unfold bind at 1, set_lock at 1, modify at 1. cbn [ls_mach ls_lock locked lnum lcpu].
  unfold bind at 1, gets at 1. cbn [ls_mach ls_lock locked lnum lcpu].
  assert (E : ∀ l' , (if lnum l - 1 >? 0 then ret tt else
      set_lock (fun l => mk_spinlock (locked l) (lnum l) CPU_SPINLOCK_INVALID_CPU) ;;;
      set_lock (fun l => mk_spinlock 0 (lnum l) (lcpu l))) (mk_ls m' l')
      = Done (tt, mk_ls m' (if lnum l - 1 >? 0 then l'
                            else mk_spinlock 0 (lnum l') CPU_SPINLOCK_INVALID_CPU))).
  { intros l'. by destruct (lnum l - 1 >? 0). }
  rewrite (bind_run _ _ _ _ _ (E _)). step_mach Hpop.
  by rewrite (on_mach_run _ _ _ _ _ (preempt_enable_run _ _ _ RO Hp)).
Qed.

(** Releasing a lock this CPU does not hold stops the machine. *)
Lemma release_unheld l :
  held_by l c = false →
  cpu_spinlock_release (mk_ls m l) =
  Panic "cpu_spinlock_release(): called on an unheld spinlock".
Proof.
  intros Hh. unfold cpu_spinlock_release. step_mach (push_run _ _ _ RO).
  unfold bind at 1, gets at 1. cbn [ls_lock].
  destruct (lcpu l =? CPU_SPINLOCK_INVALID_CPU); [done|].
  rewrite (bind_run _ _ _ _ _ (held_run _ _ _ (running_push _ _ _ RO) l)).
  change (held_by l (set_cli_stack (cli_stack c + 1) c)) with (held_by l c). by rewrite Hh.
Qed.

Lemma preempted_back :
  preempted (preempted m i c (preempt_disabled c + 1)) i
    (set_preempt (preempt_disabled c + 1) c) (preempt_disabled c) = m.
Proof.
  unfold preempted. rewrite with_cpu_with_cpu. cbn [eflags_if with_cpu set_if].
  rewrite <- (with_cpu_same m i c) at 3 by apply RO. by destruct c.
Qed.

End bracketed_locks.

(** ** Data guarded by a spinlock

    A component that keeps its static data behind a [cpu_spinlock] brackets its
    operations with acquire and release. *)

Record guarded (T : Type) := mk_guarded {
  g_ls : lock_state;
  g_val : T;
}.

Arguments mk_guarded {T} g_ls g_val.
Arguments g_ls {T} _.
Arguments g_val {T} _.

Definition on_lock {T A} (f : M lock_state A) : M (guarded T) A :=
  zoom g_ls (fun l s => mk_guarded l (g_val s)) f.
Definition on_val {T A} (f : M T A) : M (guarded T) A :=
  zoom g_val (fun t s => mk_guarded (g_ls s) t) f.

(** No CPU is registered yet: interrupts are off and the initial record stands for the CPU. *)
Definition booting (m : machine) : Prop :=
  nof_cpus m = 0 ∧ eflags_if m = false ∧ num (initial_cpu m) ≠ CPU_SPINLOCK_INVALID_CPU.

(** The lock is free and the executing CPU is set up, or the kernel is booting. *)
Definition cpu_unlocked (l : lock_state) : Prop :=
  ls_lock l = free_lock ∧
  ∃ i c, running_on (ls_mach l) i c ∧ num c ≠ CPU_SPINLOCK_INVALID_CPU.
Definition unlocked (l : lock_state) : Prop :=
  cpu_unlocked l ∨ (ls_lock l = free_lock ∧ booting (ls_mach l)).

Lemma unlocked_on_cpu l : cpu_unlocked l → unlocked l.
Proof. by left. Qed.

(** The lock state inside the critical section entered from [l]. *)
Definition entered (l : lock_state) : lock_state :=
  match cpu_spinlock_acquire l with
  | Done (_, l') => l'
  | _ => l
  end.

(** Without registered CPUs only the lock itself changes. *)
Lemma boot_acquire_run m :
  booting m →
  let l := mk_ls m (mk_spinlock 1 1 (num (initial_cpu m))) in
  cpu_spinlock_acquire (mk_ls m free_lock) = Done (tt, l) ∧
  cpu_spinlock_release l = Done (tt, mk_ls m free_lock) ∧ cpu_spinlock_held l = Done (true, l) ∧
  cpu_spinlock_held (mk_ls m free_lock) = Done (false, mk_ls m free_lock).
Proof.
  intros (Hn & He & Hv) l.
  assert (Hp : push_no_interrupts m = Done (tt, m)) by (unfold push_no_interrupts, bind, gets, cpu_get_eflags_if, gets; rewrite Hn; cbn; by rewrite He).
  assert (Hq : pop_no_interrupts m = Done (tt, m)) by (unfold pop_no_interrupts, bind, gets, cpu_get_eflags_if, gets; rewrite Hn; cbn; by rewrite He).
  assert (Hd : preempt_disable m = Done (tt, m)) by (unfold preempt_disable, bind, gets, cpu_get_eflags_if, gets; rewrite Hn; cbn; by rewrite He).
  assert (Hr : preempt_enable m = Done (tt, m)) by (unfold preempt_enable, bind, gets, cpu_get_eflags_if, gets; rewrite Hn; cbn; by rewrite He).
  assert (Hc : cpu_current m = Done (InitialCpu, m)) by (unfold cpu_current, bind, get; by rewrite Hn).
  assert (Hi : read_cpu InitialCpu m = Done (initial_cpu m, m)) by done.
  assert (Hh : cpu_spinlock_held l = Done (true, l)).
  { unfold cpu_spinlock_held, l. step_mach Hp. unfold bind at 1, gets. cbn [ls_lock locked]. change (1 =? 0) with false. cbv iota.
    unfold bind at 1. step_mach Hc. step_mach Hi. unfold ret at 1. cbn [lcpu]. rewrite Z.eqb_refl. by step_mach Hq. }
  assert (Hf : cpu_spinlock_held (mk_ls m free_lock) = Done (false, mk_ls m free_lock)).
  { unfold cpu_spinlock_held. step_mach Hp. unfold bind at 1, gets. cbn [ls_lock locked free_lock]. change (0 =? 0) with true. cbv iota.
    unfold bind at 1, ret at 1. by step_mach Hq. }
  split; [|split; [|split; [exact Hh|exact Hf]]].
  - unfold cpu_spinlock_acquire. unfold bind at 1, on_mach at 1, zoom, cpu_get_eflags_if, gets. cbn [ls_mach ls_lock]. rewrite He.
    step_mach Hd. step_mach Hp.
    rewrite (bind_run _ _ _ _ _ Hf). unfold bind at 1, spin_uninterruptible, asm_xchg1, bind, gets, set_lock, modify, ret. cbn [ls_lock ls_mach locked free_lock].
    change (0 =? 0) with true. cbv iota. cbn [ls_lock ls_mach lnum lcpu locked].
    rewrite (on_mach_run _ _ _ _ _ Hc), (on_mach_run _ _ _ _ _ Hi). cbn [ls_lock ls_mach lnum lcpu locked]. by rewrite (on_mach_run _ _ _ _ _ Hq).
  - unfold cpu_spinlock_release, l. step_mach Hp. unfold bind at 1, gets. cbn [ls_lock lcpu]. rewrite (proj2 (Z.eqb_neq _ _) Hv).
    rewrite (bind_run _ _ _ _ _ Hh). cbn [negb]. unfold l, bind, set_lock, modify, gets, ret. cbn [ls_lock ls_mach lnum lcpu locked].
    change (1 - 1 >? 0) with false. cbv iota. cbn [ls_lock ls_mach lnum lcpu locked]. rewrite (on_mach_run _ _ _ _ _ Hq). by rewrite (on_mach_run _ _ _ _ _ Hr).
Qed.

Lemma acquire_release_run l :
  unlocked l →
  cpu_spinlock_acquire l = Done (tt, entered l) ∧
  cpu_spinlock_release (entered l) = Done (tt, l) ∧
  cpu_spinlock_held (entered l) = Done (true, entered l).
Proof.
  intros [(Hl & i & c & RO & Hn)|[Hl Hb]].
  2:{ destruct l as [m lk]. cbn in Hl, Hb. subst lk. destruct (boot_acquire_run m Hb) as (E1 & E2 & E3 & _). unfold entered. by rewrite E1. }
  destruct l as [m lk]. cbn in Hl, RO. subst lk.
  pose proof RO as [? ? ? ? ? ? ?].
  pose proof (running_preempted _ _ _ RO (preempt_disabled c + 1) ltac:(lia)) as RO1.
  unfold entered. rewrite (acquire_run _ _ _ RO). cbn [held_by free_lock locked Z.eqb negb andb].
  assert (Hh : held_by (mk_spinlock 1 1 (num c)) (set_preempt (preempt_disabled c + 1) c) = true)
    by (cbn; apply Z.eqb_refl).
  split; [done|split].
  - rewrite (release_run _ _ _ RO1) by (try done; cbn; lia). cbn -[preempted].
    replace (preempt_disabled c + 1 - 1) with (preempt_disabled c) by lia.
    by rewrite (preempted_back _ _ _ RO).
  - by rewrite (held_run _ _ _ RO1), Hh.
Qed.

Lemma unlocked_held l : unlocked l → cpu_spinlock_held l = Done (false, l).
Proof.
  intros [(Hl & i & c & RO & Hn)|[Hl Hb]]; destruct l as [m lk]; cbn in *; subst lk; [by rewrite (held_run _ _ _ RO)|].
  apply (boot_acquire_run m Hb).
Qed.

(** Enter a critical section; leave one. *)
Lemma enter_run {T A} (k : unit → M (guarded T) A) l t :
  unlocked l →
  bind (on_lock cpu_spinlock_acquire) k (mk_guarded l t) = k tt (mk_guarded (entered l) t).
Proof.
  intros Hu. destruct (acquire_release_run _ Hu) as (Ea & _ & _).
  unfold bind, on_lock, zoom. cbn [g_ls g_val]. by rewrite Ea.
Qed.

Lemma leave_run {T A} (k : unit → M (guarded T) A) l t :
  unlocked l →
  bind (on_lock cpu_spinlock_release) k (mk_guarded (entered l) t) = k tt (mk_guarded l t).
Proof.
  intros Hu. destruct (acquire_release_run _ Hu) as (_ & Er & _).
  unfold bind, on_lock, zoom. cbn [g_ls g_val]. by rewrite Er.
Qed.

Lemma leave_last {T} l (t : T) :
  unlocked l →
  on_lock cpu_spinlock_release (mk_guarded (entered l) t) = Done (tt, mk_guarded l t).
Proof.
  intros Hu. destruct (acquire_release_run _ Hu) as (_ & Er & _).
  unfold on_lock, zoom. cbn [g_ls g_val]. by rewrite Er.
Qed.

Lemma entered_cr3 l : unlocked l → cr3 (ls_mach (entered l)) = cr3 (ls_mach l).
Proof.
  intros [(Hl & i & c & RO & Hn)|[Hl Hb]]; destruct l as [m lk]; cbn in *; subst lk; unfold entered.
  - by rewrite (acquire_run _ _ _ RO).
  - by rewrite (proj1 (boot_acquire_run m Hb)).
Qed.

(** An example machine: two CPUs, number 1 running with interrupts enabled. *)
Definition example_machine : machine :=
  mk_machine [mk_cpu X86_CPU_MAGIC 0 true 0 true 0 0; mk_cpu X86_CPU_MAGIC 1 true 4 true 0 0]
    2 zero_cpu 2 true 4 0 true.

Definition example_ls : lock_state := mk_ls example_machine free_lock.

Lemma example_running : running_on example_machine 1 (mk_cpu X86_CPU_MAGIC 1 true 4 true 0 0).
Proof. by split. Qed.

Lemma example_cpu_unlocked : cpu_unlocked example_ls.
Proof. split; [done|]. eexists 1%nat, _. by split; [apply example_running|]. Qed.

Lemma example_unlocked : unlocked example_ls.
Proof. left. apply example_cpu_unlocked. Qed.

(** Interrupt-disabling is a bracket: on the executing CPU,
    push_no_interrupts followed by pop_no_interrupts returns the machine to
    exactly the state it had, interrupt flag included, and between the two the
    interrupt flag is clear and the nesting count is one higher. *)
Theorem no_interrupts_bracket m i c :
  running_on m i c →
  bind push_no_interrupts (fun _ => pop_no_interrupts) m = Done (tt, m) ∧
  ∃ m', push_no_interrupts m = Done (tt, m') ∧ eflags_if m' = false ∧
        running_on m' i (set_cli_stack (cli_stack c + 1) c).
Proof.
  intros RO. split; [by apply (push_pop_run m i c)|].
  eexists. split; [by apply push_run|]. split; [done|by apply (running_push m i c)].
Qed.

Lemma no_interrupts_bracket_witness :
  bind push_no_interrupts (fun _ => pop_no_interrupts) example_machine
    = Done (tt, example_machine).
Proof. apply (no_interrupts_bracket example_machine 1 _ example_running). Defined.

(** The whole behaviour of a spinlock operation of one CPU.  Acquiring a
    lock the CPU already holds nests, acquiring a free one takes it, acquiring
    one another CPU holds never returns; either way preemption is disabled one
    level more.  Releasing undoes exactly one level and, at the last one, frees
    the lock; releasing a lock not held by this CPU panics. *)
Theorem spinlock_behaviour m i c l :
  running_on m i c → num c ≠ CPU_SPINLOCK_INVALID_CPU →
  cpu_spinlock_acquire (mk_ls m l) =
    (if held_by l c then
       Done (tt, mk_ls (preempted m i c (preempt_disabled c + 1))
                   (mk_spinlock (locked l) (lnum l + 1) (lcpu l)))
     else if locked l =? 0 then
       Done (tt, mk_ls (preempted m i c (preempt_disabled c + 1)) (mk_spinlock 1 1 (num c)))
     else Hang) ∧
  (held_by l c = false →
     cpu_spinlock_release (mk_ls m l) =
     Panic "cpu_spinlock_release(): called on an unheld spinlock") ∧
  (held_by l c = true → 0 < preempt_disabled c →
     cpu_spinlock_release (mk_ls m l) =
     Done (tt, mk_ls (preempted m i c (preempt_disabled c - 1))
                 (if lnum l - 1 >? 0 then mk_spinlock (locked l) (lnum l - 1) (lcpu l)
                  else mk_spinlock 0 (lnum l - 1) CPU_SPINLOCK_INVALID_CPU))).
Proof.
  intros RO Hn. split; [by apply acquire_run|]. split; [by apply (release_unheld m i c)|].
  intros Hh Hp. apply release_run; try done.
  unfold held_by in Hh. zbool. congruence.
Qed.

Lemma spinlock_behaviour_witness :
  cpu_spinlock_release (mk_ls example_machine free_lock)
    = Panic "cpu_spinlock_release(): called on an unheld spinlock" ∧
  cpu_spinlock_acquire (mk_ls example_machine (mk_spinlock 1 1 0)) = Hang.
Proof.
  split.
  - by apply (spinlock_behaviour example_machine 1 _ free_lock example_running).
  - exact (proj1 (spinlock_behaviour example_machine 1 _ (mk_spinlock 1 1 0) example_running
                    ltac:(done))).
Defined.
