(* ===== verification/Palloc.v ===== *)
(** * arch/i386/palloc.c: the physical page allocator

    Free pages are linked through their own first twelve bytes ([struct page]:
    magic at 0, prev at 4, next at 8), so the allocator's data structure lives in
    the memory it hands out.  The static variables and that memory are one
    [palloc_state] guarded by the allocator's spinlock ([Cpu.guarded]).  The
    virtual memory map and the address of the kernel page directory are
    arguments. *)

From stdpp Require Import base list strings.
From Stdlib Require Import ZArith Lia.
From S2P Require Import Prelude Memory KUtils MemLayout Cpu.

Definition PALLOC_PAGE_MAGIC : Z := 0x12345678.

Record palloc_state := mk_palloc {
  pmem : mem;
  initialized : bool;
  first_free_page : Z;
  palloc_region : option vm_region;
  remaining_pages : Z;
}.

Abbreviation palloc_sys := (guarded palloc_state).

Definition set_pmem (m : mem) (s : palloc_state) : palloc_state :=
  mk_palloc m (initialized s) (first_free_page s) (palloc_region s) (remaining_pages s).
Definition set_first (p : Z) (s : palloc_state) : palloc_state :=
  mk_palloc (pmem s) (initialized s) p (palloc_region s) (remaining_pages s).
Definition set_remaining (n : Z) (s : palloc_state) : palloc_state :=
  mk_palloc (pmem s) (initialized s) (first_free_page s) (palloc_region s) n.

(** Fields of the [struct page] at a virtual address. *)
Definition page_magic (m : mem) (v : Z) : Z := load32 m v.
Definition page_prev (m : mem) (v : Z) : Z := load32 m (v + 4).
Definition page_next (m : mem) (v : Z) : Z := load32 m (v + 8).

Definition load (a : Z) : M palloc_sys Z := gets (fun s => load32 (pmem (g_val s)) a).
Definition store (a v : Z) : M palloc_sys unit :=
  on_val (modify (fun s => set_pmem (store32 (pmem s) a v) s)).

(** Dereferencing the region pointer before [init_palloc] is a fault. *)
Definition the_region : M palloc_sys vm_region :=
  s <- get ;;
  match palloc_region (g_val s) with
  | Some r => ret r
  | None => kpanic "page fault"
  end.

Definition is_mappable (r : vm_region) (p : Z) : bool :=
  (pbase r <=? p) && (p <? u32 (pbase r + rsize r)).

Definition vtranslate (r : vm_region) (v : Z) : M palloc_sys Z :=
  kassert "vtranslate" ((vbase r <=? v) && (v <? u32 (vbase r + rsize r))) ;;;
  ret (u32 (pbase r + (v - vbase r))).

Definition ptranslate (p : Z) : M palloc_sys Z :=
  r <- the_region ;;
  if negb (is_mappable r p) then ret 0 else ret (u32 (vbase r + (p - pbase r))).

Definition palloc_get_granularity : Z := PAGE_SIZE.

Section operations.
Variable vm_map : list vm_region.
Variable phys_kernel_pd : Z.

Definition is_using_kernel_page_tables : M palloc_sys bool :=
  gets (fun s => cr3 (ls_mach (g_ls s)) =? phys_kernel_pd).

Definition init_palloc : M palloc_sys unit :=
  s <- get ;;
  if initialized (g_val s) then ret tt else
  kassert "is_yaos2_initialized() == false" (negb (yaos2_initialized (ls_mach (g_ls s)))) ;;;
  on_val (modify (fun t => mk_palloc (pmem t) (initialized t) 0
                             (vm_map !! VM_PALLOC_REGION) (remaining_pages t))) ;;;
  on_lock (set_lock (fun _ => cpu_spinlock_create)) ;;;
  on_val (modify (fun t => mk_palloc (pmem t) true (first_free_page t) (palloc_region t)
                             (remaining_pages t))).

Definition palloc_get_remaining : M palloc_sys Z :=
  on_lock cpu_spinlock_acquire ;;;
  n <- gets (fun s => remaining_pages (g_val s)) ;;
  on_lock cpu_spinlock_release ;;;
  ret (u32 (n * PAGE_SIZE)).

(** Unlink the first free page: its virtual and physical address. *)
Definition palloc_take : M palloc_sys (Z * Z) :=
  page <- gets (fun s => first_free_page (g_val s)) ;;
  if page =? 0 then ret (0, PHYS_NULL) else
  magic <- load page ;;
  if negb (magic =? PALLOC_PAGE_MAGIC) then
    kpanic "palloc(): unallocated page has been tampered with"
  else
  next <- load (page + 8) ;;
  on_val (modify (set_first next)) ;;;
  when (negb (next =? 0)) (store (next + 4) 0) ;;;
  r <- the_region ;;
  p <- vtranslate r page ;;
  on_val (modify (fun s => set_remaining (u32 (remaining_pages s - 1)) s)) ;;;
  ret (page, p).

Definition palloc : M palloc_sys Z :=
  on_lock cpu_spinlock_acquire ;;;
  k <- is_using_kernel_page_tables ;;
  if negb k then kpanic "palloc(): called with non-kernel page tables" else
  vp <- palloc_take ;;
  on_lock cpu_spinlock_release ;;;
  when (negb (fst vp =? 0))
    (on_val (modify (fun s => set_pmem (kmemset (pmem s) (fst vp) 0 PAGE_SIZE) s))) ;;;
  ret (snd vp).

(** Link the page at virtual address [page] in front of the free list. *)
Definition pfree_link (page : Z) : M palloc_sys unit :=
  store page PALLOC_PAGE_MAGIC ;;;
  store (page + 4) 0 ;;;
  first <- gets (fun s => first_free_page (g_val s)) ;;
  store (page + 8) first ;;;
  when (negb (first =? 0)) (store (first + 4) page) ;;;
  on_val (modify (set_first page)) ;;;
  on_val (modify (fun s => set_remaining (u32 (remaining_pages s + 1)) s)).

Definition pfree (p : Z) : M palloc_sys unit :=
  r <- the_region ;;
  if negb (is_mappable r p) then
    kpanic "pfree(): attempted to free a page from outside of the palloc region"
  else
  on_lock cpu_spinlock_acquire ;;;
  k <- is_using_kernel_page_tables ;;
  if negb k then kpanic "pfree(): called with non-kernel page tables" else
  page <- ptranslate p ;;
  pfree_link page ;;;
  on_lock cpu_spinlock_release.

(** One iteration of the loop of [palloc_add_free_region]. *)
Definition add_free_page (from : Z) : M palloc_sys unit :=
  r <- the_region ;;
  if negb (is_mappable r from) then ret tt else
  page <- ptranslate from ;;
  magic <- load page ;;
  if magic =? PALLOC_PAGE_MAGIC then ret tt else
  pfree from.

Fixpoint add_free_loop (n : nat) (from : Z) : M palloc_sys unit :=
  match n with
  | O => ret tt
  | S n' => add_free_page from ;;; add_free_loop n' (u32 (from + PAGE_SIZE))
  end.

(** The loop counts from [from] to [to] by pages: both are page-aligned, so it
    makes [(to - from) / PAGE_SIZE] iterations. *)
Definition palloc_add_free_region (from to : Z) : M palloc_sys unit :=
  s <- get ;;
  kassert "is_yaos2_initialized() == false" (negb (yaos2_initialized (ls_mach (g_ls s)))) ;;;
  kassert "is_aligned_to_page_size(from)" (is_aligned_to_page_size from) ;;;
  kassert "is_aligned_to_page_size(to)" (is_aligned_to_page_size to) ;;;
  add_free_loop (Z.to_nat ((to - from) / PAGE_SIZE)) from.

End operations.

Definition palloc_lock_held : M palloc_sys bool := on_lock cpu_spinlock_held.

(** ** The free list *)

(** The doubly linked list of free pages from [head], entered from [prev]. *)
Fixpoint chain (m : mem) (prev head : Z) (l : list Z) : Prop :=
  match l with
  | [] => head = 0
  | v :: l' =>
      head = v ∧ page_magic m v = PALLOC_PAGE_MAGIC ∧ page_prev m v = prev ∧
      chain m v (page_next m v) l'
  end.

(** A page of the region, by virtual address. *)
Definition page_ok (r : vm_region) (v : Z) : Prop :=
  v mod PAGE_SIZE = 0 ∧ vbase r ≤ v ∧ v + PAGE_SIZE ≤ vbase r + rsize r.

Record region_ok (r : vm_region) : Prop := {
  rg_v : 0 < vbase r;
  rg_p : 0 < pbase r;
  rg_size : 0 ≤ rsize r;
  rg_vend : vbase r + rsize r < 2 ^ 32;
  rg_pend : pbase r + rsize r < 2 ^ 32;
  rg_aligned : vbase r mod PAGE_SIZE = 0;
  rg_paligned : pbase r mod PAGE_SIZE = 0;
  rg_saligned : rsize r mod PAGE_SIZE = 0;
}.

(** The state represents the free list [l] (virtual addresses, head first). *)
Record palloc_inv (r : vm_region) (l : list Z) (s : palloc_state) : Prop := {
  pi_init : initialized s = true;
  pi_region : palloc_region s = Some r;
  pi_bytes : byte_mem (pmem s);
  pi_chain : chain (pmem s) 0 (first_free_page s) l;
  pi_pages : Forall (page_ok r) l;
  pi_nodup : NoDup l;
  pi_count : remaining_pages s = Z.of_nat (length l);
}.

Definition v2p (r : vm_region) (v : Z) : Z := pbase r + (v - vbase r).
Definition p2v (r : vm_region) (p : Z) : Z := vbase r + (p - pbase r).

(** [a] lies in the page at [v]. *)
Definition in_page (v a : Z) : Prop := v ≤ a < v + PAGE_SIZE.

(** The two memories agree outside the pages of [l]. *)
Definition agree_off (l : list Z) (m m' : mem) : Prop :=
  ∀ a, (∀ v, v ∈ l → ¬ in_page v a) → m' a = m a.

(** ** Lemmas *)

Lemma page_ok_pos r v : region_ok r → page_ok r v → 0 < v ∧ v + PAGE_SIZE < 2 ^ 32.
Proof. intros [] (? & ? & ?). lia. Qed.

Lemma page_disjoint v w :
  v mod PAGE_SIZE = 0 → w mod PAGE_SIZE = 0 → v ≠ w →
  v + PAGE_SIZE ≤ w ∨ w + PAGE_SIZE ≤ v.
Proof.
  intros Hv Hw Hne. unfold PAGE_SIZE in *.
  pose proof (Z.div_mod v 4096 ltac:(lia)). pose proof (Z.div_mod w 4096 ltac:(lia)). lia.
Qed.

Lemma page_ok_disjoint r v w :
  page_ok r v → page_ok r w → v ≠ w → v + PAGE_SIZE ≤ w ∨ w + PAGE_SIZE ≤ v.
Proof. intros (Hv & _) (Hw & _). by apply page_disjoint. Qed.

Lemma chain_ext m m' p h l :
  (∀ v a, v ∈ l → v ≤ a < v + 12 → m' a = m a) → chain m p h l → chain m' p h l.
Proof.
  revert p h. induction l as [|v l IH]; intros p h Hext Hc; [done|].
  destruct Hc as (-> & Hm & Hp & Hc). unfold page_magic, page_prev, page_next in *.
  cbn [chain]. unfold page_magic, page_prev, page_next.
  assert (E : ∀ o, 0 ≤ o ≤ 8 → load32 m' (v + o) = load32 m (v + o)).
  { intros o Ho. apply load32_ext. intros x Hx. apply (Hext v); [by left|lia]. }
  pose proof (E 0 ltac:(lia)) as E0. rewrite Z.add_0_r in E0.
  rewrite !E, E0 by lia. repeat split; try done. apply IH; [|done].
  intros w a Hw. apply Hext. by right.
Qed.

(** The head's back link can be redirected without disturbing the rest. *)
Lemma chain_relink r m p h l q :
  region_ok r → Forall (page_ok r) l → NoDup l → is_u32 q →
  chain m p h l → chain (if h =? 0 then m else store32 m (h + 4) q) q h l.
Proof.
  intros Hr Hl Hn Hq. destruct l as [|v l]; [done|].
  intros (-> & Hm & Hp & Hc). apply Forall_cons in Hl as [Hv Hl].
  apply NoDup_cons in Hn as [Hvl Hn].
  pose proof (page_ok_pos _ _ Hr Hv). rewrite (proj2 (Z.eqb_neq v 0)) by lia.
  unfold page_magic, page_prev, page_next in *. cbn [chain].
  unfold page_magic, page_prev, page_next.
  rewrite load32_store32_eq by done. rewrite !load32_store32_ne by lia.
  repeat split; try done. eapply chain_ext; [|done].
  intros w a Hw Ha. apply store32_frame.
  rewrite Forall_forall in Hl. pose proof (page_ok_disjoint r v w Hv (Hl w Hw)) as D.
  unfold PAGE_SIZE in D. assert (v ≠ w) by (by intros ->). lia.
Qed.

Lemma chain_next_range m p h l : byte_mem m → chain m p h l → (∀ v, v ∈ l → is_u32 v) → is_u32 h.
Proof.
  destruct l as [|v l]; intros Hb Hc Hl; [cbn in Hc; subst; unfold is_u32; lia|].
  destruct Hc as (-> & _). apply Hl. by left.
Qed.

Lemma agree_off_store v m a x l :
  v ∈ l → v ≤ a → a + 4 ≤ v + PAGE_SIZE → agree_off l m (store32 m a x).
Proof.
  intros Hv H1 H2 b Hb. apply store32_frame. specialize (Hb v Hv). unfold in_page in Hb. lia.
Qed.

Lemma agree_off_refl l m : agree_off l m m.
Proof. by intros a _. Qed.

Lemma agree_off_trans l m1 m2 m3 : agree_off l m1 m2 → agree_off l m2 m3 → agree_off l m1 m3.
Proof. intros H1 H2 a Ha. rewrite H2 by done. by apply H1. Qed.

Lemma agree_off_mono l l' m m' : l ⊆ l' → agree_off l m m' → agree_off l' m m'.
Proof. intros Hs H a Ha. apply H. intros v Hv. apply Ha. by apply Hs. Qed.

#[export] Hint Resolve agree_off_refl agree_off_trans : mem.

Lemma pages_u32 r l v : region_ok r → Forall (page_ok r) l → v ∈ l → is_u32 v.
Proof.
  intros Hr Hl Hv. rewrite Forall_forall in Hl. pose proof (page_ok_pos r v Hr (Hl v Hv)).
  unfold is_u32, PAGE_SIZE in *. lia.
Qed.

(** A list of pairwise different 32-bit addresses is short. *)
Lemma pages_length r l :
  region_ok r → Forall (page_ok r) l → NoDup l → Z.of_nat (length l) < 2 ^ 32.
Proof.
  intros Hr Hl Hn. assert (Hs : l ⊆+ seqZ 0 (2 ^ 32 - 1)).
  { apply NoDup_submseteq; [done|]. intros v Hv. apply elem_of_seqZ.
    rewrite Forall_forall in Hl. pose proof (page_ok_pos r v Hr (Hl v Hv)).
    unfold PAGE_SIZE in *. lia. }
  apply submseteq_length in Hs. rewrite length_seqZ in Hs. lia.
Qed.

Lemma palloc_take_run r v l L t :
  region_ok r → palloc_inv r (v :: l) t →
  ∃ t', palloc_take (mk_guarded L t) = Done ((v, v2p r v), mk_guarded L t') ∧
        palloc_inv r l t' ∧ agree_off l (pmem t) (pmem t').
Proof.
  intros Hr [Hi Hreg Hb Hc Hp Hn Hk]. destruct Hc as (Hfirst & Hm & Hprev & Hc).
  pose proof Hp as Hp'. apply Forall_cons in Hp' as [Hv Hl].
  pose proof Hn as Hn'. apply NoDup_cons in Hn' as [Hvl Hnl].
  pose proof (page_ok_pos _ _ Hr Hv) as Hpos. pose proof Hr as [].
  unfold palloc_take. unfold bind at 1, gets at 1. cbn [g_val]. rewrite Hfirst.
  rewrite (proj2 (Z.eqb_neq v 0)) by lia.
  unfold bind at 1, load at 1, gets at 1. cbn [g_val].
  unfold page_magic in Hm. rewrite Hm, Z.eqb_refl. cbn [negb].
  unfold bind at 1, load at 1, gets at 1. cbn [g_val].
  set (next := load32 (pmem t) (v + 8)) in *.
  unfold bind at 1, on_val at 1, zoom, modify. cbn [g_ls g_val].
  set (m' := if next =? 0 then pmem t else store32 (pmem t) (next + 4) 0).
  assert (E : when (negb (next =? 0)) (store (next + 4) 0) (mk_guarded L (set_first next t))
              = Done (tt, mk_guarded L (set_pmem m' (set_first next t)))).
  { unfold when, m'. destruct (next =? 0); [|done]. by destruct t. }
  rewrite (bind_run _ _ _ _ _ E).
  unfold bind at 1, the_region, bind at 1, get. cbn [g_val palloc_region set_pmem set_first].
  rewrite Hreg. unfold ret at 1.
  assert (Ev : vtranslate r v (mk_guarded L (set_pmem m' (set_first next t)))
               = Done (v2p r v, mk_guarded L (set_pmem m' (set_first next t)))).
  { unfold vtranslate, v2p. destruct Hv as (_ & H1 & H2). unfold PAGE_SIZE in *.
    rewrite (u32_small (vbase r + rsize r)) by lia.
    unfold bind. rewrite kassert_true.
    - unfold ret. rewrite u32_small by lia. done.
    - apply andb_true_intro. split; [apply Z.leb_le|apply Z.ltb_lt]; lia. }
  rewrite (bind_run _ _ _ _ _ Ev).
  eexists. split; [reflexivity|]. cbn.
  pose proof (chain_relink r _ _ _ _ 0 Hr Hl Hnl ltac:(unfold is_u32; lia) Hc) as Hc'.
  unfold page_next in Hc'. fold next m' in Hc'. split.
  - split; cbn; try done.
    + unfold m'. destruct (next =? 0); [done|]. by apply byte_mem_store32.
    + rewrite Hk. cbn [length]. pose proof (pages_length r (v :: l) Hr Hp Hn). cbn in *.
      rewrite u32_small; lia.
  - unfold m'. destruct (Z.eqb_spec next 0) as [|Hnz]; [apply agree_off_refl|].
    destruct l as [|w l]; [done|]. destruct Hc as (Hw & _).
    apply (agree_off_store w); unfold page_next in Hw; fold next in Hw;
      [rewrite <- Hw; by left|lia|unfold PAGE_SIZE; lia].
Qed.

(** The allocator may be called: its lock is free and CR3 holds the kernel page
    directory [k]. *)
Definition callable (k : Z) (L : lock_state) : Prop := unlocked L ∧ cr3 (ls_mach L) = k.

Lemma kernel_tables_run k L (t : palloc_state) :
  callable k L →
  is_using_kernel_page_tables k (mk_guarded (entered L) t)
  = Done (true, mk_guarded (entered L) t).
Proof.
  intros [Hu Hk]. unfold is_using_kernel_page_tables, gets. cbn [g_ls].
  rewrite entered_cr3 by done. by rewrite Hk, Z.eqb_refl.
Qed.

(** Changing bytes inside pages that are not on the list keeps the list. *)
Lemma palloc_inv_mem r l t m' :
  byte_mem m' → (∀ v a, v ∈ l → in_page v a → m' a = pmem t a) →
  palloc_inv r l t → palloc_inv r l (set_pmem m' t).
Proof.
  intros Hb Hm [? ? ? ? ? ? ?]. split; cbn; try done.
  eapply chain_ext; [|done]. intros v a Hv Ha. apply (Hm v); [done|].
  unfold in_page, PAGE_SIZE. lia.
Qed.

Lemma kmemset_page r l v t :
  page_ok r v → v ∉ l → palloc_inv r l t →
  palloc_inv r l (set_pmem (kmemset (pmem t) v 0 PAGE_SIZE) t).
Proof.
  intros Hv Hvl Hi. apply palloc_inv_mem; [apply kmemset_byte_mem, Hi| |done].
  intros w a Hw Ha. apply kmemset_out. pose proof (pi_pages _ _ _ Hi) as Hp.
  rewrite Forall_forall in Hp. pose proof (page_ok_disjoint r v w Hv (Hp w Hw)) as D.
  assert (v ≠ w) by (by intros ->). unfold in_page, PAGE_SIZE in *. lia.
Qed.

Lemma palloc_run k r v l L t :
  region_ok r → callable k L → palloc_inv r (v :: l) t →
  ∃ t', palloc k (mk_guarded L t) = Done (v2p r v, mk_guarded L t') ∧
        palloc_inv r l t' ∧ agree_off (v :: l) (pmem t) (pmem t') ∧
        ∀ a, in_page v a → pmem t' a = 0.
Proof.
  intros Hr Hc Hi. unfold palloc. rewrite enter_run by apply Hc.
  rewrite (bind_run _ _ _ _ _ (kernel_tables_run _ _ _ Hc)). cbn [negb].
  destruct (palloc_take_run r v l (entered L) t Hr Hi) as (t1 & E & Hi1 & Ha).
  rewrite (bind_run _ _ _ _ _ E). rewrite leave_run by apply Hc. cbn [fst snd].
  pose proof (pi_pages _ _ _ Hi) as Hp. apply Forall_cons in Hp as [Hv _].
  pose proof (pi_nodup _ _ _ Hi) as Hn. apply NoDup_cons in Hn as [Hvl _].
  pose proof (page_ok_pos _ _ Hr Hv). rewrite (proj2 (Z.eqb_neq v 0)) by lia. cbn [negb when].
  eexists. split; [reflexivity|]. cbn [g_val]. split; [by apply (kmemset_page r l v)|]. split.
  - apply (agree_off_trans _ _ (pmem t1)).
    + apply (agree_off_mono l); [|done]. intros w Hw. by right.
    + intros a Hna. apply kmemset_out. specialize (Hna v ltac:(by left)).
      unfold in_page, PAGE_SIZE in *. lia.
  - intros a Hin. cbn [pmem set_pmem]. by rewrite kmemset_in.
Qed.

Lemma palloc_run_empty k r L t :
  callable k L → palloc_inv r [] t →
  palloc k (mk_guarded L t) = Done (PHYS_NULL, mk_guarded L t).
Proof.
  intros Hc [_ _ _ Hch _ _ _]. unfold palloc. rewrite enter_run by apply Hc.
  rewrite (bind_run _ _ _ _ _ (kernel_tables_run _ _ _ Hc)). cbn [negb].
  assert (E : palloc_take (mk_guarded (entered L) t)
              = Done ((0, PHYS_NULL), mk_guarded (entered L) t)).
  { unfold palloc_take. unfold bind at 1, gets at 1. cbn [g_val]. by rewrite Hch. }
  rewrite (bind_run _ _ _ _ _ E). by rewrite leave_run by apply Hc.
Qed.

Lemma the_region_run r l L t :
  palloc_inv r l t → the_region (mk_guarded L t) = Done (r, mk_guarded L t).
Proof. intros [_ Hr _ _ _ _ _]. unfold the_region, bind, get. cbn. by rewrite Hr. Qed.

Lemma is_mappable_page r p :
  region_ok r → page_ok r (p2v r p) → is_mappable r p = true.
Proof.
  intros [] (_ & H1 & H2). unfold is_mappable, p2v, PAGE_SIZE in *.
  rewrite u32_small by lia. apply andb_true_intro. split; [apply Z.leb_le|apply Z.ltb_lt]; lia.
Qed.

Lemma ptranslate_run r l L t p :
  region_ok r → palloc_inv r l t → page_ok r (p2v r p) →
  ptranslate p (mk_guarded L t) = Done (p2v r p, mk_guarded L t).
Proof.
  intros Hr Hi Hp. unfold ptranslate. rewrite (bind_run _ _ _ _ _ (the_region_run _ _ _ _ Hi)).
  rewrite is_mappable_page by done. cbn [negb]. pose proof (page_ok_pos _ _ Hr Hp).
  unfold ret. fold (p2v r p). rewrite u32_small; [done|]. unfold PAGE_SIZE in *. lia.
Qed.

Lemma pfree_link_run r v l L t :
  region_ok r → page_ok r v → v ∉ l → palloc_inv r l t →
  ∃ t', pfree_link v (mk_guarded L t) = Done (tt, mk_guarded L t') ∧
        palloc_inv r (v :: l) t' ∧ agree_off (v :: l) (pmem t) (pmem t').
Proof.
  intros Hr Hv Hvl Hi. pose proof Hi as [Hin Hreg Hb Hc Hp Hn Hk].
  pose proof (page_ok_pos _ _ Hr Hv) as Hpos. pose proof Hr as [].
  set (f := first_free_page t).
  set (m1 := store32 (store32 (store32 (pmem t) v PALLOC_PAGE_MAGIC) (v + 4) 0) (v + 8) f).
  set (m2 := if f =? 0 then m1 else store32 m1 (f + 4) v).
  assert (E : pfree_link v (mk_guarded L t) =
    Done (tt, mk_guarded L (mk_palloc m2 (initialized t) v (palloc_region t)
                              (u32 (remaining_pages t + 1))))).
  { unfold pfree_link, bind, store, on_val, zoom, modify, gets, when, m2, m1.
    cbn -[store32]. fold f. by destruct (f =? 0). }
  eexists. split; [exact E|]. cbn [pmem].
  assert (Hext : ∀ w a, w ∈ l → in_page w a → m1 a = pmem t a).
  { intros w a Hw Ha. rewrite Forall_forall in Hp.
    pose proof (page_ok_disjoint r v w Hv (Hp w Hw)) as D. assert (v ≠ w) by (by intros ->).
    unfold m1, in_page, PAGE_SIZE in *. rewrite !store32_frame by lia. done. }
  assert (Hf : is_u32 f).
  { eapply chain_next_range; [exact Hb|exact Hc|]. intros w Hw. by eapply pages_u32. }
  assert (Hc1 : chain m1 0 f l).
  { eapply chain_ext; [|exact Hc]. intros w a Hw Ha. apply (Hext w); [done|].
    unfold in_page, PAGE_SIZE. lia. }
  assert (Hvu : is_u32 v) by (unfold is_u32, PAGE_SIZE in *; lia).
  pose proof (chain_relink r m1 0 f l v Hr Hp Hn Hvu Hc1) as Hc2. fold m2 in Hc2.
  assert (Hsame : ∀ o, 0 ≤ o ≤ 8 → load32 m2 (v + o) = load32 m1 (v + o)).
  { intros o Ho. unfold m2. destruct (Z.eqb_spec f 0); [done|].
    destruct l as [|w l]; [done|]. destruct Hc as (Ew & _). fold f in Ew.
    pose proof (page_ok_disjoint r v w Hv ltac:(by inversion Hp)) as D.
    assert (v ≠ w) by (intros ->; apply Hvl; by left). unfold PAGE_SIZE in D.
    apply load32_store32_ne. lia. }
  pose proof (Hsame 0 ltac:(lia)) as H0. rewrite Z.add_0_r in H0.
  split.
  - split; cbn [initialized palloc_region pmem first_free_page remaining_pages]; try done.
    + unfold m2, m1. destruct (f =? 0); auto 10 with mem.
    + cbn [chain]. unfold page_magic, page_prev, page_next.
      rewrite !Hsame, H0 by lia. unfold m1.
      rewrite load32_store32_eq by done.
      rewrite !(load32_store32_ne _ (v + 8)) by lia.
      rewrite load32_store32_eq by done. rewrite load32_store32_ne by lia.
      by rewrite load32_store32_eq.
    + by constructor.
    + by constructor.
    + rewrite Hk. cbn [length].
      pose proof (pages_length r (v :: l) Hr ltac:(by constructor) ltac:(by constructor)).
      cbn in *. rewrite u32_small; lia.
  - unfold m2, m1. destruct (Z.eqb_spec f 0).
    + do 2 (eapply agree_off_trans; [|apply (agree_off_store v); [by left|lia|unfold PAGE_SIZE; lia]]).
      apply (agree_off_store v); [by left|lia|unfold PAGE_SIZE; lia].
    + destruct l as [|w l]; [done|]. destruct Hc as (Ew & _). fold f in Ew.
      eapply agree_off_trans; [|apply (agree_off_store w); [right; by left|lia|unfold PAGE_SIZE; lia]].
      do 2 (eapply agree_off_trans; [|apply (agree_off_store v); [by left|lia|unfold PAGE_SIZE; lia]]).
      apply (agree_off_store v); [by left|lia|unfold PAGE_SIZE; lia].
Qed.

Lemma pfree_run k r p l L t :
  region_ok r → callable k L → page_ok r (p2v r p) → p2v r p ∉ l → palloc_inv r l t →
  ∃ t', pfree k p (mk_guarded L t) = Done (tt, mk_guarded L t') ∧
        palloc_inv r (p2v r p :: l) t' ∧ agree_off (p2v r p :: l) (pmem t) (pmem t').
Proof.
  intros Hr Hc Hp Hpl Hi.
  destruct (pfree_link_run r _ l (entered L) t Hr Hp Hpl Hi) as (t' & E & Hi' & Ha).
  exists t'. split; [|done]. unfold pfree.
  rewrite (bind_run _ _ _ _ _ (the_region_run _ _ _ _ Hi)).
  rewrite is_mappable_page by done. cbn [negb]. rewrite enter_run by apply Hc.
  rewrite (bind_run _ _ _ _ _ (kernel_tables_run _ _ _ Hc)). cbn [negb].
  rewrite (bind_run _ _ _ _ _ (ptranslate_run _ _ _ _ _ Hr Hi Hp)).
  rewrite (bind_run _ _ _ _ _ E). apply leave_last, Hc.
Qed.

(** The pages of [n] consecutive physical pages from [p] that the region
    contains and that are not marked free, last one first. *)
Fixpoint new_pages (r : vm_region) (m : mem) (n : nat) (p : Z) (acc : list Z) : list Z :=
  match n with
  | O => acc
  | S n' =>
      new_pages r m n' (p + PAGE_SIZE)
        (if is_mappable r p && negb (page_magic m (p2v r p) =? PALLOC_PAGE_MAGIC)
         then p2v r p :: acc else acc)
  end.

Lemma new_pages_ext r m m' n p acc :
  p mod PAGE_SIZE = 0 →
  (∀ q, p ≤ q → q mod PAGE_SIZE = 0 → is_mappable r q = true →
     page_magic m' (p2v r q) = page_magic m (p2v r q)) →
  new_pages r m' n p acc = new_pages r m n p acc.
Proof.
  revert p acc. induction n as [|n IH]; intros p acc Hp H; [done|]. cbn [new_pages].
  replace (is_mappable r p && negb (page_magic m' (p2v r p) =? PALLOC_PAGE_MAGIC))
    with (is_mappable r p && negb (page_magic m (p2v r p) =? PALLOC_PAGE_MAGIC)).
  - apply IH; [|intros q Hq; apply H; unfold PAGE_SIZE in *; lia].
    unfold PAGE_SIZE in *. rewrite Z.add_mod, Hp by lia. done.
  - destruct (is_mappable r p) eqn:E; [|done]. by rewrite (H p) by (done || lia).
Qed.

Lemma mappable_page_ok r p :
  region_ok r → p mod PAGE_SIZE = 0 → is_mappable r p = true → page_ok r (p2v r p).
Proof.
  intros [] Hp Hm. unfold is_mappable in Hm. rewrite u32_small in Hm by lia.
  zbool. unfold page_ok, p2v, PAGE_SIZE in *.
  pose proof (Z.div_mod p 4096 ltac:(lia)). pose proof (Z.div_mod (vbase r) 4096 ltac:(lia)).
  pose proof (Z.div_mod (pbase r) 4096 ltac:(lia)). pose proof (Z.div_mod (rsize r) 4096 ltac:(lia)).
  split; [|lia].
  replace (vbase r + (p - pbase r))
    with ((vbase r / 4096 + p / 4096 - pbase r / 4096) * 4096) by lia.
  apply Z.mod_mul. lia.
Qed.

Lemma listed_magic r l t v :
  palloc_inv r l t → v ∈ l → page_magic (pmem t) v = PALLOC_PAGE_MAGIC.
Proof.
  intros [_ _ _ Hch _ _ _] Hin. revert Hch. generalize 0 (first_free_page t).
  induction l as [|w l IH]; intros q h; [by apply elem_of_nil in Hin|].
  intros (-> & Hm & _ & Hch). apply elem_of_cons in Hin as [->|Hin]; [done|]. by eapply IH.
Qed.

Lemma add_free_page_run k r p l L t :
  region_ok r → callable k L → p mod PAGE_SIZE = 0 → palloc_inv r l t →
  ∃ t', add_free_page k p (mk_guarded L t) = Done (tt, mk_guarded L t') ∧
        palloc_inv r (if is_mappable r p && negb (page_magic (pmem t) (p2v r p) =? PALLOC_PAGE_MAGIC)
                      then p2v r p :: l else l) t' ∧
        agree_off (if is_mappable r p && negb (page_magic (pmem t) (p2v r p) =? PALLOC_PAGE_MAGIC)
                   then p2v r p :: l else l) (pmem t) (pmem t').
Proof.
  intros Hr Hc Hp Hi. unfold add_free_page.
  rewrite (bind_run _ _ _ _ _ (the_region_run _ _ _ _ Hi)).
  destruct (is_mappable r p) eqn:Em; cbn [negb andb]; [|eauto with mem].
  pose proof (mappable_page_ok r p Hr Hp Em) as Hok.
  rewrite (bind_run _ _ _ _ _ (ptranslate_run _ _ _ _ _ Hr Hi Hok)).
  unfold bind at 1, load, gets. cbn [g_val]. unfold page_magic.
  destruct (Z.eqb_spec (load32 (pmem t) (p2v r p)) PALLOC_PAGE_MAGIC) as [E|E]; cbn [negb];
    [eauto with mem|].
  apply pfree_run; try done. intros Hin. apply E. by eapply listed_magic.
Qed.

(** Freeing one page of the range leaves the markers of the others alone. *)
Lemma add_page_magic r p q l l' t t' :
  region_ok r → p mod PAGE_SIZE = 0 → q mod PAGE_SIZE = 0 → p ≠ q → is_mappable r q = true →
  palloc_inv r l t → palloc_inv r l' t' → l ⊆ l' → agree_off (p2v r p :: l) (pmem t) (pmem t') →
  page_magic (pmem t') (p2v r q) = page_magic (pmem t) (p2v r q).
Proof.
  intros Hr Hp Hq Hne Hm Hi Hi' Hsub Ha.
  pose proof (mappable_page_ok r q Hr Hq Hm) as Hok.
  destruct (decide (p2v r q ∈ l)) as [Hin|Hin].
  { rewrite (listed_magic _ _ _ _ Hi Hin). eapply listed_magic; [done|by apply Hsub]. }
  apply load32_ext. intros x Hx. apply Ha. intros v Hv Hvx. unfold in_page in Hvx.
  assert (Hva : v mod PAGE_SIZE = 0).
  { apply elem_of_cons in Hv as [->|Hv].
    - pose proof (rg_aligned _ Hr). pose proof (rg_paligned _ Hr). unfold p2v, PAGE_SIZE in *.
      rewrite Z.add_mod, Zminus_mod, Hp by lia. by rewrite H, H0.
    - pose proof (pi_pages _ _ _ Hi) as Hall. rewrite Forall_forall in Hall. by apply Hall. }
  assert (Hvq : v ≠ p2v r q).
  { apply elem_of_cons in Hv as [->|Hv]; [unfold p2v; lia|by intros ->]. }
  destruct (page_disjoint v (p2v r q) Hva (proj1 Hok) Hvq); unfold PAGE_SIZE in *; lia.
Qed.

(** The pages added stay on the list. *)
Lemma new_pages_subset r m n : ∀ p acc, acc ⊆ new_pages r m n p acc.
Proof. induction n as [|n IH]; intros p acc; [done|]. cbn [new_pages]. etransitivity; [|apply IH]. destruct (_ && _); [by apply list_subseteq_cons|done]. Qed.

Lemma add_free_loop_run k r n p l L t :
  region_ok r → callable k L → p mod PAGE_SIZE = 0 → 0 ≤ p → p + Z.of_nat n * PAGE_SIZE < 2 ^ 32 →
  palloc_inv r l t →
  ∃ t', add_free_loop k n p (mk_guarded L t) = Done (tt, mk_guarded L t') ∧
        palloc_inv r (new_pages r (pmem t) n p l) t' ∧ agree_off (new_pages r (pmem t) n p l) (pmem t) (pmem t').
Proof.
  intros Hr Hc. revert p l t. induction n as [|n IH]; intros p l t Hp H0 Hb Hi.
  { eexists. split; [reflexivity|]. split; [by destruct t|done]. }
  cbn [add_free_loop new_pages].
  destruct (add_free_page_run k r p l L t Hr Hc Hp Hi) as (t1 & E & Hi1 & Ha).
  rewrite (bind_run _ _ _ _ _ E). rewrite u32_small by (unfold PAGE_SIZE in *; lia).
  assert (Hp1 : (p + PAGE_SIZE) mod PAGE_SIZE = 0).
  { unfold PAGE_SIZE in *. rewrite Z.add_mod, Hp by lia. done. }
  set (l1 := if _ && _ then _ else l) in *.
  destruct (IH (p + PAGE_SIZE) l1 t1) as (t' & E' & Hi' & Ha'); try done; try (unfold PAGE_SIZE in *; lia).
  assert (Hl : l ⊆ l1 ∧ l1 ⊆ p2v r p :: l) by (unfold l1; destruct (_ && _); split; intros w Hw; try done; by right).
  assert (Ext : new_pages r (pmem t1) n (p + PAGE_SIZE) l1 = new_pages r (pmem t) n (p + PAGE_SIZE) l1).
  { apply new_pages_ext; [done|]. intros q Hq Hqa Hqm. apply (add_page_magic r p q l l1); try done.
    - unfold PAGE_SIZE in *. lia.
    - apply Hl.
    - by eapply agree_off_mono; [apply Hl|]. }
  exists t'. rewrite Ext in Hi', Ha'. split; [done|]. split; [done|]. eapply agree_off_trans; [|exact Ha'].
  eapply agree_off_mono; [apply new_pages_subset|exact Ha].
Qed.

(** The region the kernel's memory map gives to the allocator. *)
Lemma palloc_region_ok sy : layout_ok sy → KM_VIRT_BASE < kernel_mem_break sy →
  ∃ r, create_vm_map sy !! VM_PALLOC_REGION = Some r ∧ region_ok r.
Proof.
  intros Hl Hb. rewrite (create_vm_map_eq sy Hl). eexists. split; [reflexivity|].
  destruct Hl. unfold KM_VIRT_BASE, KM_PHYS_BASE, PAGE_SIZE in *.
  pose proof (Z.div_mod (kernel_mem_break sy) 4096 ltac:(lia)) as D.
  split; cbn; unfold PAGE_SIZE; try lia.
  1,2: replace (kernel_mem_break sy - 3221225472)
         with ((kernel_mem_break sy / 4096 - 786432) * 4096) by lia; apply Z.mod_mul; lia.
  replace (6442450944 - kernel_mem_break sy)
    with ((1572864 - kernel_mem_break sy / 4096) * 4096) by lia. apply Z.mod_mul. lia.
Qed.

Lemma palloc_get_remaining_run r l L t :
  region_ok r → unlocked L → palloc_inv r l t →
  palloc_get_remaining (mk_guarded L t)
  = Done (u32 (Z.of_nat (length l) * PAGE_SIZE), mk_guarded L t).
Proof.
  intros Hr Hu Hi. unfold palloc_get_remaining. rewrite enter_run by done.
  unfold bind at 1, gets. cbn [g_val]. rewrite leave_run by done.
  by rewrite (pi_count _ _ _ Hi).
Qed.

(** ** An example allocator state with one free page *)

Definition example_region : vm_region :=
  Build_vm_region 0x800000 0x800000 0xBF800000 VM_BIT_STATIC PAGE_BIT_RW.
Definition example_palloc_mem : mem := store32 (fun _ => 0) 0x803000 PALLOC_PAGE_MAGIC.
Definition example_palloc : palloc_state :=
  mk_palloc example_palloc_mem true 0x803000 (Some example_region) 1.

Lemma example_region_ok : region_ok example_region.
Proof. split; cbn; unfold PAGE_SIZE; try done; lia. Qed.

Lemma example_palloc_inv : palloc_inv example_region [0x803000] example_palloc.
Proof.
  split; try done.
  - apply byte_mem_store32. intros a. lia.
  - constructor; [|constructor]. split; [done|]. cbn. unfold PAGE_SIZE. lia.
  - apply NoDup_singleton.
Qed.

Lemma example_callable : callable 0 example_ls.
Proof. split; [apply example_unlocked|done]. Qed.

(** ** Properties *)

(** C30: palloc pops the free list: with a free page it returns that page's
    physical address, never PHYS_NULL, zeroes the whole page, removes it from
    the free list and keeps the list's invariant, and no byte outside free
    pages changes; with none it returns PHYS_NULL and changes nothing.  The lock
    is free again afterwards. *)
Theorem palloc_correct k r l L t :
  region_ok r → callable k L → palloc_inv r l t →
  match l with
  | [] => palloc k (mk_guarded L t) = Done (PHYS_NULL, mk_guarded L t)
  | v :: l' =>
      v2p r v ≠ PHYS_NULL ∧
      ∃ t', palloc k (mk_guarded L t) = Done (v2p r v, mk_guarded L t') ∧
            palloc_inv r l' t' ∧ agree_off (v :: l') (pmem t) (pmem t') ∧
            ∀ a, in_page v a → pmem t' a = 0
  end.
Proof.
  intros Hr Hc Hi. destruct l as [|v l]; [by eapply palloc_run_empty|].
  split; [|by apply palloc_run].
  pose proof (pi_pages _ _ _ Hi) as Hp. apply Forall_cons in Hp as [(_ & Hv & _) _].
  destruct Hr. unfold v2p, PHYS_NULL. lia.
Qed.

Lemma palloc_correct_witness :
  ∃ t', palloc 0 (mk_guarded example_ls example_palloc) = Done (0x803000, mk_guarded example_ls t') ∧
        pmem t' 0x803000 = 0.
Proof.
  destruct (palloc_correct 0 example_region [0x803000] example_ls example_palloc
              example_region_ok example_callable example_palloc_inv) as (_ & t' & E & _ & _ & Hz).
  exists t'. split; [exact E|]. apply Hz. unfold in_page, PAGE_SIZE. lia.
Defined.

(** Pfree pushes a page of the region that is not already free: the free
    list gains it at its head and keeps its invariant, no byte outside free
    pages changes, and the next palloc returns exactly that page. *)
Theorem pfree_palloc k r p l L t :
  region_ok r → callable k L → page_ok r (p2v r p) → p2v r p ∉ l → palloc_inv r l t →
  ∃ t', pfree k p (mk_guarded L t) = Done (tt, mk_guarded L t') ∧
        palloc_inv r (p2v r p :: l) t' ∧ agree_off (p2v r p :: l) (pmem t) (pmem t') ∧
        ∃ t'', palloc k (mk_guarded L t') = Done (p, mk_guarded L t'') ∧ palloc_inv r l t''.
Proof.
  intros Hr Hc Hp Hpl Hi.
  destruct (pfree_run k r p l L t Hr Hc Hp Hpl Hi) as (t' & E & Hi' & Ha).
  exists t'. do 3 (split; [done|]).
  destruct (palloc_run k r _ l L t' Hr Hc Hi') as (t'' & E' & Hi'' & _).
  exists t''. split; [|done]. rewrite E'. unfold v2p, p2v. do 2 f_equal. lia.
Qed.

Lemma pfree_palloc_witness :
  ∃ t', pfree 0 0x900000 (mk_guarded example_ls example_palloc)
        = Done (tt, mk_guarded example_ls t') ∧
        palloc_inv example_region [0x900000; 0x803000] t'.
Proof.
  destruct (pfree_palloc 0 example_region 0x900000 [0x803000] example_ls example_palloc
              example_region_ok example_callable) as (t' & E & Hi & _).
  - split; [done|]. unfold p2v, PAGE_SIZE. cbn [vbase pbase rsize example_region]. lia.
  - intros H. apply list_elem_of_singleton in H. done.
  - exact example_palloc_inv.
  - exists t'. split; [exact E|exact Hi].
Defined.

Lemma add_free_region_run k r from to l L t :
  region_ok r → callable k L → yaos2_initialized (ls_mach L) = false →
  is_u32 from → is_u32 to → from mod PAGE_SIZE = 0 → to mod PAGE_SIZE = 0 →
  palloc_inv r l t →
  let l' := new_pages r (pmem t) (Z.to_nat ((to - from) / PAGE_SIZE)) from l in
  ∃ t', palloc_add_free_region k from to (mk_guarded L t) = Done (tt, mk_guarded L t') ∧
        palloc_inv r l' t' ∧ agree_off l' (pmem t) (pmem t').
Proof.
  intros Hr Hc Hy Hfr Hto Hfa Hta Hi. unfold palloc_add_free_region.
  unfold bind at 1, get. cbn [g_ls]. rewrite Hy. cbn [negb].
  unfold bind at 1, kassert at 1, ret at 1.
  rewrite (proj2 (is_aligned_to_page_size_true from Hfr) Hfa).
  unfold bind at 1, kassert at 1, ret at 1.
  rewrite (proj2 (is_aligned_to_page_size_true to Hto) Hta).
  unfold bind at 1, kassert at 1, ret at 1.
  pose proof (Z.mul_div_le (to - from) PAGE_SIZE ltac:(done)).
  apply add_free_loop_run; try done; unfold is_u32 in *; [lia|].
  unfold PAGE_SIZE in *. lia.
Qed.

(** Palloc_add_free_region terminates and frees exactly the pages of the
    given range that lie in the allocator's region and are not marked free yet;
    the free list keeps its invariant. *)
Theorem palloc_add_free_region_correct k r from to l L t :
  region_ok r → callable k L → yaos2_initialized (ls_mach L) = false →
  is_u32 from → is_u32 to → from mod PAGE_SIZE = 0 → to mod PAGE_SIZE = 0 →
  palloc_inv r l t →
  ∃ t', palloc_add_free_region k from to (mk_guarded L t) = Done (tt, mk_guarded L t') ∧
        palloc_inv r (new_pages r (pmem t) (Z.to_nat ((to - from) / PAGE_SIZE)) from l) t'.
Proof.
  intros Hr Hc Hy Hfr Hto Hfa Hta Hi.
  destruct (add_free_region_run k r from to l L t Hr Hc Hy Hfr Hto Hfa Hta Hi) as (t' & E & Hi' & _). by exists t'.
Qed.

Definition example_boot_machine : machine := mk_machine [] 0 zero_cpu 0 false 0 0 false.

Lemma example_boot_callable : callable 0 (mk_ls example_boot_machine free_lock).
Proof. split; [|done]. by right. Qed.

Lemma palloc_add_free_region_correct_witness :
  ∃ t', palloc_add_free_region 0 0x7FF000 0x805000
          (mk_guarded (mk_ls example_boot_machine free_lock) example_palloc)
        = Done (tt, mk_guarded (mk_ls example_boot_machine free_lock) t') ∧
        palloc_inv example_region
          [0x804000; 0x802000; 0x801000; 0x800000; 0x803000] t'.
Proof.
  destruct (palloc_add_free_region_correct 0 example_region 0x7FF000 0x805000 [0x803000]
     (mk_ls example_boot_machine free_lock) example_palloc
     example_region_ok example_boot_callable eq_refl
     ltac:(unfold is_u32; lia) ltac:(unfold is_u32; lia)
     eq_refl eq_refl example_palloc_inv) as (t' & E & Hi).
  exists t'. split; [exact E|]. exact Hi.
Defined.
