(* ===== verification/Multiboot.v ===== *)
(** * arch/i386/multiboot_init.c: the memory map of the boot loader

    Walking the Multiboot memory map and giving its available regions to the page allocator
    of [Palloc].  The information structure and the map are bytes in memory.  What follows
    (generic_x86_init) is not part of this file. *)

From stdpp Require Import base list strings.
From Stdlib Require Import ZArith Lia.
From S2P Require Import Prelude Memory KUtils MemLayout Cpu Palloc.

(** ** kernel/boot/multiboot.h *)

Definition MULTIBOOT_BOOTLOADER_MAGIC : Z := 0x2BADB002.
Definition MULTIBOOT_MEMORY_AVAILABLE : Z := 1.

Definition load64 (m : mem) (a : Z) : Z := load32 m a + 2 ^ 32 * load32 m (a + 4).

(** Fields of struct multiboot_info and of the packed struct multiboot_mmap_entry. *)
Definition info_flags (m : mem) (info : Z) : Z := load32 m info.
Definition info_mmap_length (m : mem) (info : Z) : Z := load32 m (info + 44).
Definition info_mmap_addr (m : mem) (info : Z) : Z := load32 m (info + 48).
Definition mmap_size (m : mem) (cur : Z) : Z := load32 m cur.
Definition mmap_addr (m : mem) (cur : Z) : Z := load64 m (cur + 4).
Definition mmap_len (m : mem) (cur : Z) : Z := load64 m (cur + 12).
Definition mmap_type (m : mem) (cur : Z) : Z := load32 m (cur + 20).

Definition mb_has_simple_mmap (m : mem) (info : Z) : bool := negb (Z.land (info_flags m info) 1 =? 0).

(** ** multiboot_init.c *)

(** The number of strings in mb_mmap_type_texts; a type beyond it is an access outside the
    array. *)
Definition mb_mmap_type_texts : Z := 6.

Section code.
Variables (vm_map : list vm_region) (phys_kernel_pd : Z).

(** The loop of walk_mmap. *)
Fixpoint mmap_loop (fuel : nat) (cur max : Z) : M palloc_sys unit :=
  match fuel with
  | O => hang
  | S fuel =>
      if cur <? max then
        m <- gets (fun s => pmem (g_val s)) ;;
        if negb (mmap_type m cur <? mb_mmap_type_texts) then kpanic "mb_mmap_type_texts[cur->type]" else
        when (mmap_type m cur =? MULTIBOOT_MEMORY_AVAILABLE)
          (let from := align_to_next_page (mmap_addr m cur) in
           let to := mask_to_page (u64 (mmap_addr m cur + mmap_len m cur)) in
           palloc_add_free_region phys_kernel_pd from to) ;;;
        m <- gets (fun s => pmem (g_val s)) ;;
        mmap_loop fuel (u32 (cur + mmap_size m cur + 4)) max
      else ret tt
  end.

Definition walk_mmap (info : Z) : M palloc_sys unit :=
  m <- gets (fun s => pmem (g_val s)) ;;
  let cur := km_vaddr (info_mmap_addr m info) in
  let max := km_vaddr (u32 (info_mmap_addr m info + info_mmap_length m info)) in
  mmap_loop (S (Z.to_nat (max - cur))) cur max.

Definition multiboot_x86_init (info magic : Z) : M palloc_sys unit :=
  kassert "magic == MULTIBOOT_BOOTLOADER_MAGIC" (magic =? MULTIBOOT_BOOTLOADER_MAGIC) ;;;
  m <- gets (fun s => pmem (g_val s)) ;;
  kassert "mb_has_simple_mmap(info)" (mb_has_simple_mmap m info) ;;;
  init_palloc vm_map ;;;
  walk_mmap info.

End code.

(** ** The memory map as a list *)

Record mb_region := mk_region { mb_type : Z; mb_addr : Z; mb_len : Z; mb_size : Z }.

(** The entries [es] fill the memory from [cur] to [max]. *)
Fixpoint encoded (m : mem) (cur max : Z) (es : list mb_region) : Prop :=
  match es with
  | [] => cur = max
  | e :: es =>
      mmap_size m cur = mb_size e ∧ mmap_addr m cur = mb_addr e ∧ mmap_len m cur = mb_len e ∧ mmap_type m cur = mb_type e ∧
      20 ≤ mb_size e ∧ 0 ≤ mb_type e < mb_mmap_type_texts ∧ cur + mb_size e + 4 ≤ max ∧ encoded m (cur + mb_size e + 4) max es
  end.

(** The region is below 4 GB, rounding included. *)
Definition low (e : mb_region) : Prop := 0 ≤ mb_addr e ∧ 0 ≤ mb_len e ∧ mb_addr e + mb_len e + PAGE_SIZE < 2 ^ 32.

(** The page at virtual address [v] lies in an available region. *)
Definition covers (r : vm_region) (e : mb_region) (v : Z) : Prop :=
  mb_type e = MULTIBOOT_MEMORY_AVAILABLE ∧ mb_addr e ≤ v2p r v ∧ v2p r v + PAGE_SIZE ≤ mb_addr e + mb_len e.

(** ** Lemmas *)

Lemma encoded_max m cur max es : encoded m cur max es → cur ≤ max.
Proof. revert cur. induction es as [|e es IH]; intros cur; cbn; [lia|]. intros (_ & _ & _ & _ & ? & _ & ? & _). lia. Qed.

Lemma encoded_ext m m' cur max es : (∀ a, cur ≤ a < max → m' a = m a) → encoded m cur max es → encoded m' cur max es.
Proof.
  revert cur. induction es as [|e es IH]; intros cur Hm; cbn; [done|]. intros (E1 & E2 & E3 & E4 & E5 & E6 & E7 & E8).
  unfold mmap_size, mmap_addr, mmap_len, mmap_type, load64 in *.
  rewrite !(load32_ext m' m) by (intros; apply Hm; lia).
  do 7 (split; [done|]). apply IH; [|done]. intros a Ha. apply Hm. lia.
Qed.

Lemma elem_of_new_pages r m n : ∀ p acc v,
  v ∈ new_pages r m n p acc ↔ v ∈ acc ∨ ∃ i, (i < n)%nat ∧ let q := p + Z.of_nat i * PAGE_SIZE in
    is_mappable r q = true ∧ page_magic m (p2v r q) ≠ PALLOC_PAGE_MAGIC ∧ v = p2v r q.
Proof.
  induction n as [|n IH]; intros p acc v; cbn [new_pages].
  - split; [by left|]. intros [H|(i & Hi & _)]; [done|lia].
  - rewrite IH. split.
    + intros [H|(i & Hi & H)].
      * destruct (is_mappable r p && negb (page_magic m (p2v r p) =? PALLOC_PAGE_MAGIC)) eqn:E; [|by left].
        apply elem_of_cons in H as [->|H]; [|by left]. right. exists 0%nat. split; [lia|]. cbn. rewrite Z.add_0_r.
        apply andb_true_iff in E as [E1 E2]. by apply negb_true_iff, Z.eqb_neq in E2.
      * right. exists (S i). split; [lia|]. replace (p + Z.of_nat (S i) * PAGE_SIZE) with (p + PAGE_SIZE + Z.of_nat i * PAGE_SIZE) by (unfold PAGE_SIZE; lia). done.
    + intros [H|(i & Hi & H1 & H2 & H3)].
      * left. destruct (_ && _); [by right|done].
      * destruct i as [|i].
        -- left. cbn in H1, H2, H3. rewrite Z.add_0_r in H1, H2, H3. rewrite H1. rewrite (proj2 (Z.eqb_neq _ _) H2). cbn. rewrite H3. by left.
        -- right. exists i. split; [lia|].
           replace (p + PAGE_SIZE + Z.of_nat i * PAGE_SIZE) with (p + Z.of_nat (S i) * PAGE_SIZE) by (unfold PAGE_SIZE; lia). done.
Qed.

Lemma from_eq e : low e → let f := align_to_next_page (mb_addr e) in
  f mod PAGE_SIZE = 0 ∧ is_u32 f ∧ mb_addr e ≤ f < mb_addr e + PAGE_SIZE.
Proof.
  intros (H1 & H2 & H3) f. unfold f. rewrite align_to_next_page_eq by (unfold PAGE_SIZE in *; lia). unfold PAGE_SIZE, is_u32 in *.
  pose proof (Z.mod_pos_bound (mb_addr e + 4096 - 1) 4096 ltac:(lia)). split; [|lia].
  rewrite Zminus_mod_idemp_r, Z.sub_diag. done.
Qed.

Lemma to_eq e : low e → let t := mask_to_page (u64 (mb_addr e + mb_len e)) in
  t mod PAGE_SIZE = 0 ∧ is_u32 t ∧ mb_addr e + mb_len e - PAGE_SIZE < t ≤ mb_addr e + mb_len e.
Proof.
  intros (H1 & H2 & H3) t. assert (E : t = mb_addr e + mb_len e - (mb_addr e + mb_len e) mod PAGE_SIZE).
  { unfold t, mask_to_page, PAGE_SIZE in *. unfold u64. rewrite (Z.mod_small _ (2 ^ 64)) by lia. rewrite u32_small by lia.
    change (Z.lxor (4096 - 1) UINT_MAX) with 0xFFFFF000. apply land_page_mask. lia. }
  rewrite E. unfold PAGE_SIZE, is_u32 in *. pose proof (Z.mod_pos_bound (mb_addr e + mb_len e) 4096 ltac:(lia)). pose proof (Z.mod_le (mb_addr e + mb_len e) 4096 ltac:(lia) ltac:(lia)).
  split; [|lia]. rewrite Zminus_mod_idemp_r, Z.sub_diag. done.
Qed.

Lemma region_pages r e v (P : Z → Prop) :
  region_ok r → low e → mb_type e = MULTIBOOT_MEMORY_AVAILABLE →
  let f := align_to_next_page (mb_addr e) in let t := mask_to_page (u64 (mb_addr e + mb_len e)) in
  (∃ i, (i < Z.to_nat ((t - f) / PAGE_SIZE))%nat ∧ let q := f + Z.of_nat i * PAGE_SIZE in is_mappable r q = true ∧ P (p2v r q) ∧ v = p2v r q)
  ↔ page_ok r v ∧ P v ∧ covers r e v.
Proof.
  intros Hr Hl Ht f t. destruct (from_eq e Hl) as (F1 & F2 & F3). destruct (to_eq e Hl) as (T1 & T2 & T3). fold f in F1, F2, F3. fold t in T1, T2, T3.
  unfold covers. split.
  - intros (i & Hi & H1 & H2 & ->). set (q := f + Z.of_nat i * PAGE_SIZE) in *.
    assert (Hq : q mod PAGE_SIZE = 0) by (unfold q; by rewrite Z.mod_add).
    split; [by apply mappable_page_ok|]. split; [done|]. split; [done|]. unfold v2p, p2v. unfold q, PAGE_SIZE in *.
    assert (Z.of_nat i < (t - f) / 4096) by lia. pose proof (Z.mul_div_le (t - f) 4096 ltac:(lia)). lia.
  - intros ((V1 & V2 & V3) & HP & _ & C1 & C2). pose proof Hr as [R1 R2 R3 R4 R5 R6 R7 R8].
    assert (Hq : v2p r v mod PAGE_SIZE = 0) by (unfold v2p; unfold PAGE_SIZE in *; rewrite Z.add_mod, Zminus_mod, V1, R6, R7 by lia; done).
    unfold PAGE_SIZE in *. set (q := v2p r v) in *.
    assert (Hf : f ≤ q) by (clear - F1 F3 Hq C1; dlia). assert (Htq : q + 4096 ≤ t) by (clear - T1 T3 Hq C2; dlia).
    assert (Ei : f + (q - f) / 4096 * 4096 = q) by (clear - F1 Hq; dlia). assert (Ed : t - f = (t - f) / 4096 * 4096) by (clear - F1 T1; dlia).
    exists (Z.to_nat ((q - f) / 4096)). assert (0 ≤ (q - f) / 4096) by (apply Z.div_pos; lia). split; [lia|]. cbv zeta. rewrite Z2Nat.id, Ei by lia.
    assert (Ev : p2v r q = v) by (unfold q, p2v, v2p; lia). rewrite Ev. split; [|done].
    unfold is_mappable. rewrite u32_small by lia. unfold q, v2p. rewrite (proj2 (Z.leb_le _ _)), (proj2 (Z.ltb_lt _ _)) by lia. done.
Qed.

Section walking.
Variables (vm_map : list vm_region) (k : Z) (r : vm_region) (L : lock_state) (m0 : mem).
Hypotheses (Hr : region_ok r) (Hc : callable k L) (Hy : yaos2_initialized (ls_mach L) = false).

(** The entries [es] have been handled. *)
Record given (es : list mb_region) (l : list Z) (t : palloc_state) : Prop := {
  gi_inv : palloc_inv r l t;
  gi_low : ∀ a, (a < vbase r ∨ vbase r + rsize r ≤ a) → pmem t a = m0 a;
  gi_magic : ∀ v, page_ok r v → v ∉ l → page_magic (pmem t) v = page_magic m0 v;
  gi_list : ∀ v, v ∈ l ↔ page_ok r v ∧ page_magic m0 v ≠ PALLOC_PAGE_MAGIC ∧ ∃ e, e ∈ es ∧ covers r e v;
}.

Lemma give_region es l t e :
  given es l t → low e → mb_type e = MULTIBOOT_MEMORY_AVAILABLE →
  ∃ l' t', palloc_add_free_region k (align_to_next_page (mb_addr e)) (mask_to_page (u64 (mb_addr e + mb_len e))) (mk_guarded L t) = Done (tt, mk_guarded L t') ∧
    given (e :: es) l' t'.
Proof.
  intros [G1 G2 G3 G4] Hl Ht. destruct (from_eq e Hl) as (F1 & F2 & _). destruct (to_eq e Hl) as (T1 & T2 & _).
  destruct (add_free_region_run k r _ _ l L t Hr Hc Hy F2 T2 F1 T1 G1) as (t' & E & Hi & Ha). set (l' := new_pages _ _ _ _ l) in *.
  assert (Hmem : ∀ v, v ∈ l' ↔ v ∈ l ∨ page_ok r v ∧ page_magic (pmem t) v ≠ PALLOC_PAGE_MAGIC ∧ covers r e v).
  { intros v. unfold l'. rewrite elem_of_new_pages. rewrite (region_pages r e v (fun v => page_magic (pmem t) v ≠ PALLOC_PAGE_MAGIC) Hr Hl Ht). done. }
  pose proof (pi_pages _ _ _ Hi) as Hpg. rewrite Forall_forall in Hpg.
  exists l', t'. split; [exact E|]. split; [exact Hi| | |].
  - intros a Hlt. rewrite Ha; [by apply G2|]. intros v Hv Hin. destruct (Hpg v Hv) as (_ & ? & ?). unfold in_page in Hin. lia.
  - intros v Hv Hn. rewrite <- G3; [|done|intros Hin; apply Hn, Hmem; by left]. apply load32_ext. intros a Hx. apply Ha. intros w Hw Hin.
    assert (Hne : w ≠ v) by (by intros ->). destruct (page_disjoint w v (proj1 (Hpg w Hw)) (proj1 Hv) Hne); unfold in_page, PAGE_SIZE in *; lia.
  - intros v. rewrite Hmem, G4. split.
    + intros [(V1 & V2 & e' & He' & Hcv)|(V1 & V2 & V3)].
      * split; [done|]. split; [done|]. exists e'. split; [by right|done].
      * split; [done|]. split; [|exists e; split; [by left|done]]. destruct (decide (v ∈ l)) as [Hin|Hin]; [by apply (G4 v) in Hin as (_ & ? & _)|by rewrite <- G3].
    + intros (V1 & V2 & e' & He' & Hcv). apply elem_of_cons in He' as [->|He']; [|left; split; [done|]; split; [done|]; by exists e'].
      destruct (decide (v ∈ l)) as [Hin|Hin]; [left; by apply G4|right]. split; [done|]. split; [by rewrite G3|done].
Qed.

Lemma mmap_loop_run es : ∀ fuel cur max done l t,
  encoded m0 cur max es → 0 ≤ cur → max < 2 ^ 32 → (max ≤ vbase r ∨ vbase r + rsize r ≤ cur) → (Z.to_nat (max - cur) < fuel)%nat →
  Forall (fun e => mb_type e = MULTIBOOT_MEMORY_AVAILABLE → low e) es → given done l t →
  ∃ l' t', mmap_loop k fuel cur max (mk_guarded L t) = Done (tt, mk_guarded L t') ∧ given (reverse es ++ done) l' t'.
Proof.
  induction es as [|e es IH]; intros [|fuel] cur max done_ l t He H0 Hx Hm Hf Hl Hg; [lia| |lia|]; cbn [mmap_loop].
  - cbn in He. subst max. rewrite Z.ltb_irrefl. exists l, t. by split.
  - pose proof (encoded_ext m0 (pmem t) cur max (e :: es) ltac:(intros; apply (gi_low _ _ _ Hg); lia) He) as Ht.
    destruct He as (_ & _ & _ & _ & E5 & E6 & E7 & E8). destruct Ht as (T1 & T2 & T3 & T4 & _). apply Forall_cons in Hl as [Hle Hl].
    rewrite (proj2 (Z.ltb_lt cur max)) by lia. unfold bind at 1, gets at 1. cbn [g_val]. rewrite T4, (proj2 (Z.ltb_lt (mb_type e) _)) by lia. cbn [negb].
    rewrite T2, T3.
    assert (∃ l1 t1, when (mb_type e =? MULTIBOOT_MEMORY_AVAILABLE) (palloc_add_free_region k (align_to_next_page (mb_addr e)) (mask_to_page (u64 (mb_addr e + mb_len e))))
        (mk_guarded L t) = Done (tt, mk_guarded L t1) ∧ given (e :: done_) l1 t1) as (l1 & t1 & E1 & Hg1).
    { destruct (Z.eqb_spec (mb_type e) MULTIBOOT_MEMORY_AVAILABLE) as [Et|Et]; cbn [when]; [eapply give_region; [exact Hg|by apply Hle|done]|].
      exists l, t. split; [done|]. destruct Hg as [G1 G2 G3 G4]. split; [done|done|done|]. intros v. rewrite G4. split.
      - intros (V1 & V2 & e' & He' & Hcv). split; [done|]. split; [done|]. exists e'. split; [by right|done].
      - intros (V1 & V2 & e' & He' & Hcv). split; [done|]. split; [done|]. apply elem_of_cons in He' as [->|He']; [by destruct Hcv|by exists e']. }
    rewrite (bind_run _ _ _ _ _ E1). unfold bind at 1, gets at 1. cbn [g_val].
    assert (Es : mmap_size (pmem t1) cur = mb_size e).
    { rewrite <- T1. apply load32_ext. intros a Ha. rewrite (gi_low _ _ _ Hg1), (gi_low _ _ _ Hg) by lia. done. }
    rewrite Es. rewrite u32_small by lia.
    destruct (IH fuel (cur + mb_size e + 4) max (e :: done_) l1 t1 E8 ltac:(lia) Hx ltac:(lia) ltac:(lia) Hl Hg1) as (l' & t' & E' & Hg').
    exists l', t'. split; [exact E'|]. by rewrite reverse_cons, <- app_assoc.
Qed.

End walking.

(** C26: Booting hands out the machine's memory.  Started by a Multiboot loader whose memory map lists
    the regions [es], the available ones all below 4 GB (the code drops the upper halves of their
    addresses), the kernel ends up with a well-formed allocator whose free pages are exactly the pages of
    its region that lie wholly inside an available region and do not already hold the allocator's
    free-page magic (the code takes such a page for one it has seen and leaves it out). *)
Theorem boot_memory vm_map k r mc lk t info magic es :
  vm_map !! VM_PALLOC_REGION = Some r → region_ok r → unlocked (mk_ls mc free_lock) → cr3 mc = k → yaos2_initialized mc = false →
  initialized t = false → remaining_pages t = 0 → byte_mem (pmem t) →
  magic = MULTIBOOT_BOOTLOADER_MAGIC → mb_has_simple_mmap (pmem t) info = true →
  let first := km_vaddr (info_mmap_addr (pmem t) info) in
  let last := km_vaddr (u32 (info_mmap_addr (pmem t) info + info_mmap_length (pmem t) info)) in
  encoded (pmem t) first last es → (last ≤ vbase r ∨ vbase r + rsize r ≤ first) → Forall (fun e => mb_type e = MULTIBOOT_MEMORY_AVAILABLE → low e) es →
  ∃ l t', multiboot_x86_init vm_map k info magic (mk_guarded (mk_ls mc lk) t) = Done (tt, mk_guarded (mk_ls mc free_lock) t') ∧
    palloc_inv r l t' ∧
    ∀ v, v ∈ l ↔ page_ok r v ∧ page_magic (pmem t) v ≠ PALLOC_PAGE_MAGIC ∧ ∃ e, e ∈ es ∧ covers r e v.
Proof.
  intros Hv Hr Hu Hk Hy Hi Hn Hb -> Hs first last He Hlast Hl.
  set (t0 := mk_palloc (pmem t) true 0 (Some r) (remaining_pages t)).
  assert (G0 : given r (pmem t) [] [] t0).
  { split; [split; cbn; [done|done|done|done|by apply Forall_nil|by apply NoDup_nil|done]|done|done|]. intros v. split; [by intros ?%elem_of_nil|]. intros (_ & _ & e & ?%elem_of_nil & _). done. }
  destruct (mmap_loop_run k r (mk_ls mc free_lock) (pmem t) Hr (conj Hu Hk) Hy es (S (Z.to_nat (last - first))) first last [] [] t0 He) as (l & t' & E & Hg);
    [unfold first, km_vaddr; apply u32_range|unfold last, km_vaddr; apply u32_range|done|lia|done|done|].
  exists l, t'. split; [|split; [apply Hg|]].
  - unfold multiboot_x86_init. rewrite Z.eqb_refl. unfold bind at 1, kassert at 1, ret at 1. unfold bind at 1, gets at 1. cbn [g_val]. rewrite Hs.
    unfold bind at 1, kassert at 1, ret at 1. unfold bind at 1, init_palloc, bind at 1, get at 1. cbn [g_val g_ls ls_mach]. rewrite Hi, Hy. cbn [negb].
    unfold bind at 1, kassert at 1, ret at 1. unfold on_val, on_lock, zoom, bind, modify, set_lock. cbn. rewrite Hv. exact E.
  - intros v. rewrite (gi_list _ _ _ _ _ Hg v). rewrite app_nil_r. split; intros (V1 & V2 & e & Hin & Hcv); (split; [done|]; split; [done|]); exists e; (split; [by apply elem_of_reverse|done]).
Qed.

(** A loader's map with low memory, a reserved region and 16 KB of memory at 8 MB. *)
Definition example_map : list Z :=
  le_bytes 4 20 ++ le_bytes 8 0 ++ le_bytes 8 0x9F000 ++ le_bytes 4 1 ++
  le_bytes 4 20 ++ le_bytes 8 0xF0000 ++ le_bytes 8 0x10000 ++ le_bytes 4 2 ++
  le_bytes 4 20 ++ le_bytes 8 0x800000 ++ le_bytes 8 0x4000 ++ le_bytes 4 1.
Definition example_info : list Z := le_bytes 4 0x41 ++ replicate 40 0 ++ le_bytes 4 72 ++ le_bytes 4 0x9100.
Definition example_boot_mem : mem := write_bytes (write_bytes (fun _ => 0) 0xC0009000 example_info) 0xC0009100 example_map.
Definition example_regions : list mb_region := [mk_region 1 0 0x9F000 20; mk_region 2 0xF0000 0x10000 20; mk_region 1 0x800000 0x4000 20].
Definition example_boot_map : list vm_region := replicate VM_PALLOC_REGION example_region ++ [example_region].

Lemma example_boot_bytes : byte_mem example_boot_mem.
Proof. apply byte_mem_write, byte_mem_write. intros a. split; lia. Qed.

Lemma boot_memory_witness :
  ∃ l t', multiboot_x86_init example_boot_map 0 0xC0009000 MULTIBOOT_BOOTLOADER_MAGIC
      (mk_guarded (mk_ls example_boot_machine (mk_spinlock 0 0 0)) (mk_palloc example_boot_mem false 0 None 0)) = Done (tt, mk_guarded (mk_ls example_boot_machine free_lock) t') ∧
    palloc_inv example_region l t' ∧ 0x801000 ∈ l ∧ ¬ (0x804000 ∈ l).
Proof.
  destruct (boot_memory example_boot_map 0 example_region example_boot_machine (mk_spinlock 0 0 0) (mk_palloc example_boot_mem false 0 None 0) 0xC0009000 MULTIBOOT_BOOTLOADER_MAGIC
    example_regions) as (l & t' & E & Hi & Hl).
  - reflexivity.
  - exact example_region_ok.
  - by right.
  - done.
  - done.
  - done.
  - done.
  - exact example_boot_bytes.
  - done.
  - vm_compute. reflexivity.
  - cbn [encoded example_regions]. repeat split; try (vm_compute; done).
  - right. vm_compute. discriminate.
  - repeat constructor; intros Ht; try done; unfold low, PAGE_SIZE; cbn; lia.
  - exists l, t'. split; [exact E|]. split; [exact Hi|]. split.
    + apply Hl. split; [split; [reflexivity|split; vm_compute; discriminate]|]. split; [vm_compute; discriminate|]. exists (mk_region 1 0x800000 0x4000 20). split; [right; right; by left|].
      split; [done|]. unfold v2p, PAGE_SIZE. cbn. lia.
    + intros (_ & _ & e & He & Ht & H1 & H2)%Hl. unfold v2p, PAGE_SIZE in *. cbn in H1, H2. unfold example_regions in He.
      repeat (apply elem_of_cons in He as [->|He]; [cbn in *; lia|]). by apply elem_of_nil in He.
Defined.
