(* ===== verification/Paging.v ===== *)
(** * arch/i386/paging/core.c, kernel.c, ipi.c: page directories and page tables

    Two-level page tables held in physical pages, edited through the static
    mapping of [MemLayout] while CR3 holds the kernel page directory, with pages
    taken from [Palloc].  The kernel state joins the executing CPU, the three
    spinlocks involved, the page allocator's state (with the memory) and the
    static variables of the TLB shootdown protocol.  The TLB itself is not
    modelled: [invlpg] and TLB flushes have no effect on memory. *)

From stdpp Require Import base list strings.
From Stdlib Require Import ZArith Lia.
From S2P Require Import Prelude Memory KUtils MemLayout Cpu Palloc.

Record kstate := mk_kstate {
  k_mach : machine;
  palloc_spinlock : cpu_spinlock;
  kp_spinlock : cpu_spinlock;
  ipi_spinlock : cpu_spinlock;
  k_pal : palloc_state;
  ipi_updated_pd : Z;
  ipi_updated_page : Z;
  ipi_global : bool;
}.

(** ** Views of the kernel state *)

Definition palloc_view (s : kstate) : palloc_sys :=
  mk_guarded (mk_ls (k_mach s) (palloc_spinlock s)) (k_pal s).
Definition set_palloc_view (g : palloc_sys) (s : kstate) : kstate :=
  mk_kstate (ls_mach (g_ls g)) (ls_lock (g_ls g)) (kp_spinlock s) (ipi_spinlock s)
    (g_val g) (ipi_updated_pd s) (ipi_updated_page s) (ipi_global s).
Definition on_palloc {A} (m : M palloc_sys A) : M kstate A := zoom palloc_view set_palloc_view m.

Definition kp_view (s : kstate) : lock_state := mk_ls (k_mach s) (kp_spinlock s).
Definition set_kp_view (l : lock_state) (s : kstate) : kstate :=
  mk_kstate (ls_mach l) (palloc_spinlock s) (ls_lock l) (ipi_spinlock s)
    (k_pal s) (ipi_updated_pd s) (ipi_updated_page s) (ipi_global s).
Definition on_kp {A} (m : M lock_state A) : M kstate A := zoom kp_view set_kp_view m.

Definition ipi_view (s : kstate) : lock_state := mk_ls (k_mach s) (ipi_spinlock s).
Definition set_ipi_view (l : lock_state) (s : kstate) : kstate :=
  mk_kstate (ls_mach l) (palloc_spinlock s) (kp_spinlock s) (ls_lock l)
    (k_pal s) (ipi_updated_pd s) (ipi_updated_page s) (ipi_global s).
Definition on_ipi {A} (m : M lock_state A) : M kstate A := zoom ipi_view set_ipi_view m.

Definition set_mach (m : machine) (s : kstate) : kstate :=
  mk_kstate m (palloc_spinlock s) (kp_spinlock s) (ipi_spinlock s)
    (k_pal s) (ipi_updated_pd s) (ipi_updated_page s) (ipi_global s).
Definition on_cpu {A} (m : M machine A) : M kstate A := zoom k_mach set_mach m.

Definition kmem (s : kstate) : mem := pmem (k_pal s).
Definition set_kmem (m : mem) (s : kstate) : kstate :=
  mk_kstate (k_mach s) (palloc_spinlock s) (kp_spinlock s) (ipi_spinlock s)
    (set_pmem m (k_pal s)) (ipi_updated_pd s) (ipi_updated_page s) (ipi_global s).
Definition rd32 (a : Z) : M kstate Z := gets (fun s => load32 (kmem s) a).
Definition wr32 (a v : Z) : M kstate unit := modify (fun s => set_kmem (store32 (kmem s) a v) s).
Definition upd_mem (f : mem → mem) : M kstate unit := modify (fun s => set_kmem (f (kmem s)) s).

(** ** Page table entries (arch/paging_types.h, arch/paging.h) *)

Definition pte_construct (addr flags : Z) : Z :=
  Z.lor (Z.land addr 0xFFFFF000) (Z.land flags 0xFFF).
Definition pde_construct (addr flags : Z) : Z :=
  Z.lor (Z.land addr 0xFFFFF000) (Z.land flags 0xFFF).
Definition pte_get_paddr (pte : Z) : Z := Z.land pte 0xFFFFF000.
Definition pde_get_paddr (pde : Z) : Z := Z.land pde 0xFFFFF000.
Definition pte_get_flags (pte : Z) : Z := Z.land pte 0xFFF.
Definition pde_get_flags (pde : Z) : Z := Z.land pde 0xFFF.

Definition PD_LENGTH : Z := PAGE_SIZE / 4.
Definition PT_LENGTH : Z := PAGE_SIZE / 4.

Definition get_pd_index (p : Z) : Z := Z.shiftr (u32 p) 22.
Definition get_pt_index (p : Z) : Z := Z.land (Z.shiftr (u32 p) 12) 0x3FF.

(** A flag test [x & flag]. *)
Definition has (x flag : Z) : bool := negb (Z.land x flag =? 0).

Section operations.
Variable vm_map : list vm_region.
Variable kernel_pd : Z.

Definition phys_kernel_pd : Z := km_paddr kernel_pd.

Definition kernel_tables : M kstate bool := on_palloc (is_using_kernel_page_tables phys_kernel_pd).

Definition assert_kernel_tables : M kstate unit :=
  k <- kernel_tables ;; kassert "is_using_kernel_page_tables()" k.

Definition translate_or_panic (p : Z) : M kstate Z :=
  assert_kernel_tables ;;;
  if vm_is_static_p vm_map p then fun s =>
    match vm_map_walk vm_map p true with
    | Done v => Done (v, s)
    | Panic w => Panic w
    | Hang => Hang
    end
  else kpanic "could not translate address".

Definition check_palloc_lock : M kstate unit :=
  h <- on_palloc palloc_lock_held ;;
  if h then kpanic "paging_map(): holding palloc lock" else ret tt.

Definition kp_lock : M kstate unit := on_kp cpu_spinlock_acquire.
Definition kp_unlock : M kstate unit := on_kp cpu_spinlock_release.
Definition kp_lock_held : M kstate bool := on_kp cpu_spinlock_held.

(** ** core.c *)

Definition paging_alloc_dir : M kstate Z :=
  assert_kernel_tables ;;;
  check_palloc_lock ;;;
  kassert "PD_LENGTH * sizeof(pde_t) == palloc_get_granularity()"
    (PD_LENGTH * 4 =? palloc_get_granularity) ;;;
  pd <- on_palloc (palloc phys_kernel_pd) ;;
  vpd <- on_palloc (ptranslate pd) ;;
  upd_mem (fun m => kmemset m vpd 0 (PD_LENGTH * 4)) ;;;
  kp_lock ;;;
  for_up (Z.to_nat PD_LENGTH) 0 (fun i =>
    e <- rd32 (kernel_pd + 4 * i) ;;
    when (has e PAGE_BIT_GLOBAL) (wr32 (vpd + 4 * i) e)) ;;;
  kp_unlock ;;;
  ret pd.

Definition paging_free_table (pt : Z) : M kstate unit :=
  pte <- translate_or_panic pt ;;
  for_up (Z.to_nat PD_LENGTH) 0 (fun i =>
    e <- rd32 (pte + 4 * i) ;;
    when (has e PAGE_BIT_PRESENT && negb (has e PAGE_BIT_GLOBAL))
      (on_palloc (pfree phys_kernel_pd (pte_get_paddr e)))) ;;;
  on_palloc (pfree phys_kernel_pd pt).

Definition paging_free_dir (pd : Z) : M kstate unit :=
  assert_kernel_tables ;;;
  check_palloc_lock ;;;
  if pd =? phys_kernel_pd then
    kpanic "paging_free_dir(): attempted to free kernel page directory"
  else
  pde <- translate_or_panic pd ;;
  for_up (Z.to_nat PD_LENGTH) 0 (fun i =>
    e <- rd32 (pde + 4 * i) ;;
    when (has e PAGE_BIT_PRESENT && negb (has e PAGE_BIT_GLOBAL))
      (paging_free_table (pde_get_paddr e))) ;;;
  on_palloc (pfree phys_kernel_pd pd).

(** Make the directory entry at [pde] point at a page table. *)
Definition ensure_table (pde : Z) : M kstate unit :=
  e <- rd32 pde ;;
  when (pde_get_paddr e =? PHYS_NULL)
    (kassert "PT_LENGTH * sizeof(pte_t) == palloc_get_granularity()"
       (PT_LENGTH * 4 =? palloc_get_granularity) ;;;
     pt <- on_palloc (palloc phys_kernel_pd) ;;
     vpt <- on_palloc (ptranslate pt) ;;
     upd_mem (fun m => kmemset m vpt 0 (PT_LENGTH * 4)) ;;;
     wr32 pde (pde_construct pt 0)).

Definition paging_map (pd v p flags : Z) : M kstate unit :=
  if has flags PAGE_BIT_GLOBAL && negb (pd =? phys_kernel_pd) then
    kpanic "paging_map(): attempted to use the global flag in non-kernel page directory"
  else
  check_palloc_lock ;;;
  assert_kernel_tables ;;;
  let v := mask_to_page v in
  let pdi := get_pd_index v in
  let pti := get_pt_index v in
  pde <- translate_or_panic pd ;;
  let pde := pde + 4 * pdi in
  e <- rd32 pde ;;
  if has e PAGE_BIT_GLOBAL && negb (pd =? phys_kernel_pd) then
    kpanic "paging_map(): attempted to overwrite global kernel PD entries in non-kernel PD"
  else
  ensure_table pde ;;;
  e <- rd32 pde ;;
  wr32 pde (Z.lor e (Z.lor flags PAGE_BIT_PRESENT)) ;;;
  e <- rd32 pde ;;
  pte <- translate_or_panic (pde_get_paddr e) ;;
  let pte := pte + 4 * pti in
  wr32 pte (pte_construct p (Z.lor flags PAGE_BIT_PRESENT)).

Definition paging_get_entry (pd v : Z) : M kstate Z :=
  assert_kernel_tables ;;;
  let v := mask_to_page v in
  let pdi := get_pd_index v in
  let pti := get_pt_index v in
  pde <- translate_or_panic pd ;;
  let pde := pde + 4 * pdi in
  e <- rd32 pde ;;
  if pde_get_paddr e =? PHYS_NULL then ret PHYS_NULL else
  pte <- translate_or_panic (pde_get_paddr e) ;;
  let pte := pte + 4 * pti in
  rd32 pte.

Definition paging_get (pd v : Z) : M kstate Z :=
  e <- paging_get_entry pd v ;; ret (pte_get_paddr e).

(** The loop of [vmxchg]: each iteration transfers at least one byte, so [num]
    iterations suffice. *)
Fixpoint vmxchg_loop (fuel : nat) (pd v buf num buf_off : Z) (write : bool) : M kstate unit :=
  if negb (num >? 0) then ret tt else
  match fuel with
  | O => hang
  | S fuel' =>
      p <- paging_get pd v ;;
      accessible <- translate_or_panic p ;;
      let off := u32 (v - mask_to_page v) in
      let batch := kmin (PAGE_SIZE - off) num in
      upd_mem (fun m =>
        if write then fst (kmemcpy m (accessible + off) (buf + buf_off) batch)
        else fst (kmemcpy m (buf + buf_off) (accessible + off) batch)) ;;;
      vmxchg_loop fuel' pd (u32 (mask_to_page v + PAGE_SIZE)) buf (num - batch)
        (buf_off + batch) write
  end.

Definition vmxchg (pd v buf num : Z) (write : bool) : M kstate unit :=
  assert_kernel_tables ;;;
  vmxchg_loop (Z.to_nat num) pd v buf num 0 write.

Definition vmread (pd v buf num : Z) : M kstate unit := vmxchg pd v buf num false.
Definition vmwrite (pd v buf num : Z) : M kstate unit := vmxchg pd v buf num true.

Definition duplicate_pt (dest_pt src_pt : Z) : M kstate unit :=
  dest_pte <- translate_or_panic dest_pt ;;
  src_pte <- translate_or_panic src_pt ;;
  for_up (Z.to_nat PD_LENGTH) 0 (fun i =>
    e <- rd32 (src_pte + 4 * i) ;;
    when (has e PAGE_BIT_PRESENT && negb (has e PAGE_BIT_GLOBAL))
      (p <- on_palloc (palloc phys_kernel_pd) ;;
       e <- rd32 (src_pte + 4 * i) ;;
       wr32 (dest_pte + 4 * i) (Z.lor p (pte_get_flags e)) ;;;
       d <- rd32 (dest_pte + 4 * i) ;;
       dest <- translate_or_panic (pte_get_paddr d) ;;
       e <- rd32 (src_pte + 4 * i) ;;
       src <- translate_or_panic (pte_get_paddr e) ;;
       upd_mem (fun m => fst (kmemcpy m dest src palloc_get_granularity)))).

Definition vmdup (dest_pd src_pd : Z) : M kstate unit :=
  assert_kernel_tables ;;;
  check_palloc_lock ;;;
  if src_pd =? phys_kernel_pd then
    kpanic "vmdup(): attempted to duplicate kernel page directory"
  else
  dest_pde <- translate_or_panic dest_pd ;;
  src_pde <- translate_or_panic src_pd ;;
  for_up (Z.to_nat PD_LENGTH) 0 (fun i =>
    e <- rd32 (src_pde + 4 * i) ;;
    when (has e PAGE_BIT_PRESENT && negb (has e PAGE_BIT_GLOBAL))
      (p <- on_palloc (palloc phys_kernel_pd) ;;
       e <- rd32 (src_pde + 4 * i) ;;
       wr32 (dest_pde + 4 * i) (Z.lor p (pde_get_flags e)) ;;;
       d <- rd32 (dest_pde + 4 * i) ;;
       e <- rd32 (src_pde + 4 * i) ;;
       duplicate_pt (pde_get_paddr d) (pde_get_paddr e))).

(** ** ipi.c and kernel.c *)

(** Sending the interrupt and waiting for the other CPU's answer leave this
    model's state unchanged; an inactive CPU is skipped. *)
Definition unsafe_propagate_to_cpu (answers : cpu_ptr → bool) (cpu : cpu_ptr) : M machine unit :=
  c <- read_cpu cpu ;;
  if Bool.eqb (active c) false then ret tt else
  if answers cpu then ret tt else hang.

Definition init_paging_ipi : M kstate unit :=
  on_ipi (set_lock (fun _ => cpu_spinlock_create)).

Definition init_paging : M kstate unit :=
  on_kp (set_lock (fun _ => cpu_spinlock_create)) ;;;
  init_paging_ipi.

Definition paging_propagate_changes (answers : cpu_ptr → bool) (pd v : Z) (global : bool)
  : M kstate unit :=
  on_ipi cpu_spinlock_acquire ;;;
  modify (fun s => mk_kstate (k_mach s) (palloc_spinlock s) (kp_spinlock s) (ipi_spinlock s)
                     (k_pal s) pd v global) ;;;
  on_cpu (cpu_enumerate_other_cpus (unsafe_propagate_to_cpu answers)) ;;;
  on_ipi cpu_spinlock_release.

Definition kp_map (answers : cpu_ptr → bool) (v p : Z) : M kstate unit :=
  let flags := vm_get_pflags vm_map v in
  on_kp cpu_spinlock_acquire ;;;
  prev_cr3 <- on_cpu (cpu_set_cr3 phys_kernel_pd) ;;
  paging_map phys_kernel_pd v p flags ;;;
  paging_propagate_changes answers phys_kernel_pd v (has flags PAGE_BIT_GLOBAL) ;;;
  on_cpu (cpu_set_cr3 prev_cr3) ;;;
  on_kp cpu_spinlock_release.

End operations.

(** ** The address space a page directory describes *)

Section address_space.
Variable vm_map : list vm_region.
Variable kernel_pd : Z.

(** Virtual address through which the kernel reaches a physical one. *)
Definition reach (p : Z) : option Z :=
  match get_region_p vm_map p with
  | Some r => if has (rflags r) VM_BIT_STATIC then Some (u32 (vbase r + (p - pbase r))) else None
  | None => None
  end.

(** The slot of a virtual address: directory and table index. *)
Definition dir_slot (v : Z) : Z := get_pd_index (mask_to_page v).
Definition table_slot (v : Z) : Z := get_pt_index (mask_to_page v).

(** The entry of [v] in the page tables [pd]; [None] if a structure on the way
    cannot be reached. *)
Definition entry_of (m : mem) (pd v : Z) : option Z :=
  a ← reach pd;
  let e := load32 m (a + 4 * dir_slot v) in
  if pde_get_paddr e =? PHYS_NULL then Some PHYS_NULL
  else b ← reach (pde_get_paddr e); Some (load32 m (b + 4 * table_slot v)).

(** [pd] is a page directory at [a]: its tables are reachable, pairwise
    different pages, apart from the directory and from the free pages [l]. *)
Record directory_ok (m : mem) (l : list Z) (pd a : Z) : Prop := {
  do_reach : reach pd = Some a;
  do_aligned : a mod PAGE_SIZE = 0;
  do_used : a ∉ l;
  do_tables : ∀ i, 0 ≤ i < PD_LENGTH → pde_get_paddr (load32 m (a + 4 * i)) ≠ PHYS_NULL →
    ∃ b, reach (pde_get_paddr (load32 m (a + 4 * i))) = Some b ∧
         b mod PAGE_SIZE = 0 ∧ (b ∉ l) ∧ b ≠ a;
  do_distinct : ∀ i j b, 0 ≤ i < PD_LENGTH → 0 ≤ j < PD_LENGTH → i ≠ j →
    pde_get_paddr (load32 m (a + 4 * i)) ≠ PHYS_NULL →
    pde_get_paddr (load32 m (a + 4 * j)) ≠ PHYS_NULL →
    reach (pde_get_paddr (load32 m (a + 4 * i))) = Some b →
    reach (pde_get_paddr (load32 m (a + 4 * j))) ≠ Some b;
}.

End address_space.

(** Replace the page allocator's part of the state. *)
Definition set_pal (t : palloc_state) (s : kstate) : kstate :=
  mk_kstate (k_mach s) (palloc_spinlock s) (kp_spinlock s) (ipi_spinlock s)
    t (ipi_updated_pd s) (ipi_updated_page s) (ipi_global s).

(** Paging code may run: kernel page tables, allocator lock free, free list [l]. *)
Record paging_ok (kernel_pd : Z) (r : vm_region) (l : list Z) (s : kstate) : Prop := {
  po_callable : callable (phys_kernel_pd kernel_pd) (mk_ls (k_mach s) (palloc_spinlock s));
  po_inv : palloc_inv r l (k_pal s);
}.

(** ** Lemmas: bits and indices *)

Lemma land_high_low f : 0 ≤ f < 4096 → Z.land f 0xFFFFF000 = 0.
Proof. intros H. rewrite land_page_mask by lia. rewrite Z.mod_small; lia. Qed.

Lemma land_low x : Z.land x 0xFFF = x mod 4096.
Proof. change 0xFFF with (Z.ones 12). by rewrite Z.land_ones by lia. Qed.

Lemma lor_u32 x y : is_u32 x → is_u32 y → is_u32 (Z.lor x y).
Proof.
  unfold is_u32. intros Hx Hy. split; [apply Z.lor_nonneg; lia|].
  destruct (Z.eq_dec (Z.lor x y) 0) as [->|Hn]; [lia|].
  assert (0 ≤ Z.lor x y) by (apply Z.lor_nonneg; lia).
  apply Z.log2_lt_pow2; [lia|]. rewrite Z.log2_lor by lia.
  destruct (Z.eq_dec x 0) as [->|], (Z.eq_dec y 0) as [->|];
    rewrite ?Z.max_lub_lt_iff; cbn [Z.log2]; repeat split; try lia;
    apply Z.log2_lt_pow2; lia.
Qed.

Lemma flags_present f : 0 ≤ f < 4096 → 0 ≤ Z.lor f PAGE_BIT_PRESENT < 4096.
Proof.
  intros Hf.
  assert (H0 : 0 ≤ Z.lor f PAGE_BIT_PRESENT) by (apply Z.lor_nonneg; split; [lia|done]).
  split; [done|]. change 4096 with (2 ^ 12).
  destruct (Z.eq_dec f 0) as [->|]; [done|].
  destruct (Z.eq_dec (Z.lor f PAGE_BIT_PRESENT) 0) as [->|]; [lia|].
  apply Z.log2_lt_pow2; [lia|]. rewrite Z.log2_lor by (done || lia).
  apply Z.max_lub_lt; [apply Z.log2_lt_pow2; lia|done].
Qed.

Lemma frame_lor e f : 0 ≤ f < 4096 → pde_get_paddr (Z.lor e f) = pde_get_paddr e.
Proof.
  intros H. unfold pde_get_paddr. rewrite Z.land_lor_distr_l, (land_high_low f) by done.
  apply Z.lor_0_r.
Qed.

Lemma frame_construct p f :
  is_u32 p → pde_get_paddr (pde_construct p f) = pde_get_paddr p.
Proof.
  intros Hp. unfold pde_construct. rewrite land_low.
  rewrite frame_lor by (apply Z.mod_pos_bound; lia). unfold pde_get_paddr.
  by rewrite <- Z.land_assoc.
Qed.

Lemma frame_range p : is_u32 p → is_u32 (pde_get_paddr p).
Proof.
  intros Hp. unfold is_u32, pde_get_paddr in *. rewrite land_page_mask by done.
  pose proof (Z.mod_pos_bound p 4096 ltac:(lia)). pose proof (Z.mod_le p 4096 ltac:(lia) ltac:(lia)). lia.
Qed.

Lemma frame_aligned p : is_u32 p → p mod PAGE_SIZE = 0 → pde_get_paddr p = p.
Proof. intros Hp Ha. unfold pde_get_paddr, PAGE_SIZE in *. rewrite land_page_mask by done. lia. Qed.

Lemma construct_range p f : is_u32 p → is_u32 (pte_construct p f).
Proof.
  intros Hp. apply lor_u32.
  - by apply (frame_range p).
  - rewrite land_low. pose proof (Z.mod_pos_bound f 4096 ltac:(lia)). unfold is_u32. lia.
Qed.

Lemma slots_range v : 0 ≤ dir_slot v < PD_LENGTH ∧ 0 ≤ table_slot v < PT_LENGTH.
Proof.
  unfold dir_slot, table_slot, get_pd_index, get_pt_index.
  set (x := mask_to_page v). pose proof (u32_range x).
  rewrite !Z.shiftr_div_pow2 by lia. change 0x3FF with (Z.ones 10).
  rewrite Z.land_ones by lia. change PD_LENGTH with 1024. change PT_LENGTH with (2 ^ 10).
  split; [|apply Z.mod_pos_bound; lia].
  split; [apply Z.div_pos; lia|]. apply Z.div_lt_upper_bound; lia.
Qed.

Lemma mask_to_page_range v : is_u32 (mask_to_page v) ∧ mask_to_page v mod 4096 = 0.
Proof.
  unfold mask_to_page. change (Z.lxor (PAGE_SIZE - 1) UINT_MAX) with 0xFFFFF000.
  pose proof (u32_range v). rewrite land_page_mask by done.
  pose proof (Z.mod_pos_bound (u32 v) 4096 ltac:(lia)).
  pose proof (Z.mod_le (u32 v) 4096 ltac:(lia) ltac:(lia)). split; [unfold is_u32; lia|].
  rewrite Zminus_mod, Z.mod_mod by lia. by rewrite Z.sub_diag.
Qed.

(** The two slots determine the page. *)
Lemma slots_inj v w :
  dir_slot v = dir_slot w → table_slot v = table_slot w → mask_to_page v = mask_to_page w.
Proof.
  unfold dir_slot, table_slot, get_pd_index, get_pt_index.
  destruct (mask_to_page_range v) as [Hv Av], (mask_to_page_range w) as [Hw Aw].
  set (x := mask_to_page v) in *. set (y := mask_to_page w) in *. unfold is_u32 in *.
  rewrite !u32_small by done. rewrite !Z.shiftr_div_pow2 by lia.
  change 0x3FF with (Z.ones 10). rewrite !Z.land_ones by lia. intros H1 H2.
  assert (D : ∀ z, z / 2 ^ 22 = z / 2 ^ 12 / 2 ^ 10) by (intros z; rewrite Z.div_div by lia; f_equal; lia).
  rewrite !D in H1. pose proof (Z.div_mod (x / 2 ^ 12) (2 ^ 10) ltac:(lia)).
  pose proof (Z.div_mod (y / 2 ^ 12) (2 ^ 10) ltac:(lia)).
  pose proof (Z.div_mod x 4096 ltac:(lia)). pose proof (Z.div_mod y 4096 ltac:(lia)).
  change (2 ^ 12) with 4096 in *. nia.
Qed.

(** ** Lemmas: running paging code *)

Section runs.
Variable vm_map : list vm_region.
Variable kernel_pd : Z.
Local Abbreviation kpd := (phys_kernel_pd kernel_pd).

Lemma on_palloc_run {A} (f : M palloc_sys A) s a t :
  f (palloc_view s) = Done (a, mk_guarded (g_ls (palloc_view s)) t) →
  on_palloc f s = Done (a, set_pal t s).
Proof. intros E. unfold on_palloc, zoom. by rewrite E. Qed.

Lemma set_pal_same s : set_pal (k_pal s) s = s.
Proof. by destruct s. Qed.

Lemma assert_kernel_tables_run s :
  cr3 (k_mach s) = kpd → assert_kernel_tables kernel_pd s = Done (tt, s).
Proof.
  intros H. unfold assert_kernel_tables, kernel_tables, bind, on_palloc, zoom,
    is_using_kernel_page_tables, gets. cbn [palloc_view g_ls ls_mach].
  rewrite H, Z.eqb_refl. by destruct s.
Qed.

Lemma translate_run s p :
  cr3 (k_mach s) = kpd →
  translate_or_panic vm_map kernel_pd p s =
  match reach vm_map p with
  | Some a => Done (a, s)
  | None => Panic "could not translate address"
  end.
Proof.
  intros H. unfold translate_or_panic.
  rewrite (bind_run _ _ _ _ _ (assert_kernel_tables_run _ H)).
  unfold reach, vm_is_static_p, vm_map_walk.
  destruct (get_region_p vm_map p) as [r|]; [|done]. fold (has (rflags r) VM_BIT_STATIC).
  by destruct (has (rflags r) VM_BIT_STATIC).
Qed.

Lemma translate_some s p a :
  cr3 (k_mach s) = kpd → reach vm_map p = Some a →
  translate_or_panic vm_map kernel_pd p s = Done (a, s).
Proof. intros H E. by rewrite translate_run, E. Qed.

Lemma check_palloc_lock_run s :
  unlocked (mk_ls (k_mach s) (palloc_spinlock s)) → check_palloc_lock s = Done (tt, s).
Proof.
  intros Hu. cbn in Hu.
  unfold check_palloc_lock.
  assert (E : on_palloc palloc_lock_held s = Done (false, s)).
  { rewrite (on_palloc_run _ s false (k_pal s)); [by rewrite set_pal_same|].
    unfold palloc_lock_held, on_lock, zoom, palloc_view. cbn [g_ls]. by rewrite (unlocked_held _ Hu). }
  by rewrite (bind_run _ _ _ _ _ E).
Qed.

Lemma rd32_run a s : rd32 a s = Done (load32 (kmem s) a, s).
Proof. done. Qed.

(** Looking up an entry reads the tables and changes nothing. *)
Lemma paging_get_entry_run s pd v :
  cr3 (k_mach s) = kpd →
  paging_get_entry vm_map kernel_pd pd v s =
  match entry_of vm_map (kmem s) pd v with
  | Some e => Done (e, s)
  | None => Panic "could not translate address"
  end.
Proof.
  intros H. unfold paging_get_entry, entry_of.
  rewrite (bind_run _ _ _ _ _ (assert_kernel_tables_run _ H)). unfold bind at 1.
  rewrite translate_run by done. destruct (reach vm_map pd) as [a|]; [|done]. cbn [mbind option_bind].
  rewrite (bind_run _ _ _ _ _ (rd32_run _ _)). fold (dir_slot v) (table_slot v).
  destruct (pde_get_paddr _ =? PHYS_NULL); [done|]. unfold bind.
  rewrite translate_run by done. by destruct (reach vm_map _).
Qed.

Lemma paging_get_run s pd v e :
  cr3 (k_mach s) = kpd → entry_of vm_map (kmem s) pd v = Some e →
  paging_get vm_map kernel_pd pd v s = Done (pte_get_paddr e, s).
Proof.
  intros H E. unfold paging_get.
  rewrite (bind_run _ _ _ e s); [done|]. by rewrite paging_get_entry_run, E.
Qed.

End runs.

(** ** Lemmas: memory layout of the structures *)

(** Slots of two page-aligned structures overlap only if they are the same. *)
Lemma slot_apart a b i j :
  a mod PAGE_SIZE = 0 → b mod PAGE_SIZE = 0 → 0 ≤ i < 1024 → 0 ≤ j < 1024 →
  a ≠ b ∨ i ≠ j → a + 4 * i + 4 ≤ b + 4 * j ∨ b + 4 * j + 4 ≤ a + 4 * i.
Proof.
  intros Ha Hb Hi Hj Hne. destruct (decide (a = b)) as [->|Hab]; [lia|].
  destruct (page_disjoint a b Ha Hb Hab); unfold PAGE_SIZE in *; lia.
Qed.

Lemma slot_in_page a i x : 0 ≤ i < 1024 → a + 4 * i ≤ x < a + 4 * i + 4 → in_page a x.
Proof. unfold in_page, PAGE_SIZE. lia. Qed.

(** Storing into a structure in use does not disturb the free list. *)
Lemma palloc_inv_store r l t a i x :
  a mod PAGE_SIZE = 0 → a ∉ l → 0 ≤ i < 1024 → palloc_inv r l t →
  palloc_inv r l (set_pmem (store32 (pmem t) (a + 4 * i) x) t).
Proof.
  intros Ha Hl Hi Hp. apply palloc_inv_mem; [apply byte_mem_store32, Hp| |done].
  intros v y Hv Hy. apply store32_frame. pose proof (pi_pages _ _ _ Hp) as Hall.
  rewrite Forall_forall in Hall. destruct (Hall v Hv) as (Hva & _).
  assert (v ≠ a) by (by intros ->).
  destruct (page_disjoint v a Hva Ha); try done; unfold in_page, PAGE_SIZE in *; lia.
Qed.

(** ** Lemmas: editing a directory *)

Section editing.
Variable vm_map : list vm_region.
Local Abbreviation reach := (reach vm_map).
Local Abbreviation entry_of := (entry_of vm_map).
Local Abbreviation directory_ok := (directory_ok vm_map).
Local Abbreviation frame_at m a i := (pde_get_paddr (load32 m (a + 4 * i))).

(** Only the frames of a directory's entries and the free list matter. *)
Lemma directory_ok_ext m m' l l' pd a :
  directory_ok m l pd a → l' ⊆ l →
  (∀ i, 0 ≤ i < PD_LENGTH → frame_at m' a i = frame_at m a i) → directory_ok m' l' pd a.
Proof.
  intros [Hr Ha Hu Ht Hd] Hs Hf. split; try done.
  - intros H. by apply Hu, Hs.
  - intros i Hi. rewrite Hf by done. intros Hn. destruct (Ht i Hi Hn) as (b & ? & ? & Hb & ?).
    exists b. repeat split; try done. intros Hin. by apply Hb, Hs.
  - intros i j b Hi Hj Hne. rewrite !Hf by done. by apply Hd.
Qed.

(** The table of a present slot. *)
Lemma table_at m l pd a i :
  directory_ok m l pd a → 0 ≤ i < PD_LENGTH → frame_at m a i ≠ PHYS_NULL →
  ∃ b, reach (frame_at m a i) = Some b ∧ b mod PAGE_SIZE = 0 ∧ (b ∉ l) ∧ b ≠ a.
Proof. intros H. apply H. Qed.

Lemma entry_of_unfold m l pd a v :
  directory_ok m l pd a →
  entry_of m pd v =
  if frame_at m a (dir_slot v) =? PHYS_NULL then Some PHYS_NULL
  else b ← reach (frame_at m a (dir_slot v)); Some (load32 m (b + 4 * table_slot v)).
Proof. intros H. unfold Paging.entry_of. by rewrite (do_reach _ _ _ _ _ H). Qed.

(** Rewriting a directory entry without changing its frame. *)
Lemma store_dir_flags m l pd a i x :
  directory_ok m l pd a → 0 ≤ i < PD_LENGTH → is_u32 x → pde_get_paddr x = frame_at m a i →
  directory_ok (store32 m (a + 4 * i) x) l pd a ∧
  ∀ v, entry_of (store32 m (a + 4 * i) x) pd v = entry_of m pd v.
Proof.
  intros Hd Hi Hx Hf. pose proof (do_aligned _ _ _ _ _ Hd) as Ha.
  change PD_LENGTH with 1024 in *.
  assert (Hfr : ∀ j, 0 ≤ j < 1024 → frame_at (store32 m (a + 4 * i) x) a j = frame_at m a j).
  { intros j Hj. destruct (decide (j = i)) as [->|Hne].
    - by rewrite load32_store32_eq.
    - by rewrite load32_store32_ne by lia. }
  assert (Hd' : directory_ok (store32 m (a + 4 * i) x) l pd a) by (by eapply directory_ok_ext).
  split; [done|]. intros v. destruct (slots_range v) as [Hs1 Hs2].
  rewrite (entry_of_unfold _ _ _ _ v Hd), (entry_of_unfold _ _ _ _ v Hd').
  rewrite Hfr by done. destruct (Z.eqb_spec (frame_at m a (dir_slot v)) PHYS_NULL) as [|Hn]; [done|].
  destruct (table_at _ _ _ _ _ Hd Hs1 Hn) as (b & Eb & Hb & _ & Hba). rewrite Eb. cbn. f_equal.
  apply load32_store32_ne. change PT_LENGTH with 1024 in *. destruct (slot_apart b a (table_slot v) i); auto.
Qed.

(** Writing one slot of a present table. *)
Lemma store_table_slot m l pd a b v x :
  directory_ok m l pd a → is_u32 x → frame_at m a (dir_slot v) ≠ PHYS_NULL →
  reach (frame_at m a (dir_slot v)) = Some b →
  let m' := store32 m (b + 4 * table_slot v) x in
  directory_ok m' l pd a ∧ entry_of m' pd v = Some x ∧
  ∀ w, mask_to_page w ≠ mask_to_page v → entry_of m' pd w = entry_of m pd w.
Proof.
  intros Hd Hx Hn Eb m'. pose proof (do_aligned _ _ _ _ _ Hd) as Ha.
  destruct (slots_range v) as [Hs1 Hs2]. change PT_LENGTH with 1024 in *.
  change PD_LENGTH with 1024 in Hs1.
  destruct (table_at _ _ _ _ _ Hd Hs1 Hn) as (b' & Eb' & Hb & _ & Hba).
  assert (b' = b) by congruence. subst b'. unfold m'.
  set (j := table_slot v) in *.
  assert (Hfr : ∀ i, 0 ≤ i < 1024 → load32 (store32 m (b + 4 * j) x) (a + 4 * i) = load32 m (a + 4 * i)).
  { intros i Hi. apply load32_store32_ne. destruct (slot_apart a b i j); auto. }
  assert (Hd' : directory_ok (store32 m (b + 4 * j) x) l pd a).
  { eapply directory_ok_ext; [done..|]. intros i Hi. by rewrite Hfr. }
  split; [done|]. split.
  - rewrite (entry_of_unfold _ _ _ _ v Hd'), Hfr by done. rewrite (proj2 (Z.eqb_neq _ _) Hn), Eb.
    cbn. by rewrite load32_store32_eq.
  - intros w Hw. destruct (slots_range w) as [Hw1 Hw2].
    change PT_LENGTH with 1024 in *. change PD_LENGTH with 1024 in Hw1.
    rewrite (entry_of_unfold _ _ _ _ w Hd), (entry_of_unfold _ _ _ _ w Hd'), Hfr by done.
    destruct (Z.eqb_spec (frame_at m a (dir_slot w)) PHYS_NULL) as [|Hnw]; [done|].
    destruct (table_at _ _ _ _ _ Hd Hw1 Hnw) as (bw & Ebw & Hbw & _). rewrite Ebw. cbn. f_equal.
    apply load32_store32_ne. destruct (decide (dir_slot w = dir_slot v)) as [Ed|Ed].
    + assert (Ht : table_slot w ≠ j) by (intros Et; by apply Hw, slots_inj).
      destruct (slot_apart bw b (table_slot w) j); auto.
    + assert (bw ≠ b).
      { intros ->. by apply (do_distinct _ _ _ _ _ Hd (dir_slot w) (dir_slot v) b). }
      destruct (slot_apart bw b (table_slot w) j); auto.
Qed.

(** Hanging a fresh zeroed page into an empty slot: the address space stays. *)
Lemma add_empty_table m m' l r pd a i w :
  directory_ok m (w :: l) pd a → region_ok r → 0 ≤ i < PD_LENGTH → page_ok r w → w ∉ l →
  frame_at m a i = PHYS_NULL → agree_off (w :: l) m m' → (∀ x, in_page w x → m' x = 0) →
  Forall (page_ok r) l →
  reach (v2p r w) = Some w → is_u32 (v2p r w) → v2p r w ≠ PHYS_NULL → v2p r w mod PAGE_SIZE = 0 →
  let m'' := store32 m' (a + 4 * i) (v2p r w) in
  directory_ok m'' l pd a ∧ ∀ v, entry_of m'' pd v = entry_of m pd v.
Proof.
  intros Hd Hr Hi Hw Hwl Hnull Hag Hz Hl Hreach Hu Hnz Hal m''.
  pose proof (do_aligned _ _ _ _ _ Hd) as Ha. pose proof (do_used _ _ _ _ _ Hd) as Hused.
  change PD_LENGTH with 1024 in *.
  assert (Hsub : l ⊆ w :: l) by (intros x Hx; by right).
  (* Structures in use keep their bytes, but for the slot itself. *)
  assert (Hkeep : ∀ b j, b mod PAGE_SIZE = 0 → b ∉ (w :: l) → 0 ≤ j < 1024 → (b ≠ a ∨ j ≠ i) →
            load32 m'' (b + 4 * j) = load32 m (b + 4 * j)).
  { intros b j Hb Hbl Hj Hne. unfold m''.
    rewrite load32_store32_ne by (destruct (slot_apart b a j i); auto).
    apply load32_ext. intros x Hx. apply Hag. intros v Hv Hvx.
    assert (Hva : v mod PAGE_SIZE = 0).
    { apply elem_of_cons in Hv as [->|Hv]; [apply Hw|]. rewrite Forall_forall in Hl. by apply Hl. }
    assert (v ≠ b) by (by intros ->).
    destruct (page_disjoint v b Hva Hb); try done; unfold in_page, PAGE_SIZE in *; lia. }
  assert (Hself : frame_at m'' a i = v2p r w).
  { unfold m''. rewrite load32_store32_eq by done. by apply frame_aligned. }
  assert (Hother : ∀ j, 0 ≤ j < 1024 → j ≠ i → frame_at m'' a j = frame_at m a j).
  { intros j Hj Hne. by rewrite Hkeep by auto. }
  assert (Hwa : w ≠ a) by (intros ->; apply Hused; by left).
  assert (Hd'' : directory_ok m'' l pd a).
  { split; [apply Hd|done|..].
    - intros H. apply Hused. by right.
    - intros j Hj. destruct (decide (j = i)) as [->|Hne].
      + rewrite Hself. intros _. exists w. repeat split; try done. apply Hw.
      + rewrite Hother by done. intros Hn. destruct (table_at _ _ _ _ _ Hd Hj Hn) as (b & ? & ? & Hb & ?).
        exists b. repeat split; try done. intros Hin. apply Hb. by right.
    - intros j1 j2 b Hj1 Hj2 Hne. change PD_LENGTH with 1024 in *.
      destruct (decide (j1 = i)) as [->|H1], (decide (j2 = i)) as [->|H2]; [lia|..].
      + rewrite Hself, Hother by done. intros _ Hn2 E E2.
        destruct (table_at _ _ _ _ _ Hd Hj2 Hn2) as (b' & ? & ? & Hb & ?).
        apply Hb. assert (b' = w) as -> by congruence. by left.
      + rewrite Hself, Hother by done. intros Hn1 _ E E2.
        destruct (table_at _ _ _ _ _ Hd Hj1 Hn1) as (b' & ? & ? & Hb & ?).
        apply Hb. assert (b' = w) as -> by congruence. by left.
      + rewrite !Hother by done. by apply Hd. }
  split; [done|]. intros v. destruct (slots_range v) as [Hs1 Hs2].
  change PT_LENGTH with 1024 in *. change PD_LENGTH with 1024 in Hs1.
  rewrite (entry_of_unfold _ _ _ _ v Hd), (entry_of_unfold _ _ _ _ v Hd'').
  destruct (decide (dir_slot v = i)) as [->|Hne].
  - rewrite Hself, Hnull, Hreach. rewrite (proj2 (Z.eqb_neq _ _) Hnz). cbn. f_equal.
    unfold m''. rewrite load32_store32_ne
      by (destruct (slot_apart w a (table_slot v) i); auto; apply Hw).
    unfold load32. rewrite !Hz; [done|unfold in_page, PAGE_SIZE; lia..].
  - rewrite Hother by done.
    destruct (Z.eqb_spec (frame_at m a (dir_slot v)) PHYS_NULL) as [|Hn]; [done|].
    destruct (table_at _ _ _ _ _ Hd Hs1 Hn) as (b & Eb & Hb & Hbl & Hba). rewrite Eb. cbn. f_equal.
    apply Hkeep; auto.
Qed.

End editing.

(** The allocator's region is reached one to one through the memory map. *)
Record map_ok (vm_map : list vm_region) (r : vm_region) : Prop := {
  mo_region : region_ok r;
  mo_reach : ∀ w, page_ok r w → reach vm_map (v2p r w) = Some w;
}.

Lemma v2p_page r w :
  region_ok r → page_ok r w →
  is_u32 (v2p r w) ∧ v2p r w ≠ PHYS_NULL ∧ v2p r w mod PAGE_SIZE = 0 ∧ p2v r (v2p r w) = w.
Proof.
  intros [] (Hw & H1 & H2). unfold v2p, p2v, is_u32, PHYS_NULL, PAGE_SIZE in *.
  repeat split; try lia.
  rewrite Z.add_mod, Zminus_mod, Hw by lia. by rewrite rg_aligned, rg_paligned.
Qed.

Section mapping.
Variable vm_map : list vm_region.
Variable kernel_pd : Z.
Variable r : vm_region.
Hypothesis Hmap : map_ok vm_map r.
Local Abbreviation kpd := (phys_kernel_pd kernel_pd).
Local Abbreviation directory_ok := (directory_ok vm_map).
Local Abbreviation entry_of := (entry_of vm_map).
Local Abbreviation frame_at m a i := (pde_get_paddr (load32 m (a + 4 * i))).

Lemma ensure_table_run s l pd a i :
  paging_ok kernel_pd r l s → directory_ok (kmem s) l pd a → 0 ≤ i < PD_LENGTH →
  (frame_at (kmem s) a i ≠ PHYS_NULL ∨ l ≠ []) →
  ∃ t' l', ensure_table kernel_pd (a + 4 * i) s = Done (tt, set_pal t' s) ∧
    palloc_inv r l' t' ∧ (l' = l ∨ ∃ w, l = w :: l') ∧
    directory_ok (pmem t') l' pd a ∧ frame_at (pmem t') a i ≠ PHYS_NULL ∧
    ∀ v, entry_of (pmem t') pd v = entry_of (kmem s) pd v.
Proof.
  intros [Hc Hi] Hd Hr Hor. unfold ensure_table.
  rewrite (bind_run _ _ _ _ _ (rd32_run _ _)).
  destruct (Z.eqb_spec (frame_at (kmem s) a i) PHYS_NULL) as [En|En]; cbn [when].
  2:{ exists (k_pal s), l. rewrite set_pal_same. eauto 10. }
  destruct l as [|w l]; [by destruct Hor|]. destruct Hmap as [Hreg Hreach].
  pose proof (pi_pages _ _ _ Hi) as Hp. apply Forall_cons in Hp as [Hw Hl].
  pose proof (pi_nodup _ _ _ Hi) as Hn. apply NoDup_cons in Hn as [Hwl _].
  destruct (v2p_page r w Hreg Hw) as (Hu & Hnz & Hal & Hback).
  destruct (palloc_run kpd r w l _ _ Hreg Hc Hi) as (t1 & E1 & Hi1 & Ha1 & Hz1).
  rewrite (bind_run _ _ _ _ _ (kassert_true _ _ _ eq_refl)).
  rewrite (bind_run _ _ _ _ _ (on_palloc_run _ _ _ _ E1)).
  assert (E2 : on_palloc (ptranslate (v2p r w)) (set_pal t1 s) = Done (w, set_pal t1 s)).
  { rewrite (on_palloc_run _ _ w t1); [done|].
    rewrite <- Hback at 2. apply (ptranslate_run r l); try done. by rewrite Hback. }
  rewrite (bind_run _ _ _ _ _ E2). unfold upd_mem, wr32, bind, modify.
  set (m1 := kmemset (kmem (set_pal t1 s)) w 0 (PT_LENGTH * 4)).
  assert (Ex : pde_construct (v2p r w) 0 = v2p r w).
  { unfold pde_construct. rewrite Z.lor_0_r. by apply frame_aligned. }
  rewrite Ex.
  assert (Hi2 : palloc_inv r l (set_pmem m1 t1)) by (by apply (kmemset_page r l w)).
  assert (Hag : agree_off (w :: l) (kmem s) m1).
  { eapply agree_off_trans; [exact Ha1|]. intros x Hx. apply kmemset_out.
    specialize (Hx w ltac:(by left)). unfold in_page in Hx.
    change (PT_LENGTH * 4) with PAGE_SIZE. unfold PAGE_SIZE in *. lia. }
  assert (Hz : ∀ x, in_page w x → m1 x = 0).
  { intros x Hx. unfold m1. by rewrite kmemset_in. }
  destruct (add_empty_table vm_map (kmem s) m1 l r pd a i w) as [Hd2 He2]; try done.
  { by apply Hreach. }
  exists (set_pmem (store32 m1 (a + 4 * i) (v2p r w)) (set_pmem m1 t1)), l.
  split; [done|]. split.
  { apply (palloc_inv_store r l (set_pmem m1 t1)); try done; [apply Hd|].
    intros Hin. apply (do_used _ _ _ _ _ Hd). by right. }
  split; [eauto|]. split; [done|]. split; [|done].
  cbn [pmem set_pmem]. rewrite load32_store32_eq by done. by rewrite frame_aligned.
Qed.

Lemma paging_map_run s l pd a v p flags :
  paging_ok kernel_pd r l s → directory_ok (kmem s) l pd a →
  is_u32 p → 0 ≤ flags < 4096 →
  (pd = kpd ∨ has flags PAGE_BIT_GLOBAL = false ∧
              has (load32 (kmem s) (a + 4 * dir_slot v)) PAGE_BIT_GLOBAL = false) →
  (frame_at (kmem s) a (dir_slot v) ≠ PHYS_NULL ∨ l ≠ []) →
  ∃ t' l', paging_map vm_map kernel_pd pd v p flags s = Done (tt, set_pal t' s) ∧
    palloc_inv r l' t' ∧ (l' = l ∨ ∃ w, l = w :: l') ∧
    directory_ok (pmem t') l' pd a ∧
    entry_of (pmem t') pd v = Some (pte_construct p (Z.lor flags PAGE_BIT_PRESENT)) ∧
    ∀ w, mask_to_page w ≠ mask_to_page v → entry_of (pmem t') pd w = entry_of (kmem s) pd w.
Proof.
  intros Hok Hd Hp Hf Hg Hor. pose proof Hok as [[Hu Hk] Hi]. cbn [ls_mach] in Hk.
  destruct (slots_range v) as [Hs1 Hs2].
  assert (Hg1 : has flags PAGE_BIT_GLOBAL && negb (pd =? kpd) = false).
  { destruct Hg as [->|[-> _]]; [by rewrite Z.eqb_refl, andb_false_r|done]. }
  assert (Hg2 : has (load32 (kmem s) (a + 4 * dir_slot v)) PAGE_BIT_GLOBAL && negb (pd =? kpd) = false).
  { destruct Hg as [->|[_ ->]]; [by rewrite Z.eqb_refl, andb_false_r|done]. }
  unfold paging_map. rewrite Hg1.
  rewrite (bind_run _ _ _ _ _ (check_palloc_lock_run _ Hu)).
  rewrite (bind_run _ _ _ _ _ (assert_kernel_tables_run _ _ Hk)).
  rewrite (bind_run _ _ _ _ _ (translate_some _ _ _ _ _ Hk (do_reach _ _ _ _ _ Hd))).
  fold (dir_slot v) (table_slot v).
  rewrite (bind_run _ _ _ _ _ (rd32_run _ _)), Hg2.
  destruct (ensure_table_run s l pd a (dir_slot v) Hok Hd Hs1 Hor)
    as (t1 & l1 & E1 & Hi1 & Hl1 & Hd1 & Hn1 & He1).
  rewrite (bind_run _ _ _ _ _ E1). rewrite (bind_run _ _ _ _ _ (rd32_run _ _)).
  change (kmem (set_pal t1 s)) with (pmem t1).
  set (e := load32 (pmem t1) (a + 4 * dir_slot v)) in *.
  set (x := Z.lor e (Z.lor flags PAGE_BIT_PRESENT)).
  pose proof (flags_present flags Hf) as Hfl.
  assert (Hx : is_u32 x).
  { apply lor_u32; [apply load32_range, Hi1|]. unfold is_u32. lia. }
  assert (Hxf : pde_get_paddr x = pde_get_paddr e) by (by apply frame_lor).
  destruct (store_dir_flags vm_map (pmem t1) l1 pd a (dir_slot v) x Hd1 Hs1 Hx Hxf) as [Hd2 He2].
  unfold bind at 1, wr32, modify. change (kmem (set_pal t1 s)) with (pmem t1).
  set (m2 := store32 (pmem t1) (a + 4 * dir_slot v) x) in *.
  rewrite (bind_run _ _ _ _ _ (rd32_run _ _)).
  change (kmem (set_kmem m2 (set_pal t1 s))) with m2.
  assert (El : load32 m2 (a + 4 * dir_slot v) = x) by (by apply load32_store32_eq).
  rewrite El, Hxf.
  destruct (table_at _ _ _ _ _ _ Hd1 Hs1 Hn1) as (b & Eb & Hb & Hbl & Hba).
  assert (Hk2 : cr3 (k_mach (set_kmem m2 (set_pal t1 s))) = kpd) by done.
  rewrite (bind_run _ _ _ _ _ (translate_some _ _ _ _ _ Hk2 Eb)).
  destruct (store_table_slot vm_map m2 l1 pd a b v (pte_construct p (Z.lor flags PAGE_BIT_PRESENT)))
    as (Hd3 & He3 & He3'); try done.
  { by apply construct_range. }
  { by rewrite El, Hxf. }
  { by rewrite El, Hxf. }
  eexists (set_pmem _ (set_pmem m2 t1)), l1. split; [reflexivity|].
  change (kmem (set_kmem m2 (set_pal t1 s))) with m2. cbn [pmem set_pmem].
  split.
  { apply (palloc_inv_store r l1 (set_pmem m2 t1)); try done. apply palloc_inv_store; try done; apply Hd1. }
  do 3 (split; [done|]). intros w Hw. by rewrite He3', He2, He1.
Qed.

End mapping.

(** ** Lemmas: copying between address spaces *)

Section copying.
Variable vm_map : list vm_region.
Variable kernel_pd : Z.
Variable pd : Z.
Local Abbreviation kpd := (phys_kernel_pd kernel_pd).

(** Kernel address of the page and of the byte a user address is mapped to. *)
Definition upage (m : mem) (w : Z) : option Z :=
  e ← entry_of vm_map m pd w; reach vm_map (pte_get_paddr e).
Definition ubyte (m : mem) (w : Z) : option Z :=
  y ← upage m w; Some (y + (w - mask_to_page w)).

(** The bytes of the directory and of its page tables. *)
Definition table_byte (m : mem) (x : Z) : Prop :=
  ∃ a, reach vm_map pd = Some a ∧
    (in_page a x ∨
     ∃ i b, 0 ≤ i < PD_LENGTH ∧ reach vm_map (pde_get_paddr (load32 m (a + 4 * i))) = Some b ∧
            in_page b x).

(** The two memories agree on the page tables. *)
Definition same_tables (m m' : mem) : Prop := ∀ x, table_byte m x → m' x = m x.

Lemma same_tables_load m m' a i :
  reach vm_map pd = Some a → same_tables m m' → 0 ≤ i < PD_LENGTH →
  load32 m' (a + 4 * i) = load32 m (a + 4 * i).
Proof.
  intros Ha Hs Hi. change PD_LENGTH with 1024 in Hi. apply load32_ext. intros x Hx. apply Hs.
  exists a. split; [done|]. left. by apply (slot_in_page a i).
Qed.

Lemma same_tables_entry m m' w :
  same_tables m m' → entry_of vm_map m' pd w = entry_of vm_map m pd w.
Proof.
  intros Hs. unfold entry_of. destruct (reach vm_map pd) as [a|] eqn:Ea; [|done]. cbn.
  destruct (slots_range w) as [H1 H2].
  rewrite (same_tables_load m m') by done.
  destruct (_ =? PHYS_NULL); [done|].
  destruct (reach vm_map (pde_get_paddr _)) as [b|] eqn:Eb; [|done]. cbn. f_equal.
  change PT_LENGTH with 1024 in H2. apply load32_ext. intros x Hx. apply Hs.
  exists a. split; [done|]. right. exists (dir_slot w), b. split; [done|]. split; [done|].
  by apply (slot_in_page b (table_slot w)).
Qed.

Lemma same_tables_upage m m' w : same_tables m m' → upage m' w = upage m w.
Proof. intros Hs. unfold upage. by rewrite (same_tables_entry m m'). Qed.

Lemma same_tables_ubyte m m' w : same_tables m m' → ubyte m' w = ubyte m w.
Proof. intros Hs. unfold ubyte. by rewrite (same_tables_upage m m'). Qed.

Lemma same_tables_byte m m' x : same_tables m m' → table_byte m' x → table_byte m x.
Proof.
  intros Hs (a & Ha & [Hx|(i & b & Hi & Eb & Hx)]); exists a; (split; [done|]); [by left|].
  right. exists i, b. rewrite (same_tables_load m m') in Eb by done. done.
Qed.

(** Addresses on the same page go through the same entry. *)
Lemma mask_same v k :
  is_u32 v → 0 ≤ k < PAGE_SIZE - (v - mask_to_page v) → v + k < 2 ^ 32 →
  mask_to_page (v + k) = mask_to_page v.
Proof.
  unfold is_u32. intros Hv Hk Hlt. rewrite mask_to_page_eq in * by lia.
  rewrite mask_to_page_eq in * by lia. unfold PAGE_SIZE in *.
  pose proof (Z.div_mod v 4096 ltac:(lia)). pose proof (Z.mod_pos_bound v 4096 ltac:(lia)).
  replace ((v + k) mod 4096) with (v mod 4096 + k); [lia|].
  apply (Z.mod_unique _ _ (v / 4096)); lia.
Qed.

Lemma ubyte_step m v k y :
  is_u32 v → 0 ≤ k < PAGE_SIZE - (v - mask_to_page v) → v + k < 2 ^ 32 →
  upage m v = Some y → ubyte m (v + k) = Some (y + (v - mask_to_page v) + k).
Proof.
  intros Hv Hk Hlt Hy. pose proof (mask_same v k Hv Hk Hlt) as E.
  unfold ubyte, upage, entry_of, dir_slot, table_slot in *. rewrite E, Hy. cbn. f_equal. lia.
Qed.

Lemma page_off v : is_u32 v → 0 ≤ v - mask_to_page v < PAGE_SIZE.
Proof.
  intros Hv. unfold is_u32 in Hv. rewrite mask_to_page_eq by done.
  pose proof (Z.mod_pos_bound v PAGE_SIZE ltac:(done)). lia.
Qed.

Lemma kmin_min x y : kmin x y = Z.min x y.
Proof. unfold kmin. destruct (Z.gtb_spec x y); lia. Qed.

Definition copied (write : bool) (m : mem) (k b n : Z) : mem :=
  if write then fst (kmemcpy m k b n) else fst (kmemcpy m b k n).

Lemma vmxchg_step fuel s v buf num buf_off write y :
  cr3 (k_mach s) = kpd → is_u32 v → 0 < num → upage (kmem s) v = Some y →
  let o := v - mask_to_page v in
  let batch := Z.min (PAGE_SIZE - o) num in
  vmxchg_loop vm_map kernel_pd (S fuel) pd v buf num buf_off write s =
  vmxchg_loop vm_map kernel_pd fuel pd (u32 (mask_to_page v + PAGE_SIZE)) buf (num - batch)
    (buf_off + batch) write (set_kmem (copied write (kmem s) (y + o) (buf + buf_off) batch) s).
Proof.
  intros Hk Hv Hn Hy o batch. cbn [vmxchg_loop].
  rewrite (proj2 (Z.gtb_lt num 0)) by lia. cbn [negb].
  unfold upage in Hy. destruct (entry_of vm_map (kmem s) pd v) as [e|] eqn:Ee; [|done]. cbn in Hy.
  rewrite (bind_run _ _ _ _ _ (paging_get_run _ _ _ _ _ _ Hk Ee)).
  rewrite (bind_run _ _ _ _ _ (translate_some _ _ _ _ _ Hk Hy)).
  pose proof (page_off v Hv). unfold is_u32, PAGE_SIZE in *. rewrite u32_small by lia. fold o.
  rewrite kmin_min. unfold bind, upd_mem, modify, copied. fold batch. by destruct write.
Qed.

(** Disjointness of the bytes of a user range from a kernel buffer and from the
    page tables, and of its bytes from each other. *)
Record window_ok (m : mem) (v buf num : Z) : Prop := {
  wo_mapped : ∀ i, 0 ≤ i < num → ∃ y, ubyte m (v + i) = Some y ∧ ¬ table_byte m y ∧
                ¬ (buf ≤ y < buf + num);
  wo_inj : ∀ i j y, 0 ≤ i < num → 0 ≤ j < num → ubyte m (v + i) = Some y →
             ubyte m (v + j) = Some y → i = j;
}.

Lemma window_sub m m' v buf num k :
  same_tables m m' → 0 ≤ k → window_ok m v buf num → window_ok m' (v + k) (buf + k) (num - k).
Proof.
  intros Hs Hk [Hm Hi]. split.
  - intros i Hr. destruct (Hm (k + i) ltac:(lia)) as (y & E & Ht & Hb). exists y.
    rewrite (same_tables_ubyte m) by done. replace (v + k + i) with (v + (k + i)) by lia.
    split; [done|]. split; [|lia]. intros H. by apply Ht, (same_tables_byte m m').
  - intros i j y Hr1 Hr2. rewrite !(fun w => same_tables_ubyte m m' w Hs).
    replace (v + k + i) with (v + (k + i)) by lia. replace (v + k + j) with (v + (k + j)) by lia.
    intros E1 E2. pose proof (Hi (k + i) (k + j) y ltac:(lia) ltac:(lia) E1 E2). lia.
Qed.

(** The contiguous part of the window on the page of its first byte. *)
Lemma window_page m v buf num :
  is_u32 v → 0 < num → v + num ≤ 2 ^ 32 → window_ok m v buf num →
  let o := v - mask_to_page v in
  let batch := Z.min (PAGE_SIZE - o) num in
  0 < batch ≤ num ∧ ∃ y, upage m v = Some y ∧
    (∀ k, 0 ≤ k < batch → ubyte m (v + k) = Some (y + o + k)) ∧
    (∀ k, 0 ≤ k < batch → ¬ table_byte m (y + o + k)) ∧
    (y + o + batch ≤ buf ∨ buf + num ≤ y + o).
Proof.
  intros Hv Hn Hle [Hm Hi] o batch. pose proof (page_off v Hv) as Ho. fold o in Ho.
  split; [lia|]. destruct (Hm 0 ltac:(lia)) as (y0 & E0 & _). rewrite Z.add_0_r in E0.
  unfold ubyte in E0. destruct (upage m v) as [y|] eqn:Ey; [|done]. exists y. split; [done|].
  assert (Hb : ∀ k, 0 ≤ k < batch → ubyte m (v + k) = Some (y + o + k)).
  { intros k Hk. apply ubyte_step; try done; lia. }
  assert (Hd : ∀ k, 0 ≤ k < batch → ¬ table_byte m (y + o + k) ∧ ¬ (buf ≤ y + o + k < buf + num)).
  { intros k Hk. destruct (Hm k ltac:(lia)) as (y' & E' & Ht & Hbuf).
    rewrite Hb in E' by done. by injection E' as <-. }
  split; [done|]. split; [intros k Hk; by apply Hd|].
  destruct (Z.le_gt_cases (y + o + batch) buf) as [|Hgt]; [by left|].
  destruct (Z.le_gt_cases (buf + num) (y + o)) as [|Hgt2]; [by right|]. exfalso.
  destruct (Z.le_gt_cases buf (y + o)) as [Hge|Hlt].
  - destruct (Hd 0 ltac:(lia)) as [_ H]. lia.
  - destruct (Hd (buf - (y + o)) ltac:(lia)) as [_ H]. lia.
Qed.

Lemma next_page v :
  is_u32 v → mask_to_page v + PAGE_SIZE < 2 ^ 32 →
  u32 (mask_to_page v + PAGE_SIZE) = v + (PAGE_SIZE - (v - mask_to_page v)).
Proof.
  intros Hv Hlt. destruct (mask_to_page_range v) as [Hm _]. unfold is_u32 in Hm.
  rewrite u32_small by (unfold PAGE_SIZE in *; lia). lia.
Qed.

Lemma vmwrite_loop fuel s v buf num b0 :
  cr3 (k_mach s) = kpd → byte_mem (kmem s) → is_u32 v → 0 ≤ num ≤ Z.of_nat fuel →
  v + num ≤ 2 ^ 32 → window_ok (kmem s) v (buf + b0) num →
  ∃ m', vmxchg_loop vm_map kernel_pd fuel pd v buf num b0 true s = Done (tt, set_kmem m' s) ∧
    byte_mem m' ∧
    (∀ i y, 0 ≤ i < num → ubyte (kmem s) (v + i) = Some y → m' y = kmem s (buf + b0 + i)) ∧
    (∀ x, (∀ i, 0 ≤ i < num → ubyte (kmem s) (v + i) ≠ Some x) → m' x = kmem s x).
Proof.
  revert s v num b0. induction fuel as [|fuel IH]; intros s v num b0 Hk Hbm Hv Hn Hle Hw.
  { exists (kmem s). assert (num = 0) as -> by lia. split; [by destruct s as [? ? ? ? []]|].
    split; [done|]. split; [lia|done]. }
  destruct (Z.eq_dec num 0) as [->|Hnz].
  { exists (kmem s). split; [by destruct s as [? ? ? ? []]|]. split; [done|]. split; [lia|done]. }
  assert (Hnp : 0 < num) by lia.
  destruct (window_page _ _ _ _ Hv Hnp Hle Hw) as (Hbat & y & Ey & Hb & Ht & Hdis).
  set (o := v - mask_to_page v) in *. set (batch := Z.min (PAGE_SIZE - o) num) in *.
  rewrite (vmxchg_step fuel s v buf num b0 true y) by (done || lia). fold o batch. cbn [copied].
  set (m1 := fst (kmemcpy (kmem s) (y + o) (buf + b0) batch)).
  assert (Hin : ∀ k, 0 ≤ k < batch → m1 (y + o + k) = kmem s (buf + b0 + k)).
  { intros k Hkk. apply kmemcpy_in; try done; lia. }
  assert (Hout : ∀ x, (x < y + o ∨ y + o + batch ≤ x) → m1 x = kmem s x).
  { intros x Hx. apply kmemcpy_out. lia. }
  assert (Hst : same_tables (kmem s) m1).
  { intros x Hx. apply Hout. destruct (Z.le_gt_cases (y + o) x); [|lia].
    destruct (Z.le_gt_cases (y + o + batch) x); [lia|]. exfalso.
    apply (Ht (x - (y + o)) ltac:(lia)). by replace (y + o + (x - (y + o))) with x by lia. }
  pose proof (window_sub _ _ _ _ _ batch Hst ltac:(lia) Hw) as Hw1.
  assert (Hm1b : byte_mem m1) by (by apply kmemcpy_byte_mem).
  destruct (Z.eq_dec batch num) as [Efin|Hmore].
  - replace (num - batch) with 0 by lia. exists m1.
    split; [by destruct fuel|]. split; [done|]. split.
    + intros i z Hi Ez. rewrite Hb in Ez by lia. injection Ez as <-. apply Hin. lia.
    + intros x Hx. apply Hout. destruct (Z.le_gt_cases (y + o) x); [|lia].
      destruct (Z.le_gt_cases (y + o + batch) x); [lia|]. exfalso.
      apply (Hx (x - (y + o)) ltac:(lia)). rewrite Hb by lia. f_equal. lia.
  - assert (Eb : batch = PAGE_SIZE - o) by lia.
    rewrite next_page by (done || (unfold o in *; lia)). fold o. rewrite <- Eb.
    destruct (IH (set_kmem m1 s) (v + batch) (num - batch) (b0 + batch)) as (m' & E & Hbm' & H1 & H2);
      try done; try (unfold is_u32 in *; lia).
    { by replace (buf + (b0 + batch)) with (buf + b0 + batch) by lia. }
    change (kmem (set_kmem m1 s)) with m1 in *.
    pose proof (fun w => same_tables_ubyte (kmem s) m1 w Hst) as Hub.
    setoid_rewrite Hub in H1. setoid_rewrite Hub in H2.
    exists m'. split; [done|]. split; [done|]. split.
    + intros i z Hi Ez. destruct (Z.lt_ge_cases i batch).
      * rewrite H2.
        -- rewrite Hb in Ez by lia. injection Ez as <-. apply Hin. lia.
        -- intros j Hj Ej. replace (v + batch + j) with (v + (batch + j)) in Ej by lia.
           pose proof (wo_inj _ _ _ _ Hw i (batch + j) z ltac:(lia) ltac:(lia) Ez Ej). lia.
      * rewrite (H1 (i - batch) z); [|lia|by replace (v + batch + (i - batch)) with (v + i) by lia].
        replace (buf + (b0 + batch) + (i - batch)) with (buf + b0 + i) by lia. apply Hout. lia.
    + intros x Hx. rewrite H2.
      * apply Hout. destruct (Z.le_gt_cases (y + o) x); [|lia].
        destruct (Z.le_gt_cases (y + o + batch) x); [lia|]. exfalso.
        apply (Hx (x - (y + o)) ltac:(lia)). rewrite Hb by lia. f_equal. lia.
      * intros j Hj. replace (v + batch + j) with (v + (batch + j)) by lia. apply Hx. lia.
Qed.

Lemma vmread_loop fuel s v buf num b0 :
  cr3 (k_mach s) = kpd → byte_mem (kmem s) → is_u32 v → 0 ≤ num ≤ Z.of_nat fuel →
  v + num ≤ 2 ^ 32 → window_ok (kmem s) v (buf + b0) num →
  (∀ x, buf + b0 ≤ x < buf + b0 + num → ¬ table_byte (kmem s) x) →
  ∃ m', vmxchg_loop vm_map kernel_pd fuel pd v buf num b0 false s = Done (tt, set_kmem m' s) ∧
    (∀ i y, 0 ≤ i < num → ubyte (kmem s) (v + i) = Some y → m' (buf + b0 + i) = kmem s y) ∧
    (∀ x, ¬ (buf + b0 ≤ x < buf + b0 + num) → m' x = kmem s x).
Proof.
  revert s v num b0. induction fuel as [|fuel IH]; intros s v num b0 Hk Hbm Hv Hn Hle Hw Htb.
  { exists (kmem s). assert (num = 0) as -> by lia. split; [by destruct s as [? ? ? ? []]|].
    split; [lia|done]. }
  destruct (Z.eq_dec num 0) as [->|Hnz].
  { exists (kmem s). split; [by destruct s as [? ? ? ? []]|]. split; [lia|done]. }
  assert (Hnp : 0 < num) by lia.
  destruct (window_page _ _ _ _ Hv Hnp Hle Hw) as (Hbat & y & Ey & Hb & Ht & Hdis).
  set (o := v - mask_to_page v) in *. set (batch := Z.min (PAGE_SIZE - o) num) in *.
  rewrite (vmxchg_step fuel s v buf num b0 false y) by (done || lia). fold o batch. cbn [copied].
  set (m1 := fst (kmemcpy (kmem s) (buf + b0) (y + o) batch)).
  assert (Hin : ∀ k, 0 ≤ k < batch → m1 (buf + b0 + k) = kmem s (y + o + k)).
  { intros k Hkk. apply kmemcpy_in; try done; lia. }
  assert (Hout : ∀ x, ¬ (buf + b0 ≤ x < buf + b0 + batch) → m1 x = kmem s x).
  { intros x Hx. apply kmemcpy_out. lia. }
  assert (Hst : same_tables (kmem s) m1).
  { intros x Hx. apply Hout. intros Hr. by apply (Htb x ltac:(lia)). }
  pose proof (window_sub _ _ _ _ _ batch Hst ltac:(lia) Hw) as Hw1.
  assert (Hm1b : byte_mem m1) by (by apply kmemcpy_byte_mem).
  destruct (Z.eq_dec batch num) as [Efin|Hmore].
  - replace (num - batch) with 0 by lia. exists m1. split; [by destruct fuel|]. split.
    + intros i z Hi Ez. rewrite Hb in Ez by lia. injection Ez as <-. apply Hin. lia.
    + intros x Hx. apply Hout. lia.
  - assert (Eb : batch = PAGE_SIZE - o) by lia.
    rewrite next_page by (done || (unfold o in *; lia)). fold o. rewrite <- Eb.
    destruct (IH (set_kmem m1 s) (v + batch) (num - batch) (b0 + batch)) as (m' & E & H1 & H2);
      try done; try (unfold is_u32 in *; lia).
    { by replace (buf + (b0 + batch)) with (buf + b0 + batch) by lia. }
    { intros x Hx Htx. apply (Htb x ltac:(lia)). by apply (same_tables_byte _ m1). }
    change (kmem (set_kmem m1 s)) with m1 in *.
    pose proof (fun w => same_tables_ubyte (kmem s) m1 w Hst) as Hub.
    setoid_rewrite Hub in H1. exists m'. split; [done|]. split.
    + intros i z Hi Ez. destruct (Z.lt_ge_cases i batch).
      * rewrite H2 by lia. rewrite Hb in Ez by lia. injection Ez as <-. apply Hin. lia.
      * replace (buf + b0 + i) with (buf + (b0 + batch) + (i - batch)) by lia.
        rewrite (H1 (i - batch) z); [|lia|by replace (v + batch + (i - batch)) with (v + i) by lia].
        apply Hout. destruct (wo_mapped _ _ _ _ Hw i ltac:(lia)) as (z' & Ez' & _ & Hz').
        assert (z' = z) by congruence. subst. lia.
    + intros x Hx. rewrite H2 by lia. apply Hout. lia.
Qed.

End copying.

(** The kernel's memory map reaches the allocator's pages one to one. *)
Lemma layout_map_ok sy r :
  layout_ok sy → KM_VIRT_BASE < kernel_mem_break sy →
  create_vm_map sy !! VM_PALLOC_REGION = Some r → map_ok (create_vm_map sy) r.
Proof.
  intros Hl Hb Hr. destruct (palloc_region_ok sy Hl Hb) as (r' & Hr' & Hok).
  assert (r' = r) by congruence. subst r'. split; [done|]. intros w (_ & H1 & H2).
  rewrite (create_vm_map_eq sy Hl) in Hr. injection Hr as <-. cbn [vbase rsize] in H1, H2.
  pose proof Hl as []. unfold KM_VIRT_BASE, KM_PHYS_BASE, PAGE_SIZE in *.
  unfold reach, v2p. cbn [vbase pbase].
  replace (kernel_mem_break sy - 3221225472 + (w - (kernel_mem_break sy - 3221225472))) with w by lia.
  rewrite (get_region_p_free sy w Hl).
  2:{ unfold KM_FREE_PHYS_BASE, KM_VIRT_BASE, KM_PHYS_BASE. rewrite km_paddr_high; lia. }
  rewrite (create_vm_map_eq sy Hl). cbn. f_equal. rewrite u32_small; lia.
Qed.

(** Physical address 0 is reached through the low memory region. *)
Lemma reach_zero sy : layout_ok sy → reach (create_vm_map sy) 0 = Some 0xC0000000.
Proof.
  intros Hl. unfold reach, get_region_p. rewrite (create_vm_map_eq sy Hl). reflexivity.
Qed.

(** An example: the allocator of [Palloc] with an empty directory at 0x900000. *)
Definition example_vm_map : list vm_region := create_vm_map example_symbols.
Definition example_kernel_pd : Z := 0xC0000000.
Definition example_kstate : kstate :=
  mk_kstate example_machine free_lock free_lock free_lock example_palloc 0 0 false.

Lemma example_map_ok : map_ok example_vm_map example_region.
Proof. apply (layout_map_ok example_symbols); [apply example_layout_ok|done|done]. Qed.

Lemma example_paging_ok : paging_ok example_kernel_pd example_region [0x803000] example_kstate.
Proof. split; [apply example_callable|apply example_palloc_inv]. Qed.

Lemma example_dir_zero i :
  0 ≤ i < PD_LENGTH → load32 (kmem example_kstate) (0x900000 + 4 * i) = 0.
Proof.
  intros Hi. change PD_LENGTH with 1024 in Hi.
  unfold kmem, example_kstate, k_pal, example_palloc, pmem, example_palloc_mem.
  rewrite load32_store32_ne by lia. reflexivity.
Qed.

Lemma example_directory_ok :
  directory_ok example_vm_map (kmem example_kstate) [0x803000] 0x900000 0x900000.
Proof.
  split; try done.
  - intros H. by apply list_elem_of_singleton in H.
  - intros i Hi. rewrite example_dir_zero by done. done.
  - intros i j b Hi Hj _. rewrite example_dir_zero by done. done.
Qed.

(** ** Properties *)

(** Paging_map installs a mapping and nothing else: afterwards
    paging_get_entry returns the constructed entry for the mapped page and, for
    every other page of the address space, the entry it returned before; a
    missing page table is taken from the page allocator, whose free list keeps
    its invariant, and the directory stays well-formed. *)
Theorem paging_map_get vm_map kernel_pd r s l pd a v p flags :
  map_ok vm_map r → paging_ok kernel_pd r l s → directory_ok vm_map (kmem s) l pd a →
  is_u32 p → 0 ≤ flags < 4096 →
  (pd = phys_kernel_pd kernel_pd ∨
   has flags PAGE_BIT_GLOBAL = false ∧
   has (load32 (kmem s) (a + 4 * dir_slot v)) PAGE_BIT_GLOBAL = false) →
  (pde_get_paddr (load32 (kmem s) (a + 4 * dir_slot v)) ≠ PHYS_NULL ∨ l ≠ []) →
  ∃ s' l', paging_map vm_map kernel_pd pd v p flags s = Done (tt, s') ∧
    paging_ok kernel_pd r l' s' ∧ (l' = l ∨ ∃ w, l = w :: l') ∧
    directory_ok vm_map (kmem s') l' pd a ∧
    paging_get_entry vm_map kernel_pd pd v s'
      = Done (pte_construct p (Z.lor flags PAGE_BIT_PRESENT), s') ∧
    ∀ w e, mask_to_page w ≠ mask_to_page v →
      paging_get_entry vm_map kernel_pd pd w s = Done (e, s) →
      paging_get_entry vm_map kernel_pd pd w s' = Done (e, s').
Proof.
  intros Hm Hok Hd Hp Hf Hg Hor. pose proof Hok as [[Hu Hk] Hi]. cbn [ls_mach] in Hk.
  destruct (paging_map_run vm_map kernel_pd r Hm s l pd a v p flags Hok Hd Hp Hf Hg Hor)
    as (t' & l' & E & Hi' & Hl' & Hd' & He & Hother).
  exists (set_pal t' s), l'. split; [done|]. split; [by split|]. do 2 (split; [done|]).
  split.
  { rewrite paging_get_entry_run by done. change (kmem (set_pal t' s)) with (pmem t'). by rewrite He. }
  intros w e Hw.
  rewrite !paging_get_entry_run by done. change (kmem (set_pal t' s)) with (pmem t').
  rewrite Hother by done. destruct (entry_of vm_map (kmem s) pd w); [|done]. by intros [= ->].
Qed.

Lemma paging_map_get_witness :
  ∃ s', paging_map example_vm_map example_kernel_pd 0x900000 0x8048123 0xA00000 0x006 example_kstate
          = Done (tt, s') ∧
        paging_get_entry example_vm_map example_kernel_pd 0x900000 0x8048123 s'
          = Done (0xA00007, s').
Proof.
  destruct (paging_map_get example_vm_map example_kernel_pd example_region example_kstate [0x803000]
    0x900000 0x900000 0x8048123 0xA00000 0x006 example_map_ok example_paging_ok example_directory_ok
    ltac:(unfold is_u32; lia) ltac:(lia)
    ltac:(right; split; vm_compute; reflexivity) ltac:(right; discriminate)) as (s' & l' & E & _ & _ & _ & G & _).
  exists s'. split; [exact E|exact G].
Defined.

(** Kernel mappings are protected: through any directory but the kernel's,
    paging_map refuses, by panicking before anything is written, the global
    flag and any address whose directory entry is one of the kernel's global
    entries. *)
Theorem paging_map_protects vm_map kernel_pd s pd a v p flags :
  cr3 (k_mach s) = phys_kernel_pd kernel_pd → unlocked (mk_ls (k_mach s) (palloc_spinlock s)) →
  pd ≠ phys_kernel_pd kernel_pd → reach vm_map pd = Some a →
  has flags PAGE_BIT_GLOBAL = true ∨
  has (load32 (kmem s) (a + 4 * dir_slot v)) PAGE_BIT_GLOBAL = true →
  ∃ why, paging_map vm_map kernel_pd pd v p flags s = Panic why.
Proof.
  intros Hk Hu Hne Ha Hg. unfold paging_map. rewrite (proj2 (Z.eqb_neq _ _) Hne).
  destruct (has flags PAGE_BIT_GLOBAL) eqn:Ef; cbn [andb negb]; [by eexists|].
  destruct Hg as [|Hg]; [done|].
  rewrite (bind_run _ _ _ _ _ (check_palloc_lock_run _ Hu)).
  rewrite (bind_run _ _ _ _ _ (assert_kernel_tables_run _ _ Hk)).
  rewrite (bind_run _ _ _ _ _ (translate_some _ _ _ _ _ Hk Ha)).
  fold (dir_slot v). rewrite (bind_run _ _ _ _ _ (rd32_run _ _)), Hg. by eexists.
Qed.

Lemma paging_map_protects_witness :
  ∃ why, paging_map example_vm_map example_kernel_pd 0x900000 0x8048000 0xA00000 0x102 example_kstate
         = Panic why.
Proof.
  apply (paging_map_protects example_vm_map example_kernel_pd example_kstate 0x900000 0x900000).
  - reflexivity.
  - apply example_unlocked.
  - discriminate.
  - reflexivity.
  - left. reflexivity.
Defined.

(** Vmwrite and vmread terminate and are inverse through a process's page
    tables: writing [num] bytes of a kernel buffer to a mapped user range, over
    any number of pages, stores exactly those bytes there and changes no other
    byte of memory, and reading the range back into a second buffer yields the
    bytes that were written. *)
Theorem vmwrite_vmread vm_map kernel_pd pd s v buf buf2 num :
  cr3 (k_mach s) = phys_kernel_pd kernel_pd → byte_mem (kmem s) → is_u32 v → 0 ≤ num →
  v + num ≤ 2 ^ 32 →
  window_ok vm_map pd (kmem s) v buf num → window_ok vm_map pd (kmem s) v buf2 num →
  (∀ x, buf2 ≤ x < buf2 + num → ¬ table_byte vm_map pd (kmem s) x) →
  (∀ x, buf2 ≤ x < buf2 + num → ∀ i, 0 ≤ i < num → ubyte vm_map pd (kmem s) (v + i) ≠ Some x) →
  ∃ m1 m2,
    vmwrite vm_map kernel_pd pd v buf num s = Done (tt, set_kmem m1 s) ∧
    (∀ x, (∀ i, 0 ≤ i < num → ubyte vm_map pd (kmem s) (v + i) ≠ Some x) → m1 x = kmem s x) ∧
    vmread vm_map kernel_pd pd v buf2 num (set_kmem m1 s) = Done (tt, set_kmem m2 s) ∧
    (∀ i, 0 ≤ i < num → m2 (buf2 + i) = kmem s (buf + i)) ∧
    (∀ x, ¬ (buf2 ≤ x < buf2 + num) → m2 x = m1 x).
Proof.
  intros Hk Hb Hv Hn Hle Hw Hw2 Htb Hdis. unfold vmwrite, vmread, vmxchg.
  rewrite (bind_run _ _ _ _ _ (assert_kernel_tables_run _ _ Hk)).
  destruct (vmwrite_loop vm_map kernel_pd pd (Z.to_nat num) s v buf num 0) as (m1 & E1 & Hb1 & H1 & H2);
    rewrite ?Z.add_0_r; try done; [lia|].
  rewrite Z.add_0_r in H1.
  assert (Hst : same_tables vm_map pd (kmem s) m1).
  { intros x Hx. apply H2. intros i Hi E.
    destruct (wo_mapped _ _ _ _ _ _ Hw i Hi) as (y & Ey & Ht & _). congruence. }
  pose proof (window_sub vm_map pd _ _ _ _ _ 0 Hst ltac:(lia) Hw2) as Hw3.
  rewrite !Z.add_0_r, Z.sub_0_r in Hw3.
  assert (Hk1 : cr3 (k_mach (set_kmem m1 s)) = phys_kernel_pd kernel_pd) by done.
  destruct (vmread_loop vm_map kernel_pd pd (Z.to_nat num) (set_kmem m1 s) v buf2 num 0)
    as (m2 & E2 & H3 & H4); rewrite ?Z.add_0_r; try done; [lia|..].
  { intros x Hx Hx'. apply (Htb x Hx). by apply (same_tables_byte _ _ _ m1). }
  rewrite Z.add_0_r in H3, H4. exists m1, m2. split; [done|]. split; [done|].
  rewrite (bind_run _ _ _ _ _ (assert_kernel_tables_run _ _ Hk1)). split; [done|].
  split; [|done]. intros i Hi. destruct (wo_mapped _ _ _ _ _ _ Hw i Hi) as (y & Ey & _).
  rewrite (H3 i y Hi) by (by rewrite (same_tables_ubyte _ _ (kmem s)) by done). by apply H1.
Qed.

(** Example tables: the directory at 0x900000 has one table at 0x901000 mapping
    the user pages 0x08048000 and 0x08049000 to 0x902000 and 0x903000. *)
Definition example_user_mem : mem :=
  store32 (store32 (store32 example_palloc_mem (0x900000 + 4 * 32) 0x901007)
    (0x901000 + 4 * 72) 0x902007) (0x901000 + 4 * 73) 0x903007.
Definition example_user_state : kstate := set_kmem example_user_mem example_kstate.

Lemma example_user_bytes m : byte_mem m → byte_mem (store32 (store32 (store32 m
    (0x900000 + 4 * 32) 0x901007) (0x901000 + 4 * 72) 0x902007) (0x901000 + 4 * 73) 0x903007).
Proof. auto 10 with mem. Qed.

(** The four bytes from 0x08048FFE straddle the page boundary. *)
Lemma example_ubyte i : 0 ≤ i < 4 →
  ubyte example_vm_map 0x900000 (kmem example_user_state) (0x8048FFE + i) = Some (0x902FFE + i).
Proof.
  intros Hi. assert (i = 0 ∨ i = 1 ∨ i = 2 ∨ i = 3) as [->|[->|[->| ->]]] by lia;
    vm_compute; reflexivity.
Qed.

Lemma example_user_dir i :
  0 ≤ i < PD_LENGTH →
  load32 (kmem example_user_state) (0x900000 + 4 * i) = if i =? 32 then 0x901007 else 0.
Proof.
  intros Hi. change PD_LENGTH with 1024 in Hi. change (kmem example_user_state) with example_user_mem.
  unfold example_user_mem. rewrite !(load32_store32_ne _ (0x901000 + _)) by lia.
  destruct (Z.eqb_spec i 32) as [->|Hne]; [by rewrite load32_store32_eq|].
  rewrite load32_store32_ne by lia. by apply example_dir_zero.
Qed.

Lemma example_not_table x :
  0x902000 ≤ x < 0x930000 → ¬ table_byte example_vm_map 0x900000 (kmem example_user_state) x.
Proof.
  intros Hx (a & Ha & Hor). assert (Some 0x900000 = Some a) as [= <-] by (rewrite <- Ha; reflexivity).
  destruct Hor as [H|(i & b & Hi & Eb & H)]; [unfold in_page, PAGE_SIZE in H; lia|].
  rewrite example_user_dir in Eb by done. unfold in_page, PAGE_SIZE in H. destruct (i =? 32).
  - assert (Some 0x901000 = Some b) as [= <-] by (rewrite <- Eb; reflexivity). lia.
  - assert (Some 0xC0000000 = Some b) as [= <-] by (rewrite <- Eb; reflexivity). lia.
Qed.

Lemma example_window buf :
  0x910000 ≤ buf < 0x920000 →
  window_ok example_vm_map 0x900000 (kmem example_user_state) 0x8048FFE buf 4.
Proof.
  intros Hb. split.
  - intros i Hi. exists (0x902FFE + i). split; [by apply example_ubyte|].
    split; [apply example_not_table; lia|lia].
  - intros i j y Hi Hj. rewrite !example_ubyte by done. intros [= <-] [= H]. lia.
Qed.

Lemma vmwrite_vmread_witness :
  ∃ m1 m2,
    vmwrite example_vm_map example_kernel_pd 0x900000 0x8048FFE 0x910000 4 example_user_state
      = Done (tt, set_kmem m1 example_user_state) ∧
    vmread example_vm_map example_kernel_pd 0x900000 0x8048FFE 0x918000 4
      (set_kmem m1 example_user_state) = Done (tt, set_kmem m2 example_user_state) ∧
    m2 0x918003 = kmem example_user_state 0x910003.
Proof.
  destruct (vmwrite_vmread example_vm_map example_kernel_pd 0x900000 example_user_state
              0x8048FFE 0x910000 0x918000 4 eq_refl
              (example_user_bytes _ (pi_bytes _ _ _ example_palloc_inv))
              ltac:(unfold is_u32; lia) ltac:(lia) ltac:(lia)
              (example_window 0x910000 ltac:(lia)) (example_window 0x918000 ltac:(lia)))
    as (m1 & m2 & E1 & _ & E2 & Hr & _).
  - intros x Hx. apply example_not_table. lia.
  - intros x Hx i Hi. rewrite example_ubyte by exact Hi. intros [= <-]. lia.
  - exists m1, m2. split; [exact E1|]. split; [exact E2|]. exact (Hr 3 ltac:(lia)).
Defined.

(** [vmread] and [vmwrite] do not check that the user address is mapped: an
    address with no page table entry is taken to be physical page 0, so a
    vmwrite to it silently changes the kernel's low memory at 0xC0000000. *)
Theorem vmwrite_unmapped sy kernel_pd pd s v buf :
  layout_ok sy → cr3 (k_mach s) = phys_kernel_pd kernel_pd → is_u32 v →
  entry_of (create_vm_map sy) (kmem s) pd v = Some PHYS_NULL →
  vmwrite (create_vm_map sy) kernel_pd pd v buf 1 s =
  Done (tt, set_kmem (fst (kmemcpy (kmem s) (0xC0000000 + (v - mask_to_page v)) buf 1)) s).
Proof.
  intros Hl Hk Hv He. unfold vmwrite, vmxchg.
  rewrite (bind_run _ _ _ _ _ (assert_kernel_tables_run _ _ Hk)). change (Z.to_nat 1) with 1%nat.
  pose proof (page_off v Hv). unfold PAGE_SIZE in *.
  rewrite (vmxchg_step _ _ pd 0 s v buf 1 0 true 0xC0000000); try done.
  - unfold PAGE_SIZE. replace (Z.min _ 1) with 1 by lia. cbn [copied]. by rewrite Z.add_0_r.
  - unfold upage. rewrite He. cbn. by apply reach_zero.
Qed.

Lemma vmwrite_unmapped_witness :
  ∃ m, vmwrite example_vm_map example_kernel_pd 0x900000 0x5010 0x910000 1 example_user_state
       = Done (tt, set_kmem m example_user_state) ∧
       m 0xC0000010 = kmem example_user_state 0x910000.
Proof.
  eexists. split.
  - apply (vmwrite_unmapped example_symbols example_kernel_pd 0x900000 example_user_state
             0x5010 0x910000 example_layout_ok eq_refl).
    + unfold is_u32. lia.
    + vm_compute. reflexivity.
  - vm_compute. reflexivity.
Defined.
