(* ===== verification/KernelHeap.v ===== *)
(** * arch/i386/heap.c and kernel/heap.h: the kernel heap

    Allocations are laid out one after the other from the base of the heap
    region, each preceded by a [struct heap_alloc] header (28 bytes: magic1 at 0,
    prev at 4, next at 8, align_offset_size at 12, size at 16, free at 20, magic2
    at 24) and linked in both directions.  Pages are added to the heap through an
    interface, [PageSource]: what the heap needs of [kp_map], [palloc] and their
    locks.  The memory here is the heap's own virtual range. *)

From stdpp Require Import base list strings.
From Stdlib Require Import ZArith Lia.
From S2P Require Import Prelude Memory KUtils MemLayout Cpu.

Definition HEAP_ALLOC_MAGIC : Z := 0xA110CA73.
Definition sizeof_heap_alloc : Z := 28.
Definition HEAP_NORMAL : Z := 1.
Definition HEAP_CONTINUOUS : Z := 2.
Definition HEAP_NO_ALIGN : Z := 1.

(** ** What the heap needs of the page allocator and the kernel page tables *)

(** The CPU can take locks and is using the page directory [k]. *)
Definition mach_ok (k : Z) (mc : machine) : Prop :=
  cr3 mc = k ∧ ∃ i c, running_on mc i c ∧ num c ≠ CPU_SPINLOCK_INVALID_CPU.

Class PageSource (P : Type) := {
  ps_pd : Z;                                       (* phys_kernel_pd *)
  ps_map_new : Z → M (machine * P) unit;           (* kp_map(v, palloc()) *)
  ps_palloc_lock_held : M (machine * P) bool;
  ps_kp_lock_held : M (machine * P) bool;
  ps_page : Z → Prop;                              (* pages it may be asked for *)
  ps_mapped : P → Z → Prop;
  ps_free : P → nat → Prop;                        (* so many pages can be mapped *)
  ps_map_new_ok : ∀ mc p v n,
    mach_ok ps_pd mc → ps_free p (S n) → ps_page v →
    ∃ p', ps_map_new v (mc, p) = Done (tt, (mc, p')) ∧ ps_free p' n ∧
          ps_mapped p' v ∧ ∀ w, ps_page w → ps_mapped p w → ps_mapped p' w;
  ps_unlocked_ok : ∀ mc p n,
    mach_ok ps_pd mc → ps_free p n →
    ps_palloc_lock_held (mc, p) = Done (false, (mc, p)) ∧
    ps_kp_lock_held (mc, p) = Done (false, (mc, p));
}.

(** ** State *)

Record heap_vars := mk_heap {
  hmem : mem;
  hinitialized : bool;
  heap_region : option vm_region;
  heap_size : Z;
  cur_size : Z;
  heap : Z;
  first : Z;
  last : Z;
}.

Record heap_state (P : Type) := mk_hs {
  hs_ls : lock_state;
  hs_vars : heap_vars;
  hs_pages : P;
}.

Arguments mk_hs {P}.
Arguments hs_ls {P}.
Arguments hs_vars {P}.
Arguments hs_pages {P}.

Definition set_hmem (m : mem) (h : heap_vars) : heap_vars :=
  mk_heap m (hinitialized h) (heap_region h) (heap_size h) (cur_size h) (heap h) (first h) (last h).
Definition set_heap_size (n : Z) (h : heap_vars) : heap_vars :=
  mk_heap (hmem h) (hinitialized h) (heap_region h) n (cur_size h) (heap h) (first h) (last h).
Definition set_cur_size (n : Z) (h : heap_vars) : heap_vars :=
  mk_heap (hmem h) (hinitialized h) (heap_region h) (heap_size h) n (heap h) (first h) (last h).
Definition set_first (p : Z) (h : heap_vars) : heap_vars :=
  mk_heap (hmem h) (hinitialized h) (heap_region h) (heap_size h) (cur_size h) (heap h) p (last h).
Definition set_last (p : Z) (h : heap_vars) : heap_vars :=
  mk_heap (hmem h) (hinitialized h) (heap_region h) (heap_size h) (cur_size h) (heap h) (first h) p.

(** Fields of the header at [p]. *)
Definition h_magic1 (m : mem) (p : Z) : Z := load32 m p.
Definition h_prev (m : mem) (p : Z) : Z := load32 m (p + 4).
Definition h_next (m : mem) (p : Z) : Z := load32 m (p + 8).
Definition h_align_offset_size (m : mem) (p : Z) : Z := load32 m (p + 12).
Definition h_size (m : mem) (p : Z) : Z := load32 m (p + 16).
Definition h_free (m : mem) (p : Z) : bool := negb (m (p + 20) =? 0).
Definition h_magic2 (m : mem) (p : Z) : Z := load32 m (p + 24).

Section operations.
Context {P : Type} {PS : PageSource P}.

Definition on_vars {A} (f : M heap_vars A) : M (heap_state P) A :=
  zoom hs_vars (fun v s => mk_hs (hs_ls s) v (hs_pages s)) f.
Definition on_hlock {A} (f : M lock_state A) : M (heap_state P) A :=
  zoom hs_ls (fun l s => mk_hs l (hs_vars s) (hs_pages s)) f.
Definition on_pages {A} (f : M (machine * P) A) : M (heap_state P) A :=
  zoom (fun s => (ls_mach (hs_ls s), hs_pages s))
       (fun mp s => mk_hs (mk_ls (fst mp) (ls_lock (hs_ls s))) (hs_vars s) (snd mp)) f.

Definition hstore (a v : Z) : M heap_vars unit :=
  modify (fun h => set_hmem (store32 (hmem h) a v) h).
Definition hstore8 (a v : Z) : M heap_vars unit :=
  modify (fun h => set_hmem (store8 (hmem h) a v) h).

Definition is_heap (r : vm_region) (v : Z) : bool :=
  (vbase r <=? v) && (v <? u32 (vbase r + rsize r)).

Definition unsafe_check (m : mem) (alloc : Z) : bool :=
  (h_magic1 m alloc =? HEAP_ALLOC_MAGIC) && (h_magic2 m alloc =? HEAP_ALLOC_MAGIC).

(** Follow the [next] links from [p], checking every header. *)
Fixpoint check_from (fuel : nat) (p : Z) : M heap_vars unit :=
  if p =? 0 then ret tt else
  match fuel with
  | O => hang
  | S fuel' =>
      h <- get ;;
      kassert "unsafe_check(p)" (unsafe_check (hmem h) p) ;;;
      check_from fuel' (h_next (hmem h) p)
  end.

(** Both loops follow [next]: the second starts at the last allocation. *)
Definition unsafe_check_all (fuel : nat) : M heap_vars unit :=
  h <- get ;;
  check_from fuel (first h) ;;;
  h <- get ;;
  check_from fuel (last h).

Definition hregion : M (heap_state P) vm_region :=
  s <- get ;;
  match heap_region (hs_vars s) with
  | Some r => ret r
  | None => kpanic "page fault"
  end.

Fixpoint grow_loop (n : nat) (v : Z) : M (heap_state P) unit :=
  match n with
  | O => ret tt
  | S n' => on_pages (ps_map_new v) ;;; grow_loop n' (u32 (v + PAGE_SIZE))
  end.

Definition unsafe_grow_heap (new_size : Z) : M (heap_state P) unit :=
  h <- gets hs_vars ;;
  kassert "new_size >= heap_size" (heap_size h <=? new_size) ;;;
  r <- hregion ;;
  if u32 (heap h + new_size) >? u32 (vbase r + rsize r) then
    kpanic "heap exceeded the heap_region"
  else
  ph <- on_pages ps_palloc_lock_held ;;
  if ph then kpanic "holding palloc lock while using the kernel heap allocator" else
  kh <- on_pages ps_kp_lock_held ;;
  if kh then
    kpanic "holding kernel page tables write lock while using the kernel heap allocator"
  else
  (if align_to_next_page (heap h + heap_size h) =? align_to_next_page (heap h + new_size)
   then ret tt
   else
     let v := align_to_next_page (heap h + heap_size h) in
     let vto := align_to_next_page (heap h + new_size) in
     grow_loop (Z.to_nat ((vto - v) / PAGE_SIZE)) v) ;;;
  on_vars (modify (set_heap_size new_size)).

(** Remove trailing freed allocations. *)
Fixpoint truncate_loop (fuel : nat) : M heap_vars unit :=
  h <- get ;;
  if (last h =? 0) || negb (h_free (hmem h) (last h)) then ret tt else
  match fuel with
  | O => hang
  | S fuel' =>
      modify (fun h => set_cur_size
        (u32 (cur_size h - (h_align_offset_size (hmem h) (last h) + sizeof_heap_alloc
                            + h_size (hmem h) (last h)))) h) ;;;
      modify (fun h => set_last (h_prev (hmem h) (last h)) h) ;;;
      truncate_loop fuel'
  end.

Definition unsafe_truncate_heap (fuel : nat) : M heap_vars unit :=
  h <- get ;;
  if last h =? 0 then ret tt else
  truncate_loop fuel ;;;
  h <- get ;;
  if last h =? 0 then modify (set_first 0) else hstore (last h + 8) 0.

Definition init_kernel_heap (region : vm_region) : M heap_vars unit :=
  modify (fun h => mk_heap (hmem h) true (Some region) 0 (cur_size h) (vbase region) 0 0).

(** Fill in the header of a new allocation and link it behind the last one. *)
Definition build_alloc (alloc offset size : Z) : M heap_vars unit :=
  hstore alloc HEAP_ALLOC_MAGIC ;;;
  hstore (alloc + 12) offset ;;;
  hstore (alloc + 16) size ;;;
  hstore8 (alloc + 20) 0 ;;;
  hstore (alloc + 24) HEAP_ALLOC_MAGIC ;;;
  h <- get ;;
  when (negb (last h =? 0)) (hstore (last h + 8) alloc) ;;;
  h <- get ;;
  hstore (alloc + 4) (last h) ;;;
  hstore (alloc + 8) 0 ;;;
  h <- get ;;
  when (first h =? 0) (modify (set_first alloc)) ;;;
  modify (set_last alloc) ;;;
  modify (fun h => set_cur_size (u32 (cur_size h + (offset + sizeof_heap_alloc + size))) h).

(** [fuel] bounds the number of allocations the debug check walks over. *)
Definition kalloc (fuel : nat) (mode alignment size : Z) : M (heap_state P) Z :=
  s <- get ;;
  let mc := ls_mach (hs_ls s) in
  if negb (eflags_if mc) && (nof_active_cpus mc >? 1) then
    kpanic "kalloc(): called with interrupts off"
  else if mode =? HEAP_CONTINUOUS then
    kpanic "kalloc(): HEAP_CONTINUOUS unimplemented"
  else if negb (hinitialized (hs_vars s)) then
    kpanic "kalloc(): heap was not initialized"
  else if negb (cr3 mc =? ps_pd) then
    kpanic "kalloc(): called with non-kernel page tables"
  else
  on_hlock cpu_spinlock_acquire ;;;
  on_vars (unsafe_check_all fuel) ;;;
  h <- gets hs_vars ;;
  let unaligned := u32 (heap h + cur_size h + sizeof_heap_alloc) in
  let offset := u32 (alignment - 1 - u32 (unaligned + alignment - 1) mod alignment) in
  let v := u32 (heap h + cur_size h + offset + sizeof_heap_alloc) in
  let total := u32 (cur_size h + offset + sizeof_heap_alloc + size) in
  (if heap_size h <? total then unsafe_grow_heap total else ret tt) ;;;
  on_vars (build_alloc (u32 (v - sizeof_heap_alloc)) offset size) ;;;
  on_vars (unsafe_check_all fuel) ;;;
  on_hlock cpu_spinlock_release ;;;
  ret v.

Definition hmemset (v val len : Z) : M (heap_state P) unit :=
  on_vars (modify (fun h => set_hmem (kmemset (hmem h) v val len) h)).

Definition kzalloc (fuel : nat) (mode alignment size : Z) : M (heap_state P) Z :=
  v <- kalloc fuel mode alignment size ;;
  hmemset v 0 size ;;;
  ret v.

Definition kualloc (fuel : nat) (mode size : Z) : M (heap_state P) Z :=
  kalloc fuel mode HEAP_NO_ALIGN size.

Definition kzualloc (fuel : nat) (mode size : Z) : M (heap_state P) Z :=
  v <- kualloc fuel mode size ;;
  hmemset v 0 size ;;;
  ret v.

Definition krealloc (v mode alignment size : Z) : M (heap_state P) Z :=
  kpanic "krealloc(): unimplemented".

(** Mark the allocation free and drop the free tail of the heap. *)
Definition free_block (fuel : nat) (alloc : Z) : M heap_vars unit :=
  h <- get ;;
  if negb (unsafe_check (hmem h) alloc) then kpanic "kfree(): bad address" else
  hstore8 (alloc + 20) 1 ;;;
  h <- get ;;
  let next := h_next (hmem h) alloc in
  when ((next =? 0) || h_free (hmem h) next) (unsafe_truncate_heap fuel).

Definition kfree (fuel : nat) (v : Z) : M (heap_state P) unit :=
  s <- get ;;
  if negb (hinitialized (hs_vars s)) then kpanic "kfree(): heap was not initialized" else
  r <- hregion ;;
  if negb (is_heap r v) then kpanic "kfree(): given address is not in heap region" else
  on_hlock cpu_spinlock_acquire ;;;
  on_vars (free_block fuel (u32 (v - sizeof_heap_alloc))) ;;;
  on_hlock cpu_spinlock_release.

Definition ktranslate (v : Z) : M (heap_state P) Z :=
  s <- get ;;
  if negb (hinitialized (hs_vars s)) then kpanic "ktranslate(): heap was not initialized" else
  kpanic "not implemented".

End operations.

(** ** The heap as a list of blocks, newest first *)

Record block := mk_block {
  hdr : Z;        (* address of the header *)
  boff : Z;       (* bytes skipped for alignment before it *)
  bsize : Z;      (* usable bytes behind it *)
  bfree : bool;
}.

Definition data (b : block) : Z := hdr b + sizeof_heap_alloc.
Definition bend (b : block) : Z := data b + bsize b.
Definition set_bfree (b : block) : block := mk_block (hdr b) (boff b) (bsize b) true.

(** The blocks fill the space from [base] to [fin] without gaps. *)
Fixpoint tiles (base : Z) (bs : list block) (fin : Z) : Prop :=
  match bs with
  | [] => fin = base
  | b :: older =>
      fin = bend b ∧ 0 ≤ bsize b ∧ 0 ≤ boff b ∧ tiles base older (hdr b - boff b)
  end.

Definition header_ok (m : mem) (b : block) : Prop :=
  h_magic1 m (hdr b) = HEAP_ALLOC_MAGIC ∧ h_magic2 m (hdr b) = HEAP_ALLOC_MAGIC ∧
  h_align_offset_size m (hdr b) = boff b ∧ h_size m (hdr b) = bsize b ∧
  h_free m (hdr b) = bfree b.

Definition newest (bs : list block) : Z :=
  match bs with [] => 0 | b :: _ => hdr b end.

(** The oldest block, or [next] if there is none. *)
Fixpoint oldest (next : Z) (bs : list block) : Z :=
  match bs with [] => next | b :: older => oldest (hdr b) older end.

(** The headers in memory describe the blocks and link them; the block after the
    newest one is at [next]. *)
Fixpoint links (m : mem) (next : Z) (bs : list block) : Prop :=
  match bs with
  | [] => True
  | b :: older =>
      header_ok m b ∧ h_next m (hdr b) = next ∧ h_prev m (hdr b) = newest older ∧
      links m (hdr b) older
  end.

Record hregion_ok (r : vm_region) : Prop := {
  hr_base : 0 < vbase r;
  hr_size : 0 ≤ rsize r;
  hr_end : vbase r + rsize r < 2 ^ 32 - PAGE_SIZE;
  hr_aligned : vbase r mod PAGE_SIZE = 0;
  hr_saligned : rsize r mod PAGE_SIZE = 0;
}.

Record heap_inv (r : vm_region) (bs : list block) (h : heap_vars) : Prop := {
  hi_init : hinitialized h = true;
  hi_region : heap_region h = Some r;
  hi_base : heap h = vbase r;
  hi_bytes : byte_mem (hmem h);
  hi_tiles : tiles (heap h) bs (heap h + cur_size h);
  hi_links : links (hmem h) 0 bs;
  hi_first : first h = oldest 0 bs;
  hi_last : last h = newest bs;
  hi_tail : match bs with [] => True | b :: _ => bfree b = false end;
  hi_cur : 0 ≤ cur_size h ≤ heap_size h;
  hi_fits : heap_size h ≤ rsize r;
}.

(** The blocks left when the freed ones at the end are dropped. *)
Fixpoint drop_free (bs : list block) : list block :=
  match bs with
  | [] => []
  | b :: older => if bfree b then drop_free older else bs
  end.

(** Every page of the grown heap is mapped. *)
Definition heap_mapped {P} {PS : PageSource P} (p : P) (h : heap_vars) : Prop :=
  ∀ v, v mod PAGE_SIZE = 0 → heap h ≤ v < heap h + heap_size h → ps_mapped p v.

(** ** Lemmas on the block list *)

Lemma tiles_le base bs fin : tiles base bs fin → base ≤ fin.
Proof.
  revert fin. induction bs as [|b bs IH]; intros fin; cbn [tiles]; [lia|].
  intros (-> & Hs & Ho & Ht). apply IH in Ht. unfold bend, data, sizeof_heap_alloc. lia.
Qed.

Lemma tiles_In base bs fin b :
  tiles base bs fin → b ∈ bs → base ≤ hdr b - boff b ∧ bend b ≤ fin ∧ 0 ≤ bsize b ∧ 0 ≤ boff b.
Proof.
  revert fin. induction bs as [|c bs IH]; intros fin Ht Hb; [by apply elem_of_nil in Hb|].
  destruct Ht as (-> & Hs & Ho & Ht). apply elem_of_cons in Hb as [->|Hb].
  - apply tiles_le in Ht. lia.
  - destruct (IH _ Ht Hb) as (? & ? & ? & ?). unfold bend, data, sizeof_heap_alloc in *. lia.
Qed.

(** Two different positions of the list are disjoint blocks. *)
Lemma tiles_disjoint base newer b mid c older fin :
  tiles base (newer ++ b :: mid ++ c :: older) fin → bend c ≤ hdr b - boff b.
Proof.
  revert fin. induction newer as [|d newer IH]; intros fin; cbn [app tiles].
  - intros (_ & _ & _ & Ht). eapply tiles_In in Ht as (_ & ? & _); [done|].
    apply elem_of_app. right. by left.
  - intros (_ & _ & _ & Ht). by eapply IH.
Qed.

Lemma header_ok_ext m m' b :
  (∀ a, hdr b ≤ a < data b → m' a = m a) → header_ok m b → header_ok m' b.
Proof.
  intros H. unfold header_ok, h_magic1, h_magic2, h_align_offset_size, h_size, h_free.
  unfold data, sizeof_heap_alloc in H.
  rewrite (load32_ext m' m (hdr b)), (load32_ext m' m (hdr b + 24)),
    (load32_ext m' m (hdr b + 12)), (load32_ext m' m (hdr b + 16)), (H (hdr b + 20))
    by (try intros x Hx; try apply H; lia). done.
Qed.

Lemma links_ext m m' next base bs fin :
  tiles base bs fin → (∀ a, base ≤ a < fin → m' a = m a) → links m next bs → links m' next bs.
Proof.
  revert next fin. induction bs as [|b bs IH]; intros next fin Ht Hm Hl; [done|].
  destruct Ht as (-> & Hs & Ho & Ht), Hl as (Hh & Hn & Hp & Hl).
  pose proof (tiles_le _ _ _ Ht) as Hle.
  assert (Hin : ∀ a, hdr b ≤ a < data b → m' a = m a).
  { intros a Ha. apply Hm. unfold bend in *. lia. }
  unfold data, sizeof_heap_alloc in Hin.
  split; [by apply (header_ok_ext m)|]. unfold h_next, h_prev in *.
  rewrite (load32_ext m' m (hdr b + 8)), (load32_ext m' m (hdr b + 4))
    by (intros x Hx; apply Hin; lia).
  repeat split; try done. eapply IH; [exact Ht| |done].
  intros a Ha. apply Hm. unfold bend, data, sizeof_heap_alloc in *. lia.
Qed.

(** Redirecting the newest block's forward link. *)
Lemma links_set_next m next next' base b older fin :
  tiles base (b :: older) fin → is_u32 next' → links m next (b :: older) →
  links (store32 m (hdr b + 8) next') next' (b :: older).
Proof.
  intros (-> & Hs & Ho & Ht) Hn' (Hh & Hn & Hp & Hl). cbn [links].
  unfold h_next, h_prev in *. rewrite load32_store32_eq by done.
  rewrite load32_store32_ne by lia. split; [|repeat split; try done].
  - unfold header_ok, h_magic1, h_magic2, h_align_offset_size, h_size, h_free in *.
    rewrite !load32_store32_ne by lia. by rewrite store32_frame by lia.
  - eapply links_ext; [exact Ht| |done]. intros a Ha. apply store32_frame. lia.
Qed.

(** Setting the free flag of one block. *)
Lemma links_set_free m next base newer b older fin :
  tiles base (newer ++ b :: older) fin → links m next (newer ++ b :: older) →
  links (store8 m (hdr b + 20) 1) next (newer ++ set_bfree b :: older).
Proof.
  revert next fin. induction newer as [|c newer IH]; intros next fin Ht Hl.
  - destruct Ht as (-> & Hs & Ho & Ht), Hl as (Hh & Hn & Hp & Hl). cbn [app links].
    unfold header_ok, h_magic1, h_magic2, h_align_offset_size, h_size, h_free, h_next, h_prev in *.
    cbn [set_bfree hdr boff bsize bfree]. unfold load32 in *.
    rewrite store8_eq, !store8_ne by lia. repeat split; try apply Hh; try done.
    eapply links_ext; [exact Ht| |done]. intros a Ha. apply store8_ne. lia.
  - cbn [app] in *. pose proof Ht as (-> & Hs & Ho & Ht'). destruct Hl as (Hh & Hn & Hp & Hl).
    destruct (tiles_In _ _ _ b Ht') as (H1 & H2 & H3 & H4); [apply elem_of_app; right; by left|].
    unfold bend, data, sizeof_heap_alloc in *. cbn [links].
    assert (E : ∀ a, hdr c ≤ a → store8 m (hdr b + 20) 1 a = m a)
      by (intros a Ha; apply store8_ne; lia).
    split; [apply (header_ok_ext m); [intros a Ha; apply E; lia|done]|].
    unfold h_next, h_prev in *.
    rewrite (load32_ext _ m (hdr c + 8)), (load32_ext _ m (hdr c + 4))
      by (intros x Hx; apply E; lia).
    repeat split; [done| |by eapply IH].
    rewrite Hp. by destruct newer.
Qed.

Lemma tiles_set_free base newer b older fin :
  tiles base (newer ++ b :: older) fin → tiles base (newer ++ set_bfree b :: older) fin.
Proof.
  revert fin. induction newer as [|c newer IH]; intros fin; cbn [app tiles]; [done|].
  intros (-> & Hs & Ho & Ht). repeat split; try done. by apply IH.
Qed.

Lemma tiles_hdr_pos base bs fin b : 0 < base → tiles base bs fin → b ∈ bs → 0 < hdr b.
Proof. intros H0 Ht Hb. destruct (tiles_In _ _ _ _ Ht Hb) as (? & _ & _ & ?). lia. Qed.

Lemma oldest_newest bs next : oldest next bs = 0 → bs ≠ [] → ∃ b, b ∈ bs ∧ hdr b = 0.
Proof.
  revert next. induction bs as [|b bs IH]; intros next H Hne; [done|]. cbn in H.
  destruct bs as [|c bs].
  - exists b. split; [by left|done].
  - destruct (IH (hdr b) H ltac:(done)) as (d & Hd & E). exists d. split; [by right|done].
Qed.

(** ** Lemmas on the operations *)

Lemma check_step f b h :
  0 < hdr b → header_ok (hmem h) b →
  check_from (S f) (hdr b) h = check_from f (h_next (hmem h) (hdr b)) h.
Proof.
  intros H0 (Hm1 & Hm2 & _). cbn [check_from].
  rewrite (proj2 (Z.eqb_neq (hdr b) 0)) by lia. unfold bind at 1, get.
  by rewrite (bind_run _ _ _ _ _ (kassert_true _ _ _
    (andb_true_intro (conj (proj2 (Z.eqb_eq _ _) Hm1) (proj2 (Z.eqb_eq _ _) Hm2))))).
Qed.

(** The walk over the list: all headers check out. *)
Lemma check_from_run base bs fin next f h :
  0 < base → tiles base bs fin → links (hmem h) next bs →
  check_from (length bs + f) (oldest next bs) h = check_from f next h.
Proof.
  intros H0. revert next fin f. induction bs as [|b bs IH]; intros next fin f Ht Hl; [done|].
  pose proof Ht as (-> & Hs & Ho & Ht'). destruct Hl as (Hh & Hn & Hp & Hl).
  cbn [length oldest]. replace (S (length bs) + f)%nat with (length bs + S f)%nat by lia.
  rewrite (IH _ _ _ Ht' Hl). pose proof (tiles_hdr_pos _ _ _ b H0 Ht ltac:(by left)).
  by rewrite check_step, Hn.
Qed.

Lemma check_from_zero fuel h : check_from fuel 0 h = Done (tt, h).
Proof. by destruct fuel. Qed.

Lemma check_all_links fuel base bs fin h :
  0 < base → tiles base bs fin → links (hmem h) 0 bs → first h = oldest 0 bs →
  last h = newest bs → (length bs ≤ fuel)%nat → unsafe_check_all fuel h = Done (tt, h).
Proof.
  intros H0 Ht Hl Hfirst Hlast Hf. unfold unsafe_check_all. unfold bind at 1, get.
  rewrite (bind_run _ _ _ tt h).
  2:{ replace fuel with (length bs + (fuel - length bs))%nat by lia.
      rewrite Hfirst, (check_from_run _ _ _ _ _ _ H0 Ht Hl). apply check_from_zero. }
  unfold bind, get. rewrite Hlast. destruct bs as [|b bs]; [apply check_from_zero|].
  pose proof (tiles_hdr_pos _ _ _ b H0 Ht ltac:(by left)).
  destruct Hl as (Hh & Hn & _). destruct fuel as [|fuel]; [cbn in Hf; lia|]. cbn [newest].
  rewrite check_step, Hn by done. apply check_from_zero.
Qed.

Lemma check_all_run fuel r bs h :
  hregion_ok r → heap_inv r bs h → (length bs ≤ fuel)%nat →
  unsafe_check_all fuel h = Done (tt, h).
Proof.
  intros Hr [] Hf. eapply check_all_links; try done. destruct Hr. lia.
Qed.

(** Growing maps one page after the other. *)
Section growing.
Context {P : Type} {PS : PageSource P}.

Lemma on_pages_run {A} (f : M (machine * P) A) L h p a p' :
  f (ls_mach L, p) = Done (a, (ls_mach L, p')) →
  on_pages f (mk_hs L h p) = Done (a, mk_hs L h p').
Proof. intros E. unfold on_pages, zoom. cbn. rewrite E. by destruct L. Qed.

Lemma grow_loop_run n v L h p m :
  mach_ok ps_pd (ls_mach L) → ps_free p (n + m) →
  (∀ i, 0 ≤ i < Z.of_nat n → ps_page (v + i * PAGE_SIZE)) →
  0 ≤ v → v + Z.of_nat n * PAGE_SIZE < 2 ^ 32 →
  ∃ p', grow_loop n v (mk_hs L h p) = Done (tt, mk_hs L h p') ∧ ps_free p' m ∧
    (∀ i, 0 ≤ i < Z.of_nat n → ps_mapped p' (v + i * PAGE_SIZE)) ∧
    (∀ w, ps_page w → ps_mapped p w → ps_mapped p' w).
Proof.
  intros Hm. revert v p. induction n as [|n IH]; intros v p Hf Hpg H0 Hlt.
  { exists p. split; [done|]. split; [done|]. split; [lia|done]. }
  cbn [grow_loop]. pose proof (Hpg 0 ltac:(lia)) as Hv. rewrite Z.add_0_r in Hv.
  destruct (ps_map_new_ok _ _ _ _ Hm Hf Hv) as (p1 & E & Hf1 & Hm1 & Hk1).
  rewrite (bind_run _ _ _ _ _ (on_pages_run _ _ h _ _ _ E)).
  rewrite u32_small by (unfold PAGE_SIZE in *; lia).
  destruct (IH (v + PAGE_SIZE) p1) as (p' & E' & Hf' & Hm' & Hk'); try done;
    try (unfold PAGE_SIZE in *; lia).
  { intros i Hi. replace (v + PAGE_SIZE + i * PAGE_SIZE) with (v + (i + 1) * PAGE_SIZE) by lia.
    apply Hpg. lia. }
  exists p'. split; [done|]. split; [done|]. split.
  - intros i Hi. destruct (Z.eq_dec i 0) as [->|].
    + rewrite Z.add_0_r. by apply Hk'.
    + replace (v + i * PAGE_SIZE) with (v + PAGE_SIZE + (i - 1) * PAGE_SIZE) by lia.
      apply Hm'. lia.
  - intros w Hw Hmw. apply Hk'; [done|]. by apply Hk1.
Qed.

(** Rounding an address up to a page. *)
Lemma align_up x :
  0 ≤ x → x < 2 ^ 32 - PAGE_SIZE →
  align_to_next_page x mod PAGE_SIZE = 0 ∧ x ≤ align_to_next_page x < x + PAGE_SIZE ∧
  ∀ w, w mod PAGE_SIZE = 0 → x ≤ w → align_to_next_page x ≤ w.
Proof.
  intros H0 H. rewrite align_to_next_page_eq by (unfold PAGE_SIZE in *; lia).
  unfold PAGE_SIZE in *. set (y := x + 4096 - 1).
  pose proof (Z.mod_pos_bound y 4096 ltac:(lia)). pose proof (Z.div_mod y 4096 ltac:(lia)).
  split; [|split; [lia|]].
  - rewrite Zminus_mod, Z.mod_mod by lia. by rewrite Z.sub_diag.
  - intros w Hw Hx. pose proof (Z.div_mod w 4096 ltac:(lia)). lia.
Qed.

(** Pages the heap may still have to map to reach [new_size]. *)
Definition pages_needed (h : heap_vars) (new_size : Z) : nat :=
  Z.to_nat ((align_to_next_page (heap h + new_size)
             - align_to_next_page (heap h + heap_size h)) / PAGE_SIZE).

Lemma grow_run r bs L h p m new_size :
  hregion_ok r → heap_inv r bs h → mach_ok ps_pd (ls_mach L) →
  heap_size h ≤ new_size ≤ rsize r → ps_free p (pages_needed h new_size + m) →
  (∀ v, v mod PAGE_SIZE = 0 → vbase r ≤ v < vbase r + rsize r → ps_page v) →
  heap_mapped p h →
  ∃ p', unsafe_grow_heap new_size (mk_hs L h p)
          = Done (tt, mk_hs L (set_heap_size new_size h) p') ∧
        ps_free p' m ∧ heap_mapped p' (set_heap_size new_size h).
Proof.
  intros Hr Hi Hm Hn Hf Hpg Hmap. pose proof Hr as [Hb0 Hs0 He0 Ha0 Hsa0]. pose proof Hi as [].
  unfold unsafe_grow_heap. unfold bind at 1, gets. cbn [hs_vars].
  rewrite (bind_run _ _ _ _ _ (kassert_true _ _ _ (proj2 (Z.leb_le (heap_size h) new_size) ltac:(lia)))).
  rewrite (bind_run _ _ _ r (mk_hs L h p)) by (unfold hregion, bind, get; cbn; by rewrite hi_region0).
  rewrite hi_base0. rewrite !u32_small by (unfold PAGE_SIZE in *; lia).
  replace (vbase r + new_size >? vbase r + rsize r) with false
    by (symmetry; rewrite Z.gtb_ltb; apply Z.ltb_ge; lia).
  destruct (ps_unlocked_ok _ _ _ Hm Hf) as [E1 E2].
  rewrite (bind_run _ _ _ _ _ (on_pages_run _ _ h _ _ _ E1)).
  rewrite (bind_run _ _ _ _ _ (on_pages_run _ _ h _ _ _ E2)).
  rewrite <- hi_base0. set (x := heap h + heap_size h). set (y := heap h + new_size).
  destruct (align_up x) as (Ax & Bx & Cx); [lia|unfold PAGE_SIZE in *; lia|].
  destruct (align_up y) as (Ay & By & Cy); [lia|unfold PAGE_SIZE in *; lia|].
  assert (Hxy : align_to_next_page x ≤ align_to_next_page y) by (apply Cx; [done|lia]).
  set (n := Z.to_nat ((align_to_next_page y - align_to_next_page x) / PAGE_SIZE)).
  assert (Hnn : Z.of_nat n * PAGE_SIZE = align_to_next_page y - align_to_next_page x).
  { unfold n, PAGE_SIZE in *. pose proof (Z.div_mod (align_to_next_page y) 4096 ltac:(lia)).
    pose proof (Z.div_mod (align_to_next_page x) 4096 ltac:(lia)).
    replace (align_to_next_page y - align_to_next_page x)
      with ((align_to_next_page y / 4096 - align_to_next_page x / 4096) * 4096) by lia.
    rewrite Z.div_mul by lia. rewrite Z2Nat.id; lia. }
  assert (Hend : align_to_next_page y ≤ vbase r + rsize r).
  { apply Cy; [|lia]. unfold PAGE_SIZE in *. rewrite Z.add_mod, Ha0, Hsa0 by lia. done. }
  destruct (grow_loop_run n (align_to_next_page x) L h p m) as (p' & E & Hf' & Hm' & Hk'); try done.
  { intros i Hii. apply Hpg; [|unfold PAGE_SIZE in *; lia].
    unfold PAGE_SIZE in *. rewrite Z.add_mod, Ax, Z.mod_mul by lia. done. }
  { lia. }
  { unfold PAGE_SIZE in *. lia. }
  exists p'. split; [|split; [done|]].
  - rewrite (bind_run _ _ _ tt (mk_hs L h p')); [done|].
    destruct (Z.eqb_spec (align_to_next_page x) (align_to_next_page y)) as [Exy|]; [|done].
    assert (n = 0%nat) as Hn0 by (unfold n; rewrite Exy, Z.sub_diag; done).
    rewrite Hn0 in E. exact E.
  - intros w Hw Hwr. cbn [heap heap_size set_heap_size] in Hwr.
    destruct (Z.lt_ge_cases w x) as [Hlt|Hge].
    + apply Hk'; [apply Hpg; [done|lia]|]. apply Hmap; [done|]. unfold x in Hlt. lia.
    + pose proof (Cx w Hw Hge) as Hcx. unfold PAGE_SIZE in *.
      pose proof (Z.div_mod w 4096 ltac:(lia)). pose proof (Z.div_mod (align_to_next_page x) 4096 ltac:(lia)).
      replace w with (align_to_next_page x + (w / 4096 - align_to_next_page x / 4096) * 4096) by lia.
      apply Hm'. lia.
Qed.

End growing.

(** The memory after [build_alloc]. *)
Definition built (m : mem) (lst alloc offset size : Z) : mem :=
  let m5 := store32 (store8 (store32 (store32 (store32 m alloc HEAP_ALLOC_MAGIC)
              (alloc + 12) offset) (alloc + 16) size) (alloc + 20) 0) (alloc + 24) HEAP_ALLOC_MAGIC in
  let m6 := if lst =? 0 then m5 else store32 m5 (lst + 8) alloc in
  store32 (store32 m6 (alloc + 4) lst) (alloc + 8) 0.

Lemma build_alloc_run alloc offset size h :
  build_alloc alloc offset size h =
  Done (tt, mk_heap (built (hmem h) (last h) alloc offset size) (hinitialized h) (heap_region h)
              (heap_size h) (u32 (cur_size h + (offset + sizeof_heap_alloc + size))) (heap h)
              (if first h =? 0 then alloc else first h) alloc).
Proof.
  unfold build_alloc, bind, hstore, hstore8, modify, when, get, built.
  cbn -[store32 store8 u32]. destruct (last h =? 0) eqn:E1; cbn -[store32 store8 u32];
    destruct (first h =? 0) eqn:E2; cbn -[store32 store8 u32]; rewrite ?E2; done.
Qed.

(** A new header written behind the blocks, before any link is set. *)
Definition fresh_header (m : mem) (alloc offset size : Z) : mem :=
  store32 (store8 (store32 (store32 (store32 m alloc HEAP_ALLOC_MAGIC)
    (alloc + 12) offset) (alloc + 16) size) (alloc + 20) 0) (alloc + 24) HEAP_ALLOC_MAGIC.

Lemma fresh_header_frame m alloc offset size a :
  (a < alloc ∨ alloc + sizeof_heap_alloc ≤ a) → fresh_header m alloc offset size a = m a.
Proof.
  unfold sizeof_heap_alloc. intros H. unfold fresh_header.
  rewrite store32_frame, store8_ne, !store32_frame by lia. done.
Qed.

Lemma fresh_header_ok m alloc offset size :
  is_u32 offset → is_u32 size →
  header_ok (fresh_header m alloc offset size) (mk_block alloc offset size false).
Proof.
  intros Ho Hs. unfold fresh_header.
  set (m2 := store32 (store32 m alloc HEAP_ALLOC_MAGIC) (alloc + 12) offset).
  set (m3 := store32 m2 (alloc + 16) size).
  assert (E : ∀ a, a ≠ alloc + 20 → a < alloc + 24 →
    store32 (store8 m3 (alloc + 20) 0) (alloc + 24) HEAP_ALLOC_MAGIC a = m3 a).
  { intros a H1 H2. by rewrite store32_frame, store8_ne by lia. }
  unfold header_ok, h_magic1, h_magic2, h_align_offset_size, h_size, h_free.
  cbn [hdr boff bsize bfree].
  rewrite (load32_ext _ m3 alloc), (load32_ext _ m3 (alloc + 12)), (load32_ext _ m3 (alloc + 16))
    by (intros x Hx; apply E; lia).
  rewrite load32_store32_eq by done. rewrite store32_frame by lia. rewrite store8_eq.
  unfold m3, m2. rewrite load32_store32_eq by done. rewrite !(load32_store32_ne _ (alloc + 16)) by lia.
  rewrite load32_store32_eq by done. rewrite load32_store32_ne by lia.
  by rewrite load32_store32_eq.
Qed.

Lemma built_links m base bs fin offset size :
  0 < base → tiles base bs fin → links m 0 bs → 0 ≤ offset → is_u32 size →
  fin + offset + sizeof_heap_alloc < 2 ^ 32 →
  let b := mk_block (fin + offset) offset size false in
  links (built m (newest bs) (hdr b) offset size) 0 (b :: bs) ∧
  ∀ a, (a < hdr b ∨ data b ≤ a) → (bs = [] ∨ a < newest bs + 8 ∨ newest bs + 12 ≤ a) →
       built m (newest bs) (hdr b) offset size a = m a.
Proof.
  intros H0 Ht Hl Ho Hs Hlt b. set (A := hdr b). assert (HA : A = fin + offset) by done.
  pose proof (tiles_le _ _ _ Ht) as Hle. unfold sizeof_heap_alloc in *.
  unfold built. fold (fresh_header m A offset size). set (m5 := fresh_header m A offset size).
  assert (Hl5 : links m5 0 bs).
  { eapply links_ext; [exact Ht| |done]. intros a Ha. apply fresh_header_frame. lia. }
  set (m6 := if newest bs =? 0 then m5 else store32 m5 (newest bs + 8) A).
  assert (Hnew : bs ≠ [] → 0 < newest bs ∧ newest bs + 28 ≤ fin).
  { destruct bs as [|c bs]; [done|]. intros _. cbn [newest].
    destruct (tiles_In _ _ _ c Ht ltac:(by left)) as (? & ? & ? & ?).
    unfold bend, data, sizeof_heap_alloc in *. lia. }
  assert (Hl6 : links m6 A bs).
  { unfold m6. destruct bs as [|c bs]; [done|].
    destruct (Hnew ltac:(done)) as [Hp _]. cbn [newest] in *.
    rewrite (proj2 (Z.eqb_neq (hdr c) 0)) by lia.
    eapply links_set_next; [exact Ht|unfold is_u32; lia|exact Hl5]. }
  assert (H6 : ∀ a, A ≤ a → m6 a = m5 a).
  { intros a Ha. unfold m6. destruct bs as [|c bs]; [done|]. destruct (Hnew ltac:(done)).
    rewrite (proj2 (Z.eqb_neq _ 0)) by lia. apply store32_frame. lia. }
  assert (Hl8 : ∀ a, a < A → store32 (store32 m6 (A + 4) (newest bs)) (A + 8) 0 a = m6 a)
    by (intros a Ha; rewrite !store32_frame by lia; done).
  assert (Hnu : is_u32 (newest bs)).
  { destruct bs as [|c bs]; [unfold is_u32; cbn; lia|]. destruct (Hnew ltac:(done)).
    unfold is_u32. lia. }
  split.
  - cbn [links]. fold A. unfold h_next, h_prev.
    rewrite load32_store32_eq by done. rewrite load32_store32_ne by lia.
    rewrite load32_store32_eq by done. repeat split; try done.
    1-5: pose proof (fresh_header_ok m A offset size ltac:(unfold is_u32; lia) Hs)
           as (F1 & F2 & F3 & F4 & F5); fold m5 in F1, F2, F3, F4, F5; cbn [hdr] in *;
         unfold h_magic1, h_magic2, h_align_offset_size, h_size, h_free in *.
    1-4: rewrite !load32_store32_ne by lia;
         erewrite load32_ext; [eassumption|intros x Hx; apply H6; lia].
    + fold A. by rewrite !store32_frame, H6 by lia.
    + eapply links_ext; [exact Ht| |exact Hl6]. intros a Ha. apply Hl8. lia.
  - intros a Ha Hne. unfold data, sizeof_heap_alloc in Ha. fold A in Ha.
    rewrite !store32_frame by lia. unfold m6.
    destruct (newest bs =? 0) eqn:En.
    + apply fresh_header_frame. unfold sizeof_heap_alloc. lia.
    + destruct Hne as [->|Hne]; [done|]. rewrite store32_frame by lia.
      apply fresh_header_frame. unfold sizeof_heap_alloc. lia.
Qed.

Lemma entered_mach_ok k L : cpu_unlocked L → cr3 (ls_mach L) = k → mach_ok k (ls_mach (entered L)).
Proof.
  intros Hu Hk. split; [by rewrite entered_cr3 by by apply unlocked_on_cpu|].
  destruct Hu as (Hl & i & c & RO & Hn). destruct L as [mc lk]. cbn in Hl, RO. subst lk.
  unfold entered. rewrite (acquire_run _ _ _ RO). cbn -[preempted].
  exists i, (set_preempt (preempt_disabled c + 1) c). split; [|done].
  apply running_preempted; [done|]. destruct RO. lia.
Qed.

(** The alignment padding of [kalloc]. *)
Lemma align_offset u a :
  0 ≤ u → 0 < a → let o := a - 1 - (u + a - 1) mod a in 0 ≤ o < a ∧ (u + o) mod a = 0.
Proof.
  intros Hu Ha o. pose proof (Z.mod_pos_bound (u + a - 1) a Ha).
  split; [unfold o; lia|]. unfold o.
  replace (u + (a - 1 - (u + a - 1) mod a)) with ((u + a - 1) - (u + a - 1) mod a) by lia.
  pose proof (Z.div_mod (u + a - 1) a ltac:(lia)) as D.
  replace (u + a - 1 - (u + a - 1) mod a) with ((u + a - 1) / a * a) by lia.
  apply Z.mod_mul. lia.
Qed.

Section allocating.
Context {P : Type} {PS : PageSource P}.
Variable r : vm_region.
Hypothesis Hr : hregion_ok r.
Hypothesis Hpages : ∀ v, v mod PAGE_SIZE = 0 → vbase r ≤ v < vbase r + rsize r → ps_page v.

Lemma on_vars_run {A} (f : M heap_vars A) L h (p : P) a h' :
  f h = Done (a, h') → on_vars f (mk_hs L h p) = Done (a, mk_hs L h' p).
Proof. intros E. unfold on_vars, zoom. cbn. by rewrite E. Qed.

Lemma hlock_acquire L h (p : P) :
  cpu_unlocked L → on_hlock cpu_spinlock_acquire (mk_hs L h p) = Done (tt, mk_hs (entered L) h p).
Proof.
  intros Hu. destruct (acquire_release_run _ (unlocked_on_cpu _ Hu)) as (Ea & _ & _).
  unfold on_hlock, zoom. cbn [hs_ls]. by rewrite Ea.
Qed.

Lemma hlock_release L h (p : P) :
  cpu_unlocked L → on_hlock cpu_spinlock_release (mk_hs (entered L) h p) = Done (tt, mk_hs L h p).
Proof.
  intros Hu. destruct (acquire_release_run _ (unlocked_on_cpu _ Hu)) as (_ & Er & _).
  unfold on_hlock, zoom. cbn [hs_ls]. by rewrite Er.
Qed.

(** The padding and the block [kalloc] adds. *)
Definition padding (h : heap_vars) (alignment : Z) : Z :=
  alignment - 1 - (heap h + cur_size h + sizeof_heap_alloc + alignment - 1) mod alignment.
Definition new_block (h : heap_vars) (alignment size : Z) : block :=
  mk_block (heap h + cur_size h + padding h alignment) (padding h alignment) size false.
Definition new_total (h : heap_vars) (alignment size : Z) : Z :=
  cur_size h + padding h alignment + sizeof_heap_alloc + size.

Lemma build_inv bs h alignment size :
  heap_inv r bs h → 0 < alignment → 0 ≤ size → new_total h alignment size ≤ heap_size h →
  ∃ h', build_alloc (hdr (new_block h alignment size)) (padding h alignment) size h = Done (tt, h') ∧
    heap_inv r (new_block h alignment size :: bs) h' ∧ heap_size h' = heap_size h ∧
    heap h' = heap h ∧
    ∀ a, (a < hdr (new_block h alignment size) ∨ data (new_block h alignment size) ≤ a) →
         (bs = [] ∨ a < newest bs + 8 ∨ newest bs + 12 ≤ a) → hmem h' a = hmem h a.
Proof.
  intros Hi Ha Hs Hfit. pose proof Hi as []. pose proof Hr as [].
  assert (Hbase : 0 < heap h) by lia.
  destruct (align_offset (heap h + cur_size h + sizeof_heap_alloc) alignment) as [Hp _];
    [unfold sizeof_heap_alloc in *; lia|done|]. fold (padding h alignment) in Hp.
  unfold new_total, sizeof_heap_alloc, PAGE_SIZE in *.
  destruct (built_links (hmem h) (heap h) bs (heap h + cur_size h) (padding h alignment) size)
    as [Hl Hf]; try done; try lia.
  { unfold is_u32. lia. }
  { unfold sizeof_heap_alloc. lia. }
  rewrite build_alloc_run. eexists. split; [reflexivity|].
  rewrite hi_last0. cbn [hmem heap_size heap]. split; [|split; [done|split; [done|exact Hf]]].
  split; cbn [hmem heap_size heap cur_size hinitialized heap_region first last]; try done.
  - unfold built. destruct (newest bs =? 0); auto 20 with mem.
  - cbn [tiles]. unfold bend, data, new_block, sizeof_heap_alloc. cbn [hdr boff bsize].
    rewrite u32_small by lia. repeat split; try lia.
    by replace (heap h + cur_size h + padding h alignment - padding h alignment)
      with (heap h + cur_size h) by lia.
  - rewrite hi_first0. cbn [oldest]. destruct bs as [|c bs]; [done|].
    destruct (Z.eqb_spec (oldest 0 (c :: bs)) 0) as [E|E]; [|done].
    destruct (oldest_newest _ _ E ltac:(done)) as (d & Hd & E0).
    pose proof (tiles_hdr_pos _ _ _ d Hbase hi_tiles0 Hd). lia.
  - unfold sizeof_heap_alloc. rewrite u32_small by lia. lia.
Qed.

(** A call of [kalloc] that is admissible and fits the heap region. *)
Record kalloc_pre (L : lock_state) (bs : list block) (h : heap_vars) (p : P)
    (fuel : nat) (mode alignment size : Z) (spare : nat) : Prop := {
  kp_unlocked : cpu_unlocked L;
  kp_pd : cr3 (ls_mach L) = ps_pd;
  kp_irq : eflags_if (ls_mach L) = true ∨ nof_active_cpus (ls_mach L) ≤ 1;
  kp_mode : mode ≠ HEAP_CONTINUOUS;
  kp_inv : heap_inv r bs h;
  kp_mapped : heap_mapped p h;
  kp_align : 0 < alignment;
  kp_align_range : heap h + cur_size h + sizeof_heap_alloc + alignment - 1 < 2 ^ 32;
  kp_size : 0 ≤ size;
  kp_fits : new_total h alignment size ≤ rsize r;
  kp_pages : ps_free p (pages_needed h (new_total h alignment size) + spare);
  kp_fuel : (length bs < fuel)%nat;
}.

Lemma grow_if_needed L h bs p alignment size spare :
  heap_inv r bs h → heap_mapped p h → mach_ok ps_pd (ls_mach L) →
  0 ≤ new_total h alignment size ≤ rsize r →
  ps_free p (pages_needed h (new_total h alignment size) + spare) →
  ∃ h' p',
    (if heap_size h <? new_total h alignment size then unsafe_grow_heap (new_total h alignment size)
     else ret tt) (mk_hs L h p) = Done (tt, mk_hs L h' p') ∧
    h' = set_heap_size (Z.max (heap_size h) (new_total h alignment size)) h ∧
    ps_free p' spare ∧ heap_mapped p' h'.
Proof.
  intros Hi Hmap Hm Hfit Hf. destruct (Z.ltb_spec (heap_size h) (new_total h alignment size)) as [Hlt|Hge].
  - destruct (grow_run r bs L h p spare (new_total h alignment size)) as (p' & E & Hf' & Hm'); try done.
    { lia. }
    eexists _, p'. split; [exact E|]. rewrite Z.max_r by lia. done.
  - exists h, p. split; [done|]. rewrite Z.max_l by lia. split; [by destruct h|]. split; [|done].
    assert (E : pages_needed h (new_total h alignment size) = 0%nat); [|by rewrite E in Hf].
    destruct Hi, Hr. unfold pages_needed, PAGE_SIZE in *.
    destruct (align_up (heap h + new_total h alignment size)) as (_ & _ & C);
      [lia|unfold PAGE_SIZE; lia|].
    destruct (align_up (heap h + heap_size h)) as (A2 & B2 & _); [lia|unfold PAGE_SIZE; lia|].
    specialize (C _ A2 ltac:(lia)).
    pose proof (Z.div_le_upper_bound (align_to_next_page (heap h + new_total h alignment size)
      - align_to_next_page (heap h + heap_size h)) 4096 0 ltac:(lia) ltac:(lia)). lia.
Qed.

Lemma kalloc_run L bs h p fuel mode alignment size spare :
  kalloc_pre L bs h p fuel mode alignment size spare →
  let b := new_block h alignment size in
  ∃ h' p', kalloc fuel mode alignment size (mk_hs L h p) = Done (data b, mk_hs L h' p') ∧
    heap_inv r (b :: bs) h' ∧ heap_mapped p' h' ∧ ps_free p' spare ∧
    data b mod alignment = 0 ∧
    ∀ c a, c ∈ bs → data c ≤ a < bend c → hmem h' a = hmem h a.
Proof.
  intros [Hu Hk Hirq Hmode Hi Hmap Ha Har Hs Hfit Hf Hfuel] b.
  pose proof Hi as []. pose proof Hr as [].
  destruct (align_offset (heap h + cur_size h + sizeof_heap_alloc) alignment) as [Hp Hal];
    [unfold sizeof_heap_alloc; lia|done|]. fold (padding h alignment) in Hp, Hal.
  assert (Hpos : 0 ≤ new_total h alignment size)
    by (unfold new_total, sizeof_heap_alloc; lia).
  unfold kalloc. unfold bind at 1, get. cbn [hs_ls hs_vars].
  replace (negb (eflags_if (ls_mach L)) && (nof_active_cpus (ls_mach L) >? 1)) with false.
  2:{ destruct Hirq as [->|Hle]; [done|]. rewrite Z.gtb_ltb. rewrite (proj2 (Z.ltb_ge _ _)) by done.
      by rewrite andb_false_r. }
  rewrite (proj2 (Z.eqb_neq _ _) Hmode), hi_init0, Hk, Z.eqb_refl. cbn [negb].
  rewrite (bind_run _ _ _ _ _ (hlock_acquire L h p Hu)).
  rewrite (bind_run _ _ _ _ _ (on_vars_run _ _ _ _ _ _ (check_all_run fuel r bs h Hr Hi ltac:(lia)))).
  unfold bind at 1, gets. cbn [hs_vars].
  unfold new_total, sizeof_heap_alloc, PAGE_SIZE in *.
  rewrite (u32_small (heap h + cur_size h + 28)) by lia.
  rewrite (u32_small (heap h + cur_size h + 28 + alignment - 1)) by lia.
  fold (padding h alignment). change 28 with sizeof_heap_alloc in *.
  fold (padding h alignment). change sizeof_heap_alloc with 28 in *.
  rewrite (u32_small (padding h alignment)) by lia.
  rewrite (u32_small (heap h + cur_size h + padding h alignment + 28)) by lia.
  rewrite (u32_small (cur_size h + padding h alignment + 28 + size)) by lia.
  change (cur_size h + padding h alignment + 28 + size) with (new_total h alignment size) in *.
  destruct (grow_if_needed (entered L) h bs p alignment size spare) as (h1 & p1 & E1 & Eh1 & Hf1 & Hm1);
    try done.
  { by apply entered_mach_ok. }
  rewrite (bind_run _ _ _ _ _ E1).
  assert (Hi1 : heap_inv r bs h1).
  { rewrite Eh1. split; cbn; try done; lia. }
  assert (Eb : new_block h1 alignment size = b) by (by rewrite Eh1).
  assert (Ep : padding h1 alignment = padding h alignment) by (by rewrite Eh1).
  destruct (build_inv bs h1 alignment size Hi1 Ha Hs) as (h2 & E2 & Hi2 & Hs2 & Hb2 & Hfr).
  { rewrite Eh1. cbn. unfold new_total. cbn. unfold padding. cbn. lia. }
  rewrite Eb, Ep in *. rewrite (u32_small (heap h + cur_size h + padding h alignment + 28 - 28)) by lia.
  replace (heap h + cur_size h + padding h alignment + 28 - 28) with (hdr b)
    by (unfold b, new_block; cbn [hdr]; lia).
  rewrite (bind_run _ _ _ _ _ (on_vars_run _ _ _ _ _ _ E2)).
  rewrite (bind_run _ _ _ _ _ (on_vars_run _ _ _ _ _ _
    (check_all_run fuel r (b :: bs) h2 Hr Hi2 ltac:(cbn; lia)))).
  rewrite (bind_run _ _ _ _ _ (hlock_release L h2 p1 Hu)).
  exists h2, p1. split.
  { unfold ret, data, b, new_block, sizeof_heap_alloc. cbn [hdr]. done. }
  split; [done|]. split.
  { intros v Hv Hvr. apply Hm1; [done|]. by rewrite <- Hs2, <- Hb2. }
  split; [done|]. split.
  { unfold data, b, new_block. cbn [hdr]. rewrite <- Hal at 1. f_equal. unfold sizeof_heap_alloc. lia. }
  intros c a Hc Hca. rewrite Hfr.
  - by rewrite Eh1.
  - destruct (tiles_In _ _ _ c hi_tiles0 Hc) as (_ & He & _). unfold b, new_block. cbn [hdr]. lia.
  - destruct bs as [|d bs]; [by left|]. right. cbn [newest].
    apply elem_of_cons in Hc as [->|Hc]; [unfold data, sizeof_heap_alloc in *; lia|].
    destruct hi_tiles0 as (_ & _ & ? & Ht). destruct (tiles_In _ _ _ c Ht Hc) as (_ & He & _). lia.
Qed.

End allocating.

Lemma truncate_loop_run bs : ∀ fuel next h,
  0 < heap h → heap h + cur_size h < 2 ^ 32 →
  tiles (heap h) bs (heap h + cur_size h) → links (hmem h) next bs → last h = newest bs →
  (length bs ≤ fuel)%nat →
  ∃ cur next', truncate_loop fuel h
      = Done (tt, set_last (newest (drop_free bs)) (set_cur_size cur h)) ∧
    tiles (heap h) (drop_free bs) (heap h + cur) ∧ links (hmem h) next' (drop_free bs) ∧
    0 ≤ cur ≤ cur_size h.
Proof.
  induction bs as [|b bs IH]; intros fuel next h H0 Hu Ht Hl Hlast Hf.
  { exists (cur_size h), next. cbn in Ht. split; [|split; [done|split; [done|lia]]].
    destruct fuel; cbn [truncate_loop]; unfold bind at 1, get; rewrite Hlast; cbn;
      destruct h; cbn in *; by subst. }
  pose proof (tiles_hdr_pos _ _ _ b H0 Ht ltac:(by left)) as Hb.
  pose proof (tiles_le _ _ _ Ht) as Hle.
  destruct fuel as [|fuel]; [cbn in Hf; lia|]. cbn [truncate_loop].
  unfold bind at 1, get. rewrite Hlast. cbn [newest drop_free].
  rewrite (proj2 (Z.eqb_neq (hdr b) 0)) by lia. cbn [orb].
  pose proof Hl as ((_ & _ & Hoff & Hsz & Hfr) & _ & Hprev & Hl').
  rewrite Hfr. destruct (bfree b) eqn:Efree; cbn [negb].
  - unfold bind at 1, modify at 1. unfold bind at 1, modify at 1. rewrite Hlast.
    cbn [hmem last set_cur_size]. rewrite Hlast. cbn [newest]. rewrite Hoff, Hsz, Hprev.
    destruct Ht as (Hfin & Hs & Ho & Ht'). pose proof (tiles_le _ _ _ Ht') as Hle'.
    assert (Ec : u32 (cur_size h - (boff b + sizeof_heap_alloc + bsize b))
                 = hdr b - boff b - heap h).
    { unfold bend, data, sizeof_heap_alloc in *. rewrite u32_small; lia. }
    rewrite Ec. set (h1 := set_last _ _).
    destruct (IH fuel (hdr b) h1) as (cur & next' & E & Ht2 & Hl2 & Hc2); try done.
    + unfold h1. cbn. unfold bend, data, sizeof_heap_alloc in *. lia.
    + cbn. by replace (heap h + (hdr b - boff b - heap h)) with (hdr b - boff b) by lia.
    + cbn in Hf. lia.
    + exists cur, next'. split; [exact E|]. split; [done|]. split; [done|].
      cbn in Hc2. unfold bend, data, sizeof_heap_alloc in *. lia.
  - exists (cur_size h), next. split; [|split; [done|split; [done|lia]]].
    cbn [newest] in *. rewrite <- Hlast. by destruct h.
Qed.

Lemma oldest_any n n' bs : bs ≠ [] → oldest n bs = oldest n' bs.
Proof. by destruct bs. Qed.

Lemma drop_free_oldest n bs : drop_free bs ≠ [] → oldest n (drop_free bs) = oldest n bs.
Proof.
  revert n. induction bs as [|b bs IH]; intros n; cbn [drop_free]; [done|].
  destruct (bfree b); [|done]. intros H. cbn [oldest]. rewrite <- (IH (hdr b) H).
  by apply oldest_any.
Qed.

Lemma drop_free_head bs :
  match drop_free bs with [] => True | b :: _ => bfree b = false end.
Proof. induction bs as [|b bs IH]; cbn; [done|]. by destruct (bfree b) eqn:E. Qed.

Lemma drop_free_length bs : (length (drop_free bs) ≤ length bs)%nat.
Proof. induction bs as [|b bs IH]; cbn; [lia|]. destruct (bfree b); cbn; lia. Qed.

(** Dropping the free tail re-establishes the invariant. *)
Lemma truncate_run r bs fuel h :
  hregion_ok r → (length bs ≤ fuel)%nat →
  hinitialized h = true → heap_region h = Some r → heap h = vbase r → byte_mem (hmem h) →
  tiles (heap h) bs (heap h + cur_size h) → links (hmem h) 0 bs →
  first h = oldest 0 bs → last h = newest bs →
  0 ≤ cur_size h ≤ heap_size h → heap_size h ≤ rsize r →
  ∃ h', unsafe_truncate_heap fuel h = Done (tt, h') ∧ heap_inv r (drop_free bs) h' ∧
    heap_size h' = heap_size h ∧ heap h' = heap h ∧
    ∀ a, (drop_free bs = [] ∨ a < newest (drop_free bs) + 8 ∨ newest (drop_free bs) + 12 ≤ a) →
         hmem h' a = hmem h a.
Proof.
  intros Hr Hf Hin Hreg Hbase Hb Ht Hl Hfirst Hlast Hcur Hfits. pose proof Hr as [].
  unfold unsafe_truncate_heap. unfold bind at 1, get.
  assert (H0 : 0 < heap h) by lia.
  destruct bs as [|b bs].
  { cbn [newest] in Hlast. rewrite Hlast. exists h. split; [done|]. split; [|done]. by split. }
  pose proof (tiles_hdr_pos _ _ _ b H0 Ht ltac:(by left)).
  rewrite Hlast. cbn [newest]. rewrite (proj2 (Z.eqb_neq (hdr b) 0)) by lia.
  destruct (truncate_loop_run (b :: bs) fuel 0 h) as (cur & next' & E & Ht' & Hl' & Hc'); try done.
  { unfold PAGE_SIZE in *. lia. }
  rewrite (bind_run _ _ _ _ _ E). unfold bind at 1, get.
  cbn [last set_last]. pose proof (drop_free_head (b :: bs)) as Hhead.
  pose proof (fun n => drop_free_oldest n (b :: bs)) as Hold.
  remember (drop_free (b :: bs)) as ds0 eqn:Eds. clear Eds. destruct ds0 as [|d ds].
  - cbn [newest]. eexists. split; [reflexivity|]. split; [|done].
    split; cbn; try done; lia.
  - pose proof (tiles_hdr_pos _ _ _ d H0 Ht' ltac:(by left)).
    destruct (tiles_In _ _ _ d Ht' ltac:(by left)) as (? & ? & ? & ?).
    cbn [newest]. rewrite (proj2 (Z.eqb_neq (hdr d) 0)) by lia.
    eexists. split; [reflexivity|]. split; [|split; [done|split; [done|]]].
    + split; cbn [hmem heap heap_size cur_size first last hinitialized heap_region set_hmem set_last
                  set_cur_size]; try done; try lia.
      * by apply byte_mem_store32.
      * eapply links_set_next; [exact Ht'|unfold is_u32; lia|exact Hl'].
      * rewrite Hfirst. symmetry. by apply Hold.
    + intros a [Hd|Ha]; [done|]. cbn [newest] in Ha. apply store32_frame. cbn. lia.
Qed.

Lemma tiles_pair base bs fin c d :
  tiles base bs fin → c ∈ bs → d ∈ bs →
  c = d ∨ bend c ≤ hdr d - boff d ∨ bend d ≤ hdr c - boff c.
Proof.
  revert fin. induction bs as [|b bs IH]; intros fin Ht Hc Hd; [by apply elem_of_nil in Hc|].
  destruct Ht as (-> & Hs & Ho & Ht).
  apply elem_of_cons in Hc as [->|Hc], Hd as [->|Hd]; [by left| | |by eapply IH].
  - destruct (tiles_In _ _ _ d Ht Hd) as (_ & ? & _). lia.
  - destruct (tiles_In _ _ _ c Ht Hc) as (_ & ? & _). lia.
Qed.

(** Payload bytes are not header bytes. *)
Lemma payload_not_header base bs fin c d a :
  tiles base bs fin → c ∈ bs → d ∈ bs → data c ≤ a < bend c → a < hdr d ∨ data d ≤ a.
Proof.
  intros Ht Hc Hd Ha. destruct (tiles_pair _ _ _ c d Ht Hc Hd) as [->|H]; [lia|].
  destruct (tiles_In _ _ _ c Ht Hc) as (_ & _ & ? & ?).
  destruct (tiles_In _ _ _ d Ht Hd) as (_ & _ & ? & ?).
  unfold bend, data, sizeof_heap_alloc in *. lia.
Qed.

Lemma links_In m next newer b older :
  links m next (newer ++ b :: older) →
  header_ok m b ∧ h_next m (hdr b) = oldest next newer.
Proof.
  revert next. induction newer as [|c newer IH]; intros next.
  - by intros (? & ? & _).
  - intros (_ & _ & _ & Hl). cbn [oldest]. by apply IH.
Qed.

Lemma drop_free_sub bs d : d ∈ drop_free bs → d ∈ bs.
Proof.
  induction bs as [|b bs IH]; cbn [drop_free]; [done|]. destruct (bfree b); [|done].
  intros H. right. by apply IH.
Qed.

Lemma set_free_In newer b older d :
  d ∈ newer ++ set_bfree b :: older → ∃ d', d' ∈ newer ++ b :: older ∧ hdr d' = hdr d.
Proof.
  intros H. apply elem_of_app in H as [H|H].
  - exists d. split; [apply elem_of_app; by left|done].
  - apply elem_of_cons in H as [->|H].
    + exists b. split; [apply elem_of_app; right; by left|done].
    + exists d. split; [apply elem_of_app; right; by right|done].
Qed.

(** Freeing one block of the heap. *)
Lemma free_block_run r newer b older fuel h :
  hregion_ok r → heap_inv r (newer ++ b :: older) h →
  (length (newer ++ b :: older) ≤ fuel)%nat →
  let bs' := newer ++ set_bfree b :: older in
  ∃ h', free_block fuel (hdr b) h = Done (tt, h') ∧ heap_inv r (drop_free bs') h' ∧
    heap_size h' = heap_size h ∧ heap h' = heap h ∧
    ∀ c a, c ∈ newer ++ b :: older → data c ≤ a < bend c → hmem h' a = hmem h a.
Proof.
  intros Hr Hi Hf bs'. pose proof Hi as []. pose proof Hr as [].
  assert (H0 : 0 < heap h) by lia. set (bs := newer ++ b :: older) in *.
  assert (Hbin : b ∈ bs) by (apply elem_of_app; right; by left).
  destruct (links_In _ _ _ _ _ hi_links0) as [(Hm1 & Hm2 & _) Hnext].
  unfold free_block. unfold bind at 1, get.
  unfold unsafe_check. rewrite (proj2 (Z.eqb_eq _ _) Hm1), (proj2 (Z.eqb_eq _ _) Hm2). cbn [andb negb].
  unfold bind at 1, hstore8, modify. unfold bind at 1, get.
  set (m1 := store8 (hmem h) (hdr b + 20) 1). set (h1 := set_hmem m1 h).
  assert (Ht' : tiles (heap h) bs' (heap h + cur_size h)) by (by apply tiles_set_free).
  assert (Hl' : links m1 0 bs') by (by eapply links_set_free).
  destruct (links_In _ _ _ _ _ Hl') as [_ Hnext'].
  assert (Hold' : oldest 0 bs' = oldest 0 bs).
  { unfold bs', bs. generalize 0. clear. induction newer as [|c newer IH]; intros n; cbn; [done|apply IH]. }
  assert (Hlen : length bs' = length bs) by (unfold bs', bs; rewrite !length_app; done).
  assert (Hnew' : newest bs' = newest bs) by (unfold bs', bs; by destruct newer).
  assert (Hpay : ∀ c a, c ∈ bs → data c ≤ a < bend c → m1 a = hmem h a).
  { intros c a Hc Ha. apply store8_ne.
    pose proof (payload_not_header _ _ _ c b a hi_tiles0 Hc Hbin Ha).
    unfold data, sizeof_heap_alloc in *. lia. }
  change (hmem h1) with m1. change (hdr (set_bfree b)) with (hdr b) in Hnext'. rewrite Hnext'.
  assert (Htr : ∃ h', unsafe_truncate_heap fuel h1 = Done (tt, h') ∧ heap_inv r (drop_free bs') h' ∧
      heap_size h' = heap_size h ∧ heap h' = heap h ∧
      ∀ c a, c ∈ bs → data c ≤ a < bend c → hmem h' a = hmem h a).
  { destruct (truncate_run r bs' fuel h1) as (h' & E & Hi' & Hs' & Hb' & Hfr); try done.
    - by rewrite Hlen.
    - by apply byte_mem_store8.
    - by rewrite Hold'.
    - by rewrite Hnew'.
    - exists h'. do 4 (split; [done|]). intros c a Hc Ha. rewrite <- (Hpay c a Hc Ha). apply Hfr.
      destruct (drop_free bs') as [|d ds] eqn:Ed; [by left|]. right. cbn [newest].
      assert (Hd : d ∈ bs') by (apply drop_free_sub; rewrite Ed; by left).
      destruct (set_free_In _ _ _ _ Hd) as (d' & Hd' & <-).
      pose proof (payload_not_header _ _ _ c d' a hi_tiles0 Hc Hd' Ha).
      unfold data, sizeof_heap_alloc in *. lia. }
  destruct newer as [|c newer].
  { cbn [oldest Z.eqb orb when]. exact Htr. }
  destruct (_ || _); [exact Htr|]. exists h1. split; [done|].
  cbn [app] in hi_tail0. unfold bs' in *. cbn [app drop_free] in *.
  change (bfree c = false) in hi_tail0. rewrite hi_tail0.
  split; [|split; [done|split; [done|exact Hpay]]].
  split; try done; cbn [h1 hmem first last set_hmem].
  - by apply byte_mem_store8.
  - by rewrite Hold'.
Qed.

(** ** A page source that always has pages, for concrete runs *)

Definition toy_pages : Type := list Z.

#[export] Instance toy_source : PageSource toy_pages.
Proof.
  refine {|
    ps_pd := 0;
    ps_map_new v := fun s => Done (tt, (fst s, v :: snd s));
    ps_palloc_lock_held := ret false;
    ps_kp_lock_held := ret false;
    ps_page _ := True;
    ps_mapped p v := v ∈ p;
    ps_free _ _ := True |}.
  - intros mc p v n _ _ _. exists (v :: p). split; [done|]. split; [done|].
    split; [by left|]. intros w _ Hw. by right.
  - done.
Defined.

Definition example_pages : toy_pages := [].

Definition example_heap_region : vm_region := Build_vm_region 0xD0000000 0 0x100000 0 0.

(** The heap as [init_kernel_heap] leaves it. *)
Definition example_heap : heap_vars :=
  mk_heap (fun _ => 0) true (Some example_heap_region) 0 0 0xD0000000 0 0.

Lemma example_hregion_ok : hregion_ok example_heap_region.
Proof. split; cbn; unfold PAGE_SIZE; done || lia. Qed.

Lemma example_heap_inv : heap_inv example_heap_region [] example_heap.
Proof. split; try done; cbn; lia. Qed.

Lemma example_kalloc_pre :
  kalloc_pre example_heap_region example_ls [] example_heap example_pages 4 HEAP_NORMAL 16 100 0.
Proof.
  constructor; [apply example_cpu_unlocked|done|by left|done|apply example_heap_inv| |done|done|done
    | |done|cbn; lia].
  - intros v Hv Hr. cbn in Hr. lia.
  - vm_compute. discriminate.
Qed.

Lemma example_pages_ok :
  ∀ v, v mod PAGE_SIZE = 0 →
    vbase example_heap_region ≤ v < vbase example_heap_region + rsize example_heap_region →
    ps_page (P:=toy_pages) v.
Proof. done. Qed.

(** ** Properties *)

(** C38: kalloc, called with interrupts on and enough pages, returns an address
    with the requested alignment whose [size] bytes lie inside the heap region,
    behind every existing allocation; all allocations still tile the heap with
    intact headers and links, the pages of the grown heap are mapped, and no
    byte of an existing allocation changes. *)
Theorem kalloc_correct {P} {PS : PageSource P} r L bs h p fuel mode alignment size spare :
  hregion_ok r →
  (∀ v, v mod PAGE_SIZE = 0 → vbase r ≤ v < vbase r + rsize r → ps_page v) →
  kalloc_pre r L bs h p fuel mode alignment size spare →
  ∃ v h' p', kalloc fuel mode alignment size (mk_hs L h p) = Done (v, mk_hs L h' p') ∧
    v mod alignment = 0 ∧ vbase r < v ∧ v + size ≤ vbase r + rsize r ∧
    (∀ c, c ∈ bs → bend c ≤ v) ∧
    (∃ b, data b = v ∧ bsize b = size ∧ bfree b = false ∧ heap_inv r (b :: bs) h') ∧
    heap_mapped p' h' ∧ ps_free p' spare ∧
    ∀ c a, c ∈ bs → data c ≤ a < bend c → hmem h' a = hmem h a.
Proof.
  intros Hr Hpg Hpre.
  destruct (kalloc_run r Hr Hpg L bs h p fuel mode alignment size spare Hpre)
    as (h' & p' & E & Hi' & Hm' & Hf' & Hal & Hfr).
  set (b := new_block h alignment size) in *. exists (data b), h', p'.
  pose proof Hi' as []. destruct Hr.
  destruct (tiles_In _ _ _ b hi_tiles0 ltac:(by left)) as (? & ? & ? & ?).
  unfold bend in *. change (bsize b) with size in *. cbn [tiles] in hi_tiles0.
  destruct hi_tiles0 as (_ & _ & _ & Ht).
  split; [done|]. split; [done|]. split; [unfold data, sizeof_heap_alloc; lia|].
  split; [lia|]. split.
  { intros c Hc. destruct (tiles_In _ _ _ c Ht Hc) as (_ & ? & _).
    unfold bend, data, sizeof_heap_alloc in *. lia. }
  split; [by exists b|]. done.
Qed.

Lemma kalloc_correct_witness :
  ∃ v h' p', kalloc 4 HEAP_NORMAL 16 100 (mk_hs example_ls example_heap example_pages)
               = Done (v, mk_hs example_ls h' p') ∧ v mod 16 = 0.
Proof.
  destruct (kalloc_correct (PS:=toy_source) example_heap_region example_ls [] example_heap example_pages 4 HEAP_NORMAL 16 100 0
              example_hregion_ok example_pages_ok example_kalloc_pre) as (v & h' & p' & E & Hal & _).
  exists v, h', p'. split; [exact E|exact Hal].
Defined.

(** Kfree of an allocation marks it free and removes the free allocations at
    the end of the heap: what remains tiles the heap with intact headers and
    links and its last allocation is in use again, and no byte of any
    allocation's contents changes. *)
Theorem kfree_correct {P} {PS : PageSource P} r L newer b older h (p : P) fuel :
  hregion_ok r → cpu_unlocked L → heap_inv r (newer ++ b :: older) h →
  (length (newer ++ b :: older) ≤ fuel)%nat → 0 < bsize b →
  ∃ h', kfree fuel (data b) (mk_hs L h p) = Done (tt, mk_hs L h' p) ∧
    heap_inv r (drop_free (newer ++ set_bfree b :: older)) h' ∧
    (∀ c a, c ∈ newer ++ b :: older → data c ≤ a < bend c → hmem h' a = hmem h a).
Proof.
  intros Hr Hu Hi Hf Hs. pose proof Hi as []. pose proof Hr as [].
  destruct (tiles_In _ _ _ b hi_tiles0) as (? & ? & ? & ?); [apply elem_of_app; right; by left|].
  unfold bend, data, sizeof_heap_alloc, PAGE_SIZE in *.
  destruct (free_block_run r newer b older fuel h Hr Hi Hf) as (h' & E & Hi' & _ & _ & Hfr).
  exists h'. split; [|split; [done|exact Hfr]].
  unfold kfree. unfold bind at 1, get. cbn [hs_vars]. rewrite hi_init0. cbn [negb].
  rewrite (bind_run _ _ _ r (mk_hs L h p)) by (unfold hregion, bind, get; cbn; by rewrite hi_region0).
  replace (is_heap r (hdr b + 28)) with true.
  2:{ symmetry. unfold is_heap. rewrite u32_small by lia. apply andb_true_intro.
      split; [apply Z.leb_le|apply Z.ltb_lt]; lia. }
  cbn [negb]. rewrite (bind_run _ _ _ _ _ (hlock_acquire L h p Hu)).
  unfold sizeof_heap_alloc. rewrite u32_small by lia. replace (hdr b + 28 - 28) with (hdr b) by lia.
  rewrite (bind_run _ _ _ _ _ (on_vars_run _ _ _ _ _ _ E)). by apply hlock_release.
Qed.

Lemma kfree_correct_witness :
  ∃ v h p h', kalloc 4 HEAP_NORMAL 16 100 (mk_hs example_ls example_heap example_pages)
                = Done (v, mk_hs example_ls h p) ∧
              kfree 4 v (mk_hs example_ls h p) = Done (tt, mk_hs example_ls h' p) ∧
              heap_inv example_heap_region [] h'.
Proof.
  destruct (kalloc_run example_heap_region example_hregion_ok example_pages_ok example_ls []
              example_heap example_pages 4 HEAP_NORMAL 16 100 0 example_kalloc_pre) as (h & p & E & Hi & _).
  destruct (kfree_correct (PS:=toy_source) example_heap_region example_ls [] (new_block example_heap 16 100) []
              h p 4 example_hregion_ok example_cpu_unlocked Hi ltac:(cbn; lia) ltac:(cbn; lia))
    as (h' & E' & Hi' & _).
  eexists _, h, p, h'. split; [exact E|]. split; [exact E'|exact Hi'].
Defined.

(** A request whose total size wraps around 32 bits is not refused: on an
    empty heap kalloc of almost 2^32 bytes asks for no page and returns an
    address, although the allocation it records reaches past the heap region. *)
Theorem kalloc_size_wraps {P} {PS : PageSource P} r L h (p : P) fuel size :
  hregion_ok r → cpu_unlocked L → cr3 (ls_mach L) = ps_pd → eflags_if (ls_mach L) = true →
  heap_inv r [] h → (0 < fuel)%nat →
  size < 2 ^ 32 ≤ size + sizeof_heap_alloc →
  size + sizeof_heap_alloc - 2 ^ 32 ≤ heap_size h →
  ∃ h', kalloc fuel HEAP_NORMAL HEAP_NO_ALIGN size (mk_hs L h p)
          = Done (vbase r + sizeof_heap_alloc, mk_hs L h' p) ∧
        vbase r + rsize r < vbase r + sizeof_heap_alloc + size.
Proof.
  intros Hr Hu Hk Hirq Hi Hf Hsz Hfit. pose proof Hi as []. pose proof Hr as [].
  assert (Hcur : cur_size h = 0) by (cbn in hi_tiles0; lia).
  unfold sizeof_heap_alloc, PAGE_SIZE in *.
  unfold kalloc. unfold bind at 1, get. cbn [hs_ls hs_vars].
  rewrite Hirq, hi_init0, Hk, Z.eqb_refl. cbn [negb andb HEAP_NORMAL HEAP_CONTINUOUS Z.eqb Pos.eqb].
  rewrite (bind_run _ _ _ _ _ (hlock_acquire L h p Hu)).
  rewrite (bind_run _ _ _ _ _ (on_vars_run _ _ _ _ _ _ (check_all_run fuel r [] h Hr Hi ltac:(cbn; lia)))).
  unfold bind at 1, gets. cbn [hs_vars]. unfold HEAP_NO_ALIGN, sizeof_heap_alloc.
  rewrite Z.mod_1_r. change (u32 (1 - 1 - 0)) with 0. rewrite Hcur, hi_base0.
  rewrite !(u32_small (vbase r + 0 + 0 + 28)) by lia. rewrite (u32_small (vbase r + 0 + 0 + 28 - 28)) by lia.
  replace (u32 (0 + 0 + 28 + size)) with (size + 28 - 2 ^ 32).
  2:{ unfold u32. apply (Z.mod_unique _ _ 1); lia. }
  rewrite (proj2 (Z.ltb_ge _ _)) by lia. unfold bind at 1, ret at 1.
  rewrite (bind_run _ _ _ _ _ (on_vars_run _ _ _ _ _ _ (build_alloc_run _ _ _ _))).
  replace (vbase r + 0 + 0 + 28 - 28) with (vbase r + 0) by lia.
  rewrite hi_last0, hi_first0. cbn [newest oldest Z.eqb]. set (h2 := mk_heap _ _ _ _ _ _ _ _).
  destruct (built_links (hmem h) (vbase r) [] (vbase r) 0 size) as [Hl _]; try done;
    try (unfold is_u32, sizeof_heap_alloc; lia).
  assert (E : unsafe_check_all fuel h2 = Done (tt, h2)).
  { apply (check_all_links fuel (vbase r) [mk_block (vbase r + 0) 0 size false]
             (bend (mk_block (vbase r + 0) 0 size false))).
    - lia.
    - cbn [tiles hdr boff bsize]. repeat split; lia.
    - exact Hl.
    - reflexivity.
    - reflexivity.
    - cbn. lia. }
  rewrite (bind_run _ _ _ _ _ (on_vars_run _ _ _ _ _ _ E)).
  rewrite (bind_run _ _ _ _ _ (hlock_release L h2 p Hu)).
  exists h2. split; [|lia]. unfold ret. do 2 f_equal. lia.
Qed.

Lemma kalloc_size_wraps_witness :
  ∃ h', kalloc 4 HEAP_NORMAL HEAP_NO_ALIGN (2 ^ 32 - 28) (mk_hs example_ls example_heap example_pages)
        = Done (0xD000001C, mk_hs example_ls h' example_pages).
Proof.
  destruct (kalloc_size_wraps (PS:=toy_source) example_heap_region example_ls example_heap example_pages 4 (2 ^ 32 - 28)
              example_hregion_ok example_cpu_unlocked eq_refl eq_refl example_heap_inv
              ltac:(lia) ltac:(unfold sizeof_heap_alloc; lia) ltac:(vm_compute; discriminate)) as (h' & E & _).
  exists h'. exact E.
Defined.
