(* ===== verification/HeapPages.v ===== *)
(** * The page allocator and the kernel page tables serve the kernel heap

    [KernelHeap] is proved against the interface [PageSource]; here [palloc] and
    [kp_map] discharge it: taking a free page and mapping it into the kernel page
    directory leaves the CPU and the three locks as they were, keeps the free
    list and the directory well-formed, and keeps every page mapped before. *)

From stdpp Require Import base list strings.
From Stdlib Require Import ZArith Lia.
From S2P Require Import Prelude Memory KUtils MemLayout Cpu Palloc Paging KernelHeap.

(** ** Lemmas on the CPU brackets *)

Lemma cpu_set_cr3_same mc i c v :
  running_on mc i c → cr3 mc = v → cpu_set_cr3 v mc = Done (v, mc).
Proof.
  intros RO Hv. pose proof RO as [? ? ? ? ? ? ?]. unfold cpu_set_cr3.
  rewrite (bind_run _ _ _ _ _ (preempt_disable_run _ _ _ RO)).
  unfold bind at 1, gets. change (cr3 (preempted mc i c (preempt_disabled c + 1))) with (cr3 mc).
  rewrite Hv, Z.eqb_refl. cbn [negb when]. unfold bind at 1, ret at 1.
  pose proof (running_preempted _ _ _ RO (preempt_disabled c + 1) ltac:(lia)) as RO1.
  rewrite (bind_run _ _ _ _ _ (preempt_enable_run _ _ _ RO1 ltac:(cbn; lia))).
  cbn [preempt_disabled set_preempt].
  replace (preempt_disabled c + 1 - 1) with (preempt_disabled c) by lia.
  by rewrite (preempted_back _ _ _ RO).
Qed.

Lemma enumerate_loop_answered answers n i cur mc :
  (∀ q, answers q = true) →
  enumerate_loop n i cur (unsafe_propagate_to_cpu answers) mc = Done (tt, mc).
Proof.
  intros Ha. revert i. induction n as [|n IH]; intros i; [done|]. cbn [enumerate_loop].
  unfold bind at 1, read_cpu at 1, gets. set (c := default _ _).
  assert (E : when (verify_cpu c && negb (lapic_id c =? cur))
                (unsafe_propagate_to_cpu answers (CpuAt i)) mc = Done (tt, mc)).
  { unfold when. destruct (_ && _); [|done]. unfold unsafe_propagate_to_cpu, bind, read_cpu, gets.
    rewrite Ha. by destruct (Bool.eqb _ _). }
  rewrite (bind_run _ _ _ _ _ E). apply IH.
Qed.

Lemma enumerate_answered answers mc i c :
  (∀ q, answers q = true) → running_on mc i c →
  cpu_enumerate_other_cpus (unsafe_propagate_to_cpu answers) mc = Done (tt, mc).
Proof.
  intros Ha RO. pose proof RO as [? ? ? ? ? ? ?]. unfold cpu_enumerate_other_cpus.
  rewrite (bind_run _ _ _ _ _ (preempt_disable_run _ _ _ RO)). unfold bind at 1, get.
  rewrite (bind_run _ _ _ _ _ (enumerate_loop_answered _ _ _ _ _ Ha)).
  pose proof (running_preempted _ _ _ RO (preempt_disabled c + 1) ltac:(lia)) as RO1.
  rewrite (preempt_enable_run _ _ _ RO1) by (cbn; lia). cbn [preempt_disabled set_preempt].
  replace (preempt_disabled c + 1 - 1) with (preempt_disabled c) by lia.
  by rewrite (preempted_back _ _ _ RO).
Qed.

Section kernel_map.
Variable vm_map : list vm_region.
Variable kernel_pd : Z.
Variable r : vm_region.
Variable answers : cpu_ptr → bool.
Hypothesis Hmap : map_ok vm_map r.
Hypothesis Hans : ∀ q, answers q = true.
Local Abbreviation kpd := (phys_kernel_pd kernel_pd).

(** The kernel state apart from the CPU: locks free, kernel directory at [a],
    free list [l]. *)
Record kernel_ok (a : Z) (l : list Z) (s : kstate) : Prop := {
  ko_plock : palloc_spinlock s = free_lock;
  ko_klock : kp_spinlock s = free_lock;
  ko_ilock : ipi_spinlock s = free_lock;
  ko_inv : palloc_inv r l (k_pal s);
  ko_dir : directory_ok vm_map (kmem s) l kpd a;
}.

Lemma mach_cpu_unlocked mc : mach_ok kpd mc → cpu_unlocked (mk_ls mc free_lock).
Proof. intros [_ (i & c & H)]. split; [done|]. by exists i, c. Qed.

Lemma mach_unlocked mc : mach_ok kpd mc → unlocked (mk_ls mc free_lock).
Proof. intros H. by apply unlocked_on_cpu, mach_cpu_unlocked. Qed.

Lemma mach_entered mc : mach_ok kpd mc → mach_ok kpd (ls_mach (entered (mk_ls mc free_lock))).
Proof. intros Hm. apply entered_mach_ok; [by apply mach_cpu_unlocked|apply Hm]. Qed.

Lemma propagate_run s pd v g :
  mach_ok kpd (k_mach s) → ipi_spinlock s = free_lock →
  paging_propagate_changes answers pd v g s =
  Done (tt, mk_kstate (k_mach s) (palloc_spinlock s) (kp_spinlock s) (ipi_spinlock s)
              (k_pal s) pd v g).
Proof.
  intros Hm Hl. set (L := mk_ls (k_mach s) free_lock).
  destruct (acquire_release_run L (mach_unlocked _ Hm)) as (Ea & Er & _).
  destruct (mach_entered _ Hm) as (_ & i & c & RO & _). fold L in RO.
  unfold paging_propagate_changes. unfold bind at 1, on_ipi at 1, zoom, ipi_view. rewrite Hl.
  fold L. rewrite Ea. unfold bind at 1, modify. unfold bind at 1, on_cpu, zoom.
  cbn [k_mach set_ipi_view]. rewrite (enumerate_answered _ _ _ _ Hans RO).
  unfold on_ipi, zoom, ipi_view, set_ipi_view, set_mach. cbn [k_mach ipi_spinlock].
  replace (mk_ls (ls_mach (entered L)) (ls_lock (entered L))) with (entered L)
    by (by destruct (entered L)).
  rewrite Er. unfold L. cbn [ls_mach ls_lock]. done.
Qed.

(** Mapping one page into the kernel page directory. *)
Lemma kp_map_run s a l v p :
  mach_ok kpd (k_mach s) → kernel_ok a l s → is_u32 p →
  0 ≤ vm_get_pflags vm_map v < 4096 →
  (pde_get_paddr (load32 (kmem s) (a + 4 * dir_slot v)) ≠ PHYS_NULL ∨ l ≠ []) →
  ∃ s' l', kp_map vm_map kernel_pd answers v p s = Done (tt, s') ∧ k_mach s' = k_mach s ∧
    kernel_ok a l' s' ∧ (l' = l ∨ ∃ w, l = w :: l') ∧
    entry_of vm_map (kmem s') kpd v
      = Some (pte_construct p (Z.lor (vm_get_pflags vm_map v) PAGE_BIT_PRESENT)) ∧
    ∀ w, mask_to_page w ≠ mask_to_page v →
      entry_of vm_map (kmem s') kpd w = entry_of vm_map (kmem s) kpd w.
Proof.
  intros Hm [Hpl Hkl Hil Hinv Hdir] Hp Hfl Hor. set (L := mk_ls (k_mach s) free_lock).
  destruct (acquire_release_run L (mach_unlocked _ Hm)) as (Ea & Er & _).
  pose proof (mach_entered _ Hm) as Hm1. fold L in Hm1.
  unfold kp_map. unfold bind at 1, on_kp at 1, zoom, kp_view. rewrite Hkl. fold L. rewrite Ea.
  set (s1 := set_kp_view (entered L) s).
  destruct Hm1 as (Hk1 & i & c & RO & Hn).
  assert (E1 : on_cpu (cpu_set_cr3 kpd) s1 = Done (kpd, s1)).
  { unfold on_cpu, zoom. change (k_mach s1) with (ls_mach (entered L)).
    by rewrite (cpu_set_cr3_same _ _ _ _ RO Hk1). }
  rewrite (bind_run _ _ _ _ _ E1).
  assert (Hok1 : paging_ok kernel_pd r l s1).
  { split; [|done]. split; [|done]. cbn. rewrite Hpl. left. split; [done|]. by exists i, c. }
  destruct (paging_map_run vm_map kernel_pd r Hmap s1 l kpd a v p (vm_get_pflags vm_map v))
    as (t' & l' & E2 & Hi' & Hl' & Hd' & He & Hoth); try done.
  { by left. }
  rewrite (bind_run _ _ _ _ _ E2).
  rewrite (bind_run _ _ _ _ _ (propagate_run (set_pal t' s1) kpd v _ ltac:(by split; [|exists i, c]) Hil)).
  cbn [k_mach palloc_spinlock kp_spinlock ipi_spinlock k_pal set_pal s1 set_kp_view].
  set (s3 := mk_kstate _ _ _ _ _ _ _ _).
  assert (E3 : on_cpu (cpu_set_cr3 kpd) s3 = Done (kpd, s3)).
  { unfold on_cpu, zoom. change (k_mach s3) with (ls_mach (entered L)).
    by rewrite (cpu_set_cr3_same _ _ _ _ RO Hk1). }
  rewrite (bind_run _ _ _ _ _ E3). unfold on_kp, zoom.
  replace (kp_view s3) with (entered L) by (unfold kp_view, s3; cbn; by destruct (entered L)).
  rewrite Er. eexists _, l'. split; [reflexivity|]. split; [done|]. split; [by split|].
  split; [done|]. split; [done|]. exact Hoth.
Qed.

(** [kp_map(v, palloc())]. *)
Definition map_new (v : Z) : M kstate unit :=
  p <- on_palloc (palloc kpd) ;; kp_map vm_map kernel_pd answers v p.

(** The page of [v] is present in the kernel directory. *)
Definition page_mapped (s : kstate) (v : Z) : Prop :=
  ∃ e, entry_of vm_map (kmem s) kpd v = Some e ∧ has e PAGE_BIT_PRESENT = true ∧
       pte_get_paddr e ≠ PHYS_NULL.

Lemma pages_off_tables s a l t' w :
  directory_ok vm_map (kmem s) (w :: l) kpd a → Forall (page_ok r) (w :: l) →
  agree_off (w :: l) (kmem s) (pmem t') →
  directory_ok vm_map (pmem t') l kpd a ∧
  (∀ i, 0 ≤ i < PD_LENGTH → load32 (pmem t') (a + 4 * i) = load32 (kmem s) (a + 4 * i)) ∧
  ∀ v, entry_of vm_map (pmem t') kpd v = entry_of vm_map (kmem s) kpd v.
Proof.
  intros Hd Hp Hag. rewrite Forall_forall in Hp. pose proof (do_aligned _ _ _ _ _ Hd) as Ha.
  assert (Hkeep : ∀ b i, b mod PAGE_SIZE = 0 → b ∉ w :: l → 0 ≤ i < 1024 →
            load32 (pmem t') (b + 4 * i) = load32 (kmem s) (b + 4 * i)).
  { intros b i Hb Hbl Hi. apply load32_ext. intros x Hx. apply Hag. intros u Hu Hux.
    destruct (Hp u Hu) as (Hua & _). assert (u ≠ b) by (by intros ->).
    destruct (page_disjoint u b Hua Hb); try done; unfold in_page, PAGE_SIZE in *; lia. }
  change PD_LENGTH with 1024.
  assert (Hdir : ∀ i, 0 ≤ i < 1024 → load32 (pmem t') (a + 4 * i) = load32 (kmem s) (a + 4 * i)).
  { intros i Hi. apply Hkeep; [done|apply Hd|done]. }
  split; [|split; [done|]].
  - eapply directory_ok_ext; [exact Hd|intros u Hu; by right|].
    intros i Hi. by rewrite Hdir.
  - intros v. destruct (slots_range v) as [H1 H2]. unfold entry_of.
    rewrite (do_reach _ _ _ _ _ Hd). cbn. rewrite Hdir by done.
    destruct (Z.eqb_spec (pde_get_paddr (load32 (kmem s) (a + 4 * dir_slot v))) PHYS_NULL) as [|Hn]; [done|].
    destruct (table_at _ _ _ _ _ _ Hd H1 Hn) as (b & Eb & Hb & Hbl & _). rewrite Eb. cbn. f_equal.
    by apply Hkeep.
Qed.

Lemma construct_present p f : has (pte_construct p (Z.lor f PAGE_BIT_PRESENT)) PAGE_BIT_PRESENT = true.
Proof.
  unfold has, pte_construct. apply negb_true_iff, Z.eqb_neq.
  rewrite Z.land_lor_distr_l, <- (Z.land_assoc (Z.lor f _)).
  change (Z.land 0xFFF PAGE_BIT_PRESENT) with PAGE_BIT_PRESENT.
  rewrite (Z.land_lor_distr_l f). intros H. apply Z.lor_eq_0_iff in H as [_ H].
  apply Z.lor_eq_0_iff in H as [_ H]. discriminate H.
Qed.

Lemma map_new_run s a l v n :
  mach_ok kpd (k_mach s) → kernel_ok a l s → (2 * S n ≤ length l)%nat →
  0 ≤ vm_get_pflags vm_map v < 4096 →
  ∃ s' l', map_new v s = Done (tt, s') ∧ k_mach s' = k_mach s ∧ kernel_ok a l' s' ∧
    (2 * n ≤ length l')%nat ∧ page_mapped s' v ∧
    ∀ w, mask_to_page w ≠ mask_to_page v → page_mapped s w → page_mapped s' w.
Proof.
  intros Hm Hok Hlen Hfl. pose proof Hok as [Hpl Hkl Hil Hinv Hdir].
  destruct l as [|w1 [|w2 l]]; [cbn in Hlen; lia..|].
  destruct Hmap as [Hreg Hreach].
  pose proof (pi_pages _ _ _ Hinv) as Hpages. pose proof Hpages as Hp'.
  apply Forall_cons in Hp' as [Hw1 _].
  destruct (v2p_page r w1 Hreg Hw1) as (Hu & Hnz & Hal & _).
  assert (Hc : callable kpd (g_ls (palloc_view s))).
  { cbn. rewrite Hpl. split; [by apply mach_unlocked|apply Hm]. }
  destruct (palloc_run kpd r w1 (w2 :: l) _ _ Hreg Hc Hinv) as (t1 & E1 & Hi1 & Hag & _).
  unfold map_new. rewrite (bind_run _ _ _ _ _ (on_palloc_run _ _ _ _ E1)).
  destruct (pages_off_tables s a (w2 :: l) t1 w1 Hdir Hpages Hag) as (Hd1 & _ & He1).
  assert (Hok1 : kernel_ok a (w2 :: l) (set_pal t1 s)) by (by split).
  destruct (kp_map_run (set_pal t1 s) a (w2 :: l) v (v2p r w1) Hm Hok1 Hu Hfl ltac:(by right))
    as (s' & l' & E2 & Hm' & Hok' & Hl' & He & Hoth).
  exists s', l'. split; [done|]. split; [done|]. split; [done|]. split.
  { destruct Hl' as [->|[w' Hw']]; [cbn in *; lia|]. injection Hw' as -> ->. cbn in *; lia. }
  split.
  - eexists. split; [exact He|]. split; [apply construct_present|].
    change (pte_get_paddr ?e) with (pde_get_paddr e).
    change (pte_construct ?x ?y) with (pde_construct x y).
    rewrite frame_construct by done. by rewrite frame_aligned.
  - intros w Hw (e & Ew & Hpres & Hfr). exists e. split; [|done].
    rewrite Hoth by done. change (kmem (set_pal t1 s)) with (pmem t1). by rewrite He1.
Qed.

End kernel_map.

(** ** The interface of the heap, implemented *)

Section instance.
Variable vm_map : list vm_region.
Variable kernel_pd : Z.
Variable r : vm_region.
Variable answers : cpu_ptr → bool.
Variable a : Z.
Hypothesis Hmap : map_ok vm_map r.
Hypothesis Hans : ∀ q, answers q = true.

(** Run kernel code with the CPU kept apart: the CPU stored in the second
    component is never used. *)
Definition with_mach {A} (f : M kstate A) : M (machine * kstate) A :=
  zoom (fun mp => set_mach (fst mp) (snd mp))
       (fun s mp => (k_mach s, set_mach (k_mach (snd mp)) s)) f.

(** A page address the heap may map. *)
Definition heap_page (v : Z) : Prop :=
  0 ≤ vm_get_pflags vm_map v < 4096 ∧ v mod PAGE_SIZE = 0 ∧ is_u32 v.

Lemma mask_aligned v : is_u32 v → v mod PAGE_SIZE = 0 → mask_to_page v = v.
Proof. intros Hv Ha. rewrite mask_to_page_eq by done. lia. Qed.

Definition kernel_pages_free (s : kstate) (n : nat) : Prop :=
  ∃ l, kernel_ok vm_map kernel_pd r a l s ∧ (2 * n ≤ length l)%nat.

Lemma kernel_ok_mach mc l s :
  kernel_ok vm_map kernel_pd r a l s → kernel_ok vm_map kernel_pd r a l (set_mach mc s).
Proof. by intros [? ? ? ? ?]. Qed.

Lemma kernel_map_new_ok mc s v n :
  mach_ok (phys_kernel_pd kernel_pd) mc → kernel_pages_free s (S n) → heap_page v →
  ∃ s', with_mach (map_new vm_map kernel_pd answers v) (mc, s) = Done (tt, (mc, s')) ∧
    kernel_pages_free s' n ∧ page_mapped vm_map kernel_pd s' v ∧
    ∀ w, heap_page w → page_mapped vm_map kernel_pd s w → page_mapped vm_map kernel_pd s' w.
Proof.
  intros Hm (l & Hok & Hlen) (Hfl & Hva & Hvu).
  destruct (map_new_run vm_map kernel_pd r answers Hmap Hans (set_mach mc s) a l v n)
    as (s' & l' & E & Hm' & Hok' & Hlen' & Hmv & Hoth); try done.
  { by apply kernel_ok_mach. }
  exists (set_mach (k_mach s) s'). split.
  { unfold with_mach, zoom. cbn [fst snd]. by rewrite E, Hm'. }
  split; [exists l'; split; [by apply kernel_ok_mach|done]|]. split; [done|].
  intros w (_ & Hwa & Hwu) Hw. change (page_mapped vm_map kernel_pd s' w).
  destruct (Z.eq_dec w v) as [->|Hne]; [done|]. apply Hoth; [|done].
  by rewrite !mask_aligned.
Qed.

Lemma kernel_unlocked_ok mc s n :
  mach_ok (phys_kernel_pd kernel_pd) mc → kernel_pages_free s n →
  with_mach (on_palloc palloc_lock_held) (mc, s) = Done (false, (mc, s)) ∧
  with_mach kp_lock_held (mc, s) = Done (false, (mc, s)).
Proof.
  intros Hm (l & [Hpl Hkl _ _ _] & _). destruct Hm as [_ (i & c & RO & Hn)].
  unfold with_mach, on_palloc, kp_lock_held, on_kp, palloc_lock_held, on_lock, zoom,
    palloc_view, kp_view. cbn [fst snd k_mach palloc_spinlock kp_spinlock set_mach g_ls].
  rewrite Hpl, Hkl, (held_run _ _ _ RO). cbn. split; by destruct s; cbn in *; subst.
Qed.

#[export] Instance kernel_page_source : PageSource kstate := {|
  ps_pd := phys_kernel_pd kernel_pd;
  ps_map_new v := with_mach (map_new vm_map kernel_pd answers v);
  ps_palloc_lock_held := with_mach (on_palloc palloc_lock_held);
  ps_kp_lock_held := with_mach kp_lock_held;
  ps_page := heap_page;
  ps_mapped := page_mapped vm_map kernel_pd;
  ps_free := kernel_pages_free;
  ps_map_new_ok := kernel_map_new_ok;
  ps_unlocked_ok := kernel_unlocked_ok |}.

End instance.

(** The heap region of the kernel's memory map. *)
Lemma heap_region_ok sy hr :
  layout_ok sy → create_vm_map sy !! VM_DYNAMIC_REGION = Some hr →
  hregion_ok hr ∧ ∀ v, v mod PAGE_SIZE = 0 → vbase hr ≤ v < vbase hr + rsize hr →
                       heap_page (create_vm_map sy) v.
Proof.
  intros Hl Hhr. assert (Hin : hr ∈ create_vm_map sy) by (by eapply list_elem_of_lookup_2).
  pose proof (fun v => get_region_v_in sy hr v Hl Hin) as Hreg.
  rewrite (create_vm_map_eq sy Hl) in Hhr. injection Hhr as <-. destruct Hl.
  unfold PAGE_SIZE in *. cbn [vbase rsize] in Hreg. split.
  - split; cbn; unfold PAGE_SIZE; try lia.
    rewrite Zminus_mod, lo_break_aligned by lia. done.
  - cbn [vbase rsize]. intros v Hv Hr. split; [|split; [done|unfold is_u32; lia]].
    unfold vm_get_pflags. rewrite Hreg by lia. cbn. lia.
Qed.

(** An example kernel: four free pages, an empty kernel directory at 0xC0500000. *)
Definition free_header (m : mem) (v prev next : Z) : mem :=
  store32 (store32 (store32 m v PALLOC_PAGE_MAGIC) (v + 4) prev) (v + 8) next.
Definition example_kernel_mem : mem :=
  free_header (free_header (free_header (free_header (fun _ => 0)
    0x803000 0 0x804000) 0x804000 0x803000 0x805000) 0x805000 0x804000 0x806000)
    0x806000 0x805000 0.
Definition example_free_pages : list Z := [0x803000; 0x804000; 0x805000; 0x806000].
Definition example_kpd : Z := 0xC0500000.
Definition example_cpu : machine :=
  mk_machine (cpus example_machine) 2 zero_cpu 2 true 4 0x500000 true.
Definition example_kernel : kstate :=
  mk_kstate example_cpu free_lock free_lock free_lock
    (mk_palloc example_kernel_mem true 0x803000 (Some example_region) 4) 0 0 false.

Lemma example_kernel_inv : palloc_inv example_region example_free_pages (k_pal example_kernel).
Proof.
  split; try reflexivity.
  - unfold example_kernel, k_pal, pmem, example_kernel_mem, free_header.
    repeat apply byte_mem_store32. intros a. lia.
  - vm_compute. repeat split.
  - repeat constructor; cbn; unfold PAGE_SIZE; done || lia.
  - vm_compute. repeat constructor; rewrite ?elem_of_cons, ?elem_of_nil; intuition discriminate.
Qed.

Lemma example_kernel_dir i :
  0 ≤ i < PD_LENGTH → load32 (kmem example_kernel) (0xC0500000 + 4 * i) = 0.
Proof.
  intros Hi. change PD_LENGTH with 1024 in Hi.
  change (kmem example_kernel) with example_kernel_mem.
  unfold example_kernel_mem, free_header. rewrite !load32_store32_ne by lia. reflexivity.
Qed.

Lemma example_kernel_ok :
  kernel_ok example_vm_map example_kpd example_region 0xC0500000 example_free_pages example_kernel.
Proof.
  split; try reflexivity; [apply example_kernel_inv|]. split; try reflexivity.
  - unfold example_free_pages. rewrite !elem_of_cons, elem_of_nil. lia.
  - intros i Hi. rewrite example_kernel_dir by done. done.
  - intros i j b Hi Hj _. rewrite example_kernel_dir by done. done.
Qed.

Lemma example_mach_ok : mach_ok (phys_kernel_pd example_kpd) example_cpu.
Proof. split; [reflexivity|]. eexists 1%nat, _. split; [by split|done]. Qed.

(** ** Properties *)

(** Kp_map maps a physical page at a kernel virtual address: the entry in the
    kernel page directory is the page with the flags of its memory region, every
    other kernel mapping is unchanged, and the call leaves the CPU's interrupt,
    preemption and CR3 state and all locks as they were. *)
Theorem kp_map_correct vm_map kernel_pd r answers s a l v p :
  map_ok vm_map r → (∀ q, answers q = true) →
  mach_ok (phys_kernel_pd kernel_pd) (k_mach s) → kernel_ok vm_map kernel_pd r a l s →
  is_u32 p → 0 ≤ vm_get_pflags vm_map v < 4096 → l ≠ [] →
  ∃ s' l', kp_map vm_map kernel_pd answers v p s = Done (tt, s') ∧ k_mach s' = k_mach s ∧
    kernel_ok vm_map kernel_pd r a l' s' ∧
    entry_of vm_map (kmem s') (phys_kernel_pd kernel_pd) v
      = Some (pte_construct p (Z.lor (vm_get_pflags vm_map v) PAGE_BIT_PRESENT)) ∧
    ∀ w, mask_to_page w ≠ mask_to_page v →
      entry_of vm_map (kmem s') (phys_kernel_pd kernel_pd) w
      = entry_of vm_map (kmem s) (phys_kernel_pd kernel_pd) w.
Proof.
  intros Hmap Hans Hm Hok Hp Hf Hl.
  destruct (kp_map_run vm_map kernel_pd r answers Hmap Hans s a l v p Hm Hok Hp Hf ltac:(by right))
    as (s' & l' & E & Hm' & Hok' & _ & He & Ho). by exists s', l'.
Qed.

Lemma kp_map_correct_witness :
  ∃ s', kp_map example_vm_map example_kpd (fun _ => true) 0xD0001000 0x900000 example_kernel
          = Done (tt, s') ∧
        entry_of example_vm_map (kmem s') 0x500000 0xD0001000 = Some 0x900103.
Proof.
  destruct (kp_map_correct example_vm_map example_kpd example_region (fun _ => true) example_kernel
              0xC0500000 example_free_pages 0xD0001000 0x900000 example_map_ok (fun _ => eq_refl)
              example_mach_ok example_kernel_ok ltac:(unfold is_u32; lia)
              ltac:(vm_compute; split; [discriminate|reflexivity]) ltac:(discriminate))
    as (s' & l' & E & _ & _ & He & _).
  exists s'. split; [exact E|exact He].
Defined.

(** The kernel heap works on the kernel's own page allocator and page tables:
    with kp_map and palloc supplying the pages, kalloc returns an aligned address
    in the dynamic memory region behind all existing allocations, and every page
    the allocation touches is present in the kernel page directory. *)
Theorem kalloc_on_kernel_pages sy r hr kernel_pd answers a L bs h s fuel mode alignment size spare :
  ∀ (Hl : layout_ok sy) (Hmap : map_ok (create_vm_map sy) r) (Hans : ∀ q, answers q = true),
  create_vm_map sy !! VM_DYNAMIC_REGION = Some hr →
  kalloc_pre (PS := kernel_page_source (create_vm_map sy) kernel_pd r answers a Hmap Hans)
    hr L bs h s fuel mode alignment size spare →
  ∃ v h' s',
    kalloc (PS := kernel_page_source (create_vm_map sy) kernel_pd r answers a Hmap Hans)
      fuel mode alignment size (mk_hs L h s) = Done (v, mk_hs L h' s') ∧
    v mod alignment = 0 ∧ (∀ c, c ∈ bs → bend c ≤ v) ∧
    vbase hr < v ∧ v + size ≤ vbase hr + rsize hr ∧
    ∀ w, w mod PAGE_SIZE = 0 → vbase hr ≤ w < v + size →
      page_mapped (create_vm_map sy) kernel_pd s' w.
Proof.
  intros Hl Hmap Hans Hhr Hpre. destruct (heap_region_ok sy hr Hl Hhr) as [Hhok Hpg].
  destruct (kalloc_run (PS := kernel_page_source _ kernel_pd r answers a Hmap Hans)
              hr Hhok Hpg L bs h s fuel mode alignment size spare Hpre)
    as (h' & s' & E & Hi & Hm & _ & Hal & _).
  set (b := new_block h alignment size) in *.
  pose proof Hi as [_ _ Hbase _ Htl _ _ _ _ Hcur Hfits].
  destruct (tiles_In _ _ _ b Htl ltac:(by left)) as (? & Hend & ? & ?).
  destruct Htl as (Hfin & _ & _ & Ht). unfold bend in Hend, Hfin.
  change (bsize b) with size in *.
  exists (data b), h', s'. split; [done|]. split; [done|]. split.
  { intros c Hc. destruct (tiles_In _ _ _ c Ht Hc) as (_ & ? & _).
    unfold bend, data, sizeof_heap_alloc in *. lia. }
  split; [unfold data, sizeof_heap_alloc; lia|]. split; [lia|].
  intros w Hw Hwr. apply (Hm w); [done|]. lia.
Qed.

Definition example_dynamic_heap : heap_vars :=
  mk_heap (fun _ => 0) true (create_vm_map example_symbols !! VM_DYNAMIC_REGION) 0 0 0xC0800000 0 0.
Definition example_dynamic_region : vm_region :=
  Build_vm_region 0xC0800000 0 0x3D800000 0 0x102.
Definition example_kernel_ls : lock_state := mk_ls example_cpu free_lock.

Lemma example_dynamic_inv : heap_inv example_dynamic_region [] example_dynamic_heap.
Proof.
  constructor; try exact I; try (vm_compute; reflexivity);
    [intros a; cbn; lia|cbn; lia|cbn; lia].
Qed.

Lemma kalloc_on_kernel_pages_witness :
  ∃ v h' s',
    kalloc (PS := kernel_page_source example_vm_map example_kpd example_region (fun _ => true)
                    0xC0500000 example_map_ok (fun _ => eq_refl))
      4 HEAP_NORMAL 16 100 (mk_hs example_kernel_ls example_dynamic_heap example_kernel)
      = Done (v, mk_hs example_kernel_ls h' s') ∧
    page_mapped example_vm_map example_kpd s' 0xC0800000.
Proof.
  destruct (kalloc_on_kernel_pages example_symbols example_region example_dynamic_region example_kpd
    (fun _ => true) 0xC0500000 example_kernel_ls [] example_dynamic_heap example_kernel
    4 HEAP_NORMAL 16 100 0 example_layout_ok example_map_ok (fun _ => eq_refl) eq_refl)
    as (v & h' & s' & E & _ & _ & Hlo & _ & Hm).
  - constructor; try reflexivity.
    + split; [reflexivity|]. apply example_mach_ok.
    + by left.
    + discriminate.
    + apply example_dynamic_inv.
    + intros w Hw Hr. cbn in Hr. lia.
    + vm_compute. discriminate.
    + vm_compute. discriminate.
    + exists example_free_pages. split; [apply example_kernel_ok|].
      apply Nat.leb_le. vm_compute. reflexivity.
    + apply Nat.ltb_lt. reflexivity.
  - exists v, h', s'. split; [exact E|]. apply Hm; [reflexivity|].
    cbn [vbase example_dynamic_region] in *. lia.
Defined.
