(* ===== verification/AddressSpace.v ===== *)
(** * Address spaces of processes, as finite maps

    A page directory that belongs to a process ([Paging]) is described by two finite
    maps: the page tables it has allocated, by directory slot, and the pages it maps,
    by page number, each with its frame and the flags of its entry.  [space] says that
    the bytes in memory are that directory; the pages it owns (the directory, the
    tables, the frames) are pairwise different.  Every operation of paging/core.c on
    the directory of a process is described by what it does to the two maps, and
    touches only pages the space owns or takes from the free list: other processes
    keep theirs. *)

From stdpp Require Import base list gmap sets strings.
From Stdlib Require Import ZArith Lia.
From S2P Require Import Prelude Memory KUtils MemLayout Cpu Palloc Paging KernelHeap HeapPages.

(** A page of a process: its frame, by kernel address, and the flags of its entry. *)
Abbreviation upages := (gmap Z (Z * Z)).

Definition page_no (v : Z) : Z := v / PAGE_SIZE.

Definition tables_of (T : gmap Z Z) : list Z := (map_to_list T).*2.
Definition frames_of (F : upages) : list Z := (map_to_list F).*2.*1.

(** The pages an address space owns. *)
Definition owned (a : Z) (T : gmap Z Z) (F : upages) : list Z := a :: tables_of T ++ frames_of F.

(** The directory and its tables. *)
Definition dirs (a : Z) (T : gmap Z Z) : list Z := a :: tables_of T.

(** What a user address holds. *)
Definition ubytes (F : upages) (m : mem) (v : Z) : option Z :=
  (fun p => m (p.1 + v mod PAGE_SIZE)) <$> F !! page_no v.

(** Flags of an entry of a process page. *)
Definition user_flags (fl : Z) : Prop :=
  0 ≤ fl < 4096 ∧ has fl PAGE_BIT_PRESENT = true ∧ has fl PAGE_BIT_GLOBAL = false.

Record space (r : vm_region) (m : mem) (a : Z) (T : gmap Z Z) (F : upages) : Prop := {
  sp_table : ∀ i b, T !! i = Some b → 0 ≤ i < 1024 ∧
    pde_get_paddr (load32 m (a + 4 * i)) = v2p r b ∧
    has (load32 m (a + 4 * i)) PAGE_BIT_PRESENT = true ∧
    has (load32 m (a + 4 * i)) PAGE_BIT_GLOBAL = false;
  sp_no_table : ∀ i, 0 ≤ i < 1024 → T !! i = None →
    has (load32 m (a + 4 * i)) PAGE_BIT_GLOBAL = true ∨ load32 m (a + 4 * i) = 0;
  sp_page : ∀ n f fl, F !! n = Some (f, fl) → user_flags fl ∧
    ∃ b, T !! (n / 1024) = Some b ∧ load32 m (b + 4 * (n mod 1024)) = pte_construct (v2p r f) fl;
  sp_no_page : ∀ n b, F !! n = None → T !! (n / 1024) = Some b → load32 m (b + 4 * (n mod 1024)) = 0;
  sp_owned : Forall (page_ok r) (owned a T F);
  sp_nodup : NoDup (owned a T F);
}.

(** The address is not one of the kernel's, whose tables all directories share. *)
Definition user_address (m : mem) (a v : Z) : Prop :=
  is_u32 v ∧ has (load32 m (a + 4 * (page_no v / 1024))) PAGE_BIT_GLOBAL = false.

(** ** Lemmas: bits of entries *)

Lemma has_lor x y b : has (Z.lor x y) b = has x b || has y b.
Proof.
  unfold has. rewrite Z.land_lor_distr_l, <- negb_andb. f_equal.
  destruct (Z.eqb_spec (Z.lor (Z.land x b) (Z.land y b)) 0) as [E|E]; rewrite Z.lor_eq_0_iff in E.
  - destruct E as [-> ->]. done.
  - symmetry. apply andb_false_iff. rewrite !Z.eqb_neq. lia.
Qed.

Lemma has_frame p b : Z.land 0xFFFFF000 b = 0 → has (Z.land p 0xFFFFF000) b = false.
Proof. intros H. unfold has. by rewrite <- Z.land_assoc, H, Z.land_0_r. Qed.

Lemma has_low f b : Z.land 0xFFF b = b → has (Z.land f 0xFFF) b = has f b.
Proof. intros H. unfold has. by rewrite <- Z.land_assoc, H. Qed.

Lemma construct_has p fl b :
  Z.land 0xFFFFF000 b = 0 → Z.land 0xFFF b = b → has (pte_construct p fl) b = has fl b.
Proof. intros H1 H2. unfold pte_construct. by rewrite has_lor, has_frame, has_low. Qed.

Lemma construct_flags p fl : 0 ≤ fl < 4096 → pte_get_flags (pte_construct p fl) = fl.
Proof.
  intros H. unfold pte_get_flags, pte_construct. rewrite Z.land_lor_distr_l, <- !Z.land_assoc.
  change (Z.land 0xFFFFF000 0xFFF) with 0. rewrite Z.land_0_r, Z.lor_0_l.
  change (Z.land 0xFFF 0xFFF) with 0xFFF. rewrite land_low. by apply Z.mod_small.
Qed.

Lemma lor_construct p fl : is_u32 p → p mod PAGE_SIZE = 0 → 0 ≤ fl < 4096 → Z.lor p fl = pte_construct p fl.
Proof.
  intros Hp Ha Hf. unfold pte_construct. change (Z.land p 0xFFFFF000) with (pde_get_paddr p).
  rewrite frame_aligned by done. by rewrite land_low, Z.mod_small.
Qed.

Section pages.
Variable r : vm_region.
Hypothesis Hreg : region_ok r.

Lemma frame_of_entry w fl : page_ok r w → pte_get_paddr (pte_construct (v2p r w) fl) = v2p r w.
Proof.
  intros Hw. destruct (v2p_page r w Hreg Hw) as (Hu & _ & Hal & _).
  change (pte_get_paddr ?e) with (pde_get_paddr e). change (pte_construct ?x ?y) with (pde_construct x y).
  rewrite frame_construct by done. by apply frame_aligned.
Qed.

Lemma v2p_inj w w' : v2p r w = v2p r w' → w = w'.
Proof. unfold v2p. lia. Qed.

Lemma user_flags_present fl :
  0 ≤ fl < 4096 → has fl PAGE_BIT_GLOBAL = false → user_flags (Z.lor fl PAGE_BIT_PRESENT).
Proof.
  intros H1 H2. split; [by apply flags_present|]. rewrite !has_lor, H2. split; [|done].
  by rewrite orb_true_r.
Qed.
End pages.

(** ** Lemmas: page numbers and slots *)

Lemma page_no_range v : is_u32 v → 0 ≤ page_no v < 2 ^ 20.
Proof. unfold is_u32, page_no, PAGE_SIZE. intros H. dlia. Qed.

Lemma mask_page_no v : is_u32 v → mask_to_page v = PAGE_SIZE * page_no v.
Proof.
  intros H. rewrite mask_to_page_eq by done. unfold page_no, PAGE_SIZE.
  pose proof (Z.div_mod v 4096 ltac:(lia)). lia.
Qed.

Lemma page_slots v : is_u32 v → dir_slot v = page_no v / 1024 ∧ table_slot v = page_no v mod 1024.
Proof.
  intros H. unfold dir_slot, table_slot, get_pd_index, get_pt_index. rewrite mask_page_no by done.
  pose proof (page_no_range v H). unfold PAGE_SIZE. rewrite u32_small by lia.
  rewrite !Z.shiftr_div_pow2 by lia. change 0x3FF with (Z.ones 10). rewrite Z.land_ones by lia.
  change (2 ^ 22) with (4096 * 1024). rewrite <- Z.div_div by lia. change (2 ^ 12) with 4096.
  rewrite (Z.mul_comm 4096), Z.div_mul by lia. done.
Qed.

Lemma slot_of_page n : 0 ≤ n < 2 ^ 20 → 0 ≤ n / 1024 < 1024 ∧ 0 ≤ n mod 1024 < 1024.
Proof. intros H. dlia. Qed.

(** ** Lemmas: the owned pages *)

Lemma owned_insert_table a T F i b : T !! i = None → owned a (<[i := b]> T) F ≡ₚ b :: owned a T F.
Proof.
  intros H. unfold owned, tables_of. rewrite map_to_list_insert by done. cbn. apply Permutation_swap.
Qed.

Lemma owned_insert_page a T F n f fl :
  F !! n = None → owned a T (<[n := (f, fl)]> F) ≡ₚ f :: owned a T F.
Proof.
  intros H. unfold owned, frames_of. rewrite map_to_list_insert by done. cbn.
  rewrite <- Permutation_middle. apply Permutation_swap.
Qed.

Lemma owned_dir a T F : a ∈ owned a T F.
Proof. by left. Qed.

Lemma owned_table a T F i b : T !! i = Some b → b ∈ owned a T F.
Proof.
  intros H. right. apply elem_of_app. left. apply list_elem_of_fmap. exists (i, b).
  split; [done|]. by apply elem_of_map_to_list.
Qed.

Lemma owned_page a T F n f fl : F !! n = Some (f, fl) → f ∈ owned a T F.
Proof.
  intros H. right. apply elem_of_app. right. apply list_elem_of_fmap. exists (f, fl). split; [done|].
  apply list_elem_of_fmap. exists (n, (f, fl)). split; [done|]. by apply elem_of_map_to_list.
Qed.

Create HintDb space.
Lemma dirs_insert a T i b : T !! i = None → dirs a (<[i := b]> T) ≡ₚ b :: dirs a T.
Proof. intros H. unfold dirs, tables_of. rewrite map_to_list_insert by done. cbn. apply Permutation_swap. Qed.

Lemma dirs_dir a T : a ∈ dirs a T.
Proof. by left. Qed.

Lemma dirs_table a T i b : T !! i = Some b → b ∈ dirs a T.
Proof.
  intros H. right. apply list_elem_of_fmap. exists (i, b). split; [done|]. by apply elem_of_map_to_list.
Qed.

Lemma dirs_owned a T F p : p ∈ dirs a T → p ∈ owned a T F.
Proof. unfold dirs, owned. rewrite !elem_of_cons, elem_of_app. tauto. Qed.

#[export] Hint Resolve owned_dir owned_table owned_page dirs_dir dirs_table : space.

(** ** Lemmas: memory *)

(** [m'] is [m] with the word at [p] replaced by [x]. *)
Definition poked (m m' : mem) (p x : Z) : Prop :=
  load32 m' p = x ∧ ∀ y, y < p ∨ p + 4 ≤ y → m' y = m y.

Lemma poked_store m p x : is_u32 x → poked m (store32 m p x) p x.
Proof. intros H. split; [by apply load32_store32_eq|]. intros y Hy. by apply store32_frame. Qed.

Lemma poked_trans m m1 m2 p x y : poked m m1 p x → poked m1 m2 p y → poked m m2 p y.
Proof. intros [_ H1] [H2 H3]. split; [done|]. intros z Hz. by rewrite H3, H1. Qed.

Lemma poked_load m m' p x q : poked m m' p x → q + 4 ≤ p ∨ p + 4 ≤ q → load32 m' q = load32 m q.
Proof. intros [_ H] Hq. apply load32_ext. intros y Hy. apply H. lia. Qed.

Lemma poked_agree m m' a i x : 0 ≤ i < 1024 → poked m m' (a + 4 * i) x → agree_off [a] m m'.
Proof.
  intros Hi [_ H] y Hy. apply H. specialize (Hy a ltac:(by left)). unfold in_page, PAGE_SIZE in Hy. lia.
Qed.

Section spaces.
Variable r : vm_region.
Hypothesis Hreg : region_ok r.

Lemma agree_page L m m' p x :
  Forall (page_ok r) L → page_ok r p → p ∉ L → agree_off L m m' → in_page p x → m' x = m x.
Proof.
  intros HL (Hp & _) Hn Ha Hx. apply Ha. intros q Hq Hqx. rewrite Forall_forall in HL.
  destruct (HL q Hq) as (Hqa & _). assert (q ≠ p) by (by intros ->).
  destruct (page_disjoint q p Hqa Hp); try done; unfold in_page in *; lia.
Qed.

Lemma space_page_ok m a T F p : space r m a T F → p ∈ owned a T F → page_ok r p.
Proof. intros H. by apply Forall_forall, (sp_owned _ _ _ _ _ H). Qed.

(** Only the directory and its tables matter. *)
Lemma space_dirs m m' a T F :
  (∀ p x, p ∈ dirs a T → in_page p x → m' x = m x) → space r m a T F → space r m' a T F.
Proof.
  intros Hm [H1 H2 H3 H4 H5 H6].
  assert (Hl : ∀ p i, p ∈ dirs a T → 0 ≤ i < 1024 → load32 m' (p + 4 * i) = load32 m (p + 4 * i)).
  { intros p i Hp Hi. apply load32_ext. intros x Hx. apply (Hm p x Hp). by apply (slot_in_page p i). }
  assert (Hmod : ∀ n, 0 ≤ n mod 1024 < 1024) by (intros n; apply Z.mod_pos_bound; lia).
  split.
  - intros i b Hb. destruct (H1 i b Hb) as (Hi & ?). by rewrite Hl by auto with space.
  - intros i Hi Hb. rewrite Hl by auto with space. by apply H2.
  - intros n f fl Hf. destruct (H3 n f fl Hf) as (Hu & b & Hb & E). split; [done|]. exists b.
    rewrite Hl by eauto with space. done.
  - intros n b Hf Hb. rewrite Hl by eauto with space. by apply H4.
  - done.
  - done.
Qed.

Lemma in_frame f v : in_page f (f + v mod PAGE_SIZE).
Proof. unfold in_page. pose proof (Z.mod_pos_bound v PAGE_SIZE ltac:(done)). lia. Qed.

Lemma space_frame m m' a T F :
  (∀ p x, p ∈ owned a T F → in_page p x → m' x = m x) →
  space r m a T F → space r m' a T F ∧ ∀ v, ubytes F m' v = ubytes F m v.
Proof.
  intros Hm Hs. split.
  - apply (space_dirs m); [|done]. intros p x Hp. apply Hm. by apply dirs_owned.
  - intros v. unfold ubytes. destruct (F !! page_no v) as [[f fl]|] eqn:E; [|done]. cbn. f_equal.
    apply (Hm f); [eauto with space|apply in_frame].
Qed.

Lemma space_agree L m m' a T F :
  Forall (page_ok r) L → (∀ p, p ∈ owned a T F → p ∉ L) → agree_off L m m' →
  space r m a T F → space r m' a T F ∧ ∀ v, ubytes F m' v = ubytes F m v.
Proof.
  intros HL Hd Ha Hs. apply (space_frame m); [|done]. intros p x Hp Hx.
  apply (agree_page L m m' p); try done; [by apply (space_page_ok _ _ _ _ _ Hs)|by apply Hd].
Qed.

(** The contents of the pages do not depend on the directory, its tables or free pages. *)
Lemma ubytes_dirs l m m' a T F v :
  space r m a T F → NoDup (owned a T F ++ l) → Forall (page_ok r) l → agree_off (dirs a T ++ l) m m' →
  ubytes F m' v = ubytes F m v.
Proof.
  intros Hs Hn Hl Ha. unfold ubytes. destruct (F !! page_no v) as [[f fl]|] eqn:E; [|done]. cbn. f_equal.
  apply (agree_page (dirs a T ++ l) m m' f); try done.
  - apply Forall_app. split; [|done]. apply Forall_forall. intros p Hp. apply (space_page_ok _ _ _ _ _ Hs).
    by apply dirs_owned.
  - apply (space_page_ok _ _ _ _ _ Hs). eauto with space.
  - unfold owned in Hn. rewrite app_comm_cons, <- app_assoc in Hn. apply NoDup_app in Hn as (_ & Hd & Hfl).
    apply NoDup_app in Hfl as (_ & Hfl & _).
    assert (Hf : f ∈ frames_of F).
    { apply list_elem_of_fmap. exists (f, fl). split; [done|]. apply list_elem_of_fmap.
      exists (page_no v, (f, fl)). split; [done|]. by apply elem_of_map_to_list. }
    intros [Hin|Hin]%elem_of_app; [|by apply (Hfl f)]. apply (Hd f Hin). apply elem_of_app. by left.
  - unfold in_page. pose proof (Z.mod_pos_bound v PAGE_SIZE ltac:(done)). lia.
Qed.

(** Entries of different pages do not overlap. *)
Lemma owned_apart m a T F p q i j :
  space r m a T F → p ∈ owned a T F → q ∈ owned a T F → 0 ≤ i < 1024 → 0 ≤ j < 1024 → p ≠ q ∨ i ≠ j →
  p + 4 * i + 4 ≤ q + 4 * j ∨ q + 4 * j + 4 ≤ p + 4 * i.
Proof.
  intros Hs Hp Hq. destruct (space_page_ok _ _ _ _ _ Hs Hp) as (Ha & _), (space_page_ok _ _ _ _ _ Hs Hq) as (Hb & _).
  by apply slot_apart.
Qed.

Lemma tables_inj m a T F i j b : space r m a T F → T !! i = Some b → T !! j = Some b → i = j.
Proof.
  intros Hs Hi Hj. destruct (sp_table _ _ _ _ _ Hs i b Hi) as (_ & E1 & _).
  pose proof (sp_nodup _ _ _ _ _ Hs) as Hn. apply NoDup_cons in Hn as [_ Hn]. apply NoDup_app in Hn as (Hn & _).
  unfold tables_of in Hn. destruct (decide (i = j)) as [|Hne]; [done|]. exfalso.
  rewrite <- (insert_delete_id T i b Hi) in Hn. rewrite map_to_list_insert in Hn by apply lookup_delete_eq.
  cbn in Hn. apply NoDup_cons in Hn as [Hn _]. apply Hn. apply list_elem_of_fmap. exists (j, b).
  split; [done|]. apply elem_of_map_to_list. by rewrite lookup_delete_ne.
Qed.

Lemma frames_apart m a T F n f fl : space r m a T F → F !! n = Some (f, fl) → f ∉ dirs a T.
Proof.
  intros Hs Hf Hin. pose proof (sp_nodup _ _ _ _ _ Hs) as Hn. unfold owned in Hn.
  rewrite app_comm_cons in Hn. apply NoDup_app in Hn as (_ & Hn & _). apply (Hn f Hin).
  apply list_elem_of_fmap. exists (f, fl). split; [done|]. apply list_elem_of_fmap. exists (n, (f, fl)).
  split; [done|]. by apply elem_of_map_to_list.
Qed.

Lemma frames_inj m a T F i j f fl gl :
  space r m a T F → F !! i = Some (f, fl) → F !! j = Some (f, gl) → i = j.
Proof.
  intros Hs Hi Hj. pose proof (sp_nodup _ _ _ _ _ Hs) as Hn. unfold owned in Hn.
  rewrite app_comm_cons in Hn. apply NoDup_app in Hn as (_ & _ & Hn). destruct (decide (i = j)) as [|Hne]; [done|].
  unfold frames_of in Hn. rewrite <- (insert_delete_id F i (f, fl) Hi) in Hn.
  rewrite map_to_list_insert in Hn by apply lookup_delete_eq. cbn in Hn. apply NoDup_cons in Hn as [Hn _].
  destruct Hn. apply list_elem_of_fmap. exists (f, gl). split; [done|]. apply list_elem_of_fmap. exists (j, (f, gl)).
  split; [done|]. apply elem_of_map_to_list. by rewrite lookup_delete_ne.
Qed.

Lemma table_not_dir m a T F i b : space r m a T F → T !! i = Some b → b ≠ a.
Proof.
  intros Hs Hi ->. pose proof (sp_nodup _ _ _ _ _ Hs) as Hn. apply NoDup_cons in Hn as [Hn _]. apply Hn.
  apply elem_of_app. left. apply list_elem_of_fmap. exists (i, a). split; [done|]. by apply elem_of_map_to_list.
Qed.

(** ** Lemmas: editing an address space *)

Lemma space_set_dir m m' a T F i b x :
  space r m a T F → T !! i = Some b → poked m m' (a + 4 * i) x →
  pde_get_paddr x = v2p r b → has x PAGE_BIT_PRESENT = true → has x PAGE_BIT_GLOBAL = false →
  space r m' a T F.
Proof.
  intros Hs Hi Hp E1 E2 E3. pose proof Hs as [H1 H2 H3 H4 H5 H6]. destruct (H1 i b Hi) as (Hir & _).
  assert (Hdir : ∀ j, 0 ≤ j < 1024 → j ≠ i → load32 m' (a + 4 * j) = load32 m (a + 4 * j)).
  { intros j Hj Hne. apply (poked_load _ _ _ _ _ Hp). lia. }
  assert (Htab : ∀ j c k, T !! j = Some c → 0 ≤ k < 1024 → load32 m' (c + 4 * k) = load32 m (c + 4 * k)).
  { intros j c k Hc Hk. apply (poked_load _ _ _ _ _ Hp).
    apply (owned_apart m a T F); eauto with space. left. by apply (table_not_dir m a T F j). }
  split; [| | | |done|done].
  - intros j c Hc. destruct (decide (j = i)) as [->|Hne].
    + rewrite (proj1 Hp). by simplify_eq.
    + destruct (H1 j c Hc) as (Hj & ?). by rewrite Hdir.
  - intros j Hj Hc. destruct (decide (j = i)) as [->|Hne]; [by simplify_eq|]. rewrite Hdir by done. by apply H2.
  - intros n f fl Hf. destruct (H3 n f fl Hf) as (Hu & c & Hc & E). split; [done|]. exists c. split; [done|].
    rewrite (Htab _ _ _ Hc); [done|]. apply Z.mod_pos_bound; lia.
  - intros n c Hf Hc. rewrite (Htab _ _ _ Hc); [by apply H4|]. apply Z.mod_pos_bound; lia.
Qed.

Lemma space_add_table m m' a T F i w x :
  space r m a T F → 0 ≤ i < 1024 → T !! i = None → poked m m' (a + 4 * i) x →
  pde_get_paddr x = v2p r w → has x PAGE_BIT_PRESENT = true → has x PAGE_BIT_GLOBAL = false →
  page_ok r w → w ∉ owned a T F → (∀ y, in_page w y → m y = 0) →
  space r m' a (<[i := w]> T) F.
Proof.
  intros Hs Hi Ht Hp E1 E2 E3 Hw Hwo Hz. pose proof Hs as [H1 H2 H3 H4 H5 H6].
  assert (Hdir : ∀ j, 0 ≤ j < 1024 → j ≠ i → load32 m' (a + 4 * j) = load32 m (a + 4 * j)).
  { intros j Hj Hne. apply (poked_load _ _ _ _ _ Hp). lia. }
  assert (Htab : ∀ j c k, T !! j = Some c → 0 ≤ k < 1024 → load32 m' (c + 4 * k) = load32 m (c + 4 * k)).
  { intros j c k Hc Hk. apply (poked_load _ _ _ _ _ Hp).
    apply (owned_apart m a T F); eauto with space. left. by apply (table_not_dir m a T F j). }
  assert (Hnew : ∀ k, 0 ≤ k < 1024 → load32 m' (w + 4 * k) = 0).
  { intros k Hk. rewrite (poked_load _ _ _ _ _ Hp).
    - unfold load32. rewrite !Hz by (apply (slot_in_page w k); lia). done.
    - apply slot_apart; [apply Hw|apply (space_page_ok _ _ _ _ _ Hs); auto with space|done|done|].
      left. intros ->. apply Hwo. auto with space. }
  split.
  - intros j c [[<- <-]|[Hne Hc]]%lookup_insert_Some; [by rewrite (proj1 Hp)|].
    destruct (H1 j c Hc) as (Hj & ?). by rewrite Hdir.
  - intros j Hj [Hc Hne]%lookup_insert_None. rewrite Hdir by done. by apply H2.
  - intros n f fl Hf. destruct (H3 n f fl Hf) as (Hu & c & Hc & E). split; [done|]. exists c.
    rewrite lookup_insert_ne by (intros ->; by rewrite Hc in Ht). split; [done|].
    rewrite (Htab _ _ _ Hc); [done|]. apply Z.mod_pos_bound; lia.
  - intros n c Hf [[Hn <-]|[Hne Hc]]%lookup_insert_Some.
    + apply Hnew. apply Z.mod_pos_bound; lia.
    + rewrite (Htab _ _ _ Hc); [by apply H4|]. apply Z.mod_pos_bound; lia.
  - rewrite owned_insert_table by done. by constructor.
  - rewrite owned_insert_table by done. by constructor.
Qed.

Lemma space_add_page m m' a T F n b f fl :
  space r m a T F → F !! n = None → T !! (n / 1024) = Some b → user_flags fl →
  poked m m' (b + 4 * (n mod 1024)) (pte_construct (v2p r f) fl) →
  page_ok r f → f ∉ owned a T F → space r m' a T (<[n := (f, fl)]> F).
Proof.
  intros Hs Hn Hb Hfl Hp Hf Hfo. pose proof Hs as [H1 H2 H3 H4 H5 H6].
  assert (Hmod : ∀ n, 0 ≤ n mod 1024 < 1024) by (intros k; apply Z.mod_pos_bound; lia).
  assert (Hdir : ∀ j, 0 ≤ j < 1024 → load32 m' (a + 4 * j) = load32 m (a + 4 * j)).
  { intros j Hj. apply (poked_load _ _ _ _ _ Hp). apply (owned_apart m a T F); eauto with space.
    left. intros E. by apply (table_not_dir _ _ _ _ _ _ Hs Hb). }
  assert (Htab : ∀ k c, T !! (k / 1024) = Some c → k ≠ n →
    load32 m' (c + 4 * (k mod 1024)) = load32 m (c + 4 * (k mod 1024))).
  { intros k c Hc Hne. apply (poked_load _ _ _ _ _ Hp). apply (owned_apart m a T F); eauto with space.
    destruct (decide (c = b)) as [->|]; [right|by left].
    pose proof (tables_inj _ _ _ _ _ _ _ Hs Hc Hb). pose proof (Z.div_mod k 1024 ltac:(lia)).
    pose proof (Z.div_mod n 1024 ltac:(lia)). lia. }
  split.
  - intros j c Hc. destruct (H1 j c Hc) as (Hj & ?). by rewrite Hdir.
  - intros j Hj Hc. rewrite Hdir by done. by apply H2.
  - intros k g gl [[<- [= <- <-]]|[Hne Hk]]%lookup_insert_Some.
    + split; [done|]. exists b. split; [done|]. apply Hp.
    + destruct (H3 k g gl Hk) as (Hu & c & Hc & E). split; [done|]. exists c. by rewrite Htab.
  - intros k c [Hk Hne]%lookup_insert_None Hc. rewrite Htab by done. by apply H4.
  - rewrite owned_insert_page by done. by constructor.
  - rewrite owned_insert_page by done. by constructor.
Qed.
End spaces.

(** ** Running paging code on an address space *)

Section runs.
Variable vm_map : list vm_region.
Variable kernel_pd : Z.
Variable r : vm_region.
Hypothesis Hmap : map_ok vm_map r.
Local Abbreviation kpd := (phys_kernel_pd kernel_pd).

(** Paging code may run, and the directory at [a] is the address space [T], [F]. *)
Record has_space (l : list Z) (s : kstate) (a : Z) (T : gmap Z Z) (F : upages) : Prop := {
  hs_ok : paging_ok kernel_pd r l s;
  hs_space : space r (kmem s) a T F;
  hs_apart : NoDup (owned a T F ++ l);
}.

Definition entry_value (F : upages) (n : Z) : Z :=
  match F !! n with Some (f, fl) => pte_construct (v2p r f) fl | None => 0 end.

Lemma space_reach m a T F p : space r m a T F → p ∈ owned a T F → reach vm_map (v2p r p) = Some p.
Proof. intros Hs Hp. apply (mo_reach _ _ Hmap). by apply (space_page_ok _ _ _ _ _ _ Hs). Qed.

(** The table of a user address, or none. *)
Lemma user_slot m a T F v :
  space r m a T F → user_address m a v → T !! (page_no v / 1024) = None →
  load32 m (a + 4 * (page_no v / 1024)) = 0.
Proof.
  intros Hs [Hv Hg] Ht. destruct (slot_of_page _ (page_no_range v Hv)) as [Hi _].
  destruct (sp_no_table _ _ _ _ _ Hs _ Hi Ht) as [H|H]; [by rewrite Hg in H|done].
Qed.

Lemma space_entry m a T F v :
  space r m a T F → user_address m a v → entry_of vm_map m (v2p r a) v = Some (entry_value F (page_no v)).
Proof.
  intros Hs Hu. pose proof Hu as [Hv Hg]. destruct (page_slots v Hv) as [E1 E2].
  unfold entry_of. rewrite (space_reach m a T F a Hs) by auto with space. cbn [mbind option_bind].
  rewrite E1, E2. unfold entry_value. destruct (T !! (page_no v / 1024)) as [b|] eqn:Et.
  - destruct (sp_table _ _ _ _ _ Hs _ _ Et) as (_ & Ef & _). rewrite Ef.
    destruct (v2p_page r b (mo_region _ _ Hmap)) as (_ & Hnz & _).
    { apply (space_page_ok _ _ _ _ _ _ Hs). eauto with space. }
    rewrite (proj2 (Z.eqb_neq _ _) Hnz). rewrite (space_reach m a T F b Hs) by eauto with space. cbn. f_equal.
    destruct (F !! page_no v) as [[f fl]|] eqn:Efr.
    + destruct (sp_page _ _ _ _ _ Hs _ _ _ Efr) as (_ & c & Hc & E). by simplify_eq.
    + by apply (sp_no_page _ _ _ _ _ Hs).
  - rewrite (user_slot _ _ _ _ _ Hs Hu Et). cbn. destruct (F !! page_no v) as [[f fl]|] eqn:Efr; [|done].
    destruct (sp_page _ _ _ _ _ Hs _ _ _ Efr) as (_ & c & Hc & _). by rewrite Hc in Et.
Qed.

Lemma get_entry_run l s a T F v :
  has_space l s a T F → user_address (kmem s) a v →
  paging_get_entry vm_map kernel_pd (v2p r a) v s = Done (entry_value F (page_no v), s).
Proof.
  intros [Hok Hs _] Hu. rewrite paging_get_entry_run by apply Hok. by rewrite (space_entry _ _ _ _ _ Hs Hu).
Qed.

Lemma entry_value_frame m a T F n :
  space r m a T F →
  pte_get_paddr (entry_value F n) = match F !! n with Some (f, _) => v2p r f | None => 0 end.
Proof.
  intros Hs. unfold entry_value. destruct (F !! n) as [[f fl]|] eqn:E; [|done].
  apply frame_of_entry; [apply Hmap|]. apply (space_page_ok _ _ _ _ _ _ Hs). eauto with space.
Qed.

(** What the directory looks like in the slots of the kernel stays. *)
Definition same_global (a : Z) (m m' : mem) : Prop :=
  ∀ i, 0 ≤ i < 1024 →
    has (load32 m' (a + 4 * i)) PAGE_BIT_GLOBAL = has (load32 m (a + 4 * i)) PAGE_BIT_GLOBAL.

Lemma same_global_user a m m' v : same_global a m m' → user_address m a v → user_address m' a v.
Proof.
  intros Hg [Hv H]. split; [done|]. destruct (slot_of_page _ (page_no_range v Hv)) as [Hi _]. by rewrite Hg.
Qed.

Lemma agree_load L a m m' i :
  Forall (page_ok r) L → page_ok r a → a ∉ L → agree_off L m m' → 0 ≤ i < 1024 →
  load32 m' (a + 4 * i) = load32 m (a + 4 * i).
Proof.
  intros HL Ha Hn Hm Hi. apply load32_ext. intros x Hx.
  apply (agree_page r L m m' a); try done. by apply (slot_in_page a i).
Qed.

Lemma agree_global L a m m' :
  Forall (page_ok r) L → page_ok r a → a ∉ L → agree_off L m m' → same_global a m m'.
Proof. intros HL Ha Hn Hm i Hi. f_equal. by apply (agree_load L). Qed.

Lemma poked_global a i m m' x :
  0 ≤ i < 1024 → poked m m' (a + 4 * i) x → has x PAGE_BIT_GLOBAL = has (load32 m (a + 4 * i)) PAGE_BIT_GLOBAL →
  same_global a m m'.
Proof.
  intros Hi Hp Hx j Hj. destruct (decide (j = i)) as [->|Hne]; [by rewrite (proj1 Hp)|].
  f_equal. apply (poked_load _ _ _ _ _ Hp). lia.
Qed.

(** Taking a page from the allocator. *)
Lemma take_page_run w l s a T F :
  has_space (w :: l) s a T F →
  ∃ t, on_palloc (palloc kpd) s = Done (v2p r w, set_pal t s) ∧ has_space l (set_pal t s) a T F ∧
    page_ok r w ∧ (w ∉ owned a T F ++ l) ∧ agree_off (w :: l) (kmem s) (pmem t) ∧
    (∀ x, in_page w x → pmem t x = 0).
Proof.
  intros [[Hc Hi] Hs Ha]. pose proof (mo_region _ _ Hmap) as Hreg.
  destruct (palloc_run kpd r w l _ _ Hreg Hc Hi) as (t & E & Hi' & Hag & Hz).
  pose proof (pi_pages _ _ _ Hi) as Hp. rewrite <- Permutation_middle in Ha.
  apply NoDup_cons in Ha as [Hw Ha]. exists t. split; [by apply on_palloc_run|].
  assert (Hd : ∀ p, p ∈ owned a T F → p ∉ w :: l).
  { apply NoDup_app in Ha as (_ & Ha & _). intros p Hp' [->|Hl]%elem_of_cons; [|by apply (Ha p)].
    apply Hw, elem_of_app. by left. }
  split; [split; [by split|by apply (space_agree _ _ _ _ _ _ _ Hp Hd Hag Hs)|done]|].
  apply Forall_cons in Hp as [Hwok _]. done.
Qed.

(** The part of [paging_map] that makes the directory entry at [p]. *)
Definition map_table (p flags : Z) : M kstate unit :=
  ensure_table kernel_pd p ;;;
  e <- rd32 p ;;
  wr32 p (Z.lor e (Z.lor flags PAGE_BIT_PRESENT)).

(** What it does at slot [i] of the directory at [a]. *)
Definition table_made (l : list Z) (s : kstate) (a : Z) (T : gmap Z Z) (F : upages) (i flags : Z) : Prop :=
  ∃ t l' T' b, map_table (a + 4 * i) flags s = Done (tt, set_pal t s) ∧
    has_space l' (set_pal t s) a T' F ∧ T' !! i = Some b ∧
    (T' = T ∧ l' = l ∨ T !! i = None ∧ T' = <[i := b]> T ∧ l = b :: l') ∧
    same_global a (kmem s) (pmem t) ∧ agree_off (dirs a T ++ l) (kmem s) (pmem t).

Lemma agree_dir l a T m m' i x :
  0 ≤ i < 1024 → poked m m' (a + 4 * i) x → agree_off (dirs a T ++ l) m m'.
Proof.
  intros Hi Hp. apply (agree_off_mono [a]); [|by apply (poked_agree _ _ a i x)].
  intros p ->%list_elem_of_singleton. apply elem_of_app. auto with space.
Qed.

Lemma old_table_run l s a T F i b flags :
  has_space l s a T F → T !! i = Some b → 0 ≤ flags < 4096 → has flags PAGE_BIT_GLOBAL = false →
  table_made l s a T F i flags.
Proof.
  intros [[Hc Hinv] Hs Hap] Ht Hfl Hng. pose proof (flags_present flags Hfl) as Hfp.
  assert (Haok : page_ok r a) by (apply (space_page_ok _ _ _ _ _ _ Hs); auto with space).
  destruct (sp_table _ _ _ _ _ Hs i b Ht) as (Hi & Ef & Ep & Hg).
  destruct (v2p_page r b (mo_region _ _ Hmap)) as (_ & Hnz & _).
  { apply (space_page_ok _ _ _ _ _ _ Hs). eauto with space. }
  set (x := Z.lor (load32 (kmem s) (a + 4 * i)) (Z.lor flags PAGE_BIT_PRESENT)).
  assert (Hx : is_u32 x) by (apply lor_u32; [apply load32_range, Hinv|unfold is_u32; lia]).
  pose proof (poked_store (kmem s) (a + 4 * i) x Hx) as Hpk.
  assert (Hgx : has x PAGE_BIT_GLOBAL = false) by (unfold x; by rewrite !has_lor, Hg, Hng).
  exists (set_pmem (store32 (kmem s) (a + 4 * i) x) (k_pal s)), l, T, b. split.
  { unfold map_table, ensure_table, bind, rd32, gets, wr32, modify.
    rewrite Ef, (proj2 (Z.eqb_neq _ _) Hnz). done. }
  split; [split|].
  - split; [done|]. apply palloc_inv_store; try done; [apply Haok|].
    apply NoDup_app in Hap as (_ & Hap & _). apply Hap. auto with space.
  - apply (space_set_dir r (kmem s) _ a T F i b x); try done; unfold x; [by rewrite frame_lor|by rewrite has_lor, Ep].
  - done.
  - split; [done|]. split; [by left|]. split; [|by apply (agree_dir _ _ _ _ _ i x)].
    apply (poked_global a i _ _ x); try done. by rewrite Hgx, Hg.
Qed.

(** The entry of a fresh table. *)
Lemma fresh_entry w flags :
  page_ok r w → 0 ≤ flags < 4096 → has flags PAGE_BIT_GLOBAL = false →
  let x := Z.lor (v2p r w) (Z.lor flags PAGE_BIT_PRESENT) in
  is_u32 x ∧ pde_get_paddr x = v2p r w ∧ has x PAGE_BIT_PRESENT = true ∧ has x PAGE_BIT_GLOBAL = false.
Proof.
  intros Hw Hfl Hng x. pose proof (flags_present flags Hfl) as Hfp.
  destruct (v2p_page r w (mo_region _ _ Hmap) Hw) as (Hwu & _ & Hwal & _).
  split; [apply lor_u32; [done|unfold is_u32; lia]|]. unfold x. split.
  { rewrite frame_lor by done. by apply frame_aligned. }
  rewrite !has_lor, Hng, <- (frame_aligned (v2p r w)) by done. unfold pde_get_paddr.
  rewrite !has_frame by done. by destruct (has flags PAGE_BIT_PRESENT).
Qed.

Lemma new_table_run w l s a T F i flags :
  has_space (w :: l) s a T F → 0 ≤ i < 1024 → T !! i = None → load32 (kmem s) (a + 4 * i) = 0 →
  0 ≤ flags < 4096 → has flags PAGE_BIT_GLOBAL = false → table_made (w :: l) s a T F i flags.
Proof.
  intros H Hi Ht E0 Hfl Hng. pose proof H as [[Hc Hinv] Hs Hap].
  assert (Haok : page_ok r a) by (apply (space_page_ok _ _ _ _ _ _ Hs); auto with space).
  destruct (take_page_run w l s a T F H) as (t1 & E1 & H1 & Hw & Hwn & Hag & Hz).
  destruct (v2p_page r w (mo_region _ _ Hmap) Hw) as (Hwu & Hwnz & Hwal & Hback).
  destruct (fresh_entry w flags Hw Hfl Hng) as (Hx & Hfx & Hpx & Hgx).
  pose proof (hs_ok _ _ _ _ _ H1) as [_ Hi1]. change (k_pal (set_pal t1 s)) with t1 in Hi1.
  assert (E2 : on_palloc (ptranslate (v2p r w)) (set_pal t1 s) = Done (w, set_pal t1 s)).
  { rewrite (on_palloc_run _ _ w t1); [done|].
    rewrite <- Hback at 2. apply (ptranslate_run r l); try done; [apply Hmap|]. by rewrite Hback. }
  set (x := Z.lor (v2p r w) _) in *. set (m1 := kmemset (pmem t1) w 0 PAGE_SIZE).
  set (m2 := store32 m1 (a + 4 * i) (v2p r w)). set (m3 := store32 m2 (a + 4 * i) x).
  assert (Hpk : poked m1 m3 (a + 4 * i) x).
  { eapply poked_trans; [apply (poked_store m1 _ (v2p r w) Hwu)|by apply poked_store]. }
  assert (Hwo : w ∉ owned a T F) by (intros Hin; apply Hwn, elem_of_app; by left).
  assert (Hal : a ∉ w :: l) by (apply NoDup_app in Hap as (_ & Hap & _); apply Hap; auto with space).
  assert (Hm1 : agree_off (w :: l) (kmem s) m1).
  { eapply agree_off_trans; [exact Hag|]. intros y Hy. apply kmemset_out.
    specialize (Hy w ltac:(by left)). unfold in_page, PAGE_SIZE in *. lia. }
  assert (Hs1 : space r m1 a T F).
  { apply (space_agree r (w :: l) (kmem s)); try done; [apply Hinv|].
    apply NoDup_app in Hap as (_ & Hap & _). exact Hap. }
  assert (Hdir : ∀ j, 0 ≤ j < 1024 → load32 m1 (a + 4 * j) = load32 (kmem s) (a + 4 * j)).
  { intros j Hj. apply (agree_load (w :: l)); try done. apply Hinv. }
  exists (set_pmem m3 t1), l, (<[i := w]> T), w. split.
  { unfold map_table, ensure_table. unfold bind at 1 2. unfold rd32 at 1, gets at 1. rewrite E0.
    change (pde_get_paddr 0 =? PHYS_NULL) with true. cbn [when].
    rewrite (bind_run _ _ _ _ _ (kassert_true _ _ _ eq_refl)).
    rewrite (bind_run _ _ _ _ _ E1), (bind_run _ _ _ _ _ E2).
    unfold upd_mem, wr32, rd32, gets, bind, modify.
    change (kmem (set_pal t1 s)) with (pmem t1). change (PT_LENGTH * 4) with PAGE_SIZE. fold m1.
    replace (pde_construct (v2p r w) 0) with (v2p r w)
      by (unfold pde_construct; rewrite Z.lor_0_r; symmetry; by apply frame_aligned).
    change (kmem (set_kmem m1 (set_pal t1 s))) with m1. fold m2.
    change (kmem (set_kmem m2 _)) with m2. unfold m2 at 1 2. rewrite load32_store32_eq by done. done. }
  assert (Hlo : ∀ p, p ∉ w :: l → p ∉ l) by (intros p Hp ?; apply Hp; by right).
  split; [split|].
  - split; [done|]. cbn [k_pal set_pal set_pmem].
    apply (palloc_inv_store r l (set_pmem m2 t1)); [apply Haok|by apply Hlo|done|].
    apply (palloc_inv_store r l (set_pmem m1 t1)); [apply Haok|by apply Hlo|done|].
    apply kmemset_page; try done. intros ?. apply Hwn, elem_of_app. by right.
  - apply (space_add_table r m1 _ a T F i w x); try done. intros y Hy. unfold m1. by rewrite kmemset_in.
  - rewrite owned_insert_table by done. cbn [app]. by rewrite Permutation_middle.
  - split; [by rewrite lookup_insert_eq|]. split; [by right|]. split.
    + intros j Hj. rewrite <- (Hdir j Hj). apply (poked_global a i m1 m3 x Hi Hpk); [|done].
      by rewrite Hgx, Hdir, E0.
    + eapply agree_off_trans; [|by apply (agree_dir _ _ _ _ _ i x Hi Hpk)].
      apply (agree_off_mono (w :: l)); [|done]. intros p Hp. apply elem_of_app. by right.
Qed.

(** The slot of a user address. *)
Lemma map_table_run l s a T F v flags :
  has_space l s a T F → user_address (kmem s) a v → 0 ≤ flags < 4096 → has flags PAGE_BIT_GLOBAL = false →
  (T !! (page_no v / 1024) = None → l ≠ []) → table_made l s a T F (page_no v / 1024) flags.
Proof.
  intros H Hu Hfl Hng Hl. destruct (T !! (page_no v / 1024)) as [b|] eqn:Ht; [by apply (old_table_run _ _ _ _ _ _ b)|].
  destruct l as [|w l]; [by destruct (Hl eq_refl)|]. apply new_table_run; try done.
  - apply slot_of_page, page_no_range, Hu.
  - apply (user_slot _ _ T F); [apply H|done|done].
Qed.

Lemma map_table_bind {A} p flags (k : M kstate A) s s' :
  map_table p flags s = Done (tt, s') →
  (ensure_table kernel_pd p ;;; e <- rd32 p ;; wr32 p (Z.lor e (Z.lor flags PAGE_BIT_PRESENT)) ;;; k) s = k s'.
Proof.
  unfold map_table, bind, rd32, gets, wr32, modify. destruct (ensure_table kernel_pd p s) as [[[] s1]| |]; [|done|done].
  by intros [= <-].
Qed.

(** Mapping a fresh page. *)
Lemma map_page_run l s a T F v f flags :
  has_space l s a T F → user_address (kmem s) a v → F !! page_no v = None →
  0 ≤ flags < 4096 → has flags PAGE_BIT_GLOBAL = false → page_ok r f → f ∉ owned a T F ++ l →
  (T !! (page_no v / 1024) = None → l ≠ []) →
  ∃ t l' T', paging_map vm_map kernel_pd (v2p r a) v (v2p r f) flags s = Done (tt, set_pal t s) ∧
    has_space l' (set_pal t s) a T' (<[page_no v := (f, Z.lor flags PAGE_BIT_PRESENT)]> F) ∧
    (l' = l ∨ ∃ w, l = w :: l') ∧ owned a T' F ++ l' ≡ₚ owned a T F ++ l ∧ dirs a T' ++ l' ≡ₚ dirs a T ++ l ∧
    same_global a (kmem s) (pmem t) ∧ agree_off (dirs a T ++ l) (kmem s) (pmem t).
Proof.
  intros H Hu Hf Hfl Hng Hfok Hfn Hl. pose proof Hu as [Hv Hg]. destruct (page_slots v Hv) as [E1 E2].
  destruct (map_table_run l s a T F v flags H Hu Hfl Hng Hl) as (t1 & l1 & T1 & b & Et & H1 & Hb & Hcase & Hgl & Hag).
  pose proof H as [[[Hun Hk] _] Hs Hap]. pose proof H1 as [[_ Hi1] Hs1 Hap1]. cbn [ls_mach k_mach] in Hk.
  set (n := page_no v) in *. destruct (slot_of_page n (page_no_range v Hv)) as [Hsi Hsj].
  assert (Hperm : owned a T1 F ++ l1 ≡ₚ owned a T F ++ l).
  { destruct Hcase as [(-> & ->)|(Hn & -> & ->)]; [done|]. rewrite owned_insert_table by done. cbn [app].
    by rewrite Permutation_middle. }
  assert (Hdirs : dirs a T1 ++ l1 ≡ₚ dirs a T ++ l).
  { destruct Hcase as [(-> & ->)|(Hn & -> & ->)]; [done|]. rewrite dirs_insert by done. cbn [app].
    by rewrite Permutation_middle. }
  assert (Hf1 : f ∉ owned a T1 F ++ l1) by by rewrite Hperm.
  destruct (sp_table _ _ _ _ _ Hs1 _ _ Hb) as (_ & Efr & _).
  set (x := pte_construct (v2p r f) (Z.lor flags PAGE_BIT_PRESENT)).
  assert (Hx : is_u32 x) by (apply construct_range; apply (v2p_page r f (mo_region _ _ Hmap) Hfok)).
  pose proof (poked_store (pmem t1) (b + 4 * (n mod 1024)) x Hx) as Hpk.
  assert (Hbok : page_ok r b) by (apply (space_page_ok _ _ _ _ _ _ Hs1); eauto with space).
  assert (Hbl : b ∉ l1).
  { apply NoDup_app in Hap1 as (_ & Hd & _). apply Hd. eauto with space. }
  exists (set_pmem (store32 (pmem t1) (b + 4 * (n mod 1024)) x) t1), l1, T1. split.
  { unfold paging_map. rewrite Hng. cbn [andb].
    rewrite (bind_run _ _ _ _ _ (check_palloc_lock_run _ Hun)).
    rewrite (bind_run _ _ _ _ _ (assert_kernel_tables_run _ _ Hk)).
    rewrite (bind_run _ _ _ _ _ (translate_some _ _ _ _ _ Hk (space_reach _ _ _ _ _ Hs (owned_dir a T F)))).
    fold (dir_slot v) (table_slot v). rewrite E1, E2.
    rewrite (bind_run _ _ _ _ _ (rd32_run _ _)), Hg. cbn [andb].
    rewrite (map_table_bind _ _ _ _ _ Et). rewrite (bind_run _ _ _ _ _ (rd32_run _ _)).
    change (kmem (set_pal t1 s)) with (pmem t1) in *. rewrite Efr.
    rewrite (bind_run _ _ _ _ _ (translate_some _ _ (set_pal t1 s) _ _ Hk (space_reach _ _ _ _ _ Hs1 (owned_table a T1 F _ _ Hb)))).
    done. }
  split; [split|].
  - split; [apply H|]. apply palloc_inv_store; try done. apply Hbok.
  - apply (space_add_page r (pmem t1) _ a T1 F n b f); try done.
    + by apply user_flags_present.
    + intros Hin. apply Hf1, elem_of_app. by left.
  - rewrite owned_insert_page by done. constructor; done.
  - split; [destruct Hcase as [[_ ->]|(_ & _ & ->)]; eauto|]. do 2 (split; [done|]). split.
    + intros i Hi. rewrite <- (Hgl i Hi). f_equal. apply (poked_load _ _ _ _ _ Hpk).
      apply slot_apart; [apply (space_page_ok _ _ _ _ _ _ Hs); auto with space|apply Hbok|done|done|].
      left. intros ->. by apply (table_not_dir _ _ _ _ _ _ _ Hs1 Hb).
    + eapply agree_off_trans; [exact Hag|]. eapply agree_off_mono; [|by apply (poked_agree _ _ b (n mod 1024) x)].
      intros p ->%list_elem_of_singleton. rewrite <- Hdirs. apply elem_of_app. left. eauto with space.
Qed.

(** [paging_map(pd, v, palloc(), flags)]: the page is there and holds zeros. *)
Lemma new_page_run w l s a T F v flags :
  has_space (w :: l) s a T F → user_address (kmem s) a v → F !! page_no v = None →
  0 ≤ flags < 4096 → has flags PAGE_BIT_GLOBAL = false → (T !! (page_no v / 1024) = None → l ≠ []) →
  ∃ t l' T', (p <- on_palloc (palloc kpd) ;; paging_map vm_map kernel_pd (v2p r a) v p flags) s = Done (tt, set_pal t s) ∧
    has_space l' (set_pal t s) a T' (<[page_no v := (w, Z.lor flags PAGE_BIT_PRESENT)]> F) ∧
    (l' = l ∨ ∃ u, l = u :: l') ∧
    owned a T' (<[page_no v := (w, Z.lor flags PAGE_BIT_PRESENT)]> F) ++ l' ≡ₚ owned a T F ++ w :: l ∧ dirs a T' ++ l' ⊆ dirs a T ++ w :: l ∧
    same_global a (kmem s) (pmem t) ∧ agree_off (dirs a T ++ w :: l) (kmem s) (pmem t) ∧
    (∀ x, in_page w x → pmem t x = 0).
Proof.
  intros H Hu Hf Hfl Hng Hl. destruct (take_page_run w l s a T F H) as (t1 & E1 & H1 & Hw & Hwn & Hag1 & Hz).
  pose proof H as [[_ Hinv] Hs Hap].
  assert (Hg1 : same_global a (kmem s) (pmem t1)).
  { apply (agree_global (w :: l)); try done; [apply Hinv|apply (space_page_ok _ _ _ _ _ _ Hs); auto with space|].
    apply NoDup_app in Hap as (_ & Hap & _). apply Hap. auto with space. }
  destruct (map_page_run l (set_pal t1 s) a T F v w flags) as (t2 & l' & T' & E2 & H2 & Hl' & Hperm & Hdp & Hg2 & Hag2); try done.
  { by apply (same_global_user _ (kmem s)). }
  exists t2, l', T'. split; [by rewrite (bind_run _ _ _ _ _ E1)|]. split; [exact H2|]. split; [done|].
  split; [by rewrite owned_insert_page, <- Permutation_middle; [cbn [app]; rewrite Hperm|]|].
  split; [intros p; rewrite Hdp, !elem_of_app, elem_of_cons; tauto|]. split; [|split].
  - intros i Hi. by rewrite (Hg2 i Hi), <- (Hg1 i Hi).
  - apply (agree_off_trans _ _ (pmem t1)).
    + apply (agree_off_mono (w :: l)); [|done]. intros p Hp. apply elem_of_app. by right.
    + apply (agree_off_mono (dirs a T ++ l)); [|done]. intros p. rewrite !elem_of_app, elem_of_cons. tauto.
  - intros x Hx. rewrite <- (Hz x Hx). apply (agree_page r (dirs a T ++ l) (pmem t1) _ w); try done.
    2:{ intros [Hin|Hin]%elem_of_app; apply Hwn, elem_of_app; [left; by apply dirs_owned|by right]. }
    apply Forall_app. split; [apply Forall_forall; intros p Hp; apply (space_page_ok _ _ _ _ _ _ Hs); by apply dirs_owned|].
    pose proof (pi_pages _ _ _ Hinv) as Hp. by apply Forall_cons in Hp as [_ Hp].
Qed.

(** ** Copying to and from an address space *)

(** All of [num] bytes from [v] are mapped. *)
Definition mapped (m : mem) (a : Z) (F : upages) (v num : Z) : Prop :=
  ∀ w, v ≤ w < v + num → user_address m a w ∧ is_Some (F !! page_no w).

(** The buffer is not in a page of the space. *)
Definition buffer_apart (a : Z) (T : gmap Z Z) (F : upages) (buf num : Z) : Prop :=
  ∀ p x, p ∈ owned a T F → in_page p x → ¬ (buf ≤ x < buf + num).

Lemma space_upage m a T F v f fl :
  space r m a T F → user_address m a v → F !! page_no v = Some (f, fl) → upage vm_map (v2p r a) m v = Some f.
Proof.
  intros Hs Hu Hf. unfold upage. rewrite (space_entry _ _ _ _ _ Hs Hu). cbn.
  rewrite (entry_value_frame _ _ _ _ _ Hs), Hf. apply (space_reach m a T F); eauto with space.
Qed.

Lemma offset_mod v : is_u32 v → v - mask_to_page v = v mod PAGE_SIZE.
Proof. intros H. rewrite mask_to_page_eq by done. unfold PAGE_SIZE. dlia. Qed.

(** The turn of the copying loop that handles the page of [v]. *)
Lemma write_page m m1 a T F v f fl buf n :
  space r m a T F → F !! page_no v = Some (f, fl) → 0 ≤ n → v mod PAGE_SIZE + n ≤ PAGE_SIZE →
  (∀ k, 0 ≤ k < n → m1 (f + v mod PAGE_SIZE + k) = m (buf + k)) →
  (∀ x, x < f + v mod PAGE_SIZE ∨ f + v mod PAGE_SIZE + n ≤ x → m1 x = m x) →
  space r m1 a T F ∧
  ∀ w, ubytes F m1 w = if (v <=? w) && (w <? v + n) then Some (m (buf + (w - v))) else ubytes F m w.
Proof.
  intros Hs Hf Hn Hfit Hin Hout. pose proof (Z.mod_pos_bound v PAGE_SIZE ltac:(done)) as Hv.
  assert (Hag : agree_off [f] m m1).
  { intros x Hx. apply Hout. specialize (Hx f ltac:(by left)). unfold in_page in Hx. lia. }
  assert (Hfo : page_ok r f) by (apply (space_page_ok _ _ _ _ _ _ Hs); eauto with space).
  split.
  - apply (space_dirs r m); [|done]. intros p x Hp Hx. apply (agree_page r [f] m m1 p); try done; [by constructor| |].
    + apply (space_page_ok _ _ _ _ _ _ Hs). by apply dirs_owned.
    + intros ->%list_elem_of_singleton. by apply (frames_apart _ _ _ _ _ _ _ _ Hs Hf).
  - intros w. unfold ubytes. destruct (decide (page_no w = page_no v)) as [E|E].
    + rewrite E, Hf. cbn. unfold page_no in E. pose proof (Z.div_mod v PAGE_SIZE ltac:(done)).
      pose proof (Z.div_mod w PAGE_SIZE ltac:(done)). rewrite E in *.
      destruct (Z.leb_spec v w), (Z.ltb_spec w (v + n)); cbn; f_equal; try (apply Hout; lia).
      rewrite <- Hin by lia. f_equal. lia.
    + assert (Ho : (v <=? w) && (w <? v + n) = false).
      { destruct (Z.leb_spec v w), (Z.ltb_spec w (v + n)); cbn; try done. destruct E. unfold page_no, PAGE_SIZE in *. dlia. }
      rewrite Ho. destruct (F !! page_no w) as [[g gl]|] eqn:Eg; [|done]. cbn. f_equal.
      apply (agree_page r [f] m m1 g); try done; [by constructor| | |apply in_frame].
      * apply (space_page_ok _ _ _ _ _ _ Hs). eauto with space.
      * intros ->%list_elem_of_singleton. apply E. by apply (frames_inj _ _ _ _ _ _ _ _ _ _ Hs Eg Hf).
Qed.

Lemma frames_elem F n f fl : F !! n = Some (f, fl) → f ∈ frames_of F.
Proof.
  intros H. apply list_elem_of_fmap. exists (f, fl). split; [done|]. apply list_elem_of_fmap. exists (n, (f, fl)).
  split; [done|]. by apply elem_of_map_to_list.
Qed.

(** Writing into frames leaves the directory. *)
Lemma frames_global m m' a T F : space r m a T F → agree_off (frames_of F) m m' → same_global a m m'.
Proof.
  intros Hs Hag. pose proof (sp_nodup _ _ _ _ _ Hs) as Hnd. apply NoDup_cons in Hnd as [Hnd _].
  apply (agree_global (frames_of F)); try done.
  - apply Forall_forall. intros p Hp. apply (space_page_ok _ _ _ _ _ _ Hs). right. apply elem_of_app. by right.
  - apply (space_page_ok _ _ _ _ _ _ Hs). auto with space.
  - intros Hin. apply Hnd, elem_of_app. by right.
Qed.

Lemma buffer_off a T F buf num f o n :
  buffer_apart a T F buf num → f ∈ owned a T F → 0 ≤ o → o + n ≤ PAGE_SIZE → n ≤ num →
  f + o + n ≤ buf ∨ buf + n ≤ f + o ∨ n ≤ 0.
Proof.
  intros Hba Hf Ho Hn Hle. destruct (Z.le_gt_cases (f + o + n) buf); [by left|].
  destruct (Z.le_gt_cases (buf + n) (f + o)); [by right; left|]. destruct (Z.le_gt_cases n 0); [by right; right|].
  exfalso. apply (Hba f (Z.max buf (f + o)) Hf); unfold in_page; lia.
Qed.

(** The first turn: everything on the page of [v]. *)
Lemma batch_facts v num :
  is_u32 v → 0 < num → v + num ≤ 2 ^ 32 →
  let batch := Z.min (PAGE_SIZE - v mod PAGE_SIZE) num in
  0 < batch ≤ num ∧ v mod PAGE_SIZE + batch ≤ PAGE_SIZE ∧
  (batch < num → is_u32 (v + batch) ∧ u32 (mask_to_page v + PAGE_SIZE) = v + batch).
Proof.
  intros Hv Hn Hle. cbv zeta. pose proof (Z.mod_pos_bound v PAGE_SIZE ltac:(done)). pose proof (offset_mod v Hv).
  split; [lia|]. split; [lia|]. intros Hlt. unfold is_u32 in *. split; [lia|]. rewrite next_page by (done || lia). lia.
Qed.

Lemma mapped_rest m m' a F v num k :
  same_global a m m' → 0 ≤ k → mapped m a F v num → mapped m' a F (v + k) (num - k).
Proof. intros Hg Hk H w Hw. destruct (H w ltac:(lia)) as [Hu Hf]. split; [by apply (same_global_user _ m)|done]. Qed.

Lemma space_write_loop fuel : ∀ s a T F v buf num b0,
  cr3 (k_mach s) = kpd → byte_mem (kmem s) → space r (kmem s) a T F → is_u32 v → 0 ≤ num ≤ Z.of_nat fuel →
  v + num ≤ 2 ^ 32 → mapped (kmem s) a F v num → buffer_apart a T F (buf + b0) num →
  ∃ m', vmxchg_loop vm_map kernel_pd fuel (v2p r a) v buf num b0 true s = Done (tt, set_kmem m' s) ∧
    byte_mem m' ∧ space r m' a T F ∧ agree_off (frames_of F) (kmem s) m' ∧
    ∀ w, ubytes F m' w = if (v <=? w) && (w <? v + num) then Some (kmem s (buf + b0 + (w - v))) else ubytes F (kmem s) w.
Proof.
  induction fuel as [|fuel IH]; intros s a T F v buf num b0 Hk Hb Hs Hv Hn Hle Hm Hba.
  all: destruct (Z.eq_dec num 0) as [->|Hnz]; [|try lia].
  1,2: exists (kmem s); (split; [by destruct s as [? ? ? ? []]|]); do 2 (split; [done|]); (split; [apply agree_off_refl|]);
    intros w; destruct (Z.leb_spec v w), (Z.ltb_spec w (v + 0)); cbn; done || lia.
  destruct (Hm v ltac:(lia)) as [Hu [[f fl] Hf]].
  rewrite (vmxchg_step vm_map kernel_pd (v2p r a) fuel s v buf num b0 true f) by (done || lia || by apply (space_upage _ _ T F _ _ fl)).
  rewrite offset_mod by done. destruct (batch_facts v num Hv ltac:(lia) Hle) as (Hbt & Hfit & Hnext).
  set (batch := Z.min _ num) in *. cbn [copied]. set (m1 := fst (kmemcpy _ _ _ batch)).
  assert (Hfo : f ∈ owned a T F) by eauto with space.
  pose proof (Z.mod_pos_bound v PAGE_SIZE ltac:(done)) as Hmod.
  assert (Hin : ∀ k, 0 ≤ k < batch → m1 (f + v mod PAGE_SIZE + k) = kmem s (buf + b0 + k)).
  { intros k Hkk. apply kmemcpy_in; try done.
    pose proof (buffer_off _ _ _ _ _ f (v mod PAGE_SIZE) batch Hba Hfo (proj1 Hmod) Hfit ltac:(lia)). lia. }
  assert (Hout : ∀ x, x < f + v mod PAGE_SIZE ∨ f + v mod PAGE_SIZE + batch ≤ x → m1 x = kmem s x).
  { intros x Hx. apply kmemcpy_out. lia. }
  assert (Hm1 : byte_mem m1) by (by apply kmemcpy_byte_mem).
  destruct (write_page (kmem s) m1 a T F v f fl (buf + b0) batch Hs Hf ltac:(lia) Hfit Hin Hout) as [Hs1 Hub].
  assert (Hag : agree_off (frames_of F) (kmem s) m1).
  { intros x Hx. apply Hout. specialize (Hx f (frames_elem _ _ _ _ Hf)). unfold in_page in Hx. lia. }
  destruct (Z.lt_ge_cases batch num) as [Hlt|Hge].
  2:{ assert (E : batch = num) by lia. rewrite E, Z.sub_diag in *. exists m1. split; [by destruct fuel|].
      by do 3 (split; [done|]). }
  destruct (Hnext Hlt) as [Hu2 ->].
  destruct (IH (set_kmem m1 s) a T F (v + batch) buf (num - batch) (b0 + batch)) as (m2 & E2 & Hb2 & Hs2 & Hag2 & Hub2);
    try done; try (unfold is_u32 in *; lia).
  { apply (mapped_rest (kmem s)); [by apply (frames_global _ _ _ T F)|lia|done]. }
  { intros p x Hp Hx. specialize (Hba p x Hp Hx). lia. }
  exists m2. split; [done|]. split; [done|]. split; [done|]. split; [by apply (agree_off_trans _ _ m1)|].
  intros w. rewrite Hub2. change (kmem (set_kmem m1 s)) with m1. rewrite Hub.
  destruct (Z.leb_spec (v + batch) w), (Z.ltb_spec w (v + batch + (num - batch))), (Z.leb_spec v w),
    (Z.ltb_spec w (v + batch)), (Z.ltb_spec w (v + num)); cbn; try lia; try done.
  f_equal. replace (buf + (b0 + batch) + (w - (v + batch))) with (buf + b0 + (w - v)) by lia.
  apply Hout. destruct (Z.lt_ge_cases (buf + b0 + (w - v)) (f + v mod PAGE_SIZE)); [by left|].
  destruct (Z.le_gt_cases (f + v mod PAGE_SIZE + batch) (buf + b0 + (w - v))); [by right|]. exfalso.
  apply (Hba f (buf + b0 + (w - v)) Hfo); unfold in_page; lia.
Qed.

Lemma space_read_loop fuel : ∀ s a T F v buf num b0,
  cr3 (k_mach s) = kpd → byte_mem (kmem s) → space r (kmem s) a T F → is_u32 v → 0 ≤ num ≤ Z.of_nat fuel →
  v + num ≤ 2 ^ 32 → mapped (kmem s) a F v num → buffer_apart a T F (buf + b0) num →
  ∃ m', vmxchg_loop vm_map kernel_pd fuel (v2p r a) v buf num b0 false s = Done (tt, set_kmem m' s) ∧
    byte_mem m' ∧ (∀ i, 0 ≤ i < num → ubytes F (kmem s) (v + i) = Some (m' (buf + b0 + i))) ∧
    (∀ x, ¬ (buf + b0 ≤ x < buf + b0 + num) → m' x = kmem s x).
Proof.
  induction fuel as [|fuel IH]; intros s a T F v buf num b0 Hk Hb Hs Hv Hn Hle Hm Hba.
  all: destruct (Z.eq_dec num 0) as [->|Hnz]; [|try lia].
  1,2: exists (kmem s); (split; [by destruct s as [? ? ? ? []]|]); (split; [done|]); split; [lia|done].
  destruct (Hm v ltac:(lia)) as [Hu [[f fl] Hf]].
  rewrite (vmxchg_step vm_map kernel_pd (v2p r a) fuel s v buf num b0 false f) by (done || lia || by apply (space_upage _ _ T F _ _ fl)).
  rewrite offset_mod by done. destruct (batch_facts v num Hv ltac:(lia) Hle) as (Hbt & Hfit & Hnext).
  set (batch := Z.min _ num) in *. cbn [copied]. set (m1 := fst (kmemcpy _ _ _ batch)).
  assert (Hfo : f ∈ owned a T F) by eauto with space.
  pose proof (Z.mod_pos_bound v PAGE_SIZE ltac:(done)) as Hmod.
  assert (Hin : ∀ k, 0 ≤ k < batch → ubytes F (kmem s) (v + k) = Some (m1 (buf + b0 + k))).
  { intros k Hkk. unfold m1. rewrite kmemcpy_in; [|done| |done].
    - unfold ubytes. replace (page_no (v + k)) with (page_no v) by (unfold page_no, PAGE_SIZE in *; dlia).
      rewrite Hf. cbn. do 2 f_equal. unfold PAGE_SIZE in *. dlia.
    - pose proof (buffer_off _ _ _ _ _ f (v mod PAGE_SIZE) batch Hba Hfo (proj1 Hmod) Hfit ltac:(lia)). lia. }
  assert (Hout : ∀ x, ¬ (buf + b0 ≤ x < buf + b0 + batch) → m1 x = kmem s x).
  { intros x Hx. apply kmemcpy_out. lia. }
  assert (Hm1 : byte_mem m1) by (by apply kmemcpy_byte_mem).
  assert (Hkeep : ∀ p x, p ∈ owned a T F → in_page p x → m1 x = kmem s x).
  { intros p x Hp Hx. apply Hout. specialize (Hba p x Hp Hx). lia. }
  destruct (space_frame r (kmem s) m1 a T F Hkeep Hs) as [Hs1 Hub].
  destruct (Z.lt_ge_cases batch num) as [Hlt|Hge].
  2:{ assert (E : batch = num) by lia. rewrite E, Z.sub_diag in *. exists m1. by split; [by destruct fuel|]. }
  destruct (Hnext Hlt) as [Hu2 ->].
  destruct (IH (set_kmem m1 s) a T F (v + batch) buf (num - batch) (b0 + batch)) as (m2 & E2 & Hb2 & Hub2 & Hout2);
    try done; try (unfold is_u32 in *; lia).
  { apply (mapped_rest (kmem s)); [|lia|done]. intros i Hi. f_equal. apply load32_ext. intros x Hx.
    apply (Hkeep a); [auto with space|by apply (slot_in_page a i)]. }
  { intros p x Hp Hx. specialize (Hba p x Hp Hx). lia. }
  change (kmem (set_kmem m1 s)) with m1 in *. exists m2. split; [done|]. split; [done|]. split.
  - intros i Hi. destruct (Z.lt_ge_cases i batch) as [Hlb|Hgb].
    + rewrite Hin by lia. f_equal. symmetry. apply Hout2. lia.
    + specialize (Hub2 (i - batch) ltac:(lia)). rewrite Hub in Hub2.
      replace (v + batch + (i - batch)) with (v + i) in Hub2 by lia. rewrite Hub2. do 2 f_equal. lia.
  - intros x Hx. rewrite Hout2 by lia. apply Hout. lia.
Qed.
End runs.
