(* ===== verification/AddressDup.v ===== *)
(** * Creating, duplicating and freeing address spaces

    [paging_alloc_dir], [vmdup] and [paging_free_dir] of paging/core.c on the address
    spaces of [AddressSpace]: a new directory is empty but for the kernel's entries; a
    duplicate maps the same pages with the same flags and contents, in frames of its
    own; freeing returns every page of the space to the allocator, once. *)

From stdpp Require Import base list gmap sets strings.
From Stdlib Require Import ZArith Lia.
From S2P Require Import Prelude Memory KUtils MemLayout Cpu Palloc Paging KernelHeap HeapPages AddressSpace.

Section runs.
Variable vm_map : list vm_region.
Variable kernel_pd : Z.
Variable r : vm_region.
Hypothesis Hmap : map_ok vm_map r.
Local Abbreviation kpd := (phys_kernel_pd kernel_pd).

(** ** Duplicating an address space *)

(** Two spaces and the free list, pairwise disjoint. *)
Record two_spaces (l : list Z) (t : palloc_state) (a1 : Z) (T1 : gmap Z Z) (F1 : upages)
    (a2 : Z) (T2 : gmap Z Z) (F2 : upages) : Prop := {
  ts_inv : palloc_inv r l t;
  ts_src : space r (pmem t) a1 T1 F1;
  ts_dst : space r (pmem t) a2 T2 F2;
  ts_apart : NoDup (owned a1 T1 F1 ++ owned a2 T2 F2 ++ l);
}.

(** Both spaces survive changes in the pages [L], which belong to neither. *)
Lemma two_agree L l t a1 T1 F1 a2 T2 F2 m' :
  two_spaces l t a1 T1 F1 a2 T2 F2 → Forall (page_ok r) L →
  (∀ p, p ∈ L → p ∉ owned a1 T1 F1 ++ owned a2 T2 F2) → agree_off L (pmem t) m' →
  space r m' a1 T1 F1 ∧ (∀ v, ubytes F1 m' v = ubytes F1 (pmem t) v) ∧
  space r m' a2 T2 F2 ∧ (∀ v, ubytes F2 m' v = ubytes F2 (pmem t) v).
Proof.
  intros [_ H1 H2 _] HL Hd Hag.
  destruct (space_agree r L (pmem t) m' a1 T1 F1) as [A B]; try done.
  { intros p Hp Hl. apply (Hd p Hl), elem_of_app. by left. }
  destruct (space_agree r L (pmem t) m' a2 T2 F2) as [C D]; try done.
  intros p Hp Hl. apply (Hd p Hl), elem_of_app. by right.
Qed.

(** The pages below [N] have been copied. *)
Record copied_below (N : Z) (F1 F2 : upages) (m : mem) : Prop := {
  cb_flags : ∀ n, n < N → snd <$> F2 !! n = snd <$> F1 !! n;
  cb_rest : ∀ n, N ≤ n → F2 !! n = None;
  cb_bytes : ∀ v, page_no v < N → ubytes F2 m v = ubytes F1 m v;
}.

Section duplicate.
Variable s0 : kstate.
Variables (a1 : Z) (T1 : gmap Z Z) (F1 : upages) (a2 : Z) (l0 : list Z).
Hypothesis Hcall : callable kpd (mk_ls (k_mach s0) (palloc_spinlock s0)).
Hypothesis Hroom : (size T1 + size F1 ≤ length l0)%nat.
Hypothesis Hkeys : ∀ n, is_Some (F1 !! n) → 0 ≤ n < 2 ^ 20.

(** After the pages below [N], with [T2] and [F2] built so far. *)
Record dup_inv (N : Z) (T2 : gmap Z Z) (F2 : upages) (l : list Z) (t : palloc_state) : Prop := {
  di_two : two_spaces l t a1 T1 F1 a2 T2 F2;
  di_copied : copied_below N F1 F2 (pmem t);
  di_bytes : ∀ v, ubytes F1 (pmem t) v = ubytes F1 (kmem s0) v;
  di_global : same_global a2 (kmem s0) (pmem t);
  di_count : (length l + size T2 + size F2 = length l0)%nat;
  di_tables : dom T2 ⊆ dom T1;
  di_agree : agree_off (a2 :: l0) (kmem s0) (pmem t);
  di_within : owned a2 T2 F2 ++ l ⊆ a2 :: l0;
}.

Lemma di_sizes N T2 F2 l t :
  dup_inv N T2 F2 l t → (size T2 ≤ size T1)%nat ∧ (size F2 ≤ size F1)%nat.
Proof.
  intros H. rewrite <- !size_dom. split; [by apply subseteq_size, H|]. apply subseteq_size.
  intros n [p Hp]%elem_of_dom. apply elem_of_dom. destruct (di_copied _ _ _ _ _ H) as [Hf Hr _].
  destruct (Z.lt_ge_cases n N) as [Hn|Hn]; [|by rewrite Hr in Hp].
  specialize (Hf n Hn). rewrite Hp in Hf. by destruct (F1 !! n).
Qed.

(** There is a page for the next table or the next page. *)
Lemma di_room N T2 F2 l t :
  dup_inv N T2 F2 l t → (∃ i, is_Some (T1 !! i) ∧ T2 !! i = None) ∨ (∃ n, is_Some (F1 !! n) ∧ F2 !! n = None) →
  l ≠ [].
Proof.
  intros H Hex ->. destruct (di_sizes _ _ _ _ _ H) as [S1 S2]. pose proof (di_count _ _ _ _ _ H) as Hc. cbn in Hc.
  destruct Hex as [(i & Hi & Hn)|(n & Hi & Hn)].
  - assert (size T2 < size T1)%nat; [|lia]. rewrite <- !size_dom. apply subset_size. split; [apply H|].
    intros Hsub. apply elem_of_dom in Hi. apply Hsub, elem_of_dom in Hi as [? Hi]. by rewrite Hn in Hi.
  - assert (size F2 < size F1)%nat; [|lia]. rewrite <- !size_dom. apply subset_size. split.
    + intros k [p Hp]%elem_of_dom. apply elem_of_dom. destruct (di_copied _ _ _ _ _ H) as [Hf Hr _].
      destruct (Z.lt_ge_cases k N) as [Hk|Hk]; [|by rewrite Hr in Hp].
      specialize (Hf k Hk). rewrite Hp in Hf. by destruct (F1 !! k).
    + intros Hsub. apply elem_of_dom in Hi. apply Hsub, elem_of_dom in Hi as [? Hi]. by rewrite Hn in Hi.
Qed.

Lemma copied_ext N F2 m m' :
  (∀ v, ubytes F1 m' v = ubytes F1 m v) → (∀ v, ubytes F2 m' v = ubytes F2 m v) →
  copied_below N F1 F2 m → copied_below N F1 F2 m'.
Proof. intros H1 H2 [A B C]. split; [done|done|]. intros v Hv. rewrite H1, H2. by apply C. Qed.

(** Taking a page. *)
Lemma dup_take N T2 F2 w l t :
  dup_inv N T2 F2 (w :: l) t →
  ∃ t', on_palloc (palloc kpd) (set_pal t s0) = Done (v2p r w, set_pal t' s0) ∧
    two_spaces l t' a1 T1 F1 a2 T2 F2 ∧ page_ok r w ∧ (w ∉ owned a1 T1 F1 ++ owned a2 T2 F2 ++ l) ∧
    (∀ x, in_page w x → pmem t' x = 0) ∧ copied_below N F1 F2 (pmem t') ∧
    (∀ v, ubytes F1 (pmem t') v = ubytes F1 (kmem s0) v) ∧ same_global a2 (kmem s0) (pmem t') ∧
    agree_off (a2 :: l0) (kmem s0) (pmem t').
Proof.
  intros H. pose proof H as [Hts Hcb Hby Hgl Hct _ Hag Hwi]. pose proof Hts as [Hi H1 H2 Hap].
  destruct (palloc_run kpd r w l _ _ (mo_region _ _ Hmap) Hcall Hi) as (t' & E & Hi' & Hag' & Hz).
  pose proof (pi_pages _ _ _ Hi) as Hp. exists t'. split; [by apply (on_palloc_run _ (set_pal t s0))|].
  assert (Hd : ∀ p, p ∈ w :: l → p ∉ owned a1 T1 F1 ++ owned a2 T2 F2).
  { rewrite app_assoc in Hap. apply NoDup_app in Hap as (_ & Hap & _). intros p Hpl Hin. by apply (Hap p). }
  destruct (two_agree (w :: l) _ _ _ _ _ _ _ _ (pmem t') Hts Hp Hd Hag') as (A & B & C & D).
  assert (Hw : w ∉ owned a1 T1 F1 ++ owned a2 T2 F2 ++ l).
  { rewrite app_assoc in *. apply NoDup_app in Hap as (_ & Hd' & Hl). apply NoDup_cons in Hl as [Hl _].
    intros [Hin|Hin]%elem_of_app; [|done]. apply (Hd' w Hin). by left. }
  split; [split; try done|].
  { rewrite !app_assoc, <- Permutation_middle in Hap. apply NoDup_cons in Hap as [_ Hap]. by rewrite app_assoc. }
  split; [by apply Forall_cons in Hp as [? _]|]. split; [done|]. split; [done|].
  split; [by apply (copied_ext _ _ (pmem t))|]. split; [intros v; by rewrite B|]. split.
  - intros i Hii. rewrite <- (Hgl i Hii). revert i Hii. apply (agree_global r (w :: l)); try done.
    + apply (space_page_ok _ _ _ _ _ _ H2). auto with space.
    + intros Hin. apply (Hd a2 Hin), elem_of_app. right. auto with space.
  - apply (agree_off_trans _ _ (pmem t)); [done|]. apply (agree_off_mono (w :: l)); [|done].
    intros p Hpl. apply Hwi, elem_of_app. by right.
Qed.

(** Writing to a page of the second space leaves the first. *)
Lemma dst_write l t T2 F2 q m' :
  two_spaces l t a1 T1 F1 a2 T2 F2 → q ∈ owned a2 T2 F2 → agree_off [q] (pmem t) m' →
  space r m' a1 T1 F1 ∧ (∀ v, ubytes F1 m' v = ubytes F1 (pmem t) v).
Proof.
  intros [_ H1 H2 Hap] Hq Hag. apply (space_agree r [q] (pmem t)); try done.
  - constructor; [by apply (space_page_ok _ _ _ _ _ _ H2)|done].
  - intros p Hp ->%list_elem_of_singleton. apply NoDup_app in Hap as (_ & Hap & _). apply (Hap q Hp).
    apply elem_of_app. by left.
Qed.

(** The next table: an empty one at slot [i]. *)
Lemma dup_table N T2 F2 l t i b1 :
  dup_inv N T2 F2 l t → T1 !! i = Some b1 → T2 !! i = None →
  has (load32 (kmem s0) (a2 + 4 * i)) PAGE_BIT_GLOBAL = false →
  ∃ w l' t', l = w :: l' ∧
    (p <- on_palloc (palloc kpd) ;;
     e <- rd32 (a1 + 4 * i) ;;
     wr32 (a2 + 4 * i) (Z.lor p (pde_get_flags e))) (set_pal t s0) = Done (tt, set_pal t' s0) ∧
    dup_inv N (<[i := w]> T2) F2 l' t'.
Proof.
  intros H Hb1 Ht2 Hng. destruct l as [|w l]; [by destruct (di_room _ _ _ _ _ H); eauto|].
  destruct (dup_take _ _ _ _ _ _ H) as (t1 & E & Hts & Hw & Hwn & Hz & Hcb & Hby & Hgl & Hag).
  pose proof Hts as [Hi H1 H2 Hap]. destruct (sp_table _ _ _ _ _ H1 i b1 Hb1) as (Hir & _ & Hpr & Hgb).
  destruct (v2p_page r w (mo_region _ _ Hmap) Hw) as (Hwu & Hwnz & Hwal & Hback).
  set (e := load32 (pmem t1) (a1 + 4 * i)) in *. set (x := Z.lor (v2p r w) (pde_get_flags e)).
  assert (Hfl : 0 ≤ pde_get_flags e < 4096).
  { unfold pde_get_flags. rewrite land_low. apply Z.mod_pos_bound. lia. }
  assert (Hxe : x = pte_construct (v2p r w) (pde_get_flags e)) by (by apply lor_construct).
  assert (Hx : is_u32 x) by (rewrite Hxe; by apply construct_range).
  pose proof (poked_store (pmem t1) (a2 + 4 * i) x Hx) as Hpk. set (m' := store32 _ _ x) in *.
  exists w, l, (set_pmem m' t1). split; [done|]. split.
  { rewrite (bind_run _ _ _ _ _ E). done. }
  assert (Hw2 : w ∉ owned a2 T2 F2) by (intros Hin; apply Hwn; rewrite !elem_of_app; auto).
  assert (Hwl : w ∉ l) by (intros Hin; apply Hwn; rewrite !elem_of_app; auto).
  assert (Hagp : agree_off [a2] (pmem t1) m') by (by apply (poked_agree _ _ a2 i x)).
  destruct (dst_write _ _ _ _ a2 m' Hts ltac:(auto with space) Hagp) as [A B].
  assert (Ha2l : a2 ∉ l).
  { apply NoDup_app in Hap as (_ & _ & Hap). apply NoDup_app in Hap as (_ & Hap & _). apply Hap. auto with space. }
  assert (Hgx : has x PAGE_BIT_GLOBAL = false).
  { rewrite Hxe, construct_has by done. unfold pde_get_flags. by rewrite has_low. }
  assert (C : space r m' a2 (<[i := w]> T2) F2).
  { apply (space_add_table r (pmem t1) _ a2 T2 F2 i w x); try done.
    - rewrite Hxe. change (pde_get_paddr ?y) with (pte_get_paddr y). apply frame_of_entry; [apply Hmap|done].
    - rewrite Hxe, construct_has by done. unfold pde_get_flags. by rewrite has_low. }
  assert (D : ∀ v, ubytes F2 m' v = ubytes F2 (pmem t1) v).
  { intros v. apply (ubytes_dirs r l _ _ a2 T2 F2); try done.
    - by apply NoDup_app in Hap as (_ & _ & Hap).
    - apply Hi.
    - apply (agree_off_mono [a2]); [|done]. intros p ->%list_elem_of_singleton. apply elem_of_app. auto with space. }
  split.
  - split; try done.
    + apply palloc_inv_store; try done. apply (space_page_ok _ _ _ _ _ _ H2). auto with space.
    + rewrite owned_insert_table by done. cbn [app]. rewrite <- Permutation_middle. by constructor.
  - by apply (copied_ext _ _ (pmem t1)).
  - intros v. by rewrite B.
  - intros j Hj. rewrite <- (Hgl j Hj). apply (poked_global a2 i _ _ x Hir Hpk); [|done].
    by rewrite Hgx, (Hgl i Hir), Hng.
  - rewrite map_size_insert_None by done. pose proof (di_count _ _ _ _ _ H) as Hc. cbn in Hc. lia.
  - rewrite dom_insert_L. pose proof (di_tables _ _ _ _ _ H) as H0. apply (elem_of_dom_2 T1) in Hb1. intros k [->%elem_of_singleton|Hk]%elem_of_union; [done|by apply H0].
  - apply (agree_off_trans _ _ (pmem t1)); [done|]. apply (agree_off_mono [a2]); [|done].
    intros p ->%list_elem_of_singleton. by left.
  - rewrite owned_insert_table by done. intros p Hp. apply (di_within _ _ _ _ _ H). revert Hp.
    rewrite !elem_of_app, !elem_of_cons. tauto.
Qed.

(** The part of [duplicate_pt] that copies one page. *)
Definition dup_entry (dest_pte src_pte : Z) : M kstate unit :=
  e <- rd32 src_pte ;;
  when (has e PAGE_BIT_PRESENT && negb (has e PAGE_BIT_GLOBAL))
    (p <- on_palloc (palloc kpd) ;;
     e <- rd32 src_pte ;;
     wr32 dest_pte (Z.lor p (pte_get_flags e)) ;;;
     d <- rd32 dest_pte ;;
     dest <- translate_or_panic vm_map kernel_pd (pte_get_paddr d) ;;
     e <- rd32 src_pte ;;
     src <- translate_or_panic vm_map kernel_pd (pte_get_paddr e) ;;
     upd_mem (fun m => fst (kmemcpy m dest src palloc_get_granularity))).

Lemma dup_hole n T2 F2 l t b1 b2 :
  dup_inv n T2 F2 l t → F1 !! n = None → T1 !! (n / 1024) = Some b1 →
  dup_entry (b2 + 4 * (n mod 1024)) (b1 + 4 * (n mod 1024)) (set_pal t s0) = Done (tt, set_pal t s0) ∧
  dup_inv (n + 1) T2 F2 l t.
Proof.
  intros H Hn Hb1. split.
  - unfold dup_entry. rewrite (bind_run _ _ _ _ _ (rd32_run _ _)). change (kmem (set_pal t s0)) with (pmem t).
    by rewrite (sp_no_page _ _ _ _ _ (ts_src _ _ _ _ _ _ _ _ (di_two _ _ _ _ _ H)) n b1 Hn Hb1).
  - destruct H as [Hts [Hf Hr Hb] ? ? ? ? ? ?]. split; try done. split.
    + intros k Hk. destruct (decide (k = n)) as [->|]; [by rewrite Hn, Hr by lia|apply Hf; lia].
    + intros k Hk. apply Hr. lia.
    + intros v Hv. destruct (decide (page_no v = n)) as [E|]; [|apply Hb; lia].
      unfold ubytes. by rewrite E, Hn, Hr by lia.
Qed.

(** Copying the page [n] from [f] to the fresh frame [g]. *)
Lemma copied_next n F2 m m' f g fl :
  copied_below n F1 F2 m → F1 !! n = Some (f, fl) →
  (∀ v, ubytes F1 m' v = ubytes F1 m v) → (∀ v, ubytes F2 m' v = ubytes F2 m v) →
  (∀ o, 0 ≤ o < PAGE_SIZE → m' (g + o) = m' (f + o)) →
  copied_below (n + 1) F1 (<[n := (g, fl)]> F2) m'.
Proof.
  intros [Hf Hr Hb] Hn H1 H2 Hc. split.
  - intros k Hk. destruct (decide (k = n)) as [->|Hne]; [by rewrite lookup_insert_eq, Hn|].
    rewrite lookup_insert_ne by done. apply Hf. lia.
  - intros k Hk. rewrite lookup_insert_ne by lia. apply Hr. lia.
  - intros v Hv. destruct (decide (page_no v = n)) as [E|Hne].
    + unfold ubytes. rewrite E, lookup_insert_eq, Hn. cbn. f_equal. apply Hc. apply Z.mod_pos_bound. done.
    + transitivity (ubytes F2 m' v); [unfold ubytes; by rewrite lookup_insert_ne|].
      rewrite H1, H2. apply Hb. lia.
Qed.

(** The memory after the entry [x] of page [n] has been written and its frame [g] filled. *)
Lemma dup_page_inv n T2 F2 g l t1 m1 m2 f fl b2 :
  two_spaces l t1 a1 T1 F1 a2 T2 F2 → page_ok r g → g ∉ owned a1 T1 F1 ++ owned a2 T2 F2 ++ l →
  copied_below n F1 F2 (pmem t1) → (∀ v, ubytes F1 (pmem t1) v = ubytes F1 (kmem s0) v) →
  same_global a2 (kmem s0) (pmem t1) → agree_off (a2 :: l0) (kmem s0) (pmem t1) →
  (length l + size T2 + S (size F2) = length l0)%nat → dom T2 ⊆ dom T1 → owned a2 T2 F2 ++ g :: l ⊆ a2 :: l0 →
  F1 !! n = Some (f, fl) → T2 !! (n / 1024) = Some b2 → user_flags fl →
  poked (pmem t1) m1 (b2 + 4 * (n mod 1024)) (pte_construct (v2p r g) fl) →
  agree_off [g] m1 m2 → byte_mem m2 → (∀ o, 0 ≤ o < PAGE_SIZE → m2 (g + o) = m1 (f + o)) →
  dup_inv (n + 1) T2 (<[n := (g, fl)]> F2) l (set_pmem m2 t1).
Proof.
  intros Hts Hg Hgn Hcb Hby Hgl Hag Hct Htab Hwi Hn Hb2 Hfl Hpk Hagg Hm2 Hcopy. pose proof Hts as [Hi H1 H2 Hap].
  pose proof (cb_rest _ _ _ _ Hcb n ltac:(lia)) as Hn2.
  assert (Hnm : 0 ≤ n mod 1024 < 1024) by (apply Z.mod_pos_bound; lia).
  assert (Hb2o : b2 ∈ owned a2 T2 F2) by eauto with space.
  assert (Hfo : f ∈ owned a1 T1 F1) by eauto with space.
  assert (Hagd : agree_off [b2] (pmem t1) m1) by (by apply (poked_agree _ _ b2 (n mod 1024) (pte_construct (v2p r g) fl))).
  destruct (dst_write _ _ _ _ b2 m1 Hts Hb2o Hagd) as [A1 B1].
  rewrite !elem_of_app in Hgn. assert (Hg1 : g ∉ owned a1 T1 F1) by tauto. assert (Hg2 : g ∉ owned a2 T2 F2) by tauto.
  assert (Hgl' : g ∉ l) by tauto.
  assert (C1 : space r m1 a2 T2 (<[n := (g, fl)]> F2)) by (by apply (space_add_page r (pmem t1) _ a2 T2 F2 n b2 g fl)).
  destruct (space_agree r [g] m1 m2 a1 T1 F1) as [A2 B2]; try done; [by constructor| |].
  { intros p Hp ->%list_elem_of_singleton. done. }
  assert (Hap2 : NoDup (owned a2 T2 F2 ++ l)) by by apply NoDup_app in Hap as (_ & _ & Hap).
  assert (D1 : ∀ v, ubytes F2 m1 v = ubytes F2 (pmem t1) v).
  { intros v. apply (ubytes_dirs r l _ _ a2 T2 F2); try done; [apply Hi|].
    apply (agree_off_mono [b2]); [|done]. intros p ->%list_elem_of_singleton. apply elem_of_app. left. eauto with space. }
  assert (Hgp : ∀ p y, page_ok r p → p ≠ g → in_page p y → m2 y = m1 y).
  { intros p y Hp Hne. apply (agree_page r [g] m1 m2 p); try done; [by constructor|]. by intros ->%list_elem_of_singleton. }
  assert (D2 : ∀ v, ubytes F2 m2 v = ubytes F2 m1 v).
  { intros v. unfold ubytes. destruct (F2 !! page_no v) as [[h hl]|] eqn:Eh; [|done]. cbn. f_equal.
    apply (Hgp h); [|intros ->; apply Hg2; eauto with space|apply in_frame].
    apply (space_page_ok _ _ _ _ _ _ H2). eauto with space. }
  assert (C2 : space r m2 a2 T2 (<[n := (g, fl)]> F2)).
  { apply (space_dirs r m1); [|done]. intros p y Hp. apply Hgp.
    - apply (space_page_ok _ _ _ _ _ _ H2). by apply dirs_owned.
    - intros ->. apply Hg2. by apply dirs_owned. }
  assert (Hdis : ∀ p, p ∈ l → page_ok r p ∧ p ≠ g ∧ p ≠ b2).
  { intros p Hp. pose proof (pi_pages _ _ _ Hi) as Hpg. rewrite Forall_forall in Hpg. split; [by apply Hpg|].
    split; [by intros ->|]. intros ->. apply NoDup_app in Hap2 as (_ & Hd & _). by apply (Hd b2). }
  split.
  - split; [|done|done|].
    + apply palloc_inv_mem; [done| |done]. intros p y Hp Hy. destruct (Hdis p Hp) as (Hpo & Hpg & Hpb).
      rewrite (Hgp p y Hpo Hpg Hy). apply (agree_page r [b2] _ _ p); try done.
      * constructor; [|done]. by apply (space_page_ok _ _ _ _ _ _ H2).
      * by intros ->%list_elem_of_singleton.
    + rewrite owned_insert_page by done. cbn [app]. rewrite <- Permutation_middle. constructor; [|done].
      rewrite !elem_of_app. tauto.
  - apply (copied_next n F2 (pmem t1) _ f); try done; cbn [pmem set_pmem].
    + intros v. by rewrite B2, B1.
    + intros v. by rewrite D2, D1.
    + intros o Ho. rewrite Hcopy by done. symmetry. apply (Hgp f); [by apply (space_page_ok _ _ _ _ _ _ H1)|by intros ->|].
      unfold in_page. lia.
  - intros v. cbn [pmem set_pmem]. by rewrite B2, B1.
  - intros i Hii. cbn [pmem set_pmem]. rewrite <- (Hgl i Hii). f_equal. apply load32_ext. intros y Hy.
    assert (Ha2 : page_ok r a2) by (apply (space_page_ok _ _ _ _ _ _ H2); auto with space).
    assert (Hya : in_page a2 y) by (by apply (slot_in_page a2 i)).
    rewrite (Hgp a2 y Ha2) by (done || intros ->; apply Hg2; auto with space).
    apply (agree_page r [b2] _ _ a2); try done; [constructor; [by apply (space_page_ok _ _ _ _ _ _ H2)|done]|].
    intros E%list_elem_of_singleton. by apply (table_not_dir _ _ _ _ _ _ _ H2 Hb2).
  - rewrite map_size_insert_None by done. lia.
  - done.
  - cbn [pmem set_pmem]. apply (agree_off_trans _ _ (pmem t1)); [done|]. apply (agree_off_trans _ _ m1).
    + apply (agree_off_mono [b2]); [|done]. intros p ->%list_elem_of_singleton. apply Hwi, elem_of_app. by left.
    + apply (agree_off_mono [g]); [|done]. intros p ->%list_elem_of_singleton. apply Hwi, elem_of_app. right. by left.
  - rewrite owned_insert_page by done. intros p Hp. apply Hwi. revert Hp. rewrite !elem_of_app, !elem_of_cons. tauto.
Qed.

Lemma dup_page n T2 F2 l t f fl b1 b2 :
  dup_inv n T2 F2 l t → F1 !! n = Some (f, fl) → T1 !! (n / 1024) = Some b1 → T2 !! (n / 1024) = Some b2 →
  ∃ l' t' F2', dup_entry (b2 + 4 * (n mod 1024)) (b1 + 4 * (n mod 1024)) (set_pal t s0) = Done (tt, set_pal t' s0) ∧
    dup_inv (n + 1) T2 F2' l' t'.
Proof.
  intros H Hn Hb1 Hb2. pose proof (cb_rest _ _ _ _ (di_copied _ _ _ _ _ H) n ltac:(lia)) as Hn2.
  destruct l as [|g l]; [by destruct (di_room _ _ _ _ _ H); eauto|].
  destruct (dup_take _ _ _ _ _ _ H) as (t1 & E & Hts & Hg & Hgn & Hz & Hcb & Hby & Hgl & Hag).
  pose proof Hts as [Hi H1 H2 Hap].
  destruct (sp_page _ _ _ _ _ H1 n f fl Hn) as ((Hfl & Hpr & Hng) & b & Hb & He). simplify_eq.
  pose proof (sp_page _ _ _ _ _ (ts_src _ _ _ _ _ _ _ _ (di_two _ _ _ _ _ H)) n f fl Hn) as (_ & b & Hb & He0). simplify_eq.
  destruct (v2p_page r g (mo_region _ _ Hmap) Hg) as (Hgu & _ & Hgal & _).
  set (x := pte_construct (v2p r g) fl). assert (Hx : is_u32 x) by (by apply construct_range).
  set (d := b2 + 4 * (n mod 1024)). set (c := b1 + 4 * (n mod 1024)) in *.
  pose proof (poked_store (pmem t1) d x Hx) as Hpk. set (m1 := store32 (pmem t1) d x) in *.
  assert (Hagd : agree_off [b2] (pmem t1) m1).
  { apply (poked_agree _ _ b2 (n mod 1024) x); [apply Z.mod_pos_bound; lia|done]. }
  destruct (dst_write _ _ _ _ b2 m1 Hts (owned_table _ _ _ _ _ Hb2) Hagd) as [A1 _].
  assert (Hfok : page_ok r f) by (apply (space_page_ok _ _ _ _ _ _ H1); eauto with space).
  assert (Hgf : g ≠ f) by (intros ->; apply Hgn, elem_of_app; left; eauto with space).
  assert (Hfar : g + PAGE_SIZE ≤ f ∨ f + PAGE_SIZE ≤ g) by (by apply (page_ok_disjoint r)).
  assert (Hm1b : byte_mem m1) by apply byte_mem_store32, Hi.
  exists l, (set_pmem (fst (kmemcpy m1 g f PAGE_SIZE)) t1), (<[n := (g, fl)]> F2). split.
  { unfold dup_entry. rewrite (bind_run _ _ _ _ _ (rd32_run _ _)). change (kmem (set_pal t s0)) with (pmem t).
    rewrite He0, !construct_has, Hpr, Hng by done. cbn [negb andb when].
    rewrite (bind_run _ _ _ _ _ E), (bind_run _ _ _ _ _ (rd32_run _ _)). change (kmem (set_pal t1 s0)) with (pmem t1).
    rewrite He, construct_flags by done. rewrite (lor_construct (v2p r g) fl) by done.
    unfold bind at 1, wr32, modify. change (kmem (set_pal t1 s0)) with (pmem t1). fold x m1.
    set (s1 := set_kmem m1 (set_pal t1 s0)).
    assert (Hk1 : cr3 (k_mach s1) = kpd) by apply Hcall.
    rewrite (bind_run _ _ _ _ _ (rd32_run _ s1)). change (kmem s1) with m1.
    rewrite (proj1 Hpk). unfold x. rewrite (frame_of_entry r (mo_region _ _ Hmap) g fl Hg).
    rewrite (bind_run _ _ _ _ _ (translate_some _ _ _ _ _ Hk1 (mo_reach _ _ Hmap g Hg))).
    rewrite (bind_run _ _ _ _ _ (rd32_run _ s1)). change (kmem s1) with m1.
    destruct (sp_page _ _ _ _ _ A1 n f fl Hn) as (_ & b & Hb' & He1). simplify_eq. fold c in He1.
    rewrite He1, (frame_of_entry r (mo_region _ _ Hmap) f fl Hfok).
    rewrite (bind_run _ _ _ _ _ (translate_some _ _ _ _ _ Hk1 (mo_reach _ _ Hmap f Hfok))).
    unfold upd_mem, modify, palloc_get_granularity. reflexivity. }
  pose proof (di_count _ _ _ _ _ H) as Hct. cbn [length] in Hct.
  apply (dup_page_inv n T2 F2 g l t1 m1 _ f fl b2); auto; [lia|apply H|apply H|by split| | |].
  - intros y Hy. apply kmemcpy_out. specialize (Hy g ltac:(by left)). unfold in_page, PAGE_SIZE in *. lia.
  - by apply kmemcpy_byte_mem.
  - intros o Ho. by apply kmemcpy_in.
Qed.

Lemma duplicate_pt_run i T2 F2 l t b1 b2 :
  dup_inv (1024 * i) T2 F2 l t → T1 !! i = Some b1 → T2 !! i = Some b2 →
  ∃ l' t' F2', duplicate_pt vm_map kernel_pd (v2p r b2) (v2p r b1) (set_pal t s0) = Done (tt, set_pal t' s0) ∧
    dup_inv (1024 * (i + 1)) T2 F2' l' t'.
Proof.
  intros H Hb1 Hb2. pose proof (di_two _ _ _ _ _ H) as [_ H1 H2 _].
  assert (Hk : cr3 (k_mach (set_pal t s0)) = kpd) by apply Hcall.
  unfold duplicate_pt.
  rewrite (bind_run _ _ _ _ _ (translate_some _ _ _ _ _ Hk (space_reach _ _ Hmap _ _ _ _ _ H2 (owned_table a2 T2 F2 _ _ Hb2)))).
  rewrite (bind_run _ _ _ _ _ (translate_some _ _ _ _ _ Hk (space_reach _ _ Hmap _ _ _ _ _ H1 (owned_table a1 T1 F1 _ _ Hb1)))).
  destruct (for_up_inv (fun j s => ∃ l t F2, s = set_pal t s0 ∧ dup_inv (1024 * i + j) T2 F2 l t)
    (fun j => dup_entry (b2 + 4 * j) (b1 + 4 * j)) (Z.to_nat PD_LENGTH) 0 (set_pal t s0))
    as (s' & E & l' & t' & F2' & -> & H').
  - exists l, t, F2. by rewrite Z.add_0_r.
  - intros j s1 Hj (l1 & t1 & F21 & -> & HI). change (Z.of_nat (Z.to_nat PD_LENGTH)) with 1024 in Hj.
    set (n := 1024 * i + j) in *. assert (Hd : n / 1024 = i) by (unfold n; dlia).
    assert (Hm : n mod 1024 = j) by (unfold n; dlia). replace (1024 * i + (j + 1)) with (n + 1) by lia.
    rewrite <- Hm. rewrite <- Hd in Hb1, Hb2. destruct (F1 !! n) as [[f fl]|] eqn:Ef.
    + destruct (dup_page n T2 F21 l1 t1 f fl b1 b2 HI Ef Hb1 Hb2) as (l2 & t2 & F22 & E2 & H2').
      exists (set_pal t2 s0). split; [done|]. by exists l2, t2, F22.
    + destruct (dup_hole n T2 F21 l1 t1 b1 b2 HI Ef Hb1) as [E2 H2'].
      exists (set_pal t1 s0). split; [done|]. by exists l1, t1, F21.
  - exists l', t', F2'. split; [exact E|]. change (0 + Z.of_nat (Z.to_nat PD_LENGTH)) with 1024 in H'.
    by replace (1024 * (i + 1)) with (1024 * i + 1024) by lia.
Qed.

Lemma dup_skip i T2 F2 l t :
  dup_inv (1024 * i) T2 F2 l t → T1 !! i = None → dup_inv (1024 * (i + 1)) T2 F2 l t.
Proof.
  intros [Hts [Hf Hr Hb] ? ? ? ? ? ?] Hi.
  assert (Hno : ∀ n, 1024 * i ≤ n < 1024 * (i + 1) → F1 !! n = None).
  { intros n Hn. destruct (F1 !! n) as [[f fl]|] eqn:E; [|done].
    destruct (sp_page _ _ _ _ _ (ts_src _ _ _ _ _ _ _ _ Hts) n f fl E) as (_ & b & Hbb & _).
    replace (n / 1024) with i in Hbb by dlia. by rewrite Hi in Hbb. }
  split; try done. split.
  - intros n Hn. destruct (Z.lt_ge_cases n (1024 * i)); [by apply Hf|]. by rewrite Hno, Hr by lia.
  - intros n Hn. apply Hr. lia.
  - intros v Hv. destruct (Z.lt_ge_cases (page_no v) (1024 * i)); [by apply Hb|]. unfold ubytes. by rewrite Hno, Hr by lia.
Qed.

(** The body of the loop of [vmdup]. *)
Definition dup_slot (dest_pde src_pde i : Z) : M kstate unit :=
  e <- rd32 (src_pde + 4 * i) ;;
  when (has e PAGE_BIT_PRESENT && negb (has e PAGE_BIT_GLOBAL))
    (p <- on_palloc (palloc kpd) ;;
     e <- rd32 (src_pde + 4 * i) ;;
     wr32 (dest_pde + 4 * i) (Z.lor p (pde_get_flags e)) ;;;
     d <- rd32 (dest_pde + 4 * i) ;;
     e <- rd32 (src_pde + 4 * i) ;;
     duplicate_pt vm_map kernel_pd (pde_get_paddr d) (pde_get_paddr e)).

Lemma dup_slot_run i T2 F2 l t :
  dup_inv (1024 * i) T2 F2 l t → 0 ≤ i < 1024 → (∀ k, i ≤ k → T2 !! k = None) →
  (∀ k, 0 ≤ k < 1024 → is_Some (T1 !! k) → has (load32 (kmem s0) (a2 + 4 * k)) PAGE_BIT_GLOBAL = false) →
  ∃ l' t' T2' F2', dup_slot a2 a1 i (set_pal t s0) = Done (tt, set_pal t' s0) ∧
    dup_inv (1024 * (i + 1)) T2' F2' l' t' ∧ ∀ k, i + 1 ≤ k → T2' !! k = None.
Proof.
  intros H Hi Hnew Hng. pose proof (di_two _ _ _ _ _ H) as [_ H1 _ _].
  unfold dup_slot. rewrite (bind_run _ _ _ _ _ (rd32_run _ _)). change (kmem (set_pal t s0)) with (pmem t).
  destruct (T1 !! i) as [b1|] eqn:Hb1.
  - destruct (sp_table _ _ _ _ _ H1 i b1 Hb1) as (_ & _ & -> & ->). cbn [negb andb when].
    destruct (dup_table (1024 * i) T2 F2 l t i b1 H Hb1 (Hnew i ltac:(lia)) (Hng i Hi ltac:(eauto)))
      as (w & l1 & t1 & -> & E1 & HI1).
    assert (E : ∀ k : M kstate unit, (p <- on_palloc (palloc kpd) ;; e <- rd32 (a1 + 4 * i) ;;
        wr32 (a2 + 4 * i) (Z.lor p (pde_get_flags e)) ;;; k) (set_pal t s0) = k (set_pal t1 s0)).
    { intros k. revert E1. unfold bind, rd32, gets, wr32, modify.
      destruct (on_palloc (palloc kpd) (set_pal t s0)) as [[q s1]| |]; [|done|done].
      assert (Hs : ∀ u v : kstate, Done (tt, u) = Done (tt, v) → k u = k v) by by intros u v [= ->]. exact (Hs _ _). }
    rewrite E, (bind_run _ _ _ _ _ (rd32_run _ _)), (bind_run _ _ _ _ _ (rd32_run _ _)).
    change (kmem (set_pal t1 s0)) with (pmem t1). pose proof (di_two _ _ _ _ _ HI1) as [_ G1 G2 _].
    destruct (sp_table _ _ _ _ _ G1 i b1 Hb1) as (_ & -> & _).
    destruct (sp_table _ _ _ _ _ G2 i w (lookup_insert_eq _ _ _)) as (_ & -> & _).
    destruct (duplicate_pt_run i _ F2 l1 t1 b1 w HI1 Hb1 (lookup_insert_eq _ _ _)) as (l2 & t2 & F22 & E2 & HI2).
    exists l2, t2, (<[i := w]> T2), F22. split; [done|]. split; [done|].
    intros k Hk. rewrite lookup_insert_ne by lia. apply Hnew. lia.
  - assert (Hskip : has (load32 (pmem t) (a1 + 4 * i)) PAGE_BIT_PRESENT && negb (has (load32 (pmem t) (a1 + 4 * i)) PAGE_BIT_GLOBAL) = false).
    { destruct (sp_no_table _ _ _ _ _ H1 i Hi Hb1) as [E|E]; rewrite E; [by rewrite andb_false_r|done]. }
    rewrite Hskip. cbn [when]. exists l, t, T2, F2. split; [done|]. split; [by apply dup_skip|].
    intros k Hk. apply Hnew. lia.
Qed.
End duplicate.

(** [vmdup] into an empty address space. *)
Lemma vmdup_run s l a1 T1 F1 a2 :
  callable kpd (mk_ls (k_mach s) (palloc_spinlock s)) → v2p r a1 ≠ kpd →
  two_spaces l (k_pal s) a1 T1 F1 a2 ∅ ∅ → (size T1 + size F1 ≤ length l)%nat →
  (∀ n, is_Some (F1 !! n) → 0 ≤ n < 2 ^ 20) →
  (∀ k, 0 ≤ k < 1024 → is_Some (T1 !! k) → has (load32 (kmem s) (a2 + 4 * k)) PAGE_BIT_GLOBAL = false) →
  ∃ l' t' T2 F2, vmdup vm_map kernel_pd (v2p r a2) (v2p r a1) s = Done (tt, set_pal t' s) ∧
    two_spaces l' t' a1 T1 F1 a2 T2 F2 ∧
    (∀ v, ubytes F1 (pmem t') v = ubytes F1 (kmem s) v) ∧ (∀ v, ubytes F2 (pmem t') v = ubytes F1 (kmem s) v) ∧
    (∀ n, snd <$> F2 !! n = snd <$> F1 !! n) ∧ same_global a2 (kmem s) (pmem t') ∧
    agree_off (a2 :: l) (kmem s) (pmem t') ∧ owned a2 T2 F2 ++ l' ⊆ a2 :: l ∧
    (length l' + size T2 + size F2 = length l)%nat.
Proof.
  intros Hc Hne Hts Hroom Hkeys Hng. pose proof Hts as [Hi H1 H2 Hap]. pose proof Hc as [Hu Hk]. cbn [ls_mach] in Hk.
  unfold vmdup. rewrite (bind_run _ _ _ _ _ (assert_kernel_tables_run _ _ Hk)).
  rewrite (bind_run _ _ _ _ _ (check_palloc_lock_run _ Hu)). rewrite (proj2 (Z.eqb_neq _ _) Hne).
  rewrite (bind_run _ _ _ _ _ (translate_some _ _ _ _ _ Hk (space_reach _ _ Hmap _ _ _ _ _ H2 (owned_dir a2 ∅ ∅)))).
  rewrite (bind_run _ _ _ _ _ (translate_some _ _ _ _ _ Hk (space_reach _ _ Hmap _ _ _ _ _ H1 (owned_dir a1 T1 F1)))).
  assert (H0 : dup_inv s a1 T1 F1 a2 l (1024 * 0) ∅ ∅ l (k_pal s)).
  { split; try done.
    - split; [|by intros|].
      + intros n Hn. destruct (F1 !! n) eqn:E; [|done]. destruct (Hkeys n ltac:(eauto)). lia.
      + intros v Hv. unfold ubytes. destruct (F1 !! page_no v) eqn:E; [|done]. destruct (Hkeys (page_no v) ltac:(eauto)). lia.
    - by rewrite !map_size_empty, !Nat.add_0_r. }
  destruct (for_up_inv (fun i s' => ∃ l' t' T2 F2, s' = set_pal t' s ∧ dup_inv s a1 T1 F1 a2 l (1024 * i) T2 F2 l' t' ∧
      ∀ k, i ≤ k → T2 !! k = None) (dup_slot a2 a1) (Z.to_nat PD_LENGTH) 0 s)
    as (s' & E & l' & t' & T2 & F2 & -> & HI & _).
  - exists l, (k_pal s), ∅, ∅. by rewrite set_pal_same.
  - intros i s1 Hii (l1 & t1 & T21 & F21 & -> & HI & Hnew). change (Z.of_nat (Z.to_nat PD_LENGTH)) with 1024 in Hii.
    destruct (dup_slot_run s a1 T1 F1 a2 l Hc Hroom i T21 F21 l1 t1 HI ltac:(lia) Hnew Hng) as (l2 & t2 & T22 & F22 & E2 & HI2 & Hn2).
    exists (set_pal t2 s). split; [done|]. by exists l2, t2, T22, F22.
  - change (1024 * (0 + Z.of_nat (Z.to_nat PD_LENGTH))) with (2 ^ 20) in HI. destruct HI as [A [B1 B2 B3] C D G _ J K].
    exists l', t', T2, F2. split; [exact E|]. split; [done|]. split; [done|]. split.
    { intros v. rewrite <- C. destruct (Z.lt_ge_cases (page_no v) (2 ^ 20)) as [Hv|Hv]; [by apply B3|].
      unfold ubytes. rewrite B2 by done. destruct (F1 !! page_no v) eqn:Ev; [|done]. destruct (Hkeys (page_no v) ltac:(eauto)). lia. }
    split; [|done]. intros n. destruct (Z.lt_ge_cases n (2 ^ 20)) as [Hn|Hn]; [by apply B1|].
    rewrite B2 by done. destruct (F1 !! n) eqn:Ev; [|done]. destruct (Hkeys n ltac:(eauto)). lia.
Qed.

(** ** A new address space *)

Definition kernel_entry (m : mem) (i : Z) : Z :=
  let e := load32 m (kernel_pd + 4 * i) in if has e PAGE_BIT_GLOBAL then e else 0.

(** The loop that copies the kernel's entries into the page [w]. *)
Lemma copy_kernel_run s w :
  byte_mem (kmem s) → page_ok r w → kernel_pd mod PAGE_SIZE = 0 → kernel_pd ≠ w →
  (∀ i, 0 ≤ i < 1024 → load32 (kmem s) (w + 4 * i) = 0) →
  ∃ m, for_up (Z.to_nat PD_LENGTH) 0 (fun i =>
      e <- rd32 (kernel_pd + 4 * i) ;;
      when (has e PAGE_BIT_GLOBAL) (wr32 (w + 4 * i) e)) s = Done (tt, set_kmem m s) ∧
    byte_mem m ∧ agree_off [w] (kmem s) m ∧
    ∀ i, 0 ≤ i < 1024 → load32 m (w + 4 * i) = kernel_entry (kmem s) i.
Proof.
  intros Hb Hw Hka Hkw Hz. set (m0 := kmem s) in *.
  assert (Hkeep : ∀ m i, agree_off [w] m0 m → 0 ≤ i < 1024 → load32 m (kernel_pd + 4 * i) = load32 m0 (kernel_pd + 4 * i)).
  { intros m i Hag Hi. apply load32_ext. intros x Hx. apply Hag. intros p ->%list_elem_of_singleton Hp.
    destruct (page_disjoint kernel_pd w Hka (proj1 Hw) Hkw); unfold in_page, PAGE_SIZE in *; lia. }
  destruct (for_up_inv (fun i s' => ∃ m, s' = set_kmem m s ∧ byte_mem m ∧ agree_off [w] m0 m ∧
      ∀ j, 0 ≤ j < 1024 → load32 m (w + 4 * j) = if j <? i then kernel_entry m0 j else 0)
    (fun i => e <- rd32 (kernel_pd + 4 * i) ;; when (has e PAGE_BIT_GLOBAL) (wr32 (w + 4 * i) e))
    (Z.to_nat PD_LENGTH) 0 s) as (s' & E & m & -> & Hm & Hag & Hj).
  - exists m0. split; [by destruct s as [? ? ? ? []]|]. split; [done|]. split; [apply agree_off_refl|].
    intros j Hj. rewrite (proj2 (Z.ltb_ge _ _)) by lia. by apply Hz.
  - intros i s1 Hi (m & -> & Hm & Hag & Hj). change (Z.of_nat (Z.to_nat PD_LENGTH)) with 1024 in Hi.
    rewrite (bind_run _ _ _ _ _ (rd32_run _ _)). change (kmem (set_kmem m s)) with m.
    pose proof (Hkeep m i Hag ltac:(lia)) as Ek. pose proof (load32_range m (kernel_pd + 4 * i) Hm) as Hr.
    rewrite Ek in *. destruct (has (load32 m0 (kernel_pd + 4 * i)) PAGE_BIT_GLOBAL) eqn:Eg; cbn [when].
    + pose proof (poked_store m (w + 4 * i) _ Hr) as Hpk. set (m2 := store32 m (w + 4 * i) _) in *.
      exists (set_kmem m2 s). split; [done|]. exists m2. split; [done|]. split; [by apply byte_mem_store32|].
      split; [apply (agree_off_trans _ _ m); [done|by apply (poked_agree _ _ w i _ ltac:(lia) Hpk)]|].
      intros j Hjr. destruct (decide (j = i)) as [->|Hne].
      * rewrite (proj1 Hpk), (proj2 (Z.ltb_lt _ _)) by lia. unfold kernel_entry. by rewrite Eg.
      * rewrite (poked_load _ _ _ _ _ Hpk), Hj by lia.
        destruct (Z.ltb_spec j i), (Z.ltb_spec j (i + 1)); done || lia.
    + exists (set_kmem m s). split; [done|]. exists m. do 3 (split; [done|]). intros j Hjr. rewrite Hj by done.
      destruct (Z.ltb_spec j i), (Z.ltb_spec j (i + 1)); try (done || lia).
      assert (j = i) as -> by lia. unfold kernel_entry. by rewrite Eg.
  - exists m. split; [exact E|]. split; [done|]. split; [done|]. intros i Hi. rewrite Hj by done.
    change (0 + Z.of_nat (Z.to_nat PD_LENGTH)) with 1024. by rewrite (proj2 (Z.ltb_lt _ _)) by lia.
Qed.

Lemma empty_space m w :
  page_ok r w → (∀ i, 0 ≤ i < 1024 → load32 m (w + 4 * i) = 0 ∨ has (load32 m (w + 4 * i)) PAGE_BIT_GLOBAL = true) →
  space r m w ∅ ∅.
Proof.
  intros Hw Hl. split; [done| |done|done| |].
  - intros i Hi _. destruct (Hl i Hi); auto.
  - unfold owned, tables_of, frames_of. rewrite !map_to_list_empty. cbn. by constructor.
  - unfold owned, tables_of, frames_of. rewrite !map_to_list_empty. cbn. apply NoDup_singleton.
Qed.

(** A cleared page, without its definition. *)
Lemma zeroed_page t w :
  byte_mem (pmem t) → ∃ m1,
    (∀ s, upd_mem (fun m => kmemset m w 0 (PD_LENGTH * 4)) (set_pal t s) = Done (tt, set_pal (set_pmem m1 t) s)) ∧
    byte_mem m1 ∧ (∀ x, in_page w x → m1 x = 0) ∧
    ∀ x, ¬ in_page w x → m1 x = pmem t x.
Proof.
  intros Hb. exists (kmemset (pmem t) w 0 (PD_LENGTH * 4)). split; [reflexivity|]. split; [by apply kmemset_byte_mem|].
  split; intros x Hx; unfold in_page, PAGE_SIZE in Hx; [by apply kmemset_in|]. apply kmemset_out.
  change (PD_LENGTH * 4) with 4096. lia.
Qed.

Lemma alloc_dir_run s w l :
  paging_ok kernel_pd r (w :: l) s → mach_ok kpd (k_mach s) → kp_spinlock s = free_lock →
  kernel_pd mod PAGE_SIZE = 0 → kernel_pd ∉ w :: l →
  ∃ t, paging_alloc_dir kernel_pd s = Done (v2p r w, set_pal t s) ∧ palloc_inv r l t ∧
    space r (pmem t) w ∅ ∅ ∧ agree_off (w :: l) (kmem s) (pmem t) ∧ page_ok r w ∧
    ∀ i, 0 ≤ i < 1024 → load32 (pmem t) (w + 4 * i) = kernel_entry (kmem s) i.
Proof.
  intros [Hc Hi] Hm Hkl Hka Hkn. pose proof (mo_region _ _ Hmap) as Hreg. pose proof Hc as [Hu Hk]. cbn [ls_mach] in Hk.
  destruct (palloc_run kpd r w l _ _ Hreg Hc Hi) as (t1 & E1 & Hi1 & Hag1 & Hz).
  pose proof (pi_pages _ _ _ Hi) as Hp. pose proof Hp as Hp'. apply Forall_cons in Hp' as [Hw Hpl].
  pose proof (pi_nodup _ _ _ Hi) as Hn. apply NoDup_cons in Hn as [Hwl _].
  destruct (v2p_page r w Hreg Hw) as (_ & _ & _ & Hback).
  assert (E2 : on_palloc (ptranslate (v2p r w)) (set_pal t1 s) = Done (w, set_pal t1 s)).
  { rewrite (on_palloc_run _ _ w t1); [done|].
    rewrite <- Hback at 2. apply (ptranslate_run r l); try done. by rewrite Hback. }
  destruct (zeroed_page t1 w (pi_bytes _ _ _ Hi1)) as (m1 & Em1 & Hm1b & Hm1z & Hm1o).
  set (s1 := set_pal (set_pmem m1 t1) s). set (L := mk_ls (k_mach s) free_lock).
  assert (HuL : unlocked L) by (by apply (mach_unlocked kernel_pd)).
  destruct (acquire_release_run L HuL) as (Ea & Er & _). set (s2 := set_kp_view (entered L) s1).
  assert (Hwk : kernel_pd ≠ w) by (intros ->; apply Hkn; by left).
  assert (Hag1m : agree_off (w :: l) (kmem s) m1).
  { apply (agree_off_trans _ _ (pmem t1)); [done|]. intros x Hx. apply Hm1o. apply Hx. by left. }
  assert (Hkern : ∀ i, 0 ≤ i < 1024 → kernel_entry m1 i = kernel_entry (kmem s) i).
  { intros i Hii. unfold kernel_entry. cbv zeta. replace (load32 m1 (kernel_pd + 4 * i)) with (load32 (kmem s) (kernel_pd + 4 * i)); [done|].
    symmetry. apply load32_ext. intros x Hx. apply Hag1m. intros p Hpin Hpx. rewrite Forall_forall in Hp.
    assert (p ≠ kernel_pd) by (by intros ->). destruct (page_disjoint p kernel_pd (proj1 (Hp p Hpin)) Hka); try done;
      unfold in_page, PAGE_SIZE in *; lia. }
  destruct (copy_kernel_run s2 w Hm1b Hw Hka Hwk) as (m2 & E3 & Hm2 & Hag2 & Hent).
  { intros i Hii. change (kmem s2) with m1. unfold load32.
    by rewrite !Hm1z by (unfold in_page, PAGE_SIZE; lia). }
  change (kmem s2) with m1 in *.
  exists (set_pmem m2 t1). split.
  { unfold paging_alloc_dir. rewrite (bind_run _ _ _ _ _ (assert_kernel_tables_run _ _ Hk)).
    rewrite (bind_run _ _ _ _ _ (check_palloc_lock_run _ Hu)), (bind_run _ _ _ _ _ (kassert_true _ _ _ eq_refl)).
    rewrite (bind_run _ _ _ _ _ (on_palloc_run _ _ _ _ E1)), (bind_run _ _ _ _ _ E2).
    rewrite (bind_run _ _ _ _ _ (Em1 s)). fold s1.
    unfold bind at 1, kp_lock, on_kp at 1, zoom, kp_view. change (k_mach s1) with (k_mach s).
    change (kp_spinlock s1) with (kp_spinlock s). rewrite Hkl. fold L. rewrite Ea. fold s2.
    rewrite (bind_run _ _ _ _ _ E3). unfold bind at 1, kp_unlock, on_kp, zoom.
    replace (kp_view (set_kmem m2 s2)) with (entered L) by (unfold kp_view, s2; cbn; by destruct (entered L)).
    rewrite Er. unfold ret. do 2 f_equal. unfold s2, s1, L, set_kp_view, set_kmem, set_pal. cbn. by rewrite Hkl. }
  cbn [pmem set_pmem]. split; [|split; [|split; [|split; [done|]]]].
  - apply palloc_inv_mem; [done| |done]. intros p x Hpin Hx. rewrite Forall_forall in Hpl.
    assert (p ≠ w) by (by intros ->).
    rewrite (agree_page r [w] m1 m2 p x ltac:(by constructor) (Hpl p Hpin) ltac:(by intros ->%list_elem_of_singleton) Hag2 Hx).
    apply Hm1o. destruct (page_ok_disjoint r p w (Hpl p Hpin) Hw); try done; unfold in_page, PAGE_SIZE in *; lia.
  - apply empty_space; [done|]. intros i Hii. rewrite Hent by done. unfold kernel_entry. cbv zeta.
    destruct (has (load32 m1 _) PAGE_BIT_GLOBAL) eqn:Eg; auto.
  - apply (agree_off_trans _ _ m1); [done|]. apply (agree_off_mono [w]); [|done].
    intros p ->%list_elem_of_singleton. by left.
  - intros i Hii. by rewrite Hent, Hkern.
Qed.

(** ** Freeing an address space *)

Section free.
Variable s0 : kstate.
Variables (a : Z) (T : gmap Z Z) (F : upages) (l0 : list Z).
Hypothesis Hcall : callable kpd (mk_ls (k_mach s0) (palloc_spinlock s0)).
Hypothesis Hs : space r (kmem s0) a T F.
Hypothesis Hap : NoDup (owned a T F ++ l0).

(** Tables below slot [i] and frames of pages below [n] are free. *)
Definition freed (i n p : Z) : Prop :=
  (∃ k, T !! k = Some p ∧ k < i) ∨ (∃ m fl, F !! m = Some (p, fl) ∧ m < n).

(** Pages that are still needed. *)
Definition needed_page (i p : Z) : Prop := p = a ∨ ∃ k, i ≤ k ∧ T !! k = Some p.

Record free_inv (i n : Z) (l : list Z) (t : palloc_state) : Prop := {
  fi_inv : palloc_inv r l t;
  fi_list : ∀ p, p ∈ l ↔ p ∈ l0 ∨ freed i n p;
  fi_kept : ∀ p x, needed_page i p → in_page p x → pmem t x = kmem s0 x;
}.

Lemma needed_ok i p : needed_page i p → page_ok r p.
Proof. intros [->|(k & _ & Hk)]; apply (space_page_ok _ _ _ _ _ _ Hs); eauto with space. Qed.

Lemma not_free p : p ∈ owned a T F → p ∉ l0.
Proof. intros Hp. apply NoDup_app in Hap as (_ & Hd & _). by apply Hd. Qed.

Lemma needed_not_freed i n p : needed_page i p → ¬ freed i n p.
Proof.
  intros Hn [(k & Hk & Hlt)|(m & fl & Hm & _)].
  - destruct Hn as [->|(j & Hj & Hjp)]; [by apply (table_not_dir _ _ _ _ _ _ _ Hs Hk)|].
    pose proof (tables_inj _ _ _ _ _ _ _ _ Hs Hk Hjp). lia.
  - apply (frames_apart _ _ _ _ _ _ _ _ Hs Hm). destruct Hn as [->|(j & _ & Hj)]; eauto with space.
Qed.

(** Freeing one page that is not needed any more. *)
Lemma free_one i n i' n' l t p :
  free_inv i n l t → p ∈ owned a T F → ¬ freed i n p → (∀ q, freed i' n' q ↔ freed i n q ∨ q = p) →
  (∀ q, needed_page i' q → needed_page i q ∧ q ≠ p) →
  ∃ t' l', on_palloc (pfree kpd (v2p r p)) (set_pal t s0) = Done (tt, set_pal t' s0) ∧ free_inv i' n' l' t'.
Proof.
  intros [Hi Hl Hk] Hp Hnf Hfr Hne. pose proof (space_page_ok _ _ _ _ _ _ Hs Hp) as Hpok.
  destruct (v2p_page r p (mo_region _ _ Hmap) Hpok) as (_ & _ & _ & Hback).
  assert (Hpl : p ∉ l) by (rewrite Hl; intros [H|H]; [by apply (not_free p)|done]).
  destruct (pfree_run kpd r (v2p r p) l _ t (mo_region _ _ Hmap) Hcall) as (t' & E & Hi' & Hag); rewrite ?Hback; try done.
  rewrite Hback in *. exists t', (p :: l). split; [by apply (on_palloc_run _ (set_pal t s0))|]. split; [done| |].
  - intros q. rewrite elem_of_cons, Hl, Hfr. tauto.
  - intros q x Hq Hx. destruct (Hne q Hq) as [Hq' Hqp]. rewrite <- (Hk q x Hq' Hx).
    apply (agree_page r (p :: l) _ _ q); try done; [apply Hi'|by apply (needed_ok i)|].
    rewrite elem_of_cons, Hl. intros [?|[H|H]]; [done| |by apply (needed_not_freed i n q)].
    apply (not_free q); [|done]. destruct Hq' as [->|(k & _ & Hkq)]; eauto with space.
Qed.

(** The body of the loop of [paging_free_table]. *)
Definition free_entry (p : Z) : M kstate unit :=
  e <- rd32 p ;;
  when (has e PAGE_BIT_PRESENT && negb (has e PAGE_BIT_GLOBAL)) (on_palloc (pfree kpd (pte_get_paddr e))).

Lemma free_entry_run i n l t b :
  free_inv i n l t → n / 1024 = i → T !! i = Some b →
  ∃ t' l', free_entry (b + 4 * (n mod 1024)) (set_pal t s0) = Done (tt, set_pal t' s0) ∧ free_inv i (n + 1) l' t'.
Proof.
  intros H Hni Hb. pose proof H as [Hi Hl Hk].
  assert (El : load32 (pmem t) (b + 4 * (n mod 1024)) = load32 (kmem s0) (b + 4 * (n mod 1024))).
  { apply load32_ext. intros x Hx. apply (Hk b).
    - right. exists i. split; [lia|done].
    - apply (slot_in_page b (n mod 1024)); [apply Z.mod_pos_bound; lia|done]. }
  unfold free_entry. rewrite (bind_run _ _ _ _ _ (rd32_run _ _)). change (kmem (set_pal t s0)) with (pmem t). rewrite El.
  destruct (F !! n) as [[f fl]|] eqn:Ef.
  - destruct (sp_page _ _ _ _ _ Hs n f fl Ef) as ((_ & Hp & Hg) & c & Hc & Ee). rewrite Hni, Hb in Hc. injection Hc as <-.
    rewrite Ee, !construct_has, Hp, Hg by done. cbn [negb andb when].
    rewrite (frame_of_entry r (mo_region _ _ Hmap)) by (apply (space_page_ok _ _ _ _ _ _ Hs); eauto with space).
    apply (free_one i n i (n + 1) l t f H); [eauto with space| | |].
    + intros [(k & Hkf & _)|(m & gl & Hm & Hlt)].
      * apply (frames_apart _ _ _ _ _ _ _ _ Hs Ef). eauto with space.
      * pose proof (frames_inj _ _ _ _ _ _ _ _ _ _ Hs Ef Hm). lia.
    + intros q. unfold freed. split.
      * intros [Hq|(m & gl & Hm & Hlt)]; [by left; left|]. destruct (decide (m = n)) as [->|].
        { right. by simplify_eq. } { left. right. exists m, gl. split; [done|lia]. }
      * intros [[Hq|(m & gl & Hm & Hlt)]| ->]; [by left|right; exists m, gl; split; [done|lia]|].
        right. exists n, fl. split; [done|lia].
    + intros q Hq. split; [done|]. intros ->. apply (frames_apart _ _ _ _ _ _ _ _ Hs Ef).
      destruct Hq as [->|(k & _ & Hkq)]; eauto with space.
  - rewrite (sp_no_page _ _ _ _ _ Hs n b) by (done || by rewrite Hni). cbn. exists t, l. split; [done|].
    split; [done| |done]. intros p. rewrite Hl. unfold freed. split.
    + intros [?|[?|(m & gl & Hm & Hlt)]]; [by left|by right; left|]. right; right. exists m, gl. split; [done|lia].
    + intros [?|[?|(m & gl & Hm & Hlt)]]; [by left|by right; left|]. right; right. exists m, gl. split; [done|].
      destruct (decide (m = n)) as [->|]; [by rewrite Ef in Hm|lia].
Qed.

Lemma free_table_run i l t b :
  free_inv i (1024 * i) l t → T !! i = Some b →
  ∃ t' l', paging_free_table vm_map kernel_pd (v2p r b) (set_pal t s0) = Done (tt, set_pal t' s0) ∧
    free_inv (i + 1) (1024 * (i + 1)) l' t'.
Proof.
  intros H Hb. assert (Hk : cr3 (k_mach (set_pal t s0)) = kpd) by apply Hcall. unfold paging_free_table.
  rewrite (bind_run _ _ _ _ _ (translate_some _ _ _ _ _ Hk (space_reach _ _ Hmap _ _ _ _ _ Hs (owned_table a T F _ _ Hb)))).
  destruct (for_up_inv (fun j s => ∃ t l, s = set_pal t s0 ∧ free_inv i (1024 * i + j) l t)
    (fun j => free_entry (b + 4 * j)) (Z.to_nat PD_LENGTH) 0 (set_pal t s0)) as (s' & E & t' & l' & -> & H').
  - exists t, l. by rewrite Z.add_0_r.
  - intros j s1 Hj (t1 & l1 & -> & HI). change (Z.of_nat (Z.to_nat PD_LENGTH)) with 1024 in Hj.
    destruct (free_entry_run i (1024 * i + j) l1 t1 b HI) as (t2 & l2 & E2 & H2); [dlia|done|].
    replace ((1024 * i + j) mod 1024) with j in E2 by dlia. exists (set_pal t2 s0). split; [done|].
    exists t2, l2. split; [done|]. by replace (1024 * i + (j + 1)) with (1024 * i + j + 1) by lia.
  - change (0 + Z.of_nat (Z.to_nat PD_LENGTH)) with 1024 in H'.
    replace (1024 * i + 1024) with (1024 * (i + 1)) in H' by lia.
    rewrite (bind_run (for_up _ _ _) _ _ _ _ E).
    apply (free_one i (1024 * (i + 1)) _ _ l' t' b H'); [eauto with space| | |].
    + apply (needed_not_freed i). right. exists i. split; [lia|done].
    + intros q. unfold freed. split.
      * intros [(k & Hkq & Hlt)|Hq]; [|by left; right]. destruct (decide (k = i)) as [->|]; [right; by simplify_eq|].
        left; left. exists k. split; [done|lia].
      * intros [[(k & Hkq & Hlt)|Hq]| ->]; [left; exists k; split; [done|lia]|by right|left; exists i; split; [done|lia]].
    + intros q [->|(k & Hlt & Hkq)].
      * split; [by left|]. intros <-. by apply (table_not_dir _ _ _ _ _ _ _ Hs Hb).
      * split; [right; exists k; split; [lia|done]|]. intros ->. pose proof (tables_inj _ _ _ _ _ _ _ _ Hs Hkq Hb). lia.
Qed.

Lemma free_skip i l t : free_inv i (1024 * i) l t → T !! i = None → free_inv (i + 1) (1024 * (i + 1)) l t.
Proof.
  intros [Hi Hl Hk] Hn. split; [done| |].
  - intros p. rewrite Hl. unfold freed. split; (intros [?|[(k & Hkp & Hlt)|(m & fl & Hm & Hlt)]]; [by left|right; left|right; right]).
    + exists k. split; [done|lia].
    + exists m, fl. split; [done|lia].
    + exists k. split; [done|]. destruct (decide (k = i)) as [->|]; [by rewrite Hn in Hkp|lia].
    + exists m, fl. split; [done|]. destruct (sp_page _ _ _ _ _ Hs m p fl Hm) as (_ & b & Hb & _).
      assert (m / 1024 ≠ i) by (intros E; by rewrite E, Hn in Hb). dlia.
  - intros p x [->|(k & Hlt & Hkp)]; apply Hk; [by left|]. right. exists k. split; [lia|done].
Qed.
End free.

(** [paging_free_dir]: every page of the space is on the free list again, once. *)
Lemma free_dir_run s l a T F :
  has_space kernel_pd r l s a T F → v2p r a ≠ kpd → (∀ i, is_Some (T !! i) → 0 ≤ i < 1024) →
  (∀ n, is_Some (F !! n) → 0 ≤ n < 2 ^ 20) →
  ∃ t l', paging_free_dir vm_map kernel_pd (v2p r a) s = Done (tt, set_pal t s) ∧ palloc_inv r l' t ∧
    l' ≡ₚ owned a T F ++ l.
Proof.
  intros [[Hc Hi] Hs Hap] Hne HT HF. pose proof Hc as [Hu Hk]. cbn [ls_mach] in Hk. unfold paging_free_dir.
  rewrite (bind_run _ _ _ _ _ (assert_kernel_tables_run _ _ Hk)), (bind_run _ _ _ _ _ (check_palloc_lock_run _ Hu)).
  rewrite (proj2 (Z.eqb_neq _ _) Hne).
  rewrite (bind_run _ _ _ _ _ (translate_some _ _ _ _ _ Hk (space_reach _ _ Hmap _ _ _ _ _ Hs (owned_dir a T F)))).
  destruct (for_up_inv (fun i s' => ∃ t l', s' = set_pal t s ∧ free_inv s a T F l i (1024 * i) l' t)
    (fun i => e <- rd32 (a + 4 * i) ;; when (has e PAGE_BIT_PRESENT && negb (has e PAGE_BIT_GLOBAL))
       (paging_free_table vm_map kernel_pd (pde_get_paddr e))) (Z.to_nat PD_LENGTH) 0 s) as (s' & E & t & l' & -> & H).
  - exists (k_pal s), l. rewrite set_pal_same. split; [done|]. split; [done| |done].
    intros p. split; [by left|]. intros [?|[(k & Hkp & Hlt)|(m & fl & Hm & Hlt)]]; [done| |].
    + specialize (HT k ltac:(eauto)). lia.
    + specialize (HF m ltac:(eauto)). lia.
  - intros i s1 Hir (t & l' & -> & HI). change (Z.of_nat (Z.to_nat PD_LENGTH)) with 1024 in Hir.
    rewrite (bind_run _ _ _ _ _ (rd32_run _ _)). change (kmem (set_pal t s)) with (pmem t).
    assert (El : load32 (pmem t) (a + 4 * i) = load32 (kmem s) (a + 4 * i)).
    { apply load32_ext. intros x Hx. apply (fi_kept _ _ _ _ _ _ _ _ _ HI a); [by left|]. apply (slot_in_page a i); [lia|done]. }
    rewrite El. destruct (T !! i) as [b|] eqn:Hb.
    + destruct (sp_table _ _ _ _ _ Hs i b Hb) as (_ & -> & -> & ->). cbn [negb andb when].
      destruct (free_table_run s a T F l Hc Hs Hap i l' t b HI Hb) as (t2 & l2 & E2 & H2).
      exists (set_pal t2 s). split; [done|]. by exists t2, l2.
    + assert (Hskip : has (load32 (kmem s) (a + 4 * i)) PAGE_BIT_PRESENT && negb (has (load32 (kmem s) (a + 4 * i)) PAGE_BIT_GLOBAL) = false).
      { destruct (sp_no_table _ _ _ _ _ Hs i ltac:(lia) Hb) as [Eg|Eg]; rewrite Eg; [by rewrite andb_false_r|done]. }
      rewrite Hskip. exists (set_pal t s). split; [done|]. exists t, l'. split; [done|]. by apply free_skip.
  - change (0 + Z.of_nat (Z.to_nat PD_LENGTH)) with 1024 in H. change (1024 * 1024) with (2 ^ 20) in H.
    rewrite (bind_run (for_up _ _ _) _ _ _ _ E). pose proof H as [Hi' Hl _].
    assert (Haok : page_ok r a) by (apply (space_page_ok _ _ _ _ _ _ Hs); auto with space).
    destruct (v2p_page r a (mo_region _ _ Hmap) Haok) as (_ & _ & _ & Hback).
    assert (Hal : a ∉ l').
    { rewrite Hl. intros [Hin|Hin]; [by apply (not_free a T F l Hap a); auto with space|].
      by apply (needed_not_freed s a T F Hs 1024 (2 ^ 20) a); [left|]. }
    destruct (pfree_run kpd r (v2p r a) l' _ t (mo_region _ _ Hmap) Hc) as (t2 & E2 & Hi2 & _); rewrite ?Hback; try done.
    rewrite Hback in *. exists t2, (a :: l'). split; [by apply (on_palloc_run _ (set_pal t s))|]. split; [done|].
    apply NoDup_Permutation; [apply Hi2|done|]. intros p. rewrite elem_of_cons, Hl, elem_of_app. unfold owned, freed.
    rewrite elem_of_cons, elem_of_app. split.
    + intros [->|[?|[(k & Hkp & _)|(m & fl & Hm & _)]]]; [by left; left|by right| |].
      * left; right; left. apply list_elem_of_fmap. exists (k, p). split; [done|]. by apply elem_of_map_to_list.
      * left; right; right. by apply (frames_elem F m p fl).
    + intros [[->|[Hin|Hin]]|?]; [by left| | |by right; left].
      * apply list_elem_of_fmap in Hin as ([k q] & -> & Hin). apply elem_of_map_to_list in Hin. right; right; left.
        exists k. split; [done|]. by apply (HT k ltac:(eauto)).
      * apply list_elem_of_fmap in Hin as ([q fl] & -> & Hin). apply list_elem_of_fmap in Hin as ([m qq] & Eq & Hin).
        cbn in Eq. subst qq.
        apply elem_of_map_to_list in Hin. right; right; right. exists m, fl. split; [done|]. by apply (HF m ltac:(eauto)).
Qed.
End runs.

(** ** An example *)

(** The kernel of [HeapPages] with a process that has one page, at 0x8048000. *)
Definition example_space_mem : mem :=
  write_bytes (store32 (store32 example_kernel_mem (0x807000 + 4 * 0x20) 0x808007) (0x808000 + 4 * 0x48) 0x809007)
    0x809000 (chars "data").
Definition example_tables : gmap Z Z := {[0x20 := 0x808000]}.
Definition example_pages : upages := {[0x8048 := (0x809000, 7)]}.
Definition example_user_kernel : kstate := set_kmem example_space_mem example_kernel.

Lemma example_space_far x : x < 0x807000 ∨ 0x80A000 ≤ x → example_space_mem x = example_kernel_mem x.
Proof.
  intros H. unfold example_space_mem. rewrite write_bytes_frame by (cbn; lia). by rewrite !store32_frame by lia.
Qed.

Lemma example_kernel_far x : 0x807000 ≤ x → example_kernel_mem x = 0.
Proof. intros H. unfold example_kernel_mem, free_header. by rewrite !store32_frame by lia. Qed.

Lemma example_space_dir i : 0 ≤ i < 1024 →
  load32 example_space_mem (0x807000 + 4 * i) = if i =? 0x20 then 0x808007 else 0.
Proof.
  intros Hi. unfold example_space_mem.
  rewrite (load32_ext _ (store32 (store32 example_kernel_mem (0x807000 + 4 * 0x20) 0x808007) (0x808000 + 4 * 0x48) 0x809007))
    by (intros x Hx; apply write_bytes_frame; lia).
  rewrite load32_store32_ne by lia. destruct (Z.eqb_spec i 0x20) as [->|Hne]; [by rewrite load32_store32_eq by lia|].
  rewrite load32_store32_ne by lia. unfold load32. by rewrite !example_kernel_far by lia.
Qed.

Lemma example_space_table i : 0 ≤ i < 1024 →
  load32 example_space_mem (0x808000 + 4 * i) = if i =? 0x48 then 0x809007 else 0.
Proof.
  intros Hi. unfold example_space_mem.
  rewrite (load32_ext _ (store32 (store32 example_kernel_mem (0x807000 + 4 * 0x20) 0x808007) (0x808000 + 4 * 0x48) 0x809007))
    by (intros x Hx; apply write_bytes_frame; lia).
  destruct (Z.eqb_spec i 0x48) as [->|Hne]; [by rewrite load32_store32_eq by lia|].
  rewrite !load32_store32_ne by lia. unfold load32. by rewrite !example_kernel_far by lia.
Qed.

Lemma example_owned : owned 0x807000 example_tables example_pages = [0x807000; 0x808000; 0x809000].
Proof. unfold owned, tables_of, frames_of, example_tables, example_pages. by rewrite !map_to_list_singleton. Qed.

Lemma example_space : space example_region example_space_mem 0x807000 example_tables example_pages.
Proof.
  split; unfold example_tables, example_pages.
  - intros i b [<- <-]%lookup_singleton_Some. split; [lia|]. rewrite example_space_dir by lia. by vm_compute.
  - intros i Hi Hn%lookup_singleton_None. right. rewrite example_space_dir by done.
    by rewrite (proj2 (Z.eqb_neq _ _)) by congruence.
  - intros n f fl [<- [= <- <-]]%lookup_singleton_Some. split; [by vm_compute|]. exists 0x808000.
    split; [done|]. change (0x8048 mod 1024) with 0x48. rewrite example_space_table by lia. by vm_compute.
  - intros n b Hn%lookup_singleton_None [E <-]%lookup_singleton_Some. rewrite example_space_table by dlia.
    rewrite (proj2 (Z.eqb_neq _ _)); [done|]. dlia.
  - fold example_tables example_pages. rewrite example_owned. repeat constructor; cbn; unfold PAGE_SIZE; done || lia.
  - fold example_tables example_pages. rewrite example_owned. repeat constructor; rewrite ?elem_of_cons, ?elem_of_nil; lia.
Qed.

Lemma example_space_bytes : byte_mem example_space_mem.
Proof. apply byte_mem_write. do 2 apply byte_mem_store32. apply (pi_bytes _ _ _ example_kernel_inv). Qed.

Lemma example_has_space :
  has_space example_kpd example_region example_free_pages example_user_kernel 0x807000 example_tables example_pages.
Proof.
  split; [split|exact example_space|].
  - split; [by apply (mach_unlocked example_kpd), example_mach_ok|apply example_mach_ok].
  - apply palloc_inv_mem; [exact example_space_bytes| |exact example_kernel_inv].
    intros v x Hv Hx. apply example_space_far. unfold in_page, PAGE_SIZE, example_free_pages in *.
    rewrite !elem_of_cons, elem_of_nil in Hv. lia.
  - rewrite example_owned. unfold example_free_pages. cbn [app].
    repeat constructor; rewrite ?elem_of_cons, ?elem_of_nil; lia.
Qed.

(** No address is the kernel's here. *)
Lemma example_user_address v : is_u32 v → user_address (kmem example_user_kernel) 0x807000 v.
Proof.
  intros Hv. split; [done|]. pose proof (page_no_range v Hv). change (kmem example_user_kernel) with example_space_mem.
  rewrite example_space_dir by dlia. by destruct (_ =? _).
Qed.

(** ** Properties *)

(** Freeing the page directory of a process gives every page the address space owns
    (the frames it maps, its page tables, the directory) back to the page allocator,
    each once, and keeps the free list well formed. *)
Theorem paging_free_dir_returns vm_map kernel_pd r s l a T F :
  map_ok vm_map r → has_space kernel_pd r l s a T F → v2p r a ≠ phys_kernel_pd kernel_pd →
  (∀ n, is_Some (F !! n) → 0 ≤ n < 2 ^ 20) →
  ∃ t l', paging_free_dir vm_map kernel_pd (v2p r a) s = Done (tt, set_pal t s) ∧ palloc_inv r l' t ∧
    l' ≡ₚ owned a T F ++ l.
Proof.
  intros Hmap Hs Hne HF. apply free_dir_run; try done. intros i [b Hb].
  by destruct (sp_table _ _ _ _ _ (hs_space _ _ _ _ _ _ _ Hs) i b Hb).
Qed.

Lemma paging_free_dir_returns_witness :
  ∃ t l', paging_free_dir example_vm_map example_kpd 0x807000 example_user_kernel = Done (tt, set_pal t example_user_kernel) ∧
    palloc_inv example_region l' t ∧ l' ≡ₚ [0x807000; 0x808000; 0x809000] ++ example_free_pages.
Proof.
  destruct (paging_free_dir_returns example_vm_map example_kpd example_region example_user_kernel example_free_pages
    0x807000 example_tables example_pages example_map_ok example_has_space) as (t & l' & E & Hi & Hp).
  - done.
  - intros n [q Hq]. unfold example_pages in Hq. apply lookup_singleton_Some in Hq as [<- _]. lia.
  - rewrite example_owned in Hp. exists t, l'. split; [exact E|]. split; [exact Hi|exact Hp].
Defined.
