(* ===== verification/EarlyPaging.v ===== *)
(** * arch/i386/boot/early_paging.c: building the kernel's page tables

    The code runs with paging already on: on the page tables of multiboot.S, which map
    only the first four megabytes, and, from the middle on, on the tables it is building.
    So every access goes through a model of the MMU: [walk] follows the two levels of the
    tables that CR3 points at, in the physical memory the code itself changes, and a write
    needs the RW bit on both levels (CR0.WP is set); an address that is not mapped is a page
    fault.  The TLB is not modelled: the entry that changes under the code is followed by
    [invlpg], the change of CR3 flushes the rest.  A failed [early_kassert] spins forever.
    The linker's symbols are arguments. *)

From stdpp Require Import base list strings.
From Stdlib Require Import ZArith Lia.
From S2P Require Import Prelude Memory KUtils MemLayout Cpu Palloc Paging KernelHeap HeapPages AddressSpace.

Definition KM_EXEC_PHYS_BASE : Z := 0x00100000.
Definition KM_EXEC_VIRT_BASE : Z := KM_VIRT_BASE + KM_EXEC_PHYS_BASE.
Definition CURRENT_PD_INDEX : Z := PD_LENGTH - 1.
Definition get_sub_page_addr (p : Z) : Z := Z.land p (PAGE_SIZE - 1).

(** The symbols of the linker script, and the address of [tmp_page]. *)
Record boot_symbols := mk_boot {
  b_sy : symbols;
  kernel_virtual_offset : Z;
  sym_kernel_pd : Z;
  sym_kernel_page_tables : Z;
  tmp_page : Z;
}.

(** Physical memory and CR3. *)
Record estate := mk_e { e_mem : mem; e_cr3 : Z }.

(** The physical address of [v]. *)
Definition walk (m : mem) (cr3 v : Z) (write : bool) : option Z :=
  let pde := load32 m (pde_get_paddr cr3 + 4 * get_pd_index v) in
  if negb (has pde PAGE_BIT_PRESENT) || write && negb (has pde PAGE_BIT_RW) then None else
  let pte := load32 m (pde_get_paddr pde + 4 * get_pt_index v) in
  if negb (has pte PAGE_BIT_PRESENT) || write && negb (has pte PAGE_BIT_RW) then None else
  Some (pte_get_paddr pte + get_sub_page_addr v).

Definition page_fault {A} : M estate A := kpanic "page fault".

Definition ld32 (v : Z) : M estate Z :=
  s <- get ;;
  match walk (e_mem s) (e_cr3 s) v false with
  | Some p => ret (load32 (e_mem s) p)
  | None => page_fault
  end.

Definition st32 (v w : Z) : M estate unit :=
  s <- get ;;
  match walk (e_mem s) (e_cr3 s) v true with
  | Some p => modify (fun s => mk_e (store32 (e_mem s) p w) (e_cr3 s))
  | None => page_fault
  end.

Definition asm_set_cr3 (v : Z) : M estate unit := modify (fun s => mk_e (e_mem s) v).

Definition early_kassert (b : bool) : M estate unit := if b then ret tt else hang.

Section boot.
Variable b : boot_symbols.

Definition page_tables : Z := 0xFFC00000.
Definition new_kernel_pd : Z := sym_kernel_pd b.
Definition new_kernel_page_tables : Z := sym_kernel_page_tables b.
Definition boot_vm_map : list vm_region := create_vm_map (b_sy b).

Definition is_symbol_aligned_to_page (m : Z) : bool := m =? mask_to_page m.

Definition early_enable (v : Z) : M estate Z :=
  let pte := page_tables + 4 * (get_pd_index (tmp_page b) * PT_LENGTH + get_pt_index (tmp_page b)) in
  st32 pte (pte_construct (km_paddr v) (Z.lor PAGE_BIT_RW PAGE_BIT_PRESENT)) ;;;
  ret (tmp_page b + get_sub_page_addr v).

Definition late_enable (v : Z) : M estate Z := ret v.

Definition enable (v : Z) (early : bool) : M estate Z :=
  if early then early_enable v else late_enable v.

Definition map (v p flags : Z) (early : bool) : M estate unit :=
  let v := mask_to_page v in
  let pdi := get_pd_index v in
  let pti := get_pt_index v in
  pde <- enable (new_kernel_pd + 4 * pdi) early ;;
  e <- ld32 pde ;;
  when (pde_get_paddr e =? PHYS_NULL)
    (let ptp := km_paddr (new_kernel_page_tables + 4 * (pdi * PT_LENGTH)) in
     st32 pde (pde_construct ptp (Z.lor flags PAGE_BIT_PRESENT))) ;;;
  e <- ld32 pde ;;
  when (has flags PAGE_BIT_RW && negb (has e PAGE_BIT_RW)) (st32 pde (Z.lor e PAGE_BIT_RW)) ;;;
  pte <- enable (new_kernel_page_tables + 4 * (pdi * PT_LENGTH + pti)) early ;;
  st32 pte (pte_construct p (Z.lor flags PAGE_BIT_PRESENT)).

(** The loop over the pages; one iteration per page is enough. *)
Fixpoint map_pages (fuel : nat) (vfrom pfrom pto flags : Z) (early : bool) : M estate unit :=
  if negb (pfrom <? pto) then ret tt else
  match fuel with
  | O => hang
  | S fuel' =>
      map vfrom pfrom flags early ;;;
      map_pages fuel' (u32 (vfrom + PAGE_SIZE)) (u32 (pfrom + PAGE_SIZE)) pto flags early
  end.

Definition map_region (vfrom pfrom pto flags : Z) (early : bool) : M estate unit :=
  map_pages (Z.to_nat ((pto - pfrom + PAGE_SIZE - 1) / PAGE_SIZE)) vfrom pfrom pto flags early.

Definition map_region_object (region : vm_region) (early : bool) : M estate unit :=
  map_region (vbase region) (pbase region) (u32 (pbase region + rsize region)) (rpflags region) early.

Definition mark (v pflags : Z) (early : bool) : M estate unit :=
  let v := mask_to_page v in
  let pdi := get_pd_index v in
  pde <- enable (new_kernel_pd + 4 * pdi) early ;;
  e <- ld32 pde ;;
  st32 pde (Z.lor e pflags).

Fixpoint mark_pages (fuel : nat) (vfrom vto pflags : Z) (early : bool) : M estate unit :=
  if negb (vfrom <? vto) then ret tt else
  match fuel with
  | O => hang
  | S fuel' => mark vfrom pflags early ;;; mark_pages fuel' (u32 (vfrom + PAGE_SIZE)) vto pflags early
  end.

Definition mark_region (vfrom vto pflags : Z) (early : bool) : M estate unit :=
  mark_pages (Z.to_nat ((vto - vfrom + PAGE_SIZE - 1) / PAGE_SIZE)) vfrom vto pflags early.

Definition mark_region_object (region : vm_region) (pflags : Z) (early : bool) : M estate unit :=
  mark_region (vbase region) (u32 (vbase region + rsize region)) (Z.lor (rpflags region) pflags) early.

Definition add_self_ref (pdi flags : Z) (early : bool) : M estate unit :=
  pde <- enable (new_kernel_pd + 4 * pdi) early ;;
  st32 pde (pde_construct (km_paddr new_kernel_pd) (Z.lor flags (Z.lor PAGE_BIT_RW PAGE_BIT_PRESENT))).

(** [for (i = 0; i < VM_NOF_REGIONS; i++) f(&vm_map[i])]. *)
Fixpoint for_regions (f : vm_region → M estate unit) (l : list vm_region) : M estate unit :=
  match l with
  | [] => ret tt
  | r :: l' => f r ;;; for_regions f l'
  end.

Definition early_asserts : M estate unit :=
  let sy := b_sy b in
  early_kassert (is_symbol_aligned_to_page (kernel_virtual_offset b)) ;;;
  early_kassert (is_symbol_aligned_to_page (kernel_low_begin sy)) ;;;
  early_kassert (is_symbol_aligned_to_page (kernel_low_end sy)) ;;;
  early_kassert (is_symbol_aligned_to_page (kernel_mem_ro_begin sy)) ;;;
  early_kassert (is_symbol_aligned_to_page (kernel_mem_ro_end sy)) ;;;
  early_kassert (is_symbol_aligned_to_page (kernel_mem_rw_begin sy)) ;;;
  early_kassert (is_symbol_aligned_to_page (kernel_mem_rw_end sy)) ;;;
  early_kassert (is_symbol_aligned_to_page (kernel_mem_break sy)) ;;;
  early_kassert (is_symbol_aligned_to_page (kernel_ap_entry_begin sy)) ;;;
  early_kassert (is_symbol_aligned_to_page (kernel_ap_entry_end sy)) ;;;
  early_kassert (is_symbol_aligned_to_page (sym_kernel_pd b)) ;;;
  early_kassert (is_symbol_aligned_to_page (sym_kernel_page_tables b)) ;;;
  early_kassert (KM_VIRT_BASE =? kernel_virtual_offset b) ;;;
  early_kassert (KM_EXEC_VIRT_BASE =? kernel_mem_ro_begin sy).

(** The executable part, mapped while the boot tables are in use. *)
Definition map_executable (r : vm_region) : M estate unit :=
  when (has (rflags r) VM_BIT_STATIC && has (rflags r) VM_BIT_EXECUTABLE) (map_region_object r true).
Definition map_rest (r : vm_region) : M estate unit :=
  when (has (rflags r) VM_BIT_STATIC && negb (has (rflags r) VM_BIT_EXECUTABLE)) (map_region_object r false).

(** One iteration of the loop that fills in the page table addresses. *)
Definition fill_entry (i : Z) : M estate unit :=
  e <- ld32 (new_kernel_pd + 4 * i) ;;
  when (pde_get_paddr e =? PHYS_NULL)
    (st32 (new_kernel_pd + 4 * i) (Z.lor e (km_paddr (new_kernel_page_tables + 4 * (i * PT_LENGTH))))).

Definition early_init_kernel_paging : M estate unit :=
  early_asserts ;;;
  for_regions map_executable boot_vm_map ;;;
  add_self_ref CURRENT_PD_INDEX 0 true ;;;
  asm_set_cr3 (km_paddr new_kernel_pd) ;;;
  for_regions map_rest boot_vm_map ;;;
  for_up (Z.to_nat PD_LENGTH) 0 fill_entry ;;;
  for_regions (fun r => mark_region_object r PAGE_BIT_PRESENT false) boot_vm_map ;;;
  asm_set_cr3 (km_paddr new_kernel_pd).

(** ** What the linker and the boot code provide *)

Record boot_layout : Prop := {
  bl_layout : layout_ok (b_sy b);
  bl_offset : kernel_virtual_offset b = KM_VIRT_BASE;
  bl_aligned : Forall (fun x => x mod PAGE_SIZE = 0)
    [boot_stack_top (b_sy b); boot_stack_bottom (b_sy b); kernel_mem_ro_end (b_sy b); kernel_mem_rw_begin (b_sy b);
     kernel_mem_rw_end (b_sy b); kernel_ap_entry_begin (b_sy b); kernel_ap_entry_end (b_sy b);
     sym_kernel_pd b; sym_kernel_page_tables b; tmp_page b];
  bl_ap : is_u32 (kernel_ap_entry_begin (b_sy b)) ∧ is_u32 (kernel_ap_entry_end (b_sy b));
  bl_pd : kernel_mem_rw_begin (b_sy b) ≤ sym_kernel_pd b;
  bl_tables : sym_kernel_pd b + PAGE_SIZE ≤ sym_kernel_page_tables b;
  bl_tables_end : sym_kernel_page_tables b + 2 ^ 22 ≤ kernel_mem_rw_end (b_sy b);
  bl_tmp : KM_VIRT_BASE ≤ tmp_page b < KM_VIRT_BASE + 2 ^ 22;
}.

(** The physical addresses of the new directory and of its tables. *)
Definition pd : Z := sym_kernel_pd b - KM_VIRT_BASE.
Definition pt : Z := sym_kernel_page_tables b - KM_VIRT_BASE.

Definition apart (a : Z) : Prop :=
  (a + 4096 ≤ pd ∨ pd + 4096 ≤ a) ∧ (a + 4096 ≤ pt ∨ pt + 2 ^ 22 ≤ a).

(** The boot tables at [bp] and [zp]: the directory maps itself at the top and the table of
    the first four megabytes at [KM_VIRT_BASE]; both lie outside the new structures. *)
Record boot_tables (bp zp : Z) (m : mem) : Prop := {
  bt_pages : is_u32 bp ∧ is_u32 zp ∧ bp mod PAGE_SIZE = 0 ∧ zp mod PAGE_SIZE = 0 ∧ bp ≠ zp;
  bt_apart : apart bp ∧ apart zp;
  bt_self : load32 m (bp + 4 * 1023) = pte_construct bp 3;
  bt_zero : load32 m (bp + 4 * 768) = pte_construct zp 3;
}.

(** The new structures hold the directory [D] and the table entries [T]. *)
Record tabs (D T : Z → Z) (m : mem) : Prop := {
  tb_bytes : byte_mem m;
  tb_dir : ∀ i, 0 ≤ i < 1024 → load32 m (pd + 4 * i) = D i;
  tb_tab : ∀ n, 0 ≤ n < 2 ^ 20 → load32 m (pt + 4 * n) = T n;
}.

(** ** Lemmas: entries and addresses *)

Context (HB : boot_layout).

Definition upd (k v : Z) (f : Z → Z) : Z → Z := fun x => if x =? k then v else f x.

Lemma boot_upd_eq k v f : upd k v f k = v.
Proof. unfold upd. by rewrite Z.eqb_refl. Qed.
Lemma boot_upd_ne k v f x : x ≠ k → upd k v f x = f x.
Proof. intros H. unfold upd. by rewrite (proj2 (Z.eqb_neq x k)). Qed.

Lemma layout_facts :
  0 < pd ∧ pd mod 4096 = 0 ∧ pd + 4096 ≤ pt ∧ pt mod 4096 = 0 ∧ pt + 2 ^ 22 ≤ 0x3E000000 ∧
  sym_kernel_pd b = pd + KM_VIRT_BASE ∧ sym_kernel_page_tables b = pt + KM_VIRT_BASE.
Proof.
  destruct HB as [[L1 L2 L3 L4 L5 L6 L7 L8 L9 L10 L11 L12] _ Ha _ H1 H2 H3 _].
  rewrite !Forall_cons in Ha. destruct Ha as (_ & _ & _ & _ & _ & _ & _ & A1 & A2 & _).
  unfold pd, pt, KM_VIRT_BASE, KM_PHYS_BASE, PAGE_SIZE in *. split; [lia|]. split; [dlia|]. split; [lia|].
  split; [dlia|]. lia.
Qed.

Lemma pd_index v : is_u32 v → get_pd_index v = v / 2 ^ 22.
Proof. intros H. unfold get_pd_index. by rewrite u32_small, Z.shiftr_div_pow2 by (done || lia). Qed.

Lemma pt_index v : is_u32 v → get_pt_index v = v / 4096 mod 1024.
Proof.
  intros H. unfold get_pt_index. rewrite u32_small, Z.shiftr_div_pow2 by (done || lia).
  change 0x3FF with (Z.ones 10). by rewrite Z.land_ones by lia.
Qed.

Lemma sub_page v : 0 ≤ v → get_sub_page_addr v = v mod 4096.
Proof.
  intros H. unfold get_sub_page_addr. change (PAGE_SIZE - 1) with (Z.ones 12). by rewrite Z.land_ones by lia.
Qed.

(** Reading an entry whose frame and flags are known. *)
Lemma entry_frame a f : is_u32 a → a mod 4096 = 0 → pde_get_paddr (pte_construct a f) = a.
Proof.
  intros Ha Hm. change (pte_construct a f) with (pde_construct a f). rewrite frame_construct by done.
  by apply frame_aligned.
Qed.

Lemma entry_has a f g : Z.land 0xFFFFF000 g = 0 → Z.land 0xFFF g = g → has (pte_construct a f) g = has f g.
Proof. apply construct_has. Qed.

(** A page reached through entries with both bits set can be read and written. *)
Definition open_entry (e a : Z) : Prop :=
  pde_get_paddr e = a ∧ has e PAGE_BIT_PRESENT = true ∧ has e PAGE_BIT_RW = true.

Lemma walk_open m cr3 v w a q :
  is_u32 v → pde_get_paddr cr3 = cr3 →
  open_entry (load32 m (cr3 + 4 * (v / 2 ^ 22))) a → open_entry (load32 m (a + 4 * (v / 4096 mod 1024))) q →
  walk m cr3 v w = Some (q + v mod 4096).
Proof.
  intros Hv Hc (A1 & A2 & A3) (B1 & B2 & B3). unfold walk. rewrite Hc, pd_index, pt_index by done.
  rewrite A2, A3, A1, B2, B3. unfold is_u32 in Hv. rewrite sub_page by lia. change (pte_get_paddr ?e) with (pde_get_paddr e).
  rewrite B1. by destruct w.
Qed.

Lemma open_construct a : is_u32 a → a mod 4096 = 0 → open_entry (pte_construct a 3) a.
Proof. intros H1 H2. split; [by apply entry_frame|]. by rewrite !entry_has. Qed.

(** ** Lemmas: reaching the new structures *)

(** [q] is the address of an entry of the new structures. *)
Definition slot (q : Z) : Prop := q mod 4 = 0 ∧ (pd ≤ q < pd + 4096 ∨ pt ≤ q < pt + 2 ^ 22).

(** The tables map the new structures themselves. *)
Definition access (D T : Z → Z) : Prop := ∀ q, slot q →
  let n := (q + KM_VIRT_BASE) / 4096 in
  open_entry (D (n / 1024)) (pt + 4096 * (n / 1024)) ∧ open_entry (T n) (q - q mod 4096).

(** The state in either half: through the boot tables, where [tmp_page] shows the page of
    [q], or through the new ones. *)
Definition inmode (bp zp : Z) (early : bool) (q : Z) (D T : Z → Z) (s : estate) : Prop :=
  tabs D T (e_mem s) ∧
  if early then e_cr3 s = bp ∧ boot_tables bp zp (e_mem s) ∧
    (slot q → open_entry (load32 (e_mem s) (zp + 4 * get_pt_index (tmp_page b))) (q - q mod 4096))
  else e_cr3 s = pd ∧ access D T.

(** The pointer [enable] returns for [q]. *)
Definition ptr (early : bool) (q : Z) : Z := if early then tmp_page b + q mod 4096 else q + KM_VIRT_BASE.

Lemma slot_range q : slot q → 0 < q < 0x3E000000.
Proof. destruct layout_facts as (? & ? & ? & ? & ? & _). unfold slot. lia. Qed.

Lemma tmp_index : get_pd_index (tmp_page b) = 768 ∧ is_u32 (tmp_page b) ∧ tmp_page b mod 4096 = 0 ∧
  0 ≤ get_pt_index (tmp_page b) < 1024 ∧ get_pt_index (tmp_page b) = tmp_page b / 4096 mod 1024.
Proof.
  destruct HB as [_ _ Ha _ _ _ _ H]. rewrite !Forall_cons in Ha. destruct Ha as (_ & _ & _ & _ & _ & _ & _ & _ & _ & A & _).
  unfold KM_VIRT_BASE, KM_PHYS_BASE, PAGE_SIZE in *. assert (Hu : is_u32 (tmp_page b)) by (unfold is_u32; lia).
  rewrite pd_index, pt_index by done. split; [dlia|]. split; [done|]. split; [done|]. split; [dlia|done].
Qed.

Lemma window bp zp early q D T s w :
  inmode bp zp early q D T s → slot q → walk (e_mem s) (e_cr3 s) (ptr early q) w = Some q.
Proof.
  intros [[H1 H2 H3] H] Hq. pose proof (slot_range q Hq) as Hr. destruct layout_facts as (P1 & P2 & P3 & P4 & P5 & _).
  unfold ptr. destruct early.
  - destruct H as (-> & [(B1 & B2 & B3 & B4 & B5) _ B6 B7] & Hs). specialize (Hs Hq).
    destruct tmp_index as (T1 & T2 & T3 & T4 & T5).
    destruct HB as [_ _ _ _ _ _ _ Hb]. unfold PAGE_SIZE, KM_VIRT_BASE, KM_PHYS_BASE in *.
    assert (Hv : is_u32 (tmp_page b + q mod 4096)) by (unfold is_u32; dlia).
    rewrite (walk_open _ bp _ w zp (q - q mod 4096)); [f_equal; dlia|done|by apply frame_aligned| |].
    + replace ((tmp_page b + q mod 4096) / 2 ^ 22) with 768 by dlia. rewrite B7. by apply open_construct.
    + replace ((tmp_page b + q mod 4096) / 4096 mod 1024) with (get_pt_index (tmp_page b)); [done|]. rewrite T5. f_equal. dlia.
  - destruct H as [-> Ha]. destruct (Ha q Hq) as [A1 A2]. unfold KM_VIRT_BASE, KM_PHYS_BASE in *.
    set (v := q + (0xC0000000 + 0)) in *. assert (Hv : is_u32 v) by (unfold is_u32; lia).
    rewrite (walk_open _ pd _ w (pt + 4096 * (v / 4096 / 1024)) (q - q mod 4096)); [f_equal; dlia|done| | |].
    + apply frame_aligned; [unfold is_u32; lia|done].
    + rewrite H2 by dlia. replace (v / 2 ^ 22) with (v / 4096 / 1024) by dlia. done.
    + replace (pt + 4096 * (v / 4096 / 1024) + 4 * (v / 4096 mod 1024)) with (pt + 4 * (v / 4096)) by dlia.
      rewrite H3 by (unfold v in *; dlia). done.
Qed.

Lemma ld_run bp zp early q D T s :
  inmode bp zp early q D T s → slot q → ld32 (ptr early q) s = Done (load32 (e_mem s) q, s).
Proof.
  intros H Hq. unfold ld32, bind, get. by rewrite (window _ _ _ _ _ _ _ false H Hq).
Qed.

(** A store to a slot keeps the boot tables. *)
Lemma store_outside m q a x : slot q → apart a → 0 ≤ x < 1024 → a mod 4096 = 0 → ∀ w, load32 (store32 m q w) (a + 4 * x) = load32 m (a + 4 * x).
Proof.
  intros [Hm Hq] [H1 H2] Hx Ha w. apply load32_store32_ne. destruct layout_facts as (_ & P2 & _ & P4 & _).
  assert (q + 4 ≤ pd + 4096 ∨ pd + 4096 ≤ q) by dlia. assert (q + 4 ≤ pt + 2 ^ 22 ∨ pt + 2 ^ 22 ≤ q) by dlia. lia.
Qed.

Lemma st_run bp zp early q D T D' T' s w :
  inmode bp zp early q D T s → slot q → is_u32 w →
  (∀ i, 0 ≤ i < 1024 → D' i = if pd + 4 * i =? q then w else D i) →
  (∀ n, 0 ≤ n < 2 ^ 20 → T' n = if pt + 4 * n =? q then w else T n) →
  (early = false → access D' T') →
  ∃ s', st32 (ptr early q) w s = Done (tt, s') ∧ inmode bp zp early q D' T' s'.
Proof.
  intros H Hq Hw HD HT Ha. eexists. split.
  { unfold st32, bind, get. by rewrite (window _ _ _ _ _ _ _ true H Hq). }
  destruct H as [[H1 H2 H3] H]. split.
  - split; cbn; [by apply byte_mem_store32|..].
    + intros i Hi. rewrite HD by done. destruct (Z.eqb_spec (pd + 4 * i) q) as [<-|Hne]; [by apply load32_store32_eq|].
      destruct Hq as [Hm _]. destruct layout_facts as (_ & P2 & _). rewrite load32_store32_ne by dlia. by apply H2.
    + intros n Hn. rewrite HT by done. destruct (Z.eqb_spec (pt + 4 * n) q) as [<-|Hne]; [by apply load32_store32_eq|].
      destruct Hq as [Hm _]. destruct layout_facts as (_ & _ & _ & P4 & _). rewrite load32_store32_ne by dlia. by apply H3.
  - destruct early; [|split; [apply H|by apply Ha]]. destruct H as (E & [B1 B2 B3 B4] & Hs). cbn.
    split; [done|]. destruct B1 as (? & ? & ? & ? & ?). destruct B2 as [A1 A2]. unfold PAGE_SIZE in *.
    destruct tmp_index as (_ & _ & _ & T4 & _). split.
    + split; try done; rewrite store_outside by (done || lia); done.
    + intros _. rewrite store_outside by (done || lia). by apply Hs.
Qed.

(** Making an entry reachable. *)
Lemma enable_run bp zp early q0 q D T s :
  inmode bp zp early q0 D T s → slot q →
  ∃ s', enable (q + KM_VIRT_BASE) early s = Done (ptr early q, s') ∧ inmode bp zp early q D T s'.
Proof.
  intros [Ht H] Hq. pose proof (slot_range q Hq) as Hr. unfold enable. destruct early; [|exists s; split; [done|]; by split].
  destruct H as (Hc & [(B1 & B2 & B3 & B4 & B5) [A1 A2] B6 B7] & Hs). destruct tmp_index as (T1 & T2 & T3 & T4 & T5).
  unfold early_enable. set (x := get_pt_index (tmp_page b)) in *. rewrite T1. unfold page_tables, PAGE_SIZE in *.
  change PT_LENGTH with 1024. set (v := 0xFFC00000 + 4 * (768 * 1024 + x)).
  assert (Hw : walk (e_mem s) (e_cr3 s) v true = Some (zp + 4 * x)).
  { rewrite Hc. rewrite (walk_open _ bp v true bp zp); [f_equal; unfold v; dlia|unfold is_u32, v; lia|by apply frame_aligned| |].
    - replace (v / 2 ^ 22) with 1023 by (unfold v; dlia). rewrite B6. by apply open_construct.
    - replace (v / 4096 mod 1024) with 768 by (unfold v; dlia). rewrite B7. by apply open_construct. }
  assert (Hk : km_paddr (q + KM_VIRT_BASE) = q) by (unfold km_paddr, KM_VIRT_BASE, KM_PHYS_BASE; rewrite u32_small by lia; lia).
  rewrite Hk. change (Z.lor PAGE_BIT_RW PAGE_BIT_PRESENT) with 3. eexists. split.
  { unfold st32, bind, get. rewrite Hw. unfold ptr, modify, ret. rewrite sub_page by (unfold KM_VIRT_BASE, KM_PHYS_BASE; lia).
    replace ((q + KM_VIRT_BASE) mod 4096) with (q mod 4096) by (unfold KM_VIRT_BASE, KM_PHYS_BASE; dlia). reflexivity. }
  assert (Hu : is_u32 (pte_construct q 3)) by (apply construct_range; unfold is_u32; lia).
  destruct Ht as [H1 H2 H3]. destruct layout_facts as (P1 & P2 & P3 & P4 & P5 & _). unfold apart in A1, A2.
  split; [split; cbn; [by apply byte_mem_store32|intros; rewrite load32_store32_ne by lia; auto..]|]. cbn.
  split; [done|]. split.
  - assert (bp + 4096 ≤ zp ∨ zp + 4096 ≤ bp) by dlia. split; try done; rewrite load32_store32_ne by lia; done.
  - intros _. rewrite load32_store32_eq by done. split; [|by rewrite !entry_has].
    change (pte_construct q 3) with (pde_construct q 3). rewrite frame_construct by (unfold is_u32; lia).
    unfold pde_get_paddr. by rewrite land_page_mask by lia.
Qed.

(** ** Lemmas: one page *)

Lemma access_ext D T D' T' :
  access D T → (∀ i, 0 ≤ i < 1024 → D' i = D i) → (∀ n, 0 ≤ n < 2 ^ 20 → T' n = T n) → access D' T'.
Proof.
  intros H HD HT q Hq n. pose proof (slot_range q Hq) as Hr. destruct (H q Hq) as [A1 A2].
  assert (0 ≤ n < 2 ^ 20) by (unfold n, KM_VIRT_BASE, KM_PHYS_BASE; dlia). rewrite HD, HT by dlia. done.
Qed.

Lemma inmode_ext bp zp early q D T D' T' s :
  inmode bp zp early q D T s → (∀ i, 0 ≤ i < 1024 → D' i = D i) → (∀ n, 0 ≤ n < 2 ^ 20 → T' n = T n) →
  inmode bp zp early q D' T' s.
Proof.
  intros [[H1 H2 H3] H] HD HT. split; [split; [done|..]|].
  - intros i Hi. rewrite HD by done. by apply H2.
  - intros n Hn. rewrite HT by done. by apply H3.
  - destruct early; [done|]. destruct H as [Hc Ha]. split; [done|]. by apply (access_ext D T).
Qed.

Lemma access_dir D T i w :
  access D T → (open_entry (D i) (pt + 4096 * i) → open_entry w (pt + 4096 * i)) → access (upd i w D) T.
Proof.
  intros H Hw q Hq n. destruct (H q Hq) as [A1 A2]. fold n in A1, A2. split; [|done].
  destruct (decide (n / 1024 = i)) as [<-|Hne]; [rewrite boot_upd_eq; by apply Hw|by rewrite boot_upd_ne].
Qed.

(** The pages of the new structures. *)
Definition own_page (n : Z) : Prop := ∃ q, slot q ∧ n = (q + KM_VIRT_BASE) / 4096.

Lemma access_tab D T n w : access D T → ¬ own_page n → access D (upd n w T).
Proof.
  intros H Hn q Hq k. destruct (H q Hq) as [A1 A2]. fold k in A1, A2. split; [done|].
  rewrite boot_upd_ne; [done|]. intros <-. apply Hn. by exists q.
Qed.

Lemma dir_slot_ok i : 0 ≤ i < 1024 → slot (pd + 4 * i).
Proof. intros H. destruct layout_facts as (_ & P2 & _). unfold slot. split; [dlia|lia]. Qed.

Lemma tab_slot_ok n : 0 ≤ n < 2 ^ 20 → slot (pt + 4 * n).
Proof. intros H. destruct layout_facts as (_ & _ & _ & P4 & _). unfold slot. split; [dlia|lia]. Qed.

Lemma dir_load bp zp early q D T s i : inmode bp zp early q D T s → 0 ≤ i < 1024 → load32 (e_mem s) (pd + 4 * i) = D i ∧ is_u32 (D i).
Proof. intros [[H1 H2 _] _] Hi. rewrite <- H2 by done. split; [done|]. by apply load32_range. Qed.

(** A store to a directory entry, under a condition. *)
Lemma dir_store bp zp early i D T s (c : bool) w :
  inmode bp zp early (pd + 4 * i) D T s → 0 ≤ i < 1024 → is_u32 w →
  (open_entry (D i) (pt + 4096 * i) → open_entry w (pt + 4096 * i)) →
  ∃ s', when c (st32 (ptr early (pd + 4 * i)) w) s = Done (tt, s') ∧
        inmode bp zp early (pd + 4 * i) (upd i (if c then w else D i) D) T s'.
Proof.
  intros H Hi Hw Ho. destruct layout_facts as (P1 & P2 & P3 & P4 & P5 & _). destruct c; cbn [when].
  - apply (st_run bp zp early (pd + 4 * i) D T); try done.
    + by apply dir_slot_ok.
    + intros j Hj. unfold upd. destruct (Z.eqb_spec j i), (Z.eqb_spec (pd + 4 * j) (pd + 4 * i)); done || lia.
    + intros n Hn. by rewrite (proj2 (Z.eqb_neq _ _)) by lia.
    + intros ->. apply access_dir; [apply H|done].
  - exists s. split; [done|]. apply (inmode_ext bp zp early _ D T); try done.
    intros j Hj. unfold upd. by destruct (Z.eqb_spec j i) as [->|].
Qed.

(** What [map] makes of a directory entry. *)
Definition dm (flags i e : Z) : Z :=
  let e1 := if pde_get_paddr e =? PHYS_NULL then pde_construct (pt + 4096 * i) (Z.lor flags PAGE_BIT_PRESENT) else e in
  if has flags PAGE_BIT_RW && negb (has e1 PAGE_BIT_RW) then Z.lor e1 PAGE_BIT_RW else e1.

Lemma table_addr i : 0 ≤ i < 1024 → is_u32 (pt + 4096 * i) ∧ (pt + 4096 * i) mod 4096 = 0 ∧ 0 < pt + 4096 * i ∧
  km_paddr (new_kernel_page_tables + 4 * (i * PT_LENGTH)) = pt + 4096 * i.
Proof.
  intros H. destruct layout_facts as (P1 & P2 & P3 & P4 & P5 & _ & P7). unfold is_u32, new_kernel_page_tables, km_paddr.
  change PT_LENGTH with 1024. rewrite P7. unfold KM_VIRT_BASE, KM_PHYS_BASE. rewrite u32_small by lia.
  split; [lia|]. split; [dlia|]. lia.
Qed.

Lemma open_lor e a f : open_entry e a → 0 ≤ f < 4096 → open_entry (Z.lor e f) a.
Proof. intros (H1 & H2 & H3) Hf. split; [by rewrite frame_lor|]. by rewrite !has_lor, H2, H3. Qed.

Lemma page_indices n : 0 ≤ n < 2 ^ 20 →
  mask_to_page (4096 * n) = 4096 * n ∧ get_pd_index (4096 * n) = n / 1024 ∧ get_pt_index (4096 * n) = n mod 1024 ∧
  0 ≤ n / 1024 < 1024 ∧ n / 1024 * 1024 + n mod 1024 = n.
Proof.
  intros H. assert (Hu : is_u32 (4096 * n)) by (unfold is_u32; lia).
  split; [apply mask_aligned; [done|unfold PAGE_SIZE; dlia]|]. rewrite pd_index, pt_index by done.
  split; [dlia|]. split; [f_equal; dlia|]. dlia.
Qed.

Lemma map_run bp zp early q D T s n p flags :
  inmode bp zp early q D T s → 0 ≤ n < 2 ^ 20 → is_u32 p → 0 ≤ flags < 4096 → (early = false → ¬ own_page n) →
  ∃ s' q', map (4096 * n) p flags early s = Done (tt, s') ∧
    inmode bp zp early q' (upd (n / 1024) (dm flags (n / 1024) (D (n / 1024))) D)
      (upd n (pte_construct p (Z.lor flags PAGE_BIT_PRESENT)) T) s'.
Proof.
  intros H Hn Hp Hf Ho. destruct (page_indices n Hn) as (E1 & E2 & E3 & Hi & E4). unfold map. rewrite E1, E2, E3.
  set (i := n / 1024) in *. destruct layout_facts as (_ & _ & _ & _ & _ & P6 & P7).
  destruct (table_addr i Hi) as (B1 & B2 & B3 & B4).
  replace (new_kernel_pd + 4 * i) with (pd + 4 * i + KM_VIRT_BASE) by (unfold new_kernel_pd; lia).
  destruct (enable_run bp zp early q (pd + 4 * i) D T s H (dir_slot_ok i Hi)) as (s1 & R1 & H1).
  rewrite (bind_run _ _ _ _ _ R1), (bind_run _ _ _ _ _ (ld_run _ _ _ _ _ _ _ H1 (dir_slot_ok i Hi))).
  destruct (dir_load _ _ _ _ _ _ _ i H1 Hi) as [-> U1]. rewrite B4.
  set (w1 := pde_construct (pt + 4096 * i) (Z.lor flags PAGE_BIT_PRESENT)).
  assert (Hw1 : pde_get_paddr w1 = pt + 4096 * i) by by apply (entry_frame (pt + 4096 * i)).
  assert (Hst : ∃ s2, when (pde_get_paddr (D i) =? PHYS_NULL) (st32 (ptr early (pd + 4 * i)) w1) s1 = Done (tt, s2) ∧
    inmode bp zp early (pd + 4 * i) (upd i (if pde_get_paddr (D i) =? PHYS_NULL then w1 else D i) D) T s2).
  { destruct (Z.eqb_spec (pde_get_paddr (D i)) PHYS_NULL) as [E0|E0].
    - apply (dir_store bp zp early i D T s1 true w1 H1 Hi); [by apply construct_range|]. intros [G _]. unfold PHYS_NULL in *. lia.
    - apply (dir_store bp zp early i D T s1 false (D i) H1 Hi U1). done. }
  destruct Hst as (s2 & R2 & H2). rewrite (bind_run _ _ _ _ _ R2).
  set (e1 := if pde_get_paddr (D i) =? PHYS_NULL then w1 else D i) in *.
  rewrite (bind_run _ _ _ _ _ (ld_run _ _ _ _ _ _ _ H2 (dir_slot_ok i Hi))).
  destruct (dir_load _ _ _ _ _ _ _ i H2 Hi) as [-> U2]. rewrite boot_upd_eq in *.
  destruct (dir_store bp zp early i _ T s2 (has flags PAGE_BIT_RW && negb (has e1 PAGE_BIT_RW)) (Z.lor e1 PAGE_BIT_RW) H2 Hi)
    as (s3 & R3 & H3); [apply lor_u32; [done|unfold is_u32, PAGE_BIT_RW; lia]|rewrite boot_upd_eq; intros G; by apply open_lor|].
  rewrite (bind_run _ _ _ _ _ R3). rewrite boot_upd_eq in H3.
  replace (new_kernel_page_tables + 4 * (i * PT_LENGTH + n mod 1024)) with (pt + 4 * n + KM_VIRT_BASE)
    by (unfold new_kernel_page_tables; change PT_LENGTH with 1024; lia).
  destruct (enable_run bp zp early _ (pt + 4 * n) _ T s3 H3 (tab_slot_ok n Hn)) as (s4 & R4 & H4).
  rewrite (bind_run _ _ _ _ _ R4). set (D4 := upd i _ (upd i e1 D)) in H4.
  set (wt := pte_construct p (Z.lor flags PAGE_BIT_PRESENT)).
  destruct (st_run bp zp early (pt + 4 * n) D4 T D4 (upd n wt T) s4 wt H4 (tab_slot_ok n Hn)) as (s5 & R5 & H5).
  - by apply construct_range.
  - intros j Hj. destruct layout_facts as (? & ? & ? & _). by rewrite (proj2 (Z.eqb_neq _ _)) by lia.
  - intros j Hj. unfold upd. destruct (Z.eqb_spec j n), (Z.eqb_spec (pt + 4 * j) (pt + 4 * n)); done || lia.
  - intros He. apply access_tab; [|by apply Ho]. rewrite He in H4. apply H4.
  - exists s5, (pt + 4 * n). split; [done|]. apply (inmode_ext _ _ _ _ D4 (upd n wt T)); [done| |done].
    intros j Hj. unfold D4, upd, dm. fold w1. fold e1. by destruct (j =? i).
Qed.

(** ** Lemmas: the loops *)

(** A run of [k] pages from page [n] has a page in the [i]th table. *)
Definition touched (n k i : Z) : bool := (n <=? 1024 * i + 1023) && (1024 * i <? n + k) && (0 <? k).

Lemma touched_spec n k i : touched n k i = true ↔ ∃ j, n ≤ j < n + k ∧ j / 1024 = i.
Proof.
  unfold touched. split.
  - intros H. zbool. exists (Z.max n (1024 * i)). dlia.
  - intros (j & Hj & <-). rewrite !andb_true_iff, Z.leb_le, !Z.ltb_lt. dlia.
Qed.

Definition dmaps (flags n k : Z) (D : Z → Z) : Z → Z := fun i => if touched n k i then dm flags i (D i) else D i.
Definition tmaps (flags n k p : Z) (T : Z → Z) : Z → Z := fun j =>
  if (n <=? j) && (j <? n + k) then pte_construct (p + 4096 * (j - n)) (Z.lor flags PAGE_BIT_PRESENT) else T j.

Lemma dm_frame flags i e : 0 ≤ i < 1024 →
  pde_get_paddr (dm flags i e) = (if pde_get_paddr e =? PHYS_NULL then pt + 4096 * i else pde_get_paddr e) ∧
  pde_get_paddr (dm flags i e) ≠ PHYS_NULL.
Proof.
  intros Hi. destruct (table_addr i Hi) as (B1 & B2 & B3 & _). unfold dm. cbn zeta.
  set (e1 := if pde_get_paddr e =? PHYS_NULL then _ else e).
  assert (He1 : pde_get_paddr e1 = if pde_get_paddr e =? PHYS_NULL then pt + 4096 * i else pde_get_paddr e).
  { unfold e1. destruct (_ =? _); [by apply (entry_frame (pt + 4096 * i))|done]. }
  assert (G : pde_get_paddr (if has flags PAGE_BIT_RW && negb (has e1 PAGE_BIT_RW) then Z.lor e1 PAGE_BIT_RW else e1) = pde_get_paddr e1).
  { destruct (_ && _); [apply frame_lor; unfold PAGE_BIT_RW; lia|done]. }
  rewrite G, He1. split; [done|]. destruct (Z.eqb_spec (pde_get_paddr e) PHYS_NULL); unfold PHYS_NULL in *; lia.
Qed.

Lemma dm_rw flags i e : has flags PAGE_BIT_RW = true → has (dm flags i e) PAGE_BIT_RW = true.
Proof.
  intros H. unfold dm. rewrite H. cbn zeta. set (e1 := if _ : bool then _ else e).
  destruct (has e1 PAGE_BIT_RW) eqn:E; cbn [andb negb]; [done|]. by rewrite has_lor, E.
Qed.

Lemma dm_idem flags i e : 0 ≤ i < 1024 → dm flags i (dm flags i e) = dm flags i e.
Proof.
  intros Hi. destruct (dm_frame flags i e Hi) as [_ H]. unfold dm at 1. cbn zeta.
  rewrite (proj2 (Z.eqb_neq _ _) H). destruct (has flags PAGE_BIT_RW) eqn:E; cbn [andb]; [|done].
  by rewrite dm_rw.
Qed.

(** A function applied to the entries of a run of pages one by one, if applying it again
    changes nothing, is applied to every table the run touches. *)
Lemma touch_step (g : Z → Z → Z) n k D i :
  (∀ j e, 0 ≤ j < 1024 → g j (g j e) = g j e) → 0 ≤ i < 1024 → 0 ≤ k →
  (if touched (n + 1) k i then g i (upd (n / 1024) (g (n / 1024) (D (n / 1024))) D i)
   else upd (n / 1024) (g (n / 1024) (D (n / 1024))) D i) =
  (if touched n (k + 1) i then g i (D i) else D i).
Proof.
  intros Hg Hi Hk. unfold upd. destruct (touched n (k + 1) i) eqn:E.
  - apply touched_spec in E as (j & Hj & <-). destruct (Z.eqb_spec (j / 1024) (n / 1024)) as [E|E].
    + rewrite E in *. destruct (touched _ _ _); [by apply Hg|done].
    + rewrite (proj2 (touched_spec (n + 1) k (j / 1024))); [done|]. exists j. split; [|done]. destruct (decide (j = n)); [congruence|lia].
  - destruct (touched (n + 1) k i) eqn:E2.
    { exfalso. apply touched_spec in E2 as (j & Hj & <-). apply not_true_iff_false in E. apply E, touched_spec. exists j. split; [lia|done]. }
    destruct (Z.eqb_spec i (n / 1024)) as [->|]; [|done]. exfalso. apply not_true_iff_false in E. apply E, touched_spec.
    exists n. split; [lia|done].
Qed.

Lemma map_pages_run bp zp early flags : 0 ≤ flags < 4096 → ∀ k n p q D T s,
  inmode bp zp early q D T s → 0 ≤ n → n + Z.of_nat k ≤ 1023 * 1024 → 0 ≤ p → p + 4096 * Z.of_nat k < 2 ^ 32 →
  (early = false → ∀ j, n ≤ j < n + Z.of_nat k → ¬ own_page j) →
  ∃ s' q', map_pages k (4096 * n) p (p + 4096 * Z.of_nat k) flags early s = Done (tt, s') ∧
    inmode bp zp early q' (dmaps flags n (Z.of_nat k) D) (tmaps flags n (Z.of_nat k) p T) s'.
Proof.
  intros Hf. induction k as [|k IH]; intros n p q D T s H Hn Hk Hp Hpk Ho; cbn [map_pages].
  - rewrite (proj2 (Z.ltb_ge _ _)) by lia. exists s, q. split; [done|]. apply (inmode_ext _ _ _ _ D T); [done|..].
    + intros i Hi. unfold dmaps, touched. by rewrite andb_false_r.
    + intros j Hj. unfold tmaps. destruct (Z.leb_spec n j), (Z.ltb_spec j (n + Z.of_nat 0)); done || lia.
  - rewrite (proj2 (Z.ltb_lt _ _)) by lia. cbn [negb].
    destruct (map_run bp zp early q D T s n p flags H ltac:(lia) ltac:(unfold is_u32; lia) Hf ltac:(intros He; apply Ho; [done|lia]))
      as (s1 & q1 & R1 & H1).
    rewrite (bind_run _ _ _ _ _ R1). unfold PAGE_SIZE. rewrite !u32_small by lia.
    destruct (IH (n + 1) (p + 4096) q1 _ _ s1 H1) as (s2 & q2 & R2 & H2); [lia|lia|lia|lia|intros He j Hj; apply Ho; [done|lia]|].
    exists s2, q2. split.
    { rewrite <- R2. f_equal; lia. }
    apply (inmode_ext _ _ _ _ _ _ _ _ _ H2).
    + intros i Hi. unfold dmaps. rewrite (touch_step (dm flags) n (Z.of_nat k) D i) by (try lia; intros; by apply dm_idem).
      by replace (Z.of_nat (S k)) with (Z.of_nat k + 1) by lia.
    + intros j Hj. unfold tmaps, upd. destruct (Z.eqb_spec j n) as [->|Hne].
      * rewrite (proj2 (Z.leb_gt (n + 1) n)), (proj2 (Z.leb_le n n)), (proj2 (Z.ltb_lt n _)) by lia. cbn [andb]. f_equal. lia.
      * destruct (Z.leb_spec (n + 1) j), (Z.leb_spec n j), (Z.ltb_spec j (n + 1 + Z.of_nat k)), (Z.ltb_spec j (n + Z.of_nat (S k)));
          cbn [andb]; try lia; try done. f_equal. lia.
Qed.

Definition dmarks (flags n k : Z) (D : Z → Z) : Z → Z := fun i => if touched n k i then Z.lor (D i) flags else D i.

Lemma mark_run bp zp early q D T s n flags :
  inmode bp zp early q D T s → 0 ≤ n < 2 ^ 20 → 0 ≤ flags < 4096 →
  ∃ s' q', mark (4096 * n) flags early s = Done (tt, s') ∧
    inmode bp zp early q' (upd (n / 1024) (Z.lor (D (n / 1024)) flags) D) T s'.
Proof.
  intros H Hn Hf. destruct (page_indices n Hn) as (E1 & E2 & _ & Hi & _). unfold mark. rewrite E1, E2.
  set (i := n / 1024) in *. destruct layout_facts as (_ & _ & _ & _ & _ & P6 & _).
  replace (new_kernel_pd + 4 * i) with (pd + 4 * i + KM_VIRT_BASE) by (unfold new_kernel_pd; lia).
  destruct (enable_run bp zp early q (pd + 4 * i) D T s H (dir_slot_ok i Hi)) as (s1 & R1 & H1).
  rewrite (bind_run _ _ _ _ _ R1), (bind_run _ _ _ _ _ (ld_run _ _ _ _ _ _ _ H1 (dir_slot_ok i Hi))).
  destruct (dir_load _ _ _ _ _ _ _ i H1 Hi) as [-> U1].
  destruct (dir_store bp zp early i D T s1 true (Z.lor (D i) flags) H1 Hi) as (s2 & R2 & H2).
  - apply lor_u32; [done|unfold is_u32; lia].
  - intros G. by apply open_lor.
  - exists s2, (pd + 4 * i). by split.
Qed.

Lemma mark_pages_run bp zp early flags : 0 ≤ flags < 4096 → ∀ k n q D T s,
  inmode bp zp early q D T s → 0 ≤ n → n + Z.of_nat k ≤ 1023 * 1024 →
  ∃ s' q', mark_pages k (4096 * n) (4096 * (n + Z.of_nat k)) flags early s = Done (tt, s') ∧
    inmode bp zp early q' (dmarks flags n (Z.of_nat k) D) T s'.
Proof.
  intros Hf. induction k as [|k IH]; intros n q D T s H Hn Hk; cbn [mark_pages].
  - rewrite (proj2 (Z.ltb_ge _ _)) by lia. exists s, q. split; [done|]. apply (inmode_ext _ _ _ _ D T); [done| |done].
    intros i Hi. unfold dmarks, touched. by rewrite andb_false_r.
  - rewrite (proj2 (Z.ltb_lt _ _)) by lia. cbn [negb].
    destruct (mark_run bp zp early q D T s n flags H ltac:(lia) Hf) as (s1 & q1 & R1 & H1).
    rewrite (bind_run _ _ _ _ _ R1). unfold PAGE_SIZE. rewrite u32_small by lia.
    destruct (IH (n + 1) q1 _ T s1 H1) as (s2 & q2 & R2 & H2); [lia|lia|]. exists s2, q2. split.
    { rewrite <- R2. f_equal; lia. }
    apply (inmode_ext _ _ _ _ _ _ _ _ _ H2); [|done]. intros i Hi. unfold dmarks.
    rewrite (touch_step (fun _ e => Z.lor e flags) n (Z.of_nat k) D i);
      [by replace (Z.of_nat (S k)) with (Z.of_nat k + 1) by lia|intros; by rewrite <- Z.lor_assoc, Z.lor_diag|done|lia].
Qed.

Definition fe (i e : Z) : Z := if pde_get_paddr e =? PHYS_NULL then Z.lor e (pt + 4096 * i) else e.

Lemma boot_fill_run bp zp q D T s :
  inmode bp zp false q D T s →
  ∃ s' q', for_up (Z.to_nat PD_LENGTH) 0 fill_entry s = Done (tt, s') ∧ inmode bp zp false q' (fun i => fe i (D i)) T s'.
Proof.
  intros H.
  destruct (for_up_inv (fun k s => ∃ q', inmode bp zp false q' (fun i => if i <? k then fe i (D i) else D i) T s)
    fill_entry (Z.to_nat PD_LENGTH) 0 s) as (s' & R & (q' & H')).
  - exists q. apply (inmode_ext _ _ _ _ D T); [done| |done]. intros i Hi. by rewrite (proj2 (Z.ltb_ge _ _)) by lia.
  - intros i s0 Hi (q0 & H0). change (Z.of_nat (Z.to_nat PD_LENGTH)) with 1024 in Hi.
    destruct (table_addr i ltac:(lia)) as (B1 & B2 & B3 & B4). unfold fill_entry. rewrite B4.
    replace (new_kernel_pd + 4 * i) with (ptr false (pd + 4 * i))
      by (destruct layout_facts as (_ & _ & _ & _ & _ & P6 & _); unfold new_kernel_pd, ptr; lia).
    assert (H1 : inmode bp zp false (pd + 4 * i) (fun j => if j <? i then fe j (D j) else D j) T s0) by done.
    rewrite (bind_run _ _ _ _ _ (ld_run _ _ _ _ _ _ _ H1 (dir_slot_ok i ltac:(lia)))).
    destruct (dir_load _ _ _ _ _ _ _ i H1 ltac:(lia)) as [-> U1]. cbn beta in U1 |- *.
    rewrite (proj2 (Z.ltb_ge i i)) in * by lia.
    assert (Hst : ∃ s2, when (pde_get_paddr (D i) =? PHYS_NULL) (st32 (ptr false (pd + 4 * i)) (Z.lor (D i) (pt + 4096 * i))) s0 = Done (tt, s2) ∧
      inmode bp zp false (pd + 4 * i) (upd i (fe i (D i)) (fun j => if j <? i then fe j (D j) else D j)) T s2).
    { unfold fe at 1. destruct (Z.eqb_spec (pde_get_paddr (D i)) PHYS_NULL) as [E0|E0].
      - apply (dir_store bp zp false i _ T s0 true _ H1 ltac:(lia)); [by apply lor_u32|].
        cbn beta. rewrite (proj2 (Z.ltb_ge i i)) by lia. intros [G _]. unfold PHYS_NULL in *. lia.
      - destruct (dir_store bp zp false i _ T s0 false (D i) H1 ltac:(lia) U1) as (s2 & R2 & H2);
          [cbn beta; by rewrite (proj2 (Z.ltb_ge i i)) by lia|].
        exists s2. split; [done|]. cbn beta in H2. by rewrite (proj2 (Z.ltb_ge i i)) in H2 by lia. }
    destruct Hst as (s2 & R2 & H2). exists s2. split; [done|]. exists (pd + 4 * i). apply (inmode_ext _ _ _ _ _ _ _ _ _ H2); [|done].
    intros j Hj. unfold upd. destruct (Z.eqb_spec j i) as [->|Hne]; [by rewrite (proj2 (Z.ltb_lt _ _)) by lia|].
    destruct (Z.ltb_spec j (i + 1)), (Z.ltb_spec j i); done || lia.
  - exists s', q'. split; [done|]. apply (inmode_ext _ _ _ _ _ _ _ _ _ H'); [|done]. intros i Hi.
    change (0 + Z.of_nat (Z.to_nat PD_LENGTH)) with 1024. by rewrite (proj2 (Z.ltb_lt _ _)) by lia.
Qed.

(** ** Lemmas: the regions *)

Definition first_page (r : vm_region) : Z := vbase r / 4096.
Definition pages (r : vm_region) : Z := rsize r / 4096.
Definition contains (r : vm_region) (n : Z) : Prop := first_page r ≤ n < first_page r + pages r.
Definition touches (r : vm_region) (i : Z) : Prop := touched (first_page r) (pages r) i = true.
Definition static (r : vm_region) : bool := has (rflags r) VM_BIT_STATIC.
Definition executable (r : vm_region) : bool := has (rflags r) VM_BIT_EXECUTABLE.
Definition page_entry (r : vm_region) (n : Z) : Z :=
  pte_construct (pbase r + 4096 * (n - first_page r)) (Z.lor (rpflags r) PAGE_BIT_PRESENT).

Record region_fits (r : vm_region) : Prop := {
  rf_base : 0 ≤ vbase r;
  rf_size : 0 ≤ rsize r;
  rf_end : vbase r + rsize r ≤ 0xFFC00000;
  rf_aligned : vbase r mod 4096 = 0 ∧ rsize r mod 4096 = 0 ∧ pbase r mod 4096 = 0;
  rf_phys : 0 ≤ pbase r ∧ pbase r + rsize r < 2 ^ 32;
  rf_flags : 0 ≤ rpflags r < 4096;
}.

(** The map without the wrap-around of its sizes. *)
Definition plain_map (sy : symbols) : list vm_region :=
  let x := Z.lor VM_BIT_EXECUTABLE VM_BIT_STATIC in
  let rw := Z.lor PAGE_BIT_RW PAGE_BIT_GLOBAL in
  [ Build_vm_region 0xC0000000 0 0x100000 VM_BIT_STATIC PAGE_BIT_RW;
    Build_vm_region 0xC0100000 0x100000 (boot_stack_top sy - 0xC0100000) x PAGE_BIT_GLOBAL;
    Build_vm_region (boot_stack_top sy) (boot_stack_top sy - KM_VIRT_BASE) (boot_stack_bottom sy - boot_stack_top sy) x rw;
    Build_vm_region (boot_stack_bottom sy) (boot_stack_bottom sy - KM_VIRT_BASE) (kernel_mem_ro_end sy - boot_stack_bottom sy) x PAGE_BIT_GLOBAL;
    Build_vm_region (kernel_mem_rw_begin sy) (kernel_mem_rw_begin sy - KM_VIRT_BASE) (kernel_mem_rw_end sy - kernel_mem_rw_begin sy) x rw;
    Build_vm_region (kernel_mem_break sy - KM_VIRT_BASE) (kernel_mem_break sy - KM_VIRT_BASE)
      (0xC0000000 - (kernel_mem_break sy - KM_VIRT_BASE)) VM_BIT_STATIC PAGE_BIT_RW;
    Build_vm_region (kernel_mem_break sy) PHYS_NULL (0xFE000000 - kernel_mem_break sy) 0 rw;
    Build_vm_region 0xFE000000 0xFE000000 0x1C00000 VM_BIT_STATIC rw;
    Build_vm_region 0x8000 0x8000 (kernel_ap_entry_end sy - kernel_ap_entry_begin sy) VM_BIT_STATIC PAGE_BIT_RW ].

Lemma plain_map_eq : boot_vm_map = plain_map (b_sy b).
Proof.
  destruct HB as [[L1 L2 L3 L4 L5 L6 L7 L8 L9 L10 L11 L12] _ _ [A1 A2] _ _ _ _].
  unfold boot_vm_map, create_vm_map, plain_map, KM_FREE_PHYS_BASE, KM_PHYS_AP_ENTRY_END, km_paddr, is_u32,
    KM_DEV_VIRT_BASE, KM_DEV_VIRT_END, KM_PHYS_AP_ENTRY_BASE, KM_VIRT_BASE, KM_PHYS_BASE in *.
  rewrite L1, L2, L3 in *. unwrap. repeat (f_equal; try lia).
Qed.

Lemma regions_fit : Forall region_fits boot_vm_map.
Proof.
  rewrite plain_map_eq. destruct HB as [[L1 L2 L3 L4 L5 L6 L7 L8 L9 L10 L11 L12] _ Ha [A1 A2] _ _ _ _].
  rewrite !Forall_cons in Ha. destruct Ha as (G1 & G2 & G3 & G4 & G5 & G6 & G7 & _). rewrite L3 in *.
  unfold is_u32, PAGE_SIZE, plain_map, KM_VIRT_BASE, KM_PHYS_BASE in *.
  repeat (apply Forall_cons; split; [split; cbn [vbase pbase rsize rpflags]; unfold PHYS_NULL in *;
    [lia|lia|lia|dlia|lia|vm_compute; split; [discriminate|reflexivity]]|]). apply Forall_nil_2.
Qed.

Lemma contains_addr r n : region_fits r → contains r n ↔ vbase r ≤ 4096 * n < vbase r + rsize r.
Proof. intros [_ _ _ (H1 & H2 & _) _ _]. unfold contains, first_page, pages. dlia. Qed.

(** No page is in two regions. *)
Lemma regions_disjoint r r' n :
  r ∈ boot_vm_map → r' ∈ boot_vm_map → contains r n → contains r' n → r = r'.
Proof.
  intros H1 H2 C1 C2. pose proof regions_fit as Hf. rewrite Forall_forall in Hf.
  apply (contains_addr r n (Hf r H1)) in C1. apply (contains_addr r' n (Hf r' H2)) in C2. clear Hf.
  rewrite plain_map_eq in H1, H2. destruct HB as [[L1 L2 L3 L4 L5 L6 L7 L8 L9 L10 L11 L12] _ _ [A1 A2] K1 K2 K3 _].
  rewrite L3 in *. unfold plain_map in H1, H2. unfold is_u32, KM_VIRT_BASE, KM_PHYS_BASE, PAGE_SIZE in *.
  rewrite !elem_of_cons, elem_of_nil in H1, H2.
  repeat match type of H1 with _ ∨ _ => destruct H1 as [->|H1] end; try done;
  repeat match type of H2 with _ ∨ _ => destruct H2 as [->|H2] end; try done; cbn [vbase rsize] in C1, C2; lia.
Qed.

(** ** Lemmas: the phases *)

Definition bits : list Z := [PAGE_BIT_PRESENT; PAGE_BIT_RW; PAGE_BIT_USER; PAGE_BIT_GLOBAL].

Lemma bits_low g : g ∈ bits → Z.land 0xFFFFF000 g = 0 ∧ Z.land 0xFFF g = g.
Proof. unfold bits. rewrite !elem_of_cons, elem_of_nil. by intros [->|[->|[->|[->|[]]]]]. Qed.

Lemma bits_rw g : g ∈ bits → has PAGE_BIT_RW g = true → g = PAGE_BIT_RW.
Proof. unfold bits. rewrite !elem_of_cons, elem_of_nil. by intros [->|[->|[->|[->|[]]]]]. Qed.

(** A directory entry after the regions [done] have been mapped. *)
Record dentry (done : list vm_region) (i e : Z) : Prop := {
  de_frame : e = 0 ∨ pde_get_paddr e = pt + 4096 * i ∧ has e PAGE_BIT_PRESENT = true;
  de_done : ∀ r, r ∈ done → touches r i → e ≠ 0 ∧ (has (rpflags r) PAGE_BIT_RW = true → has e PAGE_BIT_RW = true);
  de_bits : ∀ g, g ∈ bits → has e g = true → ∃ r, r ∈ done ∧ touches r i ∧ has (Z.lor (rpflags r) PAGE_BIT_PRESENT) g = true;
}.

(** The page tables after the regions [done] have been mapped. *)
Record tspec (done : list vm_region) (T : Z → Z) : Prop := {
  ts_in : ∀ r n, r ∈ done → contains r n → T n = page_entry r n;
  ts_out : ∀ n, 0 ≤ n < 2 ^ 20 → (∀ r, r ∈ done → ¬ contains r n) → T n = 0;
}.

Lemma dentry_skip done r i e : dentry done i e → ¬ touches r i → dentry (r :: done) i e.
Proof.
  intros [H1 H2 H3] Hr. split; [done|..].
  - intros r' [->|Hr']%elem_of_cons Ht; [done|by apply H2].
  - intros g Hg He. destruct (H3 g Hg He) as (r' & A & B). exists r'. split; [by right|done].
Qed.

Lemma dentry_map done r i e : dentry done i e → 0 ≤ i < 1024 → touches r i → dentry (r :: done) i (dm (rpflags r) i e).
Proof.
  intros [H1 H2 H3] Hi Hr. destruct (table_addr i Hi) as (B1 & B2 & B3 & _).
  destruct (dm_frame (rpflags r) i e Hi) as [F1 F2].
  assert (He : e = 0 ∨ pde_get_paddr e = pt + 4096 * i ∧ (pde_get_paddr e =? PHYS_NULL) = false ∧ has e PAGE_BIT_PRESENT = true).
  { destruct H1 as [->|[E P]]; [by left|]. right. split; [done|]. split; [|done]. apply Z.eqb_neq. unfold PHYS_NULL. lia. }
  assert (Hmono : ∀ g, has e g = true → has (dm (rpflags r) i e) g = true).
  { intros g Hg. destruct He as [->|(_ & E & _)]; [unfold has in Hg; by rewrite Z.land_0_l in Hg|].
    unfold dm. cbn zeta. rewrite E. destruct (_ && _); [|done]. by rewrite has_lor, Hg. }
  split.
  - right. rewrite F1. destruct He as [->|(E & E0 & P)]; [|rewrite E0; split; [done|by apply Hmono]].
    split; [done|]. unfold dm. cbn zeta. change (pde_get_paddr 0 =? PHYS_NULL) with true. cbv iota.
    change (pde_construct ?x ?y) with (pte_construct x y).
    destruct (_ && _); rewrite ?has_lor, entry_has, has_lor by done; by rewrite orb_true_r.
  - intros r' Hr' Ht. assert (Hnz : dm (rpflags r) i e ≠ 0) by (intros E; apply F2; rewrite E; done).
    split; [done|]. apply elem_of_cons in Hr' as [->|Hr']; [apply dm_rw|].
    intros Hf. destruct (H2 r' Hr' Ht) as [_ Hk]. by apply Hmono, Hk.
  - intros g Hg Hd. assert (G : has e g = true ∨ has (Z.lor (rpflags r) PAGE_BIT_PRESENT) g = true).
    { destruct (bits_low g Hg) as [L1 L2]. unfold dm in Hd. cbn zeta in Hd.
      set (e1 := if _ : bool then pde_construct _ _ else e) in Hd.
      assert (He1 : has e1 g = true → has e g = true ∨ has (Z.lor (rpflags r) PAGE_BIT_PRESENT) g = true).
      { unfold e1. destruct (_ =? _); [|by left]. change (pde_construct ?x ?y) with (pte_construct x y). rewrite entry_has by done. by right. }
      destruct (has (rpflags r) PAGE_BIT_RW) eqn:Er; cbn [andb] in Hd; [|by apply He1].
      destruct (has e1 PAGE_BIT_RW); cbn [negb] in Hd; [by apply He1|]. rewrite has_lor in Hd.
      apply orb_true_iff in Hd as [Hd|Hd]; [by apply He1|]. apply bits_rw in Hd as ->; [|done]. right. by rewrite has_lor, Er. }
    destruct G as [G|G].
    + destruct (H3 g Hg G) as (r' & A & B). exists r'. split; [by right|done].
    + exists r. split; [by left|done].
Qed.

Lemma tspec_map done r T :
  r ∈ boot_vm_map → Forall (fun x => x ∈ boot_vm_map) done → tspec done T →
  tspec (r :: done) (tmaps (rpflags r) (first_page r) (pages r) (pbase r) T).
Proof.
  intros Hr Hd [H1 H2]. rewrite Forall_forall in Hd. split.
  - intros r' n Hr' Hc. unfold tmaps. destruct (decide (contains r n)) as [C|C].
    + assert (r' ∈ boot_vm_map) by (apply elem_of_cons in Hr' as [->|?]; [done|by apply Hd]).
      rewrite (regions_disjoint r' r n) by done. unfold contains in C.
      rewrite (proj2 (Z.leb_le _ _)), (proj2 (Z.ltb_lt _ _)) by lia. done.
    + apply elem_of_cons in Hr' as [->|Hr']; [done|]. unfold contains in C.
      destruct (Z.leb_spec (first_page r) n), (Z.ltb_spec n (first_page r + pages r)); cbn [andb]; by apply H1 || lia.
  - intros n Hn Hc. assert (C : ¬ contains r n) by (apply Hc; by left). unfold tmaps, contains in *.
    destruct (Z.leb_spec (first_page r) n), (Z.ltb_spec n (first_page r + pages r)); cbn [andb]; try lia;
      (apply H2; [done|]; intros r' Hr'; apply Hc; by right).
Qed.

(** The state while regions are being mapped. *)
Definition mapping (bp zp : Z) (early : bool) (x : Z) (done : list vm_region) (s : estate) : Prop :=
  ∃ q D T, inmode bp zp early q D T s ∧ (∀ i, 0 ≤ i < 1023 → dentry done i (D i)) ∧ D 1023 = x ∧ tspec done T ∧
    Forall (fun r => r ∈ boot_vm_map) done.

Lemma not_top n k : n + k ≤ 1023 * 1024 → touched n k 1023 = false.
Proof. intros H. apply not_true_iff_false. intros (j & Hj & E)%touched_spec. dlia. Qed.

Lemma pages_facts r : region_fits r →
  vbase r = 4096 * first_page r ∧ rsize r = 4096 * pages r ∧ 0 ≤ pages r ∧ 0 ≤ first_page r ∧ first_page r + pages r ≤ 1023 * 1024.
Proof. intros [H1 H2 H3 (H4 & H5 & _) _ _]. unfold first_page, pages. dlia. Qed.

Lemma map_object_run bp zp early x done r s :
  mapping bp zp early x done s → r ∈ boot_vm_map → (early = false → ∀ n, contains r n → ¬ own_page n) →
  returns (map_region_object r early) s (fun _ s' => mapping bp zp early x (r :: done) s').
Proof.
  intros (q & D & T & H & HD & HX & HT & Hall) Hr Ho. pose proof regions_fit as Hf. rewrite Forall_forall in Hf.
  destruct (pages_facts r (Hf r Hr)) as (E1 & E2 & E3 & E4 & E5). destruct (Hf r Hr) as [_ _ _ _ [P1 P2] Pf].
  unfold map_region_object, map_region. rewrite u32_small by lia.
  replace (Z.to_nat _) with (Z.to_nat (pages r)) by (unfold PAGE_SIZE; f_equal; dlia).
  destruct (map_pages_run bp zp early (rpflags r) Pf (Z.to_nat (pages r)) (first_page r) (pbase r) q D T s H) as (s' & q' & R & H');
    rewrite ?Z2Nat.id by done; try lia; [done|].
  rewrite Z2Nat.id in R, H' by done. rewrite <- E1, <- E2 in R. eapply returns_run; [exact R|].
  exists q', (dmaps (rpflags r) (first_page r) (pages r) D), (tmaps (rpflags r) (first_page r) (pages r) (pbase r) T).
  split; [done|]. split; [|split; [|split; [by apply tspec_map|by apply Forall_cons]]].
  - intros i Hi. unfold dmaps. destruct (touched _ _ _) eqn:Et; [apply dentry_map; [by apply HD|lia|done]|].
    apply dentry_skip; [by apply HD|]. unfold touches. by rewrite Et.
  - unfold dmaps. by rewrite not_top.
Qed.

(** A loop over the regions that maps those [sel] picks. *)
Lemma for_regions_run bp zp early x (sel : vm_region → bool) f l :
  (∀ r, f r = when (sel r) (map_region_object r early)) → (∀ r, r ∈ l → r ∈ boot_vm_map) →
  (early = false → ∀ r n, r ∈ l → sel r = true → contains r n → ¬ own_page n) →
  ∀ done s, mapping bp zp early x done s →
  returns (for_regions f l) s (fun _ s' => ∃ done', mapping bp zp early x done' s' ∧ ∀ r, r ∈ done' ↔ r ∈ done ∨ r ∈ l ∧ sel r = true).
Proof.
  intros Hf. induction l as [|r l IH]; intros Hl Ho done s H; cbn [for_regions].
  - eapply returns_run; [done|]. exists done. split; [done|]. intros r. rewrite elem_of_nil. intuition done.
  - assert (IH' : ∀ done s, mapping bp zp early x done s →
      returns (for_regions f l) s (fun _ s' => ∃ done', mapping bp zp early x done' s' ∧ ∀ r, r ∈ done' ↔ r ∈ done ∨ r ∈ l ∧ sel r = true)).
    { apply IH; [intros; apply Hl; by right|]. intros He r' n Hr'. apply Ho; [done|by right]. }
    rewrite Hf. destruct (sel r) eqn:Es; cbn [when].
    + eapply returns_bind; [apply (map_object_run bp zp early x done r s H)|].
      * apply Hl. by left.
      * intros He n. apply Ho; [done|by left|done].
      * intros [] s1 H1. eapply returns_mono; [by apply IH'|]. intros [] s2 (d & A & B). exists d. split; [done|].
        intros r'. rewrite B, !elem_of_cons. intuition (subst; auto).
    + eapply (returns_bind _ _ _ (fun _ s' => s' = s)); [done|]. intros [] ? ->. eapply returns_mono; [by apply IH'|].
      intros [] s2 (d & A & B). exists d. split; [done|]. intros r'. rewrite B, elem_of_cons. intuition (subst; auto || congruence).
Qed.

(** The region of the new structures. *)
Lemma own_region : ∃ r, r ∈ boot_vm_map ∧ static r = true ∧ executable r = true ∧ has (rpflags r) PAGE_BIT_RW = true ∧
  pbase r = vbase r - KM_VIRT_BASE ∧ ∀ n, own_page n → contains r n.
Proof.
  destruct HB as [[L1 L2 L3 L4 L5 L6 L7 L8 L9 L10 L11 L12] _ Ha _ K1 K2 K3 _].
  rewrite !Forall_cons in Ha. destruct Ha as (_ & _ & _ & G4 & G5 & _ & _ & G8 & G9 & _).
  exists (Build_vm_region (kernel_mem_rw_begin (b_sy b)) (kernel_mem_rw_begin (b_sy b) - KM_VIRT_BASE)
    (kernel_mem_rw_end (b_sy b) - kernel_mem_rw_begin (b_sy b)) (Z.lor VM_BIT_EXECUTABLE VM_BIT_STATIC) (Z.lor PAGE_BIT_RW PAGE_BIT_GLOBAL)).
  split; [rewrite plain_map_eq; unfold plain_map; do 4 right; by left|]. do 4 (split; [done|]).
  intros n (q & [Hq Hq'] & ->). destruct layout_facts as (P1 & P2 & P3 & P4 & P5 & P6 & P7).
  unfold contains, first_page, pages, KM_VIRT_BASE, KM_PHYS_BASE, PAGE_SIZE in *. cbn [vbase rsize].
  assert (kernel_mem_rw_begin (b_sy b) ≤ q + (0xC0000000 + 0) < kernel_mem_rw_end (b_sy b)) by lia. dlia.
Qed.

(** Once the executable is mapped, the new tables can be used to change themselves. *)
Lemma mapping_access bp zp x done s :
  mapping bp zp true x done s → (∀ r, r ∈ boot_vm_map → static r = true → executable r = true → r ∈ done) →
  mapping bp zp false x done (mk_e (e_mem s) pd).
Proof.
  intros (q & D & T & [Ht _] & HD & HX & HT & Hall) Hex. exists q, D, T. split; [|done]. split; [done|]. split; [done|].
  destruct own_region as (r & R1 & R2 & R3 & R4 & R5 & R6). specialize (Hex r R1 R2 R3).
  pose proof regions_fit as Hf. rewrite Forall_forall in Hf. destruct (pages_facts r (Hf r R1)) as (E1 & E2 & E3 & E4 & E5).
  intros p Hp n. pose proof (slot_range p Hp) as Hr. assert (Hc : contains r n) by (apply R6; by exists p).
  pose proof Hc as Hc'. unfold contains in Hc'.
  assert (Hi : 0 ≤ n / 1024 < 1023) by dlia.
  destruct (HD _ Hi) as [F1 F2 _]. destruct (F2 r Hex) as [Z1 Z2]; [apply touched_spec; by exists n|].
  destruct F1 as [F1|[F1 F3]]; [done|]. split; [split; [done|]; split; [done|by apply Z2]|].
  rewrite (ts_in _ _ HT r n Hex Hc). unfold page_entry. rewrite R5, E1.
  replace (4096 * first_page r - KM_VIRT_BASE + 4096 * (n - first_page r)) with (p - p mod 4096)
    by (unfold n, KM_VIRT_BASE, KM_PHYS_BASE; dlia).
  split; [apply entry_frame; [unfold is_u32|]; dlia|]. rewrite !entry_has, !has_lor by done. by rewrite R4, orb_true_r.
Qed.

(** A directory entry once all tables are in place and the regions [done] are marked. *)
Record mentry (done : list vm_region) (i e : Z) : Prop := {
  me_frame : pde_get_paddr e = pt + 4096 * i;
  me_done : ∀ r g, r ∈ done → touches r i → g ∈ bits → has (Z.lor (rpflags r) PAGE_BIT_PRESENT) g = true → has e g = true;
  me_bits : ∀ g, g ∈ bits → has e g = true →
    ∃ r, r ∈ boot_vm_map ∧ touches r i ∧ has (Z.lor (rpflags r) PAGE_BIT_PRESENT) g = true;
}.

Definition marking (bp zp x : Z) (mapped done : list vm_region) (s : estate) : Prop :=
  ∃ q D T, inmode bp zp false q D T s ∧ (∀ i, 0 ≤ i < 1023 → mentry done i (D i)) ∧ D 1023 = x ∧ tspec mapped T.

Lemma filled_entry done i e :
  Forall (fun r => r ∈ boot_vm_map) done → 0 ≤ i < 1024 → dentry done i e → mentry [] i (fe i e).
Proof.
  intros Hd Hi [H1 _ H3]. rewrite Forall_forall in Hd. destruct (table_addr i Hi) as (B1 & B2 & B3 & _). unfold fe.
  destruct H1 as [->|[E P]].
  - change (pde_get_paddr 0 =? PHYS_NULL) with true. cbv iota. rewrite Z.lor_0_l.
    pose proof (frame_aligned _ B1 B2) as Hf. split; [done|by intros ? ? ?%elem_of_nil|].
    intros g Hg. rewrite <- Hf. unfold pde_get_paddr. by rewrite has_frame by apply bits_low, Hg.
  - rewrite (proj2 (Z.eqb_neq _ _)) by (unfold PHYS_NULL; lia). split; [done|by intros ? ? ?%elem_of_nil|].
    intros g Hg Hh. destruct (H3 g Hg Hh) as (r & A1 & A2). exists r. split; [by apply Hd|done].
Qed.

Lemma marked_entry done r i e :
  r ∈ boot_vm_map → 0 ≤ rpflags r < 4096 → mentry done i e → touches r i →
  mentry (r :: done) i (Z.lor e (Z.lor (rpflags r) PAGE_BIT_PRESENT)).
Proof.
  intros Hr Hf [H1 H2 H3] Ht. split.
  - rewrite frame_lor; [done|]. by apply flags_present.
  - intros r' g [->|Hr']%elem_of_cons Ht' Hg Hh; rewrite has_lor; [by rewrite Hh, orb_true_r|].
    by rewrite (H2 r' g).
  - intros g Hg Hh. rewrite has_lor in Hh. apply orb_true_iff in Hh as [Hh|Hh]; [by apply H3|]. by exists r.
Qed.

Lemma unmarked_entry done r i e : mentry done i e → ¬ touches r i → mentry (r :: done) i e.
Proof. intros [H1 H2 H3] Ht. split; [done| |done]. intros r' g [->|Hr']%elem_of_cons Ht'; [done|by apply H2]. Qed.

Lemma mark_object_run bp zp x mapped done r s :
  marking bp zp x mapped done s → r ∈ boot_vm_map →
  returns (mark_region_object r PAGE_BIT_PRESENT false) s (fun _ s' => marking bp zp x mapped (r :: done) s').
Proof.
  intros (q & D & T & H & HD & HX & HT) Hr. pose proof regions_fit as Hf. rewrite Forall_forall in Hf.
  destruct (pages_facts r (Hf r Hr)) as (E1 & E2 & E3 & E4 & E5). destruct (Hf r Hr) as [P1 P2 P3 _ _ Pf].
  unfold mark_region_object, mark_region. rewrite u32_small by lia.
  replace (Z.to_nat _) with (Z.to_nat (pages r)) by (unfold PAGE_SIZE; f_equal; dlia).
  destruct (mark_pages_run bp zp false (Z.lor (rpflags r) PAGE_BIT_PRESENT) (flags_present _ Pf) (Z.to_nat (pages r))
    (first_page r) q D T s H E4) as (s' & q' & R & H'); [rewrite Z2Nat.id by done; lia|].
  rewrite Z2Nat.id in R, H' by done. replace (4096 * (first_page r + pages r)) with (vbase r + rsize r) in R by lia.
  rewrite <- E1 in R. eapply returns_run; [exact R|]. eexists q', _, T. split; [exact H'|]. split; [|split; [|done]].
  - intros i Hi. unfold dmarks. destruct (touched _ _ _) eqn:Et; [apply marked_entry; try done; by apply HD|].
    apply unmarked_entry; [by apply HD|]. unfold touches. by rewrite Et.
  - unfold dmarks. by rewrite not_top.
Qed.

Lemma mark_regions_run bp zp x mapped l : (∀ r, r ∈ l → r ∈ boot_vm_map) → ∀ done s, marking bp zp x mapped done s →
  returns (for_regions (fun r => mark_region_object r PAGE_BIT_PRESENT false) l) s
    (fun _ s' => ∃ done', marking bp zp x mapped done' s' ∧ ∀ r, r ∈ l → r ∈ done').
Proof.
  assert (G : ∀ l done s, (∀ r, r ∈ l → r ∈ boot_vm_map) → marking bp zp x mapped done s →
    returns (for_regions (fun r => mark_region_object r PAGE_BIT_PRESENT false) l) s
      (fun _ s' => ∃ done', marking bp zp x mapped done' s' ∧ ∀ r, r ∈ l ∨ r ∈ done → r ∈ done')).
  { induction l0 as [|r l0 IH]; intros done s Hl H; cbn [for_regions].
    - eapply returns_run; [done|]. exists done. split; [done|]. intros r [?%elem_of_nil|?]; done.
    - eapply returns_bind; [apply (mark_object_run bp zp x mapped done r s H); apply Hl; by left|]. intros [] s1 H1.
      eapply returns_mono; [apply (IH (r :: done) s1); [intros; apply Hl; by right|done]|].
      intros [] s2 (d & A & B). exists d. split; [done|]. intros r'. rewrite elem_of_cons. intros [[->|?]|?]; apply B;
        [right; by left|by left|right; by right]. }
  intros Hl done s H. eapply returns_mono; [by apply G|]. intros [] s' (d & A & B). exists d. split; [done|]. auto.
Qed.

Lemma aligned_symbol x : is_u32 x → x mod 4096 = 0 → is_symbol_aligned_to_page x = true.
Proof. intros H1 H2. unfold is_symbol_aligned_to_page. rewrite mask_aligned by done. apply Z.eqb_refl. Qed.

Lemma asserts_run s : early_asserts s = Done (tt, s).
Proof.
  destruct HB as [[L1 L2 L3 L4 L5 L6 L7 L8 L9 L10 L11 L12] Ho Ha [A1 A2] K1 K2 K3 _].
  rewrite !Forall_cons in Ha. destruct Ha as (G1 & G2 & G3 & G4 & G5 & G6 & G7 & G8 & G9 & G10 & _).
  rewrite L3 in *. unfold PAGE_SIZE, KM_VIRT_BASE, KM_PHYS_BASE in *. unfold early_asserts. rewrite Ho, L1, L2, L3.
  rewrite (aligned_symbol (kernel_mem_ro_end _)), (aligned_symbol (kernel_mem_rw_begin _)), (aligned_symbol (kernel_mem_rw_end _)),
    (aligned_symbol (kernel_mem_break _)), (aligned_symbol (kernel_ap_entry_begin _)), (aligned_symbol (kernel_ap_entry_end _)),
    (aligned_symbol (sym_kernel_pd _)), (aligned_symbol (sym_kernel_page_tables _)) by (done || unfold is_u32; lia).
  reflexivity.
Qed.

Lemma self_ref_run bp zp done s :
  mapping bp zp true 0 done s →
  returns (add_self_ref CURRENT_PD_INDEX 0 true) s (fun _ s' => mapping bp zp true (pte_construct pd 3) done s').
Proof.
  intros (q & D & T & H & HD & HX & HT & Hall). destruct layout_facts as (P1 & P2 & P3 & P4 & P5 & P6 & _).
  unfold add_self_ref. change CURRENT_PD_INDEX with 1023.
  replace (new_kernel_pd + 4 * 1023) with (pd + 4 * 1023 + KM_VIRT_BASE) by (unfold new_kernel_pd; lia).
  destruct (enable_run bp zp true q (pd + 4 * 1023) D T s H (dir_slot_ok 1023 ltac:(lia))) as (s1 & R1 & H1).
  unfold returns. rewrite (bind_run _ _ _ _ _ R1).
  replace (km_paddr new_kernel_pd) with pd by (unfold new_kernel_pd, km_paddr, KM_VIRT_BASE, KM_PHYS_BASE in *; rewrite u32_small; lia).
  change (Z.lor 0 (Z.lor PAGE_BIT_RW PAGE_BIT_PRESENT)) with 3.
  assert (Hu : is_u32 (pte_construct pd 3)) by (apply construct_range; unfold is_u32; lia).
  destruct (dir_store bp zp true 1023 D T s1 true (pte_construct pd 3) H1 ltac:(lia) Hu) as (s2 & R2 & H2).
  { rewrite HX. by intros (_ & ? & _). }
  cbn [when] in R2. change (pde_construct pd 3) with (pte_construct pd 3). rewrite R2.
  exists (pd + 4 * 1023), (upd 1023 (pte_construct pd 3) D), T. split; [done|].
  split; [intros i Hi; rewrite boot_upd_ne by lia; by apply HD|]. split; [apply boot_upd_eq|done].
Qed.

(** The whole run. *)
Lemma early_run bp zp s :
  boot_tables bp zp (e_mem s) → e_cr3 s = bp → tabs (fun _ => 0) (fun _ => 0) (e_mem s) →
  returns early_init_kernel_paging s (fun _ s' => e_cr3 s' = pd ∧ ∃ mapped marked,
    marking bp zp (pte_construct pd 3) mapped marked s' ∧ (∀ r, r ∈ mapped ↔ r ∈ boot_vm_map ∧ static r = true) ∧
    (∀ r, r ∈ boot_vm_map → r ∈ marked)).
Proof.
  intros Hb Hc Ht. destruct layout_facts as (P1 & P2 & P3 & P4 & P5 & P6 & _).
  assert (Hpd : km_paddr new_kernel_pd = pd)
    by (unfold new_kernel_pd, km_paddr, KM_VIRT_BASE, KM_PHYS_BASE in *; rewrite u32_small; lia).
  unfold early_init_kernel_paging. rewrite Hpd.
  eapply (returns_bind _ _ _ (fun _ s' => s' = s)); [unfold returns; by rewrite asserts_run|]. intros [] ? ->.
  assert (H0 : mapping bp zp true 0 [] s).
  { exists 0, (fun _ => 0), (fun _ => 0). split; [|split; [|split; [done|split; [|done]]]].
    - split; [done|]. split; [done|]. split; [done|]. unfold slot. intros [_ Hs]. lia.
    - intros i Hi. split; [by left|by intros ? ?%elem_of_nil|]. intros g Hg. unfold has. by rewrite Z.land_0_l.
    - split; [by intros ? ? ?%elem_of_nil|done]. }
  eapply returns_bind; [apply (for_regions_run bp zp true 0 (fun r => static r && executable r) map_executable boot_vm_map
    (fun r => eq_refl) (fun r H => H) ltac:(done) [] s H0)|].
  intros [] s1 (d1 & H1 & D1). eapply returns_bind; [by apply self_ref_run|]. intros [] s2 H2.
  assert (H3 : mapping bp zp false (pte_construct pd 3) d1 (mk_e (e_mem s2) pd)).
  { apply mapping_access; [done|]. intros r R1 R2 R3. apply D1. right. by rewrite R2, R3. }
  eapply (returns_bind _ _ _ (fun _ s' => s' = mk_e (e_mem s2) pd)); [done|]. intros [] ? ->.
  eapply returns_bind; [apply (for_regions_run bp zp false (pte_construct pd 3) (fun r => static r && negb (executable r)) map_rest
    boot_vm_map (fun r => eq_refl) (fun r H => H))|].
  { intros _ r n R1 R2 Hn Hown. apply andb_true_iff in R2 as [_ R2]. destruct own_region as (r0 & O1 & _ & O3 & _ & _ & O6).
    rewrite (regions_disjoint r r0 n R1 O1 Hn (O6 n Hown)), O3 in R2. done. }
  { exact H3. }
  intros [] s3 (d2 & (q & D & T & I & HD & HX & HT & Hall) & D2).
  destruct (boot_fill_run bp zp q D T s3 I) as (s4 & q4 & R4 & H4).
  eapply (returns_bind _ _ _ (fun _ s' => s' = s4)); [unfold returns; by rewrite R4|]. intros [] ? ->.
  assert (H5 : marking bp zp (pte_construct pd 3) d2 [] s4).
  { eexists q4, _, T. split; [exact H4|]. split; [intros i Hi; apply (filled_entry d2); [done|lia|by apply HD]|].
    split; [|done]. cbn beta. rewrite HX. unfold fe. rewrite entry_frame by (done || unfold is_u32; lia).
    by rewrite (proj2 (Z.eqb_neq pd PHYS_NULL)) by (unfold PHYS_NULL; lia). }
  eapply returns_bind; [apply (mark_regions_run bp zp (pte_construct pd 3) d2 boot_vm_map (fun r H => H) [] s4 H5)|].
  intros [] s5 (d3 & H6 & D3). eapply returns_run; [done|]. split; [done|]. exists d2, d3. split; [|split; [|done]].
  - destruct H6 as (q6 & D6 & T6 & [I1 [I2 I3]] & I4). exists q6, D6, T6. split; [|done]. by split.
  - intros r. rewrite D2, D1, elem_of_nil. destruct (static r), (executable r); cbn; intuition done.
Qed.

(** What a walk through the finished tables reads. *)
Lemma walk_tabs D T m v w :
  tabs D T m → 0 ≤ v < 0xFFC00000 → pde_get_paddr (D (v / 4096 / 1024)) = pt + 4096 * (v / 4096 / 1024) →
  walk m pd v w =
  let ok e := has e PAGE_BIT_PRESENT && (negb w || has e PAGE_BIT_RW) in
  if ok (D (v / 4096 / 1024)) && ok (T (v / 4096)) then Some (pte_get_paddr (T (v / 4096)) + v mod 4096) else None.
Proof.
  intros [H1 H2 H3] Hv Hf. destruct layout_facts as (P1 & P2 & P3 & P4 & P5 & _). unfold walk.
  rewrite pd_index, pt_index by (unfold is_u32; lia). rewrite (frame_aligned pd) by (done || unfold is_u32; lia).
  replace (v / 2 ^ 22) with (v / 4096 / 1024) by dlia. rewrite H2 by dlia. rewrite Hf.
  replace (pt + 4096 * (v / 4096 / 1024) + 4 * (v / 4096 mod 1024)) with (pt + 4 * (v / 4096)) by dlia.
  rewrite H3 by dlia. rewrite sub_page by lia. cbn zeta.
  destruct (has (D _) PAGE_BIT_PRESENT), (has (D _) PAGE_BIT_RW), (has (T _) PAGE_BIT_PRESENT), (has (T _) PAGE_BIT_RW), w; done.
Qed.

Lemma region_address r v :
  region_fits r → vbase r ≤ v < vbase r + rsize r →
  contains r (v / 4096) ∧ touches r (v / 4096 / 1024) ∧ 0 ≤ v < 0xFFC00000.
Proof.
  intros Hf Hv. destruct (pages_facts r Hf) as (E1 & E2 & E3 & E4 & E5). unfold contains, touches. rewrite touched_spec.
  split; [dlia|]. split; [exists (v / 4096); dlia|lia].
Qed.
End boot.

(** ** Properties *)

(** C17: the boot code builds the kernel's address space: it never faults on the tables it runs
    on, neither the boot tables nor, after the switch of CR3, the ones it is still changing,
    and leaves CR3 on the new directory.  Every address of a static region of the memory map
    then translates to its place in the physical region, and can be written exactly when the
    region may be; no other address below the last four megabytes is mapped, so the
    kernel's code and constants are write-protected and the dynamic region is still empty.
    Every address of a region has a present page table of its own, marked with the region's
    flags, and no directory entry of the lower three gigabytes is global: those that
    paging_alloc_dir copies to a process are exactly the kernel's. The last entry maps the
    directory itself. *)
Theorem early_paging_correct b bp zp s :
  boot_layout b → boot_tables b bp zp (e_mem s) → e_cr3 s = bp → tabs b (fun _ => 0) (fun _ => 0) (e_mem s) →
  ∃ s', early_init_kernel_paging b s = Done (tt, s') ∧ e_cr3 s' = pd b ∧
    (∀ r v, r ∈ boot_vm_map b → static r = true → vbase r ≤ v < vbase r + rsize r →
       let p := pbase r + (v - vbase r) in
       walk (e_mem s') (pd b) v false = Some p ∧
       walk (e_mem s') (pd b) v true = if has (rpflags r) PAGE_BIT_RW then Some p else None) ∧
    (∀ v w, 0 ≤ v < 0xFFC00000 → (∀ r, r ∈ boot_vm_map b → static r = true → ¬ vbase r ≤ v < vbase r + rsize r) →
       walk (e_mem s') (pd b) v w = None) ∧
    (∀ r v g, r ∈ boot_vm_map b → vbase r ≤ v < vbase r + rsize r → g ∈ bits →
       has (Z.lor (rpflags r) PAGE_BIT_PRESENT) g = true →
       let e := load32 (e_mem s') (pd b + 4 * (page_no v / 1024)) in
       pde_get_paddr e = pt b + 4096 * (page_no v / 1024) ∧ has e g = true) ∧
    (∀ v, 0 ≤ v < KM_VIRT_BASE → has (load32 (e_mem s') (pd b + 4 * (page_no v / 1024))) PAGE_BIT_GLOBAL = false) ∧
    load32 (e_mem s') (pd b + 4 * 1023) = pte_construct (pd b) 3.
Proof.
  intros HB Hb Hc Ht. destruct (returns_inv _ _ _ (early_run b HB bp zp s Hb Hc Ht))
    as ([] & s' & E & Hc' & mapped & marked & (q & D & T & [I _] & HD & HX & HT) & Hm & Hk).
  pose proof (regions_fit b HB) as Hf. rewrite Forall_forall in Hf. exists s'. split; [done|]. split; [done|].
  pose proof I as [I1 I2 I3]. split; [|split; [|split; [|split]]].
  - intros r v Hr Hs Hv p. pose proof (Hf r Hr) as Hfr. destruct (region_address r v Hfr Hv) as (C1 & C2 & C3).
    destruct (HD (v / 4096 / 1024) ltac:(dlia)) as [F1 F2 _]. rewrite !(walk_tabs b HB D T) by done. cbn zeta.
    specialize (F2 r). rewrite (ts_in _ _ HT r _ ltac:(by apply Hm) C1). unfold page_entry.
    rewrite (F2 PAGE_BIT_PRESENT (Hk r Hr) C2) by (rewrite ?has_lor, ?orb_true_r; by left || done).
    destruct (pages_facts r Hfr) as (E1 & E2 & E3 & E4 & E5). destruct Hfr as [Q1 Q2 Q3 (Q4 & Q5 & Q6) [Q7 Q8] Q9].
    unfold contains in C1. rewrite !entry_has, !has_lor by done. rewrite !orb_true_r. cbn [andb negb orb].
    change (pte_get_paddr ?e) with (pde_get_paddr e). rewrite entry_frame by (unfold is_u32; dlia).
    replace (pbase r + 4096 * (v / 4096 - first_page r) + v mod 4096) with p by (unfold p; dlia). split; [done|].
    destruct (has (rpflags r) PAGE_BIT_RW) eqn:Er; cbn [orb]; [|by rewrite andb_false_r].
    by rewrite (F2 PAGE_BIT_RW (Hk r Hr) C2 ltac:(right; by left)) by by rewrite has_lor, Er.
  - intros v w Hv Hn. destruct (HD (v / 4096 / 1024) ltac:(dlia)) as [F1 _ _]. rewrite (walk_tabs b HB D T) by done. cbn zeta.
    rewrite (ts_out _ _ HT) by (try dlia; intros r [R1 R2]%Hm C; apply (Hn r R1 R2);
      apply (contains_addr r _ (Hf r R1)) in C; destruct (Hf r R1) as [_ _ _ (Q1 & Q2 & _) _ _]; dlia).
    by rewrite andb_false_r.
  - intros r v g Hr Hv Hg Hh. destruct (region_address r v (Hf r Hr) Hv) as (C1 & C2 & C3). unfold page_no, PAGE_SIZE.
    destruct (HD (v / 4096 / 1024) ltac:(dlia)) as [F1 F2 _]. cbn zeta. rewrite I2 by dlia. split; [done|].
    by apply (F2 r g (Hk r Hr)).
  - intros v Hv. unfold KM_VIRT_BASE, KM_PHYS_BASE, page_no, PAGE_SIZE in *. rewrite I2 by dlia.
    destruct (HD (v / 4096 / 1024) ltac:(dlia)) as [_ _ F3]. apply not_true_iff_false. intros Hg.
    destruct (F3 PAGE_BIT_GLOBAL ltac:(do 3 right; by left) Hg) as (r & R1 & (n & Hn & En)%touched_spec & R3).
    apply (contains_addr r n (Hf r R1)) in Hn. rewrite (plain_map_eq b HB) in R1. unfold plain_map in R1.
    destruct HB as [[L1 L2 L3 L4 L5 L6 L7 L8 L9 L10 L11 L12] _ _ _ _ _ _ _]. rewrite L3 in *.
    rewrite !elem_of_cons, elem_of_nil in R1.
    repeat match type of R1 with _ ∨ _ => destruct R1 as [->|R1] end; try done; cbn [vbase rsize rpflags] in *; try done; dlia.
  - rewrite I2 by lia. done.
Qed.

(** ** Witness *)

Definition example_boot : boot_symbols :=
  mk_boot example_symbols 0xC0000000 0xC0130000 0xC0131000 0xC0101000.

(** The boot tables at 0x105000 and 0x106000. *)
Definition example_boot_mem : mem :=
  store32 (store32 (fun _ => 0) (0x105000 + 4 * 768) (pte_construct 0x106000 3)) (0x105000 + 4 * 1023) (pte_construct 0x105000 3).

Lemma example_boot_layout : boot_layout example_boot.
Proof.
  split; try (vm_compute; intuition congruence).
  - exact example_layout_ok.
  - repeat (apply Forall_cons; split; [reflexivity|]). apply Forall_nil_2.
Qed.

Lemma example_boot_tables : boot_tables example_boot 0x105000 0x106000 example_boot_mem.
Proof. split; vm_compute; intuition congruence. Qed.

Lemma example_boot_tabs : tabs example_boot (fun _ => 0) (fun _ => 0) example_boot_mem.
Proof.
  split.
  - apply byte_mem_store32, byte_mem_store32. intros a. lia.
  - intros i Hi. unfold example_boot_mem. change (pd example_boot) with 0x130000. rewrite !load32_store32_ne by lia. reflexivity.
  - intros n Hn. unfold example_boot_mem. change (pt example_boot) with 0x131000. rewrite !load32_store32_ne by lia. reflexivity.
Qed.

Lemma early_paging_correct_witness :
  ∃ s', early_init_kernel_paging example_boot (mk_e example_boot_mem 0x105000) = Done (tt, s') ∧
    walk (e_mem s') 0x130000 0xC0101234 false = Some 0x101234 ∧ walk (e_mem s') 0x130000 0xC0101234 true = None ∧
    walk (e_mem s') 0x130000 0x900000 true = Some 0x900000 ∧ walk (e_mem s') 0x130000 0xC0900000 false = None.
Proof.
  destruct (early_paging_correct example_boot 0x105000 0x106000 (mk_e example_boot_mem 0x105000) example_boot_layout
    example_boot_tables eq_refl example_boot_tabs) as (s' & E & _ & H1 & H2 & _).
  exists s'. split; [exact E|].
  destruct (H1 (nth 1 (boot_vm_map example_boot) (Build_vm_region 0 0 0 0 0)) 0xC0101234) as [A1 A2].
  { right. left. }
  { reflexivity. }
  { vm_compute. split; [discriminate|reflexivity]. }
  destruct (H1 (nth 5 (boot_vm_map example_boot) (Build_vm_region 0 0 0 0 0)) 0x900000) as [_ A4].
  { do 5 right. left. }
  { reflexivity. }
  { vm_compute. split; [discriminate|reflexivity]. }
  split; [exact A1|]. split; [exact A2|]. split; [exact A4|]. apply (H2 0xC0900000 false); [lia|].
  assert (Hall : forallb (fun r => negb (static r && ((vbase r <=? 0xC0900000) && (0xC0900000 <? vbase r + rsize r))))
    (boot_vm_map example_boot) = true) by (vm_compute; reflexivity).
  rewrite forallb_forall in Hall. intros r Hr Hs Hv. apply list_elem_of_In, Hall in Hr. rewrite Hs in Hr.
  rewrite (proj2 (Z.leb_le _ _) (proj1 Hv)), (proj2 (Z.ltb_lt _ _) (proj2 Hv)) in Hr. discriminate Hr.
Defined.
