(* ===== verification/ProcMem.v ===== *)
(** * arch/i386/proc.c, syscall/brk.c: the memory of processes

    A process object is known by a number; its fields that [proc.c] keeps are a record.
    The mutexes of a process are as the running thread sees them: held by it or not.
    [answers] says which CPUs answer a TLB shootdown ([Paging]).  The theorems are
    about the address spaces of [AddressSpace]: moving the break maps zeroed pages and
    nothing else, the memory of a process behaves as a byte array, fork copies it. *)

From stdpp Require Import base list gmap sets strings.
From Stdlib Require Import ZArith Lia.
From S2P Require Import Prelude Memory KUtils MemLayout Cpu Palloc Paging KernelHeap HeapPages AddressSpace AddressDup.

Definition UVNULL : Z := 0.
Definition VM_USER : Z := 0x01.
Definition VM_WRITE : Z := 0x02.
Definition VM_EXEC : Z := 0x04.

Record arch_proc := mk_arch {
  pd_mutex : bool;
  ap_pd : Z;
  ap_vfrom : Z;
  ap_vto : Z;
  ap_vstack : Z;
  ap_stack_size : Z;
  ap_venvironment : Z;
  ap_vbreak : Z;
  ap_cur_vbreak : Z;
}.

(** A process object, less what the scheduler keeps in it; [kpr_files] are the numbers of
    its open files. *)
Record kproc := mk_kproc {
  kpr_pid : Z;
  kpr_name : list Z;
  kpr_files : list (option nat);
  kpr_mutex : bool;
  kpr_arch : arch_proc;
}.

Record pmsys := mk_pm {
  pm_k : kstate;
  pm_procs : gmap nat kproc;
  pm_next : nat;
}.

Definition set_pm_k (k : kstate) (s : pmsys) : pmsys := mk_pm k (pm_procs s) (pm_next s).
Definition set_pm_procs (ps : gmap nat kproc) (s : pmsys) : pmsys := mk_pm (pm_k s) ps (pm_next s).
Definition on_k {A} (m : M kstate A) : M pmsys A := zoom pm_k set_pm_k m.

Definition aset_mutex (b : bool) (x : arch_proc) : arch_proc :=
  mk_arch b (ap_pd x) (ap_vfrom x) (ap_vto x) (ap_vstack x) (ap_stack_size x) (ap_venvironment x) (ap_vbreak x) (ap_cur_vbreak x).
Definition aset_pd (v : Z) (x : arch_proc) : arch_proc :=
  mk_arch (pd_mutex x) v (ap_vfrom x) (ap_vto x) (ap_vstack x) (ap_stack_size x) (ap_venvironment x) (ap_vbreak x) (ap_cur_vbreak x).
Definition aset_vfrom (v : Z) (x : arch_proc) : arch_proc :=
  mk_arch (pd_mutex x) (ap_pd x) v (ap_vto x) (ap_vstack x) (ap_stack_size x) (ap_venvironment x) (ap_vbreak x) (ap_cur_vbreak x).
Definition aset_vto (v : Z) (x : arch_proc) : arch_proc :=
  mk_arch (pd_mutex x) (ap_pd x) (ap_vfrom x) v (ap_vstack x) (ap_stack_size x) (ap_venvironment x) (ap_vbreak x) (ap_cur_vbreak x).
Definition aset_stack (v n : Z) (x : arch_proc) : arch_proc :=
  mk_arch (pd_mutex x) (ap_pd x) (ap_vfrom x) (ap_vto x) v n (ap_venvironment x) (ap_vbreak x) (ap_cur_vbreak x).
Definition aset_env (v : Z) (x : arch_proc) : arch_proc :=
  mk_arch (pd_mutex x) (ap_pd x) (ap_vfrom x) (ap_vto x) (ap_vstack x) (ap_stack_size x) v (ap_vbreak x) (ap_cur_vbreak x).
Definition aset_vbreak (v : Z) (x : arch_proc) : arch_proc :=
  mk_arch (pd_mutex x) (ap_pd x) (ap_vfrom x) (ap_vto x) (ap_vstack x) (ap_stack_size x) (ap_venvironment x) v (ap_cur_vbreak x).
Definition aset_cur_vbreak (v : Z) (x : arch_proc) : arch_proc :=
  mk_arch (pd_mutex x) (ap_pd x) (ap_vfrom x) (ap_vto x) (ap_vstack x) (ap_stack_size x) (ap_venvironment x) (ap_vbreak x) v.

Definition rd_proc (p : nat) : M pmsys kproc :=
  s <- get ;; match pm_procs s !! p with Some x => ret x | None => kpanic "no such process" end.
Definition wr_proc (p : nat) (f : kproc → kproc) : M pmsys unit :=
  x <- rd_proc p ;; modify (fun s => set_pm_procs (<[p := f x]> (pm_procs s)) s).
Definition rd_arch (p : nat) : M pmsys arch_proc := x <- rd_proc p ;; ret (kpr_arch x).
Definition wr_arch (p : nat) (f : arch_proc → arch_proc) : M pmsys unit :=
  wr_proc p (fun x => mk_kproc (kpr_pid x) (kpr_name x) (kpr_files x) (kpr_mutex x) (f (kpr_arch x))).

(** [thread_mutex_acquire] and [thread_mutex_release] of the two mutexes. *)
Definition mutex_acquire (p : nat) : M pmsys unit :=
  x <- rd_proc p ;;
  if kpr_mutex x then kpanic "thread_mutex_acquire(): on held lock"
  else wr_proc p (fun x => mk_kproc (kpr_pid x) (kpr_name x) (kpr_files x) true (kpr_arch x)).
Definition mutex_release (p : nat) : M pmsys unit :=
  x <- rd_proc p ;;
  if kpr_mutex x then wr_proc p (fun x => mk_kproc (kpr_pid x) (kpr_name x) (kpr_files x) false (kpr_arch x))
  else kpanic "thread_mutex_release(): called on an unheld mutex".
Definition pd_acquire (p : nat) : M pmsys unit :=
  x <- rd_arch p ;;
  if pd_mutex x then kpanic "thread_mutex_acquire(): on held lock" else wr_arch p (aset_mutex true).
Definition pd_release (p : nat) : M pmsys unit :=
  x <- rd_arch p ;;
  if pd_mutex x then wr_arch p (aset_mutex false)
  else kpanic "thread_mutex_release(): called on an unheld mutex".

Section operations.
Variable vm_map : list vm_region.
Variable kernel_pd : Z.
Variable answers : cpu_ptr → bool.

Definition check_kernel : M pmsys unit := on_k (assert_kernel_tables kernel_pd).

Definition check_palloc (why : string) : M pmsys unit :=
  h <- on_k (on_palloc palloc_lock_held) ;; if (h : bool) then kpanic why else ret tt.

(** [kmin(kstrlen(name), sizeof(proc->name) - 1)] characters of [name]. *)
Definition proc_name (name : list Z) : list Z :=
  take (Z.to_nat (kmin (Z.of_nat (length name)) 31)) name.

Definition proc_alloc (name : list Z) : M pmsys nat :=
  check_kernel ;;;
  s <- get ;;
  let proc := pm_next s in
  modify (fun s => mk_pm (pm_k s)
    (<[proc := mk_kproc 0 (proc_name name) (replicate 16 None) false (mk_arch false 0 0 0 0 0 0 0 0)]> (pm_procs s)) (S proc)) ;;;
  pd <- on_k (paging_alloc_dir kernel_pd) ;;
  wr_arch proc (aset_pd pd) ;;;
  wr_arch proc (aset_vfrom UVNULL) ;;;
  wr_arch proc (aset_vto UVNULL) ;;;
  wr_arch proc (aset_stack UVNULL 0) ;;;
  wr_arch proc (aset_vbreak UVNULL) ;;;
  wr_arch proc (aset_cur_vbreak UVNULL) ;;;
  ret proc.

(** [while (v <= proc->arch->vto)]. *)
Fixpoint free_pages (fuel : nat) (pd v vto : Z) : M kstate unit :=
  if negb (v <=? vto) then ret tt else
  match fuel with
  | O => hang
  | S fuel' =>
      pte <- paging_get_entry vm_map kernel_pd pd v ;;
      when (has pte PAGE_BIT_PRESENT && negb (has pte PAGE_BIT_GLOBAL))
        (on_palloc (pfree (phys_kernel_pd kernel_pd) (pte_get_paddr pte))) ;;;
      free_pages fuel' pd (u32 (v + PAGE_SIZE)) vto
  end.

Definition proc_free (proc : nat) : M pmsys unit :=
  check_kernel ;;;
  check_palloc "proc_vmreserve(): holding palloc lock" ;;;
  mutex_acquire proc ;;;
  pd_acquire proc ;;;
  x <- rd_arch proc ;;
  on_k (free_pages (Z.to_nat (page_no (ap_vto x) - page_no (ap_vfrom x) + 1)) (ap_pd x) (ap_vfrom x) (ap_vto x)) ;;;
  on_k (paging_free_dir vm_map kernel_pd (ap_pd x)) ;;;
  modify (fun s => set_pm_procs (delete proc (pm_procs s)) s).

Definition vm_pflags (flags : Z) : Z :=
  let pflags := PAGE_BIT_PRESENT in
  let pflags := if has flags VM_USER then Z.lor pflags PAGE_BIT_USER else pflags in
  if has flags VM_WRITE then Z.lor pflags PAGE_BIT_RW else pflags.

(** [vfrom] and [vto] after the page [v] has been reserved. *)
Definition cover (v : Z) (x : arch_proc) : arch_proc :=
  let x := if ap_vfrom x =? UVNULL then aset_vfrom v x else x in
  let x := if ap_vto x =? UVNULL then aset_vto v x else x in
  let x := if ap_vfrom x >? v then aset_vfrom v x else x in
  if ap_vto x <? v then aset_vto v x else x.

Definition unsafe_vmreserve (proc : nat) (v flags : Z) : M pmsys unit :=
  x <- rd_arch proc ;;
  let v := mask_to_page v in
  p <- on_k (paging_get vm_map kernel_pd (ap_pd x) v) ;;
  if negb (p =? 0) then ret tt else
  on_k (p <- on_palloc (palloc (phys_kernel_pd kernel_pd)) ;;
        paging_map vm_map kernel_pd (ap_pd x) v p (vm_pflags flags)) ;;;
  wr_arch proc (cover v) ;;;
  on_k (paging_propagate_changes answers (ap_pd x) v false).

Definition proc_vmreserve (proc : nat) (v flags : Z) : M pmsys unit :=
  check_kernel ;;;
  check_palloc "proc_vmreserve(): holding palloc lock" ;;;
  pd_acquire proc ;;;
  unsafe_vmreserve proc v flags ;;;
  pd_release proc.

Definition proc_vmread (proc : nat) (v buf num : Z) : M pmsys unit :=
  check_kernel ;;;
  pd_acquire proc ;;;
  x <- rd_arch proc ;;
  on_k (vmread vm_map kernel_pd (ap_pd x) v buf num) ;;;
  pd_release proc.

Definition proc_vmwrite (proc : nat) (v buf num : Z) : M pmsys unit :=
  check_kernel ;;;
  pd_acquire proc ;;;
  x <- rd_arch proc ;;
  on_k (vmwrite vm_map kernel_pd (ap_pd x) v buf num) ;;;
  pd_release proc.

Definition proc_set_stack (proc : nat) (v size : Z) : M pmsys unit :=
  pd_acquire proc ;;; wr_arch proc (aset_stack v size) ;;; pd_release proc.
Definition proc_set_env (proc : nat) (v : Z) : M pmsys unit :=
  pd_acquire proc ;;; wr_arch proc (aset_env v) ;;; pd_release proc.
Definition proc_get_env (proc : nat) : M pmsys Z :=
  pd_acquire proc ;;; x <- rd_arch proc ;; pd_release proc ;;; ret (ap_venvironment x).
Definition proc_set_break (proc : nat) (v : Z) : M pmsys unit :=
  pd_acquire proc ;;; wr_arch proc (aset_vbreak v) ;;; wr_arch proc (aset_cur_vbreak v) ;;; pd_release proc.

Definition proc_set_uvm (proc : nat) : M pmsys unit :=
  x <- rd_arch proc ;; on_k (on_cpu (cpu_set_cr3 (ap_pd x))) ;;; ret tt.
Definition proc_set_kvm : M pmsys unit := on_k (on_cpu (cpu_set_cr3 (phys_kernel_pd kernel_pd))) ;;; ret tt.

(** [while (vfrom <= vto)]: one turn per page. *)
Fixpoint reserve_loop (fuel : nat) (proc : nat) (vfrom vto flags : Z) : M pmsys unit :=
  if negb (vfrom <=? vto) then ret tt else
  match fuel with
  | O => hang
  | S fuel' =>
      unsafe_vmreserve proc vfrom flags ;;;
      reserve_loop fuel' proc (u32 (vfrom + PAGE_SIZE)) vto flags
  end.

Definition pages_between (vfrom vto : Z) : nat := Z.to_nat (page_no vto - page_no vfrom + 1).

Definition unsafe_brk (proc : nat) (v : Z) : M pmsys Z :=
  x <- rd_arch proc ;;
  if (v <? ap_vbreak x) || has (vm_get_pflags vm_map v) PAGE_BIT_GLOBAL then ret (- EUNSPEC) else
  remaining <- on_k (on_palloc palloc_get_remaining) ;;
  if u32 (v - ap_vbreak x) >? remaining then ret (- EUNSPEC) else
  let vfrom := mask_to_page (ap_cur_vbreak x) in
  let vto := mask_to_page v in
  reserve_loop (pages_between vfrom vto) proc vfrom vto (Z.lor VM_USER VM_WRITE) ;;;
  wr_arch proc (aset_cur_vbreak v) ;;;
  wr_arch proc (fun x => if ap_vto x <? vto then aset_vto vto x else x) ;;;
  ret 0.

Definition proc_brk (proc : nat) (v : Z) : M pmsys Z :=
  check_kernel ;;;
  pd_acquire proc ;;;
  r <- unsafe_brk proc v ;;
  pd_release proc ;;;
  ret r.

Definition proc_sbrk (proc : nat) (diff : Z) : M pmsys Z :=
  check_kernel ;;;
  pd_acquire proc ;;;
  x <- rd_arch proc ;;
  result <- unsafe_brk proc (u32 (ap_cur_vbreak x + diff)) ;;
  let r := if result <? 0 then u32 result else ap_cur_vbreak x in
  pd_release proc ;;;
  ret r.

(** ** syscall/brk.c *)

(** [get_current_thread()] and its [parent]. *)
Definition current_proc (who : string) (thread : option (option nat)) : M pmsys nat :=
  match thread with
  | None => kpanic (who ++ "(): null thread")
  | Some None => kpanic (who ++ "(): null proc")
  | Some (Some p) => ret p
  end.

Definition syscall_brk (thread : option (option nat)) (ptr : Z) : M pmsys Z :=
  proc <- current_proc "syscall_brk" thread ;;
  proc_set_kvm ;;;
  r <- proc_brk proc ptr ;;
  proc_set_uvm proc ;;;
  ret r.

(** The result passes through an [int]. *)
Definition syscall_sbrk (thread : option (option nat)) (diff : Z) : M pmsys Z :=
  proc <- current_proc "syscall_sbrk" thread ;;
  proc_set_kvm ;;;
  r <- proc_sbrk proc diff ;;
  proc_set_uvm proc ;;;
  ret (u32 (s32 r)).
End operations.

(** ** Address spaces that grow *)

(** The pages [n0] to [n1] have been added to [F] where they were missing: zeroed, with
    flags [fl], in frames that were free. *)
Record grown (l : list Z) (fl : Z) (F : upages) (m : mem) (n0 n1 : Z) (F' : upages) (m' : mem) : Prop := {
  gr_old : F ⊆ F';
  gr_new : ∀ n p, F' !! n = Some p → F !! n = None → n0 ≤ n ≤ n1 ∧ p.1 ∈ l ∧ p.2 = fl;
  gr_all : ∀ n, n0 ≤ n ≤ n1 → is_Some (F' !! n);
  gr_bytes : ∀ v, ubytes F' m' v =
    match ubytes F m v with
    | Some b => Some b
    | None => if (n0 <=? page_no v) && (page_no v <=? n1) then Some 0 else None
    end;
}.

Lemma ubytes_none F m v : ubytes F m v = None ↔ F !! page_no v = None.
Proof. unfold ubytes. by rewrite fmap_None. Qed.

Lemma grown_refl l fl F m m' n0 n1 :
  n1 < n0 → (∀ v, ubytes F m' v = ubytes F m v) → grown l fl F m n0 n1 F m'.
Proof.
  intros Hlt Hb. split; [done|by intros n p ->|intros n; lia|]. intros v. rewrite Hb.
  destruct (ubytes F m v); [done|]. destruct (Z.leb_spec n0 (page_no v)), (Z.leb_spec (page_no v) n1); cbn; done || lia.
Qed.

Lemma grown_trans l l' fl F m n0 F1 m1 n1 F2 m2 :
  grown l fl F m n0 n0 F1 m1 → grown l' fl F1 m1 (n0 + 1) n1 F2 m2 → n0 ≤ n1 → l' ⊆ l →
  grown l fl F m n0 n1 F2 m2.
Proof.
  intros [A1 A2 A3 A4] [B1 B2 B3 B4] Hn Hl. split.
  - by transitivity F1.
  - intros n p Hp Hn0. destruct (F1 !! n) as [q|] eqn:E1.
    + rewrite (lookup_weaken _ _ _ _ E1 B1) in Hp. injection Hp as <-.
      destruct (A2 n q E1 Hn0) as (? & ? & ?). split; [lia|done].
    + destruct (B2 n p Hp E1) as (? & ? & ?). split; [lia|]. split; [by apply Hl|done].
  - intros n Hr. destruct (decide (n = n0)) as [->|]; [|apply B3; lia].
    destruct (A3 n0 ltac:(lia)) as [q Hq]. exists q. by apply (lookup_weaken F1).
  - intros v. rewrite B4, A4. destruct (ubytes F m v); [done|].
    destruct (Z.leb_spec n0 (page_no v)), (Z.leb_spec (page_no v) n0), (Z.leb_spec (n0 + 1) (page_no v)),
      (Z.leb_spec (page_no v) n1); cbn; done || lia.
Qed.

Lemma page_test n v : (n <=? page_no v) && (page_no v <=? n) = bool_decide (page_no v = n).
Proof.
  destruct (Z.leb_spec n (page_no v)), (Z.leb_spec (page_no v) n); cbn; symmetry;
    first [apply bool_decide_eq_true|apply bool_decide_eq_false]; lia.
Qed.

(** The page was there. *)
Lemma grown_present l fl F m n q : F !! n = Some q → grown l fl F m n n F m.
Proof.
  intros Eq. split; [done|by intros k p Hp Hk; rewrite Hk in Hp| |].
  - intros k Hk. by replace k with n by lia.
  - intros v. destruct (ubytes F m v) eqn:Ev; [done|]. apply ubytes_none in Ev. rewrite page_test.
    case_bool_decide as E; [|done]. by rewrite E, Eq in Ev.
Qed.

(** The page is a new one. *)
Lemma grown_insert l fl F m m' n w :
  F !! n = None → w ∈ l → (∀ v, ubytes F m' v = ubytes F m v) → (∀ x, in_page w x → m' x = 0) →
  grown l fl F m n n (<[n := (w, fl)]> F) m'.
Proof.
  intros Eq Hw Hb Hz. split.
  - by apply insert_subseteq.
  - intros k q [[<- <-]|[Hne Hq]]%lookup_insert_Some Hk; [|by rewrite Hk in Hq]. split; [lia|done].
  - intros k Hk. replace k with n by lia. by rewrite lookup_insert_eq.
  - intros v. rewrite page_test, <- Hb. unfold ubytes. case_bool_decide as Ev.
    + rewrite Ev, lookup_insert_eq, Eq. cbn. f_equal. apply Hz.
      unfold in_page. pose proof (Z.mod_pos_bound v PAGE_SIZE ltac:(done)). lia.
    + rewrite lookup_insert_ne by done. by destruct (F !! page_no v).
Qed.

(** Free pages fit into their region. *)
Lemma pages_bytes r l :
  region_ok r → Forall (page_ok r) l → NoDup l → Z.of_nat (length l) * PAGE_SIZE ≤ rsize r.
Proof.
  intros Hr Hl Hn. rewrite Forall_forall in Hl. pose proof Hr as [_ _ R3 _ _ R6 _ R8].
  assert (Hs : page_no <$> l ⊆+ seqZ (page_no (vbase r)) (page_no (rsize r))).
  { apply NoDup_submseteq.
    - apply NoDup_fmap_2_strong; [|done]. intros v w Hv Hw E. destruct (Hl v Hv) as (A & _), (Hl w Hw) as (B & _).
      unfold page_no, PAGE_SIZE in *. dlia.
    - intros n (v & -> & Hv)%list_elem_of_fmap. apply elem_of_seqZ. destruct (Hl v Hv) as (A & B & C).
      unfold page_no, PAGE_SIZE in *. dlia. }
  apply submseteq_length in Hs. rewrite length_fmap, length_seqZ in Hs. unfold page_no, PAGE_SIZE in *. dlia.
Qed.

(** ** Lemmas: fields of processes *)

Lemma on_k_run {A} (m : M kstate A) s a k' : m (pm_k s) = Done (a, k') → on_k m s = Done (a, set_pm_k k' s).
Proof. intros E. unfold on_k, zoom. by rewrite E. Qed.

Lemma on_k_same {A} (m : M kstate A) s a : m (pm_k s) = Done (a, pm_k s) → on_k m s = Done (a, s).
Proof. intros E. rewrite (on_k_run _ _ _ _ E). by destruct s. Qed.

Section fields.
Variables (p : nat) (x : kproc) (s : pmsys).
Hypothesis Hp : pm_procs s !! p = Some x.

Lemma rd_kproc_run : rd_proc p s = Done (x, s).
Proof. unfold rd_proc, bind, get. by rewrite Hp. Qed.

Lemma rd_arch_run : rd_arch p s = Done (kpr_arch x, s).
Proof. unfold rd_arch. by rewrite (bind_run _ _ _ _ _ rd_kproc_run). Qed.

Lemma wr_kproc_run f : wr_proc p f s = Done (tt, set_pm_procs (<[p := f x]> (pm_procs s)) s).
Proof. unfold wr_proc. by rewrite (bind_run _ _ _ _ _ rd_kproc_run). Qed.

Definition with_arch (f : arch_proc → arch_proc) : kproc := mk_kproc (kpr_pid x) (kpr_name x) (kpr_files x) (kpr_mutex x) (f (kpr_arch x)).

Lemma wr_arch_run f : wr_arch p f s = Done (tt, set_pm_procs (<[p := with_arch f]> (pm_procs s)) s).
Proof. apply wr_kproc_run. Qed.

Lemma pd_acquire_run :
  pd_mutex (kpr_arch x) = false →
  pd_acquire p s = Done (tt, set_pm_procs (<[p := with_arch (aset_mutex true)]> (pm_procs s)) s).
Proof. intros H. unfold pd_acquire. by rewrite (bind_run _ _ _ _ _ rd_arch_run), H, wr_arch_run. Qed.

Lemma pd_release_run :
  pd_mutex (kpr_arch x) = true →
  pd_release p s = Done (tt, set_pm_procs (<[p := with_arch (aset_mutex false)]> (pm_procs s)) s).
Proof. intros H. unfold pd_release. by rewrite (bind_run _ _ _ _ _ rd_arch_run), H, wr_arch_run. Qed.
End fields.

(** The kernel state after a TLB shootdown. *)
Definition announced (pd v : Z) (g : bool) (k : kstate) : kstate :=
  mk_kstate (k_mach k) (palloc_spinlock k) (kp_spinlock k) (ipi_spinlock k) (k_pal k) pd v g.

Section reserve.
Variable vm_map : list vm_region.
Variable kernel_pd : Z.
Variable r : vm_region.
Variable answers : cpu_ptr → bool.
Hypothesis Hmap : map_ok vm_map r.
Hypothesis Hans : ∀ q, answers q = true.
Local Abbreviation kpd := (phys_kernel_pd kernel_pd).

(** Process [p] is [x]; its page directory is the address space [T], [F]. *)
Record in_space (l : list Z) (s : pmsys) (p : nat) (x : kproc) (a : Z) (T : gmap Z Z) (F : upages) : Prop := {
  is_proc : pm_procs s !! p = Some x;
  is_pd : ap_pd (kpr_arch x) = v2p r a;
  is_space : has_space kernel_pd r l (pm_k s) a T F;
  is_mach : mach_ok kpd (k_mach (pm_k s));
  is_ipi : ipi_spinlock (pm_k s) = free_lock;
}.

Lemma in_space_procs l s p x x' a T F :
  in_space l s p x a T F → ap_pd (kpr_arch x') = ap_pd (kpr_arch x) →
  in_space l (set_pm_procs (<[p := x']> (pm_procs s)) s) p x' a T F.
Proof. intros [H1 H2 H3 H4 H5] E. split; cbn; try done; [by rewrite lookup_insert_eq|by rewrite E]. Qed.

(** Pages [n0] to [n1] are not the kernel's. *)
Definition user_pages (m : mem) (a n0 n1 : Z) : Prop :=
  ∀ v, is_u32 v → n0 ≤ page_no v ≤ n1 → user_address m a v.

Lemma vm_pflags_ok flags :
  0 ≤ vm_pflags flags < 4096 ∧ has (vm_pflags flags) PAGE_BIT_GLOBAL = false ∧
  Z.lor (vm_pflags flags) PAGE_BIT_PRESENT = vm_pflags flags.
Proof. unfold vm_pflags. destruct (has flags VM_USER), (has flags VM_WRITE); repeat split; vm_compute; done. Qed.

Lemma cover_pd v x : ap_pd (cover v x) = ap_pd x.
Proof. unfold cover. by repeat case_match. Qed.

(** A page the space has already: nothing happens. *)
Lemma reserve_present l s p x a T F v flags q :
  in_space l s p x a T F → user_address (kmem (pm_k s)) a (mask_to_page v) →
  F !! page_no (mask_to_page v) = Some q →
  unsafe_vmreserve vm_map kernel_pd answers p v flags s = Done (tt, s).
Proof.
  intros [H1 H2 H3 H4 H5] Hu Hq. unfold unsafe_vmreserve. rewrite (bind_run _ _ _ _ _ (rd_arch_run _ _ _ H1)).
  assert (E : paging_get vm_map kernel_pd (ap_pd (kpr_arch x)) (mask_to_page v) (pm_k s) = Done (v2p r q.1, pm_k s)).
  { unfold paging_get. rewrite H2, (bind_run _ _ _ _ _ (get_entry_run _ _ _ Hmap _ _ _ _ _ _ H3 Hu)). unfold ret.
    rewrite (entry_value_frame _ _ Hmap _ _ _ _ _ (hs_space _ _ _ _ _ _ _ H3)), Hq. by destruct q. }
  rewrite (bind_run _ _ _ _ _ (on_k_same _ _ _ E)).
  destruct (v2p_page r q.1 (mo_region _ _ Hmap)) as (_ & Hnz & _).
  { apply (space_page_ok _ _ _ _ _ _ (hs_space _ _ _ _ _ _ _ H3)). destruct q. eauto with space. }
  by rewrite (proj2 (Z.eqb_neq (v2p r q.1) 0) Hnz).
Qed.

Lemma mask_of_page n : 0 ≤ n < 2 ^ 20 → mask_to_page (PAGE_SIZE * n) = PAGE_SIZE * n ∧ page_no (PAGE_SIZE * n) = n ∧ is_u32 (PAGE_SIZE * n).
Proof.
  intros H. unfold page_no, is_u32, PAGE_SIZE in *.
  split; [rewrite mask_to_page_eq by (unfold is_u32; lia); unfold PAGE_SIZE; dlia|]. split; [|lia]. rewrite Z.mul_comm. apply Z.div_mul. lia.
Qed.

(** All fields but the range of addresses in use. *)
Definition same_layout (y y' : arch_proc) : Prop :=
  aset_vfrom 0 (aset_vto 0 y') = aset_vfrom 0 (aset_vto 0 y).

Lemma same_layout_fields y y' :
  same_layout y y' → ap_vbreak y' = ap_vbreak y ∧ ap_cur_vbreak y' = ap_cur_vbreak y ∧ pd_mutex y' = pd_mutex y.
Proof. by intros [= ? ? ? ? ? ? ?]. Qed.

(** The effect of reserving the page [n]. *)
Definition reserved (l : list Z) (s : pmsys) (p : nat) (x : kproc) (a : Z) (T : gmap Z Z) (F : upages)
    (flags n0 n1 : Z) (need : nat) (s' : pmsys) : Prop :=
  ∃ l' x' T' F', in_space l' s' p x' a T' F' ∧ (length l ≤ length l' + need)%nat ∧ l' ⊆ l ∧
    pm_procs s' = <[p := x']> (pm_procs s) ∧
    grown l (vm_pflags flags) F (kmem (pm_k s)) n0 n1 F' (kmem (pm_k s')) ∧
    same_global a (kmem (pm_k s)) (kmem (pm_k s')) ∧
    agree_off (dirs a T ++ l) (kmem (pm_k s)) (kmem (pm_k s')) ∧
    owned a T' F' ++ l' ≡ₚ owned a T F ++ l ∧ dirs a T' ++ l' ⊆ dirs a T ++ l ∧
    (∃ f, x' = with_arch x f) ∧ same_layout (kpr_arch x) (kpr_arch x').

Lemma reserve_run l s p x a T F n flags :
  in_space l s p x a T F → 0 ≤ n < 2 ^ 20 → user_pages (kmem (pm_k s)) a n n → (2 ≤ length l)%nat →
  ∃ s', unsafe_vmreserve vm_map kernel_pd answers p (PAGE_SIZE * n) flags s = Done (tt, s') ∧
    reserved l s p x a T F flags n n 2 s'.
Proof.
  intros H Hn Hu Hl. destruct (mask_of_page n Hn) as (Em & En & Eu).
  specialize (Hu (PAGE_SIZE * n) Eu ltac:(lia)). pose proof H as [H1 H2 H3 H4 H5].
  destruct (F !! n) as [q|] eqn:Eq.
  - exists s. split; [by apply (reserve_present l s p x a T F _ _ q); rewrite ?Em, ?En|].
    exists l, x, T, F. split; [done|]. split; [cbn; lia|]. split; [done|]. split; [by rewrite insert_id|].
    split; [by apply (grown_present _ _ _ _ _ q)|].
    split; [by intros i _|]. split; [apply agree_off_refl|]. do 2 (split; [done|]).
    split; [exists (fun y => y); by destruct x|done].
  - destruct l as [|w l]; [cbn in Hl; lia|].
    destruct (new_page_run vm_map kernel_pd r Hmap w l (pm_k s) a T F (PAGE_SIZE * n) (vm_pflags flags))
      as (t & l' & T' & E & Hs' & Hl' & Hperm & Hdp & Hg & Hag & Hz); rewrite ?En; try done.
    { apply vm_pflags_ok. } { apply vm_pflags_ok. } { intros _ ->. cbn in Hl. lia. }
    rewrite En in *. replace (Z.lor (vm_pflags flags) _) with (vm_pflags flags) in * by (symmetry; apply vm_pflags_ok).
    set (k1 := set_pal t (pm_k s)) in *. set (x' := with_arch x (cover (PAGE_SIZE * n))).
    exists (mk_pm (announced (ap_pd (kpr_arch x)) (PAGE_SIZE * n) false k1) (<[p := x']> (pm_procs s)) (pm_next s)).
    split.
    { unfold unsafe_vmreserve. rewrite (bind_run _ _ _ _ _ (rd_arch_run _ _ _ H1)), Em.
      assert (Eg : paging_get vm_map kernel_pd (ap_pd (kpr_arch x)) (PAGE_SIZE * n) (pm_k s) = Done (0, pm_k s)).
      { unfold paging_get. rewrite H2, (bind_run _ _ _ _ _ (get_entry_run _ _ _ Hmap _ _ _ _ _ _ H3 Hu)). unfold ret.
        by rewrite (entry_value_frame _ _ Hmap _ _ _ _ _ (hs_space _ _ _ _ _ _ _ H3)), En, Eq. }
      rewrite (bind_run _ _ _ _ _ (on_k_same _ _ _ Eg)). cbn [Z.eqb negb].
      rewrite <- H2 in E. rewrite (bind_run _ _ _ _ _ (on_k_run _ _ _ _ E)).
      rewrite (bind_run _ _ _ _ _ (wr_arch_run _ x (set_pm_k k1 s) H1 _)).
      unfold on_k, zoom. cbn [pm_k set_pm_procs set_pm_k].
      rewrite (propagate_run kernel_pd answers Hans k1 _ _ false H4 H5). done. }
    exists l', x', T', (<[n := (w, vm_pflags flags)]> F).
    assert (Hlen : (length (w :: l) ≤ length l' + 2)%nat) by (destruct Hl' as [->|[u ->]]; cbn; lia).
    split; [split; cbn; try done; [by rewrite lookup_insert_eq|by rewrite cover_pd|]|].
    { destruct Hs' as [[Hc Hi] Hsp Hap]. by split; [split|..]. }
    split; [done|]. split; [destruct Hl' as [->|[u ->]]; intros z Hzl; [by right|by do 2 right]|]. split; [done|]. split.
    { destruct H3 as [[_ Hinv] Hsp Hap]. apply grown_insert; try done; [by left|].
      intros v. by apply (ubytes_dirs r (w :: l) (kmem (pm_k s)) (pmem t) a T F v Hsp Hap (pi_pages _ _ _ Hinv)). }
    do 4 (split; [done|]). split; [by eexists|].
    unfold x', with_arch, cover, same_layout. cbn. by repeat case_match.
Qed.

Lemma reserved_none l s p x a T F flags n0 n1 :
  in_space l s p x a T F → n1 < n0 → reserved l s p x a T F flags n0 n1 0 s.
Proof.
  intros H Hlt. exists l, x, T, F. split; [done|]. split; [lia|]. split; [done|].
  split; [by rewrite insert_id by apply H|]. split; [by apply grown_refl|].
  split; [by intros i _|]. split; [apply agree_off_refl|]. do 2 (split; [done|]).
  split; [exists (fun y => y); by destruct x|done].
Qed.

Lemma reserved_trans l s p x a T F flags n0 n1 k s1 s2 :
  reserved l s p x a T F flags n0 n0 2 s1 → n0 ≤ n1 →
  (∀ l1 x1 T1 F1, in_space l1 s1 p x1 a T1 F1 → l1 ⊆ l → same_global a (kmem (pm_k s)) (kmem (pm_k s1)) →
     (length l ≤ length l1 + 2)%nat → reserved l1 s1 p x1 a T1 F1 flags (n0 + 1) n1 k s2) →
  reserved l s p x a T F flags n0 n1 (2 + k) s2.
Proof.
  intros (l1 & x1 & T1 & F1 & A1 & A2 & A3 & A4 & A5 & A6 & A7 & A8 & A9 & (f1 & ->) & A11) Hn H2.
  destruct (H2 _ _ _ _ A1 A3 A6 A2) as (l2 & x2 & T2 & F2 & B1 & B2 & B3 & B4 & B5 & B6 & B7 & B8 & B9 & (f2 & ->) & B11).
  exists l2, (with_arch (with_arch x f1) f2), T2, F2. split; [done|]. split; [lia|]. split; [by transitivity l1|].
  split; [by rewrite B4, A4, insert_insert_eq|]. split; [by apply (grown_trans _ l1 _ _ _ _ F1 (kmem (pm_k s1)))|].
  split; [intros i Hi; by rewrite (B6 i Hi), (A6 i Hi)|].
  split; [apply (agree_off_trans _ _ (kmem (pm_k s1))); [done|by apply (agree_off_mono (dirs a T1 ++ l1))]|].
  split; [by rewrite B8|]. split; [by transitivity (dirs a T1 ++ l1)|]. split; [by exists (fun y => f2 (f1 y))|].
  unfold same_layout in *. by rewrite B11.
Qed.

Lemma user_pages_global m m' a n0 n1 n0' : same_global a m m' → n0 ≤ n0' → user_pages m a n0 n1 → user_pages m' a n0' n1.
Proof. intros Hg Hn Hu v Hv Hr. apply (same_global_user _ m); [done|]. apply Hu; [done|lia]. Qed.

Lemma reserve_loop_run flags n1 k : ∀ l s p x a T F n0,
  in_space l s p x a T F → n0 + Z.of_nat k = n1 + 1 → 0 ≤ n0 → n1 < 2 ^ 20 - 1 →
  user_pages (kmem (pm_k s)) a n0 n1 → (2 * k ≤ length l)%nat →
  ∃ s', reserve_loop vm_map kernel_pd answers k p (PAGE_SIZE * n0) (PAGE_SIZE * n1) flags s = Done (tt, s') ∧
    reserved l s p x a T F flags n0 n1 (2 * k) s'.
Proof.
  induction k as [|k IH]; intros l s p x a T F n0 H Hk H0 H1 Hu Hl; cbn [reserve_loop].
  - rewrite (proj2 (Z.leb_gt _ _)) by (unfold PAGE_SIZE; lia). exists s. split; [done|]. apply reserved_none; [done|lia].
  - rewrite (proj2 (Z.leb_le _ _)) by (unfold PAGE_SIZE; lia). cbn [negb].
    destruct (reserve_run l s p x a T F n0 flags H) as (s1 & E1 & R1); [lia| |lia|].
    { intros v Hv Hr. apply Hu; [done|lia]. }
    rewrite (bind_run _ _ _ _ _ E1). pose proof R1 as (l1 & x1 & T1 & F1 & A1 & A2 & _ & _ & _ & A6 & _).
    assert (Hnext : u32 (PAGE_SIZE * n0 + PAGE_SIZE) = PAGE_SIZE * (n0 + 1)).
    { unfold PAGE_SIZE. rewrite u32_small; lia. }
    rewrite Hnext. replace (2 * S k)%nat with (2 + 2 * k)%nat by lia.
    destruct (IH l1 s1 p x1 a T1 F1 (n0 + 1) A1) as (s2 & E2 & R2); try lia.
    { by apply (user_pages_global (kmem (pm_k s)) _ _ n0); [|lia|]. }
    exists s2. split; [done|]. apply (reserved_trans _ _ _ _ _ _ _ _ _ _ _ s1); [done|lia|].
    intros l1' x1' T1' F1' A1' A3' A6' A2'.
    destruct (IH l1' s1 p x1' a T1' F1' (n0 + 1) A1') as (s2' & E2' & R2'); try lia.
    { by apply (user_pages_global (kmem (pm_k s)) _ _ n0); [|lia|]. }
    rewrite E2 in E2'. by injection E2' as ->.
Qed.

(** Pages the loop from [n0] to [n1] may have to map: a first page that is there costs none. *)
Definition new_pages (F : upages) (n0 n1 : Z) : nat := Z.to_nat (n1 - n0 + match F !! n0 with Some _ => 0 | None => 1 end).

Lemma reserved_first l s p x a T F flags n0 n1 k q s' :
  F !! n0 = Some q → reserved l s p x a T F flags (n0 + 1) n1 k s' → reserved l s p x a T F flags n0 n1 k s'.
Proof.
  intros Hq (l1 & x1 & T1 & F1 & A1 & A2 & A3 & A4 & [G1 G2 G3 G4] & A6). exists l1, x1, T1, F1.
  do 4 (split; [done|]). split; [|exact A6]. split; [done| | |].
  - intros n c Hn Hf. destruct (G2 n c Hn Hf) as (? & ? & ?). split; [lia|done].
  - intros n Hn. destruct (decide (n = n0)) as [->|]; [|apply G3; lia]. exists q. by apply (lookup_weaken F).
  - intros v. rewrite G4. destruct (ubytes F (kmem (pm_k s)) v) eqn:Ev; [done|]. apply ubytes_none in Ev.
    destruct (decide (page_no v = n0)) as [E|Hne]; [by rewrite E, Hq in Ev|].
    destruct (Z.leb_spec (n0 + 1) (page_no v)), (Z.leb_spec n0 (page_no v)); cbn; done || lia.
Qed.

Lemma reserve_pages flags n0 n1 l s p x a T F :
  in_space l s p x a T F → 0 ≤ n0 ≤ n1 → n1 < 2 ^ 20 - 1 → user_pages (kmem (pm_k s)) a n0 n1 → (2 * new_pages F n0 n1 ≤ length l)%nat →
  ∃ s', reserve_loop vm_map kernel_pd answers (Z.to_nat (n1 - n0 + 1)) p (PAGE_SIZE * n0) (PAGE_SIZE * n1) flags s = Done (tt, s') ∧
    reserved l s p x a T F flags n0 n1 (2 * new_pages F n0 n1) s'.
Proof.
  intros H H0 H1 Hu Hl. unfold new_pages in *. destruct (F !! n0) as [q|] eqn:Eq; [|by apply reserve_loop_run; try done; lia].
  rewrite Z.add_0_r in *. replace (Z.to_nat (n1 - n0 + 1)) with (S (Z.to_nat (n1 - n0))) by lia. cbn [reserve_loop].
  rewrite (proj2 (Z.leb_le _ _)) by (unfold PAGE_SIZE; lia). cbn [negb].
  destruct (mask_of_page n0 ltac:(lia)) as (Em & En & Eu).
  rewrite (bind_run _ _ _ _ _ (reserve_present l s p x a T F (PAGE_SIZE * n0) flags q H
    ltac:(rewrite Em; apply Hu; [done|lia]) ltac:(by rewrite Em, En))).
  replace (u32 (PAGE_SIZE * n0 + PAGE_SIZE)) with (PAGE_SIZE * (n0 + 1)) by (unfold PAGE_SIZE; rewrite u32_small; lia).
  destruct (reserve_loop_run flags n1 (Z.to_nat (n1 - n0)) l s p x a T F (n0 + 1) H) as (s' & E & R); try lia.
  { intros v Hv Hr. apply Hu; [done|lia]. }
  exists s'. split; [done|]. by apply (reserved_first _ _ _ _ _ _ _ _ _ _ _ q).
Qed.

Lemma has_flags_or v0 vb g : (v0 <? vb) || g = true ↔ v0 < vb ∨ g = true.
Proof. rewrite orb_true_iff, Z.ltb_lt. done. Qed.

Lemma remaining_run l s p x a T F :
  in_space l s p x a T F →
  on_k (on_palloc palloc_get_remaining) s = Done (Z.of_nat (length l) * PAGE_SIZE, s).
Proof.
  intros [_ _ [[Hc Hi] _ _] _ _]. apply on_k_same.
  rewrite (on_palloc_run _ _ (Z.of_nat (length l) * PAGE_SIZE) (k_pal (pm_k s))); [by rewrite set_pal_same|].
  unfold palloc_view. rewrite (palloc_get_remaining_run r l) by (done || apply Hmap || apply Hc).
  rewrite u32_small; [done|]. pose proof (pages_bytes r l (mo_region _ _ Hmap) (pi_pages _ _ _ Hi) (pi_nodup _ _ _ Hi)).
  pose proof (mo_region _ _ Hmap) as []. unfold PAGE_SIZE in *. lia.
Qed.

(** The break is refused: nothing changes. *)
Definition brk_refused (l : list Z) (x : kproc) (v : Z) : Prop :=
  v < ap_vbreak (kpr_arch x) ∨ has (vm_get_pflags vm_map v) PAGE_BIT_GLOBAL = true ∨
  Z.of_nat (length l) * PAGE_SIZE < v - ap_vbreak (kpr_arch x).

Lemma unsafe_brk_refused l s p x a T F v :
  in_space l s p x a T F → is_u32 v → 0 ≤ ap_vbreak (kpr_arch x) → brk_refused l x v →
  unsafe_brk vm_map kernel_pd answers p v s = Done (- EUNSPEC, s).
Proof.
  intros H Hv Hb Hr. unfold unsafe_brk. rewrite (bind_run _ _ _ _ _ (rd_arch_run _ _ _ (is_proc _ _ _ _ _ _ _ H))).
  destruct ((v <? _) || _) eqn:E; [done|]. apply orb_false_elim in E as [E1 E2]. zbool.
  rewrite (bind_run _ _ _ _ _ (remaining_run _ _ _ _ _ _ _ H)). rewrite u32_small by (unfold is_u32 in Hv; lia).
  destruct Hr as [Hr|[Hr|Hr]]; [lia|by rewrite E2 in Hr|].
  by rewrite (proj2 (Z.gtb_lt _ _)) by lia.
Qed.

Lemma unsafe_brk_run l s p x a T F v :
  in_space l s p x a T F → is_u32 v → is_u32 (ap_cur_vbreak (kpr_arch x)) → 0 ≤ ap_vbreak (kpr_arch x) →
  ¬ brk_refused l x v → page_no v < 2 ^ 20 - 1 →
  user_pages (kmem (pm_k s)) a (page_no (ap_cur_vbreak (kpr_arch x))) (page_no v) →
  (2 * new_pages F (page_no (ap_cur_vbreak (kpr_arch x))) (page_no v) ≤ length l)%nat →
  ∃ s1 s' f, unsafe_brk vm_map kernel_pd answers p v s = Done (0, s') ∧
    reserved l s p x a T F (Z.lor VM_USER VM_WRITE) (page_no (ap_cur_vbreak (kpr_arch x))) (page_no v)
      (2 * new_pages F (page_no (ap_cur_vbreak (kpr_arch x))) (page_no v)) s1 ∧
    (∀ y, pm_procs s1 !! p = Some y → s' = set_pm_procs (<[p := with_arch y f]> (pm_procs s1)) s1) ∧
    ∀ y, ap_cur_vbreak (f y) = v ∧ ap_vbreak (f y) = ap_vbreak y ∧ pd_mutex (f y) = pd_mutex y ∧ ap_pd (f y) = ap_pd y.
Proof.
  intros H Hv Hc Hb Hr Hmax Hu Hl. set (c := ap_cur_vbreak (kpr_arch x)) in *.
  pose proof (page_no_range v Hv). pose proof (page_no_range c Hc).
  assert (R : ∃ s1, reserve_loop vm_map kernel_pd answers (pages_between (mask_to_page c) (mask_to_page v)) p
      (mask_to_page c) (mask_to_page v) (Z.lor VM_USER VM_WRITE) s = Done (tt, s1) ∧
    reserved l s p x a T F (Z.lor VM_USER VM_WRITE) (page_no c) (page_no v) (2 * new_pages F (page_no c) (page_no v)) s1).
  { rewrite !mask_page_no by done. unfold pages_between.
    destruct (mask_of_page (page_no v)) as (_ & -> & _); [done|]. destruct (mask_of_page (page_no c)) as (_ & -> & _); [done|].
    destruct (Z.lt_ge_cases (page_no v) (page_no c)) as [Hlt|Hge].
    - replace (Z.to_nat (page_no v - page_no c + 1)) with O by lia. exists s. split; [|replace (new_pages F _ _) with O by (unfold new_pages; destruct (F !! _); lia); by apply reserved_none].
      cbn. rewrite (proj2 (Z.leb_gt _ _)) by (unfold PAGE_SIZE; lia). done.
    - apply reserve_pages; try done; lia. }
  destruct R as (s1 & E1 & R1).
  exists s1, (set_pm_procs (<[p := with_arch (default x (pm_procs s1 !! p)) (fun y =>
      let y := aset_cur_vbreak v y in if ap_vto y <? mask_to_page v then aset_vto (mask_to_page v) y else y)]> (pm_procs s1)) s1),
    (fun y => let y := aset_cur_vbreak v y in if ap_vto y <? mask_to_page v then aset_vto (mask_to_page v) y else y).
  split.
  { unfold unsafe_brk. rewrite (bind_run _ _ _ _ _ (rd_arch_run _ _ _ (is_proc _ _ _ _ _ _ _ H))).
    unfold brk_refused in Hr. destruct (_ || _) eqn:E; [by destruct Hr; apply has_flags_or in E as [E|E]; auto|].
    rewrite (bind_run _ _ _ _ _ (remaining_run _ _ _ _ _ _ _ H)).
    apply orb_false_elim in E as [E _]. zbool. rewrite u32_small by (unfold is_u32 in Hv; lia).
    rewrite Z.gtb_ltb, (proj2 (Z.ltb_ge _ _)) by lia. fold c. rewrite (bind_run _ _ _ _ _ E1).
    destruct R1 as (l1 & x1 & T1 & F1 & A1 & _). pose proof (is_proc _ _ _ _ _ _ _ A1) as Hx1. rewrite Hx1.
    rewrite (bind_run _ _ _ _ _ (wr_arch_run _ _ _ Hx1 _)).
    rewrite (bind_run _ _ _ _ _ (wr_arch_run p (with_arch x1 (aset_cur_vbreak v)) _ (lookup_insert_eq _ _ _) _)).
    unfold ret, set_pm_procs. cbn. by rewrite insert_insert_eq. }
  split; [done|]. split; [by intros y ->|]. intros y. cbn. by destruct (_ <? _).
Qed.
End reserve.

(** ** Properties *)

Lemma check_kernel_run kernel_pd r l s p x a T F :
  in_space kernel_pd r l s p x a T F → check_kernel kernel_pd s = Done (tt, s).
Proof.
  intros H. apply on_k_same, assert_kernel_tables_run. apply (is_mach _ _ _ _ _ _ _ _ _ H).
Qed.

Lemma procs_back p x y (s : pmsys) :
  pm_procs s !! p = Some x → y = x → set_pm_procs (<[p := y]> (pm_procs s)) s = s.
Proof. intros H ->. unfold set_pm_procs. rewrite insert_id by done. by destruct s. Qed.

Lemma arch_mutex_back x : pd_mutex (kpr_arch x) = false → with_arch (with_arch x (aset_mutex true)) (aset_mutex false) = x.
Proof. destruct x as [pid nm fs mu [b ? ? ? ? ? ? ? ?]]. cbn. by intros ->. Qed.

(** Take the mutex, run [body], release it: when the body leaves the process's fields. *)
Lemma pd_bracket_same {A} (body : M pmsys A) (res : A) s p x :
  pm_procs s !! p = Some x → pd_mutex (kpr_arch x) = false →
  let s1 := set_pm_procs (<[p := with_arch x (aset_mutex true)]> (pm_procs s)) s in
  body s1 = Done (res, s1) →
  (pd_acquire p ;;; r <- body ;; pd_release p ;;; ret r) s = Done (res, s).
Proof.
  intros Hp Hm s1 E. rewrite (bind_run _ _ _ _ _ (pd_acquire_run _ _ _ Hp Hm)), (bind_run _ _ _ _ _ E).
  rewrite (bind_run _ _ _ _ _ (pd_release_run p (with_arch x (aset_mutex true)) s1 (lookup_insert_eq _ _ _) eq_refl)).
  unfold ret, s1, set_pm_procs. cbn. rewrite insert_insert_eq, arch_mutex_back, insert_id by done. by destruct s.
Qed.

Lemma in_space_lock kernel_pd r l s p x a T F b :
  in_space kernel_pd r l s p x a T F →
  in_space kernel_pd r l (set_pm_procs (<[p := with_arch x (aset_mutex b)]> (pm_procs s)) s) p
    (with_arch x (aset_mutex b)) a T F.
Proof. intros H. by apply (in_space_procs _ _ _ _ _ x). Qed.

Lemma check_palloc_run kernel_pd r l s p x a T F why :
  in_space kernel_pd r l s p x a T F → check_palloc why s = Done (tt, s).
Proof.
  intros [_ _ [[[Hu _] _] _ _] _ _]. unfold check_palloc.
  apply check_palloc_lock_run, bind_Done_inv in Hu as (h & k' & E & Eh). destruct h; [done|]. injection Eh as ->.
  by rewrite (bind_run _ _ _ _ _ (on_k_same _ _ _ E)).
Qed.

Lemma proc_vmreserve_run vm_map kernel_pd r answers l s p x a T F n flags :
  map_ok vm_map r → (∀ q, answers q = true) → in_space kernel_pd r l s p x a T F → pd_mutex (kpr_arch x) = false →
  0 ≤ n < 2 ^ 20 → user_pages (kmem (pm_k s)) a n n → (2 ≤ length l)%nat →
  ∃ s', proc_vmreserve vm_map kernel_pd answers p (PAGE_SIZE * n) flags s = Done (tt, s') ∧
    reserved kernel_pd r l s p x a T F flags n n 2 s'.
Proof.
  intros Hmap Hans H Hm Hn Hu Hl. pose proof (in_space_lock _ _ _ _ _ _ _ _ _ true H) as H1.
  unfold proc_vmreserve. rewrite (bind_run _ _ _ _ _ (check_kernel_run _ _ _ _ _ _ _ _ _ H)).
  rewrite (bind_run _ _ _ _ _ (check_palloc_run _ _ _ _ _ _ _ _ _ _ H)).
  rewrite (bind_run _ _ _ _ _ (pd_acquire_run _ _ _ (is_proc _ _ _ _ _ _ _ _ _ H) Hm)).
  destruct (reserve_run vm_map kernel_pd r answers Hmap Hans _ _ _ _ _ _ _ n flags H1 Hn Hu Hl) as (s2 & E & R).
  rewrite (bind_run _ _ _ _ _ E).
  destruct R as (l' & x2 & T' & F' & A1 & A2 & A3 & A4 & A5 & A6 & A7 & A8 & A9 & (f & ->) & A11).
  pose proof (same_layout_fields _ _ A11) as (_ & _ & Hm2). cbn in Hm2. set (x2 := with_arch _ f) in *.
  rewrite (pd_release_run p x2 s2 (is_proc _ _ _ _ _ _ _ _ _ A1) Hm2). eexists. split; [reflexivity|].
  exists l', (with_arch x2 (aset_mutex false)), T', F'. split; [by apply (in_space_procs _ _ _ _ _ x2)|].
  split; [done|]. split; [done|]. split; [cbn; rewrite A4; cbn; by rewrite !insert_insert_eq|].
  do 5 (split; [done|]). split; [by exists (fun y => aset_mutex false (f (aset_mutex true y)))|].
  revert A11. unfold same_layout, x2. cbn. destruct (f (aset_mutex true (kpr_arch x))), (kpr_arch x). cbn in *.
  intros [= -> -> -> -> -> -> ->]. by subst.
Qed.


Lemma owned_not_free kernel_pd r l s a T F q : has_space kernel_pd r l s a T F → q ∈ owned a T F → q ∉ l.
Proof. intros [_ _ Ha] Hq. apply NoDup_app in Ha as (_ & Ha & _). by apply Ha. Qed.

(** Take the mutex, run an operation on the directory that only writes memory, release it. *)
Lemma pd_bracket_mem kernel_pd r l s p x a T F (op : Z → M kstate unit) m :
  in_space kernel_pd r l s p x a T F → pd_mutex (kpr_arch x) = false →
  op (v2p r a) (pm_k s) = Done (tt, set_kmem m (pm_k s)) →
  (pd_acquire p ;;; y <- rd_arch p ;; on_k (op (ap_pd y)) ;;; pd_release p) s = Done (tt, set_pm_k (set_kmem m (pm_k s)) s).
Proof.
  intros [H1 H2 _ _ _] Hm E. rewrite (bind_run _ _ _ _ _ (pd_acquire_run _ _ _ H1 Hm)).
  set (s1 := set_pm_procs (<[p := with_arch x (aset_mutex true)]> (pm_procs s)) s).
  rewrite (bind_run _ _ _ _ _ (rd_arch_run p (with_arch x (aset_mutex true)) s1 (lookup_insert_eq _ _ _))).
  change (ap_pd (kpr_arch (with_arch x (aset_mutex true)))) with (ap_pd (kpr_arch x)). rewrite H2.
  change (pm_k s) with (pm_k s1) in E at 1. rewrite (bind_run _ _ _ _ _ (on_k_run _ _ _ _ E)).
  rewrite (pd_release_run p (with_arch x (aset_mutex true)) (set_pm_k (set_kmem m (pm_k s)) s1) (lookup_insert_eq _ _ _) eq_refl).
  unfold s1, set_pm_procs, set_pm_k. cbn. by rewrite insert_insert_eq, arch_mutex_back, insert_id.
Qed.

Lemma frames_owned a T F f : f ∈ frames_of F → f ∈ owned a T F.
Proof. intros Hf. right. apply elem_of_app. by right. Qed.

Lemma proc_vmwrite_run vm_map kernel_pd r l s p x a T F v buf num :
  map_ok vm_map r → in_space kernel_pd r l s p x a T F → pd_mutex (kpr_arch x) = false →
  is_u32 v → 0 ≤ num → v + num ≤ 2 ^ 32 → mapped (kmem (pm_k s)) a F v num → buffer_apart a T F buf num →
  ∃ m, proc_vmwrite vm_map kernel_pd p v buf num s = Done (tt, set_pm_k (set_kmem m (pm_k s)) s) ∧
    in_space kernel_pd r l (set_pm_k (set_kmem m (pm_k s)) s) p x a T F ∧
    agree_off (frames_of F) (kmem (pm_k s)) m ∧
    ∀ w, ubytes F m w = if (v <=? w) && (w <? v + num) then Some (kmem (pm_k s) (buf + (w - v)))
                        else ubytes F (kmem (pm_k s)) w.
Proof.
  intros Hmap H Hm Hv Hn Hle Hmp Hba. pose proof H as [H1 H2 H3 H4 H5]. pose proof H3 as [[Hc Hi] Hs Hap].
  assert (Hk : cr3 (k_mach (pm_k s)) = phys_kernel_pd kernel_pd) by apply H4.
  destruct (space_write_loop vm_map kernel_pd r Hmap (Z.to_nat num) (pm_k s) a T F v buf num 0)
    as (m & E & Hb & Hs' & Hag & Hub); rewrite ?Z.add_0_r; try done; [apply Hi|lia|].
  exists m. split; [|split; [|split; [done|intros w; by rewrite Hub, Z.add_0_r]]].
  - unfold proc_vmwrite. rewrite (bind_run _ _ _ _ _ (check_kernel_run _ _ _ _ _ _ _ _ _ H)).
    apply (pd_bracket_mem _ _ _ _ _ _ _ _ _ (fun pd => vmwrite vm_map kernel_pd pd v buf num) m H Hm).
    unfold vmwrite, vmxchg. by rewrite (bind_run _ _ _ _ _ (assert_kernel_tables_run _ _ Hk)).
  - split; cbn; try done. split; [|done|done]. split; [done|]. apply palloc_inv_mem; [done| |done].
    intros q y Hq Hy. pose proof (pi_pages _ _ _ Hi) as Hpg. rewrite Forall_forall in Hpg.
    apply (agree_page r (frames_of F) _ _ q); try done; [|by apply Hpg|].
    + apply Forall_forall. intros f Hf. apply (space_page_ok _ _ _ _ _ _ Hs). by apply frames_owned.
    + intros Hf. by apply (owned_not_free _ _ _ _ _ _ _ q H3); [apply frames_owned|].
Qed.

Lemma proc_vmread_run vm_map kernel_pd r l s p x a T F v buf num :
  map_ok vm_map r → in_space kernel_pd r l s p x a T F → pd_mutex (kpr_arch x) = false →
  is_u32 v → 0 ≤ num → v + num ≤ 2 ^ 32 → mapped (kmem (pm_k s)) a F v num → buffer_apart a T F buf num →
  ∃ m, proc_vmread vm_map kernel_pd p v buf num s = Done (tt, set_pm_k (set_kmem m (pm_k s)) s) ∧
    (∀ i, 0 ≤ i < num → ubytes F (kmem (pm_k s)) (v + i) = Some (m (buf + i))) ∧
    ∀ y, ¬ (buf ≤ y < buf + num) → m y = kmem (pm_k s) y.
Proof.
  intros Hmap H Hm Hv Hn Hle Hmp Hba. pose proof H as [H1 H2 H3 H4 H5]. pose proof H3 as [[Hc Hi] Hs Hap].
  assert (Hk : cr3 (k_mach (pm_k s)) = phys_kernel_pd kernel_pd) by apply H4.
  destruct (space_read_loop vm_map kernel_pd r Hmap (Z.to_nat num) (pm_k s) a T F v buf num 0)
    as (m & E & Hb & Hub & Hout); rewrite ?Z.add_0_r; try done; [apply Hi|lia|].
  rewrite Z.add_0_r in Hub, Hout. exists m. split; [|done].
  unfold proc_vmread. rewrite (bind_run _ _ _ _ _ (check_kernel_run _ _ _ _ _ _ _ _ _ H)).
    apply (pd_bracket_mem _ _ _ _ _ _ _ _ _ (fun pd => vmread vm_map kernel_pd pd v buf num) m H Hm).
    unfold vmread, vmxchg. by rewrite (bind_run _ _ _ _ _ (assert_kernel_tables_run _ _ Hk)).
Qed.

(** Only the page of the address matters. *)
Lemma vmreserve_page vm_map kernel_pd answers p v flags s :
  is_u32 v → proc_vmreserve vm_map kernel_pd answers p v flags s = proc_vmreserve vm_map kernel_pd answers p (PAGE_SIZE * page_no v) flags s.
Proof.
  intros Hv. assert (Hn : 0 ≤ page_no v < 2 ^ 20) by (unfold is_u32, page_no, PAGE_SIZE in *; dlia).
  assert (E : mask_to_page v = mask_to_page (PAGE_SIZE * page_no v)).
  { rewrite (proj1 (mask_of_page _ Hn)). rewrite mask_to_page_eq by done. unfold page_no, PAGE_SIZE. dlia. }
  unfold proc_vmreserve, unsafe_vmreserve. by rewrite E.
Qed.

(** C22: the memory of a process is an array of bytes.  Reserving an address of the user, with
    two free pages, adds the page it lies on, filled with zeros, where there was none, and
    changes no other byte.  Over addresses that are mapped, writing
    from a kernel buffer makes exactly those bytes the buffer's, whatever pages they lie
    on, and reading into a buffer yields exactly the bytes that are there.  All three return
    with the mutex released. *)
Theorem proc_memory_refines vm_map kernel_pd r l s p x a T F :
  map_ok vm_map r → in_space kernel_pd r l s p x a T F → pd_mutex (kpr_arch x) = false →
  (∀ answers v flags, (∀ q, answers q = true) → is_u32 v → user_pages (kmem (pm_k s)) a (page_no v) (page_no v) → (2 ≤ length l)%nat →
   ∃ s' l' x' T' F', proc_vmreserve vm_map kernel_pd answers p v flags s = Done (tt, s') ∧
     in_space kernel_pd r l' s' p x' a T' F' ∧ pd_mutex (kpr_arch x') = false ∧ pm_procs s' = <[p := x']> (pm_procs s) ∧
     F ⊆ F' ∧ (F !! page_no v = None → ∃ w, w ∈ l ∧ F' !! page_no v = Some (w, vm_pflags flags)) ∧
     ∀ w, ubytes F' (kmem (pm_k s')) w =
       match ubytes F (kmem (pm_k s)) w with
       | Some b => Some b
       | None => if bool_decide (page_no w = page_no v) then Some 0 else None
       end) ∧
  (∀ v buf num, is_u32 v → 0 ≤ num → v + num ≤ 2 ^ 32 → mapped (kmem (pm_k s)) a F v num → buffer_apart a T F buf num →
   (∃ m, proc_vmwrite vm_map kernel_pd p v buf num s = Done (tt, set_pm_k (set_kmem m (pm_k s)) s) ∧
     in_space kernel_pd r l (set_pm_k (set_kmem m (pm_k s)) s) p x a T F ∧
     ∀ w, ubytes F m w = if (v <=? w) && (w <? v + num) then Some (kmem (pm_k s) (buf + (w - v)))
                         else ubytes F (kmem (pm_k s)) w) ∧
   (∃ m, proc_vmread vm_map kernel_pd p v buf num s = Done (tt, set_pm_k (set_kmem m (pm_k s)) s) ∧
     (∀ i, 0 ≤ i < num → ubytes F (kmem (pm_k s)) (v + i) = Some (m (buf + i))) ∧
     ∀ y, ¬ (buf ≤ y < buf + num) → m y = kmem (pm_k s) y)).
Proof.
  intros Hmap H Hm. split.
  - intros answers v flags Hans Hv Hu Hl. rewrite vmreserve_page by done.
    destruct (proc_vmreserve_run vm_map kernel_pd r answers l s p x a T F (page_no v) flags Hmap Hans H Hm) as (s' & E & R); try done.
    { unfold is_u32, page_no, PAGE_SIZE in *. dlia. }
    destruct R as (l' & x' & T' & F' & A1 & _ & _ & A4 & [G1 G2 G3 G4] & _ & _ & _ & _ & _ & (_ & _ & A11)%same_layout_fields).
    exists s', l', x', T', F'. split; [done|]. split; [done|]. split; [by rewrite A11|]. split; [done|]. split; [done|]. split.
    + intros Hn. destruct (G3 (page_no v) ltac:(lia)) as [[w fl] Hw]. destruct (G2 _ _ Hw Hn) as (_ & Hin & <-). by exists w.
    + intros w. rewrite G4, page_test. done.
  - intros v buf num Hv H0 Hle Hmp Hba. split; [|by apply (proc_vmread_run vm_map kernel_pd r l s p x a T F)].
    destruct (proc_vmwrite_run vm_map kernel_pd r l s p x a T F v buf num) as (m & E & Hs & _ & Hb); try done. by exists m.
Qed.

(** ** Lemmas: entering and leaving the kernel's page tables *)

Definition with_cr3 (v : Z) (s : pmsys) : pmsys := set_pm_k (set_mach (set_cr3 v (k_mach (pm_k s))) (pm_k s)) s.

(** Process [p] runs: its own directory is active, and with the kernel's the state is that of [in_space]. *)
Definition in_user (kernel_pd : Z) (r : vm_region) (l : list Z) (s : pmsys) (p : nat) (x : kproc) (a : Z) (T : gmap Z Z) (F : upages) : Prop :=
  cr3 (k_mach (pm_k s)) = v2p r a ∧ in_space kernel_pd r l (with_cr3 (phys_kernel_pd kernel_pd) s) p x a T F.

Lemma running_cr3 v mc i c : running_on (set_cr3 v mc) i c ↔ running_on mc i c.
Proof. split; intros [? ? ? ? ? ? ?]; by split. Qed.

Lemma cpu_set_cr3_run mc i c v : running_on mc i c → cpu_set_cr3 v mc = Done (cr3 mc, set_cr3 v mc).
Proof.
  intros RO. pose proof RO as [? ? ? ? ? ? ?]. unfold cpu_set_cr3.
  rewrite (bind_run _ _ _ _ _ (preempt_disable_run _ _ _ RO)). set (mc1 := preempted mc i c (preempt_disabled c + 1)).
  unfold bind at 1, gets. change (cr3 mc1) with (cr3 mc).
  rewrite (bind_run _ _ mc1 tt (set_cr3 v mc1)).
  2: { destruct (Z.eqb_spec v (cr3 mc)) as [->|]; cbn [negb when]; [|done]. by unfold ret. }
  pose proof (running_preempted _ _ _ RO (preempt_disabled c + 1) ltac:(lia)) as RO1. fold mc1 in RO1. apply (running_cr3 v) in RO1.
  rewrite (bind_run _ _ _ _ _ (preempt_enable_run _ _ _ RO1 ltac:(cbn; lia))). cbn [preempt_disabled set_preempt].
  replace (preempt_disabled c + 1 - 1) with (preempt_disabled c) by lia. unfold ret. do 2 f_equal.
  change (preempted (set_cr3 v mc1) i (set_preempt (preempt_disabled c + 1) c) (preempt_disabled c))
    with (set_cr3 v (preempted mc1 i (set_preempt (preempt_disabled c + 1) c) (preempt_disabled c))).
  unfold mc1. by rewrite (preempted_back _ _ _ RO).
Qed.

Lemma set_cr3_run v k s : mach_ok k (k_mach (pm_k s)) → (on_k (on_cpu (cpu_set_cr3 v)) ;;; ret tt) s = Done (tt, with_cr3 v s).
Proof.
  intros (_ & i & c & RO & _). unfold bind, on_k, on_cpu, zoom. by rewrite (cpu_set_cr3_run _ _ _ v RO).
Qed.

Lemma set_kvm_run kernel_pd r l s p x a T F :
  in_user kernel_pd r l s p x a T F → proc_set_kvm kernel_pd s = Done (tt, with_cr3 (phys_kernel_pd kernel_pd) s).
Proof.
  intros [_ H]. apply (set_cr3_run _ (cr3 (k_mach (pm_k s)))). destruct (is_mach _ _ _ _ _ _ _ _ _ H) as (_ & i & c & RO & Hc).
  split; [done|]. exists i, c. split; [|done]. by apply (running_cr3 (phys_kernel_pd kernel_pd)).
Qed.

Lemma set_uvm_run kernel_pd r l s p x a T F :
  in_space kernel_pd r l s p x a T F → proc_set_uvm p s = Done (tt, with_cr3 (v2p r a) s) ∧ in_user kernel_pd r l (with_cr3 (v2p r a) s) p x a T F.
Proof.
  intros H. pose proof H as [H1 H2 H3 H4 H5]. split.
  - unfold proc_set_uvm. rewrite (bind_run _ _ _ _ _ (rd_arch_run _ _ _ H1)), H2. by apply (set_cr3_run _ (phys_kernel_pd kernel_pd)).
  - split; [done|]. replace (with_cr3 _ (with_cr3 _ s)) with s; [done|]. destruct H4 as [Hc _].
    destruct s as [[mc] ]. cbn in *. unfold with_cr3, set_pm_k. cbn. do 2 f_equal. rewrite <- Hc. by destruct mc.
Qed.

(** Kernel memory behind the allocator's region is not the process's. *)
Lemma scratch_space kernel_pd r scratch l s p x a T F bs :
  vbase r + rsize r ≤ scratch → in_space kernel_pd r l s p x a T F →
  let m := write_bytes (kmem (pm_k s)) scratch bs in
  in_space kernel_pd r l (set_pm_k (set_kmem m (pm_k s)) s) p x a T F ∧
  (∀ w, ubytes F m w = ubytes F (kmem (pm_k s)) w) ∧
  ∀ v, user_address (kmem (pm_k s)) a v → user_address m a v.
Proof.
  intros Hscratch [H1 H2 [[Hc Hi] Hs Hap] H4 H5] m.
  assert (Hm : ∀ q y, page_ok r q → in_page q y → m y = kmem (pm_k s) y).
  { intros q y (_ & _ & Hq) Hy. apply write_bytes_frame. unfold in_page in Hy. lia. }
  destruct (space_frame r (kmem (pm_k s)) m a T F) as [Hs' Hb]; [|done|].
  { intros q y Hq. apply Hm. by apply (space_page_ok _ _ _ _ _ _ Hs). }
  split; [|split; [done|]].
  - split; cbn; try done. split; [|done|done]. split; [done|].
    apply palloc_inv_mem; [apply byte_mem_write, Hi| |done].
    intros q y Hq. apply Hm. pose proof (pi_pages _ _ _ Hi) as Hp. rewrite Forall_forall in Hp. by apply Hp.
  - intros v [Hv Hg]. split; [done|]. rewrite (load32_ext _ (kmem (pm_k s))); [done|].
    intros y Hy. apply (Hm a); [by apply (space_page_ok _ _ _ _ _ _ Hs), owned_dir|].
    apply (slot_in_page a (page_no v / 1024)); [pose proof (page_no_range v Hv); dlia|done].
Qed.

(** A buffer there is apart from the pages of the process. *)
Lemma scratch_apart r m a T F scratch num : vbase r + rsize r ≤ scratch → space r m a T F → buffer_apart a T F scratch num.
Proof.
  intros Hs Hsp q y Hq Hy [Hy1 _]. destruct (space_page_ok _ _ _ _ _ _ Hsp Hq) as (_ & _ & Hq2). unfold in_page in Hy. lia.
Qed.

(** Writing to pages of a process leaves the kernel's slots of its directory. *)
Lemma frames_user r m m' a T F v : space r m a T F → agree_off (frames_of F) m m' → user_address m a v → user_address m' a v.
Proof.
  intros Hs Ag. apply same_global_user.
  apply (agree_global r (frames_of F)); [|by apply (space_page_ok _ _ _ _ _ _ Hs), owned_dir| |exact Ag].
  - apply Forall_forall. intros q Hq. by apply (space_page_ok _ _ _ _ _ _ Hs), frames_owned.
  - pose proof (sp_nodup _ _ _ _ _ Hs) as Hn. apply NoDup_cons in Hn as [Hn _]. intros Hin. apply Hn, elem_of_app. by right.
Qed.

(** ** Witnesses *)

(** A process with one page and its break behind it. *)
Definition example_kproc : kproc :=
  mk_kproc 5 (chars "init") (replicate 16 None) false (mk_arch false 0x807000 0x8048000 0x8048000 0x8048000 0x1000 0 0x8049000 0x8049000).
Definition example_pm : pmsys := mk_pm example_user_kernel {[1%nat := example_kproc]} 2.

Lemma example_in_space :
  in_space example_kpd example_region example_free_pages example_pm 1 example_kproc 0x807000 example_tables example_pages.
Proof. split; try done; [apply example_has_space|apply example_mach_ok]. Qed.


Lemma proc_memory_refines_witness :
  (∃ m, proc_vmwrite example_vm_map example_kpd 1 0x8048002 0xC0600000 2 example_pm
      = Done (tt, set_pm_k (set_kmem m (pm_k example_pm)) example_pm) ∧
    ubytes example_pages m 0x8048001 = Some 97 ∧ ubytes example_pages m 0x8048002 = Some 0) ∧
  (∃ s' F', proc_vmreserve example_vm_map example_kpd (fun _ => true) 1 0x8050123 VM_USER example_pm = Done (tt, s') ∧
    ubytes F' (kmem (pm_k s')) 0x8050FFF = Some 0 ∧ ubytes F' (kmem (pm_k s')) 0x8048000 = Some 100 ∧ ubytes F' (kmem (pm_k s')) 0x8051000 = None).
Proof.
  destruct (proc_memory_refines example_vm_map example_kpd example_region example_free_pages example_pm 1 example_kproc
    0x807000 example_tables example_pages example_map_ok example_in_space eq_refl) as [R W]. split.
  - destruct (W 0x8048002 0xC0600000 2) as [(m & E & _ & Hb) _].
    + unfold is_u32; lia.
    + lia.
    + lia.
    + intros w Hw. split; [apply example_user_address; unfold is_u32; lia|].
      replace (page_no w) with 0x8048 by (unfold page_no, PAGE_SIZE; dlia). by eexists.
    + intros p x Hp Hx. rewrite example_owned, !elem_of_cons, elem_of_nil in Hp. unfold in_page, PAGE_SIZE in Hx. lia.
    + exists m. split; [exact E|]. split; rewrite Hb; by vm_compute.
  - destruct (R (fun _ => true) 0x8050123 VM_USER) as (s' & l' & x' & T' & F' & E & _ & _ & _ & _ & _ & Hb).
    + reflexivity.
    + unfold is_u32; lia.
    + intros v Hv _. by apply example_user_address.
    + cbn. lia.
    + exists s', F'. split; [exact E|]. split; [|split]; rewrite Hb; by vm_compute.
Defined.

(** With no page left, moving the break to where it is reserves the page it lies on: the call is
    not refused and reports success, and the page has become physical page 0. *)
Definition example_exhausted : pmsys :=
  set_pm_k (set_pal (mk_palloc (pmem (k_pal (pm_k example_pm))) true 0 (Some example_region) 0) (pm_k example_pm)) example_pm.
Example brk_without_pages :
  match proc_brk example_vm_map example_kpd (fun _ => true) 1 0x8049000 example_exhausted with
  | Done (res, s') => res = 0 ∧
      (match paging_get_entry example_vm_map example_kpd 0x807000 0x8049000 (pm_k s') with Done (pte, _) => pte = 0x7 | _ => False end)
  | _ => False
  end.
Proof. by vm_compute. Qed.

(** proc_free gives back the page of the process twice: by the loop over its addresses and
    again with the page directory, so that of three pages four are counted as freed. *)
Example proc_free_frees_twice :
  length (owned 0x807000 example_tables example_pages) = 3%nat ∧
  match proc_free example_vm_map example_kpd 1 example_pm with
  | Done (_, s') => remaining_pages (k_pal (pm_k s')) = remaining_pages (k_pal (pm_k example_pm)) + 4
  | _ => False
  end.
Proof. split; [by rewrite example_owned|by vm_compute]. Qed.
