(* ===== verification/Thread.v ===== *)
(** * arch/i386/thread.c: creating threads

    A thread object is known by a number; an object that has just been allocated holds
    whatever its memory held.  Kernel stacks are blocks of the kernel heap, in byte
    memory, where the frames of interrupts ([struct isr_frame]) and of switches
    ([struct x86_switch_frame]) are built at the offsets the compiler gives them.  The
    other half of the protocol, the ends of x86_thread_switch (thread_switch.S) and
    isr_exit (isr_stubs.S), says which registers the CPU takes from such a stack; the
    theorems are about what a new thread starts with. *)

From stdpp Require Import base list gmap strings.
From Stdlib Require Import ZArith Lia.
From S2P Require Import Prelude Memory KUtils.

Definition KERNEL_CODE_SELECTOR : Z := 0x08.
Definition KERNEL_DATA_SELECTOR : Z := 0x10.
Definition USER_CODE_SELECTOR : Z := 0x1B.
Definition USER_DATA_SELECTOR : Z := 0x23.
Definition EFLAGS_IF : Z := 0x200.
Definition MAX_THREADS : Z := 128.
Definition THREAD_NEW : Z := 0.
Definition sizeof_isr_frame : Z := 80.
Definition sizeof_x86_switch_frame : Z := 20.

Record arch_thread := mk_at {
  at_cs : Z;
  at_ds : Z;
  at_ebp : Z;
  at_stack : Z;
  at_stack_size : Z;
  at_ebp0 : Z;
  at_esp0 : Z;
  at_stack0 : Z;
  at_stack0_size : Z;
  at_int_enabled : bool;
  at_cli_stack : Z;
  at_cr3 : Z;
  at_tentry : Z;
}.

Record thread := mk_thread {
  th_tid : Z;
  th_name : list Z;
  th_parent : Z;
  th_entry : Z;
  th_cookie : Z;
  th_state : Z;
  th_collected_pid : Z;
  th_collected_status : Z;
  th_sleep_since : Z;
  th_sleep_until : Z;
  th_cond : Z;
  th_sched_count : Z;
  th_arch : arch_thread;
}.

(** Kernel memory with the stacks, the thread objects, the number of the next object, and
    the two variables of thread.c. *)
Record tsys := mk_ts {
  ts_mem : mem;
  ts_threads : nat → thread;
  ts_next : nat;
  current_thread_no : Z;
  debug_x86_threads : Z → option nat;
}.

(** What thread.c uses of the kernel heap for stacks: [kalloc(HEAP_NORMAL, 16, size)] and
    [kfree]. *)
Class StackHeap := {
  stack_kalloc : Z → M tsys Z;
  stack_kfree : Z → M tsys unit;
}.

Definition tset_mem (m : mem) (s : tsys) : tsys :=
  mk_ts m (ts_threads s) (ts_next s) (current_thread_no s) (debug_x86_threads s).
Definition tset_thread (t : nat) (x : thread) (s : tsys) : tsys :=
  mk_ts (ts_mem s) (fun u => if decide (u = t) then x else ts_threads s u) (ts_next s) (current_thread_no s)
    (debug_x86_threads s).
Definition tset_debug (i : Z) (o : option nat) (s : tsys) : tsys :=
  mk_ts (ts_mem s) (ts_threads s) (ts_next s) (current_thread_no s)
    (fun j => if j =? i then o else debug_x86_threads s j).

Definition tget (t : nat) : M tsys thread := gets (fun s => ts_threads s t).
Definition tupd (t : nat) (f : thread → thread) : M tsys unit :=
  modify (fun s => tset_thread t (f (ts_threads s t)) s).
Definition aupd (t : nat) (f : arch_thread → arch_thread) : M tsys unit :=
  tupd t (fun x => mk_thread (th_tid x) (th_name x) (th_parent x) (th_entry x) (th_cookie x) (th_state x)
    (th_collected_pid x) (th_collected_status x) (th_sleep_since x) (th_sleep_until x) (th_cond x)
    (th_sched_count x) (f (th_arch x))).

Definition set_esp0 (v : Z) (x : arch_thread) : arch_thread :=
  mk_at (at_cs x) (at_ds x) (at_ebp x) (at_stack x) (at_stack_size x) (at_ebp0 x) v (at_stack0 x) (at_stack0_size x)
    (at_int_enabled x) (at_cli_stack x) (at_cr3 x) (at_tentry x).

Definition load16 (m : mem) (a : Z) : Z := m a + 2 ^ 8 * m (a + 1).
Definition store16 (m : mem) (a v : Z) : mem := store8 (store8 m a v) (a + 1) (v / 2 ^ 8).
Definition tst16 (a v : Z) : M tsys unit := modify (fun s => tset_mem (store16 (ts_mem s) a v) s).
Definition tst32 (a v : Z) : M tsys unit := modify (fun s => tset_mem (store32 (ts_mem s) a v) s).

(** The characters of an array up to its terminator. *)
Fixpoint c_string (l : list Z) : list Z :=
  match l with [] => [] | c :: l' => if c =? 0 then [] else c :: c_string l' end.

(** [name] is the string, without its terminator.  A name of exactly 32 characters is not
    shortened: its terminator falls on the lowest byte of [parent], behind the array. *)
Definition set_name (t : nat) (name : list Z) : M tsys unit :=
  let len := Z.of_nat (length name) in
  let len := if len >? 32 then 31 else len in
  tupd t (fun x => mk_thread (th_tid x)
    (take 32 (take (Z.to_nat len) name ++ 0 :: drop (Z.to_nat len + 1) (th_name x)))
    (if len =? 32 then th_parent x - th_parent x mod 2 ^ 8 else th_parent x)
    (th_entry x) (th_cookie x) (th_state x) (th_collected_pid x) (th_collected_status x) (th_sleep_since x)
    (th_sleep_until x) (th_cond x) (th_sched_count x) (th_arch x)).

Section constructors.
Variable phys_kernel_pd : Z.

Definition x86_thread_construct_empty (t : nat) (name : list Z) (cs ds : Z) : M tsys unit :=
  set_name t name ;;;
  s <- get ;;
  let thread_no := current_thread_no s in
  modify (fun s => mk_ts (ts_mem s) (ts_threads s) (ts_next s) (u32 (thread_no + 1)) (debug_x86_threads s)) ;;;
  when (thread_no <? MAX_THREADS) (modify (tset_debug thread_no (Some t))) ;;;
  tupd t (fun x => mk_thread (th_tid x) (th_name x) (th_parent x) (th_entry x) (th_cookie x) THREAD_NEW
    0 0 0 0 0 0 (th_arch x)) ;;;
  aupd t (fun x => mk_at cs ds (at_ebp x) (at_stack x) (at_stack_size x) (at_ebp0 x) (at_esp0 x) (at_stack0 x)
    (at_stack0_size x) (at_int_enabled x) (at_cli_stack x) phys_kernel_pd (at_tentry x)).

Definition x86_thread_construct_thread (t : nat) (name : list Z) (stack0 stack0_size stack stack_size tentry entry
    cookie : Z) (int_enabled : bool) (cs ds cr3 : Z) : M tsys unit :=
  x86_thread_construct_empty t name cs ds ;;;
  tupd t (fun x => mk_thread (th_tid x) (th_name x) (th_parent x) entry cookie (th_state x) (th_collected_pid x)
    (th_collected_status x) (th_sleep_since x) (th_sleep_until x) (th_cond x) (th_sched_count x)
    (let y := th_arch x in
     mk_at (at_cs y) (at_ds y) (at_ebp y) (at_stack y) (at_stack_size y) (at_ebp0 y) (at_esp0 y) (at_stack0 y)
       (at_stack0_size y) (at_int_enabled y) (at_cli_stack y) (at_cr3 y) tentry)) ;;;
  kassert "((uintptr_t)stack) % 16 == 0" (stack mod 16 =? 0) ;;;
  kassert "((uintptr_t)stack0) % 16 == 0" (stack0 mod 16 =? 0) ;;;
  aupd t (fun x => mk_at (at_cs x) (at_ds x) 0 0 0 (at_ebp0 x) (at_esp0 x) (at_stack0 x) (at_stack0_size x)
    (at_int_enabled x) (at_cli_stack x) (at_cr3 x) (at_tentry x)) ;;;
  when (cs =? USER_CODE_SELECTOR)
    (kassert "stack" (negb (stack =? 0)) ;;;
     aupd t (fun x => mk_at (at_cs x) (at_ds x) (u32 (stack + stack_size)) stack stack_size (at_ebp0 x) (at_esp0 x)
       (at_stack0 x) (at_stack0_size x) (at_int_enabled x) (at_cli_stack x) (at_cr3 x) (at_tentry x))) ;;;
  aupd t (fun x => mk_at (at_cs x) (at_ds x) (at_ebp x) (at_stack x) (at_stack_size x) (u32 (stack0 + stack0_size))
    (u32 (stack0 + stack0_size)) stack0 stack0_size int_enabled 0 cr3 (at_tentry x)).

Variables kthread_entry uthread_switch_entry isr_exit : Z.

(** The part of an interrupt frame that makes [iret] enter the thread. *)
Definition build_isr_frame (t : nat) (isr_frame ss esp : Z) : M tsys unit :=
  x <- tget t ;;
  let a := th_arch x in
  tst32 (isr_frame + 8) (at_ebp0 a) ;;;
  tst16 (isr_frame + 44) (at_ds a) ;;;
  tst16 (isr_frame + 40) (at_ds a) ;;;
  tst16 (isr_frame + 36) 0 ;;;
  tst16 (isr_frame + 32) 0 ;;;
  tst16 (isr_frame + 76) ss ;;;
  tst32 (isr_frame + 72) esp ;;;
  tst32 (isr_frame + 68) (if at_int_enabled a then EFLAGS_IF else 0) ;;;
  tst16 (isr_frame + 64) (at_cs a) ;;;
  tst32 (isr_frame + 60) (at_tentry a).

(** The frame that x86_thread_switch pops. *)
Definition build_switch_frame (t : nat) (eip : Z) : M tsys unit :=
  x <- tget t ;;
  aupd t (set_esp0 (u32 (at_esp0 (th_arch x) - sizeof_x86_switch_frame))) ;;;
  x <- tget t ;;
  let switch_frame := at_esp0 (th_arch x) in
  tst32 (switch_frame + 8) (at_ebp0 (th_arch x)) ;;;
  tst32 (switch_frame + 16) eip.

Definition setup_kthread_stack (t : nat) : M tsys unit :=
  x <- tget t ;;
  aupd t (set_esp0 (u32 (at_esp0 (th_arch x) - sizeof_isr_frame))) ;;;
  x <- tget t ;;
  build_isr_frame t (at_esp0 (th_arch x)) 0 0 ;;;
  build_switch_frame t isr_exit.

(** [frame_template]: the bytes of a frame, or none. *)
Definition setup_uthread_stack (t : nat) (frame_template : option (list Z)) : M tsys unit :=
  x <- tget t ;;
  aupd t (set_esp0 (u32 (at_esp0 (th_arch x) - sizeof_isr_frame))) ;;;
  x <- tget t ;;
  let isr_frame := at_esp0 (th_arch x) in
  match frame_template with
  | None => build_isr_frame t isr_frame (at_ds (th_arch x)) (at_ebp (th_arch x))
  | Some frame => modify (fun s => tset_mem (write_bytes (ts_mem s) isr_frame frame) s)
  end ;;;
  x <- tget t ;;
  aupd t (set_esp0 (u32 (at_esp0 (th_arch x) - 4))) ;;;
  x <- tget t ;;
  tst32 (at_esp0 (th_arch x)) isr_exit ;;;
  build_switch_frame t uthread_switch_entry.

Context {SH : StackHeap}.

(** [kalloc] of a thread object and of its arch part. *)
Definition thread_kalloc : M tsys nat :=
  s <- get ;;
  modify (fun s => mk_ts (ts_mem s) (ts_threads s) (S (ts_next s)) (current_thread_no s) (debug_x86_threads s)) ;;;
  ret (ts_next s).

Definition kthread_create (entry cookie : Z) (name : list Z) : M tsys nat :=
  stack <- stack_kalloc 4096 ;;
  t <- thread_kalloc ;;
  x86_thread_construct_thread t name stack 4096 0 0 kthread_entry entry cookie true
    KERNEL_CODE_SELECTOR KERNEL_DATA_SELECTOR phys_kernel_pd ;;;
  setup_kthread_stack t ;;;
  ret t.

(** [pd] is the page directory of the parent process. *)
Definition uthread_create (tentry stack stack_size : Z) (name : list Z) (pd : Z) : M tsys nat :=
  stack0 <- stack_kalloc 4096 ;;
  t <- thread_kalloc ;;
  x86_thread_construct_thread t name stack0 4096 stack stack_size tentry 0 0 true
    USER_CODE_SELECTOR USER_DATA_SELECTOR pd ;;;
  setup_uthread_stack t None ;;;
  ret t.

(** [frame.eax = 0]. *)
Definition fork_frame (frame : list Z) : list Z := take 28 frame ++ [0; 0; 0; 0] ++ drop 32 frame.

(** The new process gives the stack and the page directory. *)
Definition uthread_fork_create (vstack stack_size pd : Z) (template : nat) (frame_template : list Z) : M tsys nat :=
  let frame := fork_frame frame_template in
  stack0 <- stack_kalloc 4096 ;;
  t <- thread_kalloc ;;
  x <- tget template ;;
  x86_thread_construct_thread t (c_string (th_name x)) stack0 4096 vstack stack_size
    (at_tentry (th_arch x)) 0 0 true USER_CODE_SELECTOR USER_DATA_SELECTOR pd ;;;
  setup_uthread_stack t (Some frame) ;;;
  ret t.

Definition thread_free (t : nat) : M tsys unit :=
  x <- tget t ;;
  when (th_tid x <? MAX_THREADS) (modify (tset_debug (th_tid x) None)) ;;;
  stack_kfree (at_stack0 (th_arch x)).
End constructors.

(** ** What the CPU takes from a stack *)

(** The registers [isr_exit] restores from a frame at [p], as seen after [iret]. *)
Record regs := mk_regs {
  r_edi : Z; r_esi : Z; r_ebp : Z; r_ebx : Z; r_edx : Z; r_ecx : Z; r_eax : Z;
  r_gs : Z; r_fs : Z; r_es : Z; r_ds : Z;
  r_eip : Z; r_cs : Z; r_eflags : Z;
  r_esp : Z;
  r_ss : Z;
}.

(** [popal], four pops of segment registers, twelve bytes dropped, [iret]: a return to an
    outer ring, which the selector says, also pops the stack pointer. *)
Definition isr_exit_regs (m : mem) (p : Z) : regs :=
  let cs := load16 m (p + 64) in
  mk_regs (load32 m p) (load32 m (p + 4)) (load32 m (p + 8)) (load32 m (p + 16)) (load32 m (p + 20))
    (load32 m (p + 24)) (load32 m (p + 28)) (load16 m (p + 32)) (load16 m (p + 36)) (load16 m (p + 40))
    (load16 m (p + 44)) (load32 m (p + 60)) cs (load32 m (p + 68))
    (if cs mod 4 =? 0 then p + 72 else load32 m (p + 72))
    (if cs mod 4 =? 0 then KERNEL_DATA_SELECTOR else load16 m (p + 76)).

(** The end of x86_thread_switch: four pops, then [ret] to this address with the stack
    pointer behind it. *)
Definition switch_target (m : mem) (esp0 : Z) : Z := load32 m (esp0 + 16).
Definition switch_esp (esp0 : Z) : Z := esp0 + 20.

(** ** Lemmas *)

Lemma store16_frame m a v x : x < a ∨ a + 2 ≤ x → store16 m a v x = m x.
Proof. intros H. unfold store16. by rewrite !store8_ne by lia. Qed.

Lemma load16_ext m1 m2 a : (∀ x, a ≤ x < a + 2 → m1 x = m2 x) → load16 m1 a = load16 m2 a.
Proof. intros H. unfold load16. by rewrite !H by lia. Qed.

Lemma load16_store16_eq m a v : 0 ≤ v < 2 ^ 16 → load16 (store16 m a v) a = v.
Proof.
  intros H. unfold load16, store16. rewrite store8_eq, store8_ne, store8_eq by lia. unfold u8. dlia.
Qed.

Lemma load16_store16_ne m a b v : b + 2 ≤ a ∨ a + 2 ≤ b → load16 (store16 m a v) b = load16 m b.
Proof. intros H. apply load16_ext. intros x Hx. apply store16_frame. lia. Qed.

Lemma load16_store32_ne m a b v : b + 2 ≤ a ∨ a + 4 ≤ b → load16 (store32 m a v) b = load16 m b.
Proof. intros H. apply load16_ext. intros x Hx. apply store32_frame. lia. Qed.

Lemma load32_store16_ne m a b v : b + 4 ≤ a ∨ a + 2 ≤ b → load32 (store16 m a v) b = load32 m b.
Proof. intros H. apply load32_ext. intros x Hx. apply store16_frame. lia. Qed.

(** Loads from a chain of stores to other or the same fields. *)
Ltac frame_fields :=
  repeat first
    [ rewrite load32_store32_eq by lia | rewrite load16_store16_eq by lia
    | rewrite load32_store32_ne by lia | rewrite load16_store16_ne by lia
    | rewrite load16_store32_ne by lia | rewrite load32_store16_ne by lia ].

Lemma decide_self {A} (t : nat) (x y : A) : (if decide (t = t) then x else y) = x.
Proof. by rewrite decide_True. Qed.

Section runs.
Variable phys_kernel_pd : Z.
Variables kthread_entry uthread_switch_entry isr_exit : Z.

(** The fields a constructor leaves in [x']. *)
Record constructed (x' : thread) (name : list Z) (entry cookie : Z) (arch : arch_thread) : Prop := {
  co_name : (length name < 32)%nat → c_string (th_name x') = name;
  co_entry : th_entry x' = entry;
  co_cookie : th_cookie x' = cookie;
  co_state : th_state x' = THREAD_NEW;
  co_cond : th_cond x' = 0;
  co_arch : th_arch x' = arch;
}.

(** Memory, other threads and the heap's counter stay. *)
Record only_thread (t : nat) (s s' : tsys) : Prop := {
  ot_mem : ts_mem s' = ts_mem s;
  ot_next : ts_next s' = ts_next s;
  ot_others : ∀ u, u ≠ t → ts_threads s' u = ts_threads s u;
}.

Lemma c_string_app name rest : Forall (fun c => c ≠ 0) name → c_string (name ++ 0 :: rest) = name.
Proof.
  induction name as [|c name IH]; intros H; [done|]. apply Forall_cons in H as [Hc H]. cbn.
  rewrite (proj2 (Z.eqb_neq _ _) Hc). by rewrite IH.
Qed.

Lemma new_name name old :
  Forall (fun c => c ≠ 0) name → (length name < 32)%nat →
  c_string (take 32 (take (length name) name ++ 0 :: old)) = name.
Proof.
  intros Hn Hl. rewrite firstn_all, take_app_ge by lia.
  replace (32 - length name)%nat with (S (31 - length name)) by lia. cbn [take]. by apply c_string_app.
Qed.

Lemma only_thread_trans t s1 s2 s3 : only_thread t s1 s2 → only_thread t s2 s3 → only_thread t s1 s3.
Proof.
  intros [A1 A2 A3] [B1 B2 B3]. split; [congruence|congruence|]. intros u Hu. by rewrite B3, A3.
Qed.

(** One write to the object of [t]. *)
Definition wrote (t : nat) (f : thread → thread) (s s' : tsys) : Prop :=
  only_thread t s s' ∧ ts_threads s' t = f (ts_threads s t).

Lemma wrote_trans t f g s1 s2 s3 : wrote t f s1 s2 → wrote t g s2 s3 → wrote t (fun x => g (f x)) s1 s3.
Proof. intros [O1 E1] [O2 E2]. split; [by eapply only_thread_trans|]. by rewrite E2, E1. Qed.

Lemma tupd_spec t f s : returns (tupd t f) s (fun _ => wrote t f s).
Proof. split; [split; [done|done|]|]; cbn; [intros u Hu; by apply decide_False|by apply decide_True]. Qed.

Definition on_arch (f : arch_thread → arch_thread) (x : thread) : thread :=
  mk_thread (th_tid x) (th_name x) (th_parent x) (th_entry x) (th_cookie x) (th_state x) (th_collected_pid x)
    (th_collected_status x) (th_sleep_since x) (th_sleep_until x) (th_cond x) (th_sched_count x) (f (th_arch x)).

Lemma aupd_spec t f s : returns (aupd t f) s (fun _ => wrote t (on_arch f) s).
Proof. apply tupd_spec. Qed.

(** The number of a thread and the debug table. *)
Lemma debug_spec t (f : tsys → tsys) s :
  ts_mem (f s) = ts_mem s → ts_next (f s) = ts_next s → ts_threads (f s) = ts_threads s →
  returns (modify f) s (fun _ => wrote t (fun x => x) s).
Proof. intros H1 H2 H3. split; [split; [done|done|]|]; cbn; [intros u _|]; by rewrite H3. Qed.

Lemma when_spec (b : bool) (m : M tsys unit) s (Q : unit → tsys → Prop) :
  (b = true → returns m s Q) → (b = false → Q tt s) → returns (when b m) s Q.
Proof. destruct b; cbn; auto. Qed.

Lemma wrote_refl t s : wrote t (fun x => x) s s.
Proof. by split. Qed.

Definition construct_empty_effect (name : list Z) (cs ds : Z) (x x' : thread) : Prop :=
  ((length name < 32)%nat → c_string (th_name x') = name) ∧
  th_entry x' = th_entry x ∧ th_cookie x' = th_cookie x ∧ th_state x' = THREAD_NEW ∧ th_cond x' = 0 ∧
  th_arch x' = (let y := th_arch x in
    mk_at cs ds (at_ebp y) (at_stack y) (at_stack_size y) (at_ebp0 y) (at_esp0 y) (at_stack0 y) (at_stack0_size y)
      (at_int_enabled y) (at_cli_stack y) phys_kernel_pd (at_tentry y)).

Lemma construct_empty_spec t name cs ds s :
  Forall (fun c => c ≠ 0) name →
  returns (x86_thread_construct_empty phys_kernel_pd t name cs ds) s (fun _ s' =>
    only_thread t s s' ∧ construct_empty_effect name cs ds (ts_threads s t) (ts_threads s' t)).
Proof.
  intros Hn. unfold x86_thread_construct_empty.
  eapply returns_bind; [apply tupd_spec|intros [] s1 W1; cbv beta in *].
  eapply (returns_bind get _ _ (fun a s' => a = s1 ∧ s' = s1)); [done|intros ? ? [-> ->]; cbv zeta].
  eapply returns_bind; [by apply (debug_spec t)|intros [] s2 W2; cbv beta in *].
  eapply (returns_bind _ _ _ (fun _ => wrote t (fun x => x) s2)).
  { apply when_spec; intros _; [by apply debug_spec|apply wrote_refl]. }
  intros [] s3 W3. eapply returns_bind; [apply tupd_spec|intros [] s4 W4; cbv beta in *].
  eapply returns_mono; [apply aupd_spec|intros [] s5 W5; cbv beta in *].
  destruct (wrote_trans _ _ _ _ _ _ (wrote_trans _ _ _ _ _ _ (wrote_trans _ _ _ _ _ _ W1 W2) W3)
    (wrote_trans _ _ _ _ _ _ W4 W5)) as [O ->]. split; [done|].
  split_and!; [|done..]. cbn. intros Hl.
  rewrite Z.gtb_ltb, (proj2 (Z.ltb_ge _ _)), Nat2Z.id by lia. by apply new_name.
Qed.

Lemma construct_spec t name stack0 stack0_size stack stack_size tentry entry cookie ie cs ds cr3 s :
  Forall (fun c => c ≠ 0) name → stack mod 16 = 0 → stack0 mod 16 = 0 → (cs = USER_CODE_SELECTOR → stack ≠ 0) →
  returns (x86_thread_construct_thread phys_kernel_pd t name stack0 stack0_size stack stack_size tentry entry cookie ie
      cs ds cr3) s (fun _ s' => only_thread t s s' ∧
    constructed (ts_threads s' t) name entry cookie
      (mk_at cs ds (if cs =? USER_CODE_SELECTOR then u32 (stack + stack_size) else 0)
         (if cs =? USER_CODE_SELECTOR then stack else 0) (if cs =? USER_CODE_SELECTOR then stack_size else 0)
         (u32 (stack0 + stack0_size)) (u32 (stack0 + stack0_size)) stack0 stack0_size ie 0 cr3 tentry)).
Proof.
  intros Hn H1 H2 H3. unfold x86_thread_construct_thread.
  eapply returns_bind; [by apply construct_empty_spec|intros [] s1 (O1 & E1 & E2 & E3 & E4 & E5 & E6); cbv beta in *].
  eapply returns_bind; [apply tupd_spec|intros [] s2 W2; cbv beta in *].
  rewrite H1, H2. do 2 (eapply (returns_bind _ _ _ (fun _ s' => s' = s2)); [done|intros ? ? ->]).
  eapply returns_bind; [apply aupd_spec|intros [] s3 W3; cbv beta in *].
  set (g := fun x => mk_at (at_cs x) (at_ds x) (u32 (stack + stack_size)) stack stack_size (at_ebp0 x) (at_esp0 x)
       (at_stack0 x) (at_stack0_size x) (at_int_enabled x) (at_cli_stack x) (at_cr3 x) (at_tentry x)).
  eapply (returns_bind _ _ _ (fun _ => wrote t (on_arch (if cs =? USER_CODE_SELECTOR then g else fun x => x)) s3)).
  { destruct (Z.eqb_spec cs USER_CODE_SELECTOR) as [Ec|Ec]; cbn [when].
    - rewrite (proj2 (Z.eqb_neq stack 0)) by auto. apply aupd_spec.
    - split; [by split|]. cbn. by destruct (ts_threads s3 t). }
  intros [] s4 W4. eapply returns_mono; [apply aupd_spec|intros [] s5 W5; cbv beta in *].
  destruct (wrote_trans _ _ _ _ _ _ (wrote_trans _ _ _ _ _ _ W2 W3) (wrote_trans _ _ _ _ _ _ W4 W5)) as [O ->].
  split; [by eapply only_thread_trans|].
  destruct (cs =? USER_CODE_SELECTOR); split; cbn; try done; rewrite E6; done.
Qed.

(** ** The stacks of new threads *)

Definition isr_stores (m : mem) (p ebp ds ss esp eflags cs eip : Z) : mem :=
  let m := store32 m (p + 8) ebp in
  let m := store16 (store16 (store16 (store16 m (p + 44) ds) (p + 40) ds) (p + 36) 0) (p + 32) 0 in
  let m := store32 (store16 m (p + 76) ss) (p + 72) esp in
  store32 (store16 (store32 m (p + 68) eflags) (p + 64) cs) (p + 60) eip.

Definition thread_flags (a : arch_thread) : Z := if at_int_enabled a then EFLAGS_IF else 0.

Lemma build_isr_frame_run t p ss esp s :
  let a := th_arch (ts_threads s t) in
  build_isr_frame t p ss esp s =
    Done (tt, tset_mem (isr_stores (ts_mem s) p (at_ebp0 a) (at_ds a) ss esp (thread_flags a) (at_cs a) (at_tentry a)) s).
Proof. done. Qed.

Lemma isr_stores_frame m p ebp ds ss esp eflags cs eip x :
  x < p ∨ p + 80 ≤ x → isr_stores m p ebp ds ss esp eflags cs eip x = m x.
Proof. intros H. unfold isr_stores. by repeat first [rewrite store32_frame by lia | rewrite store16_frame by lia]. Qed.

(** What a thread takes from a frame written this way. *)
Record starts (R : regs) (eip cs ds eflags ebp : Z) : Prop := {
  st_eip : r_eip R = eip;
  st_cs : r_cs R = cs;
  st_ds : r_ds R = ds;
  st_es : r_es R = ds;
  st_fs : r_fs R = 0;
  st_gs : r_gs R = 0;
  st_eflags : r_eflags R = eflags;
  st_ebp : r_ebp R = ebp;
}.

Definition sel (x : Z) : Prop := 0 ≤ x < 2 ^ 16.

Lemma isr_stores_regs m p ebp ds ss esp eflags cs eip :
  is_u32 ebp → sel ds → sel ss → is_u32 esp → is_u32 eflags → sel cs → is_u32 eip →
  let R := isr_exit_regs (isr_stores m p ebp ds ss esp eflags cs eip) p in
  starts R eip cs ds eflags ebp ∧
  r_esp R = (if cs mod 4 =? 0 then p + 72 else esp) ∧
  r_ss R = (if cs mod 4 =? 0 then KERNEL_DATA_SELECTOR else ss).
Proof.
  unfold is_u32, sel. intros H1 H2 H3 H4 H5 H6 H7. unfold isr_stores, isr_exit_regs. cbn.
  split; [split; cbn; by frame_fields|]. by frame_fields.
Qed.

Lemma isr_exit_regs_ext m1 m2 p :
  (∀ x, p ≤ x < p + 80 → m1 x = m2 x) → isr_exit_regs m1 p = isr_exit_regs m2 p.
Proof.
  intros H. unfold isr_exit_regs.
  repeat match goal with
  | |- context [load32 m1 ?a] => rewrite (load32_ext m1 m2 a) by (intros; apply H; lia)
  | |- context [load16 m1 ?a] => rewrite (load16_ext m1 m2 a) by (intros; apply H; lia)
  end. done.
Qed.

(** The words under a frame: a return address, if any, and the frame of a switch. *)
Definition switch_stores (m : mem) (e ebp eip : Z) : mem := store32 (store32 m (e + 8) ebp) (e + 16) eip.

Lemma switch_stores_frame m e ebp eip x : x < e ∨ e + 20 ≤ x → switch_stores m e ebp eip x = m x.
Proof. intros H. unfold switch_stores. by rewrite !store32_frame by lia. Qed.

Lemma build_switch_frame_spec t eip s :
  let a := th_arch (ts_threads s t) in
  20 ≤ at_esp0 a < 2 ^ 32 →
  returns (build_switch_frame t eip) s (fun _ s' =>
    ts_mem s' = switch_stores (ts_mem s) (at_esp0 a - 20) (at_ebp0 a) eip ∧ ts_next s' = ts_next s ∧
    (∀ u, u ≠ t → ts_threads s' u = ts_threads s u) ∧
    ts_threads s' t = on_arch (set_esp0 (at_esp0 a - 20)) (ts_threads s t)).
Proof.
  intros a Ha. unfold build_switch_frame.
  eapply (returns_bind _ _ _ (fun x s' => x = ts_threads s t ∧ s' = s)); [done|intros ? ? [-> ->]]. fold a.
  replace (u32 (at_esp0 a - sizeof_x86_switch_frame)) with (at_esp0 a - 20)
    by (unfold sizeof_x86_switch_frame; by rewrite u32_small by lia).
  eapply returns_bind; [apply aupd_spec|intros [] s1 [[O1 O2 O3] E1]; cbv beta in *].
  eapply (returns_bind _ _ _ (fun x s' => x = ts_threads s1 t ∧ s' = s1)); [done|intros ? ? [-> ->]]. cbv zeta.
  eapply returns_run; [reflexivity|]. cbn. rewrite E1. cbn. fold a. rewrite O1. done.
Qed.

Lemma lower_esp0 {B} t n (k : thread → M tsys B) s (Q : B → tsys → Prop) :
  let e := at_esp0 (th_arch (ts_threads s t)) - n in
  0 ≤ e < 2 ^ 32 →
  (∀ s1, wrote t (on_arch (set_esp0 e)) s s1 → returns (k (ts_threads s1 t)) s1 Q) →
  returns (x <- tget t ;; aupd t (set_esp0 (u32 (at_esp0 (th_arch x) - n))) ;;; y <- tget t ;; k y) s Q.
Proof.
  intros e He Hk.
  eapply (returns_bind _ _ _ (fun x s' => x = ts_threads s t ∧ s' = s)); [done|intros ? ? [-> ->]].
  fold e. rewrite u32_small by done.
  eapply returns_bind; [apply aupd_spec|intros [] s1 W; cbv beta in *].
  eapply (returns_bind _ _ _ (fun x s' => x = ts_threads s1 t ∧ s' = s1)); [done|intros ? ? [-> ->]]. by apply Hk.
Qed.

(** The stack of a new thread holds [frame] at [p], and under it what leads there. *)
Record stack_ready (s s' : tsys) (t : nat) (e top : Z) : Prop := {
  sr_next : ts_next s' = ts_next s;
  sr_others : ∀ u, u ≠ t → ts_threads s' u = ts_threads s u;
  sr_thread : ts_threads s' t = on_arch (set_esp0 e) (ts_threads s t);
  sr_mem : ∀ x, x < e ∨ top ≤ x → ts_mem s' x = ts_mem s x;
}.

Lemma setup_kthread_spec t s :
  let a := th_arch (ts_threads s t) in
  100 ≤ at_esp0 a < 2 ^ 32 → is_u32 isr_exit → is_u32 (at_ebp0 a) → is_u32 (at_tentry a) → sel (at_ds a) → sel (at_cs a) →
  returns (setup_kthread_stack isr_exit t) s (fun _ s' =>
    let e := at_esp0 a - 100 in
    stack_ready s s' t e (at_esp0 a) ∧ switch_target (ts_mem s') e = isr_exit ∧
    let R := isr_exit_regs (ts_mem s') (switch_esp e) in
    starts R (at_tentry a) (at_cs a) (at_ds a) (thread_flags a) (at_ebp0 a) ∧
    (at_cs a mod 4 = 0 → r_esp R = at_esp0 a - 8)).
Proof.
  intros a Ha Hx Hb Ht Hd Hc. unfold setup_kthread_stack. apply lower_esp0; [fold a; unfold sizeof_isr_frame; lia|].
  intros s1 [[O1 O2 O3] E1]. cbv beta in *. fold a in E1 |- *. change sizeof_isr_frame with 80 in *.
  assert (Ea : th_arch (ts_threads s1 t) = set_esp0 (at_esp0 a - 80) a) by by rewrite E1.
  rewrite Ea. cbn [at_esp0 set_esp0]. set (p := at_esp0 a - 80) in *.
  eapply returns_bind.
  { eapply returns_run; [apply build_isr_frame_run|]. rewrite Ea. cbn.
    exact (eq_refl : (fun (_ : unit) s' => s' = tset_mem (isr_stores (ts_mem s1) p (at_ebp0 a) (at_ds a) 0 0
      (thread_flags a) (at_cs a) (at_tentry a)) s1) tt _). }
  intros [] s2 ->. eapply returns_mono; [apply build_switch_frame_spec; cbn; rewrite Ea; cbn; subst p; lia|].
  intros [] s' (M & N & U & T). cbn in M, N, U, T. rewrite Ea in M, T. cbn in M, T. replace (at_esp0 a - 100) with (p - 20) by lia.
  assert (Hp : ∀ x, p - 20 + 20 ≤ x → ts_mem s' x = isr_stores (ts_mem s1) p (at_ebp0 a) (at_ds a) 0 0
      (thread_flags a) (at_cs a) (at_tentry a) x) by (intros x Hl; rewrite M; apply switch_stores_frame; lia).
  split; [split|split].
  - congruence.
  - intros u Hu. by rewrite U, O3.
  - rewrite T, E1. done.
  - intros x Hl. rewrite M, switch_stores_frame, isr_stores_frame, O1; [done|subst p; lia..].
  - unfold switch_target. rewrite M. unfold switch_stores. by apply load32_store32_eq.
  - unfold switch_esp. rewrite (isr_exit_regs_ext _ (isr_stores (ts_mem s1) p (at_ebp0 a) (at_ds a) 0 0
      (thread_flags a) (at_cs a) (at_tentry a))) by (intros; apply Hp; lia).
    replace (p - 20 + 20) with p by lia.
    destruct (isr_stores_regs (ts_mem s1) p (at_ebp0 a) (at_ds a) 0 0 (thread_flags a) (at_cs a) (at_tentry a))
      as (S1 & S2 & S3); try done; [unfold thread_flags, EFLAGS_IF; by destruct (at_int_enabled a)|].
    split; [done|]. intros Er%Z.eqb_eq. rewrite S2, Er. subst p. lia.
Qed.

(** The frame that [setup_uthread_stack] leaves: a fresh one or the given one. *)
Definition uframe (m : mem) (p : Z) (a : arch_thread) (frame : option (list Z)) : mem :=
  match frame with
  | None => isr_stores m p (at_ebp0 a) (at_ds a) (at_ds a) (at_ebp a) (thread_flags a) (at_cs a) (at_tentry a)
  | Some f => write_bytes m p f
  end.

Lemma uframe_frame m p a frame x :
  (∀ f, frame = Some f → length f = 80%nat) → x < p ∨ p + 80 ≤ x → uframe m p a frame x = m x.
Proof.
  intros Hf Hx. destruct frame as [f|]; cbn; [|by apply isr_stores_frame].
  apply write_bytes_frame. rewrite (Hf f eq_refl). lia.
Qed.

Lemma setup_uthread_spec t frame s :
  let a := th_arch (ts_threads s t) in
  104 ≤ at_esp0 a < 2 ^ 32 → is_u32 isr_exit → is_u32 uthread_switch_entry → (∀ f, frame = Some f → length f = 80%nat) →
  returns (setup_uthread_stack uthread_switch_entry isr_exit t frame) s (fun _ s' =>
    let e := at_esp0 a - 104 in
    stack_ready s s' t e (at_esp0 a) ∧ switch_target (ts_mem s') e = uthread_switch_entry ∧
    load32 (ts_mem s') (switch_esp e) = isr_exit ∧
    isr_exit_regs (ts_mem s') (switch_esp e + 4) =
      isr_exit_regs (uframe (ts_mem s) (switch_esp e + 4) a frame) (switch_esp e + 4)).
Proof.
  intros a Ha Hx Hu Hf. unfold setup_uthread_stack. apply lower_esp0; [fold a; unfold sizeof_isr_frame; lia|].
  intros s1 [[O1 O2 O3] E1]. cbv beta in *. fold a in E1 |- *. change sizeof_isr_frame with 80 in *.
  assert (Ea : th_arch (ts_threads s1 t) = set_esp0 (at_esp0 a - 80) a) by by rewrite E1.
  rewrite Ea. cbn [at_esp0 at_ds at_ebp set_esp0]. set (p := at_esp0 a - 80) in *.
  eapply (returns_bind _ _ _ (fun _ s' => s' = tset_mem (uframe (ts_mem s) p a frame) s1)).
  { destruct frame as [f|]; [by rewrite <- O1|]. eapply returns_run; [apply build_isr_frame_run|].
    rewrite Ea, O1. done. }
  intros [] s2 ->. apply lower_esp0; [cbn; rewrite Ea; cbn; subst p; lia|].
  intros s3 [[Q1 Q2 Q3] E3]. cbn in Q1, Q2, Q3, E3. rewrite Ea in E3. cbn in E3.
  assert (Eb : th_arch (ts_threads s3 t) = set_esp0 (p - 4) a) by (rewrite E3; cbn; by rewrite Ea).
  rewrite Eb. cbn [at_esp0 set_esp0].
  eapply (returns_bind _ _ _ (fun _ s' => s' = tset_mem (store32 (uframe (ts_mem s) p a frame) (p - 4) isr_exit) s3)).
  { by rewrite <- Q1. }
  intros [] s4 ->. eapply returns_mono; [apply build_switch_frame_spec; cbn; rewrite Eb; cbn; subst p; lia|].
  intros [] s' (M & N & U & T). cbn in M, N, U, T. rewrite Eb in M, T. cbn in M, T. unfold switch_esp. replace (at_esp0 a - 104) with (p - 4 - 20) by lia.
  replace (p - 4 - 20 + 20) with (p - 4) by lia. replace (p - 4 + 4) with p by lia.
  split; [split|split; [|split]].
  - congruence.
  - intros u Hu'. by rewrite U, Q3, O3.
  - rewrite T, E3, E1. done.
  - intros x Hl. rewrite M, switch_stores_frame, store32_frame, uframe_frame; [done|done|subst p; lia..].
  - unfold switch_target. rewrite M. by apply load32_store32_eq.
  - rewrite M. unfold switch_stores. do 2 rewrite load32_store32_ne by lia. by apply load32_store32_eq.
  - apply isr_exit_regs_ext. intros x Hl. by rewrite M, switch_stores_frame, store32_frame by lia.
Qed.
End runs.

Definition with_eax (v : Z) (R : regs) : regs :=
  mk_regs (r_edi R) (r_esi R) (r_ebp R) (r_ebx R) (r_edx R) (r_ecx R) v (r_gs R) (r_fs R) (r_es R) (r_ds R) (r_eip R)
    (r_cs R) (r_eflags R) (r_esp R) (r_ss R).

(** The bytes of a frame that fork has prepared. *)
Lemma fork_frame_bytes m p mf f i :
  byte_mem mf → 0 ≤ i < 80 →
  write_bytes m p (fork_frame (read_bytes mf f 80)) (p + i) = if (28 <=? i) && (i <? 32) then 0 else mf (f + i).
Proof.
  intros Hb Hi.
  assert (L : fork_frame (read_bytes mf f 80) !! Z.to_nat i = Some (if (28 <=? i) && (i <? 32) then 0 else mf (f + i))).
  { unfold fork_frame. destruct (Z.leb_spec 28 i), (Z.ltb_spec i 32); cbn [andb]; [| | |lia].
    - rewrite lookup_app_r; rewrite length_take, length_read_bytes; [|lia].
      rewrite lookup_app_l by (cbn; lia). by assert (i = 28 ∨ i = 29 ∨ i = 30 ∨ i = 31) as [-> | [-> | [-> | ->]]] by lia.
    - rewrite lookup_app_r; rewrite length_take, length_read_bytes; [|lia].
      rewrite lookup_app_r by (cbn; lia). rewrite lookup_drop, read_bytes_lookup by (cbn; lia).
      f_equal. f_equal. cbn. lia.
    - rewrite lookup_app_l by (rewrite length_take, length_read_bytes; lia).
      rewrite lookup_take_lt, read_bytes_lookup by lia. f_equal. f_equal. lia. }
  replace (p + i) with (p + Z.of_nat (Z.to_nat i)) by lia. rewrite (write_bytes_lookup _ _ _ _ _ L). apply u8_small. by destruct (_ && _); [|apply Hb].
Qed.

Lemma fork_frame_regs m p mf f :
  byte_mem mf → load16 mf (f + 64) mod 4 ≠ 0 →
  isr_exit_regs (write_bytes m p (fork_frame (read_bytes mf f 80))) p = with_eax 0 (isr_exit_regs mf f).
Proof.
  intros Hb Hc. set (m' := write_bytes m p _).
  assert (L : ∀ k, 0 ≤ k < 28 ∨ 32 ≤ k < 80 → m' (p + k) = mf (f + k)).
  { intros k Hk. unfold m'. rewrite fork_frame_bytes by (done || lia).
    destruct (Z.leb_spec 28 k), (Z.ltb_spec k 32); cbn; done || lia. }
  assert (L32 : ∀ k, 0 ≤ k ≤ 24 ∨ 32 ≤ k ≤ 76 → load32 m' (p + k) = load32 mf (f + k)).
  { intros k Hk. unfold load32. rewrite <- !Z.add_assoc. by rewrite !L by lia. }
  assert (L16 : ∀ k, 32 ≤ k ≤ 78 → load16 m' (p + k) = load16 mf (f + k)).
  { intros k Hk. unfold load16. rewrite <- !Z.add_assoc. by rewrite !L by lia. }
  assert (L0 : load32 m' (p + 28) = 0).
  { unfold load32, m'. rewrite <- !Z.add_assoc. by rewrite !fork_frame_bytes by (done || lia). }
  assert (Le : load32 m' p = load32 mf f).
  { rewrite <- (Z.add_0_r p), <- (Z.add_0_r f). apply L32. lia. }
  unfold isr_exit_regs, with_eax. cbv zeta.
  cbn [r_edi r_esi r_ebp r_ebx r_edx r_ecx r_eax r_gs r_fs r_es r_ds r_eip r_cs r_eflags r_esp r_ss].
  rewrite Le, L0. repeat rewrite L32 by lia. repeat rewrite L16 by lia.
  by rewrite (proj2 (Z.eqb_neq _ _) Hc).
Qed.

Section theorems.
Context {SH : StackHeap}.
Variables phys_kernel_pd kthread_entry uthread_switch_entry isr_exit : Z.

(** The allocations before a construction. *)
Lemma thread_allocs_run {B} s stack0 s1 (k : Z → nat → M tsys B) :
  stack_kalloc 4096 s = Done (stack0, s1) →
  bind (stack_kalloc 4096) (fun st => bind thread_kalloc (k st)) s =
    k stack0 (ts_next s1)
      (mk_ts (ts_mem s1) (ts_threads s1) (S (ts_next s1)) (current_thread_no s1) (debug_x86_threads s1)).
Proof. intros E. by rewrite (bind_run _ _ _ _ _ E). Qed.

(** A kernel stack for a new thread. *)
Record stack_block (stack0 : Z) : Prop := {
  sb_pos : 0 < stack0;
  sb_aligned : stack0 mod 16 = 0;
  sb_end : stack0 + 4096 < 2 ^ 32;
}.

(** The new object [t] of [s']: it differs from [s1] in [t] and on the stack from [e]. *)
Record created (s1 s' : tsys) (t : nat) (stack0 e : Z) : Prop := {
  cr_esp0 : at_esp0 (th_arch (ts_threads s' t)) = e;
  cr_stack : at_stack0 (th_arch (ts_threads s' t)) = stack0;
  cr_inside : stack0 ≤ e;
  cr_others : ∀ u, u ≠ t → ts_threads s' u = ts_threads s1 u;
  cr_mem : ∀ x, x < e ∨ stack0 + 4096 ≤ x → ts_mem s' x = ts_mem s1 x;
}.

(** Construction of a user thread, with or without a frame. *)
Lemma user_thread_spec name stack0 stack size tentry pd frame s t :
  Forall (fun c => c ≠ 0) name → stack mod 16 = 0 → stack ≠ 0 → stack_block stack0 →
  is_u32 isr_exit → is_u32 uthread_switch_entry → (∀ f, frame = Some f → length f = 80%nat) →
  returns (x86_thread_construct_thread phys_kernel_pd t name stack0 4096 stack size tentry 0 0 true
     USER_CODE_SELECTOR USER_DATA_SELECTOR pd ;;;
   setup_uthread_stack uthread_switch_entry isr_exit t frame) s (fun _ s' =>
    let e := stack0 + 4096 - 104 in
    let a := mk_at USER_CODE_SELECTOR USER_DATA_SELECTOR (u32 (stack + size)) stack size (stack0 + 4096) e
               stack0 4096 true 0 pd tentry in
    created s s' t stack0 e ∧ constructed (ts_threads s' t) name 0 0 a ∧
    switch_target (ts_mem s') e = uthread_switch_entry ∧ load32 (ts_mem s') (switch_esp e) = isr_exit ∧
    isr_exit_regs (ts_mem s') (switch_esp e + 4) =
      isr_exit_regs (uframe (ts_mem s) (switch_esp e + 4) a frame) (switch_esp e + 4)).
Proof.
  intros Hn Hs Hs0 [B1 B2 B3] Hx Hu Hf.
  eapply returns_bind; [by apply construct_spec|intros [] s1 [[O1 O2 O3] C]; cbv beta in *].
  rewrite Z.eqb_refl, (u32_small (stack0 + 4096)) in C by lia. pose proof (co_arch _ _ _ _ _ C) as Ca.
  eapply returns_mono.
  { apply (setup_uthread_spec uthread_switch_entry isr_exit t frame s1); try done. rewrite Ca. cbn. lia. }
  rewrite Ca. cbn [at_esp0]. intros [] s' (R & T & L & G). destruct R as [R1 R2 R3 R4].
  assert (Ca' : th_arch (ts_threads s' t) = set_esp0 (stack0 + 4096 - 104) (th_arch (ts_threads s1 t))) by by rewrite R3.
  rewrite Ca in Ca'. split; [split|split; [|split; [exact T|split; [exact L|]]]].
  - by rewrite Ca'.
  - by rewrite Ca'.
  - lia.
  - intros u Hu'. by rewrite R2, O3.
  - intros x Hl. by rewrite R4, O1.
  - destruct C as [C1 C2 C3 C4 C5 C6]. rewrite R3. split; try done. cbn. by rewrite C6.
  - rewrite G, O1. apply (f_equal (fun m => isr_exit_regs m _)). destruct frame; reflexivity.
Qed.

Lemma uthread_create_run name stack size tentry pd s stack0 s1 :
  Forall (fun c => c ≠ 0) name → (length name < 32)%nat → stack mod 16 = 0 → 0 < stack → 0 ≤ size →
  stack + size < 2 ^ 32 → is_u32 tentry → is_u32 isr_exit → is_u32 uthread_switch_entry →
  stack_kalloc 4096 s = Done (stack0, s1) → stack_block stack0 →
  ∃ s', let t := ts_next s1 in let e := at_esp0 (th_arch (ts_threads s' t)) in
    uthread_create phys_kernel_pd uthread_switch_entry isr_exit tentry stack size name pd s = Done (t, s') ∧
    created s1 s' t stack0 e ∧ c_string (th_name (ts_threads s' t)) = name ∧
    th_state (ts_threads s' t) = THREAD_NEW ∧ at_cr3 (th_arch (ts_threads s' t)) = pd ∧
    switch_target (ts_mem s') e = uthread_switch_entry ∧ load32 (ts_mem s') (switch_esp e) = isr_exit ∧
    let R := isr_exit_regs (ts_mem s') (switch_esp e + 4) in
    starts R tentry USER_CODE_SELECTOR USER_DATA_SELECTOR EFLAGS_IF (stack0 + 4096) ∧
    r_esp R = stack + size ∧ r_ss R = USER_DATA_SELECTOR.
Proof.
  intros Hn Hl Hs Hs0 Hz Hend Ht Hx Hu Ek Hb. unfold uthread_create. rewrite (thread_allocs_run _ _ _ _ Ek).
  set (s2 := mk_ts _ _ _ _ _).
  destruct (returns_inv _ _ _ (user_thread_spec name stack0 stack size tentry pd None s2 (ts_next s1)
    Hn Hs ltac:(lia) Hb Hx Hu ltac:(done))) as ([] & s' & E & C & D & T & L & G).
  exists s'. pose proof (cr_esp0 _ _ _ _ _ C) as Ee. cbv zeta. rewrite Ee.
  rewrite bind_assoc_run, (bind_run _ _ _ _ _ E). split; [done|]. destruct D as [D1 D2 D3 D4 D5 D6].
  split; [by split; apply C|]. split; [by apply D1|]. split; [done|]. split; [by rewrite D6|].
  split; [exact T|]. split; [exact L|]. rewrite G. destruct Hb. rewrite (u32_small (stack + size)) by lia.
  apply isr_stores_regs; cbn; try done; unfold is_u32; lia.
Qed.

(** A user thread that has been created starts as it should once it is switched to:
    the end of x86_thread_switch enters uthread_switch_entry, that function returns to
    isr_exit, and isr_exit takes the thread to [tentry] in user mode, with user data
    selectors, interrupts enabled and the stack pointer at the end of its stack.  All of
    that lies in the thread's own kernel stack; other memory and threads are as before. *)
Theorem uthread_starts name stack size tentry pd s stack0 s1 :
  Forall (fun c => c ≠ 0) name → (length name < 32)%nat → stack mod 16 = 0 → 0 < stack → 0 ≤ size →
  stack + size < 2 ^ 32 → is_u32 tentry → is_u32 isr_exit → is_u32 uthread_switch_entry →
  stack_kalloc 4096 s = Done (stack0, s1) → stack_block stack0 →
  ∃ s', let t := ts_next s1 in let e := at_esp0 (th_arch (ts_threads s' t)) in
    uthread_create phys_kernel_pd uthread_switch_entry isr_exit tentry stack size name pd s = Done (t, s') ∧
    created s1 s' t stack0 e ∧ c_string (th_name (ts_threads s' t)) = name ∧
    th_state (ts_threads s' t) = THREAD_NEW ∧ at_cr3 (th_arch (ts_threads s' t)) = pd ∧
    switch_target (ts_mem s') e = uthread_switch_entry ∧ load32 (ts_mem s') (switch_esp e) = isr_exit ∧
    let R := isr_exit_regs (ts_mem s') (switch_esp e + 4) in
    starts R tentry USER_CODE_SELECTOR USER_DATA_SELECTOR EFLAGS_IF (stack0 + 4096) ∧
    r_esp R = stack + size ∧ r_ss R = USER_DATA_SELECTOR.
Proof. apply uthread_create_run. Qed.

(** The child of a fork resumes where its parent entered the kernel: from the frame of the
    parent's system call, in which only [eax] differs, and is 0; the path there is that of
    [uthread_starts].  The child's thread has the name of the parent's. *)
Lemma fork_create_run vstack stack_size pd template mf f s stack0 s1 :
  byte_mem mf → load16 mf (f + 64) = USER_CODE_SELECTOR →
  Forall (fun c => c ≠ 0) (c_string (th_name (ts_threads s1 template))) →
  (length (c_string (th_name (ts_threads s1 template))) < 32)%nat → vstack mod 16 = 0 → vstack ≠ 0 →
  is_u32 isr_exit → is_u32 uthread_switch_entry →
  stack_kalloc 4096 s = Done (stack0, s1) → stack_block stack0 →
  ∃ s', let t := ts_next s1 in let e := at_esp0 (th_arch (ts_threads s' t)) in
    uthread_fork_create phys_kernel_pd uthread_switch_entry isr_exit vstack stack_size pd template
      (read_bytes mf f 80) s = Done (t, s') ∧
    created s1 s' t stack0 e ∧ c_string (th_name (ts_threads s' t)) = c_string (th_name (ts_threads s1 template)) ∧
    th_state (ts_threads s' t) = THREAD_NEW ∧ at_cr3 (th_arch (ts_threads s' t)) = pd ∧
    switch_target (ts_mem s') e = uthread_switch_entry ∧ load32 (ts_mem s') (switch_esp e) = isr_exit ∧
    isr_exit_regs (ts_mem s') (switch_esp e + 4) = with_eax 0 (isr_exit_regs mf f).
Proof.
  intros Hm Hc Hn Hl Hs Hs0 Hx Hu Ek Hb. unfold uthread_fork_create. rewrite (thread_allocs_run _ _ _ _ Ek).
  set (s2 := mk_ts _ _ _ _ _). rewrite (bind_run (tget template) _ s2 (ts_threads s1 template) s2) by done.
  destruct (returns_inv _ _ _ (user_thread_spec (c_string (th_name (ts_threads s1 template))) stack0 vstack stack_size
    (at_tentry (th_arch (ts_threads s1 template))) pd (Some (fork_frame (read_bytes mf f 80))) s2 (ts_next s1)
    Hn Hs Hs0 Hb Hx Hu ltac:(by intros ? [= <-]))) as ([] & s' & E & C & D & T & L & G).
  exists s'. pose proof (cr_esp0 _ _ _ _ _ C) as Ee. cbv zeta. rewrite Ee.
  rewrite bind_assoc_run, (bind_run _ _ _ _ _ E). split; [done|]. destruct D as [D1 D2 D3 D4 D5 D6].
  split; [by split; apply C|]. split; [by apply D1|]. split; [done|]. split; [by rewrite D6|].
  split; [exact T|]. split; [exact L|]. rewrite G. apply fork_frame_regs; [done|by rewrite Hc].
Qed.

(** A kernel thread starts in [kthread_entry], on its own stack, with interrupts enabled. *)
Theorem kthread_starts name entry cookie s stack0 s1 :
  Forall (fun c => c ≠ 0) name → (length name < 32)%nat → is_u32 kthread_entry → is_u32 isr_exit →
  stack_kalloc 4096 s = Done (stack0, s1) → stack_block stack0 →
  ∃ s', let t := ts_next s1 in let e := at_esp0 (th_arch (ts_threads s' t)) in
    kthread_create phys_kernel_pd kthread_entry isr_exit entry cookie name s = Done (t, s') ∧
    created s1 s' t stack0 e ∧
    constructed (ts_threads s' t) name entry cookie (th_arch (ts_threads s' t)) ∧
    switch_target (ts_mem s') e = isr_exit ∧
    let R := isr_exit_regs (ts_mem s') (switch_esp e) in
    starts R kthread_entry KERNEL_CODE_SELECTOR KERNEL_DATA_SELECTOR EFLAGS_IF (stack0 + 4096) ∧
    r_esp R = stack0 + 4096 - 8.
Proof.
  intros Hn Hl Ht Hx Ek Hb. unfold kthread_create. rewrite (thread_allocs_run _ _ _ _ Ek). set (s2 := mk_ts _ _ _ _ _).
  destruct Hb as [B1 B2 B3].
  destruct (returns_inv _ _ _ (construct_spec phys_kernel_pd (ts_next s1) name stack0 4096 0 0 kthread_entry entry cookie
    true KERNEL_CODE_SELECTOR KERNEL_DATA_SELECTOR phys_kernel_pd s2 Hn eq_refl B2 ltac:(done)))
    as ([] & s3 & E & O & C). rewrite (bind_run _ _ _ _ _ E).
  change (KERNEL_CODE_SELECTOR =? USER_CODE_SELECTOR) with false in C. rewrite (u32_small (stack0 + 4096)) in C by lia.
  cbv iota in C. pose proof (co_arch _ _ _ _ _ C) as Ca. destruct O as [O1 O2 O3].
  destruct (returns_inv _ _ _ (setup_kthread_spec isr_exit (ts_next s1) s3 ltac:(rewrite Ca; cbn; lia) Hx
    ltac:(rewrite Ca; unfold is_u32; cbn; lia) ltac:(by rewrite Ca) ltac:(by rewrite Ca) ltac:(by rewrite Ca)))
    as ([] & s' & E' & [R1 R2 R3 R4] & T & S1 & S2). rewrite Ca in R3, R4, T, S1, S2. cbn [at_esp0] in R3, R4, T, S1, S2.
  exists s'. cbv zeta. rewrite (bind_run _ _ _ _ _ E').
  assert (Ca' : th_arch (ts_threads s' (ts_next s1)) = set_esp0 (stack0 + 4096 - 100) (th_arch (ts_threads s3 (ts_next s1))))
    by by rewrite R3. rewrite Ca in Ca'. rewrite Ca'. cbn [at_esp0 set_esp0].
  split; [done|]. split; [split|split; [|split; [exact T|split; [exact S1|by apply S2]]]].
  - by rewrite Ca'.
  - by rewrite Ca'.
  - lia.
  - intros u Hu'. by rewrite R2, O3.
  - intros x Hx'. by rewrite R4, O1.
  - destruct C as [C1 C2 C3 C4 C5 C6]. rewrite R3. split; try done. cbn. by rewrite C6.
Qed.
End theorems.

(** ** Witnesses *)

(** A heap whose next block is at 0xC0800010. *)
Definition example_heap : StackHeap := {|
  stack_kalloc := fun _ => ret 0xC0800010;
  stack_kfree := fun _ => ret tt;
|}.

Definition example_arch : arch_thread := mk_at 0 0 0 0 0 0 0 0 0 false 0 0 0x8048000.
Definition example_tsys : tsys :=
  mk_ts (fun _ => 0) (fun t => mk_thread 0 (chars "init" ++ [0]) 0 0 0 0 0 0 0 0 0 0 example_arch) 3 1 (fun _ => None).

Lemma uthread_starts_witness :
  ∃ s', uthread_create (SH := example_heap) 0x101000 0xC0100000 0xC0100100 0x8048000 0xB0000000 0x4000 (chars "hello")
      0x200000 example_tsys = Done (3%nat, s') ∧
    let R := isr_exit_regs (ts_mem s') (switch_esp (at_esp0 (th_arch (ts_threads s' 3%nat))) + 4) in
    r_eip R = 0x8048000 ∧ r_esp R = 0xB0004000 ∧ r_cs R = USER_CODE_SELECTOR.
Proof.
  destruct (uthread_starts (SH := example_heap) 0x101000 0xC0100000 0xC0100100 (chars "hello") 0xB0000000 0x4000
    0x8048000 0x200000 example_tsys 0xC0800010 example_tsys) as (s' & E & _ & _ & _ & _ & _ & _ & S & Hsp & _);
    try done; [by repeat constructor|cbn; lia|].
  exists s'. split; [exact E|]. split; [apply S|]. split; [exact Hsp|apply S].
Defined.

(** The frame of a system call made from 0x8048123. *)
Definition example_frame : mem :=
  write_bytes (fun _ => 0) 0x1000 (repeat 5 60 ++ le_bytes 4 0x8048123 ++ [27; 0; 0; 0] ++ repeat 1 12).
