(* ===== verification/Scheduler.v ===== *)
(** * arch/i386/scheduler.c: processes, threads and the run queue

    The scheduler's shared data — the process list, each process's thread list
    and the global thread queue — with the per-CPU fields it uses, changed under
    the global scheduler lock.  A context switch ends a critical section on one
    side and continues on the other: an operation that calls [reschedule] runs up
    to the point where the CPU is back in its scheduler loop with the lock
    released, and the scheduler loop's [dispatch] runs the chosen thread up to the
    point where that thread releases the lock; what the thread still has to do
    there is recorded in it ([t_resume]).  Threads and processes are identified
    by the addresses of their structures; the intrusive lists are lists of
    addresses, which the [Queue] refinement theorems justify. *)

From stdpp Require Import base list strings gmap.
From Stdlib Require Import ZArith Lia.
From S2P Require Import Prelude.

Inductive thread_state : Type :=
| THREAD_SCHEDULER | THREAD_NEW | THREAD_READY | THREAD_RUNNING
| THREAD_WAITING | THREAD_BLOCKED | THREAD_SLEEPING | THREAD_EXITED.

Inductive proc_state : Type :=
| PROC_NEW | PROC_READY | PROC_EXITING | PROC_DEFUNCT | PROC_TRUNCATE.

#[export] Instance thread_state_eq_dec : EqDecision thread_state.
Proof. solve_decision. Defined.
#[export] Instance proc_state_eq_dec : EqDecision proc_state.
Proof. solve_decision. Defined.

Definition tptr : Type := nat.
Definition pptr : Type := nat.
Definition cptr : Type := nat.
Definition condptr : Type := nat.

Definition PID_KERNEL : Z := 0.
Definition ENOSTATUS : Z := 10.
Definition TICKS_PER_MILLISECOND : Z := 10.

(** Where a thread continues when it is switched to. *)
Inductive resume_point : Type :=
| AtEntry                      (* kthread_entry / uthread_switch_entry *)
| AfterReschedule              (* thread_yield, thread_sleep *)
| AfterCondWait (c : condptr)  (* sched_thread_wait *)
| AfterProcWait                (* proc_wait *)
| AfterExit.                   (* thread_exit, proc_exit: must not be reached *)

Record thread := mk_thread {
  t_tid : Z;
  t_parent : pptr;
  t_state : thread_state;
  t_collected_pid : Z;
  t_collected_status : Z;
  t_sleep_since : Z;
  t_sleep_until : Z;
  t_cond : option condptr;
  t_sched_count : Z;
  t_int_enabled : bool;
  t_cli_stack : Z;
  t_cr3 : Z;
  t_resume : resume_point;
}.

Record proc := mk_proc {
  p_pid : Z;
  p_parent : Z;
  p_state : proc_state;
  p_exit_status : Z;
  p_threads : list tptr;
}.

(** The fields of [struct x86_cpu] the scheduler uses; [c_lock] tells whether the
    CPU holds the global scheduler lock. *)
Record scpu := mk_scpu {
  c_thread : option tptr;
  c_scheduler : option tptr;
  c_preempt_disabled : Z;
  c_int_enabled : bool;
  c_cli_stack : Z;
  c_if : bool;
  c_cr3 : Z;
}.

Record sched := mk_sched {
  processes : list pptr;
  procs : gmap pptr proc;
  threads : gmap tptr thread;
  queue : list tptr;
  scpus : gmap cptr scpu;
  next_pid : Z;
  next_tid : Z;
  num_waiting : gmap condptr Z;
  lock_holder : option cptr;
  current_ticks : Z;
  kernel_process : pptr;
  kernel_cr3 : Z;
}.

(** ** Field updates *)

Definition set_processes (l : list pptr) (s : sched) : sched :=
  mk_sched l (procs s) (threads s) (queue s) (scpus s) (next_pid s) (next_tid s)
    (num_waiting s) (lock_holder s) (current_ticks s) (kernel_process s) (kernel_cr3 s).
Definition set_procs (m : gmap pptr proc) (s : sched) : sched :=
  mk_sched (processes s) m (threads s) (queue s) (scpus s) (next_pid s) (next_tid s)
    (num_waiting s) (lock_holder s) (current_ticks s) (kernel_process s) (kernel_cr3 s).
Definition set_threads (m : gmap tptr thread) (s : sched) : sched :=
  mk_sched (processes s) (procs s) m (queue s) (scpus s) (next_pid s) (next_tid s)
    (num_waiting s) (lock_holder s) (current_ticks s) (kernel_process s) (kernel_cr3 s).
Definition set_queue (q : list tptr) (s : sched) : sched :=
  mk_sched (processes s) (procs s) (threads s) q (scpus s) (next_pid s) (next_tid s)
    (num_waiting s) (lock_holder s) (current_ticks s) (kernel_process s) (kernel_cr3 s).
Definition set_scpus (m : gmap cptr scpu) (s : sched) : sched :=
  mk_sched (processes s) (procs s) (threads s) (queue s) m (next_pid s) (next_tid s)
    (num_waiting s) (lock_holder s) (current_ticks s) (kernel_process s) (kernel_cr3 s).
Definition set_ids (pid tid : Z) (s : sched) : sched :=
  mk_sched (processes s) (procs s) (threads s) (queue s) (scpus s) pid tid
    (num_waiting s) (lock_holder s) (current_ticks s) (kernel_process s) (kernel_cr3 s).
Definition set_waiting (m : gmap condptr Z) (s : sched) : sched :=
  mk_sched (processes s) (procs s) (threads s) (queue s) (scpus s) (next_pid s) (next_tid s)
    m (lock_holder s) (current_ticks s) (kernel_process s) (kernel_cr3 s).
Definition set_holder (h : option cptr) (s : sched) : sched :=
  mk_sched (processes s) (procs s) (threads s) (queue s) (scpus s) (next_pid s) (next_tid s)
    (num_waiting s) h (current_ticks s) (kernel_process s) (kernel_cr3 s).

Definition tset_state (st : thread_state) (t : thread) : thread :=
  mk_thread (t_tid t) (t_parent t) st (t_collected_pid t) (t_collected_status t)
    (t_sleep_since t) (t_sleep_until t) (t_cond t) (t_sched_count t) (t_int_enabled t)
    (t_cli_stack t) (t_cr3 t) (t_resume t).
Definition tset_collected (pid status : Z) (t : thread) : thread :=
  mk_thread (t_tid t) (t_parent t) (t_state t) pid status
    (t_sleep_since t) (t_sleep_until t) (t_cond t) (t_sched_count t) (t_int_enabled t)
    (t_cli_stack t) (t_cr3 t) (t_resume t).
Definition tset_sleep (since until : Z) (t : thread) : thread :=
  mk_thread (t_tid t) (t_parent t) (t_state t) (t_collected_pid t) (t_collected_status t)
    since until (t_cond t) (t_sched_count t) (t_int_enabled t)
    (t_cli_stack t) (t_cr3 t) (t_resume t).
Definition tset_cond (c : option condptr) (t : thread) : thread :=
  mk_thread (t_tid t) (t_parent t) (t_state t) (t_collected_pid t) (t_collected_status t)
    (t_sleep_since t) (t_sleep_until t) c (t_sched_count t) (t_int_enabled t)
    (t_cli_stack t) (t_cr3 t) (t_resume t).
Definition tset_count (n : Z) (t : thread) : thread :=
  mk_thread (t_tid t) (t_parent t) (t_state t) (t_collected_pid t) (t_collected_status t)
    (t_sleep_since t) (t_sleep_until t) (t_cond t) n (t_int_enabled t)
    (t_cli_stack t) (t_cr3 t) (t_resume t).
Definition tset_ints (b : bool) (n : Z) (t : thread) : thread :=
  mk_thread (t_tid t) (t_parent t) (t_state t) (t_collected_pid t) (t_collected_status t)
    (t_sleep_since t) (t_sleep_until t) (t_cond t) (t_sched_count t) b n (t_cr3 t) (t_resume t).
Definition tset_cr3 (v : Z) (t : thread) : thread :=
  mk_thread (t_tid t) (t_parent t) (t_state t) (t_collected_pid t) (t_collected_status t)
    (t_sleep_since t) (t_sleep_until t) (t_cond t) (t_sched_count t) (t_int_enabled t)
    (t_cli_stack t) v (t_resume t).
Definition tset_resume (r : resume_point) (t : thread) : thread :=
  mk_thread (t_tid t) (t_parent t) (t_state t) (t_collected_pid t) (t_collected_status t)
    (t_sleep_since t) (t_sleep_until t) (t_cond t) (t_sched_count t) (t_int_enabled t)
    (t_cli_stack t) (t_cr3 t) r.
Definition tset_ids (tid : Z) (p : pptr) (t : thread) : thread :=
  mk_thread tid p (t_state t) (t_collected_pid t) (t_collected_status t)
    (t_sleep_since t) (t_sleep_until t) (t_cond t) (t_sched_count t) (t_int_enabled t)
    (t_cli_stack t) (t_cr3 t) (t_resume t).

Definition pset_state (st : proc_state) (p : proc) : proc :=
  mk_proc (p_pid p) (p_parent p) st (p_exit_status p) (p_threads p).
Definition pset_status (z : Z) (p : proc) : proc :=
  mk_proc (p_pid p) (p_parent p) (p_state p) z (p_threads p).
Definition pset_threads (l : list tptr) (p : proc) : proc :=
  mk_proc (p_pid p) (p_parent p) (p_state p) (p_exit_status p) l.
Definition pset_ids (pid parent : Z) (p : proc) : proc :=
  mk_proc pid parent (p_state p) (p_exit_status p) (p_threads p).

Definition cset_thread (t : option tptr) (c : scpu) : scpu :=
  mk_scpu t (c_scheduler c) (c_preempt_disabled c) (c_int_enabled c) (c_cli_stack c) (c_if c) (c_cr3 c).
Definition cset_scheduler (t : option tptr) (c : scpu) : scpu :=
  mk_scpu (c_thread c) t (c_preempt_disabled c) (c_int_enabled c) (c_cli_stack c) (c_if c) (c_cr3 c).
Definition cset_preempt (n : Z) (c : scpu) : scpu :=
  mk_scpu (c_thread c) (c_scheduler c) n (c_int_enabled c) (c_cli_stack c) (c_if c) (c_cr3 c).
Definition cset_ints (b : bool) (n : Z) (i : bool) (c : scpu) : scpu :=
  mk_scpu (c_thread c) (c_scheduler c) (c_preempt_disabled c) b n i (c_cr3 c).
Definition cset_cr3 (v : Z) (c : scpu) : scpu :=
  mk_scpu (c_thread c) (c_scheduler c) (c_preempt_disabled c) (c_int_enabled c) (c_cli_stack c) (c_if c) v.

(** ** Dereferencing *)

Definition rd_thread (t : tptr) : M sched thread :=
  s <- get ;;
  match threads s !! t with Some x => ret x | None => kpanic "page fault" end.
Definition wr_thread (t : tptr) (f : thread → thread) : M sched unit :=
  x <- rd_thread t ;;
  modify (fun s => set_threads (<[t := f x]> (threads s)) s).
Definition rd_proc (p : pptr) : M sched proc :=
  s <- get ;;
  match procs s !! p with Some x => ret x | None => kpanic "page fault" end.
Definition wr_proc (p : pptr) (f : proc → proc) : M sched unit :=
  x <- rd_proc p ;;
  modify (fun s => set_procs (<[p := f x]> (procs s)) s).
Definition rd_scpu (c : cptr) : M sched scpu :=
  s <- get ;;
  match scpus s !! c with
  | Some x => ret x
  | None => kpanic "cpu_current(): called from an unregistered CPU"
  end.
Definition wr_scpu (c : cptr) (f : scpu → scpu) : M sched unit :=
  x <- rd_scpu c ;;
  modify (fun s => set_scpus (<[c := f x]> (scpus s)) s).

(** The queue macros on the global thread queue. *)
Definition enqueue_tail (t : tptr) : M sched unit :=
  modify (fun s => set_queue (queue s ++ [t]) s).
Definition enqueue_head (t : tptr) : M sched unit :=
  modify (fun s => set_queue (t :: queue s) s).

(** The global scheduler lock as CPU [c] sees it (not nested by its users). *)
Definition sched_lock (c : cptr) : M sched unit :=
  s <- get ;;
  match lock_holder s with
  | Some _ => hang
  | None =>
      modify (set_holder (Some c)) ;;;
      wr_scpu c (fun x => cset_preempt (c_preempt_disabled x + 1) x)
  end.
Definition sched_held (c : cptr) : M sched bool :=
  gets (fun s => bool_decide (lock_holder s = Some c)).
Definition sched_unlock (c : cptr) : M sched unit :=
  h <- sched_held c ;;
  if negb h then kpanic "cpu_spinlock_release(): called on an unheld spinlock" else
  modify (set_holder None) ;;;
  wr_scpu c (fun x => cset_preempt (c_preempt_disabled x - 1) x).

(** ** scheduler.c *)

Definition init_global_scheduler (kproc : pptr) (pd : Z) : M sched unit :=
  modify (set_holder None) ;;;
  modify (fun s => mk_sched [] (<[kproc := mk_proc PID_KERNEL 0 PROC_NEW 0 []]> (procs s))
    (threads s) (queue s) (scpus s) (next_pid s) (next_tid s) (num_waiting s) (lock_holder s)
    (current_ticks s) kproc pd) ;;;
  modify (fun s => set_processes (kproc :: processes s) s) ;;;
  modify (set_queue []).

Definition insert_thread (c : cptr) (p : pptr) (t : tptr) : M sched unit :=
  h <- sched_held c ;;
  kassert "cpu_spinlock_held(&global_scheduler_lock)" h ;;;
  wr_proc p (fun x => pset_threads (t :: p_threads x) x) ;;;
  wr_thread t (tset_state THREAD_READY) ;;;
  wr_proc p (pset_state PROC_READY) ;;;
  wr_proc p (pset_status (- ENOSTATUS)) ;;;
  x <- rd_thread t ;;
  when (bool_decide (t_state x = THREAD_READY)) (enqueue_tail t).

Definition collect_process (c : cptr) (p : pptr) : M sched unit :=
  h <- sched_held c ;;
  kassert "cpu_spinlock_held(&global_scheduler_lock)" h ;;;
  wr_proc p (pset_state PROC_TRUNCATE).

(** Wake up every waiting thread of the list; was there one? *)
Fixpoint wake_waiting (pid status : Z) (ts : list tptr) (collected : bool) : M sched bool :=
  match ts with
  | [] => ret collected
  | t :: ts' =>
      x <- rd_thread t ;;
      if negb (bool_decide (t_state x = THREAD_WAITING)) then wake_waiting pid status ts' collected
      else
        wr_thread t (tset_collected pid status) ;;;
        wr_thread t (tset_state THREAD_READY) ;;;
        enqueue_tail t ;;;
        wake_waiting pid status ts' true
  end.

Fixpoint wake_parents (parent pid status : Z) (ps : list pptr) (collected : bool) : M sched bool :=
  match ps with
  | [] => ret collected
  | q :: ps' =>
      y <- rd_proc q ;;
      if negb (p_pid y =? parent) then wake_parents parent pid status ps' collected
      else
        collected <- wake_waiting pid status (p_threads y) collected ;;
        wake_parents parent pid status ps' collected
  end.

Definition make_process_defunct (c : cptr) (p : pptr) : M sched unit :=
  h <- sched_held c ;;
  kassert "cpu_spinlock_held(&global_scheduler_lock)" h ;;;
  wr_proc p (pset_state PROC_DEFUNCT) ;;;
  x <- rd_proc p ;;
  if p_parent x =? PID_KERNEL then collect_process c p else
  ps <- gets processes ;;
  collected <- wake_parents (p_parent x) (p_pid x) (p_exit_status x) ps false ;;
  when collected (collect_process c p).

Definition thread_free (t : tptr) : M sched unit :=
  _ <- rd_thread t ;;
  modify (fun s => set_threads (delete t (threads s)) s).

Definition destroy_thread (c : cptr) (t : tptr) : M sched unit :=
  h <- sched_held c ;;
  kassert "cpu_spinlock_held(&global_scheduler_lock)" h ;;;
  x <- rd_thread t ;;
  kassert "thread->state == THREAD_EXITED" (bool_decide (t_state x = THREAD_EXITED)) ;;;
  let p := t_parent x in
  wr_proc p (fun y => pset_threads (filter (fun u => u ≠ t) (p_threads y)) y) ;;;
  thread_free t ;;;
  y <- rd_proc p ;;
  when (bool_decide (p_threads y = []))
    (k <- gets kernel_process ;;
     kassert "proc != &kernel_process" (bool_decide (p ≠ k)) ;;;
     make_process_defunct c p).

Definition store_interrupts (t : tptr) (c : cptr) : M sched unit :=
  k <- rd_scpu c ;;
  wr_thread t (tset_ints (c_int_enabled k) (c_cli_stack k)).

Definition restore_interrupts (t : tptr) (c : cptr) : M sched unit :=
  x <- rd_thread t ;;
  wr_scpu c (fun k => cset_ints (t_int_enabled x) (t_cli_stack x)
                        (t_int_enabled x && (t_cli_stack x =? 0)) k).

(** The first part of [enter_scheduler]: the CPU's scheduler thread, at [st]. *)
Definition enter_scheduler_setup (c : cptr) (st : tptr) : M sched unit :=
  sched_lock c ;;;
  s <- get ;;
  modify (fun s => set_threads (<[st := mk_thread 0 (kernel_process s) THREAD_NEW 0 0 0 0 None 0
                                          false 0 (kernel_cr3 s) AtEntry]> (threads s)) s) ;;;
  wr_scpu c (cset_scheduler (Some st)) ;;;
  insert_thread c (kernel_process s) st ;;;
  wr_thread st (tset_state THREAD_SCHEDULER) ;;;
  sched_unlock c ;;;
  wr_scpu c (cset_thread None).

(** [kthread_entry] / [uthread_switch_entry] up to the thread's own code. *)
Definition thread_entry (c : cptr) : M sched unit :=
  sched_unlock c ;;;
  k <- rd_scpu c ;;
  if negb (c_if k) then kpanic "thread_entry(): interrupts not enabled" else ret tt.

(** What thread [t] does on CPU [c] after it is switched to, until it has
    released the scheduler lock. *)
Definition resume (c : cptr) (t : tptr) : M sched unit :=
  x <- rd_thread t ;;
  match t_resume x with
  | AtEntry => thread_entry c
  | AfterReschedule => sched_unlock c
  | AfterCondWait cond =>
      modify (fun s => set_waiting (<[cond := default 0 (num_waiting s !! cond) - 1]> (num_waiting s)) s) ;;;
      wr_thread t (tset_cond None) ;;;
      sched_unlock c
  | AfterProcWait => sched_unlock c
  | AfterExit => kpanic "thread_exit(): thread returned"
  end.

(** Run the ready thread [t] on CPU [c]. *)
Definition dispatch (c : cptr) (t : tptr) : M sched unit :=
  wr_thread t (fun x => tset_count (u32 (t_sched_count x + 1)) x) ;;;
  k <- rd_scpu c ;;
  match c_scheduler k with
  | None => kpanic "page fault"
  | Some st =>
      store_interrupts st c ;;;
      wr_scpu c (cset_thread (Some t)) ;;;
      restore_interrupts t c ;;;
      x <- rd_thread t ;;
      wr_scpu c (cset_cr3 (t_cr3 x)) ;;;
      wr_thread t (tset_state THREAD_RUNNING) ;;;
      resume c t
  end.

(** The scheduler loop after the running thread switched back to it. *)
Definition back_to_scheduler (c : cptr) : M sched unit :=
  k <- rd_scpu c ;;
  match c_thread k, c_scheduler k with
  | Some t, Some st =>
      wr_thread t (tset_cr3 (c_cr3 k)) ;;;
      kcr3 <- gets kernel_cr3 ;;
      wr_scpu c (cset_cr3 kcr3) ;;;
      store_interrupts t c ;;;
      wr_scpu c (cset_thread None) ;;;
      restore_interrupts st c ;;;
      sched_unlock c
  | _, _ => kpanic "page fault"
  end.

(** One iteration of the scheduler loop, up to the end of its critical section
    or to the point where the dispatched thread has released the lock. *)
Definition scheduler_iteration (c : cptr) : M sched unit :=
  k <- rd_scpu c ;;
  when (negb (c_if k)) (wr_scpu c (cset_ints true 0 true)) ;;;
  sched_lock c ;;;
  s <- get ;;
  match queue s with
  | [] => sched_unlock c
  | t :: q =>
      modify (set_queue q) ;;;
      x <- rd_thread t ;;
      if bool_decide (t_state x = THREAD_EXITED) then
        destroy_thread c t ;;; sched_unlock c
      else if bool_decide (t_state x = THREAD_SLEEPING) && negb (t_sleep_until x <? current_ticks s)
      then enqueue_tail t ;;; sched_unlock c
      else
        when (bool_decide (t_state x = THREAD_SLEEPING))
          (wr_thread t (tset_state THREAD_READY) ;;; wr_thread t (tset_sleep 0 0)) ;;;
        x <- rd_thread t ;;
        if bool_decide (t_state x = THREAD_READY) then dispatch c t else sched_unlock c
  end.

(** Give up the CPU; [r] is where the thread will continue. *)
Definition reschedule (c : cptr) (r : resume_point) : M sched unit :=
  k <- rd_scpu c ;;
  if c_preempt_disabled k >? 1 then kpanic "reschedule(): preemption was disabled" else
  match c_thread k with
  | None => kpanic "reschedule(): no thread is running"
  | Some t =>
      h <- sched_held c ;;
      if negb h then kpanic "reschedule(): process list lock not held" else
      x <- rd_thread t ;;
      if bool_decide (t_state x = THREAD_RUNNING) then kpanic "reschedule(): bad thread state" else
      when (negb (bool_decide (t_state x = THREAD_BLOCKED))
            && negb (bool_decide (t_state x = THREAD_WAITING))) (enqueue_tail t) ;;;
      wr_thread t (tset_resume r) ;;;
      back_to_scheduler c
  end.

(** [get_current_thread()] and the dereference its callers make at once. *)
Definition get_current_thread (c : cptr) : M sched (option tptr) :=
  k <- rd_scpu c ;; ret (c_thread k).
Definition current_thread (c : cptr) : M sched tptr :=
  t <- get_current_thread c ;;
  match t with Some t => ret t | None => kpanic "page fault" end.

(** [other] tells that the spinlock passed in is not the global scheduler lock:
    the global lock is then taken and the other one released. *)
Definition sched_thread_wait (c : cptr) (cond : condptr) (other : bool) : M sched unit :=
  when other (sched_lock c ;;; wr_scpu c (fun k => cset_preempt (c_preempt_disabled k - 1) k)) ;;;
  t <- current_thread c ;;
  modify (fun s => set_waiting (<[cond := default 0 (num_waiting s !! cond) + 1]> (num_waiting s)) s) ;;;
  wr_thread t (tset_state THREAD_BLOCKED) ;;;
  wr_thread t (tset_cond (Some cond)) ;;;
  reschedule c (AfterCondWait cond).

(** The first blocked thread on the condition, in the order of the lists. *)
Fixpoint find_blocked (m : gmap tptr thread) (cond : condptr) (ts : list tptr) : option tptr :=
  match ts with
  | [] => None
  | t :: ts' =>
      match m !! t with
      | Some x =>
          if bool_decide (t_cond x = Some cond) && bool_decide (t_state x = THREAD_BLOCKED)
          then Some t else find_blocked m cond ts'
      | None => find_blocked m cond ts'
      end
  end.

Definition all_threads (s : sched) : list tptr :=
  flat_map (fun p => match procs s !! p with Some x => p_threads x | None => [] end) (processes s).

Definition sched_thread_notify_one (c : cptr) (cond : condptr) : M sched unit :=
  sched_lock c ;;;
  s <- get ;;
  match find_blocked (threads s) cond (all_threads s) with
  | Some t => wr_thread t (tset_state THREAD_READY) ;;; enqueue_head t
  | None => ret tt
  end ;;;
  sched_unlock c.

Fixpoint find_pid (m : gmap pptr proc) (pid : Z) (ps : list pptr) : option pptr :=
  match ps with
  | [] => None
  | p :: ps' =>
      match m !! p with
      | Some x => if p_pid x =? pid then Some p else find_pid m pid ps'
      | None => find_pid m pid ps'
      end
  end.

(** The lock stays held when the process is found. *)
Definition sheduler_get_proc (c : cptr) (pid : Z) : M sched (option pptr) :=
  sched_lock c ;;;
  s <- get ;;
  match find_pid (procs s) pid (processes s) with
  | Some p => ret (Some p)
  | None => sched_unlock c ;;; ret None
  end.

Definition sheduler_put_proc (c : cptr) (p : option pptr) : M sched unit :=
  match p with None => ret tt | Some _ => sched_unlock c end.

Definition schedule_proc (c : cptr) (parent : option pptr) (p : pptr) (t : tptr) : M sched Z :=
  s <- get ;;
  let pid := next_pid s in
  modify (set_ids (u32 (pid + 1)) (next_tid s)) ;;;
  ppid <- match parent with
          | Some q => y <- rd_proc q ;; ret (p_pid y)
          | None => ret PID_KERNEL
          end ;;
  wr_proc p (pset_ids pid ppid) ;;;
  wr_proc p (pset_state PROC_NEW) ;;;
  s <- get ;;
  let tid := next_tid s in
  modify (set_ids (next_pid s) (u32 (tid + 1))) ;;;
  wr_thread t (tset_ids tid p) ;;;
  sched_lock c ;;;
  modify (fun s => set_processes (p :: processes s) s) ;;;
  insert_thread c p t ;;;
  sched_unlock c ;;;
  ret pid.

Definition schedule_thread (c : cptr) (pid : Z) (t : tptr) : M sched Z :=
  s <- get ;;
  let tid := next_tid s in
  modify (set_ids (next_pid s) (u32 (tid + 1))) ;;;
  wr_thread t (fun x => tset_ids tid (t_parent x) x) ;;;
  p <- sheduler_get_proc c pid ;;
  match p with
  | None => kpanic "schedule_thread(): process does not exist"
  | Some p =>
      wr_thread t (fun x => tset_ids (t_tid x) p x) ;;;
      insert_thread c p t ;;;
      sheduler_put_proc c (Some p) ;;;
      ret tid
  end.

Fixpoint reset_counts (ts : list tptr) : M sched unit :=
  match ts with
  | [] => ret tt
  | t :: ts' => wr_thread t (tset_count 0) ;;; reset_counts ts'
  end.

Definition schedule_reset_perf_counters (c : cptr) : M sched unit :=
  sched_lock c ;;;
  s <- get ;;
  reset_counts (all_threads s) ;;;
  sched_unlock c.

Definition thread_yield (c : cptr) : M sched unit :=
  sched_lock c ;;;
  t <- current_thread c ;;
  wr_thread t (tset_state THREAD_READY) ;;;
  reschedule c AfterReschedule.

Definition thread_exit (c : cptr) : M sched unit :=
  sched_lock c ;;;
  t <- current_thread c ;;
  wr_thread t (tset_state THREAD_EXITED) ;;;
  reschedule c AfterExit.

Definition thread_sleep (c : cptr) (milliseconds : Z) : M sched unit :=
  sched_lock c ;;;
  t <- current_thread c ;;
  wr_thread t (tset_state THREAD_SLEEPING) ;;;
  cur <- gets current_ticks ;;
  wr_thread t (tset_sleep cur (u64 (cur + u32 (milliseconds * TICKS_PER_MILLISECOND)))) ;;;
  reschedule c AfterReschedule.

(** [push_no_interrupts] on the scheduler's view of the CPU. *)
Definition sched_push_no_interrupts (c : cptr) : M sched unit :=
  wr_scpu c (fun k => cset_ints (if c_cli_stack k =? 0 then c_if k else c_int_enabled k)
                        (c_cli_stack k + 1) false k).

Definition proc_exit (c : cptr) (status : Z) : M sched unit :=
  sched_push_no_interrupts c ;;;
  sched_lock c ;;;
  t <- current_thread c ;;
  x <- rd_thread t ;;
  wr_proc (t_parent x) (pset_state PROC_EXITING) ;;;
  wr_proc (t_parent x) (pset_status status) ;;;
  wr_thread t (tset_state THREAD_EXITED) ;;;
  reschedule c AfterExit.

Fixpoint find_defunct (m : gmap pptr proc) (pid : Z) (ps : list pptr) : option (pptr * proc) :=
  match ps with
  | [] => None
  | p :: ps' =>
      match m !! p with
      | Some x => if (p_parent x =? pid) && bool_decide (p_state x = PROC_DEFUNCT)
                  then Some (p, x) else find_defunct m pid ps'
      | None => find_defunct m pid ps'
      end
  end.

(** The collected child, or [None] when the thread went to wait; it then reads
    the pid and status another thread leaves in it when it is resumed. *)
Definition proc_wait (c : cptr) : M sched (option (Z * Z)) :=
  sched_lock c ;;;
  t <- current_thread c ;;
  x <- rd_thread t ;;
  y <- rd_proc (t_parent x) ;;
  s <- get ;;
  match find_defunct (procs s) (p_pid y) (processes s) with
  | Some (child, z) =>
      collect_process c child ;;;
      sched_unlock c ;;;
      ret (Some (p_pid z, p_exit_status z))
  | None =>
      wr_thread t (tset_state THREAD_WAITING) ;;;
      reschedule c AfterProcWait ;;;
      ret None
  end.

(** ** Invariants *)

(** The thread is the current one of some CPU. *)
Definition running (K : gmap cptr scpu) (t : tptr) : Prop :=
  ∃ c k, K !! c = Some k ∧ c_thread k = Some t.

(** Where a thread must be found, by its state. *)
Definition placed (Q : list tptr) (K : gmap cptr scpu) (t : tptr) (st : thread_state) : Prop :=
  match st with
  | THREAD_READY | THREAD_SLEEPING | THREAD_EXITED => t ∈ Q ∧ ¬ running K t
  | THREAD_RUNNING => (t ∉ Q) ∧ running K t
  | THREAD_SCHEDULER => ¬ running K t
  | THREAD_NEW | THREAD_WAITING | THREAD_BLOCKED => (t ∉ Q) ∧ ¬ running K t
  end.

Record place_inv (T : gmap tptr thread) (Q : list tptr) (K : gmap cptr scpu) : Prop := {
  pl_nodup : NoDup Q;
  pl_dom : ∀ t, t ∈ Q → is_Some (T !! t);
  pl_run_dom : ∀ t, running K t → is_Some (T !! t);
  pl_run_inj : ∀ c d k l t, K !! c = Some k → K !! d = Some l →
                 c_thread k = Some t → c_thread l = Some t → c = d;
  pl_placed : ∀ t x, T !! t = Some x → placed Q K t (t_state x);
}.

(** Threads and the thread lists of the processes agree. *)
Record tree_inv (T : gmap tptr thread) (P : gmap pptr proc) (L : list pptr) (kp : pptr) : Prop := {
  tr_nodup : NoDup L;
  tr_procs : ∀ p, p ∈ L → is_Some (P !! p);
  tr_kernel : kp ∈ L;
  tr_listed : ∀ t x, T !! t = Some x → t_state x ≠ THREAD_NEW →
                t_parent x ∈ L ∧ ∃ y, P !! t_parent x = Some y ∧ t ∈ p_threads y;
  tr_threads : ∀ p y t, p ∈ L → P !! p = Some y → t ∈ p_threads y →
                 ∃ x, T !! t = Some x ∧ t_parent x = p ∧ t_state x ≠ THREAD_NEW;
  tr_list_nodup : ∀ p y, p ∈ L → P !! p = Some y → NoDup (p_threads y);
}.

(** A thread that can still be dispatched has a sound continuation. *)
Definition resume_ok (x : thread) : Prop :=
  match t_state x with
  | THREAD_NEW | THREAD_READY | THREAD_SLEEPING | THREAD_WAITING | THREAD_BLOCKED =>
      t_resume x ≠ AfterExit ∧
      (t_resume x = AtEntry → t_int_enabled x = true ∧ t_cli_stack x = 0)
  | _ => True
  end.

(** No CPU holds the scheduler lock or another spinlock, and a CPU that runs
    threads has its scheduler thread, in the kernel process [kp]. *)
Definition cpu_inv (T : gmap tptr thread) (K : gmap cptr scpu) (kp : pptr) : Prop :=
  ∀ c k, K !! c = Some k →
    c_preempt_disabled k = 0 ∧
    (is_Some (c_thread k) → is_Some (c_scheduler k)) ∧
    ∀ st, c_scheduler k = Some st → ∃ x, T !! st = Some x ∧ t_state x = THREAD_SCHEDULER ∧ t_parent x = kp.

Record sched_inv (s : sched) : Prop := {
  si_lock : lock_holder s = None;
  si_place : place_inv (threads s) (queue s) (scpus s);
  si_tree : tree_inv (threads s) (procs s) (processes s) (kernel_process s);
  si_cpu : cpu_inv (threads s) (scpus s) (kernel_process s);
  si_resume : ∀ t x, threads s !! t = Some x → resume_ok x;
}.

(** ** Lemmas on placement *)

Definition queued (st : thread_state) : bool :=
  match st with THREAD_READY | THREAD_SLEEPING | THREAD_EXITED => true | _ => false end.
Definition parked (st : thread_state) : bool :=
  match st with THREAD_NEW | THREAD_WAITING | THREAD_BLOCKED => true | _ => false end.

Lemma placed_queued Q K t st : queued st = true → placed Q K t st ↔ t ∈ Q ∧ ¬ running K t.
Proof. by destruct st. Qed.

Lemma placed_parked Q K t st : parked st = true → placed Q K t st ↔ (t ∉ Q) ∧ ¬ running K t.
Proof. by destruct st. Qed.

Lemma placed_perm Q Q' K t st : Q ≡ₚ Q' → placed Q K t st → placed Q' K t st.
Proof. intros E. destruct st; cbn; by rewrite ?E. Qed.

Lemma place_perm T Q Q' K : Q ≡ₚ Q' → place_inv T Q K → place_inv T Q' K.
Proof.
  intros E [H1 H2 H3 H4 H5]. split; try done.
  - by rewrite <- E.
  - intros t Ht. apply H2. by rewrite E.
  - intros t x Ht. eapply placed_perm; [done|by apply H5].
Qed.

(** [K'] differs from [K] at CPU [c] only. *)
Lemma running_insert K c k t :
  running (<[c := k]> K) t ↔ c_thread k = Some t ∨ running (delete c K) t.
Proof.
  unfold running. split.
  - intros (d & l & Hd & Hl). destruct (decide (c = d)) as [->|Hne].
    + rewrite lookup_insert_eq in Hd. injection Hd as <-. by left.
    + rewrite lookup_insert_ne in Hd by done. right. exists d, l. by rewrite lookup_delete_ne.
  - intros [H|(d & l & Hd & Hl)].
    + exists c, k. by rewrite lookup_insert_eq.
    + apply lookup_delete_Some in Hd as [Hne Hd]. exists d, l. by rewrite lookup_insert_ne.
Qed.

Lemma running_delete K c k t :
  K !! c = Some k → running K t ↔ c_thread k = Some t ∨ running (delete c K) t.
Proof. intros H. rewrite <- (running_insert K c k). by rewrite insert_id. Qed.

Lemma running_sub K c t : running (delete c K) t → running K t.
Proof. intros (d & l & Hd & Hl). apply lookup_delete_Some in Hd as [_ Hd]. by exists d, l. Qed.

Lemma place_thread T Q K t x x' :
  T !! t = Some x → t_state x' = t_state x → place_inv T Q K → place_inv (<[t := x']> T) Q K.
Proof.
  intros Ht Hs [H1 H2 H3 H4 H5]. split; try done.
  - intros u Hu. destruct (decide (u = t)) as [->|]; [by rewrite lookup_insert_eq|].
    rewrite lookup_insert_ne by done. by apply H2.
  - intros u Hu. destruct (decide (u = t)) as [->|]; [by rewrite lookup_insert_eq|].
    rewrite lookup_insert_ne by done. by apply H3.
  - intros u y. destruct (decide (u = t)) as [->|].
    + rewrite lookup_insert_eq. intros [= <-]. rewrite Hs. by apply H5.
    + rewrite lookup_insert_ne by done. apply H5.
Qed.

Lemma place_cpu T Q K c k k' :
  K !! c = Some k → c_thread k' = c_thread k → place_inv T Q K → place_inv T Q (<[c := k']> K).
Proof.
  intros Hc Hk [H1 H2 H3 H4 H5].
  assert (Hrun : ∀ t, running (<[c := k']> K) t ↔ running K t).
  { intros t. rewrite running_insert, (running_delete K c k) by done. by rewrite Hk. }
  split; try done.
  - intros t. rewrite Hrun. apply H3.
  - intros d e l1 l2 t. destruct (decide (d = c)) as [->|], (decide (e = c)) as [->|];
      rewrite ?lookup_insert_eq, ?lookup_insert_ne by done; try done.
    + intros [= <-] He. rewrite Hk. by apply (H4 c e).
    + intros Hd [= <-]. rewrite Hk. by apply (H4 d c).
    + apply H4.
  - intros t x Ht. specialize (H5 t x Ht). destruct (t_state x); cbn in *; by rewrite Hrun.
Qed.

(** The running thread of [c] leaves the CPU. *)
Lemma place_off T Q K c k k' t x x' Q' :
  T !! t = Some x → K !! c = Some k → c_thread k = Some t → c_thread k' = None →
  t_state x = THREAD_RUNNING →
  (queued (t_state x') = true ∧ Q' = Q ++ [t] ∨ parked (t_state x') = true ∧ Q' = Q) →
  place_inv T Q K → place_inv (<[t := x']> T) Q' (<[c := k']> K).
Proof.
  intros Ht Hc Hk Hk' Hs Hst [H1 H2 H3 H4 H5].
  pose proof (H5 t x Ht) as Hp. rewrite Hs in Hp. destruct Hp as [Hq _].
  assert (Hrun : ∀ u, running (<[c := k']> K) u ↔ running K u ∧ u ≠ t).
  { intros u. rewrite running_insert, (running_delete K c k), Hk, Hk' by done. split.
    - intros [|Hr]; [done|]. split; [by right|]. intros ->. destruct Hr as (d & l & Hd & Hl).
      apply lookup_delete_Some in Hd as [Hne Hd]. by apply Hne, (H4 c d k l t).
    - intros [[[= ->]|Hr] Hne]; [done|by right]. }
  assert (Hnt : ¬ running (<[c := k']> K) t) by (rewrite Hrun; tauto).
  split.
  - destruct Hst as [[_ ->]|[_ ->]]; [|done]. apply NoDup_app. split; [done|]. split.
    + intros u Hu Hu'. apply list_elem_of_singleton in Hu' as ->. done.
    + apply NoDup_singleton.
  - intros u Hu. destruct (decide (u = t)) as [->|Hne]; [by rewrite lookup_insert_eq|].
    rewrite lookup_insert_ne by done. apply H2.
    destruct Hst as [[_ ->]|[_ ->]]; [|done]. apply elem_of_app in Hu as [|Hu]; [done|].
    by apply list_elem_of_singleton in Hu.
  - intros u Hu. apply Hrun in Hu as [Hu Hne]. rewrite lookup_insert_ne by done. by apply H3.
  - intros d e l1 l2 u. destruct (decide (d = c)) as [->|], (decide (e = c)) as [->|];
      rewrite ?lookup_insert_eq, ?lookup_insert_ne by done; try done.
    + intros [= <-] _. by rewrite Hk'.
    + intros _ [= <-]. by rewrite Hk'.
    + apply H4.
  - intros u y. destruct (decide (u = t)) as [->|Hne].
    + rewrite lookup_insert_eq. intros [= <-]. destruct Hst as [[E ->]|[E ->]].
      * apply placed_queued; [done|]. split; [|done]. apply elem_of_app. right. by left.
      * apply placed_parked; [done|]. done.
    + rewrite lookup_insert_ne by done. intros Hy. specialize (H5 u y Hy).
      assert (HQ : u ∈ Q' ↔ u ∈ Q).
      { destruct Hst as [[_ ->]|[_ ->]]; [|done]. rewrite elem_of_app, list_elem_of_singleton.
        split; [by intros [|]|by left]. }
      destruct (t_state y); cbn in *; rewrite ?HQ, ?Hrun; tauto.
Qed.

(** The first queued thread, ready, gets the CPU. *)
Lemma place_on T Q K c k k' t x x' :
  T !! t = Some x → K !! c = Some k → c_thread k = None → c_thread k' = Some t →
  t_state x = THREAD_READY → t_state x' = THREAD_RUNNING →
  place_inv T (t :: Q) K → place_inv (<[t := x']> T) Q (<[c := k']> K).
Proof.
  intros Ht Hc Hk Hk' Hs Hs' [H1 H2 H3 H4 H5].
  pose proof (H5 t x Ht) as Hp. rewrite Hs in Hp. destruct Hp as [_ Hnr].
  apply NoDup_cons in H1 as [Htq Hnd].
  assert (Hrun : ∀ u, running (<[c := k']> K) u ↔ running K u ∨ u = t).
  { intros u. rewrite running_insert, (running_delete K c k), Hk, Hk' by done.
    split; [intros [[= ->]|]; tauto|intros [[|]|]; [done|tauto|subst; tauto]]. }
  split; [done|..].
  - intros u Hu. destruct (decide (u = t)) as [->|]; [by rewrite lookup_insert_eq|].
    rewrite lookup_insert_ne by done. apply H2. by right.
  - intros u Hu. destruct (decide (u = t)) as [->|]; [by rewrite lookup_insert_eq|].
    rewrite lookup_insert_ne by done. apply H3. apply Hrun in Hu. tauto.
  - intros d e l1 l2 u. destruct (decide (d = c)) as [->|], (decide (e = c)) as [->|];
      rewrite ?lookup_insert_eq, ?lookup_insert_ne by done; try done.
    + intros [= <-] He. rewrite Hk'. intros [= <-] Hl. exfalso. apply Hnr. by exists e, l2.
    + intros Hd [= <-]. rewrite Hk'. intros Hl [= <-]. exfalso. apply Hnr. by exists d, l1.
    + apply H4.
  - intros u y. destruct (decide (u = t)) as [->|Hne].
    + rewrite lookup_insert_eq. intros [= <-]. rewrite Hs'. split; [done|]. apply Hrun. tauto.
    + rewrite lookup_insert_ne by done. intros Hy. specialize (H5 u y Hy).
      destruct (t_state y); cbn in *; rewrite ?elem_of_cons in H5; rewrite ?Hrun; tauto.
Qed.

(** A parked thread becomes queued. *)
Lemma place_wake T Q K t x x' :
  T !! t = Some x → parked (t_state x) = true → queued (t_state x') = true →
  place_inv T Q K → place_inv (<[t := x']> T) (t :: Q) K.
Proof.
  intros Ht Hs Hs' [H1 H2 H3 H4 H5].
  pose proof (H5 t x Ht) as Hp. apply placed_parked in Hp as [Htq Hnr]; [|done].
  split; try done.
  - by constructor.
  - intros u Hu. destruct (decide (u = t)) as [->|]; [by rewrite lookup_insert_eq|].
    rewrite lookup_insert_ne by done. apply H2. by apply elem_of_cons in Hu as [|].
  - intros u Hu. destruct (decide (u = t)) as [->|]; [by rewrite lookup_insert_eq|].
    rewrite lookup_insert_ne by done. by apply H3.
  - intros u y. destruct (decide (u = t)) as [->|Hne].
    + rewrite lookup_insert_eq. intros [= <-]. apply placed_queued; [done|]. split; [by left|done].
    + rewrite lookup_insert_ne by done. intros Hy. specialize (H5 u y Hy).
      destruct (t_state y); cbn in *; rewrite ?elem_of_cons; tauto.
Qed.

(** A scheduler thread leaves the queue. *)
Lemma place_drop T Q K t x :
  T !! t = Some x → t_state x = THREAD_SCHEDULER → place_inv T (t :: Q) K → place_inv T Q K.
Proof.
  intros Ht Hs [H1 H2 H3 H4 H5]. apply NoDup_cons in H1 as [Htq Hnd].
  split; try done.
  - intros u Hu. apply H2. by right.
  - intros u y Hy. specialize (H5 u y Hy).
    assert (t_state y = THREAD_SCHEDULER ∨ u ≠ t) as [E|Hne].
    { destruct (decide (u = t)) as [->|]; [left; congruence|by right]. }
    + rewrite E in *. exact H5.
    + destruct (t_state y); cbn in *; rewrite ?elem_of_cons in H5; tauto.
Qed.

(** An exited thread is freed. *)
Lemma place_destroy T Q K t x :
  T !! t = Some x → t_state x = THREAD_EXITED → place_inv T (t :: Q) K →
  place_inv (delete t T) Q K.
Proof.
  intros Ht Hs [H1 H2 H3 H4 H5]. pose proof (H5 t x Ht) as Hp. rewrite Hs in Hp.
  destruct Hp as [_ Hnr]. apply NoDup_cons in H1 as [Htq Hnd]. split; try done.
  - intros u Hu. rewrite lookup_delete_ne; [apply H2; by right|]. by intros ->.
  - intros u Hu. rewrite lookup_delete_ne; [by apply H3|]. by intros ->.
  - intros u y Hy. apply lookup_delete_Some in Hy as [Hne Hy]. specialize (H5 u y Hy).
    destruct (t_state y); cbn in *; rewrite ?elem_of_cons in H5; intuition congruence.
Qed.

(** A new thread structure appears. *)
Lemma place_fresh T Q K t x Q' :
  T !! t = None → place_inv T Q K →
  (t_state x = THREAD_SCHEDULER ∧ Q' = t :: Q ∨ t_state x = THREAD_NEW ∧ Q' = Q) →
  place_inv (<[t := x]> T) Q' K.
Proof.
  intros Ht [H1 H2 H3 H4 H5] Hs.
  assert (Htq : t ∉ Q) by (intros Hq; destruct (H2 t Hq); congruence).
  assert (Hnr : ¬ running K t) by (intros Hr; destruct (H3 t Hr); congruence).
  split; try done.
  - destruct Hs as [[_ ->]|[_ ->]]; [by constructor|done].
  - intros u Hu. destruct (decide (u = t)) as [->|]; [by rewrite lookup_insert_eq|].
    rewrite lookup_insert_ne by done. apply H2.
    destruct Hs as [[_ ->]|[_ ->]]; [by apply elem_of_cons in Hu as [|]|done].
  - intros u Hu. destruct (decide (u = t)) as [->|]; [by rewrite lookup_insert_eq|].
    rewrite lookup_insert_ne by done. by apply H3.
  - intros u y. destruct (decide (u = t)) as [->|Hne].
    + rewrite lookup_insert_eq. intros [= <-]. destruct Hs as [[-> _]|[-> ->]]; done.
    + rewrite lookup_insert_ne by done. intros Hy. specialize (H5 u y Hy).
      destruct Hs as [[_ ->]|[_ ->]]; [|done].
      destruct (t_state y); cbn in *; rewrite ?elem_of_cons; tauto.
Qed.

(** ** Lemmas on the process tree *)

Lemma tree_thread T P L kp t x x' :
  T !! t = Some x → t_parent x' = t_parent x →
  (t_state x' = THREAD_NEW ↔ t_state x = THREAD_NEW) →
  tree_inv T P L kp → tree_inv (<[t := x']> T) P L kp.
Proof.
  intros Ht Hp Hs [H1 H2 H3 H4 H5 H6]. split; try done.
  - intros u y. destruct (decide (u = t)) as [->|Hne].
    + rewrite lookup_insert_eq. intros [= <-] Hn. rewrite Hp. apply H4; [done|]. by rewrite <- Hs.
    + rewrite lookup_insert_ne by done. apply H4.
  - intros p y u HL Hy Hu. destruct (H5 p y u HL Hy Hu) as (z & Hz & Hzp & Hzn).
    destruct (decide (u = t)) as [->|Hne].
    + exists x'. rewrite lookup_insert_eq. assert (z = x) as -> by congruence.
      split; [done|]. split; [congruence|]. by rewrite Hs.
    + exists z. by rewrite lookup_insert_ne.
Qed.

Lemma tree_proc T P L kp p y y' :
  P !! p = Some y → p_threads y' = p_threads y →
  tree_inv T P L kp → tree_inv T (<[p := y']> P) L kp.
Proof.
  intros Hy Ht [H1 H2 H3 H4 H5 H6].
  assert (Hl : ∀ q z', <[p := y']> P !! q = Some z' → ∃ z, P !! q = Some z ∧ p_threads z' = p_threads z).
  { intros q z'. destruct (decide (q = p)) as [->|].
    - rewrite lookup_insert_eq. intros [= <-]. eauto.
    - rewrite lookup_insert_ne by done. eauto. }
  split; try done.
  - intros q Hq. destruct (decide (q = p)) as [->|]; [by rewrite lookup_insert_eq|].
    rewrite lookup_insert_ne by done. by apply H2.
  - intros t x Hx Hn. destruct (H4 t x Hx Hn) as (HL & z & Hz & Hin). split; [done|].
    destruct (decide (t_parent x = p)) as [E|].
    + exists y'. rewrite E, lookup_insert_eq. split; [done|]. rewrite Ht.
      assert (z = y) by congruence. by subst.
    + exists z. by rewrite lookup_insert_ne.
  - intros q z' t HL Hz' Hin. destruct (Hl _ _ Hz') as (z & Hz & E). rewrite E in Hin. by eapply H5.
  - intros q z' HL Hz'. destruct (Hl _ _ Hz') as (z & Hz & E). rewrite E. by eapply H6.
Qed.

(** A thread is put on the list of a known process. *)
Lemma tree_insert T P L kp p y t x x' :
  p ∈ L → P !! p = Some y → (T !! t = Some x ∧ t_state x = THREAD_NEW ∨ T !! t = None) →
  t_parent x' = p → t_state x' ≠ THREAD_NEW →
  tree_inv T P L kp →
  tree_inv (<[t := x']> T) (<[p := pset_threads (t :: p_threads y) y]> P) L kp.
Proof.
  intros HL Hy Ht Hp Hs [H1 H2 H3 H4 H5 H6].
  assert (Hfresh : ∀ q z, q ∈ L → P !! q = Some z → t ∉ p_threads z).
  { intros q z Hq Hz Hin. destruct (H5 q z t Hq Hz Hin) as (w & Hw & _ & Hwn).
    destruct Ht as [[Ht Hn]|Ht]; congruence. }
  split; try done.
  - intros q Hq. destruct (decide (q = p)) as [->|]; [by rewrite lookup_insert_eq|].
    rewrite lookup_insert_ne by done. by apply H2.
  - intros u w. destruct (decide (u = t)) as [->|Hne].
    + rewrite lookup_insert_eq. intros [= <-] _. rewrite Hp. split; [done|].
      eexists. rewrite lookup_insert_eq. split; [done|]. by left.
    + rewrite lookup_insert_ne by done. intros Hw Hn. destruct (H4 u w Hw Hn) as (HuL & z & Hz & Hin).
      split; [done|]. destruct (decide (t_parent w = p)) as [E|].
      * eexists. rewrite E, lookup_insert_eq. split; [done|]. right.
        assert (z = y) as -> by congruence. done.
      * exists z. by rewrite lookup_insert_ne.
  - intros q z u HqL. destruct (decide (q = p)) as [->|].
    + rewrite lookup_insert_eq. intros [= <-] Hin. cbn in Hin.
      apply elem_of_cons in Hin as [->|Hin]; [exists x'; by rewrite lookup_insert_eq|].
      destruct (H5 p y u HL Hy Hin) as (w & Hw & Hwp). exists w. rewrite lookup_insert_ne; [done|].
      intros ->. by apply (Hfresh p y HL Hy).
    + rewrite lookup_insert_ne by done. intros Hz Hin.
      destruct (H5 q z u HqL Hz Hin) as (w & Hw & Hwp). exists w. rewrite lookup_insert_ne; [done|].
      intros ->. by apply (Hfresh q z HqL Hz).
  - intros q z HqL. destruct (decide (q = p)) as [->|].
    + rewrite lookup_insert_eq. intros [= <-]. cbn. constructor; [by apply Hfresh with p|].
      by apply H6 with p.
    + rewrite lookup_insert_ne by done. by apply H6.
Qed.

(** A thread leaves its process and is freed. *)
Lemma tree_remove T P L kp t x y :
  T !! t = Some x → P !! t_parent x = Some y →
  tree_inv T P L kp →
  tree_inv (delete t T)
    (<[t_parent x := pset_threads (filter (fun u => u ≠ t) (p_threads y)) y]> P) L kp.
Proof.
  intros Ht Hy [H1 H2 H3 H4 H5 H6]. set (p := t_parent x) in *.
  split; try done.
  - intros q Hq. destruct (decide (q = p)) as [->|]; [by rewrite lookup_insert_eq|].
    rewrite lookup_insert_ne by done. by apply H2.
  - intros u w Hw Hn. apply lookup_delete_Some in Hw as [Hne Hw].
    destruct (H4 u w Hw Hn) as (HuL & z & Hz & Hin). split; [done|].
    destruct (decide (t_parent w = p)) as [E|].
    + eexists. rewrite E, lookup_insert_eq. split; [done|]. cbn.
      apply list_elem_of_filter. split; [done|]. assert (z = y) as -> by congruence. done.
    + exists z. by rewrite lookup_insert_ne.
  - intros q z u HqL. destruct (decide (q = p)) as [->|].
    + rewrite lookup_insert_eq. intros [= <-] Hin. cbn in Hin.
      apply list_elem_of_filter in Hin as [Hne Hin].
      destruct (H5 p y u HqL Hy Hin) as (w & Hw & Hwp). exists w. by rewrite lookup_delete_ne.
    + rewrite lookup_insert_ne by done. intros Hz Hin.
      destruct (H5 q z u HqL Hz Hin) as (w & Hw & Hwp & Hwn). exists w.
      rewrite lookup_delete_ne; [done|]. intros ->. assert (w = x) by congruence. by subst.
  - intros q z HqL. destruct (decide (q = p)) as [->|].
    + rewrite lookup_insert_eq. intros [= <-]. cbn. apply NoDup_filter. by apply H6 with p.
    + rewrite lookup_insert_ne by done. by apply H6.
Qed.

(** A new process structure is put on the list. *)
Lemma tree_new_proc T P L kp p y :
  p ∉ L → P !! p = Some y → p_threads y = [] → tree_inv T P L kp → tree_inv T P (p :: L) kp.
Proof.
  intros Hp Hy He [H1 H2 H3 H4 H5 H6]. split.
  - by constructor.
  - intros q Hq. apply elem_of_cons in Hq as [->|]; [by eexists|by apply H2].
  - by right.
  - intros t x Hx Hn. destruct (H4 t x Hx Hn) as (HL & z & Hz & Hin). split; [by right|]. eauto.
  - intros q z t Hq Hz Hin. apply elem_of_cons in Hq as [->|Hq]; [|by eapply H5].
    assert (z = y) as -> by congruence. rewrite He in Hin. by apply elem_of_nil in Hin.
  - intros q z Hq Hz. apply elem_of_cons in Hq as [->|Hq]; [|by eapply H6].
    assert (z = y) as -> by congruence. rewrite He. constructor.
Qed.

(** ** Lemmas on CPUs *)

Lemma cpu_thread T K kp t x x' :
  T !! t = Some x →
  (t_state x = THREAD_SCHEDULER → t_state x' = THREAD_SCHEDULER ∧ t_parent x' = t_parent x) →
  cpu_inv T K kp → cpu_inv (<[t := x']> T) K kp.
Proof.
  intros Ht Hs H c k Hc. destruct (H c k Hc) as (H1 & H2 & H3). split; [done|]. split; [done|].
  intros st Hst. destruct (H3 st Hst) as (y & Hy & Hys & Hyp).
  destruct (decide (st = t)) as [->|].
  - exists x'. rewrite lookup_insert_eq. assert (y = x) as -> by congruence.
    destruct (Hs Hys) as [E1 E2]. split; [done|]. split; [done|]. congruence.
  - exists y. by rewrite lookup_insert_ne.
Qed.

Lemma cpu_update T K kp c k k' :
  K !! c = Some k → c_preempt_disabled k' = 0 →
  (is_Some (c_thread k') → is_Some (c_scheduler k')) → c_scheduler k' = c_scheduler k →
  cpu_inv T K kp → cpu_inv T (<[c := k']> K) kp.
Proof.
  intros Hc Hp Hs He H d l. destruct (decide (d = c)) as [->|].
  - rewrite lookup_insert_eq. intros [= <-]. split; [done|]. split; [done|].
    intros st. rewrite He. by apply (H c k Hc).
  - rewrite lookup_insert_ne by done. apply H.
Qed.

Lemma cpu_delete T K kp t x :
  T !! t = Some x → t_state x ≠ THREAD_SCHEDULER → cpu_inv T K kp → cpu_inv (delete t T) K kp.
Proof.
  intros Ht Hs H c k Hc. destruct (H c k Hc) as (H1 & H2 & H3). split; [done|]. split; [done|].
  intros st Hst. destruct (H3 st Hst) as (y & Hy & Hys & Hyp). exists y.
  rewrite lookup_delete_ne; [done|]. intros ->. congruence.
Qed.

(** ** Lemmas on running the code *)

Lemma rd_thread_run t x s : threads s !! t = Some x → rd_thread t s = Done (x, s).
Proof. intros H. unfold rd_thread, bind, get. by rewrite H. Qed.

Lemma wr_thread_run t f x s :
  threads s !! t = Some x →
  wr_thread t f s = Done (tt, set_threads (<[t := f x]> (threads s)) s).
Proof. intros H. unfold wr_thread. by rewrite (bind_run _ _ _ _ _ (rd_thread_run _ _ _ H)). Qed.

Lemma rd_proc_run p x s : procs s !! p = Some x → rd_proc p s = Done (x, s).
Proof. intros H. unfold rd_proc, bind, get. by rewrite H. Qed.

Lemma wr_proc_run p f x s :
  procs s !! p = Some x → wr_proc p f s = Done (tt, set_procs (<[p := f x]> (procs s)) s).
Proof. intros H. unfold wr_proc. by rewrite (bind_run _ _ _ _ _ (rd_proc_run _ _ _ H)). Qed.

Lemma rd_scpu_run c k s : scpus s !! c = Some k → rd_scpu c s = Done (k, s).
Proof. intros H. unfold rd_scpu, bind, get. by rewrite H. Qed.

Lemma wr_scpu_run c f k s :
  scpus s !! c = Some k → wr_scpu c f s = Done (tt, set_scpus (<[c := f k]> (scpus s)) s).
Proof. intros H. unfold wr_scpu. by rewrite (bind_run _ _ _ _ _ (rd_scpu_run _ _ _ H)). Qed.

Lemma sched_lock_run c k s :
  lock_holder s = None → scpus s !! c = Some k →
  sched_lock c s = Done (tt, set_scpus (<[c := cset_preempt (c_preempt_disabled k + 1) k]> (scpus s))
                               (set_holder (Some c) s)).
Proof.
  intros Hl Hc. unfold sched_lock. unfold bind at 1, get. rewrite Hl.
  unfold bind at 1, modify. by rewrite (wr_scpu_run _ _ k).
Qed.

Lemma sched_held_run c s : lock_holder s = Some c → sched_held c s = Done (true, s).
Proof. intros H. unfold sched_held, gets. by rewrite bool_decide_eq_true_2. Qed.

Lemma sched_unlock_run c k s :
  lock_holder s = Some c → scpus s !! c = Some k →
  sched_unlock c s = Done (tt, set_scpus (<[c := cset_preempt (c_preempt_disabled k - 1) k]> (scpus s))
                                 (set_holder None s)).
Proof.
  intros Hl Hc. unfold sched_unlock. rewrite (bind_run _ _ _ _ _ (sched_held_run _ _ Hl)). cbn [negb].
  unfold bind at 1, modify. by rewrite (wr_scpu_run _ _ k).
Qed.

(** Step over an operation whose run lemma applies. *)
Ltac srun lem := rewrite (bind_run _ _ _ _ _ lem).
Ltac lk := rewrite ?lookup_insert_eq, ?lookup_insert_ne by done.

(** The state reached when the current thread [t], now in state [t_state x], has
    given up the CPU. *)
Record switched_out (c : cptr) (t : tptr) (x : thread) (k : scpu) (r : resume_point)
    (s s' : sched) : Prop := {
  so_lock : lock_holder s' = None;
  so_threads : ∃ x', threads s' = <[t := x']> (threads s) ∧ t_state x' = t_state x ∧
                 t_parent x' = t_parent x ∧ t_resume x' = r ∧ t_cond x' = t_cond x ∧
                 t_int_enabled x' = c_int_enabled k ∧ t_cli_stack x' = c_cli_stack k ∧
                 t_cr3 x' = c_cr3 k ∧ t_sleep_until x' = t_sleep_until x ∧ t_tid x' = t_tid x;
  so_queue : queue s' = if parked (t_state x) then queue s else queue s ++ [t];
  so_scpus : ∃ k', scpus s' = <[c := k']> (scpus s) ∧ c_thread k' = None ∧
               c_scheduler k' = c_scheduler k ∧ c_preempt_disabled k' = c_preempt_disabled k - 1 ∧
               c_cr3 k' = kernel_cr3 s;
  so_procs : procs s' = procs s;
  so_processes : processes s' = processes s;
  so_kernel : kernel_process s' = kernel_process s;
  so_waiting : num_waiting s' = num_waiting s;
}.

Lemma reschedule_run c r s k t x st y :
  lock_holder s = Some c → scpus s !! c = Some k → c_preempt_disabled k = 1 →
  c_thread k = Some t → c_scheduler k = Some st → threads s !! t = Some x →
  threads s !! st = Some y → t ≠ st → queued (t_state x) || parked (t_state x) = true →
  t_state x ≠ THREAD_NEW →
  ∃ s', reschedule c r s = Done (tt, s') ∧ switched_out c t x k r s s'.
Proof.
  intros Hl Hc Hp Hk Hst Ht Hy Hne Hs Hnn. unfold reschedule.
  srun (rd_scpu_run _ _ _ Hc). rewrite Hp, Hk. change (1 >? 1) with false. cbv iota.
  srun (sched_held_run _ _ Hl). cbn [negb]. srun (rd_thread_run _ _ _ Ht).
  rewrite bool_decide_eq_false_2 by (destruct (t_state x); done).
  set (s1 := if parked (t_state x) then s else set_queue (queue s ++ [t]) s).
  assert (E1 : when (negb (bool_decide (t_state x = THREAD_BLOCKED))
            && negb (bool_decide (t_state x = THREAD_WAITING))) (enqueue_tail t) s = Done (tt, s1)).
  { unfold s1. destruct (t_state x); try done. }
  srun E1.
  assert (F1 : threads s1 = threads s ∧ scpus s1 = scpus s ∧ lock_holder s1 = Some c ∧
    queue s1 = (if parked (t_state x) then queue s else queue s ++ [t]) ∧
    procs s1 = procs s ∧ processes s1 = processes s ∧ kernel_process s1 = kernel_process s ∧
    num_waiting s1 = num_waiting s ∧ kernel_cr3 s1 = kernel_cr3 s).
  { unfold s1. by destruct (parked (t_state x)). }
  destruct F1 as (F1 & F2 & F3 & F4 & F5 & F6 & F7 & F8 & F9). clearbody s1. clear E1.
  srun (wr_thread_run t (tset_resume r) x s1 ltac:(by rewrite F1)).
  unfold back_to_scheduler.
  srun (rd_scpu_run c k (set_threads (<[t := tset_resume r x]> (threads s1)) s1) ltac:(cbn; by rewrite F2)).
  rewrite Hk, Hst. cbn [threads set_threads].
  erewrite bind_run; [|apply wr_thread_run; cbn; by rewrite lookup_insert_eq].
  cbn [threads set_threads kernel_cr3]. unfold bind at 1, gets. cbn [kernel_cr3 set_threads].
  erewrite bind_run; [|apply wr_scpu_run; cbn; by rewrite F2].
  unfold store_interrupts. erewrite bind_run.
  2:{ erewrite bind_run; [|apply rd_scpu_run; cbn; by rewrite lookup_insert_eq].
      apply wr_thread_run. cbn. by rewrite lookup_insert_eq. }
  cbn [threads set_threads set_scpus scpus].
  erewrite bind_run; [|apply wr_scpu_run; cbn; by rewrite lookup_insert_eq].
  unfold restore_interrupts. erewrite bind_run.
  2:{ erewrite bind_run; [|apply rd_thread_run; cbn].
      - apply wr_scpu_run. cbn. by rewrite lookup_insert_eq.
      - rewrite F1. rewrite !lookup_insert_ne by done. exact Hy. }
  cbn [threads set_threads set_scpus scpus].
  erewrite sched_unlock_run; [|done|cbn; by rewrite lookup_insert_eq].
  eexists. split; [reflexivity|]. cbn. split; cbn; try done.
  - rewrite F1. rewrite !insert_insert_eq. eexists. split; [reflexivity|]. done.
  - rewrite F2. rewrite !insert_insert_eq. eexists. split; [reflexivity|]. cbn.
    by repeat split.
Qed.

(** The thread [t] runs on CPU [c]. *)
Definition runs_on (s : sched) (c : cptr) (k : scpu) (t : tptr) (x : thread) : Prop :=
  scpus s !! c = Some k ∧ c_thread k = Some t ∧ threads s !! t = Some x.

Lemma runs_on_facts s c k t x :
  sched_inv s → runs_on s c k t x →
  t_state x = THREAD_RUNNING ∧ c_preempt_disabled k = 0 ∧
  ∃ st y, c_scheduler k = Some st ∧ threads s !! st = Some y ∧ t_state y = THREAD_SCHEDULER ∧
          t_parent y = kernel_process s ∧ t ≠ st.
Proof.
  intros [Hl Hp Ht Hc Hr] (Hk & Hkt & Hx).
  destruct (Hc c k Hk) as (Hpre & Hs & Hst).
  assert (Hrun : running (scpus s) t) by (by exists c, k).
  assert (Est : t_state x = THREAD_RUNNING).
  { pose proof (pl_placed _ _ _ Hp t x Hx) as H. destruct (t_state x); cbn in H; tauto. }
  split; [done|]. split; [done|]. destruct Hs as [st Est']; [by rewrite Hkt|].
  destruct (Hst st Est') as (y & Hy & Hys & Hyp). exists st, y. repeat split; try done.
  intros ->. congruence.
Qed.

(** Any change of state of the running thread followed by [reschedule] keeps the
    invariant; [s1] is the state the operation has prepared under the lock. *)
Lemma leave_inv s s1 c k k1 t x x1 r :
  sched_inv s → runs_on s c k t x →
  lock_holder s1 = Some c → scpus s1 = <[c := k1]> (scpus s) →
  c_thread k1 = Some t → c_scheduler k1 = c_scheduler k → c_preempt_disabled k1 = 1 →
  threads s1 = <[t := x1]> (threads s) → t_parent x1 = t_parent x →
  queued (t_state x1) || parked (t_state x1) = true → t_state x1 ≠ THREAD_NEW →
  queue s1 = queue s → kernel_process s1 = kernel_process s →
  tree_inv (threads s) (procs s1) (processes s1) (kernel_process s) →
  (t_state x1 = THREAD_EXITED ∨ r ≠ AfterExit) → r ≠ AtEntry →
  ∃ s', reschedule c r s1 = Done (tt, s') ∧ sched_inv s' ∧ switched_out c t x1 k1 r s1 s'.
Proof.
  intros Hinv Hro Hl1 Hk1 Hkt1 Hks1 Hkp1 Hth1 Hpar Hst Hnn Hq1 Hkp Htree Hr1 Hr2.
  destruct (runs_on_facts s c k t x Hinv Hro) as (Hrun & Hpre & st & y & Hsch & Hy & Hys & Hyp & Hne).
  destruct Hro as (Hk & Hkt & Hx). pose proof Hinv as [Hl Hp Ht Hc Hres].
  destruct (reschedule_run c r s1 k1 t x1 st y) as (s' & E & Hso); try done.
  { by rewrite Hk1, lookup_insert_eq. }
  { by rewrite Hks1. }
  { by rewrite Hth1, lookup_insert_eq. }
  { by rewrite Hth1, lookup_insert_ne. }
  exists s'. split; [done|]. split; [|done].
  destruct Hso as [Hlk (x' & Hx' & Hs' & Hp' & Hr' & _ & _) Hq (k' & Hk' & Hkt' & Hks' & Hkp' & _) Hpr Hps Hkn _].
  rewrite Hth1, insert_insert_eq in Hx'. rewrite Hk1, insert_insert_eq in Hk'.
  split; [done|..].
  - rewrite Hx', Hq, Hk', Hq1. apply (place_off _ (queue s) _ _ k _ _ x); try done.
    rewrite Hs'. destruct (t_state x1); try done; tauto.
  - rewrite Hx', Hpr, Hps, Hkn, Hkp. apply (tree_thread _ _ _ _ _ x); try done; [congruence|].
    rewrite Hs'. split; intros; congruence.
  - rewrite Hx', Hk', Hkn, Hkp. apply (cpu_thread _ _ _ _ x); [done|congruence|].
    apply (cpu_update _ _ _ _ k); [done|lia|by rewrite Hkt'; intros []|congruence|done].
  - intros u z. rewrite Hx'. destruct (decide (u = t)) as [->|].
    + rewrite lookup_insert_eq. intros [= <-]. unfold resume_ok. rewrite Hs', Hr'.
      destruct (t_state x1); try done; (split; [destruct Hr1; congruence|done]).
    + rewrite lookup_insert_ne by done. apply Hres.
Qed.

(** Step a prefix of an operation on the running thread. *)
Lemma current_thread_run c k t s :
  scpus s !! c = Some k → c_thread k = Some t → current_thread c s = Done (t, s).
Proof.
  intros Hk Ht. unfold current_thread, get_current_thread. unfold bind at 1. unfold bind at 1.
  by rewrite (rd_scpu_run _ _ _ Hk), Ht.
Qed.

(** Apply [leave_inv] to the [reschedule] of the goal, with the CPU record [k1]
    and the thread record [x1] the operation has written. *)
Ltac leave k1 x1 :=
  match goal with
  | Hinv : sched_inv ?s, Hro : runs_on ?s ?c ?k ?t ?x |- context [reschedule ?c ?r ?S1] =>
      let s' := fresh "s'" in let E := fresh "E" in let Hi := fresh "Hi" in let Hso := fresh "Hso" in
      destruct (leave_inv s S1 c k k1 t x x1 r Hinv Hro) as (s' & E & Hi & Hso);
      [cbn; try done; try lia; try (by right); try (by left); try (apply Hinv)..|]
  end.

Lemma thread_yield_run s c k t x :
  sched_inv s → runs_on s c k t x →
  ∃ s', thread_yield c s = Done (tt, s') ∧ sched_inv s' ∧ queue s' = queue s ++ [t] ∧
        ∃ x', threads s' !! t = Some x' ∧ t_state x' = THREAD_READY.
Proof.
  intros Hinv Hro. pose proof (runs_on_facts s c k t x Hinv Hro) as (Hrun & Hpre & _).
  pose proof Hro as (Hk & Hkt & Hx). unfold thread_yield.
  srun (sched_lock_run c k s (si_lock _ Hinv) Hk).
  erewrite bind_run; [|eapply current_thread_run; [cbn; by rewrite lookup_insert_eq|done]].
  erewrite bind_run; [|apply wr_thread_run; exact Hx].
  leave (cset_preempt (c_preempt_disabled k + 1) k) (tset_state THREAD_READY x).
  rewrite E. exists s'. split; [done|]. split; [done|].
  destruct Hso as [_ (x' & Hx' & Hs' & _) Hq _ _ _ _ _]. split; [exact Hq|].
  exists x'. rewrite Hx', lookup_insert_eq. by split.
Qed.

Lemma thread_exit_run s c k t x :
  sched_inv s → runs_on s c k t x →
  ∃ s', thread_exit c s = Done (tt, s') ∧ sched_inv s' ∧
        ∃ x', threads s' !! t = Some x' ∧ t_state x' = THREAD_EXITED.
Proof.
  intros Hinv Hro. pose proof (runs_on_facts s c k t x Hinv Hro) as (Hrun & Hpre & _).
  pose proof Hro as (Hk & Hkt & Hx). unfold thread_exit.
  srun (sched_lock_run c k s (si_lock _ Hinv) Hk).
  erewrite bind_run; [|eapply current_thread_run; [cbn; by rewrite lookup_insert_eq|done]].
  erewrite bind_run; [|apply wr_thread_run; exact Hx].
  leave (cset_preempt (c_preempt_disabled k + 1) k) (tset_state THREAD_EXITED x).
  rewrite E. exists s'. split; [done|]. split; [done|].
  destruct Hso as [_ (x' & Hx' & Hs' & _) Hq _ _ _ _ _].
  exists x'. rewrite Hx', lookup_insert_eq. by split.
Qed.

Lemma thread_sleep_run s c k t x ms :
  sched_inv s → runs_on s c k t x →
  ∃ s', thread_sleep c ms s = Done (tt, s') ∧ sched_inv s' ∧
        ∃ x', threads s' !! t = Some x' ∧ t_state x' = THREAD_SLEEPING ∧
              t_sleep_until x' = u64 (current_ticks s + u32 (ms * TICKS_PER_MILLISECOND)).
Proof.
  intros Hinv Hro. pose proof (runs_on_facts s c k t x Hinv Hro) as (Hrun & Hpre & _).
  pose proof Hro as (Hk & Hkt & Hx). unfold thread_sleep.
  srun (sched_lock_run c k s (si_lock _ Hinv) Hk).
  erewrite bind_run; [|eapply current_thread_run; [cbn; by rewrite lookup_insert_eq|done]].
  erewrite bind_run; [|apply wr_thread_run; exact Hx].
  unfold bind at 1, gets. cbn [current_ticks set_threads set_scpus set_holder].
  erewrite bind_run; [|apply wr_thread_run; cbn; by rewrite lookup_insert_eq].
  cbn [threads set_threads]. rewrite insert_insert_eq.
  set (until := u64 _).
  leave (cset_preempt (c_preempt_disabled k + 1) k)
    (tset_sleep (current_ticks s) until (tset_state THREAD_SLEEPING x)).
  rewrite E. exists s'. split; [done|]. split; [done|].
  destruct Hso as [_ (x' & Hx' & Hs' & _ & _ & _ & _ & _ & _ & Hu & _) Hq _ _ _ _ _].
  exists x'. rewrite Hx', lookup_insert_eq. by repeat split.
Qed.

Lemma sched_thread_wait_run s c k t x cond :
  sched_inv s → runs_on s c (cset_preempt 0 k) t x →
  ∃ s', sched_thread_wait c cond true (set_scpus (<[c := cset_preempt 1 k]> (scpus s)) s)
          = Done (tt, s') ∧ sched_inv s' ∧ queue s' = queue s ∧
        (∃ x', threads s' = <[t := x']> (threads s) ∧ t_state x' = THREAD_BLOCKED ∧
               t_cond x' = Some cond ∧ t_resume x' = AfterCondWait cond) ∧
        ∃ k', scpus s' = <[c := k']> (scpus s) ∧ c_thread k' = None ∧ c_scheduler k' = c_scheduler k.
Proof.
  intros Hinv Hro. pose proof (runs_on_facts s c _ t x Hinv Hro) as (Hrun & Hpre & _).
  pose proof Hro as (Hk & Hkt & Hx). unfold sched_thread_wait. cbn [when].
  erewrite bind_run.
  2:{ erewrite bind_run; [|apply sched_lock_run; [apply Hinv|cbn; by rewrite lookup_insert_eq]].
      apply wr_scpu_run. cbn. by rewrite lookup_insert_eq. }
  cbn [scpus set_scpus set_holder]. rewrite !insert_insert_eq.
  erewrite bind_run; [|eapply current_thread_run; [cbn; by rewrite lookup_insert_eq|done]].
  unfold bind at 1, modify.
  erewrite bind_run; [|apply wr_thread_run; exact Hx].
  erewrite bind_run; [|apply wr_thread_run; cbn; by rewrite lookup_insert_eq].
  cbn [threads set_threads]. rewrite insert_insert_eq.
  leave (cset_preempt (1 + 1 - 1) k) (tset_cond (Some cond) (tset_state THREAD_BLOCKED x)).
  rewrite E. exists s'. split; [done|]. split; [done|].
  destruct Hso as [_ (x' & Hx' & Hs' & _ & Hr & Hc & _) Hq (k' & Hk' & H1 & H2 & _) _ _ _ _].
  split; [exact Hq|]. split.
  - exists x'. cbn in Hx'. rewrite insert_insert_eq in Hx'. done.
  - exists k'. cbn in Hk'. rewrite insert_insert_eq in Hk'. done.
Qed.

Lemma running_proc s c k t x :
  sched_inv s → runs_on s c k t x →
  t_parent x ∈ processes s ∧ ∃ y, procs s !! t_parent x = Some y ∧ t ∈ p_threads y.
Proof.
  intros Hinv Hro. destruct (runs_on_facts s c k t x Hinv Hro) as (Hrun & _).
  destruct Hro as (_ & _ & Hx). apply (tr_listed _ _ _ _ (si_tree _ Hinv) t x Hx). congruence.
Qed.

Lemma proc_exit_run s c k t x status :
  sched_inv s → runs_on s c k t x →
  ∃ s', proc_exit c status s = Done (tt, s') ∧ sched_inv s' ∧ queue s' = queue s ++ [t] ∧
        processes s' = processes s ∧
        (∃ x', threads s' = <[t := x']> (threads s) ∧ t_state x' = THREAD_EXITED ∧
               t_parent x' = t_parent x) ∧
        (∃ y, procs s !! t_parent x = Some y ∧
              procs s' = <[t_parent x := pset_status status (pset_state PROC_EXITING y)]> (procs s)) ∧
        ∃ k', scpus s' = <[c := k']> (scpus s) ∧ c_thread k' = None ∧ c_scheduler k' = c_scheduler k.
Proof.
  intros Hinv Hro. pose proof (runs_on_facts s c k t x Hinv Hro) as (Hrun & Hpre & _).
  destruct (running_proc s c k t x Hinv Hro) as (HL & y & Hy & Hin).
  pose proof Hro as (Hk & Hkt & Hx). unfold proc_exit, sched_push_no_interrupts.
  erewrite bind_run; [|apply wr_scpu_run; exact Hk].
  erewrite bind_run; [|apply sched_lock_run; [apply Hinv|cbn; by rewrite lookup_insert_eq]].
  cbn [scpus set_scpus set_holder]. rewrite insert_insert_eq.
  erewrite bind_run; [|eapply current_thread_run; [cbn; by rewrite lookup_insert_eq|done]].
  erewrite bind_run; [|apply rd_thread_run; exact Hx].
  erewrite bind_run; [|apply wr_proc_run; exact Hy].
  erewrite bind_run; [|apply wr_proc_run; cbn; by rewrite lookup_insert_eq].
  cbn [procs set_procs]. rewrite insert_insert_eq.
  erewrite bind_run; [|apply wr_thread_run; exact Hx].
  set (k1 := cset_ints _ _ _ k).
  leave (cset_preempt (c_preempt_disabled k1 + 1) k1) (tset_state THREAD_EXITED x).
  { eapply tree_proc; [exact Hy|done|apply Hinv]. }
  rewrite E. exists s'. split; [done|]. split; [done|].
  destruct Hso as [_ (x' & Hx' & Hs' & Hp' & _) Hq (k' & Hk' & H1 & H2 & _) Hpr Hps _ _].
  split; [exact Hq|]. split; [exact Hps|]. split; [|split].
  - exists x'. cbn in Hx'. rewrite insert_insert_eq in Hx'. done.
  - exists y. split; [done|exact Hpr].
  - exists k'. cbn in Hk'. rewrite insert_insert_eq in Hk'. done.
Qed.

(** Leaving a critical section in which the scheduler's data was kept sound. *)
Lemma unlock_inv s c k :
  lock_holder s = Some c → scpus s !! c = Some k → c_preempt_disabled k = 1 →
  place_inv (threads s) (queue s) (scpus s) →
  tree_inv (threads s) (procs s) (processes s) (kernel_process s) →
  cpu_inv (threads s) (<[c := cset_preempt 0 k]> (scpus s)) (kernel_process s) →
  (∀ t x, threads s !! t = Some x → resume_ok x) →
  ∃ s', sched_unlock c s = Done (tt, s') ∧ sched_inv s' ∧ threads s' = threads s ∧
        queue s' = queue s ∧ procs s' = procs s ∧ processes s' = processes s ∧
        scpus s' = <[c := cset_preempt 0 k]> (scpus s) ∧ current_ticks s' = current_ticks s.
Proof.
  intros Hl Hk Hp Hpl Htr Hcp Hrs. rewrite (sched_unlock_run c k s Hl Hk), Hp.
  change (1 - 1) with 0. eexists. split; [reflexivity|]. split; [|done].
  split; cbn; try done. by apply (place_cpu _ _ _ _ k).
Qed.

(** Entering one. *)
Lemma lock_inv s c k :
  sched_inv s → scpus s !! c = Some k →
  ∃ s1, sched_lock c s = Done (tt, s1) ∧ lock_holder s1 = Some c ∧
    scpus s1 = <[c := cset_preempt 1 k]> (scpus s) ∧ threads s1 = threads s ∧
    queue s1 = queue s ∧ procs s1 = procs s ∧ processes s1 = processes s ∧
    kernel_process s1 = kernel_process s ∧ kernel_cr3 s1 = kernel_cr3 s ∧
    current_ticks s1 = current_ticks s ∧ num_waiting s1 = num_waiting s ∧
    next_pid s1 = next_pid s ∧ next_tid s1 = next_tid s.
Proof.
  intros Hinv Hk. destruct (si_cpu _ Hinv c k Hk) as (Hp & _).
  rewrite (sched_lock_run c k s (si_lock _ Hinv) Hk), Hp. eexists. split; [reflexivity|]. done.
Qed.

(** What holds inside a critical section of CPU [c], entered with record [k]. *)
Lemma locked_facts s s1 c k T' :
  sched_inv s → scpus s !! c = Some k → scpus s1 = <[c := cset_preempt 1 k]> (scpus s) →
  cpu_inv T' (scpus s) (kernel_process s) →
  scpus s1 !! c = Some (cset_preempt 1 k) ∧
  cpu_inv T' (<[c := cset_preempt 0 (cset_preempt 1 k)]> (scpus s1)) (kernel_process s).
Proof.
  intros Hinv Hk Hk1 Hc. rewrite Hk1, lookup_insert_eq, insert_insert_eq. split; [done|].
  destruct (Hc c k Hk) as (? & ? & ?). by apply (cpu_update _ _ _ _ k).
Qed.

Lemma find_blocked_Some m cond ts t :
  find_blocked m cond ts = Some t →
  t ∈ ts ∧ ∃ x, m !! t = Some x ∧ t_cond x = Some cond ∧ t_state x = THREAD_BLOCKED.
Proof.
  induction ts as [|u ts IH]; cbn; [done|]. destruct (m !! u) as [x|] eqn:Ex.
  - destruct (bool_decide (t_cond x = Some cond)) eqn:E1,
      (bool_decide (t_state x = THREAD_BLOCKED)) eqn:E2; cbn;
      try (intros H; destruct (IH H) as [Hin Hx]; split; [by right|done]).
    intros [= <-]. apply bool_decide_eq_true in E1, E2. split; [by left|]. eauto.
  - intros H. destruct (IH H) as [Hin Hx]. split; [by right|done].
Qed.

Lemma find_blocked_None m cond ts t x :
  find_blocked m cond ts = None → t ∈ ts → m !! t = Some x →
  ¬ (t_cond x = Some cond ∧ t_state x = THREAD_BLOCKED).
Proof.
  induction ts as [|u ts IH]; cbn; [intros _ H; by apply elem_of_nil in H|].
  intros Hf Hin Hx. apply elem_of_cons in Hin as [->|Hin].
  - rewrite Hx in Hf. intros [E1 E2]. by rewrite !bool_decide_eq_true_2 in Hf.
  - destruct (m !! u); [|by apply IH]. destruct (_ && _); [done|by apply IH].
Qed.

Lemma notify_run s c k cond :
  sched_inv s → scpus s !! c = Some k →
  ∃ s', sched_thread_notify_one c cond s = Done (tt, s') ∧ sched_inv s' ∧ scpus s' = scpus s ∧
    match find_blocked (threads s) cond (all_threads s) with
    | Some t => ∃ x, threads s !! t = Some x ∧ t_state x = THREAD_BLOCKED ∧
                  t_cond x = Some cond ∧
                  threads s' = <[t := tset_state THREAD_READY x]> (threads s) ∧
                  queue s' = t :: queue s
    | None => threads s' = threads s ∧ queue s' = queue s
    end.
Proof.
  intros Hinv Hk. pose proof Hinv as [Hl Hp Ht Hc Hres].
  destruct (lock_inv s c k Hinv Hk) as (s1 & E & Hl1 & Hk1 & Ht1 & Hq1 & Hpr1 & Hps1 & Hkp1 & _).
  unfold sched_thread_notify_one. srun E. unfold bind at 1, get.
  assert (Hall : all_threads s1 = all_threads s) by (unfold all_threads; by rewrite Hpr1, Hps1).
  rewrite Ht1, Hall. clear E.
  assert (Hkk : <[c := cset_preempt 0 (cset_preempt 1 k)]> (scpus s1) = scpus s).
  { rewrite Hk1, insert_insert_eq. destruct (Hc c k Hk) as (E0 & _).
    replace (cset_preempt 0 (cset_preempt 1 k)) with k; [by rewrite insert_id|].
    destruct k. cbn in *. by subst. }
  destruct (find_blocked (threads s) cond (all_threads s)) as [t|] eqn:Ef.
  - destruct (find_blocked_Some _ _ _ _ Ef) as (Hin & x & Hx & Hcond & Hst).
    erewrite bind_run.
    2:{ erewrite bind_run; [|apply wr_thread_run; rewrite Ht1; exact Hx]. reflexivity. }
    edestruct (unlock_inv (set_queue (t :: queue s1) (set_threads (<[t := tset_state THREAD_READY x]> (threads s1)) s1)) c (cset_preempt 1 k))
      as (s' & E' & Hi' & F1 & F2 & F3 & F4 & F5 & F6); cbn; try done.
    + by rewrite Hk1, lookup_insert_eq.
    + rewrite Ht1, Hq1. apply (place_wake _ _ _ _ x); [done|by rewrite Hst|done|].
      rewrite Hk1. by apply (place_cpu _ _ _ _ k).
    + rewrite Ht1, Hpr1, Hps1, Hkp1. apply (tree_thread _ _ _ _ _ x); try done. cbn. by rewrite Hst.
    + rewrite Ht1, Hkk, Hkp1. apply (cpu_thread _ _ _ _ x); [done|by rewrite Hst|done].
    + intros u z. rewrite Ht1. destruct (decide (u = t)) as [->|].
      * rewrite lookup_insert_eq. intros [= <-]. pose proof (Hres t x Hx) as H.
        unfold resume_ok in *. cbn. by rewrite Hst in H.
      * rewrite lookup_insert_ne by done. apply Hres.
    + exists s'. cbn in *. rewrite E'. split; [done|]. split; [done|]. split; [by rewrite F5|].
      exists x. rewrite F1, F2, Ht1, Hq1. done.
  - unfold bind at 1, ret.
    destruct (unlock_inv s1 c (cset_preempt 1 k)) as (s' & E' & Hi' & F1 & F2 & F3 & F4 & F5 & F6);
      try done.
    + by rewrite Hk1, lookup_insert_eq.
    + rewrite Ht1, Hq1, Hk1. by apply (place_cpu _ _ _ _ k).
    + by rewrite Ht1, Hpr1, Hps1, Hkp1.
    + by rewrite Ht1, Hkk, Hkp1.
    + by rewrite Ht1.
    + exists s'. rewrite E'. split; [done|]. split; [done|]. split; [by rewrite F5|].
      by rewrite F1, F2.
Qed.

(** ** Inside a critical section *)

(** CPU [c], with record [k], holds the lock and the data is sound. *)
Record cs_inv (c : cptr) (k : scpu) (s : sched) : Prop := {
  cs_lock : lock_holder s = Some c;
  cs_k : scpus s !! c = Some k;
  cs_pre : c_preempt_disabled k = 1;
  cs_place : place_inv (threads s) (queue s) (scpus s);
  cs_tree : tree_inv (threads s) (procs s) (processes s) (kernel_process s);
  cs_cpu : cpu_inv (threads s) (<[c := cset_preempt 0 k]> (scpus s)) (kernel_process s);
  cs_resume : ∀ t x, threads s !! t = Some x → resume_ok x;
}.

Lemma lock_cs s c k :
  sched_inv s → scpus s !! c = Some k →
  ∃ s1, sched_lock c s = Done (tt, s1) ∧ cs_inv c (cset_preempt 1 k) s1 ∧
    threads s1 = threads s ∧ queue s1 = queue s ∧ procs s1 = procs s ∧
    processes s1 = processes s ∧ kernel_process s1 = kernel_process s ∧
    kernel_cr3 s1 = kernel_cr3 s ∧ current_ticks s1 = current_ticks s.
Proof.
  intros Hinv Hk. destruct (lock_inv s c k Hinv Hk)
    as (s1 & E & Hl1 & Hk1 & Ht1 & Hq1 & Hpr1 & Hps1 & Hkp1 & Hcr & Htk & _).
  exists s1. split; [done|]. split; [|done]. pose proof Hinv as [Hl Hp Ht Hc Hres].
  destruct (Hc c k Hk) as (H0 & H1 & H2).
  split; rewrite ?Ht1, ?Hq1, ?Hpr1, ?Hps1, ?Hkp1, ?Hk1; try done.
  - by rewrite lookup_insert_eq.
  - by apply (place_cpu _ _ _ _ k).
  - rewrite insert_insert_eq. by apply (cpu_update _ _ _ _ k).
Qed.

Lemma unlock_cs s c k :
  cs_inv c k s →
  ∃ s', sched_unlock c s = Done (tt, s') ∧ sched_inv s' ∧ threads s' = threads s ∧
        queue s' = queue s ∧ procs s' = procs s ∧ processes s' = processes s ∧
        scpus s' = <[c := cset_preempt 0 k]> (scpus s) ∧ current_ticks s' = current_ticks s.
Proof. intros []. by apply unlock_inv. Qed.

(** A process record changes without its thread list. *)
Lemma cs_proc c k s p y y' :
  cs_inv c k s → procs s !! p = Some y → p_threads y' = p_threads y →
  cs_inv c k (set_procs (<[p := y']> (procs s)) s).
Proof. intros [] Hy Ht. split; cbn; try done. by apply (tree_proc _ _ _ _ _ y). Qed.

(** A parked thread, new ones excepted, is made ready. *)
Lemma cs_wake c k s t x x' q' :
  cs_inv c k s → threads s !! t = Some x →
  t_state x = THREAD_WAITING ∨ t_state x = THREAD_BLOCKED →
  t_state x' = THREAD_READY → t_parent x' = t_parent x → t_resume x' = t_resume x →
  t_int_enabled x' = t_int_enabled x → t_cli_stack x' = t_cli_stack x → q' ≡ₚ t :: queue s →
  cs_inv c k (set_queue q' (set_threads (<[t := x']> (threads s)) s)).
Proof.
  intros [] Hx Hst Hs' Hp' Hr' Hi' Hc' Hq.
  assert (Hpk : parked (t_state x) = true) by (destruct Hst as [-> | ->]; done).
  split; cbn; try done.
  - eapply place_perm; [symmetry; exact Hq|]. apply (place_wake _ _ _ _ x); try done. by rewrite Hs'.
  - apply (tree_thread _ _ _ _ _ x); try done. rewrite Hs'. by destruct Hst as [-> | ->].
  - apply (cpu_thread _ _ _ _ x); try done. by destruct Hst as [-> | ->].
  - intros u z. destruct (decide (u = t)) as [->|].
    + rewrite lookup_insert_eq. intros [= <-]. pose proof (cs_resume0 t x Hx) as H.
      unfold resume_ok in *. rewrite Hs', Hr', Hi', Hc'. by destruct Hst as [E|E]; rewrite E in H.
    + rewrite lookup_insert_ne by done. apply cs_resume0.
Qed.

(** A new thread is inserted into a process of the list. *)
Lemma cs_insert c k s t x p y x' y' q' :
  cs_inv c k s → threads s !! t = Some x → t_state x = THREAD_NEW →
  p ∈ processes s → procs s !! p = Some y →
  t_state x' = THREAD_READY → t_parent x' = p → t_resume x' = t_resume x →
  t_int_enabled x' = t_int_enabled x → t_cli_stack x' = t_cli_stack x →
  p_threads y' = t :: p_threads y → q' ≡ₚ t :: queue s →
  cs_inv c k (set_queue q' (set_procs (<[p := y']> (procs s))
    (set_threads (<[t := x']> (threads s)) s))).
Proof.
  intros [] Hx Hst Hp Hy Hs' Hp' Hr' Hi' Hc' Hy' Hq.
  split; cbn; try done.
  - eapply place_perm; [symmetry; exact Hq|].
    apply (place_wake _ _ _ _ x); try done; [by rewrite Hst|by rewrite Hs'].
  - replace (<[p := y']> (procs s)) with
      (<[p := y']> (<[p := pset_threads (t :: p_threads y) y]> (procs s))) by apply insert_insert_eq.
    eapply tree_proc; [apply lookup_insert_eq|done|].
    eapply tree_insert; try done; [left; done|by rewrite Hs'].
  - apply (cpu_thread _ _ _ _ x); try done. by rewrite Hst.
  - intros u z. destruct (decide (u = t)) as [->|].
    + rewrite lookup_insert_eq. intros [= <-]. pose proof (cs_resume0 t x Hx) as H.
      unfold resume_ok in *. rewrite Hs', Hr', Hi', Hc'. by rewrite Hst in H.
    + rewrite lookup_insert_ne by done. apply cs_resume0.
Qed.

(** [insert_thread] on a prepared thread. *)
Lemma insert_thread_run c k s t x p y :
  cs_inv c k s → threads s !! t = Some x → t_state x = THREAD_NEW → t_parent x = p →
  p ∈ processes s → procs s !! p = Some y →
  ∃ s', insert_thread c p t s = Done (tt, s') ∧ cs_inv c k s' ∧ queue s' = queue s ++ [t] ∧
        threads s' = <[t := tset_state THREAD_READY x]> (threads s) ∧
        scpus s' = scpus s ∧ processes s' = processes s.
Proof.
  intros Hcs Hx Hst Hpar Hp Hy. unfold insert_thread.
  srun (sched_held_run _ _ (cs_lock _ _ _ Hcs)). unfold bind at 1, kassert, ret at 1.
  erewrite bind_run; [|apply wr_proc_run; exact Hy].
  erewrite bind_run; [|apply wr_thread_run; exact Hx].
  erewrite bind_run; [|apply wr_proc_run; cbn; by rewrite lookup_insert_eq].
  erewrite bind_run; [|apply wr_proc_run; cbn; by rewrite lookup_insert_eq].
  erewrite bind_run; [|apply rd_thread_run; cbn; by rewrite lookup_insert_eq].
  cbn [t_state tset_state]. rewrite bool_decide_eq_true_2 by done.
  cbn [procs set_procs threads set_threads]. rewrite !insert_insert_eq.
  eexists. split; [reflexivity|]. split; [|done].
  apply (cs_insert c k s t x p y _
    (pset_status (- ENOSTATUS) (pset_state PROC_READY (pset_threads (t :: p_threads y) y)))
    (queue s ++ [t])); try done.
  symmetry. apply Permutation_cons_append.
Qed.

(** What [wake_waiting] does to a thread of the list. *)
Definition woken (pid status : Z) (x : thread) : thread :=
  if bool_decide (t_state x = THREAD_WAITING)
  then tset_state THREAD_READY (tset_collected pid status x) else x.

Lemma wake_waiting_run c k pid status ts : ∀ s b,
  cs_inv c k s → (∀ t, t ∈ ts → is_Some (threads s !! t)) →
  ∃ s' b', wake_waiting pid status ts b s = Done (b', s') ∧ cs_inv c k s' ∧
    procs s' = procs s ∧ processes s' = processes s ∧ scpus s' = scpus s ∧
    kernel_process s' = kernel_process s ∧ (b = true → b' = true) ∧
    ∀ t x, threads s !! t = Some x →
      threads s' !! t = Some (if bool_decide (t ∈ ts) then woken pid status x else x) ∧
      (t ∈ ts → t_state x = THREAD_WAITING → b' = true).
Proof.
  induction ts as [|u ts IH]; intros s b Hcs Hd.
  { exists s, b. do 7 (split; [done|]). intros t x Hx.
    rewrite bool_decide_eq_false_2 by apply not_elem_of_nil. split; [done|].
    by intros ?%elem_of_nil. }
  destruct (Hd u ltac:(by left)) as [y Hy]. cbn [wake_waiting]. srun (rd_thread_run _ _ _ Hy).
  destruct (bool_decide (t_state y = THREAD_WAITING)) eqn:Ew; cbn [negb].
  - pose proof Ew as Ew'. apply bool_decide_eq_true in Ew'.
    erewrite bind_run; [|apply wr_thread_run; exact Hy].
    erewrite bind_run; [|apply wr_thread_run; cbn; by rewrite lookup_insert_eq].
    unfold bind at 1, enqueue_tail, modify. cbn [threads set_threads]. rewrite insert_insert_eq.
    set (s1 := set_queue _ _).
    assert (Hcs1 : cs_inv c k s1).
    { apply (cs_wake c k s u y (tset_state THREAD_READY (tset_collected pid status y))
               (queue s ++ [u])); try done; [by left|]. symmetry. apply Permutation_cons_append. }
    destruct (IH s1 true Hcs1) as (s' & b' & E & Hcs' & F1 & F2 & F3 & F4 & Fb & F5).
    { intros t Ht. cbn. destruct (decide (t = u)) as [->|]; [by rewrite lookup_insert_eq|].
      rewrite lookup_insert_ne by done. apply Hd. by right. }
    specialize (Fb eq_refl). exists s', b'. do 7 (split; [done|]). intros t x Hx. split; [|done].
    destruct (decide (t = u)) as [->|Hne].
    + rewrite (bool_decide_eq_true_2 (u ∈ u :: ts)) by (by left). assert (x = y) as -> by congruence.
      rewrite (proj1 (F5 u (tset_state THREAD_READY (tset_collected pid status y))
        ltac:(cbn; by rewrite lookup_insert_eq))).
      unfold woken. rewrite Ew. cbn. by destruct (bool_decide (u ∈ ts)).
    + rewrite (proj1 (F5 t x ltac:(cbn; by rewrite lookup_insert_ne))).
      by rewrite (bool_decide_ext (t ∈ u :: ts) (t ∈ ts)) by (rewrite elem_of_cons; tauto).
  - destruct (IH s b Hcs) as (s' & b' & E & Hcs' & F1 & F2 & F3 & F4 & Fb & F5).
    { intros t Ht. apply Hd. by right. }
    exists s', b'. do 7 (split; [done|]). intros t x Hx. destruct (F5 t x Hx) as [G1 G2]. rewrite G1.
    destruct (decide (t = u)) as [->|Hne].
    + rewrite (bool_decide_eq_true_2 (u ∈ u :: ts)) by (by left). assert (x = y) as -> by congruence.
      unfold woken. rewrite Ew. split; [by destruct (bool_decide (u ∈ ts))|].
      intros _ Hw. by apply bool_decide_eq_false in Ew.
    + rewrite (bool_decide_ext (t ∈ u :: ts) (t ∈ ts)) by (rewrite elem_of_cons; tauto).
      split; [done|]. intros [->|Hin]%elem_of_cons; [done|by apply G2].
Qed.

Lemma woken_idem pid status x : woken pid status (woken pid status x) = woken pid status x.
Proof. unfold woken. destruct (bool_decide (t_state x = THREAD_WAITING)) eqn:E; cbn; by rewrite ?E. Qed.

Lemma wake_parents_run c k parent pid status ps : ∀ s b,
  cs_inv c k s → (∀ p, p ∈ ps → p ∈ processes s) →
  ∃ s' b', wake_parents parent pid status ps b s = Done (b', s') ∧ cs_inv c k s' ∧
    procs s' = procs s ∧ processes s' = processes s ∧ scpus s' = scpus s ∧
    kernel_process s' = kernel_process s ∧ (b = true → b' = true) ∧
    (∀ t x, threads s !! t = Some x →
       threads s' !! t = Some x ∨ threads s' !! t = Some (woken pid status x)) ∧
    (∀ q y t x, q ∈ ps → procs s !! q = Some y → p_pid y = parent → t ∈ p_threads y →
       threads s !! t = Some x →
       threads s' !! t = Some (woken pid status x) ∧ (t_state x = THREAD_WAITING → b' = true)).
Proof.
  induction ps as [|q ps IH]; intros s b Hcs Hd.
  { exists s, b. do 7 (split; [done|]). split; [by left|]. by intros ???? ?%elem_of_nil. }
  destruct (tr_procs _ _ _ _ (cs_tree _ _ _ Hcs) q ltac:(apply Hd; by left)) as [y Hy].
  cbn [wake_parents]. srun (rd_proc_run _ _ _ Hy).
  destruct (p_pid y =? parent) eqn:Epid; cbn [negb].
  - destruct (wake_waiting_run c k pid status (p_threads y) s b Hcs)
      as (s1 & b1 & E1 & Hcs1 & F1 & F2 & F3 & F4 & Fb & F5).
    { intros t Ht. destruct (tr_threads _ _ _ _ (cs_tree _ _ _ Hcs) q y t
        ltac:(apply Hd; by left) Hy Ht) as (x & Hx & _). by exists x. }
    srun E1. destruct (IH s1 b1 Hcs1) as (s' & b' & E & Hcs' & G1 & G2 & G3 & G4 & Gb & G5 & G6).
    { intros p Hp. rewrite F2. apply Hd. by right. }
    exists s', b'. split; [done|]. split; [done|]. do 4 (split; [congruence|]). split; [tauto|].
    assert (Hstep : ∀ t x, threads s !! t = Some x → ∃ x1, threads s1 !! t = Some x1 ∧
      (x1 = x ∨ x1 = woken pid status x) ∧ (t ∈ p_threads y → x1 = woken pid status x)).
    { intros t x Hx. destruct (F5 t x Hx) as [H _]. eexists. split; [exact H|].
      destruct (bool_decide (t ∈ p_threads y)) eqn:Eb; [auto|].
      apply bool_decide_eq_false in Eb. split; [auto|done]. }
    split.
    + intros t x Hx. destruct (Hstep t x Hx) as (x1 & Hx1 & Hor & _).
      destruct (G5 t x1 Hx1) as [H|H]; rewrite H; destruct Hor as [->| ->]; rewrite ?woken_idem; auto.
    + intros p z t x Hp Hz Hzp Hin Hx. destruct (Hstep t x Hx) as (x1 & Hx1 & Hor & Hthis).
      destruct (F5 t x Hx) as [_ Hb]. apply elem_of_cons in Hp as [->|Hp].
      * assert (z = y) as -> by congruence. split; [|intros; apply Gb; by apply Hb].
        rewrite (Hthis Hin) in Hx1. destruct (G5 t _ Hx1) as [H|H]; rewrite H; by rewrite ?woken_idem.
      * destruct (G6 p z t x1 Hp ltac:(by rewrite F1) Hzp Hin Hx1) as [H Hb'].
        assert (Hbd : bool_decide (t ∈ p_threads y) = true ∨ x1 = x).
        { destruct (F5 t x Hx) as [H0 _]. destruct (bool_decide (t ∈ p_threads y)); [by left|right; congruence]. }
        split; [rewrite H; destruct Hor as [->| ->]; by rewrite ?woken_idem|]. intros Hw.
        destruct Hbd as [Hbd|Hxe].
        -- apply bool_decide_eq_true in Hbd. apply Gb. by apply Hb.
        -- apply Hb'. by rewrite Hxe.
  - destruct (IH s b Hcs) as (s' & b' & E & Hcs' & G1 & G2 & G3 & G4 & Gb & G5 & G6).
    { intros p Hp. apply Hd. by right. }
    exists s', b'. do 8 (split; [done|]). intros p z t x Hp Hz Hzp.
    apply elem_of_cons in Hp as [->|Hp]; [|by apply (G6 p z)].
    assert (z = y) as -> by congruence. lia.
Qed.

Lemma collect_process_run c k s p y :
  cs_inv c k s → procs s !! p = Some y →
  ∃ s', collect_process c p s = Done (tt, s') ∧ cs_inv c k s' ∧ threads s' = threads s ∧
        queue s' = queue s ∧ scpus s' = scpus s ∧ processes s' = processes s ∧
        procs s' = <[p := pset_state PROC_TRUNCATE y]> (procs s).
Proof.
  intros Hcs Hy. unfold collect_process. srun (sched_held_run _ _ (cs_lock _ _ _ Hcs)).
  unfold bind at 1, kassert, ret. rewrite (wr_proc_run _ _ _ _ Hy). eexists. split; [reflexivity|].
  split; [by apply (cs_proc c k s p y)|done].
Qed.

Lemma make_process_defunct_run c k s p y :
  cs_inv c k s → procs s !! p = Some y →
  ∃ s', make_process_defunct c p s = Done (tt, s') ∧ cs_inv c k s' ∧ scpus s' = scpus s ∧
    (p_parent y ≠ PID_KERNEL → ∀ q z w x, q ∈ processes s → q ≠ p → procs s !! q = Some z →
       p_pid z = p_parent y → w ∈ p_threads z → threads s !! w = Some x →
       t_state x = THREAD_WAITING →
       threads s' !! w = Some (tset_state THREAD_READY (tset_collected (p_pid y) (p_exit_status y) x)) ∧
       procs s' !! p = Some (pset_state PROC_TRUNCATE (pset_state PROC_DEFUNCT y))).
Proof.
  intros Hcs Hy. unfold make_process_defunct.
  srun (sched_held_run _ _ (cs_lock _ _ _ Hcs)). unfold bind at 1, kassert, ret at 1.
  erewrite bind_run; [|apply wr_proc_run; exact Hy].
  erewrite bind_run; [|apply rd_proc_run; cbn; by rewrite lookup_insert_eq].
  set (s1 := set_procs _ s). set (y1 := pset_state PROC_DEFUNCT y) in *.
  assert (Hcs1 : cs_inv c k s1) by (by apply (cs_proc c k s p y)).
  assert (Hy1 : procs s1 !! p = Some y1) by apply lookup_insert_eq.
  destruct (p_parent y1 =? PID_KERNEL) eqn:Ep.
  { destruct (collect_process_run c k s1 p _ Hcs1 Hy1) as (s' & E & Hcs' & _ & _ & F & _).
    exists s'. do 3 (split; [done|]). cbn in Ep. lia. }
  unfold bind at 1, gets.
  destruct (wake_parents_run c k (p_parent y1) (p_pid y1) (p_exit_status y1) (processes s1) s1 false
    Hcs1 ltac:(done)) as (s2 & b & E2 & Hcs2 & F1 & F2 & F3 & F4 & _ & _ & F6).
  assert (Hwk : ∀ q z w x, q ∈ processes s → q ≠ p → procs s !! q = Some z →
       p_pid z = p_parent y → w ∈ p_threads z → threads s !! w = Some x →
       t_state x = THREAD_WAITING → threads s2 !! w =
         Some (tset_state THREAD_READY (tset_collected (p_pid y) (p_exit_status y) x)) ∧ b = true).
  { intros q z w x Hq Hne Hz Hzp Hin Hx Hw.
    destruct (F6 q z w x Hq ltac:(cbn; by rewrite lookup_insert_ne) Hzp Hin Hx) as [G1 G2].
    split; [|by apply G2]. rewrite G1. unfold woken. by rewrite bool_decide_eq_true_2. }
  srun E2. destruct b; cbn [when].
  - destruct (collect_process_run c k s2 p y1 Hcs2) as (s' & E & Hcs' & Ft & _ & F & _ & Fp).
    { by rewrite F1. }
    exists s'. split; [done|]. split; [done|]. split; [by rewrite F, F3|].
    intros _ q z w x Hq Hne Hz Hzp Hin Hx Hw.
    destruct (Hwk q z w x Hq Hne Hz Hzp Hin Hx Hw) as [G _].
    split; [by rewrite Ft|]. rewrite Fp. apply lookup_insert_eq.
  - exists s2. do 3 (split; [done|]). intros _ q z w x Hq Hne Hz Hzp Hin Hx Hw.
    by destruct (Hwk q z w x Hq Hne Hz Hzp Hin Hx Hw).
Qed.

(** A thread has been taken off the queue by the scheduler of [c]. *)
Record popped (c : cptr) (k : scpu) (t : tptr) (s : sched) : Prop := {
  pp_lock : lock_holder s = Some c;
  pp_k : scpus s !! c = Some k;
  pp_pre : c_preempt_disabled k = 1;
  pp_place : place_inv (threads s) (t :: queue s) (scpus s);
  pp_tree : tree_inv (threads s) (procs s) (processes s) (kernel_process s);
  pp_cpu : cpu_inv (threads s) (<[c := cset_preempt 0 k]> (scpus s)) (kernel_process s);
  pp_resume : ∀ t x, threads s !! t = Some x → resume_ok x;
}.

(** The kernel process keeps the scheduler thread of [c]. *)
Lemma scheduler_listed c k s st :
  cpu_inv (threads s) (<[c := cset_preempt 0 k]> (scpus s)) (kernel_process s) →
  tree_inv (threads s) (procs s) (processes s) (kernel_process s) →
  c_scheduler k = Some st →
  ∃ x y, threads s !! st = Some x ∧ t_state x = THREAD_SCHEDULER ∧
    procs s !! kernel_process s = Some y ∧ st ∈ p_threads y.
Proof.
  intros Hc Ht Hs. destruct (Hc c (cset_preempt 0 k) ltac:(apply lookup_insert_eq)) as (_ & _ & H).
  destruct (H st Hs) as (x & Hx & Hxs & Hxp).
  destruct (tr_listed _ _ _ _ Ht st x Hx ltac:(congruence)) as (_ & y & Hy & Hin).
  exists x, y. by rewrite Hxp in Hy.
Qed.

Lemma destroy_thread_run c k s t x st :
  popped c k t s → c_scheduler k = Some st → threads s !! t = Some x → t_state x = THREAD_EXITED →
  ∃ s', destroy_thread c t s = Done (tt, s') ∧ cs_inv c k s' ∧ scpus s' = scpus s ∧
    (∀ y, procs s !! t_parent x = Some y → p_threads y = [t] → p_parent y ≠ PID_KERNEL →
       ∀ q z w xw, q ∈ processes s → q ≠ t_parent x → procs s !! q = Some z →
       p_pid z = p_parent y → w ∈ p_threads z → w ≠ t → threads s !! w = Some xw →
       t_state xw = THREAD_WAITING →
       threads s' !! w = Some (tset_state THREAD_READY (tset_collected (p_pid y) (p_exit_status y) xw)) ∧
       ∃ y', procs s' !! t_parent x = Some y' ∧ p_state y' = PROC_TRUNCATE).
Proof.
  intros [Hl Hk Hpre Hpl Htr Hcp Hres] Hst Hx Hex.
  destruct (tr_listed _ _ _ _ Htr t x Hx ltac:(congruence)) as (HL & y & Hy & Hin).
  destruct (scheduler_listed c k s st Hcp Htr Hst) as (xs & ys & Hxs & Hxss & Hys & Hins).
  assert (Hne : st ≠ t) by (intros ->; congruence).
  unfold destroy_thread. srun (sched_held_run _ _ Hl). unfold bind at 1, kassert, ret at 1.
  srun (rd_thread_run _ _ _ Hx). rewrite bool_decide_eq_true_2 by done.
  unfold bind at 1, kassert, ret at 1.
  erewrite bind_run; [|apply wr_proc_run; exact Hy].
  erewrite bind_run.
  2:{ unfold thread_free. erewrite bind_run; [|apply rd_thread_run; exact Hx]. reflexivity. }
  set (y1 := pset_threads _ y). set (s1 := set_threads _ _).
  erewrite bind_run; [|apply rd_proc_run; cbn; by rewrite lookup_insert_eq].
  assert (Hcs1 : cs_inv c k s1).
  { split; cbn; try done.
    - by apply (place_destroy _ _ _ _ x).
    - by apply tree_remove.
    - apply (cpu_delete _ _ _ _ x); [done|congruence|done].
    - intros u z Hz. apply lookup_delete_Some in Hz as [_ Hz]. by eapply Hres. }
  destruct (bool_decide (p_threads y1 = [])) eqn:Eempty; cbn [when].
  2:{ exists s1. do 3 (split; [done|]). intros y' Hy' Hyt. assert (y' = y) as -> by congruence.
      apply bool_decide_eq_false in Eempty. destruct Eempty. unfold y1. cbn. rewrite Hyt.
      by rewrite filter_cons_False by tauto. }
  apply bool_decide_eq_true in Eempty. unfold bind at 1, gets.
  rewrite bool_decide_eq_true_2.
  2:{ cbn. intros E. rewrite E in Hy. assert (y = ys) as -> by congruence.
      assert (Hin' : st ∈ p_threads y1) by (apply list_elem_of_filter; done).
      rewrite Eempty in Hin'. by apply elem_of_nil in Hin'. }
  unfold bind at 1, kassert, ret.
  destruct (make_process_defunct_run c k s1 (t_parent x) y1 Hcs1 ltac:(apply lookup_insert_eq))
    as (s' & E & Hcs' & F & Hwk). exists s'. do 3 (split; [done|]).
  intros y' Hy' _ Hpk q z w xw Hq Hqne Hz Hzp Hw Hwne Hxw Hww. assert (y' = y) as -> by congruence.
  destruct (Hwk Hpk q z w xw) as [G1 G2]; try done.
  { cbn. by rewrite lookup_insert_ne. }
  { cbn. by rewrite lookup_delete_ne. }
  split; [exact G1|]. eexists. split; [exact G2|done].
Qed.

(** The state when the chosen thread [t] starts to run on [c], lock still held. *)
Record switched_in (c : cptr) (k : scpu) (t st : tptr) (x : thread) (s s1 : sched) : Prop := {
  sw_lock : lock_holder s1 = Some c;
  sw_threads : ∃ x' y y', threads s !! st = Some y ∧
      threads s1 = <[t := x']> (<[st := y']> (threads s)) ∧
      t_state y' = t_state y ∧ t_parent y' = t_parent y ∧
      t_state x' = THREAD_RUNNING ∧ t_parent x' = t_parent x ∧ t_resume x' = t_resume x ∧
      t_sched_count x' = u32 (t_sched_count x + 1) ∧ t_collected_pid x' = t_collected_pid x ∧
      t_collected_status x' = t_collected_status x;
  sw_scpus : ∃ k', scpus s1 = <[c := k']> (scpus s) ∧ c_thread k' = Some t ∧
      c_scheduler k' = Some st ∧ c_preempt_disabled k' = c_preempt_disabled k ∧
      c_int_enabled k' = t_int_enabled x ∧ c_cli_stack k' = t_cli_stack x ∧
      c_if k' = t_int_enabled x && (t_cli_stack x =? 0) ∧ c_cr3 k' = t_cr3 x;
  sw_queue : queue s1 = queue s;
  sw_procs : procs s1 = procs s;
  sw_processes : processes s1 = processes s;
  sw_kernel : kernel_process s1 = kernel_process s;
  sw_waiting : num_waiting s1 = num_waiting s;
}.

Lemma dispatch_switch c k s t x st y :
  lock_holder s = Some c → scpus s !! c = Some k → c_scheduler k = Some st →
  threads s !! t = Some x → threads s !! st = Some y → t ≠ st →
  ∃ s1, dispatch c t s = resume c t s1 ∧ switched_in c k t st x s s1.
Proof.
  intros Hl Hk Hst Hx Hy Hne. unfold dispatch.
  erewrite bind_run; [|apply wr_thread_run; exact Hx].
  erewrite bind_run; [|apply rd_scpu_run; exact Hk]. rewrite Hst.
  erewrite bind_run.
  2:{ unfold store_interrupts. erewrite bind_run; [|apply rd_scpu_run; exact Hk].
      apply wr_thread_run. cbn. rewrite lookup_insert_ne by done. exact Hy. }
  erewrite bind_run; [|apply wr_scpu_run; exact Hk].
  erewrite bind_run.
  2:{ unfold restore_interrupts.
      erewrite bind_run;
        [|apply rd_thread_run; cbn; rewrite lookup_insert_ne by done; by rewrite lookup_insert_eq].
      apply wr_scpu_run. cbn. by rewrite lookup_insert_eq. }
  erewrite bind_run; [|apply rd_thread_run; cbn; rewrite lookup_insert_ne by done; by rewrite lookup_insert_eq].
  erewrite bind_run; [|apply wr_scpu_run; cbn; by rewrite lookup_insert_eq].
  erewrite bind_run; [|apply wr_thread_run; cbn; rewrite lookup_insert_ne by done; by rewrite lookup_insert_eq].
  eexists. split; [reflexivity|]. split; cbn; try done.
  - eexists _, y, _. split; [exact Hy|]. split.
    + rewrite (insert_insert_ne (threads s) st t) by done. rewrite insert_insert_eq. reflexivity.
    + done.
  - rewrite !insert_insert_eq. eexists. split; [reflexivity|]. done.
Qed.

Lemma dispatch_run c k s t x st :
  popped c k t s → c_scheduler k = Some st → c_thread k = None →
  threads s !! t = Some x → t_state x = THREAD_READY →
  ∃ s', dispatch c t s = Done (tt, s') ∧ sched_inv s' ∧ queue s' = queue s ∧
    ∃ k' x', runs_on s' c k' t x' ∧ t_state x' = THREAD_RUNNING ∧
      c_int_enabled k' = t_int_enabled x ∧ c_cli_stack k' = t_cli_stack x ∧ c_cr3 k' = t_cr3 x ∧
      c_if k' = t_int_enabled x && (t_cli_stack x =? 0).
Proof.
  intros [Hl Hk Hpre Hpl Htr Hcp Hres] Hst Hkt Hx Hrdy.
  destruct (scheduler_listed c k s st Hcp Htr Hst) as (y & ys & Hy & Hys & _).
  assert (Hne : t ≠ st) by (intros ->; congruence).
  destruct (dispatch_switch c k s t x st y Hl Hk Hst Hx Hy Hne)
    as (s1 & E & [Hl1 (x' & y0 & y' & Hy0 & Ht1 & Hys' & Hyp' & Hxs & Hxp & Hxr & _)
                  (k' & Hk1 & Hkt' & Hks' & Hkp' & Hki & Hkc & Hkif & Hkcr) Hq1 Hp1 Hps1 Hkn1 Hw1]).
  assert (y0 = y) as -> by congruence. rewrite E. clear E.
  pose proof (Hres t x Hx) as Hrx. unfold resume_ok in Hrx. rewrite Hrdy in Hrx.
  assert (Hx1 : threads s1 !! t = Some x') by (by rewrite Ht1, lookup_insert_eq).
  (* The thread table the resumed thread leaves behind: only [t_cond] may differ. *)
  assert (Hfin : ∀ s2 x2, lock_holder s2 = Some c → scpus s2 = scpus s1 → queue s2 = queue s1 →
    procs s2 = procs s1 → processes s2 = processes s1 → kernel_process s2 = kernel_process s1 →
    threads s2 = <[t := x2]> (<[st := y']> (threads s)) → t_state x2 = THREAD_RUNNING →
    t_parent x2 = t_parent x →
    ∃ s', sched_unlock c s2 = Done (tt, s') ∧ sched_inv s' ∧ queue s' = queue s ∧
      scpus s' = <[c := cset_preempt 0 k']> (scpus s) ∧ threads s' = threads s2).
  { intros s2 x2 L2 S2 Q2 P2 PS2 KP2 T2 St2 Pa2.
    destruct (unlock_inv s2 c k') as (s' & E & Hi & F1 & F2 & F3 & F4 & F5 & F6); try done.
    - by rewrite S2, Hk1, lookup_insert_eq.
    - lia.
    - rewrite T2, Q2, S2, Hq1, Hk1. rewrite (insert_insert_ne _ t st) by done.
      apply (place_thread _ _ _ st y); [by rewrite lookup_insert_ne|congruence|].
      by apply (place_on _ _ _ _ k _ _ x).
    - rewrite T2, P2, PS2, KP2, Hp1, Hps1, Hkn1.
      apply (tree_thread _ _ _ _ _ x); [by rewrite lookup_insert_ne|done|rewrite St2, Hrdy; done|].
      apply (tree_thread _ _ _ _ _ y); try done. by rewrite Hys'.
    - rewrite T2, S2, KP2, Hk1, Hkn1, insert_insert_eq.
      apply (cpu_thread _ _ _ _ x); [by rewrite lookup_insert_ne|congruence|].
      apply (cpu_thread _ _ _ _ y); [done|intros _; split; congruence|].
      rewrite <- (insert_insert_eq (scpus s) c (cset_preempt 0 k') (cset_preempt 0 k)).
      apply (cpu_update _ _ _ _ (cset_preempt 0 k)); [apply lookup_insert_eq|done| |cbn; congruence|done].
      intros _. cbn. rewrite Hks'. eauto.
    - intros u z. rewrite T2. destruct (decide (u = t)) as [->|].
      + rewrite lookup_insert_eq. intros [= <-]. unfold resume_ok. by rewrite St2.
      + rewrite lookup_insert_ne by done. destruct (decide (u = st)) as [->|].
        * rewrite lookup_insert_eq. intros [= <-]. unfold resume_ok. by rewrite Hys', Hys.
        * rewrite lookup_insert_ne by done. apply Hres.
    - exists s'. split; [done|]. split; [done|]. rewrite F2, Q2, Hq1, F5, S2, Hk1.
      rewrite insert_insert_eq. done. }
  unfold resume. srun (rd_thread_run _ _ _ Hx1). rewrite Hxr.
  assert (Hdone : ∀ s2 x2 s', scpus s' = <[c := cset_preempt 0 k']> (scpus s) → threads s' = threads s2 →
    threads s2 !! t = Some x2 → t_state x2 = THREAD_RUNNING →
    ∃ k'' x'', runs_on s' c k'' t x'' ∧ t_state x'' = THREAD_RUNNING ∧
      c_int_enabled k'' = t_int_enabled x ∧ c_cli_stack k'' = t_cli_stack x ∧ c_cr3 k'' = t_cr3 x ∧
      c_if k'' = t_int_enabled x && (t_cli_stack x =? 0)).
  { intros s2 x2 s' S' T' X2 St2. exists (cset_preempt 0 k'), x2.
    split; [|done]. unfold runs_on. rewrite S', T', lookup_insert_eq. done. }
  destruct (t_resume x) eqn:Er.
  - destruct (Hfin s1 x') as (s' & E & Hi & Hq & Hs & Ht'); try done.
    unfold thread_entry. srun E.
    erewrite bind_run; [|apply rd_scpu_run; rewrite Hs; apply lookup_insert_eq].
    destruct Hrx as [_ Hrx]. destruct (Hrx eq_refl) as [Hint Hcli].
    assert (Eif : c_if k' = true) by (by rewrite Hkif, Hint, Hcli).
    cbn [c_if cset_preempt]. rewrite Eif. cbn [negb].
    exists s'. split; [done|]. split; [done|]. split; [done|]. by apply (Hdone s1 x').
  - destruct (Hfin s1 x') as (s' & E & Hi & Hq & Hs & Ht'); try done.
    exists s'. split; [done|]. split; [done|]. split; [done|]. by apply (Hdone s1 x').
  - unfold bind at 1, modify.
    erewrite bind_run; [|apply wr_thread_run; exact Hx1].
    set (s2 := set_threads _ _).
    destruct (Hfin s2 (tset_cond None x')) as (s' & E & Hi & Hq & Hs & Ht'); try done.
    { unfold s2. cbn. by rewrite Ht1, insert_insert_eq. }
    exists s'. split; [done|]. split; [done|]. split; [done|].
    apply (Hdone s2 (tset_cond None x')); try done. unfold s2. cbn. by rewrite lookup_insert_eq.
  - destruct (Hfin s1 x') as (s' & E & Hi & Hq & Hs & Ht'); try done.
    exists s'. split; [done|]. split; [done|]. split; [done|]. by apply (Hdone s1 x').
  - by destruct Hrx.
Qed.
