(* ===== verification/SchedulerLoop.v ===== *)
(** * arch/i386/scheduler.c: the scheduler loop and runs of the whole scheduler

    The scheduler loop's iteration and the operations that add threads and
    processes keep the invariant of [Scheduler]; with the operations of running
    threads they are the steps of a transition system over all CPUs, in which
    every enabled step completes and every reachable state is sound. *)

From stdpp Require Import base list strings gmap.
From Stdlib Require Import ZArith Lia.
From S2P Require Import Prelude Scheduler.

(** ** The scheduler loop *)

(** Taking the head off the queue. *)
Lemma popped_head c k s t q :
  cs_inv c k s → queue s = t :: q → popped c k t (set_queue q s).
Proof. intros [H1 H2 H3 H4 H5 H6 H7] Hq. split; cbn; try done. by rewrite <- Hq. Qed.

(** The thread taken off the queue changes without leaving the queued states. *)
Lemma popped_thread c k s t x x' :
  popped c k t s → threads s !! t = Some x → t_state x = THREAD_SLEEPING →
  t_state x' = THREAD_READY → t_parent x' = t_parent x → t_resume x' = t_resume x →
  t_int_enabled x' = t_int_enabled x → t_cli_stack x' = t_cli_stack x →
  popped c k t (set_threads (<[t := x']> (threads s)) s).
Proof.
  intros [H1 H2 H3 H4 H5 H6 H7] Hx Hs Hs' Hp Hr Hi Hc. split; cbn; try done.
  - destruct H4 as [P1 P2 P3 P4 P5]. split; try done.
    + intros u Hu. destruct (decide (u = t)) as [->|]; [by rewrite lookup_insert_eq|].
      rewrite lookup_insert_ne by done. by apply P2.
    + intros u Hu. destruct (decide (u = t)) as [->|]; [by rewrite lookup_insert_eq|].
      rewrite lookup_insert_ne by done. by apply P3.
    + intros u y. destruct (decide (u = t)) as [->|].
      * rewrite lookup_insert_eq. intros [= <-]. rewrite Hs'. specialize (P5 t x Hx).
        by rewrite Hs in P5.
      * rewrite lookup_insert_ne by done. apply P5.
  - apply (tree_thread _ _ _ _ _ x); try done. by rewrite Hs, Hs'.
  - apply (cpu_thread _ _ _ _ x); [done|congruence|done].
  - intros u y. destruct (decide (u = t)) as [->|].
    + rewrite lookup_insert_eq. intros [= <-]. specialize (H7 t x Hx). unfold resume_ok in *.
      rewrite Hs in H7. by rewrite Hs', Hr, Hi, Hc.
    + rewrite lookup_insert_ne by done. apply H7.
Qed.

(** The thread goes back to the end of the queue. *)
Lemma popped_requeue c k s t :
  popped c k t s → cs_inv c k (set_queue (queue s ++ [t]) s).
Proof.
  intros []. split; cbn; try done. eapply place_perm; [|exact pp_place].
  apply Permutation_cons_append.
Qed.

(** A scheduler thread is only dropped from the queue. *)
Lemma popped_drop c k s t x :
  popped c k t s → threads s !! t = Some x → t_state x = THREAD_SCHEDULER → cs_inv c k s.
Proof. intros [] Hx Hs. split; try done. by apply (place_drop _ _ _ t x). Qed.

(** A queued thread is in a queued state or is a scheduler thread. *)
Lemma popped_state c k s t x :
  popped c k t s → threads s !! t = Some x →
  t_state x = THREAD_READY ∨ t_state x = THREAD_SLEEPING ∨ t_state x = THREAD_EXITED ∨
  t_state x = THREAD_SCHEDULER.
Proof.
  intros [] Hx. pose proof (pl_placed _ _ _ pp_place t x Hx) as H.
  destruct (t_state x); cbn in H; auto; destruct H as [H _]; exfalso; apply H; by left.
Qed.

(** CPU [c] is in its scheduler loop. *)
Definition idles (s : sched) (c : cptr) (k : scpu) (st : tptr) : Prop :=
  scpus s !! c = Some k ∧ c_thread k = None ∧ c_scheduler k = Some st.

(** Interrupts are enabled again before the lock is taken. *)
Lemma enable_interrupts_run s c k st :
  sched_inv s → idles s c k st →
  ∃ s1 k1, (k0 <- rd_scpu c ;; when (negb (c_if k0)) (wr_scpu c (cset_ints true 0 true))) s
             = Done (tt, s1) ∧
    sched_inv s1 ∧ idles s1 c k1 st ∧ threads s1 = threads s ∧ queue s1 = queue s ∧
    procs s1 = procs s ∧ processes s1 = processes s ∧ current_ticks s1 = current_ticks s.
Proof.
  intros Hinv (Hk & Hkt & Hks). srun (rd_scpu_run c k s Hk).
  destruct (c_if k) eqn:Eif; cbn [negb when].
  { exists s, k. split; [done|]. done. }
  rewrite (wr_scpu_run c _ k s Hk). eexists _, (cset_ints true 0 true k). split; [reflexivity|].
  split; [|split; [|done]].
  - pose proof Hinv as [H1 H2 H3 H4 H5]. destruct (H4 c k Hk) as (G1 & G2 & G3).
    split; cbn; try done; [by apply (place_cpu _ _ _ _ k)|by apply (cpu_update _ _ _ _ k)].
  - split; [apply lookup_insert_eq|done].
Qed.

(** The exited thread [t], with record [x], was the last one of its process: a
    thread waiting in the parent process gets the pid and the exit status. *)
Definition delivered (s s' : sched) (t : tptr) (x : thread) : Prop :=
  ∀ y, procs s !! t_parent x = Some y → p_threads y = [t] → p_parent y ≠ PID_KERNEL →
  ∀ q z w xw, q ∈ processes s → q ≠ t_parent x → procs s !! q = Some z →
    p_pid z = p_parent y → w ∈ p_threads z → w ≠ t → threads s !! w = Some xw →
    t_state xw = THREAD_WAITING →
    threads s' !! w = Some (tset_state THREAD_READY (tset_collected (p_pid y) (p_exit_status y) xw)) ∧
    w ∈ queue s' ∧ ∃ y', procs s' !! t_parent x = Some y' ∧ p_state y' = PROC_TRUNCATE.

(** What one iteration does with the head of the queue. *)
Definition chosen (s s' : sched) (c : cptr) (t : tptr) (q : list tptr) (x : thread) : Prop :=
  match t_state x with
  | THREAD_SLEEPING =>
      if t_sleep_until x <? current_ticks s
      then queue s' = q ∧ ∃ k' x', runs_on s' c k' t x' ∧ t_state x' = THREAD_RUNNING
      else queue s' = q ++ [t] ∧ threads s' = threads s
  | THREAD_READY =>
      queue s' = q ∧ ∃ k' x', runs_on s' c k' t x' ∧ t_state x' = THREAD_RUNNING ∧
        c_int_enabled k' = t_int_enabled x ∧ c_cli_stack k' = t_cli_stack x ∧ c_cr3 k' = t_cr3 x ∧
        c_if k' = t_int_enabled x && (t_cli_stack x =? 0)
  | THREAD_EXITED => delivered s s' t x
  | _ => queue s' = q ∧ threads s' = threads s
  end.

(** The rest of an iteration, once the head of the queue is taken off. *)
Lemma run_popped c k s t x st :
  popped c k t s → c_scheduler k = Some st → c_thread k = None → threads s !! t = Some x →
  ∃ s', (if bool_decide (t_state x = THREAD_EXITED) then
           destroy_thread c t ;;; sched_unlock c
         else if bool_decide (t_state x = THREAD_SLEEPING) && negb (t_sleep_until x <? current_ticks s)
         then enqueue_tail t ;;; sched_unlock c
         else
           when (bool_decide (t_state x = THREAD_SLEEPING))
             (wr_thread t (tset_state THREAD_READY) ;;; wr_thread t (tset_sleep 0 0)) ;;;
           x <- rd_thread t ;;
           if bool_decide (t_state x = THREAD_READY) then dispatch c t else sched_unlock c) s
        = Done (tt, s') ∧ sched_inv s' ∧ chosen s s' c t (queue s) x.
Proof.
  intros Hpop Hks Hkt Hx. unfold chosen.
  destruct (popped_state c k s t x Hpop Hx) as [E|[E|[E|E]]]; rewrite E.
  - rewrite bool_decide_eq_false_2 by done. rewrite bool_decide_eq_false_2 by done.
    cbn [andb when]. unfold bind at 1, ret at 1. srun (rd_thread_run t x s Hx).
    rewrite bool_decide_eq_true_2 by done.
    destruct (dispatch_run c k s t x st Hpop Hks Hkt Hx E) as (s' & E' & Hi & Hq & k' & x' & H).
    exists s'. split; [done|]. split; [done|]. split; [done|]. exists k', x'. done.
  - rewrite bool_decide_eq_false_2 by done. rewrite bool_decide_eq_true_2 by done. cbn [andb].
    destruct (t_sleep_until x <? current_ticks s) eqn:Et; cbn [negb].
    + cbn [when]. erewrite bind_run.
      2:{ srun (wr_thread_run t (tset_state THREAD_READY) x s Hx). apply wr_thread_run.
          cbn. by rewrite lookup_insert_eq. }
      cbn [threads set_threads]. rewrite insert_insert_eq.
      set (x1 := tset_sleep 0 0 (tset_state THREAD_READY x)). set (s1 := set_threads _ _).
      assert (Hpop1 : popped c k t s1) by (by apply (popped_thread c k s t x x1)).
      assert (Hx1 : threads s1 !! t = Some x1) by apply lookup_insert_eq.
      srun (rd_thread_run t x1 s1 Hx1). rewrite bool_decide_eq_true_2 by done.
      destruct (dispatch_run c k s1 t x1 st Hpop1 Hks Hkt Hx1 eq_refl)
        as (s' & E' & Hi & Hq & k' & x' & Hr & Hs & _).
      exists s'. split; [done|]. split; [done|]. split; [done|]. by exists k', x'.
    + unfold bind, enqueue_tail, modify.
      destruct (unlock_cs _ c k (popped_requeue c k s t Hpop)) as (s' & E' & Hi & F1 & F2 & _).
      exists s'. split; [exact E'|]. by split.
  - rewrite bool_decide_eq_true_2 by done.
    destruct (destroy_thread_run c k s t x st Hpop Hks Hx E) as (s1 & E1 & Hcs & _ & Hd).
    srun E1. destruct (unlock_cs _ c k Hcs) as (s' & E' & Hi & F1 & F2 & F3 & _).
    exists s'. split; [done|]. split; [done|].
    intros y Hy Hyt Hyp q z w xw Hq Hne Hz Hzp Hw Hwt Hxw Hww.
    destruct (Hd y Hy Hyt Hyp q z w xw Hq Hne Hz Hzp Hw Hwt Hxw Hww) as [G1 G2].
    rewrite <- F1 in G1. rewrite F3. split; [exact G1|]. split; [|exact G2].
    apply (pl_placed _ _ _ (si_place _ Hi) w _ G1).
  - rewrite bool_decide_eq_false_2 by done. rewrite bool_decide_eq_false_2 by done.
    cbn [andb when]. unfold bind at 1, ret at 1. srun (rd_thread_run t x s Hx).
    rewrite bool_decide_eq_false_2 by congruence.
    destruct (unlock_cs _ c k (popped_drop c k s t x Hpop Hx E)) as (s' & E' & Hi & F1 & F2 & _).
    exists s'. by rewrite E'.
Qed.

Lemma scheduler_iteration_run s c k st :
  sched_inv s → idles s c k st →
  ∃ s', scheduler_iteration c s = Done (tt, s') ∧ sched_inv s' ∧
    match queue s with
    | [] => queue s' = [] ∧ threads s' = threads s
    | t :: q => ∃ x, threads s !! t = Some x ∧ chosen s s' c t q x
    end.
Proof.
  intros Hinv Hid. unfold scheduler_iteration.
  destruct (enable_interrupts_run s c k st Hinv Hid)
    as (s1 & k1 & E1 & Hinv1 & (Hk1 & Hkt1 & Hks1) & Ft & Fq & Fp & Fl & Fc).
  rewrite bind_assoc_run. srun E1.
  destruct (lock_cs s1 c k1 Hinv1 Hk1) as (s2 & E2 & Hcs2 & Gt & Gq & Gp & Gl & _ & _ & Gc).
  srun E2. unfold bind at 1, get. rewrite Gq, Fq.
  destruct (queue s) as [|t q] eqn:Eq.
  - destruct (unlock_cs s2 c _ Hcs2) as (s' & E' & Hi & F1 & F2 & _).
    exists s'. split; [done|]. split; [done|]. rewrite F1, F2, Gq, Gt, Fq, Ft. done.
  - unfold bind at 1, modify.
    assert (Hq2 : queue s2 = t :: q) by congruence.
    pose proof (popped_head c _ s2 t q Hcs2 Hq2) as Hpop.
    destruct (pl_dom _ _ _ (cs_place _ _ _ Hcs2) t ltac:(rewrite Hq2; by left)) as [x Hx].
    srun (rd_thread_run t x (set_queue q s2) Hx). rewrite Gc.
    destruct (run_popped c _ (set_queue q s2) t x st Hpop Hks1 Hkt1 Hx) as (s' & E' & Hi & Hch).
    cbn [current_ticks set_queue] in E'. rewrite Gc in E'.
    exists s'. split; [exact E'|]. split; [done|]. exists x. split; [congruence|].
    unfold chosen, delivered in *. cbn [current_ticks set_queue queue threads procs processes] in Hch.
    rewrite Gc, Fc, Gt, Ft, Gp, Fp, Gl, Fl in Hch. exact Hch.
Qed.

(** ** Adding threads and processes *)

(** A thread structure that is not scheduled yet changes or appears. *)
Lemma tree_unlisted T P L kp t x' :
  T !! t = None ∨ (∃ x, T !! t = Some x ∧ t_state x = THREAD_NEW) → t_state x' = THREAD_NEW →
  tree_inv T P L kp → tree_inv (<[t := x']> T) P L kp.
Proof.
  intros Ht Hs' [H1 H2 H3 H4 H5 H6]. split; try done.
  - intros u y. destruct (decide (u = t)) as [->|].
    + rewrite lookup_insert_eq. intros [= <-]. done.
    + rewrite lookup_insert_ne by done. apply H4.
  - intros p y u HL Hy Hu. destruct (H5 p y u HL Hy Hu) as (z & Hz & Hzp & Hzn).
    exists z. rewrite lookup_insert_ne; [done|]. intros ->.
    destruct Ht as [Ht|(x & Hx & Hn)]; congruence.
Qed.

(** The ids of a new thread are filled in. *)
Lemma inv_new_thread s t x x' :
  sched_inv s → threads s !! t = Some x → t_state x = THREAD_NEW → t_state x' = THREAD_NEW →
  resume_ok x' → sched_inv (set_threads (<[t := x']> (threads s)) s).
Proof.
  intros [H1 H2 H3 H4 H5] Hx Hs Hs' Hr. split; cbn; try done.
  - apply (place_thread _ _ _ _ x); congruence.
  - apply tree_unlisted; eauto.
  - apply (cpu_thread _ _ _ _ x); [done|congruence|done].
  - intros u y. destruct (decide (u = t)) as [->|].
    + rewrite lookup_insert_eq. by intros [= <-].
    + rewrite lookup_insert_ne by done. apply H5.
Qed.

(** A new thread structure is built (kthread_create, uthread_create). *)
Lemma inv_fresh_thread s t x :
  sched_inv s → threads s !! t = None → t_state x = THREAD_NEW → resume_ok x →
  sched_inv (set_threads (<[t := x]> (threads s)) s).
Proof.
  intros [H1 H2 H3 H4 H5] Hx Hs Hr. split; cbn; try done.
  - eapply place_fresh; try done. by right.
  - apply tree_unlisted; eauto.
  - intros c k Hk. destruct (H4 c k Hk) as (G1 & G2 & G3). split; [done|]. split; [done|].
    intros st Hst. destruct (G3 st Hst) as (y & Hy & G). exists y.
    rewrite lookup_insert_ne; [done|]. intros ->. congruence.
  - intros u y. destruct (decide (u = t)) as [->|].
    + rewrite lookup_insert_eq. by intros [= <-].
    + rewrite lookup_insert_ne by done. apply H5.
Qed.

(** A process record changes outside the lists. *)
Lemma inv_proc s p y y' :
  sched_inv s → procs s !! p = Some y → p_threads y' = p_threads y →
  sched_inv (set_procs (<[p := y']> (procs s)) s).
Proof. intros [] Hy Ht. split; cbn; try done. by apply (tree_proc _ _ _ _ _ y). Qed.

(** A new process structure is built (proc_alloc). *)
Lemma inv_fresh_proc s p y :
  sched_inv s → procs s !! p = None → sched_inv (set_procs (<[p := y]> (procs s)) s).
Proof.
  intros [H1 H2 [T1 T2 T3 T4 T5 T6] H4 H5] Hp. split; cbn; try done.
  assert (Hne : ∀ q, q ∈ processes s → q ≠ p).
  { intros q Hq ->. destruct (T2 p Hq). congruence. }
  split; try done.
  - intros q Hq. rewrite lookup_insert_ne by (symmetry; by apply Hne). by apply T2.
  - intros t x Hx Hn. destruct (T4 t x Hx Hn) as (HL & z & Hz & Hin). split; [done|].
    exists z. by rewrite lookup_insert_ne by (symmetry; by apply Hne).
  - intros q z t Hq. rewrite lookup_insert_ne by (symmetry; by apply Hne). by apply T5.
  - intros q z Hq. rewrite lookup_insert_ne by (symmetry; by apply Hne). by apply T6.
Qed.

Lemma inv_ids s pid tid : sched_inv s → sched_inv (set_ids pid tid s).
Proof. intros []. by split. Qed.

Lemma find_pid_Some m pid ps p :
  find_pid m pid ps = Some p → p ∈ ps ∧ ∃ y, m !! p = Some y ∧ p_pid y = pid.
Proof.
  induction ps as [|q ps IH]; cbn; [done|]. destruct (m !! q) as [y|] eqn:Ey.
  - destruct (p_pid y =? pid) eqn:E.
    + intros [= <-]. split; [by left|]. exists y. split; [done|lia].
    + intros H. destruct (IH H) as [Hin H']. split; [by right|done].
  - intros H. destruct (IH H) as [Hin H']. split; [by right|done].
Qed.

Lemma find_pid_None m pid ps p y :
  find_pid m pid ps = None → p ∈ ps → m !! p = Some y → p_pid y ≠ pid.
Proof.
  induction ps as [|q ps IH]; cbn; intros H Hin Hy; [by apply elem_of_nil in Hin|].
  apply elem_of_cons in Hin as [->|Hin].
  - rewrite Hy in H. destruct (p_pid y =? pid) eqn:E; [done|lia].
  - destruct (m !! q) as [z|]; [destruct (p_pid z =? pid); [done|]|]; by apply IH.
Qed.

Lemma resume_ok_ids x x' :
  resume_ok x → t_state x' = t_state x → t_resume x' = t_resume x →
  t_int_enabled x' = t_int_enabled x → t_cli_stack x' = t_cli_stack x → resume_ok x'.
Proof. unfold resume_ok. intros H -> -> -> ->. exact H. Qed.

(** [sheduler_get_proc] and the critical section it leaves open. *)
Lemma get_proc_run s c k pid :
  sched_inv s → scpus s !! c = Some k →
  match find_pid (procs s) pid (processes s) with
  | Some p => ∃ s1, sheduler_get_proc c pid s = Done (Some p, s1) ∧ cs_inv c (cset_preempt 1 k) s1 ∧
      threads s1 = threads s ∧ queue s1 = queue s ∧ procs s1 = procs s ∧ processes s1 = processes s
  | None => ∃ s1, sheduler_get_proc c pid s = Done (None, s1) ∧ sched_inv s1
  end.
Proof.
  intros Hinv Hk. destruct (lock_cs s c k Hinv Hk) as (s1 & E1 & Hcs & Ht & Hq & Hp & Hl & _).
  unfold sheduler_get_proc. destruct (find_pid (procs s) pid (processes s)) as [p|] eqn:E.
  - exists s1. srun E1. unfold bind at 1, get. rewrite Hp, Hl, E. done.
  - srun E1. unfold bind at 1, get. rewrite Hp, Hl, E.
    destruct (unlock_cs s1 c _ Hcs) as (s2 & E2 & Hi & _). exists s2. srun E2. done.
Qed.

(** The tid is written before the process is looked up. *)
Lemma schedule_thread_prefix s t x tid :
  sched_inv s → threads s !! t = Some x → t_state x = THREAD_NEW →
  ∃ s0, (modify (set_ids (next_pid s) (u32 (next_tid s + 1))) ;;;
         wr_thread t (fun x => tset_ids tid (t_parent x) x)) s = Done (tt, s0) ∧ sched_inv s0 ∧
    threads s0 = <[t := tset_ids tid (t_parent x) x]> (threads s) ∧ queue s0 = queue s ∧
    scpus s0 = scpus s ∧ procs s0 = procs s ∧ processes s0 = processes s.
Proof.
  intros Hinv Hx Hst. unfold bind at 1, modify.
  rewrite (wr_thread_run t _ x (set_ids _ _ s) Hx). eexists. split; [reflexivity|]. split; [|done].
  apply (inv_new_thread (set_ids _ _ s) t x); try done; [by apply inv_ids|].
  apply (resume_ok_ids x); try done. by apply (si_resume _ Hinv t).
Qed.

Lemma schedule_thread_run s c k pid t x p :
  sched_inv s → scpus s !! c = Some k → threads s !! t = Some x → t_state x = THREAD_NEW →
  find_pid (procs s) pid (processes s) = Some p →
  ∃ s', schedule_thread c pid t s = Done (next_tid s, s') ∧ sched_inv s' ∧
    queue s' = queue s ++ [t] ∧
    ∃ x', threads s' !! t = Some x' ∧ t_state x' = THREAD_READY ∧ t_parent x' = p ∧
          t_tid x' = next_tid s.
Proof.
  intros Hinv Hk Hx Hst Hp. unfold schedule_thread. unfold bind at 1, get.
  destruct (schedule_thread_prefix s t x (next_tid s) Hinv Hx Hst)
    as (s0 & E0 & Hinv0 & T0 & Q0 & K0 & P0 & L0).
  rewrite bind_assoc_run. srun E0.
  pose proof (get_proc_run s0 c k pid Hinv0 ltac:(by rewrite K0)) as Hg.
  rewrite P0, L0, Hp in Hg. destruct Hg as (s1 & E1 & Hcs & Ht & Hq & Hpr & Hl).
  srun E1. destruct (find_pid_Some _ _ _ _ Hp) as (Hin & y & Hy & _).
  set (x0 := tset_ids (next_tid s) (t_parent x) x) in *.
  assert (Hx1 : threads s1 !! t = Some x0) by (by rewrite Ht, T0, lookup_insert_eq).
  srun (wr_thread_run t (fun x => tset_ids (t_tid x) p x) x0 s1 Hx1).
  set (s2 := set_threads _ s1). set (x1 := tset_ids (t_tid x0) p x0) in s2.
  assert (Hcs2 : cs_inv c (cset_preempt 1 k) s2).
  { destruct Hcs as [H1 H2 H3 H4 H5 H6 H7]. split; cbn; try done.
    - by apply (place_thread _ _ _ _ x0).
    - apply tree_unlisted; eauto.
    - apply (cpu_thread _ _ _ _ x0); [done|cbn; congruence|done].
    - intros u z. destruct (decide (u = t)) as [->|].
      + rewrite lookup_insert_eq. intros [= <-]. apply (resume_ok_ids x0); try done. by apply (H7 t).
      + rewrite lookup_insert_ne by done. apply H7. }
  destruct (insert_thread_run c _ s2 t x1 p y Hcs2) as (s3 & E3 & Hcs3 & Hq3 & Ht3 & _); try done.
  { apply lookup_insert_eq. }
  { cbn. by rewrite Hl. }
  { cbn. by rewrite Hpr. }
  srun E3. unfold sheduler_put_proc.
  destruct (unlock_cs s3 c _ Hcs3) as (s' & E' & Hi & F1 & F2 & _). srun E'.
  exists s'. split; [done|]. split; [done|]. split; [rewrite F2, Hq3; cbn; by rewrite Hq, Q0|].
  exists (tset_state THREAD_READY x1). rewrite F1, Ht3, lookup_insert_eq. done.
Qed.

Lemma schedule_thread_unknown s c k pid t x :
  sched_inv s → scpus s !! c = Some k → threads s !! t = Some x → t_state x = THREAD_NEW →
  find_pid (procs s) pid (processes s) = None →
  schedule_thread c pid t s = Panic "schedule_thread(): process does not exist".
Proof.
  intros Hinv Hk Hx Hst Hp. unfold schedule_thread. unfold bind at 1, get.
  destruct (schedule_thread_prefix s t x (next_tid s) Hinv Hx Hst)
    as (s0 & E0 & Hinv0 & T0 & Q0 & K0 & P0 & L0).
  rewrite bind_assoc_run. srun E0.
  pose proof (get_proc_run s0 c k pid Hinv0 ltac:(by rewrite K0)) as Hg.
  rewrite P0, L0, Hp in Hg. destruct Hg as (s1 & E1 & _). by srun E1.
Qed.

(** [schedule_proc] of a prepared process and its main thread. *)
Lemma schedule_proc_run s c k parent p y t x :
  sched_inv s → scpus s !! c = Some k → (p ∉ processes s) → procs s !! p = Some y →
  p_threads y = [] → threads s !! t = Some x → t_state x = THREAD_NEW →
  (∀ q, parent = Some q → is_Some (procs s !! q)) →
  ∃ s', schedule_proc c parent p t s = Done (next_pid s, s') ∧ sched_inv s' ∧
    queue s' = queue s ++ [t] ∧ processes s' = p :: processes s ∧
    ∃ x', threads s' !! t = Some x' ∧ t_state x' = THREAD_READY ∧ t_parent x' = p.
Proof.
  intros Hinv Hk Hnp Hy Hye Hx Hst Hpar. unfold schedule_proc.
  unfold bind at 1, get at 1, bind at 1, modify at 1.
  set (s0 := set_ids (u32 _) _ s).
  assert (Hppid : ∃ ppid, match parent with
          | Some q => y <- rd_proc q ;; ret (p_pid y) | None => ret PID_KERNEL end s0 = Done (ppid, s0)).
  { destruct parent as [q|]; [|by eexists]. destruct (Hpar q eq_refl) as [z Hz].
    exists (p_pid z). by srun (rd_proc_run q z s0 Hz). }
  destruct Hppid as [ppid Ep]. srun Ep.
  srun (wr_proc_run p (pset_ids (next_pid s) ppid) y s0 Hy).
  erewrite bind_run; [|apply wr_proc_run; cbn; by rewrite lookup_insert_eq].
  cbn [procs set_procs]. rewrite insert_insert_eq.
  set (y1 := pset_state PROC_NEW _). unfold bind at 1, get at 1, bind at 1, modify at 1.
  erewrite bind_run; [|apply wr_thread_run; exact Hx].
  set (tid := next_tid _). set (s1 := set_threads _ _).
  assert (Hinv1 : sched_inv s1).
  { apply (inv_new_thread (set_ids _ _ _) t x); try done.
    - apply inv_ids, (inv_proc s0 p y); try done. by apply inv_ids.
    - apply (resume_ok_ids x); try done. by apply (si_resume _ Hinv t). }
  destruct (lock_cs s1 c k Hinv1 Hk) as (s2 & E2 & Hcs & Ht & Hq & Hp & Hl & _).
  srun E2. unfold bind at 1, modify at 1. set (s3 := set_processes _ s2).
  assert (Hy3 : procs s3 !! p = Some y1) by (cbn; rewrite Hp; apply lookup_insert_eq).
  assert (Hcs3 : cs_inv c (cset_preempt 1 k) s3).
  { destruct Hcs as [H1 H2 H3 H4 H5 H6 H7]. split; try done. cbn.
    apply (tree_new_proc _ _ _ _ _ y1); try done. by rewrite Hl. }
  destruct (insert_thread_run c _ s3 t (tset_ids tid p x) p y1 Hcs3) as (s4 & E4 & Hcs4 & Hq4 & Ht4 & _ & Hl4);
    try done.
  { cbn. rewrite Ht. apply lookup_insert_eq. }
  { cbn. by left. }
  srun E4. destruct (unlock_cs s4 c _ Hcs4) as (s' & E' & Hi & F1 & F2 & F3 & F4 & _). srun E'.
  exists s'. split; [done|]. split; [done|]. split; [rewrite F2, Hq4; cbn; by rewrite Hq|].
  split; [rewrite F4, Hl4; cbn; by rewrite Hl|].
  eexists. rewrite F1, Ht4, lookup_insert_eq. done.
Qed.

(** ** Entering the scheduler *)

Lemma enter_scheduler_setup_run s c k st :
  sched_inv s → scpus s !! c = Some k → c_thread k = None → c_scheduler k = None →
  threads s !! st = None →
  ∃ s' k', enter_scheduler_setup c st s = Done (tt, s') ∧ sched_inv s' ∧ idles s' c k' st ∧
    queue s' = queue s ++ [st].
Proof.
  intros Hinv Hk Hkt Hks Hst. pose proof Hinv as [I1 I2 I3 I4 I5].
  destruct (tr_procs _ _ _ _ I3 _ (tr_kernel _ _ _ _ I3)) as [y Hy].
  destruct (I4 c k Hk) as (Hpre & _ & _).
  unfold enter_scheduler_setup. srun (sched_lock_run c k s I1 Hk).
  unfold bind at 1, get, bind at 1, modify at 1.
  erewrite bind_run; [|apply wr_scpu_run; cbn; by rewrite lookup_insert_eq].
  erewrite bind_run.
  2:{ unfold insert_thread.
      erewrite bind_run; [|apply sched_held_run; done]. unfold bind at 1, kassert, ret at 1.
      erewrite bind_run; [|apply wr_proc_run; exact Hy].
      erewrite bind_run; [|apply wr_thread_run; cbn; by rewrite lookup_insert_eq].
      erewrite bind_run; [|apply wr_proc_run; cbn; by rewrite lookup_insert_eq].
      erewrite bind_run; [|apply wr_proc_run; cbn; by rewrite lookup_insert_eq].
      erewrite bind_run; [|apply rd_thread_run; cbn; by rewrite lookup_insert_eq].
      cbn [t_state tset_state]. rewrite bool_decide_eq_true_2 by done. reflexivity. }
  erewrite bind_run; [|apply wr_thread_run; cbn; by rewrite lookup_insert_eq].
  erewrite bind_run; [|apply sched_unlock_run; [done|cbn; by rewrite lookup_insert_eq]].
  erewrite (wr_scpu_run c); [|cbn; by rewrite lookup_insert_eq].
  eexists _, _. split; [reflexivity|]. split; [|split; [split; [cbn; apply lookup_insert_eq|done]|done]].
  split; cbn; rewrite ?insert_insert_eq; try done.
  - eapply place_perm; [apply Permutation_cons_append|].
    eapply place_fresh; [exact Hst| |by left]. by apply (place_cpu _ _ _ _ k).
  - rewrite <- (insert_insert_eq (procs s) (kernel_process s) _ (pset_threads (st :: p_threads y) y)).
    eapply tree_proc; [apply lookup_insert_eq|done|].
    eapply tree_insert; [apply (tr_kernel _ _ _ _ I3)|exact Hy|by right|done|done|done].
  - intros d l. destruct (decide (d = c)) as [->|].
    + rewrite lookup_insert_eq. intros [= <-]. cbn. split; [lia|]. split; [by intros []|].
      intros u [= <-]. rewrite lookup_insert_eq. by eexists.
    + rewrite lookup_insert_ne by done. intros Hl. destruct (I4 d l Hl) as (G1 & G2 & G3).
      split; [done|]. split; [done|]. intros u Hu. destruct (G3 u Hu) as (z & Hz & G).
      exists z. rewrite lookup_insert_ne; [done|]. intros ->. congruence.
  - intros u z. destruct (decide (u = st)) as [->|].
    + rewrite lookup_insert_eq. by intros [= <-].
    + rewrite lookup_insert_ne by done. apply I5.
  Unshelve. exact (mk_thread 0 0%nat THREAD_NEW 0 0 0 0 None 0 false 0 0 AtEntry).
Qed.

(** ** Waiting for a child *)

Lemma find_defunct_Some m pid ps p y :
  find_defunct m pid ps = Some (p, y) →
  p ∈ ps ∧ m !! p = Some y ∧ p_parent y = pid ∧ p_state y = PROC_DEFUNCT.
Proof.
  induction ps as [|q ps IH]; cbn; [done|]. destruct (m !! q) as [z|] eqn:Ez.
  - destruct (p_parent z =? pid) eqn:E1; cbn [andb].
    + destruct (decide (p_state z = PROC_DEFUNCT)) as [E2|E2].
      * rewrite bool_decide_eq_true_2 by done. intros [= <- <-]. split; [by left|].
        split; [done|]. split; [lia|done].
      * rewrite bool_decide_eq_false_2 by done. intros H. destruct (IH H) as [? ?]. split; [by right|done].
    + intros H. destruct (IH H) as [? ?]. split; [by right|done].
  - intros H. destruct (IH H) as [? ?]. split; [by right|done].
Qed.

Lemma find_defunct_None m pid ps p y :
  find_defunct m pid ps = None → p ∈ ps → m !! p = Some y → p_parent y = pid →
  p_state y ≠ PROC_DEFUNCT.
Proof.
  induction ps as [|q ps IH]; cbn; intros H Hin Hy Hp; [by apply elem_of_nil in Hin|].
  apply elem_of_cons in Hin as [->|Hin].
  - rewrite Hy in H. intros E. rewrite Hp, Z.eqb_refl, bool_decide_eq_true_2 in H by done. done.
  - destruct (m !! q) as [z|]; [destruct ((_ =? _) && _); [done|]|]; by apply IH.
Qed.

Lemma proc_wait_run s c k t x y :
  sched_inv s → runs_on s c k t x → procs s !! t_parent x = Some y →
  ∃ r s', proc_wait c s = Done (r, s') ∧ sched_inv s' ∧
    match find_defunct (procs s) (p_pid y) (processes s) with
    | Some (child, z) =>
        r = Some (p_pid z, p_exit_status z) ∧ threads s' = threads s ∧ queue s' = queue s ∧
        procs s' = <[child := pset_state PROC_TRUNCATE z]> (procs s)
    | None => r = None ∧ procs s' = procs s ∧ queue s' = queue s ∧
        ∃ x', threads s' = <[t := x']> (threads s) ∧ t_state x' = THREAD_WAITING ∧
              t_resume x' = AfterProcWait
    end.
Proof.
  intros Hinv Hro Hy. pose proof (runs_on_facts s c k t x Hinv Hro) as (Hrun & Hpre & _).
  pose proof Hro as (Hk & Hkt & Hx). unfold proc_wait.
  destruct (find_defunct (procs s) (p_pid y) (processes s)) as [[child z]|] eqn:Ef.
  - destruct (lock_cs s c k Hinv Hk) as (s1 & E1 & Hcs & T1 & Q1 & P1 & L1 & _).
    srun E1. erewrite bind_run; [|eapply current_thread_run; [apply (cs_k _ _ _ Hcs)|done]].
    erewrite bind_run; [|apply rd_thread_run; rewrite T1; exact Hx].
    erewrite bind_run; [|apply rd_proc_run; rewrite P1; exact Hy].
    unfold bind at 1, get. rewrite P1, L1, Ef.
    destruct (find_defunct_Some _ _ _ _ _ Ef) as (_ & Hz & _).
    destruct (collect_process_run c _ s1 child z Hcs ltac:(by rewrite P1))
      as (s2 & E2 & Hcs2 & T2 & Q2 & _ & _ & P2).
    srun E2. destruct (unlock_cs s2 c _ Hcs2) as (s' & E' & Hi & F1 & F2 & F3 & _). srun E'.
    exists (Some (p_pid z, p_exit_status z)), s'. split; [done|]. split; [done|]. split; [done|].
    rewrite F1, F2, F3, T2, Q2, P2, T1, Q1, P1. done.
  - srun (sched_lock_run c k s (si_lock _ Hinv) Hk).
    erewrite bind_run; [|eapply current_thread_run; [cbn; by rewrite lookup_insert_eq|done]].
    erewrite bind_run; [|apply rd_thread_run; exact Hx].
    erewrite bind_run; [|apply rd_proc_run; exact Hy].
    unfold bind at 1, get. cbn [procs processes set_scpus set_holder]. rewrite Ef.
    erewrite bind_run; [|apply wr_thread_run; exact Hx].
    unfold bind at 1.
    leave (cset_preempt (c_preempt_disabled k + 1) k) (tset_state THREAD_WAITING x).
    rewrite E. exists None, s'. split; [done|]. split; [done|]. split; [done|].
    destruct Hso as [_ (x' & Hx' & Hs' & _ & Hr & _) Hq _ Hpr _ _ _].
    split; [exact Hpr|]. split; [exact Hq|]. exists x'. cbn in Hx'. rewrite insert_insert_eq in Hx'. done.
Qed.

(** ** The performance counters *)

Lemma cs_count c k s t x :
  cs_inv c k s → threads s !! t = Some x →
  cs_inv c k (set_threads (<[t := tset_count 0 x]> (threads s)) s).
Proof.
  intros [H1 H2 H3 H4 H5 H6 H7] Hx. split; cbn; try done.
  - by apply (place_thread _ _ _ _ x).
  - by apply (tree_thread _ _ _ _ _ x).
  - by apply (cpu_thread _ _ _ _ x).
  - intros u z. destruct (decide (u = t)) as [->|].
    + rewrite lookup_insert_eq. intros [= <-]. apply (resume_ok_ids x); try done. by apply (H7 t).
    + rewrite lookup_insert_ne by done. apply H7.
Qed.

Lemma reset_counts_run c k ts : ∀ s,
  cs_inv c k s → (∀ t, t ∈ ts → is_Some (threads s !! t)) →
  ∃ s', reset_counts ts s = Done (tt, s') ∧ cs_inv c k s' ∧ queue s' = queue s ∧
    (∀ t x, threads s !! t = Some x →
       threads s' !! t = Some (if decide (t ∈ ts) then tset_count 0 x else x)).
Proof.
  induction ts as [|u ts IH]; intros s Hcs Hin.
  { exists s. split; [done|]. split; [done|]. split; [done|]. intros t x Hx. by rewrite decide_False by set_solver. }
  destruct (Hin u ltac:(by left)) as [y Hy]. cbn [reset_counts].
  srun (wr_thread_run u (tset_count 0) y s Hy). set (s1 := set_threads _ s).
  destruct (IH s1 (cs_count c k s u y Hcs Hy)) as (s' & E & Hcs' & Hq & Ht).
  { intros t Ht. cbn. destruct (decide (t = u)) as [->|]; [by rewrite lookup_insert_eq|].
    rewrite lookup_insert_ne by done. apply Hin. by right. }
  exists s'. split; [done|]. split; [done|]. split; [done|]. intros t x Hx.
  destruct (decide (t = u)) as [->|Hne].
  - assert (x = y) as -> by congruence. rewrite (Ht u (tset_count 0 y)) by apply lookup_insert_eq.
    rewrite (decide_True (P := u ∈ u :: ts)) by (by left). by destruct (decide (u ∈ ts)).
  - rewrite (Ht t x) by (cbn; by rewrite lookup_insert_ne).
    destruct (decide (t ∈ ts)), (decide (t ∈ u :: ts)) as [H|H]; rewrite elem_of_cons in H; try done; tauto.
Qed.

Lemma all_threads_spec s t :
  sched_inv s → t ∈ all_threads s ↔ ∃ x, threads s !! t = Some x ∧ t_state x ≠ THREAD_NEW.
Proof.
  intros Hinv. pose proof (si_tree _ Hinv) as Htr. unfold all_threads.
  rewrite list_elem_of_In, in_flat_map. split.
  - intros (p & Hp%list_elem_of_In & Ht). destruct (procs s !! p) as [y|] eqn:Ey; [|done].
    destruct (tr_threads _ _ _ _ Htr p y t Hp Ey) as (x & Hx & _ & Hn); [by apply list_elem_of_In|eauto].
  - intros (x & Hx & Hn). destruct (tr_listed _ _ _ _ Htr t x Hx Hn) as (HL & y & Hy & Hin).
    exists (t_parent x). split; [by apply list_elem_of_In|]. rewrite Hy. by apply list_elem_of_In.
Qed.

Lemma schedule_reset_run s c k :
  sched_inv s → scpus s !! c = Some k →
  ∃ s', schedule_reset_perf_counters c s = Done (tt, s') ∧ sched_inv s' ∧ queue s' = queue s ∧
    ∀ t x, threads s !! t = Some x → t_state x ≠ THREAD_NEW →
      threads s' !! t = Some (tset_count 0 x).
Proof.
  intros Hinv Hk. destruct (lock_cs s c k Hinv Hk) as (s1 & E1 & Hcs & T1 & Q1 & P1 & L1 & _).
  unfold schedule_reset_perf_counters. srun E1. unfold bind at 1, get.
  assert (Ha : all_threads s1 = all_threads s) by (unfold all_threads; by rewrite P1, L1).
  rewrite Ha. destruct (reset_counts_run c _ (all_threads s) s1 Hcs) as (s2 & E2 & Hcs2 & Q2 & T2).
  { intros t Ht. apply (all_threads_spec s t Hinv) in Ht as (x & Hx & _). rewrite T1, Hx. by eexists. }
  srun E2. destruct (unlock_cs s2 c _ Hcs2) as (s' & E' & Hi & F1 & F2 & _).
  exists s'. split; [done|]. split; [done|]. split; [by rewrite F2, Q2, Q1|].
  intros t x Hx Hn. rewrite F1, (T2 t x) by (by rewrite T1). rewrite decide_True; [done|].
  apply all_threads_spec; eauto.
Qed.

(** ** Runs of the scheduler *)

(** The operations CPUs interleave.  A timer interrupt is [OpYield] of the thread
    it interrupts; [OpWait] is called with a spinlock held, which it releases. *)
Inductive sched_op : Type :=
| OpEnter (c : cptr) (st : tptr)
| OpLoop (c : cptr)
| OpYield (c : cptr)
| OpExit (c : cptr)
| OpSleep (c : cptr) (ms : Z)
| OpWait (c : cptr) (cond : condptr)
| OpNotify (c : cptr) (cond : condptr)
| OpProcExit (c : cptr) (status : Z)
| OpProcWait (c : cptr)
| OpNewThread (t : tptr) (x : thread)
| OpNewProc (p : pptr) (y : proc)
| OpScheduleThread (c : cptr) (pid : Z) (t : tptr)
| OpScheduleProc (c : cptr) (parent : option pptr) (p : pptr) (t : tptr)
| OpReset (c : cptr)
| OpTick (now : Z).

Definition set_ticks (n : Z) (s : sched) : sched :=
  mk_sched (processes s) (procs s) (threads s) (queue s) (scpus s) (next_pid s) (next_tid s)
    (num_waiting s) (lock_holder s) n (kernel_process s) (kernel_cr3 s).

Definition run_op (o : sched_op) : M sched unit :=
  match o with
  | OpEnter c st => enter_scheduler_setup c st
  | OpLoop c => scheduler_iteration c
  | OpYield c => thread_yield c
  | OpExit c => thread_exit c
  | OpSleep c ms => thread_sleep c ms
  | OpWait c cond =>
      wr_scpu c (fun k => cset_preempt (c_preempt_disabled k + 1) k) ;;;
      sched_thread_wait c cond true
  | OpNotify c cond => sched_thread_notify_one c cond
  | OpProcExit c status => proc_exit c status
  | OpProcWait c => _ <- proc_wait c ;; ret tt
  | OpNewThread t x => modify (fun s => set_threads (<[t := x]> (threads s)) s)
  | OpNewProc p y => modify (fun s => set_procs (<[p := y]> (procs s)) s)
  | OpScheduleThread c pid t => _ <- schedule_thread c pid t ;; ret tt
  | OpScheduleProc c parent p t => _ <- schedule_proc c parent p t ;; ret tt
  | OpReset c => schedule_reset_perf_counters c
  | OpTick now => modify (set_ticks now)
  end.

(** A thread runs on the CPU. *)
Definition busy (s : sched) (c : cptr) : Prop := ∃ k t x, runs_on s c k t x.

(** When an operation may be called. *)
Definition enabled (s : sched) (o : sched_op) : Prop :=
  match o with
  | OpEnter c st => ∃ k, scpus s !! c = Some k ∧ c_thread k = None ∧ c_scheduler k = None ∧
                         threads s !! st = None
  | OpLoop c => ∃ k st, idles s c k st
  | OpYield c | OpExit c | OpSleep c _ | OpWait c _ | OpProcExit c _ | OpProcWait c => busy s c
  | OpNotify c _ | OpReset c => is_Some (scpus s !! c)
  | OpNewThread t x => threads s !! t = None ∧ t_state x = THREAD_NEW ∧ resume_ok x
  | OpNewProc p y => procs s !! p = None ∧ p_threads y = []
  | OpScheduleThread c pid t =>
      is_Some (scpus s !! c) ∧ is_Some (find_pid (procs s) pid (processes s)) ∧
      ∃ x, threads s !! t = Some x ∧ t_state x = THREAD_NEW
  | OpScheduleProc c parent p t =>
      is_Some (scpus s !! c) ∧ (p ∉ processes s) ∧
      (∃ y, procs s !! p = Some y ∧ p_threads y = []) ∧
      (∃ x, threads s !! t = Some x ∧ t_state x = THREAD_NEW) ∧
      (∀ q, parent = Some q → is_Some (procs s !! q))
  | OpTick _ => True
  end.

Lemma op_wait_run s c k t x cond :
  sched_inv s → runs_on s c k t x →
  ∃ s', run_op (OpWait c cond) s = Done (tt, s') ∧ sched_inv s' ∧ queue s' = queue s ∧
    (∃ x', threads s' = <[t := x']> (threads s) ∧ t_state x' = THREAD_BLOCKED ∧
           t_cond x' = Some cond ∧ t_resume x' = AfterCondWait cond) ∧
    ∃ k', scpus s' = <[c := k']> (scpus s) ∧ c_thread k' = None ∧ c_scheduler k' = c_scheduler k.
Proof.
  intros Hinv Hro. destruct (runs_on_facts s c k t x Hinv Hro) as (_ & Hpre & _). cbn [run_op].
  erewrite bind_run; [|apply wr_scpu_run, (proj1 Hro)]. cbv beta. rewrite Hpre.
  change (0 + 1) with 1. apply (sched_thread_wait_run s c k t x cond Hinv).
  replace (cset_preempt 0 k) with k; [done|]. destruct k. cbn in *. by subst.
Qed.

Lemma run_op_safe s o :
  sched_inv s → enabled s o → ∃ s', run_op o s = Done (tt, s') ∧ sched_inv s'.
Proof.
  intros Hinv Hen. destruct o; cbn [enabled run_op] in *.
  - destruct Hen as (k & Hk & Hkt & Hks & Hst).
    destruct (enter_scheduler_setup_run s c k st Hinv Hk Hkt Hks Hst) as (s' & k' & E & Hi & _). eauto.
  - destruct Hen as (k & st & Hid).
    destruct (scheduler_iteration_run s c k st Hinv Hid) as (s' & E & Hi & _). eauto.
  - destruct Hen as (k & t & x & Hro).
    destruct (thread_yield_run s c k t x Hinv Hro) as (s' & E & Hi & _). eauto.
  - destruct Hen as (k & t & x & Hro).
    destruct (thread_exit_run s c k t x Hinv Hro) as (s' & E & Hi & _). eauto.
  - destruct Hen as (k & t & x & Hro).
    destruct (thread_sleep_run s c k t x ms Hinv Hro) as (s' & E & Hi & _). eauto.
  - destruct Hen as (k & t & x & Hro).
    destruct (op_wait_run s c k t x cond Hinv Hro) as (s' & E & Hi & _). eauto.
  - destruct Hen as [k Hk]. destruct (notify_run s c k cond Hinv Hk) as (s' & E & Hi & _). eauto.
  - destruct Hen as (k & t & x & Hro).
    destruct (proc_exit_run s c k t x status Hinv Hro) as (s' & E & Hi & _). eauto.
  - destruct Hen as (k & t & x & Hro).
    destruct (running_proc s c k t x Hinv Hro) as (_ & y & Hy & _).
    destruct (proc_wait_run s c k t x y Hinv Hro Hy) as (r & s' & E & Hi & _). srun E. eauto.
  - destruct Hen as (Ht & Hs & Hr). eexists. split; [reflexivity|]. by apply inv_fresh_thread.
  - destruct Hen as (Hp & Hy). eexists. split; [reflexivity|]. by apply inv_fresh_proc.
  - destruct Hen as ([k Hk] & [p Hp] & x & Hx & Hs).
    destruct (schedule_thread_run s c k pid t x p Hinv Hk Hx Hs Hp) as (s' & E & Hi & _). srun E. eauto.
  - destruct Hen as ([k Hk] & Hnp & (y & Hy & Hye) & (x & Hx & Hs) & Hpar).
    destruct (schedule_proc_run s c k parent p y t x Hinv Hk Hnp Hy Hye Hx Hs Hpar) as (s' & E & Hi & _).
    srun E. eauto.
  - destruct Hen as [k Hk]. destruct (schedule_reset_run s c k Hinv Hk) as (s' & E & Hi & _). eauto.
  - eexists. split; [reflexivity|]. destruct Hinv as [H1 H2 H3 H4 H5]. by split.
Qed.

Inductive sched_step : sched → sched → Prop :=
| step_op s s' o : enabled s o → run_op o s = Done (tt, s') → sched_step s s'.

Definition reachable (s0 s : sched) : Prop := rtc sched_step s0 s.

(** The machine before [init_global_scheduler]: registered CPUs that run nothing. *)
Definition before_init (s : sched) : Prop :=
  threads s = ∅ ∧
  ∀ c k, scpus s !! c = Some k →
    c_thread k = None ∧ c_scheduler k = None ∧ c_preempt_disabled k = 0.

Lemma init_inv s kproc pd :
  before_init s → ∃ s', init_global_scheduler kproc pd s = Done (tt, s') ∧ sched_inv s' ∧ queue s' = [].
Proof.
  intros [Ht Hc]. eexists. split; [reflexivity|]. split; [|done].
  assert (Hnr : ∀ t, ¬ running (scpus s) t).
  { intros t (c & k & Hk & E). destruct (Hc c k Hk) as (E' & _). congruence. }
  split; cbn; rewrite ?Ht; try done.
  - split; try done.
    + constructor.
    + by intros t ?%elem_of_nil.
    + intros t H. by apply Hnr in H.
    + intros c d k l t Hk _ E _. destruct (Hc c k Hk). congruence.
  - split; try done.
    + apply NoDup_singleton.
    + intros p ->%list_elem_of_singleton. rewrite lookup_insert_eq. by eexists.
    + by left.
    + intros p y t ->%list_elem_of_singleton. rewrite lookup_insert_eq. intros [= <-]. by intros ?%elem_of_nil.
    + intros p y ->%list_elem_of_singleton. rewrite lookup_insert_eq. intros [= <-]. constructor.
  - intros c k Hk. destruct (Hc c k Hk) as (E1 & E2 & E3). split; [done|].
    rewrite E1, E2. split; [by intros []|done].
Qed.

Lemma reachable_inv s0 s : sched_inv s0 → reachable s0 s → sched_inv s.
Proof.
  intros H0 Hr. revert H0. induction Hr as [|s1 s2 s3 Hstep _ IH]; [done|]. intros H1. apply IH.
  destruct Hstep as [s s' o Hen E]. destruct (run_op_safe s o H1 Hen) as (s'' & E' & Hi). congruence.
Qed.

(** ** Executing a sequence of operations *)

Definition is_some {A} (o : option A) : bool := match o with Some _ => true | None => false end.

Definition resume_okb (x : thread) : bool :=
  match t_resume x with
  | AfterExit => false
  | AtEntry => t_int_enabled x && (t_cli_stack x =? 0)
  | _ => true
  end.

Definition newb (s : sched) (t : tptr) : bool :=
  match threads s !! t with Some x => bool_decide (t_state x = THREAD_NEW) | None => false end.

Definition busyb (s : sched) (c : cptr) : bool :=
  match scpus s !! c with
  | Some k => match c_thread k with Some t => is_some (threads s !! t) | None => false end
  | None => false
  end.

Definition enabledb (s : sched) (o : sched_op) : bool :=
  match o with
  | OpEnter c st =>
      match scpus s !! c with
      | Some k => negb (is_some (c_thread k)) && negb (is_some (c_scheduler k)) && negb (is_some (threads s !! st))
      | None => false
      end
  | OpLoop c =>
      match scpus s !! c with
      | Some k => negb (is_some (c_thread k)) && is_some (c_scheduler k)
      | None => false
      end
  | OpYield c | OpExit c | OpSleep c _ | OpWait c _ | OpProcExit c _ | OpProcWait c => busyb s c
  | OpNotify c _ | OpReset c => is_some (scpus s !! c)
  | OpNewThread t x =>
      negb (is_some (threads s !! t)) && bool_decide (t_state x = THREAD_NEW) && resume_okb x
  | OpNewProc p y => negb (is_some (procs s !! p)) && bool_decide (p_threads y = [])
  | OpScheduleThread c pid t =>
      is_some (scpus s !! c) && is_some (find_pid (procs s) pid (processes s)) && newb s t
  | OpScheduleProc c parent p t =>
      is_some (scpus s !! c) && bool_decide (p ∉ processes s) &&
      match procs s !! p with Some y => bool_decide (p_threads y = []) | None => false end &&
      newb s t && match parent with Some q => is_some (procs s !! q) | None => true end
  | OpTick _ => true
  end.

Lemma is_some_true {A} (o : option A) : is_some o = true → is_Some o.
Proof. by destruct o. Qed.
Lemma is_some_false {A} (o : option A) : negb (is_some o) = true → o = None.
Proof. by destruct o. Qed.
Lemma newb_true s t : newb s t = true → ∃ x, threads s !! t = Some x ∧ t_state x = THREAD_NEW.
Proof. unfold newb. destruct (threads s !! t) as [x|]; [|done]. intros ?%bool_decide_eq_true. eauto. Qed.
Lemma busyb_true s c : busyb s c = true → busy s c.
Proof.
  unfold busyb, busy, runs_on. destruct (scpus s !! c) as [k|]; [|done].
  destruct (c_thread k) as [t|] eqn:E; [|done]. intros [x ?]%is_some_true. eauto 10.
Qed.
#[local] Hint Resolve is_some_true is_some_false newb_true busyb_true : core.

Lemma enabledb_sound s o : enabledb s o = true → enabled s o.
Proof.
  destruct o; cbn [enabledb enabled]; rewrite ?andb_true_iff; auto.
  - destruct (scpus s !! c) as [k|]; [|done]. rewrite !andb_true_iff. intros [[]]. exists k; auto.
  - destruct (scpus s !! c) as [k|] eqn:E; [|done]. rewrite !andb_true_iff. intros [? [st ?]%is_some_true].
    exists k, st. unfold idles; auto.
  - intros [[? Hs%bool_decide_eq_true] Hr]. split; [auto|]. split; [done|]. unfold resume_ok, resume_okb in *.
    rewrite Hs. destruct (t_resume x); try done. apply andb_true_iff in Hr as [? ?%Z.eqb_eq]. done.
  - intros [? ?%bool_decide_eq_true]. auto.
  - intros [[]]. auto.
  - intros [[[[? ?%bool_decide_eq_true] Hp] ?] Hq]. split; [auto|]. split; [done|]. split; [|split; [auto|]].
    + destruct (procs s !! p) as [y|]; [|done]. apply bool_decide_eq_true in Hp. eauto.
    + intros q ->. auto.
Qed.

Fixpoint exec (ops : list sched_op) (s : sched) : option sched :=
  match ops with
  | [] => Some s
  | o :: ops' =>
      if enabledb s o then
        match run_op o s with Done (_, s') => exec ops' s' | _ => None end
      else None
  end.

Lemma exec_reachable ops : ∀ s s', exec ops s = Some s' → reachable s s'.
Proof.
  induction ops as [|o ops IH]; intros s s' E; cbn in E; [injection E as <-; apply rtc_refl|].
  destruct (enabledb s o) eqn:Ee; [|done]. destruct (run_op o s) as [[[] s1]| |] eqn:Er; try done.
  eapply rtc_l; [by apply (step_op s s1 o); [apply enabledb_sound|]|by apply IH].
Qed.

(** Two CPUs, before the scheduler is initialised. *)
Definition example_cpus : sched :=
  mk_sched [] ∅ ∅ [] (<[0%nat := mk_scpu None None 0 true 0 true 1]>
                      {[1%nat := mk_scpu None None 0 true 0 true 1]}) 1 1 ∅ None 100 0%nat 1.

Definition example_thread (p : pptr) : thread :=
  mk_thread 0 p THREAD_NEW 0 0 0 0 None 0 true 0 1 AtEntry.

Definition example_init : sched :=
  match init_global_scheduler 7%nat 1 example_cpus with Done (_, s) => s | _ => example_cpus end.

(** Two kernel threads run on the two CPUs, thread 12 is ready. *)
Definition example_ops : list sched_op :=
  [OpEnter 0 100; OpEnter 1 101; OpNewThread 10 (example_thread 7); OpScheduleThread 0 0 10;
   OpNewThread 11 (example_thread 7); OpScheduleThread 0 0 11;
   OpNewThread 12 (example_thread 7); OpScheduleThread 0 0 12;
   OpLoop 0; OpLoop 1; OpLoop 0; OpLoop 1]%nat.

Definition example_state (ops : list sched_op) : sched :=
  default example_init (exec ops example_init).

Lemma example_before : before_init example_cpus.
Proof.
  split; [done|]. intros c k. cbn [scpus example_cpus].
  destruct (decide (c = 0%nat)) as [->|]; [rewrite lookup_insert_eq; by intros [= <-]|].
  rewrite lookup_insert_ne by done. intros [_ <-]%lookup_singleton_Some. done.
Qed.

Lemma example_inv ops : sched_inv (example_state ops).
Proof.
  destruct (init_inv example_cpus 7%nat 1 example_before) as (s' & E & Hi & _).
  assert (Hi0 : sched_inv example_init) by (unfold example_init; by rewrite E).
  unfold example_state. destruct (exec ops example_init) as [s|] eqn:Ee; [|done].
  by apply (reachable_inv example_init); [|apply (exec_reachable ops)].
Qed.

Lemma example_init_run : init_global_scheduler 7%nat 1 example_cpus = Done (tt, example_init).
Proof. reflexivity. Qed.

Lemma example_reachable ops :
  is_some (exec ops example_init) = true → reachable example_init (example_state ops).
Proof.
  unfold example_state. destruct (exec ops example_init) as [s|] eqn:E; [|done].
  intros _. by apply (exec_reachable ops).
Qed.

Lemma example_ops_ok : is_some (exec example_ops example_init) = true.
Proof. vm_compute. reflexivity. Qed.

Lemma example_yield_ok : enabledb (example_state example_ops) (OpYield 1%nat) = true.
Proof. vm_compute. reflexivity. Qed.

(** CPU 0 after its thread has yielded. *)
Definition example_yielded : list sched_op := example_ops ++ [OpYield 0%nat].

Definition example_idle : scpu := mk_scpu None (Some 100%nat) 0 true 0 true 1.

Lemma example_idles : scpus (example_state example_yielded) !! 0%nat = Some example_idle.
Proof. vm_compute. reflexivity. Qed.

(** ** Properties *)

(** C1: in every state the scheduler can reach from its initialisation, no thread
    runs on two CPUs, no running thread is on the run queue, no thread is on the
    queue twice, and every thread that is ready, sleeping or exited is on the
    queue: a runnable thread is never lost and never run twice. *)
Theorem scheduler_exclusive s0 s1 s kproc pd :
  before_init s0 → init_global_scheduler kproc pd s0 = Done (tt, s1) → reachable s1 s →
  NoDup (queue s) ∧
  (∀ c d k l t, scpus s !! c = Some k → scpus s !! d = Some l →
     c_thread k = Some t → c_thread l = Some t → c = d) ∧
  ∀ t x, threads s !! t = Some x →
    (queued (t_state x) = true → t ∈ queue s ∧ ¬ running (scpus s) t) ∧
    (running (scpus s) t → t_state x = THREAD_RUNNING ∧ (t ∉ queue s)).
Proof.
  intros Hb E Hr. destruct (init_inv s0 kproc pd Hb) as (s1' & E' & Hi & _).
  assert (s1' = s1) as -> by congruence. destruct (reachable_inv s1 s Hi Hr) as [_ [P1 P2 P3 P4 P5] _ _ _].
  split; [done|]. split; [exact P4|]. intros t x Hx. specialize (P5 t x Hx). split.
  - intros Hq. by apply placed_queued in P5.
  - intros Hrun. destruct (t_state x); cbn in P5; tauto.
Qed.

Lemma scheduler_exclusive_witness :
  before_init example_cpus ∧ NoDup (queue (example_state example_ops)).
Proof.
  split; [exact example_before|].
  exact (proj1 (scheduler_exclusive example_cpus example_init (example_state example_ops) 7%nat 1
    example_before example_init_run (example_reachable example_ops example_ops_ok))).
Defined.

(** C2: from every reachable state every enabled operation of the scheduler
    completes — none of its [kpanic]s and [kassert]s fires and it does not wait
    for the lock for ever — in a state with the same guarantees; and every CPU
    that has entered the scheduler has such an operation. *)
Theorem scheduler_progress s0 s1 s kproc pd :
  before_init s0 → init_global_scheduler kproc pd s0 = Done (tt, s1) → reachable s1 s →
  (∀ o, enabled s o → ∃ s', run_op o s = Done (tt, s') ∧ reachable s1 s') ∧
  ∀ c k, scpus s !! c = Some k → is_Some (c_scheduler k) →
    enabled s (OpLoop c) ∨ enabled s (OpYield c).
Proof.
  intros Hb E Hr. destruct (init_inv s0 kproc pd Hb) as (s1' & E' & Hi & _).
  assert (s1' = s1) as -> by congruence. pose proof (reachable_inv s1 s Hi Hr) as Hinv. split.
  - intros o Ho. destruct (run_op_safe s o Hinv Ho) as (s' & Es & _). exists s'. split; [done|].
    eapply rtc_r; [exact Hr|]. by apply (step_op s s' o).
  - intros c k Hk [st Hst]. destruct (c_thread k) as [t|] eqn:Et.
    + right. destruct (pl_run_dom _ _ _ (si_place _ Hinv) t) as [x Hx]; [by exists c, k|].
      by exists k, t, x.
    + left. by exists k, st.
Qed.

Lemma scheduler_progress_witness :
  ∃ s', run_op (OpYield 1%nat) (example_state example_ops) = Done (tt, s') ∧ reachable example_init s'.
Proof.
  exact (proj1 (scheduler_progress example_cpus example_init (example_state example_ops) 7%nat 1
    example_before example_init_run (example_reachable example_ops example_ops_ok)) (OpYield 1%nat)
    (enabledb_sound (example_state example_ops) (OpYield 1%nat) example_yield_ok)).
Defined.

(** C8: one iteration of a CPU's scheduler loop takes the head of the run queue:
    a ready thread runs next on this CPU with its own interrupt state and page
    directory, a sleeping one runs only when its wake-up tick has passed and goes
    to the end of the queue otherwise, and destroying the last thread of a
    process hands its pid and exit status to the threads waiting in the parent. *)
Theorem scheduler_iteration_correct s c k st :
  sched_inv s → idles s c k st →
  ∃ s', scheduler_iteration c s = Done (tt, s') ∧ sched_inv s' ∧
    match queue s with
    | [] => queue s' = [] ∧ threads s' = threads s
    | t :: q => ∃ x, threads s !! t = Some x ∧ chosen s s' c t q x
    end.
Proof. apply scheduler_iteration_run. Qed.

Lemma scheduler_iteration_correct_witness :
  let s := example_state example_yielded in
  ∃ s', scheduler_iteration 0%nat s = Done (tt, s') ∧ queue s = [12; 10]%nat.
Proof.
  destruct (scheduler_iteration_correct _ 0%nat example_idle 100%nat (example_inv example_yielded)
    (conj example_idles (conj eq_refl eq_refl))) as (s' & E & _).
  exists s'. split; [exact E|]. vm_compute. reflexivity.
Defined.

(** Notifying a condition makes exactly one of the threads blocked on it
    ready, at the head of the run queue, and changes nothing else; with no thread
    blocked on it nothing changes. *)
Theorem notify_one_correct s c k cond :
  sched_inv s → scpus s !! c = Some k →
  ∃ s', sched_thread_notify_one c cond s = Done (tt, s') ∧ sched_inv s' ∧ scpus s' = scpus s ∧
    ((∃ t x, threads s !! t = Some x ∧ t_state x = THREAD_BLOCKED ∧ t_cond x = Some cond ∧
        threads s' = <[t := tset_state THREAD_READY x]> (threads s) ∧ queue s' = t :: queue s) ∨
     (∀ t x, threads s !! t = Some x → t_cond x = Some cond → t_state x ≠ THREAD_BLOCKED) ∧
      threads s' = threads s ∧ queue s' = queue s).
Proof.
  intros Hinv Hk. destruct (notify_run s c k cond Hinv Hk) as (s' & E & Hi & Hs & H).
  exists s'. split; [done|]. split; [done|]. split; [done|].
  destruct (find_blocked (threads s) cond (all_threads s)) as [t|] eqn:Ef.
  - left. destruct H as (x & H). by exists t, x.
  - right. split; [|done]. intros t x Hx Hc Hb.
    apply (find_blocked_None _ _ _ t x Ef); [|done..].
    apply (all_threads_spec s t Hinv). exists x. split; [done|congruence].
Qed.

Lemma notify_one_correct_witness :
  ∃ s', sched_thread_notify_one 0%nat 5%nat (example_state example_yielded) = Done (tt, s') ∧ sched_inv s'.
Proof.
  destruct (notify_one_correct (example_state example_yielded) 0%nat example_idle 5%nat
    (example_inv _) example_idles) as (s' & E & Hi & _).
  exists s'. split; [exact E|exact Hi].
Defined.

(** C5: no wake-up is lost: when a running thread waits on a condition nobody
    else waits on, and another CPU then notifies it, the thread is the next one
    that CPU runs, and it no longer waits on the condition. *)
Theorem wait_notify_resumes s c k t x cond d kd st :
  sched_inv s → runs_on s c k t x → idles s d kd st →
  (∀ u y, threads s !! u = Some y → t_cond y = Some cond → t_state y ≠ THREAD_BLOCKED) →
  ∃ s1 s2 s3, run_op (OpWait c cond) s = Done (tt, s1) ∧
    (∀ e l, scpus s1 !! e = Some l → c_thread l ≠ Some t) ∧
    sched_thread_notify_one d cond s1 = Done (tt, s2) ∧
    scheduler_iteration d s2 = Done (tt, s3) ∧ sched_inv s3 ∧ queue s3 = queue s ∧
    ∃ k3 x3, runs_on s3 d k3 t x3 ∧ t_state x3 = THREAD_RUNNING.
Proof.
  intros Hinv Hro Hid Hnone.
  destruct (op_wait_run s c k t x cond Hinv Hro)
    as (s1 & E1 & Hi1 & Q1 & (x1 & T1 & St1 & C1 & R1) & k1 & K1 & Kt1 & _).
  assert (Hdc : d ≠ c). { intros ->. destruct Hro as (Hk & Hkt & _), Hid as (Hk' & Hkt' & _). congruence. }
  assert (Hd1 : idles s1 d kd st) by (unfold idles; by rewrite K1, lookup_insert_ne by done).
  assert (Hx1 : threads s1 !! t = Some x1) by (by rewrite T1, lookup_insert_eq).
  destruct (notify_run s1 d kd cond Hi1 (proj1 Hd1)) as (s2 & E2 & Hi2 & K2 & H2).
  assert (Ef : find_blocked (threads s1) cond (all_threads s1) = Some t).
  { destruct (find_blocked (threads s1) cond (all_threads s1)) as [u|] eqn:Ef.
    - destruct (find_blocked_Some _ _ _ _ Ef) as (_ & y & Hy & Hc & Hb).
      destruct (decide (u = t)) as [->|Hne]; [done|]. rewrite T1, lookup_insert_ne in Hy by done.
      by destruct (Hnone u y Hy Hc).
    - destruct (find_blocked_None _ _ _ t x1 Ef); try done.
      apply (all_threads_spec s1 t Hi1). exists x1. split; [done|congruence]. }
  rewrite Ef in H2. destruct H2 as (x2 & Hx2 & _ & _ & T2 & Q2).
  assert (Hd2 : idles s2 d kd st) by (unfold idles; by rewrite K2).
  destruct (scheduler_iteration_run s2 d kd st Hi2 Hd2) as (s3 & E3 & Hi3 & H3).
  rewrite Q2 in H3. destruct H3 as (x3 & Hx3 & Hch).
  rewrite T2, lookup_insert_eq in Hx3. injection Hx3 as <-. cbn in Hch.
  destruct Hch as (Q3 & k3 & x4 & Hro3 & Hs3 & _).
  exists s1, s2, s3. split; [done|]. split.
  { intros e l He Hl. pose proof (pl_placed _ _ _ (si_place _ Hi1) t x1 Hx1) as H. rewrite St1 in H.
    destruct H as [_ H]. apply H. by exists e, l. }
  do 3 (split; [done|]). split; [congruence|]. by exists k3, x4.
Qed.

(** CPU 1 idle, thread 10 running on CPU 0. *)
Definition example_one : list sched_op :=
  [OpEnter 0 100; OpEnter 1 101; OpNewThread 10 (example_thread 7); OpScheduleThread 0 0 10;
   OpLoop 0; OpLoop 1; OpLoop 0]%nat.

Lemma example_one_runs :
  runs_on (example_state example_one) 0%nat (mk_scpu (Some 10%nat) (Some 100%nat) 0 true 0 true 1) 10%nat
    (mk_thread 1 7%nat THREAD_RUNNING 0 0 0 0 None 1 true 0 1 AtEntry).
Proof. vm_compute. done. Qed.

Lemma example_one_idles :
  idles (example_state example_one) 1%nat (mk_scpu None (Some 101%nat) 0 true 0 true 1) 101%nat.
Proof. vm_compute. done. Qed.

Lemma example_one_unblocked u y :
  threads (example_state example_one) !! u = Some y → t_cond y = Some 5%nat → t_state y ≠ THREAD_BLOCKED.
Proof.
  intros Hy. assert (Hall : map_Forall (fun _ y => t_cond y = None) (threads (example_state example_one))).
  { refine (bool_decide_unpack _ _). vm_compute. exact I. }
  pose proof (Hall u y Hy) as E. cbn in E. congruence.
Qed.

Lemma wait_notify_resumes_witness :
  ∃ s1 s2 s3, run_op (OpWait 0%nat 5%nat) (example_state example_one) = Done (tt, s1) ∧
    sched_thread_notify_one 1%nat 5%nat s1 = Done (tt, s2) ∧
    scheduler_iteration 1%nat s2 = Done (tt, s3).
Proof.
  destruct (wait_notify_resumes _ _ _ _ _ 5%nat _ _ _ (example_inv example_one) example_one_runs
    example_one_idles example_one_unblocked) as (s1 & s2 & s3 & E1 & _ & E2 & E3 & _).
  exists s1, s2, s3. split; [exact E1|]. split; [exact E2|exact E3].
Defined.

(** [proc_wait] collects the first defunct child of the caller's process —
    it returns the child's pid and exit status and the child becomes collected —
    and, with no defunct child, puts the thread in the waiting state, off the run
    queue. *)
Theorem proc_wait_correct s c k t x y :
  sched_inv s → runs_on s c k t x → procs s !! t_parent x = Some y →
  ∃ r s', proc_wait c s = Done (r, s') ∧ sched_inv s' ∧ queue s' = queue s ∧
    ((∃ p z, p ∈ processes s ∧ procs s !! p = Some z ∧ p_parent z = p_pid y ∧
        p_state z = PROC_DEFUNCT ∧ r = Some (p_pid z, p_exit_status z) ∧ threads s' = threads s ∧
        procs s' = <[p := pset_state PROC_TRUNCATE z]> (procs s)) ∨
     (∀ p z, p ∈ processes s → procs s !! p = Some z → p_parent z = p_pid y →
        p_state z ≠ PROC_DEFUNCT) ∧ r = None ∧ procs s' = procs s ∧
     ∃ x', threads s' = <[t := x']> (threads s) ∧ t_state x' = THREAD_WAITING).
Proof.
  intros Hinv Hro Hy. destruct (proc_wait_run s c k t x y Hinv Hro Hy) as (r & s' & E & Hi & H).
  exists r, s'. split; [done|]. split; [done|].
  destruct (find_defunct (procs s) (p_pid y) (processes s)) as [[p z]|] eqn:Ef.
  - destruct H as (Hr & Ht & Hq & Hp). split; [done|]. left.
    destruct (find_defunct_Some _ _ _ _ _ Ef) as (H1 & H2 & H3 & H4). by exists p, z.
  - destruct H as (Hr & Hp & Hq & x' & Ht & Hw & _). split; [done|]. right. split; [|eauto].
    intros p z Hin Hz Hpar. by apply (find_defunct_None _ _ _ p z Ef).
Qed.

Lemma proc_wait_correct_witness :
  ∃ r s', proc_wait 0%nat (example_state example_one) = Done (r, s') ∧ sched_inv s'.
Proof.
  destruct (proc_wait_correct _ _ _ _ _ (mk_proc 0 0 PROC_READY (-10) [10; 101; 100]%nat)
    (example_inv example_one) example_one_runs
    ltac:(vm_compute; reflexivity)) as (r & s' & E & Hi & _).
  exists r, s'. split; [exact E|exact Hi].
Defined.

(** C9: the exit status of a process reaches its parent: when the last thread of
    a process calls [proc_exit] while a thread of the parent process waits for a
    child and nothing else is queued, the CPU's next scheduler iteration makes the
    waiting thread ready, on the run queue, with the child's pid and exit status. *)
Theorem exit_status_reaches_parent s c k t x y q z w xw status :
  sched_inv s → runs_on s c k t x → queue s = [] →
  procs s !! t_parent x = Some y → p_threads y = [t] → p_parent y ≠ PID_KERNEL →
  q ∈ processes s → q ≠ t_parent x → procs s !! q = Some z → p_pid z = p_parent y →
  p_threads z = [w] → threads s !! w = Some xw → t_state xw = THREAD_WAITING →
  ∃ s1 s2, proc_exit c status s = Done (tt, s1) ∧ scheduler_iteration c s1 = Done (tt, s2) ∧
    sched_inv s2 ∧
    threads s2 !! w = Some (tset_state THREAD_READY (tset_collected (p_pid y) status xw)) ∧
    w ∈ queue s2 ∧ ∃ y', procs s2 !! t_parent x = Some y' ∧ p_state y' = PROC_TRUNCATE.
Proof.
  intros Hinv Hro Hq Hy Hyt Hyp Hqin Hqne Hz Hzp Hzt Hw Hww.
  destruct (runs_on_facts s c k t x Hinv Hro) as (Hrun & _ & st & yst & Hst & _).
  destruct (proc_exit_run s c k t x status Hinv Hro)
    as (s1 & E1 & Hi1 & Q1 & L1 & (x1 & T1 & St1 & Px1) & (y0 & Hy0 & P1) & k1 & K1 & Kt1 & Ks1).
  assert (y0 = y) as -> by congruence. rewrite Hq in Q1.
  assert (Hid : idles s1 c k1 st) by (unfold idles; rewrite K1, lookup_insert_eq; split; [done|split; congruence]).
  destruct (scheduler_iteration_run s1 c k1 st Hi1 Hid) as (s2 & E2 & Hi2 & H2).
  rewrite Q1 in H2. destruct H2 as (x2 & Hx2 & Hch).
  rewrite T1, lookup_insert_eq in Hx2. injection Hx2 as <-.
  unfold chosen in Hch. rewrite St1 in Hch. unfold delivered in Hch. rewrite Px1 in Hch.
  assert (Hwt : w ≠ t). { intros ->. destruct Hro as (_ & _ & Hx). congruence. }
  exists s1, s2. do 3 (split; [done|]).
  refine (Hch (pset_status status (pset_state PROC_EXITING y)) _ Hyt Hyp q z w xw _ Hqne _ Hzp _ Hwt _ Hww).
  - by rewrite P1, lookup_insert_eq.
  - by rewrite L1.
  - by rewrite P1, lookup_insert_ne.
  - rewrite Hzt. by left.
  - by rewrite T1, lookup_insert_ne.
Qed.

(** Process 8 (pid 1) waits for its child, process 9 (pid 2), which runs on CPU 0. *)
Definition example_family : list sched_op :=
  [OpEnter 0 100; OpNewProc 8 (mk_proc 0 0 PROC_NEW 0 []); OpNewThread 20 (example_thread 8);
   OpScheduleProc 0 None 8 20; OpLoop 0; OpLoop 0;
   OpNewProc 9 (mk_proc 0 0 PROC_NEW 0 []); OpNewThread 21 (example_thread 9);
   OpScheduleProc 0 (Some 8) 9 21; OpProcWait 0; OpLoop 0]%nat.

Definition example_proc (p : pptr) : proc :=
  default (mk_proc 0 0 PROC_NEW 0 []) (procs (example_state example_family) !! p).

Lemma example_family_runs :
  runs_on (example_state example_family) 0%nat (mk_scpu (Some 21%nat) (Some 100%nat) 0 true 0 true 1) 21%nat
    (mk_thread 2 9%nat THREAD_RUNNING 0 0 0 0 None 1 true 0 1 AtEntry).
Proof. vm_compute. done. Qed.

Lemma example_family_facts :
  queue (example_state example_family) = [] ∧
  procs (example_state example_family) !! 9%nat = Some (example_proc 9%nat) ∧
  p_threads (example_proc 9%nat) = [21%nat] ∧ p_parent (example_proc 9%nat) = 1 ∧
  processes (example_state example_family) = [9; 8; 7]%nat ∧
  procs (example_state example_family) !! 8%nat = Some (example_proc 8%nat) ∧
  p_pid (example_proc 8%nat) = 1 ∧ p_threads (example_proc 8%nat) = [20%nat] ∧
  threads (example_state example_family) !! 20%nat =
    Some (mk_thread 1 8%nat THREAD_WAITING 0 0 0 0 None 1 true 0 1 AfterProcWait).
Proof. vm_compute. done. Qed.

Lemma exit_status_reaches_parent_witness :
  ∃ s1 s2, proc_exit 0%nat 42 (example_state example_family) = Done (tt, s1) ∧
    scheduler_iteration 0%nat s1 = Done (tt, s2) ∧
    threads s2 !! 20%nat = Some (mk_thread 1 8%nat THREAD_READY 2 42 0 0 None 1 true 0 1 AfterProcWait).
Proof.
  destruct example_family_facts as (F1 & F2 & F3 & F4 & F5 & F6 & F7 & F8 & F9).
  destruct (exit_status_reaches_parent _ 0%nat _ _ _ (example_proc 9%nat) 8%nat (example_proc 8%nat)
    20%nat _ 42 (example_inv example_family) example_family_runs F1 F2 F3
    ltac:(rewrite F4; discriminate) ltac:(rewrite F5; right; left) ltac:(discriminate) F6
    ltac:(rewrite F4, F7; reflexivity) F8 F9 eq_refl) as (s1 & s2 & E1 & E2 & _ & Hw & _).
  exists s1, s2. split; [exact E1|]. split; [exact E2|]. refine (eq_trans Hw _). vm_compute. reflexivity.
Defined.
