(* ===== verification/BlockDev.v ===== *)
(** * Block devices: kernel/block.h, block/registry.c, block/mbr.c

    [struct block_dev] is a record of operations over a device state; [bdev_ok]
    is what its users may rely on, and an MBR partition is shown to satisfy it
    whenever its parent does.  A [read] returns the bytes it stores at the
    caller's buffer.  The registry recurses into the partition scan of every
    device it adds; its eight slots bound that recursion. *)

From stdpp Require Import base list strings.
From Stdlib Require Import ZArith Lia.
From S2P Require Import Prelude Memory.

(** ** kernel/block.h *)

Definition BDEV_MAX_NAME_LENGTH : Z := 32.

Record block_dev (D : Type) := mk_bdev {
  bd_name : list Z;
  bd_valid : bool;
  bd_block_size : Z;
  bd_num_blocks : Z;
  bd_lock : Z → M D Z;
  bd_unlock : Z → M D unit;
  bd_write : Z → Z → list Z → M D unit;
  bd_read : Z → Z → Z → M D (list Z);
}.
Arguments mk_bdev {D}.
Arguments bd_name {D}.
Arguments bd_valid {D}.
Arguments bd_block_size {D}.
Arguments bd_num_blocks {D}.
Arguments bd_lock {D}.
Arguments bd_unlock {D}.
Arguments bd_write {D}.
Arguments bd_read {D}.

(** The sequence every client uses: lock a block, read from it, unlock it. *)
Definition bd_access {D} (d : block_dev D) (num off len : Z) : M D (list Z) :=
  index <- bd_lock d num ;;
  l <- bd_read d index off len ;;
  bd_unlock d index ;;;
  ret l.

(** The bytes [off .. off + len) of a block. *)
Definition slice (off len : Z) (l : list Z) : list Z :=
  take (Z.to_nat len) (drop (Z.to_nat off) l).

(** What a client may rely on: [blk s n] is the contents of block [n]. *)
Record bdev_ok {D} (d : block_dev D) (inv : D → Prop) (blk : D → Z → list Z) : Prop := {
  ok_size : 0 < bd_block_size d;
  ok_block : ∀ s n, inv s → 0 ≤ n < bd_num_blocks d →
    length (blk s n) = Z.to_nat (bd_block_size d) ∧ byte_list (blk s n);
  ok_access : ∀ s n off len, inv s → 0 ≤ n < bd_num_blocks d → 0 ≤ off → 0 < len →
    off + len ≤ bd_block_size d →
    ∃ s', bd_access d n off len s = Done (slice off len (blk s n), s') ∧ inv s' ∧
          ∀ k, blk s' k = blk s k;
  ok_touch : ∀ s n off, inv s → 0 ≤ n < 2 ^ 32 →
    ∃ s', bd_access d n off 0 s = Done ([], s') ∧ inv s' ∧ ∀ k, blk s' k = blk s k;
}.

(** A device whose blocks are a function kept in its state; it checks the range of
    a read the way the ATA driver does. *)
Definition image_dev (size blocks : Z) : block_dev (Z → list Z) :=
  mk_bdev [105; 109; 103] true size blocks
    (fun n => ret n) (fun _ => ret tt)
    (fun n off src => modify (fun img k => if k =? n then
       take (Z.to_nat off) (img n) ++ src ++ drop (Z.to_nat off + length src) (img n) else img k))
    (fun n off len =>
       if len =? 0 then ret [] else
       kassert "off < IDE_SECTOR_SIZE" (off <? size) ;;;
       kassert "off + len <= IDE_SECTOR_SIZE" (u32 (off + len) <=? size) ;;;
       gets (fun img => slice off len (img n))).

Lemma image_dev_ok size blocks :
  0 < size < 2 ^ 32 →
  bdev_ok (image_dev size blocks)
    (fun img => ∀ n, length (img n) = Z.to_nat size ∧ byte_list (img n)) (fun img => img).
Proof.
  intros Hs. split; cbn; try done.
  - lia.
  - intros s n off len H _ Ho Hl Hf. exists s. split; [|done]. unfold bd_access. cbn.
    rewrite (proj2 (Z.eqb_neq len 0)), (proj2 (Z.ltb_lt off size)), u32_small by lia.
    by rewrite (proj2 (Z.leb_le (off + len) size)).
  - intros s n off H _. by exists s.
Qed.

(** ** block/mbr.c *)

Definition MBR_BOOT_SIGNATURE : Z := 43605.
Definition MBR_PART_PRESENT : Z := 128.
Definition MBR_SECTOR_SIZE : Z := 512.

Record mbr_partition := mk_mbr_partition {
  mp_status : Z;
  mp_type : Z;
  mp_lba_first : Z;
  mp_sectors : Z;
}.

(** The packed structure at [off] of the sector: status at 0, type at 4,
    lba_first at 8, sectors at 12. *)
Definition parse_partition (buf : list Z) (off : nat) : mbr_partition :=
  mk_mbr_partition (get8 buf off) (get8 buf (off + 4)) (get32 buf (off + 8)) (get32 buf (off + 12)).

(** [master_boot_record]: the four partitions from 446 on, the signature at 510. *)
Definition master_boot_record (buf : list Z) : mbr_partition * mbr_partition * mbr_partition * mbr_partition * Z :=
  (parse_partition buf 446, parse_partition buf 462, parse_partition buf 478, parse_partition buf 494,
   get16 buf 510).

Section mbr.
Context {D : Type}.

(** [offset] is the private data of the partition device. *)
Definition mbr_part_bd_lock (parent : block_dev D) (valid : bool) (offset num : Z) : M D Z :=
  if negb valid then kpanic "mbr_part_bd_lock(): invalid block device"
  else bd_lock parent (u32 (num + offset)).

Definition mbr_part_bd_unlock (parent : block_dev D) (valid : bool) (index : Z) : M D unit :=
  if negb valid then kpanic "mbr_part_bd_unlock(): invalid block device"
  else bd_unlock parent index.

Definition mbr_part_bd_write (parent : block_dev D) (valid : bool) (index off : Z) (src : list Z) : M D unit :=
  if negb valid then kpanic "mbr_part_bd_write(): invalid block device"
  else bd_write parent index off src.

Definition mbr_part_bd_read (parent : block_dev D) (valid : bool) (index off len : Z) : M D (list Z) :=
  if negb valid then kpanic "mbr_part_bd_read(): invalid block device"
  else bd_read parent index off len.

(** The name is [ksnprintf]'s "%s:%d" in at most 31 characters (one digit: there
    are four partitions). *)
Definition mbr_create_partition (parent : block_dev D) (part_num offset size : Z) : block_dev D :=
  mk_bdev (take 31 (bd_name parent ++ [58; 48 + part_num])) true (bd_block_size parent) size
    (mbr_part_bd_lock parent true offset) (mbr_part_bd_unlock parent true)
    (mbr_part_bd_write parent true) (mbr_part_bd_read parent true).

(** ** block/registry.c *)

Definition MAX_BLOCK_DEVICES : nat := 8.

Record registry := mk_registry {
  bdev_initialized : bool;
  bdev_spinlock : bool;
  block_devices : list (option (block_dev D));
  r_dev : D;
}.

Definition rset_lock (b : bool) (r : registry) : registry :=
  mk_registry (bdev_initialized r) b (block_devices r) (r_dev r).
Definition rset_devices (l : list (option (block_dev D))) (r : registry) : registry :=
  mk_registry (bdev_initialized r) (bdev_spinlock r) l (r_dev r).
Definition rset_dev (d : D) (r : registry) : registry :=
  mk_registry (bdev_initialized r) (bdev_spinlock r) (block_devices r) d.

Definition on_dev {A} (m : M D A) : M registry A := zoom r_dev rset_dev m.

Definition reg_acquire : M registry unit :=
  r <- get ;; if bdev_spinlock r then hang else modify (rset_lock true).
Definition reg_release : M registry unit :=
  r <- get ;;
  if bdev_spinlock r then modify (rset_lock false)
  else kpanic "cpu_spinlock_release(): called on an unheld spinlock".

Definition init_bdev : M registry unit :=
  modify (fun r => mk_registry true false (replicate MAX_BLOCK_DEVICES None) (r_dev r)).

(** The first empty slot takes the device. *)
Fixpoint first_empty (l : list (option (block_dev D))) (d : block_dev D)
    : option (list (option (block_dev D))) :=
  match l with
  | [] => None
  | None :: l' => Some (Some d :: l')
  | Some x :: l' => match first_empty l' d with Some r => Some (Some x :: r) | None => None end
  end.

(** [add] is [bdev_add] for the partition device. *)
Definition mbr_handle_partition (add : block_dev D → M registry unit) (parent : block_dev D)
    (part : mbr_partition) (num : Z) : M registry bool :=
  if negb (mp_status part =? MBR_PART_PRESENT) then ret false else
  kassert "part->lba_first != 0 && part->sectors != 0"
    (negb (mp_lba_first part =? 0) && negb (mp_sectors part =? 0)) ;;;
  kassert "part->lba_first + part->sectors <= parent->num_blocks"
    (u32 (mp_lba_first part + mp_sectors part) <=? bd_num_blocks parent) ;;;
  add (mbr_create_partition parent num (mp_lba_first part) (mp_sectors part)) ;;;
  ret true.

(** [ret = ret || f()]: [f] is called only while [ret] is false. *)
Definition or_else (b : bool) (m : M registry bool) : M registry bool :=
  if b then ret true else m.

Definition mbr_table_scan (add : block_dev D → M registry unit) (bdev : block_dev D) : M registry bool :=
  if negb (bd_valid bdev) then ret false else
  if negb (bd_block_size bdev =? MBR_SECTOR_SIZE) then ret false else
  buf <- on_dev (bd_access bdev 0 0 (bd_block_size bdev)) ;;
  let '(part0, part1, part2, part3, boot_signature) := master_boot_record buf in
  if negb (boot_signature =? MBR_BOOT_SIGNATURE) then ret false else
  r0 <- or_else false (mbr_handle_partition add bdev part0 0) ;;
  r1 <- or_else r0 (mbr_handle_partition add bdev part1 1) ;;
  r2 <- or_else r1 (mbr_handle_partition add bdev part2 2) ;;
  or_else r2 (mbr_handle_partition add bdev part3 3).

(** [fuel] bounds the nesting of partition tables inside partitions. *)
Fixpoint bdev_add (fuel : nat) (dev : block_dev D) : M registry unit :=
  match fuel with
  | O => hang
  | S fuel' =>
      r <- get ;;
      if negb (bdev_initialized r) then kpanic "bdev_add(): not initialized" else
      reg_acquire ;;;
      r <- get ;;
      match first_empty (block_devices r) dev with
      | None => kpanic "bdev_add(): max devices exceeded"
      | Some l =>
          modify (rset_devices l) ;;;
          reg_release ;;;
          _ <- mbr_table_scan (bdev_add fuel') dev ;; ret tt
      end
  end.

(** The loop of [bdev_get] over the slots. *)
Fixpoint find_device (l : list (option (block_dev D))) (name : list Z) : option (block_dev D) :=
  match l with
  | [] => None
  | None :: l' => find_device l' name
  | Some d :: l' =>
      if negb (Nat.eqb (length name) (length (bd_name d))) then find_device l' name
      else if bool_decide (take (length name) (bd_name d) = take (length name) name) then Some d
      else find_device l' name
  end.

Definition bdev_get (name : list Z) : M registry (option (block_dev D)) :=
  r <- get ;;
  if negb (bdev_initialized r) then kpanic "bdev_add(): not initialized" else
  if Z.of_nat (length name) >=? BDEV_MAX_NAME_LENGTH then kpanic "bdev_get(): name too long" else
  reg_acquire ;;;
  r <- get ;;
  let dev := find_device (block_devices r) name in
  reg_release ;;;
  ret dev.

(** ** Lemmas *)

Lemma mbr_access parent num offset size n off len s :
  bd_access (mbr_create_partition parent num offset size) n off len s =
  bd_access parent (u32 (n + offset)) off len s.
Proof. reflexivity. Qed.

Lemma mbr_partition_device parent inv blk num offset size :
  bdev_ok parent inv blk → 0 ≤ offset → offset + size ≤ bd_num_blocks parent →
  bd_num_blocks parent < 2 ^ 32 →
  bdev_ok (mbr_create_partition parent num offset size) inv (fun s n => blk s (n + offset)).
Proof.
  intros [H1 H2 H3 H4] Ho Hn Hb. split; cbn [mbr_create_partition bd_block_size bd_num_blocks].
  - done.
  - intros s n Hs Hr. apply H2; [done|lia].
  - intros s n off len Hs Hr Hoff Hlen Hol. setoid_rewrite mbr_access.
    rewrite u32_small by lia.
    destruct (H3 s (n + offset) off len Hs ltac:(lia) Hoff Hlen Hol) as (s' & E & Hi & Hk).
    exists s'. done.
  - intros s n off Hs Hr. setoid_rewrite mbr_access.
    destruct (H4 s (u32 (n + offset)) off Hs (u32_range _)) as (s' & E & Hi & Hk).
    exists s'. done.
Qed.

(** Free slots of the registry. *)
Definition vacant (r : registry) : nat := length (filter (fun o => o = None) (block_devices r)).

Lemma first_empty_vacant l d l' :
  first_empty l d = Some l' →
  length (filter (fun o => o = None) l) = S (length (filter (fun o => o = None) l')).
Proof.
  revert l'. induction l as [|o l IH]; intros l' E; [done|]. destruct o as [x|]; cbn in E.
  - destruct (first_empty l d) as [r|]; [|done]. injection E as <-.
    rewrite !filter_cons_False by done. by apply IH.
  - injection E as <-. rewrite filter_cons_True, filter_cons_False by done. done.
Qed.

Lemma reg_release_run r :
  bdev_spinlock r = true → reg_release r = Done (tt, rset_lock false r).
Proof. intros E. unfold reg_release, bind, get. by rewrite E. Qed.

(** The device's operations always return or panic. *)
Definition responds (d : block_dev D) : Prop := ∀ n off len s, bd_access d n off len s ≠ Hang.

Lemma responds_partition parent num offset size :
  responds parent → responds (mbr_create_partition parent num offset size).
Proof. intros H n off len s. rewrite mbr_access. apply H. Qed.

(** A computation returns or panics, and leaves the registry unlocked with at
    most [k] vacant slots. *)
Definition settles {A} (k : nat) (o : outcome (A * registry)) : Prop :=
  match o with
  | Done (_, r) => bdev_spinlock r = false ∧ (vacant r ≤ k)%nat
  | Panic _ => True
  | Hang => False
  end.

Lemma handle_settles add parent part num r k :
  responds parent → bdev_spinlock r = false → (vacant r ≤ k)%nat →
  (∀ d, responds d → settles k (add d r)) →
  settles k (mbr_handle_partition add parent part num r).
Proof.
  intros Hp Hl Hv Hadd. unfold mbr_handle_partition.
  destruct (mp_status part =? MBR_PART_PRESENT); cbn [negb]; [|by split].
  unfold bind, kassert, ret, kpanic.
  destruct (negb (mp_lba_first part =? 0) && negb (mp_sectors part =? 0)); [|done].
  destruct (_ <=? _); [|done].
  specialize (Hadd (mbr_create_partition parent num (mp_lba_first part) (mp_sectors part))
    (responds_partition _ _ _ _ Hp)).
  by destruct (add _ r) as [[[] r']| |].
Qed.

Lemma or_else_settles b add parent part num r k :
  responds parent → bdev_spinlock r = false → (vacant r ≤ k)%nat →
  (b = false → ∀ d, responds d → settles k (add d r)) →
  settles k (or_else b (mbr_handle_partition add parent part num) r).
Proof. destruct b; cbn [or_else]; intros; [by split|]. apply handle_settles; auto. Qed.

(** A call that found no partition has not changed the registry. *)
Lemma or_else_false b add parent part num r r' :
  or_else b (mbr_handle_partition add parent part num) r = Done (false, r') → b = false ∧ r' = r.
Proof.
  destruct b; cbn [or_else]; [done|]. unfold mbr_handle_partition.
  destruct (mp_status part =? MBR_PART_PRESENT); cbn [negb]; [|by intros [= <-]].
  intros H. exfalso. revert H. unfold bind, kassert, ret, kpanic.
  destruct (negb (mp_lba_first part =? 0) && negb (mp_sectors part =? 0)); [|done].
  destruct (_ <=? _); [|done]. by destruct (add _ r) as [[[] ?]| |].
Qed.

Lemma scan_settles add bdev r k :
  responds bdev → bdev_spinlock r = false → (vacant r ≤ k)%nat →
  (∀ d s', responds d → settles k (add d (rset_dev s' r))) →
  settles k (mbr_table_scan add bdev r).
Proof.
  intros Hb Hl Hv Hadd. unfold mbr_table_scan.
  destruct (bd_valid bdev); cbn [negb]; [|by split].
  destruct (bd_block_size bdev =? MBR_SECTOR_SIZE); cbn [negb]; [|by split].
  unfold bind at 1, on_dev, zoom. pose proof (Hb 0 0 (bd_block_size bdev) (r_dev r)) as Hn.
  destruct (bd_access bdev 0 0 (bd_block_size bdev) (r_dev r)) as [[buf s']| |]; [|done|done].
  destruct (master_boot_record buf) as [[[[p0 p1] p2] p3] sig].
  destruct (sig =? MBR_BOOT_SIGNATURE); cbn [negb]; [|by split].
  set (r1 := rset_dev s' r).
  assert (Hadd1 : ∀ d, responds d → settles k (add d r1)) by (intros d Hd; by apply Hadd).
  assert (Hstep : ∀ b p n (f : bool → M registry bool) r2, bdev_spinlock r2 = false →
    (vacant r2 ≤ k)%nat → (b = false → r2 = r1) →
    (∀ b' r3, bdev_spinlock r3 = false → (vacant r3 ≤ k)%nat → (b' = false → r3 = r1) →
       settles k (f b' r3)) →
    settles k (bind (or_else b (mbr_handle_partition add bdev p n)) f r2)).
  { intros b p n f r2 Hl2 Hv2 Hb2 Hf. unfold bind.
    pose proof (or_else_settles b add bdev p n r2 k Hb Hl2 Hv2) as Hs.
    destruct (or_else b _ r2) as [[b' r3]| |] eqn:E.
    - destruct Hs as [H1 H2]; [intros ->; by rewrite Hb2|]. apply Hf; [done|done|].
      intros ->. apply or_else_false in E as [-> ->]. by apply Hb2.
    - done.
    - apply Hs. intros ->. by rewrite Hb2. }
  apply Hstep; [done|done|done|]. intros b2 r2 ???. apply Hstep; [done..|].
  intros b3 r3 ???. apply Hstep; [done..|]. intros b4 r4 Hl4 Hv4 Hb4.
  apply or_else_settles; [done..|]. intros ->. by rewrite Hb4.
Qed.

Lemma bdev_add_settles fuel : ∀ dev r,
  responds dev → bdev_spinlock r = false → (vacant r < fuel)%nat →
  settles (vacant r) (bdev_add fuel dev r).
Proof.
  induction fuel as [|fuel IH]; intros dev r Hd Hl Hv; [lia|]. cbn [bdev_add].
  unfold bind at 1, get at 1. destruct (bdev_initialized r); cbn [negb]; [|done].
  unfold bind at 1, reg_acquire, bind at 1, get at 1. rewrite Hl. unfold modify at 1.
  unfold bind at 1, get at 1. cbn [block_devices rset_lock].
  destruct (first_empty (block_devices r) dev) as [l|] eqn:Ef; [|done].
  pose proof (first_empty_vacant _ _ _ Ef) as Hc.
  unfold bind at 1, modify at 1. erewrite bind_run; [|by apply reg_release_run].
  set (r1 := rset_lock false _).
  assert (Hr1 : vacant r = S (vacant r1)) by exact Hc.
  assert (Hs : settles (vacant r1) (mbr_table_scan (bdev_add fuel) dev r1)).
  { apply scan_settles; [done|done|done|]. intros d s' Hd'.
    apply (IH d (rset_dev s' r1) Hd' eq_refl). unfold vacant in *. cbn in *. lia. }
  unfold bind. destruct (mbr_table_scan (bdev_add fuel) dev r1) as [[b r2]| |]; [|done|done].
  destruct Hs as [H1 H2]. split; [done|]. cbn. lia.
Qed.

(** ** The partition a scan registers *)

(** The first present one of a list of numbered partitions. *)
Fixpoint first_present (l : list (Z * mbr_partition)) : option (Z * mbr_partition) :=
  match l with
  | [] => None
  | (n, p) :: l' => if mp_status p =? MBR_PART_PRESENT then Some (n, p) else first_present l'
  end.

Definition partitions (buf : list Z) : list (Z * mbr_partition) :=
  [(0, parse_partition buf 446); (1, parse_partition buf 462);
   (2, parse_partition buf 478); (3, parse_partition buf 494)].

(** The checks of [mbr_handle_partition]. *)
Definition partition_accepted (parent : block_dev D) (p : mbr_partition) : Prop :=
  mp_lba_first p ≠ 0 ∧ mp_sectors p ≠ 0 ∧
  u32 (mp_lba_first p + mp_sectors p) ≤ bd_num_blocks parent.

Lemma handle_absent add parent part num r :
  mp_status part ≠ MBR_PART_PRESENT →
  mbr_handle_partition add parent part num r = Done (false, r).
Proof. intros H. unfold mbr_handle_partition. by rewrite (proj2 (Z.eqb_neq _ _) H). Qed.

Lemma handle_present add parent part num r :
  mp_status part = MBR_PART_PRESENT → partition_accepted parent part →
  mbr_handle_partition add parent part num r =
  (add (mbr_create_partition parent num (mp_lba_first part) (mp_sectors part)) ;;; ret true) r.
Proof.
  intros H (H1 & H2 & H3). unfold mbr_handle_partition.
  rewrite (proj2 (Z.eqb_eq _ _) H). cbn [negb].
  by rewrite (proj2 (Z.eqb_neq _ _) H1), (proj2 (Z.eqb_neq _ _) H2), (proj2 (Z.leb_le _ _) H3).
Qed.

(** Once a partition was handled, the others are skipped. *)
Lemma handled_bind (m : M registry unit) (f : bool → M registry bool) r :
  (∀ r', f true r' = Done (true, r')) → bind (bind m (fun _ => ret true)) f r = bind m (fun _ => ret true) r.
Proof. intros Hf. unfold bind, ret. destruct (m r) as [[[] r']| |]; [apply Hf|done..]. Qed.

Lemma scan_reads add bdev inv blk r :
  bdev_ok bdev inv blk → inv (r_dev r) → bd_valid bdev = true → bd_block_size bdev = MBR_SECTOR_SIZE →
  0 < bd_num_blocks bdev → get16 (blk (r_dev r) 0) 510 = MBR_BOOT_SIGNATURE →
  ∃ s', inv s' ∧ (∀ k, blk s' k = blk (r_dev r) k) ∧
    let buf := blk (r_dev r) 0 in
    mbr_table_scan add bdev r =
      (r0 <- mbr_handle_partition add bdev (parse_partition buf 446) 0 ;;
       r1 <- or_else r0 (mbr_handle_partition add bdev (parse_partition buf 462) 1) ;;
       r2 <- or_else r1 (mbr_handle_partition add bdev (parse_partition buf 478) 2) ;;
       or_else r2 (mbr_handle_partition add bdev (parse_partition buf 494) 3)) (rset_dev s' r).
Proof.
  intros Hok Hi Hv Hsz Hn Hsig.
  destruct (ok_access _ _ _ Hok (r_dev r) 0 0 (bd_block_size bdev)) as (s' & E & Hi' & Hk);
    [done|lia|lia|rewrite Hsz; unfold MBR_SECTOR_SIZE; lia|lia|].
  exists s'. split; [done|]. split; [done|]. cbn zeta. unfold mbr_table_scan. rewrite Hv, Hsz, Z.eqb_refl.
  cbn [negb]. unfold bind at 1, on_dev, zoom. rewrite Hsz in E. rewrite E.
  destruct (ok_block _ _ _ Hok (r_dev r) 0 Hi ltac:(lia)) as [Hl _].
  assert (Hsl : slice 0 MBR_SECTOR_SIZE (blk (r_dev r) 0) = blk (r_dev r) 0).
  { unfold slice. rewrite drop_0. apply take_ge. rewrite Hl, Hsz. done. }
  rewrite Hsl. unfold master_boot_record. rewrite Hsig. rewrite Z.eqb_refl. reflexivity.
Qed.

Lemma scan_first add bdev inv blk r num part :
  bdev_ok bdev inv blk → inv (r_dev r) → bd_valid bdev = true → bd_block_size bdev = MBR_SECTOR_SIZE →
  0 < bd_num_blocks bdev → get16 (blk (r_dev r) 0) 510 = MBR_BOOT_SIGNATURE →
  first_present (partitions (blk (r_dev r) 0)) = Some (num, part) → partition_accepted bdev part →
  ∃ s', inv s' ∧ (∀ k, blk s' k = blk (r_dev r) k) ∧
    mbr_table_scan add bdev r =
    (add (mbr_create_partition bdev num (mp_lba_first part) (mp_sectors part)) ;;; ret true)
      (rset_dev s' r).
Proof.
  intros Hok Hi Hv Hsz Hn Hsig Hf Hacc.
  destruct (scan_reads add bdev inv blk r Hok Hi Hv Hsz Hn Hsig) as (s' & Hi' & Hk & ->).
  exists s'. split; [done|]. split; [done|].
  revert Hf. unfold partitions. set (buf := blk (r_dev r) 0). cbn [first_present].
  destruct (Z.eqb_spec (mp_status (parse_partition buf 446)) MBR_PART_PRESENT) as [E0|E0].
  { intros [= <- <-]. unfold bind at 1. rewrite handle_present by done. by apply handled_bind. }
  rewrite (bind_run _ _ _ _ _ (handle_absent add bdev _ 0 (rset_dev s' r) E0)). cbn [or_else].
  destruct (Z.eqb_spec (mp_status (parse_partition buf 462)) MBR_PART_PRESENT) as [E1|E1].
  { intros [= <- <-]. unfold bind at 1. rewrite handle_present by done. by apply handled_bind. }
  rewrite (bind_run _ _ _ _ _ (handle_absent add bdev _ 1 (rset_dev s' r) E1)). cbn [or_else].
  destruct (Z.eqb_spec (mp_status (parse_partition buf 478)) MBR_PART_PRESENT) as [E2|E2].
  { intros [= <- <-]. unfold bind at 1. rewrite handle_present by done. by apply handled_bind. }
  rewrite (bind_run _ _ _ _ _ (handle_absent add bdev _ 2 (rset_dev s' r) E2)). cbn [or_else].
  destruct (Z.eqb_spec (mp_status (parse_partition buf 494)) MBR_PART_PRESENT) as [E3|E3]; [|done].
  intros [= <- <-]. by apply handle_present.
Qed.
End mbr.
Arguments registry : clear implicits.

(** ** Properties *)

(** A partition device made from an MBR entry inside the parent is a block
    device in its own right: it keeps the whole block-device contract, and its
    block [n] is the parent's block [n + offset]. *)
Theorem mbr_partition_refines {D} (parent : block_dev D) inv blk num offset size :
  bdev_ok parent inv blk → 0 ≤ offset → offset + size ≤ bd_num_blocks parent →
  bd_num_blocks parent < 2 ^ 32 →
  bdev_ok (mbr_create_partition parent num offset size) inv (fun s n => blk s (n + offset)).
Proof. apply mbr_partition_device. Qed.

(** Adding a block device always comes to an end: every nested partition
    table takes a slot of the registry, so with one more level of recursion than
    there are free slots the call returns or panics, and it does not deadlock on
    the registry lock. *)
Theorem bdev_add_terminates {D} (dev : block_dev D) (r : registry D) :
  responds dev → bdev_spinlock r = false → length (block_devices r) = MAX_BLOCK_DEVICES →
  settles (vacant r) (bdev_add (S MAX_BLOCK_DEVICES) dev r).
Proof.
  intros Hd Hl Hn. apply bdev_add_settles; [done|done|].
  unfold vacant. pose proof (length_filter (fun o => o = None) (block_devices r)). lia.
Qed.

(** Scanning a device with an MBR registers exactly one partition, the first
    one that is present; partitions behind it are not looked at. *)
Theorem mbr_scan_registers_first {D} add (bdev : block_dev D) inv blk (r : registry D) num part :
  bdev_ok bdev inv blk → inv (r_dev r) → bd_valid bdev = true → bd_block_size bdev = MBR_SECTOR_SIZE →
  0 < bd_num_blocks bdev → get16 (blk (r_dev r) 0) 510 = MBR_BOOT_SIGNATURE →
  first_present (partitions (blk (r_dev r) 0)) = Some (num, part) → partition_accepted bdev part →
  ∃ s', inv s' ∧ (∀ k, blk s' k = blk (r_dev r) k) ∧
    mbr_table_scan add bdev r =
    (add (mbr_create_partition bdev num (mp_lba_first part) (mp_sectors part)) ;;; ret true)
      (rset_dev s' r).
Proof. apply scan_first. Qed.

(** An MBR with two present partitions: 4 sectors from 1 on, and 3 from 5 on. *)
Definition example_mbr : list Z :=
  replicate 446 0 ++ [128; 0; 0; 0; 12; 0; 0; 0; 1; 0; 0; 0; 4; 0; 0; 0] ++
  [128; 0; 0; 0; 12; 0; 0; 0; 5; 0; 0; 0; 3; 0; 0; 0] ++ replicate 32 0 ++ [85; 170].

Definition example_image (n : Z) : list Z := if n =? 0 then example_mbr else replicate 512 0.

Definition example_dev : block_dev (Z → list Z) := image_dev 512 8.

Definition example_registry : registry (Z → list Z) :=
  mk_registry true false (replicate MAX_BLOCK_DEVICES None) example_image.

Lemma example_image_ok n : length (example_image n) = 512%nat ∧ byte_list (example_image n).
Proof.
  unfold example_image. destruct (n =? 0); split; try reflexivity;
    refine (bool_decide_unpack _ _); vm_compute; exact I.
Qed.

Lemma example_dev_ok :
  bdev_ok example_dev (fun img => ∀ n, length (img n) = 512%nat ∧ byte_list (img n)) (fun img => img).
Proof. apply (image_dev_ok 512 8). lia. Qed.

Lemma example_responds : responds example_dev.
Proof.
  intros n off len s. unfold bd_access. cbn. destruct (len =? 0); [done|].
  destruct (off <? 512); [|done]. by destruct (u32 (off + len) <=? 512).
Qed.

Lemma mbr_partition_refines_witness :
  bdev_ok (mbr_create_partition example_dev 0 1 4)
    (fun img => ∀ n, length (img n) = 512%nat ∧ byte_list (img n)) (fun img n => img (n + 1)).
Proof.
  exact (mbr_partition_refines example_dev _ _ 0 1 4 example_dev_ok
    ltac:(lia) ltac:(cbn; lia) ltac:(cbn; lia)).
Defined.

Lemma bdev_add_terminates_witness :
  settles 8 (bdev_add 9 example_dev example_registry).
Proof. exact (bdev_add_terminates example_dev example_registry example_responds eq_refl eq_refl). Defined.

Lemma example_accepted : partition_accepted example_dev (mk_mbr_partition 128 12 1 4).
Proof. split; [done|]. split; [done|]. by vm_compute. Qed.

Lemma mbr_scan_registers_first_witness :
  ∃ s' r', mbr_table_scan (fun d => modify (rset_devices [Some d])) example_dev example_registry
    = Done (true, r') ∧ block_devices r' = [Some (mbr_create_partition example_dev 0 1 4)] ∧
      r_dev r' = s'.
Proof.
  destruct (mbr_scan_registers_first (fun d => modify (rset_devices [Some d])) example_dev _ _
    example_registry 0 (mk_mbr_partition 128 12 1 4) example_dev_ok example_image_ok eq_refl eq_refl
    ltac:(cbn; lia) ltac:(vm_compute; reflexivity) ltac:(vm_compute; reflexivity) example_accepted)
    as (s' & _ & _ & E).
  exists s'. eexists. split; [exact E|]. split; reflexivity.
Defined.

(** The bounds check of a partition is done in 32 bits: a partition whose end
    wraps around is accepted although it lies outside its parent device. *)
Theorem partition_check_wraps {D} add (parent : block_dev D) (r : registry D) num :
  1 ≤ bd_num_blocks parent →
  mbr_handle_partition add parent (mk_mbr_partition MBR_PART_PRESENT 0 (2 ^ 31) (2 ^ 31 + 1)) num r =
  (add (mbr_create_partition parent num (2 ^ 31) (2 ^ 31 + 1)) ;;; ret true) r.
Proof.
  intros H. apply handle_present; [done|]. split; [done|]. split; [done|].
  change (u32 _) with 1. done.
Qed.

Lemma partition_check_wraps_witness :
  mbr_handle_partition (fun d => modify (rset_devices [Some d])) example_dev
    (mk_mbr_partition MBR_PART_PRESENT 0 (2 ^ 31) (2 ^ 31 + 1)) 0 example_registry
  = Done (true, rset_devices [Some (mbr_create_partition example_dev 0 (2 ^ 31) (2 ^ 31 + 1))] example_registry).
Proof. exact (partition_check_wraps _ example_dev example_registry 0 ltac:(cbn; lia)). Defined.
