(* ===== verification/Fat.v ===== *)
(** * fs/fat_types.h, fs/fat.c and the reading core of fs/fat_core.c

    The FAT driver over any block device that keeps the contract of [BlockDev]:
    the boot sector and the geometry computed from it ([fat_create_super]), the
    allocation table ([fat_read_fat]) and reads along a cluster chain
    ([fat_read]).  The state is the device and the memory the caller's buffers
    are in.  A division by zero is the processor's divide error. *)

From stdpp Require Import base list strings.
From Stdlib Require Import ZArith Lia.
From S2P Require Import Prelude Memory KUtils BlockDev.

(** ** fat_types.h *)

Definition FAT_ENTRY_SIZE : Z := 32.
Definition FAT_CLUSTER_OFFSET : Z := 2.
Definition FAT_OK : Z := 0.
Definition FAT_LAST_CLUSTER : Z := -1.
Definition FAT_BAD_CLUSTER : Z := -2.
Definition FAT_ERROR : Z := -3.
Definition FAT_SYSTEM : Z := 4.
Definition FAT_DIRECTORY : Z := 16.
Definition sizeof_bootsec : Z := 90.

Inductive fat_type : Type := FAT12 | FAT16 | FAT32 | ExFAT.

(** The fields of the boot sector the driver uses. *)
Record fat_bootsec := mk_bootsec {
  bytes_per_sector : Z;
  sectors_per_cluster : Z;
  reserved_sector_count : Z;
  table_count : Z;
  root_entry_count : Z;
  total_sectors_16 : Z;
  table_size_16 : Z;
  total_sectors_32 : Z;
  label16 : list Z;
  table_size_32 : Z;
  root_cluster : Z;
  label32 : list Z;
}.

(** The packed structure read from the disk; [ext16] and [ext32] overlap. *)
Definition parse_bootsec (b : list Z) : fat_bootsec :=
  mk_bootsec (get16 b 11) (get8 b 13) (get16 b 14) (get8 b 16) (get16 b 17) (get16 b 19)
    (get16 b 22) (get32 b 32) (take 8 (drop 54 b)) (get32 b 36) (get32 b 44) (take 8 (drop 82 b)).

(** [fat_get_entry_cluster] on the 32 bytes of a directory entry. *)
Definition fat_get_entry_cluster (e : list Z) : Z :=
  Z.lor (Z.shiftl (get16 e 20) 16) (get16 e 26).

(** ** fat_vfs.h: what the driver keeps of a volume *)

Record fat_super := mk_super {
  bs : fat_bootsec;
  fs_type : fat_type;
  num_sectors : Z;
  fat_size : Z;
  num_root_dir_sectors : Z;
  first_data_sector : Z;
  first_fat_sector : Z;
  num_data_sectors : Z;
  num_clusters : Z;
  first_root_dir_sector : Z;
  entries_per_cluster : Z;
  bytes_per_cluster : Z;
  root_attributes : Z;
  root_cluster_high : Z;
  root_cluster_low : Z;
}.

Definition fat_first_sector_of_cluster (spc data cluster : Z) : Z :=
  u32 ((cluster - FAT_CLUSTER_OFFSET) * spc + data).

Lemma mod_keeps_multiple c b : 0 < b → b mod 4 = 0 → ((c * 4) mod b) mod 4 = 0.
Proof.
  intros Hb Hm. assert (∃ q, b = 4 * q ∧ 0 < q) as (q & -> & Hq).
  { exists (b / 4). pose proof (Z.div_mod b 4 ltac:(lia)). lia. }
  rewrite (Z.mul_comm c), Z.mul_mod_distr_l by lia. rewrite (Z.mul_comm 4). by apply Z.mod_mul.
Qed.

Section fat.
Context {D : Type} (bdev : block_dev D).

Record fstate := mk_fstate { f_dev : D; f_mem : mem }.

Definition fset_dev (d : D) (s : fstate) : fstate := mk_fstate d (f_mem s).
Definition fset_mem (m : mem) (s : fstate) : fstate := mk_fstate (f_dev s) m.
Definition dev {A} (m : M D A) : M fstate A := zoom f_dev fset_dev m.

(** Unsigned division and remainder. *)
Definition udiv (a b : Z) : M fstate Z := if b =? 0 then kpanic "divide error" else ret (a / b).
Definition umod (a b : Z) : M fstate Z := if b =? 0 then kpanic "divide error" else ret (a mod b).

(** ** fat.c *)

Definition fat_check_label (label : list Z) : bool := bool_decide (take 3 label = [70; 65; 84]).

Definition fat_create_super : M fstate (option fat_super) :=
  raw <- dev (bd_access bdev 0 0 sizeof_bootsec) ;;
  let bs := parse_bootsec raw in
  if negb (fat_check_label (label16 bs)) && negb (fat_check_label (label32 bs)) then ret None else
  if negb (bytes_per_sector bs =? bd_block_size bdev) then ret None else
  let num_sectors := if negb (total_sectors_16 bs =? 0) then total_sectors_16 bs else total_sectors_32 bs in
  let fat_size := if negb (table_size_16 bs =? 0) then table_size_16 bs else table_size_32 bs in
  num_root_dir_sectors <- udiv (root_entry_count bs * FAT_ENTRY_SIZE + bytes_per_sector bs - 1)
                            (bytes_per_sector bs) ;;
  let num_data_sectors := u32 (num_sectors -
        (reserved_sector_count bs + table_count bs * fat_size + num_root_dir_sectors)) in
  num_clusters <- udiv num_data_sectors (sectors_per_cluster bs) ;;
  if num_clusters <? 4085 then ret None
  else if num_clusters <? 65525 then ret None
  else if negb (num_clusters <? 268435445) then ret None else
  let first_data_sector :=
    u32 (reserved_sector_count bs + table_count bs * fat_size + num_root_dir_sectors) in
  let first_root_dir_sector :=
    fat_first_sector_of_cluster (sectors_per_cluster bs) first_data_sector (root_cluster bs) in
  let bytes_per_cluster := sectors_per_cluster bs * bytes_per_sector bs in
  kassert "((bs->sectors_per_cluster * bs->bytes_per_sector) % FAT_ENTRY_SIZE) == 0"
    (bytes_per_cluster mod FAT_ENTRY_SIZE =? 0) ;;;
  ret (Some (mk_super bs FAT32 num_sectors fat_size num_root_dir_sectors first_data_sector
    (reserved_sector_count bs) num_data_sectors num_clusters first_root_dir_sector
    (bytes_per_cluster / FAT_ENTRY_SIZE) bytes_per_cluster (Z.lor FAT_SYSTEM FAT_DIRECTORY)
    (Z.land (Z.shiftr (root_cluster bs) 16) 65535) (Z.land (root_cluster bs) 65535))).

(** ** fat_core.c *)

(** The status and the cluster number [fat_read_fat] writes. *)
Definition fat_read_fat (sup : fat_super) (cluster : Z) : M fstate (Z * Z) :=
  let go fat_offset :=
    q <- udiv fat_offset (bytes_per_sector (bs sup)) ;;
    ent_offset <- umod fat_offset (bytes_per_sector (bs sup)) ;;
    raw <- dev (bd_access bdev (u32 (first_fat_sector sup + q)) ent_offset 4) ;;
    match fs_type sup with
    | FAT12 =>
        let e := get16 raw 0 in
        let next := if Z.land cluster 1 =? 0 then Z.land e 4095 else Z.shiftr e 4 in
        if next >=? 4088 then ret (FAT_LAST_CLUSTER, next)
        else if next =? 4087 then ret (FAT_BAD_CLUSTER, next) else ret (FAT_OK, next)
    | FAT16 =>
        let next := get16 raw 0 in
        if next >=? 65528 then ret (FAT_LAST_CLUSTER, next)
        else if next =? 65527 then ret (FAT_BAD_CLUSTER, next) else ret (FAT_OK, next)
    | FAT32 =>
        let next := Z.land (get32 raw 0) 268435455 in
        if next >=? 268435448 then ret (FAT_LAST_CLUSTER, next)
        else if next =? 268435447 then ret (FAT_BAD_CLUSTER, next) else ret (FAT_OK, next)
    | ExFAT => kpanic "fat_read_fat(): ExFAT is unsupported"
    end in
  match fs_type sup with
  | FAT12 => go (u32 (cluster + cluster / 2))
  | FAT16 => go (u32 (cluster * 2))
  | FAT32 => go (u32 (cluster * 4))
  | ExFAT => ret (FAT_ERROR, 0)
  end.

(** [while (cl_i > 0)]: the cluster [cl_i] links further on, if there is one. *)
Fixpoint follow_chain (sup : fat_super) (cl_i : nat) (cl : Z) : M fstate (option Z) :=
  match cl_i with
  | O => ret (Some cl)
  | S cl_i' =>
      r <- fat_read_fat sup cl ;;
      if negb (fst r =? FAT_OK) then ret None else follow_chain sup cl_i' (snd r)
  end.

(** One iteration of the loop over the sectors of a cluster, on
    [(num_read, num, initial_offset)]. *)
Definition read_block (sup : fat_super) (buf first_sector bl_i : Z) (st : Z * Z * Z)
    : M fstate (Z * Z * Z) :=
  let '(num_read, num, initial_offset) := st in
  let bps := bytes_per_sector (bs sup) in
  let bl_portion :=
    if u32 (num + initial_offset) >? bps then u32 (bps - initial_offset) else u32 num in
  l <- dev (bd_access bdev (u32 (first_sector + bl_i)) initial_offset bl_portion) ;;
  modify (fun s => fset_mem (write_bytes (f_mem s) (buf + num_read) l) s) ;;;
  ret (s32 (num_read + bl_portion), s32 (num - bl_portion), 0).

Fixpoint read_blocks (sup : fat_super) (buf first_sector : Z) (n : nat) (bl_i : Z) (st : Z * Z * Z)
    : M fstate (Z * Z * Z) :=
  match n with
  | O => ret st
  | S n' =>
      st' <- read_block sup buf first_sector bl_i st ;;
      read_blocks sup buf first_sector n' (bl_i + 1) st'
  end.

(** [while (num > 0)]. *)
Fixpoint read_clusters (fuel : nat) (sup : fat_super) (buf cl : Z) (st : Z * Z * Z) : M fstate Z :=
  let '(num_read, num, initial_offset) := st in
  if negb (num >? 0) then ret num_read else
  match fuel with
  | O => hang
  | S fuel' =>
      let cl_first_sector :=
        fat_first_sector_of_cluster (sectors_per_cluster (bs sup)) (first_data_sector sup) cl in
      let cl_portion :=
        if u32 (num + initial_offset) >? bytes_per_cluster sup
        then u32 (bytes_per_cluster sup - initial_offset) else u32 num in
      q <- udiv cl_portion (sectors_per_cluster (bs sup)) ;;
      st' <- read_blocks sup buf cl_first_sector (Z.to_nat q + 1) 0 st ;;
      let '(num_read', num', _) := st' in
      if num' =? 0 then ret num_read' else
      r <- fat_read_fat sup cl ;;
      if negb (fst r =? FAT_OK) then ret 0 else read_clusters fuel' sup buf (snd r) st'
  end.

(** Every iteration after the first one reads at least a byte, and the first one
    leaves at most [num + bytes_per_cluster] bytes to read. *)
Definition read_fuel (sup : fat_super) (num : Z) : nat := Z.to_nat (num + bytes_per_cluster sup) + 2.

Definition fat_read (sup : fat_super) (first_cluster buf off num : Z) : M fstate Z :=
  if num <=? 0 then ret 0 else
  cl_i <- udiv off (bytes_per_cluster sup) ;;
  initial_offset <- umod off (bytes_per_cluster sup) ;;
  cl <- follow_chain sup (Z.to_nat cl_i) first_cluster ;;
  match cl with
  | None => ret 0
  | Some cl => read_clusters (read_fuel sup num) sup buf cl (0, num, initial_offset)
  end.

(** ** Lemmas *)

Section proofs.
Context (inv : D → Prop) (blk : D → Z → list Z) (Hdev : bdev_ok bdev inv blk).

(** The geometry [fat_create_super] establishes. *)
Record geometry (sup : fat_super) : Prop := {
  g_type : fs_type sup = FAT32;
  g_bps : bytes_per_sector (bs sup) = bd_block_size bdev;
  g_bps_range : 4 ≤ bytes_per_sector (bs sup) < 2 ^ 16;
  g_bps_mod : bytes_per_sector (bs sup) mod 4 = 0;
  g_spc : 0 < sectors_per_cluster (bs sup) < 2 ^ 8;
  g_bpc : bytes_per_cluster sup = sectors_per_cluster (bs sup) * bytes_per_sector (bs sup);
}.

(** The disk and the memory a computation leaves: the same blocks, memory [m]. *)
Definition leaves (s s' : fstate) (m : mem) : Prop :=
  inv (f_dev s') ∧ (∀ k, blk (f_dev s') k = blk (f_dev s) k) ∧ f_mem s' = m.

Lemma dev_run {A} (m : M D A) s a d' :
  m (f_dev s) = Done (a, d') → dev m s = Done (a, fset_dev d' s).
Proof. intros E. unfold dev, zoom. by rewrite E. Qed.

Lemma udiv_run a b s : b ≠ 0 → udiv a b s = Done (a / b, s).
Proof. intros H. unfold udiv. by rewrite (proj2 (Z.eqb_neq _ _) H). Qed.

Lemma umod_run a b s : b ≠ 0 → umod a b s = Done (a mod b, s).
Proof. intros H. unfold umod. by rewrite (proj2 (Z.eqb_neq _ _) H). Qed.

(** The 28-bit entry of [cl] in the allocation table on disk [d]. *)
Definition fat_sector (sup : fat_super) (cl : Z) : Z :=
  u32 (first_fat_sector sup + cl * 4 / bytes_per_sector (bs sup)).
Definition fat_link (sup : fat_super) (d : D) (cl : Z) : Z :=
  Z.land (get32 (slice ((cl * 4) mod bytes_per_sector (bs sup)) 4 (blk d (fat_sector sup cl))) 0) 268435455.

Definition link_status (next : Z) : Z :=
  if next >=? 268435448 then FAT_LAST_CLUSTER
  else if next =? 268435447 then FAT_BAD_CLUSTER else FAT_OK.

(** The table entry of [cl] is on the device. *)
Definition in_fat (sup : fat_super) (cl : Z) : Prop :=
  0 ≤ cl < 2 ^ 30 ∧ fat_sector sup cl < bd_num_blocks bdev.

Lemma fat_read_fat_run sup s cl :
  geometry sup → inv (f_dev s) → in_fat sup cl →
  ∃ s', fat_read_fat sup cl s =
          Done ((link_status (fat_link sup (f_dev s) cl), fat_link sup (f_dev s) cl), s') ∧
        leaves s s' (f_mem s).
Proof.
  intros [Ht Hb Hr Hm Hs Hc] Hi [Hcl Hsec]. unfold fat_read_fat. rewrite Ht.
  rewrite (u32_small (cl * 4)) by lia.
  erewrite bind_run; [|apply udiv_run; lia].
  erewrite bind_run; [|apply umod_run; lia].
  set (bps := bytes_per_sector (bs sup)) in *.
  pose proof (Z.mod_pos_bound (cl * 4) bps ltac:(lia)) as Ho.
  pose proof (mod_keeps_multiple cl bps ltac:(lia) Hm) as Ho4.
  assert (Hfit : (cl * 4) mod bps + 4 ≤ bd_block_size bdev).
  { rewrite <- Hb. fold bps. pose proof (Z.div_mod ((cl * 4) mod bps) 4 ltac:(lia)).
    pose proof (Z.div_mod bps 4 ltac:(lia)). lia. }
  fold bps. change (u32 (first_fat_sector sup + cl * 4 / bps)) with (fat_sector sup cl).
  destruct (ok_access _ _ _ Hdev (f_dev s) (fat_sector sup cl) ((cl * 4) mod bps) 4 Hi
    (conj (proj1 (u32_range _)) Hsec) ltac:(lia) ltac:(lia) Hfit) as (d' & E & Hi' & Hk).
  rewrite (bind_run _ _ _ _ _ (dev_run _ _ _ _ E)).
  exists (fset_dev d' s). split; [|done]. unfold link_status, fat_link. fold bps.
  destruct (_ >=? 268435448); [done|]. by destruct (_ =? 268435447).
Qed.

(** Following [n] links from [cl]. *)
Fixpoint nth_cluster (sup : fat_super) (d : D) (n : nat) (cl : Z) : option Z :=
  match n with
  | O => Some cl
  | S n' => if link_status (fat_link sup d cl) =? FAT_OK
            then nth_cluster sup d n' (fat_link sup d cl) else None
  end.

(** The table entries of the first [n] clusters of the chain are on the device. *)
Fixpoint chain_ok (sup : fat_super) (d : D) (n : nat) (cl : Z) : Prop :=
  match n with
  | O => True
  | S n' => in_fat sup cl ∧ (link_status (fat_link sup d cl) = FAT_OK →
                             chain_ok sup d n' (fat_link sup d cl))
  end.

Lemma fat_link_ext sup d d' cl : (∀ k, blk d' k = blk d k) → fat_link sup d' cl = fat_link sup d cl.
Proof. intros H. unfold fat_link. by rewrite H. Qed.

Lemma nth_cluster_ext sup d d' n cl :
  (∀ k, blk d' k = blk d k) → nth_cluster sup d' n cl = nth_cluster sup d n cl.
Proof.
  intros H. revert cl. induction n as [|n IH]; intros cl; [done|]. cbn [nth_cluster].
  rewrite (fat_link_ext sup d d' cl H). destruct (_ =? _); [apply IH|done].
Qed.

Lemma chain_ok_ext sup d d' n cl :
  (∀ k, blk d' k = blk d k) → chain_ok sup d n cl → chain_ok sup d' n cl.
Proof.
  intros H. revert cl. induction n as [|n IH]; intros cl; [done|]. cbn [chain_ok].
  rewrite (fat_link_ext sup d d' cl H). intros [H1 H2]. split; [done|]. intros E. by apply IH, H2.
Qed.

Lemma leaves_trans s s1 s2 m1 m2 : leaves s s1 m1 → leaves s1 s2 m2 → leaves s s2 m2.
Proof. intros (H1 & H2 & H3) (G1 & G2 & G3). split; [done|]. split; [|done]. intros k. by rewrite G2, H2. Qed.

Lemma follow_chain_run sup n : ∀ s cl,
  geometry sup → inv (f_dev s) → chain_ok sup (f_dev s) n cl →
  ∃ s', follow_chain sup n cl s = Done (nth_cluster sup (f_dev s) n cl, s') ∧ leaves s s' (f_mem s).
Proof.
  induction n as [|n IH]; intros s cl Hg Hi Hc; [by exists s|]. cbn [follow_chain].
  destruct Hc as [Hc1 Hc2]. destruct (fat_read_fat_run sup s cl Hg Hi Hc1) as (s1 & E1 & L1).
  rewrite (bind_run _ _ _ _ _ E1). cbn [fst snd nth_cluster].
  destruct (Z.eqb_spec (link_status (fat_link sup (f_dev s) cl)) FAT_OK) as [E|E]; cbn [negb].
  - destruct L1 as (Hi1 & Hk1 & Hm1).
    destruct (IH s1 (fat_link sup (f_dev s) cl) Hg Hi1) as (s' & E' & L').
    { by apply (chain_ok_ext sup (f_dev s)), Hc2. }
    exists s'. rewrite E', (nth_cluster_ext sup (f_dev s)) by done. split; [done|].
    rewrite Hm1 in L'. by apply (leaves_trans s s1 s' (f_mem s)).
  - by exists s1.
Qed.

(** Nothing is left to read: the remaining iterations only touch the device. *)
Lemma read_blocks_idle sup buf sec nr n : ∀ i s,
  geometry sup → inv (f_dev s) → 0 ≤ nr < 2 ^ 31 →
  ∃ s', read_blocks sup buf sec n i (nr, 0, 0) s = Done ((nr, 0, 0), s') ∧ leaves s s' (f_mem s).
Proof.
  intros i s Hg. revert i s. induction n as [|n IH]; intros i s Hi Hnr; [by exists s|].
  cbn [read_blocks]. unfold read_block at 1.
  change (u32 (0 + 0)) with 0. change (u32 0) with 0. destruct Hg as [Ht Hb Hr Hm Hs Hc].
  rewrite (Z.gtb_ltb 0), (proj2 (Z.ltb_ge (bytes_per_sector (bs sup)) 0)) by lia.
  destruct (ok_touch _ _ _ Hdev (f_dev s) (u32 (sec + i)) 0 Hi (u32_range _)) as (d' & E & Hi' & Hk).
  rewrite <- bind_assoc_run. rewrite (bind_run _ _ _ _ _ (dev_run _ _ _ _ E)).
  unfold bind at 1, modify, bind at 1, ret at 1. cbn [f_mem fset_dev write_bytes].
  rewrite Z.add_0_r, (s32_small nr) by lia. change (s32 (0 - 0)) with 0.
  destruct (IH (i + 1) (fset_mem (f_mem s) (fset_dev d' s))) as (s' & E' & L'); [done|done|].
  exists s'. split; [exact E'|]. by apply (leaves_trans s (fset_dev d' s) s' (f_mem s)).
Qed.

Lemma read_block_run sup buf sec i s nr num off :
  geometry sup → inv (f_dev s) → 0 < num → 0 ≤ off → off + num ≤ bytes_per_sector (bs sup) →
  0 ≤ nr → nr + num < 2 ^ 31 → u32 (sec + i) < bd_num_blocks bdev →
  ∃ s', read_block sup buf sec i (nr, num, off) s = Done ((nr + num, 0, 0), s') ∧
    leaves s s' (write_bytes (f_mem s) (buf + nr) (slice off num (blk (f_dev s) (u32 (sec + i))))).
Proof.
  intros [Ht Hb Hr Hm Hs Hc] Hi Hn Ho Hfit Hnr Hnum Hsec. unfold read_block.
  rewrite (u32_small (num + off)), (u32_small num) by lia.
  rewrite (Z.gtb_ltb (num + off)), (proj2 (Z.ltb_ge (bytes_per_sector (bs sup)) (num + off))) by lia.
  destruct (ok_access _ _ _ Hdev (f_dev s) (u32 (sec + i)) off num Hi
    (conj (proj1 (u32_range _)) Hsec) Ho Hn ltac:(lia)) as (d' & E & Hi' & Hk).
  rewrite (bind_run _ _ _ _ _ (dev_run _ _ _ _ E)).
  unfold bind, modify, ret. cbn [f_mem fset_dev].
  rewrite (s32_small (nr + num)) by lia. replace (num - num) with 0 by lia. change (s32 0) with 0.
  eexists. split; [reflexivity|]. done.
Qed.

(** The sector of the cluster [cl]. *)
Definition cluster_sector (sup : fat_super) (cl : Z) : Z :=
  fat_first_sector_of_cluster (sectors_per_cluster (bs sup)) (first_data_sector sup) cl.

(** Where a read of [num] bytes at [off] finds its data: in the first sector of
    the cluster [cl], which the chain from [first] reaches. *)
Record in_first_sector (sup : fat_super) (d : D) (first off num cl : Z) : Prop := {
  fs_off : 0 ≤ off < 2 ^ 32;
  fs_num : 0 < num;
  fs_fit : off mod bytes_per_cluster sup + num ≤ bytes_per_sector (bs sup);
  fs_chain : chain_ok sup d (Z.to_nat (off / bytes_per_cluster sup)) first;
  fs_cl : nth_cluster sup d (Z.to_nat (off / bytes_per_cluster sup)) first = Some cl;
  fs_sec : cluster_sector sup cl < bd_num_blocks bdev;
}.

Lemma fat_read_run sup s first buf off num cl :
  geometry sup → inv (f_dev s) → in_first_sector sup (f_dev s) first off num cl →
  ∃ s', fat_read sup first buf off num s = Done (num, s') ∧
    leaves s s' (write_bytes (f_mem s) buf
      (slice (off mod bytes_per_cluster sup) num (blk (f_dev s) (cluster_sector sup cl)))).
Proof.
  intros Hg Hi [Ho Hn Hfit Hch Hcl Hsec]. pose proof Hg as [Ht Hb Hr Hm Hs Hc].
  assert (Hbpc : 0 < bytes_per_cluster sup) by (rewrite Hc; nia).
  assert (Hge : bytes_per_sector (bs sup) ≤ bytes_per_cluster sup) by (rewrite Hc; nia).
  pose proof (Z.mod_pos_bound off _ Hbpc) as Hmod.
  unfold fat_read. rewrite (proj2 (Z.leb_gt num 0)) by lia.
  erewrite bind_run; [|apply udiv_run; lia]. erewrite bind_run; [|apply umod_run; lia].
  destruct (follow_chain_run sup _ s first Hg Hi Hch) as (s1 & E1 & Hi1 & Hk1 & Hm1).
  rewrite (bind_run _ _ _ _ _ E1), Hcl. unfold read_fuel. rewrite Nat.add_comm. cbn [Nat.add].
  set (io := off mod bytes_per_cluster sup) in *. cbn [read_clusters].
  rewrite Z.gtb_ltb, (proj2 (Z.ltb_lt 0 num)) by lia. cbn [negb].
  rewrite (u32_small (num + io)), (u32_small num) by lia.
  rewrite (Z.gtb_ltb (num + io)), (proj2 (Z.ltb_ge (bytes_per_cluster sup) (num + io))) by lia.
  erewrite bind_run; [|apply udiv_run; lia].
  rewrite Nat.add_comm. cbn [Nat.add read_blocks].
  fold (cluster_sector sup cl). set (q := Z.to_nat _).
  assert (Hsec0 : u32 (cluster_sector sup cl + 0) = cluster_sector sup cl).
  { rewrite Z.add_0_r. apply u32_u32. }
  destruct (read_block_run sup buf (cluster_sector sup cl) 0 s1 0 num io Hg Hi1) as (s2 & E2 & L2); try lia.
  rewrite Z.add_0_l in E2. rewrite (Z.add_0_r buf), Hsec0, Hk1, Hm1 in L2.
  pose proof L2 as (Hi2 & Hk2 & Hm2).
  destruct (read_blocks_idle sup buf (cluster_sector sup cl) num q 1 s2 Hg Hi2 ltac:(lia)) as (s3 & E3 & L3).
  erewrite bind_run; [|rewrite (bind_run _ _ _ _ _ E2); exact E3]. cbn.
  exists s3. split; [done|]. rewrite Hm2 in L3.
  apply (leaves_trans s s2 s3 _ _ (leaves_trans s s1 s2 (f_mem s) _ (conj Hi1 (conj Hk1 Hm1)) L2) L3).
Qed.

(** The chain ends before the cluster [off] is in. *)
Lemma fat_read_short sup s first buf off num :
  geometry sup → inv (f_dev s) → 0 < num →
  chain_ok sup (f_dev s) (Z.to_nat (off / bytes_per_cluster sup)) first →
  nth_cluster sup (f_dev s) (Z.to_nat (off / bytes_per_cluster sup)) first = None →
  ∃ s', fat_read sup first buf off num s = Done (0, s') ∧ leaves s s' (f_mem s).
Proof.
  intros Hg Hi Hn Hch Hcl. pose proof Hg as [Ht Hb Hr Hm Hs Hc].
  assert (Hbpc : 0 < bytes_per_cluster sup) by (rewrite Hc; nia).
  unfold fat_read. rewrite (proj2 (Z.leb_gt num 0)) by lia.
  erewrite bind_run; [|apply udiv_run; lia]. erewrite bind_run; [|apply umod_run; lia].
  destruct (follow_chain_run sup _ s first Hg Hi Hch) as (s1 & E1 & L1).
  rewrite (bind_run _ _ _ _ _ E1), Hcl. by exists s1.
Qed.

(** ** Mounting *)

(** The geometry the boot sector describes. *)
Definition boot_sectors (b : fat_bootsec) : Z :=
  if negb (total_sectors_16 b =? 0) then total_sectors_16 b else total_sectors_32 b.
Definition boot_fat_size (b : fat_bootsec) : Z :=
  if negb (table_size_16 b =? 0) then table_size_16 b else table_size_32 b.
Definition boot_metadata (b : fat_bootsec) : Z :=
  reserved_sector_count b + table_count b * boot_fat_size b +
  (root_entry_count b * FAT_ENTRY_SIZE + bytes_per_sector b - 1) / bytes_per_sector b.
Definition boot_clusters (b : fat_bootsec) : Z :=
  u32 (boot_sectors b - boot_metadata b) / sectors_per_cluster b.

(** The volumes the driver accepts. *)
Definition mountable (b : fat_bootsec) : bool :=
  (fat_check_label (label16 b) || fat_check_label (label32 b)) &&
  (bytes_per_sector b =? bd_block_size bdev) &&
  (65525 <=? boot_clusters b) && (boot_clusters b <? 268435445).

Lemma fat_create_super_run s :
  inv (f_dev s) → sizeof_bootsec ≤ bd_block_size bdev < 2 ^ 16 → bd_block_size bdev mod 4 = 0 →
  0 < bd_num_blocks bdev →
  let b := parse_bootsec (slice 0 sizeof_bootsec (blk (f_dev s) 0)) in
  0 < sectors_per_cluster b < 2 ^ 8 →
  (sectors_per_cluster b * bytes_per_sector b) mod FAT_ENTRY_SIZE = 0 →
  ∃ r s', fat_create_super s = Done (r, s') ∧ leaves s s' (f_mem s) ∧
    if mountable b then
      ∃ sup, r = Some sup ∧ geometry sup ∧ bs sup = b ∧ num_clusters sup = boot_clusters b ∧
        first_data_sector sup = u32 (boot_metadata b) ∧
        first_fat_sector sup = reserved_sector_count b ∧ num_sectors sup = boot_sectors b
    else r = None.
Proof.
  intros Hi Hbs Hb4 Hn b Hspc Hbpc. unfold fat_create_super.
  destruct (ok_access _ _ _ Hdev (f_dev s) 0 0 sizeof_bootsec Hi) as (d' & E & Hi' & Hk);
    [lia|lia|done|lia|].
  rewrite (bind_run _ _ _ _ _ (dev_run _ _ _ _ E)). fold b. cbv zeta. set (s1 := fset_dev d' s).
  assert (L : leaves s s1 (f_mem s)) by done.
  unfold mountable. destruct (fat_check_label (label16 b)) eqn:El16, (fat_check_label (label32 b)) eqn:El32;
    cbn [negb andb orb]; [| | |by exists None, s1].
  all: destruct (Z.eqb_spec (bytes_per_sector b) (bd_block_size bdev)) as [Eb|Eb];
    cbn [negb andb]; [|by exists None, s1].
  all: erewrite bind_run; [|apply udiv_run; rewrite Eb; unfold sizeof_bootsec in *; lia].
  all: fold (boot_sectors b) (boot_fat_size b) (boot_metadata b).
  all: erewrite bind_run; [|apply udiv_run; lia].
  all: fold (boot_clusters b).
  all: destruct (Z.ltb_spec (boot_clusters b) 4085), (Z.ltb_spec (boot_clusters b) 65525),
    (Z.leb_spec 65525 (boot_clusters b)), (Z.ltb_spec (boot_clusters b) 268435445);
    cbn [negb andb]; try lia; try (by exists None, s1).
  all: rewrite Hbpc; cbn [Z.eqb kassert]; unfold bind at 1, ret at 1; eexists _, s1.
  all: split; [reflexivity|]; split; [exact L|]; eexists; split; [reflexivity|].
  all: split; [|done]; split; cbn [fs_type bs bytes_per_cluster]; try done; try lia.
  all: rewrite Eb; unfold sizeof_bootsec in *; done || lia.
Qed.

(** Every cluster of a mounted volume lies inside it, when the metadata does. *)
Lemma cluster_in_volume sup b cl :
  bs sup = b → num_clusters sup = boot_clusters b → first_data_sector sup = u32 (boot_metadata b) →
  0 < sectors_per_cluster b → 0 ≤ boot_metadata b ≤ boot_sectors b → boot_sectors b < 2 ^ 32 →
  2 ≤ cl < num_clusters sup + 2 →
  boot_metadata b ≤ cluster_sector sup cl ∧
  cluster_sector sup cl + sectors_per_cluster b ≤ boot_sectors b.
Proof.
  intros Hb Hc Hd Hs Hm Hlt Hcl. unfold cluster_sector, fat_first_sector_of_cluster.
  rewrite Hd, Hb, (u32_small (boot_metadata b)) by lia. unfold boot_clusters in Hc.
  rewrite u32_small in Hc by lia.
  assert (Hub : (cl - 2) * sectors_per_cluster b + sectors_per_cluster b ≤ boot_sectors b - boot_metadata b).
  { pose proof (Z.mul_div_le (boot_sectors b - boot_metadata b) (sectors_per_cluster b) Hs). nia. }
  unfold FAT_CLUSTER_OFFSET. rewrite u32_small by nia. nia.
Qed.
End proofs.
End fat.
Arguments fstate : clear implicits.
Arguments mk_fstate {D}.
Arguments f_dev {D}.
Arguments f_mem {D}.

(** ** Properties *)

(** Reading from a file follows the cluster chain in the allocation table on
    disk and stores exactly the requested bytes of the volume at the buffer, when
    the range lies in the first sector of a cluster; nothing else in memory and
    nothing on the disk changes. *)
Theorem fat_read_correct {D} (bdev : block_dev D) inv blk sup s first buf off num cl :
  bdev_ok bdev inv blk → geometry bdev sup → inv (f_dev s) →
  in_first_sector bdev blk sup (f_dev s) first off num cl →
  ∃ s', fat_read bdev sup first buf off num s = Done (num, s') ∧
    leaves inv blk s s' (write_bytes (f_mem s) buf
      (slice (off mod bytes_per_cluster sup) num (blk (f_dev s) (cluster_sector sup cl)))).
Proof. intros Hd. by apply fat_read_run. Qed.

(** The next cluster read from the allocation table of a FAT32 volume is the
    low 28 bits of the table entry, with the status that tells the end of the
    chain and bad clusters apart. *)
Theorem fat_read_fat_correct {D} (bdev : block_dev D) inv blk sup s cl :
  bdev_ok bdev inv blk → geometry bdev sup → inv (f_dev s) → in_fat bdev sup cl →
  ∃ s', fat_read_fat bdev sup cl s =
          Done ((link_status (fat_link blk sup (f_dev s) cl), fat_link blk sup (f_dev s) cl), s') ∧
        leaves inv blk s s' (f_mem s).
Proof. intros Hd. by apply fat_read_fat_run. Qed.

(** Mounting accepts exactly the volumes whose boot sector carries a FAT label,
    has the device's sector size and describes a FAT32 number of clusters; the
    superblock then has the geometry reads rely on, and every data cluster lies
    inside the volume when its metadata does. *)
Theorem fat_mount_correct {D} (bdev : block_dev D) inv blk (s : fstate D) :
  bdev_ok bdev inv blk → inv (f_dev s) → sizeof_bootsec ≤ bd_block_size bdev < 2 ^ 16 →
  bd_block_size bdev mod 4 = 0 → 0 < bd_num_blocks bdev →
  let b := parse_bootsec (slice 0 sizeof_bootsec (blk (f_dev s) 0)) in
  0 < sectors_per_cluster b < 2 ^ 8 →
  (sectors_per_cluster b * bytes_per_sector b) mod FAT_ENTRY_SIZE = 0 →
  ∃ r s', fat_create_super bdev s = Done (r, s') ∧ leaves inv blk s s' (f_mem s) ∧
    if mountable bdev b then
      ∃ sup, r = Some sup ∧ geometry bdev sup ∧
        (0 ≤ boot_metadata b ≤ boot_sectors b → boot_sectors b < 2 ^ 32 →
         ∀ cl, 2 ≤ cl < num_clusters sup + 2 →
           boot_metadata b ≤ cluster_sector sup cl ∧
           cluster_sector sup cl + sectors_per_cluster b ≤ boot_sectors b)
    else r = None.
Proof.
  intros Hd Hi Hbs Hb4 Hn b Hspc Hbpc.
  destruct (fat_create_super_run bdev inv blk Hd s Hi Hbs Hb4 Hn Hspc Hbpc) as (r & s' & E & L & H).
  exists r, s'. split; [exact E|]. split; [exact L|]. fold b in H.
  destruct (mountable bdev b); [|exact H]. destruct H as (sup & Hr & Hg & Hbs' & Hc & Hf & _).
  exists sup. split; [exact Hr|]. split; [exact Hg|]. intros Hm Hlt cl Hcl.
  by apply (cluster_in_volume sup b cl); try lia.
Qed.

(** A read that starts behind the first sector of a cluster hands the device
    an offset outside the sector and a length that has wrapped around; on a device
    that checks the offset, as the ATA driver does, the kernel panics. *)
Theorem fat_read_behind_sector {D} (bdev : block_dev D) sup s first buf off num w :
  geometry bdev sup → 0 < num < 2 ^ 31 → off < bytes_per_cluster sup →
  bytes_per_sector (bs sup) < off →
  (∀ n o len d, bd_block_size bdev ≤ o → 0 < len → bd_access bdev n o len d = Panic w) →
  fat_read bdev sup first buf off num s = Panic w.
Proof.
  intros [Ht Hb Hr Hm Hs Hc] Hn Hoff Hbo Hp.
  assert (Hbig : bytes_per_cluster sup < 2 ^ 24) by (rewrite Hc; nia).
  unfold fat_read. rewrite (proj2 (Z.leb_gt num 0)) by lia.
  erewrite bind_run; [|apply udiv_run; lia]. erewrite bind_run; [|apply umod_run; lia].
  rewrite Z.div_small, Z.mod_small by lia. change (Z.to_nat 0) with O. cbn [follow_chain].
  unfold bind at 1, ret at 1. unfold read_fuel. rewrite Nat.add_comm. cbn [Nat.add read_clusters].
  rewrite Z.gtb_ltb, (proj2 (Z.ltb_lt 0 num)) by lia. cbn [negb].
  erewrite bind_run; [|apply udiv_run; lia]. rewrite Nat.add_comm. cbn [Nat.add read_blocks].
  apply bind_Panic, bind_Panic. unfold read_block.
  rewrite (u32_small (num + off)) by lia.
  rewrite Z.gtb_ltb, (proj2 (Z.ltb_lt _ (num + off))) by lia.
  apply bind_Panic. unfold dev, zoom. rewrite Hp; [done|lia|].
  replace (u32 (bytes_per_sector (bs sup) - off)) with (2 ^ 32 + bytes_per_sector (bs sup) - off); [lia|].
  unfold u32. rewrite <- (Z.mod_add _ 1) by lia. rewrite Z.mod_small by lia. lia.
Qed.

(** ** A volume to try the driver on *)

(** [l] padded with zeros to a sector. *)
Definition sector (l : list Z) : list Z := l ++ replicate (512 - length l) 0.

(** 512-byte sectors, [spc] sectors per cluster, 32 reserved sectors, one table of
    512 sectors, root directory in cluster 2. *)
Definition example_boot (spc : Z) : list Z :=
  sector (replicate 11 0 ++ [0; 2; spc; 32; 0; 1; 0; 0; 0; 0; 0; 0; 0] ++ replicate 8 0 ++
    le_bytes 4 (70000 * spc) ++ le_bytes 4 512 ++ [0; 0; 0; 0] ++ le_bytes 4 2 ++ replicate 34 0 ++
    [70; 65; 84; 51; 50; 32; 32; 32]).

(** Cluster 2 is alone, cluster 3 is followed by cluster 4. *)
Definition example_table : list Z :=
  sector (le_bytes 4 268435448 ++ le_bytes 4 268435455 ++ le_bytes 4 268435455 ++
          le_bytes 4 4 ++ le_bytes 4 268435455).

(** A volume whose data sectors from 544 on are given. *)
Definition example_volume (spc : Z) (data : list (list Z)) (n : Z) : list Z :=
  if n =? 0 then example_boot spc else if n =? 32 then example_table
  else if n <? 544 then sector [] else sector (nth (Z.to_nat (n - 544)) data []).

Definition volume_dev (spc : Z) : block_dev (Z → list Z) := image_dev 512 (70000 * spc).

Definition example_super (spc : Z) : fat_super :=
  mk_super (parse_bootsec (slice 0 90 (example_boot spc))) FAT32 (70000 * spc) 512 0 544 32
    (70000 * spc - 544) ((70000 * spc - 544) / spc) 544 (spc * 512 / 32) (spc * 512) 20 0 2.

Definition image_inv (img : Z → list Z) : Prop :=
  ∀ n, length (img n) = 512%nat ∧ byte_list (img n).

Lemma volume_dev_ok spc : bdev_ok (volume_dev spc) image_inv (fun img => img).
Proof. apply (image_dev_ok 512). lia. Qed.

Lemma sector_ok l : (length l ≤ 512)%nat → byte_list l → length (sector l) = 512%nat ∧ byte_list (sector l).
Proof.
  intros Hl Hb. unfold sector. split; [rewrite length_app, length_replicate; lia|].
  apply Forall_app. split; [done|]. apply Forall_replicate. lia.
Qed.

Lemma example_volume_inv spc data :
  0 ≤ spc < 2 ^ 8 → Forall (fun l => (length l ≤ 512)%nat ∧ byte_list l) data →
  image_inv (example_volume spc data).
Proof.
  intros Hs Hd n. unfold example_volume.
  destruct (n =? 0); [|destruct (n =? 32); [|destruct (n <? 544)]].
  - apply sector_ok; [rewrite !length_app, !length_le_bytes, !length_replicate; cbn; lia|].
    unfold byte_list. rewrite !Forall_app. repeat split; try apply byte_list_le_bytes;
      try (apply Forall_replicate; lia); repeat (constructor; [lia|]); try constructor.
  - apply sector_ok; [rewrite !length_app, !length_le_bytes; lia|]. unfold byte_list. rewrite !Forall_app. repeat split; apply byte_list_le_bytes.
  - apply sector_ok; [cbn; lia|constructor].
  - destruct (nth_in_or_default (Z.to_nat (n - 544)) data []) as [Hin| ->].
    + rewrite Forall_forall in Hd. apply sector_ok; apply Hd; by apply list_elem_of_In.
    + apply sector_ok; [cbn; lia|constructor].
Qed.

Lemma example_geometry : geometry (volume_dev 1) (example_super 1).
Proof. split; vm_compute; done. Qed.

Lemma example_geometry8 : geometry (volume_dev 8) (example_super 8).
Proof. split; vm_compute; done. Qed.

(** A file of two clusters: sector 545 holds 7s, sector 546 holds 9s. *)
Definition example_data : list (list Z) := [[]; replicate 512 7; replicate 512 9].

Definition example_fs (spc : Z) (data : list (list Z)) : fstate (Z → list Z) :=
  mk_fstate (example_volume spc data) (fun _ => 0).

Lemma example_data_ok : Forall (fun l => (length l ≤ 512)%nat ∧ byte_list l) example_data.
Proof.
  repeat constructor; try (cbn; lia).
  all: apply Forall_replicate; lia.
Qed.

Lemma example_in_first : in_first_sector (volume_dev 1) (fun img => img) (example_super 1)
  (example_volume 1 example_data) 3 600 20 4.
Proof.
  split; vm_compute; done.
Qed.

Lemma fat_read_correct_witness :
  ∃ s', fat_read (volume_dev 1) (example_super 1) 3 1000 600 20 (example_fs 1 example_data) = Done (20, s') ∧
    f_mem s' 1019 = 9 ∧ f_mem s' 1020 = 0.
Proof.
  destruct (fat_read_correct (volume_dev 1) _ _ (example_super 1) (example_fs 1 example_data) 3 1000 600 20 4
    (volume_dev_ok 1) example_geometry (example_volume_inv 1 _ ltac:(lia) example_data_ok) example_in_first)
    as (s' & E & _ & _ & Hm).
  exists s'. split; [exact E|]. rewrite Hm. split; vm_compute; reflexivity.
Defined.

Lemma fat_read_fat_correct_witness :
  ∃ s', fat_read_fat (volume_dev 1) (example_super 1) 3 (example_fs 1 example_data) = Done ((FAT_OK, 4), s').
Proof.
  destruct (fat_read_fat_correct (volume_dev 1) _ _ (example_super 1) (example_fs 1 example_data) 3
    (volume_dev_ok 1) example_geometry (example_volume_inv 1 _ ltac:(lia) example_data_ok)
    ltac:(vm_compute; split; [split; [discriminate|reflexivity]|reflexivity])) as (s' & E & _).
  exists s'. refine (eq_trans E _). vm_compute. reflexivity.
Defined.

Lemma fat_mount_correct_witness :
  ∃ r s', fat_create_super (volume_dev 1) (example_fs 1 example_data) = Done (r, s') ∧ r ≠ None.
Proof.
  destruct (fat_mount_correct (volume_dev 1) _ _ (example_fs 1 example_data)
    (volume_dev_ok 1) (example_volume_inv 1 _ ltac:(lia) example_data_ok)
    ltac:(vm_compute; split; [discriminate|reflexivity]) ltac:(vm_compute; reflexivity)
    ltac:(vm_compute; reflexivity) ltac:(vm_compute; split; reflexivity) ltac:(vm_compute; reflexivity))
    as (r & s' & E & _ & H).
  exists r, s'. split; [exact E|]. intros ->.
  change (mountable (volume_dev 1) _) with true in H. destruct H as (sup & Hr & _). discriminate Hr.
Defined.

Lemma volume_dev_checks spc n o len d :
  bd_block_size (volume_dev spc) ≤ o → 0 < len →
  bd_access (volume_dev spc) n o len d = Panic "off < IDE_SECTOR_SIZE".
Proof.
  intros Ho Hl. cbn in Ho. unfold bd_access. cbn.
  by rewrite (proj2 (Z.eqb_neq len 0)), (proj2 (Z.ltb_ge o 512)) by lia.
Qed.

Lemma fat_read_behind_sector_witness :
  fat_read (volume_dev 8) (example_super 8) 2 1000 544 32 (example_fs 8 example_data)
  = Panic "off < IDE_SECTOR_SIZE".
Proof.
  exact (fat_read_behind_sector (volume_dev 8) (example_super 8) (example_fs 8 example_data) 2 1000 544 32 _
    example_geometry8 ltac:(lia) ltac:(vm_compute; reflexivity) ltac:(vm_compute; reflexivity)
    (volume_dev_checks 8)).
Defined.
