(* ===== verification/FatDir.v ===== *)
(** * fs/fat_core.c: directory entries and path lookup

    [fat_read_entry] reads the raw 32-byte entries of a directory one by one
    into a buffer on the kernel stack (at [eb]), collects the characters of a
    sequence of long-file-name entries, and stops at the entry they belong to;
    the result structure (at [res]) gets the directory's cluster, the entry and
    the name.  [fat_walk_path] looks a path up component by component. *)

From stdpp Require Import base list strings.
From Stdlib Require Import ZArith Lia.
From S2P Require Import Prelude Memory KUtils BlockDev Fat.

Definition FAT_LAST_ENTRY : Z := 0.
Definition FAT_UNUSED_ENTRY : Z := 229.
Definition FAT_LFN : Z := 15.
Definition FAT_LFN_DELETED : Z := 128.
Definition FAT_LFN_CHARS : Z := 13.
Definition FAT_LFN_NAME_SIZE : Z := 256.
Definition FAT_LFN_NAME_BUF_SIZE : Z := 261.
Definition FAT_ENTRY_LAST : Z := -1.
Definition FAT_ENTRY_ERROR : Z := -2.
Definition VFS_SEPARATOR : Z := 47.

(** [struct fat_result]: dir_cluster, the packed entry, the name. *)
Definition res_entry (res : Z) : Z := res + 4.
Definition res_lfn (res : Z) : Z := res + 36.

Definition load16 (m : mem) (a : Z) : Z := m a + 2 ^ 8 * m (a + 1).

Definition ucs2_to_ascii (c : Z) : Z := u8 c.

(** The memory and the advanced pointer. *)
Fixpoint fat_append_ascii_chars (m : mem) (to from : Z) (num : nat) : mem * Z :=
  match num with
  | O => (m, to)
  | S num' => fat_append_ascii_chars (store8 m to (ucs2_to_ascii (load16 m from))) (to + 1) (from + 2) num'
  end.

(** The characters of [struct fat_lfn] are at 1, 14 and 28. *)
Definition fat_copy_all_ascii_chars (m : mem) (to lfn : Z) : mem :=
  let '(m, to) := fat_append_ascii_chars m to (lfn + 1) 5 in
  let '(m, to) := fat_append_ascii_chars m to (lfn + 14) 6 in
  fst (fat_append_ascii_chars m to (lfn + 28) 2).

Definition fat_is_lfn_deleted (m : mem) (lfn : Z) : bool := negb (Z.land (m lfn) FAT_LFN_DELETED =? 0).
Definition fat_get_lfn_nr (m : mem) (lfn : Z) : Z := Z.land (m lfn) 63.
Definition fat_is_lfn_entry (m : mem) (entry : Z) : bool := m (entry + 11) =? FAT_LFN.

Section dir.
Context {D : Type} (bdev : block_dev D).

Definition upd (f : mem → mem) : M (fstate D) unit :=
  modify (fun s => mk_fstate (f_dev s) (f (f_mem s))).

(** The 8.3 name of a normal entry without long-name entries. *)
Definition short_name (res eb : Z) : M (fstate D) unit :=
  upd (fun m => kmemset m (res_lfn res) 0 13) ;;;
  upd (fun m => fst (kstrncpy m (res_lfn res) eb 8)) ;;;
  m <- gets f_mem ;;
  when (negb (m (eb + 8) =? 0))
    (match kstrlen 14 m (res_lfn res) with
     | None => hang
     | Some len =>
         upd (fun m => store8 m (res_lfn res + len) 46) ;;;
         m <- gets f_mem ;;
         match kstrlen 14 m (res_lfn res) with
         | None => hang
         | Some len => upd (fun m => fst (kstrncpy m (res_lfn res + len) (eb + 8) 3))
         end
     end).

(** The end of an iteration that found a normal entry. *)
Definition found_entry (res eb first_cluster : Z) (in_lfn_sequence : bool) : M (fstate D) unit :=
  when (negb in_lfn_sequence) (short_name res eb) ;;;
  upd (fun m => store32 m res first_cluster) ;;;
  upd (fun m => fst (kmemcpy m (res_entry res) eb FAT_ENTRY_SIZE)).

(** An iteration on a long-name entry; the new [iseq]. *)
Definition lfn_entry (res eb iseq : Z) (in_lfn_sequence : bool) : M (fstate D) Z :=
  m <- gets f_mem ;;
  iseq <- (if negb in_lfn_sequence then
             let iseq := fat_get_lfn_nr m eb - 1 in
             kassert "(iseq + 1) * FAT_LFN_CHARS < FAT_LFN_NAME_BUF_SIZE"
               ((iseq + 1) * FAT_LFN_CHARS <? FAT_LFN_NAME_BUF_SIZE) ;;;
             upd (fun m => kmemset m (res_lfn res) 0 FAT_LFN_NAME_BUF_SIZE) ;;;
             ret iseq
           else ret (iseq - 1)) ;;
  kassert "iseq >= 0" (0 <=? iseq) ;;;
  upd (fun m => fat_copy_all_ascii_chars m (res_lfn res + iseq * FAT_LFN_CHARS) eb) ;;;
  ret iseq.

(** The loop of [fat_read_entry]; a FAT directory has at most 65536 entries. *)
Fixpoint read_entry_loop (fuel : nat) (res eb : Z) (sup : fat_super) (first_cluster idx iseq : Z)
    (in_lfn_sequence : bool) : M (fstate D) Z :=
  match fuel with
  | O => hang
  | S fuel' =>
      n <- fat_read bdev sup first_cluster eb (u32 (idx * FAT_ENTRY_SIZE)) FAT_ENTRY_SIZE ;;
      if n =? 0 then ret FAT_ENTRY_ERROR else
      let idx := idx + 1 in
      m <- gets f_mem ;;
      if m eb =? FAT_LAST_ENTRY then ret FAT_ENTRY_LAST
      else if m eb =? FAT_UNUSED_ENTRY
      then read_entry_loop fuel' res eb sup first_cluster idx iseq in_lfn_sequence
      else if fat_is_lfn_entry m eb && negb (fat_is_lfn_deleted m eb) then
        iseq <- lfn_entry res eb iseq in_lfn_sequence ;;
        read_entry_loop fuel' res eb sup first_cluster idx iseq true
      else if negb (fat_is_lfn_entry m eb) then
        found_entry res eb first_cluster in_lfn_sequence ;;;
        ret idx
      else read_entry_loop fuel' res eb sup first_cluster idx iseq in_lfn_sequence
  end.

Definition fat_read_entry (fuel : nat) (res eb : Z) (sup : fat_super) (first_cluster idx : Z)
    : M (fstate D) Z :=
  kassert "idx >= 0" (0 <=? idx) ;;;
  read_entry_loop fuel res eb sup first_cluster idx 0 false.

(** The loop of [fat_walk_path] over a directory; [descend] walks on from the
    directory that was found. *)
Fixpoint walk_entries (fuel efuel : nat) (res eb : Z) (sup : fat_super) (root_cluster node len : Z)
    (is_leaf : bool) (descend : Z → M (fstate D) Z) (en_i : Z) : M (fstate D) Z :=
  match fuel with
  | O => hang
  | S fuel' =>
      en_i <- fat_read_entry efuel res eb sup root_cluster en_i ;;
      if en_i =? FAT_ENTRY_ERROR then kpanic "fat_walk_path(): error reading entry" else
      m <- gets f_mem ;;
      let directory := negb (Z.land (m (res_entry res + 11)) FAT_DIRECTORY =? 0) in
      let next :=
        if en_i =? FAT_ENTRY_LAST then ret FAT_ERROR
        else walk_entries fuel' efuel res eb sup root_cluster node len is_leaf descend en_i in
      if kstrncmp m (res_lfn res) node len then
        if is_leaf && negb directory then ret FAT_OK
        else if negb is_leaf && directory
        then descend (fat_get_entry_cluster (read_bytes m (res_entry res) 32))
        else next
      else next
  end.

(** [sfuel] bounds the length of the path, [efuel] the entries of a directory. *)
Fixpoint fat_walk_path (fuel sfuel efuel : nat) (res eb : Z) (sup : fat_super) (path root_cluster : Z)
    : M (fstate D) Z :=
  match fuel with
  | O => hang
  | S fuel' =>
      m <- gets f_mem ;;
      kassert "path[0] == VFS_SEPARATOR" (m path =? VFS_SEPARATOR) ;;;
      let node := path + 1 in
      match kstrchr sfuel m node VFS_SEPARATOR with
      | None => hang
      | Some next =>
          let is_leaf := match next with None => true | Some _ => false end in
          match (match next with None => kstrlen sfuel m node | Some p => Some (p - node) end) with
          | None => hang
          | Some len =>
              if len >=? FAT_LFN_NAME_SIZE then kpanic "fat_walk_path(): node name is too long" else
              walk_entries efuel efuel res eb sup root_cluster node len is_leaf
                (fun cl => fat_walk_path fuel' sfuel efuel res eb sup (default 0 next) cl) 0
          end
      end
  end.

(** ** Lemmas *)

Section proofs.
Context (inv : D → Prop) (blk : D → Z → list Z) (Hdev : bdev_ok bdev inv blk).
Context (res eb : Z) (Hsep : eb + 32 ≤ res ∨ res + 297 ≤ eb).

(** The raw entry [e] is number [i] of the directory at [cl]. *)
Definition dir_entry (sup : fat_super) (d : D) (cl i : Z) (e : list Z) : Prop :=
  ∃ c, in_first_sector bdev blk sup d cl (i * FAT_ENTRY_SIZE) FAT_ENTRY_SIZE c ∧
       slice ((i * FAT_ENTRY_SIZE) mod bytes_per_cluster sup) FAT_ENTRY_SIZE (blk d (cluster_sector sup c)) = e.

Lemma dir_entry_ext sup d d' cl i e :
  (∀ k, blk d' k = blk d k) → dir_entry sup d cl i e → dir_entry sup d' cl i e.
Proof.
  intros H (c & [H1 H2 H3 H4 H5 H6] & He). exists c. split; [|by rewrite H].
  split; try done; [by apply (chain_ok_ext bdev blk sup d)|by rewrite (nth_cluster_ext blk sup d)].
Qed.

Lemma slice_bytes off len l :
  0 ≤ off → 0 ≤ len → off + len ≤ Z.of_nat (length l) → byte_list l →
  length (slice off len l) = Z.to_nat len ∧ byte_list (slice off len l).
Proof.
  intros Ho Hl Hf Hb. unfold slice. split.
  - rewrite length_take, length_drop. lia.
  - by apply Forall_take, Forall_drop.
Qed.

Lemma read_raw sup s cl i e :
  geometry bdev sup → inv (f_dev s) → 0 ≤ i → dir_entry sup (f_dev s) cl i e →
  length e = 32%nat ∧ byte_list e ∧
  ∃ s', fat_read bdev sup cl eb (u32 (i * FAT_ENTRY_SIZE)) FAT_ENTRY_SIZE s = Done (32, s') ∧
        leaves inv blk s s' (write_bytes (f_mem s) eb e).
Proof.
  intros Hg Hi H0 (c & Hin & He). pose proof Hin as [H1 H2 H3 H4 H5 H6].
  pose proof Hg as [Ht Hb Hr Hm Hs Hc].
  assert (Hbpc : 0 < bytes_per_cluster sup) by (rewrite Hc; nia).
  pose proof (Z.mod_pos_bound (i * FAT_ENTRY_SIZE) _ Hbpc) as Hmod.
  destruct (ok_block _ _ _ Hdev (f_dev s) (cluster_sector sup c) Hi) as [Hlen Hbl].
  { split; [apply u32_range|done]. }
  destruct (slice_bytes ((i * FAT_ENTRY_SIZE) mod bytes_per_cluster sup) FAT_ENTRY_SIZE
    (blk (f_dev s) (cluster_sector sup c))) as [G1 G2]; [lia|done|rewrite Hlen; lia|done|].
  rewrite He in G1, G2. split; [done|]. split; [done|].
  rewrite (u32_small (i * FAT_ENTRY_SIZE)) by lia.
  destruct (fat_read_run bdev inv blk Hdev sup s cl eb _ _ c Hg Hi Hin) as (s' & E & L).
  rewrite He in L. by exists s'.
Qed.

(** The buffer holds the entry [e]. *)
Definition buffered (m : mem) (e : list Z) : Prop :=
  ∀ k, (k < 32)%nat → m (eb + Z.of_nat k) = get8 e k.

Lemma buffered_write m e : length e = 32%nat → byte_list e → buffered (write_bytes m eb e) e.
Proof.
  intros Hl Hb k Hk. destruct (lookup_lt_is_Some_2 e k ltac:(lia)) as [b Hbk].
  rewrite (write_bytes_lookup _ _ _ _ _ Hbk), u8_small by apply (Forall_lookup_1 _ _ _ _ Hb Hbk).
  unfold get8. symmetry. by apply nth_lookup_Some.
Qed.

(** The thirteen characters of a long-name entry. *)
Definition lfn_chars (e : list Z) : list Z :=
  map (get8 e) [1; 3; 5; 7; 9; 14; 16; 18; 20; 22; 24; 28; 30]%nat.

Lemma append_chars n : ∀ m to from e k,
  (∀ j, (j < n)%nat → load16 m (from + 2 * Z.of_nat j) = get8 e (k + 2 * j) + 2 ^ 8 * get8 e (k + 2 * j + 1)) →
  (to + Z.of_nat n ≤ from ∨ from + 2 * Z.of_nat n ≤ to) →
  fat_append_ascii_chars m to from n =
    (write_bytes m to (map (fun j => u8 (get8 e (k + 2 * j) + 2 ^ 8 * get8 e (k + 2 * j + 1))) (seq 0 n)),
     to + Z.of_nat n).
Proof.
  induction n as [|n IH]; intros m to from e k H Hd.
  { cbn. by rewrite Z.add_0_r. }
  cbn [fat_append_ascii_chars seq map write_bytes].
  pose proof (H 0%nat ltac:(lia)) as H0. rewrite Z.mul_0_r, Z.add_0_r in H0. rewrite H0.
  rewrite (IH _ (to + 1) (from + 2) e (k + 2)%nat).
  - f_equal; [|lia]. rewrite <- seq_shift, map_map.
    replace (k + 2 * 0)%nat with k by lia. unfold ucs2_to_ascii.
    f_equal. apply map_ext. intros j.
    by replace (k + 2 * S j)%nat with (k + 2 + 2 * j)%nat by lia.
  - intros j Hj. specialize (H (S j) ltac:(lia)). unfold load16 in *.
    rewrite !store8_ne by lia.
    replace (from + 2 + 2 * Z.of_nat j) with (from + 2 * Z.of_nat (S j)) by lia.
    rewrite H. by replace (k + 2 * S j)%nat with (k + 2 + 2 * j)%nat by lia.
  - lia.
Qed.

Lemma get8_byte e k : byte_list e → 0 ≤ get8 e k < 2 ^ 8.
Proof.
  intros H. unfold get8. destruct (nth_in_or_default k e 0) as [Hin| ->]; [|lia].
  unfold byte_list in H. rewrite Forall_forall in H. apply H. by apply list_elem_of_In.
Qed.

(** Copying the characters of a buffered entry is writing [lfn_chars] of it. *)
Lemma copy_chars m e to :
  buffered m e → byte_list e → (to + 13 ≤ eb ∨ eb + 32 ≤ to) →
  fat_copy_all_ascii_chars m to eb = write_bytes m to (lfn_chars e).
Proof.
  intros Hbuf Hb Hd. unfold fat_copy_all_ascii_chars.
  assert (Hw : ∀ m' k, (∀ x, eb ≤ x < eb + 32 → m' x = m x) → (k + 2 ≤ 32)%nat →
    load16 m' (eb + Z.of_nat k) = get8 e k + 2 ^ 8 * get8 e (k + 1)).
  { intros m' k Hm' Hk. unfold load16. rewrite !Hm' by lia. rewrite (Hbuf k) by lia.
    replace (eb + Z.of_nat k + 1) with (eb + Z.of_nat (k + 1)) by lia. by rewrite (Hbuf (k + 1)%nat) by lia. }
  assert (Hlow : ∀ k, u8 (get8 e k + 2 ^ 8 * get8 e (k + 1)) = get8 e k).
  { intros k. pose proof (get8_byte e k Hb). unfold u8.
    rewrite (Z.mul_comm (2 ^ 8)), Z.mod_add by lia. by apply Z.mod_small. }
  rewrite (append_chars 5 m to (eb + 1) e 1).
  2:{ intros j Hj. replace (eb + 1 + 2 * Z.of_nat j) with (eb + Z.of_nat (1 + 2 * j)) by lia.
      apply Hw; [done|lia]. }
  2:{ lia. }
  set (m1 := write_bytes _ _ _).
  assert (H1 : ∀ x, eb ≤ x < eb + 32 → m1 x = m x).
  { intros x Hx. apply write_bytes_frame. cbn. lia. }
  rewrite (append_chars 6 m1 (to + Z.of_nat 5) (eb + 14) e 14).
  2:{ intros j Hj. replace (eb + 14 + 2 * Z.of_nat j) with (eb + Z.of_nat (14 + 2 * j)) by lia.
      apply Hw; [done|lia]. }
  2:{ lia. }
  set (m2 := write_bytes _ _ _).
  assert (H2 : ∀ x, eb ≤ x < eb + 32 → m2 x = m x).
  { intros x Hx. unfold m2. rewrite write_bytes_frame; [by apply H1|]. cbn. lia. }
  rewrite (append_chars 2 m2 (to + Z.of_nat 5 + Z.of_nat 6) (eb + 28) e 28).
  2:{ intros j Hj. replace (eb + 28 + 2 * Z.of_nat j) with (eb + Z.of_nat (28 + 2 * j)) by lia.
      apply Hw; [done|lia]. }
  2:{ lia. }
  unfold m2, m1. cbn [seq map fst Nat.mul Nat.add write_bytes lfn_chars].
  change (2 * 0)%nat with 0%nat. rewrite !Hlow.
  rewrite <- !Z.add_assoc. reflexivity.
Qed.

Definition entry_live (e : list Z) : Prop := get8 e 0 ≠ FAT_LAST_ENTRY ∧ get8 e 0 ≠ FAT_UNUSED_ENTRY.
Definition lfn_live (e : list Z) : Prop :=
  entry_live e ∧ get8 e 11 = FAT_LFN ∧ Z.land (get8 e 0) FAT_LFN_DELETED = 0.
Definition normal_live (e : list Z) : Prop := entry_live e ∧ get8 e 11 ≠ FAT_LFN.

Lemma buffered_first m e : buffered m e → m eb = get8 e 0.
Proof. intros H. specialize (H 0%nat ltac:(lia)). by rewrite Z.add_0_r in H. Qed.

Lemma buffered_attr m e : buffered m e → m (eb + 11) = get8 e 11.
Proof. intros H. exact (H 11%nat ltac:(lia)). Qed.

(** An iteration that reads the entry [e]. *)
Lemma loop_lfn sup s cl i e fuel iseq b :
  geometry bdev sup → inv (f_dev s) → 0 ≤ i → dir_entry sup (f_dev s) cl i e → lfn_live e →
  ∃ s1, leaves inv blk s s1 (write_bytes (f_mem s) eb e) ∧ buffered (f_mem s1) e ∧ byte_list e ∧
    read_entry_loop (S fuel) res eb sup cl i iseq b s =
    (iseq <- lfn_entry res eb iseq b ;; read_entry_loop fuel res eb sup cl (i + 1) iseq true) s1.
Proof.
  intros Hg Hi H0 He ((L1 & L2) & L3 & L4).
  destruct (read_raw sup s cl i e Hg Hi H0 He) as (Hl & Hb & s1 & E & L).
  pose proof (proj2 (proj2 L)) as Hm. pose proof (buffered_write (f_mem s) e Hl Hb) as Hbuf.
  rewrite <- Hm in Hbuf. exists s1. split; [done|]. split; [done|]. split; [done|].
  cbn [read_entry_loop]. rewrite (bind_run _ _ _ _ _ E). change (32 =? 0) with false.
  unfold bind at 1, gets. unfold fat_is_lfn_entry, fat_is_lfn_deleted.
  rewrite (buffered_first _ _ Hbuf), (buffered_attr _ _ Hbuf), L3, L4.
  by rewrite (proj2 (Z.eqb_neq _ _) L1), (proj2 (Z.eqb_neq _ _) L2).
Qed.

Lemma loop_normal sup s cl i e fuel iseq b :
  geometry bdev sup → inv (f_dev s) → 0 ≤ i → dir_entry sup (f_dev s) cl i e → normal_live e →
  ∃ s1, leaves inv blk s s1 (write_bytes (f_mem s) eb e) ∧ buffered (f_mem s1) e ∧
    length e = 32%nat ∧ byte_list e ∧
    read_entry_loop (S fuel) res eb sup cl i iseq b s = (found_entry res eb cl b ;;; ret (i + 1)) s1.
Proof.
  intros Hg Hi H0 He ((L1 & L2) & L3).
  destruct (read_raw sup s cl i e Hg Hi H0 He) as (Hl & Hb & s1 & E & L).
  pose proof (proj2 (proj2 L)) as Hm. pose proof (buffered_write (f_mem s) e Hl Hb) as Hbuf.
  rewrite <- Hm in Hbuf. exists s1. do 4 (split; [done|]).
  cbn [read_entry_loop]. rewrite (bind_run _ _ _ _ _ E). change (32 =? 0) with false.
  unfold bind at 1, gets. unfold fat_is_lfn_entry, fat_is_lfn_deleted.
  rewrite (buffered_first _ _ Hbuf), (buffered_attr _ _ Hbuf).
  by rewrite (proj2 (Z.eqb_neq _ _) L1), (proj2 (Z.eqb_neq _ _) L2), (proj2 (Z.eqb_neq _ _) L3).
Qed.

(** A further entry of a long-name sequence. *)
Lemma lfn_next s e j :
  buffered (f_mem s) e → byte_list e → 0 ≤ j < 20 →
  lfn_entry res eb (j + 1) true s =
  Done (j, mk_fstate (f_dev s) (write_bytes (f_mem s) (res_lfn res + j * FAT_LFN_CHARS) (lfn_chars e))).
Proof.
  intros Hbuf Hb Hj. unfold lfn_entry, kassert, bind, gets, upd, modify, ret, res_lfn, FAT_LFN_CHARS. cbn [negb].
  replace (j + 1 - 1) with j by lia. rewrite (proj2 (Z.leb_le 0 j)) by lia. cbn [f_mem f_dev].
  rewrite (copy_chars _ e); [done|done|done|lia].
Qed.

(** The first one: the name buffer is cleared. *)
Lemma lfn_first s e iseq k :
  buffered (f_mem s) e → byte_list e → Z.land (get8 e 0) 63 = k + 1 → 0 ≤ k < 20 →
  lfn_entry res eb iseq false s =
  Done (k, mk_fstate (f_dev s)
    (write_bytes (kmemset (f_mem s) (res_lfn res) 0 FAT_LFN_NAME_BUF_SIZE)
       (res_lfn res + k * FAT_LFN_CHARS) (lfn_chars e))).
Proof.
  intros Hbuf Hb Hn Hk. unfold lfn_entry, kassert, bind, gets, upd, modify, ret, res_lfn.
  unfold fat_get_lfn_nr. rewrite (buffered_first _ _ Hbuf), Hn. cbn [negb].
  replace (k + 1 - 1) with k by lia.
  rewrite (proj2 (Z.ltb_lt _ FAT_LFN_NAME_BUF_SIZE)) by (unfold FAT_LFN_CHARS, FAT_LFN_NAME_BUF_SIZE; lia).
  rewrite (proj2 (Z.leb_le 0 k)) by lia. cbn [f_mem f_dev].
  rewrite (copy_chars _ e); [done| |done|unfold FAT_LFN_CHARS; lia].
  intros i Hi. rewrite kmemset_out by (unfold FAT_LFN_NAME_BUF_SIZE; lia). by apply Hbuf.
Qed.

(** The entry is copied out; the name buffer stays as it is. *)
Lemma found_run s e cl :
  byte_mem (f_mem s) → buffered (f_mem s) e → length e = 32%nat →
  ∃ s', found_entry res eb cl true s = Done (tt, s') ∧ f_dev s' = f_dev s ∧ byte_mem (f_mem s') ∧
    read_bytes (f_mem s') (res_entry res) 32 = e ∧
    (∀ a, (a < res ∨ res + 36 ≤ a) → f_mem s' a = f_mem s a) ∧
    (0 ≤ cl < 2 ^ 32 → load32 (f_mem s') res = cl).
Proof.
  intros Hbm Hbuf Hl. unfold found_entry. cbn [negb when]. eexists. split; [reflexivity|].
  split; [done|]. cbn [f_mem]. unfold res_entry.
  assert (Hbm1 : byte_mem (store32 (f_mem s) res cl)) by auto with mem.
  split; [by apply kmemcpy_byte_mem|]. split; [|split].
  - change FAT_ENTRY_SIZE with (Z.of_nat 32).
    rewrite read_bytes_kmemcpy by (done || lia). apply list_eq. intros k.
    destruct (decide (k < 32)%nat) as [Hk|Hk].
    + rewrite read_bytes_lookup by done. rewrite store32_frame by lia. rewrite (Hbuf k Hk).
      destruct (lookup_lt_is_Some_2 e k ltac:(lia)) as [b Hbk]. rewrite Hbk. f_equal.
      by apply nth_lookup_Some.
    + rewrite !lookup_ge_None_2; rewrite ?length_read_bytes; try done; lia.
  - intros a Ha. rewrite kmemcpy_out by (unfold FAT_ENTRY_SIZE; lia). apply store32_frame. lia.
  - intros Hcl. rewrite <- (load32_store32_eq (f_mem s) res cl Hcl) at 2. apply load32_ext.
    intros x Hx. apply kmemcpy_out. lia.
Qed.

(** The name a sequence of long-name entries spells, last part first on disk. *)
Definition lfn_name (es : list (list Z)) : list Z := concat (map lfn_chars (rev es)).

Lemma length_lfn_name es : length (lfn_name es) = (13 * length es)%nat.
Proof.
  unfold lfn_name. induction es as [|e es IH]; [done|].
  cbn [rev]. rewrite map_app, concat_app, length_app, IH. cbn. lia.
Qed.

Lemma lfn_chars_bytes e : byte_list e → byte_list (lfn_chars e).
Proof. intros H. apply Forall_map, Forall_true. intros k. by apply get8_byte. Qed.

(** The entries [es] from number [i] on, then the normal entry [e0]. *)
Definition sequence (sup : fat_super) (d : D) (cl i : Z) (es : list (list Z)) (e0 : list Z) : Prop :=
  (∀ k e, es !! k = Some e → dir_entry sup d cl (i + Z.of_nat k) e ∧ lfn_live e) ∧
  dir_entry sup d cl (i + Z.of_nat (length es)) e0 ∧ normal_live e0.

Lemma sequence_tail sup d d' cl i e es e0 :
  (∀ k, blk d' k = blk d k) → sequence sup d cl i (e :: es) e0 → sequence sup d' cl (i + 1) es e0.
Proof.
  intros Hk (H1 & H2 & H3). split; [|split; [|done]].
  - intros k e' Hk'. destruct (H1 (S k) e' Hk') as [G1 G2]. split; [|done].
    apply (dir_entry_ext sup d d'); [done|].
    by replace (i + 1 + Z.of_nat k) with (i + Z.of_nat (S k)) by lia.
  - apply (dir_entry_ext sup d d'); [done|]. cbn [length] in H2.
    by replace (i + 1 + Z.of_nat (length es)) with (i + Z.of_nat (S (length es))) by lia.
Qed.

(** Neither in the result structure nor in the entry buffer. *)
Definition outside (a : Z) : Prop := (a < res ∨ res + 297 ≤ a) ∧ (a < eb ∨ eb + 32 ≤ a).

(** What is in the result structure when an entry was found. *)
Record entry_result (s s' : fstate D) (cl : Z) (e0 : list Z) : Prop := {
  er_inv : inv (f_dev s');
  er_blk : ∀ k, blk (f_dev s') k = blk (f_dev s) k;
  er_bytes : byte_mem (f_mem s');
  er_entry : read_bytes (f_mem s') (res_entry res) 32 = e0;
  er_cluster : 0 ≤ cl < 2 ^ 32 → load32 (f_mem s') res = cl;
  er_frame : ∀ a, outside a → f_mem s' a = f_mem s a;
}.

Lemma lfn_loop sup cl e0 es : ∀ s i fuel,
  geometry bdev sup → inv (f_dev s) → byte_mem (f_mem s) → 0 ≤ i → (length es ≤ 20)%nat →
  (length es < fuel)%nat → sequence sup (f_dev s) cl i es e0 →
  ∃ s', read_entry_loop fuel res eb sup cl i (Z.of_nat (length es)) true s =
          Done (i + Z.of_nat (length es) + 1, s') ∧
    entry_result s s' cl e0 ∧
    read_bytes (f_mem s') (res_lfn res) (13 * length es) = lfn_name es ∧
    (∀ a, res_lfn res + 13 * Z.of_nat (length es) ≤ a < res + 297 → f_mem s' a = f_mem s a).
Proof.
  induction es as [|e es IH]; intros s i fuel Hg Hi Hbm H0 H20 Hf Hseq.
  - destruct fuel as [|fuel]; [cbn in Hf; lia|]. destruct Hseq as (_ & He & Hlv). cbn in He.
    rewrite Z.add_0_r in He.
    destruct (loop_normal sup s cl i e0 fuel 0 true Hg Hi H0 He Hlv) as (s1 & (Hi1 & Hk1 & Hm1) & Hbuf & Hl & Hb & E).
    destruct (found_run s1 e0 cl) as (s' & E' & Hd' & Hbm' & Hr' & Hfr & Hcl); [|done|done|].
    { rewrite Hm1. by apply byte_mem_write. }
    exists s'. change (Z.of_nat (length [])) with 0. rewrite E, (bind_run _ _ _ _ _ E').
    rewrite Z.add_0_r. split; [done|]. split.
    { split; rewrite ?Hd'; try done. intros a [Ha1 Ha2]. rewrite Hfr by lia.
      rewrite Hm1. apply write_bytes_frame. rewrite Hl. lia. }
    split; [done|].
    intros a Ha. rewrite Hfr by (unfold res_lfn in Ha; lia). rewrite Hm1. apply write_bytes_frame.
    unfold res_lfn in Ha. rewrite Hl. lia.
  - destruct fuel as [|fuel]; [cbn in Hf; lia|]. cbn [length] in *.
    destruct (proj1 Hseq 0%nat e eq_refl) as [He Hlv]. rewrite Z.add_0_r in He.
    destruct (loop_lfn sup s cl i e fuel (Z.of_nat (S (length es))) true Hg Hi H0 He Hlv)
      as (s1 & (Hi1 & Hk1 & Hm1) & Hbuf & Hb & E).
    destruct (read_raw sup s cl i e Hg Hi H0 He) as (Hl & _).
    replace (Z.of_nat (S (length es))) with (Z.of_nat (length es) + 1) in * by lia.
    rewrite E, (bind_run _ _ _ _ _ (lfn_next s1 e (Z.of_nat (length es)) Hbuf Hb ltac:(lia))).
    set (s2 := mk_fstate _ _).
    assert (Hbm2 : byte_mem (f_mem s2)) by (unfold s2; cbn [f_mem]; rewrite Hm1; by do 2 apply byte_mem_write).
    destruct (IH s2 (i + 1) fuel) as (s' & E' & [R1 R2 R3 R4 R5 R6] & Hname & Hfr); try done; try lia.
    { by apply (sequence_tail sup (f_dev s) (f_dev s1) cl i e). }
    exists s'. rewrite E'. split; [do 2 f_equal; lia|]. split.
    { split; try done; [intros k; by rewrite R2|]. intros a Ha. rewrite R6 by done. destruct Ha as [Ha1 Ha2].
      unfold s2, res_lfn, FAT_LFN_CHARS. cbn [f_mem].
      rewrite write_bytes_frame by (cbn; lia). rewrite Hm1. apply write_bytes_frame. rewrite Hl. lia. }
    assert (Hm2 : ∀ a, f_mem s2 a = write_bytes (f_mem s1) (res_lfn res + Z.of_nat (length es) * 13) (lfn_chars e) a)
      by done.
    split.
    + replace (13 * S (length es))%nat with (13 * length es + 13)%nat by lia.
      rewrite read_bytes_app, Hname. unfold lfn_name. cbn [rev]. rewrite map_app, concat_app. f_equal.
      cbn [map concat]. rewrite app_nil_r.
      rewrite (read_bytes_ext _ (f_mem s2)) by (intros x Hx; apply Hfr; unfold res_lfn in *; lia).
      replace (res_lfn res + Z.of_nat (13 * length es)) with (res_lfn res + Z.of_nat (length es) * FAT_LFN_CHARS)
        by (unfold FAT_LFN_CHARS; lia).
      exact (read_write_bytes (f_mem s1) _ (lfn_chars e) (lfn_chars_bytes e Hb)).
    + intros a Ha. rewrite Hfr by lia. rewrite Hm2, write_bytes_frame by (cbn; lia).
      rewrite Hm1. apply write_bytes_frame. unfold res_lfn in Ha. rewrite Hl. lia.
Qed.

(** [fat_read_entry] on a whole sequence. *)
Lemma read_entry_run sup cl i e es e0 s fuel :
  geometry bdev sup → inv (f_dev s) → byte_mem (f_mem s) → 0 ≤ i → (length es < 20)%nat →
  (S (length es) < fuel)%nat → sequence sup (f_dev s) cl i (e :: es) e0 →
  Z.land (get8 e 0) 63 = Z.of_nat (length es) + 1 →
  ∃ s', fat_read_entry fuel res eb sup cl i s = Done (i + Z.of_nat (length es) + 2, s') ∧
    entry_result s s' cl e0 ∧
    read_bytes (f_mem s') (res_lfn res) (13 * S (length es)) = lfn_name (e :: es) ∧
    (∀ a, res_lfn res + 13 * Z.of_nat (S (length es)) ≤ a < res + 297 → f_mem s' a = 0).
Proof.
  intros Hg Hi Hbm H0 H20 Hf Hseq Hn. unfold fat_read_entry.
  rewrite (proj2 (Z.leb_le 0 i)) by lia. unfold bind at 1, kassert, ret at 1.
  destruct fuel as [|fuel]; [lia|]. destruct (proj1 Hseq 0%nat e eq_refl) as [He Hlv]. rewrite Z.add_0_r in He.
  destruct (loop_lfn sup s cl i e fuel 0 false Hg Hi H0 He Hlv) as (s1 & (Hi1 & Hk1 & Hm1) & Hbuf & Hb & E).
  rewrite E, (bind_run _ _ _ _ _ (lfn_first s1 e 0 (Z.of_nat (length es)) Hbuf Hb Hn ltac:(lia))).
  set (s2 := mk_fstate _ _).
  assert (Hbm2 : byte_mem (f_mem s2)).
  { unfold s2. cbn [f_mem]. apply byte_mem_write, kmemset_byte_mem. rewrite Hm1. by apply byte_mem_write. }
  destruct (lfn_loop sup cl e0 es s2 (i + 1) fuel) as (s' & E' & [R1 R2 R3 R4 R5 R6] & Hname & Hfr); try done; try lia.
  { by apply (sequence_tail sup (f_dev s) (f_dev s1) cl i e). }
  exists s'. rewrite E'. split; [do 2 f_equal; lia|]. split; [|split].
  - split; try done; [intros k; by rewrite R2|]. intros a Ha. rewrite R6 by done. destruct Ha as [Ha1 Ha2].
    destruct (read_raw sup s cl i e Hg Hi H0 He) as (Hl & _).
    unfold s2, res_lfn, FAT_LFN_CHARS, FAT_LFN_NAME_BUF_SIZE. cbn [f_mem].
    rewrite write_bytes_frame by (cbn; lia). rewrite kmemset_out by lia.
    rewrite Hm1. apply write_bytes_frame. rewrite Hl. lia.
  - replace (13 * S (length es))%nat with (13 * length es + 13)%nat by lia.
    rewrite read_bytes_app, Hname. unfold lfn_name. cbn [rev]. rewrite map_app, concat_app. f_equal.
    cbn [map concat]. rewrite app_nil_r.
    rewrite (read_bytes_ext _ (f_mem s2)) by (intros x Hx; apply Hfr; unfold res_lfn in *; lia).
    replace (res_lfn res + Z.of_nat (13 * length es)) with (res_lfn res + Z.of_nat (length es) * FAT_LFN_CHARS)
      by (unfold FAT_LFN_CHARS; lia).
    exact (read_write_bytes _ _ (lfn_chars e) (lfn_chars_bytes e Hb)).
  - intros a Ha. rewrite Hfr by lia. cbn [f_mem s2].
    rewrite write_bytes_frame by (unfold FAT_LFN_CHARS; cbn; lia).
    rewrite kmemset_in; [done|]. unfold res_lfn, FAT_LFN_NAME_BUF_SIZE in *. lia.
Qed.

(** The part of a buffer a C string consumer sees. *)
Fixpoint until_nul (l : list Z) : list Z :=
  match l with [] => [] | c :: l' => if c =? 0 then [] else c :: until_nul l' end.

Lemma cstring_until_nul m p l :
  read_bytes m p (length l) = l → m (p + Z.of_nat (length l)) = 0 → cstring m p (until_nul l).
Proof.
  revert p. induction l as [|c l IH]; intros p Hr Hz.
  - split; [done|]. split; [done|constructor].
  - cbn in Hr. injection Hr as Hc Hr. cbn [until_nul]. destruct (Z.eqb_spec c 0) as [->|Hne].
    + split; [done|]. cbn. rewrite Z.add_0_r. split; [done|constructor].
    + destruct (IH (p + 1) Hr) as (G1 & G2 & G3).
      { rewrite <- Hz. f_equal. cbn [length]. lia. }
      split; [cbn; by rewrite Hc, G1|]. split; [|by constructor].
      rewrite <- G2. f_equal. cbn [length]. lia.
Qed.

(** The name [fat_read_entry] leaves in the result is a C string. *)
Lemma name_cstring (s' : fstate D) e es :
  (length es < 20)%nat →
  read_bytes (f_mem s') (res_lfn res) (13 * S (length es)) = lfn_name (e :: es) →
  (∀ a, res_lfn res + 13 * Z.of_nat (S (length es)) ≤ a < res + 297 → f_mem s' a = 0) →
  cstring (f_mem s') (res_lfn res) (until_nul (lfn_name (e :: es))).
Proof.
  intros H20 Hr Hz. apply cstring_until_nul; rewrite length_lfn_name; cbn [length]; [done|].
  apply Hz. unfold res_lfn. lia.
Qed.

(** A string without the character is searched to its end. *)
Lemma kstrchr_none fuel m p l chr :
  cstring m p l → Forall (fun c => s8 c ≠ chr) l → (length l < fuel)%nat →
  kstrchr fuel m p chr = Some None.
Proof.
  revert p l. induction fuel as [|fuel IH]; intros p l Hs Hc Hf; [lia|]. cbn [kstrchr].
  destruct l as [|c l].
  - by rewrite (cstring_nil _ _ Hs).
  - destruct (cstring_cons _ _ _ _ Hs) as (-> & Hne & Ht). apply Forall_cons in Hc as [Hc1 Hc2].
    rewrite (proj2 (Z.eqb_neq c 0) Hne), (proj2 (Z.eqb_neq _ _) Hc1).
    apply (IH _ l); [done|done|cbn in Hf; lia].
Qed.

(** Looking up a one-component path in a directory that starts with a file. *)
Lemma walk_first sup cl e es e0 s path P fuel sfuel efuel :
  geometry bdev sup → inv (f_dev s) → byte_mem (f_mem s) → (length es < 20)%nat →
  (S (length es) < efuel)%nat → sequence sup (f_dev s) cl 0 (e :: es) e0 →
  Z.land (get8 e 0) 63 = Z.of_nat (length es) + 1 → Z.land (get8 e0 11) FAT_DIRECTORY = 0 →
  f_mem s path = VFS_SEPARATOR → cstring (f_mem s) (path + 1) P →
  Forall (fun c => s8 c ≠ VFS_SEPARATOR) P → (length P < sfuel)%nat → Z.of_nat (length P) < FAT_LFN_NAME_SIZE →
  (∀ a, path ≤ a < path + 1 + Z.of_nat (length P) → outside a) →
  P `prefix_of` until_nul (lfn_name (e :: es)) →
  ∃ s', fat_walk_path (S fuel) sfuel efuel res eb sup path cl s = Done (FAT_OK, s') ∧
    entry_result s s' cl e0 ∧ cstring (f_mem s') (res_lfn res) (until_nul (lfn_name (e :: es))).
Proof.
  intros Hg Hi Hbm H20 Hef Hseq Hn Hnd Hp HP Hsep' Hsf Hlen Hout Hpre. cbn [fat_walk_path].
  unfold bind at 1, gets at 1. rewrite Hp, Z.eqb_refl. unfold bind at 1, kassert, ret at 1.
  rewrite (kstrchr_none sfuel (f_mem s) (path + 1) P) by done.
  rewrite (kstrlen_cstring sfuel (f_mem s) (path + 1) P) by done.
  rewrite Z.geb_leb, (proj2 (Z.leb_gt FAT_LFN_NAME_SIZE _)) by lia.
  destruct (read_entry_run sup cl 0 e es e0 s efuel Hg Hi Hbm ltac:(lia) H20 Hef Hseq Hn)
    as (s' & E & Hres & Hname & Hzero).
  pose proof (name_cstring s' e es H20 Hname Hzero) as Hcs.
  destruct efuel as [|efuel]; [lia|]. cbn [walk_entries]. rewrite (bind_run _ _ _ _ _ E).
  rewrite (proj2 (Z.eqb_neq _ FAT_ENTRY_ERROR)) by (unfold FAT_ENTRY_ERROR; lia).
  unfold bind at 1, gets at 1. exists s'.
  assert (Hattr : f_mem s' (res_entry res + 11) = get8 e0 11).
  { pose proof (er_entry _ _ _ _ Hres) as He. unfold get8. rewrite <- He.
    rewrite (nth_lookup_Some _ 11 0 (f_mem s' (res_entry res + 11))); [done|].
    by rewrite read_bytes_lookup by lia. }
  assert (Hcmp : kstrncmp (f_mem s') (res_lfn res) (path + 1) (Z.of_nat (length P)) = true).
  { unfold kstrncmp. rewrite Nat2Z.id. apply kstrncmp_loop_spec.
    rewrite (read_bytes_ext (f_mem s') (f_mem s) (path + 1))
      by (intros x Hx; apply (er_frame _ _ _ _ Hres), Hout; lia).
    destruct HP as (-> & _ & _). destruct Hpre as [R HR]. destruct Hcs as (Hc1 & _ & _).
    rewrite HR, length_app, read_bytes_app in Hc1. apply app_inj_1 in Hc1 as [Hc1 _]; [done|].
    apply length_read_bytes. }
  rewrite Hcmp, Hattr, Hnd. cbn. done.
Qed.
End proofs.
End dir.

(** ** Long names as they are stored on disk *)

(** A long-name entry with 13 UCS-2 characters. *)
Definition encode_lfn (ordinal : Z) (cs : list Z) : list Z :=
  ordinal :: flat_map (le_bytes 2) (take 5 cs) ++ [15; 0; 0] ++
  flat_map (le_bytes 2) (take 6 (drop 5 cs)) ++ [0; 0] ++ flat_map (le_bytes 2) (drop 11 cs).

Definition lfn_parts (name : list Z) : nat := (length name + 12) / 13.

(** The name is closed with a zero and padded with 0xffff. *)
Definition lfn_padded (name : list Z) : list Z := name ++ 0 :: replicate 12 65535.

Definition lfn_part (name : list Z) (i : nat) : list Z := take 13 (drop (13 * i) (lfn_padded name)).

(** Parts are numbered from 1; the last one is marked and comes first. *)
Definition lfn_ordinal (k i : nat) : Z :=
  Z.of_nat i + 1 + (if Nat.eqb (S i) k then 64 else 0).

Definition lfn_encode (name : list Z) : list (list Z) :=
  rev (map (fun i => encode_lfn (lfn_ordinal (lfn_parts name) i) (lfn_part name i)) (seq 0 (lfn_parts name))).

Lemma encode_chars ordinal cs : length cs = 13%nat → lfn_chars (encode_lfn ordinal cs) = map u8 cs.
Proof.
  intros H. do 13 (destruct cs as [|? cs]; [done|]). destruct cs; [reflexivity|done].
Qed.

Lemma concat_parts {A} (l : list A) k :
  concat (map (fun i => take 13 (drop (13 * i) l)) (seq 0 k)) = take (13 * k) l.
Proof.
  induction k as [|k IH]; [done|]. rewrite seq_S, map_app, concat_app, IH. cbn [map concat Nat.add].
  rewrite app_nil_r, take_take_drop. f_equal. lia.
Qed.

Lemma lfn_parts_bounds name :
  (length name ≤ 13 * lfn_parts name ≤ length name + 12)%nat.
Proof.
  unfold lfn_parts. pose proof (Nat.div_mod (length name + 12) 13 ltac:(lia)).
  pose proof (Nat.mod_upper_bound (length name + 12) 13 ltac:(lia)). lia.
Qed.

Lemma length_lfn_part name i : (i < lfn_parts name)%nat → length (lfn_part name i) = 13%nat.
Proof.
  intros Hi. pose proof (lfn_parts_bounds name). unfold lfn_part, lfn_padded.
  rewrite length_take, length_drop, length_app. cbn [length]. rewrite length_replicate. lia.
Qed.

Lemma until_nul_app l r :
  Forall (fun c => 0 < c < 2 ^ 8) l → (r = [] ∨ ∃ r', r = 0 :: r') → until_nul (l ++ r) = l.
Proof.
  intros Hl Hr. induction Hl as [|c l Hc Hl IH]; cbn.
  - destruct Hr as [->|(r' & ->)]; done.
  - rewrite (proj2 (Z.eqb_neq c 0)) by lia. by rewrite IH.
Qed.

Lemma lfn_encode_name name :
  Forall (fun c => 0 < c < 2 ^ 8) name → until_nul (lfn_name (lfn_encode name)) = name.
Proof.
  intros Hn. pose proof (lfn_parts_bounds name) as Hk. unfold lfn_name, lfn_encode.
  rewrite rev_involutive, map_map.
  rewrite (map_ext_in _ (fun i => map u8 (take 13 (drop (13 * i) (lfn_padded name))))).
  2:{ intros i Hi%in_seq. apply encode_chars, length_lfn_part. lia. }
  rewrite <- (map_map (fun i => take 13 (drop (13 * i) (lfn_padded name))) (map u8)).
  rewrite <- concat_map, concat_parts. unfold lfn_padded. rewrite take_app, take_ge by lia.
  rewrite map_app. rewrite (map_ext_in u8 (fun c => c)).
  2:{ intros c Hc. apply u8_small. rewrite Forall_forall in Hn. apply list_elem_of_In in Hc.
      specialize (Hn c Hc). cbn in Hn. lia. }
  rewrite map_id. apply until_nul_app; [done|].
  destruct (13 * lfn_parts name - length name)%nat; [by left|]. right. eexists. reflexivity.
Qed.

(** The marks the reader looks at, for up to 20 parts. *)
Definition ordinal_good (k i : nat) : bool :=
  let o := lfn_ordinal k i in
  negb (o =? 0) && negb (o =? 229) && (Z.land o 128 =? 0) && (Z.land o 63 =? Z.of_nat i + 1).

Lemma ordinals_good k i : (i < k ≤ 20)%nat → ordinal_good k i = true.
Proof.
  intros H. assert (Hall : forallb (fun k => forallb (ordinal_good k) (seq 0 k)) (seq 0 21) = true)
    by (vm_compute; reflexivity).
  rewrite forallb_forall in Hall. specialize (Hall k ltac:(apply in_seq; lia)).
  rewrite forallb_forall in Hall. apply Hall, in_seq. lia.
Qed.

Lemma encode_head ordinal cs : get8 (encode_lfn ordinal cs) 0 = ordinal.
Proof. reflexivity. Qed.

Lemma encode_attr ordinal cs : length cs = 13%nat → get8 (encode_lfn ordinal cs) 11 = 15.
Proof. intros H. do 13 (destruct cs as [|? cs]; [done|]). done. Qed.

Lemma encode_lookup name k e :
  lfn_encode name !! k = Some e →
  ∃ i, (i < lfn_parts name)%nat ∧ (k + i = lfn_parts name - 1)%nat ∧
       e = encode_lfn (lfn_ordinal (lfn_parts name) i) (lfn_part name i).
Proof.
  unfold lfn_encode. set (l := map _ _). intros H.
  replace (rev l) with (reverse l) in H by (unfold reverse; by rewrite rev_alt).
  pose proof (lookup_lt_Some _ _ _ H) as Hlt. unfold l in *. rewrite length_reverse, length_map, length_seq in Hlt.
  rewrite reverse_lookup in H by (by rewrite length_map, length_seq).
  rewrite length_map, length_seq in H. apply list_lookup_fmap_Some in H as (i & -> & Hi).
  apply lookup_seq in Hi as [-> Hi]. eexists. split; [|split; [|reflexivity]]; lia.
Qed.

Lemma encode_live name k e :
  (lfn_parts name ≤ 20)%nat → lfn_encode name !! k = Some e → lfn_live e.
Proof.
  intros H20 He. destruct (encode_lookup name k e He) as (i & Hi & _ & ->).
  pose proof (ordinals_good (lfn_parts name) i ltac:(lia)) as Hg. unfold ordinal_good in Hg.
  unfold lfn_live, entry_live. rewrite encode_head, encode_attr by (by apply length_lfn_part).
  unfold FAT_LAST_ENTRY, FAT_UNUSED_ENTRY, FAT_LFN_DELETED, FAT_LFN. lia.
Qed.

Lemma length_lfn_encode name : length (lfn_encode name) = lfn_parts name.
Proof. unfold lfn_encode. by rewrite length_rev, length_map, length_seq. Qed.

(** ** Properties *)

(** C34: long file names survive the disk: when a directory holds the long-name
    entries of a name followed by a normal entry, and each of these raw entries lies
    in the first sector of a cluster of the directory ([dir_entry]; the code does not
    read the other sectors of a cluster correctly), [fat_read_entry] returns the
    number of the next entry and leaves that entry, the directory's cluster and
    the name, as a C string, in the result; memory outside the result and its
    entry buffer, and the disk, are unchanged. *)
Theorem fat_read_entry_roundtrip {D} (bdev : block_dev D) inv blk res eb sup cl i name e0 s fuel :
  bdev_ok bdev inv blk → eb + 32 ≤ res ∨ res + 297 ≤ eb → geometry bdev sup → inv (f_dev s) →
  byte_mem (f_mem s) → 0 ≤ i → name ≠ [] → (length name ≤ 255)%nat →
  Forall (fun c => 0 < c < 2 ^ 8) name → (lfn_parts name + 1 < fuel)%nat →
  (∀ k e, lfn_encode name !! k = Some e → dir_entry bdev blk sup (f_dev s) cl (i + Z.of_nat k) e) →
  dir_entry bdev blk sup (f_dev s) cl (i + Z.of_nat (lfn_parts name)) e0 → normal_live e0 →
  ∃ s', fat_read_entry bdev fuel res eb sup cl i s = Done (i + Z.of_nat (lfn_parts name) + 1, s') ∧
    entry_result inv blk res eb s s' cl e0 ∧ cstring (f_mem s') (res_lfn res) name.
Proof.
  intros Hd Hsep Hg Hi Hbm H0 Hne Hlen Hch Hf Hes He0 Hlv.
  pose proof (lfn_parts_bounds name) as Hk. pose proof (length_lfn_encode name) as Hl.
  destruct (lfn_encode name) as [|e es] eqn:El.
  { cbn [length] in Hl. destruct name; [done|]. cbn [length] in Hk. lia. }
  cbn [length] in Hl. assert (H20 : (lfn_parts name ≤ 20)%nat) by lia.
  destruct (read_entry_run bdev inv blk Hd res eb Hsep sup cl i e es e0 s fuel) as (s' & E & Hr & Hn & Hz);
    try done; try lia.
  { split; [|split; [|done]].
    - intros k e' Hk'. split; [by apply Hes|]. apply (encode_live name k); [done|]. by rewrite El.
    - cbn [length]. by rewrite Hl. }
  { destruct (encode_lookup name 0 e) as (j & Hj & Hjk & ->); [by rewrite El|].
    rewrite encode_head. pose proof (ordinals_good (lfn_parts name) j ltac:(lia)) as Ho.
    unfold ordinal_good in Ho. lia. }
  exists s'. rewrite E. split; [do 2 f_equal; lia|]. split; [done|].
  rewrite <- (lfn_encode_name name Hch) at 1. rewrite El. apply name_cstring; [lia|done|done].
Qed.

(** A path component is matched with the beginning of a file's name only: a
    lookup whose component is a prefix of the first file's name finds that file,
    whatever the name goes on with; with the whole name it finds it too. *)
Theorem fat_walk_path_prefix {D} (bdev : block_dev D) inv blk res eb sup cl e es e0 s path P fuel sfuel efuel :
  bdev_ok bdev inv blk → eb + 32 ≤ res ∨ res + 297 ≤ eb → geometry bdev sup → inv (f_dev s) →
  byte_mem (f_mem s) → (length es < 20)%nat → (S (length es) < efuel)%nat →
  sequence bdev blk sup (f_dev s) cl 0 (e :: es) e0 →
  Z.land (get8 e 0) 63 = Z.of_nat (length es) + 1 → Z.land (get8 e0 11) FAT_DIRECTORY = 0 →
  f_mem s path = VFS_SEPARATOR → cstring (f_mem s) (path + 1) P →
  Forall (fun c => s8 c ≠ VFS_SEPARATOR) P → (length P < sfuel)%nat → Z.of_nat (length P) < FAT_LFN_NAME_SIZE →
  (∀ a, path ≤ a < path + 1 + Z.of_nat (length P) → outside res eb a) →
  P `prefix_of` until_nul (lfn_name (e :: es)) →
  ∃ s', fat_walk_path bdev (S fuel) sfuel efuel res eb sup path cl s = Done (FAT_OK, s') ∧
    entry_result inv blk res eb s s' cl e0 ∧
    cstring (f_mem s') (res_lfn res) (until_nul (lfn_name (e :: es))).
Proof. intros Hd Hsep. by apply walk_first. Qed.

(** A directory with the file "hello-world.txt". *)
Definition example_name : list Z := [104; 101; 108; 108; 111; 45; 119; 111; 114; 108; 100; 46; 116; 120; 116].

Definition example_entry : list Z :=
  [72; 69; 76; 76; 79; 126; 49; 32; 84; 88; 84; 32; 0; 0; 0; 0; 0; 0; 0; 0; 0; 0; 0; 0; 0; 0; 3; 0; 0; 2; 0; 0].

Definition example_dir : list (list Z) := [concat (lfn_encode example_name) ++ example_entry].

Lemma example_dir_ok : Forall (fun l => (length l ≤ 512)%nat ∧ byte_list l) example_dir.
Proof.
  constructor; [|constructor]. split; [vm_compute; lia|]. refine (bool_decide_unpack _ _). vm_compute. exact I.
Qed.

(** The path "/hello" is at 2000. *)
Definition example_path_fs : fstate (Z → list Z) :=
  mk_fstate (example_volume 1 example_dir) (write_bytes (fun _ => 0) 2000 [47; 104; 101; 108; 108; 111]).

Lemma example_path_bytes : byte_mem (f_mem example_path_fs).
Proof. apply byte_mem_write. intros a. lia. Qed.

Lemma example_dir_entry (i : nat) e :
  (lfn_encode example_name ++ [example_entry]) !! i = Some e →
  dir_entry (volume_dev 1) (fun img => img) (example_super 1) (example_volume 1 example_dir) 2 (0 + Z.of_nat i) e.
Proof.
  intros H. exists 2. destruct i as [|[|[|i]]]; [..|by vm_compute in H].
  all: split; [split; vm_compute; done|].
  all: vm_compute in H; injection H as <-; vm_compute; reflexivity.
Qed.

Lemma example_entry_live : normal_live example_entry.
Proof. vm_compute. done. Qed.

Lemma fat_read_entry_roundtrip_witness :
  ∃ s', fat_read_entry (volume_dev 1) 10 4000 5000 (example_super 1) 2 0 example_path_fs = Done (3, s') ∧
    cstring (f_mem s') (res_lfn 4000) example_name.
Proof.
  destruct (fat_read_entry_roundtrip (volume_dev 1) _ _ 4000 5000 (example_super 1) 2 0 example_name
    example_entry example_path_fs 10 (volume_dev_ok 1) ltac:(right; lia) example_geometry
    (example_volume_inv 1 _ ltac:(lia) example_dir_ok) example_path_bytes ltac:(lia) ltac:(discriminate)
    ltac:(vm_compute; lia) ltac:(repeat (constructor; [lia|]); constructor) ltac:(vm_compute; lia)
    (fun k e H => example_dir_entry k e (lookup_app_l_Some _ _ _ _ H))
    (example_dir_entry 2 example_entry eq_refl) example_entry_live) as (s' & E & _ & Hn).
  exists s'. split; [exact E|exact Hn].
Defined.

Lemma example_sequence :
  sequence (volume_dev 1) (fun img => img) (example_super 1) (example_volume 1 example_dir) 2 0
    (lfn_encode example_name) example_entry.
Proof.
  split; [|split; [exact (example_dir_entry 2 example_entry eq_refl)|exact example_entry_live]].
  intros k e H. split; [exact (example_dir_entry k e (lookup_app_l_Some _ _ _ _ H))|].
  apply (encode_live example_name k e); [vm_compute; lia|exact H].
Qed.

Lemma example_path_string : cstring (f_mem example_path_fs) 2001 [104; 101; 108; 108; 111].
Proof.
  split; [vm_compute; reflexivity|]. split; [vm_compute; reflexivity|]. repeat (constructor; [lia|]). constructor.
Qed.

Lemma example_prefix :
  [104; 101; 108; 108; 111] `prefix_of` until_nul (lfn_name (lfn_encode example_name)).
Proof. exists [45; 119; 111; 114; 108; 100; 46; 116; 120; 116]. vm_compute. reflexivity. Qed.

Lemma fat_walk_path_prefix_witness :
  ∃ s', fat_walk_path (volume_dev 1) 1 10 10 4000 5000 (example_super 1) 2000 2 example_path_fs
    = Done (FAT_OK, s') ∧ cstring (f_mem s') (res_lfn 4000) (until_nul (lfn_name (lfn_encode example_name))).
Proof.
  destruct (fat_walk_path_prefix (volume_dev 1) _ _ 4000 5000 (example_super 1) 2
    (encode_lfn (lfn_ordinal 2 1) (lfn_part example_name 1))
    [encode_lfn (lfn_ordinal 2 0) (lfn_part example_name 0)]
    example_entry example_path_fs 2000 [104; 101; 108; 108; 111] 0 10 10
    (volume_dev_ok 1) ltac:(right; lia) example_geometry
    (example_volume_inv 1 _ ltac:(lia) example_dir_ok) example_path_bytes ltac:(cbn; lia) ltac:(cbn; lia)
    example_sequence ltac:(vm_compute; reflexivity) ltac:(vm_compute; reflexivity)
    ltac:(vm_compute; reflexivity) example_path_string
    ltac:(repeat (constructor; [vm_compute; discriminate|]); constructor) ltac:(cbn; lia) ltac:(vm_compute; reflexivity)
    ltac:(intros a Ha; cbn in Ha; split; lia) example_prefix) as (s' & E & _ & Hn).
  exists s'. split; [exact E|exact Hn].
Defined.
