(* ===== verification/FatPath.v ===== *)
(** * fs/fat_core.c: whole directories and paths of several components

    A directory on disk is a [listing]: files with long or short names up to the entry
    that ends it.  [fat_read_entry] steps through it file by file, and
    [fat_walk_path] is shown to resolve a path the way the directories on disk
    describe ([resolves]). *)

From stdpp Require Import base list strings.
From Stdlib Require Import ZArith Lia.
From S2P Require Import Prelude Memory KUtils BlockDev Fat FatDir.

(** A file of a directory: its long-name entries and its normal entry. *)
Definition dirent : Type := list (list Z) * list Z.

(** The name [fat_read_entry] gives it; without long-name entries it is made of the
    eight and three characters of the normal entry. *)
Definition ent_name (x : dirent) : list Z :=
  match fst x with
  | [] => take 8 (snd x) ++ 46 :: take 3 (drop 8 (snd x))
  | es => until_nul (lfn_name es)
  end.

Definition ent_directory (x : dirent) : bool := negb (Z.land (get8 (snd x) 11) FAT_DIRECTORY =? 0).

(** The long-name entries count down to one; the characters of a short name are not NUL. *)
Definition ent_ok (x : dirent) : Prop :=
  match fst x with
  | [] => Forall (fun c => c ≠ 0) (take 11 (snd x))
  | e :: es => (length es < 20)%nat ∧ Z.land (get8 e 0) 63 = Z.of_nat (length es) + 1
  end.

Lemma cstring_app m p a b :
  read_bytes m p (length a) = a → Forall (fun c => c ≠ 0) a → cstring m (p + Z.of_nat (length a)) b →
  cstring m p (a ++ b).
Proof.
  intros Ha Hn (Hb & Hz & Hbn). split; [|split].
  - by rewrite length_app, read_bytes_app, Ha, Hb.
  - rewrite <- Hz. f_equal. rewrite length_app. lia.
  - by apply Forall_app.
Qed.

(** Comparing as many bytes as [P] has with a string tells whether [P] begins it. *)
Lemma cstring_starts m p N P :
  cstring m p N → Forall (fun c => c ≠ 0) P → read_bytes m p (length P) = P ↔ P `prefix_of` N.
Proof.
  revert p N. induction P as [|c P IH]; intros p N HN HP; cbn.
  { split; [intros _; apply prefix_nil|done]. }
  apply Forall_cons in HP as [Hc HP]. destruct N as [|d N].
  - rewrite (cstring_nil _ _ HN). split; [intros [= ? _]; congruence|]. by intros ?%prefix_nil_not.
  - destruct (cstring_cons _ _ _ _ HN) as (-> & Hd & HN'). split.
    + intros [= -> E]. apply prefix_cons. by apply (IH (p + 1)).
    + intros H. pose proof (prefix_cons_inv_1 _ _ _ _ H) as ->. f_equal.
      apply (IH (p + 1) N); [done|done|]. by apply prefix_cons_inv_2 in H.
Qed.

(** A component that is followed by the separator. *)
Lemma kstrchr_some fuel m p l rest chr :
  cstring m p (l ++ rest) → head rest = Some (u8 chr) → Forall (fun c => s8 c ≠ chr) l →
  s8 (u8 chr) = chr → (length l < fuel)%nat → kstrchr fuel m p chr = Some (Some (p + Z.of_nat (length l))).
Proof.
  revert p l. induction fuel as [|fuel IH]; intros p l Hs Hr Hc Hu Hf; [lia|]. cbn [kstrchr].
  destruct l as [|c l]; cbn [app] in Hs.
  - destruct rest as [|r rest]; [done|]. injection Hr as ->.
    destruct (cstring_cons _ _ _ _ Hs) as (-> & Hne & _).
    rewrite (proj2 (Z.eqb_neq _ 0) Hne), Hu, Z.eqb_refl. cbn. do 2 f_equal. lia.
  - destruct (cstring_cons _ _ _ _ Hs) as (-> & Hne & Ht). apply Forall_cons in Hc as [Hc1 Hc2].
    rewrite (proj2 (Z.eqb_neq c 0) Hne), (proj2 (Z.eqb_neq _ _) Hc1).
    rewrite (IH _ l) by (done || (cbn in Hf; lia)). do 2 f_equal. cbn [length]. lia.
Qed.

Section path.
Context {D : Type} (bdev : block_dev D) (inv : D → Prop) (blk : D → Z → list Z) (Hdev : bdev_ok bdev inv blk).
Context (res eb : Z) (Hsep : eb + 32 ≤ res ∨ res + 297 ≤ eb).

Abbreviation dir_entry := (dir_entry bdev blk).
Abbreviation sequence := (sequence bdev blk).
Abbreviation entry_result := (entry_result inv blk res eb).
Abbreviation read_entry_loop := (read_entry_loop bdev).
Abbreviation fat_read_entry := (fat_read_entry bdev).
Abbreviation buffered := (buffered eb).

Lemma buffered_ext m m' e :
  (∀ a, eb ≤ a < eb + 32 → m' a = m a) → buffered m e → buffered m' e.
Proof. intros H B k Hk. rewrite H by lia. by apply B. Qed.

Lemma buffered_read m e k n :
  length e = 32%nat → (k + n ≤ 32)%nat → buffered m e → read_bytes m (eb + Z.of_nat k) n = take n (drop k e).
Proof.
  intros Hl Hk B. apply list_eq. intros i. destruct (decide (i < n)%nat) as [Hi|Hi].
  - rewrite read_bytes_lookup, lookup_take_lt, lookup_drop by done.
    rewrite <- Z.add_assoc, <- Nat2Z.inj_add, (B (k + i)%nat) by lia.
    destruct (lookup_lt_is_Some_2 e (k + i)%nat ltac:(lia)) as [b Hb]. rewrite Hb. f_equal. by apply nth_lookup_Some.
  - rewrite !lookup_ge_None_2; [done|rewrite length_take; lia|rewrite length_read_bytes; lia].
Qed.

(** The short name written to the result. *)
Lemma short_run (s : fstate D) e :
  byte_mem (f_mem s) → buffered (f_mem s) e → length e = 32%nat → Forall (fun c => c ≠ 0) (take 11 e) →
  ∃ s', short_name res eb s = Done (tt, s') ∧ f_dev s' = f_dev s ∧ byte_mem (f_mem s') ∧
    cstring (f_mem s') (res_lfn res) (ent_name ([], e)) ∧
    (∀ a, (a < res_lfn res ∨ res_lfn res + 13 ≤ a) → f_mem s' a = f_mem s a).
Proof.
  intros Hbm B Hl Hn. set (L := res_lfn res). assert (HL : L = res + 36) by done.
  assert (H8 : length (take 8 e) = 8%nat) by (rewrite length_take; lia).
  change 11%nat with (8 + 3)%nat in Hn. rewrite <- take_take_drop in Hn.
  apply Forall_app in Hn as [Hn1 Hn2].
  set (m1 := kmemset (f_mem s) L 0 13). set (m2 := fst (kstrncpy m1 L eb 8)).
  set (m3 := store8 m2 (L + 8) 46). set (m4 := fst (kstrncpy m3 (L + 9) (eb + 8) 3)).
  assert (Hb1 : byte_mem m1) by by apply kmemset_byte_mem.
  assert (Hb2 : byte_mem m2) by by apply kmemcpy_byte_mem.
  assert (Hb3 : byte_mem m3) by by apply byte_mem_store8.
  assert (B1 : buffered m1 e) by (apply (buffered_ext (f_mem s)); [intros a Ha; apply kmemset_out; lia|done]).
  assert (B2 : buffered m2 e) by (apply (buffered_ext m1); [intros a Ha; apply kmemcpy_out; lia|done]).
  assert (B3 : buffered m3 e) by (apply (buffered_ext m2); [intros a Ha; apply store8_ne; lia|done]).
  assert (R2 : read_bytes m2 L 8 = take 8 e).
  { etransitivity; [apply (read_bytes_kmemcpy m1 L eb 8); done || lia|].
    pose proof (buffered_read m1 e 0 8 Hl ltac:(lia) B1) as R. by rewrite Z.add_0_r, drop_0 in R. }
  assert (Z2 : ∀ a, L + 8 ≤ a < L + 13 → m2 a = 0).
  { intros a Ha. etransitivity; [apply (kmemcpy_out m1 L eb 8); lia|]. unfold m1. by rewrite kmemset_in by lia. }
  assert (C2 : cstring m2 L (take 8 e)).
  { split; [by rewrite H8|]. split; [|done]. rewrite H8. apply Z2. lia. }
  assert (R3 : read_bytes m3 L 8 = take 8 e).
  { rewrite <- R2. apply read_bytes_ext. intros a Ha. apply store8_ne. lia. }
  assert (C3 : cstring m3 L (take 8 e ++ [46])).
  { apply cstring_app; [by rewrite H8|done|]. rewrite H8. split; [|split; [|repeat constructor; lia]].
    - unfold m3. cbn. by rewrite store8_eq.
    - unfold m3. rewrite store8_ne by (cbn; lia). apply Z2. cbn. lia. }
  assert (K3 : kstrlen 14 m3 L = Some 9).
  { rewrite (kstrlen_cstring 14 m3 L (take 8 e ++ [46])); [|done|rewrite length_app, H8; cbn; lia].
    f_equal. rewrite length_app, H8. done. }
  assert (E8 : m2 (eb + 8) ≠ 0).
  { pose proof (B2 8%nat ltac:(lia)) as B8. change (Z.of_nat 8) with 8 in B8. rewrite B8. destruct (lookup_lt_is_Some_2 e 8%nat ltac:(lia)) as [b Hb].
    unfold get8. rewrite (nth_lookup_Some _ _ _ _ Hb).
    apply (Forall_lookup_1 _ _ 0%nat b Hn2). by rewrite lookup_take_lt, lookup_drop by lia. }
  exists (mk_fstate (f_dev s) m4). split.
  { unfold short_name, upd, bind, modify, gets. cbn [f_dev f_mem]. fold L. fold m1. fold m2.
    rewrite (proj2 (Z.eqb_neq _ _) E8). cbn [negb when].
    rewrite (kstrlen_cstring 14 m2 L (take 8 e)), H8 by (done || (rewrite H8; lia)).
    change (Z.of_nat 8) with 8. cbn [f_dev f_mem]. change (res_lfn res) with L. fold m3. by rewrite K3. }
  cbn [f_dev f_mem]. split; [done|]. split; [by apply kmemcpy_byte_mem|]. split.
  - unfold ent_name. cbn [fst snd].
    assert (F4 : ∀ a, (a < L + 9 ∨ L + 12 ≤ a) → m4 a = m3 a) by (intros a Ha; apply (kmemcpy_out m3); lia).
    assert (H3 : length (take 3 (drop 8 e)) = 3%nat) by (rewrite length_take, length_drop; lia).
    apply cstring_app; [|done|].
    { rewrite H8, <- R3. apply read_bytes_ext. intros a Ha. apply F4. lia. }
    rewrite H8. apply (cstring_app _ _ [46]); [|repeat constructor; lia|].
    { cbn. rewrite F4 by lia. unfold m3. by rewrite store8_eq. }
    replace (L + Z.of_nat 8 + Z.of_nat (length [46])) with (L + 9) by (cbn; lia).
    split; [|split; [|done]]; rewrite H3.
    + etransitivity; [apply (read_bytes_kmemcpy m3 (L + 9) (eb + 8) 3); done || lia|].
      exact (buffered_read m3 e 8 3 Hl ltac:(lia) B3).
    + rewrite F4 by lia. unfold m3. rewrite store8_ne by lia. apply Z2. lia.
  - intros a Ha. etransitivity; [apply (kmemcpy_out m3); lia|]. unfold m3. rewrite store8_ne by lia.
    etransitivity; [apply (kmemcpy_out m1); lia|]. apply kmemset_out. lia.
Qed.

(** [fat_read_entry] on a file with a long or a short name. *)
Lemma read_ent sup cl i x s fuel :
  geometry bdev sup → inv (f_dev s) → byte_mem (f_mem s) → 0 ≤ i →
  sequence sup (f_dev s) cl i (fst x) (snd x) → ent_ok x → (length (fst x) < fuel)%nat →
  ∃ s', fat_read_entry fuel res eb sup cl i s = Done (i + Z.of_nat (length (fst x)) + 1, s') ∧
    entry_result s s' cl (snd x) ∧ cstring (f_mem s') (res_lfn res) (ent_name x).
Proof.
  destruct x as [[|e es] e0]; cbn [fst snd]; intros Hg Hi Hbm H0 Hseq Hok Hf.
  - destruct fuel as [|fuel]; [cbn in Hf; lia|]. destruct Hseq as (_ & He & Hlv). rewrite Z.add_0_r in He.
    destruct (loop_normal bdev inv blk Hdev res eb sup s cl i e0 fuel 0 false Hg Hi H0 He Hlv)
      as (s1 & (Hi1 & Hk1 & Hm1) & B & Hl & Hb & E).
    assert (Hbm1 : byte_mem (f_mem s1)) by (rewrite Hm1; by apply byte_mem_write).
    destruct (short_run s1 e0 Hbm1 B Hl Hok) as (s2 & E2 & D2 & Hbm2 & C2 & F2).
    assert (B2 : buffered (f_mem s2) e0).
    { apply (buffered_ext (f_mem s1)); [|done]. intros a Ha. apply F2. unfold res_lfn. lia. }
    destruct (found_run res eb Hsep s2 e0 cl Hbm2 B2 Hl) as (s3 & E3 & D3 & Hbm3 & R3 & F3 & L3).
    exists s3. split; [|split; [split|]]; try done.
    + unfold fat_read_entry. rewrite (proj2 (Z.leb_le 0 i)) by lia. unfold bind at 1, kassert, ret at 1.
      rewrite E. erewrite bind_run; [unfold ret; do 2 f_equal; cbn [length]; lia|].
      unfold found_entry in E3 |- *. cbn [negb when] in E3 |- *.
      rewrite (bind_run _ _ _ _ _ E2). rewrite (bind_run (ret tt) _ s2 tt s2 eq_refl) in E3. exact E3.
    + by rewrite D3, D2.
    + intros k. by rewrite D3, D2, Hk1.
    + intros a [Ha1 Ha2]. rewrite F3, F2, Hm1 by (unfold res_lfn; lia). apply write_bytes_frame. rewrite Hl. lia.
    + destruct C2 as (C2a & C2b & C2c). split; [|split; [|done]].
      * rewrite <- C2a at 2. apply read_bytes_ext. intros a Ha. apply F3. unfold res_lfn in *. lia.
      * rewrite <- C2b. apply F3. unfold res_lfn. lia.
  - destruct Hok as [H20 Hn].
    destruct (read_entry_run bdev inv blk Hdev res eb Hsep sup cl i e es e0 s fuel Hg Hi Hbm H0 H20
      ltac:(cbn in Hf; lia) Hseq Hn) as (s' & E & R & Hname & Hz).
    exists s'. rewrite E. split; [do 2 f_equal; cbn [length]; lia|]. split; [done|].
    by apply (name_cstring res).
Qed.

(** The entry that ends a directory; only the entry buffer changes. *)
Lemma read_last sup cl i e s fuel :
  geometry bdev sup → inv (f_dev s) → byte_mem (f_mem s) → 0 ≤ i →
  dir_entry sup (f_dev s) cl i e → get8 e 0 = FAT_LAST_ENTRY → (0 < fuel)%nat →
  ∃ s', fat_read_entry fuel res eb sup cl i s = Done (FAT_ENTRY_LAST, s') ∧
    leaves inv blk s s' (write_bytes (f_mem s) eb e) ∧ length e = 32%nat.
Proof.
  intros Hg Hi Hbm H0 He Hlast Hf. destruct fuel as [|fuel]; [lia|].
  destruct (read_raw bdev inv blk Hdev eb sup s cl i e Hg Hi H0 He) as (Hl & Hb & s1 & E & L).
  exists s1. split; [|done]. pose proof (proj2 (proj2 L)) as Hm.
  pose proof (buffered_write eb (f_mem s) e Hl Hb) as B. rewrite <- Hm in B.
  unfold fat_read_entry. rewrite (proj2 (Z.leb_le 0 i)) by lia. unfold bind at 1, kassert, ret at 1.
  cbn [FatDir.read_entry_loop]. rewrite (bind_run _ _ _ _ _ E). change (32 =? 0) with false.
  unfold bind at 1, gets. by rewrite (buffered_first eb _ _ B), Hlast.
Qed.

(** The files of the directory at [cl], from entry [i] on. *)
Inductive listing (sup : fat_super) (d : D) (cl : Z) : Z → list dirent → Prop :=
| listing_end i e :
    dir_entry sup d cl i e → get8 e 0 = FAT_LAST_ENTRY → listing sup d cl i []
| listing_file i x l :
    sequence sup d cl i (fst x) (snd x) → ent_ok x →
    listing sup d cl (i + Z.of_nat (length (fst x)) + 1) l → listing sup d cl i (x :: l).

Lemma sequence_ext sup d d' cl i es e0 :
  (∀ k, blk d' k = blk d k) → sequence sup d cl i es e0 → sequence sup d' cl i es e0.
Proof.
  intros H (H1 & H2 & H3). split; [|split; [|done]].
  - intros k e Hk. destruct (H1 k e Hk). split; [|done]. by apply (dir_entry_ext bdev blk sup d).
  - by apply (dir_entry_ext bdev blk sup d).
Qed.

Lemma listing_ext sup d d' cl i l : (∀ k, blk d' k = blk d k) → listing sup d cl i l → listing sup d' cl i l.
Proof.
  intros H. induction 1 as [i e He Hl|i x l Hs Hx _ IH].
  - by apply (listing_end sup d' cl i e); [apply (dir_entry_ext bdev blk sup d)|].
  - apply listing_file; [by apply (sequence_ext sup d)|done|done].
Qed.

(** What reading directories leaves as it was. *)
Record kept (s s' : fstate D) : Prop := {
  kp_inv : inv (f_dev s');
  kp_blk : ∀ k, blk (f_dev s') k = blk (f_dev s) k;
  kp_bytes : byte_mem (f_mem s');
  kp_frame : ∀ a, outside res eb a → f_mem s' a = f_mem s a;
}.

Lemma kept_trans s1 s2 s3 : kept s1 s2 → kept s2 s3 → kept s1 s3.
Proof.
  intros [A1 A2 A3 A4] [B1 B2 B3 B4]. split; try done.
  - intros k. by rewrite B2.
  - intros a Ha. by rewrite B4, A4.
Qed.

Lemma entry_kept s s' cl e0 : entry_result s s' cl e0 → kept s s'.
Proof. by intros []. Qed.

Lemma leaves_kept s s' e :
  byte_mem (f_mem s) → leaves inv blk s s' (write_bytes (f_mem s) eb e) → length e = 32%nat → kept s s'.
Proof.
  intros Hbm (H1 & H2 & H3) Hl. split; try done.
  - rewrite H3. by apply byte_mem_write.
  - intros a [_ Ha]. rewrite H3. apply write_bytes_frame. rewrite Hl. lia.
Qed.

(** ** Looking up one component *)

(** A component selects the first file of the right kind whose name it begins. *)
Definition selects (P : list Z) (is_leaf : bool) (x : dirent) : Prop :=
  P `prefix_of` ent_name x ∧ ent_directory x = negb is_leaf.

(** The result structure describes [x], found in the directory at [dir]. *)
Record describes (m : mem) (dir : Z) (x : dirent) : Prop := {
  ds_entry : read_bytes m (res_entry res) 32 = snd x;
  ds_dir : 0 ≤ dir < 2 ^ 32 → load32 m res = dir;
  ds_name : cstring m (res_lfn res) (ent_name x);
}.

(** The test the loop makes on the result structure, for the component at [node]. *)
Definition test (m : mem) (node len : Z) (is_leaf : bool) : bool :=
  kstrncmp m (res_lfn res) node len &&
  Bool.eqb (negb (Z.land (m (res_entry res + 11)) FAT_DIRECTORY =? 0)) (negb is_leaf).

Lemma walk_step fuel efuel sup cl node len is_leaf descend en_i s en s' :
  fat_read_entry efuel res eb sup cl en_i s = Done (en, s') → en ≠ FAT_ENTRY_ERROR →
  walk_entries bdev (S fuel) efuel res eb sup cl node len is_leaf descend en_i s =
  (if test (f_mem s') node len is_leaf
   then (if is_leaf then ret FAT_OK
         else descend (fat_get_entry_cluster (read_bytes (f_mem s') (res_entry res) 32)))
   else if en =? FAT_ENTRY_LAST then ret FAT_ERROR
   else walk_entries bdev fuel efuel res eb sup cl node len is_leaf descend en) s'.
Proof.
  intros E Hen. cbn [walk_entries]. rewrite (bind_run _ _ _ _ _ E), (proj2 (Z.eqb_neq _ _) Hen).
  unfold bind at 1, gets at 1, test. destruct (kstrncmp _ _ _ _), is_leaf, (Z.land _ _ =? 0); done.
Qed.

Definition at_node (m : mem) (node : Z) (P : list Z) : Prop :=
  read_bytes m node (length P) = P ∧ Forall (fun c => c ≠ 0) P ∧
  ∀ a, node ≤ a < node + Z.of_nat (length P) → outside res eb a.

Lemma at_node_kept s s' node P : kept s s' → at_node (f_mem s) node P → at_node (f_mem s') node P.
Proof.
  intros K (H1 & H2 & H3). split; [|done]. rewrite <- H1 at 2. apply read_bytes_ext.
  intros a Ha. by apply (kp_frame _ _ K), H3.
Qed.

(** On the description of a file the test decides whether the component selects it. *)
Lemma test_describes m dir x node P is_leaf :
  describes m dir x → at_node m node P →
  test m node (Z.of_nat (length P)) is_leaf = true ↔ selects P is_leaf x.
Proof.
  intros [H1 _ H3] (HP & Hn & _). unfold test, selects.
  assert (Hattr : m (res_entry res + 11) = get8 (snd x) 11).
  { unfold get8. rewrite <- H1, (nth_lookup_Some _ 11 0 (m (res_entry res + 11))); [done|].
    by rewrite read_bytes_lookup by lia. }
  rewrite Hattr, andb_true_iff, eqb_true_iff. apply and_iff_compat_r.
  unfold kstrncmp. rewrite Nat2Z.id, kstrncmp_loop_spec, HP. by apply cstring_starts.
Qed.

Lemma ent_fuel x efuel : ent_ok x → (20 < efuel)%nat → (length (fst x) < efuel)%nat.
Proof. destruct x as [[|e es] e0]; cbn; [lia|]. intros [H _]. lia. Qed.

(** Reading the next file of a listing. *)
Lemma listing_step sup cl i x l s efuel :
  geometry bdev sup → inv (f_dev s) → byte_mem (f_mem s) → 0 ≤ i → (20 < efuel)%nat →
  listing sup (f_dev s) cl i (x :: l) →
  ∃ s' j, fat_read_entry efuel res eb sup cl i s = Done (j, s') ∧
    j = i + Z.of_nat (length (fst x)) + 1 ∧ 0 ≤ j ∧ kept s s' ∧ describes (f_mem s') cl x ∧ listing sup (f_dev s') cl j l.
Proof.
  intros Hg Hi Hbm H0 Hf Hl. inversion Hl as [|? ? ? Hs Hx Hrest]; subst.
  destruct (read_ent sup cl i x s efuel Hg Hi Hbm H0 Hs Hx (ent_fuel x efuel Hx Hf)) as (s' & E & R & C).
  exists s', (i + Z.of_nat (length (fst x)) + 1). split; [done|]. split; [done|]. split; [lia|].
  pose proof (entry_kept _ _ _ _ R) as K. split; [done|]. destruct R. split; [by split|].
  by apply (listing_ext sup (f_dev s)).
Qed.

Lemma walk_found sup cl node P is_leaf descend l1 x l2 efuel : ∀ fuel i s,
  geometry bdev sup → inv (f_dev s) → byte_mem (f_mem s) → 0 ≤ i → (20 < efuel)%nat → (length l1 < fuel)%nat →
  at_node (f_mem s) node P → listing sup (f_dev s) cl i (l1 ++ x :: l2) →
  Forall (fun y => ¬ selects P is_leaf y) l1 → selects P is_leaf x →
  ∃ s', kept s s' ∧ describes (f_mem s') cl x ∧
    walk_entries bdev fuel efuel res eb sup cl node (Z.of_nat (length P)) is_leaf descend i s =
    (if is_leaf then ret FAT_OK else descend (fat_get_entry_cluster (snd x))) s'.
Proof.
  induction l1 as [|y l1 IH]; intros fuel i s Hg Hi Hbm H0 Hef Hf HP Hl Hno Hyes.
  all: destruct fuel as [|fuel]; [cbn in Hf; lia|].
  all: destruct (listing_step sup cl i _ _ s efuel Hg Hi Hbm H0 Hef Hl) as (s1 & j & E & _ & Hj & K & Ds & L1).
  all: rewrite (walk_step _ _ _ _ _ _ _ _ _ _ _ _ E) by (unfold FAT_ENTRY_ERROR; lia).
  all: pose proof (test_describes _ _ _ node P is_leaf Ds (at_node_kept _ _ _ _ K HP)) as T.
  - exists s1. split; [done|]. split; [done|]. rewrite (proj2 T Hyes). by rewrite (ds_entry _ _ _ Ds).
  - apply Forall_cons in Hno as [Hy Hno].
    destruct (test (f_mem s1) _ _ _) eqn:Et; [by destruct Hy; apply T|].
    rewrite (proj2 (Z.eqb_neq _ FAT_ENTRY_LAST)) by (unfold FAT_ENTRY_LAST; lia).
    destruct (IH fuel j s1 Hg (kp_inv _ _ K) (kp_bytes _ _ K) Hj Hef ltac:(cbn in Hf; lia)
      (at_node_kept _ _ _ _ K HP) L1 Hno Hyes) as (s2 & K2 & D2 & E2).
    exists s2. split; [by apply (kept_trans s s1)|done].
Qed.

(** At the end of the directory the result of the last file is tested once more. *)
Lemma walk_missing sup cl node P is_leaf descend l efuel : ∀ fuel i s,
  geometry bdev sup → inv (f_dev s) → byte_mem (f_mem s) → 0 ≤ i → (20 < efuel)%nat → (length l < fuel)%nat →
  at_node (f_mem s) node P → Z.of_nat (length P) < FAT_LFN_NAME_SIZE → listing sup (f_dev s) cl i l →
  Forall (fun y => ¬ selects P is_leaf y) l →
  (l = [] → test (f_mem s) node (Z.of_nat (length P)) is_leaf = false) →
  ∃ s', kept s s' ∧
    walk_entries bdev fuel efuel res eb sup cl node (Z.of_nat (length P)) is_leaf descend i s = Done (FAT_ERROR, s').
Proof.
  induction l as [|y l IH]; intros fuel i s Hg Hi Hbm H0 Hef Hf HP HP2 Hl Hno Hst.
  all: destruct fuel as [|fuel]; [cbn in Hf; lia|].
  - inversion Hl as [? e He Hlast|]; subst.
    destruct (read_last sup cl i e s efuel Hg Hi Hbm H0 He Hlast ltac:(lia)) as (s1 & E & L & Hlen).
    pose proof (leaves_kept _ _ _ Hbm L Hlen) as K. exists s1. split; [done|].
    rewrite (walk_step _ _ _ _ _ _ _ _ _ _ _ _ E) by done.
    assert (test (f_mem s1) node (Z.of_nat (length P)) is_leaf = false) as ->; [|done].
    rewrite <- Hst by done. unfold test, kstrncmp. rewrite Nat2Z.id.
    assert (Hr : ∀ a, res ≤ a < res + 297 → f_mem s1 a = f_mem s a).
    { intros a Ha. rewrite (proj2 (proj2 L)). apply write_bytes_frame. lia. }
    rewrite Hr by (unfold res_entry; lia). f_equal.
    apply eq_iff_eq_true. rewrite !kstrncmp_loop_spec.
    rewrite (proj1 (at_node_kept _ _ _ _ K HP)), (proj1 HP).
    by rewrite (read_bytes_ext (f_mem s1) (f_mem s) (res_lfn res))
      by (intros a Ha; apply Hr; unfold res_lfn, FAT_LFN_NAME_SIZE in *; lia).
  - destruct (listing_step sup cl i _ _ s efuel Hg Hi Hbm H0 Hef Hl) as (s1 & j & E & _ & Hj & K & Ds & L1).
    rewrite (walk_step _ _ _ _ _ _ _ _ _ _ _ _ E) by (unfold FAT_ENTRY_ERROR; lia).
    pose proof (test_describes _ _ _ node P is_leaf Ds (at_node_kept _ _ _ _ K HP)) as T.
    apply Forall_cons in Hno as [Hy Hno].
    destruct (test (f_mem s1) _ _ _) eqn:Et; [by destruct Hy; apply T|].
    rewrite (proj2 (Z.eqb_neq _ FAT_ENTRY_LAST)) by (unfold FAT_ENTRY_LAST; lia).
    destruct (IH fuel j s1 Hg (kp_inv _ _ K) (kp_bytes _ _ K) Hj Hef ltac:(cbn in Hf; lia)
      (at_node_kept _ _ _ _ K HP) HP2 L1 Hno (fun _ => Et)) as (s2 & K2 & E2).
    exists s2. split; [by apply (kept_trans s s1)|done].
Qed.

(** ** Paths *)

Definition path_text (Ps : list (list Z)) : list Z := concat (map (cons VFS_SEPARATOR) Ps).

(** What looking up the components of a path from the directory at [cl] gives: the
    directory and the file, or nothing.  Directories have fewer than [n] files. *)
Inductive resolves (sup : fat_super) (d : D) (n : nat) : Z → list (list Z) → option (Z * dirent) → Prop :=
| resolves_file cl P l1 x l2 :
    listing sup d cl 0 (l1 ++ x :: l2) → (length l1 < n)%nat →
    Forall (fun y => ¬ selects P true y) l1 → selects P true x →
    resolves sup d n cl [P] (Some (cl, x))
| resolves_missing cl P Ps l :
    listing sup d cl 0 l → l ≠ [] → (length l < n)%nat →
    Forall (fun y => ¬ selects P (bool_decide (Ps = [])) y) l →
    resolves sup d n cl (P :: Ps) None
| resolves_below cl P l1 y l2 P' Ps r :
    listing sup d cl 0 (l1 ++ y :: l2) → (length l1 < n)%nat →
    Forall (fun y => ¬ selects P false y) l1 → selects P false y →
    resolves sup d n (fat_get_entry_cluster (snd y)) (P' :: Ps) r →
    resolves sup d n cl (P :: P' :: Ps) r.

Definition component (P : list Z) : Prop :=
  Forall (fun c => s8 c ≠ VFS_SEPARATOR) P ∧ Z.of_nat (length P) < FAT_LFN_NAME_SIZE.

Lemma resolves_ext sup d d' n cl Ps r :
  (∀ k, blk d' k = blk d k) → resolves sup d n cl Ps r → resolves sup d' n cl Ps r.
Proof.
  intros H. induction 1; econstructor; eauto using listing_ext.
Qed.

(** The path stays readable while directories are read. *)
Lemma path_kept s s' path T :
  kept s s' → (∀ a, path ≤ a ≤ path + Z.of_nat (length T) → outside res eb a) →
  cstring (f_mem s) path T → cstring (f_mem s') path T.
Proof.
  intros K Ho (H1 & H2 & H3). split; [|split; [|done]].
  - rewrite <- H1 at 2. apply read_bytes_ext. intros a Ha. apply (kp_frame _ _ K), Ho. lia.
  - rewrite <- H2. apply (kp_frame _ _ K), Ho. lia.
Qed.

(** The first component of a path in memory, as [fat_walk_path] finds it. *)
Lemma path_head m path P Ps sfuel :
  cstring m path (path_text (P :: Ps)) → Forall component (P :: Ps) → (length P < sfuel)%nat →
  m path = VFS_SEPARATOR ∧ read_bytes m (path + 1) (length P) = P ∧ Forall (fun c => c ≠ 0) P ∧
  (Ps = [] → kstrchr sfuel m (path + 1) VFS_SEPARATOR = Some None ∧
             kstrlen sfuel m (path + 1) = Some (Z.of_nat (length P))) ∧
  (Ps ≠ [] → kstrchr sfuel m (path + 1) VFS_SEPARATOR = Some (Some (path + 1 + Z.of_nat (length P))) ∧
             cstring m (path + 1 + Z.of_nat (length P)) (path_text Ps)).
Proof.
  cbn [path_text map concat]. intros Hs Hc Hf. apply Forall_cons in Hc as [[Hc _] _].
  destruct (cstring_cons _ _ _ _ Hs) as (Hp & _ & Ht). split; [done|]. fold (path_text Ps) in Ht.
  destruct Ht as (H1 & H2 & H3). rewrite length_app, read_bytes_app in H1.
  apply app_inj_1 in H1 as [H1 H1']; [|apply length_read_bytes].
  split; [done|]. apply Forall_app in H3 as [H3 H3']. split; [done|].
  rewrite length_app, Nat2Z.inj_add, Z.add_assoc in H2. split.
  - intros ->. rewrite Z.add_0_r in H2. assert (HP : cstring m (path + 1) P) by done.
    split; [by apply (kstrchr_none _ _ _ P)|by apply kstrlen_cstring].
  - intros HPs. assert (Hrest : cstring m (path + 1 + Z.of_nat (length P)) (path_text Ps)) by done.
    split; [|done]. destruct Ps as [|P' Ps]; [done|].
    apply (kstrchr_some sfuel m (path + 1) P (path_text (P' :: Ps)) VFS_SEPARATOR); [|done|done|done|done].
    by apply cstring_app.
Qed.

Definition walk_result (s : fstate D) (r : option (Z * dirent)) (s' : fstate D) : Prop :=
  kept s s' ∧ match r with Some (dir, x) => describes (f_mem s') dir x | None => True end.

Definition status (r : option (Z * dirent)) : Z := match r with Some _ => FAT_OK | None => FAT_ERROR end.

(** The first component is looked up; the rest of the path is walked from a directory. *)
Lemma walk_path_unfold sup efuel sfuel cl P Ps s path fuel :
  Forall component (P :: Ps) → (length (path_text (P :: Ps)) < sfuel)%nat →
  cstring (f_mem s) path (path_text (P :: Ps)) →
  fat_walk_path bdev (S fuel) sfuel efuel res eb sup path cl s =
  walk_entries bdev efuel efuel res eb sup cl (path + 1) (Z.of_nat (length P)) (bool_decide (Ps = []))
    (fun c => fat_walk_path bdev fuel sfuel efuel res eb sup
       (if bool_decide (Ps = []) then 0 else path + 1 + Z.of_nat (length P)) c) 0 s.
Proof.
  intros Hc Hf Hs. cbn [path_text map concat] in Hf. cbn [app length] in Hf. rewrite length_app in Hf.
  destruct (path_head _ _ _ _ sfuel Hs Hc ltac:(lia)) as (Hp & _ & _ & Hl & Hr).
  apply Forall_cons in Hc as [[_ Hlen] _]. cbn [fat_walk_path].
  unfold bind at 1, gets at 1. rewrite Hp, Z.eqb_refl. unfold bind at 1, kassert, ret at 1.
  destruct (decide (Ps = [])) as [->|HPs].
  - destruct (Hl eq_refl) as [-> ->].
    by rewrite Z.geb_leb, (proj2 (Z.leb_gt FAT_LFN_NAME_SIZE _)) by lia.
  - destruct (Hr HPs) as [-> _].
    replace (path + 1 + Z.of_nat (length P) - (path + 1)) with (Z.of_nat (length P)) by lia.
    rewrite Z.geb_leb, (proj2 (Z.leb_gt FAT_LFN_NAME_SIZE _)) by lia.
    by rewrite bool_decide_false.
Qed.

Lemma head_node m path P Ps sfuel :
  cstring m path (path_text (P :: Ps)) → Forall component (P :: Ps) → (length (path_text (P :: Ps)) < sfuel)%nat →
  (∀ a, path ≤ a ≤ path + Z.of_nat (length (path_text (P :: Ps))) → outside res eb a) →
  at_node m (path + 1) P ∧
  (Ps ≠ [] → cstring m (path + 1 + Z.of_nat (length P)) (path_text Ps)) ∧
  (length (path_text Ps) < sfuel)%nat ∧
  (∀ a, path + 1 + Z.of_nat (length P) ≤ a ≤ path + 1 + Z.of_nat (length P) + Z.of_nat (length (path_text Ps)) →
        outside res eb a).
Proof.
  intros Hs Hc Hf Ho.
  assert (Hlen : length (path_text (P :: Ps)) = S (length P + length (path_text Ps))).
  { cbn [path_text map concat app length]. by rewrite length_app. }
  rewrite Hlen in Hf, Ho. destruct (path_head _ _ _ _ sfuel Hs Hc ltac:(lia)) as (_ & H1 & H2 & _ & Hr).
  split; [|split; [|split; [lia|]]].
  - split; [done|]. split; [done|]. intros a Ha. apply Ho. lia.
  - intros HPs. apply (Hr HPs).
  - intros a Ha. apply Ho. lia.
Qed.

Lemma walk_path_run sup efuel sfuel cl Ps r d : resolves sup d efuel cl Ps r → ∀ s path fuel,
  (∀ k, blk (f_dev s) k = blk d k) → geometry bdev sup → inv (f_dev s) → byte_mem (f_mem s) → (20 < efuel)%nat →
  (length Ps ≤ fuel)%nat → Forall component Ps → (length (path_text Ps) < sfuel)%nat →
  cstring (f_mem s) path (path_text Ps) →
  (∀ a, path ≤ a ≤ path + Z.of_nat (length (path_text Ps)) → outside res eb a) →
  ∃ s', fat_walk_path bdev fuel sfuel efuel res eb sup path cl s = Done (status r, s') ∧ walk_result s r s'.
Proof.
  induction 1 as [cl P l1 x l2 Hl Hn Hno Hyes|cl P Ps l Hl Hne Hn Hno|cl P l1 y l2 P' Ps r Hl Hn Hno Hyes _ IH];
    intros s path fuel Hk Hg Hi Hbm Hef Hfuel Hc Hsf Hs Ho.
  all: destruct fuel as [|fuel]; [cbn in Hfuel; lia|].
  all: rewrite (walk_path_unfold _ _ _ _ _ _ _ _ _ Hc Hsf Hs).
  all: destruct (head_node _ _ _ _ sfuel Hs Hc Hsf Ho) as (HP & Hrest & Hsf' & Ho').
  all: apply (listing_ext _ _ _ _ _ _ Hk) in Hl.
  - destruct (walk_found sup cl (path + 1) P true (fun c => fat_walk_path bdev fuel sfuel efuel res eb sup 0 c)
      l1 x l2 efuel efuel 0 s) as (s' & K & Ds & E); try done.
    exists s'. split; [exact E|]. by split.
  - apply Forall_cons in Hc as [[_ Hlen] _].
    destruct (walk_missing sup cl (path + 1) P (bool_decide (Ps = [])) (fun c => fat_walk_path bdev fuel sfuel
      efuel res eb sup (if bool_decide (Ps = []) then 0 else path + 1 + Z.of_nat (length P)) c) l efuel efuel 0 s)
      as (s' & K & E); try done.
    exists s'. split; [exact E|]. by split.
  - rewrite bool_decide_false by done.
    destruct (walk_found sup cl (path + 1) P false (fun c => fat_walk_path bdev fuel sfuel efuel res eb sup
      (path + 1 + Z.of_nat (length P)) c) l1 y l2 efuel efuel 0 s) as (s1 & K & Ds & E); try done.
    apply Forall_cons in Hc as [_ Hc]. rewrite E.
    destruct (IH s1 (path + 1 + Z.of_nat (length P)) fuel) as (s2 & E2 & K2 & R2); try done.
    + intros k. by rewrite (kp_blk _ _ K).
    + apply K.
    + apply K.
    + cbn [length] in Hfuel |- *. lia.
    + apply (path_kept s); [done|done|]. by apply Hrest.
    + exists s2. split; [done|]. split; [by apply (kept_trans s s1)|done].
Qed.

End path.

(** Looking up a path resolves it the way the directories on disk describe: every
    component but the last selects the first directory, the last one the first file,
    whose name it begins; the result structure then describes that file, and when a
    component selects nothing the lookup ends with FAT_ERROR.  Long and short names,
    any number of components; memory outside the two buffers on the stack, and the
    disk, are unchanged. *)
Theorem fat_walk_path_resolves {D} (bdev : block_dev D) inv blk res eb sup efuel sfuel cl Ps r s path fuel :
  bdev_ok bdev inv blk → eb + 32 ≤ res ∨ res + 297 ≤ eb → geometry bdev sup → inv (f_dev s) →
  byte_mem (f_mem s) → resolves bdev blk sup (f_dev s) efuel cl Ps r → (20 < efuel)%nat →
  (length Ps ≤ fuel)%nat → Forall component Ps → (length (path_text Ps) < sfuel)%nat →
  cstring (f_mem s) path (path_text Ps) →
  (∀ a, path ≤ a ≤ path + Z.of_nat (length (path_text Ps)) → outside res eb a) →
  ∃ s', fat_walk_path bdev fuel sfuel efuel res eb sup path cl s = Done (status r, s') ∧
    walk_result inv blk res eb s r s'.
Proof. intros Hd Hsep Hg Hi Hbm Hr. by apply (walk_path_run bdev inv blk Hd res eb Hsep sup efuel sfuel cl Ps r (f_dev s)). Qed.

(** A volume with the label "YAOS2", a directory "files" and in it the file
    "hello-world.txt", which reads "hello, world". *)
Definition example_label : list Z := chars "YAOS2      " ++ [8] ++ replicate 20 0.
Definition example_files : list Z := chars "FILES      " ++ [16] ++ replicate 14 0 ++ [3; 0; 0; 0; 0; 0].

Definition example_hello : list Z := chars "HELLO~1 TXT" ++ [32] ++ replicate 14 0 ++ [4; 0; 12; 0; 0; 0].

Definition example_tree : list (list Z) :=
  [example_label ++ concat (lfn_encode (chars "files")) ++ example_files;
   concat (lfn_encode example_name) ++ example_hello; chars "hello, world"].

Lemma example_tree_ok : Forall (fun l => (length l ≤ 512)%nat ∧ byte_list l) example_tree.
Proof.
  repeat constructor; try (vm_compute; lia); refine (bool_decide_unpack _ _); vm_compute; exact I.
Qed.

Definition example_tree_fs : fstate (Z → list Z) :=
  mk_fstate (example_volume 1 example_tree) (write_bytes (fun _ => 0) 2000 (path_text [chars "files"; chars "hello"])).

Lemma example_tree_entry cl (i : Z) e :
  2 ≤ cl ≤ 3 → 0 ≤ i < 16 → slice (i * 32) 32 (example_volume 1 example_tree (cl + 542)) = e →
  dir_entry (volume_dev 1) (fun img => img) (example_super 1) (example_volume 1 example_tree) cl i e.
Proof.
  intros Hcl Hi He. exists cl. assert (Hs : cluster_sector (example_super 1) cl = cl + 542).
  { unfold cluster_sector, fat_first_sector_of_cluster, FAT_CLUSTER_OFFSET.
    replace (u32 _) with (u32 (cl + 542)); [apply u32_small; lia|].
    f_equal. change (first_data_sector (example_super 1)) with 544.
    replace (sectors_per_cluster (bs (example_super 1))) with 1 by (vm_compute; reflexivity). lia. }
  assert (Hb : bytes_per_sector (bs (example_super 1)) = 512) by (vm_compute; reflexivity).
  assert (Hm : (i * FAT_ENTRY_SIZE) mod bytes_per_cluster (example_super 1) = i * 32).
  { change (bytes_per_cluster (example_super 1)) with 512. unfold FAT_ENTRY_SIZE. apply Z.mod_small. lia. }
  assert (Hd : Z.to_nat (i * FAT_ENTRY_SIZE / bytes_per_cluster (example_super 1)) = 0%nat).
  { change (bytes_per_cluster (example_super 1)) with 512. unfold FAT_ENTRY_SIZE. rewrite Z.div_small by lia. done. }
  split; [split|].
  - unfold FAT_ENTRY_SIZE. lia.
  - done.
  - rewrite Hm, Hb. unfold FAT_ENTRY_SIZE. lia.
  - by rewrite Hd.
  - by rewrite Hd.
  - rewrite Hs. change (bd_num_blocks (volume_dev 1)) with 70000. lia.
  - by rewrite Hm, Hs.
Qed.

Abbreviation tree_sequence :=
  (sequence (volume_dev 1) (fun img => img) (example_super 1) (example_volume 1 example_tree)).
Abbreviation tree_listing :=
  (listing (volume_dev 1) (fun img => img) (example_super 1) (example_volume 1 example_tree)).

Lemma example_label_sequence : tree_sequence 2 0 [] example_label.
Proof.
  split; [by intros ? ? ?|]. split; [apply example_tree_entry; [lia|cbn; lia|vm_compute; reflexivity]|].
  vm_compute. done.
Qed.

Lemma example_files_sequence : tree_sequence 2 1 (lfn_encode (chars "files")) example_files.
Proof.
  split; [|split; [apply example_tree_entry; [lia|vm_compute; done|vm_compute; reflexivity]|vm_compute; done]].
  intros k e H. split; [|apply (encode_live (chars "files") k e); [vm_compute; lia|exact H]].
  destruct k as [|k]; [|by vm_compute in H].
  apply example_tree_entry; [lia|cbn; lia|]. vm_compute in H |- *. congruence.
Qed.

Lemma example_hello_sequence : tree_sequence 3 0 (lfn_encode example_name) example_hello.
Proof.
  split; [|split; [apply example_tree_entry; [lia|vm_compute; done|vm_compute; reflexivity]|vm_compute; done]].
  intros k e H. split; [|apply (encode_live example_name k e); [vm_compute; lia|exact H]].
  destruct k as [|[|k]]; [..|by vm_compute in H].
  all: apply example_tree_entry; [lia|cbn; lia|]; vm_compute in H |- *; congruence.
Qed.

Lemma example_root_listing :
  tree_listing 2 0 [([], example_label); (lfn_encode (chars "files"), example_files)].
Proof.
  apply listing_file; [exact example_label_sequence|vm_compute; repeat (constructor; [lia|]); constructor|].
  apply listing_file; [exact example_files_sequence|vm_compute; split; [lia|done]|].
  eapply listing_end; [apply example_tree_entry; [lia|vm_compute; done|reflexivity]|vm_compute; reflexivity].
Qed.

Lemma example_files_listing : tree_listing 3 0 [(lfn_encode example_name, example_hello)].
Proof.
  apply listing_file; [exact example_hello_sequence|vm_compute; split; [lia|done]|].
  eapply listing_end; [apply example_tree_entry; [lia|vm_compute; done|reflexivity]|vm_compute; reflexivity].
Qed.

Lemma example_resolves :
  resolves (volume_dev 1) (fun img => img) (example_super 1) (example_volume 1 example_tree) 30 2
    [chars "files"; chars "hello"] (Some (3, (lfn_encode example_name, example_hello))).
Proof.
  apply (resolves_below _ _ _ _ _ _ _ [([], example_label)] (lfn_encode (chars "files"), example_files) []).
  - exact example_root_listing.
  - cbn. lia.
  - constructor; [|constructor]. intros [_ H]. vm_compute in H. done.
  - split; [exists []; vm_compute; reflexivity|vm_compute; reflexivity].
  - replace (fat_get_entry_cluster _) with 3 by (vm_compute; reflexivity).
    apply (resolves_file _ _ _ _ _ _ _ [] _ []); [exact example_files_listing|cbn; lia|constructor|].
    split; [exists (drop 5 example_name); vm_compute; reflexivity|vm_compute; reflexivity].
Qed.

Lemma example_tree_text : cstring (f_mem example_tree_fs) 2000 (path_text [chars "files"; chars "hello"]).
Proof.
  split; [vm_compute; reflexivity|]. split; [vm_compute; reflexivity|].
  refine (bool_decide_unpack _ _). vm_compute. exact I.
Qed.

Lemma example_tree_bytes : byte_mem (f_mem example_tree_fs).
Proof. apply byte_mem_write. intros a. lia. Qed.

Lemma fat_walk_path_resolves_witness :
  ∃ s', fat_walk_path (volume_dev 1) 2 30 30 4000 5000 (example_super 1) 2000 2 example_tree_fs = Done (FAT_OK, s') ∧
    read_bytes (f_mem s') (res_entry 4000) 32 = example_hello ∧ cstring (f_mem s') (res_lfn 4000) example_name.
Proof.
  destruct (fat_walk_path_resolves (volume_dev 1) _ _ 4000 5000 (example_super 1) 30 30 2
    [chars "files"; chars "hello"] _ example_tree_fs 2000 2 (volume_dev_ok 1) ltac:(right; lia) example_geometry
    (example_volume_inv 1 _ ltac:(lia) example_tree_ok) example_tree_bytes example_resolves ltac:(lia) ltac:(cbn; lia)
    ltac:(repeat constructor; vm_compute; (done || lia)) ltac:(vm_compute; lia) example_tree_text
    ltac:(intros a Ha; change (2000 ≤ a ≤ 2012) in Ha; split; lia)) as (s' & E & _ & [H1 _ H3]).
  exists s'. split; [exact E|]. split; [exact H1|exact H3].
Defined.
