(* ===== verification/ThreadLock.v ===== *)
(** * arch/i386/thread_lock.c: mutexes and conditions of threads

    The mutexes live beside the scheduler's state.  Waiting gives the CPU up: an
    operation that has to wait ends with the thread blocked and the CPU back in
    its scheduler loop, and what the thread does when it is dispatched again is
    an operation of its own ([mutex_resume], [cond_resume]).  A spinlock that is
    taken makes the caller spin; the lock's users never nest it. *)

From stdpp Require Import base list strings gmap.
From Stdlib Require Import ZArith Lia.
From S2P Require Import Prelude Scheduler SchedulerLoop.

Definition mptr : Type := nat.
Definition TID_INVALID : Z := 0.

(** [struct thread_mutex]; [mu_cond] is the address of its wait condition. *)
Record thread_mutex := mk_mutex {
  mu_spinlock : option cptr;
  mu_cond : condptr;
  mu_locked : bool;
  mu_tid : Z;
}.

Record locks := mk_locks { lk_sched : sched; lk_mutex : gmap mptr thread_mutex }.

Definition lset_sched (s : sched) (l : locks) : locks := mk_locks s (lk_mutex l).
Definition lset_mutex (m : gmap mptr thread_mutex) (l : locks) : locks := mk_locks (lk_sched l) m.

Definition in_sched {A} (f : M sched A) : M locks A := zoom lk_sched lset_sched f.

Definition rd_mutex (m : mptr) : M locks thread_mutex :=
  l <- get ;;
  match lk_mutex l !! m with Some x => ret x | None => kpanic "page fault" end.
Definition wr_mutex (m : mptr) (f : thread_mutex → thread_mutex) : M locks unit :=
  x <- rd_mutex m ;;
  modify (fun l => lset_mutex (<[m := f x]> (lk_mutex l)) l).

Definition mset_spinlock (h : option cptr) (x : thread_mutex) : thread_mutex :=
  mk_mutex h (mu_cond x) (mu_locked x) (mu_tid x).
Definition mset_locked (b : bool) (x : thread_mutex) : thread_mutex :=
  mk_mutex (mu_spinlock x) (mu_cond x) b (mu_tid x).
Definition mset_tid (t : Z) (x : thread_mutex) : thread_mutex :=
  mk_mutex (mu_spinlock x) (mu_cond x) (mu_locked x) t.

(** The mutex's spinlock as CPU [c] sees it, with the preemption count. *)
Definition spin_acquire (c : cptr) (m : mptr) : M locks unit :=
  x <- rd_mutex m ;;
  match mu_spinlock x with
  | Some _ => hang
  | None =>
      wr_mutex m (mset_spinlock (Some c)) ;;;
      in_sched (wr_scpu c (fun k => cset_preempt (c_preempt_disabled k + 1) k))
  end.

Definition spin_release (c : cptr) (m : mptr) : M locks unit :=
  x <- rd_mutex m ;;
  if negb (bool_decide (mu_spinlock x = Some c))
  then kpanic "cpu_spinlock_release(): called on an unheld spinlock" else
  wr_mutex m (mset_spinlock None) ;;;
  in_sched (wr_scpu c (fun k => cset_preempt (c_preempt_disabled k - 1) k)).

(** [pop_no_interrupts] on the scheduler's view of the CPU. *)
Definition sched_pop_no_interrupts (c : cptr) : M sched unit :=
  k <- rd_scpu c ;;
  if c_if k then kpanic "pop_no_interrupts(): interrupts enabled" else
  if c_cli_stack k - 1 <? 0 then kpanic "pop_no_interrupts(): stack underflow" else
  wr_scpu c (fun k => cset_ints (c_int_enabled k) (c_cli_stack k - 1)
                        ((c_cli_stack k - 1 =? 0) && c_int_enabled k) k).

Definition _thread_cond_create (cond : condptr) : M locks unit :=
  in_sched (modify (fun s => set_waiting (<[cond := 0]> (num_waiting s)) s)).

(** [cond] is the address of the mutex's wait condition. *)
Definition _thread_mutex_create (m : mptr) (cond : condptr) : M locks unit :=
  modify (fun l => lset_mutex (<[m := mk_mutex None cond false TID_INVALID]> (lk_mutex l)) l) ;;;
  _thread_cond_create cond.

(** [sched_thread_wait(cond, &mutex->spinlock)] up to the switch: the spinlock is
    released while the global scheduler lock is held. *)
Definition wait_on (c : cptr) (cond : condptr) (m : mptr) : M locks unit :=
  x <- rd_mutex m ;;
  if negb (bool_decide (mu_spinlock x = Some c))
  then kpanic "cpu_spinlock_release(): called on an unheld spinlock" else
  wr_mutex m (mset_spinlock None) ;;;
  in_sched (sched_thread_wait c cond true).

Definition current (c : cptr) (why : string) : M locks thread :=
  t <- in_sched (get_current_thread c) ;;
  match t with None => kpanic why | Some t => in_sched (rd_thread t) end.

Definition unsafe_mutex_held (c : cptr) (m : mptr) : M locks bool :=
  x <- current c "unsafe_mutex_held(): no thread running" ;;
  y <- rd_mutex m ;;
  ret (mu_locked y && (mu_tid y =? t_tid x)).

(** The loop of [unsafe_mutex_acquire]: [false] when the thread went to wait. *)
Definition acquire_loop (c : cptr) (m : mptr) (tid : Z) : M locks bool :=
  y <- rd_mutex m ;;
  if mu_locked y then wait_on c (mu_cond y) m ;;; ret false else
  wr_mutex m (mset_locked true) ;;;
  wr_mutex m (mset_tid tid) ;;;
  ret true.

Definition unsafe_mutex_acquire (c : cptr) (m : mptr) : M locks bool :=
  x <- current c "thread_mutex_acquire(): no thread running" ;;
  held <- unsafe_mutex_held c m ;;
  if (held : bool) then kpanic "thread_mutex_acquire(): on held lock" else
  acquire_loop c m (t_tid x).

(** What follows once the mutex is acquired. *)
Definition finish (c : cptr) (m : mptr) (acquired : bool) : M locks bool :=
  when acquired (in_sched (sched_pop_no_interrupts c) ;;; spin_release c m) ;;;
  ret acquired.

(** [true]: the mutex is acquired; [false]: the thread is blocked on it. *)
Definition thread_mutex_acquire (c : cptr) (m : mptr) : M locks bool :=
  spin_acquire c m ;;;
  in_sched (sched_push_no_interrupts c) ;;;
  r <- unsafe_mutex_acquire c m ;;
  finish c m r.

(** A thread that was blocked in [acquire_loop] runs again. *)
Definition mutex_resume (c : cptr) (m : mptr) : M locks bool :=
  spin_acquire c m ;;;
  x <- current c "thread_mutex_acquire(): no thread running" ;;
  r <- acquire_loop c m (t_tid x) ;;
  finish c m r.

Definition unsafe_mutex_release (c : cptr) (m : mptr) : M locks unit :=
  y <- rd_mutex m ;;
  if mu_tid y =? TID_INVALID then kpanic "thread_mutex_release(): called on an unheld mutex" else
  held <- unsafe_mutex_held c m ;;
  if negb held then kpanic "thread_mutex_release(): called on an unheld mutex" else
  wr_mutex m (mset_tid TID_INVALID) ;;;
  wr_mutex m (mset_locked false).

Definition thread_mutex_release (c : cptr) (m : mptr) : M locks unit :=
  spin_acquire c m ;;;
  in_sched (sched_push_no_interrupts c) ;;;
  unsafe_mutex_release c m ;;;
  y <- rd_mutex m ;;
  in_sched (sched_thread_notify_one c (mu_cond y)) ;;;
  in_sched (sched_pop_no_interrupts c) ;;;
  spin_release c m.

Definition thread_mutex_held (c : cptr) (m : mptr) : M locks bool :=
  spin_acquire c m ;;;
  in_sched (sched_push_no_interrupts c) ;;;
  r <- unsafe_mutex_held c m ;;
  in_sched (sched_pop_no_interrupts c) ;;;
  spin_release c m ;;;
  ret r.

(** [thread_cond_wait] up to the switch. *)
Definition thread_cond_wait (c : cptr) (cond : condptr) (m : mptr) : M locks unit :=
  spin_acquire c m ;;;
  in_sched (sched_push_no_interrupts c) ;;;
  held <- unsafe_mutex_held c m ;;
  if negb held then kpanic "thread_cond_wait(): on unheld mutex" else
  unsafe_mutex_release c m ;;;
  y <- rd_mutex m ;;
  in_sched (sched_thread_notify_one c (mu_cond y)) ;;;
  wait_on c cond m.

(** The rest of it, when the thread runs again. *)
Definition cond_resume (c : cptr) (m : mptr) : M locks bool :=
  spin_acquire c m ;;;
  r <- unsafe_mutex_acquire c m ;;
  finish c m r.

Definition thread_cond_notify (c : cptr) (cond : condptr) : M locks unit :=
  in_sched (sched_thread_notify_one c cond).

(** ** Lemmas *)

Lemma in_sched_run {A} (f : M sched A) l a s' :
  f (lk_sched l) = Done (a, s') → in_sched f l = Done (a, lset_sched s' l).
Proof. intros E. unfold in_sched, zoom. by rewrite E. Qed.

Lemma rd_mutex_run m x l : lk_mutex l !! m = Some x → rd_mutex m l = Done (x, l).
Proof. intros E. unfold rd_mutex, bind, get. by rewrite E. Qed.

Lemma wr_mutex_run m f x l :
  lk_mutex l !! m = Some x →
  wr_mutex m f l = Done (tt, lset_mutex (<[m := f x]> (lk_mutex l)) l).
Proof. intros E. unfold wr_mutex. by rewrite (bind_run _ _ _ _ _ (rd_mutex_run m x l E)). Qed.

(** What a notification does to the scheduler's state. *)
Definition notified (cond : condptr) (s : sched) : sched :=
  match find_blocked (threads s) cond (all_threads s) with
  | Some t => match threads s !! t with
              | Some x => set_queue (t :: queue s)
                            (set_threads (<[t := tset_state THREAD_READY x]> (threads s)) s)
              | None => s
              end
  | None => s
  end.

Lemma lock_unlock_id c k s :
  lock_holder s = None → scpus s !! c = Some k →
  set_scpus (<[c := cset_preempt (c_preempt_disabled k) k]> (scpus s)) (set_holder None s) = s.
Proof.
  intros Hl Hk. destruct k. cbn. rewrite insert_id by done. destruct s. cbn in *. by subst.
Qed.

Lemma sched_eta s : set_scpus (scpus s) s = s.
Proof. by destruct s. Qed.

Lemma notify_exact c k s cond :
  lock_holder s = None → scpus s !! c = Some k →
  sched_thread_notify_one c cond s = Done (tt, notified cond s).
Proof.
  intros Hl Hk. unfold sched_thread_notify_one, notified.
  srun (sched_lock_run c k s Hl Hk). unfold bind at 1, get.
  change (all_threads _) with (all_threads s). cbn [threads set_scpus set_holder].
  assert (Hrel : ∀ s1, lock_holder s1 = None → scpus s1 = scpus s →
    sched_unlock c (set_scpus (<[c := cset_preempt (c_preempt_disabled k + 1) k]> (scpus s1))
                      (set_holder (Some c) s1)) = Done (tt, s1)).
  { intros s1 H1 H2.
    rewrite (sched_unlock_run c (cset_preempt (c_preempt_disabled k + 1) k)); [|done|cbn; by rewrite lookup_insert_eq].
    cbn. rewrite insert_insert_eq. do 2 f_equal. destruct k as [k1 k2 k3 k4 k5 k6 k7]. cbn.
    replace (k3 + 1 - 1) with k3 by lia. rewrite H2, insert_id by done.
    destruct s1. cbn in *. by subst. }
  destruct (find_blocked (threads s) cond (all_threads s)) as [t|] eqn:Ef.
  - destruct (find_blocked_Some _ _ _ _ Ef) as (_ & x & Hx & _). rewrite Hx.
    erewrite bind_run; [|erewrite bind_run; [reflexivity|apply wr_thread_run; exact Hx]].
    exact (Hrel (set_queue (t :: queue s) (set_threads (<[t := tset_state THREAD_READY x]> (threads s)) s)) Hl eq_refl).
  - unfold bind at 1, ret. exact (Hrel s Hl eq_refl).
Qed.

Lemma notified_inv c k s cond :
  sched_inv s → scpus s !! c = Some k → sched_inv (notified cond s).
Proof.
  intros Hinv Hk. destruct (notify_run s c k cond Hinv Hk) as (s' & E & Hi & _).
  rewrite (notify_exact c k s cond (si_lock _ Hinv) Hk) in E. by injection E as ->.
Qed.

Lemma notified_scpus cond s : scpus (notified cond s) = scpus s.
Proof.
  unfold notified. destruct (find_blocked _ _ _) as [t|]; [|done]. by destruct (threads s !! t).
Qed.

Lemma notified_frame cond s K : notified cond (set_scpus K s) = set_scpus K (notified cond s).
Proof.
  unfold notified. change (all_threads (set_scpus K s)) with (all_threads s). cbn [threads set_scpus].
  destruct (find_blocked _ _ _) as [t|]; [|done]. by destruct (threads s !! t).
Qed.

(** A notification leaves a thread that is not blocked alone. *)
Lemma notified_other cond s t x :
  threads s !! t = Some x → t_state x ≠ THREAD_BLOCKED → threads (notified cond s) !! t = Some x.
Proof.
  intros Hx Hs. unfold notified. destruct (find_blocked _ _ _) as [u|] eqn:Ef; [|done].
  destruct (find_blocked_Some _ _ _ _ Ef) as (_ & y & Hy & _ & Hb). rewrite Hy. cbn.
  rewrite lookup_insert_ne; [done|]. intros ->. congruence.
Qed.

(** The interrupt counters agree with the interrupt flag. *)
Definition ints_ok (k : scpu) : Prop :=
  0 ≤ c_cli_stack k ∧ c_if k = c_int_enabled k && (c_cli_stack k =? 0).

(** The CPU inside a critical section of a mutex's spinlock. *)
Definition pushed (k : scpu) : scpu :=
  cset_ints (if c_cli_stack k =? 0 then c_if k else c_int_enabled k) (c_cli_stack k + 1) false k.

Definition inside (c : cptr) (k : scpu) (s : sched) : sched :=
  set_scpus (<[c := cset_preempt (c_preempt_disabled k + 1) (pushed k)]> (scpus s)) s.

Lemma pop_pushed k :
  ints_ok k →
  cset_ints (c_int_enabled (pushed k)) (c_cli_stack (pushed k) - 1)
    ((c_cli_stack (pushed k) - 1 =? 0) && c_int_enabled (pushed k)) (pushed k) = k.
Proof.
  intros [H0 Hif]. destruct k as [k1 k2 k3 k4 k5 k6 k7]. cbn in *.
  replace (k5 + 1 - 1) with k5 by lia. unfold cset_ints. cbn.
  destruct (Z.eqb_spec k5 0) as [->|]; cbn; rewrite Hif; cbn.
  - by rewrite andb_true_r.
  - by rewrite andb_false_r.
Qed.

Lemma spin_acquire_run c k m y l :
  lk_mutex l !! m = Some y → mu_spinlock y = None → scpus (lk_sched l) !! c = Some k →
  spin_acquire c m l = Done (tt, mk_locks
    (set_scpus (<[c := cset_preempt (c_preempt_disabled k + 1) k]> (scpus (lk_sched l))) (lk_sched l))
    (<[m := mset_spinlock (Some c) y]> (lk_mutex l))).
Proof.
  intros Hy Hs Hk. unfold spin_acquire. rewrite (bind_run _ _ _ _ _ (rd_mutex_run m y l Hy)), Hs.
  rewrite (bind_run _ _ _ _ _ (wr_mutex_run m _ y l Hy)).
  erewrite in_sched_run; [|apply wr_scpu_run; exact Hk]. done.
Qed.

Lemma enter_section c k m y l :
  lk_mutex l !! m = Some y → mu_spinlock y = None → scpus (lk_sched l) !! c = Some k →
  (spin_acquire c m ;;; in_sched (sched_push_no_interrupts c)) l =
  Done (tt, mk_locks (inside c k (lk_sched l)) (<[m := mset_spinlock (Some c) y]> (lk_mutex l))).
Proof.
  intros Hy Hs Hk. rewrite (bind_run _ _ _ _ _ (spin_acquire_run c k m y l Hy Hs Hk)).
  erewrite in_sched_run; [|apply wr_scpu_run; cbn; by rewrite lookup_insert_eq].
  cbn. rewrite insert_insert_eq. done.
Qed.

Lemma leave_section c k m y s M :
  ints_ok k → scpus s !! c = Some k → M !! m = Some y → mu_spinlock y = Some c →
  (in_sched (sched_pop_no_interrupts c) ;;; spin_release c m) (mk_locks (inside c k s) M) =
  Done (tt, mk_locks s (<[m := mset_spinlock None y]> M)).
Proof.
  intros Hok Hk Hy Hs. set (k1 := cset_preempt (c_preempt_disabled k + 1) (pushed k)).
  pose proof (pop_pushed k Hok) as Hpop.
  erewrite bind_run.
  2:{ apply in_sched_run. unfold sched_pop_no_interrupts.
      erewrite bind_run; [|apply rd_scpu_run; cbn; by rewrite lookup_insert_eq].
      change (c_if _) with false. cbn [c_cli_stack cset_preempt pushed cset_ints].
      destruct Hok as [H0 _]. rewrite (proj2 (Z.ltb_ge (c_cli_stack k + 1 - 1) 0)) by lia.
      apply wr_scpu_run. cbn. by rewrite lookup_insert_eq. }
  unfold spin_release. erewrite bind_run; [|apply rd_mutex_run; exact Hy].
  rewrite bool_decide_eq_true_2 by done. cbn [negb].
  erewrite bind_run; [|apply wr_mutex_run; exact Hy].
  erewrite in_sched_run; [|apply wr_scpu_run; cbn; by rewrite lookup_insert_eq].
  unfold inside, lset_sched, lset_mutex. cbn. rewrite !insert_insert_eq. do 3 f_equal.
  match goal with |- set_scpus (<[c := ?kk]> _) _ = _ => replace kk with k end.
  { rewrite insert_id by done. by destruct s. }
  rewrite <- Hpop at 1. destruct k. cbn. unfold cset_preempt, cset_ints. cbn. f_equal; lia.
Qed.

(** Reading the running thread inside a section. *)
Lemma current_run c k t x l why :
  scpus (lk_sched l) !! c = Some k → c_thread k = Some t → threads (lk_sched l) !! t = Some x →
  current c why l = Done (x, l).
Proof.
  intros Hk Ht Hx. unfold current.
  erewrite bind_run; [|apply in_sched_run; unfold get_current_thread; erewrite bind_run;
                        [reflexivity|apply rd_scpu_run; exact Hk]].
  rewrite Ht. erewrite in_sched_run; [|apply rd_thread_run; exact Hx]. by destruct l.
Qed.

Lemma unsafe_held_run c k t x y m l :
  scpus (lk_sched l) !! c = Some k → c_thread k = Some t → threads (lk_sched l) !! t = Some x →
  lk_mutex l !! m = Some y →
  unsafe_mutex_held c m l = Done (mu_locked y && (mu_tid y =? t_tid x), l).
Proof.
  intros Hk Ht Hx Hy. unfold unsafe_mutex_held.
  rewrite (bind_run _ _ _ _ _ (current_run c k t x l _ Hk Ht Hx)).
  by rewrite (bind_run _ _ _ _ _ (rd_mutex_run m y l Hy)).
Qed.

(** The interrupt state of a CPU does not matter to the scheduler's invariant. *)
Lemma inv_ints s c k b n i :
  sched_inv s → scpus s !! c = Some k →
  sched_inv (set_scpus (<[c := cset_ints b n i k]> (scpus s)) s).
Proof.
  intros [H1 H2 H3 H4 H5] Hk. destruct (H4 c k Hk) as (G1 & G2 & G3).
  split; cbn; try done; [by apply (place_cpu _ _ _ _ k)|by apply (cpu_update _ _ _ _ k)].
Qed.

(** The thread has given up CPU [c] and is blocked on [cond]. *)
Definition blocked_on (s s' : sched) (c : cptr) (t : tptr) (cond : condptr) : Prop :=
  sched_inv s' ∧ queue s' = queue s ∧ (∀ e l, scpus s' !! e = Some l → c_thread l ≠ Some t) ∧
  ∃ x', threads s' = <[t := x']> (threads s) ∧ t_state x' = THREAD_BLOCKED ∧
        t_cond x' = Some cond ∧ t_resume x' = AfterCondWait cond.

(** Waiting from inside a section of the mutex's spinlock. *)
Lemma wait_on_run c k t x cond m y s M :
  sched_inv s → runs_on s c k t x → M !! m = Some y → mu_spinlock y = Some c →
  ∃ s', wait_on c cond m (mk_locks (inside c k s) M) =
          Done (tt, mk_locks s' (<[m := mset_spinlock None y]> M)) ∧ blocked_on s s' c t cond.
Proof.
  intros Hinv Hro Hy Hs. destruct (runs_on_facts s c k t x Hinv Hro) as (Hrun & Hpre & _).
  pose proof Hro as (Hk & Hkt & Hx). unfold wait_on.
  erewrite bind_run; [|apply rd_mutex_run; exact Hy]. rewrite bool_decide_eq_true_2 by done. cbn [negb].
  erewrite bind_run; [|apply wr_mutex_run; exact Hy].
  set (s0 := set_scpus (<[c := pushed k]> (scpus s)) s).
  assert (Hinv0 : sched_inv s0) by (by apply inv_ints).
  destruct (sched_thread_wait_run s0 c (pushed k) t x cond Hinv0) as (s' & E & Hi & Hq & (x' & Ht' & G) & _).
  { split; [|done]. cbn. rewrite lookup_insert_eq. f_equal. destruct k. cbn in *. by subst. }
  assert (Hst : inside c k s = set_scpus (<[c := cset_preempt 1 (pushed k)]> (scpus s0)) s0).
  { unfold inside, s0. cbn. by rewrite insert_insert_eq, Hpre. }
  exists s'. split.
  - erewrite in_sched_run; [reflexivity|]. cbn [lk_sched lset_mutex]. rewrite Hst. exact E.
  - split; [done|]. split; [done|]. split; [|by exists x'].
    intros e l He Hl. pose proof (pl_placed _ _ _ (si_place _ Hi) t x') as Hp.
    rewrite Ht', lookup_insert_eq in Hp. specialize (Hp eq_refl). destruct G as (Hb & _).
    rewrite Hb in Hp. cbn in Hp. destruct Hp as [_ Hp]. apply Hp. by exists e, l.
Qed.

Section mutex.
Context (c : cptr) (k : scpu) (t : tptr) (x : thread) (m : mptr) (y : thread_mutex) (l : locks).
Context (Hinv : sched_inv (lk_sched l)) (Hro : runs_on (lk_sched l) c k t x) (Hints : ints_ok k).
Context (Hy : lk_mutex l !! m = Some y) (Hspin : mu_spinlock y = None).

(** The state in which the mutex's spinlock was just taken. *)
Definition entered : locks :=
  mk_locks (inside c k (lk_sched l)) (<[m := mset_spinlock (Some c) y]> (lk_mutex l)).

Lemma enter_bind {A} (f : M locks A) :
  (spin_acquire c m ;;; in_sched (sched_push_no_interrupts c) ;;; f) l = f entered.
Proof.
  rewrite bind_assoc_run. rewrite (bind_run _ _ _ _ _ (enter_section c k m y l Hy Hspin (proj1 Hro))). done.
Qed.

Lemma entered_held : unsafe_mutex_held c m entered = Done (mu_locked y && (mu_tid y =? t_tid x), entered).
Proof.
  destruct Hro as (Hk & Hkt & Hx).
  apply (unsafe_held_run c (cset_preempt (c_preempt_disabled k + 1) (pushed k)) t x (mset_spinlock (Some c) y)).
  - cbn. by rewrite lookup_insert_eq.
  - done.
  - exact Hx.
  - cbn. by rewrite lookup_insert_eq.
Qed.

Lemma entered_current why : current c why entered = Done (x, entered).
Proof.
  destruct Hro as (Hk & Hkt & Hx).
  apply (current_run c (cset_preempt (c_preempt_disabled k + 1) (pushed k)) t); [cbn; by rewrite lookup_insert_eq|done|done].
Qed.

Lemma acquire_free :
  mu_locked y = false →
  thread_mutex_acquire c m l =
  Done (true, mk_locks (lk_sched l) (<[m := mk_mutex None (mu_cond y) true (t_tid x)]> (lk_mutex l))).
Proof.
  intros Hf. unfold thread_mutex_acquire. rewrite enter_bind. unfold unsafe_mutex_acquire.
  unfold bind at 1. rewrite (bind_run _ _ _ _ _ (entered_current _)).
  rewrite (bind_run _ _ _ _ _ entered_held), Hf. cbn [andb]. unfold acquire_loop.
  erewrite bind_run; [|apply rd_mutex_run; cbn; by rewrite lookup_insert_eq].
  cbn [mu_locked mset_spinlock]. rewrite Hf.
  erewrite bind_run; [|apply wr_mutex_run; cbn; by rewrite lookup_insert_eq].
  erewrite bind_run; [|apply wr_mutex_run; cbn; by rewrite lookup_insert_eq].
  unfold ret at 1, finish. cbn [when lk_mutex lset_mutex lk_sched entered]. rewrite !insert_insert_eq.
  unfold entered, lset_mutex. cbn [lk_sched].
  erewrite bind_run; [|apply (leave_section c k m); [done|apply Hro|by rewrite lookup_insert_eq|done]].
  unfold ret. rewrite insert_insert_eq. done.
Qed.

Lemma acquire_self :
  mu_locked y = true → mu_tid y = t_tid x →
  thread_mutex_acquire c m l = Panic "thread_mutex_acquire(): on held lock".
Proof.
  intros Hl Ht. unfold thread_mutex_acquire. rewrite enter_bind. apply bind_Panic.
  unfold unsafe_mutex_acquire. rewrite (bind_run _ _ _ _ _ (entered_current _)).
  rewrite (bind_run _ _ _ _ _ entered_held), Hl, Ht, Z.eqb_refl. done.
Qed.

Lemma acquire_busy :
  mu_locked y = true → mu_tid y ≠ t_tid x →
  ∃ s', thread_mutex_acquire c m l = Done (false, mk_locks s' (lk_mutex l)) ∧
    blocked_on (lk_sched l) s' c t (mu_cond y).
Proof.
  intros Hl Ht. unfold thread_mutex_acquire. rewrite enter_bind. unfold unsafe_mutex_acquire.
  unfold bind at 1. rewrite (bind_run _ _ _ _ _ (entered_current _)).
  rewrite (bind_run _ _ _ _ _ entered_held), Hl, (proj2 (Z.eqb_neq _ _) Ht). cbn [andb].
  unfold acquire_loop. erewrite bind_run; [|apply rd_mutex_run; cbn; by rewrite lookup_insert_eq].
  cbn [mu_locked mset_spinlock mu_cond]. rewrite Hl.
  destruct (wait_on_run c k t x (mu_cond y) m (mset_spinlock (Some c) y) (lk_sched l)
    (<[m := mset_spinlock (Some c) y]> (lk_mutex l)) Hinv Hro ltac:(by rewrite lookup_insert_eq) eq_refl)
    as (s' & E & Hb).
  rewrite (bind_run _ _ _ _ _ E). exists s'. split; [|done]. unfold ret, finish, bind. cbn.
  rewrite insert_insert_eq. do 3 f_equal.
  replace (mset_spinlock None (mset_spinlock (Some c) y)) with y; [by rewrite insert_id|].
  destruct y. cbn in *. by subst.
Qed.

(** Asking whether the caller holds the mutex changes nothing. *)
Lemma mutex_held_run :
  thread_mutex_held c m l = Done (mu_locked y && (mu_tid y =? t_tid x), l).
Proof.
  unfold thread_mutex_held. rewrite enter_bind. rewrite (bind_run _ _ _ _ _ entered_held).
  rewrite bind_assoc_run. unfold entered. erewrite bind_run.
  2:{ apply (leave_section c k m); [done|apply Hro|by rewrite lookup_insert_eq|done]. }
  unfold ret. rewrite insert_insert_eq. destruct l as [s N]. cbn in *. do 3 f_equal.
  replace (mset_spinlock None (mset_spinlock (Some c) y)) with y; [by rewrite insert_id|].
  destruct y. cbn in *. by subst.
Qed.

(** Releasing the held mutex inside the section. *)
Lemma unsafe_release_run :
  mu_locked y = true → mu_tid y = t_tid x → t_tid x ≠ TID_INVALID →
  unsafe_mutex_release c m entered =
  Done (tt, mk_locks (inside c k (lk_sched l)) (<[m := mk_mutex (Some c) (mu_cond y) false TID_INVALID]> (lk_mutex l))).
Proof.
  intros Hl Ht Hv. unfold unsafe_mutex_release.
  erewrite bind_run; [|apply rd_mutex_run; cbn; by rewrite lookup_insert_eq].
  cbn [mu_tid mset_spinlock]. rewrite Ht, (proj2 (Z.eqb_neq _ _) Hv).
  rewrite (bind_run _ _ _ _ _ entered_held), Hl, Ht, Z.eqb_refl. cbn [andb negb].
  erewrite bind_run; [|apply wr_mutex_run; cbn; by rewrite lookup_insert_eq].
  erewrite wr_mutex_run; [|cbn; by rewrite lookup_insert_eq].
  unfold entered, lset_mutex. cbn. by rewrite !insert_insert_eq.
Qed.

Lemma unsafe_release_other :
  mu_locked y = false ∨ mu_tid y ≠ t_tid x →
  unsafe_mutex_release c m entered = Panic "thread_mutex_release(): called on an unheld mutex".
Proof.
  intros Ho. unfold unsafe_mutex_release.
  erewrite bind_run; [|apply rd_mutex_run; cbn; by rewrite lookup_insert_eq].
  cbn [mu_tid mset_spinlock]. destruct (mu_tid y =? TID_INVALID); [done|].
  rewrite (bind_run _ _ _ _ _ entered_held).
  destruct Ho as [->|Ho]; [done|]. by rewrite (proj2 (Z.eqb_neq _ _) Ho), andb_false_r.
Qed.

(** Notifying inside the section. *)
Lemma notify_inside cond M :
  in_sched (sched_thread_notify_one c cond) (mk_locks (inside c k (lk_sched l)) M) =
  Done (tt, mk_locks (inside c k (notified cond (lk_sched l))) M).
Proof.
  erewrite in_sched_run.
  2:{ eapply notify_exact; [apply Hinv|cbn; by rewrite lookup_insert_eq]. }
  unfold inside. cbn [lk_sched]. rewrite notified_frame, notified_scpus. done.
Qed.

Lemma mutex_release_run :
  mu_locked y = true → mu_tid y = t_tid x → t_tid x ≠ TID_INVALID →
  thread_mutex_release c m l =
  Done (tt, mk_locks (notified (mu_cond y) (lk_sched l))
              (<[m := mk_mutex None (mu_cond y) false TID_INVALID]> (lk_mutex l))).
Proof.
  intros Hl Ht Hv. unfold thread_mutex_release. rewrite enter_bind.
  rewrite (bind_run _ _ _ _ _ (unsafe_release_run Hl Ht Hv)).
  erewrite bind_run; [|apply rd_mutex_run; cbn; by rewrite lookup_insert_eq]. cbn [mu_cond].
  rewrite (bind_run _ _ _ _ _ (notify_inside _ _)).
  erewrite (leave_section c k m); [| done | rewrite notified_scpus; apply Hro | by rewrite lookup_insert_eq | done].
  by rewrite insert_insert_eq.
Qed.

Lemma release_other :
  mu_locked y = false ∨ mu_tid y ≠ t_tid x →
  thread_mutex_release c m l = Panic "thread_mutex_release(): called on an unheld mutex".
Proof.
  intros Ho. unfold thread_mutex_release. rewrite enter_bind.
  by apply bind_Panic, unsafe_release_other.
Qed.

Lemma cond_wait_run cond :
  mu_locked y = true → mu_tid y = t_tid x → t_tid x ≠ TID_INVALID →
  ∃ s', thread_cond_wait c cond m l =
          Done (tt, mk_locks s' (<[m := mk_mutex None (mu_cond y) false TID_INVALID]> (lk_mutex l))) ∧
    blocked_on (notified (mu_cond y) (lk_sched l)) s' c t cond.
Proof.
  intros Hl Ht Hv. unfold thread_cond_wait. rewrite enter_bind.
  rewrite (bind_run _ _ _ _ _ entered_held), Hl, Ht, Z.eqb_refl. cbn [andb negb].
  rewrite (bind_run _ _ _ _ _ (unsafe_release_run Hl Ht Hv)).
  erewrite bind_run; [|apply rd_mutex_run; cbn; by rewrite lookup_insert_eq]. cbn [mu_cond].
  rewrite (bind_run _ _ _ _ _ (notify_inside _ _)).
  destruct (runs_on_facts _ c k t x Hinv Hro) as (Hrun & _). destruct Hro as (Hk & Hkt & Hx).
  destruct (wait_on_run c k t x cond m (mk_mutex (Some c) (mu_cond y) false TID_INVALID)
    (notified (mu_cond y) (lk_sched l))
    (<[m := mk_mutex (Some c) (mu_cond y) false TID_INVALID]> (lk_mutex l))) as (s' & E & Hb).
  - by apply (notified_inv c k).
  - split; [by rewrite notified_scpus|]. split; [done|]. apply notified_other; [done|congruence].
  - by rewrite lookup_insert_eq.
  - done.
  - exists s'. split; [|done]. rewrite E, insert_insert_eq. done.
Qed.
End mutex.

(** A thread that was blocked on the mutex runs again and finds it free. *)
Lemma resume_free d k w x m y l :
  sched_inv (lk_sched l) → runs_on (lk_sched l) d k w x → c_if k = false → 0 < c_cli_stack k →
  lk_mutex l !! m = Some y → mu_spinlock y = None → mu_locked y = false →
  ∃ s', mutex_resume d m l =
    Done (true, mk_locks s' (<[m := mk_mutex None (mu_cond y) true (t_tid x)]> (lk_mutex l))) ∧
    sched_inv s' ∧ threads s' = threads (lk_sched l).
Proof.
  intros Hinv Hro Hif Hcli Hy Hs Hf. pose proof Hro as (Hk & Hkt & Hx).
  destruct (runs_on_facts _ d k w x Hinv Hro) as (_ & Hpre & _). unfold mutex_resume.
  rewrite (bind_run _ _ _ _ _ (spin_acquire_run d k m y l Hy Hs Hk)).
  erewrite bind_run; [|eapply current_run; [cbn; by rewrite lookup_insert_eq|exact Hkt|exact Hx]].
  unfold acquire_loop, bind at 1.
  erewrite bind_run; [|apply rd_mutex_run; cbn; by rewrite lookup_insert_eq].
  cbn [mu_locked mset_spinlock]. rewrite Hf.
  erewrite bind_run; [|apply wr_mutex_run; cbn; by rewrite lookup_insert_eq].
  erewrite bind_run; [|apply wr_mutex_run; cbn; by rewrite lookup_insert_eq].
  unfold ret at 1, finish. cbn [when]. unfold lset_mutex. cbn [lk_mutex lk_sched]. rewrite !insert_insert_eq.
  erewrite bind_run.
  2:{ erewrite bind_run.
      2:{ apply in_sched_run. unfold sched_pop_no_interrupts.
          erewrite bind_run; [|apply rd_scpu_run; cbn; by rewrite lookup_insert_eq].
          cbn [c_if cset_preempt c_cli_stack]. rewrite Hif.
          rewrite (proj2 (Z.ltb_ge (c_cli_stack k - 1) 0)) by lia.
          apply wr_scpu_run. cbn. by rewrite lookup_insert_eq. }
      unfold spin_release. erewrite bind_run; [|apply rd_mutex_run; cbn; by rewrite lookup_insert_eq].
      cbn [mu_spinlock mset_tid mset_locked mset_spinlock]. rewrite bool_decide_eq_true_2 by done. cbn [negb].
      erewrite bind_run; [|apply wr_mutex_run; cbn; by rewrite lookup_insert_eq].
      apply in_sched_run. apply wr_scpu_run. cbn. by rewrite lookup_insert_eq. }
  eexists. split; [unfold ret, lset_sched; cbn; rewrite !insert_insert_eq; reflexivity|].
  split; [|done]. cbn.
  match goal with |- sched_inv (set_scpus (<[d := ?kk]> _) _) =>
    replace kk with (cset_ints (c_int_enabled k) (c_cli_stack k - 1)
      ((c_cli_stack k - 1 =? 0) && c_int_enabled k) k) end.
  - exact (inv_ints (lk_sched l) d k _ _ _ Hinv Hk).
  - destruct k. cbn in *. unfold cset_preempt, cset_ints. cbn. f_equal. lia.
Qed.

(** ** Properties *)

(** C10: acquiring a free mutex makes the caller its holder and leaves the
    scheduler and the CPU as they were; acquiring a mutex one holds panics; and
    acquiring a mutex another thread holds blocks the caller on the mutex, off
    every CPU and off the run queue, with the mutex and its spinlock untouched. *)
Theorem mutex_acquire_correct c k t x m y l :
  sched_inv (lk_sched l) → runs_on (lk_sched l) c k t x → ints_ok k →
  lk_mutex l !! m = Some y → mu_spinlock y = None →
  if mu_locked y then
    if mu_tid y =? t_tid x
    then thread_mutex_acquire c m l = Panic "thread_mutex_acquire(): on held lock"
    else ∃ s', thread_mutex_acquire c m l = Done (false, mk_locks s' (lk_mutex l)) ∧
               blocked_on (lk_sched l) s' c t (mu_cond y)
  else thread_mutex_acquire c m l =
       Done (true, mk_locks (lk_sched l) (<[m := mk_mutex None (mu_cond y) true (t_tid x)]> (lk_mutex l))).
Proof.
  intros Hinv Hro Hints Hy Hs. destruct (mu_locked y) eqn:El; [destruct (Z.eqb_spec (mu_tid y) (t_tid x))|].
  - by apply (acquire_self c k t x m y l).
  - by apply (acquire_busy c k t x m y l).
  - by apply (acquire_free c k t x m y l).
Qed.

(** Releasing a mutex frees it and makes one of the threads blocked on it
    ready, at the head of the run queue, with the CPU as it was; a release by any
    thread but the holder panics, so a mutex stays with its holder until the
    holder gives it up. *)
Theorem mutex_release_correct c k t x m y l :
  sched_inv (lk_sched l) → runs_on (lk_sched l) c k t x → ints_ok k → t_tid x ≠ TID_INVALID →
  lk_mutex l !! m = Some y → mu_spinlock y = None →
  if mu_locked y && (mu_tid y =? t_tid x)
  then thread_mutex_release c m l =
         Done (tt, mk_locks (notified (mu_cond y) (lk_sched l))
                     (<[m := mk_mutex None (mu_cond y) false TID_INVALID]> (lk_mutex l))) ∧
       sched_inv (notified (mu_cond y) (lk_sched l))
  else thread_mutex_release c m l = Panic "thread_mutex_release(): called on an unheld mutex".
Proof.
  intros Hinv Hro Hints Hv Hy Hs. destruct (mu_locked y) eqn:El; cbn [andb].
  - destruct (Z.eqb_spec (mu_tid y) (t_tid x)) as [E|E].
    + split; [by apply (mutex_release_run c k t x m y l)|]. apply (notified_inv c k); [done|apply Hro].
    + apply (release_other c k t x m y l); auto.
  - apply (release_other c k t x m y l); auto.
Qed.

(** Waiting on a condition gives the mutex up and blocks the thread on the
    condition in one step: no other CPU can take the mutex and notify the
    condition in between, and one thread blocked on the mutex is made ready. *)
Theorem cond_wait_atomic c k t x m y l cond :
  sched_inv (lk_sched l) → runs_on (lk_sched l) c k t x → t_tid x ≠ TID_INVALID →
  lk_mutex l !! m = Some y → mu_spinlock y = None → mu_locked y = true → mu_tid y = t_tid x →
  ∃ s', thread_cond_wait c cond m l =
          Done (tt, mk_locks s' (<[m := mk_mutex None (mu_cond y) false TID_INVALID]> (lk_mutex l))) ∧
    blocked_on (notified (mu_cond y) (lk_sched l)) s' c t cond.
Proof. intros Hinv Hro Hv Hy Hs Hl Ht. by apply (cond_wait_run c k t x m y l Hinv Hro Hy Hs). Qed.

(** C14: a released mutex reaches the thread that waits for it: the holder releases
    it on one CPU, another CPU runs its scheduler loop once, and the thread that
    was blocked on the mutex holds it. *)
Theorem mutex_handoff c k t x m y l w xw d kd st :
  sched_inv (lk_sched l) → runs_on (lk_sched l) c k t x → ints_ok k → t_tid x ≠ TID_INVALID →
  lk_mutex l !! m = Some y → mu_spinlock y = None → mu_locked y = true → mu_tid y = t_tid x →
  idles (lk_sched l) d kd st →
  threads (lk_sched l) !! w = Some xw → t_state xw = THREAD_BLOCKED → t_cond xw = Some (mu_cond y) →
  0 < t_cli_stack xw →
  (∀ u z, threads (lk_sched l) !! u = Some z → t_cond z = Some (mu_cond y) → t_state z = THREAD_BLOCKED → u = w) →
  ∃ l1 s2 s3 x2, thread_mutex_release c m l = Done (tt, l1) ∧
    scheduler_iteration d (lk_sched l1) = Done (tt, s2) ∧
    mutex_resume d m (lset_sched s2 l1) = Done (true, s3) ∧
    threads (lk_sched s3) !! w = Some x2 ∧
    lk_mutex s3 !! m = Some (mk_mutex None (mu_cond y) true (t_tid x2)) ∧ sched_inv (lk_sched s3).
Proof.
  intros Hinv Hro Hints Hv Hy Hs Hl Ht Hid Hw Hwb Hwc Hcli Honly. pose proof Hro as (Hk & _ & _).
  pose proof (mutex_release_run c k t x m y l Hinv Hro Hints Hy Hs Hl Ht Hv) as E1.
  assert (Ef : find_blocked (threads (lk_sched l)) (mu_cond y) (all_threads (lk_sched l)) = Some w).
  { destruct (find_blocked _ _ _) as [u|] eqn:Ef.
    - destruct (find_blocked_Some _ _ _ _ Ef) as (_ & z & Hz & Hc & Hb). f_equal. by apply (Honly u z).
    - destruct (find_blocked_None _ _ _ w xw Ef); try done.
      apply (all_threads_spec _ w Hinv). exists xw. split; [done|congruence]. }
  set (s1 := notified (mu_cond y) (lk_sched l)) in *.
  assert (Hs1 : s1 = set_queue (w :: queue (lk_sched l)) (set_threads
    (<[w := tset_state THREAD_READY xw]> (threads (lk_sched l))) (lk_sched l))).
  { unfold s1, notified. by rewrite Ef, Hw. }
  assert (Hinv1 : sched_inv s1) by (by apply (notified_inv c k)).
  assert (Hid1 : idles s1 d kd st) by (by rewrite Hs1).
  destruct (scheduler_iteration_run s1 d kd st Hinv1 Hid1) as (s2 & E2 & Hi2 & H2).
  assert (Hq1 : queue s1 = w :: queue (lk_sched l)) by (by rewrite Hs1).
  rewrite Hq1 in H2. destruct H2 as (x1 & Hx1 & Hch).
  rewrite Hs1 in Hx1. cbn in Hx1. rewrite lookup_insert_eq in Hx1. injection Hx1 as <-.
  destruct Hch as (_ & k2 & x2 & Hro2 & _ & _ & Hk2 & _ & Hif2). cbn in Hk2, Hif2.
  rewrite (proj2 (Z.eqb_neq (t_cli_stack xw) 0)), andb_false_r in Hif2 by lia.
  set (l1 := mk_locks s1 _) in E1.
  destruct (resume_free d k2 w x2 m (mk_mutex None (mu_cond y) false TID_INVALID) (lset_sched s2 l1)
    Hi2 Hro2 Hif2 ltac:(lia) ltac:(cbn; by rewrite lookup_insert_eq) eq_refl eq_refl) as (s3 & E3 & Hi3 & T3).
  exists l1, s2, (mk_locks s3 (<[m := mk_mutex None (mu_cond y) true (t_tid x2)]> (lk_mutex l1))), x2.
  split; [exact E1|]. split; [exact E2|]. split; [exact E3|]. cbn [lk_sched lk_mutex].
  split; [rewrite T3; apply Hro2|]. split; [by rewrite lookup_insert_eq|done].
Qed.

(** Mutex 3 with condition 5, beside two CPUs of which CPU 0 runs thread 10. *)
Definition example_locks (locked : bool) (tid : Z) : locks :=
  mk_locks (example_state example_one) {[3%nat := mk_mutex None 5%nat locked tid]}.

Definition example_running : scpu := mk_scpu (Some 10%nat) (Some 100%nat) 0 true 0 true 1.

Lemma example_ints : ints_ok example_running.
Proof. split; [done|reflexivity]. Qed.

Lemma mutex_acquire_correct_witness :
  thread_mutex_acquire 0%nat 3%nat (example_locks false 0) =
  Done (true, mk_locks (example_state example_one)
    (<[3%nat := mk_mutex None 5%nat true 1]> {[3%nat := mk_mutex None 5%nat false 0]})).
Proof.
  exact (mutex_acquire_correct 0%nat example_running 10%nat _ 3%nat (mk_mutex None 5%nat false 0)
    (example_locks false 0) (example_inv example_one) example_one_runs example_ints
    (lookup_singleton_eq _ _) eq_refl).
Defined.

Lemma mutex_release_correct_witness :
  ∃ l', thread_mutex_release 0%nat 3%nat (example_locks true 1) = Done (tt, l').
Proof.
  eexists.
  exact (proj1 (mutex_release_correct 0%nat example_running 10%nat _ 3%nat (mk_mutex None 5%nat true 1)
    (example_locks true 1) (example_inv example_one) example_one_runs example_ints ltac:(discriminate)
    (lookup_singleton_eq _ _) eq_refl)).
Defined.

Lemma cond_wait_atomic_witness :
  ∃ l', thread_cond_wait 0%nat 6%nat 3%nat (example_locks true 1) = Done (tt, l').
Proof.
  destruct (cond_wait_atomic 0%nat example_running 10%nat _ 3%nat (mk_mutex None 5%nat true 1)
    (example_locks true 1) 6%nat (example_inv example_one) example_one_runs ltac:(discriminate)
    (lookup_singleton_eq _ _) eq_refl eq_refl eq_refl) as (s' & E & _).
  eexists. exact E.
Defined.

(** Thread 11 runs on CPU 0 and holds the mutex, thread 10 is blocked on it with
    interrupts pushed, CPU 1 idles. *)
Definition example_blocked_ops : list sched_op :=
  [OpEnter 0 100; OpEnter 1 101; OpNewThread 10 (example_thread 7); OpScheduleThread 0 0 10;
   OpNewThread 11 (example_thread 7); OpScheduleThread 0 0 11; OpLoop 0; OpLoop 1; OpLoop 0]%nat.

Definition example_uncontended : locks :=
  mk_locks (example_state example_blocked_ops) {[3%nat := mk_mutex None 5%nat true 2]}.

Definition example_contended : locks :=
  match thread_mutex_acquire 0%nat 3%nat example_uncontended with
  | Done (_, l) => lset_sched (default (lk_sched l) (exec [OpLoop 0%nat] (lk_sched l))) l
  | _ => mk_locks (example_state example_blocked_ops) ∅
  end.

Lemma exec_inv ops s : sched_inv s → sched_inv (default s (exec ops s)).
Proof.
  intros Hi. destruct (exec ops s) as [s'|] eqn:E; [|done]. cbn.
  by apply (reachable_inv s); [|apply (exec_reachable ops)].
Qed.

Lemma example_blocked_runs :
  runs_on (example_state example_blocked_ops) 0%nat example_running 10%nat
    (mk_thread 1 7%nat THREAD_RUNNING 0 0 0 0 None 1 true 0 1 AtEntry).
Proof. vm_compute. done. Qed.

Lemma example_contended_inv : sched_inv (lk_sched example_contended).
Proof.
  destruct (acquire_busy 0%nat example_running 10%nat _ 3%nat (mk_mutex None 5%nat true 2)
    example_uncontended
    (example_inv example_blocked_ops) example_blocked_runs (lookup_singleton_eq _ _) eq_refl eq_refl
    ltac:(discriminate)) as (s' & E & Hi & _).
  unfold example_contended. rewrite E. cbn [lk_sched lset_sched]. by apply exec_inv.
Qed.

Lemma example_contended_runs :
  runs_on (lk_sched example_contended) 0%nat (mk_scpu (Some 11%nat) (Some 100%nat) 0 true 0 true 1) 11%nat
    (mk_thread 2 7%nat THREAD_RUNNING 0 0 0 0 None 1 true 0 1 AtEntry).
Proof. vm_compute. done. Qed.

Lemma example_contended_idles :
  idles (lk_sched example_contended) 1%nat (mk_scpu None (Some 101%nat) 0 true 0 true 1) 101%nat.
Proof. vm_compute. done. Qed.

Lemma example_contended_mutex :
  lk_mutex example_contended !! 3%nat = Some (mk_mutex None 5%nat true 2).
Proof. vm_compute. reflexivity. Qed.

Lemma example_contended_waiter :
  threads (lk_sched example_contended) !! 10%nat =
    Some (mk_thread 1 7%nat THREAD_BLOCKED 0 0 0 0 (Some 5%nat) 1 true 1 1 (AfterCondWait 5%nat)).
Proof. vm_compute. reflexivity. Qed.

Lemma example_contended_only u z :
  threads (lk_sched example_contended) !! u = Some z → t_cond z = Some 5%nat →
  t_state z = THREAD_BLOCKED → u = 10%nat.
Proof.
  intros Hz Hc _.
  assert (Hall : map_Forall (fun u z => t_cond z = None ∨ u = 10%nat) (threads (lk_sched example_contended))).
  { refine (bool_decide_unpack _ _). vm_compute. exact I. }
  destruct (Hall u z Hz) as [E|E]; [congruence|exact E].
Qed.

Lemma mutex_handoff_witness :
  ∃ l1 s2 s3, thread_mutex_release 0%nat 3%nat example_contended = Done (tt, l1) ∧
    scheduler_iteration 1%nat (lk_sched l1) = Done (tt, s2) ∧
    mutex_resume 1%nat 3%nat (lset_sched s2 l1) = Done (true, s3).
Proof.
  destruct (mutex_handoff 0%nat _ 11%nat _ 3%nat (mk_mutex None 5%nat true 2) example_contended 10%nat _ 1%nat _ _
    example_contended_inv example_contended_runs ltac:(split; [discriminate|reflexivity]) ltac:(discriminate)
    example_contended_mutex eq_refl eq_refl eq_refl example_contended_idles example_contended_waiter
    eq_refl eq_refl ltac:(reflexivity) example_contended_only) as (l1 & s2 & s3 & x2 & E1 & E2 & E3 & _).
  exists l1, s2, s3. split; [exact E1|]. split; [exact E2|exact E3].
Defined.
