(* ===== verification/ExclusiveBuffer.v ===== *)
(** * kernel/exclusive_buffer.c: byte buffers shared by threads

    A buffer is a window [head, tail) that slides over an array, guarded by a
    thread mutex; readers and writers wait on one condition, [changed].  The
    operations run on a CPU over the mutexes and the scheduler of [ThreadLock].
    One that has to wait ends there with the thread blocked ([OnMutex],
    [OnChanged]); what the thread does when it is dispatched again is an
    operation of its own ([..._resume]).  The kernel heap is reached through an
    interface, [EbHeap]: creating, freeing and growing a buffer are the only
    operations that use it. *)

From stdpp Require Import base list strings gmap.
From Stdlib Require Import ZArith Lia.
From S2P Require Import Prelude Memory KUtils Scheduler SchedulerLoop ThreadLock.

Definition EBF_GROWING : Z := 2.
Definition EBF_EOF : Z := 4.
Definition EBF_OVERFLOW : Z := 8.
Definition EB_HEAP_NORMAL : Z := 1.

Record exclusive_buffer := mk_eb {
  eb_flags : Z;
  eb_alignment : Z;
  eb_buffer_size : Z;
  eb_buffer : Z;
  eb_head : Z;
  eb_tail : Z;
  eb_multi_lock : bool;
  eb_mutex : mptr;
  eb_changed : condptr;
}.

Record ebsys := mk_ebsys { e_locks : locks; e_mem : mem; e_buf : exclusive_buffer }.

Definition eset_locks (l : locks) (s : ebsys) : ebsys := mk_ebsys l (e_mem s) (e_buf s).
Definition eset_mem (m : mem) (s : ebsys) : ebsys := mk_ebsys (e_locks s) m (e_buf s).
Definition eset_buf (b : exclusive_buffer) (s : ebsys) : ebsys := mk_ebsys (e_locks s) (e_mem s) b.

Definition bset_flags (f : Z) (b : exclusive_buffer) : exclusive_buffer :=
  mk_eb f (eb_alignment b) (eb_buffer_size b) (eb_buffer b) (eb_head b) (eb_tail b) (eb_multi_lock b)
    (eb_mutex b) (eb_changed b).
Definition bset_buffer (p : Z) (b : exclusive_buffer) : exclusive_buffer :=
  mk_eb (eb_flags b) (eb_alignment b) (eb_buffer_size b) p (eb_head b) (eb_tail b) (eb_multi_lock b)
    (eb_mutex b) (eb_changed b).
Definition bset_window (h t : Z) (b : exclusive_buffer) : exclusive_buffer :=
  mk_eb (eb_flags b) (eb_alignment b) (eb_buffer_size b) (eb_buffer b) h t (eb_multi_lock b)
    (eb_mutex b) (eb_changed b).
Definition bset_multi (v : bool) (b : exclusive_buffer) : exclusive_buffer :=
  mk_eb (eb_flags b) (eb_alignment b) (eb_buffer_size b) (eb_buffer b) (eb_head b) (eb_tail b) v
    (eb_mutex b) (eb_changed b).

Definition in_locks {A} (f : M locks A) : M ebsys A := zoom e_locks eset_locks f.
Definition upd_buf (f : exclusive_buffer → exclusive_buffer) : M ebsys unit :=
  modify (fun s => eset_buf (f (e_buf s)) s).
Definition upd_mem (f : mem → mem) : M ebsys unit := modify (fun s => eset_mem (f (e_mem s)) s).

(** What the buffers use of the kernel heap. *)
Class EbHeap := {
  eb_kzalloc : Z → Z → Z → M ebsys Z;
  eb_kfree : Z → M ebsys unit;
  eb_krealloc : Z → Z → Z → Z → M ebsys Z;
}.

(** ** The window *)

Definition has_flag (b : exclusive_buffer) (f : Z) : bool := negb (Z.land (eb_flags b) f =? 0).

Definition unsafe_assert_valid : M ebsys unit :=
  b <- gets e_buf ;;
  kassert "buffer->head > buffer->buffer" (eb_head b >? eb_buffer b) ;;;
  kassert "buffer->head <= buffer->tail" (eb_head b <=? eb_tail b) ;;;
  kassert "buffer->tail <= buffer->buffer + buffer->buffer_size"
    (eb_tail b <=? eb_buffer b + eb_buffer_size b).

Definition unsafe_get_contents_length (b : exclusive_buffer) : Z := u32 (eb_tail b - eb_head b).

(** [for (i = 0; i < contents; i++) buffer->buffer[i] = buffer->head[i]]. *)
Fixpoint move_bytes (n : nat) (i : Z) (base head : Z) (m : mem) : mem :=
  match n with
  | O => m
  | S n' => move_bytes n' (i + 1) base head (store8 m (base + i) (m (head + i)))
  end.

Definition unsafe_move_head : M ebsys unit :=
  b <- gets e_buf ;;
  if eb_head b =? eb_buffer b then ret tt else
  unsafe_assert_valid ;;;
  let contents := unsafe_get_contents_length b in
  upd_mem (move_bytes (Z.to_nat contents) 0 (eb_buffer b) (eb_head b)) ;;;
  upd_buf (bset_window (eb_buffer b) (eb_buffer b + contents)).

(** [buffer->head += n] and [buffer->tail += n]. *)
Definition advance_head (n : Z) : M ebsys unit :=
  upd_buf (fun b => bset_window (eb_head b + n) (eb_tail b) b).
Definition advance_tail (n : Z) : M ebsys unit :=
  upd_buf (fun b => bset_window (eb_head b) (eb_tail b + n) b).

Definition set_eof_if_empty : M ebsys unit :=
  b <- gets e_buf ;;
  when (eb_head b =? eb_tail b) (upd_buf (bset_flags (Z.lor (eb_flags b) EBF_EOF))).

Definition clear_eof_if (n : Z) : M ebsys unit :=
  when (0 <? n) (upd_buf (fun b => bset_flags (Z.land (eb_flags b) (Z.lnot EBF_EOF)) b)).

(** ** Operations *)

Section operations.
Context (c : cptr).

(** What an operation ends with: it returned, or its thread is blocked on the
    mutex or on [changed] having handled [n] bytes. *)
Inductive eb_result : Type :=
| Returned (n : Z)
| OnMutex (n : Z)
| OnChanged (n : Z).

Definition acquire_mutex : M ebsys bool :=
  b <- gets e_buf ;; in_locks (thread_mutex_acquire c (eb_mutex b)).
Definition release_mutex : M ebsys unit :=
  b <- gets e_buf ;; in_locks (thread_mutex_release c (eb_mutex b)).
Definition wait_changed : M ebsys unit :=
  b <- gets e_buf ;; in_locks (thread_cond_wait c (eb_changed b) (eb_mutex b)).
Definition notify_changed (n : Z) : M ebsys unit :=
  b <- gets e_buf ;; when (0 <? n) (in_locks (thread_cond_notify c (eb_changed b))).

(** [thread_mutex_held(&(buffer->mutex)) && buffer->multi_lock]. *)
Definition holds_multi_lock : M ebsys bool :=
  b <- gets e_buf ;;
  h <- in_locks (thread_mutex_held c (eb_mutex b)) ;;
  ret (h && eb_multi_lock b).

Definition eb_create `{EbHeap} (mutex : mptr) (mutex_cond changed : condptr) (size alignment flags : Z) : M ebsys unit :=
  let a := kmax alignment 1 in
  p <- eb_kzalloc EB_HEAP_NORMAL a size ;;
  modify (fun s => eset_buf (mk_eb (Z.lor flags EBF_EOF) a size p p p false mutex changed) s) ;;;
  in_locks (_thread_mutex_create mutex mutex_cond) ;;;
  in_locks (_thread_cond_create changed).

(** [false] when the thread is blocked on the mutex. *)
Definition eb_free_locked `{EbHeap} : M ebsys unit :=
  b <- gets e_buf ;;
  eb_kfree (eb_buffer b) ;;;
  upd_buf (fun b => bset_window 0 0 (bset_buffer 0 b)).
Definition eb_free `{EbHeap} : M ebsys bool :=
  ok <- acquire_mutex ;; when ok eb_free_locked ;;; ret ok.

Definition eb_lock : M ebsys bool :=
  ok <- acquire_mutex ;; when ok (upd_buf (bset_multi true)) ;;; ret ok.

Definition eb_unlock : M ebsys unit := upd_buf (bset_multi false) ;;; release_mutex.

(** The body of [eb_try_read] once the mutex is held. *)
Definition try_read_locked (in_multi_lock : bool) (dest size : Z) : M ebsys Z :=
  b <- gets e_buf ;;
  num_read <- (if has_flag b EBF_EOF then ret 0 else
    let n := kmin (unsafe_get_contents_length b) size in
    upd_mem (fun m => kmemmove m dest (eb_head b) n) ;;;
    advance_head n ;;; set_eof_if_empty ;;; ret n) ;;
  when (negb in_multi_lock) release_mutex ;;;
  notify_changed num_read ;;;
  ret num_read.

Definition eb_try_read (dest size : Z) : M ebsys eb_result :=
  multi <- holds_multi_lock ;;
  ok <- (if (multi : bool) then ret true else acquire_mutex) ;;
  if (ok : bool) then n <- try_read_locked multi dest size ;; ret (Returned n) else ret (OnMutex 0).

Definition eb_try_read_resume (dest size : Z) : M ebsys eb_result :=
  b <- gets e_buf ;;
  ok <- in_locks (mutex_resume c (eb_mutex b)) ;;
  if (ok : bool) then n <- try_read_locked false dest size ;; ret (Returned n) else ret (OnMutex 0).

Definition unsafe_growing_write `{EbHeap} (src size : Z) : M ebsys unit :=
  unsafe_move_head ;;;
  b <- gets e_buf ;;
  let new_size := u32 (unsafe_get_contents_length b + size) in
  p <- eb_krealloc (eb_buffer b) EB_HEAP_NORMAL (eb_alignment b) new_size ;;
  upd_buf (bset_buffer p) ;;;
  upd_mem (fun m => fst (kmemcpy m (eb_tail b) src size)) ;;;
  advance_tail size.

(** The copy into the free space behind the window; the bytes copied. *)
Definition append (src size : Z) : M ebsys Z :=
  b <- gets e_buf ;;
  let n := kmin (u32 (eb_buffer_size b - unsafe_get_contents_length b)) size in
  upd_mem (fun m => fst (kmemcpy m (eb_tail b) src n)) ;;;
  advance_tail n ;;;
  ret n.

Definition try_write_locked `{EbHeap} (in_multi_lock : bool) (src size : Z) : M ebsys Z :=
  b <- gets e_buf ;;
  num_written <- (if has_flag b EBF_GROWING then unsafe_growing_write src size ;;; ret size
                  else unsafe_move_head ;;; append src size) ;;
  clear_eof_if num_written ;;;
  when (negb in_multi_lock) release_mutex ;;;
  notify_changed num_written ;;;
  ret num_written.

Definition eb_try_write `{EbHeap} (src size : Z) : M ebsys eb_result :=
  multi <- holds_multi_lock ;;
  ok <- (if (multi : bool) then ret true else acquire_mutex) ;;
  if (ok : bool) then n <- try_write_locked multi src size ;; ret (Returned n) else ret (OnMutex 0).

Definition eb_try_write_resume `{EbHeap} (src size : Z) : M ebsys eb_result :=
  b <- gets e_buf ;;
  ok <- in_locks (mutex_resume c (eb_mutex b)) ;;
  if (ok : bool) then n <- try_write_locked false src size ;; ret (Returned n) else ret (OnMutex 0).

(** The loop of [eb_read] and what follows it; [fuel] bounds the iterations. *)
Fixpoint read_loop (fuel : nat) (dest size num_read : Z) : M ebsys eb_result :=
  b <- gets e_buf ;;
  if num_read <? size then
    if has_flag b EBF_EOF then wait_changed ;;; ret (OnChanged num_read) else
    match fuel with
    | O => hang
    | S fuel' =>
        let batch := kmin (unsafe_get_contents_length b) (u32 (size - num_read)) in
        upd_mem (fun m => kmemmove m (dest + num_read) (eb_head b) batch) ;;;
        advance_head batch ;;;
        read_loop fuel' dest size (num_read + batch)
    end
  else
    set_eof_if_empty ;;;
    release_mutex ;;;
    notify_changed num_read ;;;
    ret (Returned num_read).

Definition eb_read (fuel : nat) (dest size : Z) : M ebsys eb_result :=
  multi <- holds_multi_lock ;;
  if (multi : bool) then kpanic "eb_read() called after eb_lock()" else
  ok <- acquire_mutex ;;
  if (ok : bool) then read_loop fuel dest size 0 else ret (OnMutex 0).

(** A thread that waited in [eb_read] runs again: it takes the mutex back
    ([thread_cond_wait]'s second half) and goes on with the loop. *)
Definition eb_read_resume (fuel : nat) (dest size num_read : Z) : M ebsys eb_result :=
  b <- gets e_buf ;;
  ok <- in_locks (cond_resume c (eb_mutex b)) ;;
  if (ok : bool) then read_loop fuel dest size num_read else ret (OnMutex num_read).

(** What follows the loop of [eb_write]. *)
Definition write_done (num_written : Z) : M ebsys eb_result :=
  clear_eof_if num_written ;;;
  release_mutex ;;;
  notify_changed num_written ;;;
  ret (Returned num_written).

(** The inner loop of [eb_write] and the rest of the iteration. *)
Definition write_step (next : Z → M ebsys eb_result) (src size num_written : Z) : M ebsys eb_result :=
  b <- gets e_buf ;;
  if eb_tail b =? eb_buffer b + eb_buffer_size b then wait_changed ;;; ret (OnChanged num_written) else
  unsafe_move_head ;;;
  batch <- append (src + num_written) (u32 (size - num_written)) ;;
  next (num_written + batch).

Fixpoint write_loop (fuel : nat) (src size num_written : Z) : M ebsys eb_result :=
  if num_written <? size then
    match fuel with
    | O => hang
    | S fuel' => unsafe_move_head ;;; write_step (write_loop fuel' src size) src size num_written
    end
  else write_done num_written.

Definition eb_write `{EbHeap} (fuel : nat) (src size : Z) : M ebsys eb_result :=
  multi <- holds_multi_lock ;;
  if (multi : bool) then kpanic "eb_write() called after eb_lock()" else
  ok <- acquire_mutex ;;
  if (ok : bool) then
    b <- gets e_buf ;;
    if has_flag b EBF_GROWING then unsafe_growing_write src size ;;; write_done 0
    else write_loop fuel src size 0
  else ret (OnMutex 0).

Definition eb_write_resume (fuel : nat) (src size num_written : Z) : M ebsys eb_result :=
  b <- gets e_buf ;;
  ok <- in_locks (cond_resume c (eb_mutex b)) ;;
  if (ok : bool) then write_step (write_loop fuel src size) src size num_written
  else ret (OnMutex num_written).

Definition flush_loop : M ebsys eb_result :=
  b <- gets e_buf ;;
  if has_flag b EBF_EOF then release_mutex ;;; ret (Returned 0)
  else wait_changed ;;; ret (OnChanged 0).

Definition eb_flush : M ebsys eb_result :=
  multi <- holds_multi_lock ;;
  if (multi : bool) then kpanic "eb_flush() called after eb_lock()" else
  ok <- acquire_mutex ;;
  if (ok : bool) then flush_loop else ret (OnMutex 0).

Definition eb_flush_resume : M ebsys eb_result :=
  b <- gets e_buf ;;
  ok <- in_locks (cond_resume c (eb_mutex b)) ;;
  if (ok : bool) then flush_loop else ret (OnMutex 0).

End operations.

(** ** Lemmas on the window *)

(** The bytes in the buffer, oldest first. *)
Definition contents (b : exclusive_buffer) (m : mem) : list Z :=
  read_bytes m (eb_head b) (Z.to_nat (eb_tail b - eb_head b)).

(** Well-formed buffers of a fixed size: [EBF_EOF] is set exactly when the buffer
    is empty. *)
Record eb_ok (b : exclusive_buffer) (m : mem) : Prop := {
  ok_mem : byte_mem m;
  ok_base : 0 < eb_buffer b;
  ok_head : eb_buffer b ≤ eb_head b;
  ok_tail : eb_head b ≤ eb_tail b;
  ok_end : eb_tail b ≤ eb_buffer b + eb_buffer_size b;
  ok_fits : eb_buffer b + eb_buffer_size b < 2 ^ 32;
  ok_fixed : has_flag b EBF_GROWING = false;
  ok_eof : has_flag b EBF_EOF = bool_decide (eb_head b = eb_tail b);
}.

(** [n] bytes at [p] are outside the buffer's array. *)
Definition apart (b : exclusive_buffer) (p n : Z) : Prop :=
  p + n ≤ eb_buffer b ∨ eb_buffer b + eb_buffer_size b ≤ p.

Lemma move_bytes_out n : ∀ i base head m a,
  (a < base + i ∨ base + i + Z.of_nat n ≤ a) → move_bytes n i base head m a = m a.
Proof.
  induction n as [|n IH]; intros i base head m a H; [done|]. cbn [move_bytes].
  rewrite IH by lia. apply store8_ne. lia.
Qed.

Lemma move_bytes_in n : ∀ i base head m j,
  byte_mem m → base ≤ head → 0 ≤ j < Z.of_nat n →
  move_bytes n i base head m (base + i + j) = m (head + i + j).
Proof.
  induction n as [|n IH]; intros i base head m j Hm Hb Hj; [lia|]. cbn [move_bytes].
  destruct (Z.eq_dec j 0) as [->|].
  - rewrite move_bytes_out, !Z.add_0_r, store8_eq by lia. apply u8_small, Hm.
  - replace (base + i + j) with (base + (i + 1) + (j - 1)) by lia.
    rewrite IH by (auto with mem; lia). rewrite store8_ne by lia. f_equal. lia.
Qed.

Lemma move_bytes_byte n : ∀ i base head m, byte_mem m → byte_mem (move_bytes n i base head m).
Proof.
  induction n as [|n IH]; intros i base head m Hm; [done|]. cbn [move_bytes]. apply IH. auto with mem.
Qed.

Lemma contents_length b m : eb_ok b m → Z.of_nat (length (contents b m)) = eb_tail b - eb_head b.
Proof. intros []. unfold contents. rewrite length_read_bytes. lia. Qed.

Lemma get_length b m : eb_ok b m → unsafe_get_contents_length b = eb_tail b - eb_head b.
Proof. intros []. unfold unsafe_get_contents_length. apply u32_small. lia. Qed.

Lemma bset_window_eta b : bset_window (eb_head b) (eb_tail b) b = b.
Proof. by destruct b. Qed.

(** Moving the window to the front of the array keeps the contents. *)
Lemma move_head_run s :
  eb_ok (e_buf s) (e_mem s) →
  let b := bset_window (eb_buffer (e_buf s)) (eb_buffer (e_buf s) + (eb_tail (e_buf s) - eb_head (e_buf s))) (e_buf s) in
  ∃ m, unsafe_move_head s = Done (tt, mk_ebsys (e_locks s) m b) ∧ eb_ok b m ∧
    contents b m = contents (e_buf s) (e_mem s) ∧
    ∀ a, (a < eb_buffer b ∨ eb_buffer b + eb_buffer_size b ≤ a) → m a = e_mem s a.
Proof.
  intros Hok b. pose proof Hok as [H1 H2 H3 H4 H5 H6 H7 H8]. unfold unsafe_move_head, bind at 1, gets.
  destruct (Z.eqb_spec (eb_head (e_buf s)) (eb_buffer (e_buf s))) as [E|E].
  - assert (Hb : b = e_buf s).
    { unfold b. rewrite <- E. replace (eb_head (e_buf s) + (eb_tail (e_buf s) - eb_head (e_buf s)))
        with (eb_tail (e_buf s)) by lia. apply bset_window_eta. }
    exists (e_mem s). rewrite Hb. split; [by destruct s|]. split; [done|]. by split.
  - set (n := Z.to_nat (eb_tail (e_buf s) - eb_head (e_buf s))).
    exists (move_bytes n 0 (eb_buffer (e_buf s)) (eb_head (e_buf s)) (e_mem s)).
    rewrite (get_length _ _ Hok). erewrite bind_run.
    2:{ unfold unsafe_assert_valid, bind, gets, kassert, ret.
        rewrite (proj2 (Z.gtb_lt _ _)), (proj2 (Z.leb_le (eb_head _) _)), (proj2 (Z.leb_le (eb_tail _) _)) by lia.
        reflexivity. }
    split; [reflexivity|]. split; [|split].
    + split; cbn; try done; try lia.
      1:{ by apply move_bytes_byte. }
      change (has_flag b EBF_EOF) with (has_flag (e_buf s) EBF_EOF). rewrite H8.
      apply bool_decide_ext. lia.
    + unfold contents. cbn. replace (_ + (_ - _) - _) with (eb_tail (e_buf s) - eb_head (e_buf s)) by lia.
      fold n. apply list_eq. intros i. destruct (decide (i < n)%nat).
      * rewrite !read_bytes_lookup by done. f_equal.
        pose proof (move_bytes_in n 0 (eb_buffer (e_buf s)) (eb_head (e_buf s)) (e_mem s) (Z.of_nat i) H1 H3 ltac:(lia)) as G.
        by rewrite !Z.add_0_r in G.
      * rewrite !lookup_ge_None_2; rewrite ?length_read_bytes; try done; lia.
    + intros a Ha. cbn in Ha. apply move_bytes_out. lia.
Qed.

(** Appending copies what fits behind the window. *)
Lemma append_run s src size :
  eb_ok (e_buf s) (e_mem s) → eb_head (e_buf s) = eb_buffer (e_buf s) → 0 ≤ size < 2 ^ 32 →
  apart (e_buf s) src size →
  let free := eb_buffer_size (e_buf s) - Z.of_nat (length (contents (e_buf s) (e_mem s))) in
  let n := Z.min free size in
  let b := bset_window (eb_head (e_buf s)) (eb_tail (e_buf s) + n) (e_buf s) in
  ∃ m, append src size s = Done (n, mk_ebsys (e_locks s) m b) ∧ byte_mem m ∧
    contents b m = contents (e_buf s) (e_mem s) ++ read_bytes (e_mem s) src (Z.to_nat n) ∧
    ∀ a, (a < eb_buffer b ∨ eb_buffer b + eb_buffer_size b ≤ a) → m a = e_mem s a.
Proof.
  intros Hok Hh Hs Ha free n b. pose proof Hok as [H1 H2 H3 H4 H5 H6 H7 H8].
  assert (Hfree : free = eb_buffer_size (e_buf s) - (eb_tail (e_buf s) - eb_head (e_buf s))).
  { unfold free. by rewrite (contents_length _ _ Hok). }
  assert (Hn : kmin (u32 (eb_buffer_size (e_buf s) - unsafe_get_contents_length (e_buf s))) size = n).
  { rewrite (get_length _ _ Hok), u32_small, <- Hfree by lia. unfold kmin, n.
    destruct (Z.gtb_spec free size); lia. }
  exists (fst (kmemcpy (e_mem s) (eb_tail (e_buf s)) src n)). unfold append, bind at 1, gets. rewrite Hn.
  split; [reflexivity|]. split; [by apply kmemcpy_byte_mem|]. unfold apart in Ha. split.
  - unfold contents, b. cbn.
    replace (Z.to_nat (eb_tail (e_buf s) + n - eb_head (e_buf s)))
      with (Z.to_nat (eb_tail (e_buf s) - eb_head (e_buf s)) + Z.to_nat n)%nat by lia.
    rewrite read_bytes_app. f_equal.
    + apply read_bytes_ext. intros a Hx. apply kmemcpy_out. lia.
    + replace (eb_head (e_buf s) + Z.of_nat _) with (eb_tail (e_buf s)) by lia.
      rewrite <- (Z2Nat.id n) at 1 by lia. apply read_bytes_kmemcpy; [done|]. lia.
  - intros a Hx. cbn in Hx. apply kmemcpy_out. lia.
Qed.

(** Taking [n] bytes off the front of the window. *)
Lemma take_run s dest n :
  eb_ok (e_buf s) (e_mem s) → 0 ≤ n ≤ Z.of_nat (length (contents (e_buf s) (e_mem s))) →
  apart (e_buf s) dest n →
  let m := kmemmove (e_mem s) dest (eb_head (e_buf s)) n in
  let b := bset_window (eb_head (e_buf s) + n) (eb_tail (e_buf s)) (e_buf s) in
  byte_mem m ∧ read_bytes m dest (Z.to_nat n) ++ contents b m = contents (e_buf s) (e_mem s) ∧
  ∀ a, (a < eb_buffer b ∨ eb_buffer b + eb_buffer_size b ≤ a) → (a < dest ∨ dest + n ≤ a) → m a = e_mem s a.
Proof.
  intros Hok Hn Ha m b. pose proof Hok as [H1 H2 H3 H4 H5 H6 H7 H8].
  rewrite (contents_length _ _ Hok) in Hn. unfold apart in Ha. split; [|split].
  - intros a. unfold m, kmemmove. revert H1. generalize (e_mem s), dest, (eb_head (e_buf s)).
    induction (Z.to_nat n) as [|j IH]; intros m0 d h H1; [apply H1|]. cbn [kmemmove_loop]. apply IH. auto with mem.
  - unfold contents, b. cbn.
    replace (Z.to_nat (eb_tail (e_buf s) - eb_head (e_buf s)))
      with (Z.to_nat n + Z.to_nat (eb_tail (e_buf s) - (eb_head (e_buf s) + n)))%nat by lia.
    rewrite read_bytes_app. f_equal.
    + apply list_eq. intros i. destruct (decide (i < Z.to_nat n)%nat).
      * rewrite !read_bytes_lookup by done. f_equal. apply kmemmove_loop_in; [done|lia|lia].
      * rewrite !lookup_ge_None_2; rewrite ?length_read_bytes; try done; lia.
    + replace (eb_head (e_buf s) + Z.of_nat _) with (eb_head (e_buf s) + n) by lia.
      apply read_bytes_ext. intros a Hx. apply kmemmove_loop_frame; lia.
  - intros a Hx Hd. cbn in Hx. apply kmemmove_loop_frame; lia.
Qed.

(** ** Lemmas on the operations *)

Lemma in_locks_run {A} (f : M locks A) s a l :
  f (e_locks s) = Done (a, l) → in_locks f s = Done (a, eset_locks l s).
Proof. intros E. unfold in_locks, zoom. by rewrite E. Qed.

(** The flag of an empty buffer, set and cleared. *)
Lemma flag_lor b f g : Z.land f g = 0 → has_flag (bset_flags (Z.lor (eb_flags b) f) b) g = has_flag b g.
Proof. intros E. unfold has_flag. cbn. by rewrite Z.land_lor_distr_l, E, Z.lor_0_r. Qed.

Lemma flag_set b f : f ≠ 0 → has_flag (bset_flags (Z.lor (eb_flags b) f) b) f = true.
Proof.
  intros Hf. unfold has_flag. cbn. rewrite Z.land_lor_distr_l, Z.land_diag.
  destruct (Z.eqb_spec (Z.lor (Z.land (eb_flags b) f) f) 0) as [E|]; [|done].
  by apply Z.lor_eq_0_iff in E as [_ E].
Qed.

Lemma flag_clear b f g : has_flag (bset_flags (Z.land (eb_flags b) (Z.lnot f)) b) g = 
  negb (Z.land (eb_flags b) (Z.land (Z.lnot f) g) =? 0).
Proof. unfold has_flag. cbn. by rewrite Z.land_assoc. Qed.

(** Buffers that differ only in their window and flags. *)
Definition same_array (b b' : exclusive_buffer) : Prop :=
  eb_buffer b' = eb_buffer b ∧ eb_buffer_size b' = eb_buffer_size b ∧ eb_multi_lock b' = eb_multi_lock b ∧
  eb_mutex b' = eb_mutex b ∧ eb_changed b' = eb_changed b.

(** The two ways a flag is updated at the end of an operation. *)
Lemma set_eof_run l m b :
  byte_mem m → 0 < eb_buffer b → eb_buffer b ≤ eb_head b ≤ eb_tail b →
  eb_tail b ≤ eb_buffer b + eb_buffer_size b < 2 ^ 32 → has_flag b EBF_GROWING = false →
  has_flag b EBF_EOF = false →
  ∃ b', set_eof_if_empty (mk_ebsys l m b) = Done (tt, mk_ebsys l m b') ∧ eb_ok b' m ∧ same_array b b' ∧
        eb_head b' = eb_head b ∧ eb_tail b' = eb_tail b.
Proof.
  intros Hm Hb Hh Ht Hg He. unfold set_eof_if_empty, bind, gets. cbn [e_buf].
  destruct (Z.eqb_spec (eb_head b) (eb_tail b)) as [E|E]; cbn [when].
  - exists (bset_flags (Z.lor (eb_flags b) EBF_EOF) b). split; [done|].
    split; [|by repeat split]. split; cbn; try done; try lia.
    + by rewrite flag_lor.
    + rewrite flag_set by done. by rewrite bool_decide_eq_true_2.
  - exists b. split; [done|]. split; [|by repeat split]. split; try done; try lia.
    by rewrite bool_decide_eq_false_2.
Qed.

Lemma clear_eof_run l m b n :
  byte_mem m → 0 < eb_buffer b → eb_buffer b ≤ eb_head b ≤ eb_tail b →
  eb_tail b ≤ eb_buffer b + eb_buffer_size b < 2 ^ 32 → has_flag b EBF_GROWING = false →
  (0 < n → eb_head b < eb_tail b) →
  (n ≤ 0 → has_flag b EBF_EOF = bool_decide (eb_head b = eb_tail b)) →
  ∃ b', clear_eof_if n (mk_ebsys l m b) = Done (tt, mk_ebsys l m b') ∧ eb_ok b' m ∧ same_array b b' ∧
        eb_head b' = eb_head b ∧ eb_tail b' = eb_tail b.
Proof.
  intros Hm Hb Hh Ht Hg Hn He. unfold clear_eof_if. destruct (Z.ltb_spec 0 n); cbn [when].
  - exists (bset_flags (Z.land (eb_flags b) (Z.lnot EBF_EOF)) b). split; [done|].
    split; [|by repeat split]. split; cbn; try done; try lia.
    + by rewrite flag_clear.
    + rewrite flag_clear. change (Z.land (Z.lnot EBF_EOF) EBF_EOF) with 0. rewrite Z.land_0_r.
      rewrite bool_decide_eq_false_2 by lia. done.
  - exists b. split; [done|]. split; [|by repeat split]. split; try done; try lia. by apply He.
Qed.

Section runs.
Context (c : cptr) (k : scpu) (t : tptr) (x : thread).
Context (Hints : ints_ok k) (Htid : t_tid x ≠ TID_INVALID).

(** Thread [t] runs on CPU [c] and nobody is inside the buffer's mutex. *)
Record ready (s : ebsys) (y : thread_mutex) : Prop := {
  rdy_inv : sched_inv (lk_sched (e_locks s));
  rdy_runs : runs_on (lk_sched (e_locks s)) c k t x;
  rdy_mutex : lk_mutex (e_locks s) !! eb_mutex (e_buf s) = Some y;
  rdy_spin : mu_spinlock y = None;
}.

(** The buffer is free, or the caller has locked it with [eb_lock]. *)
Definition open_to (s : ebsys) (y : thread_mutex) : Prop :=
  if mu_locked y then mu_tid y = t_tid x ∧ eb_multi_lock (e_buf s) = true else True.

Definition held (y : thread_mutex) : thread_mutex := mk_mutex None (mu_cond y) true (t_tid x).
Definition freed (y : thread_mutex) : thread_mutex := mk_mutex None (mu_cond y) false TID_INVALID.

(** Who is woken: a thread waiting for the mutex, one waiting for a change. *)
Definition woken (multi : bool) (n : Z) (y : thread_mutex) (cond : condptr) (s : sched) : sched :=
  let s1 := if multi then s else notified (mu_cond y) s in
  if 0 <? n then notified cond s1 else s1.

(** The locks while an operation runs, and after it handled [n] bytes. *)
Definition opened (s : ebsys) (y : thread_mutex) : locks :=
  if mu_locked y then e_locks s
  else mk_locks (lk_sched (e_locks s)) (<[eb_mutex (e_buf s) := held y]> (lk_mutex (e_locks s))).
Definition closed (s : ebsys) (y : thread_mutex) (n : Z) : locks :=
  mk_locks (woken (mu_locked y) n y (eb_changed (e_buf s)) (lk_sched (e_locks s)))
    (if mu_locked y then lk_mutex (e_locks s)
     else <[eb_mutex (e_buf s) := freed y]> (lk_mutex (e_locks s))).
Definition settled (y : thread_mutex) : thread_mutex := if mu_locked y then y else freed y.

Lemma runs_notified s cond : sched_inv s → runs_on s c k t x → runs_on (notified cond s) c k t x.
Proof.
  intros Hi Hro. destruct (runs_on_facts s c k t x Hi Hro) as (Hr & _). destruct Hro as (H1 & H2 & H3).
  split; [by rewrite notified_scpus|]. split; [done|]. apply notified_other; [done|congruence].
Qed.

Lemma ready_closed s y n m b :
  ready s y → same_array (e_buf s) b → ready (mk_ebsys (closed s y n) m b) (settled y).
Proof.
  intros [H1 H2 H3 H4] (_ & _ & _ & Hm & _).
  assert (G : sched_inv (woken (mu_locked y) n y (eb_changed (e_buf s)) (lk_sched (e_locks s))) ∧
              runs_on (woken (mu_locked y) n y (eb_changed (e_buf s)) (lk_sched (e_locks s))) c k t x).
  { unfold woken.
    assert (G1 : ∀ u cond, sched_inv u ∧ runs_on u c k t x → sched_inv (notified cond u) ∧ runs_on (notified cond u) c k t x).
    { intros u cond [Gi Gr]. split; [apply (notified_inv c k); [done|apply Gr]|by apply runs_notified]. }
    destruct (mu_locked y), (0 <? n); auto. }
  split; cbn; [apply G|apply G| |]; unfold settled; destruct (mu_locked y); rewrite ?Hm, ?lookup_insert_eq; done.
Qed.

Lemma holds_run s y :
  ready s y →
  holds_multi_lock c s = Done (mu_locked y && (mu_tid y =? t_tid x) && eb_multi_lock (e_buf s), s).
Proof.
  intros [H1 H2 H3 H4]. unfold holds_multi_lock, bind at 1, gets. erewrite bind_run.
  2:{ apply in_locks_run. by apply (mutex_held_run c k t x _ y). }
  unfold ret. by destruct s.
Qed.

Lemma acquire_mutex_run s y :
  ready s y → mu_locked y = false → acquire_mutex c s = Done (true, eset_locks (opened s y) s).
Proof.
  intros [H1 H2 H3 H4] Hf. unfold acquire_mutex, bind, gets, opened. rewrite Hf.
  apply in_locks_run. by apply (acquire_free c k t x _ y).
Qed.

(** Getting at the buffer: through the mutex, or with the multi-lock held. *)
Lemma open_run {A} s y (F : bool → M ebsys A) (G : M ebsys A) :
  ready s y → open_to s y →
  (multi <- holds_multi_lock c ;; ok <- (if (multi : bool) then ret true else acquire_mutex c) ;;
   if (ok : bool) then F multi else G) s = F (mu_locked y) (eset_locks (opened s y) s).
Proof.
  intros Hr Ho. rewrite (bind_run _ _ _ _ _ (holds_run s y Hr)). unfold open_to in Ho.
  destruct (mu_locked y) eqn:El.
  - destruct Ho as [-> ->]. rewrite Z.eqb_refl. cbn [andb]. unfold bind, ret, opened. rewrite El. by destruct s.
  - cbn [andb]. rewrite (bind_run _ _ _ _ _ (acquire_mutex_run s y Hr El)). done.
Qed.

(** Leaving the buffer: the mutex is released unless the multi-lock is held, and
    a waiting thread is notified when bytes were handled. *)
Lemma close_run s y n m b :
  ready s y → open_to s y → same_array (e_buf s) b →
  (when (negb (mu_locked y)) (release_mutex c) ;;; notify_changed c n ;;; ret n)
    (mk_ebsys (opened s y) m b) = Done (n, mk_ebsys (closed s y n) m b).
Proof.
  intros [H1 H2 H3 H4] Ho (_ & _ & _ & Hm & Hc).
  assert (E1 : when (negb (mu_locked y)) (release_mutex c) (mk_ebsys (opened s y) m b) =
    Done (tt, mk_ebsys (mk_locks (if mu_locked y then lk_sched (e_locks s) else notified (mu_cond y) (lk_sched (e_locks s)))
      (lk_mutex (closed s y n))) m b)).
  { unfold opened, closed. destruct (mu_locked y) eqn:El; cbn [negb when lk_mutex]; [by destruct s as [[] ? ?]|].
    unfold release_mutex, bind at 1, gets. cbn [e_buf]. rewrite Hm.
    erewrite in_locks_run; [|apply (mutex_release_run c k t x _ (held y)); try done; cbn; by rewrite lookup_insert_eq].
    unfold eset_locks. cbn. by rewrite insert_insert_eq. }
  rewrite (bind_run _ _ _ _ _ E1). unfold notify_changed, bind at 1 2, gets. cbn [e_buf]. rewrite Hc.
  unfold closed at 2, woken. destruct (Z.ltb_spec 0 n); cbn [when]; [|done].
  unfold in_locks, zoom, thread_cond_notify. cbn [e_locks]. erewrite in_sched_run.
  2:{ eapply notify_exact; destruct (mu_locked y); cbn; [apply H1|apply (notified_inv c k _ _ H1), H2|apply H2|].
      rewrite notified_scpus. apply H2. }
  done.
Qed.

(** The bytes [n] of memory at [p], as a window of their own. *)
Definition outside (p n a : Z) : Prop := a < p ∨ p + n ≤ a.

Lemma read_locked_run s y dest size :
  ready s y → open_to s y → eb_ok (e_buf s) (e_mem s) → 0 ≤ size < 2 ^ 32 → apart (e_buf s) dest size →
  let n := Z.min (Z.of_nat (length (contents (e_buf s) (e_mem s)))) size in
  ∃ m b, try_read_locked c (mu_locked y) dest size (eset_locks (opened s y) s) =
      Done (n, mk_ebsys (closed s y n) m b) ∧
    eb_ok b m ∧ same_array (e_buf s) b ∧
    read_bytes m dest (Z.to_nat n) ++ contents b m = contents (e_buf s) (e_mem s) ∧
    ∀ a, outside (eb_buffer b) (eb_buffer_size b) a → outside dest n a → m a = e_mem s a.
Proof.
  intros Hr Ho Hok Hs Ha n. pose proof Hok as [H1 H2 H3 H4 H5 H6 H7 H8].
  unfold try_read_locked, bind at 1, gets. cbn [e_buf eset_locks]. rewrite H8.
  pose proof (contents_length _ _ Hok) as Hl.
  destruct (decide (eb_head (e_buf s) = eb_tail (e_buf s))) as [E|E].
  - rewrite bool_decide_eq_true_2 by done. exists (e_mem s), (e_buf s).
    assert (n = 0) as -> by lia. unfold bind at 1, ret at 1.
    split; [apply (close_run s y 0); [done|done|by repeat split]|].
    split; [done|]. split; [by repeat split|]. by split.
  - rewrite bool_decide_eq_false_2 by done. rewrite (get_length _ _ Hok).
    assert (En : kmin (eb_tail (e_buf s) - eb_head (e_buf s)) size = n).
    { unfold n, kmin. rewrite Hl. destruct (Z.gtb_spec (eb_tail (e_buf s) - eb_head (e_buf s)) size); lia. }
    rewrite En. unfold apart in Ha.
    destruct (take_run s dest n Hok ltac:(lia) ltac:(unfold apart; lia)) as (G1 & G2 & G3).
    set (b0 := bset_window (eb_head (e_buf s) + n) (eb_tail (e_buf s)) (e_buf s)) in *.
    set (m0 := kmemmove (e_mem s) dest (eb_head (e_buf s)) n) in *.
    assert (He0 : has_flag b0 EBF_EOF = false) by (unfold b0; rewrite <- (bool_decide_eq_false_2 _ E); exact H8).
    destruct (set_eof_run (opened s y) m0 b0) as (b & Eb & Hb & Hsa & Hh & Ht); try done; try (cbn; lia).
    exists m0, b. split.
    { erewrite bind_run; [by apply close_run|].
      erewrite bind_run; [|reflexivity]. erewrite bind_run; [|reflexivity]. erewrite bind_run; [reflexivity|exact Eb]. }
    split; [done|]. split; [done|]. split.
    + rewrite <- G2. unfold contents. by rewrite Hh, Ht.
    + intros a Hx Hd. destruct Hsa as (S1 & S2 & _). rewrite S1, S2 in Hx. by apply G3.
Qed.

Lemma try_read_run s y dest size :
  ready s y → open_to s y → eb_ok (e_buf s) (e_mem s) → 0 ≤ size < 2 ^ 32 → apart (e_buf s) dest size →
  let n := Z.min (Z.of_nat (length (contents (e_buf s) (e_mem s)))) size in
  ∃ m b, eb_try_read c dest size s = Done (Returned n, mk_ebsys (closed s y n) m b) ∧
    eb_ok b m ∧ same_array (e_buf s) b ∧
    read_bytes m dest (Z.to_nat n) ++ contents b m = contents (e_buf s) (e_mem s) ∧
    ∀ a, outside (eb_buffer b) (eb_buffer_size b) a → outside dest n a → m a = e_mem s a.
Proof.
  intros Hr Ho Hok Hs Ha n. destruct (read_locked_run s y dest size Hr Ho Hok Hs Ha) as (m & b & E & G).
  exists m, b. split; [|exact G]. unfold eb_try_read. rewrite (open_run s y _ _ Hr Ho).
  by rewrite (bind_run _ _ _ _ _ E).
Qed.

(** Moving the window and appending, as both ways of writing do it. *)
Lemma fill_run s src size :
  eb_ok (e_buf s) (e_mem s) → 0 ≤ size < 2 ^ 32 → apart (e_buf s) src size →
  let n := Z.min (eb_buffer_size (e_buf s) - Z.of_nat (length (contents (e_buf s) (e_mem s)))) size in
  ∃ m b, (unsafe_move_head ;;; append src size) s = Done (n, mk_ebsys (e_locks s) m b) ∧
    byte_mem m ∧ same_array (e_buf s) b ∧ eb_flags b = eb_flags (e_buf s) ∧ eb_head b = eb_buffer b ∧
    eb_tail b = eb_buffer b + (eb_tail (e_buf s) - eb_head (e_buf s)) + n ∧
    contents b m = contents (e_buf s) (e_mem s) ++ read_bytes (e_mem s) src (Z.to_nat n) ∧
    ∀ a, outside (eb_buffer b) (eb_buffer_size b) a → m a = e_mem s a.
Proof.
  intros Hok Hs Ha n. destruct (move_head_run s Hok) as (m1 & E1 & Hok1 & C1 & F1).
  set (b1 := bset_window _ _ (e_buf s)) in *. rewrite (bind_run _ _ _ _ _ E1).
  destruct (append_run (mk_ebsys (e_locks s) m1 b1) src size Hok1 eq_refl Hs Ha) as (m2 & E2 & Hm2 & C2 & F2).
  cbn [e_buf e_mem e_locks] in *. rewrite C1 in E2, C2, F2.
  change (eb_buffer_size b1) with (eb_buffer_size (e_buf s)) in E2, C2, F2. fold n in E2, C2, F2.
  eexists m2, _. split; [exact E2|]. split; [done|]. split; [by repeat split|]. split; [done|]. split; [done|]. split; [done|].
  split.
  - rewrite C2. f_equal. apply read_bytes_ext. intros a Hx. apply F1.
    unfold apart in Ha. pose proof (ok_end _ _ Hok). cbn. lia.
  - intros a Hx. rewrite F2 by done. by apply F1.
Qed.

Lemma write_locked_run `{EbHeap} s y src size :
  ready s y → open_to s y → eb_ok (e_buf s) (e_mem s) → 0 ≤ size < 2 ^ 32 → apart (e_buf s) src size →
  let n := Z.min (eb_buffer_size (e_buf s) - Z.of_nat (length (contents (e_buf s) (e_mem s)))) size in
  ∃ m b, try_write_locked c (mu_locked y) src size (eset_locks (opened s y) s) =
      Done (n, mk_ebsys (closed s y n) m b) ∧
    eb_ok b m ∧ same_array (e_buf s) b ∧
    contents b m = contents (e_buf s) (e_mem s) ++ read_bytes (e_mem s) src (Z.to_nat n) ∧
    ∀ a, outside (eb_buffer b) (eb_buffer_size b) a → m a = e_mem s a.
Proof.
  intros Hr Ho Hok Hs Ha n. pose proof Hok as [H1 H2 H3 H4 H5 H6 H7 H8].
  pose proof (contents_length _ _ Hok) as Hl.
  destruct (fill_run (eset_locks (opened s y) s) src size Hok Hs Ha)
    as (m & b & E & Hm & (S1 & S2 & S3 & S4 & S5) & Hf & Hh & Ht & Hc & Hfr).
  cbn [e_buf e_mem e_locks eset_locks] in *. fold n in E, Ht, Hc.
  assert (Hg : ∀ f, has_flag b f = has_flag (e_buf s) f) by (intros f; unfold has_flag; by rewrite Hf).
  destruct (clear_eof_run (opened s y) m b n) as (b' & Eb & Hb & (T1 & T2 & T3 & T4 & T5) & Th & Tt);
    try done; try (rewrite ?Hg; done || lia).
  { intros Hn. rewrite Hg, H8. apply bool_decide_ext. lia. }
  exists m, b'. split.
  { unfold try_write_locked, bind at 1, gets. cbn [e_buf eset_locks]. rewrite H7.
    rewrite (bind_run _ _ _ _ _ E), (bind_run _ _ _ _ _ Eb). apply close_run; [done|done|].
    split; [congruence|]. split; [congruence|]. split; [congruence|]. split; congruence. }
  split; [done|]. split; [repeat split; congruence|]. split.
  - rewrite <- Hc. unfold contents. by rewrite Th, Tt.
  - intros a Hx. apply Hfr. by rewrite <- T1, <- T2.
Qed.

Lemma try_write_run `{EbHeap} s y src size :
  ready s y → open_to s y → eb_ok (e_buf s) (e_mem s) → 0 ≤ size < 2 ^ 32 → apart (e_buf s) src size →
  let n := Z.min (eb_buffer_size (e_buf s) - Z.of_nat (length (contents (e_buf s) (e_mem s)))) size in
  ∃ m b, eb_try_write c src size s = Done (Returned n, mk_ebsys (closed s y n) m b) ∧
    eb_ok b m ∧ same_array (e_buf s) b ∧
    contents b m = contents (e_buf s) (e_mem s) ++ read_bytes (e_mem s) src (Z.to_nat n) ∧
    ∀ a, outside (eb_buffer b) (eb_buffer_size b) a → m a = e_mem s a.
Proof.
  intros Hr Ho Hok Hs Ha n. destruct (write_locked_run s y src size Hr Ho Hok Hs Ha) as (m & b & E & G).
  exists m, b. split; [|exact G]. unfold eb_try_write. rewrite (open_run s y _ _ Hr Ho).
  by rewrite (bind_run _ _ _ _ _ E).
Qed.

(** ** Operations that wait *)

Lemma eb_enter_run {A} s y (w : string) (F G : M ebsys A) :
  ready s y → mu_locked y = false →
  (multi <- holds_multi_lock c ;; if (multi : bool) then kpanic w else
   ok <- acquire_mutex c ;; if (ok : bool) then F else G) s = F (eset_locks (opened s y) s).
Proof.
  intros Hr Hf. rewrite (bind_run _ _ _ _ _ (holds_run s y Hr)), Hf. cbn [andb].
  by rewrite (bind_run _ _ _ _ _ (acquire_mutex_run s y Hr Hf)).
Qed.

(** The end of a waiting operation, which always holds the mutex itself. *)
Lemma eb_leave_run {A} s y n m b (r : A) :
  ready s y → mu_locked y = false → same_array (e_buf s) b →
  (release_mutex c ;;; notify_changed c n ;;; ret r) (mk_ebsys (opened s y) m b) =
  Done (r, mk_ebsys (closed s y n) m b).
Proof.
  intros Hr Hf Hsa. pose proof (close_run s y n m b Hr ltac:(unfold open_to; by rewrite Hf) Hsa) as E.
  rewrite Hf in E. cbn [negb when] in E. revert E. unfold bind.
  destruct (release_mutex c _) as [[[] s1]| |]; [|done|done].
  destruct (notify_changed c n s1) as [[[] s2]| |]; [|done|done]. unfold ret. by intros [= ->].
Qed.

(** Waiting for a change: the mutex is given up and the thread is blocked. *)
Lemma wait_run s y m b :
  ready s y → mu_locked y = false → same_array (e_buf s) b →
  ∃ s', wait_changed c (mk_ebsys (opened s y) m b) =
      Done (tt, mk_ebsys (mk_locks s' (<[eb_mutex (e_buf s) := freed y]> (lk_mutex (e_locks s)))) m b) ∧
    blocked_on (notified (mu_cond y) (lk_sched (e_locks s))) s' c t (eb_changed (e_buf s)).
Proof.
  intros [H1 H2 H3 H4] Hf (_ & _ & _ & Hm & Hc). unfold wait_changed, bind, gets. cbn [e_buf]. rewrite Hm, Hc.
  unfold opened. rewrite Hf.
  destruct (cond_wait_run c k t x (eb_mutex (e_buf s)) (held y)
    (mk_locks (lk_sched (e_locks s)) (<[eb_mutex (e_buf s) := held y]> (lk_mutex (e_locks s))))
    H1 H2 ltac:(cbn; by rewrite lookup_insert_eq) eq_refl (eb_changed (e_buf s)) eq_refl eq_refl Htid) as (s' & E & Hb).
  exists s'. split; [|exact Hb]. erewrite in_locks_run; [|exact E]. unfold eset_locks. cbn.
  by rewrite insert_insert_eq.
Qed.

(** An empty buffer whose EOF flag is clear keeps the loop of [eb_read] running. *)
Lemma read_loop_spins dest size fuel : ∀ s n,
  eb_head (e_buf s) = eb_tail (e_buf s) → has_flag (e_buf s) EBF_EOF = false → n < size →
  read_loop c fuel dest size n s = Hang.
Proof.
  induction fuel as [|fuel IH]; intros s n He Hf Hn; cbn [read_loop]; unfold bind at 1, gets;
    rewrite (proj2 (Z.ltb_lt n size) Hn), Hf; [done|].
  assert (Hk : kmin (unsafe_get_contents_length (e_buf s)) (u32 (size - n)) = 0).
  { unfold unsafe_get_contents_length, kmin. rewrite He, Z.sub_diag. pose proof (u32_range (size - n)).
    change (u32 0) with 0. destruct (Z.gtb_spec 0 (u32 (size - n))); lia. }
  rewrite Hk. erewrite bind_run; [|reflexivity]. erewrite bind_run; [|reflexivity].
  apply IH; cbn; [lia|exact Hf|lia].
Qed.

Lemma read_enough s y dest size fuel :
  ready s y → mu_locked y = false → eb_ok (e_buf s) (e_mem s) → apart (e_buf s) dest size →
  0 < size < 2 ^ 32 → size ≤ Z.of_nat (length (contents (e_buf s) (e_mem s))) →
  ∃ m b, eb_read c (S fuel) dest size s = Done (Returned size, mk_ebsys (closed s y size) m b) ∧
    eb_ok b m ∧ same_array (e_buf s) b ∧
    read_bytes m dest (Z.to_nat size) ++ contents b m = contents (e_buf s) (e_mem s).
Proof.
  intros Hr Hf Hok Ha Hs Hle. pose proof Hok as [H1 H2 H3 H4 H5 H6 H7 H8].
  pose proof (contents_length _ _ Hok) as Hl.
  destruct (take_run s dest size Hok ltac:(lia) Ha) as (G1 & G2 & _).
  set (b0 := bset_window (eb_head (e_buf s) + size) (eb_tail (e_buf s)) (e_buf s)) in *.
  set (m0 := kmemmove (e_mem s) dest (eb_head (e_buf s)) size) in *.
  assert (He : has_flag (e_buf s) EBF_EOF = false) by (rewrite H8; apply bool_decide_eq_false_2; lia).
  destruct (set_eof_run (opened s y) m0 b0) as (b & Eb & Hb & Hsa & Hh & Ht); try done; try (cbn; lia).
  exists m0, b. split; [|split; [done|]; split; [done|]; rewrite <- G2; unfold contents; by rewrite Hh, Ht].
  unfold eb_read. rewrite (eb_enter_run s y _ _ _ Hr Hf). cbn [read_loop]. unfold bind at 1, gets. cbn [e_buf eset_locks].
  rewrite (proj2 (Z.ltb_lt 0 size)) by lia. rewrite He, (get_length _ _ Hok), Z.sub_0_r, u32_small by lia.
  assert (Hk : kmin (eb_tail (e_buf s) - eb_head (e_buf s)) size = size).
  { unfold kmin. destruct (Z.gtb_spec (eb_tail (e_buf s) - eb_head (e_buf s)) size); lia. }
  rewrite Hk, !Z.add_0_r, Z.add_0_l. erewrite bind_run; [|reflexivity]. erewrite bind_run; [|reflexivity].
  destruct fuel; cbn [read_loop]; unfold bind at 1, gets; cbn [e_buf];
    rewrite Z.ltb_irrefl; rewrite (bind_run _ _ _ _ _ Eb); by apply eb_leave_run.
Qed.

Lemma read_empty s y dest size fuel :
  ready s y → mu_locked y = false → eb_ok (e_buf s) (e_mem s) → 0 < size →
  contents (e_buf s) (e_mem s) = [] →
  ∃ s', eb_read c fuel dest size s =
      Done (OnChanged 0, mk_ebsys (mk_locks s' (<[eb_mutex (e_buf s) := freed y]> (lk_mutex (e_locks s))))
                           (e_mem s) (e_buf s)) ∧
    blocked_on (notified (mu_cond y) (lk_sched (e_locks s))) s' c t (eb_changed (e_buf s)).
Proof.
  intros Hr Hf Hok Hs Hc. pose proof (contents_length _ _ Hok) as Hl. rewrite Hc in Hl. cbn in Hl.
  destruct (wait_run s y (e_mem s) (e_buf s) Hr Hf ltac:(by repeat split)) as (s' & E & Hb).
  exists s'. split; [|done]. unfold eb_read. rewrite (eb_enter_run s y _ _ _ Hr Hf).
  assert (He : has_flag (e_buf s) EBF_EOF = true) by (rewrite (ok_eof _ _ Hok); apply bool_decide_eq_true_2; lia).
  destruct fuel; cbn [read_loop]; unfold bind at 1, gets; cbn [e_buf eset_locks];
    rewrite (proj2 (Z.ltb_lt 0 size) Hs), He; unfold eset_locks; by rewrite (bind_run _ _ _ _ _ E).
Qed.

Lemma read_short s y dest size fuel :
  ready s y → mu_locked y = false → eb_ok (e_buf s) (e_mem s) →
  0 < Z.of_nat (length (contents (e_buf s) (e_mem s))) < size → size < 2 ^ 32 →
  eb_read c fuel dest size s = Hang.
Proof.
  intros Hr Hf Hok Hs Hb. pose proof (contents_length _ _ Hok) as Hl.
  unfold eb_read. rewrite (eb_enter_run s y _ _ _ Hr Hf).
  assert (He : has_flag (e_buf s) EBF_EOF = false) by (rewrite (ok_eof _ _ Hok); apply bool_decide_eq_false_2; lia).
  destruct fuel; cbn [read_loop]; unfold bind at 1, gets; cbn [e_buf eset_locks];
    rewrite (proj2 (Z.ltb_lt 0 size)) by lia; rewrite He; [done|].
  rewrite (get_length _ _ Hok), Z.sub_0_r, u32_small by lia.
  assert (Hk : kmin (eb_tail (e_buf s) - eb_head (e_buf s)) size = eb_tail (e_buf s) - eb_head (e_buf s)).
  { unfold kmin. destruct (Z.gtb_spec (eb_tail (e_buf s) - eb_head (e_buf s)) size); lia. }
  rewrite Hk. erewrite bind_run; [|reflexivity]. erewrite bind_run; [|reflexivity].
  apply read_loop_spins; cbn; [lia|exact He|lia].
Qed.

(** The first iteration of [eb_write]'s loop, when there is room. *)
Lemma write_first s src size next :
  eb_ok (e_buf s) (e_mem s) → 0 < size < 2 ^ 32 → apart (e_buf s) src size →
  let free := eb_buffer_size (e_buf s) - Z.of_nat (length (contents (e_buf s) (e_mem s))) in
  let n := Z.min free size in
  0 < free →
  ∃ m b, (unsafe_move_head ;;; write_step c next src size 0) s = next n (mk_ebsys (e_locks s) m b) ∧
    byte_mem m ∧ same_array (e_buf s) b ∧ eb_flags b = eb_flags (e_buf s) ∧ eb_head b = eb_buffer b ∧
    eb_tail b = eb_buffer b + (eb_tail (e_buf s) - eb_head (e_buf s)) + n ∧
    contents b m = contents (e_buf s) (e_mem s) ++ read_bytes (e_mem s) src (Z.to_nat n).
Proof.
  intros Hok Hs Ha free n Hfree. pose proof (contents_length _ _ Hok) as Hl.
  destruct (move_head_run s Hok) as (m1 & E1 & Hok1 & C1 & F1). set (b1 := bset_window _ _ (e_buf s)) in *.
  destruct (fill_run (mk_ebsys (e_locks s) m1 b1) src size Hok1 ltac:(lia) Ha)
    as (m & b & E & Hm & Hsa & Hf & Hh & Ht & Hc & _).
  cbn [e_buf e_mem e_locks] in *. rewrite C1 in E, Ht, Hc.
  change (eb_buffer_size b1) with (eb_buffer_size (e_buf s)) in E, Ht, Hc. fold free n in E, Ht, Hc.
  exists m, b. split.
  { rewrite (bind_run _ _ _ _ _ E1). unfold write_step, bind at 1, gets. cbn [e_buf].
    rewrite (proj2 (Z.eqb_neq (eb_tail b1) _)); [|cbn; lia]. rewrite Z.add_0_r, Z.sub_0_r, u32_small by lia.
    rewrite bind_assoc_run, (bind_run _ _ _ _ _ E), Z.add_0_l. done. }
  split; [done|]. split; [done|]. split; [done|]. split; [done|]. split.
  - rewrite Ht. unfold b1. cbn. lia.
  - rewrite Hc. f_equal. apply read_bytes_ext. intros a Hx. apply F1. unfold apart in Ha. cbn. lia.
Qed.

Lemma write_enough `{EbHeap} s y src size fuel :
  ready s y → mu_locked y = false → eb_ok (e_buf s) (e_mem s) → apart (e_buf s) src size →
  0 < size < 2 ^ 32 →
  size ≤ eb_buffer_size (e_buf s) - Z.of_nat (length (contents (e_buf s) (e_mem s))) →
  ∃ m b, eb_write c (S fuel) src size s = Done (Returned size, mk_ebsys (closed s y size) m b) ∧
    eb_ok b m ∧ same_array (e_buf s) b ∧
    contents b m = contents (e_buf s) (e_mem s) ++ read_bytes (e_mem s) src (Z.to_nat size).
Proof.
  intros Hr Hf Hok Ha Hs Hle. pose proof Hok as [H1 H2 H3 H4 H5 H6 H7 H8].
  pose proof (contents_length _ _ Hok) as Hl.
  destruct (write_first (eset_locks (opened s y) s) src size (write_loop c fuel src size) Hok Hs Ha ltac:(cbn; lia))
    as (m & b & E & Hm & (S1 & S2 & S3 & S4 & S5) & Hfl & Hh & Ht & Hc).
  cbn [e_buf e_mem e_locks eset_locks] in *. rewrite Z.min_r in E, Ht, Hc by lia.
  assert (Hg : ∀ f, has_flag b f = has_flag (e_buf s) f) by (intros f; unfold has_flag; by rewrite Hfl).
  destruct (clear_eof_run (opened s y) m b size) as (b' & Eb & Hb & (T1 & T2 & T3 & T4 & T5) & Th & Tt);
    try done; try (rewrite ?Hg; done || lia).
  exists m, b'. split; [|split; [done|]; split; [repeat split; congruence|]; rewrite <- Hc; unfold contents; by rewrite Th, Tt].
  unfold eb_write. rewrite (eb_enter_run s y _ _ _ Hr Hf). unfold bind at 1, gets. cbn [e_buf eset_locks]. rewrite H7.
  cbn [write_loop]. rewrite (proj2 (Z.ltb_lt 0 size)), E by lia.
  destruct fuel; cbn [write_loop]; rewrite Z.ltb_irrefl; unfold write_done;
    rewrite (bind_run _ _ _ _ _ Eb); (apply eb_leave_run; [done|done|repeat split; congruence]).
Qed.

(** A write that does not fit: the part that fits is in the buffer, its EOF flag is
    as before, and the writer waits. *)
Lemma write_too_much `{EbHeap} s y src size fuel :
  ready s y → mu_locked y = false → eb_ok (e_buf s) (e_mem s) → apart (e_buf s) src size →
  size < 2 ^ 32 → let free := eb_buffer_size (e_buf s) - Z.of_nat (length (contents (e_buf s) (e_mem s))) in
  free < size →
  ∃ s' m b, eb_write c (S (S fuel)) src size s =
      Done (OnChanged free, mk_ebsys (mk_locks s' (<[eb_mutex (e_buf s) := freed y]> (lk_mutex (e_locks s)))) m b) ∧
    blocked_on (notified (mu_cond y) (lk_sched (e_locks s))) s' c t (eb_changed (e_buf s)) ∧
    same_array (e_buf s) b ∧ eb_flags b = eb_flags (e_buf s) ∧
    contents b m = contents (e_buf s) (e_mem s) ++ read_bytes (e_mem s) src (Z.to_nat free).
Proof.
  intros Hr Hf Hok Ha Hs free Hle. pose proof Hok as [H1 H2 H3 H4 H5 H6 H7 H8].
  pose proof (contents_length _ _ Hok) as Hl.
  unfold eb_write. rewrite (eb_enter_run s y _ _ _ Hr Hf). unfold bind at 1, gets. cbn [e_buf eset_locks]. rewrite H7.
  assert (Hstuck : ∀ m b n j, same_array (e_buf s) b → eb_head b = eb_buffer b →
    eb_tail b = eb_buffer b + eb_buffer_size b → n < size → 
    ∃ s', write_loop c (S j) src size n (mk_ebsys (opened s y) m b) =
        Done (OnChanged n, mk_ebsys (mk_locks s' (<[eb_mutex (e_buf s) := freed y]> (lk_mutex (e_locks s)))) m b) ∧
      blocked_on (notified (mu_cond y) (lk_sched (e_locks s))) s' c t (eb_changed (e_buf s))).
  { intros m b n j Hsa Hh Ht Hn. destruct (wait_run s y m b Hr Hf Hsa) as (s' & E & Hb).
    exists s'. split; [|done]. cbn [write_loop]. rewrite (proj2 (Z.ltb_lt n size) Hn).
    unfold unsafe_move_head, bind at 2, gets. unfold bind at 1. cbn [e_buf]. rewrite Hh, Z.eqb_refl.
    unfold ret at 1, write_step, bind at 1, gets. cbn [e_buf]. rewrite Ht, Z.eqb_refl.
    by rewrite (bind_run _ _ _ _ _ E). }
  destruct (decide (free = 0)) as [E0|E0].
  - destruct (move_head_run (eset_locks (opened s y) s) Hok) as (m & E & Hok1 & C1 & _).
    cbn [e_buf e_mem e_locks eset_locks] in *. set (b := bset_window _ _ (e_buf s)) in *.
    destruct (Hstuck m b 0 (S fuel)) as (s' & E' & Hb); [by repeat split|done|unfold b; cbn; lia|lia|].
    exists s', m, b. rewrite E0, app_nil_r. split; [|split; [done|]; split; [by repeat split|]; by split].
    rewrite <- E'. cbn [write_loop]. rewrite (proj2 (Z.ltb_lt 0 size)) by lia.
    rewrite (bind_run _ _ _ _ _ E). unfold unsafe_move_head at 2, bind at 2 3, gets. cbn [e_buf].
    change (eb_head b) with (eb_buffer b). rewrite Z.eqb_refl. reflexivity.
  - destruct (write_first (eset_locks (opened s y) s) src size (write_loop c (S fuel) src size) Hok
      ltac:(lia) Ha ltac:(cbn; lia)) as (m & b & E & Hm & Hsa & Hfl & Hh & Ht & Hc).
    cbn [e_buf e_mem e_locks eset_locks] in *. fold free in E, Ht, Hc. rewrite Z.min_l in E, Ht, Hc by lia.
    pose proof Hsa as (S1 & S2 & _).
    destruct (Hstuck m b free fuel Hsa Hh ltac:(lia) Hle) as (s' & E' & Hb).
    exists s', m, b. split; [|by split].
    rewrite <- E'.
    change (write_loop c (S (S fuel)) src size 0) with
      (if 0 <? size then unsafe_move_head ;;; write_step c (write_loop c (S fuel) src size) src size 0 else write_done c 0).
    rewrite (proj2 (Z.ltb_lt 0 size)) by lia. exact E.
Qed.

End runs.

(** ** Sequences of operations *)

Inductive eb_op : Type :=
| TryRead (dest size : Z)
| TryWrite (src size : Z).

Definition result_bytes (r : eb_result) : nat :=
  match r with Returned n => Z.to_nat n | OnMutex _ | OnChanged _ => O end.

(** One operation, with the bytes it delivered and the bytes it accepted. *)
Definition exec_op `{EbHeap} (c : cptr) (o : eb_op) : M ebsys (list Z * list Z) :=
  match o with
  | TryRead dest size =>
      r <- eb_try_read c dest size ;;
      gets (fun s => (read_bytes (e_mem s) dest (result_bytes r), []))
  | TryWrite src size =>
      m <- gets e_mem ;;
      r <- eb_try_write c src size ;;
      ret ([], read_bytes m src (result_bytes r))
  end.

Fixpoint exec_ops `{EbHeap} (c : cptr) (os : list eb_op) : M ebsys (list Z * list Z) :=
  match os with
  | [] => ret ([], [])
  | o :: os' =>
      p <- exec_op c o ;;
      q <- exec_ops c os' ;;
      ret (fst p ++ fst q, snd p ++ snd q)
  end.

(** The caller's memory of an operation is not in the buffer. *)
Definition op_ok (b : exclusive_buffer) (o : eb_op) : Prop :=
  match o with TryRead p n | TryWrite p n => 0 ≤ n < 2 ^ 32 ∧ apart b p n end.

Lemma op_ok_same b b' o : same_array b b' → op_ok b o → op_ok b' o.
Proof. intros (E1 & E2 & _). unfold op_ok, apart. destruct o; by rewrite E1, E2. Qed.

Lemma exec_op_run `{EbHeap} c k t x s y o :
  ints_ok k → t_tid x ≠ TID_INVALID →
  ready c k t x s y → open_to x s y → eb_ok (e_buf s) (e_mem s) → op_ok (e_buf s) o →
  ∃ out inp s', exec_op c o s = Done ((out, inp), s') ∧ out ++ contents (e_buf s') (e_mem s') =
      contents (e_buf s) (e_mem s) ++ inp ∧
    eb_ok (e_buf s') (e_mem s') ∧ same_array (e_buf s) (e_buf s') ∧
    ready c k t x s' (settled y) ∧ open_to x s' (settled y).
Proof.
  intros Hi Ht Hr Ho Hok Hop.
  assert (Hopen : ∀ n m b, same_array (e_buf s) b →
    ready c k t x (mk_ebsys (closed s y n) m b) (settled y) ∧ open_to x (mk_ebsys (closed s y n) m b) (settled y)).
  { intros n m b Hsa. split; [by apply ready_closed|]. unfold open_to, settled in *.
    destruct (mu_locked y) eqn:E; [|done]. rewrite E. cbn. destruct Hsa as (_ & _ & -> & _). done. }
  destruct o as [dest size|src size]; destruct Hop as [Hs Ha]; cbn [exec_op].
  - destruct (try_read_run c k t x Hi Ht s y dest size Hr Ho Hok Hs Ha) as (m & b & E & Hb & Hsa & Hc & _).
    eexists _, [], _. rewrite (bind_run _ _ _ _ _ E). split; [reflexivity|]. cbn. rewrite app_nil_r.
    split; [exact Hc|]. split; [done|]. split; [done|]. by apply Hopen.
  - destruct (try_write_run c k t x Hi Ht s y src size Hr Ho Hok Hs Ha) as (m & b & E & Hb & Hsa & Hc & _).
    eexists [], _, _. unfold bind at 1, gets. rewrite (bind_run _ _ _ _ _ E). split; [reflexivity|]. cbn.
    split; [exact Hc|]. split; [done|]. split; [done|]. by apply Hopen.
Qed.

Lemma exec_ops_run `{EbHeap} c k t x os : ints_ok k → t_tid x ≠ TID_INVALID → ∀ s y,
  ready c k t x s y → open_to x s y → eb_ok (e_buf s) (e_mem s) → Forall (op_ok (e_buf s)) os →
  ∃ out inp s' y', exec_ops c os s = Done ((out, inp), s') ∧ out ++ contents (e_buf s') (e_mem s') =
      contents (e_buf s) (e_mem s) ++ inp ∧
    eb_ok (e_buf s') (e_mem s') ∧ same_array (e_buf s) (e_buf s') ∧
    ready c k t x s' y' ∧ open_to x s' y'.
Proof.
  intros Hi Ht. induction os as [|o os IH]; intros s y Hr Ho Hok Hos.
  - exists [], [], s, y. split; [done|]. split; [by rewrite app_nil_r|]. split; [done|]. split; [by repeat split|done].
  - inversion Hos as [|? ? Ho1 Hos1]; subst.
    destruct (exec_op_run c k t x s y o Hi Ht Hr Ho Hok Ho1) as (o1 & i1 & s1 & E1 & C1 & Hok1 & Sa1 & Hr1 & Hop1).
    destruct (IH s1 (settled y) Hr1 Hop1 Hok1) as (o2 & i2 & s2 & y2 & E2 & C2 & Hok2 & Sa2 & Hr2 & Hop2).
    { eapply Forall_impl; [exact Hos1|]. intros o'. by apply op_ok_same. }
    exists (o1 ++ o2), (i1 ++ i2), s2, y2. cbn [exec_ops].
    rewrite (bind_run _ _ _ _ _ E1), (bind_run _ _ _ _ _ E2). split; [done|].
    split; [by rewrite <- app_assoc, C2, app_assoc, C1, app_assoc|]. split; [done|].
    split; [|done]. destruct Sa1 as (A1 & A2 & A3 & A4 & A5), Sa2 as (B1 & B2 & B3 & B4 & B5).
    repeat split; congruence.
Qed.

(** A created buffer is empty and well-formed, and its mutex is free. *)
Lemma eb_create_run `{EbHeap} mutex mcond changed size alignment flags s p s1 :
  eb_kzalloc EB_HEAP_NORMAL (kmax alignment 1) size s = Done (p, s1) →
  byte_mem (e_mem s1) → 0 < p → 0 ≤ size → p + size < 2 ^ 32 → Z.land flags EBF_GROWING = 0 →
  ∃ s', eb_create mutex mcond changed size alignment flags s = Done (tt, s') ∧
    eb_ok (e_buf s') (e_mem s') ∧ contents (e_buf s') (e_mem s') = [] ∧
    eb_buffer_size (e_buf s') = size ∧
    lk_mutex (e_locks s') !! mutex = Some (mk_mutex None mcond false TID_INVALID).
Proof.
  intros E Hm Hp Hs Hf Hg. unfold eb_create. rewrite (bind_run _ _ _ _ _ E).
  eexists. split; [reflexivity|]. cbn. split; [|split; [|split]].
  - split; cbn; try done; try lia.
    + unfold has_flag. cbn. by rewrite Z.land_lor_distr_l, Hg.
    + rewrite bool_decide_eq_true_2 by done. unfold has_flag. cbn. rewrite Z.land_lor_distr_l.
      destruct (Z.eqb_spec (Z.lor (Z.land flags EBF_EOF) (Z.land EBF_EOF EBF_EOF)) 0) as [G|]; [|done].
      by apply Z.lor_eq_0_iff in G as [_ G].
  - unfold contents. cbn. by rewrite Z.sub_diag.
  - done.
  - by rewrite lookup_insert_eq.
Qed.

(** ** Properties *)

(** C15: a buffer is a bounded FIFO: any sequence of [eb_try_read] and [eb_try_write]
    by the running thread, with the buffer free or locked by it, runs to the end;
    the bytes delivered followed by those left in the buffer are the bytes it held
    followed by those accepted, so none is lost, duplicated or reordered; at most
    [buffer_size] are held, and EOF is set exactly when the buffer is empty. *)
Theorem eb_fifo `{EbHeap} c k t x s y os :
  ints_ok k → t_tid x ≠ TID_INVALID → ready c k t x s y → open_to x s y →
  eb_ok (e_buf s) (e_mem s) → Forall (op_ok (e_buf s)) os →
  ∃ out inp s' y', exec_ops c os s = Done ((out, inp), s') ∧
    out ++ contents (e_buf s') (e_mem s') = contents (e_buf s) (e_mem s) ++ inp ∧
    Z.of_nat (length (contents (e_buf s') (e_mem s'))) ≤ eb_buffer_size (e_buf s) ∧
    has_flag (e_buf s') EBF_EOF = bool_decide (contents (e_buf s') (e_mem s') = []) ∧
    eb_ok (e_buf s') (e_mem s') ∧ ready c k t x s' y' ∧ open_to x s' y'.
Proof.
  intros Hi Ht Hr Ho Hok Hos.
  destruct (exec_ops_run c k t x os Hi Ht s y Hr Ho Hok Hos) as (out & inp & s' & y' & E & Hc & Hok' & Sa & Hr' & Ho').
  exists out, inp, s', y'. split; [done|]. split; [done|].
  pose proof (contents_length _ _ Hok') as Hl. destruct Hok' as [G1 G2 G3 G4 G5 G6 G7 G8], Sa as (S1 & S2 & _).
  split; [rewrite <- S2; lia|]. split; [|done]. rewrite G8. apply bool_decide_ext.
  split; intros G; [apply length_zero_iff_nil; lia|rewrite G in Hl; cbn in Hl; lia].
Qed.

(** [eb_try_read] takes as many of the oldest bytes as there are and as were asked
    for, [eb_try_write] appends as many as fit; both report that number, and change
    no memory but the buffer and, for a read, the bytes delivered. *)
Theorem eb_try_correct `{EbHeap} c k t x s y p size :
  ints_ok k → t_tid x ≠ TID_INVALID → ready c k t x s y → open_to x s y →
  eb_ok (e_buf s) (e_mem s) → op_ok (e_buf s) (TryRead p size) →
  let q := contents (e_buf s) (e_mem s) in
  let n := Z.min (Z.of_nat (length q)) size in
  let w := Z.min (eb_buffer_size (e_buf s) - Z.of_nat (length q)) size in
  (∃ m b, eb_try_read c p size s = Done (Returned n, mk_ebsys (closed s y n) m b) ∧
     read_bytes m p (Z.to_nat n) = take (Z.to_nat n) q ∧ contents b m = drop (Z.to_nat n) q ∧
     ∀ a, outside (eb_buffer b) (eb_buffer_size b) a → outside p n a → m a = e_mem s a) ∧
  (∃ m b, eb_try_write c p size s = Done (Returned w, mk_ebsys (closed s y w) m b) ∧
     contents b m = q ++ read_bytes (e_mem s) p (Z.to_nat w) ∧
     ∀ a, outside (eb_buffer b) (eb_buffer_size b) a → m a = e_mem s a).
Proof.
  intros Hi Ht Hr Ho Hok [Hs Ha] q n w. split.
  - destruct (try_read_run c k t x Hi Ht s y p size Hr Ho Hok Hs Ha) as (m & b & E & _ & _ & Hc & Hf).
    fold q n in Hc. exists m, b. split; [exact E|]. rewrite <- Hc.
    rewrite take_app_length', drop_app_length' by (by rewrite length_read_bytes). done.
  - destruct (try_write_run c k t x Hi Ht s y p size Hr Ho Hok Hs Ha) as (m & b & E & _ & _ & Hc & Hf).
    exists m, b. done.
Qed.

(** [eb_read] of at least one byte from a free buffer returns them all, oldest
    first, when the buffer holds enough; blocks the reader on [changed] with the
    mutex given up when the buffer is empty; and, when the buffer holds some bytes
    but not enough, never returns: the reader loops holding the mutex. *)
Theorem eb_read_correct c k t x s y dest size fuel :
  ints_ok k → t_tid x ≠ TID_INVALID → ready c k t x s y → mu_locked y = false →
  eb_ok (e_buf s) (e_mem s) → apart (e_buf s) dest size → 0 < size < 2 ^ 32 →
  let q := contents (e_buf s) (e_mem s) in
  if size <=? Z.of_nat (length q) then
    ∃ m b, eb_read c (S fuel) dest size s = Done (Returned size, mk_ebsys (closed s y size) m b) ∧
      read_bytes m dest (Z.to_nat size) = take (Z.to_nat size) q ∧ contents b m = drop (Z.to_nat size) q ∧
      eb_ok b m
  else if bool_decide (q = []) then
    ∃ s' M, eb_read c fuel dest size s = Done (OnChanged 0, mk_ebsys (mk_locks s' M) (e_mem s) (e_buf s)) ∧
      M !! eb_mutex (e_buf s) = Some (mk_mutex None (mu_cond y) false TID_INVALID) ∧
      blocked_on (notified (mu_cond y) (lk_sched (e_locks s))) s' c t (eb_changed (e_buf s))
  else eb_read c fuel dest size s = Hang.
Proof.
  intros Hi Ht Hr Hf Hok Ha Hs q. destruct (Z.leb_spec size (Z.of_nat (length q))) as [L|L].
  - destruct (read_enough c k t x Hi Ht s y dest size fuel Hr Hf Hok Ha Hs L) as (m & b & E & Hb & _ & Hc).
    exists m, b. fold q in Hc. rewrite <- Hc.
    rewrite take_app_length', drop_app_length' by (by rewrite length_read_bytes). done.
  - destruct (decide (q = [])) as [E|E].
    + rewrite bool_decide_eq_true_2 by done.
      destruct (read_empty c k t x Hi Ht s y dest size fuel Hr Hf Hok ltac:(lia) E) as (s' & G & Hb).
      eexists s', _. split; [exact G|]. split; [by rewrite lookup_insert_eq|done].
    + rewrite bool_decide_eq_false_2 by done.
      apply (read_short c k t x Hi s y); try done; [|lia]. fold q. destruct q; [done|cbn in *; lia].
Qed.

(** [eb_write] of at least one byte to a free buffer appends them all and returns
    when they fit; otherwise it appends what fits, leaves the EOF flag as it was (a
    buffer that was empty still reports EOF to its readers) and blocks the writer on
    [changed]. *)
Theorem eb_write_correct `{EbHeap} c k t x s y src size fuel :
  ints_ok k → t_tid x ≠ TID_INVALID → ready c k t x s y → mu_locked y = false →
  eb_ok (e_buf s) (e_mem s) → apart (e_buf s) src size → 0 < size < 2 ^ 32 →
  let q := contents (e_buf s) (e_mem s) in
  let free := eb_buffer_size (e_buf s) - Z.of_nat (length q) in
  if size <=? free then
    ∃ m b, eb_write c (S fuel) src size s = Done (Returned size, mk_ebsys (closed s y size) m b) ∧
      contents b m = q ++ read_bytes (e_mem s) src (Z.to_nat size) ∧ eb_ok b m
  else
    ∃ s' M m b, eb_write c (S (S fuel)) src size s = Done (OnChanged free, mk_ebsys (mk_locks s' M) m b) ∧
      contents b m = q ++ read_bytes (e_mem s) src (Z.to_nat free) ∧
      has_flag b EBF_EOF = bool_decide (q = []) ∧
      blocked_on (notified (mu_cond y) (lk_sched (e_locks s))) s' c t (eb_changed (e_buf s)).
Proof.
  intros Hi Ht Hr Hf Hok Ha Hs q free. pose proof (contents_length _ _ Hok) as Hl. fold q in Hl.
  destruct (Z.leb_spec size free) as [L|L].
  - destruct (write_enough c k t x Hi Ht s y src size fuel Hr Hf Hok Ha Hs L) as (m & b & E & Hb & _ & Hc).
    exists m, b. done.
  - destruct (write_too_much c k t x Hi Ht s y src size fuel Hr Hf Hok Ha ltac:(lia) L)
      as (s' & m & b & E & Hb & _ & Hfl & Hc).
    eexists s', _, m, b. split; [exact E|]. split; [exact Hc|]. split; [|done].
    unfold has_flag. rewrite Hfl. pose proof (ok_eof _ _ Hok) as G. unfold has_flag in G. rewrite G.
    apply bool_decide_ext. split; intros E0; [apply length_zero_iff_nil; lia|rewrite E0 in Hl; cbn in Hl; lia].
Qed.

(** ** Examples *)

(** A heap that hands out one array. *)
#[export] Instance example_heap : EbHeap := {|
  eb_kzalloc := fun _ _ _ => ret 1000;
  eb_kfree := fun _ => ret tt;
  eb_krealloc := fun p _ _ _ => ret p;
|}.

(** Eight bytes at 1000, guarded by mutex 3; the caller's data is at 100. *)
Definition example_eb (n : Z) : ebsys :=
  mk_ebsys (example_locks false 0)
    (write_bytes (write_bytes (fun _ => 0) 100 [104; 101; 108; 108; 111; 33]) 1000 [97; 98; 99])
    (mk_eb (if n =? 0 then EBF_EOF else 0) 1 8 1000 1000 (1000 + n) false 3%nat 6%nat).

Lemma example_eb_ok n : (n = 0 ∨ n = 3) → eb_ok (e_buf (example_eb n)) (e_mem (example_eb n)).
Proof.
  intros Hn. split; [by apply byte_mem_write, byte_mem_write|..]; destruct Hn as [-> | ->]; cbn; done || lia.
Qed.

Definition example_current : thread := mk_thread 1 7%nat THREAD_RUNNING 0 0 0 0 None 1 true 0 1 AtEntry.

Lemma example_eb_ready n :
  ready 0%nat example_running 10%nat example_current (example_eb n) (mk_mutex None 5%nat false 0).
Proof. split; [apply (example_inv example_one)|exact example_one_runs|apply lookup_singleton_eq|done]. Qed.

Lemma eb_fifo_witness :
  ∃ out inp s', exec_ops 0%nat [TryWrite 100 6; TryRead 200 4; TryWrite 100 6; TryRead 200 9] (example_eb 3) =
      Done ((out, inp), s') ∧
    out ++ contents (e_buf s') (e_mem s') = [97; 98; 99] ++ inp.
Proof.
  destruct (eb_fifo 0%nat example_running 10%nat example_current (example_eb 3) _
    [TryWrite 100 6; TryRead 200 4; TryWrite 100 6; TryRead 200 9] example_ints ltac:(discriminate)
    (example_eb_ready 3) I (example_eb_ok 3 (or_intror eq_refl))
    ltac:(repeat constructor; unfold op_ok, apart; cbn; lia)) as (out & inp & s' & _ & E & Hc & _).
  exists out, inp, s'. split; [exact E|exact Hc].
Defined.

Lemma eb_try_correct_witness :
  ∃ m b, eb_try_read 0%nat 200 2 (example_eb 3) =
      Done (Returned 2, mk_ebsys (closed (example_eb 3) (mk_mutex None 5%nat false 0) 2) m b) ∧
    read_bytes m 200 2 = [97; 98].
Proof.
  destruct (eb_try_correct 0%nat example_running 10%nat example_current (example_eb 3) _ 200 2 example_ints ltac:(discriminate)
    (example_eb_ready 3) I (example_eb_ok 3 (or_intror eq_refl)) ltac:(unfold op_ok, apart; cbn; lia)) as [(m & b & E & Hb & _) _].
  exists m, b. split; [exact E|exact Hb].
Defined.

Lemma eb_read_correct_witness : eb_read 0%nat 1000%nat 200 5 (example_eb 3) = Hang.
Proof.
  exact (eb_read_correct 0%nat example_running 10%nat example_current (example_eb 3) _ 200 5 1000%nat example_ints
    ltac:(discriminate) (example_eb_ready 3) eq_refl (example_eb_ok 3 (or_intror eq_refl))
    ltac:(unfold apart; cbn; lia) ltac:(lia)).
Defined.

Lemma eb_write_correct_witness :
  ∃ m b, eb_write 0%nat 3%nat 100 5 (example_eb 3) =
      Done (Returned 5, mk_ebsys (closed (example_eb 3) (mk_mutex None 5%nat false 0) 5) m b) ∧
    contents b m = [97; 98; 99; 104; 101; 108; 108; 111].
Proof.
  destruct (eb_write_correct 0%nat example_running 10%nat example_current (example_eb 3) _ 100 5 2%nat example_ints
    ltac:(discriminate) (example_eb_ready 3) eq_refl (example_eb_ok 3 (or_intror eq_refl))
    ltac:(unfold apart; cbn; lia) ltac:(lia)) as (m & b & E & Hc & _).
  exists m, b. split; [exact E|exact Hc].
Defined.
