(* ===== verification/LibcString.v ===== *)
(** * libc/string: memutils.c and strutils.c

    The C library's memory and string functions over the byte memory of
    [Memory].  Loops over a [size_t] count recurse on it; scans for a NUL byte
    take a fuel bound and return [None] when it runs out before the terminator,
    so a result with enough fuel is the function's result.  [char] is signed on
    i386: [memcmp] compares unsigned bytes, the string functions signed ones. *)

From stdpp Require Import base list.
From Stdlib Require Import ZArith Lia.
From S2P Require Import Prelude Memory KUtils.

(** ** memutils.c *)

Fixpoint memcmp_loop (n : nat) (m : mem) (a b : Z) : Z :=
  match n with
  | O => 0
  | S n' => if m a <? m b then -1 else if m b <? m a then 1 else memcmp_loop n' m (a + 1) (b + 1)
  end.

Definition memcmp (m : mem) (aptr bptr size : Z) : Z := memcmp_loop (Z.to_nat size) m aptr bptr.

(** [for (i = i; i < i + n; i++) dst[i] = src[i]]. *)
Fixpoint copy_up (n : nat) (i : Z) (m : mem) (dst src : Z) : mem :=
  match n with
  | O => m
  | S n' => copy_up n' (i + 1) (store8 m (dst + i) (m (src + i))) dst src
  end.

(** [for (i = n; i != 0; i--) dst[i-1] = src[i-1]]. *)
Fixpoint copy_down (n : nat) (m : mem) (dst src : Z) : mem :=
  match n with
  | O => m
  | S n' => copy_down n' (store8 m (dst + Z.of_nat n') (m (src + Z.of_nat n'))) dst src
  end.

Definition memcpy (m : mem) (dst src size : Z) : mem := copy_up (Z.to_nat size) 0 m dst src.

Definition memmove (m : mem) (dst src size : Z) : mem :=
  if dst <? src then copy_up (Z.to_nat size) 0 m dst src else copy_down (Z.to_nat size) m dst src.

Fixpoint memset_loop (n : nat) (i : Z) (m : mem) (buf value : Z) : mem :=
  match n with
  | O => m
  | S n' => memset_loop n' (i + 1) (store8 m (buf + i) (u8 value)) buf value
  end.

Definition memset (m : mem) (buf value size : Z) : mem := memset_loop (Z.to_nat size) 0 m buf value.

(** The byte is compared with the whole [int]. *)
Fixpoint memchr_loop (n : nat) (i : Z) (m : mem) (p value : Z) : option Z :=
  match n with
  | O => None
  | S n' => if m (p + i) =? value then Some (p + i) else memchr_loop n' (i + 1) m p value
  end.

Definition memchr (m : mem) (p value num : Z) : option Z := memchr_loop (Z.to_nat num) 0 m p value.

(** ** strutils.c *)

Fixpoint strlen_loop (fuel : nat) (m : mem) (str len : Z) : option Z :=
  match fuel with
  | O => None
  | S fuel' => if m (str + len) =? 0 then Some len else strlen_loop fuel' m str (len + 1)
  end.

Definition strlen (fuel : nat) (m : mem) (str : Z) : option Z := strlen_loop fuel m str 0.

(** [Some None] is a NULL result. *)
Fixpoint strchr (fuel : nat) (m : mem) (str chr : Z) : option (option Z) :=
  match fuel with
  | O => None
  | S fuel' =>
      if m str =? 0 then Some None
      else if s8 (m str) =? chr then Some (Some str)
      else strchr fuel' m (str + 1) chr
  end.

(** Copies up to [num] characters and always terminates the copy. *)
Fixpoint strncpy_loop (num : nat) (m : mem) (ptr from : Z) : mem :=
  match num with
  | O => store8 m ptr 0
  | S num' =>
      if m from =? 0 then store8 m ptr 0
      else strncpy_loop num' (store8 m ptr (m from)) (ptr + 1) (from + 1)
  end.

Definition strncpy (m : mem) (to from num : Z) : mem := strncpy_loop (Z.to_nat num) m to from.

Definition strcpy (fuel : nat) (m : mem) (to from : Z) : option mem :=
  len ← strlen fuel m from; Some (strncpy m to from len).

Definition strcat (fuel : nat) (m : mem) (to from : Z) : option mem :=
  len ← strlen fuel m to; strcpy fuel m (to + len) from.

Fixpoint strncmp_loop (n : nat) (m : mem) (s1 s2 : Z) : Z :=
  match n with
  | O => 0
  | S n' =>
      if s8 (m s1) <? s8 (m s2) then -1
      else if s8 (m s1) >? s8 (m s2) then 1
      else strncmp_loop n' m (s1 + 1) (s2 + 1)
  end.

Definition strncmp (m : mem) (s1 s2 num : Z) : Z := strncmp_loop (Z.to_nat num) m s1 s2.

(** The loop of [strcmp] is that of [strncmp] over the common length. *)
Definition strcmp (fuel : nat) (m : mem) (s1 s2 : Z) : option Z :=
  s1_len ← strlen fuel m s1;
  s2_len ← strlen fuel m s2;
  if s1_len >? s2_len then Some 1
  else if s1_len <? s2_len then Some (-1)
  else Some (strncmp_loop (Z.to_nat s1_len) m s1 s2).

(** [for (i = 0; i < len1; i++)] of [strstr]. *)
Fixpoint strstr_loop (n : nat) (m : mem) (s1 s2 len1 len2 i : Z) : option Z :=
  match n with
  | O => None
  | S n' =>
      if u32 (len1 - i) <? len2 then None
      else if strncmp m (s1 + i) s2 len2 =? 0 then Some (s1 + i)
      else strstr_loop n' m s1 s2 len1 len2 (i + 1)
  end.

Definition strstr (fuel : nat) (m : mem) (s1 s2 : Z) : option (option Z) :=
  if (s1 =? 0) || (s2 =? 0) then Some None else
  len1 ← strlen fuel m s1;
  len2 ← strlen fuel m s2;
  if len2 =? 0 then Some (Some s1)
  else if len1 <? len2 then Some None
  else Some (strstr_loop (Z.to_nat len1) m s1 s2 len1 len2 0).

(** ** Lemmas *)

Lemma copy_up_spec n : ∀ i m dst src a,
  byte_mem m → (dst ≤ src ∨ src + Z.of_nat n ≤ dst) →
  copy_up n i m dst src a =
  if (dst + i <=? a) && (a <? dst + i + Z.of_nat n) then m (src + (a - dst)) else m a.
Proof.
  induction n as [|n IH]; intros i m dst src a Hm Hd; cbn [copy_up].
  - destruct (Z.leb_spec (dst + i) a), (Z.ltb_spec a (dst + i + Z.of_nat 0)); cbn; done || lia.
  - rewrite IH by (auto with mem || lia).
    destruct (Z.eq_dec a (dst + i)) as [->|Ha].
    + rewrite store8_eq, u8_small by apply Hm.
      destruct (Z.leb_spec (dst + (i + 1)) (dst + i)), (Z.leb_spec (dst + i) (dst + i)),
        (Z.ltb_spec (dst + i) (dst + i + Z.of_nat (S n))); cbn; try lia. f_equal. lia.
    + rewrite (store8_ne _ _ _ a) by done.
      destruct (Z.leb_spec (dst + (i + 1)) a), (Z.ltb_spec a (dst + (i + 1) + Z.of_nat n)),
        (Z.leb_spec (dst + i) a), (Z.ltb_spec a (dst + i + Z.of_nat (S n))); cbn; try done; try lia.
      apply store8_ne. lia.
Qed.

(** [memcpy] between disjoint ranges. *)
Lemma memcpy_in m dst src n i :
  byte_mem m → (dst + n ≤ src ∨ src + n ≤ dst) → 0 ≤ i < n → memcpy m dst src n (dst + i) = m (src + i).
Proof.
  intros Hm Hd Hi. unfold memcpy. rewrite copy_up_spec by (done || lia).
  rewrite (proj2 (Z.leb_le _ _)), (proj2 (Z.ltb_lt _ _)) by lia. cbn. f_equal. lia.
Qed.

Lemma memcpy_out m dst src n a :
  byte_mem m → (dst + n ≤ src ∨ src + n ≤ dst) → 0 ≤ n → (a < dst ∨ dst + n ≤ a) → memcpy m dst src n a = m a.
Proof.
  intros Hm Hd Hn Ha. unfold memcpy. rewrite copy_up_spec by (done || lia).
  destruct (Z.leb_spec (dst + 0) a), (Z.ltb_spec a (dst + 0 + Z.of_nat (Z.to_nat n))); cbn; done || lia.
Qed.

Lemma copy_up_byte n : ∀ i m dst src, byte_mem m → byte_mem (copy_up n i m dst src).
Proof. induction n as [|n IH]; intros i m dst src Hm; cbn; [done|]. apply IH. auto with mem. Qed.

(** The first position of a byte. *)
Lemma memchr_loop_spec n : ∀ i m p v,
  match memchr_loop n i m p v with
  | Some a => ∃ j : nat, (j < n)%nat ∧ a = p + i + Z.of_nat j ∧ m a = v ∧
                         ∀ k : nat, (k < j)%nat → m (p + i + Z.of_nat k) ≠ v
  | None => ∀ k : nat, (k < n)%nat → m (p + i + Z.of_nat k) ≠ v
  end.
Proof.
  induction n as [|n IH]; intros i m p v; cbn [memchr_loop]; [lia|].
  destruct (Z.eqb_spec (m (p + i)) v) as [E|E].
  - exists O. rewrite Z.add_0_r. split; [lia|]. split; [done|]. split; [done|lia].
  - specialize (IH (i + 1) m p v). destruct (memchr_loop n (i + 1) m p v) as [a|].
    + destruct IH as (j & H1 & H2 & H3 & H4). exists (S j). split; [lia|]. split; [lia|]. split; [done|].
      intros [|k] Hk; [by rewrite Z.add_0_r|]. replace (p + i + Z.of_nat (S k)) with (p + (i + 1) + Z.of_nat k) by lia.
      apply H4. lia.
    + intros [|k] Hk; [by rewrite Z.add_0_r|]. replace (p + i + Z.of_nat (S k)) with (p + (i + 1) + Z.of_nat k) by lia.
      apply IH. lia.
Qed.

Lemma copy_down_spec n : ∀ m dst src a,
  byte_mem m → src ≤ dst →
  copy_down n m dst src a =
  if (dst <=? a) && (a <? dst + Z.of_nat n) then m (src + (a - dst)) else m a.
Proof.
  induction n as [|n IH]; intros m dst src a Hm Hd; cbn [copy_down].
  - destruct (Z.leb_spec dst a), (Z.ltb_spec a (dst + Z.of_nat 0)); cbn; done || lia.
  - rewrite IH by (auto with mem).
    destruct (Z.eq_dec a (dst + Z.of_nat n)) as [->|Ha].
    + rewrite store8_eq, u8_small by apply Hm.
      destruct (Z.leb_spec dst (dst + Z.of_nat n)), (Z.ltb_spec (dst + Z.of_nat n) (dst + Z.of_nat n)),
        (Z.ltb_spec (dst + Z.of_nat n) (dst + Z.of_nat (S n))); cbn; try lia. f_equal. lia.
    + rewrite (store8_ne _ _ _ a) by done.
      destruct (Z.leb_spec dst a), (Z.ltb_spec a (dst + Z.of_nat n)),
        (Z.ltb_spec a (dst + Z.of_nat (S n))); cbn; try done; try lia.
      apply store8_ne. lia.
Qed.

Lemma strlen_loop_spec fuel m p acc : ∀ s,
  cstring m (p + acc) s → (length s < fuel)%nat →
  strlen_loop fuel m p acc = Some (acc + Z.of_nat (length s)).
Proof.
  revert acc. induction fuel as [|fuel IH]; intros acc s Hs Hf; [lia|]. cbn [strlen_loop].
  destruct s as [|c s].
  - rewrite (cstring_nil _ _ Hs). cbn. f_equal. lia.
  - destruct (cstring_cons _ _ _ _ Hs) as (-> & Hc & Ht). rewrite (proj2 (Z.eqb_neq c 0) Hc).
    rewrite (IH (acc + 1) s); [cbn [length]; f_equal; lia| |cbn in Hf; lia].
    by rewrite Z.add_assoc.
Qed.

Lemma strlen_cstring fuel m p s :
  cstring m p s → (length s < fuel)%nat → strlen fuel m p = Some (Z.of_nat (length s)).
Proof.
  intros H Hf. unfold strlen. rewrite (strlen_loop_spec fuel m p 0 s); [done|by rewrite Z.add_0_r|done].
Qed.

Lemma s8_inj a b : 0 ≤ a < 2 ^ 8 → 0 ≤ b < 2 ^ 8 → s8 a = s8 b → a = b.
Proof.
  intros Ha Hb. unfold s8. rewrite !u8_small by done.
  destruct (Z.ltb_spec a (2 ^ 7)), (Z.ltb_spec b (2 ^ 7)); lia.
Qed.

(** A result of 0 means equal bytes, as with any comparison of signed characters. *)
Lemma strncmp_zero n m s1 s2 :
  byte_mem m → strncmp_loop n m s1 s2 = 0 ↔ read_bytes m s1 n = read_bytes m s2 n.
Proof.
  intros Hm. revert s1 s2. induction n as [|n IH]; intros s1 s2; cbn [strncmp_loop read_bytes]; [done|].
  rewrite Z.gtb_ltb.
  destruct (Z.ltb_spec (s8 (m s1)) (s8 (m s2))); [split; [done|intros [= E _]; rewrite E in *; lia]|].
  destruct (Z.ltb_spec (s8 (m s2)) (s8 (m s1))); [split; [done|intros [= E _]; rewrite E in *; lia]|].
  assert (E : m s1 = m s2) by (apply s8_inj; [apply Hm|apply Hm|lia]).
  rewrite IH, E. split; [by intros ->|by intros [= ->]].
Qed.

Lemma cstring_drop m p s i :
  cstring m p s → (i ≤ length s)%nat → cstring m (p + Z.of_nat i) (drop i s).
Proof.
  revert p s. induction i as [|i IH]; intros p s Hs Hi; [by rewrite Z.add_0_r|].
  destruct s as [|c s]; [cbn in Hi; lia|]. destruct (cstring_cons _ _ _ _ Hs) as (_ & _ & Ht).
  replace (p + Z.of_nat (S i)) with (p + 1 + Z.of_nat i) by lia. apply IH; [done|cbn in Hi; lia].
Qed.

Lemma cstring_prefix m p s n :
  cstring m p s → (n ≤ length s)%nat → read_bytes m p n = take n s.
Proof.
  intros (H & _) Hn. rewrite <- H at 1.
  replace (length s) with (n + (length s - n))%nat by lia.
  rewrite read_bytes_app, take_app_length' by (by rewrite length_read_bytes). done.
Qed.

(** Comparing a string with the text at a position. *)
Lemma strncmp_at m p q s t i :
  byte_mem m → cstring m p s → cstring m q t → (i + length t ≤ length s)%nat →
  strncmp m (p + Z.of_nat i) q (Z.of_nat (length t)) = 0 ↔ t `prefix_of` drop i s.
Proof.
  intros Hm Hs Ht Hi. unfold strncmp. rewrite Nat2Z.id, strncmp_zero by done.
  rewrite (cstring_prefix _ _ _ _ (cstring_drop _ _ _ i Hs ltac:(lia))) by (rewrite length_drop; lia).
  destruct Ht as (-> & _). split.
  - intros <-. by apply prefix_take.
  - intros [k ->]. by rewrite take_app_length.
Qed.

(** The loop finds the first match from position [i] on. *)
Lemma strstr_loop_spec m p q s t n : ∀ i,
  byte_mem m → cstring m p s → cstring m q t → t ≠ [] → Z.of_nat (length s) < 2 ^ 32 →
  (i + n = length s)%nat →
  match strstr_loop n m p q (Z.of_nat (length s)) (Z.of_nat (length t)) (Z.of_nat i) with
  | Some r => ∃ j, (i ≤ j)%nat ∧ r = p + Z.of_nat j ∧ t `prefix_of` drop j s ∧
                   ∀ k, (i ≤ k < j)%nat → ¬ t `prefix_of` drop k s
  | None => ∀ k, (i ≤ k)%nat → ¬ t `prefix_of` drop k s
  end.
Proof.
  induction n as [|n IH]; intros i Hm Hs Ht Hne Hl Hi; cbn [strstr_loop].
  - intros k Hk Hp. rewrite drop_ge in Hp by lia. by apply prefix_nil_inv in Hp.
  - rewrite u32_small by lia.
    destruct (Z.ltb_spec (Z.of_nat (length s) - Z.of_nat i) (Z.of_nat (length t))) as [L|L].
    { intros k Hk Hp. apply prefix_length in Hp. rewrite length_drop in Hp. lia. }
    pose proof (strncmp_at m p q s t i Hm Hs Ht ltac:(lia)) as Hc.
    destruct (Z.eqb_spec (strncmp m (p + Z.of_nat i) q (Z.of_nat (length t))) 0) as [E|E].
    + exists i. split; [done|]. split; [done|]. split; [by apply Hc|]. intros k Hk. lia.
    + replace (Z.of_nat i + 1) with (Z.of_nat (S i)) by lia.
      specialize (IH (S i) Hm Hs Ht Hne Hl ltac:(lia)).
      assert (Hi' : ¬ t `prefix_of` drop i s) by tauto.
      destruct (strstr_loop n m p q _ _ _) as [r|].
      * destruct IH as (j & H1 & H2 & H3 & H4). exists j. split; [lia|]. split; [done|]. split; [done|].
        intros k Hk. destruct (decide (k = i)) as [->|]; [done|]. apply H4. lia.
      * intros k Hk. destruct (decide (k = i)) as [->|]; [done|]. apply IH. lia.
Qed.

(** Copying a string terminates the copy. *)
Lemma strncpy_loop_spec num : ∀ m to from s,
  byte_mem m → cstring m from s → (to + Z.of_nat (length s) < from ∨ from + Z.of_nat (length s) < to) →
  (length s ≤ num)%nat →
  cstring (strncpy_loop num m to from) to s ∧
  ∀ a, (a < to ∨ to + Z.of_nat (length s) < a) → strncpy_loop num m to from a = m a.
Proof.
  induction num as [|num IH]; intros m to from s Hm Hs Hd Hn.
  - destruct s; [|cbn in Hn; lia]. cbn. split; [|intros a Ha; apply store8_ne; lia].
    split; [done|]. split; [by rewrite Z.add_0_r, store8_eq|constructor].
  - cbn [strncpy_loop]. destruct s as [|c s].
    + rewrite (cstring_nil _ _ Hs). cbn. split; [|intros a Ha; apply store8_ne; lia].
      split; [done|]. split; [by rewrite Z.add_0_r, store8_eq|constructor].
    + destruct (cstring_cons _ _ _ _ Hs) as (Hc & Hc0 & Ht). rewrite Hc, (proj2 (Z.eqb_neq c 0) Hc0).
      cbn [length] in *.
      assert (Hc8 : 0 ≤ c < 2 ^ 8) by (rewrite <- Hc; apply Hm).
      destruct (IH (store8 m to c) (to + 1) (from + 1) s) as [[G1 [G2 G3]] Hf]; [auto with mem| |lia|lia|].
      { destruct Ht as (T1 & T2 & T3). split; [|split; [|done]].
        - rewrite <- T1 at 2. apply read_bytes_ext. intros a Ha. apply store8_ne. lia.
        - rewrite <- T2. apply store8_ne. lia. }
      assert (E : strncpy_loop num (store8 m to c) (to + 1) (from + 1) to = c).
      { rewrite Hf by lia. by rewrite store8_eq, u8_small. }
      split.
      * split; [|split; [|by constructor]].
        -- cbn [length read_bytes]. by rewrite E, G1.
        -- cbn [length]. rewrite <- G2. f_equal. lia.
      * intros a Ha. rewrite Hf by lia. apply store8_ne. lia.
Qed.

(** ** Properties *)

(** [memmove] is the simultaneous copy, also between overlapping ranges: memory
    afterwards is that obtained by reading all the source bytes first and writing
    them to the destination then. *)
Theorem memmove_simultaneous m dst src n :
  byte_mem m →
  ∀ a, memmove m dst src (Z.of_nat n) a = write_bytes m dst (read_bytes m src n) a.
Proof.
  intros Hm a. unfold memmove. rewrite Nat2Z.id.
  assert (E : (if dst <? src then copy_up n 0 m dst src else copy_down n m dst src) a =
    if (dst <=? a) && (a <? dst + Z.of_nat n) then m (src + (a - dst)) else m a).
  { destruct (Z.ltb_spec dst src); [rewrite copy_up_spec, Z.add_0_r by (done || lia); done|].
    by apply copy_down_spec. }
  rewrite E. destruct (Z.leb_spec dst a), (Z.ltb_spec a (dst + Z.of_nat n)); cbn [andb].
  - replace a with (dst + Z.of_nat (Z.to_nat (a - dst))) at 2 by lia.
    erewrite write_bytes_lookup; [|apply read_bytes_lookup; lia].
    rewrite u8_small by apply Hm. f_equal. lia.
  - rewrite write_bytes_frame; [done|]. rewrite length_read_bytes. lia.
  - rewrite write_bytes_frame; [done|]. lia.
  - rewrite write_bytes_frame; [done|]. lia.
Qed.

Definition libc_example_mem : mem :=
  write_bytes (write_bytes (fun _ => 0) 100 [97; 98; 97; 98; 97; 99]) 200 [97; 98; 97; 99].

Lemma libc_example_byte : byte_mem libc_example_mem.
Proof. apply byte_mem_write, byte_mem_write. intros a. lia. Qed.

Lemma memmove_simultaneous_witness :
  read_bytes (memmove libc_example_mem 102 100 4) 100 6 = [97; 98; 97; 98; 97; 98].
Proof.
  rewrite (read_bytes_ext _ _ _ _ (fun a _ => memmove_simultaneous libc_example_mem 102 100 4
    libc_example_byte a)).
  reflexivity.
Defined.

(** [strstr] on two C strings returns (it terminates) the address of the first
    occurrence of the second string in the first, and NULL exactly when there is
    none. *)
Theorem strstr_first fuel m p q s t :
  byte_mem m → cstring m p s → cstring m q t → p ≠ 0 → q ≠ 0 →
  Z.of_nat (length s) < 2 ^ 32 → (length s < fuel)%nat → (length t < fuel)%nat →
  ∃ r, strstr fuel m p q = Some r ∧
    match r with
    | Some a => ∃ j, a = p + Z.of_nat j ∧ t `prefix_of` drop j s ∧
                     ∀ k, (k < j)%nat → ¬ t `prefix_of` drop k s
    | None => ∀ k, ¬ t `prefix_of` drop k s
    end.
Proof.
  intros Hm Hs Ht Hp Hq Hl Hf1 Hf2. unfold strstr.
  rewrite (proj2 (Z.eqb_neq p 0) Hp), (proj2 (Z.eqb_neq q 0) Hq). cbn [orb].
  rewrite (strlen_cstring _ _ p s), (strlen_cstring _ _ q t) by done. cbn [mbind option_bind].
  destruct (Z.eqb_spec (Z.of_nat (length t)) 0) as [E|E].
  { exists (Some p). split; [done|]. exists O. split; [by rewrite Z.add_0_r|].
    destruct t as [|b t]; [|cbn in E; lia]. split; [apply prefix_nil|lia]. }
  destruct (Z.ltb_spec (Z.of_nat (length s)) (Z.of_nat (length t))) as [L|L].
  { exists None. split; [done|]. intros k Hk. apply prefix_length in Hk. rewrite length_drop in Hk. lia. }
  eexists. split; [reflexivity|]. rewrite Nat2Z.id.
  pose proof (strstr_loop_spec m p q s t (length s) 0 Hm Hs Ht ltac:(intros ->; done) Hl eq_refl) as H.
  change (Z.of_nat 0) with 0 in H.
  destruct (strstr_loop (length s) m p q _ _ 0) as [r|].
  - destruct H as (j & _ & H1 & H2 & H3). exists j. split; [done|]. split; [done|].
    intros k Hk. apply H3. lia.
  - intros k. apply H. lia.
Qed.

Lemma strstr_first_witness :
  ∃ r, strstr 7 libc_example_mem 100 200 = Some r ∧ r = Some 102.
Proof.
  destruct (strstr_first 7 libc_example_mem 100 200 [97; 98; 97; 98; 97; 99] [97; 98; 97; 99]
    libc_example_byte ltac:(repeat constructor; lia) ltac:(repeat constructor; lia)
    ltac:(lia) ltac:(lia) ltac:(reflexivity) ltac:(cbn; lia) ltac:(cbn; lia)) as (r & E & _).
  exists r. split; [exact E|]. vm_compute in E. congruence.
Defined.

(** [strcmp] returns 0 exactly on equal strings; otherwise the shorter string comes
    first, so its order is not the lexicographic one. *)
Lemma strcmp_zero fuel m p q s t :
  byte_mem m → cstring m p s → cstring m q t → (length s < fuel)%nat → (length t < fuel)%nat →
  ∃ r, strcmp fuel m p q = Some r ∧ (r = 0 ↔ s = t) ∧
       ((length s < length t)%nat → r = -1) ∧ ((length t < length s)%nat → r = 1).
Proof.
  intros Hm Hs Ht Hf1 Hf2. unfold strcmp.
  rewrite (strlen_cstring _ _ p s), (strlen_cstring _ _ q t) by done. cbn [mbind option_bind].
  rewrite Z.gtb_ltb.
  destruct (Z.ltb_spec (Z.of_nat (length t)) (Z.of_nat (length s))).
  { exists 1. split; [done|]. split; [split; [done|intros ->; lia]|]. lia. }
  destruct (Z.ltb_spec (Z.of_nat (length s)) (Z.of_nat (length t))).
  { exists (-1). split; [done|]. split; [split; [done|intros ->; lia]|]. lia. }
  eexists. split; [reflexivity|]. split; [|lia]. rewrite Nat2Z.id, strncmp_zero by done.
  destruct Hs as (-> & _). replace (length s) with (length t) by lia. by destruct Ht as (-> & _).
Qed.

(** [strcat] appends: the destination afterwards holds the first string followed
    by the second, terminated, and nothing outside it changes. *)
Theorem strcat_appends fuel m p q s t :
  byte_mem m → cstring m p s → cstring m q t →
  (p + Z.of_nat (length s) + Z.of_nat (length t) < q ∨ q + Z.of_nat (length t) < p) →
  (length s < fuel)%nat → (length t < fuel)%nat →
  ∃ m', strcat fuel m p q = Some m' ∧ cstring m' p (s ++ t) ∧
    ∀ a, (a < p ∨ p + Z.of_nat (length s) + Z.of_nat (length t) < a) → m' a = m a.
Proof.
  intros Hm Hs Ht Hd Hf1 Hf2. unfold strcat, strcpy, strncpy.
  rewrite (strlen_cstring _ _ p s), (strlen_cstring _ _ q t) by done. cbn [mbind option_bind].
  rewrite Nat2Z.id. eexists. split; [reflexivity|].
  destruct (strncpy_loop_spec (length t) m (p + Z.of_nat (length s)) q t Hm Ht ltac:(lia) ltac:(lia))
    as [(G1 & G2 & G3) Hf].
  destruct Hs as (S1 & S2 & S3). split.
  - split; [|split].
    + rewrite length_app, read_bytes_app, G1. f_equal. etransitivity; [|exact S1].
      apply read_bytes_ext. intros a Ha. apply Hf. lia.
    + rewrite <- G2. f_equal. rewrite length_app. lia.
    + by apply Forall_app.
  - intros a Ha. apply Hf. lia.
Qed.

Lemma strcat_appends_witness :
  ∃ m', strcat 9 libc_example_mem 100 200 = Some m' ∧
        cstring m' 100 ([97; 98; 97; 98; 97; 99] ++ [97; 98; 97; 99]).
Proof.
  destruct (strcat_appends 9 libc_example_mem 100 200 [97; 98; 97; 98; 97; 99] [97; 98; 97; 99]
    libc_example_byte ltac:(repeat constructor; lia) ltac:(repeat constructor; lia)
    ltac:(cbn; lia) ltac:(cbn; lia) ltac:(cbn; lia)) as (m' & E & Hc & _).
  exists m'. split; [exact E|exact Hc].
Defined.
