(* ===== verification/LibcConvert.v ===== *)
(** * libc/stdlib/convert.c: numbers and their texts

    [itoa] and [unsigned_itoa] write the digits of a number backwards from [str]
    on and reverse them in place; [strtol] and [atoi] read a number back.  The
    kernel's printf.c has the same two conversions without the assertions, so
    their loops are shared here.  [value] loses a factor of at least two in every
    iteration, so 32 iterations are enough for a 32-bit number in any base from 2
    on; in base 1 the loop does not end. *)

From stdpp Require Import base list strings.
From Stdlib Require Import ZArith Lia.
From S2P Require Import Prelude Memory KUtils LibcString.

Definition numcodes32 : list Z :=
  chars "zyxwvutsrqponmlkjihgfedcba9876543210123456789abcdefghijklmnopqrstuvwxyz".

Definition numcodes16 : list Z := chars "0123456789abcdef".

Definition MINUS : Z := 45.
Definition PLUS : Z := 43.

(** [numcodes32[35 + d]]. *)
Definition numcode (d : Z) : Z := nth (Z.to_nat (35 + d)) numcodes32 0.

(** ** abs *)

(** [n >> 31] is 0 or -1. *)
Definition abs (n : Z) : Z :=
  let mask := Z.shiftr n 31 in s32 (Z.lxor (s32 (n + mask)) mask).

(** ** Writing *)

Definition put (a v : Z) : M mem unit := modify (fun m => store8 m a v).

(** The [do ... while (value)] loop of [unsigned_itoa]; the end of the digits. *)
Fixpoint unsigned_digits (fuel : nat) (value ptr base : Z) : M mem Z :=
  match fuel with
  | O => hang
  | S fuel' =>
      let tmp_value := value in
      let value := tmp_value / base in
      put ptr (numcode (u32 (tmp_value - u32 (value * base)))) ;;;
      if value =? 0 then ret (ptr + 1) else unsigned_digits fuel' value (ptr + 1) base
  end.

(** The same loop of [itoa], on signed numbers; the end of the digits and the last
    [tmp_value]. *)
Fixpoint signed_digits (fuel : nat) (value ptr base : Z) : M mem (Z * Z) :=
  match fuel with
  | O => hang
  | S fuel' =>
      let tmp_value := value in
      let value := Z.quot tmp_value base in
      put ptr (numcode (s32 (tmp_value - s32 (value * base)))) ;;;
      if value =? 0 then ret (ptr + 1, tmp_value) else signed_digits fuel' value (ptr + 1) base
  end.

(** [while (ptr1 < ptr)] swaps the two ends; [n] is at least [ptr - ptr1]. *)
Fixpoint reverse_loop (n : nat) (ptr1 ptr : Z) (m : mem) : mem :=
  match n with
  | O => m
  | S n' =>
      if ptr1 <? ptr then
        let tmp_char := m ptr in
        reverse_loop n' (ptr1 + 1) (ptr - 1) (store8 (store8 m ptr (m ptr1)) ptr1 tmp_char)
      else m
  end.

Definition reverse (ptr1 ptr : Z) : M mem unit :=
  modify (reverse_loop (Z.to_nat (ptr - ptr1)) ptr1 ptr).

(** The body of [unsigned_itoa], shared with the kernel's printf.c. *)
Definition unsigned_itoa_body (value str base : Z) : M mem Z :=
  if base =? 0 then kpanic "divide error" else
  ptr <- unsigned_digits 32 value str base ;;
  put ptr 0 ;;;
  reverse str (ptr - 1) ;;;
  ret str.

(** The decimal branch of [itoa], shared with the kernel's printf.c. *)
Definition itoa_body (value str base : Z) : M mem Z :=
  r <- signed_digits 32 value str base ;;
  let '(ptr, tmp_value) := r in
  when (tmp_value <? 0) (put ptr MINUS) ;;;
  let ptr := if tmp_value <? 0 then ptr + 1 else ptr in
  put ptr 0 ;;;
  reverse str (ptr - 1) ;;;
  ret str.

Definition libc_assert (b : bool) : M mem unit := kassert "assertion failed" b.

Definition unsigned_itoa (value str base : Z) : M mem Z :=
  libc_assert ((base >=? 2) && (base <=? 32)) ;;;
  unsigned_itoa_body value str base.

Definition itoa (value str base : Z) : M mem Z :=
  libc_assert ((base >=? 2) && (base <=? 32)) ;;;
  if negb (base =? 10) then unsigned_itoa (u32 value) str base else itoa_body value str base.

(** ** Reading *)

(** [strchr(numcodes16, c) - numcodes16]. *)
Fixpoint index_of (c : Z) (l : list Z) (i : Z) : option Z :=
  match l with
  | [] => None
  | x :: l' => if s8 x =? c then Some i else index_of c l' (i + 1)
  end.

Definition is_space (c : Z) : bool := (c =? 32) || (c =? 9) || (c =? 10).

Fixpoint skip_spaces (fuel : nat) (m : mem) (str : Z) : option Z :=
  match fuel with
  | O => None
  | S fuel' => if is_space (m str) then skip_spaces fuel' m (str + 1) else Some str
  end.

(** [for (i = 0; i < n; i++) value *= base]. *)
Fixpoint scale (n : nat) (value base : Z) : Z :=
  match n with
  | O => value
  | S n' => scale n' (s32 (value * base)) base
  end.

Fixpoint strtol_loop (fuel : nat) (m : mem) (str value base number : Z) : option Z :=
  match fuel with
  | O => None
  | S fuel' =>
      if m str =? 0 then Some number else
      match index_of (s8 (m str)) numcodes16 0 with
      | None => Some number
      | Some d => strtol_loop fuel' m (str + 1) (Z.quot value base) base (s32 (number + s32 (d * value)))
      end
  end.

(** What follows the sign. *)
Definition strtol_digits (fuel : nat) (m : mem) (str base sign : Z) : option Z :=
  len ← strlen fuel m str;
  number ← strtol_loop fuel m str (scale (Z.to_nat (u32 (len - 1))) 1 base) base 0;
  Some (s32 (number * sign)).

(** [endptr] is NULL.  [None]: an assertion failed, or the fuel ran out. *)
Definition strtol (fuel : nat) (m : mem) (str base : Z) : option Z :=
  if negb ((base >=? 2) && (base <=? 16)) then None else
  str ← skip_spaces fuel m str;
  if m str =? 0 then Some 0
  else if m str =? MINUS then strtol_digits fuel m (str + 1) base (-1)
  else if m str =? PLUS then strtol_digits fuel m (str + 1) base 1
  else strtol_digits fuel m str base 1.

Definition atoi (fuel : nat) (m : mem) (str : Z) : option Z := strtol fuel m str 10.

(** ** The texts of numbers *)

(** The digits of [v], least significant first. *)
Fixpoint digits_rev (fuel : nat) (base v : Z) : list Z :=
  match fuel with
  | O => []
  | S fuel' => v mod base :: (if v / base =? 0 then [] else digits_rev fuel' base (v / base))
  end.

Definition digits (base v : Z) : list Z := rev (digits_rev 32 base v).

Definition utext (base v : Z) : list Z := map numcode (digits base v).

(** The decimal text of a signed number. *)
Definition itext (v : Z) : list Z :=
  if v <? 0 then MINUS :: utext 10 (- v) else utext 10 v.

(** The value of digits, most significant first. *)
Definition from_digits (base : Z) (l : list Z) : Z := foldl (fun acc d => acc * base + d) 0 l.

(** ** Lemmas on digits *)

Definition is_digit (base d : Z) : Prop := 0 ≤ d < base.

Lemma digits_rev_range fuel base v : 2 ≤ base → 0 ≤ v → Forall (is_digit base) (digits_rev fuel base v).
Proof.
  intros Hb. revert v. induction fuel as [|fuel IH]; intros v Hv; [constructor|]. cbn [digits_rev].
  constructor; [apply Z.mod_pos_bound; lia|].
  destruct (v / base =? 0); [constructor|]. apply IH. apply Z.div_pos; lia.
Qed.

Lemma div_shrinks fuel base v :
  2 ≤ base → 0 ≤ v < 2 ^ Z.of_nat (S fuel) → 0 ≤ v / base < 2 ^ Z.of_nat fuel.
Proof.
  intros Hb Hv. rewrite Nat2Z.inj_succ, Z.pow_succ_r in Hv by lia. split; [apply Z.div_pos; lia|].
  apply Z.div_lt_upper_bound; [lia|]. pose proof (Z.pow_pos_nonneg 2 (Z.of_nat fuel)). nia.
Qed.

Lemma div_le_self base v : 2 ≤ base → 0 ≤ v → v / base ≤ v.
Proof. intros Hb Hv. apply Z.div_le_upper_bound; [lia|]. nia. Qed.

Lemma from_digits_snoc base l d : from_digits base (l ++ [d]) = from_digits base l * base + d.
Proof. unfold from_digits. by rewrite foldl_app. Qed.

Lemma from_digits_rev fuel base v :
  2 ≤ base → 0 ≤ v < 2 ^ Z.of_nat fuel → from_digits base (rev (digits_rev fuel base v)) = v.
Proof.
  intros Hb. revert v. induction fuel as [|fuel IH]; intros v Hv; [cbn; lia|].
  cbn [digits_rev rev]. rewrite from_digits_snoc.
  pose proof (div_shrinks fuel base v Hb Hv) as Hd. pose proof (Z.div_mod v base ltac:(lia)).
  destruct (Z.eqb_spec (v / base) 0) as [E|E]; [cbn; lia|]. rewrite IH by done. lia.
Qed.

(** The text of a number has the number's value. *)
Lemma from_digits_digits base v :
  2 ≤ base → 0 ≤ v < 2 ^ 32 → from_digits base (digits base v) = v.
Proof. intros Hb Hv. by apply from_digits_rev. Qed.

Lemma digits_rev_bound fuel base v : (length (digits_rev fuel base v) ≤ fuel)%nat.
Proof.
  revert v. induction fuel as [|fuel IH]; intros v; [done|]. cbn [digits_rev length].
  destruct (v / base =? 0); [cbn; lia|]. specialize (IH (v / base)). lia.
Qed.

Lemma digits_length fuel base v :
  2 ≤ base → 0 ≤ v < 2 ^ Z.of_nat fuel → v = 0 ∨ base ^ (Z.of_nat (length (digits_rev fuel base v)) - 1) ≤ v.
Proof.
  intros Hb. revert v. induction fuel as [|fuel IH]; intros v Hv; [cbn in Hv; lia|].
  destruct (Z.eq_dec v 0) as [->|H0]; [by left|]. right. cbn [digits_rev].
  pose proof (div_shrinks fuel base v Hb Hv) as Hd. pose proof (Z.div_mod v base ltac:(lia)).
  pose proof (Z.mod_pos_bound v base ltac:(lia)).
  destruct (Z.eqb_spec (v / base) 0) as [E|E]; [cbn; lia|].
  destruct (IH (v / base) Hd) as [?|G]; [done|]. cbn [length].
  destruct (length (digits_rev fuel base (v / base))) as [|n] eqn:En.
  - destruct fuel; [cbn in *; lia|done].
  - replace (Z.of_nat (S (S n)) - 1) with (Z.succ (Z.of_nat (S n) - 1)) by lia.
    rewrite Z.pow_succ_r by lia. nia.
Qed.

Lemma numcode_all (f : Z → Z → bool) n :
  forallb (fun d => f d (numcode d)) (seqZ (-35) n) = true →
  ∀ d, -35 ≤ d < -35 + n → f d (numcode d) = true.
Proof.
  intros H d Hd. rewrite forallb_forall in H. apply H. apply list_elem_of_In, elem_of_seqZ. lia.
Qed.

Lemma numcode_range d : -35 ≤ d ≤ 35 → 0 < numcode d < 2 ^ 7.
Proof.
  intros Hd. pose proof (numcode_all (fun _ c => (0 <? c) && (c <? 2 ^ 7)) 71 eq_refl d ltac:(lia)) as H. cbv beta in H. zbool. lia.
Qed.

(** The table is symmetric: a negative remainder gives the same digit. *)
Lemma numcode_sym d : -35 ≤ d ≤ 35 → numcode d = numcode (- d).
Proof.
  intros Hd. pose proof (numcode_all (fun d c => c =? numcode (- d)) 71 eq_refl d ltac:(lia)) as H. cbv beta in H. zbool. lia.
Qed.

Lemma numcode_index d : 0 ≤ d < 16 → index_of (s8 (numcode d)) numcodes16 0 = Some d.
Proof.
  intros Hd.
  assert (H : forallb (fun d => bool_decide (index_of (s8 (numcode d)) numcodes16 0 = Some d)) (seqZ 0 16) = true)
    by reflexivity.
  assert (Hin : d ∈ seqZ 0 16) by (apply elem_of_seqZ; lia). apply list_elem_of_In in Hin.
  rewrite forallb_forall in H. specialize (H d Hin).
  by apply bool_decide_eq_true in H.
Qed.

Lemma numcode_not_sign d : 0 ≤ d < 36 → numcode d ≠ MINUS ∧ numcode d ≠ PLUS ∧ is_space (numcode d) = false.
Proof.
  intros Hd. pose proof (numcode_all (fun d c => (d <? 0) || (negb (c =? MINUS) && negb (c =? PLUS) && negb (is_space c)))
    71 eq_refl d ltac:(lia)) as H. cbv beta in H.
  apply orb_prop in H as [H|H]; zbool; [lia|]. done.
Qed.

Lemma Forall_numcode base l : base ≤ 36 → Forall (is_digit base) l → Forall (fun c => 0 < c < 2 ^ 7) (map numcode l).
Proof.
  intros Hb H. apply Forall_map. eapply Forall_impl; [exact H|]. intros d Hd. unfold is_digit in Hd.
  apply numcode_range. lia.
Qed.

(** ** Lemmas on writing *)

Lemma write_bytes_snoc m a l : ∀ b, write_bytes m a (l ++ [b]) = store8 (write_bytes m a l) (a + Z.of_nat (length l)) b.
Proof.
  revert m a. induction l as [|x l IH]; intros m a b; cbn [app write_bytes length]; [by rewrite Z.add_0_r|].
  rewrite IH. f_equal. lia.
Qed.

Lemma unsigned_digits_run fuel base : 2 ≤ base ≤ 32 → ∀ v ptr m,
  0 ≤ v < 2 ^ 32 → 0 ≤ v < 2 ^ Z.of_nat fuel → (0 < fuel)%nat →
  let l := map numcode (digits_rev fuel base v) in
  unsigned_digits fuel v ptr base m = Done (ptr + Z.of_nat (length l), write_bytes m ptr l).
Proof.
  intros Hb. induction fuel as [|fuel IH]; intros v ptr m Hv Hf H0 l; [lia|]. unfold l. clear l.
  cbn [unsigned_digits digits_rev map]. unfold put, bind, modify.
  pose proof (Z.div_mod v base ltac:(lia)). pose proof (Z.mod_pos_bound v base ltac:(lia)).
  pose proof (Z.div_pos v base ltac:(lia) ltac:(lia)).
  assert (E : u32 (v - u32 (v / base * base)) = v mod base).
  { rewrite (u32_small (v / base * base)) by lia. rewrite u32_small by lia. lia. }
  rewrite E. destruct (Z.eqb_spec (v / base) 0) as [E0|E0]; [done|].
  pose proof (div_shrinks fuel base v ltac:(lia) Hf). 
  rewrite IH; [|pose proof (div_le_self base v ltac:(lia) ltac:(lia)); lia|done|destruct fuel; [cbn in *; lia|lia]].
  cbn [length write_bytes]. do 2 f_equal. lia.
Qed.

Lemma quot_rem_abs v b : 0 < b → Z.abs (Z.quot v b) = Z.abs v / b ∧ Z.abs (v - Z.quot v b * b) = Z.abs v mod b.
Proof.
  intros Hb. replace (v - Z.quot v b * b) with (Z.rem v b) by (pose proof (Z.quot_rem' v b); lia).
  rewrite <- Z.quot_abs, <- Z.rem_abs, (Z.abs_eq b) by lia.
  rewrite Z.quot_div_nonneg, Z.rem_mod_nonneg by lia. done.
Qed.

Lemma signed_digits_run fuel : ∀ v ptr m,
  - 2 ^ 31 ≤ v < 2 ^ 31 → Z.abs v < 2 ^ Z.of_nat fuel → (0 < fuel)%nat →
  let l := map numcode (digits_rev fuel 10 (Z.abs v)) in
  ∃ tmp, signed_digits fuel v ptr 10 m = Done ((ptr + Z.of_nat (length l), tmp), write_bytes m ptr l) ∧
         (tmp < 0 ↔ v < 0).
Proof.
  induction fuel as [|fuel IH]; intros v ptr m Hv Hf H0 l; [lia|]. unfold l. clear l.
  cbn [signed_digits digits_rev map]. unfold put, bind, modify.
  destruct (quot_rem_abs v 10 ltac:(lia)) as [Q R]. pose proof (Z.quot_rem' v 10) as QR.
  pose proof (Z.mod_pos_bound (Z.abs v) 10 ltac:(lia)).
  assert (Hq : Z.abs (Z.quot v 10) ≤ Z.abs v) by (rewrite Q; apply Z.div_le_upper_bound; lia).
  assert (Hr : -35 ≤ v - Z.quot v 10 * 10 ≤ 35) by lia.
  pose proof (Z.mul_div_le (Z.abs v) 10 ltac:(lia)) as Hm10.
  rewrite (s32_small (Z.quot v 10 * 10)), s32_small by lia.
  assert (E : numcode (v - Z.quot v 10 * 10) = numcode (Z.abs v mod 10)).
  { rewrite <- R. destruct (Z.abs_spec (v - Z.quot v 10 * 10)) as [[_ ->]|[_ ->]]; [done|]. by apply numcode_sym. }
  rewrite E, <- Q. destruct (Z.eqb_spec (Z.quot v 10) 0) as [E0|E0].
  - rewrite (proj2 (Z.eqb_eq (Z.abs (Z.quot v 10)) 0)) by lia. exists v. done.
  - rewrite (proj2 (Z.eqb_neq (Z.abs (Z.quot v 10)) 0)) by lia.
    pose proof (div_shrinks fuel 10 (Z.abs v) ltac:(lia) ltac:(lia)) as Hd. rewrite <- Q in Hd.
    destruct (IH (Z.quot v 10) (ptr + 1) (store8 m ptr (numcode (Z.abs v mod 10)))) as (tmp & G & Hs);
      [lia|lia|destruct fuel; [cbn in *; lia|lia]|].
    exists tmp. rewrite G. cbn [length write_bytes]. split; [do 3 f_equal; lia|]. lia.
Qed.

Lemma reverse_loop_spec n : ∀ p q m a,
  byte_mem m → q - p ≤ Z.of_nat n →
  reverse_loop n p q m a = if (p <=? a) && (a <=? q) then m (p + q - a) else m a.
Proof.
  induction n as [|n IH]; intros p q m a Hm Hn; cbn [reverse_loop].
  - destruct (Z.leb_spec p a), (Z.leb_spec a q); cbn; try done. f_equal. lia.
  - destruct (Z.ltb_spec p q) as [L|L].
    2:{ destruct (Z.leb_spec p a), (Z.leb_spec a q); cbn; try done. f_equal. lia. }
    rewrite IH by (auto with mem; lia).
    destruct (Z.eq_dec a p) as [->|Hap]; [|destruct (Z.eq_dec a q) as [->|Haq]].
    + rewrite (proj2 (Z.leb_gt (p + 1) p)), (proj2 (Z.leb_le p p)), (proj2 (Z.leb_le p q)) by lia. cbn [andb].
      rewrite store8_eq, u8_small by apply Hm. f_equal. lia.
    + rewrite (proj2 (Z.leb_gt q (q - 1))), andb_false_r, (proj2 (Z.leb_le p q)), (proj2 (Z.leb_le q q)) by lia.
      cbn [andb]. rewrite store8_ne, store8_eq, u8_small by (apply Hm || lia). f_equal. lia.
    + rewrite !(store8_ne _ _ _ a) by done.
      destruct (Z.leb_spec (p + 1) a), (Z.leb_spec a (q - 1)), (Z.leb_spec p a), (Z.leb_spec a q); cbn; try done; try lia.
      rewrite !store8_ne by lia. f_equal. lia.
Qed.

(** Reversing in place the characters just written gives a C string. *)
Lemma reversed_cstring m str l :
  byte_mem m → Forall (fun c => 0 < c < 2 ^ 7) l → l ≠ [] →
  let n := Z.of_nat (length l) in
  let m' := reverse_loop (Z.to_nat (str + n - 1 - str)) str (str + n - 1)
              (store8 (write_bytes m str l) (str + n) 0) in
  cstring m' str (rev l) ∧ byte_mem m' ∧ ∀ a, (a < str ∨ str + n < a) → m' a = m a.
Proof.
  intros Hm Hl Hne n m'. set (m0 := store8 (write_bytes m str l) (str + n) 0).
  assert (Hm0 : byte_mem m0) by (apply byte_mem_store8, byte_mem_write, Hm).
  assert (Hs : ∀ a, m' a = if (str <=? a) && (a <=? str + n - 1) then m0 (str + (str + n - 1) - a) else m0 a).
  { intros a. apply reverse_loop_spec; [done|lia]. }
  assert (Hn : 0 < n) by (destruct l; [done|cbn in n; lia]).
  assert (Hi : ∀ i c, l !! i = Some c → m0 (str + Z.of_nat i) = c).
  { intros i c Hc. pose proof (lookup_lt_Some _ _ _ Hc). unfold m0. rewrite store8_ne by lia.
    rewrite (write_bytes_lookup _ _ _ _ _ Hc). apply u8_small.
    pose proof (Forall_lookup_1 _ _ _ _ Hl Hc). cbn in *. lia. }
  split; [|split].
  - split; [|split].
    + rewrite length_rev. apply list_eq. intros i. destruct (decide (i < length l)%nat) as [L|L].
      * rewrite read_bytes_lookup, Hs by done.
        rewrite (proj2 (Z.leb_le str _)), (proj2 (Z.leb_le _ (str + n - 1))) by lia. cbn [andb].
        rewrite rev_alt. change (rev_append l []) with (list.reverse l).
        destruct (lookup_lt_is_Some_2 l (length l - S i)%nat ltac:(lia)) as [c Hc].
        rewrite reverse_lookup by lia. rewrite Hc. f_equal. rewrite <- (Hi _ _ Hc). f_equal. lia.
      * rewrite !lookup_ge_None_2; rewrite ?length_rev, ?length_read_bytes; try done; lia.
    + rewrite length_rev. fold n. rewrite Hs, (proj2 (Z.leb_gt (str + n) (str + n - 1))), andb_false_r by lia.
      apply store8_eq.
    + apply Forall_rev. eapply Forall_impl; [exact Hl|]. intros c Hc. cbn in *. lia.
  - intros a. rewrite Hs. destruct (_ && _); apply Hm0.
  - intros a Ha. rewrite Hs. destruct (Z.leb_spec str a), (Z.leb_spec a (str + n - 1)); cbn [andb]; try lia;
      unfold m0; rewrite store8_ne, write_bytes_frame by lia; done.
Qed.

Lemma utext_rev base v : utext base v = rev (map numcode (digits_rev 32 base v)).
Proof. unfold utext, digits. apply map_rev. Qed.

Lemma digits_rev_chars base v :
  2 ≤ base ≤ 32 → 0 ≤ v → Forall (fun c => 0 < c < 2 ^ 7) (map numcode (digits_rev 32 base v)).
Proof. intros Hb Hv. apply (Forall_numcode base); [lia|]. apply digits_rev_range; lia. Qed.

(** The text appears at [str], terminated; at most one byte behind it changes. *)
Definition written (m m' : mem) (str : Z) (l : list Z) : Prop :=
  cstring m' str l ∧ byte_mem m' ∧ ∀ a, (a < str ∨ str + Z.of_nat (length l) < a) → m' a = m a.

Lemma unsigned_itoa_body_run value str base m :
  byte_mem m → 2 ≤ base ≤ 32 → 0 ≤ value < 2 ^ 32 →
  ∃ m', unsigned_itoa_body value str base m = Done (str, m') ∧ written m m' str (utext base value).
Proof.
  intros Hm Hb Hv. unfold unsigned_itoa_body. rewrite (proj2 (Z.eqb_neq base 0)) by lia.
  rewrite (bind_run _ _ _ _ _ (unsigned_digits_run 32 base Hb value str m Hv Hv ltac:(lia))).
  set (l := map numcode (digits_rev 32 base value)).
  destruct (reversed_cstring m str l Hm (digits_rev_chars base value Hb ltac:(lia)) ltac:(done)) as (H1 & H2 & H3).
  eexists. split; [reflexivity|]. unfold written. rewrite utext_rev. fold l. rewrite length_rev. done.
Qed.

Lemma itoa_body_run value str m :
  byte_mem m → - 2 ^ 31 ≤ value < 2 ^ 31 →
  ∃ m', itoa_body value str 10 m = Done (str, m') ∧ written m m' str (itext value).
Proof.
  intros Hm Hv. unfold itoa_body.
  destruct (signed_digits_run 32 value str m Hv) as (tmp & E & Hs); [change (2 ^ Z.of_nat 32) with (2 ^ 32); lia|lia|].
  rewrite (bind_run _ _ _ _ _ E). set (l := map numcode (digits_rev 32 10 (Z.abs value))) in *.
  pose proof (digits_rev_chars 10 (Z.abs value) ltac:(lia) ltac:(lia)) as Hl. fold l in Hl.
  unfold itext. destruct (Z.ltb_spec value 0) as [L|L].
  - rewrite (proj2 (Z.ltb_lt tmp 0)) by lia. cbn [when].
    destruct (reversed_cstring m str (l ++ [MINUS]) Hm) as (H1 & H2 & H3).
    { apply Forall_app. split; [done|]. repeat constructor. }
    { by destruct l. }
    eexists. split.
    { unfold put, bind, modify, ret, reverse. rewrite <- write_bytes_snoc. reflexivity. }
    rewrite rev_app_distr in H1. cbn [rev app] in H1. rewrite length_app in H1, H2, H3. cbn [length] in H1, H2, H3.
    unfold written. rewrite <- (Z.abs_neq value), utext_rev by lia. fold l. cbn [length]. rewrite length_rev.
    replace (str + Z.of_nat (length l) + 1) with (str + Z.of_nat (length l + 1)) by lia.
    replace (Z.of_nat (S (length l))) with (Z.of_nat (length l + 1)) by lia. done.
  - rewrite (proj2 (Z.ltb_ge tmp 0)) by lia. cbn [when].
    destruct (reversed_cstring m str l Hm Hl ltac:(done)) as (H1 & H2 & H3).
    eexists. split; [reflexivity|]. unfold written. rewrite <- (Z.abs_eq value), utext_rev by lia. fold l.
    rewrite length_rev. done.
Qed.

(** ** Lemmas on reading *)

Lemma scale_pow n base : 2 ≤ base → ∀ v, 0 ≤ v → v * base ^ Z.of_nat n < 2 ^ 31 → scale n v base = v * base ^ Z.of_nat n.
Proof.
  intros Hb. induction n as [|n IH]; intros v Hv Hp; cbn [scale]; [rewrite Z.pow_0_r; lia|].
  rewrite Nat2Z.inj_succ, Z.pow_succ_r in * by lia.
  assert (0 < base ^ Z.of_nat n) by (apply Z.pow_pos_nonneg; lia).
  rewrite s32_small by nia. rewrite IH by nia. lia.
Qed.

Lemma from_digits_cons base d l :
  from_digits base (d :: l) = d * base ^ Z.of_nat (length l) + from_digits base l.
Proof.
  unfold from_digits. cbn [foldl]. rewrite Z.mul_0_l, Z.add_0_l.
  assert (G : ∀ acc, foldl (fun acc d => acc * base + d) acc l =
    acc * base ^ Z.of_nat (length l) + foldl (fun acc d => acc * base + d) 0 l).
  { induction l as [|x l IH]; intros acc; cbn [foldl length].
    - rewrite Z.pow_0_r. lia.
    - rewrite (IH (acc * base + x)), (IH (0 * base + x)), Nat2Z.inj_succ, Z.pow_succ_r by lia. lia. }
  apply G.
Qed.

Lemma from_digits_nonneg base l : 2 ≤ base → Forall (is_digit base) l → 0 ≤ from_digits base l.
Proof.
  intros Hb. induction 1 as [|d l Hd _ IH]; [cbn; lia|]. rewrite from_digits_cons. unfold is_digit in Hd.
  pose proof (Z.pow_nonneg base (Z.of_nat (length l))). nia.
Qed.

Lemma strtol_loop_run base l : 2 ≤ base ≤ 16 → Forall (is_digit base) l → ∀ fuel m p number,
  cstring m p (map numcode l) → (length l < fuel)%nat → 0 ≤ number →
  number + from_digits base l < 2 ^ 31 → base ^ (Z.of_nat (length l) - 1) < 2 ^ 31 →
  strtol_loop fuel m p (base ^ (Z.of_nat (length l) - 1)) base number = Some (number + from_digits base l).
Proof.
  intros Hb. induction 1 as [|d l Hd Hl IH]; intros fuel m p number Hs Hf Hn Hv Hp; (destruct fuel; [lia|]); cbn [strtol_loop].
  - rewrite (cstring_nil _ _ Hs). cbn. f_equal. lia.
  - cbn [map] in Hs. destruct (cstring_cons _ _ _ _ Hs) as (-> & Hc & Ht). rewrite (proj2 (Z.eqb_neq _ 0) Hc).
    unfold is_digit in Hd. rewrite numcode_index by lia. rewrite from_digits_cons in *.
    cbn [length] in *. replace (Z.of_nat (S (length l)) - 1) with (Z.of_nat (length l)) in * by lia.
    pose proof (from_digits_nonneg base l ltac:(lia) Hl) as H0.
    assert (Hpp : 0 < base ^ Z.of_nat (length l)) by (apply Z.pow_pos_nonneg; lia).
    assert (Hd0 : 0 ≤ d * base ^ Z.of_nat (length l)) by nia.
    rewrite (s32_small (d * _)), s32_small by lia.
    destruct l as [|d' l].
    + cbn [length Z.of_nat]. rewrite Z.pow_0_r in *. destruct fuel; [cbn in Hf; lia|]. cbn [strtol_loop].
      rewrite (cstring_nil _ _ Ht). cbn. f_equal. lia.
    + assert (Hq : Z.quot (base ^ Z.of_nat (length (d' :: l))) base = base ^ (Z.of_nat (length (d' :: l)) - 1)).
      { replace (Z.of_nat (length (d' :: l))) with (Z.succ (Z.of_nat (length (d' :: l)) - 1)) at 1 by lia.
        rewrite Z.pow_succ_r, Z.mul_comm, Z.quot_mul by (cbn [length]; lia). done. }
      rewrite Hq, IH; [f_equal; lia|done|lia|lia|lia|].
      eapply Z.le_lt_trans; [|exact Hp]. apply Z.pow_le_mono_r; lia.
Qed.

Lemma strtol_digits_run base v fuel m p sign :
  2 ≤ base ≤ 16 → 0 ≤ v < 2 ^ 31 → cstring m p (utext base v) → (length (digits base v) < fuel)%nat →
  strtol_digits fuel m p base sign = Some (s32 (v * sign)).
Proof.
  intros Hb Hv Hs Hf. unfold strtol_digits. unfold utext in Hs.
  rewrite (strlen_cstring _ _ _ _ Hs) by (by rewrite length_map). cbn [mbind option_bind]. rewrite length_map.
  set (l := digits base v) in *.
  assert (Hl : Forall (is_digit base) l) by (apply Forall_rev, digits_rev_range; lia).
  assert (Hne : (0 < length l)%nat) by (unfold l, digits; rewrite length_rev; cbn; lia).
  assert (Hpow : base ^ (Z.of_nat (length l) - 1) < 2 ^ 31).
  { unfold l, digits. rewrite length_rev.
    destruct (digits_length 32 base v ltac:(lia) ltac:(change (Z.of_nat 32) with 32; lia)) as [->|G]; [|lia].
    cbn [digits_rev]. rewrite Z.div_0_l by lia. cbn. lia. }
  assert (Hlen : Z.of_nat (length l) ≤ 32).
  { destruct (Z.le_gt_cases (Z.of_nat (length l)) 32); [done|]. exfalso.
    pose proof (Z.pow_le_mono_l 2 base (Z.of_nat (length l) - 1) ltac:(lia)).
    pose proof (Z.pow_le_mono_r 2 32 (Z.of_nat (length l) - 1) ltac:(lia) ltac:(lia)). lia. }
  rewrite u32_small by lia. rewrite scale_pow; [|lia|lia|rewrite Z.mul_1_l, Z2Nat.id by lia; lia].
  rewrite Z.mul_1_l, Z2Nat.id by lia.
  assert (Hfd : from_digits base l = v) by (apply from_digits_digits; lia).
  rewrite (strtol_loop_run base l) by (done || lia). cbn [mbind option_bind]. by rewrite Hfd.
Qed.

Lemma cstring_head m p c s : cstring m p (c :: s) → m p = c.
Proof. intros H. by destruct (cstring_cons _ _ _ _ H). Qed.

(** ** Properties *)

(** [unsigned_itoa] terminates and leaves at [str] the text of the number in the
    base: the C string of its digits, most significant first, whose value is the
    number, without a leading zero; only the text's own bytes change. *)
Theorem unsigned_itoa_correct value str base m :
  byte_mem m → 2 ≤ base ≤ 32 → 0 ≤ value < 2 ^ 32 →
  ∃ m' ds, unsigned_itoa value str base m = Done (str, m') ∧
    cstring m' str (map numcode ds) ∧ from_digits base ds = value ∧
    Forall (fun d => 0 ≤ d < base) ds ∧ (length ds ≤ 32)%nat ∧
    (value = 0 ∨ base ^ (Z.of_nat (length ds) - 1) ≤ value) ∧
    ∀ a, (a < str ∨ str + Z.of_nat (length ds) < a) → m' a = m a.
Proof.
  intros Hm Hb Hv. destruct (unsigned_itoa_body_run value str base m Hm Hb Hv) as (m' & E & H1 & H2 & H3).
  exists m', (digits base value). split.
  { unfold unsigned_itoa, libc_assert, kassert.
    rewrite Z.geb_leb, (proj2 (Z.leb_le 2 base)), (proj2 (Z.leb_le base 32)) by lia. exact E. }
  unfold utext in *. rewrite length_map in H3. split; [done|]. split; [apply from_digits_digits; lia|].
  split; [apply Forall_rev, digits_rev_range; lia|]. unfold digits in *. rewrite length_rev in *.
  split; [|split; [apply digits_length; [lia|exact Hv]|done]].
  apply digits_rev_bound.
Qed.

Lemma unsigned_itoa_correct_witness :
  ∃ m' ds, unsigned_itoa 48879 100 16 (fun _ => 0) = Done (100, m') ∧
    cstring m' 100 (map numcode ds) ∧ from_digits 16 ds = 48879.
Proof.
  destruct (unsigned_itoa_correct 48879 100 16 (fun _ => 0) ltac:(intros a; lia) ltac:(lia) ltac:(lia))
    as (m' & ds & E & H1 & H2 & _).
  exists m', ds. split; [exact E|]. split; [exact H1|exact H2].
Defined.

(** Printing and reading are inverse: [strtol] in base 10 of the text [itoa] writes
    for a number returns the number, and both terminate. *)
Theorem itoa_strtol_roundtrip value str m fuel :
  byte_mem m → - 2 ^ 31 < value < 2 ^ 31 → (34 ≤ fuel)%nat →
  ∃ m', itoa value str 10 m = Done (str, m') ∧ strtol fuel m' str 10 = Some value.
Proof.
  intros Hm Hv Hf. destruct (itoa_body_run value str m Hm ltac:(lia)) as (m' & E & H1 & H2 & H3).
  exists m'. split; [exact E|].
  assert (Hlen : ∀ v, (length (digits 10 v) ≤ 32)%nat).
  { intros v. unfold digits. rewrite length_rev. apply digits_rev_bound. }
  unfold strtol. cbn [negb andb Z.geb Z.leb Z.compare Pos.compare Pos.compare_cont].
  unfold itext in *. destruct (Z.ltb_spec value 0) as [L|L].
  - pose proof (cstring_head _ _ _ _ H1) as Hh. destruct (cstring_cons _ _ _ _ H1) as (_ & _ & Ht).
    destruct fuel as [|fuel]; [lia|]. cbn [skip_spaces]. rewrite Hh. change (is_space MINUS) with false. cbn [mbind option_bind].
    rewrite Hh. change (MINUS =? 0) with false. rewrite Z.eqb_refl. rewrite (strtol_digits_run 10 (- value)); [f_equal; rewrite s32_small; lia|lia|lia|done|].
    pose proof (Hlen (- value)). lia.
  - destruct (utext 10 value) as [|c s] eqn:Eu; [by rewrite utext_rev in Eu; apply (f_equal length) in Eu; rewrite length_rev in Eu|].
    assert (Hc : ∃ d, 0 ≤ d < 10 ∧ c = numcode d).
    { unfold utext in Eu. pose proof (digits_rev_range 32 10 value ltac:(lia) L) as Hd. apply Forall_rev in Hd.
      fold (digits 10 value) in Hd. destruct (digits 10 value) as [|d ds]; [done|]. injection Eu as <- _.
      inversion Hd; subst. by exists d. }
    destruct Hc as (d & Hd & ->). pose proof (cstring_head _ _ _ _ H1) as Hh.
    destruct (numcode_not_sign d ltac:(lia)) as (N1 & N2 & N3). pose proof (numcode_range d ltac:(lia)).
    destruct fuel as [|fuel]; [lia|]. cbn [skip_spaces]. rewrite Hh, N3. cbn [mbind option_bind].
    rewrite Hh, (proj2 (Z.eqb_neq _ 0)), (proj2 (Z.eqb_neq _ MINUS)), (proj2 (Z.eqb_neq _ PLUS)) by (done || lia).
    rewrite (strtol_digits_run 10 value); [f_equal; rewrite Z.mul_1_r, s32_small; lia|lia|lia|by rewrite Eu|].
    pose proof (Hlen value). lia.
Qed.

Lemma itoa_strtol_roundtrip_witness :
  ∃ m', itoa (-2147483647) 100 10 (fun _ => 0) = Done (100, m') ∧ strtol 34 m' 100 10 = Some (-2147483647).
Proof.
  apply (itoa_strtol_roundtrip (-2147483647) 100 (fun _ => 0) 34%nat); [intros a; lia|lia|lia].
Defined.
