(* ===== verification/Printf.v ===== *)
(** * Formatted output: kernel/printf.c and libc/stdio/nprintf.c, string.c

    The kernel and the C library have the same [generic_nprintf], except that the
    library's sets [errno] when the count overflows; [overflow] is that action.
    A format and the strings among the arguments are the characters before their
    NUL; the variable arguments are a list of words and strings.  The characters
    go to a buffer in memory, at the offset the code computes, or to the
    printer's [put_one].  The text [itoa] leaves in the local buffer is that of
    [LibcConvert] ([itoa_body_run], [unsigned_itoa_body_run]). *)

From stdpp Require Import base list strings.
From Stdlib Require Import ZArith Lia.
From S2P Require Import Prelude Memory KUtils LibcConvert.

Definition EOVERFLOW : Z := 101.
Definition PERCENT : Z := 37.

Inductive varg : Type :=
| VWord (v : Z)
| VStr (s : list Z).

(** Where the characters go: [dest] in memory, or [put_one], called in order. *)
Inductive sink : Type :=
| ToDest (dest : Z) (m : mem)
| ToPrinter (out : list Z).

Record pstate := mk_pstate { p_sink : sink; p_remaining : Z; p_errno : Z }.

Definition pset_sink (k : sink) (s : pstate) : pstate := mk_pstate k (p_remaining s) (p_errno s).
Definition pset_remaining (r : Z) (s : pstate) : pstate := mk_pstate (p_sink s) r (p_errno s).
Definition pset_errno (e : Z) (s : pstate) : pstate := mk_pstate (p_sink s) (p_remaining s) e.

(** ** print *)

(** [dest[off] = c] or [put_one(c)]. *)
Definition put_char (off c : Z) (k : sink) : sink :=
  match k with
  | ToDest dest m => ToDest dest (store8 m (dest + off) c)
  | ToPrinter out => ToPrinter (out ++ [c])
  end.

Fixpoint print (off : Z) (data : list Z) : M pstate bool :=
  match data with
  | [] => ret true
  | c :: data' =>
      r <- gets p_remaining ;;
      if r =? 0 then ret false else
      modify (fun s => pset_sink (put_char off c (p_sink s)) s) ;;;
      modify (fun s => pset_remaining (s32 (p_remaining s - 1)) s) ;;;
      print (off + 1) data'
  end.

(** ** generic_nprintf *)

(** [while (format[amount] && format[amount] != '%') amount++]. *)
Fixpoint literal_run (f : list Z) : nat :=
  match f with
  | [] => O
  | c :: f' => if c =? PERCENT then O else S (literal_run f')
  end.

(** [for (i = 0; i < zeroes; i++) print(..., written, ..., "0", 1)]. *)
Fixpoint print_zeroes (n : nat) (written : Z) : M pstate bool :=
  match n with
  | O => ret true
  | S n' => ok <- print written [48] ;; if (ok : bool) then print_zeroes n' written else ret false
  end.

Section nprintf.
Context (overflow : M pstate unit).

(** One conversion: the overflow check, the text, and the rest of the format. *)
Definition convert (text : list Z) (written : Z) (next : Z → M pstate Z) : M pstate Z :=
  let maxrem := u32 (INT_MAX - written) in
  let len := Z.of_nat (length text) in
  if maxrem <? len then overflow ;;; ret (-1) else
  ok <- print written text ;;
  if (ok : bool) then next (written + len) else ret (-1).

(** %p: padded to eight digits, and [written] counts the digits only. *)
Definition convert_pointer (text : list Z) (written : Z) (next : Z → M pstate Z) : M pstate Z :=
  let maxrem := u32 (INT_MAX - written) in
  let len := Z.of_nat (length text) in
  let zeroes := 8 - len in
  if maxrem <? u32 (len + zeroes) then overflow ;;; ret (-1) else
  ok <- print_zeroes (Z.to_nat zeroes) written ;;
  if negb ok then ret (-1) else
  ok <- print written text ;;
  if (ok : bool) then next (written + len) else ret (-1).

Definition bad_argument {A} : M pstate A := kpanic "va_arg: undefined behaviour".

(** [fuel] is at least the length of the format. *)
Fixpoint nprintf_loop (fuel : nat) (format : list Z) (args : list varg) (written : Z) : M pstate Z :=
  match fuel, format with
  | _, [] => ret written
  | O, _ => hang
  | S fuel', c0 :: rest =>
      if negb (c0 =? PERCENT) || bool_decide (head rest = Some PERCENT) then
        let f := if c0 =? PERCENT then rest else format in
        let amount := S (literal_run (tail f)) in
        convert (take amount f) written (nprintf_loop fuel' (drop amount f) args)
      else
        match rest, args with
        | c :: f, a :: args' =>
            if c =? 99 then
              match a with
              | VWord v => convert [u8 v] written (nprintf_loop fuel' f args')
              | VStr _ => bad_argument
              end
            else if c =? 115 then
              match a with
              | VStr str => convert str written (nprintf_loop fuel' f args')
              | VWord _ => bad_argument
              end
            else if c =? 100 then
              match a with
              | VWord v => convert (itext (s32 v)) written (nprintf_loop fuel' f args')
              | VStr _ => bad_argument
              end
            else if c =? 117 then
              match a with
              | VWord v => convert (utext 10 (u32 v)) written (nprintf_loop fuel' f args')
              | VStr _ => bad_argument
              end
            else if c =? 120 then
              match a with
              | VWord v => convert (utext 16 (u32 v)) written (nprintf_loop fuel' f args')
              | VStr _ => bad_argument
              end
            else if c =? 112 then
              match a with
              | VWord v => convert_pointer (utext 16 (u32 v)) written (nprintf_loop fuel' f args')
              | VStr _ => bad_argument
              end
            else convert format written (nprintf_loop fuel' [] args)
        | c :: f, [] =>
            if bool_decide (c ∈ [99; 115; 100; 117; 120; 112]) then bad_argument
            else convert format written (nprintf_loop fuel' [] args)
        | [], _ => convert format written (nprintf_loop fuel' [] args)
        end
  end.
End nprintf.

(** ** The callers *)

(** Run a formatter with a sink and a limit. *)
Definition with_limit (k : sink) (remaining : Z) (m : M pstate Z) : M pstate Z :=
  modify (fun s => mk_pstate k remaining (p_errno s)) ;;; m.

(** libc/stdio/nprintf.c *)
Definition generic_nprintf (k : sink) (remaining : Z) (format : list Z) (args : list varg) : M pstate Z :=
  with_limit k remaining (nprintf_loop (modify (pset_errno EOVERFLOW)) (length format) format args 0).

(** kernel/printf.c *)
Definition kernel_generic_nprintf (k : sink) (remaining : Z) (format : list Z) (args : list varg) : M pstate Z :=
  with_limit k remaining (nprintf_loop (ret tt) (length format) format args 0).

Definition generic_printf (format : list Z) (args : list varg) : M pstate Z :=
  kernel_generic_nprintf (ToPrinter []) (-1) format args.

Definition ksnprintf (dest : Z) (m : mem) (len : Z) (format : list Z) (args : list varg) : M pstate Z :=
  kernel_generic_nprintf (ToDest dest m) len format args.

(** libc/stdio/string.c *)
Definition vsprintf (str : Z) (m : mem) (format : list Z) (args : list varg) : M pstate Z :=
  generic_nprintf (ToDest str m) (-1) format args.
Definition sprintf := vsprintf.

Definition vsnprintf (str : Z) (m : mem) (num : Z) (format : list Z) (args : list varg) : M pstate Z :=
  generic_nprintf (ToDest str m) (s32 num) format args.
Definition snprintf := vsnprintf.

(** ** What a format means *)

(** A pointer's digits, padded to eight. *)
Definition ptext (v : Z) : list Z := replicate (8 - length (utext 16 v)) 48 ++ utext 16 v.

(** The formatted text: what a format and its arguments stand for. *)
Fixpoint render (f : list Z) (args : list varg) : option (list Z) :=
  match f with
  | [] => Some []
  | c0 :: rest =>
      if negb (c0 =? PERCENT) then (c0 ::.) <$> render rest args else
      match rest with
      | [] => Some f
      | c :: f' =>
          if c =? PERCENT then (PERCENT ::.) <$> render f' args
          else if c =? 99 then
            match args with VWord v :: a => (u8 v ::.) <$> render f' a | _ => None end
          else if c =? 115 then
            match args with VStr s :: a => (s ++.) <$> render f' a | _ => None end
          else if c =? 100 then
            match args with VWord v :: a => (itext (s32 v) ++.) <$> render f' a | _ => None end
          else if c =? 117 then
            match args with VWord v :: a => (utext 10 (u32 v) ++.) <$> render f' a | _ => None end
          else if c =? 120 then
            match args with VWord v :: a => (utext 16 (u32 v) ++.) <$> render f' a | _ => None end
          else if c =? 112 then
            match args with VWord v :: a => (ptext (u32 v) ++.) <$> render f' a | _ => None end
          else Some f
      end
  end.

(** How many of its characters are zeroes that pad a pointer to eight digits. *)
Fixpoint padding (f : list Z) (args : list varg) : Z :=
  match f with
  | c0 :: ((c :: f') as rest) =>
      if negb (c0 =? PERCENT) then padding rest args
      else if c =? PERCENT then padding f' args
      else if bool_decide (c ∈ [99; 115; 100; 117; 120]) then padding f' (tail args)
      else if c =? 112 then
        match args with VWord v :: a => 8 - Z.of_nat (length (utext 16 (u32 v))) + padding f' a | _ => 0 end
      else 0
  | _ => 0
  end.

Example render_example :
  render (chars "n=%d, %s: %x%%%z") [VWord (-12); VStr (chars "abc"); VWord 255] = Some (chars "n=-12, abc: ff%%z").
Proof. reflexivity. Qed.
Example render_pointer :
  render (chars "%p;%x") [VWord 0xB8000; VWord 7] = Some (chars "000b8000;7") ∧ padding (chars "%p;%x") [VWord 0xB8000; VWord 7] = 3.
Proof. split; reflexivity. Qed.

(** ** Lemmas *)

(** *** The text with the count the loop keeps of it

    The loop adds only the digits of a pointer to [written]. *)

(** [l] in front of a text, counted as [n] characters. *)
Definition prepend (l : list Z) (n : Z) (r : option (list Z * Z)) : option (list Z * Z) :=
  '(out, k) ← r; Some (l ++ out, n + k).
Definition prepend_text (l : list Z) := prepend l (Z.of_nat (length l)).

Fixpoint rendering (f : list Z) (args : list varg) : option (list Z * Z) :=
  match f with
  | [] => Some ([], 0)
  | c0 :: rest =>
      if negb (c0 =? PERCENT) then prepend_text [c0] (rendering rest args) else
      match rest with
      | [] => Some (f, 1)
      | c :: f' =>
          if c =? PERCENT then prepend_text [PERCENT] (rendering f' args)
          else if c =? 99 then
            match args with VWord v :: a => prepend_text [u8 v] (rendering f' a) | _ => None end
          else if c =? 115 then
            match args with VStr s :: a => prepend_text s (rendering f' a) | _ => None end
          else if c =? 100 then
            match args with VWord v :: a => prepend_text (itext (s32 v)) (rendering f' a) | _ => None end
          else if c =? 117 then
            match args with VWord v :: a => prepend_text (utext 10 (u32 v)) (rendering f' a) | _ => None end
          else if c =? 120 then
            match args with VWord v :: a => prepend_text (utext 16 (u32 v)) (rendering f' a) | _ => None end
          else if c =? 112 then
            match args with
            | VWord v :: a => prepend (ptext (u32 v)) (Z.of_nat (length (utext 16 (u32 v)))) (rendering f' a)
            | _ => None
            end
          else Some (f, Z.of_nat (length f))
      end
  end.



(** Characters [l] delivered from offset [off] on. *)
Definition emit (off : Z) (l : list Z) (k : sink) : sink :=
  match k with
  | ToDest dest m => ToDest dest (write_bytes m (dest + off) l)
  | ToPrinter out => ToPrinter (out ++ l)
  end.

Lemma write_bytes_app m a l1 l2 :
  write_bytes m a (l1 ++ l2) = write_bytes (write_bytes m a l1) (a + Z.of_nat (length l1)) l2.
Proof.
  revert m a. induction l1 as [|b l1 IH]; intros m a; cbn [app write_bytes length]; [by rewrite Z.add_0_r|].
  rewrite IH. f_equal. lia.
Qed.

Lemma emit_app off l1 l2 k :
  emit off (l1 ++ l2) k = emit (off + Z.of_nat (length l1)) l2 (emit off l1 k).
Proof.
  destruct k; cbn [emit].
  - rewrite write_bytes_app. do 2 f_equal. lia.
  - by rewrite app_assoc.
Qed.

Lemma emit_nil off k : emit off [] k = k.
Proof. destruct k; cbn [emit write_bytes]; [done|by rewrite app_nil_r]. Qed.

Lemma emit_cons off c l k : emit off (c :: l) k = emit (off + 1) l (put_char off c k).
Proof. change (c :: l) with ([c] ++ l). rewrite emit_app. by destruct k. Qed.

(** The limit [r] does not stop [n] characters: it is negative, or large enough. *)
Definition admits (r n : Z) : Prop := r < 0 ∧ - 2 ^ 31 ≤ r - n ∨ n ≤ r < 2 ^ 31.

Lemma print_all data : ∀ off k r e,
  admits r (Z.of_nat (length data)) →
  print off data (mk_pstate k r e) = Done (true, mk_pstate (emit off data k) (r - Z.of_nat (length data)) e).
Proof.
  induction data as [|c data IH]; intros off k r e Ha; cbn [print].
  - rewrite emit_nil, Z.sub_0_r. done.
  - cbn [length] in Ha. unfold admits in Ha. unfold bind, gets, modify. cbn [p_remaining p_sink pset_sink pset_remaining p_errno].
    rewrite (proj2 (Z.eqb_neq r 0)) by lia. unfold pset_sink, pset_remaining. cbn [p_remaining p_sink p_errno].
    rewrite s32_small by lia. rewrite IH by (unfold admits; lia).
    rewrite emit_cons. cbn [length]. do 3 f_equal. lia.
Qed.

Lemma print_cut data : ∀ off k r e,
  0 ≤ r < Z.of_nat (length data) → r < 2 ^ 31 →
  print off data (mk_pstate k r e) = Done (false, mk_pstate (emit off (take (Z.to_nat r) data) k) 0 e).
Proof.
  induction data as [|c data IH]; intros off k r e Hr Hb; cbn [print length] in *; [lia|].
  unfold bind, gets, modify. cbn [p_remaining p_sink pset_sink pset_remaining p_errno].
  destruct (Z.eqb_spec r 0) as [->|H0].
  - cbn [Z.to_nat take]. by rewrite emit_nil.
  - unfold pset_sink, pset_remaining. cbn [p_remaining p_sink p_errno]. rewrite s32_small by lia.
    rewrite IH by lia. replace (Z.to_nat r) with (S (Z.to_nat (r - 1))) by lia. cbn [take]. by rewrite emit_cons.
Qed.

Lemma print_zeroes_run n : ∀ w out r e,
  admits r (Z.of_nat n) →
  print_zeroes n w (mk_pstate (ToPrinter out) r e) =
  Done (true, mk_pstate (ToPrinter (out ++ replicate n 48)) (r - Z.of_nat n) e).
Proof.
  induction n as [|n IH]; intros w out r e Ha; cbn [print_zeroes].
  - cbn. rewrite app_nil_r, Z.sub_0_r. done.
  - rewrite (bind_run _ _ _ _ _ (print_all [48] w (ToPrinter out) r e ltac:(unfold admits in *; cbn; lia))).
    cbn [emit length]. rewrite IH by (unfold admits in *; cbn; lia).
    rewrite <- app_assoc. cbn. do 3 f_equal. lia.
Qed.

Lemma rendering_literal f args :
  rendering f args = prepend_text (take (literal_run f) f) (rendering (drop (literal_run f) f) args).
Proof.
  induction f as [|c f IH]; [done|]. cbn [literal_run]. destruct (c =? PERCENT) eqn:E.
  - cbn [take drop]. unfold prepend_text, prepend. cbn [length Z.of_nat app].
    destruct (rendering (c :: f) args) as [[out k]|]; [|done]. cbn. by rewrite Z.add_0_l.
  - cbn [take drop rendering]. rewrite E. cbn [negb]. rewrite IH.
    destruct (rendering (drop (literal_run f) f) args) as [[out k]|]; [|done].
    unfold prepend_text, prepend. cbn [mbind option_bind]. cbn [length app]. do 2 f_equal. lia.
Qed.

(** The part of the format up to [f'] gives [text]. *)
Definition renders (f f' : list Z) (args args' : list varg) (text : list Z) (n : Z) : Prop :=
  (length f' < length f)%nat ∧ rendering f args = prepend text n (rendering f' args').

(** One iteration of the loop: it handles literal characters, a conversion, or an
    unknown one. *)
Lemma loop_step ov fuel f args :
  f ≠ [] → rendering f args ≠ None →
  (∃ text f' args', renders f f' args args' text (Z.of_nat (length text)) ∧
     ∀ w, nprintf_loop ov (S fuel) f args w = convert ov text w (nprintf_loop ov fuel f' args')) ∨
  (∃ v f' args', renders f f' args args' (ptext (u32 v)) (Z.of_nat (length (utext 16 (u32 v)))) ∧
     ∀ w, nprintf_loop ov (S fuel) f args w =
          convert_pointer ov (utext 16 (u32 v)) w (nprintf_loop ov fuel f' args')).
Proof.
  intros Hf Hr. destruct f as [|c0 rest]; [done|].
  assert (Hverb : rendering (c0 :: rest) args = Some (c0 :: rest, Z.of_nat (length (c0 :: rest))) →
    renders (c0 :: rest) [] args args (c0 :: rest) (Z.of_nat (length (c0 :: rest)))).
  { intros E. split; [cbn; lia|]. rewrite E. cbn [rendering]. unfold prepend. cbn [mbind option_bind].
    by rewrite app_nil_r, Z.add_0_r. }
  destruct (c0 =? PERCENT) eqn:E0.
  - destruct rest as [|c f].
    { left. exists [c0], [], args. split; [|intros w; cbn [nprintf_loop]; by rewrite E0].
      apply Hverb. cbn [rendering]. by rewrite E0. }
    destruct (Z.eqb_spec c PERCENT) as [->|Hc].
    + left. exists (PERCENT :: take (literal_run f) f), (drop (literal_run f) f), args. split.
      * split; [cbn [length]; rewrite length_drop; lia|]. cbn [rendering]. rewrite E0. cbn [negb].
        rewrite Z.eqb_refl, rendering_literal. unfold prepend_text, prepend. 
        destruct (rendering (drop (literal_run f) f) args) as [[out k]|]; [|done].
        cbn [mbind option_bind]. cbn [length app]. do 2 f_equal. lia.
      * intros w. cbn [nprintf_loop]. rewrite E0. cbn [negb orb head].
        rewrite bool_decide_eq_true_2 by done. cbn [tail take drop]. done.
    + cbn [rendering] in Hr. rewrite E0 in Hr. cbn [negb] in Hr. rewrite (proj2 (Z.eqb_neq c PERCENT) Hc) in Hr.
      cbn [nprintf_loop rendering] in *. rewrite E0 in *. cbn [negb orb head] in *.
      rewrite (proj2 (Z.eqb_neq c PERCENT) Hc) in *.
      assert (Hh : bool_decide (Some c = Some PERCENT) = false) by (apply bool_decide_eq_false_2; congruence).
      unfold renders. cbn [rendering]. rewrite E0. cbn [negb]. rewrite (proj2 (Z.eqb_neq c PERCENT) Hc), Hh.
      destruct (Z.eqb_spec c 99) as [->|N1].
      { left. destruct args as [|[v|?] a]; [done| |done]. exists [u8 v], f, a. split; [split; [cbn; lia|done]|done]. }
      destruct (Z.eqb_spec c 115) as [->|N2].
      { left. destruct args as [|[?|str] a]; [done|done|]. exists str, f, a. split; [split; [cbn; lia|done]|done]. }
      destruct (Z.eqb_spec c 100) as [->|N3].
      { left. destruct args as [|[v|?] a]; [done| |done]. exists (itext (s32 v)), f, a. split; [split; [cbn; lia|done]|done]. }
      destruct (Z.eqb_spec c 117) as [->|N4].
      { left. destruct args as [|[v|?] a]; [done| |done]. exists (utext 10 (u32 v)), f, a. split; [split; [cbn; lia|done]|done]. }
      destruct (Z.eqb_spec c 120) as [->|N5].
      { left. destruct args as [|[v|?] a]; [done| |done]. exists (utext 16 (u32 v)), f, a. split; [split; [cbn; lia|done]|done]. }
      destruct (Z.eqb_spec c 112) as [->|N6].
      { right. destruct args as [|[v|?] a]; [done| |done]. exists v, f, a. split; [split; [cbn; lia|done]|done]. }
      left. exists (c0 :: c :: f), [], args. split.
      * split; [cbn; lia|]. change (rendering [] args) with (Some ([] : list Z, 0)).
        unfold prepend. cbn [mbind option_bind]. by rewrite app_nil_r, Z.add_0_r.
      * intros w. destruct args as [|a args]; [|done].
        rewrite bool_decide_eq_false_2; [done|]. rewrite !elem_of_cons, elem_of_nil. tauto.
  - left. exists (c0 :: take (literal_run rest) rest), (drop (literal_run rest) rest), args. split.
    + split; [cbn [length]; rewrite length_drop; lia|]. cbn [rendering]. rewrite E0. cbn [negb].
      rewrite rendering_literal. unfold prepend_text, prepend.
      destruct (rendering (drop (literal_run rest) rest) args) as [[out k]|]; [|done].
      cbn [mbind option_bind]. cbn [length app]. do 2 f_equal. lia.
    + intros w. cbn [nprintf_loop]. rewrite E0. cbn [negb orb tail take drop]. done.
Qed.

Lemma hex_length v : 0 ≤ v < 2 ^ 32 → (length (utext 16 v) ≤ 8)%nat.
Proof.
  intros Hv. unfold utext, digits. rewrite length_map, length_rev.
  destruct (digits_length 32 16 v ltac:(lia) Hv) as [->|G]; [change (digits_rev 32 16 0) with [0]; cbn; lia|].
  destruct (Nat.le_gt_cases (length (digits_rev 32 16 v)) 8) as [|L]; [done|].
  pose proof (Z.pow_le_mono_r 16 8 (Z.of_nat (length (digits_rev 32 16 v)) - 1) ltac:(lia) ltac:(lia)). lia.
Qed.

Lemma ptext_length v : 0 ≤ v < 2 ^ 32 → length (ptext v) = 8%nat.
Proof. intros Hv. unfold ptext. rewrite length_app, length_replicate. pose proof (hex_length v Hv). lia. Qed.

Lemma rendering_render n : ∀ f args,
  (length f ≤ n)%nat → rendering f args = (out ← render f args; Some (out, Z.of_nat (length out) - padding f args)).
Proof.
  assert (P : ∀ l k pad pad' (r : option (list Z)), pad = Z.of_nat (length l) - k + pad' →
    prepend l k (out ← r; Some (out, Z.of_nat (length out) - pad')) = (out ← (l ++.) <$> r; Some (out, Z.of_nat (length out) - pad))).
  { intros l k pad pad' [out|] ->; [|done]. cbn. rewrite length_app. do 2 f_equal. lia. }
  assert (Hp : ∀ l pad pad' (r : option (list Z)), pad = pad' →
    prepend_text l (out ← r; Some (out, Z.of_nat (length out) - pad')) = (out ← (l ++.) <$> r; Some (out, Z.of_nat (length out) - pad))).
  { intros l pad pad' r ->. apply P. lia. }
  induction n as [|n IH]; intros [|c0 rest] args Hn; [done|cbn in Hn; lia|done|]. cbn [length] in Hn. cbn [rendering render].
  destruct (c0 =? PERCENT) eqn:E0; cbn [negb].
  - destruct rest as [|c f']; [cbn; do 3 f_equal|]. cbn [length] in Hn. cbn [padding]. rewrite E0. cbn [negb].
    destruct (c =? PERCENT) eqn:Ep; [rewrite IH by lia; by apply (Hp [PERCENT])|].
    destruct (Z.eqb_spec c 99) as [->|N1]; [destruct args as [|[v|s] a]; try done; rewrite IH by lia; by apply (Hp [u8 v])|].
    destruct (Z.eqb_spec c 115) as [->|N2]; [destruct args as [|[v|s] a]; try done; rewrite IH by lia; by apply Hp|].
    destruct (Z.eqb_spec c 100) as [->|N3]; [destruct args as [|[v|s] a]; try done; rewrite IH by lia; by apply Hp|].
    destruct (Z.eqb_spec c 117) as [->|N4]; [destruct args as [|[v|s] a]; try done; rewrite IH by lia; by apply Hp|].
    destruct (Z.eqb_spec c 120) as [->|N5]; [destruct args as [|[v|s] a]; try done; rewrite IH by lia; by apply Hp|].
    rewrite bool_decide_eq_false_2 by (rewrite !elem_of_cons, elem_of_nil; tauto).
    destruct (Z.eqb_spec c 112) as [->|N6]; [destruct args as [|[v|s] a]; try done; rewrite IH by lia; apply P; by rewrite ptext_length by apply u32_range|].
    cbn [mbind option_bind]. by rewrite Z.sub_0_r.
  - rewrite IH by lia. apply (Hp [c0]). destruct rest as [|c f']; [done|]. cbn [padding]. by rewrite E0.
Qed.

(** The count kept is that of the text less its padding. *)
Lemma rendered f args out : render f args = Some out → rendering f args = Some (out, Z.of_nat (length out) - padding f args).
Proof. intros E. by rewrite (rendering_render (length f) f args), E by done. Qed.

Lemma prepend_Some l n r out k :
  prepend l n r = Some (out, k) → ∃ out' k', r = Some (out', k') ∧ out = l ++ out' ∧ k = n + k'.
Proof.
  unfold prepend. destruct r as [[out' k']|]; [|done]. cbn. intros [= <- <-]. eauto.
Qed.

Lemma rendering_count n : ∀ f args out k,
  (length f ≤ n)%nat → rendering f args = Some (out, k) → 0 ≤ k ≤ Z.of_nat (length out).
Proof.
  induction n as [|n IH]; intros f args out k Hn Hr.
  - destruct f; [|cbn in Hn; lia]. injection Hr as <- <-. cbn. lia.
  - destruct (decide (f = [])) as [->|Hf]; [injection Hr as <- <-; cbn; lia|].
    destruct (loop_step (ret tt) O f args Hf ltac:(congruence)) as [(t & f' & a & [Hl E] & _)|(v & f' & a & [Hl E] & _)];
      rewrite E in Hr; apply prepend_Some in Hr as (out' & k' & Hr & -> & ->); specialize (IH f' a out' k' ltac:(lia) Hr);
      rewrite length_app; [lia|].
    rewrite ptext_length by apply u32_range. pose proof (hex_length (u32 v) (u32_range v)). lia.
Qed.

Section runs.
Context (ov : M pstate unit).

Lemma convert_all text w next k r e :
  0 ≤ w → w + Z.of_nat (length text) ≤ INT_MAX → admits r (Z.of_nat (length text)) →
  convert ov text w next (mk_pstate k r e) =
  next (w + Z.of_nat (length text)) (mk_pstate (emit w text k) (r - Z.of_nat (length text)) e).
Proof.
  intros Hw Hm Ha. unfold convert, INT_MAX in *. rewrite u32_small by lia.
  rewrite (proj2 (Z.ltb_ge _ _)) by lia. by rewrite (bind_run _ _ _ _ _ (print_all text w k r e Ha)).
Qed.

Lemma convert_cut text w next k r e :
  0 ≤ w → w + Z.of_nat (length text) ≤ INT_MAX → 0 ≤ r < Z.of_nat (length text) → r < 2 ^ 31 →
  convert ov text w next (mk_pstate k r e) = Done (-1, mk_pstate (emit w (take (Z.to_nat r) text) k) 0 e).
Proof.
  intros Hw Hm Hr Hb. unfold convert, INT_MAX in *. rewrite u32_small by lia.
  rewrite (proj2 (Z.ltb_ge _ _)) by lia. by rewrite (bind_run _ _ _ _ _ (print_cut text w k r e Hr Hb)).
Qed.

(** An unpadded pointer is a text like any other. *)
Lemma pointer_unpadded v w next :
  length (utext 16 (u32 v)) = 8%nat → 0 ≤ w ≤ INT_MAX →
  ∀ s, convert_pointer ov (utext 16 (u32 v)) w next s = convert ov (utext 16 (u32 v)) w next s.
Proof. intros E Hw s. unfold convert_pointer, convert. rewrite E. reflexivity. Qed.

Lemma pointer_padded v w next out r e :
  0 ≤ w → w + 8 ≤ INT_MAX → admits r 8 →
  convert_pointer ov (utext 16 (u32 v)) w next (mk_pstate (ToPrinter out) r e) =
  next (w + Z.of_nat (length (utext 16 (u32 v)))) (mk_pstate (ToPrinter (out ++ ptext (u32 v))) (r - 8) e).
Proof.
  intros Hw Hm Ha. pose proof (hex_length (u32 v) (u32_range v)) as Hh. unfold convert_pointer, INT_MAX in *.
  set (t := utext 16 (u32 v)) in *. unfold admits in Ha.
  replace (Z.of_nat (length t) + (8 - Z.of_nat (length t))) with 8 by lia. rewrite !u32_small by lia.
  rewrite (proj2 (Z.ltb_ge _ _)) by lia.
  replace (Z.to_nat (8 - Z.of_nat (length t))) with (8 - length t)%nat by lia.
  rewrite (bind_run _ _ _ _ _ (print_zeroes_run (8 - length t) w out r e ltac:(unfold admits; lia))). cbn [negb].
  rewrite (bind_run _ _ _ _ _ (print_all t w _ (r - Z.of_nat (8 - length t)) e ltac:(unfold admits; lia))). cbn [emit].
  replace (r - Z.of_nat (8 - length t) - Z.of_nat (length t)) with (r - 8) by lia.
  unfold ptext. fold t. by rewrite <- app_assoc.
Qed.

Lemma loop_all fuel : ∀ f args w k r e out n,
  rendering f args = Some (out, n) → (length f ≤ fuel)%nat → 0 ≤ w → w + Z.of_nat (length out) ≤ INT_MAX →
  admits r (Z.of_nat (length out)) → ((∃ o, k = ToPrinter o) ∨ n = Z.of_nat (length out)) →
  nprintf_loop ov fuel f args w (mk_pstate k r e) =
  Done (w + n, mk_pstate (emit w out k) (r - Z.of_nat (length out)) e).
Proof.
  induction fuel as [|fuel IH]; intros f args w k r e out n Hr Hl Hw Hm Ha Hk;
    (destruct (decide (f = [])) as [->|Hf];
      [injection Hr as <- <-; cbn; by rewrite emit_nil, Z.sub_0_r, Z.add_0_r|]); [destruct f; [done|cbn in Hl; lia]|].
  destruct (loop_step ov fuel f args Hf ltac:(congruence)) as [(t & f' & a & [Hl' E] & Hs)|(v & f' & a & [Hl' E] & Hs)];
    rewrite E in Hr; apply prepend_Some in Hr as (out' & k' & Hr & -> & ->); rewrite Hs;
    pose proof (rendering_count _ f' a out' k' ltac:(done) Hr) as Hc; rewrite length_app in *; unfold admits in Ha.
  - rewrite convert_all by (unfold admits; lia). rewrite (IH f' a _ _ _ _ out' k') by
      (first [done | unfold admits; lia | destruct Hk as [[o ->]|Hk]; [left; eexists; reflexivity|right; lia]]).
    rewrite emit_app. f_equal. f_equal; [lia|]. f_equal. lia.
  - rewrite ptext_length in * by apply u32_range. pose proof (hex_length (u32 v) (u32_range v)) as Hh.
    destruct (decide (length (utext 16 (u32 v)) = 8%nat)) as [E8|E8].
    + assert (Hp : ptext (u32 v) = utext 16 (u32 v)) by (unfold ptext; by rewrite E8).
      rewrite pointer_unpadded, convert_all by (unfold admits; lia).
      rewrite (IH f' a _ _ _ _ out' k') by
      (first [done | unfold admits; lia | destruct Hk as [[o ->]|Hk]; [left; eexists; reflexivity|right; lia]]).
      rewrite Hp, emit_app, E8. f_equal. f_equal; [lia|]. f_equal. lia.
    + destruct Hk as [[o ->]|Hk]; [|lia]. rewrite pointer_padded by (unfold admits; lia).
      rewrite (IH f' a _ _ _ _ out' k') by (first [done | unfold admits; lia | left; eexists; reflexivity]).
      cbn [emit]. rewrite <- app_assoc. f_equal. f_equal; [lia|]. f_equal. lia.
Qed.

Lemma loop_cut fuel : ∀ f args w k r e out,
  rendering f args = Some (out, Z.of_nat (length out)) → (length f ≤ fuel)%nat → 0 ≤ w →
  w + Z.of_nat (length out) ≤ INT_MAX → 0 ≤ r < Z.of_nat (length out) → r < 2 ^ 31 →
  nprintf_loop ov fuel f args w (mk_pstate k r e) = Done (-1, mk_pstate (emit w (take (Z.to_nat r) out) k) 0 e).
Proof.
  induction fuel as [|fuel IH]; intros f args w k r e out Hr Hl Hw Hm Ha Hb;
    (destruct (decide (f = [])) as [->|Hf]; [injection Hr as <-; cbn in Ha; lia|]); [destruct f; [done|cbn in Hl; lia]|].
  assert (Hstep : ∃ t f' a out', (length f' < length f)%nat ∧ out = t ++ out' ∧
    rendering f' a = Some (out', Z.of_nat (length out')) ∧
    ∀ s, nprintf_loop ov (S fuel) f args w s = convert ov t w (nprintf_loop ov fuel f' a) s).
  { destruct (loop_step ov fuel f args Hf ltac:(congruence)) as [(t & f' & a & [Hl' E] & Hs)|(v & f' & a & [Hl' E] & Hs)];
      rewrite E in Hr; apply prepend_Some in Hr as (out' & k' & Hr & -> & Hn);
      pose proof (rendering_count _ f' a out' k' ltac:(done) Hr) as Hc; rewrite length_app in *.
    - exists t, f', a, out'. split; [done|]. split; [done|]. split; [rewrite Hr; do 2 f_equal; lia|]. intros s. by rewrite Hs.
    - rewrite ptext_length in * by apply u32_range. pose proof (hex_length (u32 v) (u32_range v)) as Hh.
      assert (E8 : length (utext 16 (u32 v)) = 8%nat) by lia.
      assert (Hp : ptext (u32 v) = utext 16 (u32 v)) by (unfold ptext; by rewrite E8).
      exists (utext 16 (u32 v)), f', a, out'. split; [done|]. split; [by rewrite Hp|]. split; [rewrite Hr; do 2 f_equal; lia|].
      intros s. rewrite Hs. apply pointer_unpadded; [done|lia]. }
  destruct Hstep as (t & f' & a & out' & Hl' & -> & Hr' & Hs). rewrite Hs. rewrite length_app in *.
  destruct (Z.lt_ge_cases r (Z.of_nat (length t))) as [L|L].
  - rewrite convert_cut by lia. by rewrite take_app_le by lia.
  - rewrite convert_all by (unfold admits; lia). rewrite (IH f' a _ _ _ _ out') by (done || lia).
    rewrite take_app_ge, emit_app by lia. do 5 f_equal. lia.
Qed.
End runs.

(** ** Properties *)

(** The kernel's printf delivers the formatted text: for arguments that fit the
    format, and texts of at most [INT_MAX] characters, it passes exactly the
    characters of [render] to its [putchar], in order, and returns their number
    less that of the zeroes that pad pointers.  Enough fuel is used: it terminates. *)
Theorem generic_printf_renders f args s out :
  render f args = Some out → Z.of_nat (length out) ≤ INT_MAX →
  ∃ s', generic_printf f args s = Done (Z.of_nat (length out) - padding f args, s') ∧ p_sink s' = ToPrinter out ∧ p_errno s' = p_errno s.
Proof.
  intros Hr%rendered Hl. unfold generic_printf, kernel_generic_nprintf, with_limit, bind, modify.
  rewrite (loop_all (ret tt) (length f) f args 0 (ToPrinter []) (-1) (p_errno s) out _ Hr);
    [|done|lia|lia|unfold admits, INT_MAX in *; lia|left; by eexists].
  eexists. rewrite Z.add_0_l. done.
Qed.

Lemma generic_printf_renders_witness :
  ∃ s', generic_printf (chars "n=%d, %s: %x%%") [VWord (-12); VStr (chars "abc"); VWord 255]
          (mk_pstate (ToPrinter []) 0 0) = Done (15, s') ∧ p_sink s' = ToPrinter (chars "n=-12, abc: ff%").
Proof.
  destruct (generic_printf_renders (chars "n=%d, %s: %x%%") [VWord (-12); VStr (chars "abc"); VWord 255]
    (mk_pstate (ToPrinter []) 0 0) (chars "n=-12, abc: ff%") eq_refl ltac:(discriminate)) as (s' & E & H & _).
  exists s'. split; [exact E|exact H].
Defined.

(** The C library's [snprintf] writes the formatted text when it has at most [num]
    characters and returns its length; otherwise it returns -1 having written
    exactly its first [num] characters, for formats with no padded pointer.  It adds no terminating NUL, and bytes
    outside those it wrote keep their values. *)
Theorem snprintf_correct str m num f args s out :
  byte_mem m → 0 ≤ num < 2 ^ 31 → render f args = Some out → padding f args = 0 →
  byte_list out → Z.of_nat (length out) ≤ INT_MAX →
  ∃ s' m' v, snprintf str m num f args s = Done (v, s') ∧ p_sink s' = ToDest str m' ∧
    let l := take (Z.to_nat num) out in
    v = (if Z.of_nat (length out) <=? num then Z.of_nat (length out) else -1) ∧
    read_bytes m' str (length l) = l ∧
    ∀ a, (a < str ∨ str + Z.of_nat (length l) ≤ a) → m' a = m a.
Proof.
  intros Hm Hn Hr%rendered Hp Hb Hl. rewrite Hp, Z.sub_0_r in Hr. unfold snprintf, vsnprintf, generic_nprintf, with_limit, bind, modify.
  rewrite s32_small by lia. set (l := take (Z.to_nat num) out).
  assert (Hlb : byte_list l) by (by apply Forall_take).
  assert (G : ∃ v r, nprintf_loop (modify (pset_errno EOVERFLOW)) (length f) f args 0
      (mk_pstate (ToDest str m) num (p_errno s)) = Done (v, mk_pstate (emit 0 l (ToDest str m)) r (p_errno s)) ∧
    v = if Z.of_nat (length out) <=? num then Z.of_nat (length out) else -1).
  { destruct (Z.leb_spec (Z.of_nat (length out)) num) as [L|L].
    - eexists _, _. split; [|reflexivity].
      rewrite (loop_all _ (length f) f args 0 (ToDest str m) num _ out _ Hr);
        [|done|lia|lia|unfold admits; lia|by right].
      unfold l. rewrite take_ge by lia. by rewrite Z.add_0_l.
    - eexists _, _. split; [|reflexivity].
      by rewrite (loop_cut _ (length f) f args 0 (ToDest str m) num _ out Hr) by (done || lia). }
  destruct G as (v & r & E & Hv). eexists _, _, v. split; [exact E|]. cbn [p_sink emit]. rewrite Z.add_0_r.
  split; [reflexivity|]. split; [done|]. split; [by apply read_write_bytes|].
  intros a Ha. by apply write_bytes_frame.
Qed.

Lemma snprintf_correct_witness :
  ∃ s' m', snprintf 100 (fun _ => 0) 5 (chars "%s-%u") [VStr (chars "abc"); VWord 1234]
             (mk_pstate (ToPrinter []) 0 0) = Done (-1, s') ∧ p_sink s' = ToDest 100 m' ∧
           read_bytes m' 100 5 = chars "abc-1".
Proof.
  destruct (snprintf_correct 100 (fun _ => 0) 5 (chars "%s-%u") [VStr (chars "abc"); VWord 1234]
    (mk_pstate (ToPrinter []) 0 0) (chars "abc-1234") ltac:(intros a; lia) ltac:(lia) eq_refl eq_refl
    ltac:(repeat constructor; cbn; lia) ltac:(discriminate)) as (s' & m' & v & E & Hs & Hv & Hr & _).
  exists s', m'. rewrite E. cbn in Hv. subst v. split; [reflexivity|]. split; [exact Hs|exact Hr].
Defined.

(** ** The limit is never exceeded *)

(** Memory has not changed outside the [n] bytes at [dest]. *)
Definition confined (dest n : Z) (m : mem) (o : outcome (Z * pstate)) : Prop :=
  match o with
  | Done (_, s) => ∃ m', p_sink s = ToDest dest m' ∧ ∀ a, (a < dest ∨ dest + n ≤ a) → m' a = m a
  | Panic _ | Hang => True
  end.

Section limits.
Context (ov : M pstate unit) (dest n : Z) (m0 : mem).
Context (Hov : ∀ s, ∃ e, ov s = Done (tt, pset_errno e s)) (Hn : n < 2 ^ 31).

(** A state in which [r] characters may still be written, the next one at [w]. *)
Definition within (w r : Z) (m : mem) : Prop :=
  0 ≤ w ∧ 0 ≤ r ∧ w + r ≤ n ∧ ∀ a : Z, (a < dest ∨ dest + n ≤ a) → m a = m0 a.

Lemma print_within data w r m e :
  within w r m →
  ∃ (b : bool) m', print w data (mk_pstate (ToDest dest m) r e) =
      Done (b, mk_pstate (ToDest dest m') (if b then r - Z.of_nat (length data) else 0) e) ∧
    (b = true → Z.of_nat (length data) ≤ r) ∧ ∀ a, (a < dest ∨ dest + n ≤ a) → m' a = m0 a.
Proof.
  intros (Hw & Hr & Hs & Hf). destruct (Z.le_gt_cases (Z.of_nat (length data)) r) as [L|L].
  - exists true. eexists. rewrite print_all by (unfold admits; lia). cbn [emit]. split; [reflexivity|]. split; [done|].
    intros a Ha. rewrite write_bytes_frame by lia. by apply Hf.
  - exists false. eexists. rewrite print_cut by lia. cbn [emit]. split; [reflexivity|]. split; [done|].
    intros a Ha. rewrite write_bytes_frame; [by apply Hf|]. rewrite length_take. lia.
Qed.

Lemma overflow_confined w r m e :
  within w r m → confined dest n m0 ((ov ;;; ret (-1)) (mk_pstate (ToDest dest m) r e)).
Proof.
  intros (_ & _ & _ & Hf). destruct (Hov (mk_pstate (ToDest dest m) r e)) as (e' & E).
  rewrite (bind_run _ _ _ _ _ E). cbn. by exists m.
Qed.

(** The rest of the format, from any state the text leaves. *)
Definition goes_on (next : Z → M pstate Z) : Prop :=
  ∀ w r m e, within w r m → confined dest n m0 (next w (mk_pstate (ToDest dest m) r e)).

Lemma convert_confined text next w r m e :
  goes_on next → within w r m → confined dest n m0 (convert ov text w next (mk_pstate (ToDest dest m) r e)).
Proof.
  intros Hg Hw. unfold convert. destruct (_ <? _); [by apply (overflow_confined w r m)|].
  destruct (print_within text w r m e Hw) as ([] & m' & E & Hb & Hf); rewrite (bind_run _ _ _ _ _ E).
  - apply Hg. specialize (Hb eq_refl). destruct Hw as (? & ? & ? & _). repeat split; [lia|lia|lia|done].
  - cbn. by exists m'.
Qed.

Lemma zeroes_within k w e : ∀ r m,
  within w r m →
  ∃ b r' m', print_zeroes k w (mk_pstate (ToDest dest m) r e) = Done (b, mk_pstate (ToDest dest m') r' e) ∧
    within w r' m'.
Proof.
  induction k as [|k IH]; intros r m Hw; cbn [print_zeroes]; [by exists true, r, m|].
  destruct (print_within [48] w r m e Hw) as ([] & m' & E & Hb & Hf); rewrite (bind_run _ _ _ _ _ E).
  - apply IH. specialize (Hb eq_refl). cbn [length] in *. destruct Hw as (? & ? & ? & _). repeat split; [lia|lia|lia|done].
  - exists false, 0, m'. split; [done|]. destruct Hw as (? & ? & ? & _). repeat split; [lia|lia|lia|done].
Qed.

Lemma pointer_confined text next w r m e :
  goes_on next → within w r m → confined dest n m0 (convert_pointer ov text w next (mk_pstate (ToDest dest m) r e)).
Proof.
  intros Hg Hw. unfold convert_pointer. destruct (_ <? _); [by apply (overflow_confined w r m)|].
  destruct (zeroes_within (Z.to_nat (8 - Z.of_nat (length text))) w e r m Hw) as ([] & r' & m' & E & Hw');
    rewrite (bind_run _ _ _ _ _ E); cbn [negb]; [|cbn; exists m'; split; [done|apply Hw']].
  destruct (print_within text w r' m' e Hw') as ([] & m2 & E2 & Hb & Hf); rewrite (bind_run _ _ _ _ _ E2).
  - apply Hg. specialize (Hb eq_refl). destruct Hw' as (? & ? & ? & _). repeat split; [lia|lia|lia|done].
  - cbn. by exists m2.
Qed.

Lemma loop_confined fuel : ∀ f args, goes_on (nprintf_loop ov fuel f args).
Proof.
  induction fuel as [|fuel IH]; intros f args w r m e Hw; (destruct f as [|c0 f]; cbn [nprintf_loop];
    [cbn; exists m; split; [done|apply Hw]|]); [done|].
  destruct (_ || _); [by apply convert_confined|].
  destruct f as [|c f]; [by apply convert_confined|].
  destruct args as [|a args]; [case_bool_decide; [done|by apply convert_confined]|].
  repeat (match goal with |- context [if ?b then _ else _] => destruct b end;
          [destruct a; first [done | by apply convert_confined | by apply pointer_confined]|]).
  by apply convert_confined.
Qed.
End limits.

(** C40: whatever the format and the arguments, [ksnprintf] and [snprintf] write no byte
    outside the [n] bytes of the buffer they were given. *)
Theorem snprintf_bounds dest m n f args s :
  0 ≤ n < 2 ^ 31 →
  confined dest n m (ksnprintf dest m n f args s) ∧ confined dest n m (snprintf dest m n f args s).
Proof.
  intros Hn. unfold ksnprintf, kernel_generic_nprintf, snprintf, vsnprintf, generic_nprintf, with_limit, bind, modify.
  rewrite s32_small by lia. split; apply loop_confined; try lia; try (repeat split; lia || done).
  - intros s'. exists (p_errno s'). by destruct s'.
  - intros s'. by exists EOVERFLOW.
Qed.

Lemma snprintf_bounds_witness :
  confined 100 4 (fun _ => 7) (ksnprintf 100 (fun _ => 7) 4 (chars "%p!") [VWord 48879] (mk_pstate (ToPrinter []) 0 0)).
Proof. exact (proj1 (snprintf_bounds 100 (fun _ => 7) 4 (chars "%p!") [VWord 48879] (mk_pstate (ToPrinter []) 0 0)
  ltac:(lia))). Defined.
