(* ===== verification/Stdio.v ===== *)
(** * libc/unistd.c and libc/stdio/stream.c: system calls and buffered streams

    A process's memory, its [errno] and the stream an operation is given, over a
    world that the system calls change.  The trap into the kernel is a parameter,
    [syscall]; what the streams rely on is [writes_all]: a write system call takes
    all the bytes it is given.  A loop that fills and flushes the buffer moves at
    least one byte per iteration when the buffer has room for one, so one more
    iteration than there are bytes is enough. *)

From stdpp Require Import base list strings.
From Stdlib Require Import ZArith Lia.
From S2P Require Import Prelude Memory KUtils LibcString.

(** ** Process state *)

Definition EUNSPEC : Z := 2.
Definition EOF : Z := -1.
Definition SEEK_CUR : Z := 2.
Definition NEWLINE : Z := 10.

(** [enum file_buf_mode]. *)
Definition FBM_OVERFLOW : Z := 0.
Definition FBM_NEWLINE : Z := 1.
Definition FBM_FLUSH : Z := 2.

Record FILE := mk_file {
  f_fd : Z;
  f_flags : Z;
  f_buf_mode : Z;
  f_buf_foreign : bool;
  f_buf : Z;
  f_buf_size : Z;
  f_num : Z;
}.

Definition fset_num (n : Z) (f : FILE) : FILE :=
  mk_file (f_fd f) (f_flags f) (f_buf_mode f) (f_buf_foreign f) (f_buf f) (f_buf_size f) n.

Section stdio.
Context {W : Type}.

Record ustate := mk_ustate { u_mem : mem; u_errno : Z; u_stream : FILE; u_world : W }.

Definition uset_mem (m : mem) (s : ustate) : ustate := mk_ustate m (u_errno s) (u_stream s) (u_world s).
Definition uset_errno (e : Z) (s : ustate) : ustate := mk_ustate (u_mem s) e (u_stream s) (u_world s).
Definition uset_stream (f : FILE) (s : ustate) : ustate := mk_ustate (u_mem s) (u_errno s) f (u_world s).
Definition uset_world (w : W) (s : ustate) : ustate := mk_ustate (u_mem s) (u_errno s) (u_stream s) w.

(** [int $n] with up to three arguments. *)
Context (syscall : Z → Z → Z → Z → M ustate Z).

(** ** unistd.c *)

Definition set_errno_and_convert (r : Z) : M ustate Z :=
  if r <? 0 then modify (uset_errno (s32 (- r))) ;;; ret (-1) else ret r.

Definition wait (status : Z) : M ustate Z :=
  r <- syscall SYSCALL_WAIT status 0 0 ;; set_errno_and_convert r.
Definition fork : M ustate Z := r <- syscall SYSCALL_FORK 0 0 0 ;; set_errno_and_convert r.
Definition getpid : M ustate Z := r <- syscall SYSCALL_GETPID 0 0 0 ;; set_errno_and_convert r.
Definition brk (ptr : Z) : M ustate Z := r <- syscall SYSCALL_BRK ptr 0 0 ;; set_errno_and_convert r.
(** The result is cast to a pointer. *)
Definition sbrk (increment : Z) : M ustate Z :=
  r <- syscall SYSCALL_SBRK increment 0 0 ;; p <- set_errno_and_convert r ;; ret (u32 p).
Definition open (path flags : Z) : M ustate Z :=
  r <- syscall SYSCALL_OPEN path flags 0 ;; set_errno_and_convert r.
Definition close (fd : Z) : M ustate Z := r <- syscall SYSCALL_CLOSE fd 0 0 ;; set_errno_and_convert r.
Definition read (fd buf count : Z) : M ustate Z :=
  r <- syscall SYSCALL_READ fd buf count ;; set_errno_and_convert r.
Definition write (fd buf count : Z) : M ustate Z :=
  r <- syscall SYSCALL_WRITE fd buf count ;; set_errno_and_convert r.
Definition lseek (fd offset whence : Z) : M ustate Z :=
  r <- syscall SYSCALL_LSEEK fd offset whence ;; set_errno_and_convert r.

(** ** stream.c *)

Definition stream : M ustate FILE := gets u_stream.
Definition upd_stream (f : FILE → FILE) : M ustate unit := modify (fun s => uset_stream (f (u_stream s)) s).

Definition fseek (offset origin : Z) : M ustate Z :=
  f <- stream ;;
  r <- lseek (f_fd f) offset origin ;;
  if r <? 0 then modify (uset_errno (s32 (- r))) ;;; ret (-1) else ret 0.

Definition ftell : M ustate Z :=
  f <- stream ;;
  r <- lseek (f_fd f) 0 SEEK_CUR ;;
  if r <? 0 then modify (uset_errno (s32 (- r))) ;;; ret (-1) else ret r.

Definition fread (ptr size nmemb : Z) : M ustate Z :=
  if (size =? 0) || (nmemb =? 0) then ret 0 else
  f <- stream ;;
  r <- read (f_fd f) ptr (u32 (size * nmemb)) ;;
  if r <? 0 then modify (uset_errno (s32 (- r))) ;;; ret 0 else ret (u32 (size * nmemb)).

Definition fwrite_flush (ptr size nmemb : Z) : M ustate Z :=
  f <- stream ;;
  r <- write (f_fd f) ptr (u32 (size * nmemb)) ;;
  if r <? 0 then modify (uset_errno (s32 (- r))) ;;; ret 0 else ret (r / size).

(** Writing the buffer out; [false] on an error. *)
Definition flush_buffer : M ustate bool :=
  f <- stream ;;
  r <- write (f_fd f) (f_buf f) (f_num f) ;;
  if r <? 0 then modify (uset_errno (s32 (- r))) ;;; ret false
  else upd_stream (fset_num 0) ;;; ret true.

(** [memcpy(stream->buf + stream->num, ptr, batch); stream->num += batch]. *)
Definition fill_buffer (ptr batch : Z) : M ustate unit :=
  f <- stream ;;
  modify (fun s => uset_mem (memcpy (u_mem s) (f_buf f + f_num f) ptr batch) s) ;;;
  upd_stream (fset_num (u32 (f_num f + batch))).

(** The loop of [fwrite_newline]; [loc] tells whether a newline was found. *)
Fixpoint newline_loop (fuel : nat) (ptr nmemb : Z) (loc : bool) (total_size written_size : Z) : M ustate Z :=
  match fuel with
  | O => hang
  | S fuel' =>
      f <- stream ;;
      ok <- (if loc || (f_num f =? f_buf_size f) then flush_buffer else ret true) ;;
      if negb ok then ret 0 else
      if total_size =? 0 then ret (written_size / nmemb) else
      f <- stream ;;
      m <- gets u_mem ;;
      let batch := kmin total_size (u32 (f_buf_size f - f_num f)) in
      let found := memchr m (ptr + written_size) NEWLINE batch in
      let batch := match found with Some p => p - (ptr + written_size) + 1 | None => batch end in
      fill_buffer (ptr + written_size) batch ;;;
      newline_loop fuel' ptr nmemb (bool_decide (is_Some found)) (total_size - batch) (written_size + batch)
  end.

Definition fwrite_newline (fuel : nat) (ptr size nmemb : Z) : M ustate Z :=
  newline_loop fuel ptr nmemb false (u32 (size * nmemb)) 0.

Fixpoint overflow_loop (fuel : nat) (ptr nmemb total_size written_size : Z) : M ustate Z :=
  match fuel with
  | O => hang
  | S fuel' =>
      f <- stream ;;
      ok <- (if f_num f =? f_buf_size f then flush_buffer else ret true) ;;
      if negb ok then ret 0 else
      if total_size =? 0 then ret (written_size / nmemb) else
      f <- stream ;;
      let batch := kmin total_size (u32 (f_buf_size f - f_num f)) in
      fill_buffer (ptr + written_size) batch ;;;
      overflow_loop fuel' ptr nmemb (total_size - batch) (written_size + batch)
  end.

Definition fwrite_overflow (fuel : nat) (ptr size nmemb : Z) : M ustate Z :=
  overflow_loop fuel ptr nmemb (u32 (size * nmemb)) 0.

Definition fwrite (fuel : nat) (ptr size nmemb : Z) : M ustate Z :=
  if (size =? 0) || (nmemb =? 0) then ret 0 else
  f <- stream ;;
  if f_buf_mode f =? FBM_FLUSH then fwrite_flush ptr size nmemb
  else if f_buf_mode f =? FBM_NEWLINE then fwrite_newline fuel ptr size nmemb
  else if f_buf_mode f =? FBM_OVERFLOW then fwrite_overflow fuel ptr size nmemb
  else modify (uset_errno EUNSPEC) ;;; ret 0.

(** [fwrite] returns a [size_t]: it is negative only after the conversion to int. *)
Definition fputs (fuel : nat) (str : Z) : M ustate Z :=
  m <- gets u_mem ;;
  match strlen fuel m str with
  | None => hang
  | Some len => r <- fwrite fuel str 1 len ;; let r := s32 r in if r <? 0 then ret EOF else ret r
  end.

(** [c] is the address of the local character. *)
Definition fputc (fuel : nat) (c character : Z) : M ustate Z :=
  modify (fun s => uset_mem (store8 (u_mem s) c character) s) ;;;
  r <- fwrite fuel c 1 1 ;;
  if s32 r <? 0 then ret EOF else ret character.

Definition fflush : M ustate Z :=
  ok <- flush_buffer ;;
  if (ok : bool) then ret 0 else ret EOF.

End stdio.
Arguments ustate : clear implicits.
Arguments mk_ustate {W}.

(** ** Lemmas *)

Section proofs.
Context {W : Type} (syscall : Z → Z → Z → Z → M (ustate W) Z) (log : W → list Z) (fd : Z).

(** The write system call takes all the bytes it is given and appends them to what
    was written to the file; it changes neither the process's memory nor its
    variables. *)
Definition writes_all : Prop := ∀ s buf count, 0 ≤ count < 2 ^ 31 →
  ∃ w, syscall SYSCALL_WRITE fd buf count s = Done (count, uset_world w s) ∧
       log w = log (u_world s) ++ read_bytes (u_mem s) buf (Z.to_nat count).

Context (Hwrite : writes_all).

(** The bytes in the stream's buffer, and all the bytes the stream was given. *)
Definition pending (s : ustate W) : list Z :=
  read_bytes (u_mem s) (f_buf (u_stream s)) (Z.to_nat (f_num (u_stream s))).
Definition given (s : ustate W) : list Z := log (u_world s) ++ pending s.

Record stream_ok (s : ustate W) : Prop := {
  so_mem : byte_mem (u_mem s);
  so_fd : f_fd (u_stream s) = fd;
  so_size : 0 < f_buf_size (u_stream s) < 2 ^ 31;
  so_num : 0 ≤ f_num (u_stream s) ≤ f_buf_size (u_stream s);
}.

(** Two states of the same stream: only the buffer's bytes, its fill and the file
    differ. *)
Definition same_stream (s s' : ustate W) : Prop :=
  u_stream s' = fset_num (f_num (u_stream s')) (u_stream s) ∧ u_errno s' = u_errno s ∧
  ∀ a, (a < f_buf (u_stream s) ∨ f_buf (u_stream s) + f_buf_size (u_stream s) ≤ a) → u_mem s' a = u_mem s a.

Lemma same_stream_refl s : same_stream s s.
Proof. split; [by destruct (u_stream s)|done]. Qed.

Lemma same_stream_trans s1 s2 s3 : same_stream s1 s2 → same_stream s2 s3 → same_stream s1 s3.
Proof.
  intros (A1 & A2 & A3) (B1 & B2 & B3). split; [rewrite B1, A1; done|]. split; [congruence|].
  intros a Ha. rewrite B3; [by apply A3|]. rewrite A1. exact Ha.
Qed.

(** The caller's bytes are not in the stream's buffer. *)
Definition off_buffer (s : ustate W) (p n : Z) : Prop :=
  p + n ≤ f_buf (u_stream s) ∨ f_buf (u_stream s) + f_buf_size (u_stream s) ≤ p.

Lemma off_buffer_bytes s s' p n k q :
  same_stream s s' → off_buffer s p n → p ≤ q → q + Z.of_nat k ≤ p + n →
  read_bytes (u_mem s') q k = read_bytes (u_mem s) q k.
Proof.
  intros (_ & _ & H) Ho Hp Hk. unfold off_buffer in Ho. apply read_bytes_ext. intros a Ha. apply H. lia.
Qed.

Lemma off_buffer_same s s' p n : same_stream s s' → off_buffer s p n → off_buffer s' p n.
Proof. intros (E & _). unfold off_buffer. by rewrite E. Qed.

Lemma sys_write_run buf count s :
  0 ≤ count < 2 ^ 31 →
  ∃ w, write syscall fd buf count s = Done (count, uset_world w s) ∧
       log w = log (u_world s) ++ read_bytes (u_mem s) buf (Z.to_nat count).
Proof.
  intros Hc. destruct (Hwrite s buf count Hc) as (w & E & Hl). exists w. split; [|done].
  unfold write. rewrite (bind_run _ _ _ _ _ E). unfold set_errno_and_convert.
  by rewrite (proj2 (Z.ltb_ge count 0)) by lia.
Qed.

Lemma buffer_flush_run s :
  stream_ok s →
  ∃ s', flush_buffer syscall s = Done (true, s') ∧ stream_ok s' ∧ same_stream s s' ∧
        given s' = given s ∧ pending s' = [] ∧ f_num (u_stream s') = 0.
Proof.
  intros [H1 H2 H3 H4]. destruct (sys_write_run (f_buf (u_stream s)) (f_num (u_stream s)) s ltac:(lia)) as (w & E & Hl).
  eexists. split.
  { unfold flush_buffer, stream, bind at 1, gets. rewrite H2. rewrite (bind_run _ _ _ _ _ E).
    rewrite (proj2 (Z.ltb_ge _ 0)) by lia. reflexivity. }
  cbn. split; [split; cbn; done || lia|]. split; [split; [by destruct (u_stream s)|done]|]. split; [|done].
  unfold given, pending. cbn. by rewrite app_nil_r, Hl.
Qed.

Lemma buffer_fill_run s p b :
  stream_ok s → 0 ≤ b ≤ f_buf_size (u_stream s) - f_num (u_stream s) → off_buffer s p b →
  ∃ s', fill_buffer p b s = Done (tt, s') ∧ stream_ok s' ∧ same_stream s s' ∧ u_world s' = u_world s ∧
        pending s' = pending s ++ read_bytes (u_mem s) p (Z.to_nat b) ∧
        f_num (u_stream s') = f_num (u_stream s) + b.
Proof.
  intros [H1 H2 H3 H4] Hb Ho. unfold off_buffer in Ho.
  eexists. split; [unfold fill_buffer, stream, bind, gets, modify, upd_stream; reflexivity|].
  cbn. rewrite u32_small by lia.
  assert (Hd : ∀ d, f_buf (u_stream s) ≤ d → d + b ≤ f_buf (u_stream s) + f_buf_size (u_stream s) →
    d + b ≤ p ∨ p + b ≤ d) by lia.
  specialize (Hd (f_buf (u_stream s) + f_num (u_stream s)) ltac:(lia) ltac:(lia)).
  split; [split; cbn; try done; [by apply copy_up_byte|lia]|].
  split; [split; [done|]; split; [done|]; intros a Ha; apply memcpy_out; try done; lia|].
  split; [done|]. split; [|done]. unfold pending. cbn.
  replace (Z.to_nat (f_num (u_stream s) + b)) with (Z.to_nat (f_num (u_stream s)) + Z.to_nat b)%nat by lia.
  rewrite read_bytes_app. f_equal.
  - apply read_bytes_ext. intros a Ha. apply memcpy_out; try done; lia.
  - apply list_eq. intros i. destruct (decide (i < Z.to_nat b)%nat).
    + rewrite !read_bytes_lookup by done. f_equal.
      rewrite Z2Nat.id by lia. apply memcpy_in; try done; lia.
    + rewrite !lookup_ge_None_2; rewrite ?length_read_bytes; try done; lia.
Qed.

(** The loops move [total] bytes from [q] on into the stream. *)
Definition moved (s s' : ustate W) (q total : Z) : Prop :=
  stream_ok s' ∧ same_stream s s' ∧ given s' = given s ++ read_bytes (u_mem s) q (Z.to_nat total).

Lemma moved_step s s1 s2 s3 q b total :
  stream_ok s1 → same_stream s s1 → given s1 = given s → 0 ≤ b ≤ total → off_buffer s q total →
  stream_ok s2 → same_stream s1 s2 → u_world s2 = u_world s1 →
  pending s2 = pending s1 ++ read_bytes (u_mem s1) q (Z.to_nat b) →
  moved s2 s3 (q + b) (total - b) → moved s s3 q total.
Proof.
  intros A1 A2 A3 Hb Ho B1 B2 B3 B4 (C1 & C2 & C3). split; [done|].
  pose proof (same_stream_trans _ _ _ A2 B2) as AB. split; [by apply (same_stream_trans s s2 s3)|].
  rewrite C3. unfold given in *. rewrite B3, B4, app_assoc, A3, <- app_assoc. f_equal.
  replace (Z.to_nat total) with (Z.to_nat b + Z.to_nat (total - b))%nat by lia. rewrite read_bytes_app.
  rewrite Z2Nat.id by lia.
  rewrite (off_buffer_bytes s s1 q total), (off_buffer_bytes s s2 q total) by (done || lia). done.
Qed.

Lemma batch_size total room : 0 < total < 2 ^ 32 → 0 < room < 2 ^ 31 → 
  kmin total (u32 room) = Z.min total room.
Proof. intros Ht Hr. rewrite u32_small by lia. unfold kmin. destruct (Z.gtb_spec total room); lia. Qed.

Lemma overflow_loop_run ptr nmemb fuel : ∀ s total written,
  stream_ok s → off_buffer s (ptr + written) total → 0 ≤ total < 2 ^ 32 → 0 ≤ written → (Z.to_nat total < fuel)%nat →
  ∃ s', overflow_loop syscall fuel ptr nmemb total written s = Done ((written + total) / nmemb, s') ∧
        moved s s' (ptr + written) total ∧ f_num (u_stream s') < f_buf_size (u_stream s').
Proof.
  induction fuel as [|fuel IH]; intros s total written Hok Ho Ht Hw Hf; [lia|]. cbn [overflow_loop].
  unfold stream at 1, bind at 1, gets.
  assert (Hfl : ∃ s1, (if f_num (u_stream s) =? f_buf_size (u_stream s) then flush_buffer syscall else ret true) s =
      Done (true, s1) ∧ stream_ok s1 ∧ same_stream s s1 ∧ given s1 = given s ∧ f_num (u_stream s1) < f_buf_size (u_stream s1)).
  { destruct (Z.eqb_spec (f_num (u_stream s)) (f_buf_size (u_stream s))) as [E|E].
    - destruct (buffer_flush_run s Hok) as (s1 & E1 & G1 & G2 & G3 & _ & G5). exists s1. pose proof G1 as [? ? ? ?].
      repeat (split; [done|]). lia.
    - exists s. pose proof Hok as [? ? ? ?]. pose proof (same_stream_refl s). repeat (split; [done|]). lia. }
  destruct Hfl as (s1 & E1 & Hok1 & Hs1 & Hg1 & Hn1). rewrite (bind_run _ _ _ _ _ E1). cbn [negb].
  destruct (Z.eqb_spec total 0) as [->|E0].
  - exists s1. rewrite Z.add_0_r. split; [done|]. split; [|done]. split; [done|]. split; [done|]. cbn. by rewrite app_nil_r.
  - unfold stream at 1, bind at 1, gets. pose proof Hok1 as [? ? ? ?].
    rewrite batch_size by lia. set (b := Z.min total _).
    pose proof (off_buffer_same _ _ _ _ Hs1 Ho) as Ho1.
    destruct (buffer_fill_run s1 (ptr + written) b Hok1 ltac:(lia) ltac:(unfold off_buffer in *; lia)) as (s2 & E2 & Hok2 & Hs2 & Hw2 & Hp2 & Hn2).
    rewrite (bind_run _ _ _ _ _ E2).
    pose proof (off_buffer_same _ _ _ _ Hs2 Ho1) as Ho2.
    destruct (IH s2 (total - b) (written + b) Hok2) as (s3 & E3 & Hm3 & Hlt); [unfold off_buffer in *; lia|lia|lia|lia|].
    exists s3. rewrite E3. split; [do 3 f_equal; lia|]. split; [|done].
    replace (ptr + (written + b)) with (ptr + written + b) in Hm3 by lia.
    apply (moved_step s s1 s2 s3 (ptr + written) b total); try done. lia.
Qed.

Lemma read_no_newline m p n :
  (∀ k : nat, (k < n)%nat → m (p + Z.of_nat k) ≠ NEWLINE) → NEWLINE ∉ read_bytes m p n.
Proof.
  intros H Hin. apply list_elem_of_lookup in Hin as [i Hi]. pose proof (lookup_lt_Some _ _ _ Hi) as Hl.
  rewrite length_read_bytes in Hl. rewrite read_bytes_lookup in Hi by done. injection Hi as Hi. by apply (H i).
Qed.

Lemma newline_loop_run ptr nmemb fuel : ∀ s (loc : bool) total written,
  stream_ok s → off_buffer s (ptr + written) total → 0 ≤ total < 2 ^ 32 → 0 ≤ written → (Z.to_nat total < fuel)%nat →
  (loc = false → NEWLINE ∉ pending s) →
  ∃ s', newline_loop syscall fuel ptr nmemb loc total written s = Done ((written + total) / nmemb, s') ∧
        moved s s' (ptr + written) total ∧ NEWLINE ∉ pending s'.
Proof.
  induction fuel as [|fuel IH]; intros s loc total written Hok Ho Ht Hw Hf Hnl; [lia|]. cbn [newline_loop].
  unfold stream at 1, bind at 1, gets.
  assert (Hfl : ∃ s1, (if loc || (f_num (u_stream s) =? f_buf_size (u_stream s)) then flush_buffer syscall else ret true) s =
      Done (true, s1) ∧ stream_ok s1 ∧ same_stream s s1 ∧ given s1 = given s ∧
      f_num (u_stream s1) < f_buf_size (u_stream s1) ∧ NEWLINE ∉ pending s1).
  { destruct (loc || _) eqn:E.
    - destruct (buffer_flush_run s Hok) as (s1 & E1 & G1 & G2 & G3 & G4 & G5). exists s1. pose proof G1 as [? ? ? ?].
      rewrite G4. repeat (split; [done || lia|]). apply not_elem_of_nil.
    - apply orb_false_iff in E as [-> E]. apply Z.eqb_neq in E. exists s. pose proof Hok as [? ? ? ?].
      pose proof (same_stream_refl s). repeat (split; [done || lia|]). by apply Hnl. }
  destruct Hfl as (s1 & E1 & Hok1 & Hs1 & Hg1 & Hn1 & Hnl1). rewrite (bind_run _ _ _ _ _ E1). cbn [negb].
  destruct (Z.eqb_spec total 0) as [->|E0].
  - exists s1. rewrite Z.add_0_r. split; [done|]. split; [|done]. split; [done|]. split; [done|]. cbn. by rewrite app_nil_r.
  - unfold stream at 1, bind at 1 2, gets. pose proof Hok1 as [? ? ? ?].
    rewrite batch_size by lia. set (b0 := Z.min total _).
    pose proof (off_buffer_same _ _ _ _ Hs1 Ho) as Ho1.
    set (found := memchr (u_mem s1) (ptr + written) NEWLINE b0).
    set (b := match found with Some p => p - (ptr + written) + 1 | None => b0 end).
    assert (Hb : 1 ≤ b ≤ b0 ∧ (found = None → NEWLINE ∉ read_bytes (u_mem s1) (ptr + written) (Z.to_nat b))).
    { pose proof (memchr_loop_spec (Z.to_nat b0) 0 (u_mem s1) (ptr + written) NEWLINE) as Hm.
      unfold b, found, memchr in *. destruct (memchr_loop _ 0 _ _ _) as [p|].
      - destruct Hm as (j & Hj & -> & _). split; [lia|done].
      - split; [lia|]. intros _. apply read_no_newline. intros k Hk. specialize (Hm k Hk). by rewrite Z.add_0_r in Hm. }
    destruct Hb as [Hb Hbn].
    destruct (buffer_fill_run s1 (ptr + written) b Hok1 ltac:(lia) ltac:(unfold off_buffer in *; lia)) as (s2 & E2 & Hok2 & Hs2 & Hw2 & Hp2 & Hn2).
    rewrite (bind_run _ _ _ _ _ E2).
    pose proof (off_buffer_same _ _ _ _ Hs2 Ho1) as Ho2.
    destruct (IH s2 (bool_decide (is_Some found)) (total - b) (written + b) Hok2) as (s3 & E3 & Hm3 & Hlt);
      [unfold off_buffer in *; lia|lia|lia|lia| |].
    { intros Hbd. apply bool_decide_eq_false in Hbd. rewrite Hp2, elem_of_app. intros [G|G]; [done|].
      apply Hbn in G; [done|]. by apply eq_None_not_Some. }
    exists s3. rewrite E3. split; [do 3 f_equal; lia|]. split; [|done].
    replace (ptr + (written + b)) with (ptr + written + b) in Hm3 by lia.
    apply (moved_step s s1 s2 s3 (ptr + written) b total); try done. lia.
Qed.
Lemma fwrite_moves s ptr size nmemb fuel :
  stream_ok s → f_buf_mode (u_stream s) = FBM_NEWLINE ∨ f_buf_mode (u_stream s) = FBM_OVERFLOW →
  0 < size → 0 < nmemb → size * nmemb < 2 ^ 32 → off_buffer s ptr (size * nmemb) →
  (Z.to_nat (size * nmemb) < fuel)%nat → (f_buf_mode (u_stream s) = FBM_NEWLINE → NEWLINE ∉ pending s) →
  ∃ s', fwrite syscall fuel ptr size nmemb s = Done (size, s') ∧ moved s s' ptr (size * nmemb) ∧
    (f_buf_mode (u_stream s) = FBM_NEWLINE → NEWLINE ∉ pending s').
Proof.
  intros Hok Hmode Hs Hn Hb Ho Hf Hnl. unfold fwrite.
  rewrite (proj2 (Z.eqb_neq size 0)), (proj2 (Z.eqb_neq nmemb 0)) by lia. cbn [orb].
  unfold stream, bind at 1, gets. assert (Hdiv : (0 + size * nmemb) / nmemb = size) by (rewrite Z.add_0_l; apply Z.div_mul; lia).
  rewrite <- (Z.add_0_r ptr) in Ho |- *. destruct Hmode as [Hmo|Hmo]; rewrite Hmo; cbn.
  - unfold fwrite_newline. rewrite u32_small by lia. rewrite Z.add_0_r.
    destruct (newline_loop_run ptr nmemb fuel s false (size * nmemb) 0 Hok Ho ltac:(lia) ltac:(lia) Hf
      (fun _ => Hnl Hmo)) as (s' & E & G & G4).
    exists s'. rewrite E, Hdiv. rewrite Z.add_0_r in G. done.
  - unfold fwrite_overflow. rewrite u32_small by lia. rewrite Z.add_0_r.
    destruct (overflow_loop_run ptr nmemb fuel s (size * nmemb) 0 Hok Ho ltac:(lia) ltac:(lia) Hf) as (s' & E & G & _).
    exists s'. rewrite E, Hdiv. rewrite Z.add_0_r in G. done.
Qed.
End proofs.

(** ** Properties *)

(** Writing to a buffered stream loses, duplicates and reorders nothing: [fwrite]
    terminates, the bytes written to the file followed by those in the buffer are
    the ones before the call followed by the caller's, and in newline mode no
    newline stays behind in the buffer.  The buffer never overflows, and no other
    memory changes.  What [fwrite] returns is the size of an item. *)
Theorem fwrite_preserves {W} (syscall : Z → Z → Z → Z → M (ustate W) Z) log fd s ptr size nmemb fuel :
  writes_all syscall log fd → stream_ok fd s →
  f_buf_mode (u_stream s) = FBM_NEWLINE ∨ f_buf_mode (u_stream s) = FBM_OVERFLOW →
  0 < size → 0 < nmemb → size * nmemb < 2 ^ 32 → off_buffer s ptr (size * nmemb) →
  (Z.to_nat (size * nmemb) < fuel)%nat → (f_buf_mode (u_stream s) = FBM_NEWLINE → NEWLINE ∉ pending s) →
  ∃ s', fwrite syscall fuel ptr size nmemb s = Done (size, s') ∧ stream_ok fd s' ∧ same_stream s s' ∧
    given log s' = given log s ++ read_bytes (u_mem s) ptr (Z.to_nat (size * nmemb)) ∧
    (f_buf_mode (u_stream s) = FBM_NEWLINE → NEWLINE ∉ pending s').
Proof.
  intros Hw Hok Hmode Hs Hn Hb Ho Hf Hnl.
  destruct (fwrite_moves syscall log fd Hw s ptr size nmemb fuel Hok Hmode Hs Hn Hb Ho Hf Hnl) as (s' & E & (G1 & G2 & G3) & G4).
  by exists s'.
Qed.

(** [fflush] writes out the whole buffer and empties it. *)
Theorem fflush_empties {W} (syscall : Z → Z → Z → Z → M (ustate W) Z) log fd s :
  writes_all syscall log fd → stream_ok fd s →
  ∃ s', fflush syscall s = Done (0, s') ∧ log (u_world s') = log (u_world s) ++ pending s ∧
        pending s' = [] ∧ stream_ok fd s' ∧ same_stream s s'.
Proof.
  intros Hw Hok. destruct (buffer_flush_run syscall log fd Hw s Hok) as (s' & E & H1 & H2 & H3 & H4 & _).
  exists s'. unfold fflush. rewrite (bind_run _ _ _ _ _ E). split; [done|].
  unfold given in H3. rewrite H4, app_nil_r in H3. done.
Qed.

(** A kernel that records what is written to descriptor 1. *)
Definition example_syscall (n a b c : Z) : M (ustate (list Z)) Z :=
  fun s => if (n =? SYSCALL_WRITE) && (a =? 1)
           then Done (c, uset_world (u_world s ++ read_bytes (u_mem s) b (Z.to_nat c)) s)
           else Done (-1, s).

Lemma example_writes_all : writes_all example_syscall (fun w => w) 1.
Proof. intros s buf count Hc. eexists. split; reflexivity. Qed.

Definition example_stream : ustate (list Z) :=
  mk_ustate (write_bytes (fun _ => 0) 100 (chars "ab" ++ [NEWLINE] ++ chars "cdefg")) 0
    (mk_file 1 0 FBM_NEWLINE false 1000 4 0) [].

Lemma example_stream_ok : stream_ok 1 example_stream.
Proof. split; [apply byte_mem_write; intros a; lia|done|cbn; lia|cbn; lia]. Qed.

Lemma fwrite_preserves_witness :
  ∃ s', fwrite example_syscall 20 100 1 8 example_stream = Done (1, s') ∧
    given (fun w => w) s' = chars "ab" ++ [NEWLINE] ++ chars "cdefg".
Proof.
  destruct (fwrite_preserves example_syscall (fun w => w) 1 example_stream 100 1 8 20%nat example_writes_all
    example_stream_ok (or_introl eq_refl) ltac:(lia) ltac:(lia) ltac:(lia) ltac:(left; cbn; lia) ltac:(lia)
    (fun _ => not_elem_of_nil _)) as (s' & E & _ & _ & G & _).
  exists s'. split; [exact E|exact G].
Defined.

Lemma fflush_empties_witness :
  ∃ s', fflush example_syscall (uset_stream (mk_file 1 0 FBM_NEWLINE false 100 4 2) example_stream) = Done (0, s') ∧
        u_world s' = chars "ab".
Proof.
  destruct (fflush_empties example_syscall (fun w => w) 1
    (uset_stream (mk_file 1 0 FBM_NEWLINE false 100 4 2) example_stream) example_writes_all
    ltac:(split; [apply example_stream_ok|done|cbn; lia|cbn; lia])) as (s' & E & G & _).
  exists s'. split; [exact E|exact G].
Defined.
