(* ===== verification/LibcIo.v ===== *)
(** * libc/stdio/stdout.c, the printf family of stream.c, opening and closing of streams

    [generic_nprintf] of [Printf] hands its characters one by one to [put_one], whose
    result it ignores; here [put_one] is the one of a stream ([fprintf]) or of stdout
    ([printf]), over the buffered streams of [Stdio].  The state's stream is the one
    the operation is given (stdout for [printf]); [tmp] is the address of the character
    parameter whose address [put_one] passes on.  [malloc] and [free] are those of
    stdlib/heap.c. *)

From stdpp Require Import base list strings.
From Stdlib Require Import ZArith Lia.
From S2P Require Import Prelude Memory KUtils LibcString LibcConvert Printf Stdio.

Definition BUFSIZ : Z := 128.
Definition DEFAULT_BUF_MODE : Z := FBM_NEWLINE.
Definition DEFAULT_BUF_SIZE : Z := BUFSIZ.
Definition sizeof_FILE : Z := 28.

(** The three static streams, with the addresses of their buffers. *)
Definition static_stdin (buf : Z) : FILE := mk_file 0 0 DEFAULT_BUF_MODE false buf DEFAULT_BUF_SIZE 0.
Definition static_stdout (buf : Z) : FILE := mk_file 1 0 DEFAULT_BUF_MODE false buf DEFAULT_BUF_SIZE 0.
Definition static_stderr (buf : Z) : FILE := mk_file 2 0 DEFAULT_BUF_MODE false buf DEFAULT_BUF_SIZE 0.

Definition fset_buf (b : Z) (f : FILE) : FILE :=
  mk_file (f_fd f) (f_flags f) (f_buf_mode f) true b (f_buf_size f) (f_num f).

Section io.
Context {W : Type} (syscall : Z → Z → Z → Z → M (ustate W) Z) (fuel : nat).

(** ** Printers *)

(** The [size_t] result becomes an int. *)
Definition stream_put_many (str len : Z) : M (ustate W) Z :=
  r <- fwrite syscall fuel str 1 len ;; ret (s32 r).

Definition stream_put_one (tmp c : Z) : M (ustate W) Z :=
  modify (fun s => uset_mem (store8 (u_mem s) tmp c) s) ;;; stream_put_many tmp 1.

Definition stdout_put_many (str len : Z) : M (ustate W) Z :=
  r <- fwrite syscall fuel str 1 len ;;
  let r := s32 r in
  if r <? 0 then modify (uset_errno (s32 (- r))) ;;; ret (-1) else ret r.

Definition stdout_put_one (tmp c : Z) : M (ustate W) Z :=
  modify (fun s => uset_mem (store8 (u_mem s) tmp c) s) ;;; stdout_put_many tmp 1.

Fixpoint put_chars (put_one : Z → M (ustate W) Z) (l : list Z) : M (ustate W) unit :=
  match l with
  | [] => ret tt
  | c :: l' => put_one c ;;; put_chars put_one l'
  end.

(** [generic_nprintf(&printer, NULL, -1, format, args)].  The formatter sets [errno] only
    when it gives up, after its last character. *)
Definition nprintf_to (put_one : Z → M (ustate W) Z) (format : list Z) (args : list varg) : M (ustate W) Z :=
  match generic_nprintf (ToPrinter []) (-1) format args (mk_pstate (ToPrinter []) 0 0) with
  | Done (r, p) =>
      match p_sink p with
      | ToPrinter out =>
          put_chars put_one out ;;;
          when (negb (p_errno p =? 0)) (modify (uset_errno (p_errno p))) ;;;
          ret r
      | ToDest _ _ => ret r
      end
  | Panic why => kpanic why
  | Hang => hang
  end.

(** ** stream.c *)

Definition vfprintf (tmp : Z) (format : list Z) (args : list varg) : M (ustate W) Z :=
  nprintf_to (stream_put_one tmp) format args.
Definition fprintf := vfprintf.

(** ** stdout.c *)

Definition vprintf (tmp : Z) (format : list Z) (args : list varg) : M (ustate W) Z :=
  nprintf_to (stdout_put_one tmp) format args.
Definition printf := vprintf.

Definition putchar (tmp ic : Z) : M (ustate W) Z := stdout_put_one tmp ic.

Definition puts (tmp : Z) (string : list Z) : M (ustate W) Z := printf tmp (chars "%s" ++ [NEWLINE]) [VStr string].

(** ** Opening and closing *)

Context (malloc : Z → M (ustate W) Z) (free : Z → M (ustate W) unit).

(** The new stream and its address; [None] is NULL. *)
Definition fopen (path : Z) : M (ustate W) (option (Z * FILE)) :=
  fd <- open syscall path 0 ;;
  if fd <? 0 then ret None else
  f <- malloc sizeof_FILE ;;
  buf <- malloc DEFAULT_BUF_SIZE ;;
  ret (Some (f, mk_file fd 0 DEFAULT_BUF_MODE false buf DEFAULT_BUF_SIZE 0)).

Definition fclose (addr : Z) : M (ustate W) Z :=
  f <- stream ;;
  (if f_buf_foreign f then ret tt else free (f_buf f)) ;;;
  free addr ;;;
  r <- close syscall (f_fd f) ;;
  if r <? 0 then modify (uset_errno (s32 (- r))) ;;; ret EOF else ret 0.

Definition setbuf (buf : Z) : M (ustate W) unit :=
  f <- stream ;;
  (if f_buf_foreign f then ret tt else free (f_buf f)) ;;;
  upd_stream (fset_buf buf).

End io.

(** ** Lemmas *)

Section proofs.
Context {W : Type} (syscall : Z → Z → Z → Z → M (ustate W) Z) (log : W → list Z) (fd : Z) (fuel : nat) (tmp : Z).
Context (Hwrite : writes_all syscall log fd) (Hfuel : (1 < fuel)%nat).

(** A line- or block-buffered stream that can be printed to; [tmp] is not in its buffer,
    and in newline mode no line is left in it. *)
Record printable (s : ustate W) : Prop := {
  pr_ok : stream_ok fd s;
  pr_mode : f_buf_mode (u_stream s) = FBM_NEWLINE ∨ f_buf_mode (u_stream s) = FBM_OVERFLOW;
  pr_tmp : off_buffer s tmp 1;
  pr_lines : f_buf_mode (u_stream s) = FBM_NEWLINE → NEWLINE ∉ pending s;
}.

(** [out] went to the stream; only its buffer and [tmp] changed. *)
Record printed (s s' : ustate W) (out : list Z) : Prop := {
  pd_able : printable s';
  pd_given : given log s' = given log s ++ out;
  pd_errno : u_errno s' = u_errno s;
  pd_stream : u_stream s' = fset_num (f_num (u_stream s')) (u_stream s);
  pd_mem : ∀ a, (a < f_buf (u_stream s) ∨ f_buf (u_stream s) + f_buf_size (u_stream s) ≤ a) → a ≠ tmp →
             u_mem s' a = u_mem s a;
}.

Lemma printed_nil s : printable s → printed s s [].
Proof. intros H. split; [done|by rewrite app_nil_r|done|by destruct (u_stream s)|done]. Qed.

Lemma printed_trans s1 s2 s3 l1 l2 : printed s1 s2 l1 → printed s2 s3 l2 → printed s1 s3 (l1 ++ l2).
Proof.
  intros [A1 A2 A3 A4 A5] [B1 B2 B3 B4 B5]. split; [done|by rewrite B2, A2, app_assoc|congruence|by rewrite B4, A4|].
  intros a Ha Ht. rewrite B5; [by apply A5| |done]. rewrite A4. exact Ha.
Qed.

(** One character. *)
Lemma io_put_run s c :
  printable s → 0 ≤ c < 2 ^ 8 →
  ∃ s', fwrite syscall fuel tmp 1 1 (uset_mem (store8 (u_mem s) tmp c) s) = Done (1, s') ∧ printed s s' [c].
Proof.
  intros [[H1 H2 H3 H4] Hm Ht Hl] Hc. set (s1 := uset_mem _ s).
  assert (Hp : pending s1 = pending s).
  { apply read_bytes_ext. intros a Ha. apply store8_ne. unfold off_buffer in Ht. cbn in Ha. lia. }
  assert (Hok : stream_ok fd s1) by (split; cbn; [by apply byte_mem_store8|done..]).
  destruct (fwrite_moves syscall log fd Hwrite s1 tmp 1 1 fuel Hok Hm ltac:(lia) ltac:(lia) ltac:(lia) Ht ltac:(lia))
    as (s' & E & (G1 & (G2 & G3 & G4) & G5) & G6); [by rewrite Hp|].
  exists s'. split; [done|]. split; [split; [done|..]|..].
  - by rewrite G2.
  - unfold off_buffer. by rewrite G2.
  - rewrite G2. exact G6.
  - rewrite G5. unfold given. rewrite Hp. change (read_bytes (u_mem s1) tmp (Z.to_nat (1 * 1))) with [store8 (u_mem s) tmp c tmp].
    by rewrite store8_eq, u8_small.
  - done.
  - done.
  - intros a Ha Hat. rewrite G4 by done. by apply store8_ne.
Qed.

Lemma stream_put_one_run s c :
  printable s → 0 ≤ c < 2 ^ 8 →
  ∃ s', stream_put_one syscall fuel tmp c s = Done (1, s') ∧ printed s s' [c].
Proof.
  intros H Hc. destruct (io_put_run s c H Hc) as (s' & E & P). exists s'. split; [|done].
  unfold stream_put_one, stream_put_many, bind, modify. by rewrite E.
Qed.

Lemma stdout_put_one_run s c :
  printable s → 0 ≤ c < 2 ^ 8 →
  ∃ s', stdout_put_one syscall fuel tmp c s = Done (1, s') ∧ printed s s' [c].
Proof.
  intros H Hc. destruct (io_put_run s c H Hc) as (s' & E & P). exists s'. split; [|done].
  unfold stdout_put_one, stdout_put_many, bind, modify. by rewrite E.
Qed.

(** A printer that takes every character. *)
Definition puts_one (put : Z → M (ustate W) Z) : Prop := ∀ s c, printable s → 0 ≤ c < 2 ^ 8 →
  ∃ s', put c s = Done (1, s') ∧ printed s s' [c].

Lemma put_chars_run put l : puts_one put → ∀ s, printable s → byte_list l →
  ∃ s', put_chars put l s = Done (tt, s') ∧ printed s s' l.
Proof.
  intros Hput. induction l as [|c l IH]; intros s Hs Hl; cbn [put_chars].
  - exists s. split; [done|by apply printed_nil].
  - apply Forall_cons in Hl as [Hc Hl]. destruct (Hput s c Hs Hc) as (s1 & E1 & P1).
    rewrite (bind_run _ _ _ _ _ E1). destruct (IH s1 (pd_able _ _ _ P1) Hl) as (s2 & E2 & P2).
    exists s2. split; [done|]. apply (printed_trans s s1 s2 [c] l P1 P2).
Qed.

Lemma nprintf_to_run put f args out s :
  puts_one put → printable s → render f args = Some out → Z.of_nat (length out) ≤ INT_MAX → byte_list out →
  ∃ s', nprintf_to put f args s = Done (Z.of_nat (length out) - padding f args, s') ∧ printed s s' out.
Proof.
  intros Hput Hs Hr%rendered Hl Hb. unfold nprintf_to, generic_nprintf, with_limit, bind at 1, modify.
  rewrite (loop_all _ (length f) f args 0 (ToPrinter []) (-1) 0 out _ Hr);
    [|done|lia|lia|unfold admits, INT_MAX in *; lia|left; by eexists].
  cbn [p_sink emit p_errno app]. destruct (put_chars_run put out Hput s Hs Hb) as (s' & E & P).
  exists s'. rewrite (bind_run _ _ _ _ _ E). by rewrite Z.add_0_l.
Qed.
End proofs.

(** ** Properties *)

(** C35: printing to a line- or block-buffered stream delivers the formatted text: for
    arguments that fit the format, what reached the file followed by what is in the buffer is
    what it was before followed by the text of [render]; in newline mode every complete line has
    reached the file.  The number returned is that of the characters delivered less that of the
    zeroes that pad pointers ([padding]): for formats without %p the number of characters, as it
    should be, and too small otherwise, which is a defect of the code.
    No memory but the stream's buffer (and the character on its way) changes. *)
Theorem printf_output {W} (syscall : Z → Z → Z → Z → M (ustate W) Z) log fd fuel tmp f args out s :
  writes_all syscall log fd → (1 < fuel)%nat → printable fd tmp s →
  render f args = Some out → Z.of_nat (length out) ≤ INT_MAX → byte_list out →
  let n := Z.of_nat (length out) - padding f args in
  (∃ s', fprintf syscall fuel tmp f args s = Done (n, s') ∧ printed log fd tmp s s' out) ∧
  (∃ s', printf syscall fuel tmp f args s = Done (n, s') ∧ printed log fd tmp s s' out).
Proof.
  intros Hw Hf Hs Hr Hl Hb n. split; apply (nprintf_to_run log fd fuel tmp Hf); try done.
  - intros s1 c. by apply (stream_put_one_run syscall log fd fuel).
  - intros s1 c. by apply (stdout_put_one_run syscall log fd fuel).
Qed.

Definition example_stdout : ustate (list Z) :=
  mk_ustate (fun _ => 0) 0 (static_stdout 1000) [].

Lemma printf_output_witness :
  ∃ s', printf example_syscall 2 500 (chars "%d items" ++ [NEWLINE] ++ chars "%s") [VWord 12; VStr (chars "abc")] example_stdout =
          Done (12, s') ∧ given (fun w => w) s' = chars "12 items" ++ [NEWLINE] ++ chars "abc".
Proof.
  destruct (printf_output example_syscall (fun w => w) 1 2 500 (chars "%d items" ++ [NEWLINE] ++ chars "%s")
    [VWord 12; VStr (chars "abc")] (chars "12 items" ++ [NEWLINE] ++ chars "abc") example_stdout example_writes_all) as [_ (s' & E & [_ G _ _ _])].
  - lia.
  - split; [split; [intros a; cbn; lia|reflexivity|vm_compute; split; reflexivity|vm_compute; split; discriminate]|left; reflexivity|left; vm_compute; discriminate|].
    intros _. apply not_elem_of_nil.
  - reflexivity.
  - discriminate.
  - repeat constructor; vm_compute; discriminate || reflexivity.
  - exists s'. split; [exact E|exact G].
Defined.
