(* ===== verification/LibcHeap.v ===== *)
(** * libc/stdlib/heap.c: the heap of a process

    Blocks are laid out one after the other from the break the process started with,
    each behind a [struct heap_alloc] header (24 bytes: magic1 at 0, prev at 4, next at
    8, size at 12, free at 16, magic2 at 20).  Moving the break is a system call; what
    the heap relies on is [Break].  The Makefile of the library defines LIBC_DEBUG, so
    [malloc] walks all blocks before and after it builds one; a failed assertion
    aborts the program ([Panic]).  A program that allocates, writes to its blocks and
    frees them never aborts and keeps what it wrote. *)

From stdpp Require Import base list strings.
From Stdlib Require Import ZArith Lia.
From S2P Require Import Prelude Memory KUtils LibcString.

Definition HEAP_ALLOC_MAGIC : Z := 0xA110CA73.
Definition sizeof_heap_alloc : Z := 24.

(** The break of a process, as [brk] and [sbrk] of unistd.c move it ([UserBreak] shows that they
    do, over the system calls).  [br_ok] are the states in which there is memory for breaks up to
    [br_limit]: beyond that nothing is said.  [br_fresh]: the break is where the program was
    loaded.  An address from 2^31 on is not returned as such. *)
Class Break (W : Type) := {
  br_brk : Z → M W Z;
  br_sbrk : Z → M W Z;
  br_break : W → Z;
  br_limit : Z;
  br_ok : W → Prop;
  br_fresh : W → Prop;
  br_limit_range : br_limit < 2 ^ 32;
  br_sbrk_0 : ∀ w, br_ok w → br_fresh w → br_break w < 2 ^ 31 →
    ∃ w', br_sbrk 0 w = Done (br_break w, w') ∧ br_ok w' ∧ br_break w' = br_break w;
  br_brk_ok : ∀ w v, br_ok w → br_break w ≤ v ≤ br_limit → ∃ r w', br_brk v w = Done (r, w') ∧ br_ok w' ∧
    (r = 0 ∧ br_break w' = v ∨ r ≠ 0 ∧ br_break w' = br_break w);
}.

Record lheap (W : Type) := mk_lheap {
  lh_mem : mem;
  lh_heap_size : Z;
  lh_cur_size : Z;
  lh_heap : Z;
  lh_first : Z;
  lh_last : Z;
  lh_world : W;
}.
Arguments mk_lheap {W}.
Arguments lh_mem {W}.
Arguments lh_heap_size {W}.
Arguments lh_cur_size {W}.
Arguments lh_heap {W}.
Arguments lh_first {W}.
Arguments lh_last {W}.
Arguments lh_world {W}.

(** Fields of the header at [p]. *)
Definition a_magic1 (m : mem) (p : Z) : Z := load32 m p.
Definition a_prev (m : mem) (p : Z) : Z := load32 m (p + 4).
Definition a_next (m : mem) (p : Z) : Z := load32 m (p + 8).
Definition a_size (m : mem) (p : Z) : Z := load32 m (p + 12).
Definition a_free (m : mem) (p : Z) : bool := negb (load32 m (p + 16) =? 0).
Definition a_magic2 (m : mem) (p : Z) : Z := load32 m (p + 20).

Section operations.
Context {W : Type} {B : Break W}.

Definition lset_mem (m : mem) (s : lheap W) : lheap W :=
  mk_lheap m (lh_heap_size s) (lh_cur_size s) (lh_heap s) (lh_first s) (lh_last s) (lh_world s).
Definition lset_heap_size (n : Z) (s : lheap W) : lheap W :=
  mk_lheap (lh_mem s) n (lh_cur_size s) (lh_heap s) (lh_first s) (lh_last s) (lh_world s).
Definition lset_cur_size (n : Z) (s : lheap W) : lheap W :=
  mk_lheap (lh_mem s) (lh_heap_size s) n (lh_heap s) (lh_first s) (lh_last s) (lh_world s).
Definition lset_heap (p : Z) (s : lheap W) : lheap W :=
  mk_lheap (lh_mem s) (lh_heap_size s) (lh_cur_size s) p (lh_first s) (lh_last s) (lh_world s).
Definition lset_first (p : Z) (s : lheap W) : lheap W :=
  mk_lheap (lh_mem s) (lh_heap_size s) (lh_cur_size s) (lh_heap s) p (lh_last s) (lh_world s).
Definition lset_last (p : Z) (s : lheap W) : lheap W :=
  mk_lheap (lh_mem s) (lh_heap_size s) (lh_cur_size s) (lh_heap s) (lh_first s) p (lh_world s).
Definition lset_world (w : W) (s : lheap W) : lheap W :=
  mk_lheap (lh_mem s) (lh_heap_size s) (lh_cur_size s) (lh_heap s) (lh_first s) (lh_last s) w.

Definition sys {A} (m : M W A) : M (lheap W) A := zoom lh_world lset_world m.
Definition lstore (a v : Z) : M (lheap W) unit := modify (fun s => lset_mem (store32 (lh_mem s) a v) s).

Definition lazily_init_heap : M (lheap W) unit :=
  s <- get ;;
  if lh_heap s =? 0 then p <- sys (br_sbrk 0) ;; modify (lset_heap p) else ret tt.

(** Remove trailing, freed allocations. *)
Fixpoint truncate_loop (fuel : nat) : M (lheap W) unit :=
  s <- get ;;
  if (lh_last s =? 0) || negb (a_free (lh_mem s) (lh_last s)) then ret tt else
  match fuel with
  | O => hang
  | S fuel' =>
      modify (fun s => lset_cur_size (u32 (lh_cur_size s - (sizeof_heap_alloc + a_size (lh_mem s) (lh_last s)))) s) ;;;
      modify (fun s => lset_last (a_prev (lh_mem s) (lh_last s)) s) ;;;
      truncate_loop fuel'
  end.

Definition unsafe_truncate_heap (fuel : nat) : M (lheap W) unit :=
  s <- get ;;
  if lh_last s =? 0 then ret tt else
  truncate_loop fuel ;;;
  s <- get ;;
  if lh_last s =? 0 then modify (lset_first 0) else lstore (lh_last s + 8) 0.

(** The allocation object at [alloc], linked behind the last one. *)
Definition build_alloc (alloc size : Z) : M (lheap W) unit :=
  lstore alloc HEAP_ALLOC_MAGIC ;;;
  lstore (alloc + 12) size ;;;
  lstore (alloc + 16) 0 ;;;
  lstore (alloc + 20) HEAP_ALLOC_MAGIC ;;;
  s <- get ;;
  when (negb (lh_last s =? 0)) (lstore (lh_last s + 8) alloc) ;;;
  s <- get ;;
  lstore (alloc + 4) (lh_last s) ;;;
  lstore (alloc + 8) 0 ;;;
  s <- get ;;
  when (lh_first s =? 0) (modify (lset_first alloc)) ;;;
  modify (lset_last alloc) ;;;
  modify (fun s => lset_cur_size (u32 (lh_cur_size s + (sizeof_heap_alloc + size))) s).

Definition unsafe_check (m : mem) (p : Z) : bool :=
  (a_magic1 m p =? HEAP_ALLOC_MAGIC) && (a_magic2 m p =? HEAP_ALLOC_MAGIC).

(** Assert the magic values of [p] and its successors. *)
Fixpoint check_from (fuel : nat) (p : Z) : M (lheap W) unit :=
  if p =? 0 then ret tt else
  match fuel with
  | O => hang
  | S fuel' =>
      s <- get ;;
      if unsafe_check (lh_mem s) p then check_from fuel' (a_next (lh_mem s) p) else kpanic "assertion failed"
  end.

(** Both loops follow [next]. *)
Definition unsafe_check_all (fuel : nat) : M (lheap W) unit :=
  s <- get ;;
  check_from fuel (lh_first s) ;;;
  s <- get ;;
  check_from fuel (lh_last s).

(** [fuel] bounds the number of blocks that are checked. *)
Definition malloc (fuel : nat) (size : Z) : M (lheap W) Z :=
  lazily_init_heap ;;;
  unsafe_check_all fuel ;;;
  s <- get ;;
  let p := u32 (lh_heap s + lh_cur_size s + sizeof_heap_alloc) in
  let new_size := u32 (lh_cur_size s + sizeof_heap_alloc + size) in
  refused <- (if lh_heap_size s <? new_size then
                r <- sys (br_brk (u32 (lh_heap s + new_size))) ;;
                if negb (r =? 0) then ret true else modify (lset_heap_size new_size) ;;; ret false
              else ret false) ;;
  if (refused : bool) then ret 0 else
  build_alloc (u32 (p - sizeof_heap_alloc)) size ;;;
  unsafe_check_all fuel ;;;
  ret p.

Definition calloc (fuel : nat) (num size : Z) : M (lheap W) Z :=
  p <- malloc fuel (u32 (num * size)) ;;
  when (negb (p =? 0)) (modify (fun s => lset_mem (memset (lh_mem s) p 0 (u32 (num * size))) s)) ;;;
  ret p.

(** [fuel] bounds the number of blocks that are removed. *)
Definition free (fuel : nat) (ptr : Z) : M (lheap W) unit :=
  let alloc := u32 (ptr - sizeof_heap_alloc) in
  lstore (alloc + 16) 1 ;;;
  s <- get ;;
  let next := a_next (lh_mem s) alloc in
  if (next =? 0) || a_free (lh_mem s) next then unsafe_truncate_heap fuel else ret tt.
End operations.

(** ** The heap as a list of blocks, newest first *)

Record ublock := mk_ublock { u_hdr : Z; u_size : Z; u_free : bool }.
Definition u_data (b : ublock) : Z := u_hdr b + sizeof_heap_alloc.
Definition u_end (b : ublock) : Z := u_data b + u_size b.

Fixpoint utiles (base : Z) (bs : list ublock) (fin : Z) : Prop :=
  match bs with
  | [] => fin = base
  | b :: older => fin = u_end b ∧ 0 ≤ u_size b ∧ utiles base older (u_hdr b)
  end.

Definition unewest (bs : list ublock) : Z := match bs with [] => 0 | b :: _ => u_hdr b end.
Fixpoint uoldest (bs : list ublock) : Z :=
  match bs with [] => 0 | [b] => u_hdr b | _ :: older => uoldest older end.

Record uheader (m : mem) (b : ublock) (next prev : Z) : Prop := {
  uh_magic1 : a_magic1 m (u_hdr b) = HEAP_ALLOC_MAGIC;
  uh_prev : a_prev m (u_hdr b) = prev;
  uh_next : a_next m (u_hdr b) = next;
  uh_size : a_size m (u_hdr b) = u_size b;
  uh_free : a_free m (u_hdr b) = u_free b;
  uh_magic2 : a_magic2 m (u_hdr b) = HEAP_ALLOC_MAGIC;
}.

Fixpoint ulinks (m : mem) (next : Z) (bs : list ublock) : Prop :=
  match bs with
  | [] => True
  | b :: older => uheader m b next (unewest older) ∧ ulinks m (u_hdr b) older
  end.

(** The heap of a process whose blocks are [bs]. *)
Record uheap {W} `{Break W} (bs : list ublock) (s : lheap W) : Prop := {
  uo_base : 0 < lh_heap s;
  uo_cur : 0 ≤ lh_cur_size s ≤ lh_heap_size s;
  uo_end : lh_heap s + lh_heap_size s ≤ br_limit;
  uo_ok : br_ok (lh_world s);
  uo_break : br_break (lh_world s) = lh_heap s + lh_heap_size s;
  uo_tiles : utiles (lh_heap s) bs (lh_heap s + lh_cur_size s);
  uo_links : ulinks (lh_mem s) 0 bs;
  uo_first : lh_first s = uoldest bs;
  uo_last : lh_last s = unewest bs;
}.

(** ** Lemmas *)

Lemma utiles_le base bs fin : utiles base bs fin → base ≤ fin.
Proof.
  revert fin. induction bs as [|b bs IH]; intros fin; cbn; [lia|].
  intros (-> & Hs & Ht). apply IH in Ht. unfold u_end, u_data, sizeof_heap_alloc. lia.
Qed.

Lemma utiles_in base bs fin b : utiles base bs fin → b ∈ bs → base ≤ u_hdr b ∧ u_end b ≤ fin ∧ 0 ≤ u_size b.
Proof.
  revert fin. induction bs as [|c bs IH]; intros fin; cbn; [by intros _ ?%elem_of_nil|].
  intros (-> & Hs & Ht) [->|Hb]%elem_of_cons.
  - pose proof (utiles_le _ _ _ Ht). unfold u_end, u_data, sizeof_heap_alloc. lia.
  - destruct (IH _ Ht Hb) as (H1 & H2 & H3). unfold u_end, u_data, sizeof_heap_alloc in *. lia.
Qed.

(** Two blocks are the same or apart. *)
Lemma utiles_apart base bs fin b c :
  utiles base bs fin → b ∈ bs → c ∈ bs → b = c ∨ u_end b ≤ u_hdr c ∨ u_end c ≤ u_hdr b.
Proof.
  revert fin. induction bs as [|d bs IH]; intros fin; cbn; [by intros _ ?%elem_of_nil|].
  intros (-> & Hs & Ht) [->|Hb]%elem_of_cons [->|Hc]%elem_of_cons.
  - by left.
  - right; right. apply (utiles_in _ _ _ _ Ht Hc).
  - right; left. apply (utiles_in _ _ _ _ Ht Hb).
  - by apply (IH _ Ht).
Qed.

Definition in_header (b : ublock) (a : Z) : Prop := u_hdr b ≤ a < u_hdr b + sizeof_heap_alloc.

Lemma uheader_ext m m' b next prev :
  (∀ a, in_header b a → m' a = m a) → uheader m b next prev → uheader m' b next prev.
Proof.
  unfold in_header, sizeof_heap_alloc. intros H [H1 H2 H3 H4 H5 H6].
  unfold a_magic1, a_prev, a_next, a_size, a_free, a_magic2 in *.
  split; unfold a_magic1, a_prev, a_next, a_size, a_free, a_magic2; by rewrite (load32_ext m' m) by (intros x Hx; apply H; lia).
Qed.

Lemma ulinks_ext m m' next bs :
  (∀ b a, b ∈ bs → in_header b a → m' a = m a) → ulinks m next bs → ulinks m' next bs.
Proof.
  revert next. induction bs as [|b bs IH]; intros next H; cbn; [done|]. intros [Hb Hl]. split.
  - apply (uheader_ext m); [|done]. intros a. apply H. by left.
  - apply IH; [|done]. intros c a Hc. apply H. by right.
Qed.

(** Resolve loads from a chain of stores at distinct fields. *)
Ltac fields :=
  repeat first [rewrite load32_store32_eq by lia | rewrite load32_store32_ne by lia].

Definition header_mem (m : mem) (alloc size last : Z) : mem :=
  let m := store32 (store32 (store32 (store32 m alloc HEAP_ALLOC_MAGIC) (alloc + 12) size) (alloc + 16) 0)
             (alloc + 20) HEAP_ALLOC_MAGIC in
  let m := if last =? 0 then m else store32 m (last + 8) alloc in
  store32 (store32 m (alloc + 4) last) (alloc + 8) 0.

Lemma header_mem_new m alloc size last :
  0 ≤ alloc → 0 ≤ size < 2 ^ 32 → 0 ≤ last < 2 ^ 32 → last = 0 ∨ last + sizeof_heap_alloc ≤ alloc →
  uheader (header_mem m alloc size last) (mk_ublock alloc size false) 0 last.
Proof.
  intros Ha Hs Hl Hd. unfold header_mem, sizeof_heap_alloc, HEAP_ALLOC_MAGIC in *.
  split; unfold a_magic1, a_prev, a_next, a_size, a_free, a_magic2; cbn [u_hdr u_size u_free];
    (destruct (Z.eqb_spec last 0); [|destruct Hd; [done|]]); fields; done.
Qed.

Lemma header_mem_frame m alloc size last a :
  (a < alloc ∨ alloc + sizeof_heap_alloc ≤ a) → last = 0 ∨ (a < last + 8 ∨ last + 12 ≤ a) →
  header_mem m alloc size last a = m a.
Proof.
  unfold sizeof_heap_alloc. intros H1 H2. unfold header_mem.
  rewrite 2!store32_frame by lia. destruct (Z.eqb_spec last 0); [|destruct H2; [done|]];
    rewrite !store32_frame by lia; done.
Qed.

(** The block that was the newest so far gets a successor. *)
Lemma header_mem_old m alloc size b prev :
  0 ≤ alloc < 2 ^ 32 → 0 < u_hdr b → u_hdr b + sizeof_heap_alloc ≤ alloc →
  uheader m b 0 prev → uheader (header_mem m alloc size (u_hdr b)) b alloc prev.
Proof.
  intros Ha Hb Hd [H1 H2 H3 H4 H5 H6]. unfold header_mem, sizeof_heap_alloc in *.
  unfold a_magic1, a_prev, a_next, a_size, a_free, a_magic2 in *.
  split; unfold a_magic1, a_prev, a_next, a_size, a_free, a_magic2;
    (destruct (Z.eqb_spec (u_hdr b) 0); [lia|]); fields; done.
Qed.

Section proofs.
Context {W : Type} {B : Break W}.
Implicit Types (s : lheap W).

Lemma user_build_alloc_run alloc size s :
  build_alloc alloc size s =
  Done (tt, mk_lheap (header_mem (lh_mem s) alloc size (lh_last s)) (lh_heap_size s)
              (u32 (lh_cur_size s + (sizeof_heap_alloc + size))) (lh_heap s)
              (if lh_first s =? 0 then alloc else lh_first s) alloc (lh_world s)).
Proof.
  unfold build_alloc, header_mem, lstore, when, bind, get, modify, ret. cbn.
  destruct (lh_last s =? 0); cbn; destruct (lh_first s =? 0); reflexivity.
Qed.

Lemma uoldest_cons b bs : uoldest (b :: bs) = if uoldest bs =? 0 then (if bool_decide (bs = []) then u_hdr b else 0) else uoldest bs.
Proof.
  destruct bs as [|c bs]; [done|]. change (uoldest (b :: c :: bs)) with (uoldest (c :: bs)).
  by destruct (Z.eqb_spec (uoldest (c :: bs)) 0) as [->|].
Qed.

Lemma uoldest_pos base bs fin : 0 < base → utiles base bs fin → bs ≠ [] → uoldest bs ≠ 0.
Proof.
  intros Hb. revert fin. induction bs as [|b bs IH]; intros fin Ht Hn; [done|].
  destruct bs as [|c bs]; cbn [uoldest].
  - destruct (utiles_in _ _ _ b Ht) as (H & _); [by left|]. lia.
  - destruct Ht as (_ & _ & Ht). by apply (IH _ Ht).
Qed.

(** A new block behind the others. *)
Lemma new_block bs s size :
  uheap bs s → 0 ≤ size → lh_cur_size s + sizeof_heap_alloc + size ≤ lh_heap_size s →
  let b := mk_ublock (lh_heap s + lh_cur_size s) size false in
  ∃ s', build_alloc (lh_heap s + lh_cur_size s) size s = Done (tt, s') ∧ uheap (b :: bs) s' ∧
    lh_heap_size s' = lh_heap_size s ∧ lh_heap s' = lh_heap s ∧
    (∀ a, (∀ c, c ∈ b :: bs → ¬ in_header c a) → lh_mem s' a = lh_mem s a).
Proof.
  intros [H1 H2 H3 H0 H4 H5 H6 H7 H8] Hs Hfit b. pose proof br_limit_range as Hlim. rewrite user_build_alloc_run, H8. eexists. split; [reflexivity|].
  assert (Hsz : 0 ≤ size < 2 ^ 32) by (unfold sizeof_heap_alloc in *; lia).
  assert (Hnew : unewest bs = 0 ∨ unewest bs + sizeof_heap_alloc ≤ lh_heap s + lh_cur_size s ∧ 0 < unewest bs).
  { destruct bs as [|c bs]; [by left|right]. cbn [unewest].
    destruct (utiles_in _ _ _ c H5) as (G1 & G2 & G3); [by left|]. unfold u_end, u_data in G2. lia. }
  assert (Hlt : 0 ≤ unewest bs < 2 ^ 32) by (unfold sizeof_heap_alloc in *; lia).
  split; [split|]; cbn [lh_heap lh_heap_size lh_cur_size lh_world lh_mem lh_first lh_last]; try done.
  - rewrite u32_small by (unfold sizeof_heap_alloc in *; lia). unfold sizeof_heap_alloc in *. lia.
  - cbn. split; [|split; [done|done]]. rewrite u32_small by (unfold sizeof_heap_alloc in *; lia).
    unfold u_end, u_data. cbn. lia.
  - cbn [ulinks]. split; [apply header_mem_new; [lia|done|done|lia]|].
    destruct bs as [|c bs]; [done|]. cbn [ulinks unewest u_hdr] in *. destruct H6 as [Hc Hl].
    destruct (utiles_in _ _ _ c H5) as (Gc1 & _); [by left|].
    change (u_hdr b) with (lh_heap s + lh_cur_size s).
    split; [apply header_mem_old; [unfold sizeof_heap_alloc in *; lia|lia|lia|done]|].
    apply (ulinks_ext (lh_mem s)); [|done]. intros d a Hd Ha.
    destruct H5 as (He & Hcs & Ht). destruct (utiles_in _ _ _ d Ht Hd) as (G1 & G2 & G3).
    unfold in_header, u_end, u_data, sizeof_heap_alloc in *. apply header_mem_frame; unfold sizeof_heap_alloc; lia.
  - rewrite H7, uoldest_cons. destruct (Z.eqb_spec (uoldest bs) 0) as [E|E]; [|done].
    destruct (decide (bs = [])) as [->|Hne]; [done|]. by destruct (uoldest_pos _ _ _ H1 H5 Hne).
  - split; [done|]. split; [done|]. intros a Ha. apply header_mem_frame.
    + specialize (Ha b ltac:(by left)). unfold in_header in Ha. cbn in Ha. lia.
    + destruct bs as [|c bs]; [by left|right]. specialize (Ha c ltac:(right; by left)).
      unfold in_header, sizeof_heap_alloc in Ha. cbn [unewest]. lia.
Qed.

(** Before the first allocation the heap is empty and starts at the break. *)
Definition unstarted s : Prop :=
  lh_heap s = 0 ∧ lh_heap_size s = 0 ∧ lh_cur_size s = 0 ∧ lh_first s = 0 ∧ lh_last s = 0 ∧
  0 < br_break (lh_world s) < 2 ^ 31 ∧ br_break (lh_world s) ≤ br_limit ∧ br_ok (lh_world s) ∧ br_fresh (lh_world s).

Definition uheap_any (bs : list ublock) s : Prop := uheap bs s ∨ (bs = [] ∧ unstarted s).

(** Where the blocks start. *)
Definition ubase s : Z := if lh_heap s =? 0 then br_break (lh_world s) else lh_heap s.

Lemma init_run bs s :
  uheap_any bs s → ∃ s', lazily_init_heap s = Done (tt, s') ∧ uheap bs s' ∧ lh_mem s' = lh_mem s ∧
    lh_cur_size s' = lh_cur_size s ∧ lh_heap s' = ubase s.
Proof.
  unfold lazily_init_heap, bind at 1, get, ubase. intros [H|[-> (H1 & H2 & H3 & H4 & H5 & H6 & H7 & H8 & H9)]].
  - pose proof (uo_base _ _ H). rewrite (proj2 (Z.eqb_neq (lh_heap s) 0)) by lia. by exists s.
  - rewrite H1. cbn. unfold bind, sys, zoom. destruct (br_sbrk_0 (lh_world s) H8 H9 ltac:(lia)) as (w' & E & Ok & Eb). rewrite E. eexists. split; [reflexivity|].
    split; [|done]. split; cbn; try done; try lia.
Qed.

(** The block after [older] and what follows it, up to the newest. *)
Lemma ulinks_split m older b newer next :
  ulinks m next (newer ++ b :: older) →
  uheader m b (List.last (map u_hdr newer) next) (unewest older).
Proof.
  revert next. induction newer as [|c newer IH]; intros next; cbn [app ulinks map]; [by intros [H _]|].
  intros [_ H]. apply IH in H. replace (List.last (u_hdr c :: map u_hdr newer) next)
    with (List.last (map u_hdr newer) (u_hdr c)); [done|].
  clear. revert c. destruct (map u_hdr newer) as [|x l] eqn:E; [done|]. intros c. clear E. revert x.
  induction l as [|y l IH]; intros x; [done|]. exact (IH y).
Qed.

Lemma unsafe_check_header m b next prev : uheader m b next prev → unsafe_check m (u_hdr b) = true.
Proof. intros [H1 _ _ _ _ H6]. unfold unsafe_check. by rewrite H1, H6. Qed.

(** Walking from a block of the heap to the newest one. *)
Lemma user_check_from_run bs base fin s newer : ∀ b older fuel,
  bs = newer ++ b :: older → 0 < base → utiles base bs fin → ulinks (lh_mem s) 0 bs →
  (length newer < fuel)%nat → check_from fuel (u_hdr b) s = Done (tt, s).
Proof.
  induction newer as [|c newer IH] using rev_ind; intros b older fuel -> Hb Ht Hl Hf.
  all: destruct fuel as [|fuel]; [rewrite ?length_app in Hf; cbn in Hf; lia|]; cbn [check_from].
  all: pose proof (ulinks_split _ _ _ _ _ Hl) as Hd;
    destruct (utiles_in _ _ _ b Ht) as (T & _); [apply elem_of_app; right; by left|].
  all: rewrite (proj2 (Z.eqb_neq (u_hdr b) 0)) by lia; unfold bind, get;
    rewrite (unsafe_check_header _ _ _ _ Hd), (uh_next _ _ _ _ Hd).
  - by destruct fuel.
  - rewrite map_app. cbn [map]. rewrite last_last. apply (IH c (b :: older)); try done.
    + by rewrite <- app_assoc.
    + rewrite length_app in Hf. cbn in Hf. lia.
Qed.

Lemma user_check_all_run bs s fuel :
  uheap bs s → (length bs ≤ fuel)%nat → unsafe_check_all fuel s = Done (tt, s).
Proof.
  intros [H1 H2 H3 H0 H4 H5 H6 H7 H8] Hf. unfold unsafe_check_all, bind at 1, get at 1. rewrite H7.
  assert (E : check_from fuel (uoldest bs) s = Done (tt, s)).
  { destruct bs as [|b bs _] using rev_ind; [by destruct fuel|].
    assert (Ho : uoldest (bs ++ [b]) = u_hdr b).
    { clear. induction bs as [|c bs IH]; [done|]. cbn [app]. destruct (bs ++ [b]) eqn:E; [by destruct bs|]. exact IH. }
    rewrite Ho. apply (user_check_from_run _ _ _ s bs b [] fuel eq_refl H1 H5 H6).
    rewrite length_app in Hf. cbn in Hf. lia. }
  rewrite (bind_run _ _ _ _ _ E). unfold bind, get. rewrite H8.
  destruct bs as [|b bs]; [by destruct fuel|]. cbn in Hf.
  apply (user_check_from_run _ _ _ s [] b bs fuel eq_refl H1 H5 H6). cbn. lia.
Qed.

Lemma malloc_run bs s size fuel :
  (length bs < fuel)%nat → uheap_any bs s → 0 ≤ size → ubase s + lh_cur_size s + sizeof_heap_alloc + size ≤ br_limit →
  ∃ p s', malloc fuel size s = Done (p, s') ∧
    ((p = 0 ∧ uheap bs s' ∧ lh_mem s' = lh_mem s ∧ lh_cur_size s' = lh_cur_size s ∧ lh_heap s' = ubase s) ∨
     (∃ b, p = u_data b ∧ u_hdr b = ubase s + lh_cur_size s ∧ u_size b = size ∧ u_free b = false ∧
       uheap (b :: bs) s' ∧ lh_heap s' = ubase s ∧
       (∀ a, (∀ c, c ∈ b :: bs → ¬ in_header c a) → lh_mem s' a = lh_mem s a))).
Proof.
  intros Hfu H Hs Hfit. destruct (init_run bs s H) as (s1 & E1 & H1 & Hm1 & Hc1 & Hb1).
  unfold malloc. rewrite (bind_run _ _ _ _ _ E1).
  rewrite (bind_run _ _ _ _ _ (user_check_all_run bs s1 fuel H1 ltac:(lia))). unfold bind at 1, get at 1. rewrite <- Hb1, <- Hc1, <- Hm1 in *.
  clear H E1 Hb1 Hc1 Hm1. pose proof br_limit_range as Hlim. pose proof H1 as [G1 G2 G3 G0 G4 G5 G6 G7 G8]. unfold sizeof_heap_alloc in Hfit.
  rewrite (u32_small (lh_heap s1 + lh_cur_size s1 + sizeof_heap_alloc)) by (unfold sizeof_heap_alloc; lia).
  rewrite (u32_small (lh_cur_size s1 + sizeof_heap_alloc + size)) by (unfold sizeof_heap_alloc; lia).
  replace (u32 (_ - sizeof_heap_alloc)) with (lh_heap s1 + lh_cur_size s1)
    by (unfold sizeof_heap_alloc; rewrite u32_small by lia; lia).
  set (n := lh_cur_size s1 + sizeof_heap_alloc + size).
  assert (Hn : 0 ≤ n ∧ lh_heap s1 + n ≤ br_limit) by (unfold n, sizeof_heap_alloc; lia).
  assert (Hbuild : ∀ s2, uheap bs s2 → lh_mem s2 = lh_mem s1 → lh_cur_size s2 = lh_cur_size s1 →
    lh_heap s2 = lh_heap s1 → n ≤ lh_heap_size s2 →
    ∃ p s', (build_alloc (lh_heap s1 + lh_cur_size s1) size ;;; unsafe_check_all fuel ;;; ret (lh_heap s1 + lh_cur_size s1 + sizeof_heap_alloc)) s2 =
      Done (p, s') ∧ ∃ b, p = u_data b ∧ u_hdr b = lh_heap s1 + lh_cur_size s1 ∧ u_size b = size ∧ u_free b = false ∧
       uheap (b :: bs) s' ∧ lh_heap s' = lh_heap s1 ∧
       (∀ a, (∀ c, c ∈ b :: bs → ¬ in_header c a) → lh_mem s' a = lh_mem s1 a)).
  { intros s2 U2 Em Ec Eh Hle. destruct (new_block bs s2 size U2 Hs) as (s' & E & U' & _ & Hh & Hfr).
    { rewrite Ec. exact Hle. }
    rewrite Ec, Eh in E. rewrite (bind_run _ _ _ _ _ E).
    rewrite (bind_run _ _ _ _ _ (user_check_all_run _ s' fuel U' Hfu)). eexists _, s'. split; [reflexivity|].
    exists (mk_ublock (lh_heap s1 + lh_cur_size s1) size false). rewrite Ec, Eh, Em in *. done. }
  destruct (Z.ltb_spec (lh_heap_size s1) n) as [Hlt|Hge].
  - destruct (br_brk_ok (lh_world s1) (u32 (lh_heap s1 + n)) G0 ltac:(rewrite u32_small by lia; lia)) as (r & w' & Eb & Ok & Hr).
    unfold bind at 1 2, sys, zoom. rewrite Eb. rewrite u32_small in Hr by lia.
    destruct Hr as [[-> Hbr]|[Hr Hbr]].
    + cbn [Z.eqb negb]. unfold bind at 1, modify, ret at 1.
      destruct (Hbuild (lset_heap_size n (lset_world w' s1))) as (p & s' & E & Hb); try done.
      { split; cbn; try done; lia. }
      exists p, s'. split; [exact E|]. right. exact Hb.
    + rewrite (proj2 (Z.eqb_neq _ _) Hr). cbn. exists 0, (lset_world w' s1). split; [done|]. left.
      split; [done|]. split; [|done]. split; cbn; try done. by rewrite Hbr.
  - unfold bind at 1, ret at 1. destruct (Hbuild s1 H1 eq_refl eq_refl eq_refl Hge) as (p & s' & E & Hb).
    exists p, s'. split; [exact E|]. right. exact Hb.
Qed.

(** ** Freeing *)

Definition mark (h : Z) (bs : list ublock) : list ublock :=
  map (fun c => if u_hdr c =? h then mk_ublock (u_hdr c) (u_size c) true else c) bs.

Fixpoint drop_free (bs : list ublock) : list ublock :=
  match bs with [] => [] | b :: older => if u_free b then drop_free older else bs end.

Lemma mark_newest h bs : unewest (mark h bs) = unewest bs.
Proof. destruct bs as [|b bs]; cbn; [done|]. by destruct (u_hdr b =? h). Qed.

Lemma mark_oldest h bs : uoldest (mark h bs) = uoldest bs.
Proof.
  induction bs as [|b bs IH]; [done|]. destruct bs as [|c bs]; [cbn; by destruct (u_hdr b =? h)|]. exact IH.
Qed.

Lemma mark_tiles h base bs : ∀ fin, utiles base bs fin → utiles base (mark h bs) fin.
Proof.
  induction bs as [|b bs IH]; intros fin; cbn; [done|]. intros (H1 & H2 & H3).
  destruct (u_hdr b =? h); cbn; (split; [done|]; split; [done|]; by apply IH).
Qed.

Lemma mark_links m h base bs : ∀ next fin,
  utiles base bs fin → 0 ≤ h → (∀ c, c ∈ bs → u_hdr c = h ∨ u_hdr c + 24 ≤ h ∨ h + 24 ≤ u_hdr c) →
  ulinks m next bs → ulinks (store32 m (h + 16) 1) next (mark h bs).
Proof.
  induction bs as [|b bs IH]; intros next fin; cbn [ulinks mark map]; [done|].
  intros (H1 & H2 & H3) H0 Hap [Hb Hl]. fold (mark h bs). rewrite mark_newest.
  destruct (Z.eqb_spec (u_hdr b) h) as [E|E]; cbn [u_hdr].
  - split; [|apply (IH _ _ H3 H0); [|done]; intros c Hc; apply Hap; by right].
    destruct Hb as [B1 B2 B3 B4 B5 B6]. subst h.
    unfold a_magic1, a_prev, a_next, a_size, a_free, a_magic2 in *.
    split; unfold a_magic1, a_prev, a_next, a_size, a_free, a_magic2; cbn [u_hdr u_size u_free];
      rewrite ?load32_store32_eq by lia; rewrite ?load32_store32_ne by lia; done.
  - split; [|apply (IH _ _ H3 H0); [|done]; intros c Hc; apply Hap; by right].
    apply (uheader_ext m); [|done]. intros a Ha. apply store32_frame.
    destruct (Hap b ltac:(by left)) as [?|?]; [done|]. unfold in_header, sizeof_heap_alloc in Ha. lia.
Qed.

(** The loop that removes the free tail; the successor of the newest block is stale. *)
Lemma user_truncate_loop_run base bs : ∀ fuel s nx,
  lh_heap s = base → 0 < base → base + lh_cur_size s < 2 ^ 32 → (length bs ≤ fuel)%nat →
  lh_last s = unewest bs → utiles base bs (base + lh_cur_size s) → ulinks (lh_mem s) nx bs →
  ∃ n nx', truncate_loop fuel s = Done (tt, lset_cur_size n (lset_last (unewest (drop_free bs)) s)) ∧
    utiles base (drop_free bs) (base + n) ∧ ulinks (lh_mem s) nx' (drop_free bs) ∧ 0 ≤ n ≤ lh_cur_size s.
Proof.
  induction bs as [|b bs IH]; intros fuel s nx Hh Hb Hc Hf Hl Ht Hk.
  - exists (lh_cur_size s), nx. cbn in Ht. assert (E : truncate_loop fuel s = Done (tt, s)).
    { destruct fuel; cbn [truncate_loop]; unfold bind, get; rewrite Hl; done. }
    rewrite E. split; [|split; [done|split; [done|lia]]]. destruct s. cbn in Hl |- *. by subst.
  - destruct fuel as [|fuel]; [cbn in Hf; lia|]. cbn [truncate_loop]. unfold bind at 1, get at 1.
    destruct (utiles_in _ _ _ b Ht) as (T1 & T2 & T3); [by left|]. destruct Hk as [Hhd Hk]. destruct Ht as (He & Hs & Ht).
    rewrite Hl. cbn [unewest]. rewrite (proj2 (Z.eqb_neq (u_hdr b) 0)) by lia.
    rewrite (uh_free _ _ _ _ Hhd). cbn [orb drop_free]. destruct (u_free b) eqn:Ef; cbn [negb].
    + unfold bind at 1 2, modify at 1 2. cbn [lh_mem lh_last lset_cur_size].
      pose proof (utiles_le _ _ _ Ht) as Hle. rewrite Hl. cbn [unewest].
      rewrite (uh_size _ _ _ _ Hhd), (uh_prev _ _ _ _ Hhd).
      assert (En : u32 (lh_cur_size s - (sizeof_heap_alloc + u_size b)) = u_hdr b - base).
      { unfold u_end, u_data, sizeof_heap_alloc in *. rewrite u32_small by lia. lia. }
      rewrite En.
      destruct (IH fuel (lset_last (unewest bs) (lset_cur_size (u_hdr b - base) s)) (u_hdr b))
        as (n & nx' & E & R1 & R2 & R3); try done; cbn [lh_heap lh_cur_size lset_last lset_cur_size]; try lia.
      { unfold u_end, u_data, sizeof_heap_alloc in *. lia. }
      { cbn in Hf. lia. }
      { by replace (base + (u_hdr b - base)) with (u_hdr b) by lia. }
      exists n, nx'. split; [exact E|]. split; [done|]. split; [done|].
      cbn in R3. unfold u_end, u_data, sizeof_heap_alloc in *. lia.
    + exists (lh_cur_size s), nx. split; [|split; [done|split; [done|]]].
      * unfold ret. destruct s. cbn in Hl |- *. by subst.
      * unfold u_end, u_data, sizeof_heap_alloc in *. lia.
Qed.

Lemma drop_free_suffix bs : ∃ l, bs = l ++ drop_free bs ∧ Forall (fun b => u_free b = true) l.
Proof.
  induction bs as [|b bs (l & IH & Hl)]; [by exists []|]. cbn. destruct (u_free b) eqn:E.
  - exists (b :: l). split; [cbn; by rewrite <- IH|by constructor].
  - by exists [].
Qed.

Lemma user_drop_free_oldest bs : drop_free bs ≠ [] → uoldest (drop_free bs) = uoldest bs.
Proof.
  induction bs as [|b bs IH]; [done|]. cbn [drop_free]. destruct (u_free b); [|done]. intros Hn.
  rewrite (IH Hn). destruct bs; done.
Qed.

(** The newest block has no successor again. *)
Lemma unlink_run m nx base bs fin :
  0 < base → utiles base bs fin → bs ≠ [] → ulinks m nx bs → ulinks (store32 m (unewest bs + 8) 0) 0 bs.
Proof.
  destruct bs as [|b bs]; [done|]. cbn [ulinks utiles unewest]. intros Hb (He & Hs & Ht) _ [Hh Hl]. split.
  - destruct Hh as [B1 B2 B3 B4 B5 B6]. unfold a_magic1, a_prev, a_next, a_size, a_free, a_magic2 in *.
    split; unfold a_magic1, a_prev, a_next, a_size, a_free, a_magic2;
      rewrite ?load32_store32_eq by lia; rewrite ?load32_store32_ne by lia; done.
  - apply (ulinks_ext m); [|done]. intros c a Hc Ha. apply store32_frame.
    destruct (utiles_in _ _ _ c Ht Hc) as (G1 & G2 & G3).
    unfold in_header, u_end, u_data, sizeof_heap_alloc in *. lia.
Qed.

Lemma user_truncate_run bs s fuel :
  uheap bs s → (length bs ≤ fuel)%nat →
  ∃ s', unsafe_truncate_heap fuel s = Done (tt, s') ∧ uheap (drop_free bs) s' ∧ lh_heap s' = lh_heap s ∧
    lh_cur_size s' ≤ lh_cur_size s ∧
    (∀ a, (∀ c, c ∈ bs → ¬ in_header c a) → lh_mem s' a = lh_mem s a).
Proof.
  intros U Hf. pose proof br_limit_range as Hlim. pose proof U as [H1 H2 H3 H0 H4 H5 H6 H7 H8]. unfold unsafe_truncate_heap, bind at 1, get at 1. rewrite H8.
  destruct (Z.eqb_spec (unewest bs) 0) as [E0|E0].
  { destruct bs as [|b bs]; [by exists s|]. destruct (utiles_in _ _ _ b H5) as (G & _); [by left|]. cbn in E0. lia. }
  destruct (user_truncate_loop_run (lh_heap s) bs fuel s 0) as (n & nx & E & T & L & Hn); try done; [lia|].
  rewrite (bind_run _ _ _ _ _ E). unfold bind, get. cbn [lh_last lset_cur_size lset_last].
  destruct (drop_free_suffix bs) as (l & Hl & _).
  destruct (drop_free bs) as [|b ds] eqn:Ed.
  - cbn [unewest Z.eqb]. eexists. split; [reflexivity|]. split; [split; cbn; try done; lia|]. cbn. split; [done|]. split; [lia|done].
  - destruct (utiles_in _ _ _ b T) as (G1 & _); [by left|]. rewrite (proj2 (Z.eqb_neq (unewest (b :: ds)) 0)) by (cbn; lia).
    eexists. split; [reflexivity|]. split; [split; cbn [lh_heap lh_heap_size lh_cur_size lh_world lh_mem lh_first lh_last lset_mem lset_cur_size lset_last]; try done; try lia|].
    + by apply (unlink_run _ nx (lh_heap s) (b :: ds) (lh_heap s + n)).
    + rewrite H7, <- Ed. symmetry. apply user_drop_free_oldest. by rewrite Ed.
    + cbn. split; [done|]. split; [lia|]. intros a Ha. apply store32_frame.
      specialize (Ha b). unfold in_header, sizeof_heap_alloc in Ha. cbn [unewest].
      assert (b ∈ bs) by (rewrite Hl; apply elem_of_app; right; by left). specialize (Ha ltac:(done)). lia.
Qed.

Lemma free_run bs s b fuel :
  uheap bs s → b ∈ bs → (length bs ≤ fuel)%nat →
  ∃ bs' s', free fuel (u_data b) s = Done (tt, s') ∧ uheap bs' s' ∧ lh_heap s' = lh_heap s ∧
    lh_cur_size s' ≤ lh_cur_size s ∧ (length bs' ≤ length bs)%nat ∧
    (∀ c, c ∈ bs → c ≠ b → u_free c = false → c ∈ bs') ∧
    (∀ a, (∀ c, c ∈ bs → ¬ in_header c a) → lh_mem s' a = lh_mem s a).
Proof.
  intros U Hin Hf. pose proof br_limit_range as Hlim. pose proof U as [H1 H2 H3 H0 H4 H5 H6 H7 H8].
  destruct (utiles_in _ _ _ b H5 Hin) as (B1 & B2 & B3).
  assert (Ha : u32 (u_data b - sizeof_heap_alloc) = u_hdr b).
  { unfold u_end, u_data, sizeof_heap_alloc in *. rewrite u32_small by lia. lia. }
  set (bs1 := mark (u_hdr b) bs). set (s1 := lset_mem (store32 (lh_mem s) (u_hdr b + 16) 1) s).
  assert (U1 : uheap bs1 s1).
  { split; cbn; try done; [by apply mark_tiles| |unfold bs1; by rewrite H7, mark_oldest|unfold bs1; by rewrite H8, mark_newest].
    apply (mark_links _ _ (lh_heap s) bs _ (lh_heap s + lh_cur_size s)); [done|lia| |done].
    intros c Hc. destruct (utiles_apart _ _ _ b c H5 Hin Hc) as [->|Hap]; [by left|right].
    pose proof (utiles_in _ _ _ c H5 Hc). unfold u_end, u_data, sizeof_heap_alloc in *. lia. }
  assert (Hkeep : ∀ c, c ∈ bs → c ≠ b → c ∈ bs1).
  { intros c Hc Hne. apply list_elem_of_fmap. exists c. split; [|done].
    destruct (Z.eqb_spec (u_hdr c) (u_hdr b)) as [E|]; [|done].
    destruct (utiles_apart _ _ _ b c H5 Hin Hc) as [->|Hap]; [done|].
    pose proof (utiles_in _ _ _ c H5 Hc). unfold u_end, u_data, sizeof_heap_alloc in *. lia. }
  assert (Hlen1 : length bs1 = length bs) by apply length_map.
  assert (Hhdr : ∀ a, (∀ c, c ∈ bs → ¬ in_header c a) → ∀ c, c ∈ bs1 → ¬ in_header c a).
  { intros a Hn c (c0 & -> & Hc0)%list_elem_of_fmap. specialize (Hn c0 Hc0). by destruct (u_hdr c0 =? u_hdr b). }
  assert (Hfr : ∀ a, (∀ c, c ∈ bs → ¬ in_header c a) → lh_mem s1 a = lh_mem s a).
  { intros a Hn. cbn. apply store32_frame. specialize (Hn b Hin). unfold in_header, sizeof_heap_alloc in Hn. lia. }
  unfold free. rewrite Ha. unfold bind at 1, lstore, modify. fold s1. unfold bind at 1, get at 1.
  destruct (_ || _).
  - destruct (user_truncate_run bs1 s1 fuel U1) as (s' & E & U' & Hh & Hc & Hfr'); [lia|].
    destruct (drop_free_suffix bs1) as (l & Hl & Hfree). exists (drop_free bs1), s'.
    split; [exact E|]. split; [done|]. split; [done|]. split; [done|].
    split; [|split].
    + pose proof (f_equal length Hl) as Hlen. rewrite length_app in Hlen. lia.
    + intros c Hcb Hne Hcf. specialize (Hkeep c Hcb Hne). rewrite Hl in Hkeep.
      apply elem_of_app in Hkeep as [Hx|]; [|done]. rewrite Forall_forall in Hfree. by rewrite (Hfree c Hx) in Hcf.
    + intros a Hn. rewrite Hfr' by by apply Hhdr. by apply Hfr.
  - exists bs1, s1. split; [done|]. split; [done|]. split; [done|]. split; [cbn; lia|]. split; [lia|]. split; [|done].
    intros c Hcb Hne _. by apply Hkeep.
Qed.

(** ** A program that allocates, writes and frees *)

Inductive uop := UMalloc (size : Z) | UFree (i : nat) | UWrite (i : nat) (off : nat) (l : list Z).

(** The blocks the program holds, with what it has in them. *)
Fixpoint program (fuel : nat) (L : list (Z * list Z)) (ops : list uop) : M (lheap W) (list (Z * list Z)) :=
  match ops with
  | [] => ret L
  | UMalloc size :: ops' =>
      p <- malloc fuel size ;;
      s <- get ;;
      program fuel (if p =? 0 then L else (p, read_bytes (lh_mem s) p (Z.to_nat size)) :: L) ops'
  | UFree i :: ops' =>
      match L !! i with
      | Some (p, _) => free fuel p ;;; program fuel (delete i L) ops'
      | None => program fuel L ops'
      end
  | UWrite i off l :: ops' =>
      match L !! i with
      | Some (p, d) =>
          if bool_decide (off + length l ≤ length d)%nat then
            modify (fun s => lset_mem (write_bytes (lh_mem s) (p + Z.of_nat off) l) s) ;;;
            program fuel (<[i := (p, take off d ++ l ++ drop (off + length l) d)]> L) ops'
          else program fuel L ops'
      | None => program fuel L ops'
      end
  end.

(** The space all allocations together take. *)
Fixpoint needed (ops : list uop) : Z :=
  match ops with
  | [] => 0
  | UMalloc size :: ops' => sizeof_heap_alloc + Z.max 0 size + needed ops'
  | _ :: ops' => needed ops'
  end.

Definition uop_ok (op : uop) : Prop :=
  match op with UMalloc size => 0 ≤ size | UWrite _ _ l => byte_list l | UFree _ => True end.

Lemma needed_nonneg ops : 0 ≤ needed ops.
Proof. induction ops as [|[size|i|i off l] ops IH]; cbn; unfold sizeof_heap_alloc; lia. Qed.

(** The program's view and the blocks of the heap. *)
Record holds (base : Z) (N : nat) (L : list (Z * list Z)) (bs : list ublock) s : Prop := {
  ho_heap : uheap_any bs s;
  ho_base : ubase s = base;
  ho_len : (length bs ≤ N)%nat;
  ho_nodup : NoDup (map fst L);
  ho_live : ∀ p d, (p, d) ∈ L → ∃ b, b ∈ bs ∧ p = u_data b ∧ u_size b = Z.of_nat (length d) ∧ u_free b = false ∧
    read_bytes (lh_mem s) p (length d) = d;
}.

Lemma data_not_header base bs fin b c a :
  utiles base bs fin → b ∈ bs → c ∈ bs → u_data b ≤ a < u_end b → ¬ in_header c a.
Proof.
  intros Ht Hb Hc Ha. unfold in_header. pose proof (utiles_in _ _ _ c Ht Hc).
  destruct (utiles_apart _ _ _ b c Ht Hb Hc) as [->|?]; unfold u_end, u_data, sizeof_heap_alloc in *; lia.
Qed.

(** What is in a block stays when only headers are written. *)
Lemma live_kept base bs fin m m' b d :
  utiles base bs fin → b ∈ bs → u_size b = Z.of_nat (length d) →
  (∀ a, (∀ c, c ∈ bs → ¬ in_header c a) → m' a = m a) →
  read_bytes m (u_data b) (length d) = d → read_bytes m' (u_data b) (length d) = d.
Proof.
  intros Ht Hb Hs Hfr Hd. rewrite <- Hd at 2. apply read_bytes_ext. intros a Ha. apply Hfr.
  intros c Hc. apply (data_not_header _ _ _ b c a Ht Hb Hc). unfold u_end. lia.
Qed.

Lemma uheap_ubase bs s : uheap bs s → ubase s = lh_heap s.
Proof. intros U. unfold ubase. pose proof (uo_base _ _ U). by rewrite (proj2 (Z.eqb_neq _ _)) by lia. Qed.

Lemma holds_malloc base N L bs s size fuel :
  (N < fuel)%nat → holds base N L bs s → 0 ≤ size → base + lh_cur_size s + sizeof_heap_alloc + size ≤ br_limit →
  ∃ p s' bs', malloc fuel size s = Done (p, s') ∧ lh_cur_size s' ≤ lh_cur_size s + sizeof_heap_alloc + size ∧
    holds base (S N) (if p =? 0 then L else (p, read_bytes (lh_mem s') p (Z.to_nat size)) :: L) bs' s'.
Proof.
  intros Hfu [H1 H2 H3 H4 H5] Hs Hfit. subst base.
  destruct (malloc_run bs s size fuel ltac:(lia) H1 Hs Hfit) as (p & s' & E & Hr).
  destruct Hr as [(-> & U & Hm & Hc & Hh)|(b & -> & Hhdr & Hsz & Hfr & U & Hh & Hmem)].
  - exists 0, s', bs. split; [done|]. split; [unfold sizeof_heap_alloc; lia|]. cbn [Z.eqb].
    split; [by left|by rewrite (uheap_ubase _ _ U)|lia|done|]. by rewrite Hm.
  - pose proof U as [U1 U2 U3 U0 U4 U5 U6 U7 U8]. exists (u_data b), s', (b :: bs).
    destruct (utiles_in _ _ _ b U5) as (G1 & G2 & G3); [by left|].
    split; [done|]. split.
    { destruct U5 as (E5 & _). unfold u_end, u_data in E5. lia. }
    rewrite (proj2 (Z.eqb_neq (u_data b) 0)) by (unfold u_data, sizeof_heap_alloc; lia).
    assert (Hlive : ∀ q d, (q, d) ∈ L → ∃ c, c ∈ bs ∧ q = u_data c ∧ u_size c = Z.of_nat (length d) ∧
      u_free c = false ∧ read_bytes (lh_mem s') q (length d) = d).
    { intros q d Hq. destruct (H5 q d Hq) as (c & Hc & -> & Hcs & Hcf & Hd). exists c. do 4 (split; [done|]).
      apply (live_kept _ _ _ (lh_mem s) _ c d U5); [by right|done|done|done]. }
    split; [by left|by rewrite (uheap_ubase _ _ U)|cbn; lia| |].
    + cbn. constructor; [|done]. intros ((q & d) & Eq & Hq)%list_elem_of_fmap. cbn in Eq. subst q.
      destruct (Hlive _ _ Hq) as (c & Hc & Hqc & _). destruct U5 as (_ & _ & Ht).
      destruct (utiles_in _ _ _ c Ht Hc) as (_ & K2 & K3). unfold u_end, u_data, sizeof_heap_alloc in *. lia.
    + intros q d [Hq|Hq]%elem_of_cons.
      * injection Hq as -> ->. exists b. rewrite length_read_bytes, Z2Nat.id by lia. repeat split; try done. by left.
      * destruct (Hlive q d Hq) as (c & Hc & Hrest). exists c. split; [by right|done].
Qed.

Lemma holds_started base N L bs s p d : holds base N L bs s → (p, d) ∈ L → uheap bs s.
Proof.
  intros [[U|[-> _]] _ _ _ H5] Hp; [done|]. by destruct (H5 p d Hp) as (b & ?%elem_of_nil & _).
Qed.

Lemma fst_delete_pairs (L : list (Z * list Z)) i : map fst (delete i L) = delete i (map fst L).
Proof. revert i. induction L as [|x L IH]; intros [|i]; try done. simpl. by rewrite IH. Qed.

Lemma nodup_pairs (L : list (Z * list Z)) i j p d e :
  NoDup (map fst L) → L !! i = Some (p, d) → L !! j = Some (p, e) → i = j.
Proof.
  intros Hn Hi Hj. rewrite NoDup_alt in Hn. apply (Hn i j p).
  - change (map fst L) with (fst <$> L). by rewrite list_lookup_fmap, Hi.
  - change (map fst L) with (fst <$> L). by rewrite list_lookup_fmap, Hj.
Qed.

Lemma nodup_delete (L : list (Z * list Z)) i p d :
  NoDup (map fst L) → L !! i = Some (p, d) → NoDup (map fst (delete i L)) ∧ ∀ q e, (q, e) ∈ delete i L → q ≠ p.
Proof.
  intros Hn Hi. assert (Hp : map fst L ≡ₚ p :: map fst (delete i L)).
  { rewrite (delete_Permutation L i (p, d) Hi) at 1. done. }
  rewrite Hp in Hn. apply NoDup_cons in Hn as [Hnp Hn]. split; [done|].
  intros q e Hq ->. apply Hnp. by apply (list_elem_of_fmap_2 fst) in Hq.
Qed.

Lemma holds_free base N L bs s i p d fuel :
  holds base N L bs s → L !! i = Some (p, d) → (N ≤ fuel)%nat →
  ∃ s' bs', free fuel p s = Done (tt, s') ∧ lh_cur_size s' ≤ lh_cur_size s ∧ holds base N (delete i L) bs' s'.
Proof.
  intros H Hi HN. assert (Hin : (p, d) ∈ L) by by apply (list_elem_of_lookup_2 _ i).
  pose proof (holds_started _ _ _ _ _ _ _ H Hin) as U. destruct H as [_ H2 H3 H4 H5].
  destruct (H5 p d Hin) as (b & Hb & -> & Hbs & Hbf & Hd).
  destruct (free_run bs s b fuel U Hb ltac:(lia)) as (bs' & s' & E & U' & Hh & Hc & Hl & Hk & Hfr).
  destruct (nodup_delete L i (u_data b) d H4 Hi) as [Hn Hne].
  exists s', bs'. split; [done|]. split; [done|]. split; [by left| |lia|done|].
  - rewrite (uheap_ubase _ _ U'), Hh, <- (uheap_ubase _ _ U). done.
  - intros q e Hq. destruct (H5 q e ltac:(by apply (list_elem_of_delete_inv _ i))) as (c & Hcin & -> & Hcs & Hcf & He).
    exists c. split; [apply Hk; [done| |done]; intros ->; by apply (Hne _ _ Hq)|]. do 3 (split; [done|]).
    by apply (live_kept _ _ _ (lh_mem s) _ c e (uo_tiles _ _ U)).
Qed.

Lemma take_read m p n k : (k ≤ n)%nat → take k (read_bytes m p n) = read_bytes m p k.
Proof.
  intros H. replace n with (k + (n - k))%nat by lia. rewrite read_bytes_app.
  by rewrite take_app_length' by by rewrite length_read_bytes.
Qed.

Lemma drop_read m p n k : (k ≤ n)%nat → drop k (read_bytes m p n) = read_bytes m (p + Z.of_nat k) (n - k).
Proof.
  intros H. replace n with (k + (n - k))%nat at 1 by lia. rewrite read_bytes_app.
  by rewrite drop_app_length' by by rewrite length_read_bytes.
Qed.

Lemma holds_write base N L bs s i p d off l :
  holds base N L bs s → L !! i = Some (p, d) → (off + length l ≤ length d)%nat → byte_list l →
  holds base N (<[i := (p, take off d ++ l ++ drop (off + length l) d)]> L) bs
    (lset_mem (write_bytes (lh_mem s) (p + Z.of_nat off) l) s).
Proof.
  intros H Hi Hl Hbl. assert (Hin : (p, d) ∈ L) by by apply (list_elem_of_lookup_2 _ i).
  pose proof (holds_started _ _ _ _ _ _ _ H Hin) as U. destruct H as [_ H2 H3 H4 H5].
  destruct (H5 p d Hin) as (b & Hb & -> & Hbs & Hbf & Hd). pose proof U as [U1 U2 U3 U0 U4 U5 U6 U7 U8].
  assert (Hw : ∀ a, ¬ (u_data b + Z.of_nat off ≤ a < u_data b + Z.of_nat off + Z.of_nat (length l)) →
    write_bytes (lh_mem s) (u_data b + Z.of_nat off) l a = lh_mem s a).
  { intros a Ha. apply write_bytes_frame. lia. }
  split; [left; split; cbn; try done|done|done| |].
  - apply (ulinks_ext (lh_mem s)); [|done]. intros c a Hc Ha. apply Hw. intros Hr.
    apply (data_not_header _ _ _ b c a U5 Hb Hc); [unfold u_end; lia|done].
  - change (NoDup (fst <$> <[i := (u_data b, take off d ++ l ++ drop (off + length l) d)]> L)).
    rewrite list_fmap_insert, list_insert_id; [done|]. by rewrite list_lookup_fmap, Hi.
  - intros q e Hq. apply list_elem_of_lookup in Hq as [k Hk]. apply list_lookup_insert_Some in Hk as [(<- & Hq & Hlt)|[Hne Hk]].
    + injection Hq as <- <-. exists b. do 2 (split; [done|]).
      rewrite !length_app, length_take, length_drop. split; [lia|]. split; [done|]. cbn.
      replace (off `min` length d + (length l + (length d - (off + length l))))%nat
        with (off + (length l + (length d - (off + length l))))%nat by lia.
      rewrite !read_bytes_app. f_equal; [|f_equal].
      * rewrite (read_bytes_ext _ (lh_mem s)) by (intros a Ha; apply Hw; lia).
        transitivity (take off (read_bytes (lh_mem s) (u_data b) (length d))); [|by rewrite Hd].
        symmetry. apply take_read. lia.
      * by apply read_write_bytes.
      * rewrite (read_bytes_ext _ (lh_mem s)) by (intros a Ha; apply Hw; lia).
        transitivity (drop (off + length l) (read_bytes (lh_mem s) (u_data b) (length d))); [|by rewrite Hd].
        rewrite drop_read by lia. f_equal. lia.
    + destruct (H5 q e ltac:(by apply (list_elem_of_lookup_2 _ k))) as (c & Hc & -> & Hcs & Hcf & He).
      exists c. do 4 (split; [done|]). rewrite <- He at 2. apply read_bytes_ext. intros a Ha. apply Hw. intros Hr.
      destruct (utiles_apart _ _ _ b c U5 Hb Hc) as [->|Hap].
      * by apply Hne, (nodup_pairs L _ _ (u_data c) d e).
      * unfold u_end, u_data, sizeof_heap_alloc in *. lia.
Qed.

Lemma holds_more base N L bs s : holds base N L bs s → holds base (S N) L bs s.
Proof. intros [H1 H2 H3 H4 H5]. split; [done|done|lia|done|done]. Qed.

Lemma program_run base fuel ops : ∀ N L bs s,
  holds base N L bs s → Forall uop_ok ops → base + lh_cur_size s + needed ops ≤ br_limit →
  (N + length ops ≤ fuel)%nat →
  ∃ L' s' bs', program fuel L ops s = Done (L', s') ∧ holds base (N + length ops) L' bs' s'.
Proof.
  induction ops as [|op ops IH]; intros N L bs s H Hok Hfit Hf.
  { exists L, s, bs. by rewrite Nat.add_0_r. }
  apply Forall_cons in Hok as [Hop Hok]. cbn [length] in *. pose proof (needed_nonneg ops) as Hnn.
  replace (N + S (length ops))%nat with (S N + length ops)%nat in * by lia.
  destruct op as [size|i|i off l]; cbn [program needed uop_ok] in *.
  - rewrite Z.max_r in Hfit by done.
    destruct (holds_malloc base N L bs s size fuel ltac:(lia) H Hop ltac:(lia)) as (p & s1 & bs1 & E & Hc & H1).
    rewrite (bind_run _ _ _ _ _ E). unfold bind, get. by apply (IH _ _ bs1); [|done|lia|].
  - destruct (L !! i) as [[p d]|] eqn:Hi; [|by apply (IH _ _ bs); [apply holds_more| | |]].
    destruct (holds_free base N L bs s i p d fuel H Hi ltac:(lia)) as (s1 & bs1 & E & Hc & H1).
    rewrite (bind_run _ _ _ _ _ E). by apply (IH _ _ bs1); [apply holds_more| |lia|].
  - destruct (L !! i) as [[p d]|] eqn:Hi; [|by apply (IH _ _ bs); [apply holds_more| | |]].
    destruct (decide (off + length l ≤ length d)%nat) as [Hle|Hgt].
    + rewrite bool_decide_true by done. unfold bind, modify.
      by apply (IH _ _ bs); [apply holds_more, holds_write| | |].
    + rewrite bool_decide_false by done. by apply (IH _ _ bs); [apply holds_more| | |].
Qed.
End proofs.

(** C39: whatever sequence of allocations, writes to allocated blocks and frees a program
    makes, from the start of the process, no assertion of the heap's self checks fails and
    every call returns; at the end every block the program holds has the bytes the
    program has in it, lies between the first and the present break, and shares no byte
    with another block it holds.  Needs that the first break is below 2^31 (sbrk does not return
    other addresses) and that the sizes together stay below the limit the kernel has memory for
    and in the address
    space ([malloc] does not check its sums); [brk] may refuse, then [malloc] returns
    NULL. *)
Theorem user_heap_safe {W} `{Break W} (ops : list uop) (s : lheap W) (fuel : nat) :
  unstarted s → Forall uop_ok ops → br_break (lh_world s) + needed ops ≤ br_limit → (length ops ≤ fuel)%nat →
  ∃ L s', program fuel [] ops s = Done (L, s') ∧
    (∀ p d, (p, d) ∈ L → read_bytes (lh_mem s') p (length d) = d ∧
       br_break (lh_world s) ≤ p ∧ p + Z.of_nat (length d) ≤ br_break (lh_world s')) ∧
    (∀ i j p d q e, L !! i = Some (p, d) → L !! j = Some (q, e) → i ≠ j →
       p + Z.of_nat (length d) ≤ q ∨ q + Z.of_nat (length e) ≤ p).
Proof.
  intros Hu Hok Hfit Hf. pose proof Hu as (E1 & _ & E3 & _).
  destruct (program_run (br_break (lh_world s)) fuel ops 0 [] [] s) as (L & s' & bs & E & Ho); try done.
  { split; [by right|unfold ubase; by rewrite E1|cbn; lia|constructor|by intros p d ?%elem_of_nil]. }
  { rewrite E3. lia. }
  exists L, s'. split; [done|]. split.
  - intros p d Hp. pose proof (holds_started _ _ _ _ _ _ _ Ho Hp) as U. pose proof Ho as [_ Hb _ _ Hl].
    destruct (Hl p d Hp) as (b & Hin & -> & Hs & _ & Hd). destruct (utiles_in _ _ _ b (uo_tiles _ _ U) Hin) as (G1 & G2 & G3).
    rewrite (uheap_ubase _ _ U) in Hb. pose proof (uo_cur _ _ U). split; [done|]. rewrite (uo_break _ _ U).
    unfold u_end, u_data, sizeof_heap_alloc in *. lia.
  - intros i j p d q e Hi Hj Hne. pose proof Ho as [_ _ _ Hn Hl].
    assert (Hp : (p, d) ∈ L) by by apply (list_elem_of_lookup_2 _ i).
    assert (Hq : (q, e) ∈ L) by by apply (list_elem_of_lookup_2 _ j).
    pose proof (holds_started _ _ _ _ _ _ _ Ho Hp) as U.
    destruct (Hl p d Hp) as (b & Hbin & -> & Hbs & _), (Hl q e Hq) as (c & Hcin & -> & Hcs & _).
    destruct (utiles_apart _ _ _ b c (uo_tiles _ _ U) Hbin Hcin) as [->|Hap].
    + by destruct Hne; apply (nodup_pairs L i j (u_data c) d e).
    + unfold u_end, u_data, sizeof_heap_alloc in *. lia.
Qed.

(** A kernel that grants breaks below a limit: the state is the break. *)
Definition toy_brk (v : Z) : M Z Z :=
  fun w => if (w <=? v) && (v <? 65536) then Done (0, v) else Done (-1, w).

Lemma toy_brk_ok w v :
  ∃ r w', toy_brk v w = Done (r, w') ∧ (r = 0 ∧ w' = v ∨ r ≠ 0 ∧ w' = w).
Proof. unfold toy_brk. destruct (_ && _); eexists _, _; (split; [reflexivity|]); [left|right]; done. Qed.

#[local] Instance toy_break : Break Z.
Proof.
  refine {| br_brk := toy_brk; br_sbrk := fun _ w => Done (w, w); br_break := fun w => w; br_limit := 2 ^ 31; br_ok := fun _ => True; br_fresh := fun _ => True |}.
  - reflexivity.
  - intros w _ _ _. by exists w.
  - intros w v _ _. destruct (toy_brk_ok w v) as (r & w' & E & H). by exists r, w'.
Defined.

Definition toy_heap : lheap Z := mk_lheap (fun _ => 0) 0 0 0 0 0 4096.

Lemma user_heap_safe_witness :
  ∃ L s', program 9 [] [UMalloc 8; UMalloc 4; UWrite 1 2 [1; 2; 3]; UWrite 0 0 [9; 9]; UFree 0; UMalloc 5]
      toy_heap = Done (L, s') ∧
    map fst L = [4152; 4120] ∧ ∀ p d, (p, d) ∈ L → read_bytes (lh_mem s') p (length d) = d.
Proof.
  destruct (user_heap_safe [UMalloc 8; UMalloc 4; UWrite 1 2 [1; 2; 3]; UWrite 0 0 [9; 9]; UFree 0; UMalloc 5]
    toy_heap 9 ltac:(repeat split; vm_compute; first [reflexivity | discriminate])
    ltac:(repeat constructor; cbn; lia) ltac:(vm_compute; discriminate) ltac:(cbn; lia)) as (L & s' & E & Hd & _).
  exists L, s'. split; [exact E|]. split.
  - apply (f_equal (fun o => match o with Done (l, _) => map fst l | _ => [] end)) in E.
    vm_compute in E. symmetry. exact E.
  - intros p d Hp. exact (proj1 (Hd p d Hp)).
Defined.
