(* ===== verification/UserBreak.v ===== *)
(** * The break of a process: libc's brk and sbrk over the kernel's

    [LibcHeap] is proved against the interface [Break]; here unistd.c's [brk] and [sbrk]
    ([Stdio]), which call syscall/brk.c and proc.c ([ProcMem]), discharge it.  The system calls
    are entered and left under the page tables of the process.  The interface holds as long as
    there are two free pages for every page up to the limit that is not mapped yet: a call that
    runs out of pages is not refused by the code. *)

From stdpp Require Import base list gmap sets strings.
From Stdlib Require Import ZArith Lia.
From S2P Require Import Prelude Memory KUtils MemLayout Cpu Palloc Paging KernelHeap HeapPages.
From S2P Require Import AddressSpace AddressDup LibcString Stdio LibcHeap ProcMem.

Section kernel.
Variable vm_map : list vm_region.
Variable kernel_pd : Z.
Variable r : vm_region.
Variable answers : cpu_ptr → bool.
Hypothesis Hmap : map_ok vm_map r.
Hypothesis Hans : ∀ q, answers q = true.
Local Abbreviation kpd := (phys_kernel_pd kernel_pd).

(** ** The calls *)

(** [unsafe_brk] with the mutex taken, and the mutex released. *)
Lemma locked_brk l s p x a T F v :
  in_space kernel_pd r l s p x a T F → pd_mutex (kpr_arch x) = false → is_u32 v → is_u32 (ap_cur_vbreak (kpr_arch x)) →
  0 ≤ ap_vbreak (kpr_arch x) → page_no v < 2 ^ 20 - 1 →
  let n0 := page_no (ap_cur_vbreak (kpr_arch x)) in
  user_pages (kmem (pm_k s)) a n0 (page_no v) → (2 * new_pages F n0 (page_no v) ≤ length l)%nat →
  let s1 := set_pm_procs (<[p := with_arch x (aset_mutex true)]> (pm_procs s)) s in
  ∃ res s2 s', unsafe_brk vm_map kernel_pd answers p v s1 = Done (res, s2) ∧ pd_release p s2 = Done (tt, s') ∧
    (res = - EUNSPEC ∧ brk_refused vm_map l x v ∧ s' = s ∨
     res = 0 ∧ ∃ l' x' T' F', in_space kernel_pd r l' s' p x' a T' F' ∧ ap_cur_vbreak (kpr_arch x') = v ∧
       ap_vbreak (kpr_arch x') = ap_vbreak (kpr_arch x) ∧ pd_mutex (kpr_arch x') = false ∧
       (length l ≤ length l' + 2 * new_pages F n0 (page_no v))%nat ∧ same_global a (kmem (pm_k s)) (kmem (pm_k s')) ∧
       ∀ n, n0 ≤ n ≤ page_no v → is_Some (F' !! n)).
Proof.
  intros H Hm Hv Hc Hb Hmax n0 Hu Hl s1. pose proof (in_space_lock _ _ _ _ _ _ _ _ _ true H) as H1. fold s1 in H1.
  assert (Hx1 : pm_procs s1 !! p = Some (with_arch x (aset_mutex true))) by apply lookup_insert_eq.
  destruct (decide (v < ap_vbreak (kpr_arch x) ∨ has (vm_get_pflags vm_map v) PAGE_BIT_GLOBAL = true ∨
    Z.of_nat (length l) * PAGE_SIZE < v - ap_vbreak (kpr_arch x))) as [Hr|Hr].
  - exists (- EUNSPEC), s1, s. split; [by eapply (unsafe_brk_refused vm_map kernel_pd r answers Hmap l s1 p)|]. split; [|by left].
    rewrite (pd_release_run p _ s1 Hx1 eq_refl). unfold s1, set_pm_procs. cbn. rewrite insert_insert_eq, arch_mutex_back, insert_id by (done || apply H).
    by destruct s.
  - destruct (unsafe_brk_run vm_map kernel_pd r answers Hmap Hans l s1 p _ a T F v H1 Hv Hc Hb Hr Hmax Hu Hl) as (s2 & s3 & f & E & R & Hs3 & Hf).
    destruct R as (l' & x1 & T' & F' & A1 & A2 & _ & _ & [_ _ G3 _] & A6 & _ & _ & _ & _ & (A10 & A11 & A12)%same_layout_fields).
    rewrite (Hs3 x1 (is_proc _ _ _ _ _ _ _ _ _ A1)) in E. destruct (Hf (kpr_arch x1)) as (F1 & F2 & F3 & F4).
    set (s4 := set_pm_procs (<[p := with_arch x1 f]> (pm_procs s2)) s2) in *.
    exists 0, s4. eexists. split; [exact E|]. split; [apply (pd_release_run p (with_arch x1 f) s4 (lookup_insert_eq _ _ _)); cbn; rewrite F3; exact A12|].
    right. split; [done|]. exists l', (with_arch (with_arch x1 f) (aset_mutex false)), T', F'.
    split; [eapply (in_space_procs _ _ _ _ _ (with_arch x1 f)); [by eapply (in_space_procs _ _ _ _ _ x1)|done]|].
    split; [done|]. split; [cbn in *; by rewrite F2, A10|]. split; [done|]. split; [exact A2|]. split; [exact A6|exact G3].
Qed.

Variables (p : nat) (a limit : Z).
Hypothesis Hlimit : is_u32 limit.
Hypothesis Hlast : page_no limit < 2 ^ 20 - 1.

(** Process [p] runs, its break is below the limit, the addresses up to the limit are the user's, and there is
    memory for them. *)
Definition ready (s : pmsys) : Prop := ∃ l x T F,
  in_user kernel_pd r l s p x a T F ∧ pd_mutex (kpr_arch x) = false ∧
  0 ≤ ap_vbreak (kpr_arch x) ∧ 0 ≤ ap_cur_vbreak (kpr_arch x) ≤ limit ∧
  (∀ v, is_u32 v → page_no v ≤ page_no limit → user_address (kmem (pm_k s)) a v) ∧
  (2 * new_pages F (page_no (ap_cur_vbreak (kpr_arch x))) (page_no limit) ≤ length l)%nat.

Definition cur_break (s : pmsys) : Z := from_option (fun x => ap_cur_vbreak (kpr_arch x)) 0 (pm_procs s !! p).

(** The break has not been moved since the program was loaded, and is an address a program may have. *)
Definition unmoved (s : pmsys) : Prop := ∃ x, pm_procs s !! p = Some x ∧ ap_cur_vbreak (kpr_arch x) = ap_vbreak (kpr_arch x) ∧
  has (vm_get_pflags vm_map (ap_vbreak (kpr_arch x))) PAGE_BIT_GLOBAL = false.

Lemma page_mono v w : v ≤ w → page_no v ≤ page_no w.
Proof. intros H. unfold page_no, PAGE_SIZE. apply Z.div_le_mono; lia. Qed.

(** A call that runs [unsafe_brk] for a break between the present one and the limit. *)
Lemma call_ready (f : Z → arch_proc → Z) s v :
  ready s → cur_break s ≤ v ≤ limit →
  ∃ res x s', (proc_set_kvm kernel_pd ;;;
     c <- (check_kernel kernel_pd ;;; pd_acquire p ;;; y <- rd_arch p ;; res <- unsafe_brk vm_map kernel_pd answers p v ;; pd_release p ;;; ret (f res y)) ;;
     proc_set_uvm p ;;; ret c) s = Done (f res (aset_mutex true (kpr_arch x)), s') ∧ pm_procs s !! p = Some x ∧ ready s' ∧
    (res = - EUNSPEC ∧ (∃ l, brk_refused vm_map l x v) ∧ s' = s ∨ res = 0 ∧ cur_break s' = v).
Proof.
  intros (l & x & T & F & Hu & Hm & Hb & Hc & Ha & Hl) Hv. pose proof (set_kvm_run _ _ _ _ _ _ _ _ _ Hu) as E1. pose proof Hu as [Hcr H].
  set (k0 := with_cr3 kpd s) in *. pose proof (is_proc _ _ _ _ _ _ _ _ _ H) as Hx. change (pm_procs k0) with (pm_procs s) in Hx.
  unfold cur_break in Hv. rewrite Hx in Hv. cbn [from_option] in Hv.
  set (c0 := ap_cur_vbreak (kpr_arch x)) in *. assert (Hcu : is_u32 c0) by (unfold is_u32 in *; lia). assert (Hvu : is_u32 v) by (unfold is_u32 in *; lia).
  pose proof (page_mono _ _ (proj1 Hv)) as P1. pose proof (page_mono _ _ (proj2 Hv)) as P2.
  assert (Hn : (new_pages F (page_no c0) (page_no v) ≤ new_pages F (page_no c0) (page_no limit))%nat) by (unfold new_pages; destruct (F !! _); lia).
  destruct (locked_brk l k0 p x a T F v H Hm Hvu Hcu Hb ltac:(lia)) as (res & s2 & s3 & E2 & E3 & R); fold c0.
  { intros w Hw Hr. apply Ha; [done|lia]. } { lia. }
  set (s1 := set_pm_procs (<[p := with_arch x (aset_mutex true)]> (pm_procs k0)) k0) in *.
  assert (Ebody : (check_kernel kernel_pd ;;; pd_acquire p ;;; y <- rd_arch p ;; res <- unsafe_brk vm_map kernel_pd answers p v ;; pd_release p ;;; ret (f res y)) k0 =
    Done (f res (aset_mutex true (kpr_arch x)), s3)).
  { rewrite (bind_run _ _ _ _ _ (check_kernel_run _ _ _ _ _ _ _ _ _ H)).
    rewrite (bind_run _ _ _ _ _ (pd_acquire_run _ _ _ (is_proc _ _ _ _ _ _ _ _ _ H) Hm)). fold s1.
    rewrite (bind_run _ _ _ _ _ (rd_arch_run p (with_arch x (aset_mutex true)) s1 (lookup_insert_eq _ _ _))).
    by rewrite (bind_run _ _ _ _ _ E2), (bind_run _ _ _ _ _ E3). }
  exists res, x.
  assert (Hend : ∃ l' x' T' F', in_space kernel_pd r l' s3 p x' a T' F').
  { destruct R as [(_ & _ & ->)|(_ & l' & x' & T' & F' & I & _)]; [by exists l, x, T, F|by exists l', x', T', F']. }
  destruct Hend as (l' & x' & T' & F' & I'). destruct (set_uvm_run _ _ _ _ _ _ _ _ _ I') as [E4 Hu4]. clear l' x' T' F' I' Hu4.
  exists (with_cr3 (v2p r a) s3). split.
  { rewrite (bind_run _ _ _ _ _ E1), (bind_run _ _ _ _ _ Ebody). by rewrite (bind_run _ _ _ _ _ E4). }
  split; [done|]. destruct R as [(-> & Href & ->)|(-> & l' & x' & T' & F' & I' & Ec & Eb & Em & Hlen & Hg & Hall)].
  - assert (Es : with_cr3 (v2p r a) k0 = s).
    { unfold k0. rewrite <- Hcr. destruct s as [[mc]]. unfold with_cr3, set_pm_k. cbn. do 2 f_equal. by destruct mc. }
    rewrite Es. split; [by exists l, x, T, F|]. left. split; [done|]. split; [by exists l|done].
  - split.
    + exists l', x', T', F'. split; [by apply (set_uvm_run _ _ _ _ _ _ _ _ _ I')|]. split; [done|]. split; [by rewrite Eb|].
      rewrite Ec. split; [lia|]. split; [intros w Hw Hp; apply (same_global_user _ (kmem (pm_k s))); [done|by apply Ha]|].
      fold c0 in Hall, Hlen. destruct (Hall (page_no v) ltac:(lia)) as [q Hq]. unfold new_pages at 1. rewrite Hq.
      revert Hl Hlen. unfold new_pages. destruct (F !! page_no c0); lia.
    + right. split; [done|]. unfold cur_break. pose proof (is_proc _ _ _ _ _ _ _ _ _ I') as Hx'. change (pm_procs (with_cr3 _ s3)) with (pm_procs s3).
      rewrite Hx'. exact Ec.
Qed.

Lemma syscall_brk_ready s v :
  ready s → cur_break s ≤ v ≤ limit →
  ∃ res s', syscall_brk vm_map kernel_pd answers (Some (Some p)) v s = Done (res, s') ∧ ready s' ∧
    (res = 0 ∧ cur_break s' = v ∨ res = - EUNSPEC ∧ cur_break s' = cur_break s).
Proof.
  intros Hr Hv. destruct (call_ready (fun res _ => res) s v Hr Hv) as (res & x & s' & E & _ & Hr' & Hcase).
  exists res, s'. split; [|split; [done|]].
  - rewrite <- E. unfold syscall_brk, proc_brk. rewrite (bind_run _ _ s p s) by done. unfold bind.
    destruct (proc_set_kvm kernel_pd s) as [[[] k]| |]; [|done|done]. destruct (check_kernel kernel_pd k) as [[[] k1]| |]; [|done|done].
    destruct (pd_acquire p k1) as [[[] k2]| |] eqn:E2; [|done|done].
    assert (E3 : ∃ y, rd_arch p k2 = Done (y, k2)).
    { unfold pd_acquire, rd_arch, rd_proc, wr_arch, wr_proc, bind, get in E2. destruct (pm_procs k1 !! p) as [y|] eqn:Ey; [|done]. cbn in E2.
      destruct (pd_mutex (kpr_arch y)); [done|]. unfold rd_proc, bind, get in E2. rewrite Ey in E2. cbn in E2. injection E2 as <-.
      eexists. apply rd_arch_run. apply lookup_insert_eq. }
    destruct E3 as [y ->]. destruct (unsafe_brk vm_map kernel_pd answers p v k2) as [[c k3]| |]; [|done|done].
    by destruct (pd_release p k3) as [[[] k4]| |].
  - destruct Hcase as [(-> & _ & ->)|[-> Hc]]; [by right|by left].
Qed.

Lemma syscall_sbrk_ready s :
  ready s → unmoved s → cur_break s < 2 ^ 31 →
  ∃ s', syscall_sbrk vm_map kernel_pd answers (Some (Some p)) 0 s = Done (cur_break s, s') ∧ ready s' ∧ cur_break s' = cur_break s.
Proof.
  intros Hr (x0 & Hx0 & Hc0 & Hg) H31.
  assert (Hcb : cur_break s = ap_cur_vbreak (kpr_arch x0)) by (unfold cur_break; by rewrite Hx0).
  assert (Hbound : 0 ≤ cur_break s ≤ limit).
  { destruct Hr as (l & x & T & F & [_ I] & _ & _ & Hc & _). pose proof (is_proc _ _ _ _ _ _ _ _ _ I) as Hx. change (pm_procs s !! p = Some x) in Hx.
    unfold cur_break. rewrite Hx. exact Hc. }
  destruct (call_ready (fun res y => if res <? 0 then u32 res else ap_cur_vbreak y) s (cur_break s) Hr ltac:(lia)) as (res & x & s' & E & Hx & Hr' & Hcase).
  rewrite Hx0 in Hx. injection Hx as <-.
  destruct Hcase as [(-> & (l & Href) & _)|[-> Hc]].
  { exfalso. unfold brk_refused in Href. rewrite Hcb, Hc0 in Href. destruct Href as [Hf|[Hf|Hf]]; [lia|by rewrite Hg in Hf|unfold PAGE_SIZE in Hf; lia]. }
  cbn in E. exists s'. split; [|done]. unfold syscall_sbrk. rewrite (bind_run _ _ s p s) by done.
  assert (Ep : (proc_set_kvm kernel_pd ;;; c <- proc_sbrk vm_map kernel_pd answers p 0 ;; proc_set_uvm p ;;; ret c) s = Done (cur_break s, s')).
  { rewrite Hcb. rewrite <- E. unfold proc_sbrk, bind. destruct (proc_set_kvm kernel_pd s) as [[[] k]| |] eqn:Ek; [|done|done].
    destruct (check_kernel kernel_pd k) as [[[] k1]| |] eqn:Ek1; [|done|done]. destruct (pd_acquire p k1) as [[[] k2]| |] eqn:Ek2; [|done|done].
    destruct (rd_arch p k2) as [[y k3]| |] eqn:Ek3; [|done|done].
    assert (Ey : ap_cur_vbreak y = cur_break s).
    { destruct Hr as (l & x & T & F & Hu & Hm & _). rewrite (set_kvm_run _ _ _ _ _ _ _ _ _ Hu) in Ek. injection Ek as <-. destruct Hu as [_ I].
      rewrite (check_kernel_run _ _ _ _ _ _ _ _ _ I) in Ek1. injection Ek1 as <-.
      rewrite (pd_acquire_run _ _ _ (is_proc _ _ _ _ _ _ _ _ _ I) Hm) in Ek2. injection Ek2 as <-.
      rewrite (rd_arch_run p (with_arch x (aset_mutex true)) _ (lookup_insert_eq _ _ _)) in Ek3. injection Ek3 as <- <-.
      pose proof (is_proc _ _ _ _ _ _ _ _ _ I) as Hx. change (pm_procs s !! p = Some x) in Hx. rewrite Hx0 in Hx. injection Hx as <-. by rewrite Hcb. }
    rewrite Z.add_0_r, Ey, u32_small by lia. destruct (unsafe_brk vm_map kernel_pd answers p (cur_break s) k3) as [[c k4]| |]; [|done|done].
    by destruct (pd_release p k4) as [[[] k5]| |]. }
  unfold bind in Ep |- *. destruct (proc_set_kvm kernel_pd s) as [[[] k]| |]; [|done|done].
  destruct (proc_sbrk vm_map kernel_pd answers p 0 k) as [[c k1]| |]; [|done|done]. destruct (proc_set_uvm p k1) as [[[] k2]| |]; [|done|done].
  injection Ep as -> ->. unfold ret. rewrite s32_small, u32_small by lia. done.
Qed.

(** ** unistd.c *)

(** The trap: the two system calls, whose results are ints. *)
Definition kernel_call (num arg1 arg2 arg3 : Z) : M (ustate pmsys) Z :=
  zoom u_world uset_world
    (if num =? SYSCALL_BRK then c <- syscall_brk vm_map kernel_pd answers (Some (Some p)) (u32 arg1) ;; ret (s32 c)
     else if num =? SYSCALL_SBRK then c <- syscall_sbrk vm_map kernel_pd answers (Some (Some p)) (s32 arg1) ;; ret (s32 c)
     else kpanic "another system call").

(** The library's brk and sbrk over the kernel keep what the heap relies on. *)
Definition kernel_break : Break (ustate pmsys).
Proof.
  refine {| br_brk := brk kernel_call; br_sbrk := sbrk kernel_call; br_break := fun w => cur_break (u_world w); br_limit := limit;
            br_ok := fun w => ready (u_world w); br_fresh := fun w => unmoved (u_world w) |}.
  - apply Hlimit.
  - intros w Hr Hf H31. destruct (syscall_sbrk_ready (u_world w) Hr Hf H31) as (s' & E & Hr' & Hc).
    assert (H0 : 0 ≤ cur_break (u_world w)).
    { destruct Hr as (l & x & T & F & [_ I] & _ & _ & Hx & _). pose proof (is_proc _ _ _ _ _ _ _ _ _ I) as Hx0. change (pm_procs (u_world w) !! p = Some x) in Hx0.
      unfold cur_break. rewrite Hx0. apply Hx. }
    exists (uset_world s' w). split; [|done]. unfold sbrk, kernel_call, bind, zoom. cbn [Z.eqb Pos.eqb SYSCALL_BRK SYSCALL_SBRK].
    change (s32 0) with 0. rewrite E. unfold ret. rewrite s32_small by lia. unfold set_errno_and_convert. rewrite (proj2 (Z.ltb_ge _ 0)) by lia.
    unfold ret. rewrite u32_small by lia. done.
  - intros w v Hr Hv. assert (Hvu : 0 ≤ v < 2 ^ 32).
    { destruct Hr as (l & x & T & F & [_ I] & _ & _ & Hx & _). pose proof (is_proc _ _ _ _ _ _ _ _ _ I) as Hx0. change (pm_procs (u_world w) !! p = Some x) in Hx0.
      unfold cur_break in Hv. rewrite Hx0 in Hv. cbn in Hv. unfold is_u32 in Hlimit. lia. }
    destruct (syscall_brk_ready (u_world w) v Hr Hv) as (res & s' & E & Hr' & Hcase).
    unfold brk, kernel_call, bind, zoom. cbn [Z.eqb Pos.eqb SYSCALL_BRK]. rewrite u32_small by lia. rewrite E.
    destruct Hcase as [[-> Hc]|[-> Hc]].
    + exists 0, (uset_world s' w). split; [done|]. split; [done|]. by left.
    + eexists (-1), _. split; [reflexivity|]. split; [done|]. right. split; [done|exact Hc].
Defined.

End kernel.

(** ** Example: the process of [ProcMem], about to allocate *)

Definition example_limit : Z := 0x804A7FF.
Definition example_running : pmsys := with_cr3 (v2p example_region 0x807000) example_pm.
Definition example_program : ustate pmsys := mk_ustate (fun _ => 0) 0 (mk_file 0 0 0 false 0 0 0) example_running.
Definition example_heap : lheap (ustate pmsys) := mk_lheap (fun _ => 0) 0 0 0 0 0 example_program.

Definition example_break : Break (ustate pmsys) :=
  kernel_break example_vm_map example_kpd example_region (fun _ => true) example_map_ok (fun _ => eq_refl) 1 0x807000 example_limit
    ltac:(split; vm_compute; congruence) ltac:(vm_compute; reflexivity).

Lemma cr3_mem v s : kmem (pm_k (with_cr3 v s)) = kmem (pm_k s).
Proof. done. Qed.

Lemma example_running_ready : ready example_kpd example_region 1 0x807000 example_limit example_running.
Proof.
  exists example_free_pages, example_kproc, example_tables, example_pages.
  split; [apply (set_uvm_run example_kpd), example_in_space|]. split; [done|]. split; [done|]. split; [done|].
  split; [intros v Hv _; unfold example_running; rewrite cr3_mem; by apply example_user_address|]. vm_compute. lia.
Qed.

(** The conditions of the heap's theorem hold of it, and an allocation moves the kernel's break. *)
Example example_unstarted : @unstarted _ example_break example_heap.
Proof.
  split; [done|]. split; [done|]. split; [done|]. split; [done|]. split; [done|].
  assert (E : cur_break 1 example_running = 0x8049000) by reflexivity.
  split; [change (0 < cur_break 1 example_running < 2 ^ 31); rewrite E; lia|].
  split; [change (cur_break 1 example_running ≤ example_limit); rewrite E; unfold example_limit; lia|]. split; [exact example_running_ready|].
  exists example_kproc. split; [done|]. split; [done|]. by vm_compute.
Qed.

Example example_malloc :
  match @malloc _ example_break 2 100 example_heap with
  | Done (ptr, s) => ptr = 0x8049018 ∧ cur_break 1 (u_world (lh_world s)) = 0x804907C
  | _ => False
  end.
Proof. by vm_compute. Qed.
