(* ===== verification/AtaPio.v ===== *)
(** * devices/ata.h and devices/ata_pio.c: ATA drives through port I/O

    The port instructions and the passing of time are parameters ([Ports]); the
    code's polling loops take a fuel bound.  [ata_device] states what the driver
    relies on of a drive, register by register: a drive is busy for finitely many
    readings of its status, a read command makes the words of the addressed sector
    available one after the other.  The channel's mutex is seen by the thread that
    runs the driver: held by it or free.  The memory a transfer goes to is
    addressed from the start of the caller's buffer. *)

From stdpp Require Import base list strings.
From Stdlib Require Import ZArith Lia.
From S2P Require Import Prelude Memory.

(** ** ata.h *)

Definition ATA_SR_BSY : Z := 0x80.
Definition ATA_SR_DF : Z := 0x20.
Definition ATA_SR_DRQ : Z := 0x08.
Definition ATA_SR_ERR : Z := 0x01.
Definition ATA_ER_UNSUP : Z := 0xff.
Definition ATA_ER_NOERR : Z := 0x00.
Definition ATA_CMD_READ_PIO : Z := 0x20.
Definition ATA_CMD_READ_PIO_EXT : Z := 0x24.
Definition ATA_CMD_CACHE_FLUSH : Z := 0xE7.
Definition ATA_CMD_CACHE_FLUSH_EXT : Z := 0xEA.
Definition ATA_CMD_IDENTIFY : Z := 0xEC.
Definition ATA_REG_DATA : Z := 0x00.
Definition ATA_REG_SECCOUNT0 : Z := 0x02.
Definition ATA_REG_LBA0 : Z := 0x03.
Definition ATA_REG_LBA1 : Z := 0x04.
Definition ATA_REG_LBA2 : Z := 0x05.
Definition ATA_REG_HDDEVSEL : Z := 0x06.
Definition ATA_REG_COMMAND : Z := 0x07.
Definition ATA_REG_STATUS : Z := 0x07.
Definition ATA_REG_SECCOUNT1 : Z := 0x02.
Definition ATA_REG_LBA3 : Z := 0x03.
Definition ATA_REG_LBA4 : Z := 0x04.
Definition ATA_REG_LBA5 : Z := 0x05.
Definition ATA_CONTROL_REG_BASE : Z := 0x0C.
Definition ATA_REG_CONTROL : Z := 0x0C.
Definition ATA_BIT_NIEN : Z := 0x02.
Definition ATA_BIT_CTL_OBS : Z := 0x08.
Definition ATA_BIT_HOB : Z := 0x80.
Definition ATA_CAP_BIT_LBA : Z := 2 ^ 9.
Definition ATA_FCS5_BIT_LBA48 : Z := 2 ^ 10.
Definition ATA_SEL_BIT_DEV : Z := 0xA0.
Definition ATA_SEL_BIT_LBA : Z := 2 ^ 6.
Definition ATA_SEL_BIT_SLAVE : Z := 2 ^ 4.
Definition IDE_DRV_SLAVE : Z := 1.
Definition IDE_ATAPI : Z := 1.
Definition IDE_SECTOR_SIZE : Z := 512.

Definition is_ata_command_reg (reg : Z) : bool := reg <=? 0x07.
Definition is_ata_control_reg (reg : Z) : bool := (reg >=? 0x08) && (reg <=? 0x0f).

(** The ports of a channel; [ch_num] is its place among the channels, by which the
    state keeps its mutex. *)
Record ide_channel := mk_channel { ch_num : nat; pio_command : Z; pio_control : Z }.

Record ide_drive := mk_drive {
  dp_present : bool;
  dp_num : Z;
  dp_drive : Z;
  dp_type : Z;
  dp_serial : list Z;
  dp_firmware : list Z;
  dp_model : list Z;
  dp_signature : Z;
  dp_capabilities : Z;
  dp_fcs1 : Z;
  dp_fcs2 : Z;
  dp_fcs3 : Z;
  dp_fcs4 : Z;
  dp_fcs5 : Z;
  dp_fcs6 : Z;
  dp_sectors : Z;
  dp_channel : ide_channel;
}.

(** ** Port I/O *)

Class Ports (H : Type) := {
  pio_inb : Z → M H Z;
  pio_inw : Z → M H Z;
  pio_outb : Z → Z → M H unit;
  ticks_mwait : Z → M H unit;
}.

(** The mutexes of the channels, the hardware, and the memory at the caller's buffer. *)
Record ata (H : Type) := mk_ata { at_held : nat → bool; at_hw : H; at_buf : mem }.
Arguments mk_ata {H}.
Arguments at_held {H}.
Arguments at_hw {H}.
Arguments at_buf {H}.

Section ata_pio.
Context {H : Type} `{Ports H}.

Definition aset_held (cp : ide_channel) (b : bool) (s : ata H) : ata H :=
  mk_ata (fun c => if Nat.eqb c (ch_num cp) then b else at_held s c) (at_hw s) (at_buf s).
Definition aset_hw (h : H) (s : ata H) : ata H := mk_ata (at_held s) h (at_buf s).
Definition aset_buf (m : mem) (s : ata H) : ata H := mk_ata (at_held s) (at_hw s) m.

Definition hw {A} (f : M H A) : M (ata H) A := zoom at_hw aset_hw f.

Definition ata_pio_lock (cp : ide_channel) : M (ata H) unit :=
  s <- get ;;
  if at_held s (ch_num cp) then kpanic "thread_mutex_acquire(): on held lock" else modify (aset_held cp true).

Definition ata_pio_unlock (cp : ide_channel) : M (ata H) unit :=
  s <- get ;;
  if at_held s (ch_num cp) then modify (aset_held cp false) else kpanic "thread_mutex_release(): called on an unheld mutex".

Definition assert_held (cp : ide_channel) : M (ata H) unit :=
  s <- get ;; kassert "thread_mutex_held(&(cp->mutex))" (at_held s (ch_num cp)).

Definition ata_pio_register_write (cp : ide_channel) (reg value : Z) : M (ata H) unit :=
  assert_held cp ;;;
  if is_ata_command_reg reg then hw (pio_outb (pio_command cp + reg) (u8 value))
  else if is_ata_control_reg reg then hw (pio_outb (pio_control cp + reg - ATA_CONTROL_REG_BASE) (u8 value))
  else ret tt.

Definition ata_pio_register_read (cp : ide_channel) (reg : Z) : M (ata H) Z :=
  assert_held cp ;;;
  if is_ata_command_reg reg then hw (pio_inb (pio_command cp + reg))
  else if is_ata_control_reg reg then hw (pio_inb (pio_control cp + reg - ATA_CONTROL_REG_BASE))
  else ret 0.

(** [buffer[i] = w] for a [uint16_t *] buffer at byte offset [off]. *)
Definition store_word (off i w : Z) : M (ata H) unit :=
  modify (fun s => aset_buf (store8 (store8 (at_buf s) (off + 2 * i) w) (off + 2 * i + 1) (w / 2 ^ 8)) s).

Fixpoint read_words (n : nat) (i : Z) (cp : ide_channel) (reg off : Z) : M (ata H) unit :=
  match n with
  | O => ret tt
  | S n' =>
      (if is_ata_command_reg reg then w <- hw (pio_inw (pio_command cp + reg)) ;; store_word off i w
       else if is_ata_control_reg reg
       then w <- hw (pio_inw (pio_control cp + reg - ATA_CONTROL_REG_BASE)) ;; store_word off i w
       else ret tt) ;;;
      read_words n' (i + 1) cp reg off
  end.

Definition ata_pio_register_read_buffer (cp : ide_channel) (reg off words : Z) : M (ata H) unit :=
  assert_held cp ;;; read_words (Z.to_nat words) 0 cp reg off.

Fixpoint wait_loop (fuel : nat) (cp : ide_channel) (mask status : Z) : M (ata H) unit :=
  match fuel with
  | O => hang
  | S fuel' =>
      s <- ata_pio_register_read cp ATA_REG_STATUS ;;
      if negb (Z.land s mask =? status * mask) then wait_loop fuel' cp mask status else ret tt
  end.

Context (fuel : nat).

Definition ata_pio_wait_for_status (cp : ide_channel) (mask status : Z) : M (ata H) unit :=
  assert_held cp ;;; wait_loop fuel cp mask status.

Definition ata_pio_poll (cp : ide_channel) (read_status : bool) : M (ata H) Z :=
  assert_held cp ;;;
  hw (ticks_mwait 1) ;;;
  ata_pio_wait_for_status cp ATA_SR_BSY 0 ;;;
  if read_status then
    status <- ata_pio_register_read cp ATA_REG_STATUS ;;
    if negb (Z.land status ATA_SR_ERR =? 0) || negb (Z.land status ATA_SR_DF =? 0) ||
       (Z.land status ATA_SR_DRQ =? 0)
    then ret status else ret ATA_ER_NOERR
  else ret ATA_ER_NOERR.

(** [for (isector = 0; isector < sectors; isector++)]; the buffer is a
    [uint16_t *], so a sector's place is [isector * IDE_SECTOR_SIZE] words on. *)
Fixpoint read_sectors (n : nat) (isector : Z) (cp : ide_channel) : M (ata H) Z :=
  match n with
  | O => ret ATA_ER_NOERR
  | S n' =>
      err <- ata_pio_poll cp true ;;
      if negb (err =? ATA_ER_NOERR) then ret err else
      ata_pio_wait_for_status cp ATA_SR_DRQ 1 ;;;
      ata_pio_register_read_buffer cp ATA_REG_DATA (2 * (isector * IDE_SECTOR_SIZE)) (IDE_SECTOR_SIZE / 2) ;;;
      read_sectors n' (isector + 1) cp
  end.

(** Selecting the drive and the upper part of the address: the commands to use. *)
Definition select_sector (dp : ide_drive) (lba sectors : Z) : M (ata H) (Z * Z) :=
  let cp := dp_channel dp in
  let selection := if dp_drive dp =? IDE_DRV_SLAVE then Z.lor ATA_SEL_BIT_DEV ATA_SEL_BIT_SLAVE else ATA_SEL_BIT_DEV in
  let selection := Z.lor selection ATA_SEL_BIT_LBA in
  if (lba >=? 2 ^ 28) || (lba + sectors >=? 2 ^ 28) || (sectors >=? 2 ^ 8) then
    ata_pio_register_write cp ATA_REG_HDDEVSEL selection ;;;
    hw (ticks_mwait 1) ;;;
    ata_pio_register_write cp ATA_REG_CONTROL (Z.lor ATA_BIT_HOB (Z.lor ATA_BIT_NIEN ATA_BIT_CTL_OBS)) ;;;
    hw (ticks_mwait 1) ;;;
    ata_pio_wait_for_status cp ATA_SR_BSY 0 ;;;
    kassert "dp->fcs5 & ATA_FCS5_BIT_LBA48" (negb (Z.land (dp_fcs5 dp) ATA_FCS5_BIT_LBA48 =? 0)) ;;;
    ata_pio_register_write cp ATA_REG_SECCOUNT1 (Z.shiftr sectors 8) ;;;
    ata_pio_register_write cp ATA_REG_LBA3 (Z.shiftr lba 24) ;;;
    ata_pio_register_write cp ATA_REG_LBA4 (Z.shiftr lba 32) ;;;
    ata_pio_register_write cp ATA_REG_LBA5 (Z.shiftr lba 40) ;;;
    ret (ATA_CMD_READ_PIO_EXT, ATA_CMD_CACHE_FLUSH_EXT)
  else
    ata_pio_register_write cp ATA_REG_HDDEVSEL (Z.lor selection (Z.land (u8 (Z.shiftr lba 24)) 0x0f)) ;;;
    hw (ticks_mwait 1) ;;;
    ata_pio_register_write cp ATA_REG_CONTROL (Z.lor ATA_BIT_NIEN ATA_BIT_CTL_OBS) ;;;
    ata_pio_wait_for_status cp ATA_SR_BSY 0 ;;;
    ret (ATA_CMD_READ_PIO, ATA_CMD_CACHE_FLUSH).

Definition ata_pio_read (dp : ide_drive) (lba sectors : Z) : M (ata H) Z :=
  let cp := dp_channel dp in
  if negb (dp_present dp) then ret ATA_ER_UNSUP else
  if Z.land (dp_capabilities dp) ATA_CAP_BIT_LBA =? 0 then ret ATA_ER_UNSUP else
  if dp_type dp =? IDE_ATAPI then ret ATA_ER_UNSUP else
  assert_held cp ;;;
  ata_pio_wait_for_status cp (Z.lor ATA_SR_BSY ATA_SR_DRQ) 0 ;;;
  commands <- select_sector dp lba sectors ;;
  ata_pio_register_write cp ATA_REG_SECCOUNT0 sectors ;;;
  ata_pio_register_write cp ATA_REG_LBA0 lba ;;;
  ata_pio_register_write cp ATA_REG_LBA1 (Z.shiftr lba 8) ;;;
  ata_pio_register_write cp ATA_REG_LBA2 (Z.shiftr lba 16) ;;;
  ata_pio_wait_for_status cp ATA_SR_BSY 0 ;;;
  ata_pio_register_write cp ATA_REG_COMMAND (fst commands) ;;;
  err <- read_sectors (Z.to_nat sectors) 0 cp ;;
  if negb (err =? ATA_ER_NOERR) then ret err else
  ata_pio_wait_for_status cp ATA_SR_BSY 0 ;;;
  ata_pio_register_write cp ATA_REG_COMMAND (snd commands) ;;;
  _ <- ata_pio_poll cp false ;;
  ret ATA_ER_NOERR.

(** Writing is not implemented. *)
Definition ata_pio_write (dp : ide_drive) (lba sectors : Z) (buffer : list Z) : M (ata H) Z :=
  ret ATA_ER_UNSUP.

End ata_pio.

(** ** What the driver relies on of the drives of a channel *)

(** The state of a channel's registers, as far as the driver can tell: for how many
    more readings of the status register the selected drive stays busy, the last and
    the last but one byte written to each register, and the words still to be read
    from the data register. *)
Record drive_state := mk_drive_state {
  ds_busy : nat;
  ds_cur : Z → Z;
  ds_prev : Z → Z;
  ds_data : list Z;
}.

Definition upd (f : Z → Z) (r v : Z) : Z → Z := fun x => if x =? r then v else f x.

(** The address a read command finds in the registers. *)
Definition lba28 (cur : Z → Z) : Z :=
  cur ATA_REG_LBA0 + 2 ^ 8 * cur ATA_REG_LBA1 + 2 ^ 16 * cur ATA_REG_LBA2 + 2 ^ 24 * (cur ATA_REG_HDDEVSEL mod 2 ^ 4).
Definition lba48 (cur prev : Z → Z) : Z :=
  cur ATA_REG_LBA0 + 2 ^ 8 * cur ATA_REG_LBA1 + 2 ^ 16 * cur ATA_REG_LBA2 +
  2 ^ 24 * prev ATA_REG_LBA0 + 2 ^ 32 * prev ATA_REG_LBA1 + 2 ^ 40 * prev ATA_REG_LBA2.

(** The drive selected by the device register, in LBA mode. *)
Definition selected (cur : Z → Z) : bool := Z.testbit (cur ATA_REG_HDDEVSEL) 4.
Definition lba_mode (cur : Z → Z) : bool := Z.testbit (cur ATA_REG_HDDEVSEL) 6.

(** The registers of a channel whose drives hold [disk slave lba], 256 words each,
    below [sectors slave]; a drive stays busy for at most [bound] readings. *)
Class AtaChannel (H : Type) `{Ports H} (cp : ide_channel) := {
  view : H → drive_state;
  disk : bool → Z → list Z;
  sectors : bool → Z;
  bound : nat;
  disk_words : ∀ d n, 0 ≤ n < sectors d →
    length (disk d n) = 256%nat ∧ Forall (fun w => 0 ≤ w < 2 ^ 16) (disk d n);
  (* the status register counts a busy drive down, and is read without effect
     once the drive is ready: no error, and DRQ while there are words to read *)
  status_busy : ∀ h n, ds_busy (view h) = S n →
    ∃ v h', pio_inb (pio_command cp + ATA_REG_STATUS) h = Done (v, h') ∧ Z.testbit v 7 = true ∧
      view h' = mk_drive_state n (ds_cur (view h)) (ds_prev (view h)) (ds_data (view h));
  status_ready : ∀ h, ds_busy (view h) = O →
    ∃ v h', pio_inb (pio_command cp + ATA_REG_STATUS) h = Done (v, h') ∧ Z.testbit v 7 = false ∧
      Z.testbit v 5 = false ∧ Z.testbit v 0 = false ∧
      Z.testbit v 3 = negb (bool_decide (ds_data (view h) = [])) ∧ view h' = view h;
  (* the parameter registers remember two writes *)
  write_parameter : ∀ h r v, ds_busy (view h) = O → ATA_REG_SECCOUNT0 ≤ r ≤ ATA_REG_LBA2 →
    ∃ h', pio_outb (pio_command cp + r) v h = Done (tt, h') ∧
      view h' = mk_drive_state O (upd (ds_cur (view h)) r v)
                  (upd (ds_prev (view h)) r (ds_cur (view h) r)) (ds_data (view h));
  write_select : ∀ h v, ds_busy (view h) = O →
    ∃ h' n, pio_outb (pio_command cp + ATA_REG_HDDEVSEL) v h = Done (tt, h') ∧ (n ≤ bound)%nat ∧
      view h' = mk_drive_state n (upd (ds_cur (view h)) ATA_REG_HDDEVSEL v) (ds_prev (view h)) (ds_data (view h));
  write_control : ∀ h v, (ds_busy (view h) ≤ bound)%nat →
    ∃ h' n, pio_outb (pio_control cp) v h = Done (tt, h') ∧ (n ≤ bound)%nat ∧
      view h' = mk_drive_state n (ds_cur (view h)) (ds_prev (view h)) (ds_data (view h));
  (* time passes *)
  wait_time : ∀ h t, ∃ h' n, ticks_mwait t h = Done (tt, h') ∧ (n ≤ ds_busy (view h))%nat ∧
      view h' = mk_drive_state n (ds_cur (view h)) (ds_prev (view h)) (ds_data (view h));
  (* reading one sector makes its words available *)
  command_read : ∀ h, let cur := ds_cur (view h) in
    ds_busy (view h) = O → ds_data (view h) = [] → lba_mode cur = true →
    cur ATA_REG_SECCOUNT0 = 1 → 0 ≤ lba28 cur < sectors (selected cur) →
    ∃ h', pio_outb (pio_command cp + ATA_REG_COMMAND) ATA_CMD_READ_PIO h = Done (tt, h') ∧
      (ds_busy (view h') ≤ bound)%nat ∧ ds_data (view h') = disk (selected cur) (lba28 cur);
  command_read_ext : ∀ h, let cur := ds_cur (view h) in let prev := ds_prev (view h) in
    ds_busy (view h) = O → ds_data (view h) = [] → lba_mode cur = true →
    cur ATA_REG_SECCOUNT0 = 1 → prev ATA_REG_SECCOUNT0 = 0 → 0 ≤ lba48 cur prev < sectors (selected cur) →
    ∃ h', pio_outb (pio_command cp + ATA_REG_COMMAND) ATA_CMD_READ_PIO_EXT h = Done (tt, h') ∧
      (ds_busy (view h') ≤ bound)%nat ∧ ds_data (view h') = disk (selected cur) (lba48 cur prev);
  command_flush : ∀ h v, v = ATA_CMD_CACHE_FLUSH ∨ v = ATA_CMD_CACHE_FLUSH_EXT →
    ds_busy (view h) = O → ds_data (view h) = [] →
    ∃ h', pio_outb (pio_command cp + ATA_REG_COMMAND) v h = Done (tt, h') ∧
      (ds_busy (view h') ≤ bound)%nat ∧ ds_data (view h') = [];
  (* the data register yields the words in order; the drive may turn busy after the last *)
  read_data : ∀ h w l, ds_busy (view h) = O → ds_data (view h) = w :: l →
    ∃ h', pio_inw (pio_command cp + ATA_REG_DATA) h = Done (w, h') ∧ ds_data (view h') = l ∧
      (ds_busy (view h') ≤ bound)%nat ∧ (l ≠ [] → ds_busy (view h') = O);
}.

(** The bytes of a sector, low byte of each word first. *)
Definition word_bytes (w : Z) : list Z := [u8 w; u8 (w / 2 ^ 8)].
Definition sector_bytes (l : list Z) : list Z := l ≫= word_bytes.

(** ** Lemmas *)

Lemma store8_u8 m a v : store8 m a (u8 v) = store8 m a v.
Proof. unfold store8. by rewrite (u8_small (u8 v)) by apply u8_range. Qed.

Lemma sector_bytes_length l : length (sector_bytes l) = (2 * length l)%nat.
Proof. induction l as [|w l IH]; [done|]. cbn. fold (sector_bytes l). rewrite IH. lia. Qed.

Lemma byte_list_sector l : byte_list (sector_bytes l).
Proof.
  induction l as [|w l IH]; [constructor|]. unfold sector_bytes. cbn.
  constructor; [apply u8_range|]. constructor; [apply u8_range|]. exact IH.
Qed.

(** The device register for a drive and the upper four bits of an address. *)
Lemma select_fields (slave : bool) x :
  0 ≤ x < 2 ^ 4 →
  let v := u8 (Z.lor (Z.lor (if slave then Z.lor ATA_SEL_BIT_DEV ATA_SEL_BIT_SLAVE else ATA_SEL_BIT_DEV)
                        ATA_SEL_BIT_LBA) x) in
  v mod 2 ^ 4 = x ∧ Z.testbit v 4 = slave ∧ Z.testbit v 6 = true.
Proof.
  intros Hx.
  assert (x = 0 ∨ x = 1 ∨ x = 2 ∨ x = 3 ∨ x = 4 ∨ x = 5 ∨ x = 6 ∨ x = 7 ∨ x = 8 ∨ x = 9 ∨ x = 10 ∨
          x = 11 ∨ x = 12 ∨ x = 13 ∨ x = 14 ∨ x = 15) as E by lia.
  repeat destruct E as [->|E]; try subst x; by destruct slave; vm_compute.
Qed.

(** The bytes of an address, as the registers receive them. *)
Lemma u8_shiftr x k : 0 ≤ k → u8 (Z.shiftr x k) = x / 2 ^ k mod 2 ^ 8.
Proof. intros Hk. unfold u8. by rewrite Z.shiftr_div_pow2. Qed.

Lemma bytes_split x k : 0 ≤ k → x / 2 ^ k mod 2 ^ 8 + 2 ^ 8 * (x / 2 ^ (k + 8)) = x / 2 ^ k.
Proof.
  intros Hk. rewrite Z.pow_add_r, <- Z.div_div by lia.
  pose proof (Z.div_mod (x / 2 ^ k) (2 ^ 8) ltac:(lia)). lia.
Qed.

Section transfer.
Context {H : Type} `{Ports H} (cp : ide_channel) `{!AtaChannel H cp}.

(** The mutexes of the channels are [hl], with this channel's held; its drive is busy
    for at most [n] readings, its registers hold [c] over [p], the words [d] wait to
    be read, and [m] is the memory. *)
Record chan (n : nat) (hl : nat → bool) (c p : Z → Z) (d : list Z) (m : mem) (s : ata H) : Prop := {
  cn_mine : hl (ch_num cp) = true;
  cn_held : at_held s = hl;
  cn_busy : (ds_busy (view (at_hw s)) ≤ n)%nat;
  cn_cur : ds_cur (view (at_hw s)) = c;
  cn_prev : ds_prev (view (at_hw s)) = p;
  cn_data : ds_data (view (at_hw s)) = d;
  cn_buf : at_buf s = m;
}.

(** The same after a command, which may change the registers. *)
Definition chan_any (n : nat) (hl : nat → bool) (d : list Z) (m : mem) (s : ata H) : Prop :=
  ∃ c p, chan n hl c p d m s.

Lemma chan_weaken n hl c p d m s : chan 0 hl c p d m s → chan n hl c p d m s.
Proof. intros [? ? ? ? ? ? ?]. split; try done. lia. Qed.

Lemma chan_ready hl c p d m s : chan 0 hl c p d m s → ds_busy (view (at_hw s)) = O.
Proof. intros [? ? ? ? ? ? ?]. lia. Qed.

Lemma assert_held_run n hl c p d m s : chan n hl c p d m s → assert_held cp s = Done (tt, s).
Proof. intros [Hm Hh ? ? ? ? ?]. unfold assert_held, bind, get. by rewrite Hh, Hm. Qed.

(** An access to the hardware leaves the mutexes and the memory alone. *)
Lemma hw_run {A} (f : M H A) a h' s n n' hl c p d m c' p' d' :
  chan n hl c p d m s → f (at_hw s) = Done (a, h') → (ds_busy (view h') ≤ n')%nat →
  ds_cur (view h') = c' → ds_prev (view h') = p' → ds_data (view h') = d' →
  returns (hw f) s (fun b s' => b = a ∧ chan n' hl c' p' d' m s').
Proof.
  intros [? ? ? ? ? ? ?] E Hb Hc Hp Hd. eapply returns_run.
  - unfold hw, zoom. by rewrite E.
  - by repeat split.
Qed.

Lemma read_status_run n hl c p d m s :
  chan n hl c p d m s →
  returns (ata_pio_register_read cp ATA_REG_STATUS) s (fun v s' =>
    match ds_busy (view (at_hw s)) with
    | S k => Z.testbit v 7 = true ∧ chan k hl c p d m s'
    | O => Z.testbit v 7 = false ∧ Z.testbit v 5 = false ∧ Z.testbit v 0 = false ∧
           Z.testbit v 3 = negb (bool_decide (d = [])) ∧ chan 0 hl c p d m s'
    end).
Proof.
  intros C. unfold ata_pio_register_read. unfold returns.
  rewrite (bind_run _ _ _ _ _ (assert_held_run _ _ _ _ _ _ _ C)).
  change (is_ata_command_reg ATA_REG_STATUS) with true. cbv iota.
  destruct (ds_busy (view (at_hw s))) as [|k] eqn:Eb.
  - destruct (status_ready (at_hw s) Eb) as (v & h' & E & B7 & B5 & B0 & B3 & V).
    eapply returns_mono; [eapply (hw_run _ v h' _ _ 0 _ _ _ _ _ c p d C E)|].
    + rewrite V, Eb. lia.
    + rewrite V. apply C.
    + rewrite V. apply C.
    + rewrite V. apply C.
    + intros v' s' [-> C']. destruct C as [? ? ? ? ? Cd ?]. rewrite Cd in B3. done.
  - destruct (status_busy (at_hw s) k Eb) as (v & h' & E & B7 & V).
    eapply returns_mono; [eapply (hw_run _ v h' _ _ k _ _ _ _ _ c p d C E)|].
    + by rewrite V.
    + rewrite V. apply C.
    + rewrite V. apply C.
    + rewrite V. apply C.
    + intros v' s' [-> C']. done.
Qed.

(** Waiting for a mask of status bits to be clear ends once the drive is ready. *)
Lemma wait_loop_run k f mask hl c p d m s :
  chan k hl c p d m s → (k < f)%nat →
  mask = ATA_SR_BSY ∨ (mask = Z.lor ATA_SR_BSY ATA_SR_DRQ ∧ d = []) →
  returns (wait_loop f cp mask 0) s (fun _ s' => chan 0 hl c p d m s').
Proof.
  revert k s. induction f as [|f IH]; intros k s C Hk Hm; [lia|]. cbn [wait_loop].
  eapply returns_bind; [apply (read_status_run _ _ _ _ _ _ _ C)|]. intros v s' Q. cbn beta.
  assert (Eb : Z.land v ATA_SR_BSY = if Z.testbit v 7 then 2 ^ 7 else 0) by apply (land_pow2 v 7 ltac:(lia)).
  assert (Ed : Z.land v ATA_SR_DRQ = if Z.testbit v 3 then 2 ^ 3 else 0) by apply (land_pow2 v 3 ltac:(lia)).
  rewrite Z.mul_0_l. destruct (ds_busy (view (at_hw s))) as [|j] eqn:Ej.
  - destruct Q as (B7 & _ & _ & B3 & C'). rewrite B7 in Eb.
    assert (E : Z.land v mask = 0).
    { destruct Hm as [->|[-> ->]]; [done|]. rewrite Z.land_lor_distr_r, Eb, Ed, B3. done. }
    rewrite E. cbn. done.
  - destruct Q as (B7 & C'). rewrite B7 in Eb.
    assert (E : (Z.land v mask =? 0) = false).
    { apply Z.eqb_neq. destruct Hm as [->|[-> ->]]; [rewrite Eb; done|].
      rewrite Z.land_lor_distr_r, Eb. intros E. apply Z.lor_eq_0_iff in E as [E _]. done. }
    rewrite E. cbn [negb]. apply (IH j); [done| |done].
    destruct C as [? ? Cb ? ? ? ?]. lia.
Qed.

Lemma mwait_run t n hl c p d m s :
  chan n hl c p d m s → returns (hw (ticks_mwait t)) s (fun _ s' => chan n hl c p d m s').
Proof.
  intros C. destruct (wait_time (at_hw s) t) as (h' & k & E & Hk & V).
  eapply returns_mono; [eapply (hw_run _ tt h' _ _ n _ _ _ _ _ c p d C E)|by intros ? ? [_ ?]];
    rewrite V; destruct C; cbn; [lia|done..].
Qed.

Lemma write_parameter_run r v hl c p d m s :
  chan 0 hl c p d m s → ATA_REG_SECCOUNT0 ≤ r ≤ ATA_REG_LBA2 →
  returns (ata_pio_register_write cp r v) s (fun _ s' => chan 0 hl (upd c r (u8 v)) (upd p r (c r)) d m s').
Proof.
  intros C Hr. unfold ata_pio_register_write, returns.
  rewrite (bind_run _ _ _ _ _ (assert_held_run _ _ _ _ _ _ _ C)).
  unfold is_ata_command_reg. rewrite (proj2 (Z.leb_le r 7)) by (unfold ATA_REG_LBA2 in Hr; lia).
  destruct (write_parameter (at_hw s) r (u8 v) (chan_ready _ _ _ _ _ _ C) Hr) as (h' & E & V).
  eapply returns_mono; [eapply (hw_run _ tt h' _ _ 0 _ _ _ _ _ _ _ _ C E); [by rewrite V|done..]|].
  intros _ s' [_ C']. rewrite V in C'. destruct C as [? ? ? <- <- <- ?]. exact C'.
Qed.

Lemma write_select_run v hl c p d m s :
  chan 0 hl c p d m s →
  returns (ata_pio_register_write cp ATA_REG_HDDEVSEL v) s
    (fun _ s' => chan bound hl (upd c ATA_REG_HDDEVSEL (u8 v)) p d m s').
Proof.
  intros C. unfold ata_pio_register_write, returns.
  rewrite (bind_run _ _ _ _ _ (assert_held_run _ _ _ _ _ _ _ C)).
  change (is_ata_command_reg ATA_REG_HDDEVSEL) with true. cbv iota.
  destruct (write_select (at_hw s) (u8 v) (chan_ready _ _ _ _ _ _ C)) as (h' & k & E & Hk & V).
  eapply returns_mono; [eapply (hw_run _ tt h' _ _ bound _ _ _ _ _ _ _ _ C E); [by rewrite V|done..]|].
  intros _ s' [_ C']. rewrite V in C'. destruct C as [? ? ? <- <- <- ?]. exact C'.
Qed.

Lemma write_control_run v n hl c p d m s :
  chan n hl c p d m s → (n ≤ bound)%nat →
  returns (ata_pio_register_write cp ATA_REG_CONTROL v) s (fun _ s' => chan bound hl c p d m s').
Proof.
  intros C Hn. unfold ata_pio_register_write, returns.
  rewrite (bind_run _ _ _ _ _ (assert_held_run _ _ _ _ _ _ _ C)).
  change (is_ata_command_reg ATA_REG_CONTROL) with false.
  change (is_ata_control_reg ATA_REG_CONTROL) with true. cbv iota.
  replace (pio_control cp + ATA_REG_CONTROL - ATA_CONTROL_REG_BASE) with (pio_control cp)
    by (unfold ATA_REG_CONTROL, ATA_CONTROL_REG_BASE; lia).
  destruct (write_control (at_hw s) (u8 v)) as (h' & k & E & Hk & V); [destruct C; lia|].
  eapply returns_mono; [eapply (hw_run _ tt h' _ _ bound _ _ _ _ _ _ _ _ C E); [by rewrite V|done..]|].
  intros _ s' [_ C']. rewrite V in C'. destruct C as [? ? ? <- <- <- ?]. exact C'.
Qed.

(** A command byte accepted by the hardware. *)
Lemma write_command_run v h' d' hl c p d m s :
  chan 0 hl c p d m s → u8 v = v →
  pio_outb (pio_command cp + ATA_REG_COMMAND) v (at_hw s) = Done (tt, h') →
  (ds_busy (view h') ≤ bound)%nat → ds_data (view h') = d' →
  returns (ata_pio_register_write cp ATA_REG_COMMAND v) s (fun _ s' => chan_any bound hl d' m s').
Proof.
  intros C Hv E Hb Hd. unfold ata_pio_register_write, returns.
  rewrite (bind_run _ _ _ _ _ (assert_held_run _ _ _ _ _ _ _ C)).
  change (is_ata_command_reg ATA_REG_COMMAND) with true. cbv iota. rewrite Hv.
  eapply returns_mono; [eapply (hw_run _ tt h' _ _ bound _ _ _ _ _ _ _ _ C E); done|].
  intros _ s' [_ C']. by eexists _, _.
Qed.

Context (fuel : nat) (Hfuel : (bound < fuel)%nat).

Lemma wait_clear n mask hl c p d m s :
  chan n hl c p d m s → (n ≤ bound)%nat → mask = ATA_SR_BSY ∨ (mask = Z.lor ATA_SR_BSY ATA_SR_DRQ ∧ d = []) →
  returns (ata_pio_wait_for_status fuel cp mask 0) s (fun _ s' => chan 0 hl c p d m s').
Proof.
  intros C Hn Hm. unfold ata_pio_wait_for_status, returns.
  rewrite (bind_run _ _ _ _ _ (assert_held_run _ _ _ _ _ _ _ C)).
  apply (wait_loop_run n); [done|lia|done].
Qed.

Lemma wait_data hl c p d m s :
  chan 0 hl c p d m s → d ≠ [] →
  returns (ata_pio_wait_for_status fuel cp ATA_SR_DRQ 1) s (fun _ s' => chan 0 hl c p d m s').
Proof.
  intros C Hd. unfold ata_pio_wait_for_status, returns.
  rewrite (bind_run _ _ _ _ _ (assert_held_run _ _ _ _ _ _ _ C)).
  destruct fuel as [|f]; [lia|]. cbn [wait_loop].
  eapply returns_bind; [apply (read_status_run _ _ _ _ _ _ _ C)|]. intros v s' Q. cbn beta.
  rewrite (chan_ready _ _ _ _ _ _ C) in Q. destruct Q as (_ & _ & _ & B3 & C').
  assert (Ed : Z.land v ATA_SR_DRQ = if Z.testbit v 3 then 2 ^ 3 else 0) by apply (land_pow2 v 3 ltac:(lia)).
  rewrite bool_decide_eq_false_2 in B3 by done. cbn [negb] in B3. rewrite B3 in Ed. rewrite Ed. done.
Qed.

Lemma poll_run n read_status hl c p d m s :
  chan n hl c p d m s → (n ≤ bound)%nat → (read_status = true → d ≠ []) →
  returns (ata_pio_poll fuel cp read_status) s (fun e s' => e = ATA_ER_NOERR ∧ chan 0 hl c p d m s').
Proof.
  intros C Hn Hd. unfold ata_pio_poll, returns.
  rewrite (bind_run _ _ _ _ _ (assert_held_run _ _ _ _ _ _ _ C)). fold (returns (A:=Z) (S:=ata H)).
  step (mwait_run _ _ _ _ _ _ _ _ C) as ? s1 C1.
  step (wait_clear _ _ _ _ _ _ _ _ C1 Hn) as ? s2 C2.
  destruct read_status; [|by apply (returns_run _ _ _ _ _ eq_refl)].
  eapply returns_bind; [apply (read_status_run _ _ _ _ _ _ _ C2)|]. intros v s3 Q. cbn beta.
  rewrite (chan_ready _ _ _ _ _ _ C2) in Q. destruct Q as (_ & B5 & B0 & B3 & C3).
  rewrite bool_decide_eq_false_2 in B3 by auto. cbn [negb] in B3.
  assert (E0 : Z.land v ATA_SR_ERR = 0) by (change ATA_SR_ERR with (2 ^ 0); rewrite land_pow2, B0 by lia; done).
  assert (E5 : Z.land v ATA_SR_DF = 0) by (change ATA_SR_DF with (2 ^ 5); rewrite land_pow2, B5 by lia; done).
  assert (E3 : Z.land v ATA_SR_DRQ = 2 ^ 3) by (change ATA_SR_DRQ with (2 ^ 3); rewrite land_pow2, B3 by lia; done).
  rewrite E0, E5, E3. cbn. done.
Qed.

(** Reading the words that wait in the data register. *)
Lemma read_words_run d i off hl c p m s :
  chan 0 hl c p d m s →
  returns (read_words (length d) i cp ATA_REG_DATA off) s
    (fun _ s' => chan_any bound hl [] (write_bytes m (off + 2 * i) (sector_bytes d)) s').
Proof.
  revert i c p m s. induction d as [|w d IH]; intros i c p m s C; cbn [length read_words].
  { apply (returns_run _ _ _ _ _ eq_refl). exists c, p. by apply chan_weaken. }
  change (is_ata_command_reg ATA_REG_DATA) with true. cbv iota.
  destruct (read_data (at_hw s) w d (chan_ready _ _ _ _ _ _ C)) as (h' & E & Hd & Hb & Hr); [apply C|].
  set (m1 := write_bytes m (off + 2 * i) (word_bytes w)).
  set (n := if decide (d = []) then bound else O).
  assert (Hn : (ds_busy (view h') ≤ n)%nat) by (subst n; case_decide; [done|by rewrite Hr]).
  eapply (returns_bind _ _ _ (fun _ s' => chan_any n hl d m1 s')).
  { eapply returns_bind; [eapply (hw_run _ w h' _ _ n _ _ _ _ _ _ _ d C E); done|].
    intros w' s' [-> [? ? ? ? ? ? Hm]]. apply (returns_run _ _ _ _ _ eq_refl).
    eexists _, _. split; try done. cbn. subst m1. cbn [write_bytes word_bytes]. by rewrite !store8_u8, Hm. }
  intros ? s1 (c1 & p1 & C1). destruct d as [|w2 d2].
  - apply (returns_run _ _ _ _ _ eq_refl). by exists c1, p1.
  - eapply returns_mono; [apply (IH (i + 1) c1 p1 m1 s1 C1)|]. intros ? s2 Q. subst m1.
    replace (off + 2 * (i + 1)) with (off + 2 * i + 1 + 1) in Q by lia. exact Q.
Qed.

Lemma read_buffer_run d off words hl c p m s :
  chan 0 hl c p d m s → Z.to_nat words = length d →
  returns (ata_pio_register_read_buffer cp ATA_REG_DATA off words) s
    (fun _ s' => chan_any bound hl [] (write_bytes m off (sector_bytes d)) s').
Proof.
  intros C Hw. unfold ata_pio_register_read_buffer, returns.
  rewrite (bind_run _ _ _ _ _ (assert_held_run _ _ _ _ _ _ _ C)). rewrite Hw.
  eapply returns_mono; [apply (read_words_run _ _ _ _ _ _ _ _ C)|]. intros ? s' Q.
  by rewrite Z.add_0_r in Q.
Qed.

(** One sector is transferred once the read command is given. *)
Lemma read_sector_run d hl m s :
  chan_any bound hl d m s → length d = 256%nat →
  returns (read_sectors fuel 1 0 cp) s (fun e s' => e = ATA_ER_NOERR ∧
    chan_any bound hl [] (write_bytes m 0 (sector_bytes d)) s').
Proof.
  intros (c & p & C) Hl. assert (Hd : d ≠ []) by (by intros ->). cbn [read_sectors].
  eapply returns_bind; [apply (poll_run _ true _ _ _ _ _ _ C); auto|]. intros e s1 [-> C1].
  change (negb (ATA_ER_NOERR =? ATA_ER_NOERR)) with false. cbv iota.
  step (wait_data _ _ _ _ _ _ C1) as ? s2 C2.
  eapply returns_bind; [apply (read_buffer_run _ _ _ _ _ _ _ _ C2); by rewrite Hl|].
  intros ? s3 C3. apply (returns_run _ _ _ _ _ eq_refl). by split.
Qed.

(** What the first part of a transfer leaves in the registers: the drive selected, and
    the upper part of the address in the device register or, for a 48-bit address,
    in the parameter registers. *)
Definition prepared (slave ext : bool) (lba : Z) (c : Z → Z) : Prop :=
  selected c = slave ∧ lba_mode c = true ∧
  if ext then c ATA_REG_SECCOUNT0 = 0 ∧ c ATA_REG_LBA0 = lba / 2 ^ 24 mod 2 ^ 8 ∧
              c ATA_REG_LBA1 = lba / 2 ^ 32 mod 2 ^ 8 ∧ c ATA_REG_LBA2 = lba / 2 ^ 40 mod 2 ^ 8
  else c ATA_REG_HDDEVSEL mod 2 ^ 4 = lba / 2 ^ 24.

Definition commands (ext : bool) : Z * Z :=
  if ext then (ATA_CMD_READ_PIO_EXT, ATA_CMD_CACHE_FLUSH_EXT) else (ATA_CMD_READ_PIO, ATA_CMD_CACHE_FLUSH).

Context (dp : ide_drive) (Hcp : dp_channel dp = cp).

Lemma select28_run lba hl c p m s :
  chan 0 hl c p [] m s → 0 ≤ lba → lba + 1 < 2 ^ 28 →
  returns (select_sector fuel dp lba 1) s (fun r s' => r = commands false ∧
    ∃ c', prepared (dp_drive dp =? IDE_DRV_SLAVE) false lba c' ∧ chan 0 hl c' p [] m s').
Proof.
  intros C Hlo Hhi. unfold select_sector. rewrite Hcp.
  replace ((lba >=? 2 ^ 28) || (lba + 1 >=? 2 ^ 28) || (1 >=? 2 ^ 8)) with false
    by (symmetry; rewrite !orb_false_iff, !Z.geb_leb, !Z.leb_gt; lia).
  step (write_select_run _ _ _ _ _ _ _ C) as ? s1 C1.
  step (mwait_run _ _ _ _ _ _ _ _ C1) as ? s2 C2.
  step (write_control_run _ _ _ _ _ _ _ _ C2) as ? s3 C3.
  step (wait_clear _ _ _ _ _ _ _ _ C3) as ? s4 C4.
  apply (returns_run _ _ _ _ _ eq_refl). split; [done|]. eexists. split; [|exact C4].
  assert (Hx : Z.land (u8 (Z.shiftr lba 24)) 15 = lba / 2 ^ 24).
  { change 15 with (Z.ones 4). rewrite Z.land_ones, u8_shiftr by lia.
    assert (0 ≤ lba / 2 ^ 24 < 2 ^ 4) by (split; [by apply Z.div_pos|apply Z.div_lt_upper_bound; lia]).
    rewrite (Z.mod_small _ (2 ^ 8)), Z.mod_small by lia. done. }
  rewrite Hx. destruct (select_fields (dp_drive dp =? IDE_DRV_SLAVE) (lba / 2 ^ 24)) as (F1 & F2 & F3).
  { split; [by apply Z.div_pos|apply Z.div_lt_upper_bound; lia]. }
  repeat split; unfold selected, lba_mode, upd; by rewrite Z.eqb_refl.
Qed.

Lemma select48_run lba hl c p m s :
  chan 0 hl c p [] m s → 0 ≤ lba → 2 ^ 28 ≤ lba + 1 → Z.land (dp_fcs5 dp) ATA_FCS5_BIT_LBA48 ≠ 0 →
  returns (select_sector fuel dp lba 1) s (fun r s' => r = commands true ∧
    ∃ c' p', prepared (dp_drive dp =? IDE_DRV_SLAVE) true lba c' ∧ chan 0 hl c' p' [] m s').
Proof.
  intros C Hlo Hhi Hc. unfold select_sector. rewrite Hcp.
  replace ((lba >=? 2 ^ 28) || (lba + 1 >=? 2 ^ 28) || (1 >=? 2 ^ 8)) with true
    by (symmetry; rewrite !orb_true_iff, !Z.geb_leb, !Z.leb_le; lia).
  step (write_select_run _ _ _ _ _ _ _ C) as ? s1 C1.
  step (mwait_run _ _ _ _ _ _ _ _ C1) as ? s2 C2.
  step (write_control_run _ _ _ _ _ _ _ _ C2) as ? s3 C3.
  step (mwait_run _ _ _ _ _ _ _ _ C3) as ? s4 C4.
  step (wait_clear _ _ _ _ _ _ _ _ C4) as ? s5 C5.
  rewrite (proj2 (Z.eqb_neq _ 0) Hc). cbn [negb]. eapply returns_bind; [by apply (returns_run _ _ _ _ (fun _ s' => s' = s5) eq_refl)|].
  intros ? ? ->.
  step (write_parameter_run _ _ _ _ _ _ _ _ C5) as ? s6 C6.
  step (write_parameter_run _ _ _ _ _ _ _ _ C6) as ? s7 C7.
  step (write_parameter_run _ _ _ _ _ _ _ _ C7) as ? s8 C8.
  step (write_parameter_run _ _ _ _ _ _ _ _ C8) as ? s9 C9.
  apply (returns_run _ _ _ _ _ eq_refl). split; [done|]. eexists _, _. split; [|exact C9].
  destruct (select_fields (dp_drive dp =? IDE_DRV_SLAVE) 0) as (F1 & F2 & F3); [lia|]. rewrite Z.lor_0_r in F2, F3.
  repeat split; try done; unfold upd; cbn; by apply u8_shiftr.
Qed.

(** The parameters are written over what [select_sector] left. *)
Lemma parameters_run {A} lba hl c p m s (k : M (ata H) A) (Q : A → ata H → Prop) :
  chan 0 hl c p [] m s →
  (∀ s' c' p', chan 0 hl c' p' [] m s' → c' ATA_REG_SECCOUNT0 = 1 →
       c' ATA_REG_LBA0 = lba mod 2 ^ 8 → c' ATA_REG_LBA1 = lba / 2 ^ 8 mod 2 ^ 8 →
       c' ATA_REG_LBA2 = lba / 2 ^ 16 mod 2 ^ 8 → c' ATA_REG_HDDEVSEL = c ATA_REG_HDDEVSEL →
       p' ATA_REG_SECCOUNT0 = c ATA_REG_SECCOUNT0 → p' ATA_REG_LBA0 = c ATA_REG_LBA0 →
       p' ATA_REG_LBA1 = c ATA_REG_LBA1 → p' ATA_REG_LBA2 = c ATA_REG_LBA2 → returns k s' Q) →
  returns (ata_pio_register_write cp ATA_REG_SECCOUNT0 1 ;;;
           ata_pio_register_write cp ATA_REG_LBA0 lba ;;;
           ata_pio_register_write cp ATA_REG_LBA1 (Z.shiftr lba 8) ;;;
           ata_pio_register_write cp ATA_REG_LBA2 (Z.shiftr lba 16) ;;;
           ata_pio_wait_for_status fuel cp ATA_SR_BSY 0 ;;; k) s Q.
Proof.
  intros C K.
  step (write_parameter_run _ _ _ _ _ _ _ _ C) as ? s1 C1.
  step (write_parameter_run _ _ _ _ _ _ _ _ C1) as ? s2 C2.
  step (write_parameter_run _ _ _ _ _ _ _ _ C2) as ? s3 C3.
  step (write_parameter_run _ _ _ _ _ _ _ _ C3) as ? s4 C4.
  eapply returns_bind; [apply (wait_clear _ _ _ _ _ _ _ _ C4); [lia|by left]|].
  intros ? s5 C5. apply (K _ _ _ C5); unfold upd; cbn; try done; by apply u8_shiftr.
Qed.

(** The read command finds the address that was written. *)
Lemma command_run (ext : bool) lba hl c p m s :
  chan 0 hl c p [] m s → 0 ≤ lba < sectors (selected c) → lba < 2 ^ 48 → lba_mode c = true →
  c ATA_REG_SECCOUNT0 = 1 → c ATA_REG_LBA0 = lba mod 2 ^ 8 → c ATA_REG_LBA1 = lba / 2 ^ 8 mod 2 ^ 8 →
  c ATA_REG_LBA2 = lba / 2 ^ 16 mod 2 ^ 8 →
  (if ext then p ATA_REG_SECCOUNT0 = 0 ∧ p ATA_REG_LBA0 = lba / 2 ^ 24 mod 2 ^ 8 ∧
       p ATA_REG_LBA1 = lba / 2 ^ 32 mod 2 ^ 8 ∧ p ATA_REG_LBA2 = lba / 2 ^ 40 mod 2 ^ 8
   else c ATA_REG_HDDEVSEL mod 2 ^ 4 = lba / 2 ^ 24) →
  returns (ata_pio_register_write cp ATA_REG_COMMAND (fst (commands ext))) s
    (fun _ s' => chan_any bound hl (disk (selected c) lba) m s').
Proof.
  intros C Hl H48 Hm Hs R0 R1 R2 Hx. pose proof (chan_ready _ _ _ _ _ _ C) as Hr.
  pose proof (bytes_split lba 0 ltac:(lia)) as B0. pose proof (bytes_split lba 8 ltac:(lia)) as B1.
  pose proof (bytes_split lba 16 ltac:(lia)) as B2. pose proof (bytes_split lba 24 ltac:(lia)) as B3.
  pose proof (bytes_split lba 32 ltac:(lia)) as B4. pose proof (bytes_split lba 40 ltac:(lia)) as B5.
  change (2 ^ 0) with 1 in B0. rewrite Z.div_1_r in B0. change (0 + 8) with 8 in B0. change (8 + 8) with 16 in B1.
  change (16 + 8) with 24 in B2. change (24 + 8) with 32 in B3. change (32 + 8) with 40 in B4.
  change (40 + 8) with 48 in B5.
  rewrite (Z.div_small lba (2 ^ 48)) in B5 by lia.
  pose proof C as [_ _ _ Cc Cp Cd _].
  destruct ext.
  - destruct Hx as (Q0 & Q1 & Q2 & Q3).
    assert (EL : lba48 c p = lba) by (unfold lba48; rewrite R0, R1, R2, Q1, Q2, Q3; lia).
    destruct (command_read_ext (at_hw s)) as (h' & E & Hb & Hd); rewrite ?Cc, ?Cp, ?EL; try done.
    rewrite Cc, Cp, EL in Hd. by apply (write_command_run _ h' _ _ _ _ _ _ _ C).
  - assert (EL : lba28 c = lba) by (unfold lba28; rewrite R0, R1, R2, Hx; lia).
    destruct (command_read (at_hw s)) as (h' & E & Hb & Hd); rewrite ?Cc, ?EL; try done.
    rewrite Cc, EL in Hd. by apply (write_command_run _ h' _ _ _ _ _ _ _ C).
Qed.

(** The end of a transfer: the cache is flushed. *)
Lemma flush_run {A} ext hl m s (k : M (ata H) A) (Q : A → ata H → Prop) :
  chan_any bound hl [] m s → (∀ s', chan_any 0 hl [] m s' → returns k s' Q) →
  returns (ata_pio_wait_for_status fuel cp ATA_SR_BSY 0 ;;;
           ata_pio_register_write cp ATA_REG_COMMAND (snd (commands ext)) ;;;
           _ <- ata_pio_poll fuel cp false ;; k) s Q.
Proof.
  intros (c & p & C) K. step (wait_clear _ _ _ _ _ _ _ _ C) as ? s1 C1.
  destruct (command_flush (at_hw s1) (snd (commands ext))) as (h' & E & Hb & Hd).
  { destruct ext; [by right|by left]. }
  { by eapply chan_ready. }
  { apply C1. }
  eapply returns_bind; [apply (write_command_run _ h' [] _ _ _ _ _ _ C1); [by destruct ext|done..]|].
  intros ? s2 (c2 & p2 & C2). eapply returns_bind; [by apply (poll_run _ false _ _ _ _ _ _ C2)|].
  intros ? s3 [_ C3]. apply K. by exists c2, p2.
Qed.

(** Drive [dp] can be read at [lba] through this channel. *)
Record readable (lba : Z) : Prop := {
  rb_present : dp_present dp = true;
  rb_lba : Z.land (dp_capabilities dp) ATA_CAP_BIT_LBA ≠ 0;
  rb_ata : dp_type dp ≠ IDE_ATAPI;
  rb_range : 0 ≤ lba < sectors (dp_drive dp =? IDE_DRV_SLAVE);
  rb_48 : lba < 2 ^ 48;
  rb_fcs5 : lba + 1 < 2 ^ 28 ∨ Z.land (dp_fcs5 dp) ATA_FCS5_BIT_LBA48 ≠ 0;
}.

Lemma select_run lba hl c p m s :
  readable lba → chan 0 hl c p [] m s →
  returns (select_sector fuel dp lba 1) s (fun r s' => ∃ ext c' p', r = commands ext ∧
    prepared (dp_drive dp =? IDE_DRV_SLAVE) ext lba c' ∧ chan 0 hl c' p' [] m s').
Proof.
  intros [? ? ? Hr ? Hf] C. destruct (decide (lba + 1 < 2 ^ 28)) as [Hs|Hs].
  - eapply returns_mono; [by apply (select28_run _ _ _ _ _ _ C); lia|].
    intros r s' (-> & c' & P & C'). by exists false, c', p.
  - eapply returns_mono; [apply (select48_run _ _ _ _ _ _ C); [lia|lia|by destruct Hf]|].
    intros r s' (-> & c' & p' & P & C'). by exists true, c', p'.
Qed.

Lemma ata_pio_read_run lba hl m s :
  readable lba → chan_any bound hl [] m s →
  returns (ata_pio_read fuel dp lba 1) s (fun e s' => e = ATA_ER_NOERR ∧
    chan_any 0 hl [] (write_bytes m 0 (sector_bytes (disk (dp_drive dp =? IDE_DRV_SLAVE) lba))) s').
Proof.
  intros R (c & p & C). assert (R' := R). destruct R' as [R1 R2 R3 R4 R5 R6].
  unfold ata_pio_read. rewrite Hcp, R1, (proj2 (Z.eqb_neq _ _) R2), (proj2 (Z.eqb_neq _ _) R3). cbn [negb].
  eapply returns_bind; [by apply (returns_run _ _ _ _ (fun _ s' => s' = s) (assert_held_run _ _ _ _ _ _ _ C))|].
  intros ? ? ->.
  eapply returns_bind; [apply (wait_clear _ _ _ _ _ _ _ _ C); [lia|by right]|]. intros ? s1 C1. cbn beta in *.
  step (select_run _ _ _ _ _ _ R C1) as r s2 (ext & c2 & p2 & -> & (P1 & P2 & P3) & C2).
  apply (parameters_run _ _ _ _ _ _ _ _ C2). intros s3 c3 p3 C3 Q0 Q1 Q2 Q3 Q4 Q5 Q6 Q7 Q8.
  assert (S3 : selected c3 = (dp_drive dp =? IDE_DRV_SLAVE)) by (rewrite <- P1; unfold selected; by rewrite Q4).
  eapply returns_bind.
  { apply (command_run ext lba _ _ _ _ _ C3); try done.
    - by rewrite S3.
    - rewrite <- P2. unfold lba_mode. by rewrite Q4.
    - rewrite Q4, Q5, Q6, Q7, Q8. by destruct ext. }
  rewrite S3. intros ? s4 C4. destruct (disk_words _ _ R4) as [Hl _].
  step (read_sector_run _ _ _ _ C4) as e s5 [-> C5].
  change (negb (ATA_ER_NOERR =? ATA_ER_NOERR)) with false. cbv iota.
  apply (flush_run _ _ _ _ _ _ C5). intros s6 C6. by apply (returns_run _ _ _ _ _ eq_refl).
Qed.

End transfer.

(** C33: reading one sector of a present LBA drive through a channel held by the caller
    terminates and reports no error, for 28-bit and for 48-bit addresses; it stores the
    512 bytes of the addressed sector at the buffer and nothing else, keeps the
    channel's mutex, and leaves the drive ready with no word pending.  The polling
    loops end because the drive is busy for at most [bound] readings, and [fuel] is
    more than that. *)
Theorem ata_pio_read_sector {H : Type} `{Ports H} (cp : ide_channel) `{!AtaChannel H cp}
    (fuel : nat) (dp : ide_drive) (lba : Z) (s : ata H) :
  (bound < fuel)%nat → dp_channel dp = cp → readable cp dp lba → at_held s (ch_num cp) = true →
  (ds_busy (view (at_hw s)) ≤ bound)%nat → ds_data (view (at_hw s)) = [] →
  ∃ s', ata_pio_read fuel dp lba 1 s = Done (ATA_ER_NOERR, s') ∧
    at_buf s' = write_bytes (at_buf s) 0 (sector_bytes (disk (dp_drive dp =? IDE_DRV_SLAVE) lba)) ∧
    length (sector_bytes (disk (dp_drive dp =? IDE_DRV_SLAVE) lba)) = 512%nat ∧
    at_held s' = at_held s ∧ ds_busy (view (at_hw s')) = O ∧ ds_data (view (at_hw s')) = [].
Proof.
  intros Hf Hcp R Hh Hb Hd.
  assert (C : chan_any cp bound (at_held s) [] (at_buf s) s) by (eexists _, _; by split).
  destruct (returns_inv _ _ _ (ata_pio_read_run cp fuel Hf dp Hcp lba _ _ s R C))
    as (e & s' & E & -> & c & p & [? ? ? ? ? ? ?]).
  exists s'. split; [done|]. split; [done|]. split; [|split; [done|]; split; [lia|done]].
  rewrite sector_bytes_length. destruct (disk_words _ _ (rb_range _ _ _ R)) as [-> _]. done.
Qed.

(** ** A channel for the examples: its master's sector [n] holds the words n, n + 1, ...,
    n + 255; there is no slave, which register 99 of the state remembers when asked *)

Module Toy.

Definition cp : ide_channel := mk_channel 0 0x1F0 0x3F6.

Definition words (d : bool) (n : Z) : list Z := map (fun i => u16 (n + Z.of_nat i)) (seq 0 256).

Definition set_busy (n : nat) (h : drive_state) : drive_state :=
  mk_drive_state n (ds_cur h) (ds_prev h) (ds_data h).
Definition set_data (d : list Z) (h : drive_state) : drive_state :=
  mk_drive_state 1 (ds_cur h) (ds_prev h) d.

Definition absent (h : drive_state) : bool := ds_cur h 99 =? 1.

Definition status : M drive_state Z := fun h =>
  match ds_busy h with
  | S n => Done (0x80, set_busy n h)
  | O => Done (if bool_decide (ds_data h = []) then 0x40 else 0x48, h)
  end.

Definition inb (p : Z) : M drive_state Z := fun h =>
  if p =? 0x1F7 then status h
  else if p =? 0x3F6 then if absent h then Done (0, h) else status h
  else Done (0, h).

(** LBA, 48-bit addresses, 1000 sectors, and the model string "yaos". *)
Definition ident : list Z :=
  <[49%nat := 2 ^ 9]> (<[86%nat := 2 ^ 10]> (<[100%nat := 1000]>
    (<[27%nat := 0x7961]> (<[28%nat := 0x6f73]> (replicate 256 0))))).

Definition set_absent (b : bool) (h : drive_state) : drive_state :=
  mk_drive_state (if b then 0 else 1) (upd (ds_cur h) 99 (if b then 1 else 0)) (ds_prev h)
    (if b then [] else ident).

Definition inw (p : Z) : M drive_state Z := fun h =>
  match ds_data h with
  | [] => Done (0, h)
  | w :: l => Done (w, mk_drive_state (match l with [] => 1 | _ => 0 end) (ds_cur h) (ds_prev h) l)
  end.

Definition command (v : Z) (h : drive_state) : drive_state :=
  let cur := ds_cur h in let prev := ds_prev h in
  if v =? ATA_CMD_READ_PIO then set_data (words (selected cur) (lba28 cur)) h
  else if v =? ATA_CMD_READ_PIO_EXT then set_data (words (selected cur) (lba48 cur prev)) h
  else if v =? ATA_CMD_IDENTIFY then set_absent (selected cur) h
  else set_data [] h.

Definition outb (p v : Z) : M drive_state unit := fun h =>
  if p =? 0x1F7 then Done (tt, command v h)
  else if p =? 0x1F6 then Done (tt, mk_drive_state 1 (upd (ds_cur h) ATA_REG_HDDEVSEL v) (ds_prev h) (ds_data h))
  else if p =? 0x3F6 then Done (tt, set_busy 1 h)
  else let r := p - 0x1F0 in
    Done (tt, mk_drive_state (ds_busy h) (upd (ds_cur h) r v) (upd (ds_prev h) r (ds_cur h r)) (ds_data h)).

#[global] Instance ports : Ports drive_state :=
  { pio_inb := inb; pio_inw := inw; pio_outb := outb; ticks_mwait := fun _ => ret tt }.

#[global] Instance channel : AtaChannel drive_state cp.
Proof.
  refine {| view := fun h => h; disk := words; sectors := fun _ => 1000; bound := 1 |}.
  - intros d n _. split; [done|]. apply Forall_forall. intros w Hw. apply list_elem_of_In, in_map_iff in Hw.
    destruct Hw as (i & <- & _). apply u16_range.
  - intros h n E. exists 0x80, (set_busy n h). cbn. unfold inb, status. cbn. by rewrite E.
  - intros h E. eexists _, h. cbn. unfold inb, status. cbn. rewrite E. split; [done|].
    by case_bool_decide.
  - intros h r v E Hr. eexists. cbn. unfold outb, ATA_REG_SECCOUNT0, ATA_REG_LBA2 in *. cbn in *.
    rewrite (proj2 (Z.eqb_neq (496 + r) 503)), (proj2 (Z.eqb_neq (496 + r) 502)),
      (proj2 (Z.eqb_neq (496 + r) 1014)) by lia.
    replace (496 + r - 496) with r by lia. rewrite E. done.
  - intros h v E. eexists _, 1%nat. done.
  - intros h v E. eexists _, 1%nat. done.
  - intros h t. exists h, (ds_busy h). by destruct h.
  - cbn. intros h _ _ _ _ _. by eexists.
  - cbn. intros h _ _ _ _ _ _. by eexists.
  - intros h v [->| ->] _ _; by eexists.
  - intros h w l E E2. cbn. unfold inw. rewrite E2. eexists. split; [done|]. cbn.
    split; [done|]. by destruct l; split; try lia.
Defined.

Definition drive : ide_drive := mk_drive true 0 0 0 [] [] [] 0 (2 ^ 9) 0 0 0 0 (2 ^ 10) 0 1000 cp.
Definition idle : drive_state := mk_drive_state 0 (fun _ => 0) (fun _ => 0) [].
Definition start : ata drive_state := mk_ata (fun _ => true) idle (fun _ => 0).

End Toy.

Lemma ata_pio_read_sector_witness :
  ∃ s', ata_pio_read 2 Toy.drive 5 1 Toy.start = Done (ATA_ER_NOERR, s') ∧
    read_bytes (at_buf s') 508 8 = [3; 1; 4; 1; 0; 0; 0; 0].
Proof.
  destruct (ata_pio_read_sector Toy.cp 2 Toy.drive 5 Toy.start) as (s' & E & B & _).
  - cbn. lia.
  - done.
  - split; try done; cbn; lia.
  - done.
  - cbn. lia.
  - done.
  - exists s'. split; [exact E|]. rewrite B. vm_compute. reflexivity.
Defined.
