(* ===== verification/AtaCache.v ===== *)
(** * drivers/ata/generic.c: the block cache of the ATA driver

    The driver keeps the sectors its clients lock in a cache of twenty blocks, found
    by a scan over drive and block number, and gives the unreferenced block with the
    fewest hits to a sector that is not cached.  [SectorSource] is what the cache
    relies on of the drives below it; the transfers of [AtaPio] discharge it.  The
    mutex of a block is seen by the thread that runs the driver: held by it or free. *)

From stdpp Require Import base list sets strings.
From Stdlib Require Import ZArith Lia.
From S2P Require Import Prelude Memory KUtils BlockDev AtaPio.

Definition GEN_ATA_CACHE_SIZE : nat := 20.

(** ** Data *)

Record block := mk_block {
  b_drive : Z;
  b_num : Z;
  b_ref : Z;
  b_hit : Z;
  b_mutex : bool;
  b_is_valid : bool;
  b_data : list Z;
}.

(** The fields of [gen_ata_block_devices]'s entries that the driver sets; [be_opaque]
    is the drive. *)
Record bdev_entry := mk_entry {
  be_valid : bool;
  be_num_blocks : Z;
  be_opaque : ide_drive;
}.

(** The cache with its spinlock, and the hardware below it. *)
Record gen (H : Type) := mk_gen { c_lock : bool; c_blocks : list block; g_ata : ata H }.
Arguments mk_gen {H}.
Arguments c_lock {H}.
Arguments c_blocks {H}.
Arguments g_ata {H}.

Definition set_ref (r : Z) (b : block) : block :=
  mk_block (b_drive b) (b_num b) r (b_hit b) (b_mutex b) (b_is_valid b) (b_data b).
Definition set_hit (h : Z) (b : block) : block :=
  mk_block (b_drive b) (b_num b) (b_ref b) h (b_mutex b) (b_is_valid b) (b_data b).
Definition set_mutex (held : bool) (b : block) : block :=
  mk_block (b_drive b) (b_num b) (b_ref b) (b_hit b) held (b_is_valid b) (b_data b).
Definition set_data (valid : bool) (d : list Z) (b : block) : block :=
  mk_block (b_drive b) (b_num b) (b_ref b) (b_hit b) (b_mutex b) valid d.

(** The cache as [ata_gen_install] leaves it: all bytes zero. *)
Definition empty_block : block := mk_block 0 0 0 0 false false (replicate 512 0).
Definition init_cache : list block := replicate GEN_ATA_CACHE_SIZE empty_block.

Section cache.
Context {H : Type} `{Ports H} (fuel : nat).

Definition gset_lock (b : bool) (s : gen H) : gen H := mk_gen b (c_blocks s) (g_ata s).
Definition gset_blocks (l : list block) (s : gen H) : gen H := mk_gen (c_lock s) l (g_ata s).
Definition gset_ata (a : ata H) (s : gen H) : gen H := mk_gen (c_lock s) (c_blocks s) a.

Definition on_ata {A} (m : M (ata H) A) : M (gen H) A := zoom g_ata gset_ata m.

(** ** Generic ATA I/O *)

(** Run a transfer whose buffer is [data]; the result is the buffer after it. *)
Definition with_buffer (data : list Z) (m : M (ata H) Z) : M (ata H) (list Z) :=
  modify (fun s => aset_buf (write_bytes (at_buf s) 0 data) s) ;;;
  m ;;;
  gets (fun s => read_bytes (at_buf s) 0 (length data)).

(** The error codes of the transfers are not looked at. *)
Definition gen_ata_read_block (dp : ide_drive) (lba : Z) (dest : list Z) : M (ata H) (list Z) :=
  ata_pio_lock (dp_channel dp) ;;;
  d <- with_buffer dest (ata_pio_read fuel dp lba 1) ;;
  ata_pio_unlock (dp_channel dp) ;;;
  ret d.

Definition gen_ata_write_block (dp : ide_drive) (lba : Z) (src : list Z) : M (ata H) unit :=
  ata_pio_lock (dp_channel dp) ;;;
  ata_pio_write dp lba 1 src ;;;
  ata_pio_unlock (dp_channel dp).

(** ** block_dev *)

Definition cache_acquire : M (gen H) unit :=
  s <- get ;; if c_lock s then hang else modify (gset_lock true).
Definition cache_release : M (gen H) unit :=
  s <- get ;;
  if c_lock s then modify (gset_lock false)
  else kpanic "cpu_spinlock_release(): called on an unheld spinlock".

(** [cache.blocks + i]; an index the driver did not hand out is not dereferenced
    by its clients. *)
Definition get_block (i : nat) : M (gen H) block :=
  s <- get ;; match c_blocks s !! i with Some b => ret b | None => kpanic "cache.blocks: out of bounds" end.
Definition update_block (i : nat) (f : block → block) : M (gen H) unit :=
  modify (fun s => gset_blocks (alter f i (c_blocks s)) s).

Definition block_mutex_acquire (i : nat) : M (gen H) unit :=
  b <- get_block i ;;
  if b_mutex b then kpanic "thread_mutex_acquire(): on held lock" else update_block i (set_mutex true).
Definition block_mutex_release (i : nat) : M (gen H) unit :=
  b <- get_block i ;;
  if b_mutex b then update_block i (set_mutex false)
  else kpanic "thread_mutex_release(): called on an unheld mutex".

(** The first loop: the first block of that drive and number. *)
Fixpoint find_block (l : list block) (i : nat) (drive num : Z) : option nat :=
  match l with
  | [] => None
  | b :: l' => if (b_num b =? num) && (b_drive b =? drive) then Some i else find_block l' (S i) drive num
  end.

(** The second loop: the least hit count among the unreferenced blocks, and where. *)
Fixpoint min_block (l : list block) (i : nat) (min_hits : Z) (min_hits_index : nat) : Z * nat :=
  match l with
  | [] => (min_hits, min_hits_index)
  | b :: l' =>
      if (b_ref b =? 0) && (b_hit b <? min_hits) then min_block l' (S i) (b_hit b) i
      else min_block l' (S i) min_hits min_hits_index
  end.

Definition fresh_block (drive num : Z) : block := mk_block drive num 1 1 false false (replicate 512 0).

Definition gen_ata_bd_lock (dev : bdev_entry) (num : Z) : M (gen H) Z :=
  let dp := be_opaque dev in
  if negb (be_valid dev) then kpanic "gen_ata_bd_lock(): invalid block device" else
  if negb (dp_present dp) then kpanic "gen_ata_bd_lock(): drive not present" else
  cache_acquire ;;;
  s <- get ;;
  match find_block (c_blocks s) 0 (dp_num dp) num with
  | Some i =>
      update_block i (fun b => set_hit (u32 (b_hit b + 1)) (set_ref (u32 (b_ref b + 1)) b)) ;;;
      cache_release ;;;
      block_mutex_acquire i ;;;
      ret (Z.of_nat i)
  | None =>
      let '(_, min_hits_index) := min_block (c_blocks s) 0 UINT_MAX (length (c_blocks s)) in
      if Nat.ltb min_hits_index (length (c_blocks s)) then
        b <- get_block min_hits_index ;;
        if b_ref b =? 0 then
          update_block min_hits_index (fun _ => fresh_block (dp_num dp) num) ;;;
          cache_release ;;;
          block_mutex_acquire min_hits_index ;;;
          ret (Z.of_nat min_hits_index)
        else kpanic "gen_ata_bd_lock(): cache is full"
      else kpanic "gen_ata_bd_lock(): cache is full"
  end.

Definition gen_ata_bd_unlock (dev : bdev_entry) (index : Z) : M (gen H) unit :=
  let i := Z.to_nat index in
  if negb (be_valid dev) then kpanic "gen_ata_bd_unlock(): invalid block device" else
  b <- get_block i ;;
  if negb (b_mutex b) then kpanic "gen_ata_bd_unlock(): block mutex not held" else
  if negb (b_drive b =? dp_num (be_opaque dev)) then kpanic "gen_ata_bd_unlock(): drives do not match" else
  block_mutex_release i ;;;
  cache_acquire ;;;
  update_block i (fun b => set_ref (u32 (b_ref b - 1)) b) ;;;
  cache_release.

(** [if (b->is_valid == false) { gen_ata_read_block(...); b->is_valid = true; }] *)
Definition fill_block (dp : ide_drive) (i : nat) : M (gen H) unit :=
  b <- get_block i ;;
  if b_is_valid b then ret tt else
  d <- on_ata (gen_ata_read_block dp (b_num b) (b_data b)) ;;
  update_block i (set_data true d).

Definition gen_ata_bd_write (dev : bdev_entry) (index off : Z) (src : list Z) : M (gen H) unit :=
  let i := Z.to_nat index in
  let dp := be_opaque dev in
  let len := Z.of_nat (length src) in
  if negb (be_valid dev) then kpanic "gen_ata_bd_write(): invalid block device" else
  b <- get_block i ;;
  if negb (b_mutex b) then kpanic "gen_ata_bd_write(): block mutex not held" else
  if negb (b_drive b =? dp_num dp) then kpanic "gen_ata_bd_write(): drives do not match" else
  if len =? 0 then ret tt else
  fill_block dp i ;;;
  kassert "off < IDE_SECTOR_SIZE" (off <? IDE_SECTOR_SIZE) ;;;
  kassert "off + len <= IDE_SECTOR_SIZE" (u32 (off + len) <=? IDE_SECTOR_SIZE) ;;;
  update_block i (fun b => set_data (b_is_valid b)
    (take (Z.to_nat off) (b_data b) ++ src ++ drop (Z.to_nat off + length src) (b_data b)) b) ;;;
  b <- get_block i ;;
  on_ata (gen_ata_write_block dp (b_num b) (b_data b)).

Definition gen_ata_bd_read (dev : bdev_entry) (index off len : Z) : M (gen H) (list Z) :=
  let i := Z.to_nat index in
  let dp := be_opaque dev in
  if negb (be_valid dev) then kpanic "gen_ata_bd_read(): invalid block device" else
  b <- get_block i ;;
  if negb (b_mutex b) then kpanic "gen_ata_bd_read(): block mutex not held" else
  if negb (b_drive b =? dp_num dp) then kpanic "gen_ata_bd_read(): drives do not match" else
  if len =? 0 then ret [] else
  fill_block dp i ;;;
  kassert "off < IDE_SECTOR_SIZE" (off <? IDE_SECTOR_SIZE) ;;;
  kassert "off + len <= IDE_SECTOR_SIZE" (u32 (off + len) <=? IDE_SECTOR_SIZE) ;;;
  b <- get_block i ;;
  ret (slice off len (b_data b)).

(** The device as its clients see it. *)
Definition gen_ata_block_dev (n : Z) (dev : bdev_entry) : block_dev (gen H) :=
  mk_bdev [97; 116; 97; 48 + n] (be_valid dev) IDE_SECTOR_SIZE (be_num_blocks dev)
    (gen_ata_bd_lock dev) (gen_ata_bd_unlock dev) (gen_ata_bd_write dev) (gen_ata_bd_read dev).

End cache.

(** ** What the cache relies on *)

(** The drives that satisfy [drives] hold [sector drive_number lba]; reading one of
    their sectors into a buffer of 512 bytes succeeds, and a write leaves them as
    they are. *)
Class SectorSource (H : Type) `{Ports H} (fuel : nat) (drives : ide_drive → Prop) := {
  src_inv : ata H → Prop;
  sector : Z → Z → list Z;
  sector_count : Z → Z;
  sector_ok : ∀ dp lba, drives dp → 0 ≤ lba < sector_count (dp_num dp) →
    length (sector (dp_num dp) lba) = 512%nat ∧ byte_list (sector (dp_num dp) lba);
  source_read : ∀ dp lba dest s, drives dp → 0 ≤ lba < sector_count (dp_num dp) →
    length dest = 512%nat → src_inv s →
    returns (gen_ata_read_block fuel dp lba dest) s (fun d s' => d = sector (dp_num dp) lba ∧ src_inv s');
  source_write : ∀ dp lba src s, drives dp → src_inv s →
    returns (gen_ata_write_block dp lba src) s (fun _ s' => src_inv s');
}.

(** ** Lemmas *)

Lemma find_block_spec l i drive num :
  match find_block l i drive num with
  | Some j => ∃ k b, j = (i + k)%nat ∧ l !! k = Some b ∧ b_num b = num ∧ b_drive b = drive
  | None => ∀ b, b ∈ l → ¬ (b_num b = num ∧ b_drive b = drive)
  end.
Proof.
  revert i. induction l as [|b l IH]; intros i; cbn; [set_solver|].
  destruct ((b_num b =? num) && (b_drive b =? drive)) eqn:E.
  - zbool. exists 0%nat, b. by rewrite Nat.add_0_r.
  - specialize (IH (S i)). destruct (find_block l (S i) drive num) as [j|].
    + destruct IH as (k & c & -> & Hk & ? & ?). exists (S k), c. split; [lia|done].
    + intros c [->|Hc]%elem_of_cons; [|by apply IH]. intros [<- <-].
      by rewrite !Z.eqb_refl in E.
Qed.

(** The block the second loop chooses is unreferenced; it finds one when there is an
    unreferenced block with fewer hits than the bound it starts with. *)
Lemma min_block_spec l i mh mi :
  let '(h, j) := min_block l i mh mi in
  (j = mi ∧ h = mh ∧ ∀ b, b ∈ l → b_ref b = 0 → mh ≤ b_hit b) ∨
  (∃ k b, j = (i + k)%nat ∧ l !! k = Some b ∧ b_ref b = 0 ∧ b_hit b = h ∧ h < mh ∧
          ∀ c, c ∈ l → b_ref c = 0 → h ≤ b_hit c).
Proof.
  revert i mh mi. induction l as [|b l IH]; intros i mh mi; cbn.
  { left. set_solver. }
  destruct ((b_ref b =? 0) && (b_hit b <? mh)) eqn:E.
  - zbool. specialize (IH (S i) (b_hit b) i). destruct (min_block l (S i) (b_hit b) i) as [h j].
    right. destruct IH as [(-> & -> & Hl)|(k & c & -> & Hk & ? & ? & ? & Hl)].
    + exists 0%nat, b. rewrite Nat.add_0_r. do 5 (split; [done|]).
      intros c [->|Hc]%elem_of_cons; [done|by apply Hl].
    + exists (S k), c. split; [lia|]. do 3 (split; [done|]). split; [lia|].
      intros c' [->|Hc]%elem_of_cons; [lia|by apply Hl].
  - specialize (IH (S i) mh mi). destruct (min_block l (S i) mh mi) as [h j].
    assert (Hb : b_ref b = 0 → mh ≤ b_hit b).
    { intros E0. rewrite E0, Z.eqb_refl in E. cbn in E. by zbool. }
    destruct IH as [(-> & -> & Hl)|(k & c & -> & Hk & ? & ? & ? & Hl)]; [left|right].
    + do 2 (split; [done|]). intros c [->|Hc]%elem_of_cons; [done|by apply Hl].
    + exists (S k), c. split; [lia|]. do 3 (split; [done|]). split; [lia|].
      intros c' [->|Hc]%elem_of_cons; [|by apply Hl]. intros E0. specialize (Hb E0). lia.
Qed.

Section coherence.
Context {H : Type} `{Ports H} (fuel : nat) (drives : ide_drive → Prop) `{!SectorSource H fuel drives}.

(** A block no one references, or, with [held], the one the client has locked; a valid
    block holds what its drive holds. *)
Record block_ok (held : bool) (k : Z) (b : block) : Prop := {
  bk_ref : b_ref b = if held then 1 else 0;
  bk_mutex : b_mutex b = held;
  bk_hit : 0 ≤ b_hit b ≤ k;
  bk_data : length (b_data b) = 512%nat;
  bk_valid : b_is_valid b = true → b_data b = sector (b_drive b) (b_num b);
}.

(** The cache between two operations of a client that has locked block [o]; no block
    has been hit more than [k] times. *)
Record coherent (o : option nat) (k : Z) (s : gen H) : Prop := {
  co_lock : c_lock s = false;
  co_size : length (c_blocks s) = GEN_ATA_CACHE_SIZE;
  co_block : ∀ i b, c_blocks s !! i = Some b → block_ok (bool_decide (o = Some i)) k b;
  co_source : src_inv (g_ata s);
}.

Lemma block_ok_le held k k' b : k ≤ k' → block_ok held k b → block_ok held k' b.
Proof. intros Hk [? ? ? ? ?]. split; try done. lia. Qed.

Lemma get_block_run i b (s : gen H) : c_blocks s !! i = Some b → get_block i s = Done (b, s).
Proof. intros E. unfold get_block, bind, get. by rewrite E. Qed.

(** Replacing one block of a coherent cache. *)
Lemma coherent_alter o o' k k' i b f (s : gen H) :
  coherent o k s → k ≤ k' → c_blocks s !! i = Some b → block_ok (bool_decide (o' = Some i)) k' (f b) →
  (∀ j, j ≠ i → (o = Some j ↔ o' = Some j)) →
  coherent o' k' (gset_blocks (alter f i (c_blocks s)) s).
Proof.
  intros [? ? Hb ?] Hk Ei Hf Ho. split; cbn; try done.
  - by rewrite length_alter.
  - intros j c Hj. destruct (decide (j = i)) as [->|Hne].
    + rewrite list_lookup_alter_eq, Ei in Hj. by injection Hj as <-.
    + rewrite list_lookup_alter_ne in Hj by done. specialize (Hb j c Hj).
      apply (block_ok_le _ k); [done|].
      by rewrite <- (bool_decide_ext _ _ (Ho j Hne)).
Qed.

Lemma cache_acquire_run (s : gen H) :
  c_lock s = false → cache_acquire s = Done (tt, gset_lock true s).
Proof. intros E. unfold cache_acquire, bind, get. by rewrite E. Qed.

Lemma cache_release_run (s : gen H) :
  c_lock s = true → cache_release s = Done (tt, gset_lock false s).
Proof. intros E. unfold cache_release, bind, get. by rewrite E. Qed.

(** A change of a block under the spinlock, up to its release. *)
Lemma update_release {A} i f (k : M (gen H) A) s :
  c_lock s = false →
  bind (update_block i f) (fun _ => bind cache_release (fun _ => k)) (gset_lock true s) =
  k (gset_blocks (alter f i (c_blocks s)) s).
Proof.
  intros E. unfold bind, update_block, modify. rewrite cache_release_run by done.
  by destruct s; cbn in *; subst.
Qed.

Lemma mutex_acquire_run i b (s : gen H) :
  c_blocks s !! i = Some b → b_mutex b = false →
  block_mutex_acquire i s = Done (tt, gset_blocks (alter (set_mutex true) i (c_blocks s)) s).
Proof.
  intros E Hm. unfold block_mutex_acquire. rewrite (bind_run _ _ _ _ _ (get_block_run _ _ _ E)).
  by rewrite Hm.
Qed.

(** The client holds block [i], which is that of [drive] and [num]. *)
Record holding (i : nat) (drive num k : Z) (s : gen H) : Prop := {
  ho_cache : coherent (Some i) k s;
  ho_block : ∃ b, c_blocks s !! i = Some b ∧ b_drive b = drive ∧ b_num b = num;
}.

(** The block found or reclaimed for the sector, its mutex taken. *)
Lemma claim_block i b f drive num k (s : gen H) :
  coherent None k s → c_blocks s !! i = Some b →
  b_mutex (f b) = false → block_ok true (k + 1) (set_mutex true (f b)) →
  b_drive (f b) = drive → b_num (f b) = num →
  returns (block_mutex_acquire i ;;; ret (Z.of_nat i)) (gset_blocks (alter f i (c_blocks s)) s)
    (fun r s' => r = Z.of_nat i ∧ holding i drive num (k + 1) s').
Proof.
  intros C E Hm Hok Hd Hn. set (s1 := gset_blocks (alter f i (c_blocks s)) s).
  assert (E1 : c_blocks s1 !! i = Some (f b)) by (cbn; by rewrite list_lookup_alter_eq, E).
  unfold returns. rewrite (bind_run _ _ _ _ _ (mutex_acquire_run _ _ _ E1 Hm)). cbn. split; [done|]. split.
  - replace (gset_blocks _ s1) with (gset_blocks (alter (fun b => set_mutex true (f b)) i (c_blocks s)) s).
    + eapply (coherent_alter None (Some i) k (k + 1) _ b); [done|lia|done|by rewrite bool_decide_eq_true_2|].
      intros j Hj. split; [done|]. by intros [= ->].
    + unfold s1, gset_blocks. cbn. by rewrite list_alter_alter_eq.
  - exists (set_mutex true (f b)). cbn. by rewrite !list_lookup_alter_eq, E.
Qed.

Lemma lock_run dev num k s :
  coherent None k s → k < UINT_MAX → be_valid dev = true → dp_present (be_opaque dev) = true →
  returns (gen_ata_bd_lock dev num) s (fun r s' => ∃ i, r = Z.of_nat i ∧
    holding i (dp_num (be_opaque dev)) num (k + 1) s').
Proof.
  intros C Hk Hv Hp. unfold gen_ata_bd_lock. rewrite Hv, Hp. cbn [negb].
  pose proof C as [Cl Cs Cb Ci]. unfold returns.
  rewrite (bind_run _ _ _ _ _ (cache_acquire_run s Cl)). unfold bind at 1, get. cbn [gset_lock c_blocks].
  pose proof (find_block_spec (c_blocks s) 0 (dp_num (be_opaque dev)) num) as F.
  destruct (find_block (c_blocks s) 0 (dp_num (be_opaque dev)) num) as [j|].
  - destruct F as (i & b & -> & Eb & Hn & Hd). cbn [Nat.add] in *.
    rewrite update_release by done. pose proof (Cb i b Eb) as [Br Bm Bh Bd Bv].
    rewrite bool_decide_eq_false_2 in Br, Bm by done. unfold UINT_MAX in Hk.
    eapply returns_mono; [eapply (claim_block i b _ (dp_num (be_opaque dev)) num k s C Eb)|]; try done.
    + split; cbn; try done; [by rewrite Br|]. rewrite u32_small; lia.
    + intros r s' [-> Hh]. by exists i.
  - pose proof (min_block_spec (c_blocks s) 0 UINT_MAX (length (c_blocks s))) as Q.
    destruct (min_block (c_blocks s) 0 UINT_MAX (length (c_blocks s))) as [h j].
    destruct Q as [(_ & _ & Q)|(i & b & -> & Eb & Br & Bh & _ & _)].
    + exfalso. destruct (lookup_lt_is_Some_2 (c_blocks s) 0) as [b Eb]; [by rewrite Cs; unfold GEN_ATA_CACHE_SIZE; lia|].
      pose proof (Cb 0%nat b Eb) as [Br _ Bh _ _]. rewrite bool_decide_eq_false_2 in Br by done.
      specialize (Q b (list_elem_of_lookup_2 _ _ _ Eb) Br). lia.
    + cbn [Nat.add]. rewrite (proj2 (Nat.ltb_lt _ _) (lookup_lt_Some _ _ _ Eb)).
      rewrite (bind_run _ _ _ _ _ (get_block_run i b (gset_lock true s) Eb)). rewrite Br. cbn [Z.eqb].
      rewrite update_release by done. pose proof (Cb i b Eb) as [_ _ B0 _ _].
      eapply returns_mono; [eapply (claim_block i b _ (dp_num (be_opaque dev)) num k s C Eb)|]; try done.
      * split; cbn; try done. lia.
      * intros r s' [-> Hh]. by exists i.
Qed.

(** Reading a sector into its block, once. *)
Lemma fill_block_run dp i num k s :
  drives dp → holding i (dp_num dp) num k s → 0 ≤ num < sector_count (dp_num dp) →
  returns (fill_block fuel dp i) s (fun _ s' => holding i (dp_num dp) num k s' ∧
    ∃ b, c_blocks s' !! i = Some b ∧ b_mutex b = true ∧ b_drive b = dp_num dp ∧ b_num b = num ∧
      b_is_valid b = true ∧ b_data b = sector (dp_num dp) num).
Proof.
  intros Hdp [C (b & Eb & Hd & Hn)] Hr. unfold fill_block, returns.
  rewrite (bind_run _ _ _ _ _ (get_block_run _ _ _ Eb)).
  pose proof (co_block _ _ _ C i b Eb) as [Br Bm Bh Bl Bv]. rewrite bool_decide_eq_true_2 in Br, Bm by done.
  destruct (b_is_valid b) eqn:Ev.
  { split; [split; [done|by exists b]|]. exists b. rewrite (Bv eq_refl), Hd, Hn. done. }
  rewrite Hn. destruct (returns_inv _ _ _ (source_read dp num (b_data b) (g_ata s) Hdp Hr Bl (co_source _ _ _ C)))
    as (d & a' & E & -> & Ha).
  set (s1 := gset_ata a' s).
  assert (E1 : on_ata (gen_ata_read_block fuel dp num (b_data b)) s = Done (sector (dp_num dp) num, s1))
    by (unfold on_ata, zoom; by rewrite E).
  rewrite (bind_run _ _ _ _ _ E1). unfold update_block, modify.
  assert (C1 : coherent (Some i) k s1) by (destruct C; by split).
  set (f := set_data true (sector (dp_num dp) num)).
  assert (Ef : c_blocks (gset_blocks (alter f i (c_blocks s1)) s1) !! i = Some (f b))
    by (cbn; by rewrite list_lookup_alter_eq, Eb).
  destruct (sector_ok dp num Hdp Hr) as [Hlen _].
  split; [split|].
  - eapply (coherent_alter _ _ _ _ _ b); [exact C1|done|done| |done]. rewrite bool_decide_eq_true_2 by done.
    split; cbn; try done. by rewrite Hd, Hn.
  - by exists (f b).
  - by exists (f b).
Qed.

Lemma read_run dev i off len num k s :
  be_valid dev = true → drives (be_opaque dev) → holding i (dp_num (be_opaque dev)) num k s →
  0 ≤ num < sector_count (dp_num (be_opaque dev)) → 0 ≤ off → 0 ≤ len → off + len ≤ IDE_SECTOR_SIZE →
  returns (gen_ata_bd_read fuel dev (Z.of_nat i) off len) s (fun l s' =>
    l = slice off len (sector (dp_num (be_opaque dev)) num) ∧ holding i (dp_num (be_opaque dev)) num k s').
Proof.
  intros Hv Hdp Hh Hr Ho Hl Hol. unfold gen_ata_bd_read. rewrite Hv, Nat2Z.id. cbn [negb].
  pose proof Hh as [C (b & Eb & Hd & Hn)].
  pose proof (co_block _ _ _ C i b Eb) as [_ Bm _ _ _]. rewrite bool_decide_eq_true_2 in Bm by done.
  unfold returns. rewrite (bind_run _ _ _ _ _ (get_block_run _ _ _ Eb)). rewrite Bm, Hd, Z.eqb_refl. cbn [negb].
  destruct (Z.eqb_spec len 0) as [->|Hne].
  { split; [|done]. unfold slice. by rewrite take_0. }
  apply (returns_bind _ _ _ _ _ (fill_block_run _ _ _ _ _ Hdp Hh Hr)).
  intros ? s1 (Hh1 & b1 & E1 & _ & _ & _ & _ & Hdata).
  unfold IDE_SECTOR_SIZE in *.
  rewrite (proj2 (Z.ltb_lt off 512)), u32_small, (proj2 (Z.leb_le (off + len) 512)) by lia.
  unfold returns. cbn [kassert]. unfold bind, ret. rewrite (get_block_run _ _ _ E1), Hdata. done.
Qed.

Lemma unlock_run dev i num k s :
  be_valid dev = true → holding i (dp_num (be_opaque dev)) num k s →
  returns (gen_ata_bd_unlock dev (Z.of_nat i)) s (fun _ s' => coherent None k s').
Proof.
  intros Hv [C (b & Eb & Hd & Hn)]. unfold gen_ata_bd_unlock. rewrite Hv, Nat2Z.id. cbn [negb].
  pose proof (co_block _ _ _ C i b Eb) as [Br Bm Bh Bl Bv]. rewrite bool_decide_eq_true_2 in Br, Bm by done.
  unfold returns. rewrite (bind_run _ _ _ _ _ (get_block_run _ _ _ Eb)). rewrite Bm, Hd, Z.eqb_refl. cbn [negb].
  set (s1 := gset_blocks (alter (set_mutex false) i (c_blocks s)) s).
  assert (E1 : block_mutex_release i s = Done (tt, s1)).
  { unfold block_mutex_release. rewrite (bind_run _ _ _ _ _ (get_block_run _ _ _ Eb)). by rewrite Bm. }
  rewrite (bind_run _ _ _ _ _ E1). assert (L1 : c_lock s1 = false) by apply C.
  rewrite (bind_run _ _ _ _ _ (cache_acquire_run s1 L1)).
  set (f := fun b => set_ref (u32 (b_ref b - 1)) b).
  assert (E2 : bind (update_block i f) (fun _ => cache_release) (gset_lock true s1) =
               Done (tt, gset_blocks (alter f i (c_blocks s1)) s1)).
  { unfold bind, update_block, modify. rewrite cache_release_run by done. unfold gset_lock, gset_blocks. cbn.
    by rewrite <- L1. }
  rewrite E2. subst s1. unfold gset_blocks. cbn. rewrite list_alter_alter_eq.
  eapply (coherent_alter (Some i) None k k i b _ s C); [done|done| |].
  - split; cbn; try done. by rewrite Br.
  - intros j Hj. split; [intros [= ->]|]; done.
Qed.

(** Bytes of a block replaced from [off] on. *)
Definition splice (off : Z) (src l : list Z) : list Z :=
  take (Z.to_nat off) l ++ src ++ drop (Z.to_nat off + length src) l.

(** The client holds block [i], whose data is [d]. *)
Definition holds_data (i : nat) (drive : Z) (d : list Z) (s : gen H) : Prop :=
  c_lock s = false ∧ src_inv (g_ata s) ∧
  ∃ b, c_blocks s !! i = Some b ∧ b_mutex b = true ∧ b_drive b = drive ∧ b_is_valid b = true ∧ b_data b = d.

Lemma write_run dev i off src num k s :
  be_valid dev = true → drives (be_opaque dev) → holding i (dp_num (be_opaque dev)) num k s →
  0 ≤ num < sector_count (dp_num (be_opaque dev)) → 0 ≤ off → src ≠ [] →
  off + Z.of_nat (length src) ≤ IDE_SECTOR_SIZE →
  returns (gen_ata_bd_write fuel dev (Z.of_nat i) off src) s (fun _ s' =>
    holds_data i (dp_num (be_opaque dev)) (splice off src (sector (dp_num (be_opaque dev)) num)) s').
Proof.
  intros Hv Hdp Hh Hr Ho Hs Hol. unfold gen_ata_bd_write. rewrite Hv, Nat2Z.id. cbn [negb].
  pose proof Hh as [C (b & Eb & Hd & Hn)].
  pose proof (co_block _ _ _ C i b Eb) as [_ Bm _ _ _]. rewrite bool_decide_eq_true_2 in Bm by done.
  unfold returns. rewrite (bind_run _ _ _ _ _ (get_block_run _ _ _ Eb)). rewrite Bm, Hd, Z.eqb_refl. cbn [negb].
  assert (Hlen : (0 < length src)%nat) by (by destruct src; cbn; [|lia]).
  rewrite (proj2 (Z.eqb_neq (Z.of_nat (length src)) 0)) by lia.
  apply (returns_bind _ _ _ _ _ (fill_block_run _ _ _ _ _ Hdp Hh Hr)).
  intros ? s1 ([C1 _] & b1 & E1 & M1 & D1 & N1 & V1 & Hdata).
  unfold IDE_SECTOR_SIZE in *.
  rewrite (proj2 (Z.ltb_lt off 512)), u32_small, (proj2 (Z.leb_le (off + Z.of_nat (length src)) 512)) by lia.
  cbn [kassert]. unfold returns. unfold bind at 1 2 3, ret, update_block, modify.
  set (f := fun b0 => set_data _ _ b0). set (s2 := gset_blocks (alter f i (c_blocks s1)) s1).
  assert (E2 : c_blocks s2 !! i = Some (f b1)) by (cbn; by rewrite list_lookup_alter_eq, E1).
  rewrite (bind_run _ _ _ _ _ (get_block_run _ _ _ E2)).
  destruct (returns_inv _ _ _ (source_write (be_opaque dev) (b_num (f b1)) (b_data (f b1)) (g_ata s1) Hdp
    (co_source _ _ _ C1))) as ([] & a' & E & Ha).
  unfold on_ata, zoom. cbn [g_ata s2 gset_blocks]. rewrite E. split; [apply C1|]. split; [done|].
  exists (f b1). cbn. rewrite list_lookup_alter_eq, E1. unfold splice. by rewrite Hdata.
Qed.

Lemma read_valid_run dev i off len d s :
  be_valid dev = true → holds_data i (dp_num (be_opaque dev)) d s →
  0 ≤ off → 0 ≤ len → off + len ≤ IDE_SECTOR_SIZE →
  gen_ata_bd_read fuel dev (Z.of_nat i) off len s = Done (slice off len d, s).
Proof.
  intros Hv (_ & _ & b & Eb & Hm & Hd & Hval & <-) Ho Hl Hol. unfold gen_ata_bd_read, IDE_SECTOR_SIZE in *.
  rewrite Hv, Nat2Z.id. cbn [negb]. rewrite (bind_run _ _ _ _ _ (get_block_run _ _ _ Eb)).
  rewrite Hm, Hd, Z.eqb_refl. cbn [negb].
  destruct (Z.eqb_spec len 0) as [->|Hne]; [unfold slice; by rewrite take_0|].
  unfold bind, fill_block. rewrite (bind_run _ _ _ _ _ (get_block_run _ _ _ Eb)), Hval.
  rewrite (proj2 (Z.ltb_lt off 512)), u32_small, (proj2 (Z.leb_le (off + len) 512)) by lia.
  cbn [kassert]. unfold ret. by rewrite (get_block_run _ _ _ Eb).
Qed.

(** One access of a client. *)
Lemma access_run dev n num off len k s :
  coherent None k s → k < UINT_MAX → be_valid dev = true → dp_present (be_opaque dev) = true →
  drives (be_opaque dev) → 0 ≤ num < sector_count (dp_num (be_opaque dev)) →
  0 ≤ off → 0 ≤ len → off + len ≤ IDE_SECTOR_SIZE →
  returns (bd_access (gen_ata_block_dev fuel n dev) num off len) s (fun l s' =>
    l = slice off len (sector (dp_num (be_opaque dev)) num) ∧ coherent None (k + 1) s').
Proof.
  intros C Hk Hv Hp Hdp Hr Ho Hl Hol. unfold bd_access. cbn [gen_ata_block_dev bd_lock bd_read bd_unlock].
  apply (returns_bind _ _ _ _ _ (lock_run _ num _ _ C Hk Hv Hp)). intros ? s1 (i & -> & Hh).
  apply (returns_bind _ _ _ _ _ (read_run _ _ off len _ _ _ Hv Hdp Hh Hr Ho Hl Hol)). intros l s2 [-> Hh2].
  apply (returns_bind _ _ _ _ _ (unlock_run _ _ _ _ _ Hv Hh2)). intros ? s3 C3. by split.
Qed.

End coherence.

(** ** The transfers of [AtaPio] are a source of sectors *)

Section channel.
Context {H : Type} `{Ports H} (cp : ide_channel) `{!AtaChannel H cp} (fuel : nat) (Hfuel : (bound < fuel)%nat).

(** The drives of the channel as [gen_ata_init_drives] numbers them: a slave has an
    odd number. *)
Record on_channel (dp : ide_drive) : Prop := {
  oc_channel : dp_channel dp = cp;
  oc_slave : (dp_drive dp =? IDE_DRV_SLAVE) = Z.odd (dp_num dp);
  oc_present : dp_present dp = true;
  oc_lba : Z.land (dp_capabilities dp) ATA_CAP_BIT_LBA ≠ 0;
  oc_ata : dp_type dp ≠ IDE_ATAPI;
  oc_fcs5 : sectors (Z.odd (dp_num dp)) < 2 ^ 28 ∨ Z.land (dp_fcs5 dp) ATA_FCS5_BIT_LBA48 ≠ 0;
  oc_size : sectors (Z.odd (dp_num dp)) ≤ 2 ^ 48;
}.

(** The channel is free and nothing is pending on it. *)
Record channel_idle (s : ata H) : Prop := {
  ci_free : at_held s (ch_num cp) = false;
  ci_busy : (ds_busy (view (at_hw s)) ≤ bound)%nat;
  ci_data : ds_data (view (at_hw s)) = [];
}.

Lemma on_channel_readable dp lba :
  on_channel dp → 0 ≤ lba < sectors (Z.odd (dp_num dp)) → readable cp dp lba.
Proof.
  intros [? Hs ? ? ? Hf ?] Hr. split; try done; [by rewrite Hs|lia|].
  destruct Hf; [left; lia|by right].
Qed.

Lemma lock_channel s :
  channel_idle s → ata_pio_lock cp s = Done (tt, aset_held cp true s).
Proof. intros [E _ _]. unfold ata_pio_lock, bind, get. by rewrite E. Qed.

Lemma unlock_channel s :
  at_held s (ch_num cp) = true → (ds_busy (view (at_hw s)) ≤ bound)%nat → ds_data (view (at_hw s)) = [] →
  returns (ata_pio_unlock cp) s (fun _ s' => channel_idle s' ∧ at_buf s' = at_buf s).
Proof.
  intros E Hb Hd. unfold ata_pio_unlock, returns, bind, get. rewrite E. cbn. split; [|done].
  split; cbn; [by rewrite Nat.eqb_refl|done..].
Qed.

Lemma channel_read dp lba dest s :
  on_channel dp → 0 ≤ lba < sectors (Z.odd (dp_num dp)) → length dest = 512%nat → channel_idle s →
  returns (gen_ata_read_block fuel dp lba dest) s (fun d s' =>
    d = sector_bytes (disk (Z.odd (dp_num dp)) lba) ∧ channel_idle s').
Proof.
  intros Hdp Hr Hl Hi. pose proof (on_channel_readable _ _ Hdp Hr) as R.
  pose proof Hdp as [Hcp Hs _ _ _ _ _]. unfold gen_ata_read_block. rewrite Hcp. unfold returns.
  rewrite (bind_run _ _ _ _ _ (lock_channel s Hi)). fold (returns (S:=ata H) (A:=list Z)).
  set (s1 := aset_buf (write_bytes (at_buf s) 0 dest) (aset_held cp true s)).
  assert (C1 : chan_any cp bound (at_held s1) [] (at_buf s1) s1).
  { destruct Hi. eexists _, _. split; cbn; try done. by rewrite Nat.eqb_refl. }
  pose proof (ata_pio_read_run cp fuel Hfuel dp Hcp lba _ _ s1 R C1) as Q.
  rewrite Hs in Q. destruct (disk_words _ _ Hr) as [Hw _].
  set (l := sector_bytes (disk (Z.odd (dp_num dp)) lba)) in *.
  assert (Hll : length l = 512%nat) by (unfold l; by rewrite sector_bytes_length, Hw).
  eapply (returns_bind _ _ _ (fun d s' => d = l ∧ at_held s' (ch_num cp) = true ∧
    (ds_busy (view (at_hw s')) ≤ bound)%nat ∧ ds_data (view (at_hw s')) = [])).
  - unfold with_buffer, returns. unfold bind at 1, modify. fold s1.
    eapply returns_bind; [exact Q|]. intros e s2 (-> & c & p & [Hm Hh Hb _ _ Hd Hbuf]).
    apply (returns_run _ _ _ _ _ eq_refl). rewrite Hbuf, Hl, <- Hll, Hh. split; [|split; [done|split; [lia|done]]].
    apply read_write_bytes, byte_list_sector.
  - intros d s2 (-> & Hh & Hb & Hd). eapply returns_bind; [by apply unlock_channel|].
    intros ? s3 [Hi3 _]. by apply (returns_run _ _ _ _ _ eq_refl).
Qed.

Lemma channel_write dp lba src s :
  on_channel dp → channel_idle s →
  returns (gen_ata_write_block dp lba src) s (fun _ s' => channel_idle s').
Proof.
  intros [Hcp _ _ _ _ _ _] Hi. unfold gen_ata_write_block. rewrite Hcp. unfold returns.
  rewrite (bind_run _ _ _ _ _ (lock_channel s Hi)). unfold bind at 1, ata_pio_write, ret.
  destruct Hi. eapply returns_mono; [apply unlock_channel; cbn; [by rewrite Nat.eqb_refl|done..]|].
  by intros ? s' [? _].
Qed.

#[refine] Instance channel_source : SectorSource H fuel on_channel := {
  src_inv := channel_idle;
  sector := fun drive lba => sector_bytes (disk (Z.odd drive) lba);
  sector_count := fun drive => sectors (Z.odd drive);
  source_read := channel_read;
  source_write := channel_write;
}.
Proof.
  intros dp lba _ Hr. split; [|apply byte_list_sector].
  rewrite sector_bytes_length. by destruct (disk_words _ _ Hr) as [-> _].
Defined.

End channel.

(** ** Sequences of accesses *)

Record access := mk_access { ac_dev : bdev_entry; ac_num : Z; ac_off : Z; ac_len : Z }.

(** The accesses of a client, one after the other, and what they return. *)
Fixpoint run_accesses {H} `{Ports H} (fuel : nat) (l : list access) : M (gen H) (list (list Z)) :=
  match l with
  | [] => ret []
  | a :: l' =>
      d <- bd_access (gen_ata_block_dev fuel 0 (ac_dev a)) (ac_num a) (ac_off a) (ac_len a) ;;
      ds <- run_accesses fuel l' ;;
      ret (d :: ds)
  end.

Section accesses.
Context {H : Type} `{Ports H} (fuel : nat) (drives : ide_drive → Prop) `{!SectorSource H fuel drives}.

(** The access is to a present drive, within its size and within the block. *)
Record access_ok (a : access) : Prop := {
  ao_valid : be_valid (ac_dev a) = true;
  ao_present : dp_present (be_opaque (ac_dev a)) = true;
  ao_drive : drives (be_opaque (ac_dev a));
  ao_num : 0 ≤ ac_num a < sector_count (dp_num (be_opaque (ac_dev a)));
  ao_off : 0 ≤ ac_off a;
  ao_len : 0 ≤ ac_len a;
  ao_end : ac_off a + ac_len a ≤ IDE_SECTOR_SIZE;
}.

(** What the drive holds there. *)
Definition on_disk (a : access) : list Z :=
  slice (ac_off a) (ac_len a) (sector (dp_num (be_opaque (ac_dev a))) (ac_num a)).

Lemma accesses_run l k s :
  coherent fuel drives None k s → k + Z.of_nat (length l) ≤ UINT_MAX → Forall access_ok l →
  returns (run_accesses fuel l) s (fun ds s' =>
    ds = map on_disk l ∧ coherent fuel drives None (k + Z.of_nat (length l)) s').
Proof.
  revert k s. induction l as [|a l IH]; intros k s C Hk Hl; cbn [run_accesses].
  { apply (returns_run _ _ _ _ _ eq_refl). split; [done|]. cbn. by rewrite Z.add_0_r. }
  apply Forall_cons in Hl as [[? ? ? ? ? ? ?] Hl]. cbn [length] in *.
  eapply returns_bind; [apply (access_run fuel drives _ 0 _ (ac_off a) (ac_len a) _ _ C); [lia|done..]|].
  intros d s1 [-> C1].
  eapply returns_bind; [apply (IH (k + 1) s1 C1); [lia|done]|]. intros ds s2 [-> C2].
  apply (returns_run _ _ _ _ _ eq_refl). split; [done|].
  by replace (k + Z.of_nat (S (length l))) with (k + 1 + Z.of_nat (length l)) by lia.
Qed.

Lemma init_coherent (a : ata H) :
  src_inv a → coherent fuel drives None 0 (mk_gen false init_cache a).
Proof.
  intros Ha. split; try done. intros i b E. cbn [c_blocks] in E. apply lookup_replicate in E as [-> _].
  rewrite bool_decide_eq_false_2 by done. by split.
Qed.

End accesses.

(** A client that locks a block, writes a non-empty range of it and reads any range
    before it unlocks the block reads the sector with the written bytes in place. *)
Theorem cache_write_read {H : Type} `{Ports H} (cp : ide_channel) `{!AtaChannel H cp} (fuel : nat)
    (Hfuel : (bound < fuel)%nat) (a : ata H) (dev : bdev_entry) (num off off' len : Z) (src : list Z) :
  channel_idle cp a → be_valid dev = true → on_channel cp (be_opaque dev) →
  0 ≤ num < sectors (Z.odd (dp_num (be_opaque dev))) →
  0 ≤ off → src ≠ [] → off + Z.of_nat (length src) ≤ IDE_SECTOR_SIZE →
  0 ≤ off' → 0 ≤ len → off' + len ≤ IDE_SECTOR_SIZE →
  ∃ s' i, (index <- gen_ata_bd_lock dev num ;;
         gen_ata_bd_write fuel dev index off src ;;;
         l <- gen_ata_bd_read fuel dev index off' len ;;
         ret (index, l)) (mk_gen false init_cache a) =
    Done ((Z.of_nat i, slice off' len (splice off src
            (sector_bytes (disk (Z.odd (dp_num (be_opaque dev))) num)))), s') ∧
    channel_idle cp (g_ata s').
Proof.
  intros Ha Hv Hc Hr Ho Hs Hol Ho' Hl Hol'. pose (S := channel_source cp fuel Hfuel).
  assert (C : coherent fuel (on_channel cp) None 0 (mk_gen false init_cache a))
    by (apply init_coherent; exact Ha).
  assert (Hp : dp_present (be_opaque dev) = true) by (by destruct Hc).
  destruct (returns_inv _ _ _ (lock_run fuel (on_channel cp) dev num 0 _ C ltac:(done) Hv Hp))
    as (? & s1 & E1 & i & -> & Hh).
  destruct (returns_inv _ _ _ (write_run fuel (on_channel cp) dev i off src num _ s1 Hv Hc Hh Hr Ho Hs Hol))
    as ([] & s2 & E2 & Hd).
  pose proof (read_valid_run fuel (on_channel cp) dev i off' len _ s2 Hv Hd Ho' Hl Hol') as E3.
  exists s2, i. split; [|apply Hd].
  rewrite (bind_run _ _ _ _ _ E1), (bind_run _ _ _ _ _ E2), (bind_run _ _ _ _ _ E3). done.
Qed.

Lemma cache_write_read_witness :
  let dev := mk_entry true 1000 Toy.drive in
  ∃ s' i, (index <- gen_ata_bd_lock dev 5 ;;
         gen_ata_bd_write 2 dev index 1 [77; 78] ;;;
         l <- gen_ata_bd_read 2 dev index 0 4 ;;
         ret (index, l)) (mk_gen false init_cache (mk_ata (fun _ => false) Toy.idle (fun _ => 0))) =
    Done ((Z.of_nat i, [5; 77; 78; 0]), s').
Proof.
  intros dev. assert (Hf : (bound (cp := Toy.cp) < 2)%nat) by (cbn; lia).
  destruct (cache_write_read Toy.cp 2 Hf (mk_ata (fun _ => false) Toy.idle (fun _ => 0)) dev 5 1 0 4 [77; 78])
    as (s' & i & E & _).
  - split; [done|cbn; lia|done].
  - done.
  - split; try done; cbn; lia.
  - cbn. lia.
  - lia.
  - done.
  - unfold IDE_SECTOR_SIZE. cbn. lia.
  - lia.
  - lia.
  - unfold IDE_SECTOR_SIZE. lia.
  - exists s', i. rewrite E. vm_compute. reflexivity.
Defined.

(** C32: from the cache as installed, any sequence of at most UINT_MAX accesses, to any
    of a channel's drives and in any order, each locking a block, reading a range of
    it and unlocking it, returns exactly what the drives hold there, whatever was
    cached or evicted in between; no access panics or waits forever, and the cache
    ends unlocked and coherent with the drives. *)
Theorem cache_reads_disk {H : Type} `{Ports H} (cp : ide_channel) `{!AtaChannel H cp} (fuel : nat)
    (Hfuel : (bound < fuel)%nat) (a : ata H) (l : list access) :
  channel_idle cp a → Z.of_nat (length l) ≤ UINT_MAX →
  Forall (fun x => be_valid (ac_dev x) = true ∧ on_channel cp (be_opaque (ac_dev x)) ∧
    0 ≤ ac_num x < sectors (Z.odd (dp_num (be_opaque (ac_dev x)))) ∧
    0 ≤ ac_off x ∧ 0 ≤ ac_len x ∧ ac_off x + ac_len x ≤ IDE_SECTOR_SIZE) l →
  ∃ s', run_accesses fuel l (mk_gen false init_cache a) =
      Done (map (fun x => slice (ac_off x) (ac_len x)
              (sector_bytes (disk (Z.odd (dp_num (be_opaque (ac_dev x)))) (ac_num x)))) l, s') ∧
    c_lock s' = false ∧ channel_idle cp (g_ata s') ∧
    ∀ b, b ∈ c_blocks s' → b_ref b = 0 ∧ b_mutex b = false ∧
      (b_is_valid b = true → b_data b = sector_bytes (disk (Z.odd (b_drive b)) (b_num b))).
Proof.
  intros Ha Hn Hl. pose (S := channel_source cp fuel Hfuel).
  assert (Hok : Forall (access_ok fuel (on_channel cp)) l).
  { eapply Forall_impl; [exact Hl|]. intros x (? & Hc & ? & ? & ? & ?). split; try done. by destruct Hc. }
  assert (C : coherent fuel (on_channel cp) None 0 (mk_gen false init_cache a))
    by (apply init_coherent; exact Ha).
  destruct (returns_inv _ _ _ (accesses_run fuel (on_channel cp) l 0 _ C Hn Hok)) as (ds & s' & E & -> & [Hlk _ Hb Hi]).
  exists s'. split; [done|]. split; [done|]. split; [done|].
  intros b Eb. apply list_elem_of_lookup_1 in Eb as [i Ei]. destruct (Hb i b Ei) as [Hr Hm _ _ Hv].
  by rewrite bool_decide_eq_false_2 in Hr, Hm by done.
Qed.

(** Two sectors are read, one of them twice with different ranges. *)
Lemma cache_reads_disk_witness :
  let dev := mk_entry true 1000 Toy.drive in
  ∃ s', run_accesses 2 [mk_access dev 5 0 4; mk_access dev 7 510 2; mk_access dev 5 2 3]
      (mk_gen false init_cache (mk_ata (fun _ => false) Toy.idle (fun _ => 0))) =
    Done ([[5; 0; 6; 0]; [6; 1]; [6; 0; 7]], s').
Proof.
  intros dev. assert (Hf : (bound (cp := Toy.cp) < 2)%nat) by (cbn; lia).
  destruct (cache_reads_disk Toy.cp 2 Hf (mk_ata (fun _ => false) Toy.idle (fun _ => 0))
    [mk_access dev 5 0 4; mk_access dev 7 510 2; mk_access dev 5 2 3]) as (s' & E & _).
  - split; [done|cbn; lia|done].
  - done.
  - repeat constructor; try done; cbn; try lia.
  - exists s'. rewrite E. vm_compute. reflexivity.
Defined.
