(* ===== verification/Pci.v ===== *)
(** * devices/pci/config.h and devices/pci.c: PCI configuration space and registry

    The two configuration ports are a parameter ([PciPorts]); [PciConfig] says what a
    host controller does with them.  Enumeration is shown to fill the registry with
    exactly the functions a direct description of the bus contains, and a driver to
    be started once for each function it supports.  Printing is left out. *)

From stdpp Require Import base list sets strings.
From Stdlib Require Import ZArith Lia.
From S2P Require Import Prelude Memory.

(** ** config.h *)

Definition PCI_ADDRESS_PORT : Z := 0x0cf8.
Definition PCI_DATA_PORT : Z := 0x0cfc.
Definition CFG_VENDOR_ID : Z := 0x00.
Definition CFG_DEVICE_ID : Z := 0x02.
Definition CFG_COMMAND : Z := 0x04.
Definition CFG_STATUS : Z := 0x06.
Definition CFG_REVISION_ID : Z := 0x08.
Definition CFG_PROG_IF : Z := 0x09.
Definition CFG_SUBCLASS : Z := 0x0a.
Definition CFG_CLASS : Z := 0x0b.
Definition CFG_HEADER_TYPE : Z := 0x0e.
Definition CFG_BAR0 : Z := 0x10.
Definition CFG_BAR1 : Z := 0x14.
Definition CFG_BAR2 : Z := 0x18.
Definition CFG_BAR3 : Z := 0x1c.
Definition CFG_BAR4 : Z := 0x20.
Definition CFG_INT_PIN : Z := 0x3d.
Definition CFG_INT_LINE : Z := 0x3c.
Definition CFG_INVALID_VENDOR : Z := 0xffff.
Definition CFG_HT_MASK : Z := 0x7f.
Definition CFG_DEFAULT : Z := 0x00.
Definition CFG_PCI2PCI : Z := 0x01.
Definition CFG_MAX_FUNC : nat := 8.
Definition CFG_MAX_DEVICE : nat := 32.

Definition cfg_is_multifunction (header_type : Z) : bool := negb (Z.land header_type 0x80 =? 0).
Definition cfg_ht_equal (header_type other : Z) : bool := Z.land header_type CFG_HT_MASK =? other.

Class PciPorts (D : Type) := {
  pio_outl : Z → Z → M D unit;
  pio_inl : Z → M D Z;
}.

Section config.
Context {D : Type} `{PciPorts D}.

Definition config_address (bus dev func offset : Z) : Z :=
  u32 (Z.lor (Z.lor (Z.lor (Z.lor (Z.shiftl bus 16) (Z.shiftl dev 11)) (Z.shiftl func 8))
    (Z.land offset 0xfc)) 0x80000000).

(** The result goes through a [uint16_t]. *)
Definition config_read_dword (bus dev func offset : Z) : M D Z :=
  pio_outl PCI_ADDRESS_PORT (config_address bus dev func offset) ;;;
  v <- pio_inl PCI_DATA_PORT ;;
  ret (u16 v).

Definition config_read_word (bus dev func offset : Z) : M D Z :=
  pio_outl PCI_ADDRESS_PORT (config_address bus dev func offset) ;;;
  v <- pio_inl PCI_DATA_PORT ;;
  ret (u16 (Z.land (Z.shiftr v (Z.land offset 2 * 8)) 0xffff)).

Definition config_read_byte (bus dev func offset : Z) : M D Z :=
  pio_outl PCI_ADDRESS_PORT (config_address bus dev func offset) ;;;
  v <- pio_inl PCI_DATA_PORT ;;
  ret (u8 (Z.land (Z.shiftr v (Z.land offset 2 * 8)) 0xff)).

Definition config_write_byte (bus dev func offset value : Z) : M D unit :=
  pio_outl PCI_ADDRESS_PORT (config_address bus dev func offset) ;;;
  v <- pio_inl PCI_DATA_PORT ;;
  let tmp := Z.land v (u32 (Z.lnot (Z.shiftl 0xff (Z.land offset 2 * 8)))) in
  pio_outl PCI_DATA_PORT (u32 (Z.lor tmp (Z.shiftl value (Z.land offset 2 * 8)))).

Definition config_is_valid (bus dev func : Z) : M D bool :=
  v <- config_read_word bus dev func CFG_VENDOR_ID ;;
  ret (negb (v =? CFG_INVALID_VENDOR)).

End config.

(** ** pci.h and pci.c *)

Definition MAX_PCI_FUNCTIONS : nat := 32.

Record pci_device_id := mk_id { vendor_id : Z; device_id : Z }.

(** [pf_driver] names the driver. *)
Record pci_function := mk_function {
  pf_bus : Z;
  pf_device : Z;
  pf_function : Z;
  pf_id : pci_device_id;
  pf_revision : Z;
  pf_prog_if : Z;
  pf_subclass : Z;
  pf_class : Z;
  pf_header_type : Z;
  pf_int_line : Z;
  pf_int_pin : Z;
  pf_driver : option nat;
}.

Definition zero_function : pci_function := mk_function 0 0 0 (mk_id 0 0) 0 0 0 0 0 0 0 None.

Definition set_driver (d : nat) (f : pci_function) : pci_function :=
  mk_function (pf_bus f) (pf_device f) (pf_function f) (pf_id f) (pf_revision f) (pf_prog_if f)
    (pf_subclass f) (pf_class f) (pf_header_type f) (pf_int_line f) (pf_int_pin f) (Some d).

(** The registry, its mutex as the running thread sees it, and the rest of the machine. *)
Record pci (D : Type) := mk_pci {
  pci_config_mutex : bool;
  next_pci_function : nat;
  pci_functions : list pci_function;
  pc_dev : D;
}.
Arguments mk_pci {D}.
Arguments pci_config_mutex {D}.
Arguments next_pci_function {D}.
Arguments pci_functions {D}.
Arguments pc_dev {D}.

(** [init] is given the function by its place in the registry. *)
Record pci_driver (D : Type) := mk_driver {
  drv_name : nat;
  drv_supported : list pci_device_id;
  drv_init : nat → M (pci D) unit;
}.
Arguments mk_driver {D}.
Arguments drv_name {D}.
Arguments drv_supported {D}.
Arguments drv_init {D}.

Section registry.
Context {D : Type} `{PciPorts D}.

Definition pset_mutex (b : bool) (s : pci D) : pci D := mk_pci b (next_pci_function s) (pci_functions s) (pc_dev s).
Definition pset_functions (l : list pci_function) (s : pci D) : pci D :=
  mk_pci (pci_config_mutex s) (next_pci_function s) l (pc_dev s).
Definition pset_dev (d : D) (s : pci D) : pci D :=
  mk_pci (pci_config_mutex s) (next_pci_function s) (pci_functions s) d.

Definition on_bus {A} (m : M D A) : M (pci D) A := zoom pc_dev pset_dev m.

(** The place of the function handed out. *)
Definition register_function : M (pci D) nat :=
  s <- get ;;
  if Nat.eqb (next_pci_function s) MAX_PCI_FUNCTIONS then kpanic "register_function(): too many PCI functions" else
  modify (fun s => mk_pci (pci_config_mutex s) (S (next_pci_function s)) (pci_functions s) (pc_dev s)) ;;;
  ret (next_pci_function s).

Definition visit_function (bus dev func : Z) : M (pci D) unit :=
  v <- on_bus (config_is_valid bus dev func) ;;
  if negb v then ret tt else
  i <- register_function ;;
  vendor <- on_bus (config_read_word bus dev func CFG_VENDOR_ID) ;;
  device <- on_bus (config_read_word bus dev func CFG_DEVICE_ID) ;;
  revision <- on_bus (config_read_byte bus dev func CFG_REVISION_ID) ;;
  prog_if <- on_bus (config_read_byte bus dev func CFG_PROG_IF) ;;
  subclass <- on_bus (config_read_byte bus dev func CFG_SUBCLASS) ;;
  class <- on_bus (config_read_byte bus dev func CFG_CLASS) ;;
  int_line <- on_bus (config_read_byte bus dev func CFG_INT_LINE) ;;
  int_pin <- on_bus (config_read_byte bus dev func CFG_INT_PIN) ;;
  header_type <- on_bus (config_read_byte bus dev func CFG_HEADER_TYPE) ;;
  modify (fun s => pset_functions (alter (fun f =>
    mk_function bus dev func (mk_id vendor device) revision prog_if subclass class header_type int_line int_pin
      (pf_driver f)) i (pci_functions s)) s) ;;;
  on_bus (config_read_dword bus dev func CFG_BAR0) ;;;
  on_bus (config_read_dword bus dev func CFG_BAR1) ;;;
  on_bus (config_read_dword bus dev func CFG_BAR2) ;;;
  on_bus (config_read_dword bus dev func CFG_BAR3) ;;;
  on_bus (config_read_dword bus dev func CFG_BAR4) ;;;
  ret tt.

(** [for (; func < CFG_MAX_FUNC; func++) { if (!config_is_valid(bus, dev, func)) break; body }] *)
Fixpoint func_loop (n : nat) (func bus dev : Z) (body : Z → M (pci D) unit) : M (pci D) unit :=
  match n with
  | O => ret tt
  | S n' =>
      v <- on_bus (config_is_valid bus dev func) ;;
      if negb v then ret tt else
      body func ;;;
      func_loop n' (func + 1) bus dev body
  end.

Definition visit_device (bus dev : Z) : M (pci D) unit :=
  v <- on_bus (config_is_valid bus dev 0) ;;
  if negb v then ret tt else
  header_type <- on_bus (config_read_byte bus dev 0 CFG_HEADER_TYPE) ;;
  if cfg_is_multifunction header_type
  then func_loop CFG_MAX_FUNC 0 bus dev (visit_function bus dev)
  else visit_function bus dev 0.

Definition visit_bus (bus : Z) : M (pci D) unit :=
  for_up CFG_MAX_DEVICE 0 (visit_device bus).

Definition init_pci : M (pci D) unit :=
  modify (fun s => mk_pci false 0 (replicate MAX_PCI_FUNCTIONS zero_function) (pc_dev s)) ;;;
  v <- on_bus (config_is_valid 0 0 0) ;;
  if negb v then ret tt else
  visit_bus 0 ;;;
  header_type <- on_bus (config_read_byte 0 0 0 CFG_HEADER_TYPE) ;;
  if cfg_is_multifunction header_type
  then func_loop (CFG_MAX_FUNC - 1) 1 0 0 visit_bus
  else ret tt.

Definition pci_lock : M (pci D) unit :=
  s <- get ;;
  if pci_config_mutex s then kpanic "thread_mutex_acquire(): on held lock" else modify (pset_mutex true).
Definition pci_unlock : M (pci D) unit :=
  s <- get ;;
  if pci_config_mutex s then modify (pset_mutex false)
  else kpanic "thread_mutex_release(): called on an unheld mutex".

Fixpoint supports (l : list pci_device_id) (id : pci_device_id) : bool :=
  match l with
  | [] => false
  | sup :: l' => if (vendor_id id =? vendor_id sup) && (device_id id =? device_id sup) then true else supports l' id
  end.

(** The body of the loop over the registry. *)
Definition try_function (driver : pci_driver D) (i : nat) : M (pci D) unit :=
  s <- get ;;
  match pci_functions s !! i with
  | None => ret tt
  | Some f =>
      match pf_driver f with
      | Some _ => ret tt
      | None =>
          if supports (drv_supported driver) (pf_id f) then
            modify (fun s => pset_functions (alter (set_driver (drv_name driver)) i (pci_functions s)) s) ;;;
            drv_init driver i
          else ret tt
      end
  end.

Definition pci_register_driver (driver : pci_driver D) : M (pci D) unit :=
  pci_lock ;;;
  for_up MAX_PCI_FUNCTIONS 0 (fun i => try_function driver (Z.to_nat i)) ;;;
  pci_unlock.

Definition assert_config (why : string) : M (pci D) unit :=
  s <- get ;; if negb (pci_config_mutex s) then kpanic why else ret tt.

Definition pci_get_bar (f : pci_function) (index : Z) : M (pci D) Z :=
  assert_config "pci_get_bar(): config spinlock not held" ;;;
  kassert "BAR index" ((cfg_ht_equal (pf_header_type f) CFG_DEFAULT && (index <=? 5)) ||
                       (cfg_ht_equal (pf_header_type f) CFG_PCI2PCI && (index <=? 1))) ;;;
  on_bus (config_read_dword (pf_bus f) (pf_device f) (pf_function f) (u8 (CFG_BAR0 + index * 4))).

Definition pci_get_int_line (f : pci_function) : M (pci D) Z :=
  assert_config "pci_get_int_line(): config spinlock not held" ;;;
  on_bus (config_read_byte (pf_bus f) (pf_device f) (pf_function f) CFG_INT_LINE).

Definition pci_set_int_line (f : pci_function) (irq_line : Z) : M (pci D) unit :=
  assert_config "pci_set_int_line(): config spinlock not held" ;;;
  on_bus (config_write_byte (pf_bus f) (pf_device f) (pf_function f) CFG_INT_LINE irq_line).

Definition pci_get_status (f : pci_function) : M (pci D) Z :=
  assert_config "pci_get_status(): config spinlock not held" ;;;
  on_bus (config_read_byte (pf_bus f) (pf_device f) (pf_function f) CFG_STATUS).

Definition pci_command (f : pci_function) (command : Z) : M (pci D) unit :=
  assert_config "pci_command(): config spinlock not held" ;;;
  on_bus (config_write_byte (pf_bus f) (pf_device f) (pf_function f) CFG_COMMAND command).

End registry.

(** ** What the code relies on of the host controller *)

(** [cfg d a] is the 32-bit register at configuration address [a]; the address port
    selects it and the data port reads it. *)
Class PciConfig (D : Type) `{PciPorts D} := {
  cfg : D → Z → Z;
  selected_register : D → Z;
  out_address : ∀ d a, ∃ d', pio_outl PCI_ADDRESS_PORT a d = Done (tt, d') ∧
    selected_register d' = a ∧ cfg d' = cfg d;
  in_data : ∀ d, ∃ d', pio_inl PCI_DATA_PORT d = Done (cfg d (selected_register d), d') ∧
    selected_register d' = selected_register d ∧ cfg d' = cfg d;
}.

(** ** The functions of a bus, described directly *)

Section description.
Context (c : Z → Z).

Definition cfg_word (b d f off : Z) : Z := c (config_address b d f off) / 2 ^ (8 * Z.land off 2) mod 2 ^ 16.
Definition cfg_byte (b d f off : Z) : Z := c (config_address b d f off) / 2 ^ (8 * Z.land off 3) mod 2 ^ 8.

Definition present (b d f : Z) : bool := negb (cfg_word b d f CFG_VENDOR_ID =? CFG_INVALID_VENDOR).
Definition multifunction (b d : Z) : bool := cfg_is_multifunction (cfg_byte b d 0 CFG_HEADER_TYPE).

(** The functions from [f] on that answer. *)
Definition present_functions (b d f : Z) : list Z := filter (fun f => present b d f = true) (seqZ f (8 - f)).

(** A device is there when its function 0 is, and has others when that one says so. *)
Definition device_functions (b d : Z) : list (Z * Z * Z) :=
  if present b d 0 then
    if multifunction b d then map (fun f => (b, d, f)) (present_functions b d 0) else [(b, d, 0)]
  else [].

Definition bus_functions (b : Z) : list (Z * Z * Z) :=
  seqZ 0 32 ≫= device_functions b.

(** Bus 0, and one more bus for each further function of a multi-function host controller. *)
Definition all_functions : list (Z * Z * Z) :=
  if present 0 0 0 then
    bus_functions 0 ++ (if multifunction 0 0 then present_functions 0 0 1 ≫= bus_functions else [])
  else [].

(** The registers of a function. *)
Definition describe (x : Z * Z * Z) : pci_function :=
  let '(b, d, f) := x in
  mk_function b d f (mk_id (cfg_word b d f CFG_VENDOR_ID) (cfg_word b d f CFG_DEVICE_ID))
    (cfg_byte b d f CFG_REVISION_ID) (cfg_byte b d f CFG_PROG_IF) (cfg_byte b d f CFG_SUBCLASS)
    (cfg_byte b d f CFG_CLASS) (cfg_byte b d f CFG_HEADER_TYPE) (cfg_byte b d f CFG_INT_LINE)
    (cfg_byte b d f CFG_INT_PIN) None.

(** The functions of a multi-function device are numbered without gaps. *)
Definition no_gaps : Prop :=
  ∀ b d f, 0 ≤ b < 8 → 0 ≤ d < 32 → 0 ≤ f < 7 → multifunction b d = true → present b d (f + 1) = true → present b d f = true.

End description.

(** What the code records of a function instead of its registers: config_read_byte cannot read a
    byte at an odd offset and returns the one before, which for prog_if is the revision, for
    the class the subclass, and for the interrupt pin the interrupt line. *)
Definition misread (f : pci_function) : pci_function :=
  mk_function (pf_bus f) (pf_device f) (pf_function f) (pf_id f) (pf_revision f) (pf_revision f)
    (pf_subclass f) (pf_subclass f) (pf_header_type f) (pf_int_line f) (pf_int_line f) (pf_driver f).

(** The registry that holds exactly the functions [fs], as they are recorded. *)
Definition registry_of (c : Z → Z) (fs : list (Z * Z * Z)) : list pci_function :=
  map (fun x => misread (describe c x)) fs ++ replicate (MAX_PCI_FUNCTIONS - length fs) zero_function.

(** ** Lemmas *)

(** *** What the accessors read and the loops visit *)

Section scanned.
Context (c : Z → Z).

(** The byte at the even offset at or below [off]. *)
Definition even_byte (b d f off : Z) : Z := c (config_address b d f off) / 2 ^ (8 * Z.land off 2) mod 2 ^ 8.

(** The functions up to the first that does not answer. *)
Fixpoint scanned (n : nat) (b d f : Z) : list Z :=
  match n with
  | O => []
  | S n' => if present c b d f then f :: scanned n' b d (f + 1) else []
  end.

Lemma scanned_present b d n f :
  (∀ g, f ≤ g < f + Z.of_nat n - 1 → present c b d (g + 1) = true → present c b d g = true) →
  scanned n b d f = filter (fun f => present c b d f = true) (seqZ f (Z.of_nat n)).
Proof.
  revert f. induction n as [|n IH]; intros f G; [done|]. cbn [scanned].
  rewrite seqZ_cons by lia. replace (Z.pred (Z.of_nat (S n))) with (Z.of_nat n) by lia. replace (Z.succ f) with (f + 1) by lia.
  destruct (present c b d f) eqn:E.
  - rewrite filter_cons_True by done. f_equal. apply IH. intros g Hg. apply G. lia.
  - rewrite filter_cons_False by congruence. symmetry.
    assert (N : ∀ k, (k ≤ n)%nat → present c b d (f + Z.of_nat k) = false).
    { induction k as [|k IHk]; intros Hk; [by rewrite Z.add_0_r|]. specialize (IHk ltac:(lia)).
      destruct (present c b d (f + Z.of_nat (S k))) eqn:Ek; [|done].
      rewrite (G (f + Z.of_nat k)) in IHk; [done|lia|]. by replace (f + Z.of_nat k + 1) with (f + Z.of_nat (S k)) by lia. }
    assert (A : ∀ l, (∀ g, g ∈ l → present c b d g = false) → filter (fun f => present c b d f = true) l = []).
    { induction l as [|x l IHl]; intros Hl; [done|]. rewrite filter_cons_False by (rewrite Hl by set_solver; done). apply IHl. set_solver. }
    apply A. intros g Hg%elem_of_seqZ. rewrite <- (N (Z.to_nat (g - f))) by lia. f_equal. lia.
Qed.

End scanned.

Section enumeration.
Context {D : Type} `{PciConfig D}.

Lemma read_port_run a (d : D) :
  returns (pio_outl PCI_ADDRESS_PORT a ;;; pio_inl PCI_DATA_PORT) d
    (fun v d' => v = cfg d a ∧ cfg d' = cfg d).
Proof.
  destruct (out_address d a) as (d1 & E1 & L1 & C1). destruct (in_data d1) as (d2 & E2 & L2 & C2).
  unfold returns, bind. rewrite E1. cbv beta iota. rewrite E2. cbv beta iota. by rewrite L1, C2, C1.
Qed.

Lemma read_then {A} a (g : Z → A) (d : D) :
  returns (pio_outl PCI_ADDRESS_PORT a ;;; v <- pio_inl PCI_DATA_PORT ;; ret (g v)) d
    (fun v d' => v = g (cfg d a) ∧ cfg d' = cfg d).
Proof.
  pose proof (read_port_run a d) as R. unfold returns, bind in *.
  destruct (pio_outl PCI_ADDRESS_PORT a d) as [[[] d1]| |]; try done.
  destruct (pio_inl PCI_DATA_PORT d1) as [[v d2]| |]; try done. destruct R as [-> R]. by split.
Qed.

Lemma land2_cases off : Z.land off 2 = 0 ∨ Z.land off 2 = 2.
Proof. change 2 with (2 ^ 1). rewrite land_pow2 by lia. destruct (Z.testbit off 1); auto. Qed.

Lemma shift_field v off n :
  0 ≤ n → Z.land (Z.shiftr v (Z.land off 2 * 8)) (Z.ones n) = v / 2 ^ (8 * Z.land off 2) mod 2 ^ n.
Proof.
  intros Hn. rewrite Z.land_ones, Z.shiftr_div_pow2 by (destruct (land2_cases off); lia).
  by rewrite Z.mul_comm.
Qed.

Lemma read_word_run b d f off (x : D) :
  returns (config_read_word b d f off) x (fun v x' => v = cfg_word (cfg x) b d f off ∧ cfg x' = cfg x).
Proof.
  eapply returns_mono; [apply read_then|]. intros v x' [-> ?]. split; [|done].
  change 0xffff with (Z.ones 16). rewrite shift_field by lia. unfold u16, cfg_word. by rewrite Z.mod_mod.
Qed.

Lemma read_byte_run b d f off (x : D) :
  returns (config_read_byte b d f off) x (fun v x' => v = even_byte (cfg x) b d f off ∧ cfg x' = cfg x).
Proof.
  eapply returns_mono; [apply read_then|]. intros v x' [-> ?]. split; [|done].
  change 0xff with (Z.ones 8). rewrite shift_field by lia. unfold u8, even_byte. by rewrite Z.mod_mod.
Qed.

Lemma read_dword_run b d f off (x : D) :
  returns (config_read_dword b d f off) x
    (fun v x' => v = cfg x (config_address b d f off) mod 2 ^ 16 ∧ cfg x' = cfg x).
Proof. eapply returns_mono; [apply read_then|]. by intros v x' [-> ?]. Qed.

Lemma is_valid_run b d f (x : D) :
  returns (config_is_valid b d f) x (fun v x' => v = present (cfg x) b d f ∧ cfg x' = cfg x).
Proof. eapply returns_bind; [apply read_word_run|]. intros v x' [-> ?]. by apply (returns_run _ _ _ _ _ eq_refl). Qed.

(** The registry after the functions [fs] were found, on a bus described by [c]. *)
Record found (c : Z → Z) (fs : list (Z * Z * Z)) (s : pci D) : Prop := {
  fd_cfg : cfg (pc_dev s) = c;
  fd_mutex : pci_config_mutex s = false;
  fd_next : next_pci_function s = length fs;
  fd_fits : (length fs ≤ MAX_PCI_FUNCTIONS)%nat;
  fd_functions : pci_functions s = registry_of c fs;
}.

(** While a function is being described, its place is taken and not filled yet. *)
Record filling (c : Z → Z) (fs : list (Z * Z * Z)) (s : pci D) : Prop := {
  fl_cfg : cfg (pc_dev s) = c;
  fl_mutex : pci_config_mutex s = false;
  fl_next : next_pci_function s = S (length fs);
  fl_fits : (length fs < MAX_PCI_FUNCTIONS)%nat;
  fl_functions : pci_functions s = registry_of c fs;
}.

(** Reading the bus leaves the registry as it is. *)
Lemma on_bus_run {A} (m : M D A) (v : A) (P : pci D → Prop) s :
  P s → (∀ x', cfg x' = cfg (pc_dev s) → P (pset_dev x' s)) →
  returns m (pc_dev s) (fun w x' => w = v ∧ cfg x' = cfg (pc_dev s)) →
  returns (on_bus m) s (fun w s' => w = v ∧ P s').
Proof.
  intros Hs HP Q. apply returns_inv in Q as (w & x' & E & -> & Hc). eapply returns_run.
  - unfold on_bus, zoom. by rewrite E.
  - auto.
Qed.

Lemma found_bus {A} (m : M D A) (v : A) c fs s :
  found c fs s → (∀ x, cfg x = c → returns m x (fun w x' => w = v ∧ cfg x' = cfg x)) →
  returns (on_bus m) s (fun w s' => w = v ∧ found c fs s').
Proof.
  intros F Q. apply on_bus_run; [done| |by apply Q, F].
  intros x' E. destruct F. split; cbn; try done. congruence.
Qed.

Lemma filling_bus {A} (m : M D A) (v : A) c fs s :
  filling c fs s → (∀ x, cfg x = c → returns m x (fun w x' => w = v ∧ cfg x' = cfg x)) →
  returns (on_bus m) s (fun w s' => w = v ∧ filling c fs s').
Proof.
  intros F Q. apply on_bus_run; [done| |by apply Q, F].
  intros x' E. destruct F. split; cbn; try done. congruence.
Qed.

(** From any state of the enumeration, [m] adds the functions [more], and panics when
    they do not fit. *)
Definition visits (c : Z → Z) (m : M (pci D) unit) (more : list (Z * Z * Z)) : Prop :=
  ∀ fs s, found c fs s →
    if decide (length fs + length more ≤ MAX_PCI_FUNCTIONS)%nat
    then returns m s (fun _ s' => found c (fs ++ more) s')
    else m s = Panic "register_function(): too many PCI functions".

Lemma visits_nil c : visits c (ret tt) [].
Proof.
  intros fs s F. rewrite decide_True by (destruct F; cbn; lia).
  apply (returns_run _ _ _ _ _ eq_refl). by rewrite app_nil_r.
Qed.

Lemma visits_app c m1 m2 l1 l2 : visits c m1 l1 → visits c m2 l2 → visits c (m1 ;;; m2) (l1 ++ l2).
Proof.
  intros V1 V2 fs s F. rewrite length_app. specialize (V1 fs s F).
  destruct (decide (length fs + length l1 ≤ MAX_PCI_FUNCTIONS)%nat) as [H1|H1].
  - apply returns_inv in V1 as ([] & s1 & E & F1). specialize (V2 _ _ F1). rewrite length_app in V2.
    rewrite <- app_assoc in V2. rewrite <- Nat.add_assoc in V2.
    destruct (decide _); unfold returns; by rewrite (bind_run _ _ _ _ _ E).
  - rewrite decide_False by lia. by rewrite (bind_Panic _ _ _ _ V1).
Qed.

(** A reading of the bus, and what depends on it. *)
Lemma visits_bus {A} c (m : M D A) (v : A) (k : A → M (pci D) unit) l :
  (∀ x, cfg x = c → returns m x (fun w x' => w = v ∧ cfg x' = cfg x)) →
  visits c (k v) l → visits c (bind (on_bus m) k) l.
Proof.
  intros Hm V fs s F.
  pose proof (found_bus m v c fs s F Hm) as Q.
  apply returns_inv in Q as (w & s1 & E & -> & F1). specialize (V fs s1 F1).
  destruct (decide _); unfold returns; by rewrite (bind_run _ _ _ _ _ E).
Qed.

Lemma bus_word c b d f off (x : D) :
  cfg x = c → returns (config_read_word b d f off) x (fun w x' => w = cfg_word c b d f off ∧ cfg x' = cfg x).
Proof. intros <-. apply read_word_run. Qed.
Lemma bus_byte c b d f off (x : D) :
  cfg x = c → returns (config_read_byte b d f off) x (fun w x' => w = even_byte c b d f off ∧ cfg x' = cfg x).
Proof. intros <-. apply read_byte_run. Qed.
Lemma bus_dword c b d f off (x : D) :
  cfg x = c → returns (config_read_dword b d f off) x
    (fun w x' => w = c (config_address b d f off) mod 2 ^ 16 ∧ cfg x' = cfg x).
Proof. intros <-. apply read_dword_run. Qed.
Lemma bus_valid c b d f (x : D) :
  cfg x = c → returns (config_is_valid b d f) x (fun w x' => w = present c b d f ∧ cfg x' = cfg x).
Proof. intros <-. apply is_valid_run. Qed.

Lemma registry_of_slot c fs :
  (length fs < MAX_PCI_FUNCTIONS)%nat → registry_of c fs !! length fs = Some zero_function.
Proof.
  intros Hl. unfold registry_of. rewrite lookup_app_r by (by rewrite length_map).
  rewrite length_map, Nat.sub_diag. apply lookup_replicate_2. lia.
Qed.

Lemma registry_of_snoc c fs x g :
  (length fs < MAX_PCI_FUNCTIONS)%nat → g zero_function = misread (describe c x) →
  alter g (length fs) (registry_of c fs) = registry_of c (fs ++ [x]).
Proof.
  intros Hl Hg. unfold registry_of. rewrite <- (Nat.add_0_r (length fs)) at 1.
  rewrite <- (length_map (fun x => misread (describe c x)) fs) at 1. rewrite alter_app_r.
  rewrite map_app, length_app, <- app_assoc. f_equal. cbn [length map app].
  replace (MAX_PCI_FUNCTIONS - length fs)%nat with (S (MAX_PCI_FUNCTIONS - (length fs + 1))) by lia.
  cbn. by rewrite Hg.
Qed.

Lemma register_run c fs s :
  found c fs s → (length fs < MAX_PCI_FUNCTIONS)%nat →
  returns register_function s (fun i s' => i = length fs ∧ filling c fs s').
Proof.
  intros [? ? Hn ? ?] Hl. unfold register_function, returns, bind, get. rewrite Hn.
  rewrite (proj2 (Nat.eqb_neq _ _)) by lia. cbn. split; [done|]. split; cbn; try done. by rewrite Hn.
Qed.

Lemma visit_function_visits c b d f :
  visits c (visit_function b d f) (if present c b d f then [(b, d, f)] else []).
Proof.
  unfold visit_function. apply (visits_bus _ _ (present c b d f)); [intros; by apply bus_valid|].
  destruct (present c b d f); cbn [negb]; [|apply visits_nil].
  intros fs s F. cbn [length]. destruct (decide _) as [Hl|Hl].
  - step (register_run _ _ _ F) as i s0 [-> F0]; [lia|].
    step (filling_bus _ _ _ _ _ F0 (bus_word c b d f _)) as w1 s1 [-> F1].
    step (filling_bus _ _ _ _ _ F1 (bus_word c b d f _)) as w2 s2 [-> F2].
    step (filling_bus _ _ _ _ _ F2 (bus_byte c b d f _)) as w3 s3 [-> F3].
    step (filling_bus _ _ _ _ _ F3 (bus_byte c b d f _)) as w4 s4 [-> F4].
    step (filling_bus _ _ _ _ _ F4 (bus_byte c b d f _)) as w5 s5 [-> F5].
    step (filling_bus _ _ _ _ _ F5 (bus_byte c b d f _)) as w6 s6 [-> F6].
    step (filling_bus _ _ _ _ _ F6 (bus_byte c b d f _)) as w7 s7 [-> F7].
    step (filling_bus _ _ _ _ _ F7 (bus_byte c b d f _)) as w8 s8 [-> F8].
    step (filling_bus _ _ _ _ _ F8 (bus_byte c b d f _)) as w9 s9 [-> F9].
    eapply (returns_bind _ _ _ (fun _ s' => found c (fs ++ [(b, d, f)]) s')).
    { apply (returns_run _ _ _ _ _ eq_refl). destruct F9 as [? ? ? ? Hf]. split; cbn; try done.
      - by rewrite length_app, Nat.add_comm.
      - rewrite length_app. cbn. lia.
      - rewrite Hf. by apply registry_of_snoc. }
    intros ? t0 G0.
    step (found_bus _ _ _ _ _ G0 (bus_dword c b d f _)) as v1 t1 [_ G1].
    step (found_bus _ _ _ _ _ G1 (bus_dword c b d f _)) as v2 t2 [_ G2].
    step (found_bus _ _ _ _ _ G2 (bus_dword c b d f _)) as v3 t3 [_ G3].
    step (found_bus _ _ _ _ _ G3 (bus_dword c b d f _)) as v4 t4 [_ G4].
    step (found_bus _ _ _ _ _ G4 (bus_dword c b d f _)) as v5 t5 [_ G5].
    by apply (returns_run _ _ _ _ _ eq_refl).
  - apply bind_Panic. unfold register_function, bind, get. destruct F as [? ? Hn ? ?].
    rewrite Hn, (proj2 (Nat.eqb_eq _ _)) by lia. done.
Qed.

Lemma scanned_first c b d n f :
  no_gaps c → multifunction c b d = true → 0 ≤ b < 8 → 0 ≤ d < 32 → 0 ≤ f → f + Z.of_nat n = 8 → scanned c n b d f = present_functions c b d f.
Proof.
  intros G Hm Hb Hd Hf Hn. rewrite scanned_present; [unfold present_functions; by replace (8 - f) with (Z.of_nat n) by lia|].
  intros g Hg. apply G; [done|done|lia|done].
Qed.

Lemma func_loop_visits c n f b d (body : Z → M (pci D) unit) (g : Z → list (Z * Z * Z)) :
  (∀ x, f ≤ x < f + Z.of_nat n → present c b d x = true → visits c (body x) (g x)) →
  visits c (func_loop n f b d body) (scanned c n b d f ≫= g).
Proof.
  intros Hb. revert f Hb. induction n as [|n IH]; intros f Hb; cbn [func_loop scanned]; [apply visits_nil|].
  apply (visits_bus _ _ (present c b d f)); [intros; by apply bus_valid|].
  destruct (present c b d f) eqn:E; cbn [negb]; [|apply visits_nil].
  cbn. apply visits_app; [apply Hb; [lia|done]|]. apply IH. intros x Hx. apply Hb. lia.
Qed.

Lemma bus_header c b d (x : D) :
  cfg x = c → returns (config_read_byte b d 0 CFG_HEADER_TYPE) x (fun w x' => w = cfg_byte c b d 0 CFG_HEADER_TYPE ∧ cfg x' = cfg x).
Proof. exact (bus_byte c b d 0 CFG_HEADER_TYPE x). Qed.

Lemma visit_device_visits c b d : no_gaps c → 0 ≤ b < 8 → 0 ≤ d < 32 → visits c (visit_device b d) (device_functions c b d).
Proof.
  intros G Hb Hd. unfold visit_device, device_functions. apply (visits_bus _ _ (present c b d 0)); [intros; by apply bus_valid|].
  destruct (present c b d 0) eqn:E; cbn [negb]; [|apply visits_nil].
  apply (visits_bus _ _ (cfg_byte c b d 0 CFG_HEADER_TYPE)); [intros; by apply bus_header|].
  fold (multifunction c b d). destruct (multifunction c b d) eqn:Em.
  - replace (map _ _) with (scanned c 8 b d 0 ≫= (fun f => [(b, d, f)])).
    + apply func_loop_visits. intros f _ Hf. pose proof (visit_function_visits c b d f) as V. by rewrite Hf in V.
    + rewrite (scanned_first c b d 8) by (done || lia). unfold present_functions. generalize (filter (fun f => present c b d f = true) (seqZ 0 (8 - 0))). intros l. induction l as [|x l IH]; [done|]. cbn. by rewrite <- IH.
  - pose proof (visit_function_visits c b d 0) as V. by rewrite E in V.
Qed.

Lemma for_up_visits c n i (body : Z → M (pci D) unit) g :
  (∀ x, i ≤ x < i + Z.of_nat n → visits c (body x) (g x)) → visits c (for_up n i body) (seqZ i (Z.of_nat n) ≫= g).
Proof.
  intros Hb. revert i Hb. induction n as [|n IH]; intros i Hb; cbn [for_up]; [apply visits_nil|].
  rewrite seqZ_cons by lia. cbn. replace (Z.pred (Z.of_nat (S n))) with (Z.of_nat n) by lia.
  replace (Z.succ i) with (i + 1) by lia. apply visits_app; [apply Hb; lia|]. apply IH. intros x Hx. apply Hb. lia.
Qed.

Lemma visit_bus_visits c b : no_gaps c → 0 ≤ b < 8 → visits c (visit_bus b) (bus_functions c b).
Proof. intros G Hb. apply (for_up_visits c 32 0). intros d Hd. apply visit_device_visits; [done..|lia]. Qed.

Lemma init_visits c (s : pci D) :
  cfg (pc_dev s) = c → no_gaps c →
  if decide (length (all_functions c) ≤ MAX_PCI_FUNCTIONS)%nat
  then returns init_pci s (fun _ s' => found c (all_functions c) s')
  else init_pci s = Panic "register_function(): too many PCI functions".
Proof.
  intros Hc G. unfold init_pci. unfold returns, bind at 1 2, modify.
  set (s1 := mk_pci _ _ _ _). assert (F : found c [] s1) by (by split; cbn; [| | |lia|]).
  assert (V : visits c (v <- on_bus (config_is_valid 0 0 0) ;; if negb v then ret tt else
    visit_bus 0 ;;; header_type <- on_bus (config_read_byte 0 0 0 CFG_HEADER_TYPE) ;;
    if cfg_is_multifunction header_type then func_loop (CFG_MAX_FUNC - 1) 1 0 0 visit_bus else ret tt)
    (all_functions c)).
  { unfold all_functions. apply (visits_bus _ _ (present c 0 0 0)); [intros; by apply bus_valid|].
    destruct (present c 0 0 0); cbn [negb]; [|apply visits_nil].
    apply visits_app; [apply visit_bus_visits; [done|lia]|].
    apply (visits_bus _ _ (cfg_byte c 0 0 0 CFG_HEADER_TYPE)); [intros; by apply bus_header|].
    fold (multifunction c 0 0). destruct (multifunction c 0 0) eqn:Em; [|apply visits_nil].
    rewrite <- (scanned_first c 0 0 7 1) by (done || lia). apply func_loop_visits. intros x Hx _. apply visit_bus_visits; [done|lia]. }
  exact (V [] s1 F).
Qed.

End enumeration.

(** ** Drivers *)

Section drivers.
Context {D : Type} (driver : pci_driver D).

(** The function has no driver and is one the driver supports. *)
Definition matches (f : pci_function) : bool :=
  match pf_driver f with Some _ => false | None => supports (drv_supported driver) (pf_id f) end.

Definition attach (f : pci_function) : pci_function :=
  if matches f then set_driver (drv_name driver) f else f.

(** The places of the functions the driver is started for, in order. *)
Definition matching (l : list pci_function) (n : nat) : list nat :=
  filter (fun i => from_option matches false (l !! i) = true) (seq 0 n).

Lemma supports_spec l id : supports l id = true ↔ id ∈ l.
Proof.
  induction l as [|x l IH]; cbn; [set_solver|]. rewrite elem_of_cons, <- IH.
  destruct ((vendor_id id =? vendor_id x) && (device_id id =? device_id x)) eqn:E.
  - zbool. split; [|done]. intros _. left. destruct id, x. cbn in *. by subst.
  - split; [auto|]. intros [->|?]; [|done]. by rewrite !Z.eqb_refl in E.
Qed.

Lemma matching_S l n :
  matching l (S n) = matching l n ++
    (if from_option matches false (l !! n) then [n] else []).
Proof.
  unfold matching. rewrite seq_S, filter_app. f_equal. cbn [Nat.add].
  destruct (from_option matches false (l !! n)) eqn:E.
  - by rewrite filter_cons_True.
  - rewrite filter_cons_False; [done|]. by rewrite E.
Qed.

Context (start : nat → D → D).
Context (Hinit : ∀ i s, pci_config_mutex s = true → drv_init driver i s = Done (tt, pset_dev (start i (pc_dev s)) s)).

Lemma register_loop l0 d0 n s :
  length l0 = MAX_PCI_FUNCTIONS → (n ≤ MAX_PCI_FUNCTIONS)%nat →
  pci_config_mutex s = true → pci_functions s = l0 → pc_dev s = d0 →
  ∃ s', for_up n 0 (fun i => try_function driver (Z.to_nat i)) s = Done (tt, s') ∧
    pci_config_mutex s' = true ∧ next_pci_function s' = next_pci_function s ∧
    pci_functions s' = map attach (take n l0) ++ drop n l0 ∧
    pc_dev s' = foldl (fun d i => start i d) d0 (matching l0 n).
Proof.
  intros Hl Hn Hm Hf Hd.
  pose (I := fun j (s' : pci D) => pci_config_mutex s' = true ∧ next_pci_function s' = next_pci_function s ∧
    pci_functions s' = map attach (take (Z.to_nat j) l0) ++ drop (Z.to_nat j) l0 ∧
    pc_dev s' = foldl (fun d i => start i d) d0 (matching l0 (Z.to_nat j))).
  destruct (for_up_inv I (fun i => try_function driver (Z.to_nat i)) n 0 s) as (s' & E & H').
  - by repeat split.
  - intros j s0 Hj (M0 & N0 & F0 & D0). unfold try_function, bind at 1, get.
    replace (Z.to_nat (j + 1)) with (S (Z.to_nat j)) in * by lia. unfold I.
    replace (Z.to_nat (j + 1)) with (S (Z.to_nat j)) by lia.
    set (i := Z.to_nat j) in *. rewrite F0. rewrite matching_S.
    destruct (lookup_lt_is_Some_2 l0 i) as [f Ef]; [lia|].
    assert (Lt : length (map attach (take i l0)) = i) by (rewrite length_map, length_take; lia).
    rewrite lookup_app_r by lia. rewrite Lt, Nat.sub_diag, lookup_drop, Nat.add_0_r, Ef.
    rewrite (take_S_r _ _ _ Ef), map_app, <- app_assoc. rewrite (drop_S _ _ _ Ef) in F0.
    cbn [map app from_option]. unfold attach at 2, matches.
    destruct (pf_driver f) as [x|] eqn:Ex.
    { exists s0. rewrite app_nil_r. done. }
    destruct (supports (drv_supported driver) (pf_id f)).
    + eexists. split.
      * unfold bind, modify. by apply Hinit.
      * cbn. rewrite foldl_app. cbn. rewrite <- D0, F0. split; [done|]. split; [done|]. split; [|done].
        rewrite <- (Nat.add_0_r i) at 1. rewrite <- Lt at 1. by rewrite alter_app_r.
    + exists s0. rewrite app_nil_r. done.
  - unfold I in H'. rewrite Z.add_0_l, Nat2Z.id in H'. by exists s'.
Qed.

End drivers.

(** ** A bus for the examples: a host controller 0:0.0 and a two-function device 0:1,
    whose second function is an IDE controller *)

Module ToyBus.

Definition reg (a : Z) : Z :=
  let fn := Z.shiftr a 8 in
  let off := Z.land a 0xff in
  if fn =? 0x800000 then if off =? 0 then 0x12378086 else 0
  else if fn =? 0x800008 then if off =? 0 then 0x70008086 else if off =? 0x0c then 0x00800000 else 0
  else if fn =? 0x800009 then if off =? 0 then 0x70108086 else if off =? 0x20 then 0xc0010001 else 0
  else 0xffffffff.

(** The selected address and a log of the drivers' initializations. *)
Definition machine : Type := Z * list nat.

#[global] Instance ports : PciPorts machine := {
  pio_outl := fun p v d => Done (tt, if p =? PCI_ADDRESS_PORT then (v, snd d) else d);
  pio_inl := fun p d => Done (reg (fst d), d);
}.

#[global] Instance config : PciConfig machine.
Proof.
  refine {| cfg := fun _ => reg; selected_register := fst |}.
  - intros d a. by exists (a, snd d).
  - intros d. by exists d.
Defined.

Definition start : pci machine := mk_pci false 0 [] (0, []).
Definition ide : pci_driver machine :=
  mk_driver 7 [mk_id 0x8086 0x7010] (fun i s => Done (tt, pset_dev (fst (pc_dev s), i :: snd (pc_dev s)) s)).

End ToyBus.

(** C37: on a bus whose multi-function devices have no gaps in their function numbers (the code
    stops at the first number that does not answer), enumeration returns with a registry that
    holds exactly the functions that are present, in bus order and without a driver, each with its
    address, ids, revision, subclass, header type and interrupt line; its programming
    interface, class and interrupt pin are not those of the function, but its revision, subclass
    and interrupt line ([misread]: a defect of config_read_byte).  When there are more than 32
    functions the kernel panics. *)
Theorem init_pci_enumerates {D} `{PciConfig D} (s : pci D) :
  let c := cfg (pc_dev s) in
  no_gaps c →
  if decide (length (all_functions c) ≤ MAX_PCI_FUNCTIONS)%nat
  then ∃ s', init_pci s = Done (tt, s') ∧
    pci_functions s' = map (fun x => misread (describe c x)) (all_functions c) ++
      replicate (MAX_PCI_FUNCTIONS - length (all_functions c)) zero_function ∧
    next_pci_function s' = length (all_functions c) ∧
    pci_config_mutex s' = false ∧ cfg (pc_dev s') = c
  else init_pci s = Panic "register_function(): too many PCI functions".
Proof.
  intros c G. pose proof (init_visits c s eq_refl G) as V. destruct (decide _); [|done].
  apply returns_inv in V as ([] & s' & E & [? ? ? ? ?]). by exists s'.
Qed.

Lemma ToyBus_no_gaps : no_gaps ToyBus.reg.
Proof.
  intros b d f Hb Hd Hf. assert (Hx : forallb (fun b => forallb (fun d => forallb (fun f =>
    implb (multifunction ToyBus.reg b d) (implb (present ToyBus.reg b d (f + 1)) (present ToyBus.reg b d f))) (seqZ 0 7)) (seqZ 0 32)) (seqZ 0 8) = true)
    by (vm_compute; reflexivity).
  rewrite forallb_forall in Hx. specialize (Hx b ltac:(apply list_elem_of_In, elem_of_seqZ; lia)).
  rewrite forallb_forall in Hx. specialize (Hx d ltac:(apply list_elem_of_In, elem_of_seqZ; lia)).
  rewrite forallb_forall in Hx. specialize (Hx f ltac:(apply list_elem_of_In, elem_of_seqZ; lia)).
  intros E1 E2. by rewrite E1, E2 in Hx.
Qed.

Lemma init_pci_enumerates_witness :
  ∃ s', init_pci ToyBus.start = Done (tt, s') ∧ next_pci_function s' = 3%nat ∧
    map (fun f => (pf_bus f, pf_device f, pf_function f, device_id (pf_id f))) (take 3 (pci_functions s')) =
      [(0, 0, 0, 0x1237); (0, 1, 0, 0x7000); (0, 1, 1, 0x7010)].
Proof.
  pose proof (init_pci_enumerates ToyBus.start ToyBus_no_gaps) as T. cbv zeta in T.
  assert (E : all_functions (cfg (pc_dev ToyBus.start)) = [(0, 0, 0); (0, 1, 0); (0, 1, 1)]) by (vm_compute; reflexivity).
  rewrite E, decide_True in T by (unfold MAX_PCI_FUNCTIONS; cbn; lia). destruct T as (s' & Es & Ef & En & _).
  exists s'. split; [exact Es|]. split; [exact En|]. rewrite Ef. vm_compute. reflexivity.
Defined.

(** Registering a driver starts it once for every function in the registry that
    has no driver and whose vendor and device numbers it supports, in registry order,
    and marks exactly these functions as driven by it; the registry's mutex is free
    before and after. *)
Theorem pci_register_driver_starts {D} (driver : pci_driver D) (start : nat → D → D) (s : pci D) :
  (∀ i s, pci_config_mutex s = true → drv_init driver i s = Done (tt, pset_dev (start i (pc_dev s)) s)) →
  length (pci_functions s) = MAX_PCI_FUNCTIONS → pci_config_mutex s = false →
  ∃ s', pci_register_driver driver s = Done (tt, s') ∧ pci_config_mutex s' = false ∧
    pci_functions s' = map (attach driver) (pci_functions s) ∧
    pc_dev s' = foldl (fun d i => start i d) (pc_dev s) (matching driver (pci_functions s) MAX_PCI_FUNCTIONS) ∧
    ∀ f, matches driver f = true ↔ pf_driver f = None ∧ pf_id f ∈ drv_supported driver.
Proof.
  intros Hi Hl Hm.
  destruct (register_loop driver start Hi (pci_functions s) (pc_dev s) MAX_PCI_FUNCTIONS (pset_mutex true s))
    as (s1 & E & M1 & _ & F1 & D1); try done.
  rewrite take_ge, drop_ge, app_nil_r in F1 by lia.
  exists (pset_mutex false s1). split.
  - assert (El : pci_lock s = Done (tt, pset_mutex true s)) by (unfold pci_lock, bind, get; by rewrite Hm).
    unfold pci_register_driver. rewrite (bind_run _ _ _ _ _ El), (bind_run _ _ _ _ _ E).
    unfold pci_unlock, bind, get. by rewrite M1.
  - split; [done|]. split; [done|]. split; [done|]. intros f. unfold matches.
    destruct (pf_driver f); [split; [done|]; by intros [? _]|]. rewrite supports_spec. by split; [|intros [_ ?]].
Qed.

Lemma pci_register_driver_starts_witness :
  let s := mk_pci false 3 (registry_of ToyBus.reg [(0, 0, 0); (0, 1, 0); (0, 1, 1)]) (0, []) in
  ∃ s', pci_register_driver ToyBus.ide s = Done (tt, s') ∧ pc_dev s' = (0, [2%nat]) ∧
    map pf_driver (take 4 (pci_functions s')) = [None; None; Some 7%nat; None].
Proof.
  intros s.
  destruct (pci_register_driver_starts ToyBus.ide (fun i d => (fst d, i :: snd d)) s) as (s' & E & _ & F & Dv & _).
  - intros i s0 _. reflexivity.
  - vm_compute. reflexivity.
  - reflexivity.
  - exists s'. split; [exact E|]. rewrite F, Dv. split; vm_compute; reflexivity.
Defined.

(** What the configuration accessors read: a word at an even offset, the byte at
    the even offset at or below the one asked for, and of a 32-bit register the lower
    half. *)
Theorem config_read_values {D} `{PciConfig D} (x : D) (b d f off : Z) :
  ∃ x1 x2 x3,
    config_read_word b d f off x = Done (cfg x (config_address b d f off) / 2 ^ (8 * Z.land off 2) mod 2 ^ 16, x1) ∧
    config_read_byte b d f off x = Done (cfg x (config_address b d f off) / 2 ^ (8 * Z.land off 2) mod 2 ^ 8, x2) ∧
    config_read_dword b d f off x = Done (cfg x (config_address b d f off) mod 2 ^ 16, x3).
Proof.
  destruct (returns_inv _ _ _ (read_word_run b d f off x)) as (? & x1 & E1 & -> & _).
  destruct (returns_inv _ _ _ (read_byte_run b d f off x)) as (? & x2 & E2 & -> & _).
  destruct (returns_inv _ _ _ (read_dword_run b d f off x)) as (? & x3 & E3 & -> & _).
  by exists x1, x2, x3.
Qed.

(** The upper half of a base address register is lost. *)
Lemma config_read_values_witness :
  (∃ x, config_read_dword 0 1 1 CFG_BAR4 (pc_dev ToyBus.start) = Done (0x0001, x)) ∧ ToyBus.reg 0x80000920 = 0xc0010001.
Proof.
  split; [|vm_compute; reflexivity].
  destruct (config_read_values (pc_dev ToyBus.start) 0 1 1 CFG_BAR4) as (x1 & x2 & x3 & _ & _ & E).
  exists x3. rewrite E. vm_compute. reflexivity.
Defined.
