(* ===== verification/AtaInit.v ===== *)
(** * drivers/ata/generic.c: identification of the drives and installation

    [gen_ata_init_drive] asks a drive to identify itself and fills in its description
    and its block device; [ata_gen_install] registers the driver with the PCI registry
    of [Pci], whose matching functions make it probe the four drives, and adds the
    block devices it found to the registry of [BlockDev].  Drives and channels live in
    arrays, and a block device refers to its drive by its place there. *)

From stdpp Require Import base list sets strings.
From Stdlib Require Import ZArith Lia.
From S2P Require Import Prelude Memory KUtils BlockDev AtaPio AtaCache Pci.

Definition ATA_REG_ALTSTATUS : Z := 0x0C.
Definition ATAPI_LBA1_SIG : Z := 0x14.
Definition ATAPI_LBA2_SIG : Z := 0xeb.
Definition SATAPI_LBA1_SIG : Z := 0x69.
Definition SATAPI_LBA2_SIG : Z := 0x96.
Definition IDE_PRI_COMMAND : Z := 0x01F0.
Definition IDE_PRI_CONTROL : Z := 0x03F6.
Definition IDE_SEC_COMMAND : Z := 0x0170.
Definition IDE_SEC_CONTROL : Z := 0x0376.
Definition IDE_ATA : Z := 0.

(** Byte offsets of the identification fields (the header divides by the size of a word). *)
Definition ATA_IDENT_DEVICETYPE : nat := 0.
Definition ATA_IDENT_SERIAL : nat := 20.
Definition ATA_IDENT_FIRMWARE : nat := 46.
Definition ATA_IDENT_MODEL : nat := 54.
Definition ATA_IDENT_CAPABILITIES : nat := 98.
Definition ATA_IDENT_MAX_LBA : nat := 120.
Definition ATA_IDENT_FCS1 : nat := 164.
Definition ATA_IDENT_FCS2 : nat := 166.
Definition ATA_IDENT_FCS3 : nat := 168.
Definition ATA_IDENT_FCS4 : nat := 170.
Definition ATA_IDENT_FCS5 : nat := 172.
Definition ATA_IDENT_FCS6 : nat := 174.
Definition ATA_IDENT_MAX_LBA_EXT : nat := 200.

(** ** Strings of an identification *)

Fixpoint first_zero (l : list Z) : nat :=
  match l with [] => 0 | c :: l' => if c =? 0 then 0 else S (first_zero l') end.

(** [for (i = 0; i < len; i += 2)] swaps [words[i]] and [words[i + 1]]. *)
Fixpoint rotate_loop (n i len : nat) (words : list Z) : list Z :=
  match n with
  | O => words
  | S n' =>
      if Nat.ltb i len then
        let c := nth i words 0 in
        rotate_loop n' (i + 2) len (<[(i + 1)%nat := c]> (<[i := nth (i + 1) words 0]> words))
      else words
  end.

(** The array holds a terminated string; the loop makes at most one turn per character. *)
Definition rotate_words (words : list Z) : list Z :=
  rotate_loop (length words) 0 (first_zero words) words.

(** [kmemcpy(dest, idbuf + field, len); dest[len] = 0; rotate_words(dest);] *)
Definition ident_string (idbuf : list Z) (off len : nat) : list Z :=
  rotate_words (take len (drop off idbuf) ++ [0]).

(** ** State *)

(** [dv_opaque] is the place of the drive. *)
Record bdev_slot := mk_slot { dv_valid : bool; dv_num_blocks : Z; dv_opaque : option nat }.

Record inst (H : Type) := mk_inst {
  gen_ata_inserted : bool;
  gen_ata_channels : list ide_channel;
  gen_ata_drives : list ide_drive;
  gen_ata_block_devices : list bdev_slot;
  in_registry : registry (gen H);
}.
Arguments mk_inst {H}.
Arguments gen_ata_inserted {H}.
Arguments gen_ata_channels {H}.
Arguments gen_ata_drives {H}.
Arguments gen_ata_block_devices {H}.
Arguments in_registry {H}.

Section init.
Context {H : Type} `{Ports H} (fuel : nat).

Definition iset_inserted (b : bool) (s : inst H) : inst H :=
  mk_inst b (gen_ata_channels s) (gen_ata_drives s) (gen_ata_block_devices s) (in_registry s).
Definition iset_channels (l : list ide_channel) (s : inst H) : inst H :=
  mk_inst (gen_ata_inserted s) l (gen_ata_drives s) (gen_ata_block_devices s) (in_registry s).
Definition iset_drives (l : list ide_drive) (s : inst H) : inst H :=
  mk_inst (gen_ata_inserted s) (gen_ata_channels s) l (gen_ata_block_devices s) (in_registry s).
Definition iset_devices (l : list bdev_slot) (s : inst H) : inst H :=
  mk_inst (gen_ata_inserted s) (gen_ata_channels s) (gen_ata_drives s) l (in_registry s).
Definition iset_registry (r : registry (gen H)) (s : inst H) : inst H :=
  mk_inst (gen_ata_inserted s) (gen_ata_channels s) (gen_ata_drives s) (gen_ata_block_devices s) r.
Definition iset_ata (a : ata H) (s : inst H) : inst H :=
  iset_registry (rset_dev (gset_ata a (r_dev (in_registry s))) (in_registry s)) s.
Definition in_ata (s : inst H) : ata H := g_ata (r_dev (in_registry s)).

(** Transfers to the channel's own buffer. *)
Definition on_channels {A} (m : M (ata H) A) : M (inst H) A := zoom in_ata iset_ata m.

Definition update_drive (i : nat) (f : ide_drive → ide_drive) : M (inst H) unit :=
  modify (fun s => iset_drives (alter f i (gen_ata_drives s)) s).

Definition gen_ata_init_channel (channel : nat) (cmd ctl : Z) : M (inst H) unit :=
  let cp := mk_channel channel cmd ctl in
  on_channels (modify (aset_held cp false)) ;;;
  modify (fun s => iset_channels (<[channel := cp]> (gen_ata_channels s)) s) ;;;
  on_channels (ata_pio_lock cp ;;; ata_pio_register_write cp ATA_REG_CONTROL 0 ;;; ata_pio_unlock cp).

(** [while (1)]: until the drive reports an error or has data. *)
Fixpoint identify_loop (n : nat) (cp : ide_channel) : M (ata H) Z :=
  match n with
  | O => hang
  | S n' =>
      status <- ata_pio_register_read cp ATA_REG_ALTSTATUS ;;
      if negb (Z.land status ATA_SR_ERR =? 0) then ret status
      else if (Z.land status ATA_SR_BSY =? 0) && negb (Z.land status ATA_SR_DRQ =? 0) then ret status
      else identify_loop n' cp
  end.

(** From the selection of the drive to the end of the polling: whether a drive that
    can be used answered.  ATAPI drives are recognised and then refused like any
    other drive that reports an error. *)
Definition identify (cp : ide_channel) (drive : Z) : M (ata H) bool :=
  ata_pio_wait_for_status fuel cp (Z.lor ATA_SR_BSY ATA_SR_DRQ) 0 ;;;
  ata_pio_register_write cp ATA_REG_HDDEVSEL (Z.lor ATA_SEL_BIT_DEV (Z.shiftl drive 4)) ;;;
  hw (ticks_mwait 1) ;;;
  ata_pio_register_write cp ATA_REG_CONTROL (Z.lor ATA_BIT_NIEN ATA_BIT_CTL_OBS) ;;;
  ata_pio_wait_for_status fuel cp ATA_SR_BSY 0 ;;;
  ata_pio_wait_for_status fuel cp ATA_SR_BSY 0 ;;;
  ata_pio_register_write cp ATA_REG_COMMAND ATA_CMD_IDENTIFY ;;;
  hw (ticks_mwait 1) ;;;
  altstatus <- ata_pio_register_read cp ATA_REG_ALTSTATUS ;;
  if altstatus =? 0 then ret false else
  status <- identify_loop fuel cp ;;
  if negb (Z.land status ATA_SR_ERR =? 0) then
    lba1 <- ata_pio_register_read cp ATA_REG_LBA1 ;;
    lba2 <- ata_pio_register_read cp ATA_REG_LBA2 ;;
    if (lba1 =? ATAPI_LBA1_SIG) && (lba2 =? ATAPI_LBA2_SIG) then ret false
    else if (lba1 =? SATAPI_LBA1_SIG) && (lba2 =? SATAPI_LBA2_SIG) then ret false
    else ret false
  else ret true.

(** The description of a drive that identified itself as [idbuf]. *)
Definition analyze (drive_index : nat) (cp : ide_channel) (drive : Z) (idbuf : list Z) : ide_drive :=
  let fcs5 := get16 idbuf ATA_IDENT_FCS5 in
  mk_drive true (Z.of_nat drive_index) drive IDE_ATA
    (ident_string idbuf ATA_IDENT_SERIAL 20) (ident_string idbuf ATA_IDENT_FIRMWARE 8)
    (ident_string idbuf ATA_IDENT_MODEL 40)
    (get16 idbuf ATA_IDENT_DEVICETYPE) (get16 idbuf ATA_IDENT_CAPABILITIES)
    (get16 idbuf ATA_IDENT_FCS1) (get16 idbuf ATA_IDENT_FCS2) (get16 idbuf ATA_IDENT_FCS3)
    (get16 idbuf ATA_IDENT_FCS4) fcs5 (get16 idbuf ATA_IDENT_FCS6)
    (if negb (Z.land fcs5 ATA_FCS5_BIT_LBA48 =? 0)
     then get32 idbuf ATA_IDENT_MAX_LBA_EXT + 2 ^ 32 * get32 idbuf (ATA_IDENT_MAX_LBA_EXT + 4)
     else get32 idbuf ATA_IDENT_MAX_LBA)
    cp.

Definition absent_drive (drive_index : nat) (cp : ide_channel) (dp : ide_drive) : ide_drive :=
  mk_drive false (Z.of_nat drive_index) (dp_drive dp) (dp_type dp) (dp_serial dp) (dp_firmware dp) (dp_model dp)
    (dp_signature dp) (dp_capabilities dp) (dp_fcs1 dp) (dp_fcs2 dp) (dp_fcs3 dp) (dp_fcs4 dp) (dp_fcs5 dp)
    (dp_fcs6 dp) (dp_sectors dp) cp.

(** The number of blocks is a [uint]. *)
Definition gen_ata_init_drive (drive_index channel : nat) (drive : Z) : M (inst H) unit :=
  s <- get ;;
  match gen_ata_channels s !! channel with
  | None => kpanic "gen_ata_channels: out of bounds"
  | Some cp =>
      on_channels (ata_pio_lock cp) ;;;
      update_drive drive_index (absent_drive drive_index cp) ;;;
      ok <- on_channels (identify cp drive) ;;
      (if (ok : bool) then
         idbuf <- on_channels (
           ata_pio_wait_for_status fuel cp ATA_SR_DRQ 1 ;;;
           ata_pio_register_read_buffer cp ATA_REG_DATA 0 256 ;;;
           ata_pio_poll fuel cp true ;;;
           gets (fun a => read_bytes (at_buf a) 0 512)) ;;
         let dp := analyze drive_index cp drive idbuf in
         update_drive drive_index (fun _ => dp) ;;;
         modify (fun s => iset_devices (<[drive_index := mk_slot true (u32 (dp_sectors dp)) (Some drive_index)]>
           (gen_ata_block_devices s)) s)
       else ret tt) ;;;
      on_channels (ata_pio_unlock cp)
  end.

Definition gen_ata_init_drives : M (inst H) unit :=
  gen_ata_init_channel 0 IDE_PRI_COMMAND IDE_PRI_CONTROL ;;;
  gen_ata_init_channel 1 IDE_SEC_COMMAND IDE_SEC_CONTROL ;;;
  gen_ata_init_drive 0 0 0 ;;;
  gen_ata_init_drive 1 0 1 ;;;
  gen_ata_init_drive 2 1 0 ;;;
  gen_ata_init_drive 3 1 1.

(** ** Installation *)

Definition on_driver {A} (m : M (inst H) A) : M (pci (inst H)) A := zoom pc_dev pset_dev m.

Definition gen_ata_pci_init (f : nat) : M (pci (inst H)) unit := on_driver gen_ata_init_drives.

Definition gen_ata_pci_driver : pci_driver (inst H) := mk_driver 0 [mk_id 0x8086 0x7010] gen_ata_pci_init.

(** Adding the [i]th device if it is valid. *)
Definition add_device (add : block_dev (gen H) → M (registry (gen H)) unit) (i : nat) : M (inst H) unit :=
  s <- get ;;
  match gen_ata_block_devices s !! i with
  | Some (mk_slot true n (Some d)) =>
      match gen_ata_drives s !! d with
      | Some dp => zoom in_registry iset_registry (add (gen_ata_block_dev fuel (Z.of_nat i) (mk_entry true n dp)))
      | None => ret tt
      end
  | _ => ret tt
  end.

(** [channels] and [drives] are what the heap returns: memory with any contents; [add]
    is [bdev_add]. *)
Definition ata_gen_install (channels : list ide_channel) (drives : list ide_drive)
    (add : block_dev (gen H) → M (registry (gen H)) unit) : M (pci (inst H)) unit :=
  s <- get ;;
  if gen_ata_inserted (pc_dev s) then kpanic "ata_gen_install(): called twice" else
  on_driver (modify (iset_inserted true)) ;;;
  on_driver (modify (iset_channels channels)) ;;;
  on_driver (modify (iset_drives drives)) ;;;
  on_driver (modify (fun s => iset_registry (rset_dev (mk_gen false init_cache (in_ata s)) (in_registry s)) s)) ;;;
  pci_register_driver gen_ata_pci_driver ;;;
  for_up 4 0 (fun i => on_driver (add_device add (Z.to_nat i))).

End init.

(** ** What identification relies on of the drives *)

(** [identity slave] are the identification words of a drive, if there is one; when
    there is none, the alternate status register reads zero ([nobody]). *)
Class AtaIdentify (H : Type) `{Ports H} (cp : ide_channel) `{!AtaChannel H cp} := {
  identity : bool → option (list Z);
  nobody : H → bool;
  identity_words : ∀ d ws, identity d = Some ws → length ws = 256%nat;
  command_identify : ∀ h, ds_busy (view h) = O → ds_data (view h) = [] →
    ∃ h', pio_outb (pio_command cp + ATA_REG_COMMAND) ATA_CMD_IDENTIFY h = Done (tt, h') ∧
      match identity (selected (ds_cur (view h))) with
      | Some ws => nobody h' = false ∧ (ds_busy (view h') ≤ bound)%nat ∧ ds_data (view h') = ws
      | None => nobody h' = true ∧ ds_busy (view h') = O ∧ ds_data (view h') = []
      end;
  wait_nobody : ∀ h t h', ticks_mwait t h = Done (tt, h') → nobody h' = nobody h;
  alt_nobody : ∀ h, nobody h = true → ∃ h', pio_inb (pio_control cp) h = Done (0, h') ∧ view h' = view h;
  alt_busy : ∀ h n, nobody h = false → ds_busy (view h) = S n →
    ∃ v h', pio_inb (pio_control cp) h = Done (v, h') ∧ nobody h' = false ∧
      Z.testbit v 7 = true ∧ Z.testbit v 0 = false ∧
      view h' = mk_drive_state n (ds_cur (view h)) (ds_prev (view h)) (ds_data (view h));
  alt_ready : ∀ h, nobody h = false → ds_busy (view h) = O →
    ∃ v h', pio_inb (pio_control cp) h = Done (v, h') ∧ nobody h' = false ∧
      Z.testbit v 7 = false ∧ Z.testbit v 0 = false ∧
      Z.testbit v 3 = negb (bool_decide (ds_data (view h) = [])) ∧ view h' = view h;
}.

(** ** Lemmas *)

Section identification.
Context {H : Type} `{Ports H} (cp : ide_channel) `{!AtaChannel H cp} `{!AtaIdentify H cp}.
Context (fuel : nat) (Hfuel : (bound < fuel)%nat).

Lemma testbit_nonzero v k : Z.testbit v k = true → (v =? 0) = false.
Proof. intros E. apply Z.eqb_neq. intros ->. by rewrite Z.bits_0 in E. Qed.

(** The channel after an IDENTIFY command: with [nb] no drive answered; [d] is to be
    read. *)
Definition answered (nb : bool) (n : nat) (hl : nat → bool) (d : list Z) (m : mem) (s : ata H) : Prop :=
  chan_any cp n hl d m s ∧ nobody (at_hw s) = nb.

Lemma read_alt_run {Q : Z → ata H → Prop} v h' n hl c p d m s :
  chan cp n hl c p d m s → pio_inb (pio_control cp) (at_hw s) = Done (v, h') →
  Q v (aset_hw h' s) → returns (ata_pio_register_read cp ATA_REG_ALTSTATUS) s Q.
Proof.
  intros C E HQ. unfold ata_pio_register_read, returns.
  rewrite (bind_run _ _ _ _ _ (assert_held_run _ _ _ _ _ _ _ _ C)).
  change (is_ata_command_reg ATA_REG_ALTSTATUS) with false.
  change (is_ata_control_reg ATA_REG_ALTSTATUS) with true. cbv iota.
  replace (pio_control cp + ATA_REG_ALTSTATUS - ATA_CONTROL_REG_BASE) with (pio_control cp)
    by (unfold ATA_REG_ALTSTATUS, ATA_CONTROL_REG_BASE; lia).
  unfold hw, zoom. by rewrite E.
Qed.

(** The status of a drive that answered is not zero. *)
Lemma alt_answered n hl d m s :
  answered false n hl d m s → d ≠ [] →
  returns (ata_pio_register_read cp ATA_REG_ALTSTATUS) s (fun v s' =>
    (v =? 0) = false ∧ Z.land v ATA_SR_ERR = 0 ∧
    match ds_busy (view (at_hw s)) with
    | S k => Z.land v ATA_SR_BSY ≠ 0 ∧ answered false k hl d m s'
    | O => Z.land v ATA_SR_BSY = 0 ∧ Z.land v ATA_SR_DRQ ≠ 0 ∧ answered false 0 hl d m s'
    end).
Proof.
  intros [(c & p & C) Hn] Hd. pose proof C as [Cm Ch Cb Cc Cp Cd Cf].
  destruct (ds_busy (view (at_hw s))) as [|k] eqn:Eb.
  - destruct (alt_ready (at_hw s) Hn Eb) as (v & h' & E & N & B7 & B0 & B3 & V).
    rewrite Cd, bool_decide_eq_false_2 in B3 by done.
    apply (read_alt_run v h' _ _ _ _ _ _ _ C E).
    split; [by apply (testbit_nonzero _ 3)|].
    change ATA_SR_ERR with (2 ^ 0). change ATA_SR_BSY with (2 ^ 7). change ATA_SR_DRQ with (2 ^ 3).
    rewrite !land_pow2, B0, B7, B3 by lia. do 3 (split; [done|]).
    split; [|done]. exists c, p. split; cbn; rewrite ?V; try done. lia.
  - destruct (alt_busy (at_hw s) k Hn Eb) as (v & h' & E & N & B7 & B0 & V).
    apply (read_alt_run v h' _ _ _ _ _ _ _ C E).
    split; [by apply (testbit_nonzero _ 7)|].
    change ATA_SR_ERR with (2 ^ 0). change ATA_SR_BSY with (2 ^ 7).
    rewrite !land_pow2, B0, B7 by lia. do 2 (split; [done|]).
    split; [|done]. exists c, p. split; cbn; rewrite ?V; try done.
Qed.

Lemma identify_loop_run k f hl d m s :
  answered false k hl d m s → (k < f)%nat → d ≠ [] →
  returns (identify_loop f cp) s (fun v s' => Z.land v ATA_SR_ERR = 0 ∧ answered false 0 hl d m s').
Proof.
  revert k s. induction f as [|f IH]; intros k s A Hk Hd; [lia|]. cbn [identify_loop].
  eapply returns_bind; [by apply (alt_answered k)|]. intros v s' (_ & E0 & Q). cbn beta in *.
  rewrite E0. cbn [negb Z.eqb]. destruct (ds_busy (view (at_hw s))) as [|j] eqn:Ej.
  - destruct Q as (E7 & E3 & A'). rewrite E7, (proj2 (Z.eqb_neq _ _) E3). by split.
  - destruct Q as (E7 & A'). rewrite (proj2 (Z.eqb_neq _ _) E7). cbn [andb].
    apply (IH j); [done| |done]. destruct A as [(c & p & [? ? Cb ? ? ? ?]) _]. lia.
Qed.

Lemma select_identify drive :
  drive = 0 ∨ drive = 1 →
  Z.testbit (u8 (Z.lor ATA_SEL_BIT_DEV (Z.shiftl drive 4))) 4 = (drive =? IDE_DRV_SLAVE).
Proof. by intros [->| ->]. Qed.

Lemma mwait_answered t nb n hl d m s :
  answered nb n hl d m s → returns (hw (ticks_mwait t)) s (fun _ s' => answered nb n hl d m s').
Proof.
  intros [(c & p & C) Hn]. destruct (wait_time (at_hw s) t) as (h' & j & E & Hj & V).
  pose proof C as [Cm Ch Cb Cc Cp Cd Cf].
  eapply returns_run; [unfold hw, zoom; by rewrite E|].
  split; [|cbn; by rewrite (wait_nobody _ _ _ E)].
  exists c, p. split; cbn; rewrite ?V; try done. cbn. lia.
Qed.

(** Up to the IDENTIFY command; the drive is the selected one. *)
Lemma command_identify_run hl c p m s :
  chan cp 0 hl c p [] m s →
  returns (ata_pio_register_write cp ATA_REG_COMMAND ATA_CMD_IDENTIFY) s (fun _ s' =>
    match identity (selected c) with
    | Some ws => answered false bound hl ws m s'
    | None => answered true 0 hl [] m s'
    end).
Proof.
  intros C. pose proof C as [Cm Ch Cb Cc Cp Cd Cf].
  destruct (command_identify (at_hw s)) as (h' & E & Q); [by eapply chan_ready|done|]. rewrite Cc in Q.
  unfold ata_pio_register_write, returns.
  rewrite (bind_run _ _ _ _ _ (assert_held_run _ _ _ _ _ _ _ _ C)).
  change (is_ata_command_reg ATA_REG_COMMAND) with true. cbv iota. change (u8 ATA_CMD_IDENTIFY) with ATA_CMD_IDENTIFY.
  unfold hw, zoom. rewrite E. destruct (identity (selected c)) as [ws|]; destruct Q as (N & B & Dt);
    (split; [|done]); eexists _, _; split; cbn; try done. by rewrite B.
Qed.

Lemma identify_run drive hl m s :
  chan_any cp bound hl [] m s → drive = 0 ∨ drive = 1 →
  returns (identify fuel cp drive) s (fun ok s' =>
    match identity (drive =? IDE_DRV_SLAVE) with
    | Some ws => ok = true ∧ chan_any cp 0 hl ws m s'
    | None => ok = false ∧ chan_any cp 0 hl [] m s'
    end).
Proof.
  intros (c & p & C) Hdr. unfold identify.
  eapply returns_bind; [apply (wait_clear cp fuel Hfuel _ _ _ _ _ _ _ _ C); [done|by right]|].
  intros ? s1 C1. cbn beta in *.
  step (write_select_run cp _ _ _ _ _ _ _ C1) as ? s2 C2.
  step (mwait_run cp _ _ _ _ _ _ _ _ C2) as ? s3 C3.
  step (write_control_run cp _ _ _ _ _ _ _ _ C3) as ? s4 C4.
  step (wait_clear cp fuel Hfuel _ _ _ _ _ _ _ _ C4) as ? s5 C5.
  eapply returns_bind; [apply (wait_clear cp fuel Hfuel _ _ _ _ _ _ _ _ C5); [lia|by left]|].
  intros ? s6 C6. cbn beta in *.
  step (command_identify_run _ _ _ _ _ C6) as ? s7 A7.
  unfold selected, upd in A7. rewrite Z.eqb_refl, select_identify in A7 by done.
  destruct (identity (drive =? IDE_DRV_SLAVE)) as [ws|] eqn:Ei.
  - assert (Hws : ws ≠ []) by (apply identity_words in Ei; by intros ->).
    step (mwait_answered _ _ _ _ _ _ _ A7) as ? s8 A8.
    eapply returns_bind; [by apply (alt_answered _ _ _ _ _ A8)|]. intros v s9 (-> & _ & A9). cbn beta in *.
    assert (A9' : answered false bound hl ws m s9).
    { destruct A8 as [(c8 & p8 & [? ? Cb ? ? ? ?]) _].
      destruct (ds_busy (view (at_hw s8))) as [|k]; [destruct A9 as (_ & _ & A9)|destruct A9 as (_ & A9)];
        destruct A9 as [(c9 & p9 & [? ? ? ? ? ? ?]) ?]; (split; [|done]); exists c9, p9; split; try done; lia. }
    eapply returns_bind; [by apply (identify_loop_run _ _ _ _ _ _ A9')|]. intros v2 s10 [E0 [C10 _]].
    cbn beta in *. rewrite E0. cbn. by split.
  - step (mwait_answered _ _ _ _ _ _ _ A7) as ? s8 [(c8 & p8 & C8) N8].
    destruct (alt_nobody (at_hw s8) N8) as (h' & E & V).
    eapply (returns_bind _ _ _ (fun v s' => v = 0 ∧ chan_any cp 0 hl [] m s')).
    + apply (read_alt_run 0 h' _ _ _ _ _ _ _ C8 E). split; [done|].
      destruct C8. exists c8, p8. split; cbn; rewrite ?V; done.
    + intros ? s9 [-> C9]. by apply (returns_run _ _ _ _ _ eq_refl).
Qed.

(** Polling ends, whatever the status says. *)
Lemma poll_any n hl c p m s :
  chan cp n hl c p [] m s → (n ≤ bound)%nat →
  returns (ata_pio_poll fuel cp true) s (fun _ s' => chan cp 0 hl c p [] m s').
Proof.
  intros C Hn. unfold ata_pio_poll, returns.
  rewrite (bind_run _ _ _ _ _ (assert_held_run _ _ _ _ _ _ _ _ C)). fold (returns (A:=Z) (S:=ata H)).
  step (mwait_run cp _ _ _ _ _ _ _ _ C) as ? s1 C1.
  step (wait_clear cp fuel Hfuel _ _ _ _ _ _ _ _ C1) as ? s2 C2.
  step (read_status_run cp _ _ _ _ _ _ _ C2) as v s3 Q.
  rewrite (chan_ready _ _ _ _ _ _ _ C2) in Q. destruct Q as (_ & _ & _ & _ & C3).
  by destruct (_ || _ || _); apply (returns_run _ _ _ _ _ eq_refl).
Qed.

End identification.

Section drives.
Context {H : Type} `{Ports H} (cp : ide_channel) `{!AtaChannel H cp} `{!AtaIdentify H cp}.
Context (fuel : nat) (Hfuel : (bound < fuel)%nat).

(** [s0] with other drives, block devices and channel hardware. *)
Definition shape (s0 : inst H) (drs : list ide_drive) (devs : list bdev_slot) (a : ata H) : inst H :=
  mk_inst (gen_ata_inserted s0) (gen_ata_channels s0) drs devs
    (rset_dev (gset_ata a (r_dev (in_registry s0))) (in_registry s0)).

Lemma shape_id (s : inst H) : s = shape s (gen_ata_drives s) (gen_ata_block_devices s) (in_ata s).
Proof. by destruct s as [? ? ? ? [? ? ? [? ? ?]]]. Qed.

Lemma on_channels_shape {A} (m : M (ata H) A) Q s0 drs devs a :
  returns m a Q →
  returns (on_channels m) (shape s0 drs devs a) (fun v s' => ∃ b, Q v b ∧ s' = shape s0 drs devs b).
Proof.
  intros R. apply returns_inv in R as (v & b & E & HQ). eapply returns_run.
  - unfold on_channels, zoom. cbn [in_ata shape in_registry r_dev rset_dev g_ata gset_ata]. by rewrite E.
  - by exists b.
Qed.

Lemma unlock_chan hl d m s :
  chan_any cp 0 hl d m s → d = [] → returns (ata_pio_unlock cp) s (fun _ s' => channel_idle cp s').
Proof.
  intros (c & p & [Hm Hh Hb _ _ Hd _]) ->. eapply returns_mono.
  - apply unlock_channel; [by rewrite Hh|lia|done].
  - by intros ? s' [? _].
Qed.

(** Reading the identification of a drive that answered. *)
Lemma read_identity_run hl ws m s :
  chan_any cp 0 hl ws m s → length ws = 256%nat →
  returns (ata_pio_wait_for_status fuel cp ATA_SR_DRQ 1 ;;;
           ata_pio_register_read_buffer cp ATA_REG_DATA 0 256 ;;;
           ata_pio_poll fuel cp true ;;;
           gets (fun a => read_bytes (at_buf a) 0 512)) s
    (fun l s' => l = sector_bytes ws ∧ ∃ m', chan_any cp 0 hl [] m' s').
Proof.
  intros (c & p & C) Hl. assert (Hw : ws ≠ []) by (by intros ->).
  step (wait_data cp fuel Hfuel _ _ _ _ _ _ C) as ? s1 C1.
  eapply returns_bind; [apply (read_buffer_run cp fuel Hfuel _ _ _ _ _ _ _ _ C1); by rewrite Hl|].
  intros ? s2 (c2 & p2 & C2). step (poll_any cp fuel Hfuel _ _ _ _ _ _ C2) as ? s3 C3.
  apply (returns_run _ _ _ _ _ eq_refl). split; [|by eexists _, c2, p2].
  rewrite (cn_buf _ _ _ _ _ _ _ _ C3).
  replace 512%nat with (length (sector_bytes ws)) by (by rewrite sector_bytes_length, Hl).
  apply read_write_bytes, byte_list_sector.
Qed.

Lemma init_drive_run (s : inst H) i ch drive :
  gen_ata_channels s !! ch = Some cp → channel_idle cp (in_ata s) → drive = 0 ∨ drive = 1 →
  returns (gen_ata_init_drive fuel i ch drive) s (fun _ s' => ∃ a, channel_idle cp a ∧
    match identity (drive =? IDE_DRV_SLAVE) with
    | Some ws => let dp := analyze i cp drive (sector_bytes ws) in
        s' = shape s (alter (fun _ => dp) i (gen_ata_drives s))
               (<[i := mk_slot true (u32 (dp_sectors dp)) (Some i)]> (gen_ata_block_devices s)) a
    | None => s' = shape s (alter (absent_drive i cp) i (gen_ata_drives s)) (gen_ata_block_devices s) a
    end).
Proof.
  intros Hc Hi Hd. unfold gen_ata_init_drive. unfold returns. unfold bind at 1, get. rewrite Hc.
  pose proof (on_channels_shape _ (fun _ b => b = _) s (gen_ata_drives s) (gen_ata_block_devices s) (in_ata s)
    (returns_run _ _ _ _ _ (lock_channel cp _ Hi) eq_refl)) as L. rewrite <- shape_id in L.
  apply (returns_bind _ _ _ _ _ L). clear L.
  intros ? ? (? & -> & ->). set (a1 := aset_held cp true (in_ata s)).
  assert (C1 : chan_any cp bound (at_held a1) [] (at_buf a1) a1).
  { destruct Hi. eexists _, _. split; cbn; try done. by rewrite Nat.eqb_refl. }
  unfold update_drive at 1. set (drs := alter (absent_drive i cp) i (gen_ata_drives s)).
  set (s1 := shape s drs (gen_ata_block_devices s) a1).
  eapply (returns_bind _ _ _ (fun _ s' => s' = s1)); [by apply (returns_run _ _ _ _ _ eq_refl)|]. intros ? ? ->.
  eapply returns_bind; [apply on_channels_shape, (identify_run cp fuel Hfuel drive _ _ _ C1 Hd)|].
  intros ok ? (a2 & Q & ->). destruct (identity (drive =? IDE_DRV_SLAVE)) as [ws|] eqn:Ei.
  - destruct Q as [-> C2]. set (dp := analyze i cp drive (sector_bytes ws)).
    set (devs := <[i := mk_slot true (u32 (dp_sectors dp)) (Some i)]> (gen_ata_block_devices s)).
    eapply (returns_bind _ _ _ (fun _ s' => ∃ a m, chan_any cp 0 (at_held a1) [] m a ∧
      s' = shape s (alter (fun _ => dp) i (gen_ata_drives s)) devs a)).
    + eapply returns_bind.
      { apply on_channels_shape, (read_identity_run _ _ _ _ C2). by eapply identity_words. }
      intros l ? (a3 & (-> & m3 & C3) & ->). cbn zeta. fold dp.
      unfold update_drive, modify, returns, bind. exists a3, m3. split; [done|].
      unfold shape, iset_devices, iset_drives, drs. cbn. by rewrite list_alter_alter_eq.
    + intros ? ? (a3 & m3 & C3 & ->). eapply returns_mono; [by apply on_channels_shape, (unlock_chan _ _ _ _ C3)|].
      intros ? ? (x & Hx & ->). by exists x.
  - destruct Q as [-> C2]. eapply (returns_bind _ _ _ (fun _ s' => s' = shape s drs (gen_ata_block_devices s) a2)).
    { by apply (returns_run _ _ _ _ _ eq_refl). }
    intros ? ? ->. eapply returns_mono; [by apply on_channels_shape, (unlock_chan _ _ _ _ C2)|].
    intros ? ? (x & Hx & ->). by exists x.
Qed.

End drives.

(** Probing a drive terminates.  When the drive identifies itself, its description
    and its block device are filled in from the identification words (size in sectors
    taken from the 48-bit field when the drive supports 48-bit addresses, and cut to
    32 bits for the block device); when there is no drive, it is marked absent and no
    block device becomes valid.  In both cases the channel is free afterwards, and
    the other drives, the other block devices, the block registry and the cache are
    as before. *)
Theorem init_drive_identifies {H : Type} `{Ports H} (cp : ide_channel) `{!AtaChannel H cp, !AtaIdentify H cp}
    (fuel : nat) (s : inst H) (i ch : nat) (drive : Z) (dp0 : ide_drive) :
  (bound < fuel)%nat → gen_ata_channels s !! ch = Some cp → channel_idle cp (in_ata s) →
  drive = 0 ∨ drive = 1 → gen_ata_drives s !! i = Some dp0 → (i < length (gen_ata_block_devices s))%nat →
  ∃ s', gen_ata_init_drive fuel i ch drive s = Done (tt, s') ∧ channel_idle cp (in_ata s') ∧
    match identity (drive =? IDE_DRV_SLAVE) with
    | Some ws => let dp := analyze i cp drive (sector_bytes ws) in
        gen_ata_drives s' !! i = Some dp ∧
        gen_ata_block_devices s' !! i = Some (mk_slot true (u32 (dp_sectors dp)) (Some i))
    | None => (∃ dp, gen_ata_drives s' !! i = Some dp ∧ dp_present dp = false) ∧
        gen_ata_block_devices s' !! i = gen_ata_block_devices s !! i
    end ∧
    (∀ j, j ≠ i → gen_ata_drives s' !! j = gen_ata_drives s !! j ∧
                  gen_ata_block_devices s' !! j = gen_ata_block_devices s !! j) ∧
    block_devices (in_registry s') = block_devices (in_registry s) ∧
    c_blocks (r_dev (in_registry s')) = c_blocks (r_dev (in_registry s)).
Proof.
  intros Hf Hc Hi Hd Hdp Hl.
  destruct (returns_inv _ _ _ (init_drive_run cp fuel Hf s i ch drive Hc Hi Hd)) as ([] & s' & E & a & Ha & Q).
  exists s'. split; [done|].
  destruct (identity (drive =? IDE_DRV_SLAVE)) as [ws|]; cbn zeta in Q; subst s'; cbn; (split; [done|]);
    (split; [|split; [|done]]).
  - by rewrite list_lookup_alter_eq, Hdp, list_lookup_insert_eq.
  - intros j Hj. by rewrite list_lookup_alter_ne, list_lookup_insert_ne.
  - split; [|done]. rewrite list_lookup_alter_eq, Hdp. by eexists.
  - intros j Hj. by rewrite list_lookup_alter_ne.
Qed.

#[global] Instance toy_identify : AtaIdentify drive_state Toy.cp.
Proof.
  refine {| identity := fun slave => if slave then None else Some Toy.ident; nobody := Toy.absent |}.
  - intros [] ws E; [done|]. by injection E as <-.
  - intros h _ _. exists (Toy.set_absent (selected (ds_cur h)) h). split; [done|].
    cbn [view Toy.channel]. destruct (selected (ds_cur h)); cbv [Toy.absent Toy.set_absent upd]; cbn [ds_cur ds_busy ds_data].
    + done.
    + split; [done|]. split; [cbn; lia|done].
  - intros h t h' [= <-]. done.
  - intros h E. exists h. cbn. unfold Toy.inb. cbn. by rewrite E.
  - intros h n E Eb. cbn in Eb |- *. unfold Toy.inb. cbn. rewrite E. unfold Toy.status. rewrite Eb.
    exists 0x80, (Toy.set_busy n h). done.
  - intros h E Eb. cbn in Eb |- *. unfold Toy.inb. cbn. rewrite E. unfold Toy.status. rewrite Eb. eexists _, h.
    split; [done|]. split; [done|]. by case_bool_decide.
Defined.

(** A machine with the master drive of [Toy] on its first channel. *)
Definition toy_inst : inst drive_state :=
  mk_inst true [Toy.cp] (replicate 4 (absent_drive 0 Toy.cp Toy.drive)) (replicate 4 (mk_slot false 0 None))
    (mk_registry true false [] (mk_gen false init_cache (mk_ata (fun _ => false) Toy.idle (fun _ => 0)))).

Lemma init_drive_identifies_witness :
  ∃ s' dp, gen_ata_init_drive 2 0 0 0 toy_inst = Done (tt, s') ∧ gen_ata_drives s' !! 0%nat = Some dp ∧
    dp_present dp = true ∧ dp_sectors dp = 1000 ∧ take 4 (dp_model dp) = chars "yaos".
Proof.
  destruct (init_drive_identifies Toy.cp 2 toy_inst 0 0 0 (absent_drive 0 Toy.cp Toy.drive))
    as (s' & E & _ & [Hd _] & _).
  - cbn. lia.
  - reflexivity.
  - split; [reflexivity|cbn; lia|reflexivity].
  - by left.
  - reflexivity.
  - cbn. lia.
  - exists s'. eexists. split; [exact E|]. split; [exact Hd|]. vm_compute. repeat split.
Defined.
