(* ===== verification/Vfs.v ===== *)
(** * kernel/vfs.h, vfs/core.c, vfs/file.c, vfs/file_ops.c: the virtual filesystem

    A mounted filesystem and its nodes are records of operations over a state [W] of
    their own, as in vfs.h; the virtual filesystem keeps the mount list and the open
    files.  Strings are the lists of their characters; [kstrcmp_string] is the
    comparison of [KUtils] on them.  File objects are numbered in the order they are
    allocated.  Mutexes are seen by the calling thread: held by it or free.  [is_file]
    is what a node that holds a file promises; reading and seeking are shown to be
    those of a sequence of bytes with a position. *)

From stdpp Require Import base list sets gmap strings.
From Stdlib Require Import ZArith Lia.
From S2P Require Import Prelude Memory KUtils BlockDev.

Definition VFS_SEPARATOR : Z := 47.
Definition VFS_NODE_FILE : Z := 1.
Definition VFS_NODE_DIRECTORY : Z := 2.
Definition VFS_NODE_DEVICE : Z := 3.
Definition VFS_NODE_BIT_READABLE : Z := 2.
Definition VFS_NODE_BIT_WRITEABLE : Z := 4.
Definition SEEK_SET : Z := 1.
Definition SEEK_CUR : Z := 2.
Definition SEEK_END : Z := 3.

Definition s64 (x : Z) : Z := let y := u64 x in if y <? 2 ^ 63 then y else y - 2 ^ 64.

(** [kstrcmp] on strings, by [KUtils.kstrcmp_decides_prefix]. *)
Definition kstrcmp_string (p1 p2 : list Z) : bool := bool_decide (p1 `prefix_of` p2).

(** A node: the operations the virtual filesystem calls.  [vn_read off num] returns the
    result and the bytes stored at the caller's buffer; [vn_put] is its filesystem's
    [put] of it. *)
Record vfs_node (W : Type) := mk_node {
  vn_type : Z;
  vn_flags : Z;
  vn_index : Z;
  vn_lock : M W unit;
  vn_unlock : M W unit;
  vn_get_name : M W (list Z);
  vn_get_size : M W Z;
  vn_read : Z → Z → M W (Z * list Z);
  vn_write : list Z → Z → M W Z;
  vn_get_num_leaves : M W Z;
  vn_get_leaf : Z → M W Z;
  vn_put : M W unit;
}.
Arguments mk_node {W}.
Arguments vn_type {W}.
Arguments vn_flags {W}.
Arguments vn_index {W}.
Arguments vn_lock {W}.
Arguments vn_unlock {W}.
Arguments vn_get_name {W}.
Arguments vn_get_size {W}.
Arguments vn_read {W}.
Arguments vn_write {W}.
Arguments vn_get_num_leaves {W}.
Arguments vn_get_leaf {W}.
Arguments vn_put {W}.

Record vfs_super (W : Type) := mk_super {
  vs_get_root : M W (option (vfs_node W));
  vs_get_by_index : Z → M W (option (vfs_node W));
  vs_get_by_path : list Z → M W (option (vfs_node W));
}.
Arguments mk_super {W}.
Arguments vs_get_root {W}.
Arguments vs_get_by_index {W}.
Arguments vs_get_by_path {W}.

Record file (W : Type) := mk_file { f_node : vfs_node W; f_ref : Z; f_offset : Z }.
Arguments mk_file {W}.
Arguments f_node {W}.
Arguments f_ref {W}.
Arguments f_offset {W}.

Record vfs (W : Type) := mk_vfs {
  vfs_mount_mutex : bool;
  vfs_mounts : list (list Z * vfs_super W);
  vfs_file_list_mutex : bool;
  vfs_file_list : list nat;
  v_files : gmap nat (file W);
  v_next : nat;
  v_world : W;
}.
Arguments mk_vfs {W}.
Arguments vfs_mount_mutex {W}.
Arguments vfs_mounts {W}.
Arguments vfs_file_list_mutex {W}.
Arguments vfs_file_list {W}.
Arguments v_files {W}.
Arguments v_next {W}.
Arguments v_world {W}.

Section vfs.
Context {W : Type}.

Definition vset_mount_mutex (b : bool) (s : vfs W) : vfs W :=
  mk_vfs b (vfs_mounts s) (vfs_file_list_mutex s) (vfs_file_list s) (v_files s) (v_next s) (v_world s).
Definition vset_mounts (l : list (list Z * vfs_super W)) (s : vfs W) : vfs W :=
  mk_vfs (vfs_mount_mutex s) l (vfs_file_list_mutex s) (vfs_file_list s) (v_files s) (v_next s) (v_world s).
Definition vset_file_mutex (b : bool) (s : vfs W) : vfs W :=
  mk_vfs (vfs_mount_mutex s) (vfs_mounts s) b (vfs_file_list s) (v_files s) (v_next s) (v_world s).
Definition vset_file_list (l : list nat) (s : vfs W) : vfs W :=
  mk_vfs (vfs_mount_mutex s) (vfs_mounts s) (vfs_file_list_mutex s) l (v_files s) (v_next s) (v_world s).
Definition vset_files (fs : gmap nat (file W)) (s : vfs W) : vfs W :=
  mk_vfs (vfs_mount_mutex s) (vfs_mounts s) (vfs_file_list_mutex s) (vfs_file_list s) fs (v_next s) (v_world s).
Definition vset_next (n : nat) (s : vfs W) : vfs W :=
  mk_vfs (vfs_mount_mutex s) (vfs_mounts s) (vfs_file_list_mutex s) (vfs_file_list s) (v_files s) n (v_world s).
Definition vset_world (w : W) (s : vfs W) : vfs W :=
  mk_vfs (vfs_mount_mutex s) (vfs_mounts s) (vfs_file_list_mutex s) (vfs_file_list s) (v_files s) (v_next s) w.

Definition on_world {A} (m : M W A) : M (vfs W) A := zoom v_world vset_world m.

Definition mount_lock : M (vfs W) unit :=
  s <- get ;;
  if vfs_mount_mutex s then kpanic "thread_mutex_acquire(): on held lock" else modify (vset_mount_mutex true).
Definition mount_unlock : M (vfs W) unit :=
  s <- get ;;
  if vfs_mount_mutex s then modify (vset_mount_mutex false)
  else kpanic "thread_mutex_release(): called on an unheld mutex".
Definition file_lock : M (vfs W) unit :=
  s <- get ;;
  if vfs_file_list_mutex s then kpanic "thread_mutex_acquire(): on held lock" else modify (vset_file_mutex true).
Definition file_unlock : M (vfs W) unit :=
  s <- get ;;
  if vfs_file_list_mutex s then modify (vset_file_mutex false)
  else kpanic "thread_mutex_release(): called on an unheld mutex".

(** ** core.c *)

Definition vfs_file_init : M (vfs W) unit :=
  modify (vset_file_mutex false) ;;; modify (vset_file_list []).

Definition vfs_init : M (vfs W) unit :=
  modify (vset_mount_mutex false) ;;; vfs_file_init.

(** [path[kstrlen(path) - 1]]; [before] is the byte in front of the string. *)
Definition last_byte (before : Z) (path : list Z) : Z := List.last path before.

Definition vfs_mount (before : Z) (path : list Z) (super_node : vfs_super W) : M (vfs W) unit :=
  let path := if kstrcmp_string path [VFS_SEPARATOR] then [] else path in
  if last_byte before path =? VFS_SEPARATOR then kpanic "vfs_mount(): path must not end with /" else
  mount_lock ;;;
  s <- get ;;
  if existsb (fun m => kstrcmp_string path (fst m)) (vfs_mounts s)
  then kpanic "vfs_mount(): mount point occupied"
  else
    modify (vset_mounts ((path, super_node) :: vfs_mounts s)) ;;;
    mount_unlock.

Definition vfs_umount (path : list Z) : M (vfs W) (vfs_super W) := kpanic "vfs_umount(): not implemented".

(** What [vfs_get] asks of the mount it stops at: its root, or a node by the rest of
    the path. *)
Inductive request := Root | Path (p : list Z).

Definition mount_request (path mount_path : list Z) : option request :=
  let min_len := Nat.min (length mount_path) (length path) in
  if bool_decide (take min_len path = take min_len mount_path) then
    match path !! min_len with
    | None => Some Root
    | Some c => if c =? VFS_SEPARATOR then Some (Path (drop min_len path)) else None
    end
  else None.

Definition ask (sup : vfs_super W) (r : request) : M W (option (vfs_node W)) :=
  match r with Root => vs_get_root sup | Path p => vs_get_by_path sup p end.

Fixpoint get_loop (mounts : list (list Z * vfs_super W)) (path : list Z) : M (vfs W) (option (vfs_node W)) :=
  match mounts with
  | [] => ret None
  | (mount_path, sup) :: mounts' =>
      match mount_request path mount_path with
      | Some r => on_world (ask sup r)
      | None => get_loop mounts' path
      end
  end.

Definition vfs_get (path : list Z) : M (vfs W) (option (vfs_node W)) :=
  mount_lock ;;;
  s <- get ;;
  node <- get_loop (vfs_mounts s) path ;;
  mount_unlock ;;;
  ret node.

Definition vfs_put (node : vfs_node W) : M (vfs W) unit := on_world (vn_put node).

(** ** file.c *)

Definition vfs_open (path : list Z) : M (vfs W) (option nat) :=
  node <- vfs_get path ;;
  match node with
  | None => ret None
  | Some node =>
      file_lock ;;;
      s <- get ;;
      let f := v_next s in
      modify (fun s => vset_next (S f) (vset_files (<[f := mk_file node 1 0]> (v_files s)) s)) ;;;
      modify (fun s => vset_file_list (f :: vfs_file_list s) s) ;;;
      file_unlock ;;;
      ret (Some f)
  end.

(** The file object at [f]; a freed one is not accessed by a correct client. *)
Definition get_file (f : nat) : M (vfs W) (file W) :=
  s <- get ;; match v_files s !! f with Some x => ret x | None => kpanic "file: use after free" end.
Definition update_file (f : nat) (g : file W → file W) : M (vfs W) unit :=
  modify (fun s => vset_files (alter g f (v_files s)) s).

Definition set_ref (r : Z) (x : file W) : file W := mk_file (f_node x) r (f_offset x).
Definition set_offset (o : Z) (x : file W) : file W := mk_file (f_node x) (f_ref x) o.

Definition vfs_file_dup (f : option nat) : M (vfs W) (option nat) :=
  match f with
  | None => kpanic "vfs_file_dup(): attempt to dup NULL file"
  | Some f =>
      x <- get_file f ;;
      on_world (vn_lock (f_node x)) ;;;
      update_file f (fun x => set_ref (u32 (f_ref x + 1)) x) ;;;
      on_world (vn_unlock (f_node x)) ;;;
      ret (Some f)
  end.

Definition vfs_close (f : option nat) : M (vfs W) unit :=
  match f with
  | None => kpanic "vfs_close(): attempt to close NULL file"
  | Some f =>
      x <- get_file f ;;
      on_world (vn_lock (f_node x)) ;;;
      update_file f (fun x => set_ref (u32 (f_ref x - 1)) x) ;;;
      y <- get_file f ;;
      on_world (vn_unlock (f_node x)) ;;;
      if f_ref y =? 0 then
        file_lock ;;;
        modify (fun s => vset_file_list (filter (fun g => g ≠ f) (vfs_file_list s)) s) ;;;
        file_unlock ;;;
        vfs_put (f_node x) ;;;
        modify (fun s => vset_files (delete f (v_files s)) s)
      else ret tt
  end.

(** ** file_ops.c *)

Definition vfs_file_read (f : nat) (num : Z) : M (vfs W) (Z * list Z) :=
  if num <=? 0 then ret (0, []) else
  x <- get_file f ;;
  on_world (vn_lock (f_node x)) ;;;
  size <- on_world (vn_get_size (f_node x)) ;;
  r <- (if f_offset x >=? size then ret (0, []) else
        r <- on_world (vn_read (f_node x) (u32 (f_offset x)) num) ;;
        update_file f (fun x => set_offset (s64 (f_offset x + fst r)) x) ;;;
        ret r) ;;
  on_world (vn_unlock (f_node x)) ;;;
  ret r.

Definition vfs_file_write (f : nat) (buf : list Z) (num : Z) : M (vfs W) Z :=
  if num <=? 0 then ret 0 else
  x <- get_file f ;;
  on_world (vn_lock (f_node x)) ;;;
  r <- on_world (vn_write (f_node x) (take (Z.to_nat num) buf) (u32 (f_offset x))) ;;
  update_file f (fun x => set_offset (s64 (f_offset x + r)) x) ;;;
  on_world (vn_unlock (f_node x)) ;;;
  ret r.

Definition vfs_file_seek (f : nat) (offset whence : Z) : M (vfs W) Z :=
  x <- get_file f ;;
  on_world (vn_lock (f_node x)) ;;;
  (if whence =? SEEK_SET then update_file f (set_offset offset)
   else if whence =? SEEK_CUR then update_file f (fun x => set_offset (s64 (f_offset x + offset)) x)
   else if whence =? SEEK_END then
     size <- on_world (vn_get_size (f_node x)) ;;
     update_file f (set_offset (s64 (size + offset)))
   else ret tt) ;;;
  y <- get_file f ;;
  on_world (vn_unlock (f_node x)) ;;;
  ret (f_offset y).

End vfs.

(** ** Lemmas *)

Section mounts.
Context {W : Type}.

(** The mount [vfs_get] stops at. *)
Fixpoint first_request (mounts : list (list Z * vfs_super W)) (path : list Z) : option (vfs_super W * request) :=
  match mounts with
  | [] => None
  | (mount_path, sup) :: mounts' =>
      match mount_request path mount_path with
      | Some r => Some (sup, r)
      | None => first_request mounts' path
      end
  end.

(** The filesystem's answer, as the result of [vfs_get]. *)
Definition answer (q : option (vfs_super W * request)) (s : vfs W) : outcome (option (vfs_node W) * vfs W) :=
  match q with
  | None => Done (None, s)
  | Some (sup, r) =>
      match ask sup r (v_world s) with
      | Done (n, w) => Done (n, vset_world w s)
      | Panic e => Panic e
      | Hang => Hang
      end
  end.

Lemma mount_lock_run (s : vfs W) : vfs_mount_mutex s = false → mount_lock s = Done (tt, vset_mount_mutex true s).
Proof. intros E. unfold mount_lock, bind, get. by rewrite E. Qed.

Lemma get_loop_run l path (s : vfs W) : get_loop l path s = answer (first_request l path) s.
Proof.
  induction l as [|[mp sup] l IH]; [done|]. cbn. by destruct (mount_request path mp).
Qed.

Lemma vfs_get_run path (s : vfs W) :
  vfs_mount_mutex s = false → vfs_get path s = answer (first_request (vfs_mounts s) path) s.
Proof.
  intros E. unfold vfs_get. rewrite (bind_run _ _ _ _ _ (mount_lock_run s E)).
  unfold bind at 1, get. cbn [vset_mount_mutex vfs_mounts]. unfold bind. rewrite get_loop_run.
  unfold answer. destruct (first_request (vfs_mounts s) path) as [[sup r]|]; cbn.
  - destruct (ask sup r (v_world s)) as [[n w]| |]; try done. by destruct s; cbn in *; subst.
  - by destruct s; cbn in *; subst.
Qed.

(** When a mount answers for a path: the path continues the mount point with a
    separator, or is the mount point or a beginning of it. *)
Lemma mount_request_spec path mp :
  mount_request path mp =
    if bool_decide (path `prefix_of` mp) then Some Root
    else if bool_decide ((mp ++ [VFS_SEPARATOR]) `prefix_of` path) then Some (Path (drop (length mp) path))
    else None.
Proof.
  unfold mount_request. destruct (decide (path `prefix_of` mp)) as [Hp|Hp].
  - rewrite (bool_decide_eq_true_2 _ Hp). destruct Hp as [k ->]. rewrite length_app, Nat.min_r by lia.
    rewrite take_app_length, take_ge, bool_decide_eq_true_2 by done. by rewrite lookup_ge_None_2.
  - rewrite (bool_decide_eq_false_2 _ Hp). destruct (decide (length path ≤ length mp)%nat) as [Hl|Hl].
    + rewrite Nat.min_r, bool_decide_eq_false_2; [|intros E; apply Hp|lia].
      * rewrite bool_decide_eq_false_2; [done|]. intros Q. apply prefix_length in Q.
        rewrite length_app in Q. cbn in Q. lia.
      * exists (drop (length path) mp). rewrite (take_ge path) in E by done. rewrite E at 1. by rewrite take_drop.
    + rewrite Nat.min_l, (take_ge mp) by lia.
      destruct (lookup_lt_is_Some_2 path (length mp)) as [c Ec]; [lia|]. rewrite Ec.
      destruct (decide (take (length mp) path = mp)) as [Ht|Ht].
      * rewrite (bool_decide_eq_true_2 _ Ht). destruct (Z.eqb_spec c VFS_SEPARATOR) as [->|Hc].
        { rewrite bool_decide_eq_true_2; [done|]. exists (drop (S (length mp)) path).
          rewrite <- app_assoc. cbn. rewrite <- (drop_S path _ _ Ec). rewrite <- Ht at 1. by rewrite take_drop. }
        { rewrite bool_decide_eq_false_2; [done|]. intros [k ->]. rewrite <- app_assoc in Ec.
          rewrite lookup_app_r, Nat.sub_diag in Ec by lia. cbn in Ec. by injection Ec as <-. }
      * rewrite (bool_decide_eq_false_2 _ Ht). rewrite bool_decide_eq_false_2; [done|]. intros [k ->]. apply Ht.
        rewrite <- app_assoc. by rewrite take_app_length.
Qed.

Lemma vfs_mount_run before path sup (s : vfs W) :
  vfs_mount_mutex s = false → path ≠ [] → List.last path before ≠ VFS_SEPARATOR →
  Forall (fun m => ¬ path `prefix_of` fst m) (vfs_mounts s) →
  vfs_mount before path sup s = Done (tt, vset_mounts ((path, sup) :: vfs_mounts s) s).
Proof.
  intros E Hn Hl Hm. unfold vfs_mount.
  assert (Hr : kstrcmp_string path [VFS_SEPARATOR] = false).
  { apply bool_decide_eq_false_2. intros [k Ek]. destruct path as [|c path]; [done|].
    injection Ek as <- Ek. destruct path; [|done]. done. }
  rewrite Hr. cbn zeta. unfold last_byte. rewrite (proj2 (Z.eqb_neq _ _) Hl).
  rewrite (bind_run _ _ _ _ _ (mount_lock_run s E)). unfold bind at 1, get. cbn [vset_mount_mutex vfs_mounts].
  assert (Hx : existsb (fun m => kstrcmp_string path (fst m)) (vfs_mounts s) = false).
  { apply not_true_iff_false. intros Q. apply existsb_exists in Q as (m & Hin & Q).
    apply bool_decide_eq_true in Q. rewrite Forall_forall in Hm. apply (Hm m); [|done].
    by apply list_elem_of_In. }
  rewrite Hx. by destruct s; cbn in *; subst.
Qed.

End mounts.

(** ** Files *)

Lemma s64_small x : - 2 ^ 63 ≤ x < 2 ^ 63 → s64 x = x.
Proof.
  intros Hx. unfold s64, u64. destruct (Z.le_gt_cases 0 x) as [P|P].
  - rewrite Z.mod_small by lia. by rewrite (proj2 (Z.ltb_lt _ _)) by lia.
  - replace (x mod 2 ^ 64) with (x + 2 ^ 64) by (apply (Z.mod_unique _ _ (-1)); lia).
    rewrite (proj2 (Z.ltb_ge _ _)) by lia. lia.
Qed.

(** What the node of a file with the given contents promises: [I] holds between the
    operations, [L] while the node is locked. *)
Record is_file {W} (node : vfs_node W) (I L : W → Prop) (contents : list Z) : Prop := {
  if_small : Z.of_nat (length contents) < 2 ^ 31;
  if_lock : ∀ w, I w → returns (vn_lock node) w (fun _ w' => L w');
  if_unlock : ∀ w, L w → returns (vn_unlock node) w (fun _ w' => I w');
  if_size : ∀ w, L w → returns (vn_get_size node) w (fun n w' => n = Z.of_nat (length contents) ∧ L w');
  if_read : ∀ w off num, L w → 0 ≤ off < Z.of_nat (length contents) → 0 < num < 2 ^ 31 →
    returns (vn_read node off num) w (fun r w' =>
      r = (Z.of_nat (length (slice off num contents)), slice off num contents) ∧ L w');
}.

Inductive fop := Read (num : Z) | Seek (offset whence : Z).

(** A sequence of bytes with a position; a count is an [int], and a seek must not leave
    the range of positions. *)
Definition abs_op (contents : list Z) (pos : Z) (op : fop) : option (Z * (Z * list Z)) :=
  let size := Z.of_nat (length contents) in
  match op with
  | Read num =>
      if 2 ^ 31 <=? num then None
      else if (num <=? 0) || (pos >=? size) then Some (pos, (0, []))
      else let l := slice pos num contents in Some (pos + Z.of_nat (length l), (Z.of_nat (length l), l))
  | Seek off whence =>
      let new := if whence =? SEEK_SET then off else if whence =? SEEK_CUR then pos + off
                 else if whence =? SEEK_END then size + off else pos in
      if (0 <=? new) && (new <? 2 ^ 63) then Some (new, (new, [])) else None
  end.

Fixpoint abs_run (contents : list Z) (pos : Z) (ops : list fop) : option (Z * list (Z * list Z)) :=
  match ops with
  | [] => Some (pos, [])
  | op :: ops' =>
      '(pos1, r) ← abs_op contents pos op;
      '(pos2, rs) ← abs_run contents pos1 ops';
      Some (pos2, r :: rs)
  end.

Section files.
Context {W : Type}.

Definition run_op (f : nat) (op : fop) : M (vfs W) (Z * list Z) :=
  match op with
  | Read num => vfs_file_read f num
  | Seek off whence => r <- vfs_file_seek f off whence ;; ret (r, [])
  end.

Fixpoint run_ops (f : nat) (ops : list fop) : M (vfs W) (list (Z * list Z)) :=
  match ops with
  | [] => ret []
  | op :: ops' => r <- run_op f op ;; rs <- run_ops f ops' ;; ret (r :: rs)
  end.

Context (node : vfs_node W) (I L : W → Prop) (contents : list Z) (Hnode : is_file node I L contents).

(** The virtual filesystem [s0] except for the world and the position of file [f]. *)
Record at_pos (s0 : vfs W) (f : nat) (ref pos : Z) (P : W → Prop) (s : vfs W) : Prop := {
  ap_state : ∃ w, P w ∧ s = vset_world w (vset_files (<[f := mk_file node ref pos]> (v_files s0)) s0);
}.

Lemma get_file_at s0 f ref pos P s :
  at_pos s0 f ref pos P s → get_file f s = Done (mk_file node ref pos, s).
Proof. intros [(w & _ & ->)]. unfold get_file, bind, get. cbn. by rewrite lookup_insert_eq. Qed.

Lemma update_file_at s0 f ref pos P s g ref' pos' :
  at_pos s0 f ref pos P s → g (mk_file node ref pos) = mk_file node ref' pos' →
  returns (update_file f g) s (fun _ s' => at_pos s0 f ref' pos' P s').
Proof.
  intros [(w & Hw & ->)] Hg. apply (returns_run _ _ _ _ _ eq_refl). split. exists w. split; [done|].
  unfold vset_files, vset_world. cbn. by rewrite alter_insert_eq, Hg.
Qed.

Lemma on_world_at {A} (m : M W A) s0 f ref pos (P Q : W → Prop) (v : A) s :
  at_pos s0 f ref pos P s → (∀ w, P w → returns m w (fun a w' => a = v ∧ Q w')) →
  returns (on_world m) s (fun a s' => a = v ∧ at_pos s0 f ref pos Q s').
Proof.
  intros [(w & Hw & ->)] Hm. destruct (returns_inv _ _ _ (Hm w Hw)) as (a & w' & E & -> & Hw').
  eapply returns_run; [unfold on_world, zoom; cbn; by rewrite E|]. split; [done|]. split. by exists w'.
Qed.

Lemma lock_at s0 f ref pos s :
  at_pos s0 f ref pos I s → returns (on_world (vn_lock node)) s (fun _ s' => at_pos s0 f ref pos L s').
Proof.
  intros A. eapply returns_mono; [apply (on_world_at _ _ _ _ _ _ L tt _ A)|by intros ? ? [_ ?]].
  intros w Hw. eapply returns_mono; [by apply (if_lock _ _ _ _ Hnode)|]. by intros [] ? ?.
Qed.

Lemma unlock_at s0 f ref pos s :
  at_pos s0 f ref pos L s → returns (on_world (vn_unlock node)) s (fun _ s' => at_pos s0 f ref pos I s').
Proof.
  intros A. eapply returns_mono; [apply (on_world_at _ _ _ _ _ _ I tt _ A)|by intros ? ? [_ ?]].
  intros w Hw. eapply returns_mono; [by apply (if_unlock _ _ _ _ Hnode)|]. by intros [] ? ?.
Qed.

Lemma read_at s0 f ref pos num s pos' r :
  at_pos s0 f ref pos I s → 0 ≤ pos < 2 ^ 63 → abs_op contents pos (Read num) = Some (pos', r) →
  returns (vfs_file_read f num) s (fun x s' => x = r ∧ at_pos s0 f ref pos' I s' ∧ 0 ≤ pos' < 2 ^ 63).
Proof.
  intros A Hp. cbn [abs_op]. destruct (Z.leb_spec (2 ^ 31) num) as [|Hint]; [done|].
  unfold vfs_file_read. destruct (Z.leb_spec num 0) as [Hn|Hn]; cbn [orb].
  { intros [= <- <-]. by apply (returns_run _ _ _ _ _ eq_refl). }
  pose proof (if_small _ _ _ _ Hnode) as Hs.
  intros E. unfold returns. rewrite (bind_run _ _ _ _ _ (get_file_at _ _ _ _ _ _ A)). cbn [f_node f_offset].
  step (lock_at _ _ _ _ _ A) as ? s1 A1.
  step (on_world_at _ _ _ _ _ _ _ _ _ A1 (if_size _ _ _ _ Hnode)) as ? s2 [-> A2].
  rewrite Z.geb_leb in *. destruct (Z.leb_spec (Z.of_nat (length contents)) pos) as [Hge|Hlt].
  - injection E as <- <-. unfold returns, bind at 1, ret. step (unlock_at _ _ _ _ _ A2) as ? s3 A3.
    by apply (returns_run _ _ _ _ _ eq_refl).
  - injection E as <- <-. set (l := slice pos num contents).
    assert (Hl : Z.of_nat (length l) ≤ Z.of_nat (length contents)).
    { unfold l, slice. rewrite length_take, length_drop. lia. }
    eapply (returns_bind _ _ _ (fun x s' => x = (Z.of_nat (length l), l) ∧
      at_pos s0 f ref (pos + Z.of_nat (length l)) L s')).
    + rewrite u32_small by lia. eapply returns_bind.
      { apply (on_world_at _ _ _ _ _ _ L (Z.of_nat (length l), l) _ A2).
        intros w Hw. apply (if_read _ _ _ _ Hnode); [done|lia|done]. }
      intros ? s3 [-> A3]. cbn [fst].
      eapply returns_bind; [apply (update_file_at _ _ _ _ _ _ _ ref (pos + Z.of_nat (length l)) A3)|].
      { unfold set_offset. cbn. by rewrite s64_small by lia. }
      intros ? s4 A4. by apply (returns_run _ _ _ _ _ eq_refl).
    + intros ? s3 [-> A3]. step (unlock_at _ _ _ _ _ A3) as ? s4 A4.
      apply (returns_run _ _ _ _ _ eq_refl). split; [done|]. split; [done|]. lia.
Qed.

Lemma seek_at s0 f ref pos off whence s pos' r :
  at_pos s0 f ref pos I s → 0 ≤ pos < 2 ^ 63 → abs_op contents pos (Seek off whence) = Some (pos', r) →
  returns (run_op f (Seek off whence)) s (fun x s' => x = r ∧ at_pos s0 f ref pos' I s' ∧ 0 ≤ pos' < 2 ^ 63).
Proof.
  intros A Hp E. cbn [abs_op] in E. set (new := if whence =? SEEK_SET then _ else _) in E.
  destruct ((0 <=? new) && (new <? 2 ^ 63)) eqn:Hr; [|done]. zbool. injection E as <- <-.
  cbn [run_op]. eapply (returns_bind _ _ _ (fun x s' => x = new ∧ at_pos s0 f ref new I s')).
  2: { intros ? s1 [-> A1]. apply (returns_run _ _ _ _ _ eq_refl). split; [done|]. split; [done|lia]. }
  unfold vfs_file_seek, returns. rewrite (bind_run _ _ _ _ _ (get_file_at _ _ _ _ _ _ A)). cbn [f_node].
  step (lock_at _ _ _ _ _ A) as ? s1 A1.
  eapply (returns_bind _ _ _ (fun _ s' => at_pos s0 f ref new L s')).
  - unfold new in *. destruct (whence =? SEEK_SET); [by apply (update_file_at _ _ _ _ _ _ _ _ _ A1)|].
    destruct (whence =? SEEK_CUR).
    { apply (update_file_at _ _ _ _ _ _ _ _ _ A1). unfold set_offset. cbn. by rewrite s64_small by lia. }
    destruct (whence =? SEEK_END).
    { step (on_world_at _ _ _ _ _ _ _ _ _ A1 (if_size _ _ _ _ Hnode)) as ? s2 [-> A2].
      apply (update_file_at _ _ _ _ _ _ _ _ _ A2). unfold set_offset. cbn. by rewrite s64_small by lia. }
    by apply (returns_run _ _ _ _ _ eq_refl).
  - intros ? s2 A2. unfold returns. rewrite (bind_run _ _ _ _ _ (get_file_at _ _ _ _ _ _ A2)). cbn [f_offset].
    step (unlock_at _ _ _ _ _ A2) as ? s3 A3. by apply (returns_run _ _ _ _ _ eq_refl).
Qed.

(** Taking one more reference, and giving up one that is not the last. *)
Lemma dup_at s0 f ref pos s :
  at_pos s0 f ref pos I s →
  returns (vfs_file_dup (Some f)) s (fun r s' => r = Some f ∧ at_pos s0 f (u32 (ref + 1)) pos I s').
Proof.
  intros A. unfold vfs_file_dup, returns. rewrite (bind_run _ _ _ _ _ (get_file_at _ _ _ _ _ _ A)). cbn [f_node].
  step (lock_at _ _ _ _ _ A) as ? s1 A1.
  eapply returns_bind; [by apply (update_file_at _ _ _ _ _ _ _ (u32 (ref + 1)) pos A1)|]. intros ? s2 A2. cbn beta in *.
  step (unlock_at _ _ _ _ _ A2) as ? s3 A3. by apply (returns_run _ _ _ _ _ eq_refl).
Qed.

Lemma close_at s0 f ref pos s :
  at_pos s0 f ref pos I s → u32 (ref - 1) ≠ 0 →
  returns (vfs_close (Some f)) s (fun _ s' => at_pos s0 f (u32 (ref - 1)) pos I s').
Proof.
  intros A Hr. unfold vfs_close, returns. rewrite (bind_run _ _ _ _ _ (get_file_at _ _ _ _ _ _ A)). cbn [f_node].
  step (lock_at _ _ _ _ _ A) as ? s1 A1.
  eapply returns_bind; [by apply (update_file_at _ _ _ _ _ _ _ (u32 (ref - 1)) pos A1)|]. intros ? s2 A2. cbn beta in *.
  unfold returns. rewrite (bind_run _ _ _ _ _ (get_file_at _ _ _ _ _ _ A2)). cbn [f_ref].
  step (unlock_at _ _ _ _ _ A2) as ? s3 A3. rewrite (proj2 (Z.eqb_neq _ _) Hr).
  by apply (returns_run _ _ _ _ _ eq_refl).
Qed.

Lemma run_ops_at s0 f ref ops : ∀ pos s pos' rs,
  at_pos s0 f ref pos I s → 0 ≤ pos < 2 ^ 63 → abs_run contents pos ops = Some (pos', rs) →
  returns (run_ops f ops) s (fun x s' => x = rs ∧ at_pos s0 f ref pos' I s').
Proof.
  induction ops as [|op ops IH]; intros pos s pos' rs A Hp E; cbn in E.
  { injection E as <- <-. by apply (returns_run _ _ _ _ _ eq_refl). }
  destruct (abs_op contents pos op) as [[pos1 r]|] eqn:E1; [|done]. cbn in E.
  destruct (abs_run contents pos1 ops) as [[pos2 rs']|] eqn:E2; [|done]. cbn in E. injection E as <- <-.
  cbn [run_ops]. eapply returns_bind.
  - destruct op as [num|off whence]; [by apply (read_at _ _ _ _ _ _ _ _ A Hp E1)|].
    by apply (seek_at _ _ _ _ _ _ _ _ _ A Hp E1).
  - intros ? s1 (-> & A1 & Hp1). eapply returns_bind; [by apply (IH _ _ _ _ A1 Hp1 E2)|].
    intros ? s2 [-> A2]. by apply (returns_run _ _ _ _ _ eq_refl).
Qed.

End files.

(** ** A filesystem for the examples: one file, a lock and a count of returned nodes *)

Module ToyFs.

Definition world : Type := bool * nat.
Definition contents : list Z := chars "hello world".

Definition node : vfs_node world :=
  mk_node 1 2 1
    (fun w : world => if fst w then Panic "locked" else Done (tt, (true, snd w)))
    (fun w : world => if fst w then Done (tt, (false, snd w)) else Panic "not locked")
    (ret (chars "greeting")) (gets (fun _ => 11))
    (fun off num => ret (Z.of_nat (length (slice off num contents)), slice off num contents))
    (fun _ _ => ret 0) (ret 1) (fun _ => ret 1)
    (modify (fun w => (fst w, S (snd w)))).

Definition super : vfs_super world :=
  mk_super (ret (Some node)) (fun _ => ret None)
    (fun p => if bool_decide (p = chars "/greeting") then ret (Some node) else ret None).

Definition start : vfs world := mk_vfs false [([], mk_super (ret None) (fun _ => ret None) (fun _ => ret None))]
  false [] ∅ 0 (false, 0%nat).

Lemma node_is_file : is_file node (fun w => fst w = false) (fun w => fst w = true) contents.
Proof.
  split; try done.
  - intros [[] n] E; done.
  - intros [[] n] E; done.
Qed.

End ToyFs.

(** Mounting a filesystem at a new mount point (not the root, not ending in a
    separator, not a beginning of an existing mount point) succeeds; afterwards the
    mount point and every path below it are answered by that filesystem, by its root
    or by the rest of the path, and every path that neither starts with the mount
    point and a separator nor is a beginning of it is answered as before. *)
Theorem vfs_mount_get {W} (before : Z) (path : list Z) (sup : vfs_super W) (s : vfs W) :
  vfs_mount_mutex s = false → path ≠ [] → List.last path before ≠ VFS_SEPARATOR →
  Forall (fun m => ¬ path `prefix_of` fst m) (vfs_mounts s) →
  ∃ s', vfs_mount before path sup s = Done (tt, s') ∧
    vfs_get path s' = answer (Some (sup, Root)) s' ∧
    (∀ rest, vfs_get (path ++ VFS_SEPARATOR :: rest) s' = answer (Some (sup, Path (VFS_SEPARATOR :: rest))) s') ∧
    (∀ q, ¬ q `prefix_of` path → ¬ (path ++ [VFS_SEPARATOR]) `prefix_of` q →
       vfs_get q s' = answer (first_request (vfs_mounts s) q) s' ∧
       vfs_get q s = answer (first_request (vfs_mounts s) q) s).
Proof.
  intros E Hn Hl Hm. exists (vset_mounts ((path, sup) :: vfs_mounts s) s). split; [by apply vfs_mount_run|].
  split; [|split].
  - rewrite vfs_get_run by done. cbn [vfs_mounts vset_mounts first_request]. rewrite mount_request_spec.
    by rewrite bool_decide_eq_true_2.
  - intros rest. rewrite vfs_get_run by done. cbn [vfs_mounts vset_mounts first_request]. rewrite mount_request_spec.
    rewrite bool_decide_eq_false_2.
    + rewrite bool_decide_eq_true_2; [by rewrite drop_app_length|]. exists rest. by rewrite <- app_assoc.
    + intros Q. apply prefix_length in Q. rewrite length_app in Q. cbn in Q. lia.
  - intros q H1 H2. rewrite !vfs_get_run by done. cbn [vfs_mounts vset_mounts first_request].
    rewrite mount_request_spec, !bool_decide_eq_false_2 by done. done.
Qed.

Lemma vfs_mount_get_witness :
  ∃ s' n w, vfs_mount 0 (chars "/mnt") ToyFs.super ToyFs.start = Done (tt, s') ∧
    vfs_get (chars "/mnt/greeting") s' = Done (Some n, vset_world w s') ∧ vn_index n = 1.
Proof.
  destruct (vfs_mount_get 0 (chars "/mnt") ToyFs.super ToyFs.start) as (s' & E & _ & G & _).
  - reflexivity.
  - done.
  - done.
  - constructor; [|constructor]. intros Q. apply prefix_length in Q. cbn in Q. lia.
  - exists s', ToyFs.node, (v_world s'). split; [exact E|]. split; [|reflexivity].
    exact (G (chars "greeting")).
Defined.

(** C28: reading and seeking through a file object behave as on the sequence of the
    node's bytes with a position: every sequence of reads and seeks returns what the
    abstract file returns, stops at the end of the file, and leaves the position
    where the abstract one is; nothing else of the virtual filesystem changes. *)
Theorem file_ops_refine {W} (node : vfs_node W) (I L : W → Prop) (contents : list Z) (s : vfs W) (f : nat)
    (ref pos pos' : Z) (ops : list fop) (rs : list (Z * list Z)) :
  is_file node I L contents → I (v_world s) → v_files s !! f = Some (mk_file node ref pos) → 0 ≤ pos < 2 ^ 63 →
  abs_run contents pos ops = Some (pos', rs) →
  ∃ w', run_ops f ops s =
      Done (rs, vset_world w' (vset_files (<[f := mk_file node ref pos']> (v_files s)) s)) ∧ I w'.
Proof.
  intros Hn Hi Hf Hp E.
  assert (A : at_pos node s f ref pos I s).
  { split. exists (v_world s). split; [done|]. destruct s. unfold vset_files, vset_world. cbn in *.
    by rewrite insert_id. }
  destruct (returns_inv _ _ _ (run_ops_at node I L contents Hn _ _ _ _ _ _ _ _ A Hp E))
    as (? & s' & Es & -> & [(w' & Hw & ->)]). by exists w'.
Qed.

Lemma file_ops_refine_witness :
  let s := vset_files {[0%nat := mk_file ToyFs.node 1 0]} ToyFs.start in
  ∃ w', run_ops 0 [Read 5; Seek (-5) SEEK_END; Read 100; Read 1] s =
    Done ([(5, chars "hello"); (6, []); (5, chars "world"); (0, [])],
          vset_world w' (vset_files (<[0%nat := mk_file ToyFs.node 1 11]> (v_files s)) s)).
Proof.
  intros s.
  destruct (file_ops_refine ToyFs.node _ _ ToyFs.contents s 0 1 0 11 [Read 5; Seek (-5) SEEK_END; Read 100; Read 1]
    [(5, chars "hello"); (6, []); (5, chars "world"); (0, [])] ToyFs.node_is_file) as (w' & E & _).
  - reflexivity.
  - reflexivity.
  - lia.
  - vm_compute. reflexivity.
  - exists w'. exact E.
Defined.

(** Closing a file object that has other references only takes one away; closing
    the last reference removes the object from the list of open files, returns its
    node to the filesystem exactly once and frees the object.  Other files and the
    mounts are not touched. *)
Theorem vfs_close_releases {W} (s : vfs W) (f : nat) (x : file W) (w1 w2 w3 : W) :
  v_files s !! f = Some x → 1 ≤ f_ref x < 2 ^ 32 → vfs_file_list_mutex s = false →
  vn_lock (f_node x) (v_world s) = Done (tt, w1) → vn_unlock (f_node x) w1 = Done (tt, w2) →
  vn_put (f_node x) w2 = Done (tt, w3) →
  vfs_close (Some f) s = Done (tt,
    if f_ref x =? 1
    then vset_world w3 (vset_file_list (filter (fun g => g ≠ f) (vfs_file_list s)) (vset_files (delete f (v_files s)) s))
    else vset_world w2 (vset_files (<[f := set_ref (f_ref x - 1) x]> (v_files s)) s)).
Proof.
  intros Hf Hr Hm E1 E2 E3. unfold vfs_close, get_file, bind, get, ret. rewrite Hf.
  unfold on_world at 1, zoom. rewrite E1. unfold file_lock, file_unlock, update_file, bind, get, modify. cbn. rewrite lookup_alter_eq, Hf. cbn.
  unfold on_world, zoom. cbn. rewrite E2, u32_small by lia. cbn.
  destruct (Z.eqb_spec (f_ref x) 1) as [Hx|Hx].
  - rewrite Hx. change (1 - 1 =? 0) with true. cbn. rewrite Hm. cbn. unfold vfs_put, on_world, zoom. cbn. rewrite E3.
    destruct s. cbn in *. subst. unfold vset_files, vset_world, vset_file_list. cbn.
    by rewrite delete_alter_eq.
  - rewrite (proj2 (Z.eqb_neq _ _)) by lia. destruct s. cbn in *. unfold vset_files, vset_world. cbn.
    f_equal. f_equal. f_equal. apply map_eq. intros g. destruct (decide (g = f)) as [->|Hg].
    + rewrite lookup_alter_eq, lookup_insert_eq, Hf. cbn. by rewrite u32_small by lia.
    + by rewrite lookup_alter_ne, lookup_insert_ne.
Qed.

Lemma vfs_close_releases_witness :
  ∃ s', vfs_close (Some 0%nat) (vset_file_list [0%nat] (vset_files {[0%nat := mk_file ToyFs.node 1 3]} ToyFs.start)) =
      Done (tt, s') ∧ vfs_file_list s' = [] ∧ v_world s' = (false, 1%nat).
Proof.
  eexists. split.
  - apply (vfs_close_releases _ 0 (mk_file ToyFs.node 1 3) (true, 0%nat) (false, 0%nat) (false, 1%nat)); try reflexivity.
    cbn. lia.
  - vm_compute. done.
Defined.
