(* ===== verification/FatVfs.v ===== *)
(** * fs/fat_vfs.c: FAT files as nodes of the virtual filesystem

    The filesystem keeps the nodes of the files that are in use, and up to thirty more,
    in a list; a node is found by the first cluster of its file, counts its references
    and its hits, and the unreferenced node with the fewest hits is freed when there are
    too many.  Nodes are numbered in the order they are allocated.  The structures on the
    kernel stack that reading directories uses are at [res] and [eb], the caller's path
    is put at [pb] and its buffer is at [ub].  Mutexes are seen by the calling thread:
    held by it or free. *)

From stdpp Require Import base list gmap strings.
From Stdlib Require Import ZArith Lia.
From S2P Require Import Prelude Memory KUtils BlockDev Fat FatDir FatPath Vfs.

Definition FAT_VFS_TRUNCATE_THRESHOLD : Z := 30.
Definition FAT_VFS_CACHE_LEAVES : Z := 16.
Definition FAT_VFS_LEAVES_DIRTY : Z := 1.
Definition FAT_INVALID_CLUSTER : Z := 0.
Definition UINT_MAX : Z := 2 ^ 32 - 1.

(** [struct fat_result]. *)
Record fat_result := mk_result { r_dir_cluster : Z; r_entry : list Z; r_lfn : list Z }.

Definition read_result (m : mem) (res : Z) : fat_result :=
  mk_result (load32 m res) (read_bytes m (res_entry res) 32)
    (read_bytes m (res_lfn res) (Z.to_nat FAT_LFN_NAME_BUF_SIZE)).

(** A node with its [struct fat_vfs_node_data]; [fn_mutex] tells whether it is locked. *)
Record fnode := mk_fnode {
  fn_type : Z;
  fn_vflags : Z;
  fn_index : Z;
  fn_dir_cluster : Z;
  fn_first_cluster : Z;
  fn_ref : Z;
  fn_hit : Z;
  fn_mutex : bool;
  fn_flags : Z;
  fn_name : list Z;
  fn_num_bytes : Z;
  fn_num_leaves : Z;
  fn_leaves : list Z;
}.

Definition set_node_ref (r : Z) (d : fnode) : fnode :=
  mk_fnode (fn_type d) (fn_vflags d) (fn_index d) (fn_dir_cluster d) (fn_first_cluster d) r (fn_hit d)
    (fn_mutex d) (fn_flags d) (fn_name d) (fn_num_bytes d) (fn_num_leaves d) (fn_leaves d).
Definition set_node_hit (h : Z) (d : fnode) : fnode :=
  mk_fnode (fn_type d) (fn_vflags d) (fn_index d) (fn_dir_cluster d) (fn_first_cluster d) (fn_ref d) h
    (fn_mutex d) (fn_flags d) (fn_name d) (fn_num_bytes d) (fn_num_leaves d) (fn_leaves d).
Definition set_node_mutex (b : bool) (d : fnode) : fnode :=
  mk_fnode (fn_type d) (fn_vflags d) (fn_index d) (fn_dir_cluster d) (fn_first_cluster d) (fn_ref d) (fn_hit d)
    b (fn_flags d) (fn_name d) (fn_num_bytes d) (fn_num_leaves d) (fn_leaves d).
Definition set_node_leaves (flags num : Z) (leaves : list Z) (d : fnode) : fnode :=
  mk_fnode (fn_type d) (fn_vflags d) (fn_index d) (fn_dir_cluster d) (fn_first_cluster d) (fn_ref d) (fn_hit d)
    (fn_mutex d) flags (fn_name d) (fn_num_bytes d) num leaves.

(** The volume: device and memory, and the dynamic part of [struct fat_vfs_super_data]. *)
Record fat_world (D : Type) := mk_fw {
  fw_fs : fstate D;
  fw_mutex : bool;
  fw_nof_nodes : Z;
  fw_list : list nat;
  fw_nodes : gmap nat fnode;
  fw_next : nat;
}.
Arguments mk_fw {D}.
Arguments fw_fs {D}.
Arguments fw_mutex {D}.
Arguments fw_nof_nodes {D}.
Arguments fw_list {D}.
Arguments fw_nodes {D}.
Arguments fw_next {D}.

Section fat_vfs.
Context {D : Type} (bdev : block_dev D) (sup : fat_super).
Context (res eb pb ub : Z) (pfuel sfuel efuel : nat).

Definition set_fs (f : fstate D) (w : fat_world D) : fat_world D :=
  mk_fw f (fw_mutex w) (fw_nof_nodes w) (fw_list w) (fw_nodes w) (fw_next w).
Definition set_mutex (b : bool) (w : fat_world D) : fat_world D :=
  mk_fw (fw_fs w) b (fw_nof_nodes w) (fw_list w) (fw_nodes w) (fw_next w).
Definition set_nof (n : Z) (w : fat_world D) : fat_world D :=
  mk_fw (fw_fs w) (fw_mutex w) n (fw_list w) (fw_nodes w) (fw_next w).
Definition set_list (l : list nat) (w : fat_world D) : fat_world D :=
  mk_fw (fw_fs w) (fw_mutex w) (fw_nof_nodes w) l (fw_nodes w) (fw_next w).
Definition set_nodes (m : gmap nat fnode) (w : fat_world D) : fat_world D :=
  mk_fw (fw_fs w) (fw_mutex w) (fw_nof_nodes w) (fw_list w) m (fw_next w).
Definition set_next (n : nat) (w : fat_world D) : fat_world D :=
  mk_fw (fw_fs w) (fw_mutex w) (fw_nof_nodes w) (fw_list w) (fw_nodes w) n.

Definition on_fs {A} (m : M (fstate D) A) : M (fat_world D) A := zoom fw_fs set_fs m.

(** A freed node is not accessed by a correct client. *)
Definition get_node (n : nat) : M (fat_world D) fnode :=
  w <- get ;; match fw_nodes w !! n with Some d => ret d | None => kpanic "vfs_node: use after free" end.
Definition update_node (n : nat) (f : fnode → fnode) : M (fat_world D) unit :=
  modify (fun w => set_nodes (alter f n (fw_nodes w)) w).

Definition super_lock : M (fat_world D) unit :=
  w <- get ;;
  if fw_mutex w then kpanic "thread_mutex_acquire(): on held lock" else modify (set_mutex true).
Definition super_unlock : M (fat_world D) unit :=
  w <- get ;;
  if fw_mutex w then modify (set_mutex false) else kpanic "thread_mutex_release(): called on an unheld mutex".

(** ** The node cache *)

(** The node with the fewest hits among the unreferenced ones. *)
Fixpoint lowest (l : list nat) (lowest_hit : Z) (lowest_node : option nat) : M (fat_world D) (option nat) :=
  match l with
  | [] => ret lowest_node
  | n :: l' =>
      d <- get_node n ;;
      if (fn_ref d =? 0) && (fn_hit d <? lowest_hit) then lowest l' (fn_hit d) (Some n)
      else lowest l' lowest_hit lowest_node
  end.

Definition unsafe_truncate : M (fat_world D) bool :=
  w <- get ;;
  if fw_nof_nodes w <=? FAT_VFS_TRUNCATE_THRESHOLD then ret false else
  r <- lowest (fw_list w) UINT_MAX None ;;
  match r with
  | Some n =>
      modify (fun w => set_list (filter (fun k => k ≠ n) (fw_list w)) w) ;;;
      modify (fun w => set_nof (u32 (fw_nof_nodes w - 1)) w) ;;;
      modify (fun w => set_nodes (delete n (fw_nodes w)) w) ;;;
      ret true
  | None => ret false
  end.

Fixpoint find_cluster (l : list nat) (first_cluster : Z) : M (fat_world D) (option nat) :=
  match l with
  | [] => ret None
  | n :: l' =>
      d <- get_node n ;;
      if fn_first_cluster d =? first_cluster then ret (Some n) else find_cluster l' first_cluster
  end.

Definition unsafe_fat_get (first_cluster : Z) : M (fat_world D) (option nat) :=
  w <- get ;; find_cluster (fw_list w) first_cluster.

Definition new_node (r : fat_result) : fnode :=
  mk_fnode (if negb (Z.land (get8 (r_entry r) 11) FAT_DIRECTORY =? 0) then VFS_NODE_DIRECTORY else VFS_NODE_FILE)
    VFS_NODE_BIT_READABLE (fat_get_entry_cluster (r_entry r)) (r_dir_cluster r)
    (fat_get_entry_cluster (r_entry r)) 0 0 false FAT_VFS_LEAVES_DIRTY
    (take (Z.to_nat FAT_LFN_NAME_SIZE) (r_lfn r)) (get32 (r_entry r) 28) 0
    (replicate (Z.to_nat FAT_VFS_CACHE_LEAVES) 0).

Definition unsafe_create (r : fat_result) : M (fat_world D) nat :=
  w <- get ;;
  let n := fw_next w in
  modify (fun w => set_next (S n) (set_nodes (<[n := new_node r]> (fw_nodes w)) w)) ;;;
  ret n.

Definition safe_get_with_fat_result (r : fat_result) : M (fat_world D) nat :=
  super_lock ;;;
  node <- unsafe_fat_get (fat_get_entry_cluster (r_entry r)) ;;
  n <- (match node with
        | Some n => ret n
        | None =>
            n <- unsafe_create r ;;
            modify (fun w => set_nof (u32 (fw_nof_nodes w + 1)) w) ;;;
            modify (fun w => set_list (n :: fw_list w) w) ;;;
            ret n
        end) ;;
  update_node n (fun d => set_node_ref (u32 (fn_ref d + 1)) d) ;;;
  update_node n (fun d => set_node_hit (u32 (fn_hit d + 1)) d) ;;;
  super_unlock ;;;
  ret n.

(** ** The filesystem interface *)

(** [root_entry]: all fields but these are zero. *)
Definition root_entry : list Z :=
  replicate 11 0 ++ [root_attributes sup] ++ replicate 8 0 ++ le_bytes 2 (root_cluster_high sup) ++
  replicate 4 0 ++ le_bytes 2 (root_cluster_low sup) ++ replicate 4 0.

Definition fat_vfs_get_root : M (fat_world D) nat :=
  safe_get_with_fat_result
    (mk_result FAT_INVALID_CLUSTER root_entry (replicate (Z.to_nat FAT_LFN_NAME_BUF_SIZE) 0)).

Definition fat_vfs_get_by_index (index : Z) : M (fat_world D) nat :=
  kpanic "fat_vfs_get_by_index(): not implemented".

Definition fat_vfs_get_by_path (path : Z) : M (fat_world D) (option nat) :=
  let cluster := fat_get_entry_cluster root_entry in
  r <- on_fs (fat_walk_path bdev pfuel sfuel efuel res eb sup path cluster) ;;
  if negb (r =? FAT_OK) then ret None else
  w <- get ;;
  n <- safe_get_with_fat_result (read_result (f_mem (fw_fs w)) res) ;;
  ret (Some n).

Definition fat_vfs_put (n : nat) : M (fat_world D) unit :=
  super_lock ;;;
  _ <- get_node n ;;
  update_node n (fun d => set_node_ref (u32 (fn_ref d - 1)) d) ;;;
  _ <- unsafe_truncate ;;
  super_unlock.

(** ** The node interface *)

Definition fat_vfs_node_lock (n : nat) : M (fat_world D) unit :=
  d <- get_node n ;;
  if fn_mutex d then kpanic "thread_mutex_acquire(): on held lock" else update_node n (set_node_mutex true).

Definition fat_vfs_node_unlock (n : nat) : M (fat_world D) unit :=
  d <- get_node n ;;
  if fn_mutex d then update_node n (set_node_mutex false)
  else kpanic "thread_mutex_release(): called on an unheld mutex".

Definition fat_vfs_node_get_name (n : nat) : M (fat_world D) (list Z) :=
  d <- get_node n ;;
  if negb (fn_mutex d) then kpanic "fat_vfs_node_get_name(): mutex not held" else
  ret (until_nul (fn_name d)).

Definition fat_vfs_node_get_size (n : nat) : M (fat_world D) Z :=
  d <- get_node n ;;
  if negb (fn_mutex d) then kpanic "fat_vfs_node_get_size(): mutex not held" else ret (fn_num_bytes d).

Definition fat_vfs_node_read (n : nat) (buf off num : Z) : M (fat_world D) Z :=
  if num <=? 0 then ret 0 else
  d <- get_node n ;;
  if negb (fn_mutex d) then kpanic "fat_vfs_node_read(): mutex not held" else
  if fn_num_bytes d <=? off then ret 0 else
  let num := if fn_num_bytes d <? u32 (off + num) then s32 (fn_num_bytes d - off) else num in
  on_fs (fat_read bdev sup (fn_first_cluster d) buf off num).

Definition fat_vfs_node_write (n : nat) (num : Z) : M (fat_world D) Z :=
  if num <=? 0 then ret 0 else kpanic "fat_vfs_node_write(): unimplemented".

(** The loop of [unsafe_maybe_fill_leaves]. *)
Fixpoint fill_leaves (fuel : nat) (n : nat) (cl idx : Z) : M (fat_world D) unit :=
  match fuel with
  | O => hang
  | S fuel' =>
      next_idx <- on_fs (fat_read_entry bdev efuel res eb sup cl idx) ;;
      if next_idx =? FAT_ENTRY_ERROR then kpanic "unsafe_fill_leaves(): bad entry" else
      if next_idx =? FAT_ENTRY_LAST then ret tt else
      update_node n (fun d =>
        set_node_leaves (fn_flags d) (u32 (fn_num_leaves d + 1))
          (if fn_num_leaves d <? FAT_VFS_CACHE_LEAVES
           then <[Z.to_nat (fn_num_leaves d) := idx]> (fn_leaves d) else fn_leaves d) d) ;;;
      fill_leaves fuel' n cl next_idx
  end.

Definition unsafe_maybe_fill_leaves (n : nat) : M (fat_world D) unit :=
  d <- get_node n ;;
  if negb (fn_type d =? VFS_NODE_DIRECTORY) then kpanic "unsafe_fill_leaves(): not a directory" else
  if Z.land (fn_flags d) FAT_VFS_LEAVES_DIRTY =? 0 then ret tt else
  update_node n (fun d => set_node_leaves (fn_flags d) 0 (fn_leaves d) d) ;;;
  fill_leaves efuel n (fn_first_cluster d) 0 ;;;
  update_node n (fun d =>
    set_node_leaves (Z.lxor (fn_flags d) FAT_VFS_LEAVES_DIRTY) (fn_num_leaves d) (fn_leaves d) d).

Definition fat_vfs_node_get_num_leaves (n : nat) : M (fat_world D) Z :=
  d <- get_node n ;;
  if negb (fn_mutex d) then kpanic "fat_vfs_node_get_num_leaves(): mutex not held" else
  if negb (fn_type d =? VFS_NODE_DIRECTORY) then ret 1 else
  unsafe_maybe_fill_leaves n ;;;
  d <- get_node n ;;
  ret (fn_num_leaves d).

(** [for (i = 0; i < n - FAT_VFS_CACHE_LEAVES + 2; i++)]. *)
Fixpoint skip_leaves (count : nat) (cl idx : Z) : M (fat_world D) unit :=
  match count with
  | O => ret tt
  | S count' =>
      if idx =? FAT_ENTRY_LAST then kpanic "fat_vfs_node_get_leaf_node(): unexpected end of entries" else
      idx <- on_fs (fat_read_entry bdev efuel res eb sup cl idx) ;;
      if idx =? FAT_ENTRY_ERROR then kpanic "fat_vfs_node_get_leaf_node(): bad entry" else
      skip_leaves count' cl idx
  end.

Definition fat_vfs_node_get_leaf_node (n : nat) (k : Z) : M (fat_world D) nat :=
  d <- get_node n ;;
  if negb (fn_mutex d) then kpanic "fat_vfs_node_get_leaf_node(): mutex not held" else
  if k =? 0 then ret n else
  if negb (fn_type d =? VFS_NODE_DIRECTORY)
  then kpanic "fat_vfs_node_get_leaf_node(): n > 0 for non-directory node" else
  unsafe_maybe_fill_leaves n ;;;
  d <- get_node n ;;
  if k >=? fn_num_leaves d then kpanic "fat_vfs_node_get_leaf_node(): n >= num_leaves" else
  (if k <? FAT_VFS_CACHE_LEAVES then
     idx <- on_fs (fat_read_entry bdev efuel res eb sup (fn_first_cluster d)
                     (nth (Z.to_nat k) (fn_leaves d) 0)) ;;
     if idx =? FAT_ENTRY_ERROR then kpanic "fat_vfs_node_get_leaf_node(): bad entry (cache hit)" else ret tt
   else
     skip_leaves (Z.to_nat (u32 (k - FAT_VFS_CACHE_LEAVES + 2))) (fn_first_cluster d)
       (nth (Z.to_nat (FAT_VFS_CACHE_LEAVES - 1)) (fn_leaves d) 0)) ;;;
  w <- get ;;
  safe_get_with_fat_result (read_result (f_mem (fw_fs w)) res).

Definition fat_vfs_node_get_leaf (n : nat) (k : Z) : M (fat_world D) Z :=
  m <- fat_vfs_node_get_leaf_node n k ;;
  d <- get_node m ;;
  ret (fn_index d).

(** ** What the virtual filesystem sees *)

(** The node [n]; its type, flags and index do not change. *)
Definition node_ops (n : nat) (d : fnode) : vfs_node (fat_world D) :=
  mk_node (fn_type d) (fn_vflags d) (fn_index d) (fat_vfs_node_lock n) (fat_vfs_node_unlock n)
    (fat_vfs_node_get_name n) (fat_vfs_node_get_size n)
    (fun off num => r <- fat_vfs_node_read n ub off num ;;
                    w <- get ;; ret (r, read_bytes (f_mem (fw_fs w)) ub (Z.to_nat r)))
    (fun buf _ => fat_vfs_node_write n (Z.of_nat (length buf)))
    (fat_vfs_node_get_num_leaves n) (fat_vfs_node_get_leaf n) (fat_vfs_put n).

Definition vfs_view (n : nat) : M (fat_world D) (option (vfs_node (fat_world D))) :=
  d <- get_node n ;; ret (Some (node_ops n d)).

Definition fat_vfs_super : vfs_super (fat_world D) :=
  Vfs.mk_super
    (n <- fat_vfs_get_root ;; vfs_view n)
    (fun i => n <- fat_vfs_get_by_index i ;; vfs_view n)
    (fun path =>
       on_fs (modify (fun f => mk_fstate (f_dev f) (write_bytes (f_mem f) pb (path ++ [0])))) ;;;
       r <- fat_vfs_get_by_path pb ;;
       match r with Some n => vfs_view n | None => ret None end).
End fat_vfs.

(** ** The node cache *)

Section cache.
Context {D : Type}.
Implicit Types (w : fat_world D) (H : list nat).

Lemma get_node_run n d w : fw_nodes w !! n = Some d → get_node n w = Done (d, w).
Proof. intros E. unfold get_node, bind, get. by rewrite E. Qed.

Definition unreferenced w (n : nat) : Prop := ∃ d, fw_nodes w !! n = Some d ∧ fn_ref d = 0.

Lemma lowest_run w l h acc :
  (∀ n, n ∈ l → is_Some (fw_nodes w !! n)) →
  ∃ r, lowest l h acc w = Done (r, w) ∧
    ((r = acc ∧ ∀ n d, n ∈ l → fw_nodes w !! n = Some d → fn_ref d = 0 → h ≤ fn_hit d) ∨
     ∃ n d, r = Some n ∧ n ∈ l ∧ fw_nodes w !! n = Some d ∧ fn_ref d = 0 ∧ fn_hit d < h ∧
       ∀ n' d', n' ∈ l → fw_nodes w !! n' = Some d' → fn_ref d' = 0 → fn_hit d ≤ fn_hit d').
Proof.
  revert h acc. induction l as [|n l IH]; intros h acc Hl.
  { exists acc. split; [done|]. left. split; [done|]. by intros ? ? ?%elem_of_nil. }
  destruct (Hl n) as [d Hd]; [by left|]. cbn [lowest]. rewrite (bind_run _ _ _ _ _ (get_node_run n d w Hd)).
  assert (Hl' : ∀ k, k ∈ l → is_Some (fw_nodes w !! k)) by (intros k Hk; apply Hl; by right).
  destruct ((fn_ref d =? 0) && (fn_hit d <? h)) eqn:Et; zbool.
  - destruct (IH (fn_hit d) (Some n) Hl') as (r & E & Hr). exists r. split; [done|]. right.
    destruct Hr as [[-> Hmin]|(n' & d' & -> & Hn' & Hd' & Hr' & Hh & Hmin)].
    + exists n, d. repeat split; try done; [by left|].
      intros n' d' [->|Hn']%elem_of_cons Hd' Hr'; [rewrite Hd in Hd'; injection Hd' as <-; lia|by apply (Hmin n')].
    + exists n', d'. repeat split; try done; [by right|lia|].
      intros n2 d2 [->|Hn2]%elem_of_cons Hd2 Hr2; [rewrite Hd in Hd2; injection Hd2 as <-; lia|by apply (Hmin n2)].
  - assert (Hno : fn_ref d = 0 → h ≤ fn_hit d).
    { intros E0. rewrite E0 in Et. cbn in Et. by apply Z.ltb_ge. }
    destruct (IH h acc Hl') as (r & E & Hr). exists r. split; [done|].
    destruct Hr as [[-> Hmin]|(n' & d' & -> & Hn' & Hd' & Hr' & Hh & Hmin)].
    + left. split; [done|]. intros n' d' [->|Hn']%elem_of_cons Hd' Hr'; [|by apply (Hmin n')].
      rewrite Hd in Hd'. injection Hd' as <-. auto.
    + right. exists n', d'. repeat split; try done; [by right|].
      intros n2 d2 [->|Hn2]%elem_of_cons Hd2 Hr2; [|by apply (Hmin n2)].
      rewrite Hd in Hd2. injection Hd2 as <-. specialize (Hno Hr2). lia.
Qed.

Lemma find_cluster_run w l cl :
  (∀ n, n ∈ l → is_Some (fw_nodes w !! n)) →
  ∃ r, find_cluster l cl w = Done (r, w) ∧
    match r with
    | Some n => n ∈ l ∧ ∃ d, fw_nodes w !! n = Some d ∧ fn_first_cluster d = cl
    | None => ∀ n d, n ∈ l → fw_nodes w !! n = Some d → fn_first_cluster d ≠ cl
    end.
Proof.
  induction l as [|n l IH]; intros Hl.
  { exists None. split; [done|]. by intros ? ? ?%elem_of_nil. }
  destruct (Hl n) as [d Hd]; [by left|]. cbn [find_cluster]. rewrite (bind_run _ _ _ _ _ (get_node_run n d w Hd)).
  destruct (Z.eqb_spec (fn_first_cluster d) cl) as [E|E].
  - exists (Some n). split; [done|]. split; [by left|by exists d].
  - destruct IH as (r & Er & Hr); [intros k Hk; apply Hl; by right|]. exists r. split; [done|].
    destruct r as [n'|].
    + destruct Hr as [Hn' Hd']. split; [by right|done].
    + intros n' d' [->|Hn']%elem_of_cons Hd'; [by rewrite Hd in Hd'; injection Hd' as <-|by apply (Hr n')].
Qed.

(** How often a node is held. *)
Definition held (n : nat) H : Z := Z.of_nat (count_occ Nat.eq_dec H n).

(** The cache after [N] operations when clients hold the references [H]: at most [b]
    nodes are not referenced. *)
Record cache_upto (mutex : bool) (b N : nat) H w : Prop := {
  co_free : fw_mutex w = mutex;
  co_nodup : NoDup (fw_list w);
  co_count : fw_nof_nodes w = Z.of_nat (length (fw_list w));
  co_next : ∀ n, n ∈ fw_list w → (n < fw_next w)%nat;
  co_nodes : ∀ n, n ∈ fw_list w ↔ is_Some (fw_nodes w !! n);
  co_ref : ∀ n d, fw_nodes w !! n = Some d → fn_ref d = held n H;
  co_hit : ∀ n d, fw_nodes w !! n = Some d → 0 ≤ fn_hit d ≤ Z.of_nat N;
  co_held : ∀ n, n ∈ H → n ∈ fw_list w;
  co_one : ∀ n m d e, fw_nodes w !! n = Some d → fw_nodes w !! m = Some e →
    fn_first_cluster d = fn_first_cluster e → n = m;
  co_len : (length H ≤ N)%nat;
  co_lenl : (length (fw_list w) ≤ N)%nat;
  co_bound : (length (filter (fun n => n ∉ H) (fw_list w)) ≤ b)%nat;
}.

Definition cache_ok : nat → list nat → fat_world D → Prop := cache_upto false 30.

Lemma filter_grow {P P' : nat → Prop} `{∀ x, Decision (P x), ∀ x, Decision (P' x)} n l :
  NoDup l → (∀ x, P' x → P x ∨ x = n) → (length (filter P' l) ≤ S (length (filter P l)))%nat.
Proof.
  intros Hl HP. apply (submseteq_length (filter P' l) (n :: filter P l)).
  apply NoDup_submseteq; [by apply NoDup_filter|]. intros x [Hx Hin]%list_elem_of_filter.
  apply elem_of_cons. destruct (HP x Hx); [right; by apply list_elem_of_filter|by left].
Qed.

Lemma filter_drop {P : nat → Prop} `{∀ x, Decision (P x)} k l :
  NoDup l → k ∈ l → P k → (S (length (filter P (filter (fun x => x ≠ k) l))) ≤ length (filter P l))%nat.
Proof.
  intros Hl Hk HP. apply (submseteq_length (k :: filter P (filter (fun x => x ≠ k) l)) (filter P l)).
  apply NoDup_submseteq.
  - constructor; [|by do 2 apply NoDup_filter]. by intros [_ [? _]%list_elem_of_filter]%list_elem_of_filter.
  - intros x [->|[Hx [_ Hin]%list_elem_of_filter]%list_elem_of_filter]%elem_of_cons; by apply list_elem_of_filter.
Qed.

Lemma held_cons n m H : held n (m :: H) = held n H + (if decide (m = n) then 1 else 0).
Proof. unfold held. cbn. destruct (Nat.eq_dec m n), (decide (m = n)); try done; lia. Qed.

Lemma held_delete n m H i :
  H !! i = Some m → held n (delete i H) = held n H - (if decide (m = n) then 1 else 0).
Proof.
  revert i. induction H as [|k H IH]; intros [|i] E; try done; simpl.
  - injection E as ->. rewrite held_cons. lia.
  - rewrite !held_cons, (IH i E). lia.
Qed.

Lemma held_pos n H : n ∈ H ↔ 0 < held n H.
Proof. unfold held. rewrite list_elem_of_In, (count_occ_In Nat.eq_dec). lia. Qed.

Lemma held_range n H : 0 ≤ held n H ≤ Z.of_nat (length H).
Proof. unfold held. pose proof (count_occ_bound Nat.eq_dec n H). lia. Qed.

(** The two updates a client's [get] makes on the node. *)
Definition touch (d : fnode) : fnode := set_node_hit (u32 (fn_hit d + 1)) (set_node_ref (u32 (fn_ref d + 1)) d).

(** The node of a result: the one with its first cluster, or a new one. *)
Definition fetched w (r : fat_result) (n : nat) (d : fnode) : Prop :=
  (fw_nodes w !! n = Some d ∧ fn_first_cluster d = fat_get_entry_cluster (r_entry r)) ∨
  (n = fw_next w ∧ d = new_node r ∧
   ∀ k e, fw_nodes w !! k = Some e → fn_first_cluster e ≠ fat_get_entry_cluster (r_entry r)).

Definition after_get w (n : nat) (d : fnode) : fat_world D :=
  if decide (n ∈ fw_list w) then set_nodes (<[n := touch d]> (fw_nodes w)) w
  else set_nodes (<[n := touch d]> (fw_nodes w)) (set_next (S n) (set_list (n :: fw_list w)
         (set_nof (u32 (fw_nof_nodes w + 1)) w))).

Lemma update_node_run n f d w :
  fw_nodes w !! n = Some d → update_node n f w = Done (tt, set_nodes (<[n := f d]> (fw_nodes w)) w).
Proof.
  intros E. unfold update_node, modify. do 3 f_equal. apply map_eq. intros k.
  destruct (decide (k = n)) as [->|Hk].
  - by rewrite lookup_alter_eq, lookup_insert_eq, E.
  - by rewrite lookup_alter_ne, lookup_insert_ne by done.
Qed.

Lemma touch_run n d w :
  fw_nodes w !! n = Some d → fw_mutex w = true →
  (update_node n (fun d => set_node_ref (u32 (fn_ref d + 1)) d) ;;;
   update_node n (fun d => set_node_hit (u32 (fn_hit d + 1)) d) ;;;
   super_unlock ;;; ret n) w = Done (n, set_mutex false (set_nodes (<[n := touch d]> (fw_nodes w)) w)).
Proof.
  intros E Hm. rewrite (bind_run _ _ _ _ _ (update_node_run n _ d w E)).
  erewrite bind_run; [|apply update_node_run; cbn; apply lookup_insert_eq].
  unfold super_unlock, bind, get, modify, ret, set_nodes, set_mutex. cbn. rewrite Hm, insert_insert_eq. done.
Qed.

Lemma safe_get_run N H w r :
  cache_ok N H w → ∃ n d, fetched w r n d ∧ safe_get_with_fat_result r w = Done (n, after_get w n d).
Proof.
  intros [C1 C2 C3 C4 C5 C6 C7 C8 C9 C10 C11 C12].
  unfold safe_get_with_fat_result, super_lock. unfold bind at 1 2, get at 1. rewrite C1.
  unfold modify at 1, unsafe_fat_get. unfold bind at 1 2, get at 1.
  destruct (find_cluster_run (set_mutex true w) (fw_list (set_mutex true w)) (fat_get_entry_cluster (r_entry r)))
    as ([n|] & E & Hr); [intros n Hn; by apply C5|..]; rewrite E.
  - destruct Hr as (Hn & d & Hd & Hcl). cbn in Hn, Hd. exists n, d. split; [by left|].
    unfold after_get. rewrite decide_True by done. rewrite (bind_run (ret n) _ _ n _ eq_refl).
    rewrite (touch_run n d) by done. unfold set_mutex, set_nodes. cbn. by rewrite C1.
  - exists (fw_next w), (new_node r). split.
    { right. split; [done|]. split; [done|]. intros k e Hk. apply (Hr k e); [by apply C5; exists e|done]. }
    unfold after_get. rewrite decide_False by (intros Hn; specialize (C4 _ Hn); lia).
    erewrite bind_run; [|reflexivity]. erewrite touch_run; [|cbn; apply lookup_insert_eq|done].
    unfold set_mutex, set_nodes. cbn. by rewrite C1, insert_insert_eq.
Qed.

Lemma after_get_ok N H w r n d :
  cache_ok N H w → Z.of_nat (S N) < 2 ^ 32 → fetched w r n d → cache_ok (S N) (n :: H) (after_get w n d).
Proof.
  intros [C1 C2 C3 C4 C5 C6 C7 C8 C9 C10 C11 C12] HN F. unfold after_get.
  assert (Hunused : (length (filter (fun k => k ∉ n :: H) (fw_list w)) ≤ 30)%nat).
  { etransitivity; [|exact C12]. apply submseteq_length, NoDup_submseteq; [by apply NoDup_filter|].
    intros x [Hx Hin]%list_elem_of_filter. apply list_elem_of_filter. split; [|done].
    intros Hx'. apply Hx. by right. }
  assert (Hother : ∀ k e, k ≠ n → fw_nodes w !! k = Some e → fn_ref e = held k (n :: H)).
  { intros k e Hk He. rewrite held_cons, decide_False by done. rewrite (C6 k e He). lia. }
  destruct F as [[Hd Hcl]|(-> & -> & Hnew)].
  - assert (Hin : n ∈ fw_list w) by (apply C5; by exists d). rewrite decide_True by done.
    pose proof (C7 n d Hd). pose proof (held_range n H).
    split; cbn; try done; try lia.
    + intros k. rewrite (C5 k), lookup_insert_is_Some. split; [|intros [<-|[_ ?]]; [by exists d|done]].
      intros Hk. destruct (decide (n = k)); [by left|by right].
    + intros k e [[<- <-]|[Hk He]]%lookup_insert_Some; [|by apply Hother].
      cbn. rewrite held_cons, decide_True, (C6 n d Hd) by done. apply u32_small. lia.
    + intros k e [[<- <-]|[Hk He]]%lookup_insert_Some; [cbn; rewrite u32_small by lia; lia|].
      pose proof (C7 k e He). lia.
    + intros k [->|Hk]%elem_of_cons; [done|by apply C8].
    + intros k m e f He Hf. apply lookup_insert_Some in He as [[<- <-]|[Hk He]], Hf as [[<- <-]|[Hm Hf]]; try done.
      * by apply (C9 n m d f).
      * by apply (C9 k n e d).
      * by apply (C9 k m e f).
  - assert (Hout : fw_next w ∉ fw_list w) by (intros Hn; specialize (C4 _ Hn); lia). rewrite decide_False by done.
    assert (H0 : held (fw_next w) H = 0).
    { pose proof (held_range (fw_next w) H). destruct (Z.eq_dec (held (fw_next w) H) 0); [done|].
      destruct Hout. apply C8, held_pos. lia. }
    split; cbn; try done; try lia.
    + by constructor.
    + rewrite C3, u32_small by lia. lia.
    + intros k [->|Hk]%elem_of_cons; [lia|]. specialize (C4 k Hk). lia.
    + intros k. rewrite elem_of_cons, (C5 k), lookup_insert_is_Some. split.
      * intros [->|Hk]; [by left|]. destruct (decide (fw_next w = k)); [by left|by right].
      * intros [<-|[_ ?]]; [by left|by right].
    + intros k e [[<- <-]|[Hk He]]%lookup_insert_Some; [|by apply Hother].
      cbn. by rewrite held_cons, decide_True, H0 by done.
    + intros k e [[<- <-]|[Hk He]]%lookup_insert_Some; [cbn; rewrite u32_small by lia; lia|].
      pose proof (C7 k e He). lia.
    + intros k [->|Hk]%elem_of_cons; [by left|right; by apply C8].
    + intros k m e f He Hf. apply lookup_insert_Some in He as [[<- <-]|[Hk He]], Hf as [[<- <-]|[Hm Hf]]; try done.
      * cbn. intros E. by destruct (Hnew _ _ Hf).
      * cbn. intros E. by destruct (Hnew _ _ He).
      * by apply (C9 k m e f).
    + change (length (filter (fun k => k ∉ fw_next w :: H) (fw_next w :: fw_list w)) ≤ 30)%nat.
      rewrite filter_cons_False by (intros Hn; apply Hn; by left). done.
Qed.

(** A reference is given up. *)
Lemma put_ref_ok N H w i n d :
  cache_upto true 30 N H w → Z.of_nat (S N) < 2 ^ 32 → H !! i = Some n → fw_nodes w !! n = Some d →
  cache_upto true 31 (S N) (delete i H) (set_nodes (<[n := set_node_ref (u32 (fn_ref d - 1)) d]> (fw_nodes w)) w).
Proof.
  intros [C1 C2 C3 C4 C5 C6 C7 C8 C9 C10 C11 C12] HN Hi Hd.
  assert (Hsub : ∀ k, k ∈ delete i H → k ∈ H).
  { intros k. apply list_elem_of_delete_inv. }
  assert (Hpos : 0 < held n H) by (apply held_pos; by apply (list_elem_of_lookup_2 _ i)).
  pose proof (held_range n H). pose proof (C6 n d Hd) as Hr.
  split; cbn; try done; try lia.
  - intros k. rewrite (C5 k), lookup_insert_is_Some. split; [|intros [<-|[_ ?]]; [by exists d|done]].
    intros Hk. destruct (decide (n = k)); [by left|by right].
  - intros k e [[<- <-]|[Hk He]]%lookup_insert_Some; rewrite (held_delete _ n _ i) by done.
    + rewrite decide_True by done. cbn. rewrite Hr. apply u32_small. lia.
    + rewrite decide_False by done. rewrite (C6 k e He). lia.
  - intros k e [[<- <-]|[Hk He]]%lookup_insert_Some; [pose proof (C7 n d Hd)|pose proof (C7 k e He)]; cbn; lia.
  - intros k Hk. by apply C8, Hsub.
  - intros k m e f He Hf. apply lookup_insert_Some in He as [[<- <-]|[Hk He]], Hf as [[<- <-]|[Hm Hf]]; try done.
    + by apply (C9 n m d f).
    + by apply (C9 k n e d).
    + by apply (C9 k m e f).
  - rewrite length_delete by by exists n. lia.
  - etransitivity; [apply (filter_grow (P := fun k => k ∉ H) n); [done|]|lia].
    intros x Hx. destruct (decide (x = n)); [by right|left]. intros Hx'. apply Hx.
    apply held_pos. rewrite (held_delete _ n _ i), decide_False by done. apply held_pos in Hx'. lia.
Qed.

Definition without (k : nat) w : fat_world D :=
  set_nodes (delete k (fw_nodes w)) (set_nof (u32 (fw_nof_nodes w - 1))
    (set_list (filter (fun x => x ≠ k) (fw_list w)) w)).

Lemma length_without k (l : list nat) :
  NoDup l → k ∈ l → length (filter (fun x => x ≠ k) l) = (length l - 1)%nat.
Proof.
  intros Hn Hk. rewrite <- (Permutation_length (l := k :: filter (fun x => x ≠ k) l) (l' := l)); [cbn; lia|].
  apply NoDup_Permutation; [|done|].
  - constructor; [|by apply NoDup_filter]. by intros [? _]%list_elem_of_filter.
  - intros x. rewrite elem_of_cons, list_elem_of_filter. split; [by intros [->|[_ ?]]|].
    intros Hx. destruct (decide (x = k)); [by left|by right].
Qed.

(** Too many nodes: the least used of the unreferenced ones is freed. *)
Lemma node_truncate_run N H w :
  cache_upto true 31 N H w → Z.of_nat N < UINT_MAX →
  ∃ b w', unsafe_truncate w = Done (b, w') ∧ cache_upto true 30 N H w' ∧
    (w' = w ∨ ∃ k d, w' = without k w ∧ fw_nodes w !! k = Some d ∧ fn_ref d = 0 ∧
       ∀ k' d', fw_nodes w !! k' = Some d' → fn_ref d' = 0 → fn_hit d ≤ fn_hit d').
Proof.
  intros C HN. pose proof C as [C1 C2 C3 C4 C5 C6 C7 C8 C9 C10 C11 C12].
  assert (Hunref : ∀ n d, fw_nodes w !! n = Some d → fn_ref d = 0 ↔ n ∉ H).
  { intros n d Hd. rewrite (C6 n d Hd), held_pos. pose proof (held_range n H). lia. }
  unfold unsafe_truncate. unfold bind at 1, get at 1.
  destruct (Z.leb_spec (fw_nof_nodes w) FAT_VFS_TRUNCATE_THRESHOLD) as [Hle|Hgt].
  { exists false, w. split; [done|]. split; [|by left]. split; try done.
    pose proof (length_filter (fun n => n ∉ H) (fw_list w)). unfold FAT_VFS_TRUNCATE_THRESHOLD in Hle. lia. }
  destruct (lowest_run w (fw_list w) UINT_MAX None) as (r & E & Hr); [intros n Hn; by apply C5|].
  rewrite (bind_run _ _ _ _ _ E).
  destruct Hr as [[-> Hnone]|(k & d & -> & Hk & Hd & Hr & Hh & Hmin)].
  - exists false, w. split; [done|]. split; [|by left]. split; try done.
    replace (filter (fun n => n ∉ H) (fw_list w)) with (@nil nat); [cbn; lia|]. symmetry.
    destruct (filter (fun n => n ∉ H) (fw_list w)) as [|n l] eqn:Ef; [done|].
    assert (n ∈ filter (fun n => n ∉ H) (fw_list w)) as [Hn Hin]%list_elem_of_filter by (rewrite Ef; by left).
    destruct (proj1 (C5 n) Hin) as [d Hd].
    specialize (Hnone n d Hin Hd (proj2 (Hunref n d Hd) Hn)). specialize (C7 n d Hd). lia.
  - exists true, (without k w). split; [done|]. split.
    2:{ right. exists k, d. repeat split; try done. intros k' d' Hd'. apply (Hmin k' d'); [|done]. apply C5. by exists d'. }
    assert (HkH : k ∉ H) by by apply (Hunref k d). pose proof (length_without k (fw_list w) C2 Hk) as Hlen.
    assert (Hpos : (0 < length (fw_list w))%nat) by (destruct (fw_list w); [by apply elem_of_nil in Hk|cbn; lia]).
    split; cbn; try done.
    + by apply NoDup_filter.
    + rewrite Hlen, C3, u32_small by (unfold UINT_MAX in HN; lia). lia.
    + intros n [_ Hn]%list_elem_of_filter. by apply C4.
    + intros n. rewrite list_elem_of_filter, (C5 n), lookup_delete_is_Some. split; intros [Hne ?]; (split; [by intros ->|done]).
    + intros n e [_ He]%lookup_delete_Some. by apply C6.
    + intros n e [_ He]%lookup_delete_Some. by apply (C7 n).
    + intros n Hn. apply list_elem_of_filter. split; [|by apply C8]. by intros ->.
    + intros n m e f [_ He]%lookup_delete_Some [_ Hf]%lookup_delete_Some. by apply (C9 n m).
    + lia.
    + pose proof (filter_drop (P := fun n => n ∉ H) k (fw_list w) C2 Hk HkH). lia.
Qed.

Lemma cache_mutex mx mx' b N H w : cache_upto mx b N H w → cache_upto mx' b N H (set_mutex mx' w).
Proof. by intros [C1 C2 C3 C4 C5 C6 C7 C8 C9 C10 C11 C12]. Qed.

(** What a client still relies on: the file of each node it holds. *)
Definition known w (n : nat) (cl : Z) : Prop := ∃ d, fw_nodes w !! n = Some d ∧ fn_first_cluster d = cl.

Lemma node_put_run N H w i n :
  cache_ok N H w → Z.of_nat (S N) < UINT_MAX → H !! i = Some n →
  ∃ w', fat_vfs_put n w = Done (tt, w') ∧ cache_ok (S N) (delete i H) w' ∧ fw_fs w' = fw_fs w ∧
    ∀ k cl, k ∈ delete i H → known w k cl → known w' k cl.
Proof.
  intros C HN Hi. unfold UINT_MAX in HN.
  destruct (proj1 (co_nodes _ _ _ _ _ C n)) as [d Hd]; [apply (co_held _ _ _ _ _ C), list_elem_of_lookup; eauto|].
  pose proof (co_free _ _ _ _ _ C) as Hfree. apply (cache_mutex false true) in C.
  apply (put_ref_ok N H _ i n d C ltac:(lia) Hi) in Hd as C1.
  set (w1 := set_nodes _ _) in C1.
  destruct (node_truncate_run (S N) _ w1 C1) as (b & w2 & E & C2 & Hw2); [unfold UINT_MAX; lia|].
  exists (set_mutex false w2). split; [|split; [by apply (cache_mutex true)|]].
  - unfold fat_vfs_put, super_lock. unfold bind at 1 2, get at 1. rewrite Hfree. unfold modify at 1.
    erewrite bind_run; [|by apply (get_node_run n d)].
    rewrite (bind_run _ _ _ _ _ (update_node_run n _ d (set_mutex true w) Hd)).
    rewrite (bind_run _ _ _ _ _ E). unfold super_unlock, bind, get.
    by rewrite (co_free _ _ _ _ _ C2).
  - assert (Hk1 : ∀ k cl, known w k cl → known w1 k cl).
    { intros k cl (e & He & Hcl). destruct (decide (k = n)) as [->|Hne].
      - rewrite Hd in He. injection He as <-. eexists. split; [apply lookup_insert_eq|done].
      - exists e. split; [|done]. cbn. by rewrite lookup_insert_ne. }
    destruct Hw2 as [->|(k0 & d0 & -> & Hd0 & Hr0 & _)]; (split; [done|]).
    + intros k cl _. apply Hk1.
    + intros k cl Hk Hkn. destruct (Hk1 k cl Hkn) as (e & He & Hcl). exists e. split; [|done].
      cbn. rewrite lookup_delete_ne; [done|]. intros <-.
      rewrite (co_ref _ _ _ _ _ C1 k0 d0 Hd0) in Hr0. apply held_pos in Hk. lia.
Qed.

Lemma get_run N H w r :
  cache_ok N H w → Z.of_nat (S N) < 2 ^ 32 →
  ∃ n w', safe_get_with_fat_result r w = Done (n, w') ∧ cache_ok (S N) (n :: H) w' ∧ fw_fs w' = fw_fs w ∧
    known w' n (fat_get_entry_cluster (r_entry r)) ∧ ∀ k cl, known w k cl → known w' k cl.
Proof.
  intros C HN. destruct (safe_get_run N H w r C) as (n & d & F & E).
  exists n, (after_get w n d). split; [done|]. split; [by apply (after_get_ok N H w r)|].
  assert (Hl : fw_nodes (after_get w n d) = <[n := touch d]> (fw_nodes w)) by (unfold after_get; by destruct (decide _)).
  split; [unfold after_get; by destruct (decide _)|]. split.
  - exists (touch d). rewrite Hl. split; [apply lookup_insert_eq|]. by destruct F as [[_ ?]|(_ & -> & _)].
  - intros k cl (e & He & Hcl). destruct (decide (k = n)) as [->|Hne].
    + exists (touch d). rewrite Hl. split; [apply lookup_insert_eq|].
      destruct F as [[Hd _]|(-> & _ & _)]; [by rewrite Hd in He; injection He as <-|].
      assert (fw_next w < fw_next w)%nat; [|lia]. apply (co_next _ _ _ _ _ C), (co_nodes _ _ _ _ _ C). by exists e.
    + exists e. by rewrite Hl, lookup_insert_ne.
Qed.

(** ** Clients of the cache *)

(** A client asks for the node of a directory entry, or gives a node it holds back. *)
Inductive cop := CGet (r : fat_result) | CPut (i : nat).

(** The references held, with the first cluster they were asked for. *)
Fixpoint clients (R : list (nat * Z)) (ops : list cop) : M (fat_world D) (list (nat * Z)) :=
  match ops with
  | [] => ret R
  | CGet r :: ops' =>
      n <- safe_get_with_fat_result r ;; clients ((n, fat_get_entry_cluster (r_entry r)) :: R) ops'
  | CPut i :: ops' =>
      match R !! i with
      | Some (n, _) => fat_vfs_put n ;;; clients (delete i R) ops'
      | None => clients R ops'
      end
  end.

Lemma fst_delete (R : list (nat * Z)) i : map fst (delete i R) = delete i (map fst R).
Proof. revert i. induction R as [|x R IH]; intros [|i]; try done. simpl. by rewrite IH. Qed.

Lemma cache_more N H w : cache_ok N H w → cache_ok (S N) H w.
Proof.
  intros [C1 C2 C3 C4 C5 C6 C7 C8 C9 C10 C11 C12]. split; try done; try lia.
  intros n d Hd. specialize (C7 n d Hd). lia.
Qed.

Lemma clients_run ops : ∀ N R w,
  cache_ok N (map fst R) w → Forall (fun x => known w (fst x) (snd x)) R → Z.of_nat (N + length ops) < UINT_MAX →
  ∃ R' w', clients R ops w = Done (R', w') ∧ cache_ok (N + length ops) (map fst R') w' ∧
    Forall (fun x => known w' (fst x) (snd x)) R' ∧ fw_fs w' = fw_fs w.
Proof.
  induction ops as [|[r|i] ops IH]; intros N R w C HR HN; cbn [length] in HN.
  - exists R, w. rewrite Nat.add_0_r. done.
  - destruct (get_run N _ w r C) as (n & w1 & E & C1 & Hfs & Hn & Hk); [unfold UINT_MAX in HN; lia|].
    destruct (IH (S N) ((n, fat_get_entry_cluster (r_entry r)) :: R) w1) as (R' & w' & E' & C' & HR' & Hfs').
    + done.
    + constructor; [done|]. eapply Forall_impl; [exact HR|]. intros x. apply Hk.
    + lia.
    + exists R', w'. cbn [clients length]. rewrite (bind_run _ _ _ _ _ E), E', Hfs', Hfs.
      by replace (N + S (length ops))%nat with (S N + length ops)%nat by lia.
  - cbn [clients length]. replace (N + S (length ops))%nat with (S N + length ops)%nat by lia.
    destruct (R !! i) as [[n cl]|] eqn:Hi.
    + assert (Hi' : map fst R !! i = Some n) by (by rewrite list_lookup_fmap, Hi).
      destruct (node_put_run N _ w i n C ltac:(lia) Hi') as (w1 & E & C1 & Hfs & Hk).
      rewrite (bind_run _ _ _ _ _ E), <- Hfs. apply IH; [by rewrite fst_delete| |lia].
      apply Forall_forall. intros x Hx. apply Hk.
      * rewrite <- fst_delete. by apply list_elem_of_fmap_2.
      * rewrite Forall_forall in HR. by apply HR, (list_elem_of_delete_inv _ i).
    + apply IH; [by apply cache_more|done|lia].
Qed.
End cache.

Definition empty_cache {D} (f : fstate D) : fat_world D := mk_fw f false 0 [] ∅ 0.

Lemma empty_cache_ok {D} (f : fstate D) : cache_ok 0 [] (empty_cache f).
Proof.
  split; cbn; try done; try lia; try apply NoDup_nil_2; try (by intros ? ?%elem_of_nil); try (by intros ? ? ?%lookup_empty_Some).
  intros n. rewrite lookup_empty. split; [by intros ?%elem_of_nil|by intros [? ?]].
Qed.

(** C31: whatever sequence of lookups and releases its clients make, every node a client
    holds stays allocated, belongs to the file it was asked for and counts exactly the
    references held; a file has one node; and at most thirty nodes that nobody holds
    are kept. *)
Theorem fat_node_cache {D} (f : fstate D) ops :
  Z.of_nat (length ops) < UINT_MAX →
  ∃ R w, clients [] ops (empty_cache f) = Done (R, w) ∧ fw_fs w = f ∧
    (∀ n cl, (n, cl) ∈ R → ∃ d, fw_nodes w !! n = Some d ∧ fn_first_cluster d = cl ∧
       fn_ref d = held n (map fst R)) ∧
    (∀ n m cl, (n, cl) ∈ R → (m, cl) ∈ R → n = m) ∧
    fw_nof_nodes w = Z.of_nat (length (fw_list w)) ∧
    (length (filter (fun n => n ∉ map fst R) (fw_list w)) ≤ 30)%nat.
Proof.
  intros HN. destruct (clients_run ops 0 [] (empty_cache f) (empty_cache_ok f)) as (R & w & E & C & HR & Hfs);
    [constructor|done|]. rewrite Forall_forall in HR.
  exists R, w. split; [done|]. split; [done|]. split; [|split; [|split]].
  - intros n cl Hn. destruct (HR _ Hn) as (d & Hd & Hcl). exists d. split; [done|]. split; [done|].
    by apply (co_ref _ _ _ _ _ C).
  - intros n m cl Hn Hm. destruct (HR _ Hn) as (d & Hd & Hcl), (HR _ Hm) as (e & He & Hcl').
    apply (co_one _ _ _ _ _ C n m d e Hd He). cbn in *. congruence.
  - apply C.
  - apply C.
Qed.

(** ** Files of a volume *)

Section files.
Context {D : Type} (bdev : block_dev D) (inv : D → Prop) (blk : D → Z → list Z) (Hdev : bdev_ok bdev inv blk).
Context (sup : fat_super) (Hgeo : geometry bdev sup) (res eb ub : Z) (efuel : nat).

(** The node [n] of the file at [cl] with [size] bytes, on the volume with the sectors
    [img]. *)
Definition file_node (n : nat) (cl size : Z) (img : Z → list Z) (locked : bool) (w : fat_world D) : Prop :=
  inv (f_dev (fw_fs w)) ∧ (∀ k, blk (f_dev (fw_fs w)) k = img k) ∧
  ∃ d, fw_nodes w !! n = Some d ∧ fn_first_cluster d = cl ∧ fn_num_bytes d = size ∧ fn_mutex d = locked.

(** The bytes of a file that fits into one sector. *)
Definition file_bytes (cl size : Z) (img : Z → list Z) : list Z :=
  slice 0 size (img (cluster_sector sup cl)).

Lemma slice_slice off num size (l : list Z) :
  0 ≤ off → off + num ≤ size → 0 ≤ num → slice off num (slice 0 size l) = slice off num l.
Proof.
  intros Ho Hs Hn. unfold slice. change (Z.to_nat 0) with 0%nat. rewrite drop_0, skipn_firstn_comm, take_take.
  by rewrite Nat.min_l by lia.
Qed.

Lemma slice_cut off num size (l : list Z) :
  0 ≤ off ≤ size → size - off ≤ num → slice off num (slice 0 size l) = slice off (size - off) l.
Proof.
  intros Ho Hs. unfold slice. change (Z.to_nat 0) with 0%nat. rewrite drop_0, skipn_firstn_comm, take_take.
  by rewrite Nat.min_r by lia; replace (Z.to_nat (size - off)) with (Z.to_nat size - Z.to_nat off)%nat by lia.
Qed.

Lemma node_read_run n cl size img w off num :
  0 < size ≤ bytes_per_sector (bs sup) → cluster_sector sup cl < bd_num_blocks bdev →
  file_node n cl size img true w → 0 ≤ off < size → 0 < num < 2 ^ 31 →
  let l := slice off num (file_bytes cl size img) in
  ∃ w', fat_vfs_node_read bdev sup n ub off num w = Done (Z.of_nat (length l), w') ∧
    file_node n cl size img true w' ∧ f_mem (fw_fs w') = write_bytes (f_mem (fw_fs w)) ub l ∧
    byte_list l ∧ length l = Z.to_nat (Z.min num (size - off)).
Proof.
  intros Hsz Hsec (Hi & Himg & d & Hd & Hcl & Hnb & Hmx) Ho Hn l.
  pose proof Hgeo as [G1 G2 G3 G4 G5 G6].
  assert (Hbpc : bytes_per_sector (bs sup) ≤ bytes_per_cluster sup) by (rewrite G6; nia).
  set (k := Z.min num (size - off)).
  destruct (ok_block _ _ _ Hdev (f_dev (fw_fs w)) (cluster_sector sup cl) Hi) as [Hlen Hbl];
    [split; [apply u32_range|done]|]. rewrite Himg in Hlen, Hbl.
  assert (Hl : l = slice off k (img (cluster_sector sup cl))).
  { unfold l, k, file_bytes. destruct (Z.le_gt_cases num (size - off)).
    - rewrite Z.min_l by done. apply slice_slice; lia.
    - rewrite Z.min_r by lia. apply slice_cut; lia. }
  destruct (slice_bytes off k (img (cluster_sector sup cl))) as [Hll Hlb]; [lia|lia|rewrite Hlen; lia|done|].
  rewrite <- Hl in Hll, Hlb.
  destruct (fat_read_run bdev inv blk Hdev sup (fw_fs w) cl ub off k cl Hgeo Hi) as (f' & E & Hi' & Hk' & Hm').
  { assert (Hq : Z.to_nat (off / bytes_per_cluster sup) = 0%nat) by (rewrite Z.div_small by lia; done).
    split; try (rewrite Hq); try done; try lia. rewrite Z.mod_small by lia. lia. }
  exists (set_fs f' w). split; [|split; [|split; [|split]]].
  - unfold fat_vfs_node_read. rewrite (proj2 (Z.leb_gt num 0)) by lia.
    rewrite (bind_run _ _ _ _ _ (get_node_run n d w Hd)), Hmx, Hnb, Hcl. cbn [negb].
    rewrite (proj2 (Z.leb_gt size off)) by lia. rewrite u32_small by lia.
    replace (if size <? off + num then s32 (size - off) else num) with k.
    2:{ destruct (Z.ltb_spec size (off + num)); [rewrite s32_small by lia|]; lia. }
    unfold on_fs, zoom. rewrite E. do 3 f_equal. rewrite Hll. lia.
  - split; [done|]. split; [intros j; cbn; by rewrite Hk'|]. by exists d.
  - cbn. rewrite Hm', Z.mod_small, Himg by lia. by rewrite Hl.
  - done.
  - done.
Qed.

Lemma fat_file_ok n cl size img d :
  0 < size ≤ bytes_per_sector (bs sup) → cluster_sector sup cl < bd_num_blocks bdev → 
  length (img (cluster_sector sup cl)) = Z.to_nat (bytes_per_sector (bs sup)) →
  is_file (node_ops bdev sup res eb ub efuel n d) (file_node n cl size img false) (file_node n cl size img true)
    (file_bytes cl size img).
Proof.
  intros Hsz Hsec Hlen. pose proof Hgeo as [G1 G2 G3 G4 G5 G6].
  assert (Hsize : Z.of_nat (length (file_bytes cl size img)) = size).
  { unfold file_bytes, slice. rewrite length_take, length_drop, Hlen. lia. }
  split.
  - rewrite Hsize. lia.
  - intros w (Hi & Himg & e & He & Hcl & Hnb & Hmx). unfold returns. cbn. unfold fat_vfs_node_lock.
    rewrite (bind_run _ _ _ _ _ (get_node_run n e w He)), Hmx, (update_node_run n _ e w He).
    split; [done|]. split; [done|]. eexists. split; [apply lookup_insert_eq|done].
  - intros w (Hi & Himg & e & He & Hcl & Hnb & Hmx). unfold returns. cbn. unfold fat_vfs_node_unlock.
    rewrite (bind_run _ _ _ _ _ (get_node_run n e w He)), Hmx, (update_node_run n _ e w He).
    split; [done|]. split; [done|]. eexists. split; [apply lookup_insert_eq|done].
  - intros w Hw. pose proof Hw as (Hi & Himg & e & He & Hcl & Hnb & Hmx). unfold returns. cbn.
    unfold fat_vfs_node_get_size. rewrite (bind_run _ _ _ _ _ (get_node_run n e w He)), Hmx. cbn. by rewrite Hsize.
  - intros w off num Hw Ho Hn. rewrite Hsize in Ho.
    destruct (node_read_run n cl size img w off num Hsz Hsec Hw Ho Hn) as (w' & E & Hw' & Hm & Hb & Hll).
    unfold returns. cbn. rewrite (bind_run _ _ _ _ _ E). cbn. split; [|done].
    rewrite Hm, Nat2Z.id, read_write_bytes by done. done.
Qed.

Context (pb : Z) (pfuel sfuel : nat) (Hsep : eb + 32 ≤ res ∨ res + 297 ≤ eb).

Lemma cache_fs mx b N H (w : fat_world D) f : cache_upto mx b N H w → cache_upto mx b N H (set_fs f w).
Proof. by intros [C1 C2 C3 C4 C5 C6 C7 C8 C9 C10 C11 C12]. Qed.

(** The path is in memory, and the directories the lookup reads are elsewhere. *)
Record path_ready (Ps : list (list Z)) : Prop := {
  pr_components : Forall component Ps;
  pr_bytes : Forall (fun c => 0 < c < 2 ^ 8) (path_text Ps);
  pr_pfuel : (length Ps ≤ pfuel)%nat;
  pr_sfuel : (length (path_text Ps) < sfuel)%nat;
  pr_efuel : (20 < efuel)%nat;
  pr_outside : ∀ a, pb ≤ a ≤ pb + Z.of_nat (length (path_text Ps)) → outside res eb a;
}.

Lemma stored_path m Ps :
  path_ready Ps → cstring (write_bytes m pb (path_text Ps ++ [0])) pb (path_text Ps).
Proof.
  intros [_ Hb _ _ _ _]. assert (Hbl : byte_list (path_text Ps ++ [0])).
  { apply Forall_app. split; [|repeat constructor; lia]. eapply Forall_impl; [exact Hb|]. cbn. lia. }
  pose proof (read_write_bytes m pb _ Hbl) as R. rewrite length_app, read_bytes_app in R.
  apply app_inj_1 in R as [R1 R2]; [|apply length_read_bytes]. cbn in R2. injection R2 as R2.
  split; [done|]. split; [done|]. eapply Forall_impl; [exact Hb|]. cbn. lia.
Qed.

(** Looking up a file on the volume gives a node that holds it. *)
Lemma fat_path_run N H w Ps dir x :
  cache_ok N H w → Z.of_nat (S N) < 2 ^ 32 → inv (f_dev (fw_fs w)) → byte_mem (f_mem (fw_fs w)) → path_ready Ps →
  resolves bdev blk sup (f_dev (fw_fs w)) efuel (fat_get_entry_cluster (root_entry sup)) Ps (Some (dir, x)) →
  (∀ n d, fw_nodes w !! n = Some d → fn_first_cluster d = fat_get_entry_cluster (snd x) →
     fn_num_bytes d = get32 (snd x) 28 ∧ fn_mutex d = false) →
  ∃ n d w', vs_get_by_path (fat_vfs_super bdev sup res eb pb ub pfuel sfuel efuel) (path_text Ps) w =
      Done (Some (node_ops bdev sup res eb ub efuel n d), w') ∧
    file_node n (fat_get_entry_cluster (snd x)) (get32 (snd x) 28) (blk (f_dev (fw_fs w))) false w'.
Proof.
  intros C HN Hi Hbm Hp Hr Hcons. pose proof Hp as [P1 P2 P3 P4 P5 P6]. cbn [vs_get_by_path fat_vfs_super].
  set (f1 := mk_fstate (f_dev (fw_fs w)) (write_bytes (f_mem (fw_fs w)) pb (path_text Ps ++ [0]))).
  rewrite (bind_run _ _ w tt (set_fs f1 w)) by done.
  destruct (walk_path_run bdev inv blk Hdev res eb Hsep sup efuel sfuel _ Ps _ _ Hr f1 pb pfuel)
    as (f2 & E2 & K & Ds); try done.
  { by apply byte_mem_write. }
  { by apply stored_path. }
  pose proof (cache_fs _ _ _ _ _ f2 C) as C2.
  set (r := read_result (f_mem f2) res). assert (Hre : r_entry r = snd x) by apply Ds.
  destruct (safe_get_run N H (set_fs f2 w) r C2) as (n & d & F & E3).
  assert (Hl : fw_nodes (after_get (set_fs f2 w) n d) = <[n := touch d]> (fw_nodes w))
    by (unfold after_get; by destruct (decide _)).
  exists n, (touch d), (after_get (set_fs f2 w) n d). split.
  - unfold fat_vfs_get_by_path. erewrite bind_run.
    2:{ erewrite bind_run; [|unfold on_fs, zoom; cbn [fw_fs set_fs]; rewrite E2; reflexivity].
        cbn [status]. unfold FAT_OK. change (negb (0 =? 0)) with false. cbv iota.
        unfold bind at 1, get at 1. cbn [fw_fs set_fs]. fold r.
        change (set_fs f2 (set_fs f1 w)) with (set_fs f2 w). rewrite (bind_run _ _ _ _ _ E3). reflexivity. }
    cbv iota beta. unfold vfs_view. erewrite bind_run; [|apply get_node_run; rewrite Hl; apply lookup_insert_eq]. done.
  - assert (Hfs : fw_fs (after_get (set_fs f2 w) n d) = f2) by (unfold after_get; by destruct (decide _)).
    unfold file_node. rewrite Hfs, Hl. split; [apply K|]. split; [intros k; by rewrite (kp_blk _ _ _ _ _ _ K)|].
    exists (touch d). split; [apply lookup_insert_eq|]. cbn.
    destruct F as [[Hd Hcl]|(-> & -> & _)].
    + cbn in Hd. rewrite Hre in Hcl. destruct (Hcons n d Hd Hcl). done.
    + by rewrite <- Hre.
Qed.
End files.

(** ** Directories *)

Section directories.
Context {D : Type} (bdev : block_dev D) (inv : D → Prop) (blk : D → Z → list Z) (Hdev : bdev_ok bdev inv blk).
Context (sup : fat_super) (Hgeo : geometry bdev sup) (res eb ub : Z) (efuel : nat).
Context (Hsep : eb + 32 ≤ res ∨ res + 297 ≤ eb) (Hef : (20 < efuel)%nat).
Implicit Types (w : fat_world D).

(** The indices at which the files of a listing start. *)
Fixpoint starts (i : Z) (l : list dirent) : list Z :=
  match l with [] => [] | x :: l' => i :: starts (i + Z.of_nat (length (fst x)) + 1) l' end.

Lemma length_starts l : ∀ i, length (starts i l) = length l.
Proof. induction l as [|x l IH]; intros i; cbn; [done|by rewrite IH]. Qed.

Lemma starts_nonneg l : ∀ i j k, 0 ≤ i → starts i l !! k = Some j → 0 ≤ j.
Proof.
  induction l as [|x l IH]; intros i j [|k] Hi E; try done; cbn in E; [by injection E as <-|].
  apply (IH (i + Z.of_nat (length (fst x)) + 1) j k); [lia|done].
Qed.

(** A listing can be entered at each of its files. *)
Lemma listing_drop d cl l : ∀ i k j,
  listing bdev blk sup d cl i l → starts i l !! k = Some j → listing bdev blk sup d cl j (drop k l).
Proof.
  induction l as [|x l IH]; intros i [|k] j Hl E; try done; cbn in E.
  - by injection E as <-.
  - inversion Hl; subst. by apply (IH _ k j) in E.
Qed.

(** What the loop leaves in the array of leaves. *)
Fixpoint cached (c : nat) (L xs : list Z) : list Z :=
  match xs with
  | [] => L
  | x :: xs' => cached (S c) (if (c <? 16)%nat then <[c := x]> L else L) xs'
  end.

Lemma cached_length xs : ∀ c L, length (cached c L xs) = length L.
Proof.
  induction xs as [|x xs IH]; intros c L; cbn [cached]; [done|]. rewrite IH. destruct (c <? 16)%nat; [apply length_insert|done].
Qed.

Lemma cached_before xs : ∀ c L k, (k < c)%nat → cached c L xs !! k = L !! k.
Proof.
  induction xs as [|x xs IH]; intros c L k Hk; cbn [cached]; [done|]. rewrite IH by lia.
  destruct (c <? 16)%nat; [|done]. apply list_lookup_insert_ne. lia.
Qed.

Lemma cached_lookup xs : ∀ c L k x,
  length L = 16%nat → (c + k < 16)%nat → xs !! k = Some x → cached c L xs !! (c + k)%nat = Some x.
Proof.
  induction xs as [|y xs IH]; intros c L [|k] x HL Hk E; try done; cbn [cached]; cbn in E.
  - injection E as ->. rewrite cached_before by lia. rewrite (proj2 (Nat.ltb_lt c 16)) by lia.
    rewrite Nat.add_0_r. apply list_lookup_insert_eq. lia.
  - replace (c + S k)%nat with (S c + k)%nat by lia. apply IH; [|lia|done].
    destruct (c <? 16)%nat; [by rewrite length_insert|done].
Qed.

(** Only the leaves of node [n] and the buffers on the stack differ. *)
Definition dir_kept (w : fat_world D) (n : nat) (d : fnode) (w' : fat_world D) : Prop :=
  kept inv blk res eb (fw_fs w) (fw_fs w') ∧ w' = set_fs (fw_fs w') (set_nodes (<[n := d]> (fw_nodes w)) w).

Lemma leaves_fill_run cl l : ∀ fuel n d i w,
  inv (f_dev (fw_fs w)) → byte_mem (f_mem (fw_fs w)) → 0 ≤ i → (length l < fuel)%nat →
  fw_nodes w !! n = Some d → 0 ≤ fn_num_leaves d → fn_num_leaves d + Z.of_nat (length l) < 2 ^ 32 →
  listing bdev blk sup (f_dev (fw_fs w)) cl i l →
  ∃ w', fill_leaves bdev sup res eb efuel fuel n cl i w = Done (tt, w') ∧
    dir_kept w n (set_node_leaves (fn_flags d) (fn_num_leaves d + Z.of_nat (length l))
      (cached (Z.to_nat (fn_num_leaves d)) (fn_leaves d) (starts i l)) d) w'.
Proof.
  induction l as [|x l IH]; intros fuel n d i w Hi Hbm H0 Hf Hd Hc Hlen Hl.
  all: destruct fuel as [|fuel]; [cbn in Hf; lia|]; cbn [fill_leaves].
  - inversion Hl as [? e He Hlast|]; subst.
    destruct (read_last bdev inv blk Hdev res eb sup cl i e (fw_fs w) efuel Hgeo Hi Hbm H0 He Hlast ltac:(lia))
      as (f1 & E & L & Hlene).
    exists (set_fs f1 w). split.
    { erewrite bind_run; [|unfold on_fs, zoom; by rewrite E]. done. }
    split; [by apply (leaves_kept inv blk res eb _ _ e)|]. cbn. rewrite Z.add_0_r, insert_id; [by destruct w|].
    rewrite Hd. by destruct d.
  - destruct (listing_step bdev inv blk Hdev res eb Hsep sup cl i x l (fw_fs w) efuel Hgeo Hi Hbm H0 Hef Hl)
      as (f1 & j & E & Hj' & Hj & K & _ & L1).
    erewrite bind_run; [|unfold on_fs, zoom; rewrite E; reflexivity].
    rewrite (proj2 (Z.eqb_neq j FAT_ENTRY_ERROR)), (proj2 (Z.eqb_neq j FAT_ENTRY_LAST))
      by (unfold FAT_ENTRY_ERROR, FAT_ENTRY_LAST; lia).
    erewrite bind_run; [|by apply (update_node_run n _ d (set_fs f1 w))].
    cbn [length] in Hlen, Hf. set (d1 := set_node_leaves (fn_flags d) (u32 (fn_num_leaves d + 1))
      (if fn_num_leaves d <? FAT_VFS_CACHE_LEAVES then <[Z.to_nat (fn_num_leaves d) := i]> (fn_leaves d)
       else fn_leaves d) d).
    assert (Hn1 : fn_num_leaves d1 = fn_num_leaves d + 1) by (cbn; apply u32_small; lia).
    destruct (IH fuel n d1 j (set_nodes (<[n := d1]> (fw_nodes w)) (set_fs f1 w))) as (w' & E' & K' & Hw'); try done.
    + apply K.
    + apply K.
    + lia.
    + cbn. apply lookup_insert_eq.
    + lia.
    + lia.
    + exists w'. split; [exact E'|]. split; [by apply (kept_trans inv blk res eb _ f1)|].
      rewrite Hw'. cbn [fw_fs fw_nodes set_nodes set_fs]. rewrite insert_insert_eq, Hn1.
      unfold set_fs, set_nodes. cbn [fw_mutex fw_nof_nodes fw_list fw_nodes fw_next]. f_equal.
      unfold set_node_leaves. cbn. f_equal. rewrite <- Hj'. f_equal; [lia|].
      replace (Z.to_nat (fn_num_leaves d + 1)) with (S (Z.to_nat (fn_num_leaves d))) by lia. f_equal.
      unfold FAT_VFS_CACHE_LEAVES.
      destruct (Z.ltb_spec (fn_num_leaves d) 16), (Nat.leb_spec (Z.to_nat (fn_num_leaves d)) 15); done || lia.
Qed.

(** The leaves of the node are those of the listing. *)
Definition clean (d : fnode) (l : list dirent) : Prop :=
  Z.land (fn_flags d) FAT_VFS_LEAVES_DIRTY = 0 ∧ fn_num_leaves d = Z.of_nat (length l) ∧
  ∀ k j, (k < 16)%nat → starts 0 l !! k = Some j → nth k (fn_leaves d) 0 = j.

(** The locked node of the directory at [cl], its leaves read or not yet. *)
Definition dir_state (d : fnode) (cl : Z) (l : list dirent) : Prop :=
  fn_mutex d = true ∧ fn_type d = VFS_NODE_DIRECTORY ∧ fn_first_cluster d = cl ∧
  (clean d l ∨ fn_flags d = FAT_VFS_LEAVES_DIRTY ∧ length (fn_leaves d) = 16%nat).

Lemma kept_refl f : inv (f_dev f) → byte_mem (f_mem f) → kept inv blk res eb f f.
Proof. by split. Qed.

Lemma maybe_fill_run n d cl l w :
  inv (f_dev (fw_fs w)) → byte_mem (f_mem (fw_fs w)) → (length l < efuel)%nat → Z.of_nat (length l) < 2 ^ 32 →
  fw_nodes w !! n = Some d → dir_state d cl l → listing bdev blk sup (f_dev (fw_fs w)) cl 0 l →
  ∃ w' fl nl lv, unsafe_maybe_fill_leaves bdev sup res eb efuel n w = Done (tt, w') ∧
    dir_kept w n (set_node_leaves fl nl lv d) w' ∧ clean (set_node_leaves fl nl lv d) l.
Proof.
  intros Hi Hbm Hf Hlen Hd (Hmx & Ht & Hcl & Hst) Hl. unfold unsafe_maybe_fill_leaves.
  rewrite (bind_run _ _ _ _ _ (get_node_run n d w Hd)), Ht. change (negb (_ =? _)) with false. cbv iota.
  destruct Hst as [Hclean|[Hfl H16]].
  - rewrite (proj1 Hclean). exists w, (fn_flags d), (fn_num_leaves d), (fn_leaves d).
    assert (set_node_leaves (fn_flags d) (fn_num_leaves d) (fn_leaves d) d = d) as -> by by destruct d.
    split; [done|]. split; [|done]. split; [by apply kept_refl|]. rewrite insert_id by done. by destruct w.
  - rewrite Hfl. change (Z.land FAT_VFS_LEAVES_DIRTY FAT_VFS_LEAVES_DIRTY =? 0) with false. cbv iota.
    rewrite (bind_run _ _ _ _ _ (update_node_run n _ d w Hd)).
    set (d0 := set_node_leaves (fn_flags d) 0 (fn_leaves d) d). rewrite Hcl.
    destruct (leaves_fill_run cl l efuel n d0 0 (set_nodes (<[n := d0]> (fw_nodes w)) w)) as (w1 & E1 & K1 & Hw1); try done.
    { cbn. apply lookup_insert_eq. }
    rewrite (bind_run _ _ _ _ _ E1). cbn in Hw1. rewrite insert_insert_eq in Hw1.
    set (d1 := set_node_leaves _ _ _ _) in Hw1. assert (Hd1 : fw_nodes w1 !! n = Some d1).
    { rewrite Hw1. cbn. apply lookup_insert_eq. }
    rewrite (update_node_run n _ d1 w1 Hd1).
    eexists _, (Z.lxor (fn_flags d) 1), (Z.of_nat (length l)), (cached 0 (fn_leaves d) (starts 0 l)).
    split; [reflexivity|]. split; [split|].
    + done.
    + rewrite Hw1. cbn. rewrite insert_insert_eq. done.
    + split; [cbn; by rewrite Hfl|]. split; [done|]. intros k j Hk Hj. cbn.
      apply nth_lookup_Some. by apply (cached_lookup _ 0 _ k).
Qed.

(** Reading the file number [k] of the directory, from the cached index or from the
    last cached one on. *)
Lemma skip_run cl : ∀ count l i w,
  inv (f_dev (fw_fs w)) → byte_mem (f_mem (fw_fs w)) → 0 ≤ i → (S count ≤ length l)%nat →
  listing bdev blk sup (f_dev (fw_fs w)) cl i l →
  ∃ f' x, skip_leaves bdev sup res eb efuel (S count) cl i w = Done (tt, set_fs f' w) ∧ l !! count = Some x ∧
    kept inv blk res eb (fw_fs w) f' ∧ describes res (f_mem f') cl x.
Proof.
  induction count as [|count IH]; intros l i w Hi Hbm H0 Hlen Hl.
  all: destruct l as [|x l]; [cbn in Hlen; lia|]; cbn [skip_leaves].
  all: destruct (listing_step bdev inv blk Hdev res eb Hsep sup cl i x l (fw_fs w) efuel Hgeo Hi Hbm H0 Hef Hl)
         as (f1 & j & E & _ & Hj & K & Ds & L1).
  all: rewrite (proj2 (Z.eqb_neq i FAT_ENTRY_LAST)) by (unfold FAT_ENTRY_LAST; lia).
  all: erewrite bind_run; [|unfold on_fs, zoom; rewrite E; reflexivity].
  all: rewrite (proj2 (Z.eqb_neq j FAT_ENTRY_ERROR)) by (unfold FAT_ENTRY_ERROR; lia).
  - by exists f1, x.
  - destruct (IH l j (set_fs f1 w) (kp_inv _ _ _ _ _ _ K) (kp_bytes _ _ _ _ _ _ K) Hj) as (f2 & y & E2 & Hy & K2 & D2);
      [cbn in Hlen; lia|done|].
    exists f2, y. split; [exact E2|]. split; [done|]. split; [by apply (kept_trans inv blk res eb _ f1)|done].
Qed.

Lemma cache_dir N H w w' n d fl nl lv :
  cache_ok N H w → fw_nodes w !! n = Some d → dir_kept w n (set_node_leaves fl nl lv d) w' → cache_ok N H w'.
Proof.
  intros [C1 C2 C3 C4 C5 C6 C7 C8 C9 C10 C11 C12] Hd [_ ->].
  split; cbn; try done.
  - intros k. rewrite (C5 k), lookup_insert_is_Some. split; [|intros [<-|[_ ?]]; [by exists d|done]].
    intros Hk. destruct (decide (n = k)); [by left|by right].
  - intros k e [[<- <-]|[Hk He]]%lookup_insert_Some; [cbn; by apply C6|by apply C6].
  - intros k e [[<- <-]|[Hk He]]%lookup_insert_Some; [cbn; by apply (C7 n)|by apply (C7 k)].
  - intros k m e f He Hf. apply lookup_insert_Some in He as [[<- <-]|[Hk He]], Hf as [[<- <-]|[Hm Hf]]; try done.
    + by apply (C9 n m d f).
    + by apply (C9 k n e d).
    + by apply (C9 k m e f).
Qed.

(** The part of [fat_vfs_node_get_leaf_node] that reads the entry of leaf [k]. *)
Definition read_leaf (d : fnode) (k : Z) : M (fat_world D) unit :=
  if k <? FAT_VFS_CACHE_LEAVES then
    idx <- on_fs (fat_read_entry bdev efuel res eb sup (fn_first_cluster d) (nth (Z.to_nat k) (fn_leaves d) 0)) ;;
    if idx =? FAT_ENTRY_ERROR then kpanic "fat_vfs_node_get_leaf_node(): bad entry (cache hit)" else ret tt
  else
    skip_leaves bdev sup res eb efuel (Z.to_nat (u32 (k - FAT_VFS_CACHE_LEAVES + 2))) (fn_first_cluster d)
      (nth (Z.to_nat (FAT_VFS_CACHE_LEAVES - 1)) (fn_leaves d) 0).

Lemma read_leaf_run w d cl l (k : nat) x :
  inv (f_dev (fw_fs w)) → byte_mem (f_mem (fw_fs w)) → clean d l → fn_first_cluster d = cl →
  listing bdev blk sup (f_dev (fw_fs w)) cl 0 l → l !! k = Some x → Z.of_nat (length l) < 2 ^ 32 →
  ∃ f', read_leaf d (Z.of_nat k) w = Done (tt, set_fs f' w) ∧
    kept inv blk res eb (fw_fs w) f' ∧ describes res (f_mem f') cl x.
Proof.
  intros Hi Hbm (_ & Hn & Hlv) <- Hl Hx Hlen. pose proof (lookup_lt_Some _ _ _ Hx) as Hk.
  unfold read_leaf, FAT_VFS_CACHE_LEAVES. destruct (Z.ltb_spec (Z.of_nat k) 16) as [H16|H16].
  - destruct (lookup_lt_is_Some_2 (starts 0 l) k) as [j Hj]; [by rewrite length_starts|].
    rewrite Nat2Z.id, (Hlv k j) by (done || lia).
    pose proof (listing_drop _ _ l 0 k j Hl Hj) as L. rewrite (drop_S _ _ _ Hx) in L.
    destruct (listing_step bdev inv blk Hdev res eb Hsep sup _ j x _ (fw_fs w) efuel Hgeo Hi Hbm
      (starts_nonneg _ 0 j k ltac:(lia) Hj) Hef L) as (f1 & j' & E & _ & Hj' & K & Ds & _).
    exists f1. split; [|done]. erewrite bind_run; [|unfold on_fs, zoom; rewrite E; reflexivity].
    by rewrite (proj2 (Z.eqb_neq j' FAT_ENTRY_ERROR)) by (unfold FAT_ENTRY_ERROR; lia).
  - destruct (lookup_lt_is_Some_2 (starts 0 l) 15) as [j Hj]; [rewrite length_starts; lia|].
    change (Z.to_nat (16 - 1)) with 15%nat. rewrite (Hlv 15%nat j) by (done || lia).
    pose proof (listing_drop _ _ l 0 15 j Hl Hj) as L.
    replace (Z.to_nat (u32 (Z.of_nat k - 16 + 2))) with (S (k - 15)) by (rewrite u32_small by lia; lia).
    destruct (skip_run (fn_first_cluster d) (k - 15) (drop 15 l) j w Hi Hbm (starts_nonneg _ 0 j 15 ltac:(lia) Hj)) as
      (f1 & y & E & Hy & K & Ds); [rewrite length_drop; clear - Hk H16; lia|done|].
    rewrite lookup_drop in Hy. replace (15 + (k - 15))%nat with k in Hy by lia.
    rewrite Hx in Hy. injection Hy as <-. by exists f1.
Qed.

Lemma get_leaf_run N H w n d cl l (k : nat) x :
  cache_ok N H w → Z.of_nat (S N) < 2 ^ 32 →
  inv (f_dev (fw_fs w)) → byte_mem (f_mem (fw_fs w)) → (length l < efuel)%nat → Z.of_nat (length l) < 2 ^ 32 →
  fw_nodes w !! n = Some d → dir_state d cl l → listing bdev blk sup (f_dev (fw_fs w)) cl 0 l →
  (0 < k)%nat → l !! k = Some x →
  ∃ m w', fat_vfs_node_get_leaf_node bdev sup res eb efuel n (Z.of_nat k) w = Done (m, w') ∧
    cache_ok (S N) (m :: H) w' ∧ known w' m (fat_get_entry_cluster (snd x)).
Proof.
  intros C HN Hi Hbm Hf Hlen Hd Hst Hl Hk Hx.
  destruct (maybe_fill_run n d cl l w Hi Hbm Hf Hlen Hd Hst Hl) as (w1 & fl & nl & lv & E1 & K1 & Cl1).
  pose proof (cache_dir N H w w1 n d fl nl lv C Hd K1) as C1. destruct K1 as [K1 Hw1].
  set (d1 := set_node_leaves fl nl lv d) in *.
  assert (Hd1 : fw_nodes w1 !! n = Some d1) by (rewrite Hw1; apply lookup_insert_eq).
  pose proof (listing_ext bdev blk sup _ _ _ _ _ (kp_blk _ _ _ _ _ _ K1) Hl) as L1.
  destruct (read_leaf_run w1 d1 cl l k x (kp_inv _ _ _ _ _ _ K1) (kp_bytes _ _ _ _ _ _ K1) Cl1 (proj1 (proj2 (proj2 Hst))) L1 Hx Hlen)
    as (f2 & E2 & K2 & Ds).
  set (r := read_result (f_mem f2) res). assert (Hre : r_entry r = snd x) by apply Ds.
  destruct (get_run N H (set_fs f2 w1) r (cache_fs _ _ _ _ _ f2 C1) HN) as (m & w3 & E3 & C3 & _ & Hm & _).
  exists m, w3. split; [|by rewrite <- Hre].
  destruct Hst as (Hmx & Ht & Hcl & _). unfold fat_vfs_node_get_leaf_node.
  rewrite (bind_run _ _ _ _ _ (get_node_run n d w Hd)), Hmx, Ht. cbn [negb].
  rewrite (proj2 (Z.eqb_neq (Z.of_nat k) 0)) by lia. change (negb (_ =? _)) with false. cbv iota.
  rewrite (bind_run _ _ _ _ _ E1), (bind_run _ _ _ _ _ (get_node_run n d1 w1 Hd1)).
  pose proof (lookup_lt_Some _ _ _ Hx) as Hlt.
  rewrite (proj1 (proj2 Cl1)), Z.geb_leb, (proj2 (Z.leb_gt (Z.of_nat (length l)) (Z.of_nat k)))
    by by apply Nat2Z.inj_lt.
  rewrite (bind_run _ _ _ _ _ E2). exact E3.
Qed.
End directories.

(** The leaves of a directory node are the files of the directory on disk: their
    number is that of the files, leaf 0 is the node itself, leaf [k] is the node of
    file number [k], whether its index is cached or found by reading on from the last
    cached one, and an index past the end is a panic. *)
Theorem fat_directory_leaves {D} (bdev : block_dev D) inv blk sup res eb efuel N H (w : fat_world D) n d cl l :
  bdev_ok bdev inv blk → geometry bdev sup → eb + 32 ≤ res ∨ res + 297 ≤ eb → (20 < efuel)%nat →
  inv (f_dev (fw_fs w)) → byte_mem (f_mem (fw_fs w)) → cache_ok N H w → Z.of_nat (S N) < 2 ^ 32 →
  fw_nodes w !! n = Some d → dir_state d cl l → listing bdev blk sup (f_dev (fw_fs w)) cl 0 l →
  (length l < efuel)%nat → Z.of_nat (length l) < 2 ^ 32 →
  (∃ w', fat_vfs_node_get_num_leaves bdev sup res eb efuel n w = Done (Z.of_nat (length l), w') ∧
     cache_ok N H w') ∧
  fat_vfs_node_get_leaf_node bdev sup res eb efuel n 0 w = Done (n, w) ∧
  (∀ k x, (0 < k)%nat → l !! k = Some x →
     ∃ m w', fat_vfs_node_get_leaf_node bdev sup res eb efuel n (Z.of_nat k) w = Done (m, w') ∧
       cache_ok (S N) (m :: H) w' ∧ known w' m (fat_get_entry_cluster (snd x))) ∧
  (∀ k, Z.of_nat (length l) ≤ k → 0 < k →
     fat_vfs_node_get_leaf_node bdev sup res eb efuel n k w =
     Panic "fat_vfs_node_get_leaf_node(): n >= num_leaves").
Proof.
  intros Hdev Hgeo Hsep Hef Hi Hbm C HN Hd Hst Hl Hf Hlen.
  destruct (maybe_fill_run bdev inv blk Hdev sup Hgeo res eb efuel Hsep Hef n d cl l w Hi Hbm Hf Hlen Hd Hst Hl)
    as (w1 & fl & nl & lv & E1 & K1 & Cl1).
  pose proof (cache_dir inv blk res eb N H w w1 n d fl nl lv C Hd K1) as C1.
  assert (Hd1 : fw_nodes w1 !! n = Some (set_node_leaves fl nl lv d)) by (rewrite (proj2 K1); apply lookup_insert_eq).
  pose proof Hst as (Hmx & Ht & _). split; [|split; [|split]].
  - exists w1. split; [|done]. unfold fat_vfs_node_get_num_leaves.
    rewrite (bind_run _ _ _ _ _ (get_node_run n d w Hd)), Hmx, Ht. cbn [negb]. change (negb (_ =? _)) with false. cbv iota.
    rewrite (bind_run _ _ _ _ _ E1), (bind_run _ _ _ _ _ (get_node_run n _ w1 Hd1)).
    by rewrite <- (proj1 (proj2 Cl1)).
  - unfold fat_vfs_node_get_leaf_node. by rewrite (bind_run _ _ _ _ _ (get_node_run n d w Hd)), Hmx.
  - intros k x Hk Hx. by apply (get_leaf_run bdev inv blk Hdev sup Hgeo res eb efuel Hsep Hef N H w n d cl l k x).
  - intros k Hk Hk0. unfold fat_vfs_node_get_leaf_node.
    rewrite (bind_run _ _ _ _ _ (get_node_run n d w Hd)), Hmx, Ht. cbn [negb].
    rewrite (proj2 (Z.eqb_neq k 0)) by lia. change (negb (_ =? _)) with false. cbv iota.
    rewrite (bind_run _ _ _ _ _ E1), (bind_run _ _ _ _ _ (get_node_run n _ w1 Hd1)).
    by rewrite (proj1 (proj2 Cl1)), Z.geb_leb, (proj2 (Z.leb_le (Z.of_nat (length l)) k)) by lia.
Qed.

(** Opening a path the first mount answers for. *)
Lemma vfs_open_run {W} (s : vfs W) path sup node w' :
  vfs_mount_mutex s = false → vfs_file_list_mutex s = false →
  first_request (vfs_mounts s) path = Some (sup, Path path) →
  vs_get_by_path sup path (v_world s) = Done (Some node, w') →
  ∃ s', vfs_open path s = Done (Some (v_next s), s') ∧ v_world s' = w' ∧
    v_files s' = <[v_next s := mk_file node 1 0]> (v_files s).
Proof.
  intros Hm Hf Hr Ha. unfold vfs_open. unfold bind at 1. rewrite (vfs_get_run path s Hm), Hr. cbn [answer ask]. rewrite Ha.
  unfold file_lock, bind, get. cbn. rewrite Hf. eexists. split; [reflexivity|done].
Qed.

(** C16: with a FAT volume mounted, opening the path of a file of at most one sector and
    then reading and seeking in any way behaves as on the bytes the volume holds for
    that file: the virtual filesystem, the node cache, the lookup in the directories,
    the allocation table and the block device together.  Both restrictions are those of
    the code, which addresses only the first sector of a cluster correctly: the file
    has at most one sector, and the entries of the directories on the path all lie in the
    first sectors of the directories' clusters ([resolves], by [dir_entry]).  A node
    of the same first cluster that is already in the cache must agree on the file's
    size and be unlocked. *)
Theorem fat_open_read {D} (bdev : block_dev D) inv blk sup res eb pb ub pfuel sfuel efuel N H
    (s : vfs (fat_world D)) Ps dir x :
  let d0 := f_dev (fw_fs (v_world s)) in
  let cl := fat_get_entry_cluster (snd x) in
  let size := get32 (snd x) 28 in
  bdev_ok bdev inv blk → geometry bdev sup → eb + 32 ≤ res ∨ res + 297 ≤ eb →
  vfs_mount_mutex s = false → vfs_file_list_mutex s = false →
  vfs_mounts s = [([], fat_vfs_super bdev sup res eb pb ub pfuel sfuel efuel)] →
  inv d0 → byte_mem (f_mem (fw_fs (v_world s))) → cache_ok N H (v_world s) → Z.of_nat (S N) < 2 ^ 32 →
  (∀ n d, fw_nodes (v_world s) !! n = Some d → fn_first_cluster d = cl → fn_num_bytes d = size ∧ fn_mutex d = false) →
  Ps ≠ [] → path_ready res eb efuel pb pfuel sfuel Ps →
  resolves bdev blk sup d0 efuel (fat_get_entry_cluster (root_entry sup)) Ps (Some (dir, x)) →
  0 < size ≤ bytes_per_sector (bs sup) → cluster_sector sup cl < bd_num_blocks bdev →
  ∃ f s', vfs_open (path_text Ps) s = Done (Some f, s') ∧
    ∀ ops pos rs, abs_run (file_bytes sup cl size (blk d0)) 0 ops = Some (pos, rs) →
      ∃ s'', run_ops f ops s' = Done (rs, s'').
Proof.
  intros d0 cl size Hdev Hgeo Hsep Hmm Hfm Hmounts Hi Hbm C HN Hcons Hne Hp Hr Hsz Hsec.
  destruct (fat_path_run bdev inv blk Hdev sup Hgeo res eb ub efuel pb pfuel sfuel Hsep N H (v_world s) Ps dir x C HN
    Hi Hbm Hp Hr Hcons) as (n & d & w' & E & Hnode).
  assert (Hreq : first_request (vfs_mounts s) (path_text Ps) =
    Some (fat_vfs_super bdev sup res eb pb ub pfuel sfuel efuel, Path (path_text Ps))).
  { rewrite Hmounts. destruct Ps as [|P Ps]; [done|]. done. }
  destruct (vfs_open_run s (path_text Ps) _ _ w' Hmm Hfm Hreq E) as (s' & Eo & Hw & Hfl).
  exists (v_next s), s'. split; [done|]. intros ops pos rs Ea.
  assert (Hlen : length (blk d0 (cluster_sector sup cl)) = Z.to_nat (bytes_per_sector (bs sup))).
  { pose proof Hgeo as [_ G2 _ _ _ _]. rewrite G2. apply (ok_block _ _ _ Hdev); [done|]. split; [apply u32_range|done]. }
  pose proof (fat_file_ok bdev inv blk Hdev sup Hgeo res eb ub efuel n cl size (blk d0) d Hsz Hsec Hlen) as Hfile.
  destruct (returns_inv _ _ _ (run_ops_at _ _ _ _ Hfile s' (v_next s) 1 ops 0 s' pos rs
    ltac:(split; exists w'; split; [exact Hnode|]; rewrite <- Hw, Hfl; destruct s'; unfold vset_world, vset_files; cbn in *;
          subst; by rewrite insert_insert_eq) ltac:(lia) Ea)) as (? & s'' & Es & -> & _).
  by exists s''.
Qed.

(** ** Examples *)

Definition hello_result : fat_result := mk_result 3 example_hello (replicate 261 0).
Definition files_result : fat_result := mk_result 2 example_files (replicate 261 0).

(** Two clients share the node of the file; one of them gives it back. *)
Lemma fat_node_cache_witness :
  ∃ R w, clients [] [CGet hello_result; CGet files_result; CGet hello_result; CPut 0] (empty_cache example_tree_fs) =
      Done (R, w) ∧ R = [(1%nat, 3); (0%nat, 4)] ∧ ∃ d, fw_nodes w !! 0%nat = Some d ∧ fn_ref d = 1.
Proof.
  destruct (fat_node_cache example_tree_fs [CGet hello_result; CGet files_result; CGet hello_result; CPut 0]
    ltac:(vm_compute; reflexivity)) as (R & w & E & _ & HR & _).
  assert (R = [(1%nat, 3); (0%nat, 4)]) as ->.
  { vm_compute in E. congruence. }
  exists [(1%nat, 3); (0%nat, 4)], w. split; [exact E|]. split; [reflexivity|].
  destruct (HR 0%nat 4) as (d & Hd & _ & Hr); [right; left|]. exists d. split; [exact Hd|]. rewrite Hr. reflexivity.
Defined.

(** The root directory of the volume is open and locked. *)
Definition root_node : fnode :=
  set_node_mutex true (touch (new_node (mk_result FAT_INVALID_CLUSTER (root_entry (example_super 1)) (replicate 261 0)))).
Definition root_world : fat_world (Z → list Z) := mk_fw example_tree_fs false 1 [0%nat] {[0%nat := root_node]} 1.

Lemma root_world_ok : cache_ok 1 [0%nat] root_world.
Proof.
  assert (Hn : ∀ n d, fw_nodes root_world !! n = Some d → n = 0%nat ∧ d = root_node).
  { intros n d H. change (({[0%nat := root_node]} : gmap nat fnode) !! n = Some d) in H. by apply lookup_singleton_Some in H as [<- <-]. }
  split; try done.
  - repeat constructor. by intros ?%elem_of_nil.
  - intros n ->%list_elem_of_singleton. cbn. lia.
  - intros n. cbn. rewrite list_elem_of_singleton, lookup_singleton_is_Some. done.
  - intros n d [-> ->]%Hn. reflexivity.
  - intros n d [-> ->]%Hn. vm_compute. split; discriminate.
  - by intros n m d e [-> ->]%Hn [-> ->]%Hn.
  - vm_compute. lia.
Qed.

Lemma fat_directory_leaves_witness :
  ∃ m w', fat_vfs_node_get_leaf_node (volume_dev 1) (example_super 1) 4000 5000 30 0 1 root_world = Done (m, w') ∧
    known w' m 3.
Proof.
  destruct (fat_directory_leaves (volume_dev 1) _ _ (example_super 1) 4000 5000 30 1 [0%nat] root_world 0 root_node 2
    [([], example_label); (lfn_encode (chars "files"), example_files)]
    (volume_dev_ok 1) example_geometry ltac:(right; lia) ltac:(lia)
    (example_volume_inv 1 _ ltac:(lia) example_tree_ok) example_tree_bytes root_world_ok ltac:(lia)
    eq_refl ltac:(split; [reflexivity|]; split; [reflexivity|]; split; [vm_compute; reflexivity|];
                  right; split; reflexivity) example_root_listing ltac:(cbn; lia) ltac:(cbn; lia))
    as (_ & _ & HL & _).
  destruct (HL 1%nat (lfn_encode (chars "files"), example_files) ltac:(lia) eq_refl) as (m & w' & E & _ & Hm).
  exists m, w'. split; [exact E|exact Hm].
Defined.

Lemma example_path_ready : path_ready 4000 5000 30 2000 2 30 [chars "files"; chars "hello"].
Proof.
  split; try (vm_compute; lia).
  - repeat constructor; vm_compute; done || lia.
  - refine (bool_decide_unpack _ _). vm_compute. exact I.
  - intros a Ha. change (2000 ≤ a ≤ 2012) in Ha. split; lia.
Qed.

Definition example_vfs : vfs (fat_world (Z → list Z)) :=
  mk_vfs false [([], fat_vfs_super (volume_dev 1) (example_super 1) 4000 5000 2000 6000 2 30 30)] false [] ∅ 0
    (empty_cache example_tree_fs).

Lemma example_root_resolves :
  resolves (volume_dev 1) (fun img => img) (example_super 1) (f_dev (fw_fs (v_world example_vfs))) 30
    (fat_get_entry_cluster (root_entry (example_super 1))) [chars "files"; chars "hello"]
    (Some (3, (lfn_encode example_name, example_hello))).
Proof.
  replace (fat_get_entry_cluster (root_entry (example_super 1))) with 2 by (vm_compute; reflexivity).
  exact example_resolves.
Qed.

Lemma example_hello_size : 0 < get32 example_hello 28 ≤ bytes_per_sector (bs (example_super 1)).
Proof. vm_compute. split; [reflexivity|discriminate]. Qed.

Lemma example_hello_sector :
  cluster_sector (example_super 1) (fat_get_entry_cluster example_hello) < bd_num_blocks (volume_dev 1).
Proof. vm_compute. reflexivity. Qed.

Lemma example_hello_ops :
  abs_run (file_bytes (example_super 1) (fat_get_entry_cluster example_hello) (get32 example_hello 28)
    (example_volume 1 example_tree)) 0 [Read 5; Seek 7 SEEK_SET; Read 100] =
  Some (12, [(5, chars "hello"); (7, []); (5, chars "world")]).
Proof. vm_compute. reflexivity. Qed.

Lemma example_path_text : path_text [chars "files"; chars "hello"] = chars "/files/hello".
Proof. vm_compute. reflexivity. Qed.

Lemma fat_open_read_witness :
  ∃ f s', vfs_open (chars "/files/hello") example_vfs = Done (Some f, s') ∧
    ∃ s'', run_ops f [Read 5; Seek 7 SEEK_SET; Read 100] s' =
      Done ([(5, chars "hello"); (7, []); (5, chars "world")], s'').
Proof.
  rewrite <- example_path_text.
  destruct (fat_open_read (volume_dev 1) _ _ (example_super 1) 4000 5000 2000 6000 2 30 30 0 [] example_vfs
    [chars "files"; chars "hello"] 3 (lfn_encode example_name, example_hello)
    (volume_dev_ok 1) example_geometry ltac:(right; lia) eq_refl eq_refl eq_refl
    (example_volume_inv 1 _ ltac:(lia) example_tree_ok) example_tree_bytes (empty_cache_ok _) ltac:(lia)
    (fun n d Hd _ => False_ind _ (lookup_empty_Some n d Hd)) ltac:(discriminate) example_path_ready
    example_root_resolves example_hello_size example_hello_sector) as (f & s' & E & Hrun).
  exists f, s'. split; [exact E|]. exact (Hrun _ _ _ example_hello_ops).
Defined.
