(* ===== verification/Devfs.v ===== *)
(** * fs/devfs.c, fs/devfs_vfs_core.c, fs/devfs_vfs_node.c, char/registry.c

    devfs keeps the nodes that drivers register and shows them as files of a mounted
    filesystem; the character-device registry registers its devices there.  [D] is the
    state of the devices.  A node is known by its index; names are the lists of their
    characters. *)

From stdpp Require Import base list sets gmap strings.
From Stdlib Require Import ZArith Lia.
From S2P Require Import Prelude Memory KUtils BlockDev Vfs.

(** What a driver registers. *)
Record devfs_node (D : Type) := mk_devfs_node {
  dn_name : list Z;
  dn_get_size : M D Z;
  dn_read : Z → Z → M D (Z * list Z);
  dn_write : list Z → Z → M D Z;
}.
Arguments mk_devfs_node {D}.
Arguments dn_name {D}.
Arguments dn_get_size {D}.
Arguments dn_read {D}.
Arguments dn_write {D}.

(** A registered node: its [vfs_node] fields and [devfs_vfs_node_data]. *)
Record dnode (D : Type) := mk_dnode {
  dd_index : Z;
  dd_flags : Z;
  dd_ref : Z;
  dd_mutex : bool;
  dd_node : devfs_node D;
}.
Arguments mk_dnode {D}.
Arguments dd_index {D}.
Arguments dd_flags {D}.
Arguments dd_ref {D}.
Arguments dd_mutex {D}.
Arguments dd_node {D}.

Record devfs (D : Type) := mk_devfs {
  devfs_mutex : bool;
  devfs_num_leaves : Z;
  devfs_inode_seq : Z;
  devfs_nodes : list (dnode D);
  df_dev : D;
}.
Arguments mk_devfs {D}.
Arguments devfs_mutex {D}.
Arguments devfs_num_leaves {D}.
Arguments devfs_inode_seq {D}.
Arguments devfs_nodes {D}.
Arguments df_dev {D}.

Section devfs.
Context {D : Type}.

Definition dset_mutex (b : bool) (s : devfs D) : devfs D :=
  mk_devfs b (devfs_num_leaves s) (devfs_inode_seq s) (devfs_nodes s) (df_dev s).
Definition dset_leaves (n : Z) (s : devfs D) : devfs D :=
  mk_devfs (devfs_mutex s) n (devfs_inode_seq s) (devfs_nodes s) (df_dev s).
Definition dset_seq (n : Z) (s : devfs D) : devfs D :=
  mk_devfs (devfs_mutex s) (devfs_num_leaves s) n (devfs_nodes s) (df_dev s).
Definition dset_nodes (l : list (dnode D)) (s : devfs D) : devfs D :=
  mk_devfs (devfs_mutex s) (devfs_num_leaves s) (devfs_inode_seq s) l (df_dev s).
Definition dset_dev (d : D) (s : devfs D) : devfs D :=
  mk_devfs (devfs_mutex s) (devfs_num_leaves s) (devfs_inode_seq s) (devfs_nodes s) d.

Definition dset_ref (r : Z) (x : dnode D) : dnode D := mk_dnode (dd_index x) (dd_flags x) r (dd_mutex x) (dd_node x).
Definition dset_held (b : bool) (x : dnode D) : dnode D :=
  mk_dnode (dd_index x) (dd_flags x) (dd_ref x) b (dd_node x).

Definition on_device {A} (m : M D A) : M (devfs D) A := zoom df_dev dset_dev m.

Definition devfs_lock : M (devfs D) unit :=
  s <- get ;;
  if devfs_mutex s then kpanic "thread_mutex_acquire(): on held lock" else modify (dset_mutex true).
Definition devfs_unlock : M (devfs D) unit :=
  s <- get ;;
  if devfs_mutex s then modify (dset_mutex false)
  else kpanic "thread_mutex_release(): called on an unheld mutex".

(** [devfs_get_node_data(node)] of the node with this index; the root and a freed node
    have no data. *)
Definition node_data (index : Z) : M (devfs D) (dnode D) :=
  s <- get ;;
  match List.find (fun x => dd_index x =? index) (devfs_nodes s) with
  | Some x => ret x
  | None => kpanic "devfs_get_node_data(): null pointer"
  end.
Definition update_node (index : Z) (f : dnode D → dnode D) : M (devfs D) unit :=
  modify (fun s => dset_nodes (map (fun x => if dd_index x =? index then f x else x) (devfs_nodes s)) s).

Definition devfs_put (index : Z) : M (devfs D) unit :=
  devfs_lock ;;;
  _ <- node_data index ;;
  update_node index (fun x => dset_ref (u32 (dd_ref x - 1)) x) ;;;
  devfs_unlock.

(** ** devfs_vfs_node.c *)

Definition devfs_node_lock (index : Z) : M (devfs D) unit :=
  x <- node_data index ;;
  if dd_mutex x then kpanic "thread_mutex_acquire(): on held lock" else update_node index (dset_held true).

Definition devfs_node_unlock (index : Z) : M (devfs D) unit :=
  x <- node_data index ;;
  if dd_mutex x then update_node index (dset_held false)
  else kpanic "thread_mutex_release(): called on an unheld mutex".

Definition devfs_node_get_name (index : Z) : M (devfs D) (list Z) :=
  x <- node_data index ;; ret (dn_name (dd_node x)).

Definition devfs_node_get_size (index : Z) : M (devfs D) Z :=
  x <- node_data index ;;
  kassert "thread_mutex_held(&(node_data->mutex))" (dd_mutex x) ;;;
  on_device (dn_get_size (dd_node x)).

Definition devfs_node_read (index off num : Z) : M (devfs D) (Z * list Z) :=
  x <- node_data index ;;
  kassert "thread_mutex_held(&(node_data->mutex))" (dd_mutex x) ;;;
  on_device (dn_read (dd_node x) off num).

Definition devfs_node_write (index : Z) (buf : list Z) (off : Z) : M (devfs D) Z :=
  x <- node_data index ;;
  kassert "thread_mutex_held(&(node_data->mutex))" (dd_mutex x) ;;;
  on_device (dn_write (dd_node x) buf off).

Definition devfs_node_get_num_leaves (index : Z) : M (devfs D) Z := ret 0.

Definition devfs_node_get_leaf (index n : Z) : M (devfs D) Z :=
  if n >? 0 then kpanic "devfs_node_get_leaf(): requested leaf n > 0" else ret index.

Definition devfs_node_get_leaf_node (index n : Z) : M (devfs D) Z :=
  if n >? 0 then kpanic "devfs_node_get_leaf_node(): requested leaf n > 0" else ret index.

(** The [vfs_node] built by [devfs_register_node]. *)
Definition device_node (index flags : Z) : vfs_node (devfs D) :=
  mk_node VFS_NODE_DEVICE flags index (devfs_node_lock index) (devfs_node_unlock index)
    (devfs_node_get_name index) (devfs_node_get_size index) (devfs_node_read index) (devfs_node_write index)
    (devfs_node_get_num_leaves index) (devfs_node_get_leaf index) (devfs_put index).

(** ** devfs_vfs_core.c *)

Definition devfs_root_lock : M (devfs D) unit := devfs_lock.
Definition devfs_root_unlock : M (devfs D) unit := devfs_unlock.
Definition devfs_root_get_name : M (devfs D) (list Z) := ret [].
Definition devfs_root_get_size : M (devfs D) Z := ret 0.
Definition devfs_root_read (off num : Z) : M (devfs D) (Z * list Z) := ret (0, []).
Definition devfs_root_write (buf : list Z) (off : Z) : M (devfs D) Z := ret 0.

Definition devfs_root_get_num_leaves : M (devfs D) Z :=
  s <- get ;;
  kassert "thread_mutex_held(&devfs_mutex)" (devfs_mutex s) ;;;
  ret (devfs_num_leaves s).

Definition devfs_root_index : Z := 1.

(** The [n]th node of the list, from 1: [LIST_FOREACH ... if (--n == 0) break;] *)
Definition nth_leaf (n : Z) (l : list (dnode D)) : option (dnode D) := l !! Z.to_nat (n - 1).

Definition devfs_root_get_leaf (n : Z) : M (devfs D) Z :=
  if n =? 0 then ret devfs_root_index else
  devfs_lock ;;;
  s <- get ;;
  let inode := match nth_leaf n (devfs_nodes s) with Some x => dd_index x | None => 0 end in
  devfs_unlock ;;;
  ret inode.

Definition devfs_root : vfs_node (devfs D) :=
  mk_node VFS_NODE_DIRECTORY VFS_NODE_BIT_READABLE devfs_root_index devfs_root_lock devfs_root_unlock
    devfs_root_get_name devfs_root_get_size devfs_root_read devfs_root_write
    devfs_root_get_num_leaves devfs_root_get_leaf (devfs_put devfs_root_index).

Definition devfs_get_root : M (devfs D) (option (vfs_node (devfs D))) := ret (Some devfs_root).

(** [if (node) node_data->ref++;] under the mutex, and the node found. *)
Definition reference (found : option (dnode D)) : M (devfs D) (option (vfs_node (devfs D))) :=
  match found with
  | Some x =>
      update_node (dd_index x) (fun y => dset_ref (u32 (dd_ref y + 1)) y) ;;;
      devfs_unlock ;;;
      ret (Some (device_node (dd_index x) (dd_flags x)))
  | None => devfs_unlock ;;; ret None
  end.

Definition devfs_root_get_leaf_node (n : Z) : M (devfs D) (option (vfs_node (devfs D))) :=
  if n =? 0 then ret (Some devfs_root) else
  devfs_lock ;;;
  s <- get ;;
  reference (nth_leaf n (devfs_nodes s)).

Definition devfs_get_by_index (index : Z) : M (devfs D) (option (vfs_node (devfs D))) :=
  devfs_lock ;;;
  s <- get ;;
  reference (List.find (fun x => dd_index x =? index) (devfs_nodes s)).

Definition devfs_get_by_path (path : list Z) : M (devfs D) (option (vfs_node (devfs D))) :=
  match path with
  | [] => kpanic "devfs_get_by_path(): incorrect path format"
  | c :: name =>
      if negb (c =? VFS_SEPARATOR) then kpanic "devfs_get_by_path(): incorrect path format" else
      if List.last path 0 =? VFS_SEPARATOR then kpanic "devfs_get_by_path(): incorrect path format" else
      devfs_lock ;;;
      s <- get ;;
      reference (List.find (fun x => kstrcmp_string name (dn_name (dd_node x))) (devfs_nodes s))
  end.

(** ** devfs.c *)

Definition devfs_super : vfs_super (devfs D) := mk_super devfs_get_root devfs_get_by_index devfs_get_by_path.

Definition devfs_get_super : vfs_super (devfs D) := devfs_super.

Definition devfs_init : M (devfs D) unit := modify (dset_mutex false) ;;; modify (dset_nodes []).

Definition devfs_register_node (node : devfs_node D) (vfs_flags : Z) : M (devfs D) Z :=
  devfs_lock ;;;
  s <- get ;;
  let index := devfs_inode_seq s in
  modify (dset_seq (u32 (index + 1))) ;;;
  modify (dset_leaves (u32 (devfs_num_leaves s + 1))) ;;;
  modify (dset_nodes (mk_dnode index vfs_flags 0 false node :: devfs_nodes s)) ;;;
  devfs_unlock ;;;
  ret index.

Definition devfs_unregister_node (handle : Z) : M (devfs D) unit :=
  devfs_lock ;;;
  node <- devfs_get_by_index handle ;;
  match node with
  | None => kpanic "devfs_unregister_node(): node not found"
  | Some n =>
      x <- node_data (vn_index n) ;;
      if dd_ref x >? 0 then kpanic "devfs_unregister_node(): node busy" else
      modify (fun s => dset_nodes (List.filter (fun y => negb (dd_index y =? vn_index n)) (devfs_nodes s)) s) ;;;
      modify (fun s => dset_leaves (u32 (devfs_num_leaves s - 1)) s) ;;;
      devfs_unlock
  end.

(** ** char/registry.c *)

Record char_dev := mk_char_dev {
  cd_name : list Z;
  cd_read : Z → M D (Z * list Z);
  cd_write : list Z → M D Z;
}.

Definition cdev_devfs_get_size : M D Z := ret 0.
Definition cdev_devfs_read (cdev : char_dev) (off num : Z) : M D (Z * list Z) := cd_read cdev num.
Definition cdev_devfs_write (cdev : char_dev) (buf : list Z) (off : Z) : M D Z := cd_write cdev buf.

Record char_dev_backend := mk_backend { cb_handle : Z; cb_cdev : char_dev; cb_devfs_handle : Z }.

Record cdevs := mk_cdevs {
  cdev_spinlock : bool;
  cdev_next_handle : Z;
  cdev_registry : list char_dev_backend;
  cd_devfs : devfs D;
}.

Definition cdev_init : M cdevs unit := modify (fun s => mk_cdevs false (cdev_next_handle s) [] (cd_devfs s)).

(** The name field holds 80 characters, the last of which stays zero. *)
Definition cdev_node (cdev : char_dev) : devfs_node D :=
  mk_devfs_node (take 79 (cd_name cdev)) cdev_devfs_get_size (cdev_devfs_read cdev) (cdev_devfs_write cdev).

Definition cdev_register (cdev : char_dev) (vfs_flags : Z) : M cdevs Z :=
  s <- get ;;
  if cdev_spinlock s then hang else
  modify (fun s => mk_cdevs true (cdev_next_handle s) (cdev_registry s) (cd_devfs s)) ;;;
  if existsb (fun b => kstrcmp_string (cd_name (cb_cdev b)) (cd_name cdev)) (cdev_registry s)
  then kpanic "cdev_register(): char device exists" else
  let handle := cdev_next_handle s in
  h <- zoom cd_devfs (fun d s => mk_cdevs (cdev_spinlock s) (cdev_next_handle s) (cdev_registry s) d)
         (devfs_register_node (cdev_node cdev) vfs_flags) ;;
  modify (fun s => mk_cdevs false (s32 (handle + 1)) (mk_backend handle cdev h :: cdev_registry s) (cd_devfs s)) ;;;
  ret handle.

Definition cdev_unregister (handle : Z) : M cdevs unit := kpanic "cdev_unregister(): not implemented".

End devfs.

(** ** Lemmas *)

Section registered.
Context {D : Type}.

(** Indices are unique and below the sequence number, and the leaves are counted. *)
Record devfs_inv (s : devfs D) : Prop := {
  di_mutex : devfs_mutex s = false;
  di_unique : NoDup (map dd_index (devfs_nodes s));
  di_index : Forall (fun x => 2 ≤ dd_index x < devfs_inode_seq s) (devfs_nodes s);
  di_leaves : devfs_num_leaves s = Z.of_nat (length (devfs_nodes s));
  di_seq : 2 ≤ devfs_inode_seq s < 2 ^ 32 ∧ Z.of_nat (length (devfs_nodes s)) < devfs_inode_seq s;
}.

Definition bump (index d : Z) (l : list (dnode D)) : list (dnode D) :=
  map (fun x => if dd_index x =? index then dset_ref (u32 (dd_ref x + d)) x else x) l.

Lemma devfs_lock_run (s : devfs D) : devfs_mutex s = false → devfs_lock s = Done (tt, dset_mutex true s).
Proof. intros E. unfold devfs_lock, bind, get. by rewrite E. Qed.

Lemma reference_run (s : devfs D) x :
  devfs_mutex s = false →
  reference (Some x) (dset_mutex true s) =
    Done (Some (device_node (dd_index x) (dd_flags x)), dset_nodes (bump (dd_index x) 1 (devfs_nodes s)) s).
Proof. intros E. by destruct s; cbn in *; subst. Qed.

Lemma find_index (l : list (dnode D)) x :
  NoDup (map dd_index l) → x ∈ l → List.find (fun y => dd_index y =? dd_index x) l = Some x.
Proof.
  induction l as [|y l IH]; intros Hn Hx; [by apply not_elem_of_nil in Hx|]. cbn in *.
  apply NoDup_cons in Hn as [Hy Hn]. apply elem_of_cons in Hx as [->|Hx]; [by rewrite Z.eqb_refl|].
  rewrite (proj2 (Z.eqb_neq _ _)); [by apply IH|]. intros E. apply Hy. rewrite E.
  by apply (list_elem_of_fmap_2 dd_index).
Qed.

Lemma bump_find (p : dnode D → bool) index d l x :
  (∀ y r, p (dset_ref r y) = p y) → List.find p l = Some x →
  List.find p (bump index d l) = Some (if dd_index x =? index then dset_ref (u32 (dd_ref x + d)) x else x).
Proof.
  intros Hp. induction l as [|y l IH]; [done|]. cbn.
  assert (E : p (if dd_index y =? index then dset_ref (u32 (dd_ref y + d)) y else y) = p y)
    by (destruct (dd_index y =? index); [apply Hp|done]).
  rewrite E. destruct (p y); [by intros [= ->]|done].
Qed.

Lemma bump_indices index d l : map dd_index (bump index d l) = map dd_index l.
Proof.
  unfold bump. rewrite map_map. apply map_ext. intros x. by destruct (dd_index x =? index).
Qed.

(** Taking and giving back a reference changes nothing. *)
Lemma bump_back index l :
  Forall (fun x => 0 ≤ dd_ref x < 2 ^ 32) l → bump index (-1) (bump index 1 l) = l.
Proof.
  induction 1 as [|x l Hx Hl IH]; [done|]. cbn. f_equal; [|exact IH].
  destruct (dd_index x =? index) eqn:E; cbn; rewrite E; [|done].
  destruct x as [i fl r mu nd]. unfold dset_ref. cbn in *. f_equal.
  rewrite u32_add_l. replace (r + 1 + -1) with r by lia. by apply u32_small.
Qed.

Lemma put_run (s : devfs D) x :
  devfs_mutex s = false → List.find (fun y => dd_index y =? dd_index x) (devfs_nodes s) = Some x →
  devfs_put (dd_index x) s = Done (tt, dset_nodes (bump (dd_index x) (-1) (devfs_nodes s)) s).
Proof.
  intros E F. unfold devfs_put. rewrite (bind_run _ _ _ _ _ (devfs_lock_run s E)).
  unfold node_data, bind, get, ret. cbn [dset_mutex devfs_nodes]. rewrite F. by destruct s; cbn in *; subst.
Qed.

Lemma get_by_path_run (s : devfs D) name :
  devfs_mutex s = false → List.last (VFS_SEPARATOR :: name) 0 ≠ VFS_SEPARATOR →
  devfs_get_by_path (VFS_SEPARATOR :: name) s =
    match List.find (fun x => kstrcmp_string name (dn_name (dd_node x))) (devfs_nodes s) with
    | Some x => Done (Some (device_node (dd_index x) (dd_flags x)), dset_nodes (bump (dd_index x) 1 (devfs_nodes s)) s)
    | None => Done (None, s)
    end.
Proof.
  intros E Hl. unfold devfs_get_by_path. rewrite Z.eqb_refl, (proj2 (Z.eqb_neq _ _) Hl). cbn [negb].
  rewrite (bind_run _ _ _ _ _ (devfs_lock_run s E)). unfold bind at 1, get. cbn [dset_mutex devfs_nodes].
  destruct (List.find _ _) as [x|]; [by apply reference_run|]. by destruct s; cbn in *; subst.
Qed.

Definition hold (index : Z) (b : bool) (l : list (dnode D)) : list (dnode D) :=
  map (fun x => if dd_index x =? index then dset_held b x else x) l.

Lemma hold_find index b l x :
  List.find (fun y => dd_index y =? index) l = Some x →
  List.find (fun y => dd_index y =? index) (hold index b l) = Some (dset_held b x).
Proof.
  induction l as [|y l IH]; [done|]. cbn. destruct (dd_index y =? index) eqn:E; cbn; rewrite E; [by intros [= ->]|done].
Qed.

Lemma hold_back index l :
  (∀ x, x ∈ l → dd_index x = index → dd_mutex x = false) → hold index false (hold index true l) = l.
Proof.
  induction l as [|y l IH]; intros Hl; [done|]. cbn. f_equal.
  - destruct (dd_index y =? index) eqn:E; cbn; rewrite E; [|done]. zbool.
    pose proof (Hl y (list_elem_of_here _ _) E) as Hy. destruct y. cbn in *. by subst.
  - apply IH. intros x Hx. apply Hl. by apply list_elem_of_further.
Qed.

Lemma node_data_run (s : devfs D) index x :
  List.find (fun y => dd_index y =? index) (devfs_nodes s) = Some x → node_data index s = Done (x, s).
Proof. intros E. unfold node_data, bind, get. by rewrite E. Qed.

Lemma node_lock_run (s : devfs D) index x :
  List.find (fun y => dd_index y =? index) (devfs_nodes s) = Some x → dd_mutex x = false →
  devfs_node_lock index s = Done (tt, dset_nodes (hold index true (devfs_nodes s)) s).
Proof. intros E Hm. unfold devfs_node_lock. rewrite (bind_run _ _ _ _ _ (node_data_run _ _ _ E)). by rewrite Hm. Qed.

Lemma node_unlock_run (s : devfs D) index x :
  List.find (fun y => dd_index y =? index) (devfs_nodes s) = Some x → dd_mutex x = true →
  devfs_node_unlock index s = Done (tt, dset_nodes (hold index false (devfs_nodes s)) s).
Proof. intros E Hm. unfold devfs_node_unlock. rewrite (bind_run _ _ _ _ _ (node_data_run _ _ _ E)). by rewrite Hm. Qed.

End registered.

(** Registering a node gives it a fresh index and keeps the registry well formed;
    afterwards every non-empty beginning of its name finds that node, with one more
    reference, and giving the node back restores the registry; a name that is not a
    beginning of the new node's name finds what it found before. *)
Theorem devfs_register_lookup {D} (s : devfs D) (node : devfs_node D) (flags : Z) :
  devfs_inv s → devfs_inode_seq s + 1 < 2 ^ 32 → Forall (fun x => 0 ≤ dd_ref x < 2 ^ 32) (devfs_nodes s) →
  ∃ s', devfs_register_node node flags s = Done (devfs_inode_seq s, s') ∧ devfs_inv s' ∧
    (∀ q, q ≠ [] → q `prefix_of` dn_name node → List.last q 0 ≠ VFS_SEPARATOR →
       ∃ s'', devfs_get_by_path (VFS_SEPARATOR :: q) s' =
                Done (Some (device_node (devfs_inode_seq s) flags), s'') ∧
              devfs_put (devfs_inode_seq s) s'' = Done (tt, s')) ∧
    (∀ q, ¬ q `prefix_of` dn_name node →
       List.find (fun x => kstrcmp_string q (dn_name (dd_node x))) (devfs_nodes s') =
       List.find (fun x => kstrcmp_string q (dn_name (dd_node x))) (devfs_nodes s)).
Proof.
  intros [Hm Hu Hi Hl [Hs Hn]] Hq Hr. set (i := devfs_inode_seq s) in *.
  set (x := mk_dnode i flags 0 false node).
  set (s' := mk_devfs false (devfs_num_leaves s + 1) (i + 1) (x :: devfs_nodes s) (df_dev s)).
  exists s'. split; [|split; [|split]].
  - unfold devfs_register_node. rewrite (bind_run _ _ _ _ _ (devfs_lock_run s Hm)).
    unfold bind, get, modify, ret. cbn. fold i. rewrite !u32_small by lia. done.
  - assert (Hx : i ∉ map dd_index (devfs_nodes s)).
    { intros Q. apply (list_elem_of_fmap_1 dd_index) in Q as (y & E & Hy).
      rewrite Forall_forall in Hi. specialize (Hi y Hy). lia. }
    split; cbn; try done.
    + apply NoDup_cons. done.
    + constructor; [cbn; lia|]. eapply Forall_impl; [exact Hi|]. cbn. intros y Hy. lia.
    + rewrite Hl. lia.
    + split; lia.
  - intros q Hne Hp Hlast.
    assert (Hlast' : List.last (VFS_SEPARATOR :: q) 0 ≠ VFS_SEPARATOR) by (by destruct q).
    rewrite (get_by_path_run s' q eq_refl Hlast'). cbn [s' devfs_nodes List.find].
    unfold kstrcmp_string at 1. cbn [x dd_node]. rewrite (bool_decide_eq_true_2 _ Hp).
    exists (dset_nodes (bump i 1 (x :: devfs_nodes s)) s'). split; [done|].
    set (y := dset_ref 1 x).
    assert (F : List.find (fun z => dd_index z =? dd_index y) (bump i 1 (x :: devfs_nodes s)) = Some y).
    { cbn. rewrite Z.eqb_refl. cbn. rewrite Z.eqb_refl. done. }
    pose proof (put_run (dset_nodes (bump i 1 (x :: devfs_nodes s)) s') y eq_refl F) as P.
    etransitivity; [exact P|]. cbn [dset_nodes devfs_nodes devfs_mutex devfs_num_leaves devfs_inode_seq df_dev s'].
    change (dd_index y) with i. rewrite bump_back; [done|]. by constructor.
  - intros q Hp. cbn. unfold kstrcmp_string at 1. by rewrite bool_decide_eq_false_2.
Qed.

(** A file object on the node of a registered character device. *)
Record cdev_file {D} (s : vfs (devfs D)) (f : nat) (index flags ref off : Z) (x : dnode D) (cdev : char_dev) : Prop := {
  cf_file : v_files s !! f = Some (mk_file (device_node index flags) ref off);
  cf_node : List.find (fun y => dd_index y =? index) (devfs_nodes (v_world s)) = Some x;
  cf_free : ∀ y, y ∈ devfs_nodes (v_world s) → dd_index y = index → dd_mutex y = false;
  cf_cdev : dd_node x = cdev_node cdev;
}.

Lemma cdev_locked {D} (s : vfs (devfs D)) f index flags ref off x cdev (w := v_world s) :
  cdev_file s f index flags ref off x cdev →
  let w1 := dset_nodes (hold index true (devfs_nodes w)) w in
  devfs_node_lock index w = Done (tt, w1) ∧
  List.find (fun y => dd_index y =? index) (devfs_nodes w1) = Some (dset_held true x) ∧
  ∀ d, devfs_node_unlock index (dset_dev d w1) = Done (tt, dset_dev d w).
Proof.
  intros [_ Hf Hm _]. cbn zeta.
  assert (Hx : dd_mutex x = false).
  { apply List.find_some in Hf as [Hx E]. zbool. apply Hm; [by apply list_elem_of_In|done]. }
  split; [by eapply node_lock_run|]. split; [by apply hold_find|].
  intros d. rewrite (node_unlock_run _ _ (dset_held true x)); [|by apply hold_find|done].
  unfold dset_nodes, dset_dev. cbn [devfs_nodes devfs_mutex devfs_num_leaves devfs_inode_seq df_dev]. by rewrite hold_back.
Qed.

(** Reading and writing a character device through the virtual filesystem.  The
    device's size is 0, so a read at any position from 0 on is at the end of the file
    and returns nothing without asking the device; a write hands the bytes to the
    device once, whatever the position, and moves the position by what the device
    accepted.  The node is unlocked afterwards and the registry is as before. *)
Theorem cdev_file_io {D} (s : vfs (devfs D)) (f : nat) (index flags ref off : Z) (x : dnode D) (cdev : char_dev)
    (buf : list Z) (num r : Z) (d' : D) :
  cdev_file s f index flags ref off x cdev → 0 ≤ off → 0 < num →
  cd_write cdev (take (Z.to_nat num) buf) (df_dev (v_world s)) = Done (r, d') →
  vfs_file_read f num s = Done ((0, []), s) ∧
  vfs_file_write f buf num s = Done (r, vset_world (dset_dev d' (v_world s))
    (vset_files (<[f := mk_file (device_node index flags) ref (s64 (off + r))]> (v_files s)) s)).
Proof.
  intros C Ho Hn Hw. pose proof (cdev_locked _ _ _ _ _ _ _ _ C) as (L & F & U). cbn zeta in L, F, U.
  destruct C as [Cf Cn Cm Cc]. set (w := v_world s) in *. set (w1 := dset_nodes (hold index true (devfs_nodes w)) w) in *.
  assert (Eg : get_file f s = Done (mk_file (device_node index flags) ref off, s)).
  { unfold get_file, bind, get. by rewrite Cf. }
  assert (El : on_world (devfs_node_lock index) s = Done (tt, vset_world w1 s)).
  { unfold on_world, zoom. fold w. by rewrite L. }
  split.
  - unfold vfs_file_read. rewrite (proj2 (Z.leb_gt num 0)) by lia.
    rewrite (bind_run _ _ _ _ _ Eg). cbn [f_node f_offset device_node vn_lock vn_get_size vn_unlock].
    rewrite (bind_run _ _ _ _ _ El).
    assert (Es : on_world (devfs_node_get_size index) (vset_world w1 s) = Done (0, vset_world w1 s)).
    { unfold on_world, zoom. cbn [v_world vset_world]. unfold devfs_node_get_size.
      rewrite (bind_run _ _ _ _ _ (node_data_run _ _ _ F)). cbn [dd_mutex dset_held dd_node]. by rewrite Cc. }
    rewrite (bind_run _ _ _ _ _ Es). rewrite Z.geb_leb, (proj2 (Z.leb_le 0 off) Ho).
    unfold bind, ret, on_world, zoom. cbn [v_world vset_world].
    pose proof (U (df_dev w)) as U0. change (dset_dev (df_dev w) w1) with w1 in U0. rewrite U0.
    unfold w. destruct s as [? ? ? ? ? ? [? ? ? ? ?]]. done.
  - unfold vfs_file_write. rewrite (proj2 (Z.leb_gt num 0)) by lia.
    rewrite (bind_run _ _ _ _ _ Eg). cbn [f_node f_offset device_node vn_lock vn_write vn_unlock].
    rewrite (bind_run _ _ _ _ _ El).
    assert (Ew : on_world (devfs_node_write index (take (Z.to_nat num) buf) (u32 off)) (vset_world w1 s) =
                 Done (r, vset_world (dset_dev d' w1) s)).
    { unfold on_world, zoom. cbn [v_world vset_world]. unfold devfs_node_write.
      rewrite (bind_run _ _ _ _ _ (node_data_run _ _ _ F)). cbn [dd_mutex dset_held dd_node]. rewrite Cc.
      cbn [kassert]. unfold bind, ret, on_device, zoom. cbn. unfold cdev_devfs_write. by rewrite Hw. }
    rewrite (bind_run _ _ _ _ _ Ew). unfold update_file, bind, modify, on_world, zoom. cbn [v_world vset_world vset_files].
    rewrite U. unfold ret. do 2 f_equal. unfold vset_world, vset_files. cbn. f_equal.
    apply map_eq. intros g. destruct (decide (g = f)) as [->|Hg].
    + by rewrite lookup_alter_eq, lookup_insert_eq, Cf.
    + by rewrite lookup_alter_ne, lookup_insert_ne.
Qed.

(** ** A terminal for the examples: it collects what is written to it *)

Definition toy_terminal : char_dev (D := list Z) :=
  mk_char_dev (chars "tty") (fun num l => Done ((3, chars "abc"), l))
    (fun buf l => Done (Z.of_nat (length buf), l ++ buf)).

Definition toy_devfs : devfs (list Z) := mk_devfs false 0 2 [] [].

Lemma devfs_register_lookup_witness :
  ∃ s' s'', devfs_register_node (cdev_node toy_terminal) 6 toy_devfs = Done (2, s') ∧
    devfs_get_by_path (chars "/tty") s' = Done (Some (device_node 2 6), s'') ∧
    devfs_put 2 s'' = Done (tt, s').
Proof.
  destruct (devfs_register_lookup toy_devfs (cdev_node toy_terminal) 6) as (s' & E & _ & G & _).
  - split; try done. constructor.
  - cbn. lia.
  - constructor.
  - destruct (G (chars "tty")) as (s'' & E1 & E2); [done|by exists []|done|].
    exists s', s''. split; [exact E|]. split; [exact E1|exact E2].
Defined.

Definition toy_world : devfs (list Z) :=
  mk_devfs false 1 3 [mk_dnode 2 6 1 false (cdev_node toy_terminal)] [].
Definition toy_vfs : vfs (devfs (list Z)) :=
  mk_vfs false [] false [0%nat] {[0%nat := mk_file (device_node 2 6) 1 0]} 1 toy_world.

Lemma cdev_file_io_witness :
  vfs_file_read 0 10 toy_vfs = Done ((0, []), toy_vfs) ∧
  ∃ s', vfs_file_write 0 (chars "hello") 5 toy_vfs = Done (5, s') ∧ df_dev (v_world s') = chars "hello".
Proof.
  assert (C : cdev_file toy_vfs 0 2 6 1 0 (mk_dnode 2 6 1 false (cdev_node toy_terminal)) toy_terminal).
  { split; try reflexivity. intros y Hy _. cbn in Hy. apply list_elem_of_singleton in Hy as ->. reflexivity. }
  destruct (cdev_file_io toy_vfs 0 2 6 1 0 _ toy_terminal (chars "hello") 5 5 (chars "hello") C) as [_ W];
    [lia|lia|reflexivity|].
  destruct (cdev_file_io toy_vfs 0 2 6 1 0 _ toy_terminal (chars "hello") 10 5 (chars "hello") C) as [R _];
    [lia|lia|reflexivity|].
  split; [exact R|]. eexists. split; [exact W|]. reflexivity.
Defined.
