(* ===== verification/ProcFork.v ===== *)
(** * arch/i386/proc.c: proc_fork

    Fork composes the parts: a process object and a page directory ([ProcMem]), the copy
    of the address space ([AddressDup]), a thread that returns from the parent's system
    call ([Thread]), and one more reference to every open file ([Vfs]).  The state is the
    state of the three; the kernel stacks are kept apart from the pages of the page
    allocator, which the heap takes once and for all. *)

From stdpp Require Import base list gmap sets strings.
From Stdlib Require Import ZArith Lia.
From S2P Require Import Prelude Memory KUtils MemLayout Cpu Palloc Paging KernelHeap HeapPages.
From S2P Require Import AddressSpace AddressDup ProcMem Thread BlockDev Vfs.

Definition PID_KERNEL : Z := 0.

Record fksys (W : Type) := mk_fk { fk_pm : pmsys; fk_ts : tsys; fk_vfs : vfs W }.
Arguments mk_fk {W}.
Arguments fk_pm {W}.
Arguments fk_ts {W}.
Arguments fk_vfs {W}.

Section fork.
Context {W : Type} {SH : StackHeap}.
Variable vm_map : list vm_region.
Variables kernel_pd uthread_switch_entry isr_exit : Z.

Definition on_pm {A} (m : M pmsys A) : M (fksys W) A :=
  zoom fk_pm (fun p s => mk_fk p (fk_ts s) (fk_vfs s)) m.
Definition on_ts {A} (m : M tsys A) : M (fksys W) A :=
  zoom fk_ts (fun t s => mk_fk (fk_pm s) t (fk_vfs s)) m.
Definition on_files {A} (m : M (vfs W) A) : M (fksys W) A :=
  zoom fk_vfs (fun v s => mk_fk (fk_pm s) (fk_ts s) v) m.

Definition set_file (i : nat) (f : option nat) (x : kproc) : kproc :=
  mk_kproc (kpr_pid x) (kpr_name x) (<[i := f]> (kpr_files x)) (kpr_mutex x) (kpr_arch x).

(** One turn of [for (i = 0; i < PROC_MAX_FILES; i++)]. *)
Definition dup_file (new cp : nat) (i : Z) : M (fksys W) unit :=
  x <- on_pm (rd_proc cp) ;;
  match kpr_files x !! Z.to_nat i with
  | Some (Some f) =>
      g <- on_files (vfs_file_dup (Some f)) ;;
      on_pm (wr_proc new (set_file (Z.to_nat i) g))
  | _ => ret tt
  end.

(** [ct] is the current thread; the result is the process and its main thread. *)
Definition proc_fork (ct : nat) (frame : list Z) : M (fksys W) (nat * nat) :=
  t <- on_ts (tget ct) ;;
  let cp := Z.to_nat (th_parent t) in
  x <- on_pm (rd_proc cp) ;;
  if kpr_pid x =? PID_KERNEL then kpanic "proc_fork(): attempted to fork kernel process" else
  if negb (at_cs (th_arch t) =? USER_CODE_SELECTOR) then kpanic "proc_fork(): thread has non-user selector" else
  on_pm (check_kernel kernel_pd) ;;;
  on_pm (mutex_acquire cp) ;;;
  on_pm (pd_acquire cp) ;;;
  new <- on_pm (proc_alloc kernel_pd (kpr_name x)) ;;
  y <- on_pm (rd_arch new) ;;
  z <- on_pm (rd_arch cp) ;;
  on_pm (on_k (vmdup vm_map kernel_pd (ap_pd y) (ap_pd z))) ;;;
  on_pm (wr_arch new (aset_vfrom (ap_vfrom z))) ;;;
  on_pm (wr_arch new (aset_vto (ap_vto z))) ;;;
  on_pm (wr_arch new (aset_stack (ap_vstack z) (ap_stack_size z))) ;;;
  on_pm (wr_arch new (aset_vbreak (ap_vbreak z))) ;;;
  on_pm (wr_arch new (aset_cur_vbreak (ap_cur_vbreak z))) ;;;
  y <- on_pm (rd_arch new) ;;
  main <- on_ts (uthread_fork_create (phys_kernel_pd kernel_pd) uthread_switch_entry isr_exit
            (ap_vstack y) (ap_stack_size y) (ap_pd y) ct frame) ;;
  for_up 16 0 (dup_file new cp) ;;;
  on_pm (pd_release cp) ;;;
  on_pm (mutex_release cp) ;;;
  ret (new, main).
End fork.

(** ** Lemmas: open files *)

Section files.
Context {W : Type}.

Definition one_more (x : file W) : file W := set_ref (u32 (f_ref x + 1)) x.

(** The open files after one more reference for each descriptor in [l]. *)
Fixpoint refs_up (l : list (option nat)) (m : gmap nat (file W)) : gmap nat (file W) :=
  match l with
  | [] => m
  | Some f :: l' => refs_up l' (alter one_more f m)
  | None :: l' => refs_up l' m
  end.

Definition descriptors (f : nat) (l : list (option nat)) : nat := length (filter (eq (Some f)) l).

Lemma refs_up_lookup l : ∀ m f,
  (∀ x, m !! f = Some x → 0 ≤ f_ref x < 2 ^ 32) →
  refs_up l m !! f = (fun x => set_ref (u32 (f_ref x + Z.of_nat (descriptors f l))) x) <$> m !! f.
Proof.
  induction l as [|[g|] l IH]; intros m f Hm; cbn [refs_up].
  - cbn. destruct (m !! f) as [x|] eqn:E; [|done]. cbn. rewrite Z.add_0_r, u32_small by auto. by destruct x.
  - rewrite IH.
    + destruct (decide (g = f)) as [->|Hne].
      * rewrite lookup_alter_eq. unfold descriptors. rewrite filter_cons_True by done. destruct (m !! f) as [x|]; [|done].
        cbn. unfold set_ref. cbn. rewrite u32_add_l. apply (f_equal (fun r => Some (mk_file (f_node x) (u32 r) (f_offset x)))). lia.
      * rewrite lookup_alter_ne by done. unfold descriptors. by rewrite filter_cons_False by congruence.
    + intros x. destruct (decide (g = f)) as [->|Hne].
      * rewrite lookup_alter_eq. destruct (m !! f); [|done]. intros [= <-]. apply u32_range.
      * rewrite lookup_alter_ne by done. auto.
  - rewrite IH by done. unfold descriptors. by rewrite filter_cons_False.
Qed.

Lemma refs_up_app l1 l2 m : refs_up (l1 ++ l2) m = refs_up l2 (refs_up l1 m).
Proof. revert m. induction l1 as [|[f|] l1 IH]; intros m; cbn; by rewrite ?IH. Qed.

(** The node can be locked and unlocked in any world with [I]. *)
Definition lockable (node : vfs_node W) (I : W → Prop) : Prop :=
  ∀ w, I w → returns (vn_lock node) w (fun _ w1 => returns (vn_unlock node) w1 (fun _ => I)).

(** [s'] is [s] but for the files and the world. *)
Record same_vfs (s s' : vfs W) (fs : gmap nat (file W)) (I : W → Prop) : Prop := {
  sv_rest : s' = vset_world (v_world s') (vset_files fs s);
  sv_world : I (v_world s');
}.

Lemma file_dup_run f x s I :
  v_files s !! f = Some x → I (v_world s) → lockable (f_node x) I →
  returns (vfs_file_dup (Some f)) s (fun r s' => r = Some f ∧ same_vfs s s' (alter one_more f (v_files s)) I).
Proof.
  intros Hf HI Hl. destruct (returns_inv _ _ _ (Hl _ HI)) as ([] & w1 & E1 & H1).
  destruct (returns_inv _ _ _ H1) as ([] & w2 & E2 & H2). unfold vfs_file_dup.
  eapply returns_run; [|split; [done|]].
  - rewrite (bind_run _ _ _ x s) by (unfold get_file, bind, get; by rewrite Hf).
    rewrite (bind_run _ _ _ tt (vset_world w1 s)) by (unfold on_world, zoom; by rewrite E1).
    rewrite (bind_run _ _ _ tt (vset_files (alter one_more f (v_files s)) (vset_world w1 s))) by done.
    rewrite (bind_run _ _ _ tt (vset_world w2 (vset_files (alter one_more f (v_files s)) (vset_world w1 s)))); [done|].
    unfold on_world, zoom. cbn. by rewrite E2.
  - by split.
Qed.

Lemma refs_up_node l : ∀ m f z, m !! f = Some z → ∃ z', refs_up l m !! f = Some z' ∧ f_node z' = f_node z.
Proof.
  induction l as [|[g|] l IH]; intros m f z Hz; cbn; [by exists z| |by apply IH].
  destruct (decide (g = f)) as [->|Hne].
  - destruct (IH (alter one_more f m) f (one_more z)) as (z' & E & N); [by rewrite lookup_alter_eq, Hz|].
    exists z'. by rewrite N.
  - apply IH. by rewrite lookup_alter_ne.
Qed.

Definition set_files (l : list (option nat)) (x : kproc) : kproc :=
  mk_kproc (kpr_pid x) (kpr_name x) l (kpr_mutex x) (kpr_arch x).

Lemma insert_next (l : list (option nat)) i o :
  l !! i = Some o → (i < 16)%nat →
  <[i := o]> (take i l ++ replicate (16 - i) None) = take (S i) l ++ replicate (16 - S i) None.
Proof.
  intros Hi H16. pose proof (lookup_lt_Some _ _ _ Hi).
  rewrite (take_S_r _ _ o) by done. rewrite insert_app_r_alt by (rewrite length_take; lia).
  rewrite length_take, Nat.min_l, Nat.sub_diag by lia. replace (16 - i)%nat with (S (16 - S i)) by lia.
  cbn [replicate insert list_insert]. by rewrite <- app_assoc.
Qed.

Lemma skip_next (l : list (option nat)) i :
  l !! i = Some None → (i < 16)%nat →
  take (S i) l ++ replicate (16 - S i) None = take i l ++ replicate (16 - i) None.
Proof.
  intros Hi H16. rewrite (take_S_r _ _ None), <- app_assoc by done.
  by replace (16 - i)%nat with (S (16 - S i)) by lia.
Qed.

Lemma dup_files_run cp new x y (s : fksys W) I :
  pm_procs (fk_pm s) !! cp = Some x → pm_procs (fk_pm s) !! new = Some y → cp ≠ new →
  length (kpr_files x) = 16%nat → kpr_files y = replicate 16 None → I (v_world (fk_vfs s)) →
  (∀ f, Some f ∈ kpr_files x → ∃ z, v_files (fk_vfs s) !! f = Some z ∧ lockable (f_node z) I) →
  ∃ v', for_up 16 0 (dup_file new cp) s =
      Done (tt, mk_fk (set_pm_procs (<[new := set_files (kpr_files x) y]> (pm_procs (fk_pm s))) (fk_pm s)) (fk_ts s) v') ∧
    same_vfs (fk_vfs s) v' (refs_up (kpr_files x) (v_files (fk_vfs s))) I.
Proof.
  intros Hc Hn Hne Hlen Hy HI Hf. set (fs := kpr_files x) in *.
  set (st := fun (j : nat) (v : vfs W) => mk_fk (set_pm_procs (<[new := set_files (take j fs ++ replicate (16 - j) None) y]>
    (pm_procs (fk_pm s))) (fk_pm s)) (fk_ts s) v).
  destruct (for_up_inv (fun j s1 => 0 ≤ j ∧ ∃ v, s1 = st (Z.to_nat j) v ∧
      same_vfs (fk_vfs s) v (refs_up (take (Z.to_nat j) fs) (v_files (fk_vfs s))) I) (dup_file new cp) 16 0 s)
    as (s1 & E & _ & v & -> & Hv).
  - split; [lia|]. exists (fk_vfs s). split; [|split; [by destruct (fk_vfs s)|done]]. unfold st.
    change (take (Z.to_nat 0) fs ++ replicate (16 - Z.to_nat 0) None) with (replicate 16 (@None nat)). rewrite <- Hy.
    replace (set_files (kpr_files y) y) with y by by destruct y.
    rewrite insert_id by done. by destruct s as [[] ? ?].
  - intros j s1 Hj (_ & v & -> & Hv). change (Z.of_nat 16) with 16 in Hj. unfold dup_file.
    assert (Hc' : pm_procs (fk_pm (st (Z.to_nat j) v)) !! cp = Some x) by (cbn; by rewrite lookup_insert_ne).
    rewrite (bind_run _ _ _ x (st (Z.to_nat j) v))
      by (unfold on_pm, zoom; by rewrite (rd_kproc_run _ _ _ Hc')).
    destruct (lookup_lt_is_Some_2 fs (Z.to_nat j) ltac:(lia)) as [o Ho]. fold fs. rewrite Ho.
    replace (Z.to_nat (j + 1)) with (S (Z.to_nat j)) by lia. pose proof Hv as [Hv1 Hv2].
    destruct o as [f|].
    + destruct (Hf f (list_elem_of_lookup_2 _ _ _ Ho)) as (z & Hz & Hl).
      destruct (refs_up_node (take (Z.to_nat j) fs) _ _ _ Hz) as (z' & Hz' & Nz).
      destruct (returns_inv _ _ _ (file_dup_run f z' v I ltac:(rewrite Hv1; exact Hz') Hv2 ltac:(by rewrite Nz)))
        as (? & v2 & E2 & -> & [Hv3 Hv4]).
      exists (st (S (Z.to_nat j)) v2). split.
      * rewrite (bind_run _ _ _ (Some f) (st (Z.to_nat j) v2)) by (unfold on_files, zoom; cbn [st fk_vfs]; by rewrite E2).
        unfold on_pm, zoom. cbn [st fk_pm]. rewrite (wr_kproc_run new _ _ (lookup_insert_eq _ _ _)).
        unfold st, set_pm_procs. cbn [pm_k pm_procs pm_next]. rewrite insert_insert_eq. unfold set_file, set_files.
        cbn [kpr_files kpr_pid kpr_name kpr_mutex kpr_arch].
        by rewrite (insert_next fs _ _ Ho) by lia.
      * split; [lia|]. exists v2. split; [done|]. rewrite (take_S_r _ _ _ Ho), refs_up_app.
        split; [|done]. rewrite Hv3, Hv1. done.
    + exists (st (S (Z.to_nat j)) v). split.
      * unfold ret, st. by rewrite skip_next by (done || lia).
      * split; [lia|]. exists v. split; [done|]. rewrite (take_S_r _ _ _ Ho), refs_up_app. by split.
  - exists v. change (Z.to_nat (0 + Z.of_nat 16)) with 16%nat in *. unfold st in E.
    rewrite (take_ge fs) in E, Hv by lia. cbn [replicate Nat.sub] in E. rewrite app_nil_r in E. by split.
Qed.
End files.

(** ** Lemmas: processes *)

Lemma wr_arch_at p x ps k n f :
  wr_arch p f (mk_pm k (<[p := x]> ps) n) = Done (tt, mk_pm k (<[p := with_arch x f]> ps) n).
Proof.
  rewrite (wr_arch_run p x (mk_pm k (<[p := x]> ps) n) (lookup_insert_eq _ _ _)). unfold set_pm_procs. cbn.
  by rewrite insert_insert_eq.
Qed.

Lemma rd_arch_at p x ps k n : rd_arch p (mk_pm k (<[p := x]> ps) n) = Done (kpr_arch x, mk_pm k (<[p := x]> ps) n).
Proof. by apply rd_arch_run, lookup_insert_eq. Qed.

(** The process object a new page directory is put in. *)
Definition fresh_proc (name : list Z) (pd : Z) : kproc :=
  mk_kproc 0 (proc_name name) (replicate 16 None) false (mk_arch false pd 0 0 0 0 0 0 0).

Definition set_mutex (b : bool) (x : kproc) : kproc :=
  mk_kproc (kpr_pid x) (kpr_name x) (kpr_files x) b (kpr_arch x).

Section processes.
Variable vm_map : list vm_region.
Variable kernel_pd : Z.
Variable r : vm_region.
Hypothesis Hmap : map_ok vm_map r.
Local Abbreviation kpd := (phys_kernel_pd kernel_pd).

Lemma proc_alloc_run name w l k ps n :
  paging_ok kernel_pd r (w :: l) k → mach_ok kpd (k_mach k) → kp_spinlock k = free_lock →
  kernel_pd mod PAGE_SIZE = 0 → kernel_pd ∉ w :: l →
  ∃ t, proc_alloc kernel_pd name (mk_pm k ps n) =
      Done (n, mk_pm (set_pal t k) (<[n := fresh_proc name (v2p r w)]> ps) (S n)) ∧ palloc_inv r l t ∧
    space r (pmem t) w ∅ ∅ ∧ agree_off (w :: l) (kmem k) (pmem t) ∧
    ∀ i, 0 ≤ i < 1024 → load32 (pmem t) (w + 4 * i) = kernel_entry kernel_pd (kmem k) i.
Proof.
  intros H1 H2 H3 H4 H5.
  destruct (alloc_dir_run vm_map kernel_pd r Hmap k w l H1 H2 H3 H4 H5) as (t & E & A1 & A2 & A3 & _ & A4).
  exists t. split; [|done]. unfold proc_alloc.
  rewrite (bind_run _ _ _ tt (mk_pm k ps n)) by (apply on_k_same, assert_kernel_tables_run; apply H2).
  rewrite (bind_run _ _ _ (mk_pm k ps n) (mk_pm k ps n)) by done. cbn [pm_next].
  rewrite (bind_run _ _ _ tt (mk_pm k (<[n := fresh_proc name 0]> ps) (S n))) by done.
  rewrite (bind_run _ _ _ (v2p r w) (mk_pm (set_pal t k) (<[n := fresh_proc name 0]> ps) (S n)))
    by (unfold on_k, zoom; cbn [pm_k]; by rewrite E).
  do 6 rewrite (bind_run _ _ _ _ _ (wr_arch_at _ _ _ _ _ _)). done.
Qed.

Lemma proc_mutex_acquire_run p x (s : pmsys) :
  pm_procs s !! p = Some x → kpr_mutex x = false →
  mutex_acquire p s = Done (tt, set_pm_procs (<[p := set_mutex true x]> (pm_procs s)) s).
Proof.
  intros Hp Hm. unfold mutex_acquire. by rewrite (bind_run _ _ _ _ _ (rd_kproc_run _ _ _ Hp)), Hm, (wr_kproc_run _ _ _ Hp).
Qed.

Lemma proc_mutex_release_run p x (s : pmsys) :
  pm_procs s !! p = Some x → kpr_mutex x = true →
  mutex_release p s = Done (tt, set_pm_procs (<[p := set_mutex false x]> (pm_procs s)) s).
Proof.
  intros Hp Hm. unfold mutex_release. by rewrite (bind_run _ _ _ _ _ (rd_kproc_run _ _ _ Hp)), Hm, (wr_kproc_run _ _ _ Hp).
Qed.

(** The address space of the child: a copy of the parent's, with pages of its own. *)
Record copied (l : list Z) (a : Z) (T : gmap Z Z) (F : upages) (m : mem) (w : Z) (T2 : gmap Z Z) (F2 : upages)
    (l' : list Z) (m' : mem) : Prop := {
  cp_parent : space r m' a T F;
  cp_child : space r m' w T2 F2;
  cp_apart : NoDup (owned a T F ++ owned w T2 F2 ++ l');
  cp_parent_bytes : ∀ v, ubytes F m' v = ubytes F m v;
  cp_child_bytes : ∀ v, ubytes F2 m' v = ubytes F m v;
  cp_flags : ∀ n, snd <$> F2 !! n = snd <$> F !! n;
  cp_taken : owned w T2 F2 ++ l' ⊆ l;
  cp_frame : agree_off l m m';
}.

(** A new directory, then [vmdup]. *)
Lemma copy_space_run w l k a T F :
  has_space kernel_pd r (w :: l) k a T F → mach_ok kpd (k_mach k) → kp_spinlock k = free_lock →
  kernel_pd mod PAGE_SIZE = 0 → kernel_pd ∉ w :: l → v2p r a ≠ kpd →
  (size T + size F ≤ length l)%nat → (∀ n, is_Some (F !! n) → 0 ≤ n < 2 ^ 20) →
  (∀ i, is_Some (T !! i) → has (load32 (kmem k) (kernel_pd + 4 * i)) PAGE_BIT_GLOBAL = false) →
  ∀ t, palloc_inv r l t → space r (pmem t) w ∅ ∅ → agree_off (w :: l) (kmem k) (pmem t) →
  (∀ i, 0 ≤ i < 1024 → load32 (pmem t) (w + 4 * i) = kernel_entry kernel_pd (kmem k) i) →
  ∃ t' T2 F2 l', vmdup vm_map kernel_pd (v2p r w) (v2p r a) (set_pal t k) = Done (tt, set_pal t' k) ∧
    palloc_inv r l' t' ∧ copied (w :: l) a T F (kmem k) w T2 F2 l' (pmem t').
Proof.
  intros [[Hc Hi] Hs Hap] Hm Hkp Hal Hnk Hne Hroom HF HT t Ht Hw Hag Hent.
  assert (Hpg : Forall (page_ok r) (w :: l)) by apply Hi.
  destruct (space_agree r (w :: l) (kmem k) (pmem t) a T F Hpg) as [Hs1 Hb1]; [|done|done|].
  { intros p Hp. apply NoDup_app in Hap as (_ & Hd & _). by apply Hd. }
  destruct (vmdup_run vm_map kernel_pd r Hmap (set_pal t k) l a T F w)
    as (l' & t' & T2 & F2 & E & [V1 V2 V3 V4] & Vb1 & Vb2 & Vf & _ & Va & Vo & _).
  - exact Hc.
  - exact Hne.
  - by split.
  - exact Hroom.
  - exact HF.
  - intros i Hir Hi'. change (kmem (set_pal t k)) with (pmem t). rewrite Hent by done. unfold kernel_entry.
    by rewrite (HT i Hi').
  - exists t', T2, F2, l'. split; [exact E|]. split; [done|].
    split; try done; [intros v; by rewrite Vb1, Hb1|intros v; by rewrite Vb2, Hb1|].
    apply (agree_off_trans _ _ (pmem t)); done.
Qed.
End processes.

(** ** Properties *)

Section fork_runs.
Context {W : Type} {SH : StackHeap}.
Variable vm_map : list vm_region.
Variable kernel_pd : Z.
Variable r : vm_region.
Variables uthread_switch_entry isr_exit : Z.
Local Abbreviation kpd := (phys_kernel_pd kernel_pd).

(** Process [cp] can fork from its thread [ct], which entered the kernel with the frame at
    [f] of [mf]: there are pages for the copy, a kernel stack at [stack0], and the open
    files are files the process can lock. *)
Record fork_pre (l : list Z) (s : fksys W) (ct cp : nat) (x : kproc) (a : Z) (T : gmap Z Z) (F : upages)
    (I : W → Prop) (stack0 : Z) (ts1 : tsys) (mf : mem) (f : Z) : Prop := {
  fp_parent : th_parent (ts_threads (fk_ts s) ct) = Z.of_nat cp;
  fp_user : at_cs (th_arch (ts_threads (fk_ts s) ct)) = USER_CODE_SELECTOR;
  fp_pid : kpr_pid x ≠ PID_KERNEL;
  fp_space : in_space kernel_pd r l (fk_pm s) cp x a T F;
  fp_mutex : kpr_mutex x = false;
  fp_pd_mutex : pd_mutex (kpr_arch x) = false;
  fp_next : pm_procs (fk_pm s) !! pm_next (fk_pm s) = None;
  fp_kp : kp_spinlock (pm_k (fk_pm s)) = free_lock;
  fp_kpd : kernel_pd mod PAGE_SIZE = 0 ∧ (kernel_pd ∉ l) ∧ v2p r a ≠ kpd;
  fp_room : (1 + size T + size F ≤ length l)%nat;
  fp_keys : ∀ n, is_Some (F !! n) → 0 ≤ n < 2 ^ 20;
  fp_tables : ∀ i, is_Some (T !! i) → has (load32 (kmem (pm_k (fk_pm s))) (kernel_pd + 4 * i)) PAGE_BIT_GLOBAL = false;
  fp_stack : ap_vstack (kpr_arch x) mod 16 = 0 ∧ ap_vstack (kpr_arch x) ≠ 0;
  fp_heap : stack_kalloc 4096 (fk_ts s) = Done (stack0, ts1);
  fp_block : stack_block stack0;
  fp_template : ts_threads ts1 ct = ts_threads (fk_ts s) ct;
  fp_name : (length (c_string (th_name (ts_threads (fk_ts s) ct))) < 32)%nat;
  fp_frame : byte_mem mf ∧ load16 mf (f + 64) = USER_CODE_SELECTOR;
  fp_code : is_u32 isr_exit ∧ is_u32 uthread_switch_entry;
  fp_nfiles : length (kpr_files x) = 16%nat;
  fp_world : I (v_world (fk_vfs s));
  fp_files : ∀ g, Some g ∈ kpr_files x → ∃ z, v_files (fk_vfs s) !! g = Some z ∧ lockable (f_node z) I;
}.

(** The child's process object; its environment pointer is not the parent's. *)
Definition forked (x : kproc) (pd : Z) : kproc :=
  let y := kpr_arch x in
  mk_kproc 0 (proc_name (kpr_name x)) (kpr_files x) false
    (mk_arch false pd (ap_vfrom y) (ap_vto y) (ap_vstack y) (ap_stack_size y) 0 (ap_vbreak y) (ap_cur_vbreak y)).

Lemma on_pm_run {A} (m : M pmsys A) (s : fksys W) v p' :
  m (fk_pm s) = Done (v, p') → on_pm m s = Done (v, mk_fk p' (fk_ts s) (fk_vfs s)).
Proof. intros E. unfold on_pm, zoom. by rewrite E. Qed.

Lemma on_ts_run {A} (m : M tsys A) (s : fksys W) v t' :
  m (fk_ts s) = Done (v, t') → on_ts m s = Done (v, mk_fk (fk_pm s) t' (fk_vfs s)).
Proof. intros E. unfold on_ts, zoom. by rewrite E. Qed.

Lemma c_string_nonzero l : Forall (fun c => c ≠ 0) (c_string l).
Proof. induction l as [|c l IH]; cbn; [done|]. destruct (Z.eqb_spec c 0); by constructor. Qed.

(** The parent while it forks, and the child with the parent's memory layout. *)
Definition locked (x : kproc) : kproc := with_arch (set_mutex true x) (aset_mutex true).
Definition child_arch (x c : kproc) : kproc :=
  with_arch c (fun y => aset_cur_vbreak (ap_cur_vbreak (kpr_arch x)) (aset_vbreak (ap_vbreak (kpr_arch x))
    (aset_stack (ap_vstack (kpr_arch x)) (ap_stack_size (kpr_arch x)) (aset_vto (ap_vto (kpr_arch x))
    (aset_vfrom (ap_vfrom (kpr_arch x)) y))))).

Lemma unlocked_back x :
  kpr_mutex x = false → pd_mutex (kpr_arch x) = false → set_mutex false (with_arch (locked x) (aset_mutex false)) = x.
Proof.
  unfold locked, set_mutex, with_arch. destruct x as [? ? ? mu [pm ? ? ? ? ? ? ? ?]]. cbn. by intros -> ->.
Qed.

(** Processes: locking the parent, the new object and its copy of the address space. *)
Lemma fork_space_run l s ct cp x a T F I stack0 ts1 mf f :
  map_ok vm_map r → fork_pre l s ct cp x a T F I stack0 ts1 mf f →
  let new := pm_next (fk_pm s) in let k := pm_k (fk_pm s) in
  ∃ w t t' T2 F2 l',
    let p1 := mk_pm k (<[cp := locked x]> (pm_procs (fk_pm s))) new in
    let p2 := mk_pm (set_pal t k) (<[new := fresh_proc (kpr_name x) (v2p r w)]> (<[cp := locked x]> (pm_procs (fk_pm s)))) (S new) in
    (mutex_acquire cp ;;; pd_acquire cp) (fk_pm s) = Done (tt, p1) ∧
    proc_alloc kernel_pd (kpr_name x) p1 = Done (new, p2) ∧
    vmdup vm_map kernel_pd (v2p r w) (v2p r a) (pm_k p2) = Done (tt, set_pal t' k) ∧
    palloc_inv r l' t' ∧ copied r l a T F (kmem k) w T2 F2 l' (pmem t').
Proof.
  intros Hmap H new k. pose proof (fp_space _ _ _ _ _ _ _ _ _ _ _ _ _ H) as [Hp Hpd Hs Hm Hi].
  destruct (fp_kpd _ _ _ _ _ _ _ _ _ _ _ _ _ H) as (K1 & K2 & K3).
  destruct l as [|w l]; [pose proof (fp_room _ _ _ _ _ _ _ _ _ _ _ _ _ H) as Hr; cbn in Hr; lia|].
  destruct (proc_alloc_run vm_map kernel_pd r Hmap (kpr_name x) w l k (<[cp := locked x]> (pm_procs (fk_pm s))) new)
    as (t & E & A1 & A2 & A3 & A4); try done; [apply Hs|by apply H|].
  destruct (copy_space_run vm_map kernel_pd r Hmap w l k a T F Hs Hm (fp_kp _ _ _ _ _ _ _ _ _ _ _ _ _ H) K1 K2 K3)
    with (t := t) as (t' & T2 & F2 & l' & E2 & B1 & B2); try done; try by apply H.
  { pose proof (fp_room _ _ _ _ _ _ _ _ _ _ _ _ _ H) as Hr. cbn in Hr. lia. }
  exists w, t, t', T2, F2, l'. split; [|done].
  rewrite (bind_run _ _ _ _ _ (proc_mutex_acquire_run _ _ _ Hp (fp_mutex _ _ _ _ _ _ _ _ _ _ _ _ _ H))).
  rewrite (pd_acquire_run cp (set_mutex true x) _ (lookup_insert_eq _ _ _) (fp_pd_mutex _ _ _ _ _ _ _ _ _ _ _ _ _ H)).
  unfold set_pm_procs. cbn. rewrite insert_insert_eq. done.
Qed.

(** The steps of [proc_fork], put together. *)
Lemma fork_steps l s ct cp x a T F I stack0 ts1 mf f w t t' main ts' v' :
  fork_pre l s ct cp x a T F I stack0 ts1 mf f →
  let new := pm_next (fk_pm s) in let k := pm_k (fk_pm s) in let ps := pm_procs (fk_pm s) in
  let c0 := fresh_proc (kpr_name x) (v2p r w) in
  let p1 := mk_pm k (<[cp := locked x]> ps) new in
  let p2 := mk_pm (set_pal t k) (<[new := c0]> (<[cp := locked x]> ps)) (S new) in
  let p3 := mk_pm (set_pal t' k) (<[new := child_arch x c0]> (<[cp := locked x]> ps)) (S new) in
  let c2 := set_files (kpr_files x) (child_arch x c0) in
  (mutex_acquire cp ;;; pd_acquire cp) (fk_pm s) = Done (tt, p1) →
  proc_alloc kernel_pd (kpr_name x) p1 = Done (new, p2) →
  vmdup vm_map kernel_pd (v2p r w) (v2p r a) (pm_k p2) = Done (tt, set_pal t' k) →
  uthread_fork_create kpd uthread_switch_entry isr_exit (ap_vstack (kpr_arch x)) (ap_stack_size (kpr_arch x))
    (v2p r w) ct (read_bytes mf f 80) (fk_ts s) = Done (main, ts') →
  for_up 16 0 (dup_file new cp) (mk_fk p3 ts' (fk_vfs s)) =
    Done (tt, mk_fk (set_pm_procs (<[new := c2]> (pm_procs p3)) p3) ts' v') →
  cp ≠ new →
  proc_fork vm_map kernel_pd uthread_switch_entry isr_exit ct (read_bytes mf f 80) s =
    Done ((new, main), mk_fk (mk_pm (set_pal t' k) (<[new := c2]> ps) (S new)) ts' v').
Proof.
  intros H new k ps c0 p1 p2 p3 c2 E1 E2 E3 E4 E5 Hne. subst p1 p2.
  pose proof (fp_space _ _ _ _ _ _ _ _ _ _ _ _ _ H) as [Hp Hpd _ _ _].
  unfold proc_fork. set (th := ts_threads (fk_ts s) ct).
  rewrite (bind_run _ _ _ th s) by (unfold on_ts, zoom; cbn; by destruct s).
  rewrite (fp_parent _ _ _ _ _ _ _ _ _ _ _ _ _ H : th_parent th = _), Nat2Z.id.
  rewrite (bind_run _ _ _ x s) by (unfold on_pm, zoom; rewrite (rd_kproc_run _ _ _ Hp); by destruct s).
  rewrite (proj2 (Z.eqb_neq _ _) (fp_pid _ _ _ _ _ _ _ _ _ _ _ _ _ H)).
  rewrite (fp_user _ _ _ _ _ _ _ _ _ _ _ _ _ H : at_cs (th_arch th) = _), Z.eqb_refl. cbn [negb].
  rewrite (bind_run _ _ _ tt s).
  2: { unfold on_pm, zoom. rewrite (check_kernel_run _ _ _ _ _ _ _ _ _ (fp_space _ _ _ _ _ _ _ _ _ _ _ _ _ H)). by destruct s. }
  apply bind_Done_inv in E1 as ([] & q & Ea & Eb).
  rewrite (bind_run _ _ _ _ _ (on_pm_run _ _ _ _ Ea)). rewrite (bind_run _ _ _ _ _ (on_pm_run _ (mk_fk q _ _) _ _ Eb)).
  rewrite (bind_run _ _ _ _ _ (on_pm_run _ (mk_fk _ _ _) _ _ E2)).
  rewrite (bind_run _ _ _ _ _ (on_pm_run _ (mk_fk _ _ _) _ _ (rd_arch_at _ _ _ _ _))). cbn [fk_ts fk_vfs fk_pm].
  assert (Hz : rd_arch cp (mk_pm (set_pal t k) (<[new := c0]> (<[cp := locked x]> ps)) (S new)) =
    Done (kpr_arch (locked x), mk_pm (set_pal t k) (<[new := c0]> (<[cp := locked x]> ps)) (S new))).
  { apply rd_arch_run. cbn. rewrite lookup_insert_ne by done. apply lookup_insert_eq. }
  rewrite (bind_run _ _ _ _ _ (on_pm_run _ (mk_fk _ _ _) _ _ Hz)). cbn [fk_ts fk_vfs fk_pm].
  change (ap_pd (kpr_arch c0)) with (v2p r w). change (ap_pd (kpr_arch (locked x))) with (ap_pd (kpr_arch x)). rewrite Hpd.
  rewrite (bind_run _ _ _ _ _ (on_pm_run _ (mk_fk _ _ _) _ _ (on_k_run _ (mk_pm (set_pal t k) _ _) _ _ E3))).
  unfold set_pm_k. cbn [fk_ts fk_vfs fk_pm pm_procs pm_next].
  do 5 (rewrite (bind_run _ _ _ _ _ (on_pm_run _ (mk_fk _ _ _) _ _ (wr_arch_at _ _ _ _ _ _))); cbn [fk_ts fk_vfs fk_pm]).
  rewrite (bind_run _ _ _ _ _ (on_pm_run _ (mk_fk _ _ _) _ _ (rd_arch_at _ _ _ _ _))). cbn [fk_ts fk_vfs fk_pm].
  rewrite (bind_run _ _ _ _ _ (on_ts_run _ (mk_fk p3 (fk_ts s) (fk_vfs s)) _ _ E4)).
  rewrite (bind_run _ _ _ _ _ E5). cbn [fk_ts fk_vfs fk_pm].
  set (p4 := set_pm_procs (<[new := c2]> (pm_procs p3)) p3).
  assert (Hl4 : pm_procs p4 !! cp = Some (locked x)) by (cbn; rewrite !lookup_insert_ne by done; apply lookup_insert_eq).
  rewrite (bind_run _ _ _ _ _ (on_pm_run _ (mk_fk p4 _ _) _ _ (pd_release_run _ _ _ Hl4 eq_refl))). cbn [fk_ts fk_vfs fk_pm].
  set (p5 := set_pm_procs (<[cp := with_arch (locked x) (aset_mutex false)]> (pm_procs p4)) p4).
  assert (Hl5 : pm_procs p5 !! cp = Some (with_arch (locked x) (aset_mutex false))) by apply lookup_insert_eq.
  rewrite (bind_run _ _ _ _ _ (on_pm_run _ (mk_fk p5 _ _) _ _ (proc_mutex_release_run _ _ _ Hl5 eq_refl))).
  unfold ret, p5, p4, p3, set_pm_procs. cbn [fk_ts fk_vfs fk_pm pm_k pm_procs pm_next].
  rewrite (unlocked_back x) by apply H. do 4 f_equal. apply map_eq. intros i.
  destruct (decide (i = cp)) as [->|H1]; [rewrite lookup_insert_eq, lookup_insert_ne by done; by symmetry|].
  rewrite !(lookup_insert_ne _ cp) by done. destruct (decide (i = new)) as [->|H2]; [by rewrite !lookup_insert_eq|].
  by rewrite !lookup_insert_ne by done.
Qed.

(** C3: fork makes a copy of the process: the child's address space maps the same pages with
    the same flags and contents in frames of its own, and the parent keeps its own; the
    child has the parent's break, stack and descriptors, with one more reference to every
    open file; its thread resumes from the parent's system call, on its own kernel stack
    and page directory, with 0 in [eax]; both mutexes are released and no other process
    changes. *)
Theorem fork_correct l s ct cp x a T F I stack0 ts1 mf f :
  map_ok vm_map r → fork_pre l s ct cp x a T F I stack0 ts1 mf f →
  let new := pm_next (fk_pm s) in let main := ts_next ts1 in
  ∃ s' w T2 F2 l', let e := at_esp0 (th_arch (ts_threads (fk_ts s') main)) in
    proc_fork vm_map kernel_pd uthread_switch_entry isr_exit ct (read_bytes mf f 80) s = Done ((new, main), s') ∧
    pm_procs (fk_pm s') = <[new := forked x (v2p r w)]> (pm_procs (fk_pm s)) ∧
    palloc_inv r l' (k_pal (pm_k (fk_pm s'))) ∧
    copied r l a T F (kmem (pm_k (fk_pm s))) w T2 F2 l' (kmem (pm_k (fk_pm s'))) ∧
    created ts1 (fk_ts s') main stack0 e ∧ at_cr3 (th_arch (ts_threads (fk_ts s') main)) = v2p r w ∧
    switch_target (ts_mem (fk_ts s')) e = uthread_switch_entry ∧ load32 (ts_mem (fk_ts s')) (switch_esp e) = isr_exit ∧
    isr_exit_regs (ts_mem (fk_ts s')) (switch_esp e + 4) = with_eax 0 (isr_exit_regs mf f) ∧
    I (v_world (fk_vfs s')) ∧
    ∀ g z, v_files (fk_vfs s) !! g = Some z → 0 ≤ f_ref z < 2 ^ 32 →
      v_files (fk_vfs s') !! g = Some (set_ref (u32 (f_ref z + Z.of_nat (descriptors g (kpr_files x)))) z).
Proof.
  intros Hmap H new main. destruct (fork_space_run _ _ _ _ _ _ _ _ _ _ _ _ _ Hmap H)
    as (w & t & t' & T2 & F2 & l' & E1 & E2 & E3 & Hi & Hc).
  pose proof (fp_space _ _ _ _ _ _ _ _ _ _ _ _ _ H) as [Hp _ _ _ _].
  assert (Hne : cp ≠ new).
  { intros ->. pose proof (fp_next _ _ _ _ _ _ _ _ _ _ _ _ _ H). unfold new in Hp. congruence. }
  destruct (fp_frame _ _ _ _ _ _ _ _ _ _ _ _ _ H) as [Fb Fc]. destruct (fp_stack _ _ _ _ _ _ _ _ _ _ _ _ _ H) as [S1 S2].
  destruct (fp_code _ _ _ _ _ _ _ _ _ _ _ _ _ H) as [C1 C2].
  destruct (fork_create_run kpd uthread_switch_entry isr_exit (ap_vstack (kpr_arch x)) (ap_stack_size (kpr_arch x)) (v2p r w)
    ct mf f (fk_ts s) stack0 ts1 Fb Fc (c_string_nonzero _)) as (ts' & E4 & Hcr & _ & _ & Hcr3 & Hsw & Hld & Hregs);
    [rewrite (fp_template _ _ _ _ _ _ _ _ _ _ _ _ _ H); apply H|done|done|done|done|apply H|apply H|].
  set (c0 := fresh_proc (kpr_name x) (v2p r w)) in *.
  set (p3 := mk_pm (set_pal t' (pm_k (fk_pm s)))
    (<[new := child_arch x c0]> (<[cp := locked x]> (pm_procs (fk_pm s)))) (S new)).
  destruct (dup_files_run cp new (locked x) (child_arch x c0) (mk_fk p3 ts' (fk_vfs s)) I) as (v' & E5 & [V1 V2]); try done;
    [cbn; rewrite lookup_insert_ne by done; apply lookup_insert_eq|apply lookup_insert_eq|apply H|apply H|apply H|].
  eexists _, w, T2, F2, l'.
  split; [by apply (fork_steps l s ct cp x a T F I stack0 ts1 mf f w t t' main ts' v')|].
  do 8 (split; [done|]). split; [done|]. intros g z Hg Hz. cbn [fk_vfs]. rewrite V1. cbn.
  rewrite refs_up_lookup; [by rewrite Hg|]. intros z'. rewrite Hg. by intros [= <-].
Qed.
End fork_runs.

(** ** Witness *)

(** A file of an always unlocked node, open in descriptor 0 of the process of [ProcMem]. *)
Definition example_node : vfs_node unit :=
  mk_node VFS_NODE_FILE 0 0 (ret tt) (ret tt) (ret []) (ret 0) (fun _ _ => ret (0, [])) (fun _ _ => ret 0) (ret 0)
    (fun _ => ret 0) (ret tt).
Definition example_vfs : vfs unit :=
  mk_vfs false [] false [7%nat] {[7%nat := mk_file example_node 1 0]} 8 tt.
Definition example_parent : kproc := set_files (Some 7%nat :: replicate 15 None) example_kproc.
Definition example_user_thread : thread :=
  mk_thread 9 (chars "init" ++ [0]) 1 0 0 0 0 0 0 0 0 0
    (mk_at USER_CODE_SELECTOR USER_DATA_SELECTOR 0 0 0 0 0 0 0 true 0 0x807000 0x8048000).
Definition example_fk : fksys unit :=
  mk_fk (mk_pm example_user_kernel {[1%nat := example_parent]} 2) (mk_ts (fun _ => 0) (fun _ => example_user_thread) 3 1 (fun _ => None))
    example_vfs.

Lemma example_fork_pre :
  fork_pre (SH := example_heap) example_kpd example_region 0xC0100000 0xC0100100 example_free_pages example_fk 2 1
    example_parent 0x807000 example_tables example_pages (fun _ => True) 0xC0800010 (fk_ts example_fk) example_frame 0x1000.
Proof.
  split; try reflexivity; try done.
  - split; try done; [apply example_has_space|apply example_mach_ok].
  - split; [done|]. split; [|done]. unfold example_free_pages, example_kpd. rewrite !elem_of_cons, elem_of_nil. lia.
  - vm_compute. lia.
  - intros n [q Hq]. unfold example_pages in Hq. apply lookup_singleton_Some in Hq as [<- _]. lia.
  - intros i [b Hb]. unfold example_tables in Hb. apply lookup_singleton_Some in Hb as [<- _].
    change (kmem (pm_k (fk_pm example_fk))) with example_space_mem.
    rewrite (load32_ext _ example_kernel_mem) by (intros y Hy; apply example_space_far; unfold example_kpd in Hy; lia).
    change (load32 example_kernel_mem (example_kpd + 4 * 32)) with (load32 (kmem example_kernel) (0xC0500000 + 4 * 0x20)).
    by rewrite example_kernel_dir by (change PD_LENGTH with 1024; lia).
  - vm_compute. lia.
  - split; [by apply byte_mem_write|by vm_compute].
  - intros g Hg. exists (mk_file example_node 1 0).
    unfold example_parent, set_files, kpr_files in Hg. apply elem_of_cons in Hg as [[= ->]|Hg]; [by split|].
    by apply elem_of_replicate in Hg as [? _].
Qed.

Lemma fork_correct_witness :
  ∃ s' w T2 F2, proc_fork (SH := example_heap) example_vm_map example_kpd 0xC0100000 0xC0100100 2
      (read_bytes example_frame 0x1000 80) example_fk = Done ((2%nat, 3%nat), s') ∧
    space example_region (kmem (pm_k (fk_pm s'))) w T2 F2 ∧
    ubytes F2 (kmem (pm_k (fk_pm s'))) 0x8048000 = Some 100 ∧
    v_files (fk_vfs s') !! 7%nat = Some (mk_file example_node 2 0).
Proof.
  destruct (fork_correct (SH := example_heap) example_vm_map example_kpd example_region 0xC0100000 0xC0100100
    example_free_pages example_fk 2 1 example_parent 0x807000 example_tables example_pages (fun _ => True) 0xC0800010
    (fk_ts example_fk) example_frame 0x1000 example_map_ok example_fork_pre)
    as (s' & w & T2 & F2 & l' & E & _ & _ & [_ Hc _ _ Hb _ _ _] & _ & _ & _ & _ & _ & _ & Hf).
  exists s', w, T2, F2. split; [exact E|]. split; [exact Hc|]. split; [rewrite Hb; by vm_compute|].
  rewrite (Hf 7%nat (mk_file example_node 1 0)); [by vm_compute|reflexivity|cbn; lia].
Defined.
