(* ===== verification/SyscallFile.v ===== *)
(** * kernel/proc.c and syscall/file.c: file descriptors and the file system calls

    The descriptors of a process are those of its object ([ProcMem]), and so is its memory: the
    calls switch to the kernel's page tables, copy between the process and a kernel buffer with
    [proc_vmread] and [proc_vmwrite], through the page tables of the process, and switch
    back.  [kbuf] is the kernel buffer of a call (kualloc, kzualloc: a block of the heap, behind
    the pages of the page allocator).  syscall_open reads the path under the page tables of
    the process: these reads are translated as the processor does it.  Files are those of
    [Vfs].  The loops of the calls
    take a fuel bound: every turn transfers at least one byte. *)

From stdpp Require Import base list gmap sets strings.
From Stdlib Require Import ZArith Lia.
From S2P Require Import Prelude Memory KUtils MemLayout Cpu Palloc Paging KernelHeap HeapPages.
From S2P Require Import AddressSpace AddressDup ProcMem BlockDev Vfs ProcFork.

Definition PROC_MAX_FILES : nat := 16.
Definition SYSCALL_MAX_PATH_LEN : Z := 511.
Definition SYSCALL_FILE_BUFFER : Z := 512.

(** ** proc.c *)

Definition proc_lock (proc : nat) : M pmsys unit := mutex_acquire proc.
Definition proc_unlock (proc : nat) : M pmsys unit := mutex_release proc.

Definition proc_held (proc : nat) : M pmsys unit :=
  x <- rd_proc proc ;; kassert "thread_mutex_held(&(proc->mutex))" (kpr_mutex x).

(** [for (fd = 0; fd < PROC_MAX_FILES; fd++) if (proc->opened_files[fd] == NULL) return fd;] *)
Fixpoint vacant_from (l : list (option nat)) (fd : Z) : Z :=
  match l with
  | [] => - EUNSPEC
  | None :: _ => fd
  | Some _ :: l' => vacant_from l' (fd + 1)
  end.

Definition proc_get_vacant_fd (proc : nat) : M pmsys Z :=
  proc_held proc ;;; x <- rd_proc proc ;; ret (vacant_from (kpr_files x) 0).

Definition bad_fd (fd : Z) : bool := (fd <? 0) || (fd >=? Z.of_nat PROC_MAX_FILES).

Definition file_at (fd : Z) (l : list (option nat)) : option nat :=
  match l !! Z.to_nat fd with Some (Some f) => Some f | _ => None end.

Definition proc_get_file (proc : nat) (fd : Z) : M pmsys (option nat) :=
  proc_held proc ;;;
  if bad_fd fd then ret None else
  x <- rd_proc proc ;; ret (file_at fd (kpr_files x)).

Definition proc_bind (proc : nat) (fd : Z) (f : nat) : M pmsys Z :=
  proc_held proc ;;;
  if bad_fd fd then ret (- EUNSPEC) else
  x <- rd_proc proc ;;
  match file_at fd (kpr_files x) with
  | Some _ => ret (- EUNSPEC)
  | None => wr_proc proc (set_file (Z.to_nat fd) (Some f)) ;;; ret fd
  end.

Definition proc_unbind (proc : nat) (fd : Z) : M pmsys (option nat) :=
  proc_held proc ;;;
  if bad_fd fd then ret None else
  x <- rd_proc proc ;;
  wr_proc proc (set_file (Z.to_nat fd) None) ;;;
  ret (file_at fd (kpr_files x)).

(** The processes, the current one of them, and the virtual filesystem. *)
Record uproc (W : Type) := mk_proc {
  pr_pm : pmsys;
  pr_cur : nat;
  pr_vfs : vfs W;
}.
Arguments mk_proc {W}.
Arguments pr_pm {W}.
Arguments pr_cur {W}.
Arguments pr_vfs {W}.

Section calls.
Context {W : Type}.
Variable vm_map : list vm_region.
Variable kernel_pd : Z.
Variable kbuf : Z.

Definition on_mem {A} (m : M pmsys A) : M (uproc W) A := zoom pr_pm (fun p s => mk_proc p (pr_cur s) (pr_vfs s)) m.
Definition on_vfs {A} (m : M (vfs W) A) : M (uproc W) A := zoom pr_vfs (fun v s => mk_proc (pr_pm s) (pr_cur s) v) m.

Definition get_current_proc : M (uproc W) nat := gets pr_cur.

(** ** A byte read under the active page tables *)

Definition user_walk (m : mem) (pd v : Z) : option Z :=
  dir ← reach vm_map pd;
  let pde := load32 m (dir + 4 * dir_slot v) in
  if negb (has pde PAGE_BIT_PRESENT) then None else
  tab ← reach vm_map (pde_get_paddr pde);
  let pte := load32 m (tab + 4 * table_slot v) in
  if negb (has pte PAGE_BIT_PRESENT) then None else
  page ← reach vm_map (pte_get_paddr pte);
  Some (page + v mod PAGE_SIZE).

Definition load_user (v : Z) : M pmsys Z :=
  s <- get ;;
  match user_walk (kmem (pm_k s)) (cr3 (k_mach (pm_k s))) v with
  | Some y => ret (kmem (pm_k s) y)
  | None => kpanic "page fault"
  end.

(** [kmstrlen] of a string of the process. *)
Fixpoint kmstrlen_user (fuel : nat) (p max result : Z) : M pmsys Z :=
  match fuel with
  | O => hang
  | S fuel' =>
      c <- load_user p ;;
      if c =? 0 then ret result
      else if result >? max then ret (-1)
      else kmstrlen_user fuel' (u32 (p + 1)) max (result + 1)
  end.

(** ** syscall/file.c *)

(** The kernel's buffer. *)
Definition fill_kbuf (l : list Z) : M (uproc W) unit := on_mem (on_k (upd_mem (fun m => write_bytes m kbuf l))).
Definition kbuf_bytes (num : Z) : M (uproc W) (list Z) :=
  on_mem (gets (fun s => read_bytes (kmem (pm_k s)) kbuf (Z.to_nat num))).

(** A path longer than the limit makes [kmstrlen] return -1, which the code takes for a
    length: it reads SIZE_MAX bytes into a buffer of none. *)
Definition syscall_open (fuel : nat) (path flags : Z) : M (uproc W) Z :=
  len <- on_mem (kmstrlen_user fuel path SYSCALL_MAX_PATH_LEN 0) ;;
  on_mem (proc_set_kvm kernel_pd) ;;;
  proc <- get_current_proc ;;
  if len <? 0 then kpanic "syscall_open(): reads past the end of the buffer" else
  on_mem (proc_vmread vm_map kernel_pd proc path kbuf len) ;;;
  on_mem (on_k (upd_mem (fun m => store8 m (kbuf + len) 0))) ;;;
  kpath <- kbuf_bytes len ;;
  file <- on_vfs (vfs_open kpath) ;;
  fd <- match file with
        | None => ret (- EUNSPEC)
        | Some f =>
            on_mem (proc_lock proc) ;;;
            fd <- on_mem (proc_get_vacant_fd proc) ;;
            (if fd <? 0 then on_vfs (vfs_close (Some f)) else on_mem (proc_bind proc fd f) ;;; ret tt) ;;;
            on_mem (proc_unlock proc) ;;;
            ret fd
        end ;;
  on_mem (proc_set_uvm proc) ;;;
  ret fd.

Definition syscall_close (fd : Z) : M (uproc W) Z :=
  on_mem (proc_set_kvm kernel_pd) ;;;
  proc <- get_current_proc ;;
  on_mem (proc_lock proc) ;;;
  file <- on_mem (proc_unbind proc fd) ;;
  r <- match file with
       | Some f => on_vfs (vfs_close (Some f)) ;;; ret 0
       | None => ret (- EUNSPEC)
       end ;;
  on_mem (proc_unlock proc) ;;;
  on_mem (proc_set_uvm proc) ;;;
  ret r.

(** The beginning shared by read, write and lseek: the process and the file object, referenced. *)
Definition take_file (fd : Z) : M (uproc W) (nat * option nat) :=
  on_mem (proc_set_kvm kernel_pd) ;;;
  proc <- get_current_proc ;;
  on_mem (proc_lock proc) ;;;
  file <- on_mem (proc_get_file proc fd) ;;
  match file with
  | None => on_mem (proc_unlock proc) ;;; on_mem (proc_set_uvm proc) ;;; ret (proc, None)
  | Some f => on_vfs (vfs_file_dup (Some f)) ;;; on_mem (proc_unlock proc) ;;; ret (proc, Some f)
  end.

Definition batch_size (count : Z) : Z :=
  if count / SYSCALL_FILE_BUFFER >? 0 then SYSCALL_FILE_BUFFER else count mod SYSCALL_FILE_BUFFER.

(** [while (count > 0)]: all of a batch is written to the process. *)
Fixpoint read_batches (fuel : nat) (proc f : nat) (buf count result : Z) : M (uproc W) Z :=
  match fuel with
  | O => hang
  | S fuel' =>
      if negb (count >? 0) then ret result else
      let batch := batch_size count in
      r <- on_vfs (vfs_file_read f batch) ;;
      let '(num_read, bytes) := r in
      fill_kbuf bytes ;;;
      if num_read <? 0 then ret (- EUNSPEC)
      else if num_read =? 0 then ret result
      else
        on_mem (proc_vmwrite vm_map kernel_pd proc (u32 (buf + result)) kbuf batch) ;;;
        read_batches fuel' proc f buf (u32 (count - num_read)) (s32 (result + num_read))
  end.

Definition syscall_read (fuel : nat) (fd buf count : Z) : M (uproc W) Z :=
  r <- take_file fd ;;
  let '(proc, file) := r in
  match file with
  | None => ret (- EUNSPEC)
  | Some f =>
      fill_kbuf (replicate 512 0) ;;;
      r <- read_batches fuel proc f buf count 0 ;;
      on_vfs (vfs_close (Some f)) ;;;
      on_mem (proc_set_uvm proc) ;;;
      ret r
  end.

(** The source of a batch is [buf] plus the size of the batch before it. *)
Fixpoint write_batches (fuel : nat) (proc f : nat) (buf count num_written result : Z) : M (uproc W) Z :=
  match fuel with
  | O => hang
  | S fuel' =>
      if negb (count >? 0) then ret result else
      let batch := batch_size count in
      on_mem (proc_vmread vm_map kernel_pd proc (u32 (buf + num_written)) kbuf batch) ;;;
      bytes <- kbuf_bytes batch ;;
      num_written <- on_vfs (vfs_file_write f bytes batch) ;;
      if num_written <? 0 then ret (- EUNSPEC)
      else if num_written =? 0 then ret result
      else write_batches fuel' proc f buf (u32 (count - num_written)) num_written (s32 (result + num_written))
  end.

Definition syscall_write (fuel : nat) (fd buf count : Z) : M (uproc W) Z :=
  r <- take_file fd ;;
  let '(proc, file) := r in
  match file with
  | None => ret (- EUNSPEC)
  | Some f =>
      fill_kbuf (replicate 512 0) ;;;
      r <- write_batches fuel proc f buf count 0 0 ;;
      on_vfs (vfs_close (Some f)) ;;;
      on_mem (proc_set_uvm proc) ;;;
      ret r
  end.

Definition syscall_check_overflow (x : Z) : bool := x >? INT_MAX.

Definition syscall_lseek (fd offset whence : Z) : M (uproc W) Z :=
  if negb (whence =? SEEK_SET) && negb (whence =? SEEK_CUR) && negb (whence =? SEEK_END) then ret (- EPARAM) else
  r <- take_file fd ;;
  let '(proc, file) := r in
  match file with
  | None => ret (- EUNSPEC)
  | Some f =>
      r <- on_vfs (vfs_file_seek f offset whence) ;;
      on_vfs (vfs_close (Some f)) ;;;
      on_mem (proc_set_uvm proc) ;;;
      if syscall_check_overflow r then ret (- EOVERFLOW) else ret r
  end.

End calls.

(** ** Lemmas *)

Lemma slice_length off len (l : list Z) :
  0 ≤ off → 0 ≤ len → Z.of_nat (length (slice off len l)) = Z.max 0 (Z.min len (Z.of_nat (length l) - off)).
Proof. intros Ho Hl. unfold slice. rewrite length_take, length_drop. lia. Qed.

(** A range is a first part and, when that is not cut short, the rest. *)
Lemma slice_split off n k (l : list Z) :
  0 ≤ off → 0 ≤ k ≤ n →
  slice off n l = slice off k l ++
    slice (off + Z.of_nat (length (slice off k l))) (n - Z.of_nat (length (slice off k l))) l.
Proof.
  intros Ho Hk. rewrite slice_length by lia. unfold slice.
  set (rest := drop (Z.to_nat off) l).
  destruct (Z.le_gt_cases k (Z.of_nat (length l) - off)) as [Hf|Hf].
  - replace (Z.max 0 (Z.min k (Z.of_nat (length l) - off))) with k by lia.
    replace (Z.to_nat n) with (Z.to_nat k + Z.to_nat (n - k))%nat by lia.
    rewrite <- take_take_drop. f_equal. f_equal. unfold rest. rewrite drop_drop. f_equal. lia.
  - assert (Hr : Z.of_nat (length rest) = Z.max 0 (Z.of_nat (length l) - off)) by (unfold rest; rewrite length_drop; lia).
    rewrite (take_ge rest (Z.to_nat k)), (take_ge rest (Z.to_nat n)) by lia.
    rewrite (drop_ge l), take_nil, app_nil_r; [done|].
    lia.
Qed.

Lemma batch_size_range count : 0 < count → 0 < batch_size count ≤ count ∧ batch_size count ≤ 512.
Proof.
  intros Hc. unfold batch_size, SYSCALL_FILE_BUFFER. rewrite Z.gtb_ltb.
  pose proof (Z.div_mod count 512 ltac:(lia)). pose proof (Z.mod_pos_bound count 512 ltac:(lia)).
  destruct (Z.ltb_spec 0 (count / 512)); lia.
Qed.

Lemma byte_list_app l1 l2 : byte_list l1 → byte_list l2 → byte_list (l1 ++ l2).
Proof. intros H1 H2. by apply Forall_app. Qed.


(** *** The process object in a call *)

Definition locked_proc (x : kproc) : kproc := mk_kproc (kpr_pid x) (kpr_name x) (kpr_files x) true (kpr_arch x).

Lemma on_mem_run {W A} (m : M pmsys A) pm p (v : vfs W) a pm' :
  m pm = Done (a, pm') → on_mem m (mk_proc pm p v) = Done (a, mk_proc pm' p v).
Proof. intros E. unfold on_mem, zoom. cbn [pr_pm]. by rewrite E. Qed.

Lemma on_vfs_run {W A} (m : M (vfs W) A) pm p v a v' :
  m v = Done (a, v') → on_vfs m (mk_proc pm p v) = Done (a, mk_proc pm p v').
Proof. intros E. unfold on_vfs, zoom. cbn [pr_vfs]. by rewrite E. Qed.

Section object.
Variables (p : nat) (x : kproc) (s : pmsys).
Hypothesis Hp : pm_procs s !! p = Some x.
Local Abbreviation proc_is y := (set_pm_procs (<[p := y]> (pm_procs s)) s).

Lemma proc_lock_run : kpr_mutex x = false → proc_lock p s = Done (tt, proc_is (locked_proc x)).
Proof. intros H. unfold proc_lock, mutex_acquire. rewrite (bind_run _ _ _ _ _ (rd_kproc_run _ _ _ Hp)), H. exact (wr_kproc_run p x s Hp _). Qed.

Lemma proc_held_run : kpr_mutex x = true → proc_held p s = Done (tt, s).
Proof. intros H. unfold proc_held. by rewrite (bind_run _ _ _ _ _ (rd_kproc_run _ _ _ Hp)), H. Qed.

Lemma proc_unlock_run y : kpr_mutex x = true → y = mk_kproc (kpr_pid x) (kpr_name x) (kpr_files x) false (kpr_arch x) → proc_unlock p s = Done (tt, proc_is y).
Proof. intros H ->. unfold proc_unlock, mutex_release. rewrite (bind_run _ _ _ _ _ (rd_kproc_run _ _ _ Hp)), H. exact (wr_kproc_run p x s Hp _). Qed.
End object.

(** The process [p] of a state is [y] now. *)
Abbreviation proc_is p y s := (set_pm_procs (<[p := y]> (pm_procs s)) s).

Lemma proc_is_lookup p y s : pm_procs (proc_is p y s) !! p = Some y.
Proof. apply lookup_insert_eq. Qed.
Lemma proc_is_twice p y z s : proc_is p z (proc_is p y s) = proc_is p z s.
Proof. unfold set_pm_procs. cbn. by rewrite insert_insert_eq. Qed.
Lemma proc_is_same p x s : pm_procs s !! p = Some x → proc_is p x s = s.
Proof. intros H. unfold set_pm_procs. rewrite insert_id by done. by destruct s. Qed.

(** Taking the mutex and releasing it. *)
Lemma relock x : kpr_mutex x = false → mk_kproc (kpr_pid (locked_proc x)) (kpr_name (locked_proc x)) (kpr_files (locked_proc x)) false (kpr_arch (locked_proc x)) = x.
Proof. destruct x. cbn. by intros ->. Qed.

Lemma good_fd fd : 0 ≤ fd < Z.of_nat PROC_MAX_FILES → bad_fd fd = false.
Proof. intros H. unfold bad_fd. by rewrite (proj2 (Z.ltb_ge fd 0)), Z.geb_leb, (proj2 (Z.leb_gt _ fd)) by lia. Qed.

(** Memory [m] in a state. *)
Abbreviation with_mem m s := (set_pm_k (set_kmem m (pm_k s)) s).

Lemma with_mem_same s : with_mem (kmem (pm_k s)) s = s.
Proof. by destruct s as [[? ? ? ? []]]. Qed.

(** Back to the page tables of the process, whatever memory and processes are now. *)
Lemma leave_kernel kpd c m ps s :
  cr3 (k_mach (pm_k s)) = c → with_cr3 c (set_pm_procs ps (with_mem m (with_cr3 kpd s))) = set_pm_procs ps (with_mem m s).
Proof. intros <-. destruct s as [[mc]]. unfold with_cr3, set_pm_procs, set_pm_k. cbn. do 2 f_equal. by destruct mc. Qed.

(** The first bytes written are the first bytes read back. *)
Lemma write_prefix_at m a l1 i b : byte_list l1 → l1 !! i = Some b → write_bytes m a l1 (a + Z.of_nat i) = b.
Proof.
  intros Hl Hb. rewrite (write_bytes_lookup _ _ _ _ _ Hb). apply u8_small. exact (Forall_lookup_1 _ _ _ _ Hl Hb).
Qed.

(** *** Reading *)

Lemma returns_then {S A B} (m : M S A) (k : A → M S B) s (b : A) s' (R : B → S → Prop) : m s = Done (b, s') → returns (k b) s' R → returns (bind m k) s R.
Proof. intros E. unfold returns. by rewrite (bind_run _ _ _ _ _ E). Qed.

Section reading.
Context {W : Type} (node : vfs_node W) (I L : W → Prop) (contents : list Z) (Hnode : is_file node I L contents).
Context (Hbytes : byte_list contents) (v0 : vfs W) (f : nat).
Context (vm_map : list vm_region) (kernel_pd : Z) (r : vm_region) (kbuf : Z).
Hypothesis Hmap : map_ok vm_map r.
Hypothesis Hkbuf : vbase r + rsize r ≤ kbuf.
Context (k0 : pmsys) (p : nat) (x : kproc) (l : list Z) (a : Z) (T : gmap Z Z) (F : upages).
Hypothesis Hpd : pd_mutex (kpr_arch x) = false.

(** During a call: memory is [m], the file is at [pos] with [ref] references. *)
Definition in_call (ref pos : Z) (m : mem) (s : uproc W) : Prop :=
  (∃ v, s = mk_proc (with_mem m k0) p v ∧ at_pos node v0 f ref pos I v) ∧ in_space kernel_pd r l (with_mem m k0) p x a T F.

(** Memory changed in pages of the process and in the kernel's buffer only. *)
Definition kept (m m' : mem) : Prop :=
  ∀ y, (∀ q, q ∈ frames_of F → ¬ in_page q y) → ¬ (kbuf ≤ y < kbuf + SYSCALL_FILE_BUFFER) → m' y = m y.

Lemma user_kept_trans m1 m2 m3 : kept m1 m2 → kept m2 m3 → kept m1 m3.
Proof. intros H1 H2 y Hy Hb. by rewrite H2, H1. Qed.

Lemma on_vfs_call {A} (q : M (vfs W) A) ref pos ref' pos' m (b : A) s :
  in_call ref pos m s →
  (∀ v, at_pos node v0 f ref pos I v → returns q v (fun c v' => c = b ∧ at_pos node v0 f ref' pos' I v')) →
  returns (on_vfs q) s (fun c s' => c = b ∧ in_call ref' pos' m s').
Proof.
  intros [(v & -> & A1) C] Q. destruct (returns_inv _ _ _ (Q v A1)) as (c & v' & E & -> & A2).
  eapply returns_run; [by apply on_vfs_run|]. split; [done|]. split; [by exists v'|done].
Qed.

(** What one read of the file object returns and where it leaves the position. *)
Lemma file_read_call num ref pos m s :
  in_call ref pos m s → 0 ≤ pos < 2 ^ 63 → 0 < num < 2 ^ 31 →
  let l := slice pos num contents in
  returns (on_vfs (vfs_file_read f num)) s (fun r s' => r = (Z.of_nat (length l), l) ∧
    in_call ref (pos + Z.of_nat (length l)) m s').
Proof.
  intros C Hp Hn bs. apply (on_vfs_call _ _ _ _ _ _ _ _ C). intros v A.
  assert (E : abs_op contents pos (Read num) = Some (pos + Z.of_nat (length bs), (Z.of_nat (length bs), bs))).
  { cbn [abs_op]. rewrite (proj2 (Z.leb_gt (2 ^ 31) num)), (proj2 (Z.leb_gt num 0)) by lia. cbn [orb]. rewrite Z.geb_leb.
    destruct (Z.leb_spec (Z.of_nat (length contents)) pos) as [Hge|]; [|done].
    assert (bs = []) as -> by (unfold bs, slice; rewrite drop_ge, take_nil by lia; done).
    cbn. by rewrite Z.add_0_r. }
  eapply returns_mono; [by apply (read_at node I L contents Hnode _ _ _ _ _ _ _ _ A Hp E)|].
  intros c v' (-> & A' & _). done.
Qed.

Lemma fill_call bs ref pos m s :
  in_call ref pos m s → Z.of_nat (length bs) ≤ SYSCALL_FILE_BUFFER →
  let m' := write_bytes m kbuf bs in
  returns (fill_kbuf kbuf bs) s (fun _ s' => in_call ref pos m' s' ∧ kept m m' ∧
    (∀ w, ubytes F m' w = ubytes F m w) ∧ ∀ v, user_address m a v → user_address m' a v).
Proof.
  intros [(v & -> & A) C] Hl m'. destruct (scratch_space _ _ kbuf _ _ _ _ _ _ _ bs Hkbuf C) as (S1 & S2 & S3).
  eapply returns_run; [by apply on_mem_run|]. split; [split; [by exists v|exact S1]|]. split; [|done].
  intros y _ Hy. apply write_bytes_frame. lia.
Qed.

Lemma vmwrite_call v num ref pos m s :
  in_call ref pos m s → is_u32 v → 0 ≤ num → v + num ≤ 2 ^ 32 → mapped m a F v num →
  returns (on_mem (proc_vmwrite vm_map kernel_pd p v kbuf num)) s (fun _ s' => ∃ m', in_call ref pos m' s' ∧ kept m m' ∧
    (∀ w, ubytes F m' w = if (v <=? w) && (w <? v + num) then Some (m (kbuf + (w - v))) else ubytes F m w) ∧
    ∀ w, user_address m a w → user_address m' a w).
Proof.
  intros [(u & -> & A) C] Hv Hn Hle Hm. pose proof (hs_space _ _ _ _ _ _ _ (is_space _ _ _ _ _ _ _ _ _ C)) as Hs.
  destruct (proc_vmwrite_run vm_map kernel_pd r l _ p x a T F v kbuf num Hmap C Hpd Hv Hn Hle Hm) as (m' & E & C' & Ag & Hub).
  { by apply (scratch_apart r m). }
  eapply returns_run; [by apply on_mem_run|]. exists m'. split; [split; [by exists u|exact C']|].
  split; [intros y Hy _; by apply Ag|]. split; [exact Hub|]. intros w. by apply (frames_user r m m' a T F).
Qed.

Lemma read_batches_run fuel : ∀ count res pos ref m buf s,
  in_call ref pos m s → 0 ≤ pos < 2 ^ 63 →
  0 ≤ buf → 0 ≤ res → 0 ≤ count → res + count < 2 ^ 31 → buf + res + count ≤ 2 ^ 32 → mapped m a F (buf + res) count →
  (length (slice pos count contents) < fuel)%nat →
  let bs := slice pos count contents in
  returns (read_batches vm_map kernel_pd kbuf fuel p f buf count res) s (fun n s' => n = res + Z.of_nat (length bs) ∧
    ∃ m', in_call ref (pos + Z.of_nat (length bs)) m' s' ∧ kept m m' ∧
      (∀ i b, bs !! i = Some b → ubytes F m' (buf + res + Z.of_nat i) = Some b) ∧
      ∀ w, w < buf + res ∨ buf + res + count ≤ w → ubytes F m' w = ubytes F m w).
Proof.
  induction fuel as [|fuel IH]; intros count res pos ref m buf s C Hp Hb Hr Hc Hs Hm Hmp Hf; [lia|].
  intros bs. cbn [read_batches]. rewrite Z.gtb_ltb. destruct (Z.ltb_spec 0 count) as [Hpos|Hneg]; cbn [negb].
  2: { assert (bs = []) as -> by (unfold bs, slice; by replace (Z.to_nat count) with 0%nat by lia).
       apply (returns_run _ _ _ _ _ eq_refl). cbn. rewrite !Z.add_0_r. split; [done|]. by exists m. }
  destruct (batch_size_range count Hpos) as [Hbc Hb5]. set (b := batch_size count) in *.
  eapply returns_bind; [by apply (file_read_call b _ _ _ _ C Hp); lia|].
  set (l1 := slice pos b contents). intros ? s1 [-> C1].
  pose proof (slice_split pos count b contents ltac:(lia) ltac:(lia)) as Hsplit. fold bs l1 in Hsplit.
  set (l2 := slice (pos + Z.of_nat (length l1)) (count - Z.of_nat (length l1)) contents) in Hsplit.
  assert (L1 : Z.of_nat (length l1) ≤ b) by (unfold l1; rewrite slice_length by lia; lia).
  eapply returns_bind; [apply (fill_call l1 _ _ _ _ C1); unfold SYSCALL_FILE_BUFFER; lia|].
  set (m1 := write_bytes m kbuf l1). intros _ s2 (C2 & K2 & B2 & U2).
  rewrite (proj2 (Z.ltb_ge _ 0)) by lia.
  destruct (Z.eqb_spec (Z.of_nat (length l1)) 0) as [E0|Hne].
  - assert (Hl : bs = []).
    { apply length_zero_iff_nil. cut (Z.of_nat (length bs) = 0); [lia|].
      unfold l1 in E0. rewrite slice_length in E0 by lia. unfold bs. rewrite slice_length by lia. lia. }
    rewrite Hl. apply (returns_run _ _ _ _ _ eq_refl). cbn. rewrite !Z.add_0_r. split; [done|].
    exists m1. rewrite E0, Z.add_0_r in C2. split; [done|]. split; [done|]. split; [done|]. intros w _. apply B2.
  - assert (Hl1 : byte_list l1) by (by apply Forall_take, Forall_drop).
    rewrite u32_small by lia.
    eapply returns_bind; [apply (vmwrite_call (buf + res) b _ _ _ _ C2)|]; try (unfold is_u32; lia).
    { intros w Hw. destruct (Hmp w ltac:(lia)) as [M1 M2]. split; [by apply U2|done]. }
    intros _ s3 (m2 & C3 & K3 & B3 & U3).
    assert (HL : length bs = (length l1 + length l2)%nat) by (by rewrite Hsplit, length_app).
    assert (Hf2 : (length l2 < fuel)%nat) by (fold bs in Hf; lia).
    assert (Hp2 : 0 ≤ pos + Z.of_nat (length l1) < 2 ^ 63).
    { pose proof (if_small _ _ _ _ Hnode). unfold l1. rewrite slice_length by lia.
      unfold l1 in Hne. rewrite slice_length in Hne by lia. lia. }
    rewrite u32_small, s32_small by lia.
    eapply returns_mono.
    { apply (IH (count - Z.of_nat (length l1)) (res + Z.of_nat (length l1)) _ ref m2 buf s3 C3 Hp2); try lia; [|exact Hf2].
      intros w Hw. destruct (Hmp w ltac:(lia)) as [M1 M2]. split; [by apply U3, U2|done]. }
    intros n s4 (-> & m3 & C4 & K4 & R4 & F4). fold l2 in C4, R4 |- *. split; [lia|]. exists m3.
    replace (pos + Z.of_nat (length bs)) with (pos + Z.of_nat (length l1) + Z.of_nat (length l2)) by lia.
    split; [done|]. split; [apply (user_kept_trans m m1); [done|]; by apply (user_kept_trans m1 m2)|]. split.
    + intros i c Hi. rewrite Hsplit in Hi. destruct (decide (i < length l1)%nat) as [Hlt|Hge].
      * rewrite lookup_app_l in Hi by done. rewrite F4 by lia. rewrite B3.
        rewrite (proj2 (Z.leb_le _ _)), (proj2 (Z.ltb_lt _ _)) by lia. cbn [andb]. f_equal.
        replace (buf + res + Z.of_nat i - (buf + res)) with (Z.of_nat i) by lia. by apply write_prefix_at.
      * rewrite lookup_app_r in Hi by lia. specialize (R4 _ _ Hi). rewrite <- R4. f_equal. lia.
    + intros w Hw. rewrite F4 by lia. rewrite B3.
      destruct (Z.leb_spec (buf + res) w), (Z.ltb_spec w (buf + res + b)); cbn [andb]; try lia; apply B2.
Qed.

(** Taking and releasing the file object around a call. *)
Lemma take_file_run fd pm v ref pos :
  in_user kernel_pd r l pm p x a T F → k0 = with_cr3 (phys_kernel_pd kernel_pd) pm → kpr_mutex x = false →
  at_pos node v0 f ref pos I v → 0 ≤ fd < Z.of_nat PROC_MAX_FILES → kpr_files x !! Z.to_nat fd = Some (Some f) →
  returns (take_file kernel_pd fd) (mk_proc pm p v) (fun c s' => c = (p, Some f) ∧ in_call (u32 (ref + 1)) pos (kmem (pm_k k0)) s').
Proof.
  intros Hu Hk Hm A Hfd Ht. unfold take_file.
  apply (returns_then _ _ _ _ _ _ (on_mem_run _ _ _ _ _ _ (set_kvm_run _ _ _ _ _ _ _ _ _ Hu))). rewrite <- Hk. destruct Hu as [_ Hs]. rewrite <- Hk in Hs.
  pose proof (is_proc _ _ _ _ _ _ _ _ _ Hs) as Hx.
  apply (returns_then get_current_proc _ (mk_proc k0 p v) p (mk_proc k0 p v) _ eq_refl).
  apply (returns_then _ _ _ _ _ _ (on_mem_run _ _ _ _ _ _ (proc_lock_run _ _ _ Hx Hm))). set (k1 := proc_is p (locked_proc x) k0).
  assert (H1 : pm_procs k1 !! p = Some (locked_proc x)) by apply proc_is_lookup.
  assert (E1 : proc_get_file p fd k1 = Done (Some f, k1)).
  { unfold proc_get_file. rewrite (bind_run _ _ _ _ _ (proc_held_run _ _ _ H1 eq_refl)), good_fd by done.
    rewrite (bind_run _ _ _ _ _ (rd_kproc_run _ _ _ H1)). unfold ret, file_at. cbn. by rewrite Ht. }
  apply (returns_then _ _ _ _ _ _ (on_mem_run _ _ _ _ _ _ E1)).
  destruct (returns_inv _ _ _ (dup_at node I L contents Hnode v0 f ref pos v A)) as (g & v1 & E2 & _ & A1).
  apply (returns_then _ _ _ _ _ _ (on_vfs_run _ _ _ _ _ _ E2)).
  assert (E3 : proc_unlock p k1 = Done (tt, k0)).
  { rewrite (proc_unlock_run _ _ _ H1 x eq_refl) by (by rewrite relock). unfold k1. rewrite proc_is_twice, proc_is_same by done. done. }
  apply (returns_then _ _ _ _ _ _ (on_mem_run _ _ _ _ _ _ E3)).
  unfold returns, ret. split; [done|]. split; [|by rewrite with_mem_same]. exists v1. split; [by rewrite with_mem_same|done].
Qed.

Lemma release_file_run {A} ref pos m s (c : A) :
  in_call ref pos m s → u32 (ref - 1) ≠ 0 →
  returns (on_vfs (vfs_close (Some f)) ;;; on_mem (proc_set_uvm p) ;;; ret c) s (fun d s' => d = c ∧
    ∃ v, s' = mk_proc (with_cr3 (v2p r a) (with_mem m k0)) p v ∧ at_pos node v0 f (u32 (ref - 1)) pos I v ∧
      in_user kernel_pd r l (with_cr3 (v2p r a) (with_mem m k0)) p x a T F).
Proof.
  intros C Hr. eapply returns_bind.
  { apply (on_vfs_call _ _ _ (u32 (ref - 1)) pos _ tt _ C). intros w Aw.
    eapply returns_mono; [by apply (close_at node I L contents Hnode _ _ _ _ _ Aw)|]. by intros [] ? ?. }
  intros ? s1 [_ [(w & -> & Aw) Cs]]. destruct (set_uvm_run _ _ _ _ _ _ _ _ _ Cs) as [Eu Hu].
  apply (returns_then _ _ _ _ _ _ (on_mem_run _ _ _ _ _ _ Eu)). unfold returns, ret. split; [done|]. by exists w.
Qed.

End reading.

(** C27: reading from a descriptor of a file into a buffer that is mapped.  The call returns, with
    fuel for more turns than
    bytes are read, and delivers the bytes of the file from its position on, as many
    as the file has and the caller asked for; it moves the position by the number
    returned, changes no byte of the process outside the caller's buffer and no kernel memory but
    its own buffer, and leaves the process object, its descriptors and mutexes, the references to the
    file, and the active page tables as they were.  (Of a buffer that is not mapped nothing is
    claimed: proc_vmwrite does not check its addresses.) *)
Theorem syscall_read_correct {W} (node : vfs_node W) (I L : W → Prop) (contents : list Z)
    vm_map kernel_pd r kbuf l (s : uproc W) x a T F (fuel f : nat) (fd buf count ref pos : Z) :
  is_file node I L contents → byte_list contents → map_ok vm_map r → vbase r + rsize r ≤ kbuf →
  in_user kernel_pd r l (pr_pm s) (pr_cur s) x a T F → kpr_mutex x = false → pd_mutex (kpr_arch x) = false →
  0 ≤ fd < Z.of_nat PROC_MAX_FILES → kpr_files x !! Z.to_nat fd = Some (Some f) →
  v_files (pr_vfs s) !! f = Some (mk_file node ref pos) → I (v_world (pr_vfs s)) →
  1 ≤ ref < 2 ^ 32 - 1 → 0 ≤ pos < 2 ^ 63 →
  0 ≤ buf → 0 ≤ count < 2 ^ 31 → buf + count ≤ 2 ^ 32 → mapped (kmem (pm_k (pr_pm s))) a F buf count →
  (length (slice pos count contents) < fuel)%nat →
  let bs := slice pos count contents in
  ∃ m' w', let pm' := with_mem m' (pr_pm s) in
    syscall_read vm_map kernel_pd kbuf fuel fd buf count s = Done (Z.of_nat (length bs),
      mk_proc pm' (pr_cur s) (vset_world w' (vset_files
        (<[f := mk_file node ref (pos + Z.of_nat (length bs))]> (v_files (pr_vfs s))) (pr_vfs s)))) ∧
    I w' ∧ in_user kernel_pd r l pm' (pr_cur s) x a T F ∧
    (∀ i b, bs !! i = Some b → ubytes F m' (buf + Z.of_nat i) = Some b) ∧
    (∀ w, w < buf ∨ buf + count ≤ w → ubytes F m' w = ubytes F (kmem (pm_k (pr_pm s))) w) ∧
    ∀ y, (∀ q, q ∈ frames_of F → ¬ in_page q y) → ¬ (kbuf ≤ y < kbuf + SYSCALL_FILE_BUFFER) → m' y = kmem (pm_k (pr_pm s)) y.
Proof.
  intros Hn Hbl Hmap Hkb Hu Hm Hpd Hfd Ht Hv Hi Hr Hp Hb Hc Hbc Hmp Hf bs.
  destruct s as [pm p v]. cbn [pr_pm pr_cur pr_vfs] in *. set (k0 := with_cr3 (phys_kernel_pd kernel_pd) pm).
  assert (A : at_pos node v f ref pos I v).
  { split. exists (v_world v). split; [done|]. destruct v. unfold vset_files, vset_world. cbn in *. by rewrite insert_id. }
  pose proof (take_file_run node I L contents Hn v f kernel_pd r k0 p x l a T F fd pm v ref pos Hu eq_refl Hm A Hfd Ht) as T1.
  destruct (returns_inv _ _ _ T1) as (? & s1 & E1 & -> & C1). rewrite u32_small in C1 by lia.
  pose proof (fill_call node I v f kernel_pd r kbuf Hkb k0 p x l a T F (replicate 512 0) _ _ _ _ C1 ltac:(by vm_compute)) as T2.
  destruct (returns_inv _ _ _ T2) as ([] & s2 & E2 & C2 & K2 & B2 & U2).
  pose proof (read_batches_run node I L contents Hn Hbl v f vm_map kernel_pd r kbuf Hmap Hkb k0 p x l a T F Hpd fuel count 0 pos _ _ buf _ C2 Hp) as T3.
  destruct (returns_inv _ _ _ (T3 ltac:(lia) ltac:(lia) ltac:(lia) ltac:(lia) ltac:(lia)
    ltac:(rewrite Z.add_0_r; intros w Hw; destruct (Hmp w Hw); split; [by apply U2|done]) Hf)) as (n & s3 & E3 & -> & m' & C3 & K3 & R3 & F3).
  rewrite Z.add_0_r in R3, F3. fold bs in E3, C3, R3.
  pose proof (release_file_run node I L contents Hn v f kernel_pd r k0 p x l a T F _ _ _ _ (0 + Z.of_nat (length bs)) C3) as T4.
  destruct (returns_inv _ _ _ (T4 ltac:(rewrite u32_small by lia; lia))) as (n & s4 & E4 & -> & w & -> & [(w' & Hw & ->)] & Hu').
  assert (El : with_cr3 (v2p r a) (with_mem m' k0) = with_mem m' pm).
  { pose proof (leave_kernel (phys_kernel_pd kernel_pd) (v2p r a) m' (pm_procs pm) pm (proj1 Hu)) as E. exact E. }
  rewrite El in *. exists m', w'. split.
  { unfold syscall_read. rewrite (bind_run _ _ _ _ _ E1). cbv iota beta. rewrite (bind_run _ _ _ _ _ E2), (bind_run _ _ _ _ _ E3), E4.
    rewrite u32_small by lia. by replace (ref + 1 - 1) with ref by lia. }
  split; [done|]. split; [done|]. split; [exact R3|].
  split; [intros y Hy; rewrite F3 by done; by apply B2|]. intros y Hy1 Hy2. by rewrite K3, K2.
Qed.

(** *** Opening and closing *)

(** The processor finds the byte the address space holds. *)
Lemma user_walk_space vm_map r m a T F v y fl :
  map_ok vm_map r → space r m a T F → user_address m a v → F !! page_no v = Some (y, fl) →
  user_walk vm_map m (v2p r a) v = Some (y + v mod PAGE_SIZE).
Proof.
  intros Hmap Hs [Hv Hg] Hf. destruct (page_slots v Hv) as [E1 E2]. unfold user_walk.
  rewrite (space_reach _ _ Hmap m a T F a Hs) by auto with space. cbn [mbind option_bind]. rewrite E1, E2.
  destruct (sp_page _ _ _ _ _ Hs _ _ _ Hf) as ((_ & Hp & _) & b & Hb & E).
  destruct (sp_table _ _ _ _ _ Hs _ _ Hb) as (_ & Ed & Pd & _). rewrite Pd, Ed. cbn [negb].
  rewrite (space_reach _ _ Hmap m a T F b Hs) by eauto with space. cbn [mbind option_bind]. rewrite E.
  rewrite construct_has by done. rewrite Hp. cbn [negb].
  rewrite frame_of_entry; [|apply Hmap|apply (space_page_ok _ _ _ _ _ _ Hs); eauto with space].
  by rewrite (space_reach _ _ Hmap m a T F y Hs) by eauto with space.
Qed.

Lemma load_user_run vm_map kernel_pd r l s p x a T F v b :
  map_ok vm_map r → in_user kernel_pd r l s p x a T F → user_address (kmem (pm_k s)) a v → ubytes F (kmem (pm_k s)) v = Some b →
  load_user vm_map v s = Done (b, s).
Proof.
  intros Hmap [Hc H] Hu Hb. unfold ubytes in Hb. destruct (F !! page_no v) as [[y fl]|] eqn:Ef; [|done]. injection Hb as <-.
  pose proof (hs_space _ _ _ _ _ _ _ (is_space _ _ _ _ _ _ _ _ _ H)) as Hs.
  change (kmem (pm_k (with_cr3 _ s))) with (kmem (pm_k s)) in Hs. unfold load_user, bind, get. rewrite Hc. by rewrite (user_walk_space _ r _ a T F v y fl Hmap Hs Hu Ef).
Qed.

(** The string [str] of the process at [v]. *)
Definition user_string (m : mem) (a : Z) (F : upages) (v : Z) (str : list Z) : Prop :=
  mapped m a F v (Z.of_nat (length str) + 1) ∧ Forall (fun c => c ≠ 0) str ∧
  ∀ i c, (str ++ [0]) !! i = Some c → ubytes F m (v + Z.of_nat i) = Some c.

Lemma kmstrlen_user_run vm_map kernel_pd r l s p x a T F max fuel : ∀ v str n,
  map_ok vm_map r → in_user kernel_pd r l s p x a T F → user_string (kmem (pm_k s)) a F v str →
  0 ≤ v → v + Z.of_nat (length str) < 2 ^ 32 → (length str < fuel)%nat → 0 ≤ n → n + Z.of_nat (length str) ≤ max →
  kmstrlen_user vm_map fuel v max n s = Done (n + Z.of_nat (length str), s).
Proof.
  induction fuel as [|fuel IH]; intros v str n Hmap H (Hm & Hz & Hb) Hv Hle Hf Hn Hmax; [lia|]. cbn [kmstrlen_user].
  assert (Hu : user_address (kmem (pm_k s)) a v) by (apply Hm; lia). destruct str as [|c str].
  - rewrite (bind_run _ _ _ _ _ (load_user_run _ _ _ _ _ _ _ _ _ _ v 0 Hmap H Hu ltac:(rewrite <- (Z.add_0_r v); exact (Hb 0%nat 0 eq_refl)))).
    cbn. by rewrite Z.add_0_r.
  - rewrite (bind_run _ _ _ _ _ (load_user_run _ _ _ _ _ _ _ _ _ _ v c Hmap H Hu ltac:(rewrite <- (Z.add_0_r v); exact (Hb 0%nat c eq_refl)))).
    apply Forall_cons in Hz as [Hc Hz]. rewrite (proj2 (Z.eqb_neq c 0) Hc). cbn [length] in *. rewrite Z.gtb_ltb, (proj2 (Z.ltb_ge _ _)) by lia.
    rewrite u32_small by lia. rewrite (IH (v + 1) str (n + 1)); try done; try lia; [do 2 f_equal; lia|].
    split; [|split; [done|]].
    + intros w Hw. apply Hm. lia.
    + intros i d Hi. rewrite <- (Hb (S i) d) by (by rewrite <- app_comm_cons). f_equal. lia.
Qed.

(** The lowest vacant descriptor. *)
Fixpoint lowest_vacant (l : list (option nat)) : option nat :=
  match l with
  | [] => None
  | None :: _ => Some 0%nat
  | Some _ :: l' => option_map S (lowest_vacant l')
  end.

Lemma lowest_vacant_spec l :
  match lowest_vacant l with
  | Some i => l !! i = Some None ∧ ∀ j, (j < i)%nat → ∃ f, l !! j = Some (Some f)
  | None => ∀ j, (j < length l)%nat → ∃ f, l !! j = Some (Some f)
  end.
Proof.
  induction l as [|[f|] l IH]; cbn; [intros; lia| |split; [done|intros; lia]].
  destruct (lowest_vacant l) as [i|]; cbn.
  - destruct IH as [Hi Hj]. split; [done|]. intros [|j] ?; [by exists f|]. apply Hj. lia.
  - intros [|j] ?; [by exists f|]. apply IH. lia.
Qed.

Lemma vacant_from_spec l fd :
  vacant_from l fd = match lowest_vacant l with Some i => fd + Z.of_nat i | None => - EUNSPEC end.
Proof.
  revert fd. induction l as [|[f|] l IH]; intros fd; cbn; [done| |lia].
  rewrite IH. destruct (lowest_vacant l); cbn; lia.
Qed.

(** Binding the lowest vacant descriptor, or closing the file again. *)
Definition open_end {W} (p f : nat) : M (uproc W) Z :=
  on_mem (proc_lock p) ;;;
  fd <- on_mem (proc_get_vacant_fd p) ;;
  (if fd <? 0 then on_vfs (vfs_close (Some f)) else on_mem (proc_bind p fd f) ;;; ret tt) ;;;
  on_mem (proc_unlock p) ;;;
  ret fd.

Lemma open_end_run {W} k p x f (v : vfs W) :
  pm_procs k !! p = Some x → kpr_mutex x = false → length (kpr_files x) = PROC_MAX_FILES →
  open_end p f (mk_proc k p v) =
    match lowest_vacant (kpr_files x) with
    | Some i => Done (Z.of_nat i, mk_proc (proc_is p (set_file i (Some f) x) k) p v)
    | None =>
        match vfs_close (Some f) v with
        | Done (_, v') => Done (- EUNSPEC, mk_proc k p v')
        | Panic e => Panic e
        | Hang => Hang
        end
    end.
Proof.
  intros Hx Hm Hl. unfold open_end. rewrite (bind_run _ _ _ _ _ (on_mem_run _ _ _ v _ _ (proc_lock_run _ _ _ Hx Hm))).
  set (k1 := proc_is p (locked_proc x) k). assert (H1 : pm_procs k1 !! p = Some (locked_proc x)) by apply proc_is_lookup.
  assert (E1 : proc_get_vacant_fd p k1 = Done (vacant_from (kpr_files x) 0, k1)).
  { unfold proc_get_vacant_fd. by rewrite (bind_run _ _ _ _ _ (proc_held_run _ _ _ H1 eq_refl)), (bind_run _ _ _ _ _ (rd_kproc_run _ _ _ H1)). }
  rewrite (bind_run _ _ _ _ _ (on_mem_run _ _ _ v _ _ E1)), vacant_from_spec.
  pose proof (lowest_vacant_spec (kpr_files x)) as V. destruct (lowest_vacant (kpr_files x)) as [i|].
  - destruct V as [Vi _]. pose proof (lookup_lt_Some _ _ _ Vi) as Hi. rewrite Hl in Hi. rewrite Z.add_0_l, (proj2 (Z.ltb_ge _ 0)) by lia.
    set (y := set_file i (Some f) (locked_proc x)).
    assert (E2 : proc_bind p (Z.of_nat i) f k1 = Done (Z.of_nat i, proc_is p y k1)).
    { unfold proc_bind. rewrite (bind_run _ _ _ _ _ (proc_held_run _ _ _ H1 eq_refl)), good_fd by lia.
      rewrite (bind_run _ _ _ _ _ (rd_kproc_run _ _ _ H1)). unfold file_at. cbn [kpr_files locked_proc]. rewrite Nat2Z.id, Vi.
      by rewrite (bind_run _ _ _ _ _ (wr_kproc_run _ _ _ H1 _)). }
    unfold k1 in E2 at 2. rewrite proc_is_twice in E2. assert (H2 : pm_procs (proc_is p y k) !! p = Some y) by apply proc_is_lookup.
    unfold bind at 1. rewrite (bind_run _ _ _ _ _ (on_mem_run _ _ _ v _ _ E2)). unfold ret at 1.
    rewrite (bind_run _ _ _ _ _ (on_mem_run _ _ _ v _ _ (proc_unlock_run _ _ _ H2 (set_file i (Some f) x) eq_refl ltac:(destruct x; cbn in *; by subst)))).
    by rewrite proc_is_twice.
  - change (- EUNSPEC <? 0) with true. cbv iota. unfold bind at 1, on_vfs, zoom. cbn [pr_vfs]. destruct (vfs_close (Some f) v) as [[[] v']| |]; try done.
    rewrite (bind_run _ _ _ _ _ (on_mem_run _ _ _ v' _ _ (proc_unlock_run _ _ _ H1 x eq_refl ltac:(by rewrite relock)))).
    unfold k1. by rewrite proc_is_twice, proc_is_same.
Qed.

(** C29: opening a path that fits the limit, in memory the process has mapped.  When the virtual
    filesystem finds the
    file, the lowest vacant descriptor is bound to it and returned; when all sixteen
    descriptors are taken the file is closed again and the call fails; when the file
    is not found the call fails.  The memory of the process is not changed, kernel memory only in
    the call's own buffer, and in every case
    the mutexes are free and the page tables of the process are active again. *)
Theorem syscall_open_correct {W} vm_map kernel_pd r kbuf l (s : uproc W) x a T F (fuel : nat) (path flags : Z) (str : list Z)
    (o : option nat) (v' : vfs W) :
  map_ok vm_map r → vbase r + rsize r ≤ kbuf →
  in_user kernel_pd r l (pr_pm s) (pr_cur s) x a T F → kpr_mutex x = false → pd_mutex (kpr_arch x) = false →
  length (kpr_files x) = PROC_MAX_FILES →
  user_string (kmem (pm_k (pr_pm s))) a F path str → 0 ≤ path → path + Z.of_nat (length str) < 2 ^ 32 →
  (length str < fuel)%nat → Z.of_nat (length str) ≤ SYSCALL_MAX_PATH_LEN →
  vfs_open str (pr_vfs s) = Done (o, v') →
  ∃ m', let pm' := with_mem m' (pr_pm s) in
    (∀ y, ¬ (kbuf ≤ y ≤ kbuf + Z.of_nat (length str)) → m' y = kmem (pm_k (pr_pm s)) y) ∧
    (∀ w, ubytes F m' w = ubytes F (kmem (pm_k (pr_pm s))) w) ∧
    syscall_open vm_map kernel_pd kbuf fuel path flags s =
      match o, lowest_vacant (kpr_files x) with
      | None, _ => Done (- EUNSPEC, mk_proc pm' (pr_cur s) v')
      | Some f, Some i => Done (Z.of_nat i, mk_proc (proc_is (pr_cur s) (set_file i (Some f) x) pm') (pr_cur s) v')
      | Some f, None =>
          match vfs_close (Some f) v' with
          | Done (_, v'') => Done (- EUNSPEC, mk_proc pm' (pr_cur s) v'')
          | Panic e => Panic e
          | Hang => Hang
          end
      end.
Proof.
  intros Hmap Hkb Hu Hm Hpd Hl Hs Hp Hple Hf Hlen Ho. destruct s as [pm p v]. cbn [pr_pm pr_cur pr_vfs] in *.
  set (n := Z.of_nat (length str)) in *. pose proof (kmstrlen_user_run vm_map _ _ _ _ _ _ _ _ _ SYSCALL_MAX_PATH_LEN fuel path str 0 Hmap Hu Hs Hp Hple Hf ltac:(lia) Hlen) as E0.
  pose proof (set_kvm_run _ _ _ _ _ _ _ _ _ Hu) as E1. set (k0 := with_cr3 (phys_kernel_pd kernel_pd) pm) in *.
  destruct Hu as [Hc H0]. fold k0 in H0. pose proof (hs_space _ _ _ _ _ _ _ (is_space _ _ _ _ _ _ _ _ _ H0)) as Hsp.
  destruct Hs as (Hmp & Hz & Hb).
  destruct (proc_vmread_run vm_map kernel_pd r l k0 p x a T F path kbuf n Hmap H0 Hpd) as (m1 & E2 & R1 & F1); try (unfold is_u32; lia).
  { intros w Hw. apply Hmp. lia. } { by apply (scratch_apart r (kmem (pm_k k0))). }
  set (m2 := store8 m1 (kbuf + n) 0).
  assert (F2 : ∀ y, ¬ (kbuf ≤ y ≤ kbuf + n) → m2 y = kmem (pm_k pm) y).
  { intros y Hy. unfold m2. rewrite store8_ne by lia. apply F1. lia. }
  assert (Er : read_bytes m2 kbuf (Z.to_nat n) = str).
  { apply list_eq. intros i. destruct (decide (i < length str)%nat) as [Hi|Hi].
    - rewrite read_bytes_lookup by lia. destruct (lookup_lt_is_Some_2 str i Hi) as [c Hcs]. rewrite Hcs. f_equal.
      unfold m2. rewrite store8_ne by lia. specialize (R1 (Z.of_nat i) ltac:(lia)).
      assert (Hu2 : ubytes F (kmem (pm_k pm)) (path + Z.of_nat i) = Some c) by (apply Hb; by rewrite lookup_app_l).
      change (kmem (pm_k k0)) with (kmem (pm_k pm)) in R1. congruence.
    - rewrite !lookup_ge_None_2; [done|lia|]. rewrite length_read_bytes. lia. }
  exists m2. split; [exact F2|]. split.
  { intros w. unfold ubytes. destruct (F !! page_no w) as [[q fl]|] eqn:Eq; [|done]. cbn. f_equal. apply F2.
    assert (Hq : page_ok r q) by (apply (space_page_ok _ _ _ _ _ _ Hsp); eauto with space). destruct Hq as (_ & _ & Hq).
    pose proof (Z.mod_pos_bound w PAGE_SIZE ltac:(done)). unfold PAGE_SIZE in *. lia. }
  set (k2 := with_mem m2 k0). assert (Hk2 : pm_procs k2 !! p = Some x) by apply H0.
  assert (Hmach : mach_ok (phys_kernel_pd kernel_pd) (k_mach (pm_k k2))) by apply H0.
  assert (Eu : ∀ y, ap_pd (kpr_arch y) = ap_pd (kpr_arch x) → proc_set_uvm p (proc_is p y k2) = Done (tt, proc_is p y (with_mem m2 pm))).
  { intros y Ey. unfold proc_set_uvm. rewrite (bind_run _ _ _ _ _ (rd_arch_run p y _ (proc_is_lookup p y k2))), Ey, (is_pd _ _ _ _ _ _ _ _ _ H0).
    rewrite (set_cr3_run _ (phys_kernel_pd kernel_pd)) by exact Hmach. by rewrite (leave_kernel (phys_kernel_pd kernel_pd) (v2p r a) m2 _ pm Hc). }
  unfold syscall_open. rewrite (bind_run _ _ _ _ _ (on_mem_run _ _ _ v _ _ E0)), (bind_run _ _ _ _ _ (on_mem_run _ _ _ v _ _ E1)).
  rewrite Z.add_0_l. fold n. unfold bind at 1, get_current_proc, gets. rewrite (proj2 (Z.ltb_ge n 0)) by lia.
  rewrite (bind_run _ _ _ _ _ (on_mem_run _ _ _ v _ _ E2)).
  rewrite (bind_run _ _ _ _ _ (on_mem_run (on_k (upd_mem (fun m => store8 m (kbuf + n) 0))) (with_mem m1 k0) p v tt k2 eq_refl)).
  rewrite (bind_run _ _ _ str (mk_proc k2 p v)) by (unfold kbuf_bytes, on_mem, zoom, gets; cbn [pr_pm pr_cur pr_vfs]; change (kmem (pm_k k2)) with m2; by rewrite Er).
  rewrite (bind_run _ _ _ _ _ (on_vfs_run _ k2 p _ _ _ Ho)).
  assert (Ex : on_mem (proc_set_uvm p) (mk_proc k2 p v') = Done (tt, mk_proc (with_mem m2 pm) p v') ∧
    ∀ v'' : vfs W, on_mem (proc_set_uvm p) (mk_proc k2 p v'') = Done (tt, mk_proc (with_mem m2 pm) p v'')).
  { assert (G : ∀ v'' : vfs W, on_mem (proc_set_uvm p) (mk_proc k2 p v'') = Done (tt, mk_proc (with_mem m2 pm) p v'')); [|by split].
    intros v''. pose proof (Eu x eq_refl) as E. rewrite !proc_is_same in E by (exact Hk2 || apply H0). by apply on_mem_run. }
  destruct o as [f|]; [|rewrite (bind_run (ret (- EUNSPEC)) _ (mk_proc k2 p v') _ _ eq_refl); by rewrite (bind_run _ _ _ _ _ (proj1 Ex))].
  fold (@open_end W p f). pose proof (open_end_run k2 p x f v' Hk2 Hm Hl) as Eo. destruct (lowest_vacant (kpr_files x)) as [i|].
  - rewrite (bind_run _ _ _ _ _ Eo). by rewrite (bind_run _ _ _ _ _ (on_mem_run _ _ _ v' _ _ (Eu (set_file i (Some f) x) eq_refl))).
  - destruct (vfs_close (Some f) v') as [[[] v'']| |]; [|by rewrite (bind_Panic _ _ _ _ Eo)|].
    + rewrite (bind_run _ _ _ _ _ Eo). by rewrite (bind_run _ _ _ _ _ (proj2 Ex v'')).
    + by rewrite (bind_Hang _ _ _ Eo).
Qed.

(** Closing a descriptor frees it and closes its file object; closing one that is
    not open, or not a descriptor, fails and changes nothing. *)
Theorem syscall_close_correct {W} kernel_pd r l (s : uproc W) x a T F (fd : Z) :
  in_user kernel_pd r l (pr_pm s) (pr_cur s) x a T F → kpr_mutex x = false → length (kpr_files x) = PROC_MAX_FILES →
  syscall_close kernel_pd fd s =
    match (if bad_fd fd then None else file_at fd (kpr_files x)) with
    | None => Done (- EUNSPEC, s)
    | Some f =>
        match vfs_close (Some f) (pr_vfs s) with
        | Done (_, v') => Done (0, mk_proc (proc_is (pr_cur s) (set_file (Z.to_nat fd) None x) (pr_pm s)) (pr_cur s) v')
        | Panic e => Panic e
        | Hang => Hang
        end
    end.
Proof.
  intros Hu Hm Hl. destruct s as [pm p v]. cbn [pr_pm pr_cur pr_vfs] in *. pose proof (set_kvm_run _ _ _ _ _ _ _ _ _ Hu) as E1.
  set (k0 := with_cr3 (phys_kernel_pd kernel_pd) pm) in *. destruct Hu as [Hc H0]. fold k0 in H0.
  pose proof (is_proc _ _ _ _ _ _ _ _ _ H0) as Hx. pose proof (is_mach _ _ _ _ _ _ _ _ _ H0) as Hmach.
  assert (Eu : ∀ y, ap_pd (kpr_arch y) = ap_pd (kpr_arch x) → proc_set_uvm p (proc_is p y k0) = Done (tt, proc_is p y pm)).
  { intros y Ey. unfold proc_set_uvm. rewrite (bind_run _ _ _ _ _ (rd_arch_run p y _ (proc_is_lookup p y k0))), Ey, (is_pd _ _ _ _ _ _ _ _ _ H0).
    rewrite (set_cr3_run _ (phys_kernel_pd kernel_pd)) by exact Hmach.
    pose proof (leave_kernel (phys_kernel_pd kernel_pd) (v2p r a) (kmem (pm_k pm)) (<[p := y]> (pm_procs pm)) pm Hc) as E.
    rewrite !with_mem_same in E. change (kmem (pm_k pm)) with (kmem (pm_k k0)) in E. rewrite with_mem_same in E. fold k0 in E. by rewrite <- E. }
  unfold syscall_close. rewrite (bind_run _ _ _ _ _ (on_mem_run _ _ _ v _ _ E1)). unfold bind at 1, get_current_proc, gets.
  rewrite (bind_run _ _ _ _ _ (on_mem_run _ _ _ v _ _ (proc_lock_run _ _ _ Hx Hm))). set (k1 := proc_is p (locked_proc x) k0).
  assert (H1 : pm_procs k1 !! p = Some (locked_proc x)) by apply proc_is_lookup.
  set (y := if bad_fd fd then x else set_file (Z.to_nat fd) None x).
  assert (E2 : proc_unbind p fd k1 = Done (if bad_fd fd then None else file_at fd (kpr_files x), proc_is p (locked_proc y) k1)).
  { unfold proc_unbind. rewrite (bind_run _ _ _ _ _ (proc_held_run _ _ _ H1 eq_refl)). unfold y. destruct (bad_fd fd).
    - by rewrite (proc_is_same _ _ k1 H1).
    - by rewrite (bind_run _ _ _ _ _ (rd_kproc_run _ _ _ H1)), (bind_run _ _ _ _ _ (wr_kproc_run _ _ _ H1 _)). }
  rewrite (bind_run _ _ _ _ _ (on_mem_run _ _ _ v _ _ E2)). clear E2. unfold k1. rewrite proc_is_twice. clear H1 k1.
  set (k1 := proc_is p (locked_proc y) k0). assert (H1 : pm_procs k1 !! p = Some (locked_proc y)) by apply proc_is_lookup.
  assert (Hmy : kpr_mutex y = false) by (unfold y; by destruct (bad_fd fd)).
  assert (Ee : ∀ v' c, (on_mem (proc_unlock p) ;;; on_mem (proc_set_uvm p) ;;; ret c) (mk_proc k1 p v') = Done (c : Z, mk_proc (proc_is p y pm) p v' : uproc W)).
  { intros v' c. rewrite (bind_run _ _ _ _ _ (on_mem_run _ _ _ v' _ _ (proc_unlock_run _ _ _ H1 y eq_refl ltac:(by rewrite relock)))).
    unfold k1. rewrite proc_is_twice. by rewrite (bind_run _ _ _ _ _ (on_mem_run _ _ _ v' _ _ (Eu y ltac:(unfold y; by destruct (bad_fd fd))))). }
  assert (Hsame : (if bad_fd fd then None else file_at fd (kpr_files x)) = None → proc_is p y pm = pm).
  { intros Hn. replace y with x; [by apply proc_is_same|]. unfold y. destruct (bad_fd fd); [done|]. unfold file_at in Hn. destruct x as [pid nm fs mu ar].
    cbn in *. unfold set_file. cbn. f_equal. destruct (fs !! Z.to_nat fd) as [[g|]|] eqn:Ef; [done|by rewrite list_insert_id|].
    rewrite list_insert_ge; [done|]. by apply lookup_ge_None_1. }
  destruct (if bad_fd fd then None else file_at fd (kpr_files x)) as [f|] eqn:Ef.
  - destruct (bad_fd fd); [done|]. destruct (vfs_close (Some f) v) as [[[] v']| |] eqn:Ec.
    + rewrite (bind_run _ _ _ 0 (mk_proc k1 p v')) by (unfold bind, on_vfs, zoom; cbn [pr_vfs]; by rewrite Ec). by rewrite Ee.
    + unfold bind, on_vfs, zoom. cbn [pr_vfs]. by rewrite Ec.
    + unfold bind, on_vfs, zoom. cbn [pr_vfs]. by rewrite Ec.
  - rewrite (bind_run (ret (- EUNSPEC)) _ (mk_proc k1 p v) _ _ eq_refl), Ee. by rewrite (Hsame eq_refl).
Qed.

(** ** A process for the examples, with one descriptor on the file of [ToyFs] *)

Definition toy_vfs : vfs ToyFs.world :=
  vset_mounts [([], ToyFs.super)] (vset_file_list [0%nat] (vset_files {[0%nat := mk_file ToyFs.node 1 6]}
    (vset_next 1 ToyFs.start))).

(** The process of [ProcMem], running, with a path in its page. *)
Definition toy_kproc : kproc :=
  mk_kproc 5 (chars "init") (None :: Some 0%nat :: replicate 14 None) false (kpr_arch example_kproc).
Definition toy_path : list Z := chars "/greeting".
Definition toy_mem : mem := write_bytes example_space_mem 0x809100 (toy_path ++ [0]).
Definition toy_system : pmsys := mk_pm example_user_kernel {[1%nat := toy_kproc]} 2.
Definition toy_pm : pmsys := with_cr3 (v2p example_region 0x807000) (with_mem toy_mem toy_system).
Definition toy_proc : uproc ToyFs.world := mk_proc toy_pm 1 toy_vfs.
Definition toy_kbuf : Z := 0xC0600000.

(** Writing to pages of a process leaves its address space. *)
Lemma in_space_mem kernel_pd r l s p x a T F m :
  in_space kernel_pd r l s p x a T F → byte_mem m → agree_off (frames_of F) (kmem (pm_k s)) m → in_space kernel_pd r l (with_mem m s) p x a T F.
Proof.
  intros [H1 H2 H3 H4 H5] Hm Ag. pose proof H3 as [[Hc Hi] Hs Hap].
  assert (Hf : Forall (page_ok r) (frames_of F)) by (apply Forall_forall; intros q Hq; by apply (space_page_ok _ _ _ _ _ _ Hs), frames_owned).
  split; cbn; try done. split; [|apply (space_dirs _ (kmem (pm_k s))); [|done]|done].
  - split; [done|]. apply palloc_inv_mem; [done| |done]. intros q y Hq Hy. pose proof (pi_pages _ _ _ Hi) as Hpg. rewrite Forall_forall in Hpg.
    apply (agree_page r (frames_of F) _ _ q); try done; [by apply Hpg|].
    intros Hin. by apply (owned_not_free _ _ _ _ _ _ _ q H3); [apply frames_owned|].
  - intros q y Hq Hy. apply (agree_page r (frames_of F) _ _ q); try done; [by apply (space_page_ok _ _ _ _ _ _ Hs), dirs_owned|].
    intros Hin. pose proof (sp_nodup _ _ _ _ _ Hs) as Hn. unfold owned in Hn. rewrite app_comm_cons in Hn. apply NoDup_app in Hn as (_ & Hn & _).
    by apply (Hn q).
Qed.

Lemma toy_agree : agree_off (frames_of example_pages) example_space_mem toy_mem.
Proof.
  intros y Hy. apply write_bytes_frame. change (Z.of_nat (length (toy_path ++ [0]))) with 10.
  assert (H9 : 0x809000 ∈ frames_of example_pages) by (unfold frames_of, example_pages; rewrite map_to_list_singleton; by left).
  specialize (Hy _ H9). unfold in_page, PAGE_SIZE in Hy. lia.
Qed.

Lemma toy_in_user :
  in_user example_kpd example_region example_free_pages toy_pm 1 toy_kproc 0x807000 example_tables example_pages.
Proof.
  apply (set_uvm_run example_kpd). apply (in_space_mem _ _ _ toy_system); [|by apply byte_mem_write, example_space_bytes|exact toy_agree].
  pose proof example_in_space as [? ? ? ? ?]. by split.
Qed.

Lemma toy_mapped v n : 0x8048000 ≤ v → v + n ≤ 0x8049000 → mapped toy_mem 0x807000 example_pages v n.
Proof.
  intros H1 H2 w Hw. split.
  - apply (frames_user example_region example_space_mem _ _ example_tables example_pages); [exact example_space|exact toy_agree|].
    apply example_user_address. unfold is_u32. lia.
  - replace (page_no w) with 0x8048 by (unfold page_no, PAGE_SIZE; dlia). by eexists.
Qed.

Lemma syscall_read_correct_witness :
  ∃ m' v', syscall_read example_vm_map example_kpd toy_kbuf 20 1 0x8048200 100 toy_proc = Done (5, mk_proc (with_mem m' toy_pm) 1 v') ∧
    ubytes example_pages m' 0x8048200 = Some 119 ∧ ubytes example_pages m' 0x8048204 = Some 100 ∧ ubytes example_pages m' 0x8048000 = Some 100.
Proof.
  destruct (syscall_read_correct ToyFs.node _ _ ToyFs.contents example_vm_map example_kpd example_region toy_kbuf example_free_pages toy_proc toy_kproc
    0x807000 example_tables example_pages 20 0 1 0x8048200 100 1 6 ToyFs.node_is_file)
    as (m' & w' & E & _ & _ & R & F & _).
  - repeat constructor; lia.
  - apply example_map_ok.
  - vm_compute. discriminate.
  - apply toy_in_user.
  - reflexivity.
  - reflexivity.
  - unfold PROC_MAX_FILES. lia.
  - reflexivity.
  - reflexivity.
  - reflexivity.
  - lia.
  - lia.
  - lia.
  - lia.
  - lia.
  - apply toy_mapped; lia.
  - vm_compute. lia.
  - exists m'. eexists. split; [exact E|]. split; [exact (R 0%nat 119 eq_refl)|]. split; [exact (R 4%nat 100 eq_refl)|].
    rewrite F by lia. vm_compute. reflexivity.
Defined.

Lemma syscall_open_correct_witness :
  ∃ s' x', syscall_open example_vm_map example_kpd toy_kbuf 20 0x8048100 0 toy_proc = Done (0, s') ∧
    pm_procs (pr_pm s') !! 1%nat = Some x' ∧ take 3 (kpr_files x') = [Some 1%nat; Some 0%nat; None].
Proof.
  destruct (syscall_open_correct example_vm_map example_kpd example_region toy_kbuf example_free_pages toy_proc toy_kproc
    0x807000 example_tables example_pages 20 0x8048100 0 toy_path (Some 1%nat)
    (match vfs_open toy_path toy_vfs with Done (_, v) => v | _ => toy_vfs end)) as (m' & _ & _ & E).
  - apply example_map_ok.
  - vm_compute. discriminate.
  - apply toy_in_user.
  - reflexivity.
  - reflexivity.
  - reflexivity.
  - split; [apply toy_mapped; cbn; lia|]. split; [repeat constructor; discriminate|].
    intros i c Hi. pose proof (lookup_lt_Some _ _ _ Hi) as Hl. cbn in Hl.
    do 10 (destruct i as [|i]; [injection Hi as <-; vm_compute; reflexivity|]). exfalso. lia.
  - lia.
  - cbn. lia.
  - cbn. lia.
  - vm_compute. discriminate.
  - vm_compute. reflexivity.
  - eexists _, _. split; [exact E|]. split; [apply lookup_insert_eq|reflexivity].
Defined.

Lemma syscall_close_correct_witness :
  ∃ s', syscall_close example_kpd 1 toy_proc = Done (0, s') ∧
    (kpr_files <$> pm_procs (pr_pm s') !! 1%nat) = Some (replicate 16 None).
Proof.
  pose proof (syscall_close_correct example_kpd example_region example_free_pages toy_proc toy_kproc 0x807000 example_tables example_pages 1
    toy_in_user eq_refl eq_refl) as E.
  change (if bad_fd 1 then None else file_at 1 (kpr_files toy_kproc)) with (Some 0%nat) in E.
  eexists. split; [rewrite E; vm_compute; reflexivity|]. reflexivity.
Defined.
