(* ===== verification/Elf.v ===== *)
(** * exec/elf/core.c: loading a program

    exec_user_elf_program puts the components together: it reads the file through the
    virtual filesystem ([Vfs]), builds an address space with proc_vmreserve and
    proc_vmwrite ([ProcMem]), creates the main thread ([Thread]) and hands both to the
    scheduler, whose queue is a list here.  The structures of the file format are the
    bytes the code reads into its local variables.  Bytes that the code passes to
    proc_vmwrite from its stack, its arguments or the heap lie in kernel memory at
    [scratch].  The environment is the list of its strings. *)

From stdpp Require Import base list gmap sets strings.
From Stdlib Require Import ZArith Lia.
From S2P Require Import Prelude Memory KUtils MemLayout Cpu Palloc Paging KernelHeap HeapPages.
From S2P Require Import AddressSpace AddressDup ProcMem Thread BlockDev Vfs ProcFork.

Definition ELF_BITS_32 : Z := 1.
Definition ELF_LITTLE_ENDIAN : Z := 1.
Definition ELF_TYPE_EXEC : Z := 2.
Definition ELF_ISET_X86 : Z := 3.
Definition ELF_MAGIC : list Z := [0x7f; 69; 76; 70].
Definition ELF_SEG_LOAD : Z := 1.
Definition ELF_SHT_PROGBITS : Z := 1.
Definition STDIN_FILENO : Z := 0.
Definition STDOUT_FILENO : Z := 1.
Definition STDERR_FILENO : Z := 2.

(** The fields of the structures, from their bytes. *)
Definition eh_magic (h : list Z) : list Z := take 4 h.
Definition eh_bits (h : list Z) : Z := get8 h 4.
Definition eh_endianness (h : list Z) : Z := get8 h 5.
Definition eh_type (h : list Z) : Z := get16 h 16.
Definition eh_iset (h : list Z) : Z := get16 h 18.
Definition sizeof_elf_header : Z := 24.

Definition e32_pe_pos (h : list Z) : Z := get32 h 0.
Definition e32_pht_pos (h : list Z) : Z := get32 h 4.
Definition e32_sht_pos (h : list Z) : Z := get32 h 8.
Definition e32_phe_size (h : list Z) : Z := get16 h 18.
Definition e32_pht_len (h : list Z) : Z := get16 h 20.
Definition e32_she_size (h : list Z) : Z := get16 h 22.
Definition e32_sht_len (h : list Z) : Z := get16 h 24.
Definition sizeof_elf_32_header : Z := 28.

Definition ph_type (h : list Z) : Z := get32 h 0.
Definition ph_mem_offset (h : list Z) : Z := get32 h 8.
Definition ph_mem_size (h : list Z) : Z := get32 h 20.
Definition sizeof_elf_32_program_header : Z := 32.

Definition sh_type (h : list Z) : Z := get32 h 4.
Definition sh_mem_offset (h : list Z) : Z := get32 h 12.
Definition sh_file_offset (h : list Z) : Z := get32 h 16.
Definition sh_file_size (h : list Z) : Z := get32 h 20.
Definition sizeof_elf_32_section_header : Z := 40.

Record esys (W : Type) := mk_es { es_fk : fksys W; es_scheduled : list (nat * nat) }.
Arguments mk_es {W}.
Arguments es_fk {W}.
Arguments es_scheduled {W}.

Section loader.
Context {W : Type} {SH : StackHeap}.
Variable vm_map : list vm_region.
Variables kernel_pd uthread_switch_entry isr_exit : Z.
Variable answers : cpu_ptr → bool.
Variable scratch : Z.
Variable junk : mem.                        (* what uninitialised memory holds *)

Definition on_fk {A} (m : M (fksys W) A) : M (esys W) A :=
  zoom es_fk (fun k s => mk_es k (es_scheduled s)) m.
Definition on_p {A} (m : M pmsys A) : M (esys W) A := on_fk (on_pm m).
Definition on_f {A} (m : M (vfs W) A) : M (esys W) A := on_fk (on_files m).

Definition fresh (num : Z) : list Z := read_bytes junk 0 (Z.to_nat num).

(** [f->read(f, p, num)]: the bytes of the object at [p], which held [old]. *)
Definition read_into (f : nat) (num : Z) (old : list Z) : M (esys W) (list Z) :=
  r <- on_f (vfs_file_read f (s32 num)) ;;
  ret (snd r ++ drop (length (snd r)) old).

(** [proc_vmwrite] of bytes in kernel memory. *)
Definition vmwrite_bytes (proc : nat) (v : Z) (l : list Z) : M (esys W) unit :=
  on_p (on_k (upd_mem (fun m => write_bytes m scratch l))) ;;;
  on_p (proc_vmwrite vm_map kernel_pd proc v scratch (Z.of_nat (length l))).

Definition handle_section_load (proc f : nat) (sh : list Z) : M (esys W) unit :=
  on_f (vfs_file_seek f (sh_file_offset sh) SEEK_SET) ;;;
  contents <- read_into f (sh_file_size sh) (fresh (sh_file_size sh)) ;;
  vmwrite_bytes proc (sh_mem_offset sh) contents.

Definition handle_section (proc f : nat) (sh : list Z) : M (esys W) unit :=
  when ((sh_type sh =? ELF_SHT_PROGBITS) && (sh_file_size sh >? 0) && (sh_mem_offset sh >? 0))
    (handle_section_load proc f sh).

(** [while (v <= vto)]. *)
Fixpoint reserve_segment (fuel : nat) (proc : nat) (v vto : Z) : M (esys W) unit :=
  if negb (v <=? vto) then ret tt else
  match fuel with
  | O => hang
  | S fuel' =>
      on_p (proc_vmreserve vm_map kernel_pd answers proc v (Z.lor (Z.lor VM_USER VM_WRITE) VM_EXEC)) ;;;
      reserve_segment fuel' proc (u32 (v + PAGE_SIZE)) vto
  end.

(** The loop over the program header table: [n] entries from the [i]th; [ph] is the local
    variable, [vbreak] the break so far. *)
Fixpoint load_segments (n : nat) (i : Z) (proc f : nat) (h32 ph : list Z) (vbreak : Z) : M (esys W) Z :=
  match n with
  | O => ret vbreak
  | S n' =>
      on_f (vfs_file_seek f (u32 (e32_pht_pos h32 + i * e32_phe_size h32)) SEEK_SET) ;;;
      ph <- read_into f sizeof_elf_32_program_header ph ;;
      kassert "program_32.type == ELF_SEG_LOAD" (ph_type ph =? ELF_SEG_LOAD) ;;;
      let v := mask_to_page (ph_mem_offset ph) in
      let vto := mask_to_page (u32 (ph_mem_offset ph + ph_mem_size ph)) in
      reserve_segment (pages_between v vto) proc v vto ;;;
      load_segments n' (i + 1) proc f h32 ph (if vto >? vbreak then vto else vbreak)
  end.

Fixpoint load_sections (n : nat) (i : Z) (proc f : nat) (h32 sh : list Z) : M (esys W) unit :=
  match n with
  | O => ret tt
  | S n' =>
      on_f (vfs_file_seek f (u32 (e32_sht_pos h32 + i * e32_she_size h32)) SEEK_SET) ;;;
      sh <- read_into f sizeof_elf_32_section_header sh ;;
      handle_section proc f sh ;;;
      load_sections n' (i + 1) proc f h32 sh
  end.

(** [env_num] and [formatted_env_size] after the counting loop. *)
Definition env_num (env : list (list Z)) : Z := Z.of_nat (length env) + 1.
Definition formatted_env_size (env : list (list Z)) : Z :=
  foldl (fun n e => u32 (n + (Z.of_nat (length e) + 1) + 4)) 4 env.

(** [for (i = 0; i < n; i++) { proc_vmreserve(proc, vbreak, VM_USER); vbreak += PAGE_SIZE; }] *)
Fixpoint reserve_env (n : nat) (proc : nat) (vbreak : Z) : M (esys W) Z :=
  match n with
  | O => ret vbreak
  | S n' =>
      on_p (proc_vmreserve vm_map kernel_pd answers proc vbreak VM_USER) ;;;
      reserve_env n' proc (u32 (vbreak + PAGE_SIZE))
  end.

(** The entries of the table from [slot] on, the strings from [str] on. *)
Fixpoint write_env (env : list (list Z)) (proc : nat) (slot str : Z) : M (esys W) unit :=
  match env with
  | [] => vmwrite_bytes proc slot (le_bytes 4 0)
  | e :: env' =>
      vmwrite_bytes proc slot (le_bytes 4 str) ;;;
      vmwrite_bytes proc str (e ++ [0]) ;;;
      write_env env' proc (u32 (slot + 4)) (u32 (str + (Z.of_nat (length e) + 1)))
  end.

(** [proc_bind] on the process objects of [ProcMem]. *)
Definition bind_file (proc : nat) (fd : Z) (f : nat) : M pmsys Z :=
  x <- rd_proc proc ;;
  kassert "thread_mutex_held(&(proc->mutex))" (kpr_mutex x) ;;;
  if (fd <? 0) || (fd >=? 16) then ret (- EUNSPEC) else
  match kpr_files x !! Z.to_nat fd with
  | Some (Some _) => ret (- EUNSPEC)
  | _ => wr_proc proc (set_file (Z.to_nat fd) (Some f)) ;;; ret fd
  end.

Definition open_std (proc : nat) (fd : Z) (path : list Z) (why : string) : M (esys W) unit :=
  f <- on_f (vfs_open path) ;;
  match f with
  | None => kpanic why
  | Some f => on_p (bind_file proc fd f) ;;; ret tt
  end.

(** The end of exec_user_elf_program: the stack, the environment, the main thread and the
    standard streams. *)
Definition start_program (proc f : nat) (h32 : list Z) (vbreak : Z) (stdin stdout stderr : list Z)
    (env : list (list Z)) : M (esys W) unit :=
  on_f (vfs_close (Some f)) ;;;
  on_p (proc_vmreserve vm_map kernel_pd answers proc vbreak (Z.lor VM_USER VM_WRITE)) ;;;
  let stack := vbreak in
  let vbreak := u32 (vbreak + PAGE_SIZE) in
  on_p (proc_set_stack proc stack PAGE_SIZE) ;;;
  let env_table := vbreak in
  let env_strings := u32 (env_table + env_num env * 4) in
  vbreak <- reserve_env (Z.to_nat (formatted_env_size env / PAGE_SIZE + 1)) proc vbreak ;;
  write_env env proc env_table env_strings ;;;
  on_p (proc_set_env proc env_table) ;;;
  on_p (proc_set_break proc vbreak) ;;;
  x <- on_p (rd_arch proc) ;;
  thread <- on_fk (on_ts (uthread_create (phys_kernel_pd kernel_pd) uthread_switch_entry isr_exit
              (e32_pe_pos h32) stack PAGE_SIZE (chars "elf thread") (ap_pd x))) ;;
  on_p (mutex_acquire proc) ;;;
  open_std proc STDIN_FILENO stdin "exec_user_elf_program(): could not open stdin" ;;;
  open_std proc STDOUT_FILENO stdout "exec_user_elf_program(): could not open stdout" ;;;
  open_std proc STDERR_FILENO stderr "exec_user_elf_program(): could not open stderr" ;;;
  on_p (mutex_release proc) ;;;
  modify (fun s => mk_es (es_fk s) (es_scheduled s ++ [(proc, thread)])).

Definition exec_user_elf_program (path stdin stdout stderr : list Z) (env : list (list Z)) : M (esys W) unit :=
  f <- on_f (vfs_open path) ;;
  match f with
  | None => kpanic "f != NULL"
  | Some f =>
      header <- read_into f sizeof_elf_header (fresh sizeof_elf_header) ;;
      kassert "kmemcmp(header.magic, ELF_MAGIC, sizeof(header.magic))" (bool_decide (eh_magic header = ELF_MAGIC)) ;;;
      kassert "header.bits == ELF_BITS_32" (eh_bits header =? ELF_BITS_32) ;;;
      kassert "header.endianness == ELF_LITTLE_ENDIAN" (eh_endianness header =? ELF_LITTLE_ENDIAN) ;;;
      kassert "header.iset == ELF_ISET_X86" (eh_iset header =? ELF_ISET_X86) ;;;
      kassert "header.type == ELF_TYPE_EXEC" (eh_type header =? ELF_TYPE_EXEC) ;;;
      proc <- on_p (proc_alloc kernel_pd (chars "elf executable")) ;;
      h32 <- read_into f sizeof_elf_32_header (fresh sizeof_elf_32_header) ;;
      vbreak <- load_segments (Z.to_nat (e32_pht_len h32)) 0 proc f h32
                  (fresh sizeof_elf_32_program_header) UVNULL ;;
      load_sections (Z.to_nat (e32_sht_len h32)) 0 proc f h32 (fresh sizeof_elf_32_section_header) ;;;
      start_program proc f h32 vbreak stdin stdout stderr env
  end.
End loader.
