(* ===== verification/ElfLoad.v ===== *)
(** * What exec_user_elf_program leaves in the new process

    The loader of [Elf] is followed with the memory of the process as a partial function
    from addresses to bytes: reserving a page adds zeros where nothing was, writing
    overlays bytes.  The program's image is composed of these two operations; the
    theorem states what the image holds. *)

From stdpp Require Import base list gmap sets strings.
From Stdlib Require Import ZArith Lia.
From S2P Require Import Prelude Memory KUtils MemLayout Cpu Palloc Paging KernelHeap HeapPages.
From S2P Require Import AddressSpace AddressDup ProcMem Thread BlockDev Vfs ProcFork Elf.

(** ** Images *)

Definition umemory : Type := Z → option Z.

Definition with_page (n : Z) (B : umemory) : umemory := fun w =>
  match B w with Some b => Some b | None => if page_no w =? n then Some 0 else None end.
Definition with_pages (n : Z) (k : nat) (B : umemory) : umemory := fun w =>
  match B w with
  | Some b => Some b
  | None => if (n <=? page_no w) && (page_no w <? n + Z.of_nat k) then Some 0 else None
  end.
Definition overlay (v : Z) (l : list Z) (B : umemory) : umemory := fun w =>
  if (v <=? w) && (w <? v + Z.of_nat (length l)) then l !! Z.to_nat (w - v) else B w.

(** [n] entries of a table, from the [k]th. *)
Fixpoint entries (n : nat) (k pos size len : Z) (img : list Z) : list (list Z) :=
  match n with
  | O => []
  | S n' => slice (pos + k * size) len img :: entries n' (k + 1) pos size len img
  end.

(** Segments: the pages from the first to the last address, and the break behind them. *)
Definition seg_first (ph : list Z) : Z := page_no (ph_mem_offset ph).
Definition seg_last (ph : list Z) : Z := page_no (ph_mem_offset ph + ph_mem_size ph).
Definition seg_pages (ph : list Z) : nat := Z.to_nat (seg_last ph - seg_first ph + 1).
Definition with_seg (B : umemory) (ph : list Z) : umemory := with_pages (seg_first ph) (seg_pages ph) B.
Definition seg_break : Z → list (list Z) → Z := foldl (fun b ph => Z.max b (PAGE_SIZE * seg_last ph)).
Definition seg_room (segs : list (list Z)) : nat := sum_list_with (fun ph => 2 * seg_pages ph)%nat segs.

(** Sections: those with contents are copied from the file. *)
Definition loaded (sh : list Z) : bool :=
  (sh_type sh =? ELF_SHT_PROGBITS) && (sh_file_size sh >? 0) && (sh_mem_offset sh >? 0).
Definition with_section (img : list Z) (B : umemory) (sh : list Z) : umemory :=
  if loaded sh then overlay (sh_mem_offset sh) (slice (sh_file_offset sh) (sh_file_size sh) img) B else B.

(** The environment: a table of pointers at [slot], the strings from [str]. *)
Definition env_bytes (env : list (list Z)) : Z := Z.of_nat (sum_list_with (fun e => S (length e)) env).
Fixpoint env_image (env : list (list Z)) (slot str : Z) (B : umemory) : umemory :=
  match env with
  | [] => overlay slot (le_bytes 4 0) B
  | e :: env' =>
      env_image env' (slot + 4) (str + (Z.of_nat (length e) + 1)) (overlay str (e ++ [0]) (overlay slot (le_bytes 4 str) B))
  end.

(** ** Lemmas: images *)

Lemma get8_range l i : byte_list l → 0 ≤ get8 l i < 2 ^ 8.
Proof.
  intros Hl. unfold get8. destruct (nth_in_or_default i l 0) as [Hin| ->]; [|lia].
  unfold byte_list in Hl. rewrite Forall_forall in Hl. apply Hl. by apply list_elem_of_In.
Qed.

Lemma get16_range l i : byte_list l → 0 ≤ get16 l i < 2 ^ 16.
Proof. intros Hl. unfold get16. pose proof (get8_range l i Hl). pose proof (get8_range l (i + 1) Hl). lia. Qed.

Lemma get32_range l i : byte_list l → 0 ≤ get32 l i < 2 ^ 32.
Proof. intros Hl. unfold get32. pose proof (get16_range l i Hl). pose proof (get16_range l (i + 2) Hl). lia. Qed.

Lemma slice_byte_list off num l : byte_list l → byte_list (slice off num l).
Proof. intros Hl. unfold slice. by apply Forall_take, Forall_drop. Qed.

Lemma slice_full off num (l : list Z) :
  0 ≤ off → 0 ≤ num → off + num ≤ Z.of_nat (length l) → length (slice off num l) = Z.to_nat num.
Proof. intros. unfold slice. rewrite length_take, length_drop. lia. Qed.

Lemma with_pages_0 n B w : with_pages n 0 B w = B w.
Proof.
  unfold with_pages. destruct (B w); [done|].
  destruct (Z.leb_spec n (page_no w)), (Z.ltb_spec (page_no w) (n + Z.of_nat 0)); cbn; done || lia.
Qed.

Lemma with_pages_S n k B w : with_pages (n + 1) k (with_page n B) w = with_pages n (S k) B w.
Proof.
  unfold with_pages, with_page. destruct (B w); [done|].
  destruct (Z.eqb_spec (page_no w) n), (Z.leb_spec (n + 1) (page_no w)), (Z.ltb_spec (page_no w) (n + 1 + Z.of_nat k)),
    (Z.leb_spec n (page_no w)), (Z.ltb_spec (page_no w) (n + Z.of_nat (S k))); cbn; done || lia.
Qed.

Lemma overlay_some v l B w : is_Some (B w) → is_Some (overlay v l B w).
Proof.
  intros H. unfold overlay. destruct (_ && _) eqn:E; [|done]. zbool. apply lookup_lt_is_Some. lia.
Qed.

Lemma with_section_some img B sh w : is_Some (B w) → is_Some (with_section img B sh w).
Proof. intros H. unfold with_section. destruct (loaded sh); [by apply overlay_some|done]. Qed.

(** [B] holds the bytes [l] at [v]. *)
Definition bytes_at (B : umemory) (v : Z) (l : list Z) : Prop :=
  ∀ j b, l !! j = Some b → B (v + Z.of_nat j) = Some b.

Lemma overlay_in v l B : bytes_at (overlay v l B) v l.
Proof.
  intros j b Hj. unfold overlay. pose proof (lookup_lt_Some _ _ _ Hj).
  rewrite (proj2 (Z.leb_le _ _)), (proj2 (Z.ltb_lt _ _)) by lia. cbn.
  by replace (Z.to_nat (v + Z.of_nat j - v)) with j by lia.
Qed.

Lemma overlay_out v l B w : w < v ∨ v + Z.of_nat (length l) ≤ w → overlay v l B w = B w.
Proof.
  intros H. unfold overlay. destruct (Z.leb_spec v w), (Z.ltb_spec w (v + Z.of_nat (length l))); cbn; done || lia.
Qed.

Lemma bytes_at_ext B B' v l :
  bytes_at B v l → (∀ w, v ≤ w < v + Z.of_nat (length l) → B' w = B w) → bytes_at B' v l.
Proof. intros H HB j b Hj. pose proof (lookup_lt_Some _ _ _ Hj). rewrite HB by lia. by apply H. Qed.

(** Later entries of an environment do not touch what is below them. *)
Lemma env_image_out env : ∀ slot str B w,
  slot + 4 * env_num env ≤ str → w < slot ∨ slot + 4 * env_num env ≤ w < str →
  env_image env slot str B w = B w.
Proof.
  induction env as [|e env IH]; intros slot str B w Hs Hw; cbn [env_image]; unfold env_num in *; cbn [length] in *.
  - apply overlay_out. rewrite length_le_bytes. lia.
  - rewrite IH by lia. rewrite overlay_out by lia. apply overlay_out. rewrite length_le_bytes. lia.
Qed.

Definition env_addr (env : list (list Z)) (str : Z) (i : nat) : Z := str + env_bytes (take i env).

Lemma env_image_entries env : ∀ slot str B,
  slot + 4 * env_num env ≤ str →
  (∀ i e, env !! i = Some e →
     bytes_at (env_image env slot str B) (slot + 4 * Z.of_nat i) (le_bytes 4 (env_addr env str i)) ∧
     bytes_at (env_image env slot str B) (env_addr env str i) (e ++ [0])) ∧
  bytes_at (env_image env slot str B) (slot + 4 * Z.of_nat (length env)) (le_bytes 4 0).
Proof.
  induction env as [|e env IH]; intros slot str B Hs.
  { split; [done|]. cbn [env_image length]. rewrite Z.mul_0_r, Z.add_0_r. apply overlay_in. }
  unfold env_num in *. cbn [length] in Hs. set (B1 := overlay slot (le_bytes 4 str) B).
  destruct (IH (slot + 4) (str + (Z.of_nat (length e) + 1)) (overlay str (e ++ [0]) B1)) as [H1 H2]; [lia|].
  cbn [env_image]. fold B1. split.
  - intros [|i] e' He'; cbn in He'.
    + injection He' as <-. unfold env_addr. cbn [take]. change (env_bytes []) with 0. rewrite !Z.add_0_r. split.
      * apply (bytes_at_ext B1); [apply overlay_in|]. rewrite length_le_bytes. intros w Hw.
        rewrite env_image_out by (unfold env_num; lia). apply overlay_out. lia.
      * apply (bytes_at_ext (overlay str (e ++ [0]) B1)); [apply overlay_in|].
        rewrite length_app. cbn [length]. intros w Hw. apply env_image_out; unfold env_num; lia.
    + destruct (H1 i e' He') as [A1 A2]. unfold env_addr in *. cbn [take].
      replace (str + env_bytes (e :: take i env)) with (str + (Z.of_nat (length e) + 1) + env_bytes (take i env))
        by (unfold env_bytes; cbn [sum_list_with]; lia).
      replace (slot + 4 * Z.of_nat (S i)) with (slot + 4 + 4 * Z.of_nat i) by lia. done.
  - cbn [length]. replace (slot + 4 * Z.of_nat (S (length env))) with (slot + 4 + 4 * Z.of_nat (length env)) by lia. done.
Qed.

(** The pages of segments end with the break. *)
Lemma seg_image_below segs : ∀ B w b n,
  (∀ w, is_Some (B w) → page_no w ≤ n) → b = PAGE_SIZE * n →
  is_Some (foldl with_seg B segs w) → PAGE_SIZE * page_no w ≤ seg_break b segs.
Proof.
  induction segs as [|ph segs IH]; intros B w b n HB Hb Hw; cbn in *.
  { rewrite Hb. apply Z.mul_le_mono_nonneg_l; [done|]. by apply HB. }
  apply (IH (with_seg B ph) w _ (Z.max n (seg_last ph))); [|unfold PAGE_SIZE in *; lia|done].
  intros w' [c Hc]. unfold with_seg, with_pages in Hc. destruct (B w') eqn:E; [specialize (HB w' ltac:(by eexists)); lia|].
  destruct (Z.leb_spec (seg_first ph) (page_no w')), (Z.ltb_spec (page_no w') (seg_first ph + Z.of_nat (seg_pages ph)));
    cbn in Hc; try done. unfold seg_pages in *. lia.
Qed.

(** The range of a section in memory. *)
Definition in_section (sh : list Z) (w : Z) : Prop := sh_mem_offset sh ≤ w < sh_mem_offset sh + sh_file_size sh.

Lemma section_out img B sh w :
  0 ≤ sh_file_size sh → (loaded sh = true → ¬ in_section sh w) → with_section img B sh w = B w.
Proof.
  intros H0 H. unfold with_section. destruct (loaded sh); [|done]. apply overlay_out. unfold in_section in H.
  specialize (H eq_refl). unfold slice. rewrite length_take, length_drop. lia.
Qed.

Lemma sections_out img secs : ∀ B w,
  (∀ sh, sh ∈ secs → 0 ≤ sh_file_size sh) → (∀ sh, sh ∈ secs → loaded sh = true → ¬ in_section sh w) →
  foldl (with_section img) B secs w = B w.
Proof.
  induction secs as [|sh secs IH]; intros B w H0 H; cbn; [done|]. rewrite IH.
  - apply section_out; [apply H0; by left|]. apply H. by left.
  - intros sh' Hs. apply H0. by right.
  - intros sh' Hs. apply H. by right.
Qed.

Lemma sections_in img secs B i sh :
  (∀ sh, sh ∈ secs → 0 ≤ sh_file_size sh) → secs !! i = Some sh → loaded sh = true →
  (∀ j sh' w, secs !! j = Some sh' → j ≠ i → loaded sh' = true → in_section sh w → ¬ in_section sh' w) →
  Z.of_nat (length (slice (sh_file_offset sh) (sh_file_size sh) img)) ≤ sh_file_size sh →
  bytes_at (foldl (with_section img) B secs) (sh_mem_offset sh) (slice (sh_file_offset sh) (sh_file_size sh) img).
Proof.
  intros H0 Hi Hl Hd Hlen. rewrite <- (take_drop_middle secs i sh Hi), foldl_app. cbn [foldl].
  set (B1 := foldl _ B _). apply (bytes_at_ext (with_section img B1 sh)).
  - unfold with_section. rewrite Hl. apply overlay_in.
  - intros w Hw. apply sections_out.
    + intros sh' Hs. apply H0. rewrite <- (take_drop (S i) secs). apply elem_of_app. by right.
    + intros sh' Hs Hl'. apply list_elem_of_lookup in Hs as [j Hj]. rewrite lookup_drop in Hj.
      apply (Hd (S i + j)%nat sh' w Hj); [lia|done|]. unfold in_section. lia.
Qed.

(** ** Lemmas: the process being loaded *)

Section loading.
Context {W : Type} {SH : StackHeap}.
Variable vm_map : list vm_region.
Variable kernel_pd : Z.
Variable r : vm_region.
Variable answers : cpu_ptr → bool.
Hypothesis Hmap : map_ok vm_map r.
Hypothesis Hans : ∀ q, answers q = true.
Variable scratch : Z.
Hypothesis Hscratch : vbase r + rsize r ≤ scratch.

(** Addresses below [limit] are for the user. *)
Variable limit : Z.
Hypothesis Hlimit : limit ≤ 2 ^ 32 - PAGE_SIZE.

(** Process [p] is [x0] but for the range of its addresses, its memory is [B], and there
    are [room] free pages; other processes are those of [ps]. *)
Definition loading (ps : gmap nat kproc) (p : nat) (x0 : kproc) (B : umemory) (room : nat) (s : pmsys) : Prop :=
  ∃ l x a T F, in_space kernel_pd r l s p x a T F ∧ pm_procs s = <[p := x]> ps ∧ (∃ f, x = with_arch x0 f) ∧
    same_layout (kpr_arch x0) (kpr_arch x) ∧ pd_mutex (kpr_arch x0) = false ∧
    (∀ w, ubytes F (kmem (pm_k s)) w = B w) ∧ (room ≤ length l)%nat ∧
    ∀ v, 0 ≤ v < limit → user_address (kmem (pm_k s)) a v.

Lemma loading_ext ps p x0 B B' room room' s :
  loading ps p x0 B room s → (∀ w, B w = B' w) → (room' ≤ room)%nat → loading ps p x0 B' room' s.
Proof.
  intros (l & x & a & T & F & H1 & H2 & H3 & H4 & H5 & H6 & H7 & H8) HB Hr.
  exists l, x, a, T, F. do 5 (split; [done|]). split; [intros w; by rewrite H6|]. split; [lia|done].
Qed.

Lemma reserve_loading ps p x0 B room s n flags :
  loading ps p x0 B (2 + room) s → 0 ≤ n → PAGE_SIZE * (n + 1) ≤ limit →
  returns (proc_vmreserve vm_map kernel_pd answers p (PAGE_SIZE * n) flags) s
    (fun _ s' => loading ps p x0 (with_page n B) room s').
Proof.
  intros (l & x & a & T & F & H1 & H2 & (f & ->) & H4 & H5 & H6 & H7 & H8) Hn Hlim.
  pose proof (same_layout_fields _ _ H4) as (_ & _ & Hm). rewrite H5 in Hm. unfold PAGE_SIZE in Hlim, Hlimit.
  destruct (proc_vmreserve_run vm_map kernel_pd r answers l s p (with_arch x0 f) a T F n flags Hmap Hans H1 Hm) as (s' & E & R).
  - lia.
  - intros v Hv Hp. apply H8. unfold is_u32 in Hv. unfold page_no, PAGE_SIZE in Hp. dlia.
  - lia.
  - destruct R as (l' & x' & T' & F' & A1 & A2 & A3 & A4 & [_ _ _ A5] & A6 & _ & _ & _ & (g & ->) & A11).
    eapply returns_run; [exact E|]. exists l', (with_arch (with_arch x0 f) g), a, T', F'. split; [done|].
    split; [by rewrite A4, H2, insert_insert_eq|]. split; [by exists (fun y => g (f y))|].
    split; [unfold same_layout in *; congruence|]. split; [done|]. split; [|split; [lia|]].
    + intros w. rewrite A5, H6. unfold with_page. destruct (B w); [done|].
      destruct (Z.leb_spec n (page_no w)), (Z.leb_spec (page_no w) n), (Z.eqb_spec (page_no w) n); cbn; done || lia.
    + intros v Hv. apply (same_global_user _ (kmem (pm_k s))); [done|]. by apply H8.
Qed.

Lemma mapped_bytes m a T F B v num :
  space r m a T F → (∀ w, ubytes F m w = B w) → (∀ w, 0 ≤ w < limit → user_address m a w) → 0 ≤ v → v + num ≤ limit →
  (∀ w, v ≤ w < v + num → is_Some (B w)) → mapped m a F v num.
Proof.
  intros Hs HB Hu Hv Hle HM w Hw. split; [apply Hu; lia|]. destruct (HM w Hw) as [b Hb]. rewrite <- HB in Hb.
  unfold ubytes in Hb. by destruct (F !! page_no w).
Qed.

(** The bytes at [scratch], then [proc_vmwrite]. *)
Lemma write_loading ps p x0 B room s v bs :
  loading ps p x0 B room s → byte_list bs → 0 ≤ v → v + Z.of_nat (length bs) ≤ limit →
  (∀ w, v ≤ w < v + Z.of_nat (length bs) → is_Some (B w)) →
  returns (on_k (upd_mem (fun m => write_bytes m scratch bs)) ;;;
           proc_vmwrite vm_map kernel_pd p v scratch (Z.of_nat (length bs))) s
    (fun _ s' => loading ps p x0 (overlay v bs B) room s').
Proof.
  intros (l & x & a & T & F & H1 & H2 & (f & ->) & H4 & H5 & H6 & H7 & H8) Hb Hv Hle HM.
  pose proof (same_layout_fields _ _ H4) as (_ & _ & Hm). rewrite H5 in Hm. unfold PAGE_SIZE in Hlimit.
  destruct (scratch_space kernel_pd r scratch l s p _ a T F bs Hscratch H1) as (S1 & S2 & S3). set (m1 := write_bytes _ _ _) in *.
  set (s1 := set_pm_k (set_kmem m1 (pm_k s)) s) in *.
  eapply (returns_bind _ _ _ (fun _ s' => s' = s1)); [done|intros [] ? ->].
  pose proof (is_space _ _ _ _ _ _ _ _ _ S1) as [_ Hs1 _].
  destruct (proc_vmwrite_run vm_map kernel_pd r l s1 p (with_arch x0 f) a T F v scratch (Z.of_nat (length bs)) Hmap S1 Hm)
    as (m2 & E & I2 & Ag & Hub).
  - unfold is_u32. lia.
  - lia.
  - lia.
  - apply (mapped_bytes _ _ T F B); try done; [intros w; by rewrite S2|]. intros w Hw. by apply S3, H8.
  - by apply (scratch_apart r m1).
  - eapply returns_run; [exact E|]. exists l, (with_arch x0 f), a, T, F. split; [done|]. split; [done|].
    split; [by eexists|]. do 2 (split; [done|]). split; [|split; [done|]].
    + intros w. cbn. rewrite Hub. unfold overlay. destruct ((v <=? w) && (w <? v + Z.of_nat (length bs))) eqn:Ew.
      * zbool. destruct (lookup_lt_is_Some_2 bs (Z.to_nat (w - v)) ltac:(lia)) as [b Hbs]. rewrite Hbs. f_equal.
        replace (w - v) with (Z.of_nat (Z.to_nat (w - v))) by lia. cbn. unfold m1.
        rewrite (write_bytes_lookup _ _ _ _ _ Hbs). apply u8_small. by apply (Forall_lookup_1 _ _ _ _ Hb Hbs).
      * cbn. by rewrite S2, H6.
    + intros w Hw. apply (frames_user r m1 _ a T F); [done|done|]. by apply S3, H8.
Qed.

(** Functions that set fields other than the directory, the mutex and the range in use. *)
Record setter (g : arch_proc → arch_proc) : Prop := {
  se_pd : ∀ y, ap_pd (g y) = ap_pd y;
  se_mutex : ∀ y, pd_mutex (g y) = pd_mutex y;
  se_lock : ∀ b y, aset_mutex b (g y) = g (aset_mutex b y);
  se_layout : ∀ y y', same_layout y y' → same_layout (g y) (g y');
}.

Lemma setter_stack v n : setter (aset_stack v n).
Proof. split; try done. intros [] [] [= -> -> -> -> -> -> ->]. done. Qed.
Lemma setter_env v : setter (aset_env v).
Proof. split; try done. intros [] [] [= -> -> -> -> -> -> ->]. done. Qed.
Lemma setter_break v : setter (fun y => aset_cur_vbreak v (aset_vbreak v y)).
Proof. split; try done. intros [] [] [= -> -> -> -> -> -> ->]. done. Qed.

Lemma set_loading ps p x0 B room s g :
  loading ps p x0 B room s → setter g →
  returns (pd_acquire p ;;; wr_arch p g ;;; pd_release p) s (fun _ s' => loading ps p (with_arch x0 g) B room s').
Proof.
  intros (l & x & a & T & F & H1 & H2 & (f & ->) & H4 & H5 & H6 & H7 & H8) [G1 G2 G3 G4].
  pose proof (same_layout_fields _ _ H4) as (_ & _ & Hm). rewrite H5 in Hm. pose proof H1 as [P1 _ _ _ _].
  eapply returns_run.
  { rewrite (bind_run _ _ _ _ _ (pd_acquire_run _ _ _ P1 Hm)).
    rewrite (bind_run _ _ _ _ _ (wr_arch_run p _ _ (lookup_insert_eq _ _ _) _)).
    apply (pd_release_run p _ _ (lookup_insert_eq _ _ _)). cbn. by rewrite G2. }
  set (x' := with_arch x0 (fun y => g (f y))). exists l, x', a, T, F.
  assert (Ex : with_arch (with_arch (with_arch (with_arch x0 f) (aset_mutex true)) g) (aset_mutex false) = x').
  { unfold x', with_arch. cbn. f_equal. rewrite G3. f_equal. cbn in Hm. revert Hm.
    destruct (f (kpr_arch x0)). cbn. by intros ->. }
  rewrite Ex. match goal with |- in_space _ _ _ ?s2 _ _ _ _ _ ∧ _ =>
    replace s2 with (set_pm_procs (<[p := x']> (pm_procs s)) s) by (unfold set_pm_procs; cbn; by rewrite !insert_insert_eq) end.
  split; [by apply (in_space_procs _ _ _ _ _ (with_arch x0 f)); [|apply G1]|].
  split; [by rewrite H2, insert_insert_eq|]. split; [exists (fun _ => g (f (kpr_arch x0))); done|].
  split; [by apply G4|]. split; [by cbn; rewrite G2|]. done.
Qed.
End loading.

(** ** Lemmas: the loader's state *)

Section states.
Context {W : Type} {SH : StackHeap}.
Variable vm_map : list vm_region.
Variable kernel_pd : Z.
Variable r : vm_region.
Variable answers : cpu_ptr → bool.
Hypothesis Hmap : map_ok vm_map r.
Hypothesis Hans : ∀ q, answers q = true.
Variable scratch : Z.
Hypothesis Hscratch : vbase r + rsize r ≤ scratch.
Variable limit : Z.
Hypothesis Hlimit : limit ≤ 2 ^ 32 - PAGE_SIZE.
Variables (ps : gmap nat kproc) (p : nat) (ts0 : tsys) (sc0 : list (nat * nat)).

(** The loader's state: processes with [Pm], the virtual filesystem with [V]; threads and
    queue are as before. *)
Record pstate (Pm : pmsys → Prop) (V : vfs W → Prop) (s : esys W) : Prop := {
  ls_mem : Pm (fk_pm (es_fk s));
  ls_vfs : V (fk_vfs (es_fk s));
  ls_ts : fk_ts (es_fk s) = ts0;
  ls_sched : es_scheduled s = sc0;
}.
Local Abbreviation lstate x0 B room V := (pstate (loading kernel_pd r limit ps p x0 B room) V).

Lemma lstate_ext x0 B B' room room' V s :
  lstate x0 B room V s → (∀ w, B w = B' w) → (room' ≤ room)%nat → lstate x0 B' room' V s.
Proof. intros [H1 H2 H3 H4] HB Hr. split; try done. by apply (loading_ext _ _ _ _ _ _ B B' room room'). Qed.

Lemma on_p_step {A} (m : M pmsys A) x0 x1 B B' room room' V s (Q : A → Prop) :
  lstate x0 B room V s →
  (loading kernel_pd r limit ps p x0 B room (fk_pm (es_fk s)) →
   returns m (fk_pm (es_fk s)) (fun v s' => Q v ∧ loading kernel_pd r limit ps p x1 B' room' s')) →
  returns (on_p m) s (fun v s' => Q v ∧ lstate x1 B' room' V s').
Proof.
  intros [H1 H2 H3 H4] Hm. destruct (returns_inv _ _ _ (Hm H1)) as (v & pm & E & Hv & HL).
  eapply returns_run; [unfold on_p, on_fk, on_pm, zoom; rewrite E; reflexivity|]. done.
Qed.

Lemma on_f_step {A} (m : M (vfs W) A) Pm V s (Q : A → Prop) (V' : vfs W → Prop) :
  pstate Pm V s → returns m (fk_vfs (es_fk s)) (fun v s' => Q v ∧ V' s') →
  returns (on_f m) s (fun v s' => Q v ∧ pstate Pm V' s').
Proof.
  intros [H1 H2 H3 H4] Hm. destruct (returns_inv _ _ _ Hm) as (v & vf & E & Hv & HL).
  eapply returns_run; [unfold on_f, on_fk, on_files, zoom; rewrite E; reflexivity|]. done.
Qed.

Lemma vmreserve_step x0 B room V s n flags :
  lstate x0 B (2 + room) V s → 0 ≤ n → PAGE_SIZE * (n + 1) ≤ limit →
  returns (on_p (proc_vmreserve vm_map kernel_pd answers p (PAGE_SIZE * n) flags)) s
    (fun _ s' => lstate x0 (with_page n B) room V s').
Proof.
  intros H Hn Hl. eapply returns_mono.
  - apply (on_p_step _ x0 x0 B (with_page n B) (2 + room) room V s (fun _ => True) H).
    intros HL. eapply returns_mono; [by apply (reserve_loading vm_map kernel_pd r answers Hmap Hans limit Hlimit)|]. done.
  - by intros [] s' [_ ?].
Qed.

Lemma vmwrite_step x0 B room V s v bs :
  lstate x0 B room V s → byte_list bs → 0 ≤ v → v + Z.of_nat (length bs) ≤ limit →
  (∀ w, v ≤ w < v + Z.of_nat (length bs) → is_Some (B w)) →
  returns (vmwrite_bytes vm_map kernel_pd scratch p v bs) s (fun _ s' => lstate x0 (overlay v bs B) room V s').
Proof.
  intros [H1 H2 H3 H4] Hb Hv Hl HM.
  destruct (returns_inv _ _ _ (write_loading vm_map kernel_pd r Hmap scratch Hscratch limit Hlimit
    ps p x0 B room _ v bs H1 Hb Hv Hl HM)) as ([] & pm & E & HL).
  apply bind_Done_inv in E as ([] & pm1 & E1 & E2). unfold vmwrite_bytes.
  apply (returns_run _ _ tt (mk_es (mk_fk pm (fk_ts (es_fk s)) (fk_vfs (es_fk s))) (es_scheduled s))); [|done].
  rewrite (bind_run _ _ _ tt (mk_es (mk_fk pm1 (fk_ts (es_fk s)) (fk_vfs (es_fk s))) (es_scheduled s)))
    by (unfold on_p, on_fk, on_pm, zoom; by rewrite E1).
  unfold on_p, on_fk, on_pm, zoom. cbn. by rewrite E2.
Qed.

Lemma set_step x0 B room V s g :
  lstate x0 B room V s → setter g →
  returns (on_p (pd_acquire p ;;; wr_arch p g ;;; pd_release p)) s (fun _ s' => lstate (with_arch x0 g) B room V s').
Proof.
  intros H Hg. eapply returns_mono.
  - apply (on_p_step _ x0 (with_arch x0 g) B B room room V s (fun _ => True) H).
    intros HL. eapply returns_mono; [by apply set_loading|]. done.
  - by intros [] s' [_ ?].
Qed.

(** ** Lemmas: reading the file *)

Variables (node : vfs_node W) (I L : W → Prop) (img : list Z).
Hypothesis Hfile : is_file node I L img.
Variables (v0 : vfs W) (f : nat) (ref : Z).
Local Abbreviation at_file pos := (at_pos node v0 f ref pos I).

Lemma seek_step Pm pos off s :
  pstate Pm (at_file pos) s → 0 ≤ pos < 2 ^ 63 → 0 ≤ off < 2 ^ 63 →
  returns (on_f (vfs_file_seek f off SEEK_SET)) s (fun _ s' => pstate Pm (at_file off) s').
Proof.
  intros H Hp Ho.
  eapply returns_mono; [apply (on_f_step _ Pm (at_file pos) s (fun _ => True) (at_file off)); [done|]|by intros ? s' [_ ?]].
  pose proof (seek_at node I L img Hfile v0 f ref pos off SEEK_SET _ off (off, []) (ls_vfs _ _ _ H) Hp) as Hs.
  cbn [run_op] in Hs. destruct (returns_inv _ _ _ (Hs ltac:(cbn; rewrite (proj2 (Z.leb_le 0 off)), (proj2 (Z.ltb_lt off _)) by lia; done)))
    as (q0 & v1 & E & _ & Hv1 & _).
  apply bind_Done_inv in E as (q & v2 & E & E2). unfold ret in E2. injection E2 as _ ->. by apply (returns_run _ _ _ _ _ E).
Qed.

Lemma read_step Pm pos num old s :
  pstate Pm (at_file pos) s → 0 ≤ pos → 0 < num → pos + num ≤ Z.of_nat (length img) →
  length old = Z.to_nat num →
  returns (read_into f num old) s (fun l s' => l = slice pos num img ∧ pstate Pm (at_file (pos + num)) s').
Proof.
  intros H Hp Hn Hle Ho. pose proof (if_small _ _ _ _ Hfile) as Hsm. unfold read_into. rewrite s32_small by lia.
  assert (Hl : length (slice pos num img) = Z.to_nat num).
  { unfold slice. rewrite length_take, length_drop. lia. }
  eapply returns_bind.
  - apply (on_f_step _ Pm (at_file pos) s (fun q => q = (num, slice pos num img)) (at_file (pos + num))); [done|].
    eapply returns_mono.
    + apply (read_at node I L img Hfile v0 f ref pos num _ (pos + num) (num, slice pos num img)); [apply H|lia|].
      cbn [abs_op]. rewrite (proj2 (Z.leb_gt _ _)), (proj2 (Z.leb_gt num 0)) by lia.
      rewrite Z.geb_leb, (proj2 (Z.leb_gt _ pos)) by lia. cbn [orb]. by rewrite Hl, Z2Nat.id by lia.
    + by intros q v1 (-> & Hv & _).
  - intros q s' [-> Hs']. eapply returns_run; [reflexivity|]. cbn [snd].
    rewrite drop_ge by (rewrite Hl; lia). by rewrite app_nil_r.
Qed.

(** ** Lemmas: segments and sections *)

Lemma reserve_segment_step k : ∀ x0 B room V s n,
  lstate x0 B (2 * k + room) V s → 0 ≤ n → PAGE_SIZE * (n + Z.of_nat k) ≤ limit →
  returns (reserve_segment vm_map kernel_pd answers k p (PAGE_SIZE * n) (PAGE_SIZE * (n + Z.of_nat k - 1))) s
    (fun _ s' => lstate x0 (with_pages n k B) room V s').
Proof.
  induction k as [|k IH]; intros x0 B room V s n H Hn Hl; cbn [reserve_segment]; unfold PAGE_SIZE in *.
  - rewrite (proj2 (Z.leb_gt _ _)) by lia. cbn. apply (lstate_ext x0 B _ room); [done|intros w; by rewrite with_pages_0|lia].
  - rewrite (proj2 (Z.leb_le _ _)) by lia. cbn [negb].
    eapply returns_bind; [apply (vmreserve_step x0 B (2 * k + room)); [|done|unfold PAGE_SIZE; lia]|].
    { by replace (2 + (2 * k + room))%nat with (2 * S k + room)%nat by lia. }
    intros [] s1 H1. cbv beta in H1. rewrite u32_small by lia.
    replace (4096 * n + 4096) with (4096 * (n + 1)) by lia.
    replace (4096 * (n + Z.of_nat (S k) - 1)) with (4096 * (n + 1 + Z.of_nat k - 1)) by lia.
    eapply returns_mono; [apply (IH x0 (with_page n B) room V s1 (n + 1) H1); lia|].
    intros [] s2 H2. apply (lstate_ext x0 _ _ room room V s2 H2); [|done]. intros w. apply with_pages_S.
Qed.

Definition seg_ok (ph : list Z) : Prop := ph_type ph = ELF_SEG_LOAD ∧ PAGE_SIZE * (seg_last ph + 1) ≤ limit.

Lemma load_segment_step x0 B room V s ph :
  lstate x0 B (2 * seg_pages ph + room) V s → byte_list ph → seg_ok ph →
  let v := mask_to_page (ph_mem_offset ph) in
  let vto := mask_to_page (u32 (ph_mem_offset ph + ph_mem_size ph)) in
  vto = PAGE_SIZE * seg_last ph ∧
  returns (reserve_segment vm_map kernel_pd answers (pages_between v vto) p v vto) s
    (fun _ s' => lstate x0 (with_seg B ph) room V s').
Proof.
  intros H Hb [Ht Hl]. cbv zeta. pose proof (get32_range ph 8 Hb) as H1. pose proof (get32_range ph 20 Hb) as H2.
  fold (ph_mem_offset ph) in H1. fold (ph_mem_size ph) in H2. unfold seg_last, page_no, PAGE_SIZE in Hl. unfold PAGE_SIZE in Hlimit.
  assert (Hs : ph_mem_offset ph + ph_mem_size ph < 2 ^ 32) by dlia.
  rewrite (u32_small (_ + _)) by lia. rewrite !mask_page_no by (unfold is_u32; lia).
  fold (seg_first ph) (seg_last ph). split; [done|].
  assert (Hfl : 0 ≤ seg_first ph ≤ seg_last ph ∧ seg_last ph < 2 ^ 20) by (unfold seg_first, seg_last, page_no, PAGE_SIZE; dlia).
  assert (E : pages_between (PAGE_SIZE * seg_first ph) (PAGE_SIZE * seg_last ph) = seg_pages ph).
  { unfold pages_between, seg_pages. destruct (mask_of_page (seg_first ph)) as (_ & -> & _); [lia|].
    by destruct (mask_of_page (seg_last ph)) as (_ & -> & _); [lia|]. }
  rewrite E. replace (seg_last ph) with (seg_first ph + Z.of_nat (seg_pages ph) - 1) by (unfold seg_pages; lia).
  apply reserve_segment_step; [done|lia|]. unfold seg_pages, PAGE_SIZE, seg_last, seg_first, page_no, PAGE_SIZE in *. dlia.
Qed.

Lemma load_segments_step h32 n : ∀ x0 B room pos s k ph b,
  let segs := entries n k (e32_pht_pos h32) (e32_phe_size h32) 32 img in
  lstate x0 B (seg_room segs + room) (at_file pos) s → byte_list img → byte_list h32 → 0 ≤ pos < 2 ^ 63 → 0 ≤ k →
  length ph = 32%nat → Forall seg_ok segs →
  (∀ j, k ≤ j < k + Z.of_nat n → e32_pht_pos h32 + j * e32_phe_size h32 + 32 ≤ Z.of_nat (length img)) →
  returns (load_segments vm_map kernel_pd answers n k p f h32 ph b) s (fun b' s' =>
    b' = seg_break b segs ∧ ∃ pos', 0 ≤ pos' < 2 ^ 63 ∧ lstate x0 (foldl with_seg B segs) room (at_file pos') s').
Proof.
  induction n as [|n IH]; intros x0 B room pos s k ph b segs H Hb Hh Hp Hk Hph Hok Hin; cbn [load_segments].
  { eapply returns_run; [reflexivity|]. split; [done|]. by exists pos. }
  pose proof (if_small _ _ _ _ Hfile) as Hsm. pose proof (get32_range h32 4 Hh) as Hr1. pose proof (get16_range h32 18 Hh) as Hr2.
  fold (e32_pht_pos h32) in *. fold (e32_phe_size h32) in *. pose proof (Hin k ltac:(lia)) as Hk1.
  set (off := e32_pht_pos h32 + k * e32_phe_size h32) in *.
  assert (Hoff : 0 ≤ off) by (unfold off; nia). rewrite u32_small by lia.
  change segs with (slice off 32 img :: entries n (k + 1) (e32_pht_pos h32) (e32_phe_size h32) 32 img) in *.
  set (rest := entries n (k + 1) (e32_pht_pos h32) (e32_phe_size h32) 32 img) in *. clear segs. set (q := slice off 32 img) in *. apply Forall_cons in Hok as [Hq Hok].
  eapply returns_bind; [apply (seek_step _ pos off s H Hp); clear -Hk1 Hsm Hoff; lia|intros ? s1 H1; cbv beta in H1].
  eapply returns_bind; [apply (read_step _ off 32 ph s1 H1); [done|done|done|by rewrite Hph]|].
  intros ? s2 [-> H2]. fold q. rewrite (proj1 Hq : ph_type q = _), Z.eqb_refl.
  eapply (returns_bind _ _ _ (fun _ s' => s' = s2)); [done|intros ? ? ->]. cbv zeta.
  destruct (load_segment_step x0 B (seg_room rest + room) (at_file (off + 32)) s2 q) as [Ev Er].
  { apply (lstate_ext _ B _ (seg_room (q :: rest) + room)); [exact H2|done|]. unfold seg_room. cbn [sum_list_with]. lia. }
  { by apply slice_byte_list. } { done. }
  rewrite Ev in *. eapply returns_bind; [exact Er|intros [] s3 H3; cbv beta in H3].
  assert (Hlen : length q = 32%nat) by (unfold q; rewrite slice_full by lia; done).
  eapply returns_mono; [apply (IH x0 (with_seg B q) room (off + 32) s3 (k + 1) q _ H3 Hb Hh); [lia|lia|exact Hlen|exact Hok|]|].
  - intros j Hj. apply Hin. lia.
  - intros b' s4 [-> Hs4]. split; [|done]. cbn. f_equal. rewrite Z.gtb_ltb. destruct (Z.ltb_spec b (PAGE_SIZE * seg_last q)); lia.
Qed.

Variable junk : mem.

(** The contents of a section are in the file and go to memory that is there. *)
Definition sec_ok (B : umemory) (sh : list Z) : Prop :=
  loaded sh = true →
  sh_file_offset sh + sh_file_size sh ≤ Z.of_nat (length img) ∧ sh_mem_offset sh + sh_file_size sh ≤ limit ∧
  ∀ w, sh_mem_offset sh ≤ w < sh_mem_offset sh + sh_file_size sh → is_Some (B w).

Lemma handle_section_step x0 B room pos s sh :
  lstate x0 B room (at_file pos) s → byte_list img → byte_list sh → 0 ≤ pos < 2 ^ 63 → sec_ok B sh →
  returns (handle_section vm_map kernel_pd scratch junk p f sh) s (fun _ s' =>
    ∃ pos', 0 ≤ pos' < 2 ^ 63 ∧ lstate x0 (with_section img B sh) room (at_file pos') s').
Proof.
  intros H Hb Hsh Hp Hok. unfold handle_section, with_section. fold (loaded sh).
  destruct (loaded sh) eqn:El; cbn [when]; [|by exists pos]. destruct (Hok El) as (H1 & H2 & H3).
  pose proof (if_small _ _ _ _ Hfile) as Hsm. pose proof (get32_range sh 16 Hsh) as R1. fold (sh_file_offset sh) in R1.
  unfold loaded in El. zbool. rewrite Z.gtb_lt in *. set (off := sh_file_offset sh) in *. set (num := sh_file_size sh) in *.
  unfold handle_section_load. fold off num.
  assert (Hl : length (slice off num img) = Z.to_nat num) by (apply slice_full; lia).
  eapply returns_bind; [apply (seek_step _ pos off s H Hp); lia|intros ? s1 S1; cbv beta in S1].
  eapply returns_bind; [apply (read_step _ off num _ s1 S1); [lia|done|done|by unfold fresh; rewrite length_read_bytes]|].
  intros ? s2 [-> S2]. eapply returns_mono; [apply (vmwrite_step x0 B room (at_file (off + num)) s2)|].
  - done.
  - by apply slice_byte_list.
  - lia.
  - rewrite Hl. lia.
  - intros w Hw. apply H3. rewrite Hl in Hw. lia.
  - intros [] s3 S3. exists (off + num). split; [lia|done].
Qed.

Lemma load_sections_step h32 n : ∀ x0 B room pos s k sh,
  let secs := entries n k (e32_sht_pos h32) (e32_she_size h32) 40 img in
  lstate x0 B room (at_file pos) s → byte_list img → byte_list h32 → 0 ≤ pos < 2 ^ 63 → 0 ≤ k →
  length sh = 40%nat → Forall (sec_ok B) secs →
  (∀ j, k ≤ j < k + Z.of_nat n → e32_sht_pos h32 + j * e32_she_size h32 + 40 ≤ Z.of_nat (length img)) →
  returns (load_sections vm_map kernel_pd scratch junk n k p f h32 sh) s (fun _ s' =>
    ∃ pos', 0 ≤ pos' < 2 ^ 63 ∧ lstate x0 (foldl (with_section img) B secs) room (at_file pos') s').
Proof.
  induction n as [|n IH]; intros x0 B room pos s k sh secs H Hb Hh Hp Hk Hsh Hok Hin; cbn [load_sections].
  { eapply returns_run; [reflexivity|]. by exists pos. }
  pose proof (if_small _ _ _ _ Hfile) as Hsm. pose proof (get32_range h32 8 Hh) as Hr1. pose proof (get16_range h32 22 Hh) as Hr2.
  fold (e32_sht_pos h32) in *. fold (e32_she_size h32) in *. pose proof (Hin k ltac:(lia)) as Hk1.
  set (off := e32_sht_pos h32 + k * e32_she_size h32) in *.
  assert (Hoff : 0 ≤ off) by (unfold off; nia). rewrite u32_small by lia.
  change secs with (slice off 40 img :: entries n (k + 1) (e32_sht_pos h32) (e32_she_size h32) 40 img) in *.
  set (rest := entries n (k + 1) (e32_sht_pos h32) (e32_she_size h32) 40 img) in *. clear secs.
  set (q := slice off 40 img) in *. apply Forall_cons in Hok as [Hq Hok].
  eapply returns_bind; [apply (seek_step _ pos off s H Hp); clear -Hk1 Hsm Hoff; lia|intros ? s1 H1; cbv beta in H1].
  eapply returns_bind; [apply (read_step _ off 40 sh s1 H1); [done|done|done|by rewrite Hsh]|].
  intros ? s2 [-> H2]. fold q.
  eapply returns_bind; [apply (handle_section_step x0 B room (off + 40) s2 q H2 Hb); [by apply slice_byte_list|lia|done]|].
  intros [] s3 (pos3 & Hp3 & H3). assert (Hlen : length q = 40%nat) by (unfold q; rewrite slice_full by lia; done).
  apply (IH x0 (with_section img B q) room pos3 s3 (k + 1) q H3 Hb Hh Hp3); [lia|exact Hlen| |intros j Hj; apply Hin; lia].
  apply (Forall_impl _ _ _ Hok). intros sh' Hs Hl. destruct (Hs Hl) as (A1 & A2 & A3). split; [done|]. split; [done|].
  intros w Hw. by apply with_section_some, A3.
Qed.

(** ** Lemmas: the environment *)

Lemma reserve_env_step k : ∀ x0 B room V s n,
  lstate x0 B (2 * k + room) V s → 0 ≤ n → PAGE_SIZE * (n + Z.of_nat k) ≤ limit →
  returns (reserve_env vm_map kernel_pd answers k p (PAGE_SIZE * n)) s
    (fun v s' => v = PAGE_SIZE * (n + Z.of_nat k) ∧ lstate x0 (with_pages n k B) room V s').
Proof.
  induction k as [|k IH]; intros x0 B room V s n H Hn Hl; cbn [reserve_env]; unfold PAGE_SIZE in *.
  - eapply returns_run; [reflexivity|]. split; [lia|].
    apply (lstate_ext x0 B _ room); [done|intros w; by rewrite with_pages_0|lia].
  - eapply returns_bind; [apply (vmreserve_step x0 B (2 * k + room)); [|done|unfold PAGE_SIZE; lia]|].
    { by replace (2 + (2 * k + room))%nat with (2 * S k + room)%nat by lia. }
    intros [] s1 H1. cbv beta in H1. rewrite u32_small by lia.
    replace (4096 * n + 4096) with (4096 * (n + 1)) by lia.
    eapply returns_mono; [apply (IH x0 (with_page n B) room V s1 (n + 1) H1); lia|].
    intros v s2 [-> H2]. split; [lia|]. apply (lstate_ext x0 _ _ room room V s2 H2); [|done]. intros w. apply with_pages_S.
Qed.

Lemma write_env_step env : ∀ x0 B room V s slot str,
  lstate x0 B room V s → Forall byte_list env → 0 ≤ slot → slot + 4 * env_num env ≤ limit → 0 ≤ str →
  str + env_bytes env ≤ limit → (∀ w, slot ≤ w < slot + 4 * env_num env → is_Some (B w)) →
  (∀ w, str ≤ w < str + env_bytes env → is_Some (B w)) →
  returns (write_env vm_map kernel_pd scratch env p slot str) s (fun _ s' => lstate x0 (env_image env slot str B) room V s').
Proof.
  induction env as [|e env IH]; intros x0 B room V s slot str H Hb H1 H2 H3 H4 H5 H6; cbn [write_env env_image];
    unfold env_num, env_bytes in *; cbn [length sum_list_with] in *; unfold PAGE_SIZE in Hlimit.
  { apply vmwrite_step; [done|apply byte_list_le_bytes|done|rewrite length_le_bytes; lia|].
    rewrite length_le_bytes. intros w Hw. apply H5. lia. }
  apply Forall_cons in Hb as [He Hb].
  eapply returns_bind; [apply (vmwrite_step x0 B room V s slot (le_bytes 4 str));
    [done|apply byte_list_le_bytes|done|rewrite length_le_bytes; lia|rewrite length_le_bytes; intros w Hw; apply H5; lia]|intros [] s1 S1; cbv beta in S1].
  eapply returns_bind; [apply (vmwrite_step x0 _ room V s1 str (e ++ [0]) S1); [|done|..]|].
  { apply Forall_app. split; [done|]. repeat constructor; lia. }
  { rewrite length_app. cbn. lia. }
  { intros w Hw. apply overlay_some, H6. rewrite length_app in Hw. cbn in Hw. lia. }
  intros [] s2 S2. cbv beta in S2. rewrite !u32_small by lia.
  apply (IH x0 _ room V s2 (slot + 4) _ S2 Hb); try lia; intros w Hw; do 2 apply overlay_some; [apply H5|apply H6]; lia.
Qed.

Lemma formatted_size env : 4 * env_num env + env_bytes env < 2 ^ 32 → formatted_env_size env = 4 * env_num env + env_bytes env.
Proof.
  unfold formatted_env_size. assert (G : ∀ n, 0 ≤ n → n + 4 * Z.of_nat (length env) + env_bytes env < 2 ^ 32 →
    foldl (fun n e => u32 (n + (Z.of_nat (length e) + 1) + 4)) n env = n + 4 * Z.of_nat (length env) + env_bytes env).
  { unfold env_bytes. induction env as [|e env IH]; intros n Hn Hs; cbn [foldl sum_list_with length] in *; [lia|].
    rewrite u32_small by lia. rewrite IH by lia. lia. }
  intros H. unfold env_num in *. rewrite G by lia. lia.
Qed.
End states.
