(* ===== verification/ElfExec.v ===== *)
(** * Starting a program: what exec_user_elf_program achieves

    The loader of [Elf], followed from the call to the thread that is handed to the
    scheduler, with the images of [ElfLoad]. *)

From stdpp Require Import base list gmap sets strings.
From Stdlib Require Import ZArith Lia.
From S2P Require Import Prelude Memory KUtils MemLayout Cpu Palloc Paging KernelHeap HeapPages.
From S2P Require Import AddressSpace AddressDup ProcMem Thread BlockDev Vfs ProcFork Elf ElfLoad.

(** ** Specification *)

Definition elf_h32 (img : list Z) : list Z := slice 24 28 img.
Definition elf_segs (img : list Z) : list (list Z) :=
  let h := elf_h32 img in entries (Z.to_nat (e32_pht_len h)) 0 (e32_pht_pos h) (e32_phe_size h) 32 img.
Definition elf_secs (img : list Z) : list (list Z) :=
  let h := elf_h32 img in entries (Z.to_nat (e32_sht_len h)) 0 (e32_sht_pos h) (e32_she_size h) 40 img.

(** The pages of the segments, zeroed, and the sections over them. *)
Definition seg_memory (img : list Z) : umemory := foldl with_seg (fun _ => None) (elf_segs img).
Definition load_memory (img : list Z) : umemory := foldl (with_section img) (seg_memory img) (elf_secs img).

(** The page of the stack; the environment is on the pages behind it. *)
Definition stack_page (img : list Z) : Z := page_no (seg_break UVNULL (elf_segs img)).
Definition env_pages (env : list (list Z)) : nat := Z.to_nat ((4 * env_num env + env_bytes env) / PAGE_SIZE + 1).
Definition env_table (img : list Z) : Z := PAGE_SIZE * (stack_page img + 1).
Definition elf_memory (img : list Z) (env : list (list Z)) : umemory :=
  env_image env (env_table img) (env_table img + 4 * env_num env)
    (with_pages (stack_page img + 1) (env_pages env) (with_page (stack_page img) (load_memory img))).

(** A program the loader accepts, with its environment, below [limit]. *)
Record elf_ok (limit : Z) (img : list Z) (env : list (list Z)) : Prop := {
  eo_bytes : byte_list img;
  eo_size : 52 ≤ Z.of_nat (length img);
  eo_magic : eh_magic (slice 0 24 img) = ELF_MAGIC;
  eo_bits : eh_bits (slice 0 24 img) = ELF_BITS_32;
  eo_endianness : eh_endianness (slice 0 24 img) = ELF_LITTLE_ENDIAN;
  eo_iset : eh_iset (slice 0 24 img) = ELF_ISET_X86;
  eo_type : eh_type (slice 0 24 img) = ELF_TYPE_EXEC;
  eo_pht : ∀ j, 0 ≤ j < e32_pht_len (elf_h32 img) →
    e32_pht_pos (elf_h32 img) + j * e32_phe_size (elf_h32 img) + 32 ≤ Z.of_nat (length img);
  eo_sht : ∀ j, 0 ≤ j < e32_sht_len (elf_h32 img) →
    e32_sht_pos (elf_h32 img) + j * e32_she_size (elf_h32 img) + 40 ≤ Z.of_nat (length img);
  eo_segs : Forall (seg_ok limit) (elf_segs img);
  eo_secs : Forall (sec_ok limit img (seg_memory img)) (elf_secs img);
  eo_stack : 0 < stack_page img;
  eo_env : Forall byte_list env;
  eo_fits : PAGE_SIZE * (stack_page img + 1 + Z.of_nat (env_pages env)) ≤ limit;
}.

(** ** Lemmas: the end of the loader *)

Lemma wr_arch_twice {B} p g1 g2 (k : unit → M pmsys B) s :
  bind (wr_arch p g1) (fun _ => bind (wr_arch p g2) k) s = bind (wr_arch p (fun y => g2 (g1 y))) k s.
Proof.
  destruct (pm_procs s !! p) as [x|] eqn:E.
  - rewrite (bind_run _ _ _ _ _ (wr_arch_run _ _ _ E _)), (bind_run _ _ _ _ _ (wr_arch_run _ _ _ E _)).
    rewrite (bind_run _ _ _ _ _ (wr_arch_run p _ _ (lookup_insert_eq _ _ _) _)).
    unfold set_pm_procs. cbn. by rewrite insert_insert_eq.
  - unfold wr_arch, wr_proc, rd_proc, bind, get. by rewrite E.
Qed.

Lemma set_break_once p v s :
  proc_set_break p v s = (pd_acquire p ;;; wr_arch p (fun y => aset_cur_vbreak v (aset_vbreak v y)) ;;; pd_release p) s.
Proof.
  unfold proc_set_break, bind at 1. unfold bind at 3. destruct (pd_acquire p s) as [[[] q]| |]; [|done|done].
  apply wr_arch_twice.
Qed.

Section tail.
Context {W : Type} {SH : StackHeap}.
Variable vm_map : list vm_region.
Variable kernel_pd : Z.
Variable r : vm_region.
Variables (limit : Z) (ps : gmap nat kproc) (p : nat).
Local Abbreviation loading := (loading kernel_pd r limit ps p).
Local Abbreviation lstate ts0 sc0 x0 B room V := (pstate (W := W) ts0 sc0 (loading x0 B room) V).

(** Fields of the process object outside [arch]. *)
Definition outer (h : kproc → kproc) : Prop := ∀ f x, h (with_arch x f) = with_arch (h x) f ∧ kpr_arch (h x) = kpr_arch x.

Lemma outer_mutex b : outer (set_mutex b).
Proof. done. Qed.
Lemma outer_file i f : outer (set_file i f).
Proof. done. Qed.

Lemma outer_loading x0 B room s h :
  loading x0 B room s → outer h →
  ∃ x f, pm_procs s !! p = Some x ∧ x = with_arch x0 f ∧ same_layout (kpr_arch x0) (kpr_arch x) ∧
    loading (h x0) B room (set_pm_procs (<[p := h x]> (pm_procs s)) s).
Proof.
  intros (l & x & a & T & F & H1 & H2 & (f & ->) & H4 & H5 & H6 & H7 & H8) Hh.
  exists (with_arch x0 f), f. destruct (Hh f x0) as [E1 E2]. destruct (Hh f (with_arch x0 f)) as [_ E3].
  split; [apply H1|]. split; [done|]. split; [done|]. exists l, (h (with_arch x0 f)), a, T, F.
  split; [apply (in_space_procs _ _ _ _ _ (with_arch x0 f)); [done|by rewrite E3]|].
  split; [cbn; by rewrite H2, insert_insert_eq|]. split; [exists f; by rewrite E1|].
  rewrite E3, E2. done.
Qed.

Lemma on_p_run {A} (m : M pmsys A) ts0 sc0 Pm Pm' V s v pm' :
  pstate (W := W) ts0 sc0 Pm V s → m (fk_pm (es_fk s)) = Done (v, pm') → Pm' pm' →
  returns (on_p m) s (fun v' s' => v' = v ∧ pstate ts0 sc0 Pm' V s').
Proof.
  intros [H1 H2 H3 H4] E HP.
  eapply returns_run; [unfold on_p, on_fk, on_pm, zoom; rewrite E; reflexivity|]. done.
Qed.

Lemma acquire_step ts0 sc0 x0 B room V s :
  lstate ts0 sc0 x0 B room V s → kpr_mutex x0 = false →
  returns (on_p (mutex_acquire p)) s (fun _ s' => lstate ts0 sc0 (set_mutex true x0) B room V s').
Proof.
  intros H Hm. destruct (outer_loading _ _ _ _ _ (ls_mem _ _ _ _ _ H) (outer_mutex true)) as (x & f & E & -> & _ & HL).
  eapply returns_mono; [eapply on_p_run; [exact H|by apply (proc_mutex_acquire_run p (with_arch x0 f))|exact HL]|].
  by intros ? ? [_ ?].
Qed.

Lemma release_step ts0 sc0 x0 B room V s :
  lstate ts0 sc0 x0 B room V s → kpr_mutex x0 = true →
  returns (on_p (mutex_release p)) s (fun _ s' => lstate ts0 sc0 (set_mutex false x0) B room V s').
Proof.
  intros H Hm. destruct (outer_loading _ _ _ _ _ (ls_mem _ _ _ _ _ H) (outer_mutex false)) as (x & f & E & -> & _ & HL).
  eapply returns_mono; [eapply on_p_run; [exact H|by apply (proc_mutex_release_run p (with_arch x0 f))|exact HL]|].
  by intros ? ? [_ ?].
Qed.

Lemma rd_arch_step ts0 sc0 x0 B room V s :
  lstate ts0 sc0 x0 B room V s →
  returns (on_p (rd_arch p)) s (fun y s' => same_layout (kpr_arch x0) y ∧ lstate ts0 sc0 x0 B room V s').
Proof.
  intros H. destruct (ls_mem _ _ _ _ _ H) as (l & x & a & T & F & H1 & H2 & H3 & H4 & H5).
  eapply returns_mono; [eapply (on_p_run _ _ _ _ (loading x0 B room)); [exact H|apply rd_arch_run; apply H1|apply H]|].
  by intros ? ? [-> ?].
Qed.

Lemma open_std_step ts0 sc0 x0 B room V V' s fd path why g :
  lstate ts0 sc0 x0 B room V s → kpr_mutex x0 = true → 0 ≤ fd < 16 → kpr_files x0 !! Z.to_nat fd = Some None →
  (∀ v, V v → returns (vfs_open path) v (fun a v' => a = Some g ∧ V' v')) →
  returns (open_std p fd path why) s (fun _ s' => lstate ts0 sc0 (set_file (Z.to_nat fd) (Some g) x0) B room V' s').
Proof.
  intros H Hm Hfd Hf Hv. unfold open_std.
  eapply returns_bind; [apply (on_f_step ts0 sc0 _ _ V s (fun a => a = Some g) V' H); apply Hv, H|].
  intros ? s1 [-> H1].
  destruct (outer_loading _ _ _ _ _ (ls_mem _ _ _ _ _ H1) (outer_file (Z.to_nat fd) (Some g))) as (x & f & E & -> & _ & HL).
  eapply returns_bind; [eapply on_p_run; [exact H1| |exact HL]|intros ? s2 [-> H2]; eapply returns_run; [reflexivity|exact H2]].
  unfold bind_file. rewrite (bind_run _ _ _ _ _ (rd_kproc_run _ _ _ E)). cbn [kpr_mutex kpr_files with_arch]. rewrite Hm.
  rewrite (bind_run _ _ _ tt (fk_pm (es_fk s1))) by done.
  rewrite (proj2 (Z.ltb_ge fd 0)), Z.geb_leb, (proj2 (Z.leb_gt 16 fd)) by lia. cbn [orb].
  rewrite Hf. by rewrite (bind_run _ _ _ _ _ (wr_kproc_run _ _ _ E _)).
Qed.

Lemma ts_step {A} (m : M tsys A) ts0 sc0 Pm V (s : esys W) v ts' :
  pstate ts0 sc0 Pm V s → m ts0 = Done (v, ts') →
  returns (on_fk (on_ts m)) s (fun v' s' => v' = v ∧ pstate ts' sc0 Pm V s').
Proof.
  intros [H1 H2 H3 H4] E. eapply returns_run; [unfold on_fk, on_ts, zoom; rewrite H3, E; reflexivity|]. done.
Qed.

Lemma schedule_step ts0 sc0 Pm V (s : esys W) e :
  pstate ts0 sc0 Pm V s →
  returns (modify (fun s => mk_es (es_fk s) (es_scheduled s ++ [e]))) s (fun _ s' => pstate ts0 (sc0 ++ [e]) Pm V s').
Proof. intros [H1 H2 H3 H4]. eapply returns_run; [reflexivity|]. split; try done. cbn. by rewrite H4. Qed.
End tail.

Lemma seg_break_page segs : ∀ b n, b = PAGE_SIZE * n → 0 ≤ n → ∃ m, 0 ≤ m ∧ seg_break b segs = PAGE_SIZE * m.
Proof.
  induction segs as [|ph segs IH]; intros b n Hb Hn; cbn; [by exists n|].
  apply (IH _ (Z.max n (seg_last ph))); [unfold PAGE_SIZE in *; lia|lia].
Qed.

Lemma stack_page_spec img : 0 ≤ stack_page img ∧ seg_break UVNULL (elf_segs img) = PAGE_SIZE * stack_page img.
Proof.
  destruct (seg_break_page (elf_segs img) UVNULL 0) as (m & Hm & E); [done|done|].
  unfold stack_page. rewrite E. unfold page_no, PAGE_SIZE. rewrite (Z.mul_comm 4096), Z.div_mul by lia. lia.
Qed.

Lemma with_pages_some n k B w : n ≤ page_no w < n + Z.of_nat k → is_Some (with_pages n k B w).
Proof.
  intros H. unfold with_pages. destruct (B w); [by eexists|].
  rewrite (proj2 (Z.leb_le _ _)), (proj2 (Z.ltb_lt _ _)) by lia. by eexists.
Qed.

(** The environment fits its pages. *)
Lemma env_fits limit img env :
  elf_ok limit img env → 0 ≤ env_bytes env ∧ 0 < env_num env ∧
  4 * env_num env + env_bytes env < PAGE_SIZE * Z.of_nat (env_pages env) ∧
  env_table img + PAGE_SIZE * Z.of_nat (env_pages env) ≤ limit ∧
  ∀ w B, env_table img ≤ w < env_table img + PAGE_SIZE * Z.of_nat (env_pages env) →
    is_Some (with_pages (stack_page img + 1) (env_pages env) B w).
Proof.
  intros H. pose proof (eo_fits _ _ _ H) as Hf. destruct (stack_page_spec img) as [Hs _].
  assert (Hb : 0 ≤ env_bytes env) by (unfold env_bytes; lia).
  assert (Hn : 0 < env_num env) by (unfold env_num; lia).
  split; [done|]. split; [done|].
  assert (Hk : 4 * env_num env + env_bytes env < PAGE_SIZE * Z.of_nat (env_pages env)).
  { unfold env_pages, PAGE_SIZE. rewrite Z2Nat.id by dlia. dlia. }
  split; [done|]. split; [unfold env_table, PAGE_SIZE in *; lia|].
  intros w B Hw. apply with_pages_some. unfold env_table, page_no, PAGE_SIZE in *. dlia.
Qed.

Section exec.
Context {W : Type} {SH : StackHeap}.
Variable vm_map : list vm_region.
Variable kernel_pd : Z.
Variable r : vm_region.
Variable answers : cpu_ptr → bool.
Hypothesis Hmap : map_ok vm_map r.
Hypothesis Hans : ∀ q, answers q = true.
Variable scratch : Z.
Hypothesis Hscratch : vbase r + rsize r ≤ scratch.
Variables uthread_switch_entry isr_exit : Z.
Hypothesis Hcode : is_u32 uthread_switch_entry ∧ is_u32 isr_exit.
Variable limit : Z.
Hypothesis Hlimit : limit ≤ 2 ^ 32 - PAGE_SIZE.
Variables (img : list Z) (env : list (list Z)).
Hypothesis Hok : elf_ok limit img env.
Variables (ps : gmap nat kproc) (p : nat).
Local Abbreviation lstate ts0 sc0 x0 B room V := (pstate (W := W) ts0 sc0 (loading kernel_pd r limit ps p x0 B room) V).

Definition stack_addr : Z := PAGE_SIZE * stack_page img.
Definition break_addr : Z := PAGE_SIZE * (stack_page img + 1 + Z.of_nat (env_pages env)).

(** The process that has been started. *)
Definition started_proc (pd : Z) (g0 g1 g2 : nat) : kproc :=
  mk_kproc 0 (chars "elf executable") (Some g0 :: Some g1 :: Some g2 :: replicate 13 None) false
    (mk_arch false pd 0 0 stack_addr PAGE_SIZE (env_table img) break_addr break_addr).

(** The stack and the environment, up to the main thread. *)
Lemma environment_step {A} (k : M (esys W) A) Q ts0 sc0 pd room V s :
  let x0 := fresh_proc (chars "elf executable") pd in
  let x1 := with_arch x0 (aset_stack stack_addr PAGE_SIZE) in
  lstate ts0 sc0 x1 (with_page (stack_page img) (load_memory img)) (2 * env_pages env + room) V s →
  (∀ s', lstate ts0 sc0 (with_arch x0 (fun y => aset_cur_vbreak break_addr (aset_vbreak break_addr
        (aset_env (env_table img) (aset_stack stack_addr PAGE_SIZE y))))) (elf_memory img env) room V s' → returns k s' Q) →
  returns (vbreak <- reserve_env vm_map kernel_pd answers (Z.to_nat (formatted_env_size env / PAGE_SIZE + 1)) p (env_table img) ;;
           write_env vm_map kernel_pd scratch env p (env_table img) (u32 (env_table img + env_num env * 4)) ;;;
           on_p (proc_set_env p (env_table img)) ;;;
           on_p (proc_set_break p vbreak) ;;; k) s Q.
Proof.
  intros x0 x1 H Hk. destruct (env_fits _ _ _ Hok) as (H0 & H1 & H2 & H3 & H4). destruct (stack_page_spec img) as [Hs _].
  assert (Ht : 0 ≤ env_table img) by (unfold env_table, PAGE_SIZE; lia).
  unfold PAGE_SIZE in Hlimit. rewrite formatted_size by (unfold PAGE_SIZE in *; lia). fold (env_pages env).
  assert (Hb : break_addr ≤ limit) by apply Hok.
  eapply returns_bind; [apply (reserve_env_step vm_map kernel_pd r answers Hmap Hans limit Hlimit ps p ts0 sc0 (env_pages env)
    x1 _ room V s (stack_page img + 1) H); [lia|exact Hb]|].
  intros ? s1 [-> S1]. fold break_addr.
  rewrite u32_small by (unfold PAGE_SIZE in *; lia). replace (env_num env * 4) with (4 * env_num env) by lia.
  eapply returns_bind; [apply (write_env_step vm_map kernel_pd r Hmap scratch Hscratch limit Hlimit ps p ts0 sc0 env
    x1 _ room V s1 (env_table img) (env_table img + 4 * env_num env) S1 (eo_env _ _ _ Hok)); [lia|lia|lia|lia|..]|].
  { intros w Hw. apply H4. lia. }
  { intros w Hw. apply H4. lia. }
  intros [] s2 S2. cbv beta in S2. fold (elf_memory img env) in S2.
  eapply returns_bind; [apply (set_step kernel_pd r limit ps p ts0 sc0 _ _ room V s2 _ S2 (setter_env _))|].
  intros [] s3 S3. cbv beta in S3.
  pose proof (set_step kernel_pd r limit ps p ts0 sc0 _ _ room V s3 _ S3 (setter_break break_addr)) as S4.
  destruct (returns_inv _ _ _ S4) as ([] & s4 & E & Hs4).
  eapply (returns_bind _ _ _ (fun _ s' => s' = s4)); [|intros ? ? ->; by apply Hk]. apply (returns_run _ _ tt s4); [|done].
  rewrite <- E. unfold on_p, on_fk, on_pm, zoom. by rewrite set_break_once.
Qed.

(** The rest: the main thread, the standard streams, the scheduler. *)
Lemma start_program_step ts0 sc0 pd room V V1 V2 V3 V4 s f h32 stdin stdout stderr g0 g1 g2 stack0 ts1 :
  lstate ts0 sc0 (fresh_proc (chars "elf executable") pd) (load_memory img) (2 + (2 * env_pages env + room)) V s →
  byte_list h32 →
  (∀ v, V v → returns (vfs_close (Some f)) v (fun _ v' => V1 v')) →
  (∀ v, V1 v → returns (vfs_open stdin) v (fun a v' => a = Some g0 ∧ V2 v')) →
  (∀ v, V2 v → returns (vfs_open stdout) v (fun a v' => a = Some g1 ∧ V3 v')) →
  (∀ v, V3 v → returns (vfs_open stderr) v (fun a v' => a = Some g2 ∧ V4 v')) →
  stack_kalloc 4096 ts0 = Done (stack0, ts1) → stack_block stack0 →
  returns (start_program vm_map kernel_pd uthread_switch_entry isr_exit answers scratch p f h32 stack_addr
      stdin stdout stderr env) s (fun _ s' => ∃ ts',
    lstate ts' (sc0 ++ [(p, ts_next ts1)]) (started_proc pd g0 g1 g2) (elf_memory img env) room V4 s' ∧
    let t := ts_next ts1 in let e := at_esp0 (th_arch (ts_threads ts' t)) in
    created ts1 ts' t stack0 e ∧ at_cr3 (th_arch (ts_threads ts' t)) = pd ∧
    switch_target (ts_mem ts') e = uthread_switch_entry ∧ load32 (ts_mem ts') (switch_esp e) = isr_exit ∧
    let R := isr_exit_regs (ts_mem ts') (switch_esp e + 4) in
    starts R (e32_pe_pos h32) USER_CODE_SELECTOR USER_DATA_SELECTOR EFLAGS_IF (stack0 + 4096) ∧
    r_esp R = stack_addr + PAGE_SIZE ∧ r_ss R = USER_DATA_SELECTOR).
Proof.
  intros H Hh Hv0 Hv1 Hv2 Hv3 Hst Hsb. destruct (stack_page_spec img) as [Hs _]. destruct Hcode as [Hc1 Hc2].
  pose proof (eo_fits _ _ _ Hok) as Hf. pose proof (eo_stack _ _ _ Hok) as Hs0. unfold PAGE_SIZE in Hf, Hlimit.
  pose proof (get32_range h32 0 Hh) as He. fold (e32_pe_pos h32) in He. set (x0 := fresh_proc _ pd) in *.
  unfold start_program.
  eapply returns_bind; [apply (on_f_step ts0 sc0 _ _ V s (fun _ => True) V1 H); eapply returns_mono; [apply Hv0, H|done]|].
  intros [] s1 [_ S1].
  eapply returns_bind; [apply (vmreserve_step vm_map kernel_pd r answers Hmap Hans limit Hlimit ps p ts0 sc0 x0 _ _ _ s1
    (stack_page img) _ S1 Hs); unfold PAGE_SIZE; lia|]. intros [] s2 S2. cbv beta zeta in S2 |- *.
  eapply returns_bind; [apply (set_step kernel_pd r limit ps p ts0 sc0 _ _ _ _ s2 _ S2 (setter_stack stack_addr PAGE_SIZE))|].
  intros [] s3 S3. cbv beta in S3.
  replace (u32 (stack_addr + PAGE_SIZE)) with (env_table img)
    by (unfold stack_addr, env_table, PAGE_SIZE; rewrite u32_small; lia).
  apply (environment_step _ _ ts0 sc0 pd room V1 s3 S3). intros s4 S4.
  eapply returns_bind; [apply (rd_arch_step kernel_pd r limit ps p _ _ _ _ _ _ _ S4)|]. intros y s5 [Hy S5].
  assert (Epd : ap_pd y = pd) by (unfold same_layout in Hy; by injection Hy). rewrite Epd.
  destruct (uthread_create_run (phys_kernel_pd kernel_pd) uthread_switch_entry isr_exit (chars "elf thread") stack_addr
    PAGE_SIZE (e32_pe_pos h32) pd ts0 stack0 ts1) as (ts' & Et & Tc & _ & _ & Tr & T1 & T2 & T3 & T4 & T5).
  { by repeat constructor. } { cbn; lia. } { unfold stack_addr, PAGE_SIZE. dlia. }
  { unfold stack_addr, PAGE_SIZE. lia. } { done. } { unfold stack_addr, PAGE_SIZE. lia. } { done. } { done. } { done. } { done. } { done. }
  eapply returns_bind; [apply (ts_step _ ts0 sc0 _ _ s5 _ ts' S5 Et)|]. intros ? s6 [-> S6].
  eapply returns_bind; [apply (acquire_step kernel_pd r limit ps p _ _ _ _ _ _ _ S6); done|]. intros [] s7 S7. cbv beta in S7.
  eapply returns_bind; [apply (open_std_step kernel_pd r limit ps p _ _ _ _ _ V1 V2 s7 STDIN_FILENO stdin _ g0 S7); done|].
  intros [] s8 S8. cbv beta in S8.
  eapply returns_bind; [apply (open_std_step kernel_pd r limit ps p _ _ _ _ _ V2 V3 s8 STDOUT_FILENO stdout _ g1 S8); done|].
  intros [] s9 S9. cbv beta in S9.
  eapply returns_bind; [apply (open_std_step kernel_pd r limit ps p _ _ _ _ _ V3 V4 s9 STDERR_FILENO stderr _ g2 S9); done|].
  intros [] s10 S10. cbv beta in S10.
  eapply returns_bind; [apply (release_step kernel_pd r limit ps p _ _ _ _ _ _ _ S10); done|]. intros [] s11 S11. cbv beta in S11.
  eapply returns_mono; [apply (schedule_step _ _ _ _ _ _ S11)|]. intros [] s12 S12. exists ts'. split; [exact S12|].
  split; [exact Tc|]. split; [exact Tr|]. split; [exact T1|]. split; [exact T2|]. split; [exact T3|]. split; [exact T4|exact T5].
Qed.

(** ** Lemmas: the image *)

Lemma load_memory_some w : is_Some (seg_memory img w) → is_Some (load_memory img w).
Proof.
  unfold load_memory. generalize (seg_memory img). generalize (elf_secs img) as secs.
  induction secs as [|sh secs IH]; intros B HB; cbn; [done|]. by apply IH, with_section_some.
Qed.

Lemma seg_memory_page w : is_Some (seg_memory img w) → page_no w ≤ stack_page img.
Proof.
  intros H. destruct (stack_page_spec img) as [_ E].
  pose proof (seg_image_below (elf_segs img) (fun _ => None) w UVNULL 0) as Hb. unfold seg_memory in H.
  rewrite E in Hb. specialize (Hb ltac:(by intros ? []) eq_refl H). unfold PAGE_SIZE in Hb. lia.
Qed.

Lemma elf_memory_low w :
  page_no w ≤ stack_page img → elf_memory img env w = with_page (stack_page img) (load_memory img) w.
Proof.
  intros Hw. unfold elf_memory. rewrite env_image_out by (unfold env_table, page_no, PAGE_SIZE in *; dlia).
  unfold with_pages. destruct (with_page _ _ w); [done|]. by rewrite (proj2 (Z.leb_gt _ _)) by lia.
Qed.

Lemma elf_memory_seg w : is_Some (seg_memory img w) → elf_memory img env w = load_memory img w.
Proof.
  intros H. rewrite elf_memory_low by by apply seg_memory_page. unfold with_page.
  by destruct (load_memory_some w H) as [b ->].
Qed.

Lemma entries_slice n pos size len q : ∀ k, q ∈ entries n k pos size len img → ∃ off, q = slice off len img.
Proof.
  induction n as [|n IH]; intros k; cbn; [by intros ?%elem_of_nil|].
  intros [->|H]%elem_of_cons; [by eexists|by apply (IH (k + 1))].
Qed.

Lemma sec_sizes sh : sh ∈ elf_secs img → 0 ≤ sh_file_size sh.
Proof. intros (off & ->)%entries_slice. apply (get32_range _ 20), slice_byte_list, Hok. Qed.

Definition apart_sections (i : nat) (sh : list Z) : Prop :=
  ∀ j sh' w, elf_secs img !! j = Some sh' → j ≠ i → loaded sh' = true → in_section sh w → ¬ in_section sh' w.

(** What the memory of the program holds. *)
Lemma elf_memory_spec :
  (∀ i sh, elf_secs img !! i = Some sh → loaded sh = true → apart_sections i sh →
     bytes_at (elf_memory img env) (sh_mem_offset sh) (slice (sh_file_offset sh) (sh_file_size sh) img)) ∧
  (∀ w, is_Some (seg_memory img w) → (∀ sh, sh ∈ elf_secs img → loaded sh = true → ¬ in_section sh w) →
     elf_memory img env w = seg_memory img w) ∧
  (∀ i e, env !! i = Some e →
     let at_i := env_addr env (env_table img + 4 * env_num env) i in
     bytes_at (elf_memory img env) (env_table img + 4 * Z.of_nat i) (le_bytes 4 at_i) ∧
     bytes_at (elf_memory img env) at_i (e ++ [0])) ∧
  bytes_at (elf_memory img env) (env_table img + 4 * Z.of_nat (length env)) (le_bytes 4 0).
Proof.
  pose proof (eo_secs _ _ _ Hok) as Hsec. rewrite Forall_forall in Hsec. split; [|split].
  - intros i sh Hi Hl Ha. pose proof (list_elem_of_lookup_2 _ _ _ Hi) as Hin.
    destruct (Hsec sh Hin Hl) as (H1 & H2 & H3). pose proof (sec_sizes sh Hin) as H0.
    assert (Hlen : Z.of_nat (length (slice (sh_file_offset sh) (sh_file_size sh) img)) ≤ sh_file_size sh).
    { unfold slice. rewrite length_take. lia. }
    apply (bytes_at_ext (load_memory img)).
    + apply (sections_in img (elf_secs img) (seg_memory img) i sh); try done. apply sec_sizes.
    + intros w Hw. apply elf_memory_seg, H3. lia.
  - intros w Hw Hn. rewrite elf_memory_seg by done. apply sections_out; [apply sec_sizes|done].
  - apply env_image_entries. lia.
Qed.
End exec.

(** ** Properties *)

Section theorem.
Context {W : Type} {SH : StackHeap}.
Variable vm_map : list vm_region.
Variable kernel_pd : Z.
Variable r : vm_region.
Variable answers : cpu_ptr → bool.
Variable scratch : Z.
Variable junk : mem.
Variables uthread_switch_entry isr_exit : Z.
Variable limit : Z.
Variables (img : list Z) (env : list (list Z)).

(** The program is the file [f] that [path] opens; the standard streams can be opened;
    there are pages for everything and a kernel stack at [stack0]. *)
Record exec_pre (l : list Z) (s : esys W) (path stdin stdout stderr : list Z) (node : vfs_node W) (I L : W → Prop)
    (f : nat) (ref : Z) (v1 : vfs W) (V1 V2 V3 V4 : vfs W → Prop) (g0 g1 g2 : nat) (stack0 : Z) (ts1 : tsys) : Prop := {
  xp_map : map_ok vm_map r;
  xp_answers : ∀ q, answers q = true;
  xp_scratch : vbase r + rsize r ≤ scratch;
  xp_code : is_u32 uthread_switch_entry ∧ is_u32 isr_exit;
  xp_limit : limit ≤ 2 ^ 32 - PAGE_SIZE;
  xp_elf : elf_ok limit img env;
  xp_open : vfs_open path (fk_vfs (es_fk s)) = Done (Some f, v1);
  xp_node : is_file node I L img;
  xp_file : v_files v1 !! f = Some (mk_file node ref 0) ∧ I (v_world v1);
  xp_close : ∀ pos v, at_pos node v1 f ref pos I v → returns (vfs_close (Some f)) v (fun _ v' => V1 v');
  xp_stdin : ∀ v, V1 v → returns (vfs_open stdin) v (fun a v' => a = Some g0 ∧ V2 v');
  xp_stdout : ∀ v, V2 v → returns (vfs_open stdout) v (fun a v' => a = Some g1 ∧ V3 v');
  xp_stderr : ∀ v, V3 v → returns (vfs_open stderr) v (fun a v' => a = Some g2 ∧ V4 v');
  xp_paging : paging_ok kernel_pd r l (pm_k (fk_pm (es_fk s)));
  xp_mach : mach_ok (phys_kernel_pd kernel_pd) (k_mach (pm_k (fk_pm (es_fk s))));
  xp_locks : kp_spinlock (pm_k (fk_pm (es_fk s))) = free_lock ∧ ipi_spinlock (pm_k (fk_pm (es_fk s))) = free_lock;
  xp_kpd : kernel_pd mod PAGE_SIZE = 0 ∧ (kernel_pd ∉ l);
  xp_user : ∀ v, 0 ≤ v < limit →
    has (load32 (kmem (pm_k (fk_pm (es_fk s)))) (kernel_pd + 4 * (page_no v / 1024))) PAGE_BIT_GLOBAL = false;
  xp_room : (1 + seg_room (elf_segs img) + (2 + 2 * env_pages env) ≤ length l)%nat;
  xp_heap : stack_kalloc 4096 (fk_ts (es_fk s)) = Done (stack0, ts1);
  xp_block : stack_block stack0;
}.

(** The process object, with an empty address space. *)
Lemma alloc_step Pm V w l (s : esys W) :
  let k := pm_k (fk_pm (es_fk s)) in
  map_ok vm_map r → limit ≤ 2 ^ 32 - PAGE_SIZE → paging_ok kernel_pd r (w :: l) k → mach_ok (phys_kernel_pd kernel_pd) (k_mach k) →
  kp_spinlock k = free_lock ∧ ipi_spinlock k = free_lock → kernel_pd mod PAGE_SIZE = 0 ∧ (kernel_pd ∉ w :: l) →
  (∀ v, 0 ≤ v < limit → has (load32 (kmem k) (kernel_pd + 4 * (page_no v / 1024))) PAGE_BIT_GLOBAL = false) →
  pstate (W := W) (fk_ts (es_fk s)) (es_scheduled s) Pm V s →
  returns (on_p (proc_alloc kernel_pd (chars "elf executable"))) s (fun p s' =>
    p = pm_next (fk_pm (es_fk s)) ∧
    pstate (fk_ts (es_fk s)) (es_scheduled s)
      (loading kernel_pd r limit (pm_procs (fk_pm (es_fk s))) p (fresh_proc (chars "elf executable") (v2p r w))
         (fun _ => None) (length l)) V s').
Proof.
  intros k Hmap Hlim Hpg Hm [Hl1 Hl2] [Hk1 Hk2] Hu H.
  destruct (proc_alloc_run vm_map kernel_pd r Hmap (chars "elf executable") w l k (pm_procs (fk_pm (es_fk s)))
    (pm_next (fk_pm (es_fk s))) Hpg Hm Hl1 Hk1 Hk2) as (t & E & A1 & A2 & A3 & A4).
  set (x0 := fresh_proc _ _) in *. set (p := pm_next (fk_pm (es_fk s))) in *. set (pm' := mk_pm (set_pal t k) _ _) in *.
  assert (E' : proc_alloc kernel_pd (chars "elf executable") (fk_pm (es_fk s)) = Done (p, pm')).
  { rewrite <- E. unfold k, p. by destruct (fk_pm (es_fk s)). }
  assert (HL : loading kernel_pd r limit (pm_procs (fk_pm (es_fk s))) p x0 (fun _ => None) (length l) pm').
  { exists l, x0, w, ∅, ∅. split; [split; cbn; try done|].
    - apply lookup_insert_eq.
    - destruct Hpg as [Hc Hi]. split; [by split|done|]. apply Hi.
    - split; [done|]. split; [exists (fun y => y); done|]. do 4 (split; [done|]).
      intros v Hv. assert (Hv32 : is_u32 v) by (unfold is_u32, PAGE_SIZE in *; lia). split; [done|].
      pose proof (page_no_range v Hv32). cbn. rewrite A4 by dlia. unfold kernel_entry. by rewrite (Hu v Hv). }
  eapply returns_mono; [eapply on_p_run; [exact H|exact E'|exact HL]|by intros ? ? [-> ?]].
Qed.

(** The run, in terms of the loader's state. *)
Lemma exec_run l s path stdin stdout stderr node I L f ref v1 V1 V2 V3 V4 g0 g1 g2 stack0 ts1 :
  exec_pre l s path stdin stdout stderr node I L f ref v1 V1 V2 V3 V4 g0 g1 g2 stack0 ts1 →
  let p := pm_next (fk_pm (es_fk s)) in let t := ts_next ts1 in
  returns (exec_user_elf_program vm_map kernel_pd uthread_switch_entry isr_exit answers scratch junk path
      stdin stdout stderr env) s (fun _ s' => ∃ pd ts',
    pstate ts' (es_scheduled s ++ [(p, t)]) (loading kernel_pd r limit (pm_procs (fk_pm (es_fk s))) p
      (started_proc img env pd g0 g1 g2) (elf_memory img env) 0) V4 s' ∧
    let e := at_esp0 (th_arch (ts_threads ts' t)) in
    created ts1 ts' t stack0 e ∧ at_cr3 (th_arch (ts_threads ts' t)) = pd ∧
    switch_target (ts_mem ts') e = uthread_switch_entry ∧ load32 (ts_mem ts') (switch_esp e) = isr_exit ∧
    let R := isr_exit_regs (ts_mem ts') (switch_esp e + 4) in
    starts R (e32_pe_pos (elf_h32 img)) USER_CODE_SELECTOR USER_DATA_SELECTOR EFLAGS_IF (stack0 + 4096) ∧
    r_esp R = stack_addr img + PAGE_SIZE ∧ r_ss R = USER_DATA_SELECTOR).
Proof.
  intros H p t. destruct H as [Hmap Hans Hscr Hcode Hlim Hok Hop Hn [Hf HI] Hcl Hv1 Hv2 Hv3 Hpg Hm Hlk Hk Hu Hroom Hst Hsb].
  pose proof Hok as [O1 O2 O3 O4 O5 O6 O7 O8 O9 O10 O11 O12 O13 O14]. unfold exec_user_elf_program.
  assert (S0 : pstate (fk_ts (es_fk s)) (es_scheduled s) (eq (fk_pm (es_fk s))) (eq (fk_vfs (es_fk s))) s) by by split.
  eapply returns_bind; [apply (on_f_step _ _ _ _ _ s (fun a => a = Some f) (at_pos node v1 f ref 0 I) S0)|].
  { eapply returns_run; [exact Hop|]. split; [done|]. split. exists (v_world v1). split; [done|].
    rewrite insert_id by done. by destruct v1. }
  intros ? s1 [-> S1].
  eapply returns_bind; [apply (read_step _ _ node I L img Hn v1 f ref _ 0 24 _ s1 S1); [lia|lia|lia|done]|]. intros ? s2 [-> S2].
  rewrite bool_decide_eq_true_2 by done. rewrite O4, O5, O6, O7.
  do 5 (eapply (returns_bind _ _ _ (fun _ s' => s' = s2)); [done|intros ? ? ->]).
  destruct l as [|w l]; [cbn in Hroom; lia|]. cbn [length] in Hroom.
  pose proof (ls_mem _ _ _ _ _ S2) as Ep. pose proof (ls_ts _ _ _ _ _ S2) as Et. pose proof (ls_sched _ _ _ _ _ S2) as Es.
  assert (S2' : pstate (fk_ts (es_fk s2)) (es_scheduled s2) (eq (fk_pm (es_fk s))) (at_pos node v1 f ref (0 + 24) I) s2)
    by by rewrite Et, Es.
  eapply returns_bind; [apply (alloc_step (eq (fk_pm (es_fk s))) (at_pos node v1 f ref (0 + 24) I) w l s2); rewrite <- ?Ep; [done..|exact S2']|].
  intros ? s3 [-> S3]. rewrite <- Ep, Et, Es in S3. fold p in S3. rewrite <- Ep. fold p.
  eapply returns_bind; [apply (read_step _ _ node I L img Hn v1 f ref _ (0 + 24) 28 _ s3 S3); [lia|lia|lia|done]|].
  intros ? s4 [-> S4]. change (slice (0 + 24) 28 img) with (elf_h32 img).
  assert (Hh : byte_list (elf_h32 img)) by by apply slice_byte_list.
  pose proof (get16_range _ 20 Hh) as L1. pose proof (get16_range _ 24 Hh) as L2.
  fold (e32_pht_len (elf_h32 img)) in L1. fold (e32_sht_len (elf_h32 img)) in L2.
  set (x0 := fresh_proc _ (v2p r w)) in *. set (ps := pm_procs (fk_pm (es_fk s))) in *.
  assert (S4' : pstate (fk_ts (es_fk s)) (es_scheduled s) (loading kernel_pd r limit ps p x0 (fun _ => None)
    (seg_room (elf_segs img) + (2 + (2 * env_pages env + 0)))) (at_pos node v1 f ref (0 + 24 + 28) I) s4)
    by (eapply lstate_ext; [exact S4|done|lia]).
  pose proof (load_segments_step vm_map kernel_pd r answers Hmap Hans limit Hlim ps p _ _ node I L img Hn v1 f ref
    (elf_h32 img) (Z.to_nat (e32_pht_len (elf_h32 img))) x0 _ _ _ s4 0 (fresh junk sizeof_elf_32_program_header) UVNULL S4' O1 Hh
    ltac:(lia) ltac:(lia) eq_refl O10) as Sg.
  eapply returns_bind; [apply Sg; intros j Hj; apply O8; lia|].
  intros ? s5 [-> (pos5 & Hp5 & S5)]. fold (elf_segs img) in S5 |- *. fold (seg_memory img) in S5.
  pose proof (load_sections_step vm_map kernel_pd r Hmap scratch Hscr limit Hlim ps p _ _ node I L img Hn v1 f ref
    junk (elf_h32 img) (Z.to_nat (e32_sht_len (elf_h32 img))) x0 _ _ pos5 s5 0 (fresh junk sizeof_elf_32_section_header) S5 O1 Hh
    Hp5 ltac:(lia) eq_refl O11) as Sc.
  eapply returns_bind; [apply Sc; intros j Hj; apply O9; lia|].
  intros [] s6 (pos6 & Hp6 & S6). fold (elf_secs img) in S6. fold (load_memory img) in S6.
  rewrite (proj2 (stack_page_spec img)). fold (stack_addr img).
  eapply returns_mono; [apply (start_program_step vm_map kernel_pd r answers Hmap Hans scratch Hscr uthread_switch_entry isr_exit
    Hcode limit Hlim img env Hok _ p _ _ (v2p r w) 0 _ V1 V2 V3 V4 s6 f _ stdin stdout stderr g0 g1 g2 stack0 ts1 S6 Hh); try done|].
  { by apply Hcl. }
  intros [] s7 (ts' & A1 & A2). exists (v2p r w), ts'. by split.
Qed.

End theorem.

(** The stack is not behind the program: its page is the last page of a segment. *)
Theorem stack_in_segment img :
  0 < stack_page img → ∃ ph, ph ∈ elf_segs img ∧ stack_page img = seg_last ph.
Proof.
  intros Hs. destruct (stack_page_spec img) as [_ E].
  assert (G : ∀ segs b, seg_break b segs = b ∨ ∃ ph, ph ∈ segs ∧ seg_break b segs = PAGE_SIZE * seg_last ph).
  { induction segs as [|ph segs IH]; intros b; cbn; [by left|].
    destruct (IH (Z.max b (PAGE_SIZE * seg_last ph))) as [->|(q & Hq & ->)].
    - destruct (Z.max_spec b (PAGE_SIZE * seg_last ph)) as [[_ ->]|[_ ->]]; [right; exists ph; split; [by left|done]|by left].
    - right. exists q. split; [by right|done]. }
  destruct (G (elf_segs img) UVNULL) as [E0|(ph & Hp & E1)].
  - rewrite E in E0. unfold UVNULL, PAGE_SIZE in E0. lia.
  - exists ph. split; [done|]. rewrite E in E1. unfold PAGE_SIZE in E1. lia.
Qed.

(** ** Witness *)

(** A program of one segment with one section of four bytes, at 0x8048000. *)
Definition example_img : list Z :=
  ELF_MAGIC ++ [1; 1; 1; 0] ++ replicate 8 0 ++ le_bytes 2 2 ++ le_bytes 2 3 ++ le_bytes 4 1 ++
  le_bytes 4 0x8048000 ++ le_bytes 4 52 ++ le_bytes 4 84 ++ le_bytes 4 0 ++
  le_bytes 2 52 ++ le_bytes 2 32 ++ le_bytes 2 1 ++ le_bytes 2 40 ++ le_bytes 2 1 ++ le_bytes 2 0 ++
  le_bytes 4 1 ++ le_bytes 4 124 ++ le_bytes 4 0x8048000 ++ le_bytes 4 0 ++ le_bytes 4 4 ++ le_bytes 4 0x100 ++ le_bytes 4 5 ++ le_bytes 4 0x1000 ++
  le_bytes 4 0 ++ le_bytes 4 1 ++ le_bytes 4 6 ++ le_bytes 4 0x8048000 ++ le_bytes 4 124 ++ le_bytes 4 4 ++
  le_bytes 4 0 ++ le_bytes 4 0 ++ le_bytes 4 16 ++ le_bytes 4 0 ++
  [0xEB; 0xFE; 0x90; 0x90].
Definition example_env : list (list Z) := [chars "HOME=/"].

(** A filesystem that has it under every name. *)
Definition elf_node : vfs_node unit :=
  mk_node VFS_NODE_FILE 0 0 (ret tt) (ret tt) (ret []) (ret (Z.of_nat (length example_img)))
    (fun off num => ret (Z.of_nat (length (slice off num example_img)), slice off num example_img))
    (fun _ _ => ret 0) (ret 0) (fun _ => ret 0) (ret tt).
Definition elf_mounts : list (list Z * vfs_super unit) :=
  [([], mk_super (ret (Some elf_node)) (fun _ => ret None) (fun _ => ret (Some elf_node)))].
Definition elf_vfs : vfs unit := mk_vfs false elf_mounts false [] ∅ 0 tt.

(** A kernel with eight free pages. *)
Definition eight_pages : list Z :=
  [0x810000; 0x811000; 0x812000; 0x813000; 0x814000; 0x815000; 0x816000; 0x817000].
Fixpoint link_pages (m : mem) (prev : Z) (l : list Z) : mem :=
  match l with
  | [] => m
  | v :: l' => link_pages (free_header m v prev (default 0 (head l'))) v l'
  end.
Definition eight_kernel : kstate :=
  mk_kstate example_cpu free_lock free_lock free_lock
    (mk_palloc (link_pages (fun _ => 0) 0 eight_pages) true 0x810000 (Some example_region) 8) 0 0 false.
Definition example_es : esys unit :=
  mk_es (mk_fk (mk_pm eight_kernel ∅ 1) example_tsys elf_vfs) [].

Lemma eight_pages_inv : palloc_inv example_region eight_pages (k_pal eight_kernel).
Proof.
  split; try reflexivity.
  - cbn. unfold free_header. repeat apply byte_mem_store32. intros a. lia.
  - vm_compute. repeat split.
  - repeat constructor; cbn; unfold PAGE_SIZE; done || lia.
  - vm_compute. repeat constructor; rewrite ?elem_of_cons, ?elem_of_nil; intuition discriminate.
Qed.

Lemma eight_dir x : 0xC0500000 ≤ x → kmem eight_kernel x = 0.
Proof. intros H. cbn. unfold free_header. by rewrite !store32_frame by lia. Qed.

Lemma example_img_bytes : byte_list example_img.
Proof.
  apply Forall_forall. intros b Hb.
  assert (Hall : forallb (fun b => (0 <=? b) && (b <? 2 ^ 8)) example_img = true) by (vm_compute; reflexivity).
  rewrite forallb_forall in Hall. apply list_elem_of_In, Hall in Hb. zbool. lia.
Qed.

Lemma example_segs : elf_segs example_img = [slice 52 32 example_img].
Proof. vm_compute. reflexivity. Qed.
Lemma example_secs : elf_secs example_img = [slice 84 40 example_img].
Proof. vm_compute. reflexivity. Qed.

Lemma example_elf_ok : elf_ok 0xC0000000 example_img example_env.
Proof.
  split.
  - exact example_img_bytes.
  - vm_compute. discriminate.
  - vm_compute. reflexivity.
  - vm_compute. reflexivity.
  - vm_compute. reflexivity.
  - vm_compute. reflexivity.
  - vm_compute. reflexivity.
  - replace (e32_pht_len (elf_h32 example_img)) with 1 by (vm_compute; reflexivity).
    intros j Hj. replace j with 0 by lia. vm_compute. discriminate.
  - replace (e32_sht_len (elf_h32 example_img)) with 1 by (vm_compute; reflexivity).
    intros j Hj. replace j with 0 by lia. vm_compute. discriminate.
  - rewrite example_segs. apply Forall_singleton. split; vm_compute; [reflexivity|discriminate].
  - rewrite example_secs. apply Forall_singleton. intros _. split; [vm_compute; discriminate|].
    split; [vm_compute; discriminate|].
    replace (sh_mem_offset (slice 84 40 example_img)) with 0x8048000 by (vm_compute; reflexivity).
    replace (sh_file_size (slice 84 40 example_img)) with 4 by (vm_compute; reflexivity).
    intros w Hw. assert (w = 0x8048000 ∨ w = 0x8048001 ∨ w = 0x8048002 ∨ w = 0x8048003) as [-> | [-> | [-> | ->]]] by lia;
      exists 0; vm_compute; reflexivity.
  - vm_compute. reflexivity.
  - apply Forall_singleton. repeat constructor; cbn; lia.
  - vm_compute. discriminate.
Qed.

(** The filesystem with [n] files opened so far. *)
Definition elf_vfs_next (n : nat) (v : vfs unit) : Prop :=
  vfs_mounts v = elf_mounts ∧ vfs_mount_mutex v = false ∧ vfs_file_list_mutex v = false ∧ v_next v = n.

Lemma elf_open n rest v :
  elf_vfs_next n v → returns (vfs_open (VFS_SEPARATOR :: rest)) v (fun a v' => a = Some n ∧ elf_vfs_next (S n) v').
Proof.
  intros (H1 & H2 & H3 & H4).
  assert (E : vfs_get (VFS_SEPARATOR :: rest) v = Done (Some elf_node, v)).
  { rewrite vfs_get_run by done. rewrite H1. cbn. unfold mount_request. cbn [length Nat.min take].
    rewrite bool_decide_eq_true_2 by done. cbn. by destruct v. }
  unfold vfs_open, returns. rewrite (bind_run _ _ _ _ _ E). destruct v. cbn in *. by subst.
Qed.

Lemma example_exec_pre :
  exec_pre (SH := example_heap) example_vm_map example_kpd example_region (fun _ => true) 0xC0700000 0xC0100000 0xC0100100
    0xC0000000 example_img example_env eight_pages example_es (chars "/a") (chars "/dev/com2") (chars "/dev/com1") (chars "/dev/com1")
    elf_node (fun _ => True) (fun _ => True) 0 1
    (mk_vfs false elf_mounts false [0%nat] {[0%nat := mk_file elf_node 1 0]} 1 tt)
    (elf_vfs_next 1) (elf_vfs_next 2) (elf_vfs_next 3) (elf_vfs_next 4) 1 2 3 0xC0800010 example_tsys.
Proof.
  split.
  - exact example_map_ok.
  - done.
  - vm_compute. discriminate.
  - done.
  - done.
  - exact example_elf_ok.
  - vm_compute. reflexivity.
  - split; try done.
  - done.
  - intros pos v [(w & _ & ->)]. destruct w. eapply returns_run; [reflexivity|]. done.
  - intros v Hv. by apply (elf_open 1 (chars "dev/com2")).
  - intros v Hv. by apply (elf_open 2 (chars "dev/com1")).
  - intros v Hv. by apply (elf_open 3 (chars "dev/com1")).
  - split; [|exact eight_pages_inv]. split; [by apply (mach_unlocked example_kpd), example_mach_ok|apply example_mach_ok].
  - apply example_mach_ok.
  - done.
  - split; [done|]. unfold eight_pages, example_kpd. rewrite !elem_of_cons, elem_of_nil. lia.
  - intros v Hv. unfold load32. rewrite !(eight_dir : ∀ x, _ → kmem (pm_k (fk_pm (es_fk example_es))) x = 0); [done|..];
      unfold example_kpd, page_no, PAGE_SIZE; dlia.
  - vm_compute. lia.
  - reflexivity.
  - done.
Qed.

