(* ===== verification/LibcEnv.v ===== *)
(** * libc/stdlib: env.c, exit.c and abort.c

    [getenv] walks the table of pointers the kernel's loader wrote at the address the
    GETENVPTR system call returns.  Its loop ends at the null pointer of the table;
    [fuel] bounds it and the scan of the name.  The main theorem composes the two sides:
    in the memory [ElfExec] shows a started program to have, [getenv] finds the value the
    program was started with. *)

From stdpp Require Import base list gmap strings.
From Stdlib Require Import ZArith Lia.
From S2P Require Import Prelude Memory KUtils LibcString MemLayout Paging Elf ElfLoad ElfExec.

Definition EQUALS : Z := 61.

(** ** env.c *)

(** The loop, from entry [i] of the table [envt]; 0 is NULL. *)
Fixpoint getenv_loop (fuel : nat) (m : mem) (name len envt i : Z) : option Z :=
  match fuel with
  | O => None
  | S fuel' =>
      let env := load32 m (envt + 4 * i) in
      if env =? 0 then Some 0
      else if (strncmp m env name len =? 0) && (m (env + len) =? EQUALS) then Some (u32 (env + len + 1))
      else getenv_loop fuel' m name len envt (i + 1)
  end.

(** [envt] is the result of the GETENVPTR system call. *)
Definition getenv (fuel : nat) (m : mem) (envt name : Z) : option Z :=
  if name =? 0 then Some 0 else
  len ← strlen fuel m name; getenv_loop fuel m name len envt 0.

(** ** exit.c, abort.c *)

Section exit.
Context {S : Type}.

(** [atexit_func], and the rest of the process. *)
Record exit_state := mk_exit { x_atexit_func : Z; x_rest : S }.

(** Calls through a function pointer, and the trap into the kernel. *)
Context (call : Z → M exit_state unit) (syscall1 : Z → Z → M exit_state Z).

Definition atexit (func : Z) : M exit_state Z :=
  f <- gets x_atexit_func ;;
  if negb (f =? 0) then ret (-1) else
  modify (fun s => mk_exit func (x_rest s)) ;;; ret 0.

Definition _yaos2_libc_atexit_entry : M exit_state unit :=
  f <- gets x_atexit_func ;; when (negb (f =? 0)) (call f).

Definition exit (status : Z) : M exit_state unit :=
  _yaos2_libc_atexit_entry ;;; syscall1 SYSCALL_EXIT status ;;; ret tt.

Definition abort : M exit_state unit := exit 1.
End exit.

(** ** Lemmas *)

(** An entry that defines [name]. *)
Definition defines (name e : list Z) : Prop := (name ++ [EQUALS]) `prefix_of` e.

#[global] Instance defines_dec name e : Decision (defines name e).
Proof. unfold defines. apply _. Defined.

(** The test of one entry. *)
Lemma entry_test m p q e name :
  byte_mem m → cstring m p e → cstring m q name →
  (strncmp m p q (Z.of_nat (length name)) =? 0) && (m (p + Z.of_nat (length name)) =? EQUALS) =
  bool_decide (defines name e).
Proof.
  intros Hm He Hq. pose proof Hq as (Hn & _ & Hnz).
  assert (Hs : strncmp m p q (Z.of_nat (length name)) = 0 ↔ read_bytes m p (length name) = name).
  { unfold strncmp. rewrite Nat2Z.id, strncmp_zero by done. by rewrite Hn. }
  destruct (decide (length name ≤ length e)%nat) as [L|L].
  - rewrite (cstring_prefix m p e _ He L) in Hs.
    pose proof (cstring_drop m p e (length name) He L) as Hd.
    destruct (Z.eqb_spec (strncmp m p q (Z.of_nat (length name))) 0) as [E|E]; cbn [andb].
    + apply Hs in E. destruct (drop (length name) e) as [|c t] eqn:Ed.
      * rewrite (cstring_nil _ _ Hd). symmetry. apply bool_decide_eq_false. intros [k Hk].
        apply (f_equal length) in Hk, Ed. rewrite !length_app, length_drop in *. cbn in *. lia.
      * destruct (cstring_cons _ _ _ _ Hd) as (-> & _ & _).
        assert (He' : e = name ++ c :: t) by (rewrite <- (take_drop (length name) e), E, Ed; done).
        destruct (Z.eqb_spec c EQUALS) as [->|Hc]; symmetry.
        -- apply bool_decide_eq_true. exists t. by rewrite He', <- app_assoc.
        -- apply bool_decide_eq_false. intros [k Hk]. rewrite He', <- app_assoc in Hk.
           apply app_inv_head in Hk. cbn in Hk. congruence.
    + symmetry. apply bool_decide_eq_false. intros [k Hk]. apply E, Hs. rewrite Hk, <- app_assoc. apply take_app_length.
  - rewrite (proj2 (Z.eqb_neq _ _)); cbn [andb].
    + symmetry. apply bool_decide_eq_false. intros [k Hk]. apply (f_equal length) in Hk.
      rewrite !length_app in Hk. lia.
    + intros E%Hs. pose proof (lookup_lt_is_Some_2 name (length e) ltac:(lia)) as [c Hc].
      pose proof (Forall_lookup_1 _ _ _ _ Hnz Hc) as Hz. apply Hz. rewrite <- E in Hc.
      rewrite read_bytes_lookup in Hc by lia. injection Hc as <-. apply He.
Qed.

(** The table of the entries [env] at [envt]. *)
Record env_table_at (m : mem) (envt : Z) (env : list (list Z)) : Prop := {
  et_entries : ∀ i e, env !! i = Some e →
    ∃ p, load32 m (envt + 4 * Z.of_nat i) = p ∧ 0 < p ∧ p + Z.of_nat (length e) < 2 ^ 32 ∧ cstring m p e;
  et_end : load32 m (envt + 4 * Z.of_nat (length env)) = 0;
}.

(** What [getenv] promises: the value of the first entry that defines the name, or NULL. *)
Definition env_value (m : mem) (env : list (list Z)) (name : list Z) (v : Z) : Prop :=
  (v = 0 ∧ Forall (fun e => ¬ defines name e) env) ∨
  (∃ i value, env !! i = Some (name ++ [EQUALS] ++ value) ∧ (∀ j e, (j < i)%nat → env !! j = Some e → ¬ defines name e) ∧
     v ≠ 0 ∧ cstring m v value).

Lemma getenv_loop_run m envt env q name fuel : ∀ i,
  byte_mem m → env_table_at m envt env → cstring m q name → (i ≤ length env)%nat → (length env - i < fuel)%nat →
  (∀ j e, (j < i)%nat → env !! j = Some e → ¬ defines name e) →
  ∃ v, getenv_loop fuel m q (Z.of_nat (length name)) envt (Z.of_nat i) = Some v ∧ env_value m env name v.
Proof.
  induction fuel as [|fuel IH]; intros i Hm Ht Hq Hi Hf Hj; [lia|]. cbn [getenv_loop].
  destruct (decide (i = length env)) as [->|Hne].
  - rewrite (et_end _ _ _ Ht). exists 0. split; [done|]. left. split; [done|].
    apply Forall_lookup. intros j e He. apply (Hj j); [|done]. by apply lookup_lt_Some in He.
  - destruct (lookup_lt_is_Some_2 env i ltac:(lia)) as [e He].
    destruct (et_entries _ _ _ Ht i e He) as (p & -> & Hp & Hb & Hs).
    rewrite (proj2 (Z.eqb_neq p 0)) by lia. rewrite (entry_test m p q e name Hm Hs Hq).
    case_bool_decide as Hd.
    + destruct Hd as [value ->]. rewrite !length_app in Hb. cbn in Hb. eexists. split; [done|]. right.
      exists i, value. rewrite u32_small by lia. split; [by rewrite He, <- app_assoc|]. split; [done|]. split; [lia|].
      pose proof (cstring_drop m p _ (length (name ++ [EQUALS])) Hs ltac:(rewrite !length_app; lia)) as Hd.
      rewrite drop_app_length, length_app in Hd. cbn in Hd.
      by replace (p + Z.of_nat (length name) + 1) with (p + Z.of_nat (length name + 1)) by lia.
    + destruct (IH (S i) Hm Ht Hq ltac:(lia) ltac:(lia)) as (v & E & H).
      { intros j e' Hj' He'. destruct (decide (j = i)) as [->|]; [congruence|]. apply (Hj j); [lia|done]. }
      exists v. rewrite <- E. split; [|done]. f_equal. lia.
Qed.

Lemma getenv_run fuel m envt env q name :
  byte_mem m → env_table_at m envt env → cstring m q name → q ≠ 0 → (length env < fuel)%nat → (length name < fuel)%nat →
  ∃ v, getenv fuel m envt q = Some v ∧ env_value m env name v.
Proof.
  intros Hm Ht Hq Hq0 Hf Hn. unfold getenv. rewrite (proj2 (Z.eqb_neq q 0)) by done.
  rewrite (strlen_cstring fuel m q name Hq Hn). cbn [mbind option_bind].
  apply (getenv_loop_run m envt env q name fuel 0 Hm Ht Hq); [lia|lia|]. intros j e Hj. lia.
Qed.

(** ** The environment block of a loaded program *)

(** [m] is a memory of the program in which the bytes of [B] are as the loader left them. *)
Definition holds (m : mem) (B : umemory) : Prop := ∀ w b, B w = Some b → m w = b.

Lemma holds_bytes m B v l : holds m B → bytes_at B v l → read_bytes m v (length l) = l.
Proof.
  intros Hm Hb. apply list_eq. intros i. destruct (decide (i < length l)%nat) as [L|L].
  - rewrite read_bytes_lookup by done. destruct (lookup_lt_is_Some_2 l i L) as [b Hi]. rewrite Hi. f_equal.
    by apply Hm, Hb.
  - rewrite !lookup_ge_None_2; [done| |]; rewrite ?length_read_bytes; lia.
Qed.

Lemma load32_le_val m a : load32 m a = le_val (read_bytes m a 4).
Proof.
  cbn [read_bytes le_val]. unfold load32. replace (a + 1 + 1) with (a + 2) by lia.
  replace (a + 2 + 1) with (a + 3) by lia. lia.
Qed.

Lemma holds_word m B v x : holds m B → bytes_at B v (le_bytes 4 x) → is_u32 x → load32 m v = x.
Proof.
  intros Hm Hb Hx. rewrite load32_le_val. pose proof (holds_bytes m B v _ Hm Hb) as E.
  rewrite length_le_bytes in E. rewrite E, le_val_bytes. by apply Z.mod_small.
Qed.

Lemma holds_string m B v e :
  holds m B → bytes_at B v (e ++ [0]) → Forall (fun c => c ≠ 0) e → cstring m v e.
Proof.
  intros Hm Hb Hz. pose proof (holds_bytes m B v _ Hm Hb) as E. rewrite length_app, read_bytes_app in E.
  apply app_inj_1 in E as [E1 E2]; [|apply length_read_bytes]. cbn in E2. injection E2 as E2. done.
Qed.

Lemma env_bytes_le env i e : env !! i = Some e →
  env_bytes (take i env) + Z.of_nat (length e) + 1 ≤ env_bytes env ∧ 0 ≤ env_bytes (take i env).
Proof.
  intros He. split; [|unfold env_bytes; lia].
  assert (E : env = take i env ++ e :: drop (S i) env) by (symmetry; by apply take_drop_middle).
  unfold env_bytes. rewrite E at 2. rewrite sum_list_with_app. cbn [sum_list_with]. lia.
Qed.

Lemma loaded_env limit img env m :
  elf_ok limit img env → limit ≤ 2 ^ 32 - PAGE_SIZE → holds m (elf_memory img env) →
  Forall (Forall (fun c => c ≠ 0)) env → env_table_at m (env_table img) env.
Proof.
  intros Hok Hlim Hm Hz. destruct (elf_memory_spec limit img env Hok) as (_ & _ & He & Hend).
  destruct (env_fits limit img env Hok) as (H0 & H1 & H2 & H3 & _). destruct (stack_page_spec img) as [Hs _].
  assert (Ht : 0 ≤ env_table img) by (unfold env_table, PAGE_SIZE; lia).
  unfold PAGE_SIZE in Hlim. split.
  - intros i e Hi. destruct (He i e Hi) as [A1 A2]. destruct (env_bytes_le env i e Hi) as [B1 B2].
    unfold env_addr in *. set (p := env_table img + 4 * env_num env + env_bytes (take i env)) in *.
    exists p. unfold PAGE_SIZE in *. split; [eapply holds_word; [exact Hm|exact A1|unfold is_u32; lia]|].
    split; [lia|]. split; [lia|]. eapply holds_string; [exact Hm|exact A2|]. by eapply Forall_lookup_1.
  - eapply holds_word; [exact Hm|exact Hend|unfold is_u32; lia].
Qed.

(** ** Properties *)

(** C36: a program finds its environment: in any memory in which a loaded program's environment
    block is still as the loader wrote it, [getenv] returns, for every name, the address
    of the value of the first entry [name=value] the program was started with, and NULL
    when there is none. *)
Theorem getenv_finds_loaded limit img env m q name fuel :
  elf_ok limit img env → limit ≤ 2 ^ 32 - PAGE_SIZE → Forall (Forall (fun c => c ≠ 0)) env →
  byte_mem m → holds m (elf_memory img env) → cstring m q name → q ≠ 0 →
  (length env < fuel)%nat → (length name < fuel)%nat →
  ∃ v, getenv fuel m (env_table img) q = Some v ∧ env_value m env name v.
Proof.
  intros Hok Hlim Hz Hb Hm Hq Hq0 Hf Hn. apply getenv_run; try done. by apply (loaded_env limit).
Qed.

(** ** Witness *)

(** The image of a program holds bytes. *)
Definition byte_image (B : umemory) : Prop := ∀ w b, B w = Some b → 0 ≤ b < 2 ^ 8.

Lemma byte_overlay v l B : byte_list l → byte_image B → byte_image (overlay v l B).
Proof. intros Hl HB w b. unfold overlay. destruct (_ && _); [apply (Forall_lookup_1 _ _ _ _ Hl)|apply HB]. Qed.

Lemma byte_with_pages n k B : byte_image B → byte_image (with_pages n k B).
Proof.
  intros HB w b. unfold with_pages. destruct (B w) as [c|] eqn:E; [intros [= <-]; by apply (HB w)|].
  destruct (_ && _); [intros [= <-]; lia|done].
Qed.

Lemma byte_with_page n B : byte_image B → byte_image (with_page n B).
Proof.
  intros HB w b. unfold with_page. destruct (B w) as [c|] eqn:E; [intros [= <-]; by apply (HB w)|].
  destruct (_ =? _); [intros [= <-]; lia|done].
Qed.

Lemma byte_env_image env : ∀ slot str B, Forall byte_list env → byte_image B → byte_image (env_image env slot str B).
Proof.
  induction env as [|e env IH]; intros slot str B He HB; cbn [env_image].
  - apply byte_overlay; [apply byte_list_le_bytes|done].
  - apply Forall_cons in He as [He1 He2]. apply IH; [done|].
    apply byte_overlay; [apply Forall_app; split; [done|repeat constructor; lia]|].
    apply byte_overlay; [apply byte_list_le_bytes|done].
Qed.

Lemma byte_elf_memory limit img env : elf_ok limit img env → byte_image (elf_memory img env).
Proof.
  intros Hok. unfold elf_memory. apply byte_env_image; [apply Hok|]. apply byte_with_pages, byte_with_page.
  unfold load_memory, seg_memory.
  assert (H1 : ∀ l B, byte_image B → byte_image (foldl with_seg B l)).
  { induction l as [|ph l IH]; intros B HB; [done|]. cbn [foldl]. by apply IH, byte_with_pages. }
  assert (H2 : ∀ l B, byte_image B → byte_image (foldl (with_section img) B l)).
  { induction l as [|sh l IH]; intros B HB; [done|]. cbn [foldl]. apply IH. unfold with_section.
    destruct (loaded sh); [|done]. apply byte_overlay; [apply slice_byte_list, Hok|done]. }
  apply H2, H1. by intros w b.
Qed.

(** The example program with the name HOME at address 0x100. *)
Definition example_user_mem : mem := fun w =>
  match elf_memory example_img example_env w with
  | Some b => b
  | None => default 0 (chars "HOME" !! Z.to_nat (w - 0x100))
  end.

Lemma example_env_bytes : byte_mem example_user_mem.
Proof.
  intros w. unfold example_user_mem. destruct (elf_memory example_img example_env w) as [b|] eqn:E.
  - exact (byte_elf_memory _ _ _ example_elf_ok w b E).
  - destruct (chars "HOME" !! Z.to_nat (w - 0x100)) as [b|] eqn:Eb; cbn [default]; [|lia].
    assert (H : byte_list (chars "HOME")) by (repeat constructor; vm_compute; discriminate || reflexivity).
    exact (Forall_lookup_1 _ _ _ _ H Eb).
Qed.

Lemma getenv_finds_loaded_witness :
  ∃ v, getenv 10 example_user_mem (env_table example_img) 0x100 = Some v ∧
       env_value example_user_mem example_env (chars "HOME") v.
Proof.
  apply (getenv_finds_loaded 0xC0000000 example_img example_env example_user_mem 0x100 (chars "HOME") 10 example_elf_ok).
  - vm_compute. discriminate.
  - apply Forall_singleton. repeat constructor; discriminate.
  - exact example_env_bytes.
  - intros w b E. unfold example_user_mem. rewrite E. reflexivity.
  - split; [vm_compute; reflexivity|]. split; [vm_compute; reflexivity|]. repeat constructor; discriminate.
  - discriminate.
  - cbn. lia.
  - cbn. lia.
Defined.

Example getenv_example : getenv 10 example_user_mem (env_table example_img) 0x100 = Some 0x804900D ∧
  example_user_mem 0x804900D = 47.
Proof. vm_compute. split; reflexivity. Qed.
