(* ===== verification/Segmentation.v ===== *)
(** * Descriptors, the GDT of a CPU and its task state segment

    arch/cpu/gdt.h, seg_types.h, selectors.h, arch/i386/cpu/segmentation.c and cpu_setup_tss of
    arch/i386/cpu/cpu.c.  A descriptor is a 64-bit word; [segment_*] read it the way the
    processor does.  The table of a CPU is a list of descriptors, its task state segment lies
    in memory.  The instructions that load GDTR, the segment registers and TR are modelled with
    their checks on the table that is loaded ([asm_lgdt], [asm_load_selectors], [asm_ltr]): a
    refused selector is a general protection fault. *)

From stdpp Require Import base list gmap strings.
From Stdlib Require Import ZArith Lia.
From S2P Require Import Prelude Memory KUtils Cpu Paging Thread.

(** ** Segment descriptors *)

Definition SEG_BIT_RING (r : Z) : Z := Z.shiftl r 13.
Definition SEG_BIT_PRESENT : Z := 0x8000.

Definition GDTE_BIT_ACCESSED : Z := 0x100.
Definition GDTE_BIT_CS_READABLE : Z := 0x200.
Definition GDTE_BIT_DS_WRITABLE : Z := 0x200.
Definition GDTE_BIT_CS_EXECUTABLE : Z := 0x800.
Definition GDTE_BIT : Z := 0x1000.
Definition TSSD_BIT_BUSY : Z := 0x200.
Definition GDTE_BIT_32 : Z := 0x400000.
Definition GDTE_BIT_PAGE : Z := 0x800000.

Definition GDTE_CODE32_FLAGS : Z :=
  Z.lor GDTE_BIT_CS_READABLE (Z.lor GDTE_BIT_CS_EXECUTABLE (Z.lor GDTE_BIT (Z.lor SEG_BIT_PRESENT (Z.lor GDTE_BIT_32 GDTE_BIT_PAGE)))).
Definition GDTE_DATA32_FLAGS : Z :=
  Z.lor GDTE_BIT_DS_WRITABLE (Z.lor GDTE_BIT (Z.lor SEG_BIT_PRESENT (Z.lor GDTE_BIT_32 GDTE_BIT_PAGE))).
Definition GDTE_TSS_FLAGS : Z :=
  Z.lor GDTE_BIT_ACCESSED (Z.lor GDTE_BIT_CS_EXECUTABLE (Z.lor SEG_BIT_PRESENT GDTE_BIT_32)).

Definition gdte_construct (base limit flags : Z) : Z :=
  let seg := Z.lor flags (Z.land limit 0x000F0000) in
  let seg := Z.lor seg (Z.land (Z.shiftr base 16) 0x000000FF) in
  let seg := Z.lor seg (Z.land base 0xFF000000) in
  let seg := u64 (Z.shiftl seg 32) in
  let seg := Z.lor seg (u32 (Z.shiftl base 16)) in
  Z.lor seg (Z.land limit 0x0000FFFF).

Definition gdte_clear_flag (seg flags : Z) : Z :=
  let upper := u32 (Z.shiftr seg 32) in
  let lower := u32 (Z.land seg 0xFFFFFFFF) in
  let upper := Z.land upper (Z.lxor flags 0xFFFFFFFF) in
  Z.lor (u64 (Z.shiftl upper 32)) lower.

Definition seg_selector_to_index (sel : Z) : Z := Z.land sel (Z.lnot 7) / 8.

Definition KERNEL_TSS_SELECTOR : Z := 0x28.
Definition YAOS2_GDT_NOF_ENTRIES : nat := 6.
Definition sizeof_tss : Z := 104.

(** How the processor reads a descriptor. *)
Definition bits_of (x from n : Z) : Z := Z.land (Z.shiftr x from) (Z.ones n).
Definition segment_base (d : Z) : Z := bits_of d 16 24 + 2 ^ 24 * bits_of d 56 8.
Definition segment_limit (d : Z) : Z := bits_of d 0 16 + 2 ^ 16 * bits_of d 48 4.
Definition segment_type (d : Z) : Z := bits_of d 40 5.
Definition segment_dpl (d : Z) : Z := bits_of d 45 2.
Definition segment_present (d : Z) : bool := Z.testbit d 47.

(** ** State *)

(** The segmentation fields of a [struct x86_cpu]; its [tss] is in memory. *)
Record seg_cpu := mk_segcpu {
  gdtr_size : Z;
  gdtr_offset : Z;
  gdt : list Z;
}.

(** [g_table] is the CPU record whose table GDTR names; [g_tr] what TR caches. *)
Record gsys := mk_gs {
  g_mach : machine;
  g_mem : mem;
  g_cpus : list seg_cpu;
  g_initial : seg_cpu;
  g_table : option (cpu_ptr * Z);
  g_cs : Z;
  g_data : Z;
  g_tr : option (Z * Z);
}.

Definition gset_mach (m : machine) (s : gsys) : gsys :=
  mk_gs m (g_mem s) (g_cpus s) (g_initial s) (g_table s) (g_cs s) (g_data s) (g_tr s).
Definition gset_mem (m : mem) (s : gsys) : gsys :=
  mk_gs (g_mach s) m (g_cpus s) (g_initial s) (g_table s) (g_cs s) (g_data s) (g_tr s).
Definition gset_regs (cs ds : Z) (s : gsys) : gsys :=
  mk_gs (g_mach s) (g_mem s) (g_cpus s) (g_initial s) (g_table s) cs ds (g_tr s).
Definition gset_table (t : option (cpu_ptr * Z)) (s : gsys) : gsys :=
  mk_gs (g_mach s) (g_mem s) (g_cpus s) (g_initial s) t (g_cs s) (g_data s) (g_tr s).
Definition gset_tr (t : option (Z * Z)) (s : gsys) : gsys :=
  mk_gs (g_mach s) (g_mem s) (g_cpus s) (g_initial s) (g_table s) (g_cs s) (g_data s) t.

Definition seg_at (p : cpu_ptr) (s : gsys) : seg_cpu :=
  match p with InitialCpu => g_initial s | CpuAt i => nth i (g_cpus s) (mk_segcpu 0 0 []) end.
Definition seg_put (p : cpu_ptr) (x : seg_cpu) (s : gsys) : gsys :=
  match p with
  | InitialCpu => mk_gs (g_mach s) (g_mem s) (g_cpus s) x (g_table s) (g_cs s) (g_data s) (g_tr s)
  | CpuAt i => mk_gs (g_mach s) (g_mem s) (<[i := x]> (g_cpus s)) (g_initial s) (g_table s) (g_cs s) (g_data s) (g_tr s)
  end.

Definition on_cpu {A} (m : M machine A) : M gsys A := zoom g_mach gset_mach m.

(** [cpu->gdt[index] = seg]; an index outside the array is not an access of the table. *)
Definition set_gdt (p : cpu_ptr) (index seg : Z) : M gsys unit :=
  s <- get ;;
  let x := seg_at p s in
  if index <? Z.of_nat YAOS2_GDT_NOF_ENTRIES
  then modify (seg_put p (mk_segcpu (gdtr_size x) (gdtr_offset x) (<[Z.to_nat index := seg]> (gdt x))))
  else kpanic "write outside gdt".
Definition set_gdtr (p : cpu_ptr) (size offset : Z) : M gsys unit :=
  modify (fun s => seg_put p (mk_segcpu size offset (gdt (seg_at p s))) s).
Definition store16_at (a v : Z) : M gsys unit := modify (fun s => gset_mem (write_bytes (g_mem s) a (le_bytes 2 v)) s).
Definition store32_at (a v : Z) : M gsys unit := modify (fun s => gset_mem (write_bytes (g_mem s) a (le_bytes 4 v)) s).

(** ** Instructions *)

(** [lgdt]. *)
Definition asm_lgdt (p : cpu_ptr) : M gsys unit :=
  modify (fun s => gset_table (Some (p, gdtr_size (seg_at p s))) s).

(** The descriptor a selector names in the loaded table. *)
Definition loaded_descriptor (sel : Z) (s : gsys) : option Z :=
  match g_table s with
  | Some (p, limit) => if (sel / 8 * 8 + 7 <=? limit) && (0 <? sel / 8) then gdt (seg_at p s) !! Z.to_nat (sel / 8) else None
  | None => None
  end.

(** The far jump and the data segment loads at ring 0: a code segment of ring 0, a writable
    data segment of ring 0. *)
Definition asm_load_selectors (cs ds : Z) : M gsys unit :=
  s <- get ;;
  match loaded_descriptor cs s, loaded_descriptor ds s with
  | Some c, Some d =>
      if segment_present c && (Z.land (segment_type c) 0x18 =? 0x18) && (segment_dpl c =? 0)
         && segment_present d && (Z.land (segment_type d) 0x1A =? 0x12) && (segment_dpl d =? 0)
      then modify (gset_regs cs ds) else kpanic "general protection fault"
  | _, _ => kpanic "general protection fault"
  end.

(** [ltr]: the descriptor must be an available 32-bit TSS, which becomes busy. *)
Definition asm_ltr (sel : Z) : M gsys unit :=
  s <- get ;;
  match g_table s, loaded_descriptor sel s with
  | Some (p, _), Some d =>
      if segment_present d && (segment_type d =? 0x09) then
        set_gdt p (sel / 8) (Z.lor d (2 ^ 41)) ;;; modify (gset_tr (Some (segment_base d, segment_limit d)))
      else kpanic "general protection fault"
  | _, _ => kpanic "general protection fault"
  end.

(** Where an interrupt from ring 3 finds its stack: [ss0] and [esp0] of the task state
    segment TR names. *)
Definition ring0_stack (s : gsys) : option (Z * Z) :=
  match g_tr s with
  | Some (base, limit) => if 9 <=? limit then Some (le_val (read_bytes (g_mem s) (base + 8) 2), le_val (read_bytes (g_mem s) (base + 4) 4)) else None
  | None => None
  end.

(** Whether code at ring 3 (with I/O privilege level 0) may use a port: its bit of the
    permission bitmap, read with the byte behind it, must lie within the segment. *)
Definition port_allowed (s : gsys) (port : Z) : bool :=
  match g_tr s with
  | Some (base, limit) =>
      let at_ := le_val (read_bytes (g_mem s) (base + 102) 2) + port / 8 in
      (at_ + 1 <=? limit) && negb (Z.testbit (le_val (read_bytes (g_mem s) (base + at_) 2)) (port mod 8))
  | None => false
  end.

(** ** segmentation.c and cpu.c *)

Section code.
(** Addresses of [cpu->tss] and [cpu->gdt]. *)
Variables (tss_addr gdt_addr : cpu_ptr → Z).

Definition init_gdt : M gsys unit :=
  cpu <- on_cpu cpu_current ;;
  on_cpu push_no_interrupts ;;;
  set_gdt cpu 0 (gdte_construct 0 0 0) ;;;
  set_gdt cpu (seg_selector_to_index KERNEL_CODE_SELECTOR) (gdte_construct 0 0xFFFFFFFF (Z.lor GDTE_CODE32_FLAGS (SEG_BIT_RING 0))) ;;;
  set_gdt cpu (seg_selector_to_index KERNEL_DATA_SELECTOR) (gdte_construct 0 0xFFFFFFFF (Z.lor GDTE_DATA32_FLAGS (SEG_BIT_RING 0))) ;;;
  set_gdt cpu (seg_selector_to_index USER_CODE_SELECTOR) (gdte_construct 0 0xFFFFFFFF (Z.lor GDTE_CODE32_FLAGS (SEG_BIT_RING 3))) ;;;
  set_gdt cpu (seg_selector_to_index USER_DATA_SELECTOR) (gdte_construct 0 0xFFFFFFFF (Z.lor GDTE_DATA32_FLAGS (SEG_BIT_RING 3))) ;;;
  set_gdt cpu (seg_selector_to_index KERNEL_TSS_SELECTOR)
    (gdte_construct (u32 (tss_addr cpu)) sizeof_tss (Z.lor GDTE_TSS_FLAGS (SEG_BIT_RING 0))) ;;;
  set_gdtr cpu (8 * Z.of_nat YAOS2_GDT_NOF_ENTRIES) (u32 (gdt_addr cpu)) ;;;
  asm_lgdt cpu ;;;
  asm_load_selectors KERNEL_CODE_SELECTOR KERNEL_DATA_SELECTOR ;;;
  modify (fun s => gset_mem (memset_volatile (g_mem s) (tss_addr cpu) 0 sizeof_tss) s) ;;;
  store16_at (tss_addr cpu + 102) sizeof_tss ;;;
  on_cpu pop_no_interrupts.

(** [arch] is [*thread->arch]. *)
Definition cpu_setup_tss (cpu : cpu_ptr) (arch : arch_thread) : M gsys unit :=
  let tss_idx := seg_selector_to_index KERNEL_TSS_SELECTOR in
  if at_cs arch =? KERNEL_CODE_SELECTOR then ret tt else
  on_cpu push_no_interrupts ;;;
  s <- get ;;
  set_gdt cpu tss_idx (gdte_clear_flag (nth (Z.to_nat tss_idx) (gdt (seg_at cpu s)) 0) TSSD_BIT_BUSY) ;;;
  store16_at (tss_addr cpu + 8) KERNEL_DATA_SELECTOR ;;;
  store32_at (tss_addr cpu + 4) (at_ebp0 arch) ;;;
  asm_ltr KERNEL_TSS_SELECTOR ;;;
  on_cpu pop_no_interrupts.

End code.

(** ** Lemmas: descriptors *)

Lemma lor_high n a x : 0 ≤ n → 0 ≤ x < 2 ^ n → Z.lor (2 ^ n * a) x = 2 ^ n * a + x.
Proof.
  intros Hn Hx. rewrite <- Z.add_lor_land. replace (Z.land (2 ^ n * a) x) with 0; [lia|]. symmetry.
  apply Z.bits_inj'. intros k Hk. rewrite Z.land_spec, Z.bits_0, Z.mul_comm.
  destruct (Z.lt_ge_cases k n); [by rewrite Z.mul_pow2_bits_low|].
  destruct (Z.eq_dec x 0) as [->|]; [by rewrite Z.bits_0, andb_false_r|].
  rewrite (Z.bits_above_log2 x), andb_false_r; [done|lia|].
  apply Z.log2_lt_pow2; [lia|]. apply (Z.lt_le_trans _ (2 ^ n)); [lia|]. apply Z.pow_le_mono_r; lia.
Qed.

Lemma bits_of_div x from n : 0 ≤ from → 0 ≤ n → bits_of x from n = x / 2 ^ from mod 2 ^ n.
Proof. intros H1 H2. unfold bits_of. by rewrite Z.land_ones, Z.shiftr_div_pow2. Qed.

Lemma land_field x k n : 0 ≤ k → 0 ≤ n → Z.land x (Z.shiftl (Z.ones n) k) = 2 ^ k * (x / 2 ^ k mod 2 ^ n).
Proof.
  intros H1 H2. rewrite <- Z.shiftr_div_pow2, <- Z.land_ones, (Z.mul_comm (2 ^ k)), <- Z.shiftl_mul_pow2 by done.
  rewrite Z.shiftl_land. apply Z.bits_inj'. intros i Hi. rewrite !Z.land_spec. destruct (Z.lt_ge_cases i k).
  - by rewrite !(Z.shiftl_spec_low _ k), !andb_false_r by done.
  - rewrite (Z.shiftl_spec (Z.shiftr x k)), Z.shiftr_spec by lia. f_equal. f_equal. lia.
Qed.

(** A segment descriptor is its fields: [f1] the access byte, [f2] the granularity bits. *)
Lemma segment_fields base limit f1 f2 :
  is_u32 base → is_u32 limit → 0 ≤ f1 < 2 ^ 8 → 0 ≤ f2 < 2 ^ 4 →
  let d := gdte_construct base limit (2 ^ 20 * f2 + 2 ^ 8 * f1) in
  segment_base d = base ∧ segment_limit d = limit mod 2 ^ 20 ∧ segment_type d = f1 mod 2 ^ 5 ∧ segment_dpl d = f1 / 2 ^ 5 mod 2 ^ 2 ∧
  segment_present d = Z.odd (f1 / 2 ^ 7) ∧ 0 ≤ d < 2 ^ 64.
Proof.
  intros Hb Hl H1 H2 d. unfold is_u32 in *. set (L := limit / 2 ^ 16 mod 2 ^ 4). set (ll := limit mod 2 ^ 16).
  set (bh := base / 2 ^ 24). set (bm := base / 2 ^ 16 mod 2 ^ 8). set (bl := base mod 2 ^ 16).
  assert (HL : limit mod 2 ^ 20 = 2 ^ 16 * L + ll ∧ 0 ≤ L < 2 ^ 4 ∧ 0 ≤ ll < 2 ^ 16) by (unfold L, ll; dlia).
  assert (HB : base = 2 ^ 24 * bh + 2 ^ 16 * bm + bl ∧ 0 ≤ bh < 2 ^ 8 ∧ 0 ≤ bm < 2 ^ 8 ∧ 0 ≤ bl < 2 ^ 16)
    by (unfold bh, bm, bl; dlia).
  assert (E : d = 2 ^ 56 * bh + 2 ^ 52 * f2 + 2 ^ 48 * L + 2 ^ 40 * f1 + 2 ^ 32 * bm + 2 ^ 16 * bl + ll).
  { unfold d, gdte_construct. change 0x000F0000 with (Z.shiftl (Z.ones 4) 16). change 0x000000FF with (Z.ones 8).
    change 0xFF000000 with (Z.shiftl (Z.ones 8) 24). change 0x0000FFFF with (Z.ones 16).
    rewrite !land_field, !Z.land_ones, Z.shiftr_div_pow2, !Z.shiftl_mul_pow2 by lia. fold L ll bh bm.
    rewrite (Z.mod_small bh) by lia.
    replace (Z.lor (2 ^ 20 * f2 + 2 ^ 8 * f1) (2 ^ 16 * L)) with (2 ^ 8 * (2 ^ 12 * f2 + 2 ^ 8 * L + f1)).
    2:{ replace (2 ^ 20 * f2 + 2 ^ 8 * f1) with (2 ^ 16 * (2 ^ 4 * f2) + 2 ^ 8 * f1) by lia.
        rewrite <- (lor_high 16 (2 ^ 4 * f2)), <- Z.lor_assoc, (Z.lor_comm (2 ^ 8 * f1)), Z.lor_assoc by lia.
        replace (Z.lor (2 ^ 16 * (2 ^ 4 * f2)) (2 ^ 16 * L)) with (2 ^ 16 * (2 ^ 4 * f2 + L)); [rewrite lor_high by lia; lia|].
        rewrite <- (lor_high 4 f2 L), !(Z.mul_comm (2 ^ 16)), <- !Z.shiftl_mul_pow2 by lia. by rewrite Z.shiftl_lor. }
    rewrite (lor_high 8) by lia. rewrite (Z.lor_comm _ (2 ^ 24 * bh)), (lor_high 24) by lia.
    unfold u64, u32. rewrite (Z.mod_small (_ * 2 ^ 32)) by lia.
    replace (base * 2 ^ 16 mod 2 ^ 32) with (2 ^ 16 * bl) by (unfold bl; dlia).
    rewrite (Z.mul_comm _ (2 ^ 32)), (lor_high 32) by lia.
    match goal with |- Z.lor ?x ll = _ => replace x with (2 ^ 16 * (2 ^ 16 * (2 ^ 24 * bh + (2 ^ 8 * (2 ^ 12 * f2 + 2 ^ 8 * L + f1) + bm)) + bl)) by lia end.
    rewrite (lor_high 16) by lia. lia. }
  clearbody d bh bm bl L ll. subst d. destruct HL as (-> & ? & ?). destruct HB as (-> & ? & ? & ?).
  unfold segment_base, segment_limit, segment_type, segment_dpl, segment_present. rewrite !bits_of_div by lia.
  split; [dlia|]. split; [dlia|]. split; [dlia|]. split; [dlia|]. split; [|dlia].
  rewrite Z.testbit_odd, Z.shiftr_div_pow2 by lia.
  replace ((2 ^ 56 * bh + 2 ^ 52 * f2 + 2 ^ 48 * L + 2 ^ 40 * f1 + 2 ^ 32 * bm + 2 ^ 16 * bl + ll) / 2 ^ 47)
    with (f1 / 2 ^ 7 + 2 * (2 ^ 8 * bh + 2 ^ 4 * f2 + L)) by dlia. by rewrite Z.odd_add_mul_2.
Qed.

Lemma bits_of_spec x from n k : 0 ≤ from → 0 ≤ n → 0 ≤ k → Z.testbit (bits_of x from n) k = (k <? n) && Z.testbit x (k + from).
Proof.
  intros. unfold bits_of. rewrite Z.land_spec, Z.shiftr_spec by lia. destruct (Z.ltb_spec k n).
  - by rewrite Z.ones_spec_low, andb_true_r by lia.
  - by rewrite Z.ones_spec_high, andb_false_r by lia.
Qed.

Lemma bits_of_ext x y from n :
  0 ≤ from → 0 ≤ n → (∀ k, from ≤ k < from + n → Z.testbit x k = Z.testbit y k) → bits_of x from n = bits_of y from n.
Proof.
  intros H1 H2 H. apply Z.bits_inj'. intros k Hk. rewrite !bits_of_spec by lia.
  destruct (Z.ltb_spec k n); cbn [andb]; [|done]. apply H. lia.
Qed.

(** Clearing the busy bit. *)
Lemma clear_busy d : 0 ≤ d < 2 ^ 64 → gdte_clear_flag d TSSD_BIT_BUSY = Z.ldiff d (2 ^ 41).
Proof.
  intros Hd. unfold gdte_clear_flag, u32, u64. rewrite <- !Z.land_ones by lia. change 0xFFFFFFFF with (Z.ones 32).
  assert (H64 : ∀ k, 64 ≤ k → Z.testbit d k = false).
  { intros k Hk. destruct (Z.eq_dec d 0) as [->|]; [apply Z.bits_0|]. apply Z.bits_above_log2; [lia|].
    apply Z.log2_lt_pow2; [lia|]. apply (Z.lt_le_trans _ (2 ^ 64)); [lia|]. apply Z.pow_le_mono_r; lia. }
  apply Z.bits_inj'. intros k Hk. rewrite Z.ldiff_spec, Z.pow2_bits_eqb, Z.lor_spec, !Z.land_spec by lia.
  destruct (Z.lt_ge_cases k 32).
  - rewrite Z.shiftl_spec_low, (Z.ones_spec_low 32 k) by lia. rewrite (proj2 (Z.eqb_neq 41 k)) by lia. cbn [andb orb negb]. by destruct (Z.testbit d k).
  - rewrite (Z.ones_spec_high 32 k) by lia. rewrite !andb_false_r, orb_false_r, Z.shiftl_spec by lia.
    destruct (Z.lt_ge_cases k 64).
    + rewrite Z.ones_spec_low, !Z.land_spec, Z.shiftr_spec, Z.lxor_spec, !(Z.ones_spec_low 32) by lia.
      replace (k - 32 + 32) with k by lia. change TSSD_BIT_BUSY with (2 ^ 9). rewrite Z.pow2_bits_eqb by lia.
      destruct (Z.eqb_spec 9 (k - 32)), (Z.eqb_spec 41 k); try lia; cbn [xorb negb]; rewrite ?andb_true_r, ?andb_false_r; done.
    + by rewrite (Z.ones_spec_high 64), H64, andb_false_r by lia.
Qed.

(** A descriptor whose busy bit changes is the same segment. *)
Lemma same_but_busy d e :
  (∀ k, k ≠ 41 → Z.testbit e k = Z.testbit d k) →
  segment_base e = segment_base d ∧ segment_limit e = segment_limit d ∧ segment_dpl e = segment_dpl d ∧
  segment_present e = segment_present d.
Proof.
  intros H. unfold segment_base, segment_limit, segment_dpl, segment_present.
  rewrite !(bits_of_ext e d) by (try lia; intros k Hk; apply H; lia). rewrite H by lia. done.
Qed.

Lemma type_clear d : segment_type d = 0x9 ∨ segment_type d = 0xB → segment_type (Z.ldiff d (2 ^ 41)) = 0x9.
Proof.
  intros H. assert (E : segment_type (Z.ldiff d (2 ^ 41)) = Z.ldiff (segment_type d) 2).
  { apply Z.bits_inj'. intros k Hk. unfold segment_type. change 2 with (2 ^ 1) at 2.
    rewrite Z.ldiff_spec, !bits_of_spec, Z.ldiff_spec, !Z.pow2_bits_eqb by lia.
    destruct (Z.eqb_spec 41 (k + 40)), (Z.eqb_spec 1 k); try lia; cbn [negb]; rewrite ?andb_true_r, ?andb_false_r; done. }
  rewrite E. by destruct H as [-> | ->].
Qed.

Lemma type_busy d : segment_type d = 0x9 → segment_type (Z.lor d (2 ^ 41)) = 0xB.
Proof.
  intros H. assert (E : segment_type (Z.lor d (2 ^ 41)) = Z.lor (segment_type d) 2).
  { apply Z.bits_inj'. intros k Hk. unfold segment_type. change 2 with (2 ^ 1) at 2.
    rewrite Z.lor_spec, !bits_of_spec, Z.lor_spec, !Z.pow2_bits_eqb by lia.
    destruct (Z.eqb_spec 41 (k + 40)), (Z.eqb_spec 1 k), (Z.ltb_spec k 5); try lia; cbn [andb]; rewrite ?orb_true_r, ?orb_false_r; done. }
  by rewrite E, H.
Qed.

Lemma busy_range d : 0 ≤ d < 2 ^ 64 → 0 ≤ Z.lor d (2 ^ 41) < 2 ^ 64 ∧ 0 ≤ Z.ldiff d (2 ^ 41) < 2 ^ 64.
Proof.
  intros Hd. assert (B : ∀ x, 0 ≤ x → (∀ k, 64 ≤ k → Z.testbit x k = false) → 0 ≤ x < 2 ^ 64).
  { intros x Hx Hk. split; [done|]. destruct (Z.lt_ge_cases x (2 ^ 64)) as [|Hge]; [done|]. exfalso.
    assert (L : 64 ≤ Z.log2 x) by (by apply Z.log2_le_pow2; lia). specialize (Hk _ L). rewrite Z.bit_log2 in Hk by lia. done. }
  assert (H64 : ∀ k, 64 ≤ k → Z.testbit d k = false).
  { intros k Hk. destruct (Z.eq_dec d 0) as [->|]; [apply Z.bits_0|]. apply Z.bits_above_log2; [lia|].
    apply Z.log2_lt_pow2; [lia|]. apply (Z.lt_le_trans _ (2 ^ 64)); [lia|]. apply Z.pow_le_mono_r; lia. }
  split; apply B.
  - apply Z.lor_nonneg. lia.
  - intros k Hk. rewrite Z.lor_spec, Z.pow2_bits_eqb, H64 by lia. apply Z.eqb_neq. lia.
  - apply Z.ldiff_nonneg. lia.
  - intros k Hk. by rewrite Z.ldiff_spec, H64 by lia.
Qed.

(** ** The invariant of a CPU's tables *)

Definition segment_is (d base limit type dpl : Z) : Prop :=
  segment_base d = base ∧ segment_limit d = limit ∧ segment_type d = type ∧ segment_dpl d = dpl ∧ segment_present d = true.

(** Flat code and data segments for both rings, each selector asking for the ring it gives;
    one task state segment, and TR empty or naming it; no port bitmap. *)
Record tables_typed (tss : Z) (p : cpu_ptr) (s : gsys) : Prop := {
  tt_loaded : g_table s = Some (p, 48);
  tt_len : length (gdt (seg_at p s)) = 6%nat;
  tt_null : gdt (seg_at p s) !! 0%nat = Some 0;
  tt_code : ∀ sel, sel ∈ [KERNEL_CODE_SELECTOR; USER_CODE_SELECTOR] →
    ∃ d, gdt (seg_at p s) !! Z.to_nat (sel / 8) = Some d ∧ segment_is d 0 0xFFFFF 0x1A (sel mod 4);
  tt_data : ∀ sel, sel ∈ [KERNEL_DATA_SELECTOR; USER_DATA_SELECTOR] →
    ∃ d, gdt (seg_at p s) !! Z.to_nat (sel / 8) = Some d ∧ segment_is d 0 0xFFFFF 0x12 (sel mod 4);
  tt_tss : ∃ d t, gdt (seg_at p s) !! 5%nat = Some d ∧ 0 ≤ d < 2 ^ 64 ∧ segment_is d tss sizeof_tss t 0 ∧ (t = 0x9 ∨ t = 0xB);
  tt_regs : g_cs s = KERNEL_CODE_SELECTOR ∧ g_data s = KERNEL_DATA_SELECTOR;
  tt_tr : g_tr s = None ∨ g_tr s = Some (tss, sizeof_tss);
  tt_iopb : le_val (read_bytes (g_mem s) (tss + 102) 2) = sizeof_tss;
}.

(** No port is open to user code in such a state. *)
Lemma typed_ports tss p s port : tables_typed tss p s → 0 ≤ port → port_allowed s port = false.
Proof.
  intros T Hp. unfold port_allowed. destruct (tt_tr _ _ _ T) as [-> | ->]; [done|]. rewrite (tt_iopb _ _ _ T).
  pose proof (Z.div_pos port 8 Hp ltac:(lia)). unfold sizeof_tss. by rewrite (proj2 (Z.leb_gt (104 + port / 8 + 1) 104)) by lia.
Qed.

Lemma seg_at_put p x s : (match p with InitialCpu => True | CpuAt i => (i < length (g_cpus s))%nat end) → seg_at p (seg_put p x s) = x.
Proof. destruct p; [done|]. intros H. cbn. apply nth_lookup_Some, list_lookup_insert_eq, H. Qed.

Lemma seg_put_put p x y s : seg_put p x (seg_put p y s) = seg_put p x s.
Proof. destruct p; cbn; [done|]. by rewrite list_insert_insert_eq. Qed.

Lemma seg_put_mem p x m s : gset_mem m (seg_put p x s) = seg_put p x (gset_mem m s).
Proof. by destruct p. Qed.
Lemma seg_put_mach p x m s : gset_mach m (seg_put p x s) = seg_put p x (gset_mach m s).
Proof. by destruct p. Qed.
Lemma seg_put_table p x t s : gset_table t (seg_put p x s) = seg_put p x (gset_table t s).
Proof. by destruct p. Qed.
Lemma seg_put_regs p x a b s : gset_regs a b (seg_put p x s) = seg_put p x (gset_regs a b s).
Proof. by destruct p. Qed.
Lemma seg_put_tr p x t s : gset_tr t (seg_put p x s) = seg_put p x (gset_tr t s).
Proof. by destruct p. Qed.
Lemma mem_put p x s : g_mem (seg_put p x s) = g_mem s.
Proof. by destruct p. Qed.
Lemma mach_put p x s : g_mach (seg_put p x s) = g_mach s.
Proof. by destruct p. Qed.
Lemma table_put p x s : g_table (seg_put p x s) = g_table s.
Proof. by destruct p. Qed.
Lemma cpus_put p x s : length (g_cpus (seg_put p x s)) = length (g_cpus s).
Proof. destruct p; cbn; [done|]. apply length_insert. Qed.

Lemma gset_mem_twice x y s : gset_mem x (gset_mem y s) = gset_mem x s.
Proof. done. Qed.
Lemma gset_swap x a b t m s :
  gset_mem x (gset_regs a b (gset_table t (gset_mach m s))) = gset_mach m (gset_mem x (gset_regs a b (gset_table t s))).
Proof. done. Qed.

Section running.
Context (tss_addr gdt_addr : cpu_ptr → Z) (i : nat).
Let p := CpuAt i.
Let a := tss_addr p.
Hypothesis Ha : 0 ≤ a ∧ a + sizeof_tss ≤ 2 ^ 32.

Lemma on_cpu_run {A} (m : M machine A) s x m' : m (g_mach s) = Done (x, m') → on_cpu m s = Done (x, gset_mach m' s).
Proof. intros E. unfold on_cpu, zoom. by rewrite E. Qed.

(** The machine between push_no_interrupts and pop_no_interrupts. *)
Definition pushed (c : x86_cpu) (s : gsys) : machine := with_cpu (g_mach s) i (set_cli_stack (cli_stack c + 1) c) false.

Lemma seg_enter_run c s : running_on (g_mach s) i c → on_cpu push_no_interrupts s = Done (tt, gset_mach (pushed c s) s).
Proof. intros RO. by apply on_cpu_run, push_run. Qed.

Lemma seg_leave_run c s s1 :
  running_on (g_mach s) i c → g_mach s1 = g_mach s → on_cpu pop_no_interrupts (gset_mach (pushed c s) s1) = Done (tt, s1).
Proof.
  intros RO Em. unfold on_cpu, zoom. cbn [g_mach gset_mach].
  pose proof (push_pop_run _ _ _ RO) as PP. rewrite (bind_run _ _ _ _ _ (push_run _ _ _ RO)) in PP. unfold pushed. rewrite PP.
  rewrite <- Em. by destruct s1.
Qed.

Lemma set_gdt_run index seg s :
  (i < length (g_cpus s))%nat → 0 ≤ index < 6 →
  set_gdt p index seg s =
  Done (tt, seg_put p (mk_segcpu (gdtr_size (seg_at p s)) (gdtr_offset (seg_at p s)) (<[Z.to_nat index := seg]> (gdt (seg_at p s)))) s).
Proof. intros Hi Hx. unfold set_gdt, bind, get. by rewrite (proj2 (Z.ltb_lt index (Z.of_nat YAOS2_GDT_NOF_ENTRIES))) by (unfold YAOS2_GDT_NOF_ENTRIES; lia). Qed.

(** The table init_gdt builds. *)
Definition new_gdt : list Z :=
  [gdte_construct 0 0 0;
   gdte_construct 0 0xFFFFFFFF (Z.lor GDTE_CODE32_FLAGS (SEG_BIT_RING 0));
   gdte_construct 0 0xFFFFFFFF (Z.lor GDTE_DATA32_FLAGS (SEG_BIT_RING 0));
   gdte_construct 0 0xFFFFFFFF (Z.lor GDTE_CODE32_FLAGS (SEG_BIT_RING 3));
   gdte_construct 0 0xFFFFFFFF (Z.lor GDTE_DATA32_FLAGS (SEG_BIT_RING 3));
   gdte_construct (u32 a) sizeof_tss (Z.lor GDTE_TSS_FLAGS (SEG_BIT_RING 0))].

Lemma fill_gdt (l : list Z) x0 x1 x2 x3 x4 x5 :
  length l = 6%nat → <[5%nat := x5]> (<[4%nat := x4]> (<[3%nat := x3]> (<[2%nat := x2]> (<[1%nat := x1]> (<[0%nat := x0]> l))))) = [x0; x1; x2; x3; x4; x5].
Proof. intros H. by do 7 (destruct l as [|? l]; [done|]). Qed.

Definition cleared (m : mem) : mem := write_bytes (memset_volatile m a 0 sizeof_tss) (a + 102) (le_bytes 2 sizeof_tss).

Lemma init_gdt_run s c :
  running_on (g_mach s) i c → (i < length (g_cpus s))%nat → length (gdt (seg_at p s)) = 6%nat →
  init_gdt tss_addr gdt_addr s =
  Done (tt, seg_put p (mk_segcpu 48 (u32 (gdt_addr p)) new_gdt)
    (gset_mem (cleared (g_mem s)) (gset_regs KERNEL_CODE_SELECTOR KERNEL_DATA_SELECTOR (gset_table (Some (p, 48)) s)))).
Proof.
  intros RO Hi Hl. unfold init_gdt.
  erewrite bind_run; [|apply on_cpu_run, (cpu_current_run _ _ _ RO)]. replace (gset_mach (g_mach s) s) with s by (by destruct s). fold p.
  rewrite (bind_run _ _ _ _ _ (seg_enter_run c s RO)). set (m := pushed c s). set (s0 := gset_mach m s).
  assert (Hi0 : (i < length (g_cpus s0))%nat) by exact Hi.
  do 6 (erewrite bind_run; [|apply set_gdt_run; [by rewrite ?cpus_put|vm_compute; by split]];
        rewrite ?(seg_at_put p) by (by rewrite ?cpus_put); rewrite ?seg_put_put; cbn [gdtr_size gdtr_offset gdt]).
  change (Z.to_nat 0) with 0%nat. change (Z.to_nat (seg_selector_to_index KERNEL_CODE_SELECTOR)) with 1%nat.
  change (Z.to_nat (seg_selector_to_index KERNEL_DATA_SELECTOR)) with 2%nat. change (Z.to_nat (seg_selector_to_index USER_CODE_SELECTOR)) with 3%nat.
  change (Z.to_nat (seg_selector_to_index USER_DATA_SELECTOR)) with 4%nat. change (Z.to_nat (seg_selector_to_index KERNEL_TSS_SELECTOR)) with 5%nat.
  rewrite fill_gdt by done. fold a. fold new_gdt.
  unfold set_gdtr at 1. unfold bind at 1, modify at 1. rewrite (seg_at_put p) by done. rewrite seg_put_put. cbn [gdt].
  unfold asm_lgdt. unfold bind at 1, modify at 1. rewrite (seg_at_put p) by done. rewrite seg_put_table. cbn [gdtr_size].
  change (8 * Z.of_nat YAOS2_GDT_NOF_ENTRIES) with 48. set (s1 := gset_table _ s0). set (x := mk_segcpu 48 _ _).
  assert (L : asm_load_selectors KERNEL_CODE_SELECTOR KERNEL_DATA_SELECTOR (seg_put p x s1) =
    Done (tt, seg_put p x (gset_regs KERNEL_CODE_SELECTOR KERNEL_DATA_SELECTOR s1))).
  { unfold asm_load_selectors, bind, get, loaded_descriptor. rewrite table_put. cbn [g_table gset_table s1].
    rewrite (seg_at_put p) by done. rewrite <- seg_put_regs. reflexivity. }
  rewrite (bind_run _ _ _ _ _ L). unfold bind at 1, modify at 1. rewrite mem_put, seg_put_mem.
  unfold store16_at. unfold bind at 1, modify at 1. rewrite mem_put, seg_put_mem.
  unfold s1, s0. rewrite gset_mem_twice. cbn [g_mem gset_mem gset_regs gset_table gset_mach]. fold a. fold (cleared (g_mem s)).
  match goal with |- on_cpu _ ?st = Done (tt, ?r) => assert (Hst : st = gset_mach m r) by (rewrite seg_put_mach; f_equal; apply gset_swap) end.
  rewrite Hst. apply seg_leave_run; [exact RO|]. rewrite mach_put. reflexivity.
Qed.

Lemma new_tss_is : segment_is (gdte_construct (u32 a) sizeof_tss (Z.lor GDTE_TSS_FLAGS (SEG_BIT_RING 0))) a sizeof_tss 0x9 0 ∧
  0 ≤ gdte_construct (u32 a) sizeof_tss (Z.lor GDTE_TSS_FLAGS (SEG_BIT_RING 0)) < 2 ^ 64.
Proof.
  change (Z.lor GDTE_TSS_FLAGS (SEG_BIT_RING 0)) with (2 ^ 20 * 4 + 2 ^ 8 * 0x89). unfold sizeof_tss in *. rewrite u32_small by lia.
  destruct (segment_fields a 104 0x89 4) as (F1 & F2 & F3 & F4 & F5 & F6); [unfold is_u32; lia|unfold is_u32; lia|lia|lia|].
  split; [|done]. by repeat split.
Qed.

Lemma init_typed s c :
  running_on (g_mach s) i c → (i < length (g_cpus s))%nat → length (gdt (seg_at p s)) = 6%nat → g_tr s = None →
  ∃ s', init_gdt tss_addr gdt_addr s = Done (tt, s') ∧ tables_typed a p s' ∧ g_mach s' = g_mach s ∧ length (g_cpus s') = length (g_cpus s).
Proof.
  intros RO Hi Hl Ht. eexists. split; [by eapply init_gdt_run|]. rewrite mach_put, cpus_put. split; [|done].
  split; rewrite ?table_put, ?(seg_at_put p) by exact Hi; cbn [gdt].
  - done.
  - done.
  - done.
  - intros sel Hs. apply list_elem_of_In in Hs. destruct Hs as [<-|[<-|[]]]; eexists; (split; [reflexivity|]); by repeat split.
  - intros sel Hs. apply list_elem_of_In in Hs. destruct Hs as [<-|[<-|[]]]; eexists; (split; [reflexivity|]); by repeat split.
  - destruct new_tss_is as [H1 H2]. exists (gdte_construct (u32 a) sizeof_tss (Z.lor GDTE_TSS_FLAGS (SEG_BIT_RING 0))), 9. repeat split; try apply H1; try apply H2. by left.
  - done.
  - left. exact Ht.
  - rewrite mem_put. change (g_mem (gset_mem (cleared (g_mem s)) _)) with (cleared (g_mem s)). unfold cleared.
    rewrite (read_write_bytes _ (a + 102) (le_bytes 2 sizeof_tss)) by apply byte_list_le_bytes. by rewrite le_val_bytes.
Qed.

(** Leaving for a user thread: its kernel stack becomes the one interrupts use. *)
Lemma setup_typed s c t :
  running_on (g_mach s) i c → (i < length (g_cpus s))%nat → tables_typed a p s →
  ∃ s', cpu_setup_tss tss_addr p t s = Done (tt, s') ∧ tables_typed a p s' ∧ g_mach s' = g_mach s ∧ length (g_cpus s') = length (g_cpus s) ∧
    (at_cs t ≠ KERNEL_CODE_SELECTOR → ring0_stack s' = Some (KERNEL_DATA_SELECTOR, u32 (at_ebp0 t))) ∧
    (at_cs t = KERNEL_CODE_SELECTOR → s' = s).
Proof.
  intros RO Hi T. unfold cpu_setup_tss. destruct (Z.eqb_spec (at_cs t) KERNEL_CODE_SELECTOR) as [Hk|Hk]; [by exists s|].
  rewrite (bind_run _ _ _ _ _ (seg_enter_run c s RO)). set (m := pushed c s). set (s0 := gset_mach m s).
  unfold bind at 1, get at 1. change (Z.to_nat (seg_selector_to_index KERNEL_TSS_SELECTOR)) with 5%nat.
  change (seg_at p s0) with (seg_at p s). destruct T as [T1 T2 T3 T4 T5 T6 T7 T8 T9].
  destruct T6 as (d & t0 & D1 & D2 & D3 & D4). rewrite (nth_lookup_Some _ _ _ _ D1), (clear_busy d D2).
  destruct (busy_range d D2) as [_ R1]. set (d1 := Z.ldiff d (2 ^ 41)) in *. destruct (busy_range d1 R1) as [R2 _].
  assert (B1 : ∀ k, k ≠ 41 → Z.testbit d1 k = Z.testbit d k).
  { intros k Hk41. unfold d1. rewrite Z.ldiff_spec, Z.pow2_bits_eqb by lia. rewrite (proj2 (Z.eqb_neq 41 k)) by lia. apply andb_true_r. }
  assert (B2 : ∀ k, k ≠ 41 → Z.testbit (Z.lor d1 (2 ^ 41)) k = Z.testbit d1 k).
  { intros k Hk41. rewrite Z.lor_spec, Z.pow2_bits_eqb by lia. rewrite (proj2 (Z.eqb_neq 41 k)) by lia. apply orb_false_r. }
  destruct (same_but_busy _ _ B1) as (E1 & E2 & E3 & E4). destruct (same_but_busy _ _ B2) as (E5 & E6 & E7 & E8).
  destruct D3 as (G1 & G2 & G3 & G4 & G5). assert (Ty : segment_type d1 = 9) by (apply type_clear; rewrite G3; exact D4).
  erewrite bind_run; [|apply set_gdt_run; [exact Hi|vm_compute; by split]].
  change (Z.to_nat (seg_selector_to_index KERNEL_TSS_SELECTOR)) with 5%nat. change (seg_at p s0) with (seg_at p s). fold a.
  unfold store16_at, store32_at. unfold bind at 1, modify at 1. rewrite mem_put, seg_put_mem.
  unfold bind at 1, modify at 1. rewrite mem_put, seg_put_mem, gset_mem_twice. cbn [g_mem gset_mem].
  set (mm := write_bytes _ (a + 4) _). set (x := mk_segcpu _ _ _).
  assert (L : asm_ltr KERNEL_TSS_SELECTOR (seg_put p x (gset_mem mm s0)) =
    Done (tt, seg_put p (mk_segcpu (gdtr_size (seg_at p s)) (gdtr_offset (seg_at p s)) (<[5%nat := Z.lor d1 (2 ^ 41)]> (gdt (seg_at p s))))
      (gset_tr (Some (a, sizeof_tss)) (gset_mem mm s0)))).
  { unfold asm_ltr. unfold bind at 1, get at 1. unfold loaded_descriptor. rewrite table_put. change (g_table (gset_mem mm s0)) with (g_table s).
    rewrite T1. cbv beta iota. rewrite (seg_at_put p) by exact Hi. change (Z.to_nat (KERNEL_TSS_SELECTOR / 8)) with 5%nat.
    match goal with |- context [if ?b then (gdt x !! _) else _] => change b with true end. cbv iota.
    unfold x at 1. cbn [gdt]. rewrite list_lookup_insert_eq by lia. rewrite E4, G5, Ty. cbn [andb Z.eqb Pos.eqb].
    erewrite bind_run; [|apply set_gdt_run; [by rewrite cpus_put|vm_compute; by split]].
    rewrite (seg_at_put p) by exact Hi. rewrite seg_put_put. change (Z.to_nat (KERNEL_TSS_SELECTOR / 8)) with 5%nat. unfold x. cbn [gdt gdtr_size gdtr_offset].
    rewrite list_insert_insert_eq, E1, E2, G1, G2. unfold modify. by rewrite seg_put_tr. }
  rewrite (bind_run _ _ _ _ _ L). set (y := mk_segcpu _ _ _).
  exists (seg_put p y (gset_tr (Some (a, sizeof_tss)) (gset_mem mm s))). split.
  { match goal with |- on_cpu _ ?st = Done (tt, ?r) => assert (Hst : st = gset_mach m r) by (rewrite seg_put_mach; reflexivity) end.
    rewrite Hst. apply seg_leave_run; [exact RO|]. rewrite mach_put. reflexivity. }
  rewrite mach_put, cpus_put. split; [|split; [done|split; [done|split; [|done]]]].
  - assert (N : ∀ j, (j < 5)%nat → gdt y !! j = gdt (seg_at p s) !! j) by (intros j Hj; apply list_lookup_insert_ne; lia).
    split; rewrite ?table_put, ?(seg_at_put p) by exact Hi.
    + exact T1.
    + unfold y. cbn [gdt]. by rewrite length_insert.
    + rewrite N by lia. exact T3.
    + intros sel Hs. rewrite N; [by apply T4|]. apply list_elem_of_In in Hs. destruct Hs as [<-|[<-|[]]]; vm_compute; lia.
    + intros sel Hs. rewrite N; [by apply T5|]. apply list_elem_of_In in Hs. destruct Hs as [<-|[<-|[]]]; vm_compute; lia.
    + exists (Z.lor d1 (2 ^ 41)), 11. unfold y. cbn [gdt]. rewrite list_lookup_insert_eq by lia. split; [done|]. split; [done|]. split; [|by right].
      split; [congruence|]. split; [congruence|]. split; [by apply type_busy|]. split; congruence.
    + exact T7.
    + by right.
    + rewrite mem_put. change (g_mem (gset_tr _ (gset_mem mm s))) with mm. rewrite <- T9. f_equal. apply read_bytes_ext. intros j Hj. unfold mm.
      rewrite !write_bytes_frame; rewrite ?length_le_bytes; [done|lia|lia].
  - intros _. unfold ring0_stack. replace (g_tr (seg_put p y _)) with (Some (a, sizeof_tss)) by done. rewrite mem_put.
    change (g_mem (gset_tr _ (gset_mem mm s))) with mm. change (9 <=? sizeof_tss) with true. cbv iota. do 2 f_equal.
    + unfold mm. rewrite (read_bytes_ext _ (write_bytes (g_mem s) (a + 8) (le_bytes 2 KERNEL_DATA_SELECTOR))).
      * rewrite (read_write_bytes _ (a + 8) (le_bytes 2 _)) by apply byte_list_le_bytes. by rewrite le_val_bytes.
      * intros j Hj. rewrite write_bytes_frame; [done|]. rewrite length_le_bytes. lia.
    + unfold mm. rewrite (read_write_bytes _ (a + 4) (le_bytes 4 _)) by apply byte_list_le_bytes. by rewrite le_val_bytes.
Qed.

End running.

(** A CPU runs these threads one after the other. *)
Fixpoint setup_each (tss_addr : cpu_ptr → Z) (p : cpu_ptr) (ts : list arch_thread) : M gsys unit :=
  match ts with
  | [] => ret tt
  | t :: ts => cpu_setup_tss tss_addr p t ;;; setup_each tss_addr p ts
  end.

Lemma setup_each_typed tss_addr i c ts s :
  0 ≤ tss_addr (CpuAt i) ∧ tss_addr (CpuAt i) + sizeof_tss ≤ 2 ^ 32 →
  running_on (g_mach s) i c → (i < length (g_cpus s))%nat → tables_typed (tss_addr (CpuAt i)) (CpuAt i) s →
  ∃ s', setup_each tss_addr (CpuAt i) ts s = Done (tt, s') ∧ tables_typed (tss_addr (CpuAt i)) (CpuAt i) s' ∧ g_mach s' = g_mach s ∧
    ∀ t, last ts = Some t → at_cs t ≠ KERNEL_CODE_SELECTOR → ring0_stack s' = Some (KERNEL_DATA_SELECTOR, u32 (at_ebp0 t)).
Proof.
  intros Ha. revert s. induction ts as [|t ts IH]; intros s RO Hi T; [by exists s|].
  destruct (setup_typed tss_addr i s c t RO Hi T) as (s1 & E1 & T1 & M1 & L1 & R1 & _).
  destruct (IH s1) as (s' & E & T' & M' & R'); [by rewrite M1|by rewrite L1|done|].
  exists s'. cbn [setup_each]. rewrite (bind_run _ _ _ _ _ E1). split; [done|]. split; [done|]. split; [congruence|].
  intros u Hu Hc. destruct ts as [|v ts]; [|by apply R'].
  injection Hu as <-. injection E as <-. by apply R1.
Qed.

(** ** Properties *)

(** C23: init_gdt gives a CPU a well-typed descriptor table — flat code and data segments for
    ring 0 and ring 3, the selector of each with the ring of its descriptor, and one task
    state segment — and no sequence of switches between threads breaks it or faults on a busy
    segment.  After a switch to a user thread an interrupt enters the kernel on that thread's
    kernel stack, and no port is ever open to user code. *)
Theorem segmentation_typed tss_addr gdt_addr i c ts s :
  0 ≤ tss_addr (CpuAt i) ∧ tss_addr (CpuAt i) + sizeof_tss ≤ 2 ^ 32 →
  running_on (g_mach s) i c → (i < length (g_cpus s))%nat → length (gdt (seg_at (CpuAt i) s)) = YAOS2_GDT_NOF_ENTRIES → g_tr s = None →
  ∃ s', (init_gdt tss_addr gdt_addr ;;; setup_each tss_addr (CpuAt i) ts) s = Done (tt, s') ∧
    tables_typed (tss_addr (CpuAt i)) (CpuAt i) s' ∧ g_mach s' = g_mach s ∧
    (∀ port, 0 ≤ port → port_allowed s' port = false) ∧
    ∀ t, last ts = Some t → at_cs t ≠ KERNEL_CODE_SELECTOR → ring0_stack s' = Some (KERNEL_DATA_SELECTOR, u32 (at_ebp0 t)).
Proof.
  intros Ha RO Hi Hl Ht. destruct (init_typed tss_addr gdt_addr i Ha s c RO Hi Hl Ht) as (s1 & E1 & T1 & M1 & L1).
  destruct (setup_each_typed tss_addr i c ts s1 Ha) as (s' & E & T' & M' & R'); [by rewrite M1|by rewrite L1|done|].
  exists s'. rewrite (bind_run _ _ _ _ _ E1). split; [done|]. split; [done|]. split; [congruence|]. split; [|done].
  intros port Hp. by eapply typed_ports.
Qed.

(** A machine with one CPU, before its table exists, and a user thread. *)
Definition example_machine : machine :=
  mk_machine [mk_cpu X86_CPU_MAGIC 0 false 0 false 0 0] 1 zero_cpu 0 false 0 0x1000 false.
Definition example_segments : gsys :=
  mk_gs example_machine (fun _ => 0) [mk_segcpu 0 0 (replicate 6 0)] (mk_segcpu 0 0 (replicate 6 0)) None 0 0 None.
Definition example_user : arch_thread :=
  mk_at USER_CODE_SELECTOR USER_DATA_SELECTOR 0 0 0 0xC0405000 0 0 0 true 0 0 0.

Lemma segmentation_typed_witness :
  ∃ s', (init_gdt (fun _ => 0xC0200000) (fun _ => 0xC0200100) ;;; setup_each (fun _ => 0xC0200000) (CpuAt 0) [example_user; example_user]) example_segments = Done (tt, s') ∧
    ring0_stack s' = Some (0x10, 0xC0405000) ∧ port_allowed s' 0x60 = false.
Proof.
  destruct (segmentation_typed (fun _ => 0xC0200000) (fun _ => 0xC0200100) 0 (mk_cpu X86_CPU_MAGIC 0 false 0 false 0 0)
    [example_user; example_user] example_segments) as (s' & E & _ & _ & P & R).
  - unfold sizeof_tss. lia.
  - split; try reflexivity; try lia; discriminate.
  - apply Nat.lt_0_1.
  - reflexivity.
  - reflexivity.
  - exists s'. split; [exact E|]. split; [|apply P; lia]. exact (R example_user eq_refl ltac:(discriminate)).
Defined.
