(* ===== verification/Interrupts.v ===== *)
(** * The interrupt table, preemption and the system call gate

    arch/cpu/idt.h, idt.c, interrupts.c and syscall.c, and the user side of a system call
    (user/yaos2/arch/syscall.h).  A gate is a 64-bit word; [gate_*] read it the way the
    processor does.  The instruction [int n] is modelled up to the call of
    generic_interrupt_handler: the gate must be present and open to the ring of the caller, and
    the frame of isr_stubs.S is a record of registers whose contents are restored on return.
    Function pointers are numbers with their behaviour given by [call]; the implementations of
    the system calls are reached through the interface [SyscallTable].  The scheduler is that
    of [Scheduler]. *)

From stdpp Require Import base list gmap strings.
From Stdlib Require Import ZArith Lia.
From S2P Require Import Prelude KUtils Paging Thread Segmentation Scheduler SchedulerLoop.

(** ** Gate descriptors *)

Definition IDTE_INTERRUPT_32 : Z := 0xE00.
Definition IDTE_TRAP_32 : Z := 0xF00.

(** [selector << 16] is an int, converted to 64 bits. *)
Definition idte_construct (offset selector flags : Z) : Z :=
  let seg := Z.lor flags (Z.land offset 0xFFFF0000) in
  let seg := u64 (Z.shiftl seg 32) in
  let seg := Z.lor seg (u64 (s32 (Z.shiftl selector 16))) in
  Z.lor seg (Z.land offset 0x0000FFFF).

(** How the processor reads a gate. *)
Definition gate_offset (g : Z) : Z := bits_of g 0 16 + 2 ^ 16 * bits_of g 48 16.
Definition gate_selector (g : Z) : Z := bits_of g 16 16.
Definition gate_type (g : Z) : Z := bits_of g 40 5.
Definition gate_dpl (g : Z) : Z := bits_of g 45 2.
Definition gate_present (g : Z) : bool := Z.testbit g 47.

(** ** Interrupt vectors *)

Definition INT_IRQ0 : Z := 0x20.
Definition INT_IRQ_TIMER : Z := INT_IRQ0.
Definition INT_SYSCALL : Z := 0x80.
Definition ISR_MAX : Z := 256.
Definition IDT_NOF_ENTRIES : Z := ISR_MAX.

(** struct isr_frame. *)
Record isr_frame := mk_frame {
  fr_edi : Z; fr_esi : Z; fr_ebp : Z; fr_esp_dummy : Z; fr_ebx : Z; fr_edx : Z; fr_ecx : Z; fr_eax : Z;
  fr_gs : Z; fr_fs : Z; fr_es : Z; fr_ds : Z;
  fr_int_no : Z;
  fr_error_code : Z;
  fr_frame_pointer : Z;
  fr_eip : Z; fr_cs : Z; fr_eflags : Z; fr_esp : Z; fr_ss : Z;
}.

Definition set_eax (v : Z) (f : isr_frame) : isr_frame :=
  mk_frame (fr_edi f) (fr_esi f) (fr_ebp f) (fr_esp_dummy f) (fr_ebx f) (fr_edx f) (fr_ecx f) v (fr_gs f) (fr_fs f) (fr_es f) (fr_ds f)
    (fr_int_no f) (fr_error_code f) (fr_frame_pointer f) (fr_eip f) (fr_cs f) (fr_eflags f) (fr_esp f) (fr_ss f).
Definition set_int (n e : Z) (f : isr_frame) : isr_frame :=
  mk_frame (fr_edi f) (fr_esi f) (fr_ebp f) (fr_esp_dummy f) (fr_ebx f) (fr_edx f) (fr_ecx f) (fr_eax f) (fr_gs f) (fr_fs f) (fr_es f) (fr_ds f)
    n e (fr_frame_pointer f) (fr_eip f) (fr_cs f) (fr_eflags f) (fr_esp f) (fr_ss f).

(** The tables, the scheduler as seen by CPU [i_cpu], and the rest of the kernel. *)
Record isys (W : Type) := mk_is {
  i_idt : list Z;
  i_idt_loaded : bool;
  i_handlers : list Z;
  i_initialized : bool;
  i_sched : sched;
  i_cpu : cptr;
  i_rest : W;
}.
Arguments mk_is {W}.
Arguments i_idt {W}. Arguments i_idt_loaded {W}. Arguments i_handlers {W}. Arguments i_initialized {W}.
Arguments i_sched {W}. Arguments i_cpu {W}. Arguments i_rest {W}.

Section tables.
Context {W : Type}.

Definition iset_idt (l : list Z) (s : isys W) : isys W :=
  mk_is l (i_idt_loaded s) (i_handlers s) (i_initialized s) (i_sched s) (i_cpu s) (i_rest s).
Definition iset_loaded (b : bool) (s : isys W) : isys W :=
  mk_is (i_idt s) b (i_handlers s) (i_initialized s) (i_sched s) (i_cpu s) (i_rest s).
Definition iset_handlers (l : list Z) (s : isys W) : isys W :=
  mk_is (i_idt s) (i_idt_loaded s) l (i_initialized s) (i_sched s) (i_cpu s) (i_rest s).
Definition iset_sched (x : sched) (s : isys W) : isys W :=
  mk_is (i_idt s) (i_idt_loaded s) (i_handlers s) (i_initialized s) x (i_cpu s) (i_rest s).

Definition not_initialized : M (isys W) unit :=
  b <- gets i_initialized ;; kassert "is_yaos2_initialized() == false" (negb b).

(** ** idt.c *)

(** Addresses of the stubs. *)
Variable isr_stubs : Z → Z.

Definition init_idt : M (isys W) unit :=
  not_initialized ;;;
  for_up (Z.to_nat IDT_NOF_ENTRIES) 0 (fun i =>
    modify (fun s => iset_idt (<[Z.to_nat i := idte_construct (isr_stubs i) KERNEL_CODE_SELECTOR
      (Z.lor (Z.lor SEG_BIT_PRESENT IDTE_INTERRUPT_32) (SEG_BIT_RING 0))]> (i_idt s)) s)).

Definition load_idt : M (isys W) unit := modify (iset_loaded true).

Definition idt_set_entry (int_no offset selector flags : Z) : M (isys W) unit :=
  not_initialized ;;;
  kassert "int_no < IDT_NOF_ENTRIES" (int_no <? IDT_NOF_ENTRIES) ;;;
  l <- gets i_idt_loaded ;;
  if (l : bool) then kpanic "idt_set_entry(): called after lidt" else
  modify (fun s => iset_idt (<[Z.to_nat int_no := idte_construct offset selector flags]> (i_idt s)) s).

Definition idt_modify_entry (int_no flags : Z) : M (isys W) unit :=
  kassert "int_no < IDT_NOF_ENTRIES" (int_no <? IDT_NOF_ENTRIES) ;;;
  idt_set_entry int_no (isr_stubs int_no) KERNEL_CODE_SELECTOR flags.

(** ** interrupts.c *)

Definition init_isr : M (isys W) unit :=
  not_initialized ;;;
  for_up (Z.to_nat ISR_MAX) 0 (fun i => modify (fun s => iset_handlers (<[Z.to_nat i := 0]> (i_handlers s)) s)).

Definition isr_set_handler (int_no handler : Z) : M (isys W) unit :=
  not_initialized ;;;
  kassert "int_no < ISR_MAX" (int_no <? ISR_MAX) ;;;
  modify (fun s => iset_handlers (<[Z.to_nat int_no := handler]> (i_handlers s)) s).

(** What a timer interrupt does behind its handler. *)
Definition preempt : M (isys W) unit :=
  s <- get ;;
  let c := i_cpu s in
  let on_sched m := zoom i_sched iset_sched m in
  match scpus (i_sched s) !! c with
  | None => kpanic "cpu_current(): called from an unregistered CPU"
  | Some k =>
      if negb (c_preempt_disabled k =? 0) then ret tt else
      match c_thread k with
      | None => ret tt
      | Some t =>
          match threads (i_sched s) !! t with
          | None => kpanic "page fault"
          | Some x =>
              match procs (i_sched s) !! t_parent x with
              | None => kpanic "page fault"
              | Some y =>
                  if bool_decide (p_state y = PROC_EXITING) then on_sched (thread_exit c)
                  else when (bool_decide (t_state x = THREAD_RUNNING)) (on_sched (thread_yield c))
              end
          end
      end
  end.

(** Calls through a function pointer; the handler may change the frame. *)
Variable call : Z → isr_frame → M (isys W) isr_frame.

Definition generic_interrupt_handler (frame : isr_frame) : M (isys W) isr_frame :=
  kassert "frame->int_no < ISR_MAX" (fr_int_no frame <? ISR_MAX) ;;;
  hs <- gets i_handlers ;;
  let handler := nth (Z.to_nat (fr_int_no frame)) hs 0 in
  if handler =? 0 then kpanic "unhandled interrupt" else
  frame <- call handler frame ;;
  when (fr_int_no frame =? INT_IRQ_TIMER) preempt ;;;
  ret frame.

(** ** syscall.c *)

(** Address of [syscall_handler]. *)
Variable syscall_handler_ptr : Z.

Definition init_syscall : M (isys W) unit :=
  idt_modify_entry INT_SYSCALL (Z.lor (Z.lor SEG_BIT_PRESENT IDTE_TRAP_32) (SEG_BIT_RING 3)) ;;;
  isr_set_handler INT_SYSCALL syscall_handler_ptr.

(** The implementations of the system calls, as the handler calls them. [syscall_exit] is
    declared noreturn. *)
Class SyscallTable := {
  sys_exit : Z → M (isys W) Z;
  sys_wait : Z → M (isys W) Z;
  sys_fork : isr_frame → M (isys W) Z;
  sys_getpid : M (isys W) Z;
  sys_brk : Z → M (isys W) Z;
  sys_sbrk : Z → M (isys W) Z;
  sys_getenvptr : M (isys W) Z;
  sys_open : Z → Z → M (isys W) Z;
  sys_close : Z → M (isys W) Z;
  sys_read : Z → Z → Z → M (isys W) Z;
  sys_write : Z → Z → Z → M (isys W) Z;
  sys_lseek : Z → Z → Z → M (isys W) Z;
  exit_noreturn : ∀ status s r, sys_exit status s ≠ Done r;
}.

Context `{ST : SyscallTable}.

(** [frame->eax = (uint32_t)f]. *)
Definition answer (m : M (isys W) Z) (frame : isr_frame) : M (isys W) isr_frame :=
  r <- m ;; ret (set_eax (u32 r) frame).

(** The first case has no break: it goes on with the next one. *)
Definition syscall_handler (f : isr_frame) : M (isys W) isr_frame :=
  if fr_eax f =? SYSCALL_EXIT then sys_exit (s32 (fr_ebx f)) ;;; answer (sys_wait (fr_ebx f)) f
  else if fr_eax f =? SYSCALL_WAIT then answer (sys_wait (fr_ebx f)) f
  else if fr_eax f =? SYSCALL_FORK then answer (sys_fork f) f
  else if fr_eax f =? SYSCALL_GETPID then answer sys_getpid f
  else if fr_eax f =? SYSCALL_BRK then answer (sys_brk (fr_ebx f)) f
  else if fr_eax f =? SYSCALL_SBRK then answer (sys_sbrk (s32 (fr_ebx f))) f
  else if fr_eax f =? SYSCALL_GETENVPTR then answer sys_getenvptr f
  else if fr_eax f =? SYSCALL_OPEN then answer (sys_open (fr_ebx f) (s32 (fr_ecx f))) f
  else if fr_eax f =? SYSCALL_CLOSE then answer (sys_close (s32 (fr_ebx f))) f
  else if fr_eax f =? SYSCALL_READ then answer (sys_read (s32 (fr_ebx f)) (fr_ecx f) (fr_edx f)) f
  else if fr_eax f =? SYSCALL_WRITE then answer (sys_write (s32 (fr_ebx f)) (fr_ecx f) (fr_edx f)) f
  else if fr_eax f =? SYSCALL_LSEEK then answer (sys_lseek (s32 (fr_ebx f)) (s32 (fr_ecx f)) (s32 (fr_edx f))) f
  else ret f.

(** ** The instruction [int n] *)

(** The gate of vector [n] lets code at ring [cpl] through; the stub it names puts [n] into
    the frame.  A refused or missing gate is a general protection fault (vector 13). *)
Definition software_interrupt (n cpl : Z) (f : isr_frame) : M (isys W) isr_frame :=
  idt <- gets i_idt ;;
  let g := nth (Z.to_nat n) idt 0 in
  if gate_present g && (cpl <=? gate_dpl g) && (gate_offset g =? isr_stubs n)
  then generic_interrupt_handler (set_int n 0 f)
  else generic_interrupt_handler (set_int 13 (8 * n + 2) f).

(** user/yaos2/arch/syscall.h: the arguments go to registers, the result comes back in eax.
    [f] holds the caller's registers. *)
Definition with_args (num arg1 arg2 arg3 : Z) (f : isr_frame) : isr_frame :=
  mk_frame (fr_edi f) (fr_esi f) (fr_ebp f) (fr_esp_dummy f) (u32 arg1) (u32 arg3) (u32 arg2) (u32 num) (fr_gs f) (fr_fs f) (fr_es f) (fr_ds f)
    (fr_int_no f) (fr_error_code f) (fr_frame_pointer f) (fr_eip f) (fr_cs f) (fr_eflags f) (fr_esp f) (fr_ss f).

Definition syscall3 (num arg1 arg2 arg3 : Z) (f : isr_frame) : M (isys W) Z :=
  f' <- software_interrupt 0x80 3 (with_args num arg1 arg2 arg3 f) ;; ret (s32 (fr_eax f')).
Definition syscall2 (num arg1 arg2 : Z) (f : isr_frame) : M (isys W) Z := syscall3 num arg1 arg2 (fr_edx f) f.
Definition syscall1 (num arg1 : Z) (f : isr_frame) : M (isys W) Z := syscall2 num arg1 (fr_ecx f) f.
Definition syscall0 (num : Z) (f : isr_frame) : M (isys W) Z := syscall1 num (fr_ebx f) f.

End tables.

(** ** Lemmas: descriptors *)

(** A gate is its fields. *)
Lemma gate_fields offset selector flags :
  is_u32 offset → 0 ≤ selector < 2 ^ 15 → 0 ≤ flags < 2 ^ 16 → flags mod 2 ^ 8 = 0 →
  let g := idte_construct offset selector flags in
  gate_offset g = offset ∧ gate_selector g = selector ∧ gate_type g = flags / 2 ^ 8 mod 2 ^ 5 ∧
  gate_dpl g = flags / 2 ^ 13 mod 2 ^ 2 ∧ gate_present g = (flags / 2 ^ 15 mod 2 =? 1).
Proof.
  intros Ho Hs Hf Hm g. unfold is_u32 in Ho.
  assert (E : g = 2 ^ 48 * (offset / 2 ^ 16) + 2 ^ 32 * flags + 2 ^ 16 * selector + offset mod 2 ^ 16).
  { unfold g, idte_construct. change 0xFFFF0000 with (Z.shiftl (Z.ones 16) 16). change 0x0000FFFF with (Z.ones 16).
    rewrite land_field, Z.land_ones by lia. rewrite (Z.mod_small (offset / 2 ^ 16)) by dlia.
    rewrite (Z.lor_comm flags), lor_high by lia. rewrite !Z.shiftl_mul_pow2 by lia. rewrite s32_small by lia.
    unfold u64. rewrite !Z.mod_small by dlia.
    replace ((2 ^ 16 * (offset / 2 ^ 16) + flags) * 2 ^ 32) with (2 ^ 32 * (2 ^ 16 * (offset / 2 ^ 16) + flags)) by lia.
    rewrite (lor_high 32) by lia.
    replace (2 ^ 32 * (2 ^ 16 * (offset / 2 ^ 16) + flags) + selector * 2 ^ 16)
      with (2 ^ 16 * (2 ^ 32 * (offset / 2 ^ 16) + 2 ^ 16 * flags + selector)) by lia.
    rewrite (lor_high 16) by dlia. lia. }
  clearbody g. subst g. unfold gate_offset, gate_selector, gate_type, gate_dpl, gate_present. rewrite !bits_of_div by lia.
  rewrite Z.testbit_odd, Z.shiftr_div_pow2 by lia.
  set (o := offset / 2 ^ 16). set (l := offset mod 2 ^ 16).
  assert (Hol : offset = 2 ^ 16 * o + l ∧ 0 ≤ l < 2 ^ 16 ∧ 0 ≤ o < 2 ^ 16) by (unfold o, l; dlia). clearbody o l.
  split; [dlia|]. split; [dlia|]. split; [dlia|]. split; [dlia|].
  replace ((2 ^ 48 * o + 2 ^ 32 * flags + 2 ^ 16 * selector + l) / 2 ^ 47) with (flags / 2 ^ 15 + 2 * o) by dlia.
  rewrite Z.odd_add_mul_2, Zmod_odd. by destruct (Z.odd (flags / 2 ^ 15)).
Qed.

(** ** Lemmas: the tables *)

Section lemmas.
Context {W : Type} (isr_stubs : Z → Z) (call : Z → isr_frame → M (isys W) isr_frame) (syscall_handler_ptr : Z).

Definition kernel_gate (n : Z) : Z :=
  idte_construct (isr_stubs n) KERNEL_CODE_SELECTOR (Z.lor (Z.lor SEG_BIT_PRESENT IDTE_INTERRUPT_32) (SEG_BIT_RING 0)).
Definition user_gate (n : Z) : Z :=
  idte_construct (isr_stubs n) KERNEL_CODE_SELECTOR (Z.lor (Z.lor SEG_BIT_PRESENT IDTE_TRAP_32) (SEG_BIT_RING 3)).

(** A loop that fills a table. *)
Lemma fill_table (put : list Z → isys W → isys W) (tab : isys W → list Z) (g : Z → Z) n s :
  (∀ l s, tab (put l s) = l) → (∀ l l' s, put l (put l' s) = put l s) → put (tab s) s = s → length (tab s) = n →
  ∃ l, for_up n 0 (fun i => modify (fun s => put (<[Z.to_nat i := g i]> (tab s)) s)) s = Done (tt, put l s) ∧
    length l = n ∧ ∀ i, (i < n)%nat → l !! i = Some (g (Z.of_nat i)).
Proof.
  intros H1 H2 H3 Hn.
  destruct (for_up_inv (fun k s' => ∃ l, s' = put l s ∧ length l = n ∧ ∀ i, Z.of_nat i < k → l !! i = Some (g (Z.of_nat i)))
    (fun i => modify (fun s => put (<[Z.to_nat i := g i]> (tab s)) s)) n 0 s) as (s' & E & l & -> & Hl & Hi).
  - exists (tab s). split; [done|]. split; [done|]. lia.
  - intros j s0 Hj (l & -> & Hl & Hi). eexists. split; [done|]. exists (<[Z.to_nat j := g j]> l).
    rewrite H1, H2. split; [done|]. rewrite length_insert. split; [done|]. intros i Hij.
    destruct (decide (Z.to_nat j = i)) as [<-|Hne].
    + rewrite list_lookup_insert_eq by lia. f_equal. f_equal. lia.
    + rewrite list_lookup_insert_ne by done. apply Hi. lia.
  - exists l. split; [done|]. split; [done|]. intros i Hin. apply Hi. lia.
Qed.

(** The tables after the start-up code. *)
Record tables_ready (s s' : isys W) : Prop := {
  tr_idt : ∃ l, i_idt s' = l ∧ length l = 256%nat ∧ l !! 128%nat = Some (user_gate 128) ∧
    ∀ i, (i < 256)%nat → i ≠ 128%nat → l !! i = Some (kernel_gate (Z.of_nat i));
  tr_handlers : ∃ l, i_handlers s' = l ∧ length l = 256%nat ∧ l !! 128%nat = Some syscall_handler_ptr ∧
    ∀ i, (i < 256)%nat → i ≠ 128%nat → l !! i = Some 0;
  tr_rest : i_sched s' = i_sched s ∧ i_cpu s' = i_cpu s ∧ i_rest s' = i_rest s;
}.

Lemma tables_run s :
  length (i_idt s) = 256%nat → length (i_handlers s) = 256%nat → i_initialized s = false → i_idt_loaded s = false →
  ∃ s', (init_idt isr_stubs ;;; init_isr ;;; init_syscall isr_stubs syscall_handler_ptr) s = Done (tt, s') ∧ tables_ready s s'.
Proof.
  intros H1 H2 H3 H4.
  destruct (fill_table iset_idt i_idt kernel_gate 256 s) as (l1 & E1 & L1 & G1); [done|done|by destruct s|done|].
  destruct (fill_table iset_handlers i_handlers (fun _ => 0) 256 (iset_idt l1 s)) as (l2 & E2 & L2 & G2); [done|done|by destruct s|done|].
  assert (N : ∀ s0 : isys W, i_initialized s0 = false → not_initialized s0 = Done (tt, s0)).
  { intros s0 Hs0. unfold not_initialized, bind, gets. by rewrite Hs0. }
  assert (R1 : init_idt isr_stubs s = Done (tt, iset_idt l1 s)).
  { unfold init_idt. rewrite (bind_run _ _ _ _ _ (N s H3)). exact E1. }
  assert (R2 : init_isr (iset_idt l1 s) = Done (tt, iset_handlers l2 (iset_idt l1 s))).
  { unfold init_isr. rewrite (bind_run _ _ _ _ _ (N (iset_idt l1 s) H3)). exact E2. }
  set (s2 := iset_handlers l2 (iset_idt l1 s)) in *.
  assert (R3 : idt_modify_entry isr_stubs INT_SYSCALL (Z.lor (Z.lor SEG_BIT_PRESENT IDTE_TRAP_32) (SEG_BIT_RING 3)) s2 =
    Done (tt, iset_idt (<[128%nat := user_gate 128]> l1) s2)).
  { unfold idt_modify_entry, idt_set_entry. rewrite (bind_run _ _ s2 tt s2 eq_refl), (bind_run _ _ _ _ _ (N s2 H3)).
    rewrite (bind_run _ _ s2 tt s2 eq_refl). unfold bind, gets. change (i_idt_loaded s2) with (i_idt_loaded s). by rewrite H4. }
  set (s3 := iset_idt _ s2) in R3.
  assert (R4 : isr_set_handler INT_SYSCALL syscall_handler_ptr s3 = Done (tt, iset_handlers (<[128%nat := syscall_handler_ptr]> l2) s3)).
  { unfold isr_set_handler. rewrite (bind_run _ _ _ _ _ (N s3 H3)). by rewrite (bind_run _ _ s3 tt s3 eq_refl). }
  eexists. split.
  - rewrite (bind_run _ _ _ _ _ R1), (bind_run _ _ _ _ _ R2). unfold init_syscall. rewrite (bind_run _ _ _ _ _ R3). exact R4.
  - split; cbn; [|..].
    + eexists. split; [reflexivity|]. rewrite length_insert. split; [done|]. split; [by rewrite list_lookup_insert_eq by (rewrite L1; lia)|].
      intros i Hi Hne. rewrite list_lookup_insert_ne by (intros <-; by apply Hne). by apply G1.
    + eexists. split; [reflexivity|]. rewrite length_insert. split; [done|]. split; [by rewrite list_lookup_insert_eq by (rewrite L2; lia)|].
      intros i Hi Hne. rewrite list_lookup_insert_ne by (intros <-; by apply Hne). by apply G2.
    + done.
Qed.

Lemma answer_int `{ST : @SyscallTable W} (m : M (isys W) Z) f s f' s' :
  answer m f s = Done (f', s') → fr_int_no f' = fr_int_no f.
Proof. intros H. unfold answer in H. run_inv H. by injection H as <- <-. Qed.

Lemma handler_int `{ST : @SyscallTable W} f s f' s' : syscall_handler f s = Done (f', s') → fr_int_no f' = fr_int_no f.
Proof.
  unfold syscall_handler.
  destruct (fr_eax f =? SYSCALL_EXIT).
  { intros H. run_inv H. exfalso. by apply exit_noreturn in E. }
  repeat (match goal with |- context [if ?x then _ else _] => destruct x end; [intros H; by eapply answer_int|]).
  intros H. by injection H as <- <-.
Qed.

(** What the kernel does for a system call with these register contents. *)
Definition kernel_call `{ST : @SyscallTable W} (num arg1 arg2 arg3 : Z) (f : isr_frame) : M (isys W) Z :=
  if num =? SYSCALL_EXIT then sys_exit (s32 arg1)
  else if num =? SYSCALL_WAIT then sys_wait arg1
  else if num =? SYSCALL_FORK then sys_fork f
  else if num =? SYSCALL_GETPID then sys_getpid
  else if num =? SYSCALL_BRK then sys_brk arg1
  else if num =? SYSCALL_SBRK then sys_sbrk (s32 arg1)
  else if num =? SYSCALL_GETENVPTR then sys_getenvptr
  else if num =? SYSCALL_OPEN then sys_open arg1 (s32 arg2)
  else if num =? SYSCALL_CLOSE then sys_close (s32 arg1)
  else if num =? SYSCALL_READ then sys_read (s32 arg1) arg2 arg3
  else if num =? SYSCALL_WRITE then sys_write (s32 arg1) arg2 arg3
  else if num =? SYSCALL_LSEEK then sys_lseek (s32 arg1) (s32 arg2) (s32 arg3)
  else ret num.

Lemma bind_ext {S A B} (m : M S A) (k k' : A → M S B) s :
  (∀ a s', m s = Done (a, s') → k a s' = k' a s') → bind m k s = bind m k' s.
Proof. intros H. unfold bind. destruct (m s) as [[a s']| |]; [by apply H|done|done]. Qed.

Lemma s32_u32 x : s32 (u32 x) = s32 x.
Proof. unfold s32. by rewrite u32_u32. Qed.

Lemma handler_call `{ST : @SyscallTable W} f s :
  is_u32 (fr_eax f) →
  bind (syscall_handler f) (fun f' => ret (s32 (fr_eax f'))) s =
  bind (kernel_call (fr_eax f) (fr_ebx f) (fr_ecx f) (fr_edx f) f) (fun r => ret (s32 r)) s.
Proof.
  intros Hu. unfold syscall_handler, kernel_call.
  assert (A : ∀ m : M (isys W) Z, bind (answer m f) (fun f' => ret (s32 (fr_eax f'))) s = bind m (fun r => ret (s32 r)) s).
  { intros m. unfold answer, bind. destruct (m s) as [[r s']| |]; [|done|done]. cbn. unfold ret. by rewrite s32_u32. }
  destruct (fr_eax f =? SYSCALL_EXIT).
  { unfold bind. destruct (sys_exit (s32 (fr_ebx f)) s) as [[r s']| |] eqn:E; [|done|done]. exfalso. by apply exit_noreturn in E. }
  repeat (match goal with |- context [if ?x then _ else _] => destruct x end; [apply A|]). done.
Qed.
End lemmas.

(** ** Properties *)

(** C11: the system call interface: once the tables are set up, code in user mode reaches the
    kernel through vector 0x80 and through no other.  [int 0x80] calls the implementation the
    number in eax selects with the arguments of ebx, ecx and edx, and the caller gets its
    result in eax; a number the kernel does not know comes back unchanged.  Any other vector
    is refused (and, as no handler for the protection fault is installed, stops the kernel). *)
Theorem system_call_reaches {W} isr_stubs call ptr `{ST : @SyscallTable W} s :
  length (i_idt s) = 256%nat → length (i_handlers s) = 256%nat → i_initialized s = false → i_idt_loaded s = false →
  (∀ n, is_u32 (isr_stubs n)) → ptr ≠ 0 → (∀ f, call ptr f = syscall_handler f) →
  ∃ s', (init_idt isr_stubs ;;; init_isr ;;; init_syscall isr_stubs ptr) s = Done (tt, s') ∧
    (∀ num arg1 arg2 arg3 f,
       let g := with_args num arg1 arg2 arg3 f in
       syscall3 isr_stubs call num arg1 arg2 arg3 f s' =
       (r <- kernel_call (u32 num) (u32 arg1) (u32 arg2) (u32 arg3) (set_int 0x80 0 g) ;; ret (s32 r)) s') ∧
    (∀ n cpl f, 0 ≤ n < 256 → n ≠ 0x80 → 0 < cpl ≤ 3 →
       software_interrupt isr_stubs call n cpl f s' = Panic "unhandled interrupt").
Proof.
  intros H1 H2 H3 H4 Hst Hp Hc. destruct (tables_run isr_stubs ptr s H1 H2 H3 H4) as (s' & E & [T1 T2 _]).
  destruct T1 as (l & L1 & L2 & L3 & L4). destruct T2 as (h & K1 & K2 & K3 & K4).
  exists s'. split; [done|]. split.
  - intros num a1 a2 a3 f g. unfold syscall3. fold g.
    assert (R : software_interrupt isr_stubs call 128 3 g s' =
      (f' <- call ptr (set_int 128 0 g) ;; when (fr_int_no f' =? INT_IRQ_TIMER) preempt ;;; ret f') s').
    { unfold software_interrupt. rewrite (bind_run (gets i_idt) _ s' l s') by (unfold gets; by rewrite L1).
      change (Z.to_nat 128) with 128%nat. rewrite (nth_lookup_Some _ _ _ _ L3).
      destruct (gate_fields (isr_stubs 128) KERNEL_CODE_SELECTOR (Z.lor (Z.lor SEG_BIT_PRESENT IDTE_TRAP_32) (SEG_BIT_RING 3))
        (Hst 128)) as (F1 & _ & _ & F4 & F5); [done|done|done|]. unfold user_gate. rewrite F1, F4, F5.
      rewrite (Z.eqb_refl (isr_stubs 128)), andb_true_r. match goal with |- context [if ?x then _ else _] => change x with true end. cbv iota. unfold generic_interrupt_handler.
      rewrite (bind_run _ _ s' tt s' eq_refl), (bind_run (gets i_handlers) _ s' h s') by (unfold gets; by rewrite K1).
      change (Z.to_nat (fr_int_no (set_int 128 0 g))) with 128%nat.
      by rewrite (nth_lookup_Some _ _ _ _ K3), (proj2 (Z.eqb_neq ptr 0) Hp). }
    rewrite Hc in R. rewrite <- (handler_call (set_int 128 0 g)) by apply u32_range.
    unfold bind at 1. rewrite R. unfold bind. destruct (syscall_handler (set_int 128 0 g) s') as [[f' s1]| |] eqn:E1; [|done|done].
    apply handler_int in E1. rewrite E1. done.
  - intros n cpl f Hn Hne Hcpl. unfold software_interrupt.
    rewrite (bind_run (gets i_idt) _ s' l s') by (unfold gets; by rewrite L1). rewrite (nth_lookup_Some _ _ _ _ (L4 (Z.to_nat n) ltac:(lia) ltac:(lia))). rewrite Z2Nat.id by lia.
    destruct (gate_fields (isr_stubs n) KERNEL_CODE_SELECTOR (Z.lor (Z.lor SEG_BIT_PRESENT IDTE_INTERRUPT_32) (SEG_BIT_RING 0))
      (Hst n)) as (_ & _ & _ & F4 & F5); [done|done|done|]. unfold kernel_gate. rewrite F4, F5.
    change (_ / 2 ^ 13 mod 2 ^ 2) with 0. rewrite (proj2 (Z.leb_gt cpl 0)) by lia. rewrite andb_false_r. cbn [andb].
    unfold generic_interrupt_handler. rewrite (bind_run _ _ s' tt s' eq_refl), (bind_run (gets i_handlers) _ s' h s') by (unfold gets; by rewrite K1).
    cbn [fr_int_no set_int]. change (Z.to_nat 13) with 13%nat. by rewrite (nth_lookup_Some _ _ _ _ (K4 13%nat ltac:(lia) ltac:(lia))).
Qed.

(** ** The timer *)

(** What a tick does to the thread [t] of the interrupted CPU. *)
Lemma preempt_run {W} (s : isys W) k t x :
  sched_inv (i_sched s) → runs_on (i_sched s) (i_cpu s) k t x →
  ∃ y s', procs (i_sched s) !! t_parent x = Some y ∧ preempt s = Done (tt, iset_sched s' s) ∧ sched_inv s' ∧
    ∃ x', threads s' !! t = Some x' ∧
      (if bool_decide (p_state y = PROC_EXITING) then t_state x' = THREAD_EXITED
       else t_state x' = THREAD_READY ∧ queue s' = queue (i_sched s) ++ [t]).
Proof.
  intros Hi Hr. destruct (runs_on_facts _ _ _ _ _ Hi Hr) as (Hst & Hp & _). destruct (running_proc _ _ _ _ _ Hi Hr) as (_ & y & Hy & _).
  pose proof Hr as (Hk & Hkt & Hx). exists y. unfold preempt. unfold bind at 1, get at 1. rewrite Hk, Hp. cbn [Z.eqb negb].
  rewrite Hkt, Hx, Hy. case_bool_decide as He.
  - destruct (thread_exit_run _ _ _ _ _ Hi Hr) as (s' & E & Hi' & x' & Hx' & Hs'). exists s'. split; [done|]. split; [|by eauto].
    unfold zoom. by rewrite E.
  - destruct (thread_yield_run _ _ _ _ _ Hi Hr) as (s' & E & Hi' & Hq & x' & Hx' & Hs'). exists s'. split; [done|]. split; [|by eauto 8].
    rewrite bool_decide_eq_true_2 by done. cbn [when]. unfold zoom. by rewrite E.
Qed.

(** The handler ran; what is left of the interrupt. *)
Lemma handled_run {W} (call : Z → isr_frame → M (isys W) isr_frame) (s s1 : isys W) f h :
  0 ≤ fr_int_no f < ISR_MAX → i_handlers s !! Z.to_nat (fr_int_no f) = Some h → h ≠ 0 → call h f s = Done (f, s1) →
  generic_interrupt_handler call f s = (when (fr_int_no f =? INT_IRQ_TIMER) preempt ;;; ret f) s1.
Proof.
  intros Hn Hh H0 Hc. unfold generic_interrupt_handler. rewrite (bind_run _ _ s tt s) by (unfold kassert; by rewrite (proj2 (Z.ltb_lt _ _)) by lia).
  unfold bind at 1, gets. rewrite (nth_lookup_Some _ _ _ _ Hh), (proj2 (Z.eqb_neq h 0) H0). by rewrite (bind_run _ _ _ _ _ Hc).
Qed.

(** Preemption: a timer interrupt takes the CPU from the thread it interrupts.  When the
    handler has returned, the thread goes to the end of the run queue, ready to run again; a
    thread of a process that is exiting ends instead.  Every other interrupt, and a timer
    interrupt while preemption is disabled, only runs its handler. *)
Theorem timer_preempts {W} (call : Z → isr_frame → M (isys W) isr_frame) (s s1 : isys W) f h k :
  0 ≤ fr_int_no f < ISR_MAX → i_handlers s !! Z.to_nat (fr_int_no f) = Some h → h ≠ 0 → call h f s = Done (f, s1) →
  scpus (i_sched s1) !! i_cpu s1 = Some k →
  if (fr_int_no f =? INT_IRQ_TIMER) && (c_preempt_disabled k =? 0) then
    ∀ t x, sched_inv (i_sched s1) → c_thread k = Some t → threads (i_sched s1) !! t = Some x →
    ∃ y s', procs (i_sched s1) !! t_parent x = Some y ∧
      generic_interrupt_handler call f s = Done (f, iset_sched s' s1) ∧ sched_inv s' ∧
      ∃ x', threads s' !! t = Some x' ∧
        (if bool_decide (p_state y = PROC_EXITING) then t_state x' = THREAD_EXITED
         else t_state x' = THREAD_READY ∧ queue s' = queue (i_sched s1) ++ [t])
  else generic_interrupt_handler call f s = Done (f, s1).
Proof.
  intros Hn Hh H0 Hc Hk. rewrite (handled_run _ _ _ _ _ Hn Hh H0 Hc).
  destruct (fr_int_no f =? INT_IRQ_TIMER); cbn [andb when]; [|done]. destruct (Z.eqb_spec (c_preempt_disabled k) 0) as [E0|E0].
  - intros t x Hi Ht Hx. destruct (preempt_run s1 k t x Hi) as (y & s' & Hy & E & Hi' & R); [done|].
    exists y, s'. split; [done|]. split; [|by split]. by rewrite (bind_run _ _ _ _ _ E).
  - unfold bind, preempt at 1. unfold bind, get. rewrite Hk. by rewrite (proj2 (Z.eqb_neq _ _) E0).
Qed.

(** ** Examples *)

Definition example_frame (n eax ebx ecx edx : Z) : isr_frame := mk_frame 0 0 0 0 ebx edx ecx eax 0 0 0x23 0x23 n 0 0 0x1000 0x1B 0x202 0x8000 0x23.

(** Thread 10 runs on CPU 0; handler 5 of the timer returns at once. *)
Definition example_interrupted : isys unit :=
  mk_is (replicate 256 0) true (<[32%nat := 5]> (replicate 256 0)) true (example_state example_ops) 0%nat tt.

Lemma timer_preempts_witness :
  ∃ s', generic_interrupt_handler (fun _ => ret) (example_frame 32 0 0 0 0) example_interrupted =
    Done (example_frame 32 0 0 0 0, iset_sched s' example_interrupted) ∧ sched_inv s' ∧ queue s' = [12; 10]%nat.
Proof.
  pose proof (timer_preempts (fun _ => ret) example_interrupted example_interrupted (example_frame 32 0 0 0 0) 5
    (mk_scpu (Some 10%nat) (Some 100%nat) 0 true 0 true 1) ltac:(cbn; unfold ISR_MAX; lia) eq_refl ltac:(discriminate) eq_refl
    ltac:(vm_compute; reflexivity)) as H.
  change (if true then ?A else ?B) with A in H.
  assert (E : ∃ x, threads (i_sched example_interrupted) !! 10%nat = Some x ∧
    (∀ y, procs (i_sched example_interrupted) !! t_parent x = Some y → bool_decide (p_state y = PROC_EXITING) = false)).
  { eexists. split; [vm_compute; reflexivity|]. intros y Hy. vm_compute in Hy. injection Hy as <-. reflexivity. }
  destruct E as (x & Hx & Hy). destruct (H 10%nat x (example_inv example_ops) eq_refl Hx) as (y & s' & Hp & G & Hi & x' & _ & R).
  exists s'. split; [exact G|]. split; [exact Hi|]. rewrite (Hy y Hp) in R. destruct R as [_ R]. rewrite R. vm_compute. reflexivity.
Defined.

(** A kernel that records the calls it gets and answers with a fixed number. *)
Definition logged (call : Z * list Z) (r : Z) : M (isys (list (Z * list Z))) Z :=
  modify (fun s => mk_is (i_idt s) (i_idt_loaded s) (i_handlers s) (i_initialized s) (i_sched s) (i_cpu s) (i_rest s ++ [call])) ;;; ret r.

Lemma hang_noreturn {S A} {s : S} {r : A * S} : hang s ≠ Done r.
Proof. discriminate. Qed.

#[local] Instance example_calls : @SyscallTable (list (Z * list Z)) := {
  sys_exit := fun _ => hang;
  sys_wait := fun p => logged (2, [p]) 0;
  sys_fork := fun _ => logged (3, []) 0;
  sys_getpid := logged (4, []) 0;
  sys_brk := fun p => logged (5, [p]) 0;
  sys_sbrk := fun n => logged (6, [n]) 0;
  sys_getenvptr := logged (7, []) 0;
  sys_open := fun p f => logged (8, [p; f]) 0;
  sys_close := fun fd => logged (9, [fd]) (-2);
  sys_read := fun fd p n => logged (10, [fd; p; n]) 0;
  sys_write := fun fd p n => logged (11, [fd; p; n]) n;
  sys_lseek := fun fd o w => logged (12, [fd; o; w]) o;
  exit_noreturn := fun _ _ _ => hang_noreturn;
}.

Definition example_tables : isys (list (Z * list Z)) :=
  mk_is (replicate 256 0) false (replicate 256 0) false (example_state example_ops) 0%nat [].

Lemma system_call_reaches_witness :
  ∃ s' r, (init_idt (fun n => 0xC0100000 + 16 * (n mod 256)) ;;; init_isr ;;; init_syscall (fun n => 0xC0100000 + 16 * (n mod 256)) 7) example_tables = Done (tt, s') ∧
    syscall3 (fun n => 0xC0100000 + 16 * (n mod 256)) (fun _ => syscall_handler) SYSCALL_CLOSE 3 0 0 (example_frame 0 0 0 0 0) s' = Done (-2, r) ∧
    i_rest r = [(9, [3])].
Proof.
  destruct (system_call_reaches (fun n => 0xC0100000 + 16 * (n mod 256)) (fun _ => syscall_handler) 7 example_tables)
    as (s' & E & H & _).
  - reflexivity.
  - reflexivity.
  - reflexivity.
  - reflexivity.
  - intros n. unfold is_u32. dlia.
  - discriminate.
  - reflexivity.
  - specialize (H SYSCALL_CLOSE 3 0 0 (example_frame 0 0 0 0 0)).
    destruct (tables_run (fun n => 0xC0100000 + 16 * (n mod 256)) 7 example_tables eq_refl eq_refl eq_refl eq_refl) as (s2 & E2 & T).
    rewrite E in E2. injection E2 as <-. eexists s', _. split; [exact E|]. split; [exact H|].
    destruct T as [_ _ (_ & _ & T)]. cbn [i_rest]. rewrite T. reflexivity.
Defined.
