(* ===== verification/Platform.v ===== *)
(** * Device accesses, the interval timer and the legacy interrupt controller

    arch/kernel/portio.h, arch/i386/pit.c and pic.c.  Code that drives devices is modelled
    by the accesses it makes: the state holds the history of all reads and writes of ports and
    memory-mapped registers, newest first, and a read is answered by an arbitrary function of
    that history ([answers]), which is what a device can make its answer depend on.  The history
    also shows when the timer's lock is taken and given back ([TimerTaken], [TimerFreed]), so
    that it tells which accesses were made under it.  Loops that
    wait for a device take their number of turns as an argument and are [Hang] beyond it. *)

From stdpp Require Import base list strings.
From Stdlib Require Import ZArith Lia.
From S2P Require Import Prelude Cpu.

(** ** Accesses *)

Inductive access : Type :=
| MmioRd (a v : Z)
| MmioWr (a v : Z)
| PortIn (p v : Z)
| PortOut (p v : Z)
| TimerTaken
| TimerFreed.

#[export] Instance access_eq_dec : EqDecision access.
Proof. solve_decision. Defined.

(** What the devices answer to a read, given everything that happened before. *)
Class Answers := {
  mmio_answer : list access → Z → Z;
  port_answer : list access → Z → Z;
}.

Section accesses.
Context `{Answers}.

Definition mmio_read (a : Z) : M (list access) Z :=
  l <- get ;; let v := u32 (mmio_answer l a) in modify (cons (MmioRd a v)) ;;; ret v.
Definition mmio_write (a v : Z) : M (list access) unit := modify (cons (MmioWr a (u32 v))).
Definition pio_inb (port : Z) : M (list access) Z :=
  l <- get ;; let v := u8 (port_answer l port) in modify (cons (PortIn port v)) ;;; ret v.
Definition pio_outb (port val : Z) : M (list access) unit := modify (cons (PortOut port (u8 val))).

End accesses.

(** The value last written to a memory-mapped register. *)
Fixpoint written (l : list access) (a : Z) : option Z :=
  match l with
  | [] => None
  | MmioWr b v :: l => if b =? a then Some v else written l a
  | _ :: l => written l a
  end.

(** The bytes written to a port, oldest first. *)
Fixpoint sent (l : list access) (port : Z) : list Z :=
  match l with
  | [] => []
  | PortOut p v :: l => if p =? port then sent l port ++ [v] else sent l port
  | _ :: l => sent l port
  end.

(** ** pic.c *)

Definition PIC1 : Z := 0x20.
Definition PIC1_DATA : Z := PIC1 + 1.
Definition PIC2 : Z := 0xA0.
Definition PIC2_DATA : Z := PIC2 + 1.

Definition pic_disable : M (list access) unit :=
  pio_outb PIC1_DATA 0xFF ;;;
  pio_outb PIC2_DATA 0xFF.

(** ** pit.c *)

Definition PIT_FREQ : Z := 1193180.
Definition PIT_CHAN (c : Z) : Z := 0x40 + c.
Definition PIT_COMMAND : Z := 0x43.
Definition PIT_CHAN2_OUTPUT : Z := 0x61.
Definition PIT_CMD_CHAN (c : Z) : Z := Z.shiftl c 6.
Definition PIT_CMD_2BYTE : Z := 0x30.
Definition PIT_CMD_HW_RETR : Z := 0x02.

Section pit.
Context `{Answers}.

(** [microseconds] is an unsigned int: it is not negative, and dividing by zero is excluded
    by the first assertion. *)
Definition pit_prepare_counter (microseconds : Z) : M (list access) unit :=
  kassert "microseconds > 0" (microseconds >? 0) ;;;
  let divisor := 1000000 / microseconds in
  kassert "divisor != 0 && (PIT_FREQ / divisor) < 0xffff" (negb (divisor =? 0) && (PIT_FREQ / divisor <? 0xFFFF)) ;;;
  val <- pio_inb PIT_CHAN2_OUTPUT ;;
  pio_outb PIT_CHAN2_OUTPUT (Z.lor (Z.land val 0xFD) 1) ;;;
  pio_outb PIT_COMMAND (Z.lor (Z.lor (PIT_CMD_CHAN 2) PIT_CMD_2BYTE) PIT_CMD_HW_RETR) ;;;
  let count := u16 (PIT_FREQ / divisor) in
  pio_outb (PIT_CHAN 2) (Z.land count 0xFF) ;;;
  pio_outb (PIT_CHAN 2) (Z.shiftr count 8).

Definition pit_start_counter : M (list access) unit :=
  val <- pio_inb PIT_CHAN2_OUTPUT ;;
  pio_outb PIT_CHAN2_OUTPUT (Z.land val 0xFE) ;;;
  pio_outb PIT_CHAN2_OUTPUT (Z.lor val 1).

Fixpoint pit_wait_counter (fuel : nat) : M (list access) unit :=
  match fuel with
  | O => hang
  | S fuel =>
      val <- pio_inb PIT_CHAN2_OUTPUT ;;
      if negb (Z.land val 0x20 =? 0) then pit_wait_counter fuel else ret tt
  end.

Definition pit_wait (fuel : nat) (microseconds : Z) : M (list access) unit :=
  pit_prepare_counter microseconds ;;;
  pit_start_counter ;;;
  pit_wait_counter fuel.

End pit.

(** The count last loaded into channel 2, low byte first. *)
Definition pit_count (l : list access) : Z :=
  match reverse (sent l (PIT_CHAN 2)) with
  | hi :: lo :: _ => 256 * hi + lo
  | _ => 0
  end.

(** ** Lemmas *)

(** Accesses of the interval timer only. *)
Definition timer_access (x : access) : Prop :=
  match x with
  | PortIn p _ => p = PIT_CHAN2_OUTPUT
  | PortOut p _ => p = PIT_CHAN2_OUTPUT ∨ p = PIT_COMMAND ∨ p = PIT_CHAN 2
  | _ => False
  end.

Lemma timer_written new a : Forall timer_access new → written new a = None.
Proof. induction 1 as [|x l Hx _ IH]; [done|]. by destruct x. Qed.

Lemma sent_app l l' port : sent (l' ++ l) port = sent l port ++ sent l' port.
Proof.
  induction l' as [|x l' IH]; cbn [app sent]; [by rewrite app_nil_r|].
  destruct x; try done. destruct (p =? port); [|done]. by rewrite IH, app_assoc.
Qed.

Lemma written_app l l' a : written (l' ++ l) a = match written l' a with Some v => Some v | None => written l a end.
Proof. induction l' as [|x l' IH]; cbn [app written]; [done|]. destruct x; try done. by destruct (a0 =? a). Qed.

(** The count of an interval. *)
Definition interval_count (us : Z) : Z := PIT_FREQ / (1000000 / us).

(** All accesses of one wait, oldest first: the gate is opened with the speaker off, channel 2
    is set to a one-shot of the count of the interval, the gate is closed and opened again,
    which starts it, and then the output is polled for as long as it is high. *)
Definition wait_log (us : Z) (l : list access) : Prop :=
  ∃ v1 v2 busy v3,
    l = [PortIn PIT_CHAN2_OUTPUT v1; PortOut PIT_CHAN2_OUTPUT (Z.lor (Z.land v1 0xFD) 1);
         PortOut PIT_COMMAND 0xB2; PortOut (PIT_CHAN 2) (interval_count us mod 2 ^ 8); PortOut (PIT_CHAN 2) (interval_count us / 2 ^ 8);
         PortIn PIT_CHAN2_OUTPUT v2; PortOut PIT_CHAN2_OUTPUT (Z.land v2 0xFE); PortOut PIT_CHAN2_OUTPUT (Z.lor v2 1)] ++
        (PortIn PIT_CHAN2_OUTPUT <$> busy) ++ [PortIn PIT_CHAN2_OUTPUT v3] ∧
    Forall (fun v => Z.testbit v 5 = true) busy ∧ Z.testbit v3 5 = false.

Lemma u8_of_land v m : 0 ≤ v < 2 ^ 8 → u8 (Z.land v m) = Z.land v m.
Proof.
  intros Hv. unfold u8. rewrite <- !Z.land_ones by lia. rewrite <- (Z.land_assoc v m), (Z.land_comm m), Z.land_assoc.
  f_equal. rewrite Z.land_ones by lia. by apply Z.mod_small.
Qed.

Lemma u8_of_lor1 v : 0 ≤ v < 2 ^ 8 → u8 (Z.lor v 1) = Z.lor v 1.
Proof.
  intros Hv. unfold u8. rewrite <- Z.land_ones by lia. rewrite Z.land_lor_distr_l. f_equal.
  rewrite Z.land_ones by lia. by apply Z.mod_small.
Qed.

Lemma u8_byte v : 0 ≤ u8 v < 2 ^ 8.
Proof. unfold u8. by apply Z.mod_pos_bound. Qed.

Lemma land_byte v m : 0 ≤ v < 2 ^ 8 → 0 ≤ Z.land v m < 2 ^ 8.
Proof. intros Hv. rewrite <- (u8_of_land v m Hv). apply u8_byte. Qed.

Lemma prepare_run `{Answers} us l :
  0 < us → us ≤ 52631 →
  let v := u8 (port_answer l PIT_CHAN2_OUTPUT) in
  pit_prepare_counter us l = Done (tt, reverse
    [PortIn PIT_CHAN2_OUTPUT v; PortOut PIT_CHAN2_OUTPUT (Z.lor (Z.land v 0xFD) 1);
     PortOut PIT_COMMAND 0xB2; PortOut (PIT_CHAN 2) (interval_count us mod 2 ^ 8); PortOut (PIT_CHAN 2) (interval_count us / 2 ^ 8)] ++ l).
Proof.
  intros H0 H1 v. set (d := 1000000 / us). assert (Hd : 19 ≤ d ≤ 1000000).
  { unfold d. split; [apply Z.div_le_lower_bound; lia|]. apply Z.div_le_upper_bound; lia. }
  assert (Hc : 0 ≤ PIT_FREQ / d < 0xFFFF).
  { unfold PIT_FREQ. split; [apply Z.div_pos; lia|]. apply Z.div_lt_upper_bound; lia. }
  unfold pit_prepare_counter, interval_count. fold d. rewrite (proj2 (Z.gtb_lt us 0)) by lia. rewrite (proj2 (Z.eqb_neq d 0)) by lia.
  rewrite (proj2 (Z.ltb_lt (PIT_FREQ / d) 0xFFFF)) by lia. cbn -[PIT_FREQ Z.div Z.modulo u8 u16 Z.lor Z.land Z.shiftr PIT_CHAN Z.pow]. fold v.
  rewrite u16_small by lia. change 0xFF with (Z.ones 8). rewrite Z.land_ones, Z.shiftr_div_pow2 by lia.
  rewrite u8_of_lor1 by (apply land_byte, u8_byte). unfold pio_outb, modify. rewrite (u8_small (PIT_FREQ / d mod 2 ^ 8)), (u8_small (PIT_FREQ / d / 2 ^ 8)) by dlia. done.
Qed.

(** The history after [n] more polls of the timer's output. *)
Definition polls (new : list access) : Prop := Forall (fun x => ∃ v, x = PortIn PIT_CHAN2_OUTPUT v) new.

(** The output goes low after fewer than [turns] polls. *)
Definition pit_ends `{Answers} (turns : nat) : Prop :=
  ∀ l, ∃ n, (n < turns)%nat ∧ ∀ new, length new = n → polls new → Z.testbit (port_answer (new ++ l) PIT_CHAN2_OUTPUT) 5 = false.

Lemma poll_high v : (Z.land (u8 v) 0x20 =? 0) = negb (Z.testbit (u8 v) 5).
Proof. change 0x20 with (2 ^ 5). rewrite land_pow2 by lia. by destruct (Z.testbit (u8 v) 5). Qed.

(** The wait ends when a read shows the output low. *)
Lemma wait_counter_run `{Answers} l fuel n :
  (n < fuel)%nat →
  (∀ new, length new = n → polls new → Z.testbit (port_answer (new ++ l) PIT_CHAN2_OUTPUT) 5 = false) →
  ∃ busy v, pit_wait_counter fuel l = Done (tt, reverse ((PortIn PIT_CHAN2_OUTPUT <$> busy) ++ [PortIn PIT_CHAN2_OUTPUT v]) ++ l) ∧
    Forall (fun v => Z.testbit v 5 = true) busy ∧ Z.testbit v 5 = false.
Proof.
  revert l fuel. induction n as [|n IH]; intros l [|fuel] Hf Hn; [lia| |lia|]; cbn [pit_wait_counter];
    unfold pio_inb at 1; unfold bind, get, modify, ret; rewrite poll_high, negb_involutive; set (v := u8 _).
  - exists [], v. assert (E : Z.testbit v 5 = false).
    { unfold v, u8. rewrite Z.mod_pow2_bits_low by lia. exact (Hn [] eq_refl (Forall_nil_2 _)). }
    rewrite E. done.
  - destruct (Z.testbit v 5) eqn:Ev; [|by exists [], v].
    destruct (IH (PortIn PIT_CHAN2_OUTPUT v :: l) fuel) as (busy & v' & E & B & L); [lia| |].
    + intros new Hl Hp. specialize (Hn (new ++ [PortIn PIT_CHAN2_OUTPUT v])). rewrite length_app in Hn. cbn in Hn.
      rewrite <- app_assoc in Hn. apply Hn; [lia|]. apply Forall_app. split; [exact Hp|]. apply Forall_singleton. by exists v.
    + exists (v :: busy), v'. split; [|split; [by constructor|done]]. rewrite E. cbn [fmap list_fmap app]. rewrite reverse_cons, <- app_assoc. done.
Qed.

(** A whole wait. *)
Lemma pit_wait_run `{Answers} turns us l :
  pit_ends turns → 0 < us → us ≤ 52631 → ∃ steps, pit_wait turns us l = Done (tt, reverse steps ++ l) ∧ wait_log us steps.
Proof.
  intros Hp H0 H1. pose proof (prepare_run us l H0 H1) as E1. cbv zeta in E1. unfold pit_wait. rewrite (bind_run _ _ _ _ _ E1). clear E1.
  set (s1 := [_; _; _; _; _]). set (v := u8 (port_answer (reverse s1 ++ l) PIT_CHAN2_OUTPUT)).
  set (s2 := [PortIn PIT_CHAN2_OUTPUT v; PortOut PIT_CHAN2_OUTPUT (Z.land v 0xFE); PortOut PIT_CHAN2_OUTPUT (Z.lor v 1)]).
  assert (E2 : pit_start_counter (reverse s1 ++ l) = Done (tt, reverse s2 ++ reverse s1 ++ l)).
  { unfold pit_start_counter, pio_inb, pio_outb, bind, get, modify, ret. fold v. rewrite u8_of_lor1, u8_of_land by apply u8_byte. done. }
  rewrite (bind_run _ _ _ _ _ E2). clear E2.
  destruct (Hp (reverse s2 ++ reverse s1 ++ l)) as (n & Hn & Hlow).
  destruct (wait_counter_run (reverse s2 ++ reverse s1 ++ l) turns n Hn Hlow) as (busy & v3 & E3 & B & L). rewrite E3.
  exists (s1 ++ s2 ++ (PortIn PIT_CHAN2_OUTPUT <$> busy) ++ [PortIn PIT_CHAN2_OUTPUT v3]). split; [by rewrite !reverse_app, <- !app_assoc|].
  exists (u8 (port_answer l PIT_CHAN2_OUTPUT)), v, busy, v3. done.
Qed.

(** A wait accesses the timer only and loads one count. *)
Lemma wait_log_timer us steps :
  wait_log us steps → Forall timer_access (reverse steps) ∧ sent (reverse steps) (PIT_CHAN 2) = [interval_count us mod 2 ^ 8; interval_count us / 2 ^ 8].
Proof.
  intros (v1 & v2 & busy & v3 & -> & _). split.
  - apply Forall_reverse. rewrite !Forall_app, Forall_fmap. split; [repeat constructor; unfold timer_access; tauto|].
    split; [by apply Forall_true|by repeat constructor].
  - rewrite !reverse_app, !sent_app.
    assert (E : ∀ vs, sent (reverse (PortIn PIT_CHAN2_OUTPUT <$> vs)) (PIT_CHAN 2) = []).
    { intros vs. induction vs as [|x vs IH]; [done|]. cbn [fmap list_fmap]. by rewrite reverse_cons, sent_app. }
    by rewrite E.
Qed.

(** The same of its first and last parts. *)
Lemma prepare_timer `{Answers} us l :
  0 < us → us ≤ 52631 →
  ∃ new, pit_prepare_counter us l = Done (tt, new ++ l) ∧
    sent new (PIT_CHAN 2) = [interval_count us mod 2 ^ 8; interval_count us / 2 ^ 8] ∧ Forall timer_access new.
Proof.
  intros H0 H1. eexists. split; [exact (prepare_run us l H0 H1)|]. split; [done|].
  apply Forall_reverse. repeat constructor; unfold timer_access; tauto.
Qed.

Lemma wait_counter_timer `{Answers} turns l :
  pit_ends turns → ∃ new, pit_wait_counter turns l = Done (tt, new ++ l) ∧ Forall timer_access new ∧ ∀ p, sent new p = [].
Proof.
  intros Hp. destruct (Hp l) as (n & Hn & Hlow). destruct (wait_counter_run l turns n Hn Hlow) as (busy & v & E & _).
  eexists. split; [exact E|]. rewrite reverse_app. split.
  - apply Forall_app. split; [by repeat constructor|]. apply Forall_reverse, Forall_fmap. by apply Forall_true.
  - intros p. clear E. induction busy as [|x busy IH]; [done|]. rewrite !sent_app in IH |- *. apply app_nil in IH as [IH _]. rewrite fmap_cons, (reverse_cons _ (PortIn _ x)), sent_app, IH. done.
Qed.
