(* ===== verification/IoApic.v ===== *)
(** * I/O APICs: routing of device interrupts

    The I/O APIC half of arch/i386/cpu/apic.c with its constants of apic_types.h.  The list of
    controllers and the default assignee are the value guarded by ioapics_spinlock; register
    accesses go to the history of [Platform].  [io_reg] reads a controller's registers off that
    history: a write to the select register chooses the register the window writes. *)

From stdpp Require Import base list strings.
From Stdlib Require Import ZArith Lia.
From S2P Require Import Prelude Cpu MemLayout Interrupts Platform.

(** ** apic_types.h *)

Definition IOAPIC_REGSEL : Z := 0.
Definition IOAPIC_REGWIN : Z := 0x10 / 4.
Definition IOAPIC_REG_REDLO (n : Z) : Z := 0x10 + 2 * n.
Definition IOAPIC_REG_REDHI (n : Z) : Z := 0x11 + 2 * n.
Definition IOAPIC_INT_MASKED : Z := 0x10000.
Definition ioapic_dest (x : Z) : Z := u32 (Z.shiftl (Z.land x 0xFF) 24).
Definition ioapic_vector (x : Z) : Z := Z.land x 0xFF.

Record ioapic := mk_ioapic {
  ia_addr : Z;
  ia_id : Z;
  ia_offset : Z;
  ia_size : Z;
}.

Record iostate := mk_io {
  io_list : list ioapic;
  io_assignee : Z;
  io_log : list access;
}.

Definition ioset_list (l : list ioapic) (s : iostate) : iostate := mk_io l (io_assignee s) (io_log s).
Definition ioset_assignee (a : Z) (s : iostate) : iostate := mk_io (io_list s) a (io_log s).
Definition ioset_log (l : list access) (s : iostate) : iostate := mk_io (io_list s) (io_assignee s) l.

Definition iosys : Type := guarded iostate.

(** ** apic.c *)

Definition io_access {A} (m : M (list access) A) : M iostate A := zoom io_log ioset_log m.

Definition raw_ioapic_write (ia : ioapic) (index val : Z) : M iostate unit :=
  io_access (mmio_write (ia_addr ia + 4 * IOAPIC_REGSEL) index) ;;;
  io_access (mmio_write (ia_addr ia + 4 * IOAPIC_REGWIN) val).

Definition ioapic_write (ia : ioapic) (flags off vec lapic_id : Z) : M iostate unit :=
  raw_ioapic_write ia (IOAPIC_REG_REDHI off) (ioapic_dest lapic_id) ;;;
  raw_ioapic_write ia (IOAPIC_REG_REDLO off) (Z.lor flags (ioapic_vector vec)).

Fixpoint ioapic_get (l : list ioapic) (irq : Z) : option ioapic :=
  match l with
  | [] => None
  | ia :: l => if (ia_offset ia <=? irq) && (irq - ia_offset ia <? ia_size ia) then Some ia else ioapic_get l irq
  end.

Definition ioapic_register (vm_map : list vm_region) (base id offset size : Z) : M iosys unit :=
  addr <- (fun s => match vm_map_walk vm_map base true with Done v => Done (v, s) | Panic w => Panic w | Hang => Hang end) ;;
  on_val (modify (fun s => ioset_list (mk_ioapic addr id offset size :: io_list s) s)).

Fixpoint mask_all (l : list ioapic) : M iostate unit :=
  match l with
  | [] => ret tt
  | ia :: l =>
      for_up (Z.to_nat (ia_size ia)) 0 (fun i =>
        id <- gets io_assignee ;; ioapic_write ia IOAPIC_INT_MASKED i 0 id) ;;;
      mask_all l
  end.

Definition init_ioapics : M iosys unit :=
  b <- gets (fun s => yaos2_initialized (ls_mach (g_ls s))) ;;
  kassert "is_yaos2_initialized() == false" (negb b) ;;;
  cpu <- on_lock (on_mach cpu_current) ;;
  c <- on_lock (on_mach (read_cpu cpu)) ;;
  on_val (modify (ioset_assignee (lapic_id c))) ;;;
  l <- on_val (gets io_list) ;;
  on_val (mask_all l) ;;;
  on_lock (set_lock (fun _ => cpu_spinlock_create)).

Definition ioapic_assign (vector lapic_id : Z) : M iosys unit := kpanic "ioapic_assign(): not implemented".

Definition ioapic_set_mask (vector : Z) : M iosys unit :=
  on_lock cpu_spinlock_acquire ;;;
  let irq := u8 (vector - INT_IRQ0) in
  l <- on_val (gets io_list) ;;
  match ioapic_get l irq with
  | None => kpanic "ia"
  | Some ia =>
      id <- on_val (gets io_assignee) ;;
      on_val (ioapic_write ia IOAPIC_INT_MASKED (irq - ia_offset ia) 0 id) ;;;
      on_lock cpu_spinlock_release
  end.

Definition ioapic_clear_mask (vector : Z) : M iosys unit :=
  on_lock cpu_spinlock_acquire ;;;
  let irq := u8 (vector - INT_IRQ0) in
  l <- on_val (gets io_list) ;;
  match ioapic_get l irq with
  | None => kpanic "ia"
  | Some ia =>
      id <- on_val (gets io_assignee) ;;
      on_val (ioapic_write ia 0 (irq - ia_offset ia) vector id) ;;;
      on_lock cpu_spinlock_release
  end.

(** ** The controllers' registers *)

Fixpoint io_sel (l : list access) (base : Z) : Z :=
  match l with
  | [] => 0
  | MmioWr a v :: l => if a =? base then u8 v else io_sel l base
  | _ :: l => io_sel l base
  end.

(** [None] for a register that was not written. *)
Fixpoint io_reg (l : list access) (base index : Z) : option Z :=
  match l with
  | [] => None
  | MmioWr a v :: l => if (a =? base + 16) && (io_sel l base =? index) then Some v else io_reg l base index
  | _ :: l => io_reg l base index
  end.

(** A redirection entry: the line is masked, or its interrupts go to the local APIC [dest] as
    vector [vec]. *)
Inductive line : Type :=
| Unknown
| Masked
| Routed (vec dest : Z).

Definition entry (lo hi : option Z) : line :=
  match lo, hi with
  | Some lo, Some hi => if Z.testbit lo 16 then Masked else Routed (Z.land lo 0xFF) (Z.shiftr hi 24)
  | _, _ => Unknown
  end.

Definition line_at (l : list access) (ia : ioapic) (n : Z) : line :=
  entry (io_reg l (ia_addr ia) (IOAPIC_REG_REDLO n)) (io_reg l (ia_addr ia) (IOAPIC_REG_REDHI n)).

(** Where interrupts of a line go: [None] when no controller has it. *)
Definition route (s : iostate) (irq : Z) : option line :=
  match ioapic_get (io_list s) irq with
  | Some ia => Some (line_at (io_log s) ia (irq - ia_offset ia))
  | None => None
  end.

(** ** The invariant *)

(** The register windows of two controllers do not overlap. *)
Definition apart (a b : Z) : Prop := a + 20 ≤ b ∨ b + 20 ≤ a.

Record ioapics_ok (l : list ioapic) : Prop := {
  ok_apart : ∀ i j x y, l !! i = Some x → l !! j = Some y → i ≠ j → apart (ia_addr x) (ia_addr y);
  ok_range : ∀ x, x ∈ l → 0 ≤ ia_offset x ∧ 0 < ia_size x ≤ 24 ∧ ia_offset x + ia_size x ≤ 256;
  ok_lines : ∀ i j x y irq, l !! i = Some x → l !! j = Some y →
    ia_offset x ≤ irq < ia_offset x + ia_size x → ia_offset y ≤ irq < ia_offset y + ia_size y → i = j;
}.

(** ** Lemmas *)

Lemma get_in l irq ia :
  ioapic_get l irq = Some ia → ia ∈ l ∧ ia_offset ia ≤ irq < ia_offset ia + ia_size ia.
Proof.
  induction l as [|x l IH]; [done|]. cbn. destruct (_ && _) eqn:E.
  - intros [= <-]. apply andb_prop in E as [E1 E2]. apply Z.leb_le in E1. apply Z.ltb_lt in E2. split; [left|lia].
  - intros H. destruct (IH H) as [H1 H2]. split; [by right|done].
Qed.

(** The log after an entry was written. *)
Definition entry_log (l : list access) (ia : ioapic) (n lo hi : Z) : list access :=
  MmioWr (ia_addr ia + 16) lo :: MmioWr (ia_addr ia) (IOAPIC_REG_REDLO n) :: MmioWr (ia_addr ia + 16) hi :: MmioWr (ia_addr ia) (IOAPIC_REG_REDHI n) :: l.

Lemma ioapic_write_run ia flags n vec id s :
  0 ≤ n < 24 → 0 ≤ flags < 2 ^ 32 →
  ioapic_write ia flags n vec id s = Done (tt, ioset_log (entry_log (io_log s) ia n (Z.lor flags (ioapic_vector vec)) (ioapic_dest id)) s).
Proof.
  intros Hn Hf. unfold ioapic_write, raw_ioapic_write, io_access, zoom, mmio_write, modify, bind. cbn.
  replace (4 * IOAPIC_REGSEL) with 0 by done. change (4 * IOAPIC_REGWIN) with 16. rewrite !Z.add_0_r.
  unfold entry_log. unfold IOAPIC_REG_REDHI, IOAPIC_REG_REDLO. rewrite (u32_small (0x11 + 2 * n)), (u32_small (0x10 + 2 * n)) by lia.
  rewrite (u32_small (ioapic_dest id)) by apply u32_range. rewrite (u32_small (Z.lor _ _)); [done|].
  assert (Hv : 0 ≤ ioapic_vector vec < 2 ^ 8).
  { unfold ioapic_vector. change 0xFF with (Z.ones 8). rewrite Z.land_ones by lia. apply Z.mod_pos_bound. lia. }
  split; [apply Z.lor_nonneg; lia|]. destruct (Z.eq_dec (Z.lor flags (ioapic_vector vec)) 0) as [->|]; [lia|].
  apply Z.log2_lt_pow2; [pose proof (proj2 (Z.lor_nonneg flags (ioapic_vector vec))); lia|]. rewrite Z.log2_lor by lia. apply Z.max_lub_lt.
  - destruct (Z.eq_dec flags 0) as [->|]; [done|]. apply Z.log2_lt_pow2; lia.
  - destruct (Z.eq_dec (ioapic_vector vec) 0) as [->|]; [done|]. apply Z.log2_lt_pow2; lia.
Qed.

Lemma entry_log_same l ia n lo hi k :
  0 ≤ n < 24 → 0 ≤ k < 24 →
  line_at (entry_log l ia n lo hi) ia k = if k =? n then entry (Some lo) (Some hi) else line_at l ia k.
Proof.
  intros Hn Hk. unfold line_at, entry_log. cbn [io_reg io_sel].
  rewrite !Z.eqb_refl. rewrite !(proj2 (Z.eqb_neq (ia_addr ia) (ia_addr ia + 16))) by lia.
  rewrite !(proj2 (Z.eqb_neq (ia_addr ia + 16) (ia_addr ia))) by lia. cbn [andb].
  unfold IOAPIC_REG_REDLO, IOAPIC_REG_REDHI. rewrite !u8_small by lia. destruct (Z.eqb_spec k n) as [->|Hne].
  - rewrite Z.eqb_refl. rewrite (proj2 (Z.eqb_neq (0x10 + 2 * n) (0x11 + 2 * n))) by lia. by rewrite Z.eqb_refl.
  - rewrite !(proj2 (Z.eqb_neq _ _)) by lia. done.
Qed.

Lemma entry_log_other l ia ib n lo hi k :
  apart (ia_addr ia) (ia_addr ib) → line_at (entry_log l ia n lo hi) ib k = line_at l ib k.
Proof.
  intros Ha. unfold apart in Ha. unfold line_at, entry_log. cbn [io_reg io_sel].
  rewrite !(proj2 (Z.eqb_neq (ia_addr ia + 16) (ia_addr ib + 16))) by lia.
  by rewrite !(proj2 (Z.eqb_neq (ia_addr ia) (ia_addr ib + 16))) by lia.
Qed.

(** One entry written changes the route of its line and of no other. *)
Lemma write_route s ia i n lo hi irq :
  ioapics_ok (io_list s) → io_list s !! i = Some ia → 0 ≤ n < ia_size ia → 0 ≤ irq →
  route (ioset_log (entry_log (io_log s) ia n lo hi) s) irq =
  if irq =? ia_offset ia + n then Some (entry (Some lo) (Some hi)) else route s irq.
Proof.
  intros Ok Hi Hn Hq. destruct (ok_range _ Ok ia (list_elem_of_lookup_2 _ _ _ Hi)) as (R1 & R2 & R3). unfold route. cbn [io_list io_log ioset_log].
  destruct (ioapic_get (io_list s) irq) as [ib|] eqn:G.
  - destruct (get_in _ _ _ G) as [Gi Gr]. apply list_elem_of_lookup in Gi as [j Hj].
    destruct (ok_range _ Ok ib (list_elem_of_lookup_2 _ _ _ Hj)) as (Q1 & Q2 & Q3). destruct (decide (i = j)) as [<-|Hij].
    + assert (ib = ia) as -> by congruence. rewrite entry_log_same by lia.
      destruct (Z.eqb_spec (irq - ia_offset ia) n), (Z.eqb_spec irq (ia_offset ia + n)); try lia; done.
    + rewrite entry_log_other by (by apply (ok_apart _ Ok i j)). destruct (Z.eqb_spec irq (ia_offset ia + n)); [|done].
      exfalso. apply Hij. apply (ok_lines _ Ok i j ia ib irq Hi Hj); lia.
  - destruct (Z.eqb_spec irq (ia_offset ia + n)) as [->|]; [|done]. exfalso.
    assert (N : ∀ l, ia ∈ l → ioapic_get l (ia_offset ia + n) ≠ None).
    { induction l as [|x l IH]; intros Hin; [by apply not_elem_of_nil in Hin|]. cbn. destruct (_ && _) eqn:E; [done|].
      apply elem_of_cons in Hin as [->|Hin]; [|by apply IH]. apply andb_false_iff in E as [E|E]; [apply Z.leb_gt in E|apply Z.ltb_ge in E]; lia. }
    by apply (N (io_list s) (list_elem_of_lookup_2 _ _ _ Hi)).
Qed.

Lemma entry_masked hi : entry (Some (Z.lor IOAPIC_INT_MASKED (ioapic_vector 0))) (Some hi) = Masked.
Proof. done. Qed.

Lemma entry_routed vec id :
  0 ≤ vec < 256 → 0 ≤ id < 256 → entry (Some (Z.lor 0 (ioapic_vector vec))) (Some (ioapic_dest id)) = Routed vec id.
Proof.
  intros Hv Hd. unfold entry, ioapic_vector, ioapic_dest. rewrite Z.lor_0_l. change 0xFF with (Z.ones 8).
  rewrite !Z.land_ones, !(Z.mod_small _ (2 ^ 8)) by lia. rewrite Z.shiftl_mul_pow2, Z.shiftr_div_pow2 by lia.
  rewrite u32_small by lia. rewrite Z.div_mul by lia. destruct (Z.eq_dec vec 0) as [->|]; [done|].
  rewrite Z.bits_above_log2; [done|lia|]. assert (Z.log2 vec < 8) by (apply Z.log2_lt_pow2; lia). lia.
Qed.

(** *** Masking everything *)

Definition has_line (ia : ioapic) (irq : Z) : bool := (ia_offset ia <=? irq) && (irq - ia_offset ia <? ia_size ia).

Lemma ioset_log_log a b s : ioset_log a (ioset_log b s) = ioset_log a s.
Proof. done. Qed.

Lemma mask_one_run ia i s :
  ioapics_ok (io_list s) → io_list s !! i = Some ia →
  ∃ L, for_up (Z.to_nat (ia_size ia)) 0 (fun k => id <- gets io_assignee ;; ioapic_write ia IOAPIC_INT_MASKED k 0 id) s = Done (tt, ioset_log L s) ∧
    ∀ irq, 0 ≤ irq → route (ioset_log L s) irq = if has_line ia irq then Some Masked else route s irq.
Proof.
  intros Ok Hi. destruct (ok_range _ Ok ia (list_elem_of_lookup_2 _ _ _ Hi)) as (R1 & R2 & R3).
  destruct (for_up_inv (fun k s' => ∃ L, s' = ioset_log L s ∧
    ∀ irq, 0 ≤ irq → route s' irq = if (ia_offset ia <=? irq) && (irq - ia_offset ia <? k) then Some Masked else route s irq)
    (fun k => id <- gets io_assignee ;; ioapic_write ia IOAPIC_INT_MASKED k 0 id) (Z.to_nat (ia_size ia)) 0 s) as (s' & E & L & -> & H).
  - exists (io_log s). split; [by destruct s|]. intros irq Hq. destruct (_ && _) eqn:B; [|done]. apply andb_prop in B as [B1 B2].
    apply Z.leb_le in B1. apply Z.ltb_lt in B2. lia.
  - intros k s0 Hk (L & -> & H). eexists. split; [unfold bind at 1, gets; apply ioapic_write_run; [lia|done]|].
    rewrite ioset_log_log. eexists. split; [done|]. intros irq Hq.
    pose proof (write_route (ioset_log L s) ia i k (Z.lor IOAPIC_INT_MASKED (ioapic_vector 0)) (ioapic_dest (io_assignee (ioset_log L s))) irq Ok Hi
      ltac:(lia) Hq) as W. rewrite ioset_log_log, entry_masked, (H irq Hq) in W. rewrite W.
    destruct (Z.eqb_spec irq (ia_offset ia + k)), (Z.leb_spec (ia_offset ia) irq), (Z.ltb_spec (irq - ia_offset ia) k), (Z.ltb_spec (irq - ia_offset ia) (k + 1));
      try lia; done.
  - exists L. split; [done|]. intros irq Hq. rewrite (H irq Hq). unfold has_line. by rewrite Z.add_0_l, Z2Nat.id by lia.
Qed.

Lemma mask_all_run l s :
  ioapics_ok (io_list s) → (∀ ia, ia ∈ l → ia ∈ io_list s) →
  ∃ L, mask_all l s = Done (tt, ioset_log L s) ∧
    ∀ irq, 0 ≤ irq → route (ioset_log L s) irq = if existsb (fun ia => has_line ia irq) l then Some Masked else route s irq.
Proof.
  revert s. induction l as [|ia l IH]; intros s Ok Hin.
  - exists (io_log s). split; [by destruct s|done].
  - destruct (proj1 (list_elem_of_lookup _ _) (Hin ia ltac:(left))) as [i Hi].
    destruct (mask_one_run ia i s Ok Hi) as (L & E & R). destruct (IH (ioset_log L s) Ok) as (L' & E' & R').
    { intros x Hx. apply Hin. by right. }
    exists L'. cbn [mask_all]. rewrite (bind_run _ _ _ _ _ E), E'. split; [done|]. intros irq Hq. rewrite ioset_log_log in R'.
    rewrite (R' irq Hq), (R irq Hq). cbn [existsb]. by destruct (has_line ia irq), (existsb _ l).
Qed.

Lemma get_exists l irq : existsb (fun ia => has_line ia irq) l = match ioapic_get l irq with Some _ => true | None => false end.
Proof. induction l as [|x l IH]; cbn; [done|]. unfold has_line at 1. by destruct (_ && _). Qed.

(** *** One operation *)

Definition irq_of (vector : Z) : Z := u8 (vector - INT_IRQ0).

Lemma set_line_run (vec vector flags : Z) (s : iosys) ia :
  unlocked (g_ls s) → ioapics_ok (io_list (g_val s)) → ioapic_get (io_list (g_val s)) (irq_of vector) = Some ia → 0 ≤ flags < 2 ^ 32 →
  let L := entry_log (io_log (g_val s)) ia (irq_of vector - ia_offset ia) (Z.lor flags (ioapic_vector vec)) (ioapic_dest (io_assignee (g_val s))) in
  (on_lock cpu_spinlock_acquire ;;;
   id <- on_val (gets io_assignee) ;;
   on_val (ioapic_write ia flags (irq_of vector - ia_offset ia) vec id) ;;;
   on_lock cpu_spinlock_release) s = Done (tt, mk_guarded (g_ls s) (ioset_log L (g_val s))) ∧
  ∀ irq, 0 ≤ irq → route (ioset_log L (g_val s)) irq =
    if irq =? irq_of vector then Some (entry (Some (Z.lor flags (ioapic_vector vec))) (Some (ioapic_dest (io_assignee (g_val s))))) else route (g_val s) irq.
Proof.
  intros Hu Ok Hg Hf L. destruct s as [ls t]. cbn [g_ls g_val] in *. destruct (get_in _ _ _ Hg) as [Hin Hr].
  destruct (ok_range _ Ok ia Hin) as (R1 & R2 & R3). apply list_elem_of_lookup in Hin as [i Hi]. split.
  - rewrite enter_run by done. unfold bind at 1, on_val at 1, zoom at 1, gets. cbn [g_val g_ls].
    assert (E : on_val (ioapic_write ia flags (irq_of vector - ia_offset ia) vec (io_assignee t)) (mk_guarded (entered ls) t) =
      Done (tt, mk_guarded (entered ls) (ioset_log L t))).
    { unfold on_val, zoom. cbn [g_val g_ls]. rewrite ioapic_write_run by lia. done. }
    rewrite (bind_run _ _ _ _ _ E). by apply leave_last.
  - intros irq Hq. unfold L. rewrite (write_route t ia i) by (try done; lia). by replace (ia_offset ia + (irq_of vector - ia_offset ia)) with (irq_of vector) by lia.
Qed.

Lemma masks_panic (f : list ioapic → option ioapic) (k : ioapic → M iosys unit) (s : iosys) :
  unlocked (g_ls s) → f (io_list (g_val s)) = None →
  (on_lock cpu_spinlock_acquire ;;; l <- on_val (gets io_list) ;; match f l with None => kpanic "ia" | Some ia => k ia end) s = Panic "ia".
Proof.
  intros Hu Hf. destruct s as [ls t]. cbn [g_ls g_val] in *. rewrite enter_run by done. unfold bind at 1, on_val at 1, zoom at 1, gets. cbn [g_val]. by rewrite Hf.
Qed.

Lemma masks_get (f : list ioapic → option ioapic) (k : ioapic → M iosys unit) (s : iosys) ia :
  unlocked (g_ls s) → f (io_list (g_val s)) = Some ia →
  (on_lock cpu_spinlock_acquire ;;; l <- on_val (gets io_list) ;; match f l with None => kpanic "ia" | Some ia => k ia end) s =
  (on_lock cpu_spinlock_acquire ;;; k ia) s.
Proof.
  intros Hu Hf. destruct s as [ls t]. cbn [g_ls g_val] in *. rewrite !enter_run by done. unfold bind at 1, on_val at 1, zoom at 1, gets. cbn [g_val]. by rewrite Hf.
Qed.

(** ** Specification *)

(** The operations drivers use. *)
Inductive io_op : Type :=
| OpMask (vector : Z)
| OpUnmask (vector : Z).

Definition op_vector (o : io_op) : Z := match o with OpMask v | OpUnmask v => v end.

Definition run_io (o : io_op) : M iosys unit :=
  match o with OpMask v => ioapic_set_mask v | OpUnmask v => ioapic_clear_mask v end.

Fixpoint run_ios (os : list io_op) : M iosys unit :=
  match os with [] => ret tt | o :: os => run_io o ;;; run_ios os end.

(** A routing table; its operations fail for a line no controller has. *)
Definition routing : Type := Z → option line.

Definition spec_io (id : Z) (o : io_op) (T : routing) : option routing :=
  let irq := irq_of (op_vector o) in
  match T irq with
  | None => None
  | Some _ => Some (fun i => if i =? irq then Some (match o with OpMask _ => Masked | OpUnmask v => Routed v id end) else T i)
  end.

Fixpoint spec_ios (id : Z) (os : list io_op) (T : routing) : option routing :=
  match os with
  | [] => Some T
  | o :: os => match spec_io id o T with Some T' => spec_ios id os T' | None => None end
  end.

Definition io_ready (s : iosys) : Prop := unlocked (g_ls s) ∧ ioapics_ok (io_list (g_val s)) ∧ 0 ≤ io_assignee (g_val s) < 256.

Lemma run_io_refines (o : io_op) (s : iosys) (T : routing) :
  io_ready s → 0 ≤ op_vector o < 256 → (∀ irq, 0 ≤ irq → route (g_val s) irq = T irq) →
  match spec_io (io_assignee (g_val s)) o T with
  | Some T' => ∃ s', run_io o s = Done (tt, s') ∧ io_ready s' ∧ io_assignee (g_val s') = io_assignee (g_val s) ∧
      ∀ irq, 0 ≤ irq → route (g_val s') irq = T' irq
  | None => run_io o s = Panic "ia"
  end.
Proof.
  intros (Hu & Ok & Ha) Hv HT. assert (Hq : 0 ≤ irq_of (op_vector o)) by apply u8_range.
  unfold spec_io. rewrite <- (HT _ Hq). unfold route at 1. destruct (ioapic_get _ (irq_of (op_vector o))) as [ia|] eqn:G.
  - destruct o as [v|v]; cbn [op_vector run_io] in *.
    + destruct (set_line_run 0 v IOAPIC_INT_MASKED s ia Hu Ok G ltac:(done)) as [E R]. rewrite entry_masked in R.
      eexists. split; [unfold ioapic_set_mask; rewrite (masks_get (fun l => ioapic_get l (u8 (v - INT_IRQ0))) _ s ia Hu G); exact E|].
      split; [by split|]. split; [done|]. intros irq Hirq. cbn [g_val]. rewrite (R irq Hirq). by rewrite (HT irq Hirq).
    + destruct (set_line_run v v 0 s ia Hu Ok G ltac:(done)) as [E R]. rewrite entry_routed in R by done.
      eexists. split; [unfold ioapic_clear_mask; rewrite (masks_get (fun l => ioapic_get l (u8 (v - INT_IRQ0))) _ s ia Hu G); exact E|].
      split; [by split|]. split; [done|]. intros irq Hirq. cbn [g_val]. rewrite (R irq Hirq). by rewrite (HT irq Hirq).
  - destruct o as [v|v]; cbn [op_vector run_io] in *.
    + exact (masks_panic (fun l => ioapic_get l (u8 (v - INT_IRQ0))) _ s Hu G).
    + exact (masks_panic (fun l => ioapic_get l (u8 (v - INT_IRQ0))) _ s Hu G).
Qed.

Lemma run_ios_refines os (s : iosys) (T : routing) :
  io_ready s → Forall (fun o => 0 ≤ op_vector o < 256) os → (∀ irq, 0 ≤ irq → route (g_val s) irq = T irq) →
  match spec_ios (io_assignee (g_val s)) os T with
  | Some T' => ∃ s', run_ios os s = Done (tt, s') ∧ io_ready s' ∧ ∀ irq, 0 ≤ irq → route (g_val s') irq = T' irq
  | None => run_ios os s = Panic "ia"
  end.
Proof.
  intros Hr Ho. revert s T Hr. induction Ho as [|o os Hv Ho IH]; intros s T Hr HT; cbn [run_ios spec_ios]; [by exists s|].
  pose proof (run_io_refines o s T Hr Hv HT) as H. destruct (spec_io _ o T) as [T'|]; [|by apply bind_Panic].
  destruct H as (s1 & E & Hr1 & Ea & HT1). rewrite (bind_run _ _ _ _ _ E). rewrite <- Ea. by apply IH.
Qed.

Lemma init_ioapics_run (s : iosys) i c :
  yaos2_initialized (ls_mach (g_ls s)) = false → running_on (ls_mach (g_ls s)) i c → num c ≠ CPU_SPINLOCK_INVALID_CPU →
  0 ≤ lapic_id c < 256 → ioapics_ok (io_list (g_val s)) →
  ∃ s', init_ioapics s = Done (tt, s') ∧ io_ready s' ∧ io_assignee (g_val s') = lapic_id c ∧ io_list (g_val s') = io_list (g_val s) ∧
    ls_mach (g_ls s') = ls_mach (g_ls s) ∧
    ∀ irq, 0 ≤ irq → route (g_val s') irq = match ioapic_get (io_list (g_val s)) irq with Some _ => Some Masked | None => None end.
Proof.
  intros Hy RO Hn Hl Ok. destruct s as [[m l] t]. cbn [g_ls g_val ls_mach] in *. unfold init_ioapics.
  unfold bind at 1, gets at 1. cbn [g_ls ls_mach]. rewrite Hy. rewrite (bind_run _ _ (mk_guarded (mk_ls m l) t) tt (mk_guarded (mk_ls m l) t)) by done.
  assert (E1 : on_lock (on_mach cpu_current) (mk_guarded (mk_ls m l) t) = Done (CpuAt i, mk_guarded (mk_ls m l) t)).
  { unfold on_lock, on_mach, zoom. cbn [g_ls ls_mach]. by rewrite (cpu_current_run _ _ _ RO). }
  assert (E2 : on_lock (on_mach (read_cpu (CpuAt i))) (mk_guarded (mk_ls m l) t) = Done (c, mk_guarded (mk_ls m l) t)).
  { unfold on_lock, on_mach, zoom. cbn [g_ls ls_mach]. by rewrite (read_cpu_run _ _ _ RO). }
  rewrite (bind_run _ _ _ _ _ E1), (bind_run _ _ _ _ _ E2).
  destruct (mask_all_run (io_list t) (ioset_assignee (lapic_id c) t)) as (L & E & R); [done|done|].
  unfold bind at 1, on_val at 1, zoom at 1, modify at 1. cbn [g_val g_ls]. unfold bind at 1, on_val at 1, zoom at 1, gets. cbn [g_val g_ls].
  unfold bind at 1, on_val at 1, zoom at 1. cbn [g_val g_ls]. change (io_list (ioset_assignee (lapic_id c) t)) with (io_list t). rewrite E.
  eexists. split; [reflexivity|]. cbn [g_val g_ls ls_mach]. split.
  - split; [|split; [exact Ok|exact Hl]]. left. split; [done|]. by exists i, c.
  - split; [done|]. split; [done|]. split; [done|]. intros irq Hq. rewrite (R irq Hq), get_exists.
    unfold route. cbn [io_list ioset_assignee]. by destruct (ioapic_get (io_list t) irq).
Qed.

(** ** Properties *)

(** C20: the I/O APIC driver implements an interrupt routing table.  Initialisation masks
    every line of every controller; after it, any sequence of ioapic_clear_mask and
    ioapic_set_mask leaves each line exactly as the last operation on it says — masked, or
    delivered as the vector asked for to the boot CPU — and touches no other line, over all
    controllers; an operation on a line no controller has stops the kernel. *)
Theorem ioapic_refines_routing (s : iosys) i c os :
  yaos2_initialized (ls_mach (g_ls s)) = false → running_on (ls_mach (g_ls s)) i c → num c ≠ CPU_SPINLOCK_INVALID_CPU →
  0 ≤ lapic_id c < 256 → ioapics_ok (io_list (g_val s)) → Forall (fun o => 0 ≤ op_vector o < 256) os →
  let all_masked irq := match ioapic_get (io_list (g_val s)) irq with Some _ => Some Masked | None => None end in
  match spec_ios (lapic_id c) os all_masked with
  | Some T => ∃ s', (init_ioapics ;;; run_ios os) s = Done (tt, s') ∧ ∀ irq, 0 ≤ irq → route (g_val s') irq = T irq
  | None => (init_ioapics ;;; run_ios os) s = Panic "ia"
  end.
Proof.
  intros Hy RO Hn Hl Ok Ho all_masked. destruct (init_ioapics_run s i c Hy RO Hn Hl Ok) as (s1 & E & Hr & Ea & _ & _ & HT).
  pose proof (run_ios_refines os s1 all_masked Hr Ho HT) as H. rewrite Ea in H.
  destruct (spec_ios _ os all_masked) as [T|]; rewrite (bind_run _ _ _ _ _ E); [|done].
  destruct H as (s' & E' & _ & R). by exists s'.
Qed.

(** Two controllers of a machine whose CPU 0 has local APIC 0; the serial ports are enabled
    and the first disabled again. *)
Definition example_ioapics : iosys :=
  mk_guarded (mk_ls (mk_machine [mk_cpu X86_CPU_MAGIC 0 false 0 false 0 0] 1 zero_cpu 0 false 0 0 false) free_lock)
    (mk_io [mk_ioapic 0xFEC01000 1 24 24; mk_ioapic 0xFEC00000 0 0 24] 0 []).

Lemma ioapic_refines_routing_witness :
  ∃ s', (init_ioapics ;;; run_ios [OpUnmask 36; OpUnmask 35; OpMask 36]) example_ioapics = Done (tt, s') ∧
    route (g_val s') 3 = Some (Routed 35 0) ∧ route (g_val s') 4 = Some Masked ∧ route (g_val s') 47 = Some Masked ∧ route (g_val s') 48 = None.
Proof.
  pose proof (ioapic_refines_routing example_ioapics 0 (mk_cpu X86_CPU_MAGIC 0 false 0 false 0 0) [OpUnmask 36; OpUnmask 35; OpMask 36]) as H.
  cbv zeta in H. destruct H as (s' & E & R).
  - reflexivity.
  - split; try reflexivity; try lia; discriminate.
  - discriminate.
  - cbn. lia.
  - split.
    + intros j k x y Hj Hk Hne. cbn in Hj, Hk. destruct j as [|[|j]], k as [|[|k]]; cbn in Hj, Hk; try discriminate; try (exfalso; by apply Hne);
        injection Hj as <-; injection Hk as <-; unfold apart; cbn; lia.
    + intros x Hx. apply list_elem_of_In in Hx. destruct Hx as [<-|[<-|[]]]; cbn; lia.
    + intros j k x y q Hj Hk Hx Hy. cbn in Hj, Hk. destruct j as [|[|j]], k as [|[|k]]; cbn in Hj, Hk; try discriminate; try reflexivity;
        injection Hj as <-; injection Hk as <-; cbn in Hx, Hy; lia.
  - repeat constructor; cbn; lia.
  - exists s'. split; [exact E|]. rewrite !R by lia. split; [reflexivity|]. split; [reflexivity|]. split; reflexivity.
Defined.
