(* ===== verification/Mpt.v ===== *)
(** * mpt.c: the multiprocessor tables

    Finding the MP floating pointer structure in the BIOS areas, walking the configuration
    table and registering the CPUs and I/O APICs it lists.  The tables are in byte memory;
    CPUs go to the CPU table of [Cpu], controllers to the list of [IoApic].  [mpt_dump] only
    prints the table. *)

From stdpp Require Import base list strings.
From Stdlib Require Import ZArith Lia.
From S2P Require Import Prelude Memory KUtils Cpu MemLayout Platform IoApic.

(** ** mpt_types.h *)

Definition sizeof_mp_fps : Z := 16.
Definition sizeof_mp_conf_header : Z := 44.
Definition MP_CONF_PROC : Z := 0.
Definition MP_CONF_BUS : Z := 1.
Definition MP_CONF_IOAPIC : Z := 2.
Definition MP_CONF_IOINT : Z := 3.
Definition MP_CONF_LINT : Z := 4.
Definition sizeof_mp_conf_proc : Z := 20.
Definition sizeof_mp_conf_bus : Z := 8.
Definition sizeof_mp_conf_ioapic : Z := 8.
Definition sizeof_mp_conf_ioint : Z := 8.
Definition sizeof_mp_conf_lint : Z := 8.
Definition MP_CONF_IOAPIC_EN : Z := 1.

Definition EBDA_START : Z := km_vaddr 0x0009FC00.
Definition EBDA_END : Z := km_vaddr 0x000A0000.
Definition BASE_MEM_TOP_START : Z := km_vaddr (639 * 0x400).
Definition BASE_MEM_TOP_END : Z := km_vaddr (640 * 0x400).
Definition BIOS_ROM_START : Z := km_vaddr 0x000F0000.
Definition BIOS_ROM_END : Z := km_vaddr 0x00100000.

(** Fields of the packed structures. *)
Definition load16 (m : mem) (a : Z) : Z := m a + 2 ^ 8 * m (a + 1).
Definition fps_mp_conf_addr (m : mem) (fps : Z) : Z := load32 m (fps + 4).
Definition header_entry_count (m : mem) (h : Z) : Z := load16 m (h + 34).
Definition header_lapic_addr (m : mem) (h : Z) : Z := load32 m (h + 36).
Definition entry_type (m : mem) (e : Z) : Z := m e.
Definition proc_lapic_id (m : mem) (e : Z) : Z := m (e + 1).
Definition ioapic_id_field (m : mem) (e : Z) : Z := m (e + 1).
Definition ioapic_flags (m : mem) (e : Z) : Z := m (e + 3).
Definition ioapic_addr (m : mem) (e : Z) : Z := load32 m (e + 4).

(** ** State *)

Record mpsys := mk_mp {
  mp_mem : mem;
  mpt_fps : option Z;
  mpt_header : option Z;
  ioapic_offset : Z;
  mp_sys : iosys;
}.

Definition mpset_found (f h : Z) (s : mpsys) : mpsys := mk_mp (mp_mem s) (Some f) (Some h) (ioapic_offset s) (mp_sys s).
Definition mpset_offset (o : Z) (s : mpsys) : mpsys := mk_mp (mp_mem s) (mpt_fps s) (mpt_header s) o (mp_sys s).
Definition mpset_sys (x : iosys) (s : mpsys) : mpsys := mk_mp (mp_mem s) (mpt_fps s) (mpt_header s) (ioapic_offset s) x.

Definition on_io {A} (m : M iosys A) : M mpsys A := zoom mp_sys mpset_sys m.
Definition mp_machine (s : mpsys) : machine := ls_mach (g_ls (mp_sys s)).

Definition before_initialized : M mpsys unit :=
  s <- get ;; kassert "is_yaos2_initialized() == false" (negb (yaos2_initialized (mp_machine s))).

(** ** mpt.c *)

Section code.
(** The memory map, the address of the string MP_FPS_SIGNATURE, and the answer of
    cpu_has_cpuid. *)
Variables (vm_map : list vm_region) (MP_FPS_SIGNATURE : Z) (cpu_has_cpuid : bool).

Fixpoint scan_loop (fuel : nat) (start end_ : Z) : M mpsys bool :=
  match fuel with
  | O => hang
  | S fuel =>
      if start <? end_ - sizeof_mp_fps + 1 then
        s <- get ;;
        let fps := start in
        let start := start + 1 in
        if kstrncmp (mp_mem s) fps MP_FPS_SIGNATURE 4 then
          match vm_map_walk vm_map (fps_mp_conf_addr (mp_mem s) fps) true with
          | Done h => modify (mpset_found fps h) ;;; ret true
          | Panic w => kpanic w
          | Hang => hang
          end
        else scan_loop fuel start end_
      else ret false
  end.

Definition scan_range (start end_ : Z) : M mpsys bool := scan_loop (S (Z.to_nat (end_ - start))) start end_.

Definition mpt_scan : M mpsys bool :=
  before_initialized ;;;
  b <- scan_range EBDA_START EBDA_END ;;
  if (b : bool) then ret true else
  b <- scan_range BASE_MEM_TOP_START BASE_MEM_TOP_END ;;
  if (b : bool) then ret true else
  b <- scan_range BIOS_ROM_START BIOS_ROM_END ;;
  if (b : bool) then ret true else ret false.

(** The size of an entry of this type. *)
Definition entry_size (type : Z) : option Z :=
  if type =? MP_CONF_PROC then Some sizeof_mp_conf_proc
  else if type =? MP_CONF_BUS then Some sizeof_mp_conf_bus
  else if type =? MP_CONF_IOAPIC then Some sizeof_mp_conf_ioapic
  else if type =? MP_CONF_IOINT then Some sizeof_mp_conf_ioint
  else if type =? MP_CONF_LINT then Some sizeof_mp_conf_lint
  else None.

Fixpoint walk_loop (fuel : nat) (receiver : Z → M mpsys unit) (h i ptr : Z) : M mpsys unit :=
  match fuel with
  | O => hang
  | S fuel =>
      s <- get ;;
      if i <? header_entry_count (mp_mem s) h then
        receiver ptr ;;;
        s <- get ;;
        match entry_size (entry_type (mp_mem s) ptr) with
        | Some n => walk_loop fuel receiver h (i + 1) (ptr + n)
        | None => kpanic "mpt_walk(): unknown entry"
        end
      else ret tt
  end.

(** The entry count is a 16-bit number. *)
Definition mpt_walk (receiver : Z → M mpsys unit) : M mpsys unit :=
  h <- gets mpt_header ;;
  match h with
  | None => kpanic "mpt_header"
  | Some h => walk_loop (S (Z.to_nat (2 ^ 16))) receiver h 0 (h + sizeof_mp_conf_header)
  end.

Definition mpt_enum_cpus_receiver (entry : Z) : M mpsys unit :=
  s <- get ;;
  if negb (entry_type (mp_mem s) entry =? MP_CONF_PROC) then ret tt else
  on_io (on_lock (on_mach (cpu_add cpu_has_cpuid (proc_lapic_id (mp_mem s) entry)))).

Definition mpt_enum_cpus : M mpsys unit :=
  before_initialized ;;;
  mpt_walk mpt_enum_cpus_receiver.

Definition mpt_enum_ioapics_receiver (entry : Z) : M mpsys unit :=
  s <- get ;;
  if negb (entry_type (mp_mem s) entry =? MP_CONF_IOAPIC) then ret tt else
  when (negb (Z.land (ioapic_flags (mp_mem s) entry) MP_CONF_IOAPIC_EN =? 0))
    (on_io (ioapic_register vm_map (ioapic_addr (mp_mem s) entry) (ioapic_id_field (mp_mem s) entry) (ioapic_offset s) 24) ;;;
     modify (fun s => mpset_offset (u8 (ioapic_offset s + 24)) s)).

Definition mpt_enum_ioapics : M mpsys unit :=
  before_initialized ;;;
  modify (mpset_offset 0) ;;;
  mpt_walk mpt_enum_ioapics_receiver.

End code.

(** ** Tables as data *)

Inductive mp_entry : Type :=
| EProc (id ver flags signature features reserved1 reserved2 : Z)
| EBus (id : Z) (type : list Z)
| EIoapic (id ver flags addr : Z)
| EIoint (int_type flags bus irq dest_id dest_int : Z)
| ELint (int_type flags bus irq dest_id dest_int : Z).

Definition encode (e : mp_entry) : list Z :=
  match e with
  | EProc id ver flags sig feat r1 r2 => [MP_CONF_PROC; u8 id; u8 ver; u8 flags] ++ le_bytes 4 sig ++ le_bytes 4 feat ++ le_bytes 4 r1 ++ le_bytes 4 r2
  | EBus id type => [MP_CONF_BUS; u8 id] ++ take 6 (type ++ [32; 32; 32; 32; 32; 32])
  | EIoapic id ver flags addr => [MP_CONF_IOAPIC; u8 id; u8 ver; u8 flags] ++ le_bytes 4 addr
  | EIoint t flags bus irq did dint => [MP_CONF_IOINT; u8 t] ++ le_bytes 2 flags ++ [u8 bus; u8 irq; u8 did; u8 dint]
  | ELint t flags bus irq did dint => [MP_CONF_LINT; u8 t] ++ le_bytes 2 flags ++ [u8 bus; u8 irq; u8 did; u8 dint]
  end.

Definition size_of (e : mp_entry) : Z := match e with EProc _ _ _ _ _ _ _ => 20 | _ => 8 end.

(** The configuration table at [h] lists these entries. *)
Record table_at (m : mem) (h : Z) (es : list mp_entry) : Prop := {
  ta_count : header_entry_count m h = Z.of_nat (length es);
  ta_bytes : read_bytes m (h + sizeof_mp_conf_header) (length (concat (encode <$> es))) = concat (encode <$> es);
  ta_few : Z.of_nat (length es) < 2 ^ 16;
}.

(** The local APIC ids of the CPUs, and the enabled I/O APICs with their physical addresses. *)
Definition proc_ids (es : list mp_entry) : list Z :=
  omap (fun e => match e with EProc id _ _ _ _ _ _ => Some (u8 id) | _ => None end) es.
Definition enabled_ioapics (es : list mp_entry) : list (Z * Z) :=
  omap (fun e => match e with EIoapic id _ flags addr => if Z.odd flags then Some (u8 id, u32 addr) else None | _ => None end) es.

(** The controllers as the kernel numbers their lines: 24 each, from [off]. *)
Fixpoint numbered (vm_map : list vm_region) (off : Z) (l : list (Z * Z)) : list ioapic :=
  match l with
  | [] => []
  | (id, addr) :: l =>
      mk_ioapic (match vm_map_walk vm_map addr true with Done v => v | _ => 0 end) id off 24 :: numbered vm_map (u8 (off + 24)) l
  end.

(** ** Lemmas: the search *)

Definition MP_ : list Z := [95; 77; 80; 95].
Definition sig_at (m : mem) (p : Z) : Prop := read_bytes m p 4 = MP_.

(** [f] is the first place of these areas, in order, with a signature. *)
Fixpoint first_in (areas : list (Z * Z)) (m : mem) (f : Z) : Prop :=
  match areas with
  | [] => False
  | (a, b) :: rest =>
      (a ≤ f < b - 15 ∧ sig_at m f ∧ ∀ p, a ≤ p < f → ¬ sig_at m p) ∨
      ((∀ p, a ≤ p < b - 15 → ¬ sig_at m p) ∧ first_in rest m f)
  end.

Definition areas : list (Z * Z) := [(EBDA_START, EBDA_END); (BASE_MEM_TOP_START, BASE_MEM_TOP_END); (BIOS_ROM_START, BIOS_ROM_END)].

Section lemmas.
Context (vm_map : list vm_region) (sig : Z) (cpuid : bool).

Lemma sig_kstrncmp m p : sig_at m sig → kstrncmp m p sig 4 = true ↔ sig_at m p.
Proof. intros Hs. unfold kstrncmp. change (Z.to_nat 4) with 4%nat. rewrite kstrncmp_loop_spec. unfold sig_at in *. by rewrite Hs. Qed.

Lemma scan_none fuel a b s :
  sig_at (mp_mem s) sig → (Z.to_nat (b - a) < fuel)%nat → (∀ p, a ≤ p < b - 15 → ¬ sig_at (mp_mem s) p) →
  scan_loop vm_map sig fuel a b s = Done (false, s).
Proof.
  intros Hs. revert a. induction fuel as [|fuel IH]; intros a Hf Hn; [lia|]. cbn [scan_loop]. unfold sizeof_mp_fps.
  destruct (Z.ltb_spec a (b - 16 + 1)) as [Hl|Hl]; [|done]. unfold bind at 1, get. cbv zeta.
  destruct (kstrncmp (mp_mem s) a sig 4) eqn:K; [apply (sig_kstrncmp _ _ Hs) in K; exfalso; apply (Hn a); [lia|done]|].
  apply IH; [lia|]. intros p Hp. apply Hn. lia.
Qed.

Lemma scan_found fuel a b s f h :
  sig_at (mp_mem s) sig → (Z.to_nat (b - a) < fuel)%nat → a ≤ f < b - 15 → sig_at (mp_mem s) f → (∀ p, a ≤ p < f → ¬ sig_at (mp_mem s) p) →
  vm_map_walk vm_map (fps_mp_conf_addr (mp_mem s) f) true = Done h →
  scan_loop vm_map sig fuel a b s = Done (true, mpset_found f h s).
Proof.
  intros Hs. revert a. induction fuel as [|fuel IH]; intros a Hf Ha Hsf Hn Hw; [lia|]. cbn [scan_loop]. unfold sizeof_mp_fps.
  rewrite (proj2 (Z.ltb_lt a (b - 16 + 1))) by lia. unfold bind at 1, get. cbv zeta.
  destruct (Z.eq_dec a f) as [->|Hne].
  - rewrite (proj2 (sig_kstrncmp _ f Hs) Hsf), Hw. done.
  - destruct (kstrncmp (mp_mem s) a sig 4) eqn:K; [apply (sig_kstrncmp _ _ Hs) in K; exfalso; apply (Hn a); [lia|done]|].
    apply IH; try done; [lia|lia|]. intros p Hp. apply Hn. lia.
Qed.

Lemma mpt_scan_run s f h :
  sig_at (mp_mem s) sig → yaos2_initialized (mp_machine s) = false → first_in areas (mp_mem s) f →
  vm_map_walk vm_map (fps_mp_conf_addr (mp_mem s) f) true = Done h →
  mpt_scan vm_map sig s = Done (true, mpset_found f h s).
Proof.
  intros Hs Hy Hf Hw. unfold mpt_scan. rewrite (bind_run _ _ s tt s) by (unfold before_initialized, bind, get; by rewrite Hy).
  unfold areas in Hf. cbn [first_in] in Hf. destruct Hf as [(H1 & H2 & H3)|(N1 & Hf)].
  { by rewrite (bind_run _ _ _ _ _ (scan_found _ _ _ s f h Hs (Nat.lt_succ_diag_r _) H1 H2 H3 Hw)). }
  rewrite (bind_run _ _ _ _ _ (scan_none _ _ _ s Hs (Nat.lt_succ_diag_r _) N1)). destruct Hf as [(H1 & H2 & H3)|(N2 & Hf)].
  { by rewrite (bind_run _ _ _ _ _ (scan_found _ _ _ s f h Hs (Nat.lt_succ_diag_r _) H1 H2 H3 Hw)). }
  rewrite (bind_run _ _ _ _ _ (scan_none _ _ _ s Hs (Nat.lt_succ_diag_r _) N2)). destruct Hf as [(H1 & H2 & H3)|(_ & [])].
  by rewrite (bind_run _ _ _ _ _ (scan_found _ _ _ s f h Hs (Nat.lt_succ_diag_r _) H1 H2 H3 Hw)).
Qed.

Lemma mpt_scan_nothing s :
  sig_at (mp_mem s) sig → yaos2_initialized (mp_machine s) = false →
  (∀ a b p, (a, b) ∈ areas → a ≤ p < b - 15 → ¬ sig_at (mp_mem s) p) → mpt_scan vm_map sig s = Done (false, s).
Proof.
  intros Hs Hy N. unfold mpt_scan. rewrite (bind_run _ _ s tt s) by (unfold before_initialized, bind, get; by rewrite Hy).
  do 3 (erewrite bind_run; [|apply scan_none; [done|apply Nat.lt_succ_diag_r|intros p Hp; eapply N; [|exact Hp]; apply list_elem_of_In; cbn; tauto]]; cbv beta iota).
  done.
Qed.

(** ** Lemmas: the walk *)

Lemma length_encode e : Z.of_nat (length (encode e)) = size_of e.
Proof. destruct e; cbn [encode]; rewrite ?length_app, ?length_le_bytes, ?length_take, ?length_app; cbn [length size_of]; lia. Qed.

Lemma entry_at m p e :
  read_bytes m p (length (encode e)) = encode e → entry_size (entry_type m p) = Some (size_of e).
Proof. destruct e; intros H; apply (f_equal (hd 0)) in H; cbn in H; unfold entry_type; by rewrite H. Qed.

(** Walking a table with a receiver that keeps [P] for the entries seen so far. *)
Lemma walk_run (P : list mp_entry → mpsys → Prop) receiver m h es0 :
  (∀ done e p s, mp_mem s = m → P done s → done ++ [e] `prefix_of` es0 → read_bytes m p (length (encode e)) = encode e →
    ∃ s', receiver p s = Done (tt, s') ∧ mp_mem s' = m ∧ P (done ++ [e]) s') →
  header_entry_count m h = Z.of_nat (length es0) →
  ∀ es done fuel ptr s, es0 = done ++ es → (length es < fuel)%nat → mp_mem s = m → P done s →
    read_bytes m ptr (length (concat (encode <$> es))) = concat (encode <$> es) →
    ∃ s', walk_loop fuel receiver h (Z.of_nat (length done)) ptr s = Done (tt, s') ∧ mp_mem s' = m ∧ P es0 s'.
Proof.
  intros Hr Hc. induction es as [|e es IH]; intros done fuel ptr s He Hf Hm HP Hb.
  - destruct fuel as [|fuel]; [cbn in Hf; lia|]. rewrite app_nil_r in He. subst done. exists s. cbn [walk_loop]. unfold bind, get. rewrite Hm, Hc.
    by rewrite Z.ltb_irrefl.
  - destruct fuel as [|fuel]; [cbn in Hf; lia|]. cbn [fmap list_fmap concat] in Hb. rewrite length_app, read_bytes_app in Hb.
    apply app_inj_1 in Hb as [Hb1 Hb2]; [|by rewrite length_read_bytes]. cbn [walk_loop]. unfold bind at 1, get at 1. rewrite Hm, Hc.
    rewrite (proj2 (Z.ltb_lt _ _)) by (rewrite He, length_app; cbn; lia).
    destruct (Hr done e ptr s Hm HP) as (s1 & E1 & Hm1 & HP1); [rewrite He; exists es; by rewrite <- app_assoc|done|].
    rewrite (bind_run _ _ _ _ _ E1). unfold bind at 1, get at 1. rewrite Hm1, (entry_at _ _ _ Hb1).
    destruct (IH (done ++ [e]) fuel (ptr + size_of e) s1) as (s' & E & Hm' & HP').
    + by rewrite <- app_assoc.
    + cbn in Hf. lia.
    + done.
    + done.
    + by rewrite <- length_encode.
    + exists s'. rewrite length_app in E. cbn [length] in E. rewrite Nat2Z.inj_add in E. by split.
Qed.

Lemma mpt_walk_run (P : list mp_entry → mpsys → Prop) receiver m h es s :
  (∀ done e p s, mp_mem s = m → P done s → done ++ [e] `prefix_of` es → read_bytes m p (length (encode e)) = encode e →
    ∃ s', receiver p s = Done (tt, s') ∧ mp_mem s' = m ∧ P (done ++ [e]) s') →
  table_at m h es → mpt_header s = Some h → mp_mem s = m → P [] s →
  ∃ s', mpt_walk receiver s = Done (tt, s') ∧ mp_mem s' = m ∧ P es s'.
Proof.
  intros Hr [T1 T2 T3] Hh Hm HP. unfold mpt_walk. unfold bind at 1, gets. rewrite Hh.
  apply (walk_run P receiver m h es Hr T1 es []); try done. lia.
Qed.

End lemmas.

(** ** Lemmas: CPUs *)

(** What stays as it was while the table is read. *)
Definition same_place (s s' : mpsys) : Prop :=
  mp_mem s' = mp_mem s ∧ mpt_fps s' = mpt_fps s ∧ mpt_header s' = mpt_header s ∧ ls_lock (g_ls (mp_sys s')) = ls_lock (g_ls (mp_sys s)).

(** The CPU table holds the CPUs with these ids, in order. *)
Record cpus_found (m0 m : machine) (ids : list Z) : Prop := {
  cf_nof : nof_cpus m = Z.of_nat (length ids);
  cf_len : length (cpus m) = Z.to_nat MAX_CPUS;
  cf_cpus : ∀ k id, ids !! k = Some id → cpus m !! k = Some (mk_cpu X86_CPU_MAGIC (Z.of_nat k) false id false 0 0);
  cf_rest : initial_cpu m = initial_cpu m0 ∧ eflags_if m = eflags_if m0 ∧ lapic_get_id m = lapic_get_id m0 ∧ cr3 m = cr3 m0 ∧
    yaos2_initialized m = yaos2_initialized m0 ∧ nof_active_cpus m = nof_active_cpus m0;
}.

(** Before any CPU is registered. *)
Record fresh_machine (m : machine) : Prop := {
  fm_none : nof_cpus m = 0;
  fm_len : length (cpus m) = Z.to_nat MAX_CPUS;
  fm_init : yaos2_initialized m = false;
  fm_idle : int_enabled (initial_cpu m) = false ∧ cli_stack (initial_cpu m) ≤ 0 ∧ preempt_disabled (initial_cpu m) ≤ 0;
}.

Lemma cpu_add_run m0 m ids id :
  fresh_machine m0 → cpus_found m0 m ids → (length ids < 8)%nat →
  ∃ m', cpu_add true id m = Done (tt, m') ∧ cpus_found m0 m' (ids ++ [id]).
Proof.
  intros [F1 F2 F3 (F4 & F5 & F6)] [C1 C2 C3 (C4 & C5 & C6 & C7 & C8 & C9)] Hl. unfold cpu_add. unfold bind at 1, get.
  rewrite (proj2 (Z.eqb_neq (nof_cpus m) MAX_CPUS)) by (rewrite C1; unfold MAX_CPUS; lia). rewrite C8, F3.
  rewrite (bind_run _ _ m tt m eq_refl). rewrite C4, F4, Z.gtb_ltb, (proj2 (Z.ltb_ge 0 _)), Z.gtb_ltb, (proj2 (Z.ltb_ge 0 _)) by lia.
  cbn [orb negb]. eexists. split; [reflexivity|]. split; cbn.
  - rewrite C1, length_app. cbn. lia.
  - by rewrite length_insert.
  - intros k x Hk. rewrite C1, Nat2Z.id. destruct (decide (k = length ids)) as [->|Hne].
    + rewrite list_lookup_insert_eq by (rewrite C2; unfold MAX_CPUS; lia).
      rewrite lookup_app_r, Nat.sub_diag in Hk by lia. by injection Hk as <-.
    + rewrite list_lookup_insert_ne by done. apply C3. apply lookup_lt_Some in Hk as Hlt. rewrite length_app in Hlt. cbn in Hlt.
      by rewrite lookup_app_l in Hk by lia.
  - by rewrite C4.
Qed.

Lemma byte_at m p l k : read_bytes m p (length l) = l → (k < length l)%nat → m (p + Z.of_nat k) = nth k l 0.
Proof.
  intros H Hk. pose proof (read_bytes_lookup m p (length l) k Hk) as E. rewrite H in E. symmetry. by apply nth_lookup_Some.
Qed.

Lemma load32_bytes m a : load32 m a = le_val (read_bytes m a 4).
Proof. unfold load32. cbn [read_bytes le_val]. replace (a + 1 + 1) with (a + 2) by lia. replace (a + 2 + 1) with (a + 3) by lia. lia. Qed.

Lemma proc_ids_bound done e es : done ++ [e] `prefix_of` es → (length (proc_ids (done ++ [e])) ≤ length (proc_ids es))%nat.
Proof. intros [k ->]. unfold proc_ids. rewrite (omap_app _ (done ++ [e]) k), length_app. lia. Qed.

Lemma mpt_enum_cpus_run s h es :
  fresh_machine (mp_machine s) → mpt_header s = Some h → table_at (mp_mem s) h es → (length (proc_ids es) ≤ 8)%nat →
  ∃ s', mpt_enum_cpus true s = Done (tt, s') ∧ same_place s s' ∧ cpus_found (mp_machine s) (mp_machine s') (proc_ids es) ∧
    g_val (mp_sys s') = g_val (mp_sys s).
Proof.
  intros F Hh T Hl. set (m0 := mp_machine s) in *. unfold mpt_enum_cpus.
  rewrite (bind_run _ _ s tt s) by (unfold before_initialized, bind, get; fold m0; by rewrite (fm_init _ F)).
  destruct (mpt_walk_run (fun done s' => same_place s s' ∧ cpus_found m0 (mp_machine s') (proc_ids done) ∧ g_val (mp_sys s') = g_val (mp_sys s))
    (mpt_enum_cpus_receiver true) (mp_mem s) h es s) as (s' & E & _ & R); [|done|done|done| |].
  - intros done e p s1 Hm ((Q1 & Q2 & Q3 & Q4) & C & V) Hpre Hb. pose proof (entry_at _ _ _ Hb) as Hsz. unfold mpt_enum_cpus_receiver. unfold bind at 1, get. rewrite Hm.
    assert (Hty : entry_type (mp_mem s) p = nth 0 (encode e) 0).
    { unfold entry_type. rewrite <- (byte_at (mp_mem s) p (encode e) 0 Hb) by (destruct e; cbn; lia). f_equal. lia. }
    rewrite Hty. destruct e as [id ver flags sg ft r1 r2| | | |]; cbn [encode app nth].
    2-5: exists s1; split; [reflexivity|]; split; [done|]; split; [by repeat split|]; split; [unfold proc_ids; rewrite omap_app, app_nil_r; exact C|exact V].
    assert (Hid : proc_lapic_id (mp_mem s) p = u8 id).
    { unfold proc_lapic_id. change (p + 1) with (p + Z.of_nat 1). by rewrite (byte_at _ _ _ _ Hb) by (cbn; lia). }
    rewrite Hid. change (negb (MP_CONF_PROC =? MP_CONF_PROC)) with false. cbv iota.
    pose proof (proc_ids_bound _ _ _ Hpre) as Hb2. unfold proc_ids in Hb2 at 1. rewrite omap_app, length_app in Hb2. cbn in Hb2. fold (proc_ids done) in Hb2.
    destruct (cpu_add_run m0 (mp_machine s1) (proc_ids done) (u8 id) F C) as (m' & E & C'); [lia|].
    unfold on_io, on_lock, on_mach, zoom. unfold mp_machine in E. rewrite E. eexists. split; [reflexivity|]. split; [done|].
    split; [by repeat split|]. split; [|done]. unfold proc_ids. rewrite omap_app. exact C'.
  - split; [by repeat split|]. split; [|done]. destruct F as [F1 F2 F3 F4]. split; [done|done|done|by repeat split].
  - exists s'. by split.
Qed.

(** ** Lemmas: I/O APICs *)

Lemma numbered_snoc vm_map off l x :
  numbered vm_map off (l ++ [x]) =
  numbered vm_map off l ++ numbered vm_map (match l with [] => off | _ => u8 (off + 24 * Z.of_nat (length l)) end) [x].
Proof.
  revert off. induction l as [|[id addr] l IH]; intros off; [done|]. cbn [app numbered]. rewrite IH. f_equal. f_equal.
  destruct l as [|y l]; [done|]. apply (f_equal (fun o => numbered vm_map o [x])). unfold u8. rewrite Z.add_mod_idemp_l by lia.
  apply (f_equal (fun z => z mod 2 ^ 8)). cbn [length]. lia.
Qed.

Lemma mpt_enum_ioapics_run vm_map s h es :
  yaos2_initialized (mp_machine s) = false → mpt_header s = Some h → table_at (mp_mem s) h es → io_list (g_val (mp_sys s)) = [] →
  (∀ id addr, (id, addr) ∈ enabled_ioapics es → ∃ v, vm_map_walk vm_map addr true = Done v) →
  ∃ s', mpt_enum_ioapics vm_map s = Done (tt, s') ∧ same_place s s' ∧ g_ls (mp_sys s') = g_ls (mp_sys s) ∧
    io_list (g_val (mp_sys s')) = reverse (numbered vm_map 0 (enabled_ioapics es)).
Proof.
  intros Hy Hh T Hn Hw. unfold mpt_enum_ioapics.
  rewrite (bind_run _ _ s tt s) by (unfold before_initialized, bind, get; by rewrite Hy). unfold bind at 1, modify at 1. set (s0 := mpset_offset 0 s).
  destruct (mpt_walk_run (fun done s' => same_place s s' ∧ g_ls (mp_sys s') = g_ls (mp_sys s) ∧ ioapic_offset s' = u8 (24 * Z.of_nat (length (enabled_ioapics done))) ∧
      io_list (g_val (mp_sys s')) = reverse (numbered vm_map 0 (enabled_ioapics done)))
    (mpt_enum_ioapics_receiver vm_map) (mp_mem s) h es s0) as (s' & E & _ & R1 & R2 & R3 & R4); [|done|done|done| |].
  - intros done e p s1 Hm (Q & V & O & L) Hpre Hb. unfold mpt_enum_ioapics_receiver. unfold bind at 1, get. rewrite Hm.
    assert (Hty : entry_type (mp_mem s) p = nth 0 (encode e) 0).
    { unfold entry_type. rewrite <- (byte_at (mp_mem s) p (encode e) 0 Hb) by (destruct e; cbn; lia). f_equal. lia. }
    assert (Hsame : enabled_ioapics [e] = [] → ∃ s', Done (tt, s1) = Done (tt, s') ∧ mp_mem s' = mp_mem s ∧ same_place s s' ∧ g_ls (mp_sys s') = g_ls (mp_sys s) ∧
      ioapic_offset s' = u8 (24 * Z.of_nat (length (enabled_ioapics (done ++ [e])))) ∧ io_list (g_val (mp_sys s')) = reverse (numbered vm_map 0 (enabled_ioapics (done ++ [e])))).
    { intros He. exists s1. unfold enabled_ioapics in *. rewrite omap_app, He, app_nil_r. done. }
    rewrite Hty. destruct e as [| |id ver flags addr| |]; cbn [encode app nth]; try (by apply Hsame).
    change (negb (MP_CONF_IOAPIC =? MP_CONF_IOAPIC)) with false. cbv iota.
    assert (F1 : ioapic_flags (mp_mem s) p = u8 flags).
    { unfold ioapic_flags. change (p + 3) with (p + Z.of_nat 3). by rewrite (byte_at _ _ _ _ Hb) by (cbn; lia). }
    assert (F2 : ioapic_id_field (mp_mem s) p = u8 id).
    { unfold ioapic_id_field. change (p + 1) with (p + Z.of_nat 1). by rewrite (byte_at _ _ _ _ Hb) by (cbn; lia). }
    assert (F3 : ioapic_addr (mp_mem s) p = u32 addr).
    { unfold ioapic_addr. rewrite load32_bytes. change (length (encode (EIoapic id ver flags addr))) with (4 + 4)%nat in Hb.
      rewrite read_bytes_app in Hb. cbn [encode] in Hb. apply app_inj_1 in Hb as [_ Hb]; [|by rewrite length_read_bytes].
      change (p + 4) with (p + Z.of_nat 4). rewrite Hb. by rewrite le_val_bytes. }
    rewrite F1, F2, F3. assert (Ho : negb (Z.land (u8 flags) MP_CONF_IOAPIC_EN =? 0) = Z.odd flags).
    { change MP_CONF_IOAPIC_EN with (Z.ones 1). rewrite Z.land_ones by lia. unfold u8. change (2 ^ 1) with 2. rewrite Zmod_odd.
      replace (Z.odd (flags mod 2 ^ 8)) with (Z.odd flags); [by destruct (Z.odd flags)|].
      rewrite (Z.div_mod flags (2 ^ 8)) at 1 by lia. rewrite Z.add_comm. change (2 ^ 8) with (2 * 128) at 2. rewrite <- Z.mul_assoc. by rewrite Z.odd_add_mul_2. }
    rewrite Ho. destruct (Z.odd flags) eqn:Eo; cbn [when]; [|apply Hsame; cbn; by rewrite Eo].
    assert (He : enabled_ioapics (done ++ [EIoapic id ver flags addr]) = enabled_ioapics done ++ [(u8 id, u32 addr)]).
    { unfold enabled_ioapics. rewrite omap_app. cbn. by rewrite Eo. }
    destruct (Hw (u8 id) (u32 addr)) as [v Hv].
    { destruct Hpre as [k ->]. unfold enabled_ioapics at 1. rewrite omap_app. fold (enabled_ioapics (done ++ [EIoapic id ver flags addr])). rewrite He.
      apply elem_of_app. left. apply elem_of_app. right. by apply list_elem_of_singleton. }
    unfold on_io, ioapic_register, zoom, on_val, zoom. unfold bind at 1. unfold bind at 1. rewrite Hv. unfold modify. eexists. split; [reflexivity|].
    split; [done|]. split; [exact Q|]. split; [exact V|]. cbn. split.
    + rewrite He, length_app, O. unfold u8. rewrite Z.add_mod_idemp_l by lia. f_equal. cbn. lia.
    + rewrite He, numbered_snoc, reverse_app, L. cbn [numbered]. rewrite Hv. cbn. f_equal. f_equal. rewrite O. by destruct (enabled_ioapics done).
  - split; [done|]. split; [done|]. split; [done|]. exact Hn.
  - exists s'. split; [exact E|]. by split.
Qed.

Lemma numbered_lookup vm_map off l k x :
  numbered vm_map off l !! k = Some x → ia_size x = 24 ∧ ia_offset x = match k with O => off | _ => u8 (off + 24 * Z.of_nat k) end.
Proof.
  revert off k. induction l as [|[id addr] l IH]; intros off k H; [done|]. destruct k as [|k]; cbn in H.
  - by injection H as <-.
  - destruct (IH _ _ H) as [H1 H2]. split; [done|]. rewrite H2. destruct k as [|k].
    + done.
    + unfold u8. rewrite Z.add_mod_idemp_l by lia. apply (f_equal (fun z => z mod 2 ^ 8)). lia.
Qed.

Lemma length_numbered vm_map off l : length (numbered vm_map off l) = length l.
Proof. revert off. induction l as [|[id addr] l IH]; intros off; cbn; [done|]. by rewrite IH. Qed.

Lemma ok_reverse l : ioapics_ok l → ioapics_ok (reverse l).
Proof.
  intros [H1 H2 H3]. split.
  - intros i j x y Hi Hj Hne. apply reverse_lookup_Some in Hi as [Hi Li]. apply reverse_lookup_Some in Hj as [Hj Lj].
    apply (H1 _ _ x y Hi Hj). lia.
  - intros x Hx. apply H2. by rewrite elem_of_reverse in Hx.
  - intros i j x y irq Hi Hj Hx Hy. apply reverse_lookup_Some in Hi as [Hi Li]. apply reverse_lookup_Some in Hj as [Hj Lj].
    pose proof (H3 _ _ x y irq Hi Hj Hx Hy). lia.
Qed.

(** At most ten controllers share the 256 line numbers. *)
Lemma numbered_ok vm_map l :
  (length l ≤ 10)%nat →
  (∀ i j x y, numbered vm_map 0 l !! i = Some x → numbered vm_map 0 l !! j = Some y → i ≠ j → apart (ia_addr x) (ia_addr y)) →
  ioapics_ok (numbered vm_map 0 l).
Proof.
  intros Hl Ha.
  assert (O : ∀ k x, numbered vm_map 0 l !! k = Some x → ia_size x = 24 ∧ ia_offset x = 24 * Z.of_nat k ∧ (k < 10)%nat).
  { intros k x Hk. destruct (numbered_lookup _ _ _ _ _ Hk) as [H1 H2]. apply lookup_lt_Some in Hk. rewrite length_numbered in Hk.
    split; [done|]. split; [|lia]. rewrite H2. destruct k; [done|]. rewrite u8_small by lia. lia. }
  split; [done| |].
  - intros x Hx. apply list_elem_of_lookup in Hx as [k Hk]. destruct (O k x Hk) as (-> & -> & ?). lia.
  - intros i j x y irq Hi Hj. destruct (O i x Hi) as (-> & -> & ?). destruct (O j y Hj) as (-> & -> & ?). lia.
Qed.

(** ** Properties *)

(** C21: start-up finds the machine the firmware describes.  With the pointer structure at the
    first signature of the BIOS areas and the configuration table it names in memory, the scan,
    the CPU and the I/O APIC enumeration succeed; the CPU table then lists exactly the
    processors of the table, in order and with their local APIC ids, and the list of I/O APICs
    exactly the enabled controllers, each with 24 interrupt lines of its own. *)
Theorem mpt_enumerates vm_map sig s f h es :
  sig_at (mp_mem s) sig → first_in areas (mp_mem s) f → vm_map_walk vm_map (fps_mp_conf_addr (mp_mem s) f) true = Done h →
  table_at (mp_mem s) h es → fresh_machine (mp_machine s) → io_list (g_val (mp_sys s)) = [] →
  (length (proc_ids es) ≤ 8)%nat → (length (enabled_ioapics es) ≤ 10)%nat →
  (∀ id addr, (id, addr) ∈ enabled_ioapics es → ∃ v, vm_map_walk vm_map addr true = Done v) →
  let ios := numbered vm_map 0 (enabled_ioapics es) in
  (∀ i j x y, ios !! i = Some x → ios !! j = Some y → i ≠ j → apart (ia_addr x) (ia_addr y)) →
  ∃ s', (b <- mpt_scan vm_map sig ;; mpt_enum_cpus true ;;; mpt_enum_ioapics vm_map ;;; ret b) s = Done (true, s') ∧
    mpt_fps s' = Some f ∧ mpt_header s' = Some h ∧
    cpus_found (mp_machine s) (mp_machine s') (proc_ids es) ∧
    io_list (g_val (mp_sys s')) = reverse ios ∧ ioapics_ok (io_list (g_val (mp_sys s'))).
Proof.
  intros Hs Hf Hw T F Hn Hp Hi Hr ios Ha. pose proof (mpt_scan_run vm_map sig s f h Hs (fm_init _ F) Hf Hw) as E0.
  destruct (mpt_enum_cpus_run (mpset_found f h s) h es) as (s1 & E1 & (Q1 & Q2 & Q3 & _) & C1 & V1); [done|done|done|done|].
  destruct (mpt_enum_ioapics_run vm_map s1 h es) as (s2 & E2 & (R1 & R2 & R3 & _) & L2 & V2); [|by rewrite Q3|by rewrite Q1|by rewrite V1|done|].
  { destruct (cf_rest _ _ _ C1) as (_ & _ & _ & _ & -> & _). exact (fm_init _ F). }
  exists s2. rewrite (bind_run _ _ _ _ _ E0), (bind_run _ _ _ _ _ E1), (bind_run _ _ _ _ _ E2). split; [done|].
  split; [by rewrite R2, Q2|]. split; [by rewrite R3, Q3|]. split; [unfold mp_machine at 2; rewrite L2; exact C1|]. split; [done|].
  rewrite V2. apply ok_reverse. by apply numbered_ok.
Qed.

(** Two CPUs, a bus and an I/O APIC. *)
Definition example_entries : list mp_entry :=
  [EProc 0 20 3 0x60 0x201 0 0; EProc 1 20 1 0x60 0x201 0 0; EBus 0 [80; 67; 73]; EIoapic 2 17 1 0xFEC00000].
Definition example_map : list vm_region :=
  [Build_vm_region 0xC0000000 0 0x100000 0 0; Build_vm_region 0xFE000000 0xFE000000 0x1000000 0 0].
Definition example_tables_mem : mem :=
  write_bytes (write_bytes (write_bytes (write_bytes (fun _ => 0) 0xC0110000 MP_) EBDA_START (MP_ ++ le_bytes 4 0x9FD00)) 0xC009FD22 (le_bytes 2 4))
    0xC009FD2C (concat (encode <$> example_entries)).
Definition example_mp : mpsys :=
  mk_mp example_tables_mem None None 0
    (mk_guarded (mk_ls (mk_machine (replicate 8 zero_cpu) 0 zero_cpu 0 false 0 0x1000 false) free_lock) (mk_io [] 0 [])).

Lemma mpt_enumerates_witness :
  ∃ s', (b <- mpt_scan example_map 0xC0110000 ;; mpt_enum_cpus true ;;; mpt_enum_ioapics example_map ;;; ret b) example_mp = Done (true, s') ∧
    nof_cpus (mp_machine s') = 2 ∧ io_list (g_val (mp_sys s')) = [mk_ioapic 0xFEC00000 2 0 24].
Proof.
  destruct (mpt_enumerates example_map 0xC0110000 example_mp EBDA_START 0xC009FD00 example_entries) as (s' & E & _ & _ & C & L & _).
  - vm_compute. reflexivity.
  - left. split; [vm_compute; split; congruence|]. split; [vm_compute; reflexivity|]. intros p Hp. exfalso. lia.
  - vm_compute. reflexivity.
  - split; [vm_compute; reflexivity|vm_compute; reflexivity|vm_compute; reflexivity].
  - split; try (vm_compute; reflexivity). split; [reflexivity|]. split; vm_compute; discriminate.
  - reflexivity.
  - vm_compute. lia.
  - vm_compute. lia.
  - intros id addr Hin. apply list_elem_of_In in Hin. destruct Hin as [H|[]]. injection H as <- <-. eexists. vm_compute. reflexivity.
  - intros i j x y Hi Hj Hne. apply lookup_lt_Some in Hi, Hj. cbn in Hi, Hj. lia.
  - exists s'. split; [exact E|]. rewrite (cf_nof _ _ _ C), L. split; vm_compute; reflexivity.
Defined.
