(* ===== verification/Apic.v ===== *)
(** * The local APIC: timer, end of interrupt and inter-processor interrupts

    The local APIC half of arch/i386/cpu/apic.c, ticks_increment of kernel/ticks.h,
    is_boot_cpu of arch/cpu.h and cpu_set_boot_cpu of cpu.c.  Register accesses go to the
    history of [Platform]; the functions run inside the interrupt system of [Interrupts], whose
    table they fill and whose scheduler holds the tick count.  Function pointers of handlers
    are numbers. *)

From stdpp Require Import base list gmap strings.
From Stdlib Require Import ZArith Lia.
From S2P Require Import Prelude Memory Cpu MemLayout Segmentation Scheduler SchedulerLoop Interrupts Platform Mpt.

(** ** Constants *)

Definition INT_IRQ_ERROR : Z := INT_IRQ0 + 19.
Definition INT_IRQ_SPURIOUS : Z := INT_IRQ0 + 31.

Definition LAPIC_REG_ID : Z := 0x20 / 4.
Definition LAPIC_REG_VER : Z := 0x30 / 4.
Definition LAPIC_REG_TPR : Z := 0x80 / 4.
Definition LAPIC_REG_EOI : Z := 0xB0 / 4.
Definition LAPIC_REG_SVR : Z := 0xF0 / 4.
Definition LAPIC_REG_ESR : Z := 0x280 / 4.
Definition LAPIC_REG_ICRLO : Z := 0x300 / 4.
Definition LAPIC_REG_ICRHI : Z := 0x310 / 4.
Definition LAPIC_REG_TIMER : Z := 0x320 / 4.
Definition LAPIC_REG_PCINT : Z := 0x340 / 4.
Definition LAPIC_REG_LINT0 : Z := 0x350 / 4.
Definition LAPIC_REG_LINT1 : Z := 0x360 / 4.
Definition LAPIC_REG_ERROR : Z := 0x370 / 4.
Definition LAPIC_REG_TICR : Z := 0x380 / 4.
Definition LAPIC_REG_TCCR : Z := 0x390 / 4.
Definition LAPIC_REG_TDCR : Z := 0x3E0 / 4.
Definition LAPIC_ICR_INIT : Z := 0x500.
Definition LAPIC_ICR_STARTUP : Z := 0x600.
Definition LAPIC_ICR_DELIVS : Z := 0x1000.
Definition LAPIC_ICR_ASSERT : Z := 0x4000.
Definition LAPIC_ICR_LEVEL : Z := 0x8000.
Definition LAPIC_ICR_BCAST : Z := 0x80000.
Definition LAPIC_TIMER_X16 : Z := 0x3.
Definition LAPIC_TIMER_PERIODIC : Z := 0x20000.
Definition LAPIC_ENABLE : Z := 0x100.
Definition LAPIC_MASKED : Z := 0x10000.
Definition CMOS_PORT : Z := 0x70.
Definition CMOS_RETURN : Z := 0x71.
Definition CMOS_SHUTDOWN_STATUS : Z := 0x0F.
Definition CMOS_JMP_WITHOUT_EOI : Z := 0x0A.
Definition TICKS_PER_SECOND : Z := 10000.
Definition km_real_vaddr (seg off : Z) : Z := km_vaddr (Z.lor (Z.shiftl seg 4) off).

(** ** State *)

(** [la_ptr] is [lapic], [None] for NULL. *)
Record lapics := mk_la {
  la_mach : machine;
  la_pit_lock : cpu_spinlock;
  la_mem : mem;
  la_header : option Z;
  la_ptr : option Z;
  la_ticr : Z;
  la_bus_freq : Z;
  la_boot_id : Z;
  la_log : list access;
}.

Definition lset_mach (m : machine) (s : lapics) : lapics :=
  mk_la m (la_pit_lock s) (la_mem s) (la_header s) (la_ptr s) (la_ticr s) (la_bus_freq s) (la_boot_id s) (la_log s).
Definition lset_mem (m : mem) (s : lapics) : lapics :=
  mk_la (la_mach s) (la_pit_lock s) m (la_header s) (la_ptr s) (la_ticr s) (la_bus_freq s) (la_boot_id s) (la_log s).
Definition lset_ptr (p : option Z) (s : lapics) : lapics :=
  mk_la (la_mach s) (la_pit_lock s) (la_mem s) (la_header s) p (la_ticr s) (la_bus_freq s) (la_boot_id s) (la_log s).
Definition lset_freq (f t : Z) (s : lapics) : lapics :=
  mk_la (la_mach s) (la_pit_lock s) (la_mem s) (la_header s) (la_ptr s) t f (la_boot_id s) (la_log s).
Definition lset_boot (i : Z) (s : lapics) : lapics :=
  mk_la (la_mach s) (la_pit_lock s) (la_mem s) (la_header s) (la_ptr s) (la_ticr s) (la_bus_freq s) i (la_log s).
Definition lset_log (l : list access) (s : lapics) : lapics :=
  mk_la (la_mach s) (la_pit_lock s) (la_mem s) (la_header s) (la_ptr s) (la_ticr s) (la_bus_freq s) (la_boot_id s) l.

Definition la_ls (s : lapics) : lock_state := mk_ls (la_mach s) (la_pit_lock s).
Definition lset_ls (l : lock_state) (s : lapics) : lapics :=
  mk_la (ls_mach l) (ls_lock l) (la_mem s) (la_header s) (la_ptr s) (la_ticr s) (la_bus_freq s) (la_boot_id s) (la_log s).

Definition on_dev {A} (m : M (list access) A) : M lapics A := zoom la_log lset_log m.
Definition on_pit_lock (m : M lock_state unit) : M lapics unit := zoom la_ls lset_ls m.

(** The system the handlers run in. *)
Definition asys : Type := isys lapics.
Definition iset_rest (w : lapics) (s : asys) : asys :=
  mk_is (i_idt s) (i_idt_loaded s) (i_handlers s) (i_initialized s) (i_sched s) (i_cpu s) w.
Definition on_la {A} (m : M lapics A) : M asys A := zoom i_rest iset_rest m.

(** ticks.h *)
Definition ticks_increment : M asys unit :=
  modify (fun s => iset_sched (let x := i_sched s in
    mk_sched (processes x) (procs x) (threads x) (queue x) (scpus x) (next_pid x) (next_tid x) (num_waiting x) (lock_holder x)
      (u64 (current_ticks x + 1)) (kernel_process x) (kernel_cr3 x)) s).

Definition walked (vm_map : list vm_region) (p : Z) : M lapics Z :=
  fun s => match vm_map_walk vm_map p true with Done v => Done (v, s) | Panic w => Panic w | Hang => Hang end.

(** ** pit.c: the lock *)

(** The history shows that the lock was taken, and that it was given back. *)
Definition pit_acquire : M lapics unit := on_pit_lock cpu_spinlock_acquire ;;; on_dev (modify (cons TimerTaken)).
Definition pit_release : M lapics unit := on_pit_lock cpu_spinlock_release ;;; on_dev (modify (cons TimerFreed)).
Definition init_pit : M lapics unit := on_pit_lock (set_lock (fun _ => cpu_spinlock_create)).

(** ** apic.c *)

Section code.
Context `{Answers}.
Variables (vm_map : list vm_region) (isr_timer_ptr isr_error_ptr isr_spurious_ptr isr_timer_calibration_ptr : Z).

(** Turns the loops that wait for a device may take. *)
Variable turns : nat.

Definition with_lapic {A} (f : Z → M lapics A) : M lapics A :=
  p <- gets la_ptr ;; match p with Some a => f a | None => kpanic "page fault" end.

Definition lapicw (reg val : Z) : M lapics unit :=
  with_lapic (fun lapic => on_dev (mmio_write (lapic + 4 * reg) val ;;; mmio_read (lapic + 4 * reg) ;;; ret tt)).
Definition lapicr (reg : Z) : M lapics Z := with_lapic (fun lapic => on_dev (mmio_read (lapic + 4 * reg))).

Definition lapic_get_id : M lapics Z :=
  s <- get ;;
  match la_ptr s, la_header s with
  | Some _, _ => v <- lapicr LAPIC_REG_ID ;; ret (u8 (Z.shiftr v 24))
  | None, Some h =>
      tmp_lapic <- walked vm_map (header_lapic_addr (la_mem s) h) ;;
      v <- on_dev (mmio_read (tmp_lapic + 4 * LAPIC_REG_ID)) ;; ret (u8 (Z.shiftr v 24))
  | None, None => ret (u8 (-1))
  end.

Definition lapic_eoi : M lapics unit := lapicw LAPIC_REG_EOI 0.

Definition lapic_icr_id (id : Z) : Z := Z.land (u32 (Z.shiftl (u32 id) 24)) 0xFF000000.
Definition lapic_icr_flags (flags : Z) : Z := Z.land (u32 flags) 0x000FFF00.

Definition lapic_ipi (id vector flags : Z) : M lapics unit :=
  lapicw LAPIC_REG_ICRHI (lapic_icr_id id) ;;;
  lapicw LAPIC_REG_ICRLO (Z.lor (lapic_icr_flags flags) (Z.land vector 0xFF)).

Fixpoint ipi_wait_loop (fuel : nat) : M lapics unit :=
  match fuel with
  | O => hang
  | S fuel => v <- lapicr LAPIC_REG_ICRLO ;; if Z.land v LAPIC_ICR_DELIVS =? 0 then ret tt else ipi_wait_loop fuel
  end.
Definition lapic_ipi_wait : M lapics unit := ipi_wait_loop turns.

(** Handlers. *)

Definition isr_timer_calibration (frame : isr_frame) : M asys isr_frame := on_la lapic_eoi ;;; ret frame.

Definition is_boot_cpu : M lapics bool :=
  b <- gets la_boot_id ;; i <- lapic_get_id ;; ret (b =? i).

Definition isr_timer (frame : isr_frame) : M asys isr_frame :=
  b <- on_la is_boot_cpu ;;
  when b ticks_increment ;;;
  on_la lapic_eoi ;;;
  ret frame.

(** The debug message is left out. *)
Definition isr_spurious (frame : isr_frame) : M asys isr_frame := on_la lapic_eoi ;;; ret frame.

Definition isr_error (frame : isr_frame) : M asys isr_frame := kpanic "error interrupt".

(** The timer. [count] is a 64-bit number computed from an int. *)

Definition lapic_calibrate_timer_with_pit : M asys unit :=
  s <- get ;;
  (if eflags_if (la_mach (i_rest s)) then kpanic "need interrupts off when calibrating LAPIC timer" else ret tt) ;;;
  isr_set_handler INT_IRQ_TIMER isr_timer_calibration_ptr ;;;
  on_la (
    pit_acquire ;;;
    modify (fun s => lset_mach (set_if true (la_mach s)) s) ;;;
    lapicw LAPIC_REG_TDCR LAPIC_TIMER_X16 ;;;
    lapicw LAPIC_REG_TIMER INT_IRQ_TIMER ;;;
    on_dev (pit_prepare_counter 10000) ;;;
    on_dev pit_start_counter ;;;
    lapicw LAPIC_REG_TICR (-1) ;;;
    on_dev (pit_wait_counter turns) ;;;
    lapicw LAPIC_REG_TIMER LAPIC_MASKED ;;;
    tccr <- lapicr LAPIC_REG_TCCR ;;
    let count := u64 (- s32 tccr) in
    modify (fun s => lset_mach (set_if false (la_mach s)) s) ;;;
    let bus_freq := u64 (u64 (Z.shiftl count 4) * 100) in
    modify (lset_freq bus_freq (u32 (Z.shiftr (bus_freq / TICKS_PER_SECOND) 4))) ;;;
    pit_release).

Definition lapic_enable_calibrated_timer : M lapics unit :=
  lapicw LAPIC_REG_TDCR LAPIC_TIMER_X16 ;;;
  lapicw LAPIC_REG_TIMER (Z.lor LAPIC_TIMER_PERIODIC INT_IRQ_TIMER) ;;;
  ticr <- gets la_ticr ;;
  lapicw LAPIC_REG_TICR ticr.

Definition lapic_enable_timer : M asys unit :=
  f <- gets (fun s => la_bus_freq (i_rest s)) ;;
  if negb (f =? 0) then on_la lapic_enable_calibrated_timer else
  b <- gets i_initialized ;;
  kassert "is_yaos2_initialized() == false" (negb b) ;;;
  lapic_calibrate_timer_with_pit ;;;
  isr_set_handler INT_IRQ_TIMER isr_timer_ptr ;;;
  on_la lapic_enable_calibrated_timer.

(** [mpt_header->lapic_addr]. *)
Definition lapic_phys : M lapics Z :=
  s <- get ;; match la_header s with Some h => ret (header_lapic_addr (la_mem s) h) | None => kpanic "page fault" end.

Definition init_lapic : M asys unit :=
  p <- gets (fun s => la_ptr (i_rest s)) ;;
  match p with
  | None =>
      on_la (a <- lapic_phys ;; v <- walked vm_map a ;; modify (lset_ptr (Some v))) ;;;
      isr_set_handler INT_IRQ_TIMER isr_timer_ptr ;;;
      isr_set_handler INT_IRQ_ERROR isr_error_ptr ;;;
      isr_set_handler INT_IRQ_SPURIOUS isr_spurious_ptr
  | Some _ => ret tt
  end ;;;
  on_la (
    lapicw LAPIC_REG_SVR (Z.lor LAPIC_ENABLE INT_IRQ_SPURIOUS) ;;;
    lapicw LAPIC_REG_TIMER LAPIC_TIMER_PERIODIC ;;;
    lapicw LAPIC_REG_LINT0 LAPIC_MASKED ;;;
    lapicw LAPIC_REG_LINT1 LAPIC_MASKED ;;;
    ver <- lapicr LAPIC_REG_VER ;;
    when (Z.land (Z.shiftr ver 16) 0xFF >=? 4) (lapicw LAPIC_REG_PCINT LAPIC_MASKED) ;;;
    lapicw LAPIC_REG_ERROR INT_IRQ_ERROR ;;;
    lapicw LAPIC_REG_ESR 0 ;;;
    lapicw LAPIC_REG_ESR 0 ;;;
    lapicw LAPIC_REG_EOI 0 ;;;
    lapic_ipi 0 0 (Z.lor (Z.lor LAPIC_ICR_BCAST LAPIC_ICR_INIT) LAPIC_ICR_LEVEL) ;;;
    lapic_ipi_wait ;;;
    lapicw LAPIC_REG_TPR 0) ;;;
  lapic_enable_timer.

(** Starting another CPU at the real-mode code at [entry]. *)

Fixpoint startup_twice (n : nat) (id entry : Z) : M lapics unit :=
  match n with
  | O => ret tt
  | S n => lapic_ipi id (u8 (Z.shiftr entry 12)) LAPIC_ICR_STARTUP ;;; on_dev (pit_wait turns 200) ;;; startup_twice n id entry
  end.

Definition store16 (m : mem) (a v : Z) : mem := write_bytes m a (le_bytes 2 v).

Definition lapic_start_ap (id entry : Z) : M lapics unit :=
  pit_acquire ;;;
  on_dev (pio_outb CMOS_PORT CMOS_SHUTDOWN_STATUS) ;;;
  on_dev (pio_outb CMOS_RETURN CMOS_JMP_WITHOUT_EOI) ;;;
  let vec := km_real_vaddr 0x40 0x67 in
  modify (fun s => lset_mem (store16 (la_mem s) vec 0) s) ;;;
  modify (fun s => lset_mem (store16 (la_mem s) (vec + 2) (Z.shiftr entry 4)) s) ;;;
  lapic_ipi id 0 (Z.lor (Z.lor LAPIC_ICR_INIT LAPIC_ICR_LEVEL) LAPIC_ICR_ASSERT) ;;;
  on_dev (pit_wait turns 200) ;;;
  lapic_ipi id 0 (Z.lor LAPIC_ICR_INIT LAPIC_ICR_LEVEL) ;;;
  on_dev (pit_wait turns 10000) ;;;
  startup_twice 2 id entry ;;;
  pit_release.

(** cpu.c *)
Definition cpu_set_boot_cpu : M asys unit :=
  b <- gets i_initialized ;;
  kassert "is_yaos2_initialized() == false" (negb b) ;;;
  on_la (i <- lapic_get_id ;; modify (lset_boot i)).

End code.

(** ** Registers and events in the history *)

(** The value last written to a register of the local APIC at [b]. *)
Definition reg_val (b : Z) (l : list access) (r : Z) : option Z := written l (b + 4 * r).

(** A view of the history that shows, oldest first, only the interrupts sent to other CPUs and
    the bytes written to ports other than the timer's control registers: for statements about
    what is sent, whatever the devices answer in between.  How a CPU is started is stated of the
    history itself, below ([start_ap_protocol]). *)
Inductive event : Type :=
| Ipi (dest command : Z)
| Out (port v : Z).

Fixpoint events (b : Z) (l : list access) : list event :=
  match l with
  | [] => []
  | MmioWr a v :: l =>
      if a =? b + 4 * LAPIC_REG_ICRLO then events b l ++ [Ipi (Z.shiftr (default 0 (reg_val b l LAPIC_REG_ICRHI)) 24) v] else events b l
  | PortOut p v :: l => if (p =? PIT_CHAN2_OUTPUT) || (p =? PIT_COMMAND) then events b l else events b l ++ [Out p v]
  | _ :: l => events b l
  end.

(** ** Lemmas *)

Lemma reg_val_wr b r v l r' : reg_val b (MmioWr (b + 4 * r) v :: l) r' = if r =? r' then Some v else reg_val b l r'.
Proof. unfold reg_val. cbn [written]. destruct (Z.eqb_spec (b + 4 * r) (b + 4 * r')), (Z.eqb_spec r r'); try lia; done. Qed.

Lemma events_wr b r v l :
  events b (MmioWr (b + 4 * r) v :: l) =
  if r =? LAPIC_REG_ICRLO then events b l ++ [Ipi (Z.shiftr (default 0 (reg_val b l LAPIC_REG_ICRHI)) 24) v] else events b l.
Proof. cbn [events]. destruct (Z.eqb_spec (b + 4 * r) (b + 4 * LAPIC_REG_ICRLO)), (Z.eqb_spec r LAPIC_REG_ICRLO); try lia; done. Qed.

Lemma events_timer b new l : Forall timer_access new → events b (new ++ l) = events b l ++ (Out (PIT_CHAN 2) <$> sent new (PIT_CHAN 2)).
Proof.
  induction 1 as [|x new Hx _ IH]; [by rewrite app_nil_r|]. destruct x as [| |p v|p v| |]; try done. cbn [app events sent].
  destruct Hx as [-> | [-> | ->]].
  - exact IH.
  - exact IH.
  - rewrite Z.eqb_refl. change ((PIT_CHAN 2 =? PIT_CHAN2_OUTPUT) || (PIT_CHAN 2 =? PIT_COMMAND)) with false. cbv iota.
    rewrite IH, fmap_app, app_assoc. done.
Qed.

Lemma regs_timer b new l r : Forall timer_access new → reg_val b (new ++ l) r = reg_val b l r.
Proof. intros Hf. unfold reg_val. by rewrite written_app, timer_written. Qed.

(** [w] is [w0] but for a history with these register values and events. *)
Record at_regs (b : Z) (w0 : lapics) (f : Z → option Z) (ev : list event) (w : lapics) : Prop := {
  ar_ptr : la_ptr w0 = Some b;
  ar_same : w = lset_log (la_log w) w0;
  ar_regs : ∀ r, reg_val b (la_log w) r = f r;
  ar_events : events b (la_log w) = ev;
}.

Definition fset (r v : Z) (f : Z → option Z) : Z → option Z := fun r' => if r =? r' then Some (u32 v) else f r'.

Lemma at_regs_init b w : la_ptr w = Some b → at_regs b w (reg_val b (la_log w)) (events b (la_log w)) w.
Proof. intros Hp. split; [done|by destruct w|done|done]. Qed.

(** The base state may change under the history. *)
Lemma at_regs_base b w0 f ev w (g : lapics → lapics) :
  (∀ l x, g (lset_log l x) = lset_log l (g x)) → la_ptr (g w0) = Some b → (∀ x, la_log (g x) = la_log x) → at_regs b w0 f ev w → at_regs b (g w0) f ev (g w).
Proof. intros Hg Hp Hl [A1 A2 A3 A4]. split; [done| |by rewrite Hl|by rewrite Hl]. rewrite Hl. rewrite A2 at 1. by rewrite Hg. Qed.

Lemma returns_inv' {S} (m : M S unit) s (Q : S → Prop) : returns m s (fun _ s' => Q s') → ∃ s', m s = Done (tt, s') ∧ Q s'.
Proof. intros H. destruct (returns_inv _ _ _ H) as ([] & s' & E & HQ). by exists s'. Qed.

Section lemmas.
Context `{AN : Answers}.

Lemma lapicw_wp b w0 f ev w reg v :
  at_regs b w0 f ev w → reg ≠ LAPIC_REG_ICRLO → returns (lapicw reg v) w (fun _ w' => at_regs b w0 (fset reg v f) ev w').
Proof.
  intros [A1 A2 A3 A4] Hne. unfold returns, lapicw, with_lapic, bind, gets. rewrite A2. cbn [la_ptr lset_log]. rewrite A1.
  unfold on_dev, zoom. cbn [la_log lset_log]. unfold mmio_write, mmio_read, modify, bind, get, ret. cbv zeta. cbn [lset_log la_log].
  split; [done|done| |]; cbn [la_log lset_log].
  - intros r. change (reg_val b (MmioRd ?a ?x :: ?l) r) with (reg_val b l r). rewrite reg_val_wr. unfold fset. destruct (reg =? r); [done|apply A3].
  - change (events b (MmioRd ?a ?x :: ?l)) with (events b l). rewrite events_wr. by rewrite (proj2 (Z.eqb_neq _ _) Hne).
Qed.

Lemma icrlo_wp b w0 f ev w v hi :
  at_regs b w0 f ev w → f LAPIC_REG_ICRHI = Some hi →
  returns (lapicw LAPIC_REG_ICRLO v) w (fun _ w' => at_regs b w0 (fset LAPIC_REG_ICRLO v f) (ev ++ [Ipi (Z.shiftr hi 24) (u32 v)]) w').
Proof.
  intros [A1 A2 A3 A4] Hhi. unfold returns, lapicw, with_lapic, bind, gets. rewrite A2. cbn [la_ptr lset_log]. rewrite A1.
  unfold on_dev, zoom. cbn [la_log lset_log]. unfold mmio_write, mmio_read, modify, bind, get, ret. cbv zeta. cbn [lset_log la_log].
  split; [done|done| |]; cbn [la_log lset_log].
  - intros r. change (reg_val b (MmioRd ?a ?x :: ?l) r) with (reg_val b l r). rewrite reg_val_wr. unfold fset. destruct (_ =? r); [done|apply A3].
  - change (events b (MmioRd ?a ?x :: ?l)) with (events b l). rewrite events_wr, Z.eqb_refl, A3, Hhi, A4. done.
Qed.

Lemma lapicr_wp b w0 f ev w reg :
  at_regs b w0 f ev w → returns (lapicr reg) w (fun v w' => v = u32 (mmio_answer (la_log w) (b + 4 * reg)) ∧ at_regs b w0 f ev w').
Proof.
  intros [A1 A2 A3 A4]. unfold returns, lapicr, with_lapic, bind, gets. rewrite A2. cbn [la_ptr lset_log]. rewrite A1.
  unfold on_dev, zoom. cbn [la_log lset_log]. unfold mmio_read, modify, bind, get, ret. cbv zeta. cbn [lset_log la_log].
  split; [done|]. split; [done|done|done|done].
Qed.

Lemma dev_wp b w0 f ev w (m : M (list access) unit) new :
  at_regs b w0 f ev w → m (la_log w) = Done (tt, new ++ la_log w) → Forall timer_access new →
  returns (on_dev m) w (fun _ w' => at_regs b w0 f (ev ++ (Out (PIT_CHAN 2) <$> sent new (PIT_CHAN 2))) w').
Proof.
  intros [A1 A2 A3 A4] E T. unfold returns, on_dev, zoom. rewrite E. rewrite A2. split; [done|done| |]; cbn [la_log lset_log].
  - intros r. rewrite regs_timer by done. apply A3.
  - by rewrite events_timer, A4.
Qed.

(** The count of an interval, low byte first. *)
Definition loads (us : Z) : list event := [Out (PIT_CHAN 2) (PIT_FREQ / (1000000 / us) mod 2 ^ 8); Out (PIT_CHAN 2) (PIT_FREQ / (1000000 / us) / 2 ^ 8)].

Lemma pit_wait_wp turns b w0 f ev w us :
  at_regs b w0 f ev w → pit_ends turns → 0 < us → us ≤ 52631 →
  returns (on_dev (pit_wait turns us)) w (fun _ w' => at_regs b w0 f (ev ++ loads us) w').
Proof.
  intros A Hp H0 H1. destruct (pit_wait_run turns us (la_log w) Hp H0 H1) as (steps & E & [T S]%wait_log_timer).
  pose proof (dev_wp _ _ _ _ _ _ _ A E T) as R. by rewrite S in R.
Qed.

Lemma icr_id_value id : 0 ≤ id < 256 → Z.shiftr (u32 (lapic_icr_id id)) 24 = id.
Proof.
  intros Hi. unfold lapic_icr_id. rewrite (u32_small id) by lia. rewrite Z.shiftl_mul_pow2 by lia. rewrite (u32_small (id * _)) by lia.
  change 0xFF000000 with (Z.shiftl (Z.ones 8) 24). rewrite <- Z.shiftl_mul_pow2 by lia. rewrite <- Z.shiftl_land. rewrite Z.land_ones by lia.
  rewrite Z.mod_small by lia. rewrite Z.shiftl_mul_pow2, u32_small, Z.shiftr_div_pow2 by lia. by rewrite Z.div_mul by lia.
Qed.

Lemma lapic_ipi_wp b w0 f ev w id vector flags :
  at_regs b w0 f ev w → 0 ≤ id < 256 →
  let cmd := u32 (Z.lor (lapic_icr_flags flags) (Z.land vector 0xFF)) in
  returns (lapic_ipi id vector flags) w (fun _ w' => ∃ f', at_regs b w0 f' (ev ++ [Ipi id cmd]) w' ∧
    ∀ r, r ≠ LAPIC_REG_ICRHI → r ≠ LAPIC_REG_ICRLO → f' r = f r).
Proof.
  intros A Hi cmd. unfold lapic_ipi. eapply returns_bind; [by apply (lapicw_wp _ _ _ _ _ LAPIC_REG_ICRHI (lapic_icr_id id) A)|].
  intros [] w1 A1. cbn beta in A1. eapply returns_mono; [by apply (icrlo_wp _ _ _ _ _ _ (u32 (lapic_icr_id id)) A1)|].
  intros [] w2 A2. cbn beta in A2. rewrite icr_id_value in A2 by done. eexists. split; [exact A2|]. intros r H1 H2. unfold fset.
  by rewrite !(proj2 (Z.eqb_neq _ _)) by congruence.
Qed.

Lemma out_wp b w0 f ev w p v :
  at_regs b w0 f ev w → p ≠ PIT_CHAN2_OUTPUT → p ≠ PIT_COMMAND → returns (on_dev (pio_outb p v)) w (fun _ w' => at_regs b w0 f (ev ++ [Out p (u8 v)]) w').
Proof.
  intros [A1 A2 A3 A4] H1 H2. unfold returns, on_dev, zoom, pio_outb, modify. rewrite A2. cbn [la_log lset_log]. split; [done|done|exact A3|].
  cbn [la_log lset_log events]. rewrite (proj2 (Z.eqb_neq _ _) H1), (proj2 (Z.eqb_neq _ _) H2). cbn [orb]. by rewrite A4.
Qed.

Lemma mem_wp b w0 f ev w a v :
  at_regs b w0 f ev w →
  returns (modify (fun s => lset_mem (store16 (la_mem s) a v) s)) w (fun _ w' => at_regs b (lset_mem (store16 (la_mem w0) a v) w0) f ev w').
Proof.
  intros A. unfold returns, modify. by apply (at_regs_base b w0 f ev w (fun s => lset_mem (store16 (la_mem s) a v) s)); [done|apply A|done|].
Qed.

Lemma mark_wp b w0 f ev w x : x = TimerTaken ∨ x = TimerFreed → at_regs b w0 f ev w → returns (on_dev (modify (cons x))) w (fun _ w' => at_regs b w0 f ev w').
Proof.
  intros Hx [A1 A2 A3 A4]. unfold returns, on_dev, zoom, modify. rewrite A2. cbn [la_log lset_log].
  destruct Hx as [-> | ->]; (split; [done|done|exact A3|exact A4]).
Qed.

Lemma acquire_wp b w0 f ev w :
  at_regs b w0 f ev w → unlocked (la_ls w0) → returns pit_acquire w (fun _ w' => at_regs b (lset_ls (entered (la_ls w0)) w0) f ev w').
Proof.
  intros A Hu. destruct (acquire_release_run _ Hu) as (E & _ & _). unfold pit_acquire.
  apply (returns_bind _ _ _ (fun _ w' => at_regs b ((lset_ls (entered (la_ls w0))) w0) f ev w')); [|intros [] w1 A1; apply mark_wp; [by left|exact A1]].
  unfold returns, on_pit_lock, zoom.
  pose proof (ar_same _ _ _ _ _ A) as As. replace (la_ls w) with (la_ls w0) by (by rewrite As). rewrite E.
  by apply (at_regs_base b w0 f ev w (lset_ls (entered (la_ls w0)))); [done|apply A|done|].
Qed.

Lemma release_wp b w0 f ev w ls :
  at_regs b w0 f ev w → unlocked ls → la_ls w0 = entered ls → returns pit_release w (fun _ w' => at_regs b (lset_ls ls w0) f ev w').
Proof.
  intros A Hu Hl. destruct (acquire_release_run _ Hu) as (_ & E & _). unfold pit_release.
  apply (returns_bind _ _ _ (fun _ w' => at_regs b ((lset_ls ls) w0) f ev w')); [|intros [] w1 A1; apply mark_wp; [by right|exact A1]].
  unfold returns, on_pit_lock, zoom.
  pose proof (ar_same _ _ _ _ _ A) as As. replace (la_ls w) with (entered ls) by (by rewrite As). rewrite E.
  by apply (at_regs_base b w0 f ev w (lset_ls ls)); [done|apply A|done|].
Qed.

Lemma entered_ls w x : la_ls (lset_ls x w) = x.
Proof. by destruct x. Qed.

(** *** The history itself *)

(** Everything done for one interrupt sent, oldest first: each register is read back. *)
Definition ipi_log (b id cmd : Z) (l : list access) : Prop :=
  ∃ v1 v2, l = [MmioWr (b + 4 * LAPIC_REG_ICRHI) (id * 2 ^ 24); MmioRd (b + 4 * LAPIC_REG_ICRHI) v1;
                MmioWr (b + 4 * LAPIC_REG_ICRLO) cmd; MmioRd (b + 4 * LAPIC_REG_ICRLO) v2].

(** [w0] after these accesses, oldest first. *)
Definition after (w0 : lapics) (l : list access) : lapics := lset_log (reverse l ++ la_log w0) w0.

Lemma after_app w0 l l' : after (after w0 l) l' = after w0 (l ++ l').
Proof. unfold after. cbn [la_log lset_log]. by rewrite reverse_app, <- app_assoc. Qed.

Lemma lapic_icr_id_value id : 0 ≤ id < 256 → u32 (lapic_icr_id id) = id * 2 ^ 24.
Proof.
  intros Hi. unfold lapic_icr_id. rewrite (u32_small id) by lia. rewrite Z.shiftl_mul_pow2 by lia. rewrite (u32_small (id * _)) by lia.
  change 0xFF000000 with (Z.shiftl (Z.ones 8) 24). rewrite <- Z.shiftl_mul_pow2 by lia. rewrite <- Z.shiftl_land. rewrite Z.land_ones by lia.
  rewrite Z.mod_small by lia. rewrite Z.shiftl_mul_pow2, u32_small by lia. done.
Qed.

Lemma lapic_ipi_run w b id vector flags :
  la_ptr w = Some b → 0 ≤ id < 256 →
  ∃ l, lapic_ipi id vector flags w = Done (tt, after w l) ∧ ipi_log b id (u32 (Z.lor (lapic_icr_flags flags) (Z.land vector 0xFF))) l.
Proof.
  intros Hb Hi. unfold lapic_ipi, lapicw, with_lapic, bind, gets. rewrite Hb. unfold on_dev, zoom, mmio_write, mmio_read, modify, bind, get, ret.
  cbv zeta. cbn [la_ptr lset_log la_log]. rewrite Hb. rewrite lapic_icr_id_value by done.
  eexists [_; _; _; _]. split; [reflexivity|]. by eexists _, _.
Qed.

Lemma on_dev_run w l (m : M (list access) unit) : m (la_log w) = Done (tt, reverse l ++ la_log w) → on_dev m w = Done (tt, after w l).
Proof. intros E. unfold on_dev, zoom. by rewrite E. Qed.

Lemma startup_command entry : 0 ≤ entry < 2 ^ 16 →
  u32 (Z.lor (lapic_icr_flags LAPIC_ICR_STARTUP) (Z.land (u8 (Z.shiftr entry 12)) 0xFF)) = 0x600 + entry / 2 ^ 12.
Proof.
  intros He. rewrite Z.shiftr_div_pow2 by lia. rewrite u8_small by dlia. change 0xFF with (Z.ones 8). rewrite Z.land_ones by lia. rewrite Z.mod_small by dlia.
  change (lapic_icr_flags LAPIC_ICR_STARTUP) with (2 ^ 8 * 6). rewrite Segmentation.lor_high by dlia. rewrite u32_small by dlia. done.
Qed.

End lemmas.

(** ** Properties *)

(** C13: starting another CPU makes exactly the accesses of the algorithm of the MP
    specification, in its order and with no other in between — every access counts here, those
    that start the timer and wait for it too: the timer's lock is taken; the shutdown code and
    the warm reset vector are set; then come INIT assert, a wait set to 200 us, INIT de-assert,
    a wait set to 10 ms, and twice STARTUP with the page of the entry code followed by a wait
    set to 200 us; and the lock is given back.  Each interrupt goes to this CPU only; each wait
    loads the count of its interval, starts the channel and polls until it reads the output
    low ([wait_log]; that the code waits while the output is high, and so not for the whole
    interval, is a defect of pit_wait_counter that shows in these polls).  No other memory is
    touched. *)
Theorem start_ap_protocol `{AN : Answers} turns w b id entry :
  la_ptr w = Some b → unlocked (la_ls w) → 0 ≤ id < 256 → 0 ≤ entry < 2 ^ 16 → pit_ends turns →
  ∃ i1 t1 i2 t2 i3 t3 i4 t4,
    lapic_start_ap turns id entry w = Done (tt,
      after (lset_mem (write_bytes (la_mem w) (km_real_vaddr 0x40 0x67) (le_bytes 2 0 ++ le_bytes 2 (entry / 2 ^ 4))) w)
        ([TimerTaken; PortOut CMOS_PORT CMOS_SHUTDOWN_STATUS; PortOut CMOS_RETURN CMOS_JMP_WITHOUT_EOI] ++
         i1 ++ t1 ++ i2 ++ t2 ++ i3 ++ t3 ++ i4 ++ t4 ++ [TimerFreed])) ∧
    ipi_log b id 0xC500 i1 ∧ wait_log 200 t1 ∧
    ipi_log b id 0x8500 i2 ∧ wait_log 10000 t2 ∧
    ipi_log b id (0x600 + entry / 2 ^ 12) i3 ∧ wait_log 200 t3 ∧
    ipi_log b id (0x600 + entry / 2 ^ 12) i4 ∧ wait_log 200 t4.
Proof.
  intros Hb Hu Hi He Hp. destruct (acquire_release_run _ Hu) as (Ea & Er & _).
  unfold lapic_start_ap. set (w1 := lset_ls (entered (la_ls w)) w).
  rewrite (bind_run _ _ _ _ (after w1 [TimerTaken])) by (unfold pit_acquire, on_pit_lock, zoom; cbv beta; unfold bind; rewrite Ea; reflexivity).
  set (m1 := write_bytes (la_mem w) (km_real_vaddr 0x40 0x67) (le_bytes 2 0 ++ le_bytes 2 (entry / 2 ^ 4))).
  set (l0 := [TimerTaken; PortOut CMOS_PORT CMOS_SHUTDOWN_STATUS; PortOut CMOS_RETURN CMOS_JMP_WITHOUT_EOI]).
  set (w2 := lset_mem m1 w1).
  assert (E0 : ∀ (k : M lapics unit), (on_dev (pio_outb CMOS_PORT CMOS_SHUTDOWN_STATUS) ;;;
      on_dev (pio_outb CMOS_RETURN CMOS_JMP_WITHOUT_EOI) ;;;
      modify (fun s => lset_mem (store16 (la_mem s) (km_real_vaddr 0x40 0x67) 0) s) ;;;
      modify (fun s => lset_mem (store16 (la_mem s) (km_real_vaddr 0x40 0x67 + 2) (Z.shiftr entry 4)) s) ;;; k) (after w1 [TimerTaken]) = k (after w2 l0)).
  { intros k. unfold store16. rewrite Z.shiftr_div_pow2 by lia. reflexivity. }
  rewrite E0. clear E0. assert (Hp2 : la_ptr w2 = Some b) by exact Hb.
  assert (I : ∀ l vec fl, ∃ l', lapic_ipi id vec fl (after w2 l) = Done (tt, after w2 (l ++ l')) ∧ ipi_log b id (u32 (Z.lor (lapic_icr_flags fl) (Z.land vec 0xFF))) l').
  { intros l vec fl. destruct (lapic_ipi_run (after w2 l) b id vec fl Hp2 Hi) as (l' & E & L). exists l'. by rewrite <- after_app. }
  assert (T : ∀ l us, 0 < us → us ≤ 52631 → ∃ l', on_dev (pit_wait turns us) (after w2 l) = Done (tt, after w2 (l ++ l')) ∧ wait_log us l').
  { intros l us H0 H1. destruct (pit_wait_run turns us (la_log (after w2 l)) Hp H0 H1) as (l' & E & L). exists l'. rewrite <- after_app. split; [by apply on_dev_run|done]. }
  destruct (I l0 0 (Z.lor (Z.lor LAPIC_ICR_INIT LAPIC_ICR_LEVEL) LAPIC_ICR_ASSERT)) as (i1 & E1 & L1). rewrite (bind_run _ _ _ _ _ E1).
  destruct (T (l0 ++ i1) 200 ltac:(lia) ltac:(lia)) as (t1 & E2 & L2). rewrite (bind_run _ _ _ _ _ E2).
  destruct (I ((l0 ++ i1) ++ t1) 0 (Z.lor LAPIC_ICR_INIT LAPIC_ICR_LEVEL)) as (i2 & E3 & L3). rewrite (bind_run _ _ _ _ _ E3).
  destruct (T (((l0 ++ i1) ++ t1) ++ i2) 10000 ltac:(lia) ltac:(lia)) as (t2 & E4 & L4). rewrite (bind_run _ _ _ _ _ E4).
  cbn [startup_twice]. pose proof (startup_command entry He) as SC.
  set (l2 := (((l0 ++ i1) ++ t1) ++ i2) ++ t2) in *.
  destruct (I l2 (u8 (Z.shiftr entry 12)) LAPIC_ICR_STARTUP) as (i3 & E5 & L5).
  destruct (T (l2 ++ i3) 200 ltac:(lia) ltac:(lia)) as (t3 & E6 & L6).
  destruct (I ((l2 ++ i3) ++ t3) (u8 (Z.shiftr entry 12)) LAPIC_ICR_STARTUP) as (i4 & E7 & L7).
  destruct (T (((l2 ++ i3) ++ t3) ++ i4) 200 ltac:(lia) ltac:(lia)) as (t4 & E8 & L8).
  rewrite SC in L5, L7. exists i1, t1, i2, t2, i3, t3, i4, t4. split; [|done].
  unfold bind at 1. rewrite (bind_run _ _ _ _ _ E5), (bind_run _ _ _ _ _ E6), (bind_run _ _ _ _ _ E7), (bind_run _ _ _ _ _ E8). unfold ret at 1.
  replace (l0 ++ i1 ++ t1 ++ i2 ++ t2 ++ i3 ++ t3 ++ i4 ++ t4 ++ [TimerFreed]) with ((((l2 ++ i3) ++ t3) ++ i4) ++ t4 ++ [TimerFreed]) by (unfold l2; by rewrite <- !app_assoc).
  rewrite app_assoc. generalize ((((l2 ++ i3) ++ t3) ++ i4) ++ t4). intros l.
  rewrite <- after_app. unfold pit_release, on_pit_lock, zoom. unfold bind at 1.
  replace (la_ls (after w2 l)) with (entered (la_ls w)) by (unfold after, w2, w1; by destruct (entered (la_ls w))).
  rewrite Er. unfold on_dev, zoom, modify. by destruct w.
Qed.

(** ** The tick count *)

(** Scheduler operations that leave the tick count alone. *)
Class KeepsTicks {A} (m : M sched A) : Prop := keeps_ticks : ∀ s a s', m s = Done (a, s') → current_ticks s' = current_ticks s.

#[export] Instance keeps_ret {A} (a : A) : KeepsTicks (ret a).
Proof. by intros s b s' [= <- <-]. Qed.
#[export] Instance keeps_get : KeepsTicks get.
Proof. by intros s b s' [= <- <-]. Qed.
#[export] Instance keeps_gets {A} (f : sched → A) : KeepsTicks (gets f).
Proof. by intros s b s' [= <- <-]. Qed.
#[export] Instance keeps_panic {A} w : @KeepsTicks A (kpanic w).
Proof. by intros s b s'. Qed.
#[export] Instance keeps_hang {A} : @KeepsTicks A hang.
Proof. by intros s b s'. Qed.
#[export] Instance keeps_bind {A B} (m : M sched A) (k : A → M sched B) : KeepsTicks m → (∀ a, KeepsTicks (k a)) → KeepsTicks (bind m k).
Proof. intros Hm Hk s b s' H. apply bind_Done_inv in H as (a & s1 & E1 & E2). rewrite (Hk a _ _ _ E2). by apply (Hm _ _ _ E1). Qed.
Lemma keeps_modify (f : sched → sched) : (∀ s, current_ticks (f s) = current_ticks s) → KeepsTicks (modify f).
Proof. intros H s b s' [= <- <-]. apply H. Qed.

(** Goes through the code of an operation. *)
Ltac keeps :=
  repeat match goal with
  | |- KeepsTicks (modify _) => apply keeps_modify; intros; reflexivity
  | |- KeepsTicks (bind _ _) => apply keeps_bind; [|intros ?]
  | |- KeepsTicks (when ?b _) => destruct b; cbn [when]
  | |- KeepsTicks (match ?x with _ => _ end) => destruct x
  | |- KeepsTicks (if ?x then _ else _) => destruct x
  | |- KeepsTicks (rd_thread _) => unfold rd_thread
  | |- KeepsTicks (wr_thread _ _) => unfold wr_thread
  | |- KeepsTicks (rd_scpu _) => unfold rd_scpu
  | |- KeepsTicks (wr_scpu _ _) => unfold wr_scpu
  | |- KeepsTicks (enqueue_tail _) => unfold enqueue_tail
  | |- KeepsTicks (sched_lock _) => unfold sched_lock
  | |- KeepsTicks (sched_unlock _) => unfold sched_unlock
  | |- KeepsTicks (sched_held _) => unfold sched_held
  | |- KeepsTicks (current_thread _) => unfold current_thread, get_current_thread
  | |- KeepsTicks (store_interrupts _ _) => unfold store_interrupts
  | |- KeepsTicks (restore_interrupts _ _) => unfold restore_interrupts
  | |- KeepsTicks (back_to_scheduler _) => unfold back_to_scheduler
  | |- KeepsTicks (reschedule _ _) => unfold reschedule
  | |- KeepsTicks _ => apply _
  end.

#[export] Instance keeps_yield c : KeepsTicks (thread_yield c).
Proof. unfold thread_yield. keeps. Qed.
#[export] Instance keeps_exit c : KeepsTicks (thread_exit c).
Proof. unfold thread_exit. keeps. Qed.

Lemma preempt_ticks {W} (s s' : isys W) : preempt s = Done (tt, s') → current_ticks (i_sched s') = current_ticks (i_sched s).
Proof.
  unfold preempt. unfold bind at 1, get at 1. destruct (scpus _ !! _) as [k|]; [|done]. destruct (negb _); [by intros [= <-]|].
  destruct (c_thread k) as [t|]; [|by intros [= <-]]. destruct (threads _ !! t) as [x|]; [|done]. destruct (procs _ !! _) as [y|]; [|done].
  assert (Z : ∀ m : M sched unit, KeepsTicks m → zoom i_sched iset_sched m s = Done (tt, s') → current_ticks (i_sched s') = current_ticks (i_sched s)).
  { intros m Hm H. unfold zoom in H. destruct (m (i_sched s)) as [[[] x']| |] eqn:E; [|done|done]. injection H as <-. cbn. exact (Hm _ _ _ E). }
  destruct (bool_decide _); [by apply Z, _|]. destruct (bool_decide _); cbn [when]; [by apply Z, _|]. by intros [= <-].
Qed.

Definition tick (x : sched) : sched :=
  mk_sched (processes x) (procs x) (threads x) (queue x) (scpus x) (next_pid x) (next_tid x) (num_waiting x) (lock_holder x)
    (u64 (current_ticks x + 1)) (kernel_process x) (kernel_cr3 x).

Lemma tick_inv x : sched_inv x → sched_inv (tick x).
Proof. intros [H1 H2 H3 H4 H5]. by split. Qed.

Section ticks.
Context `{AN : Answers} (vm_map : list vm_region).

(** The id register of the local APIC at [b], as read now. *)
Definition read_id (b : Z) (w : lapics) : Z := u8 (Z.shiftr (u32 (mmio_answer (la_log w) (b + 4 * LAPIC_REG_ID))) 24).

Lemma isr_timer_run f (s : asys) b :
  la_ptr (i_rest s) = Some b →
  ∃ w', isr_timer vm_map f s = Done (f, iset_rest w' (if la_boot_id (i_rest s) =? read_id b (i_rest s) then iset_sched (tick (i_sched s)) s else s)) ∧
    at_regs b (i_rest s) (fset LAPIC_REG_EOI 0 (reg_val b (la_log (i_rest s)))) (events b (la_log (i_rest s))) w'.
Proof.
  intros Hb. pose proof (at_regs_init b (i_rest s) Hb) as A.
  assert (B : ∃ w1, is_boot_cpu vm_map (i_rest s) = Done (la_boot_id (i_rest s) =? read_id b (i_rest s), w1) ∧
    at_regs b (i_rest s) (reg_val b (la_log (i_rest s))) (events b (la_log (i_rest s))) w1).
  { destruct (returns_inv _ _ _ (lapicr_wp _ _ _ _ _ LAPIC_REG_ID A)) as (v & w1 & E & -> & A1). exists w1. split; [|done].
    unfold is_boot_cpu, lapic_get_id. unfold bind at 1, gets. unfold bind at 1. unfold bind at 1, get. rewrite Hb. by rewrite (bind_run _ _ _ _ _ E). }
  destruct B as (w1 & E1 & A1). destruct (returns_inv _ _ _ (lapicw_wp _ _ _ _ _ LAPIC_REG_EOI 0 A1 ltac:(discriminate))) as ([] & w2 & E2 & A2).
  exists w2. split; [|exact A2]. unfold isr_timer. unfold bind at 1, on_la at 1, zoom at 1. rewrite E1.
  destruct (la_boot_id (i_rest s) =? read_id b (i_rest s)); cbn [when].
  - unfold bind at 1, ticks_increment, modify. unfold bind at 1, on_la, zoom, lapic_eoi. cbn [i_rest iset_sched iset_rest]. by rewrite E2.
  - unfold bind at 1, ret at 1. unfold bind at 1, on_la, zoom, lapic_eoi. cbn [i_rest iset_rest]. by rewrite E2.
Qed.

End ticks.

(** C12: a clock tick, end to end: when the timer of a CPU interrupts a thread, the kernel
    counts it once — on the boot CPU only —, acknowledges it to the local APIC, sends nothing to
    other CPUs, and hands the CPU on: the thread goes to the end of the run queue, or ends
    when its process is exiting. *)
Theorem tick_handled `{AN : Answers} vm_map (call : Z → isr_frame → M asys isr_frame) (s : asys) f h b k t x :
  fr_int_no f = INT_IRQ_TIMER → i_handlers s !! Z.to_nat INT_IRQ_TIMER = Some h → h ≠ 0 → (∀ f, call h f = isr_timer vm_map f) →
  la_ptr (i_rest s) = Some b → sched_inv (i_sched s) → runs_on (i_sched s) (i_cpu s) k t x →
  ∃ y s', procs (i_sched s) !! t_parent x = Some y ∧ generic_interrupt_handler call f s = Done (f, s') ∧
    current_ticks (i_sched s') = (if la_boot_id (i_rest s) =? read_id b (i_rest s) then u64 (current_ticks (i_sched s) + 1) else current_ticks (i_sched s)) ∧
    reg_val b (la_log (i_rest s')) LAPIC_REG_EOI = Some 0 ∧ events b (la_log (i_rest s')) = events b (la_log (i_rest s)) ∧
    sched_inv (i_sched s') ∧
    ∃ x', threads (i_sched s') !! t = Some x' ∧
      (if bool_decide (p_state y = PROC_EXITING) then t_state x' = THREAD_EXITED
       else t_state x' = THREAD_READY ∧ queue (i_sched s') = queue (i_sched s) ++ [t]).
Proof.
  intros Hn Hh H0 Hc Hb Hi Hr. destruct (isr_timer_run vm_map f s b Hb) as (w' & E & A).
  set (s1 := iset_rest w' _) in E. assert (Q : sched_inv (i_sched s1) ∧ runs_on (i_sched s1) (i_cpu s1) k t x ∧ procs (i_sched s1) = procs (i_sched s) ∧ queue (i_sched s1) = queue (i_sched s)).
  { unfold s1. destruct (_ =? _); (split; [|done]); [by apply tick_inv|exact Hi]. }
  destruct Q as (Q1 & Q2 & Q3 & Q4). destruct (preempt_run s1 k t x Q1 Q2) as (y & s2 & Hy & P & Hi2 & x' & Hx' & R).
  exists y, (iset_sched s2 s1). split; [by rewrite <- Q3|]. split.
  { rewrite (handled_run call s s1 f h); [|rewrite Hn; unfold INT_IRQ_TIMER, INT_IRQ0, ISR_MAX; lia|by rewrite Hn|done|by rewrite Hc]. rewrite Hn.
    change (INT_IRQ_TIMER =? INT_IRQ_TIMER) with true. cbn [when]. by rewrite (bind_run _ _ _ _ _ P). }
  split. { rewrite (preempt_ticks _ _ P). unfold s1. by destruct (_ =? _). }
  assert (Er : i_rest (iset_sched s2 s1) = w') by (unfold s1; by destruct (_ =? _)). rewrite Er.
  split; [rewrite (ar_regs _ _ _ _ _ A); reflexivity|]. split; [exact (ar_events _ _ _ _ _ A)|]. split; [exact Hi2|].
  exists x'. split; [exact Hx'|]. by rewrite <- Q4.
Qed.

(** ** Bringing the local APIC up *)

Lemma entered_if l : unlocked l → eflags_if (ls_mach (entered l)) = eflags_if (ls_mach l).
Proof.
  intros [(Hl & i & c & RO & Hn)|[Hl Hb]]; destruct l as [m lk]; cbn in *; subst lk; unfold entered.
  - by rewrite (acquire_run _ _ _ RO).
  - by rewrite (proj1 (boot_acquire_run m Hb)).
Qed.

Lemma on_la_wp {A} (m : M lapics A) (s : asys) Q :
  returns m (i_rest s) Q → returns (on_la m) s (fun a s' => ∃ w, s' = iset_rest w s ∧ Q a w).
Proof. intros H. unfold returns, on_la, zoom in *. destruct (m (i_rest s)) as [[a w]| |]; [|done|done]. by exists w. Qed.

Lemma set_handler_run {W} (s : isys W) n p :
  i_initialized s = false → 0 ≤ n < 256 → isr_set_handler n p s = Done (tt, iset_handlers (<[Z.to_nat n := p]> (i_handlers s)) s).
Proof.
  intros Hi Hn. unfold isr_set_handler, not_initialized. unfold bind at 1. unfold bind at 1, gets. rewrite Hi. cbn.
  unfold kassert, ISR_MAX. by rewrite (proj2 (Z.ltb_lt n 256)) by lia.
Qed.

Lemma at_ptr b w0 f ev w : at_regs b w0 f ev w → la_ptr w = Some b.
Proof. intros [A1 A2 _ _]. rewrite A2. exact A1. Qed.

Lemma base_wp b w0 f ev w (g : lapics → lapics) :
  at_regs b w0 f ev w → (∀ l x, g (lset_log l x) = lset_log l (g x)) → (∀ x, la_ptr (g x) = la_ptr x) → (∀ x, la_log (g x) = la_log x) →
  returns (modify g) w (fun _ w' => at_regs b (g w0) f ev w').
Proof. intros A H1 H2 H3. unfold returns, modify. apply at_regs_base; [done|rewrite H2; apply A|done|done]. Qed.

Section bring_up.
Context `{AN : Answers} (turns : nat) (b : Z).

(** The delivery of an interrupt to other CPUs is over after fewer than [turns] polls. *)
Definition ipi_ends : Prop :=
  ∀ l, ∃ n, (n < turns)%nat ∧ ∀ new, length new = n → Forall (fun x => ∃ v, x = MmioRd (b + 4 * LAPIC_REG_ICRLO) v) new →
    Z.land (u32 (mmio_answer (new ++ l) (b + 4 * LAPIC_REG_ICRLO))) LAPIC_ICR_DELIVS = 0.

Lemma ipi_loop_wp n fuel w0 f ev w :
  at_regs b w0 f ev w → (n < fuel)%nat →
  (∀ new, length new = n → Forall (fun x => ∃ v, x = MmioRd (b + 4 * LAPIC_REG_ICRLO) v) new →
    Z.land (u32 (mmio_answer (new ++ la_log w) (b + 4 * LAPIC_REG_ICRLO))) LAPIC_ICR_DELIVS = 0) →
  returns (ipi_wait_loop fuel) w (fun _ w' => at_regs b w0 f ev w').
Proof.
  revert fuel w. induction n as [|n IH]; intros [|fuel] w A Hf Hn; [lia| |lia|]; cbn [ipi_wait_loop].
  - eapply returns_bind; [by apply (lapicr_wp _ _ _ _ _ LAPIC_REG_ICRLO A)|]. intros v w1 [-> A1].
    pose proof (Hn [] eq_refl (Forall_nil_2 _)) as H0. cbn [app] in H0. by rewrite H0.
  - set (v := u32 (mmio_answer (la_log w) (b + 4 * LAPIC_REG_ICRLO))).
    assert (E : lapicr LAPIC_REG_ICRLO w = Done (v, lset_log (MmioRd (b + 4 * LAPIC_REG_ICRLO) v :: la_log w) w)).
    { unfold lapicr, with_lapic, bind, gets. by rewrite (at_ptr _ _ _ _ _ A). }
    destruct (returns_inv _ _ _ (lapicr_wp _ _ _ _ _ LAPIC_REG_ICRLO A)) as (v' & w1 & E' & _ & A1). rewrite E in E'. injection E' as <- <-.
    unfold returns. rewrite (bind_run _ _ _ _ _ E). destruct (Z.land v LAPIC_ICR_DELIVS =? 0); [exact A1|].
    apply (IH fuel _ A1); [lia|]. intros new Hl Hf'. cbn [la_log lset_log].
    specialize (Hn (new ++ [MmioRd (b + 4 * LAPIC_REG_ICRLO) v])). rewrite <- app_assoc in Hn. apply Hn.
    + rewrite length_app. cbn. lia.
    + apply Forall_app. split; [exact Hf'|]. apply Forall_singleton. by exists v.
Qed.

Lemma ipi_wait_wp w0 f ev w : at_regs b w0 f ev w → ipi_ends → returns (lapic_ipi_wait turns) w (fun _ w' => at_regs b w0 f ev w').
Proof. intros A He. destruct (He (la_log w)) as (n & Hn & Hz). by apply (ipi_loop_wp n). Qed.

(** The registers that do not concern the timer. *)
Definition quiet (f : Z → option Z) : Prop :=
  f LAPIC_REG_SVR = Some 0x13F ∧ f LAPIC_REG_LINT0 = Some LAPIC_MASKED ∧ f LAPIC_REG_LINT1 = Some LAPIC_MASKED ∧
  f LAPIC_REG_ERROR = Some INT_IRQ_ERROR ∧ f LAPIC_REG_EOI = Some 0 ∧ f LAPIC_REG_TPR = Some 0.

(** One register write, the state before it forgotten. *)
Ltac wr A := eapply returns_bind; [by apply (lapicw_wp _ _ _ _ _ _ _ A)|]; clear A; intros [] ? A; cbn beta in A.

Lemma setup_wp w0 f ev w :
  at_regs b w0 f ev w → ipi_ends →
  returns (
    lapicw LAPIC_REG_SVR (Z.lor LAPIC_ENABLE INT_IRQ_SPURIOUS) ;;;
    lapicw LAPIC_REG_TIMER LAPIC_TIMER_PERIODIC ;;;
    lapicw LAPIC_REG_LINT0 LAPIC_MASKED ;;;
    lapicw LAPIC_REG_LINT1 LAPIC_MASKED ;;;
    ver <- lapicr LAPIC_REG_VER ;;
    when (Z.land (Z.shiftr ver 16) 0xFF >=? 4) (lapicw LAPIC_REG_PCINT LAPIC_MASKED) ;;;
    lapicw LAPIC_REG_ERROR INT_IRQ_ERROR ;;;
    lapicw LAPIC_REG_ESR 0 ;;;
    lapicw LAPIC_REG_ESR 0 ;;;
    lapicw LAPIC_REG_EOI 0 ;;;
    lapic_ipi 0 0 (Z.lor (Z.lor LAPIC_ICR_BCAST LAPIC_ICR_INIT) LAPIC_ICR_LEVEL) ;;;
    lapic_ipi_wait turns ;;;
    lapicw LAPIC_REG_TPR 0) w (fun _ w' => ∃ f', at_regs b w0 f' (ev ++ [Ipi 0 0x88500]) w' ∧ quiet f').
Proof.
  intros A He. wr A. wr A. wr A. wr A.
  eapply returns_bind; [by apply (lapicr_wp _ _ _ _ _ LAPIC_REG_VER A)|]. clear A. intros ver w1 [_ A].
  assert (P : ∃ f1, returns (when (Z.land (Z.shiftr ver 16) 0xFF >=? 4) (lapicw LAPIC_REG_PCINT LAPIC_MASKED)) w1 (fun _ w' => at_regs b w0 f1 ev w') ∧
    f1 LAPIC_REG_SVR = Some 0x13F ∧ f1 LAPIC_REG_LINT0 = Some LAPIC_MASKED ∧ f1 LAPIC_REG_LINT1 = Some LAPIC_MASKED).
  { destruct (_ >=? 4); cbn [when]; eexists.
    - split; [by apply (lapicw_wp _ _ _ _ _ _ _ A)|]. by repeat split.
    - split; [exact A|]. by repeat split. }
  destruct P as (f1 & P & P1 & P2 & P3). eapply returns_bind; [exact P|]. clear A P. intros [] ? A. cbn beta in A.
  wr A. wr A. wr A. wr A.
  eapply returns_bind; [apply (lapic_ipi_wp _ _ _ _ _ 0 0 _ A); lia|]. clear A. intros [] w2 (f2 & A & F2).
  eapply returns_bind; [by apply (ipi_wait_wp _ _ _ _ A)|]. clear A. intros [] w3 A. cbn beta in A.
  eapply returns_mono; [by apply (lapicw_wp _ _ _ _ _ _ _ A)|]. clear A. intros [] w4 A. eexists. split; [exact A|].
  unfold quiet, fset at 1 2 3 4 5 6. cbn [Z.eqb].
  repeat match goal with |- context [LAPIC_REG_TPR =? ?r] => let v := eval vm_compute in (LAPIC_REG_TPR =? r) in change (LAPIC_REG_TPR =? r) with v end.
  cbv iota. rewrite !F2 by discriminate. by repeat split.
Qed.

Lemma calibrated_wp w0 f ev w :
  at_regs b w0 f ev w →
  returns lapic_enable_calibrated_timer w (fun _ w' =>
    at_regs b w0 (fset LAPIC_REG_TICR (la_ticr w0) (fset LAPIC_REG_TIMER (Z.lor LAPIC_TIMER_PERIODIC INT_IRQ_TIMER) (fset LAPIC_REG_TDCR LAPIC_TIMER_X16 f))) ev w').
Proof.
  intros A. unfold lapic_enable_calibrated_timer. wr A. wr A.
  match goal with |- returns _ ?w1 _ => assert (T : gets la_ticr w1 = Done (la_ticr w0, w1)) by (unfold gets; by rewrite (ar_same _ _ _ _ _ A)) end.
  unfold returns. rewrite (bind_run _ _ _ _ _ T). by apply (lapicw_wp _ _ _ _ _ _ _ A).
Qed.

(** The arithmetic of the calibration. *)
Lemma calibrate_freq e : 0 ≤ e < 2 ^ 31 - 1 → u64 (u64 (Z.shiftl (u64 (- s32 (u32 (2 ^ 32 - 1 - e)))) 4) * 100) = 1600 * (e + 1).
Proof.
  intros He. rewrite (u32_small (2 ^ 32 - 1 - e)) by lia. replace (s32 (2 ^ 32 - 1 - e)) with (- (1 + e)).
  - rewrite Z.shiftl_mul_pow2 by lia. unfold u64. rewrite (Z.mod_small (- - _)), (Z.mod_small (_ * 2 ^ 4)), Z.mod_small by lia. lia.
  - unfold s32. rewrite u32_small by lia. destruct (Z.ltb_spec (2 ^ 32 - 1 - e) (2 ^ 31)); lia.
Qed.

Lemma calibrate_ticr e : 0 ≤ e < 2 ^ 31 - 1 → u32 (Z.shiftr (1600 * (e + 1) / TICKS_PER_SECOND) 4) = (e + 1) / 100.
Proof.
  intros He. rewrite Z.shiftr_div_pow2 by lia. unfold TICKS_PER_SECOND. rewrite Z.div_div by lia. change (10000 * 2 ^ 4) with (1600 * 100).
  rewrite Z.div_mul_cancel_l by lia. rewrite u32_small by dlia. done.
Qed.

(** Calibration: the timer counted [e] down from its maximum during the 10 ms. *)
Lemma calibrate_wp p (s : asys) f ev e :
  at_regs b (i_rest s) f ev (i_rest s) → i_initialized s = false → eflags_if (la_mach (i_rest s)) = false → unlocked (la_ls (i_rest s)) → pit_ends turns →
  (∀ l, mmio_answer l (b + 4 * LAPIC_REG_TCCR) = 2 ^ 32 - 1 - e) → 0 ≤ e < 2 ^ 31 - 1 →
  returns (lapic_calibrate_timer_with_pit p turns) s (fun _ s' => ∃ w' f',
    s' = iset_rest w' (iset_handlers (<[32%nat := p]> (i_handlers s)) s) ∧
    at_regs b (lset_freq (1600 * (e + 1)) ((e + 1) / 100) (i_rest s)) f' (ev ++ loads 10000) w' ∧
    ∀ r, r ≠ LAPIC_REG_TDCR → r ≠ LAPIC_REG_TIMER → r ≠ LAPIC_REG_TICR → f' r = f r).
Proof.
  intros A Hi Hif Hu Hp Ht He. unfold lapic_calibrate_timer_with_pit. unfold returns at 1. unfold bind at 1, get at 1. rewrite Hif.
  rewrite (bind_run _ _ s tt s) by done. rewrite (bind_run _ _ _ _ _ (set_handler_run s INT_IRQ_TIMER p Hi ltac:(vm_compute; split; congruence))).
  change (Z.to_nat INT_IRQ_TIMER) with 32%nat. set (s1 := iset_handlers _ s). change (i_rest s) with (i_rest s1) in A, Hu, Hif |- *.
  eapply returns_mono; [apply on_la_wp|].
  { eapply returns_bind; [exact (acquire_wp _ _ _ _ _ A Hu)|]. clear A. intros [] w1 A. cbn beta in A.
    eapply returns_bind; [by apply (base_wp _ _ _ _ _ (fun s => lset_mach (set_if true (la_mach s)) s) A)|].
    clear A. intros [] w2 A. cbn beta in A. wr A. wr A.
    match type of A with at_regs _ _ _ _ ?w3 => destruct (prepare_timer 10000 (la_log w3) ltac:(lia) ltac:(lia)) as (n3 & E3 & S3 & T3) end.
    eapply returns_bind; [exact (dev_wp _ _ _ _ _ _ _ A E3 T3)|]. clear A. intros [] w4 A. cbn beta in A. rewrite S3 in A.
    eapply returns_bind; [eapply (dev_wp _ _ _ _ _ pit_start_counter [_; _; _] A); [reflexivity|repeat constructor; unfold timer_access; tauto]|].
    clear A. intros [] w5 A. cbn [sent] in A. change (PIT_CHAN2_OUTPUT =? PIT_CHAN 2) with false in A. cbn [fmap list_fmap] in A. rewrite app_nil_r in A. wr A.
    match type of A with at_regs _ _ _ _ ?w6 => destruct (wait_counter_timer turns (la_log w6) Hp) as (n6 & E6 & T6 & S6) end.
    eapply returns_bind; [exact (dev_wp _ _ _ _ _ _ _ A E6 T6)|]. clear A. intros [] w7 A. cbn beta in A. rewrite S6 in A. cbn [fmap list_fmap] in A. rewrite app_nil_r in A. wr A.
    eapply returns_bind; [exact (lapicr_wp _ _ _ _ _ LAPIC_REG_TCCR A)|]. clear A. intros tccr w8 [-> A]. rewrite Ht. cbv zeta. rewrite calibrate_freq, calibrate_ticr by done.
    eapply returns_bind; [by apply (base_wp _ _ _ _ _ (fun s => lset_mach (set_if false (la_mach s)) s) A)|].
    clear A. intros [] w9 A. cbn beta in A.
    eapply returns_bind; [by apply (base_wp _ _ _ _ _ (lset_freq _ _) A)|].
    clear A. intros [] w10 A. cbn beta in A. eapply (release_wp _ _ _ _ _ (la_ls (i_rest s1)) A Hu).
    unfold la_ls at 1. cbn [la_mach la_pit_lock lset_freq lset_mach lset_ls].
    replace (set_if false (set_if true (ls_mach (entered (la_ls (i_rest s1)))))) with (ls_mach (entered (la_ls (i_rest s1)))); [by destruct (entered _)|].
    pose proof (entered_if _ Hu) as Ee. destruct (ls_mach (entered (la_ls (i_rest s1)))). cbn in *. unfold set_if. cbn. by rewrite Ee, Hif. }
  intros [] s' (w' & -> & A'). eexists _, _. split; [reflexivity|]. split.
  - destruct (i_rest s1) as [m lk me hd pt tc bf bi lg] eqn:Ew. exact A'.
  - intros r H1 H2 H3. unfold fset. by rewrite !(proj2 (Z.eqb_neq _ r)) by congruence.
Qed.

End bring_up.

Lemma init_ptr_run `{AN : Answers} vm_map (s : asys) h b :
  la_header (i_rest s) = Some h → vm_map_walk vm_map (header_lapic_addr (la_mem (i_rest s)) h) true = Done b →
  on_la (a <- lapic_phys ;; v <- walked vm_map a ;; modify (lset_ptr (Some v))) s = Done (tt, iset_rest (lset_ptr (Some b) (i_rest s)) s).
Proof.
  intros Hh Hw. unfold on_la, zoom, lapic_phys. unfold bind at 1. unfold bind at 1, get. rewrite Hh. unfold ret, walked. unfold bind at 1. by rewrite Hw.
Qed.


(** ** Examples *)

(** A local APIC at 0xFEE00000 with id 0 whose timer counts 625000 in 10 ms. *)
#[local] Instance example_answers : Answers := {
  mmio_answer := fun _ a => if a =? 0xFEE00390 then 2 ^ 32 - 1 - 624999 else 0;
  port_answer := fun _ _ => 0;
}.

Lemma example_pit_ends : pit_ends 1.
Proof. intros l. exists 0%nat. split; [apply Nat.lt_0_1|]. reflexivity. Qed.
Lemma example_ipi_ends : ipi_ends 1 0xFEE00000.
Proof. intros l. exists 0%nat. split; [apply Nat.lt_0_1|]. reflexivity. Qed.

Definition example_boot_machine : machine := mk_machine [mk_cpu X86_CPU_MAGIC 0 false 0 false 0 0] 1 zero_cpu 0 false 0 0x1000 false.
Definition example_lapics (p : option Z) : lapics :=
  mk_la example_boot_machine free_lock (write_bytes (fun _ => 0) 0xC009FD24 (le_bytes 4 0xFEE00000)) (Some 0xC009FD00) p 0 0 0 [].

Lemma example_lapics_unlocked p : unlocked (la_ls (example_lapics p)).
Proof. left. split; [reflexivity|]. exists 0%nat, (mk_cpu X86_CPU_MAGIC 0 false 0 false 0 0). split; [split; try reflexivity; try lia; discriminate|discriminate]. Qed.

Lemma start_ap_protocol_witness :
  ∃ l, lapic_start_ap 1 3 0x8000 (example_lapics (Some 0xFEE00000)) =
    Done (tt, after (lset_mem (write_bytes (la_mem (example_lapics None)) 0xC0000467 [0; 0; 0; 8]) (example_lapics (Some 0xFEE00000))) l) ∧
    length l = 56%nat.
Proof.
  destruct (start_ap_protocol 1 (example_lapics (Some 0xFEE00000)) 0xFEE00000 3 0x8000 eq_refl (example_lapics_unlocked _) ltac:(lia) ltac:(lia) example_pit_ends)
    as (i1 & t1 & i2 & t2 & i3 & t3 & i4 & t4 & E & _).
  eexists. split; [exact E|].
  assert (E' : (match lapic_start_ap 1 3 0x8000 (example_lapics (Some 0xFEE00000)) with Done (_, w) => length (la_log w) | _ => O end) = 56%nat) by (vm_compute; reflexivity).
  rewrite E in E'. unfold after in E'. cbn [la_log lset_log] in E'. rewrite length_app, length_reverse in E'. cbn [la_log lset_mem example_lapics length] in E'.
  rewrite Nat.add_0_r in E'. exact E'.
Defined.

Definition example_start (p : option Z) : asys :=
  mk_is (replicate 256 0) true (<[32%nat := 5]> (replicate 256 0)) false (example_state example_ops) 0%nat (example_lapics p).

Lemma tick_handled_witness :
  ∃ s', generic_interrupt_handler (fun _ => isr_timer []) (example_frame 32 0 0 0 0) (example_start (Some 0xFEE00000)) = Done (example_frame 32 0 0 0 0, s') ∧
    current_ticks (i_sched s') = 101 ∧ queue (i_sched s') = [12; 10]%nat.
Proof.
  assert (E : ∃ x, threads (example_state example_ops) !! 10%nat = Some x ∧
    (∀ y, procs (example_state example_ops) !! t_parent x = Some y → bool_decide (p_state y = PROC_EXITING) = false)).
  { eexists. split; [vm_compute; reflexivity|]. intros y Hy. vm_compute in Hy. injection Hy as <-. reflexivity. }
  destruct E as (x & Hx & Hy).
  destruct (tick_handled [] (fun _ => isr_timer []) (example_start (Some 0xFEE00000)) (example_frame 32 0 0 0 0) 5 0xFEE00000
    (mk_scpu (Some 10%nat) (Some 100%nat) 0 true 0 true 1) 10%nat x eq_refl eq_refl ltac:(discriminate) (fun _ => eq_refl) eq_refl (example_inv example_ops))
    as (y & s' & Hp & G & T & _ & _ & _ & x' & _ & R).
  { split; [vm_compute; reflexivity|]. split; [reflexivity|exact Hx]. }
  exists s'. split; [exact G|]. rewrite T. split; [vm_compute; reflexivity|]. rewrite (Hy y Hp) in R. destruct R as [_ R]. rewrite R. vm_compute. reflexivity.
Defined.

