(* ===== verification/Shootdown.v ===== *)
(** * arch/i386/paging/ipi.c: keeping the translation caches of all CPUs coherent

    [Paging] models the tables in memory; this file models what ipi.c is for.  Every CPU has its
    own interrupt flag, local APIC, CR3 and translation cache (TLB); the CPU records and the
    static variables of ipi.c are shared.  A CPU runs the code of [Cpu] and [Apic] on its own
    view of that state.  The boot code sets CR4.PGE, so loading CR3 keeps cached translations
    with the global bit, and [invlpg] drops them.

    paging_propagate_changes is a sequence of steps of the sending CPU, between which the other
    CPUs take theirs: handling a pending interrupt, caching a translation, losing one, switching
    CR3, becoming active.  Other CPUs that want to send wait for the lock the sender holds. *)

From stdpp Require Import base list strings gmap relations.
From Stdlib Require Import ZArith Lia.
From S2P Require Import Prelude Memory MemLayout Cpu Paging Platform Apic.

Definition INT_FLUSH_TLB_IPI : Z := 0x81.

(** ** State *)

Record cpu_local := mk_local {
  l_if : bool;
  l_id : Z;
  l_cr3 : Z;
  l_tlb : gmap Z Z;
  l_log : list access;
}.

(** [sh_base] holds the shared records; its interrupt flag, APIC id, CR3 and history are
    those of no CPU. *)
Record shoot := mk_sh {
  sh_base : lapics;
  sh_local : list cpu_local;
  sh_lock : cpu_spinlock;
  sh_updated_pd : Z;
  sh_updated_page : Z;
  sh_global : bool;
  sh_received : bool;
}.

Definition no_local : cpu_local := mk_local false 0 0 ∅ [].
Definition loc (j : nat) (s : shoot) : cpu_local := default no_local (sh_local s !! j).

Definition mach_of (x : cpu_local) (m : machine) : machine :=
  mk_machine (cpus m) (nof_cpus m) (initial_cpu m) (nof_active_cpus m) (l_if x) (l_id x) (l_cr3 x) (yaos2_initialized m).
Definition mach_at (j : nat) (s : shoot) : machine := mach_of (loc j s) (la_mach (sh_base s)).

(** The shared part of [m], with the rest of [m0]. *)
Definition shared (m0 m : machine) : machine :=
  mk_machine (cpus m) (nof_cpus m) (initial_cpu m) (nof_active_cpus m) (eflags_if m0) (Cpu.lapic_get_id m0) (cr3 m0) (yaos2_initialized m).

Definition view (j : nat) (s : shoot) : lapics := lset_log (l_log (loc j s)) (lset_mach (mach_at j s) (sh_base s)).
Definition upd (j : nat) (f : cpu_local → cpu_local) (s : shoot) : shoot :=
  mk_sh (sh_base s) (alter f j (sh_local s)) (sh_lock s) (sh_updated_pd s) (sh_updated_page s) (sh_global s) (sh_received s).
Definition sh_set_base (w : lapics) (s : shoot) : shoot :=
  mk_sh w (sh_local s) (sh_lock s) (sh_updated_pd s) (sh_updated_page s) (sh_global s) (sh_received s).
Definition local_of (w : lapics) (x : cpu_local) : cpu_local :=
  mk_local (eflags_if (la_mach w)) (Cpu.lapic_get_id (la_mach w)) (cr3 (la_mach w)) (l_tlb x) (la_log w).
Definition put (j : nat) (w : lapics) (s : shoot) : shoot :=
  upd j (local_of w)
    (sh_set_base (lset_log (la_log (sh_base s)) (lset_mach (shared (la_mach (sh_base s)) (la_mach w)) w)) s).

Definition sh_set_lock (l : cpu_spinlock) (s : shoot) : shoot :=
  mk_sh (sh_base s) (sh_local s) l (sh_updated_pd s) (sh_updated_page s) (sh_global s) (sh_received s).
Definition sh_set_update (pd v : Z) (g : bool) (s : shoot) : shoot :=
  mk_sh (sh_base s) (sh_local s) (sh_lock s) pd v g (sh_received s).
Definition sh_set_received (b : bool) (s : shoot) : shoot :=
  mk_sh (sh_base s) (sh_local s) (sh_lock s) (sh_updated_pd s) (sh_updated_page s) (sh_global s) b.

(** Code of CPU [j]. *)
Definition on_apic {A} (j : nat) (m : M lapics A) : M shoot A := zoom (view j) (put j) m.
Definition on_core {A} (j : nat) (m : M machine A) : M shoot A := on_apic j (zoom la_mach lset_mach m).
Definition on_ipi_lock {A} (j : nat) (m : M lock_state A) : M shoot A :=
  zoom (fun s => mk_ls (mach_at j s) (sh_lock s)) (fun l s => sh_set_lock (ls_lock l) (put j (lset_mach (ls_mach l) (view j s)) s)) m.

(** ** The instructions *)

(** [mov cr3]: translations without the global bit are dropped. *)
Definition load_cr3 (j : nat) (v : Z) : M shoot unit :=
  modify (upd j (fun x => mk_local (l_if x) (l_id x) v (filter (fun ve => has ve.2 PAGE_BIT_GLOBAL = true) (l_tlb x)) (l_log x))).
Definition asm_invlpg (j : nat) (v : Z) : M shoot unit :=
  modify (upd j (fun x => mk_local (l_if x) (l_id x) (l_cr3 x) (delete (mask_to_page v) (l_tlb x)) (l_log x))).

(** ** cpu.c *)

Definition cpu_flush_tlb (j : nat) : M shoot unit :=
  on_core j preempt_disable ;;;
  cr3 <- gets (fun s => l_cr3 (loc j s)) ;;
  load_cr3 j cr3 ;;;
  on_core j preempt_enable.

Definition cpu_set_cr3 (j : nat) (cr3 : Z) : M shoot Z :=
  on_core j preempt_disable ;;;
  prev_cr3 <- gets (fun s => l_cr3 (loc j s)) ;;
  when (negb (cr3 =? prev_cr3)) (load_cr3 j cr3) ;;;
  on_core j preempt_enable ;;;
  ret prev_cr3.

(** ** ipi.c *)

Section code.
Context `{Answers}.
Variables (kernel_pd : Z) (turns : nat).

Definition ipi_flush_tlb_handler (j : nat) : M shoot unit :=
  on_core j preempt_disable ;;;
  s <- get ;;
  let cr3 := l_cr3 (loc j s) in
  (if sh_global s && (sh_updated_pd s =? phys_kernel_pd kernel_pd) && negb (cr3 =? phys_kernel_pd kernel_pd) then cpu_flush_tlb j
   else if sh_updated_pd s =? cr3 then
     if negb (sh_updated_page s =? 0) then asm_invlpg j (sh_updated_page s) else cpu_flush_tlb j
   else ret tt) ;;;
  on_core j preempt_enable ;;;
  on_apic j lapic_eoi ;;;
  modify (sh_set_received true).

(** unsafe_propagate_to_cpu up to its waiting loop, for an active CPU. *)
Definition propagate_send (p i : nat) : M shoot unit :=
  c <- on_core p (read_cpu (CpuAt i)) ;;
  modify (sh_set_received false) ;;;
  on_apic p (lapic_ipi (lapic_id c) INT_FLUSH_TLB_IPI 0) ;;;
  on_apic p (lapic_ipi_wait turns).

(** paging_propagate_changes, and with it cpu_enumerate_other_cpus, before its loop and after. *)
Definition propagate_begin (p : nat) (pd v : Z) (global : bool) : M shoot unit :=
  on_ipi_lock p cpu_spinlock_acquire ;;;
  modify (sh_set_update pd v global) ;;;
  on_core p preempt_disable.
Definition propagate_end (p : nat) : M shoot unit :=
  on_core p preempt_enable ;;;
  on_ipi_lock p cpu_spinlock_release.

(** ** The steps of the protocol *)

(** The sender looks at CPU [i], waits for its answer, or has returned. *)
Inductive sender : Type :=
| Scan (i : nat)
| Wait (i : nat)
| Finished.

(** [sy_seen] of the interrupts sent have been delivered. *)
Record system := mk_sys {
  sy_s : shoot;
  sy_pc : sender;
  sy_seen : nat;
}.

(** The page tables in memory do not change while the protocol runs. *)
Variable walk : Z → Z → option Z.
Variables (b : Z) (p : nat).

(** What another CPU may do with its interrupt flag and its record. *)
Inductive other_code : M machine unit → Prop :=
| oc_push : other_code push_no_interrupts
| oc_pop : other_code pop_no_interrupts
| oc_active : other_code (cpu_set_active true).

Inductive step : system → system → Prop :=
| step_skip s i n c :
    cpus (la_mach (sh_base s)) !! i = Some c → Z.of_nat i < nof_cpus (la_mach (sh_base s)) →
    verify_cpu c && negb (lapic_id c =? l_id (loc p s)) && active c = false →
    step (mk_sys s (Scan i) n) (mk_sys s (Scan (S i)) n)
| step_send s s' i n c :
    cpus (la_mach (sh_base s)) !! i = Some c → Z.of_nat i < nof_cpus (la_mach (sh_base s)) →
    verify_cpu c && negb (lapic_id c =? l_id (loc p s)) && active c = true →
    propagate_send p i s = Done (tt, s') →
    step (mk_sys s (Scan i) n) (mk_sys s' (Wait i) n)
| step_answered s i n :
    sh_received s = true → step (mk_sys s (Wait i) n) (mk_sys s (Scan (S i)) n)
| step_end s s' i n :
    Z.of_nat i = nof_cpus (la_mach (sh_base s)) → propagate_end p s = Done (tt, s') →
    step (mk_sys s (Scan i) n) (mk_sys s' Finished n)
| step_handle s s' pc n j cmd :
    events b (l_log (loc p s)) !! n = Some (Ipi (l_id (loc j s)) cmd) → Z.land cmd 0xFF = INT_FLUSH_TLB_IPI →
    (j < length (sh_local s))%nat → l_if (loc j s) = true →
    ipi_flush_tlb_handler j s = Done (tt, s') →
    step (mk_sys s pc n) (mk_sys s' pc (S n))
| step_cache s pc n j w e :
    walk (l_cr3 (loc j s)) w = Some e →
    step (mk_sys s pc n) (mk_sys (upd j (fun x => mk_local (l_if x) (l_id x) (l_cr3 x) (<[w := e]> (l_tlb x)) (l_log x)) s) pc n)
| step_evict s pc n j w :
    step (mk_sys s pc n) (mk_sys (upd j (fun x => mk_local (l_if x) (l_id x) (l_cr3 x) (delete w (l_tlb x)) (l_log x)) s) pc n)
| step_switch s s' pc n j q prev :
    j ≠ p → (j < length (sh_local s))%nat → cpu_set_cr3 j q s = Done (prev, s') → step (mk_sys s pc n) (mk_sys s' pc n)
| step_core s s' pc n j m :
    j ≠ p → (j < length (sh_local s))%nat → other_code m → on_core j m s = Done (tt, s') → step (mk_sys s pc n) (mk_sys s' pc n).

End code.

(** ** Views *)

Lemma mach_of_view j s : la_mach (view j s) = mach_at j s.
Proof. done. Qed.

Lemma loc_upd j f s : (j < length (sh_local s))%nat → loc j (upd j f s) = f (loc j s).
Proof. intros Hj. unfold loc, upd. cbn. rewrite list_lookup_alter_eq. destruct (sh_local s !! j) eqn:E; [done|]. by apply lookup_ge_None in E; lia. Qed.

Lemma loc_upd_ne i j f s : i ≠ j → loc i (upd j f s) = loc i s.
Proof. intros Hn. unfold loc, upd. cbn. by rewrite list_lookup_alter_ne. Qed.

Lemma upd_upd j f g s : upd j f (upd j g s) = upd j (f ∘ g) s.
Proof. unfold upd. cbn. by rewrite list_alter_alter_eq. Qed.

Lemma upd_ext j f g s : (∀ x, sh_local s !! j = Some x → f x = g x) → upd j f s = upd j g s.
Proof. intros Hf. unfold upd. f_equal. by apply list_alter_ext. Qed.

Lemma upd_id j f s : (∀ x, sh_local s !! j = Some x → f x = x) → upd j f s = s.
Proof. intros Hf. rewrite (upd_ext j f id) by done. unfold upd. rewrite list_alter_id by done. by destruct s. Qed.

Lemma length_upd j f s : length (sh_local (upd j f s)) = length (sh_local s).
Proof. apply length_alter. Qed.

(** CPU [j] writes its record [c], its interrupt flag and the count of active CPUs. *)
Definition wr (j : nat) (c : x86_cpu) (f : bool) (k : Z) (s : shoot) : shoot :=
  upd j (fun x => mk_local f (l_id x) (l_cr3 x) (l_tlb x) (l_log x))
    (sh_set_base (lset_mach (set_nof_active k (set_cpus (<[j := c]> (cpus (la_mach (sh_base s)))) (la_mach (sh_base s)))) (sh_base s)) s).

Definition active_count (s : shoot) : Z := nof_active_cpus (la_mach (sh_base s)).

Lemma put_wr j c f k s : put j (lset_mach (set_nof_active k (with_cpu (mach_at j s) j c f)) (view j s)) s = wr j c f k s.
Proof.
  unfold put, wr. apply upd_ext. intros x Hx. cbn in Hx. unfold local_of, view, loc. cbn. unfold mach_at, loc. by rewrite Hx.
Qed.

Lemma core_wr {A} (m : M machine A) j c f k s a :
  m (mach_at j s) = Done (a, set_nof_active k (with_cpu (mach_at j s) j c f)) → on_core j m s = Done (a, wr j c f k s).
Proof. intros E. unfold on_core, on_apic, zoom. rewrite mach_of_view, E. by rewrite put_wr. Qed.

Lemma core_with {A} (m : M machine A) j c f s a :
  m (mach_at j s) = Done (a, with_cpu (mach_at j s) j c f) → on_core j m s = Done (a, wr j c f (active_count s) s).
Proof. intros E. by apply core_wr. Qed.

Lemma wr_same j c s : (j < length (sh_local s))%nat → cpus (la_mach (sh_base s)) !! j = Some c → wr j c (l_if (loc j s)) (active_count s) s = s.
Proof.
  intros Hj Hc. unfold wr. rewrite list_insert_id by done.
  replace (sh_set_base _ s) with s by (destruct s as [[[] ? ? ? ? ? ? ? ?] ? ? ? ? ? ?]; done).
  apply upd_id. intros x Hx. unfold loc. rewrite Hx. by destruct x.
Qed.

Lemma wr_wr j c f k c' f' k' s : wr j c f k (wr j c' f' k' s) = wr j c f k s.
Proof.
  unfold wr. change (upd j ?h (sh_set_base ?w (upd j ?h' ?y))) with (upd j h (upd j h' (sh_set_base w y))).
  rewrite upd_upd. cbn. by rewrite list_insert_insert_eq.
Qed.

Lemma mach_wr j c f k s : (j < length (sh_local s))%nat → mach_at j (wr j c f k s) = set_nof_active k (with_cpu (mach_at j s) j c f).
Proof. intros Hj. unfold mach_at, wr. by rewrite loc_upd by done. Qed.

Lemma mach_upd i j f s : (∀ x, l_if (f x) = l_if x ∧ l_id (f x) = l_id x ∧ l_cr3 (f x) = l_cr3 x) → mach_at i (upd j f s) = mach_at i s.
Proof.
  intros Hf. unfold mach_at. change (sh_base (upd j f s)) with (sh_base s). destruct (decide (i = j)) as [->|Hn]; [|by rewrite loc_upd_ne].
  unfold loc, upd. cbn. rewrite list_lookup_alter_eq. destruct (sh_local s !! j) as [x|]; [|done]. cbn. destruct (Hf x) as (? & ? & ?).
  unfold mach_of. congruence.
Qed.

(** ** Runs of the code of one CPU *)

(** Changes of the local state that the records do not depend on. *)
Definition keeps_flag (g : cpu_local → cpu_local) : Prop := ∀ x, l_if (g x) = l_if x ∧ l_id (g x) = l_id x.

Definition disabled (j : nat) (c : x86_cpu) (s : shoot) : shoot :=
  wr j (set_preempt (preempt_disabled c + 1) c) (l_if (loc j s)) (active_count s) s.

Section runs.
Context (j : nat) (c : x86_cpu) (s : shoot).
Hypotheses (Hj : (j < length (sh_local s))%nat) (RO : running_on (mach_at j s) j c).

Lemma disable_run : on_core j preempt_disable s = Done (tt, disabled j c s).
Proof. apply core_with. exact (preempt_disable_run _ _ _ RO). Qed.

Lemma running_upd g : keeps_flag g → running_on (mach_at j (upd j g s)) j c.
Proof.
  intros Hg. destruct (Hg (loc j s)) as [H1 H2]. unfold mach_at. rewrite loc_upd by done. destruct RO as [A B C D E F G].
  split; cbn in *; rewrite ?H1, ?H2; done.
Qed.

Lemma running_disabled : running_on (mach_at j (disabled j c s)) j (set_preempt (preempt_disabled c + 1) c).
Proof. unfold disabled. rewrite mach_wr by done. apply (running_preempted _ _ _ RO). pose proof (ro_preempt _ _ _ RO). lia. Qed.

End runs.

Lemma enable_back j c g s :
  (j < length (sh_local s))%nat → running_on (mach_at j s) j c → keeps_flag g →
  on_core j preempt_enable (upd j g (disabled j c s)) = Done (tt, upd j g s).
Proof.
  intros Hj RO Hg. pose proof (running_disabled _ _ _ Hj RO) as RO1.
  assert (Hj1 : (j < length (sh_local (disabled j c s)))%nat) by (unfold disabled, wr; by rewrite length_upd).
  pose proof (running_upd _ _ _ Hj1 RO1 g Hg) as RO2. pose proof (ro_preempt _ _ _ RO) as Hp.
  rewrite (core_with _ j _ _ _ _ (preempt_enable_run _ _ _ RO2 ltac:(cbn; lia))). do 2 f_equal.
  set (c' := set_preempt _ (set_preempt _ _)). replace c' with c by (unfold c'; cbn; destruct c; unfold set_preempt; cbn; f_equal; lia).
  transitivity (upd j g (wr j c (l_if (loc j s)) (active_count s) s)); [|by rewrite (wr_same j c s Hj (ro_cpu _ _ _ RO))]. unfold disabled.
  change (eflags_if (mach_at j ?y)) with (l_if (loc j y)). rewrite loc_upd by done. rewrite (proj1 (Hg _)).
  unfold wr at 2. rewrite loc_upd by done. cbn [l_if]. unfold wr. cbn. rewrite list_insert_insert_eq. rewrite !upd_upd. unfold upd. cbn. f_equal.
  rewrite list_alter_alter_eq. apply list_alter_ext; [|done]. intros x Hx. cbn. unfold loc. rewrite Hx. cbn.
  destruct (Hg (mk_local (l_if x) (l_id x) (l_cr3 x) (l_tlb x) (l_log x))) as [H1 H2]. cbn in H1, H2.
  destruct (g _) as [y1 y2 y3 y4 y5] eqn:Eg; cbn in *. by subst.
Qed.

Definition flushed (v : Z) (x : cpu_local) : cpu_local :=
  mk_local (l_if x) (l_id x) v (filter (fun ve => has ve.2 PAGE_BIT_GLOBAL = true) (l_tlb x)) (l_log x).

Section operations.
Context (j : nat) (c : x86_cpu) (s : shoot).
Hypotheses (Hj : (j < length (sh_local s))%nat) (RO : running_on (mach_at j s) j c).

Lemma loc_disabled : loc j (disabled j c s) = loc j s.
Proof. unfold disabled, wr. rewrite loc_upd by done. unfold loc. cbn. by destruct (default no_local _). Qed.

Lemma length_disabled : length (sh_local (disabled j c s)) = length (sh_local s).
Proof. unfold disabled, wr. by rewrite length_upd. Qed.

Lemma flush_tlb_run : cpu_flush_tlb j s = Done (tt, upd j (flushed (l_cr3 (loc j s))) s).
Proof.
  unfold cpu_flush_tlb. rewrite (bind_run _ _ _ _ _ (disable_run _ _ _ RO)). unfold bind at 1, gets. rewrite loc_disabled.
  unfold bind at 1, load_cr3, modify. exact (enable_back j c (flushed (l_cr3 (loc j s))) s Hj RO (fun _ => conj eq_refl eq_refl)).
Qed.

Lemma switch_run q :
  cpu_set_cr3 j q s = Done (l_cr3 (loc j s), if q =? l_cr3 (loc j s) then s else upd j (flushed q) s).
Proof.
  unfold cpu_set_cr3. rewrite (bind_run _ _ _ _ _ (disable_run _ _ _ RO)). unfold bind at 1, gets. rewrite loc_disabled.
  destruct (q =? l_cr3 (loc j s)); cbn [negb when]; unfold bind at 1.
  - unfold ret at 1. pose proof (enable_back j c id s Hj RO (fun _ => conj eq_refl eq_refl)) as E.
    rewrite !(upd_id j id) in E by done. by rewrite (bind_run _ _ _ _ _ E).
  - unfold load_cr3, modify. by rewrite (bind_run _ _ _ _ _ (enable_back j c (flushed q) s Hj RO (fun _ => conj eq_refl eq_refl))).
Qed.

End operations.

(** The cache after the handler. *)
Definition handled_tlb (kpd : Z) (s : shoot) (x : cpu_local) : gmap Z Z :=
  if sh_global s && (sh_updated_pd s =? kpd) && negb (l_cr3 x =? kpd) then l_tlb (flushed 0 x)
  else if sh_updated_pd s =? l_cr3 x then
    if negb (sh_updated_page s =? 0) then delete (mask_to_page (sh_updated_page s)) (l_tlb x) else l_tlb (flushed 0 x)
  else l_tlb x.

Definition handled (kpd b : Z) (v : Z) (s : shoot) (x : cpu_local) : cpu_local :=
  mk_local (l_if x) (l_id x) (l_cr3 x) (handled_tlb kpd s x) (MmioRd (b + 4 * LAPIC_REG_EOI) v :: MmioWr (b + 4 * LAPIC_REG_EOI) 0 :: l_log x).

Lemma eoi_run `{Answers} j b s :
  (j < length (sh_local s))%nat → la_ptr (sh_base s) = Some b →
  ∃ v, on_apic j lapic_eoi s = Done (tt, upd j (fun x => mk_local (l_if x) (l_id x) (l_cr3 x) (l_tlb x)
    (MmioRd (b + 4 * LAPIC_REG_EOI) v :: MmioWr (b + 4 * LAPIC_REG_EOI) 0 :: l_log x)) s).
Proof.
  intros Hj Hb. exists (u32 (mmio_answer (MmioWr (b + 4 * LAPIC_REG_EOI) (u32 0) :: l_log (loc j s)) (b + 4 * LAPIC_REG_EOI))).
  unfold on_apic, zoom, lapic_eoi, lapicw, with_lapic, bind, gets. cbn [la_ptr view lset_log lset_mach]. rewrite Hb.
  unfold on_dev, zoom, mmio_write, mmio_read, bind, modify, get, ret. cbn [la_log lset_log view]. do 2 f_equal.
  unfold put. cbn [la_mach lset_log lset_mach view]. replace (sh_set_base _ s) with s.
  - apply upd_ext. intros x Hx. unfold local_of, loc. cbn. unfold mach_at, loc. by rewrite Hx.
  - destruct s as [[[] ? ? ? ? ? ? ? ?] ? ? ? ? ? ?]; done.
Qed.

Lemma handler_run `{Answers} kernel_pd j c b s :
  (j < length (sh_local s))%nat → running_on (mach_at j s) j c → la_ptr (sh_base s) = Some b →
  ∃ v, ipi_flush_tlb_handler kernel_pd j s =
       Done (tt, sh_set_received true (upd j (handled (phys_kernel_pd kernel_pd) b v s) s)).
Proof.
  intros Hj RO Hb. set (g := fun x : cpu_local => mk_local (l_if x) (l_id x) (l_cr3 x) (handled_tlb (phys_kernel_pd kernel_pd) s x) (l_log x)).
  destruct (eoi_run j b (upd j g s) ltac:(by rewrite length_upd) Hb) as [v Ev]. exists v.
  unfold ipi_flush_tlb_handler. rewrite (bind_run _ _ _ _ _ (disable_run _ _ _ RO)). unfold bind at 1, get. rewrite (loc_disabled _ _ _ Hj).
  set (kpd := phys_kernel_pd kernel_pd) in *. cbv zeta.
  change (sh_global (disabled j c s)) with (sh_global s). change (sh_updated_pd (disabled j c s)) with (sh_updated_pd s).
  change (sh_updated_page (disabled j c s)) with (sh_updated_page s).
  match goal with |- bind ?m _ _ = _ => assert (E : m (disabled j c s) = Done (tt, upd j g (disabled j c s))) end.
  { assert (Hx : ∀ x, sh_local (disabled j c s) !! j = Some x → l_cr3 x = l_cr3 (loc j s)).
    { intros x Hx. rewrite <- (loc_disabled j c s Hj). unfold loc. by rewrite Hx. }
    pose proof (running_disabled _ _ _ Hj RO) as RO1.
    assert (Hf : cpu_flush_tlb j (disabled j c s) = Done (tt, upd j (flushed (l_cr3 (loc j s))) (disabled j c s))).
    { rewrite (flush_tlb_run j _ _ ltac:(by rewrite length_disabled) RO1). by rewrite (loc_disabled _ _ _ Hj). }
    destruct (sh_global s && _ && _) eqn:E1; [rewrite Hf|destruct (sh_updated_pd s =? l_cr3 (loc j s)) eqn:E2; [destruct (negb (sh_updated_page s =? 0)) eqn:E3; [|rewrite Hf]|]];
      unfold asm_invlpg, modify, ret; do 2 f_equal; [| | |symmetry; apply upd_id; intros x Hx'; pose proof (Hx x Hx') as Ex];
      try (apply upd_ext; intros x Hx'; pose proof (Hx x Hx') as Ex);
      unfold g, handled_tlb, flushed; rewrite Ex, E1, ?E2, ?E3; try done. rewrite <- Ex. by destruct x. }
  rewrite (bind_run _ _ _ _ _ E). rewrite (bind_run _ _ _ _ _ (enable_back j c g s Hj RO (fun _ => conj eq_refl eq_refl))).
  rewrite (bind_run _ _ _ _ _ Ev). unfold modify. rewrite upd_upd. done.
Qed.

Lemma base_shared s : sh_set_base (lset_log (la_log (sh_base s)) (lset_mach (shared (la_mach (sh_base s)) (la_mach (sh_base s))) (sh_base s))) s = s.
Proof. destruct s as [[[] ? ? ? ? ? ? ? ?] ? ? ? ? ? ?]; done. Qed.

(** Only the history of CPU [j] changes. *)
Lemma put_log j l s :
  put j (lset_log l (view j s)) s = upd j (fun x => mk_local (l_if x) (l_id x) (l_cr3 x) (l_tlb x) l) s.
Proof.
  unfold put. replace (sh_set_base _ s) with s by (symmetry; exact (base_shared s)). apply upd_ext. intros x Hx. unfold local_of. cbn. unfold mach_at, loc. by rewrite Hx.
Qed.

Lemma read_cpu_at_run p i s c : cpus (la_mach (sh_base s)) !! i = Some c → on_core p (read_cpu (CpuAt i)) s = Done (c, s).
Proof.
  intros Hc. unfold on_core, on_apic, zoom, read_cpu, gets. cbn [la_mach view lset_log lset_mach mach_at mach_of cpus]. rewrite Hc.
  cbn [default]. do 2 f_equal. transitivity (put p (lset_log (l_log (loc p s)) (view p s)) s); [done|]. rewrite put_log.
  apply upd_id. intros x Hx. unfold loc. rewrite Hx. by destruct x.
Qed.

Lemma send_run `{Answers} turns b p i c s :
  (p < length (sh_local s))%nat → la_ptr (sh_base s) = Some b → cpus (la_mach (sh_base s)) !! i = Some c → 0 ≤ lapic_id c < 256 → ipi_ends turns b →
  ∃ l, propagate_send turns p i s = Done (tt, upd p (fun x => mk_local (l_if x) (l_id x) (l_cr3 x) (l_tlb x) l) (sh_set_received false s)) ∧
       events b l = events b (l_log (loc p s)) ++ [Ipi (lapic_id c) INT_FLUSH_TLB_IPI].
Proof.
  intros Hp Hb Hc Hid He. unfold propagate_send. rewrite (bind_run _ _ _ _ _ (read_cpu_at_run p i s c Hc)). unfold bind at 1, modify.
  set (s1 := sh_set_received false s).
  pose proof (lapic_ipi_wp b _ _ _ _ (lapic_id c) INT_FLUSH_TLB_IPI 0 (at_regs_init b (view p s1) Hb) Hid) as W. cbv zeta in W.
  destruct (returns_inv' _ _ _ W) as (w1 & E1 & f1 & A1 & _).
  destruct (returns_inv' _ _ _ (ipi_wait_wp turns b _ _ _ _ A1 He)) as (w2 & E2 & A2).
  assert (R1 : on_apic p (lapic_ipi (lapic_id c) INT_FLUSH_TLB_IPI 0) s1 = Done (tt, upd p (fun x => mk_local (l_if x) (l_id x) (l_cr3 x) (l_tlb x) (la_log w1)) s1)).
  { unfold on_apic, zoom. rewrite E1. rewrite (ar_same _ _ _ _ _ A1) at 1. by rewrite put_log. }
  set (s2 := upd p _ s1) in *. assert (V2 : view p s2 = w1).
  { rewrite (ar_same _ _ _ _ _ A1). unfold view, s2. unfold mach_at. rewrite !loc_upd by done. done. }
  exists (la_log w2). split; [|rewrite (ar_events _ _ _ _ _ A2); done].
  rewrite (bind_run _ _ _ _ _ R1). unfold on_apic, zoom. rewrite V2, E2. do 2 f_equal.
  assert (E : w2 = lset_log (la_log w2) (view p s2)).
  { rewrite V2. rewrite (ar_same _ _ _ _ _ A2) at 1. rewrite (ar_same _ _ _ _ _ A1). done. }
  rewrite E, put_log. unfold s2. by rewrite upd_upd.
Qed.

Lemma lock_wr {A} (m : M lock_state A) j c f l s a :
  m (mk_ls (mach_at j s) (sh_lock s)) = Done (a, mk_ls (with_cpu (mach_at j s) j c f) l) →
  on_ipi_lock j m s = Done (a, sh_set_lock l (wr j c f (active_count s) s)).
Proof.
  intros E. unfold on_ipi_lock, zoom. rewrite E. cbn [ls_mach ls_lock].
  by rewrite <- (put_wr j c f (active_count s) s).
Qed.

Lemma begin_run p c pd v g s :
  (p < length (sh_local s))%nat → running_on (mach_at p s) p c → sh_lock s = free_lock →
  propagate_begin p pd v g s =
  Done (tt, sh_set_update pd v g (sh_set_lock (mk_spinlock 1 1 (num c)) (wr p (set_preempt (preempt_disabled c + 2) c) (l_if (loc p s)) (active_count s) s))).
Proof.
  intros Hp RO Hl. unfold propagate_begin.
  assert (E1 : on_ipi_lock p cpu_spinlock_acquire s = Done (tt, sh_set_lock (mk_spinlock 1 1 (num c)) (disabled p c s))).
  { apply lock_wr. rewrite (acquire_run _ _ _ RO), Hl. done. }
  rewrite (bind_run _ _ _ _ _ E1). unfold bind at 1, modify.
  pose proof (running_disabled p c s Hp RO) as RO1.
  set (s1 := sh_set_update _ _ _ _). rewrite (core_with _ p _ _ s1 _ (preempt_disable_run (mach_at p s1) _ _ RO1)). do 2 f_equal.
  cbn [preempt_disabled set_preempt]. replace (preempt_disabled c + 1 + 1) with (preempt_disabled c + 2) by lia.
  change (set_preempt ?n (set_preempt _ c)) with (set_preempt n c).
  change (eflags_if (mach_at p s1)) with (l_if (loc p (disabled p c s))). rewrite loc_disabled by done.
  pose proof (wr_wr p (set_preempt (preempt_disabled c + 2) c) (l_if (loc p s)) (active_count s) (set_preempt (preempt_disabled c + 1) c) (l_if (loc p s)) (active_count s) s) as W.
  unfold s1. etransitivity; [|exact (f_equal (fun y => sh_set_update pd v g (sh_set_lock (mk_spinlock 1 1 (num c)) y)) W)]. done.
Qed.

Lemma end_run p c s :
  (p < length (sh_local s))%nat → running_on (mach_at p s) p c → 2 ≤ preempt_disabled c → sh_lock s = mk_spinlock 1 1 (num c) → num c ≠ CPU_SPINLOCK_INVALID_CPU →
  propagate_end p s = Done (tt, sh_set_lock free_lock (wr p (set_preempt (preempt_disabled c - 2) c) (l_if (loc p s)) (active_count s) s)).
Proof.
  intros Hp RO H2 Hl Hn. unfold propagate_end.
  rewrite (bind_run _ _ _ _ _ (core_with _ p _ _ s _ (preempt_enable_run _ _ _ RO ltac:(lia)))).
  set (c1 := set_preempt _ c). set (s1 := wr _ _ _ _ s).
  assert (RO1 : running_on (mach_at p s1) p c1).
  { unfold s1. rewrite mach_wr by done. apply (running_preempted _ _ _ RO). lia. }
  assert (Hif : l_if (loc p s1) = l_if (loc p s)) by (unfold s1, wr; by rewrite loc_upd).
  assert (E : on_ipi_lock p cpu_spinlock_release s1 = Done (tt, sh_set_lock free_lock (wr p (set_preempt (preempt_disabled c1 - 1) c1) (l_if (loc p s1)) (active_count s1) s1))).
  { apply lock_wr. change (sh_lock s1) with (sh_lock s). rewrite Hl. rewrite (release_run _ _ _ RO1).
    - done.
    - unfold held_by. cbn. apply Z.eqb_refl.
    - exact Hn.
    - cbn. lia. }
  rewrite E. do 2 f_equal. f_equal. rewrite Hif. unfold s1. rewrite wr_wr. f_equal. cbn. destruct c. unfold set_preempt. cbn. f_equal. lia.
Qed.

(** Code another CPU runs changes its own record only, not who it is. *)
Lemma running_count m i c k : running_on m i c → running_on (set_nof_active k m) i c.
Proof. intros [A B C D E F G]. by split. Qed.

Lemma count_same m i c f : set_nof_active (nof_active_cpus m) (with_cpu m i c f) = with_cpu m i c f.
Proof. done. Qed.

Lemma pop_inv m i c m' : running_on m i c → pop_no_interrupts m = Done (tt, m') → 0 < cli_stack c.
Proof.
  intros RO E. destruct (Z.lt_ge_cases 0 (cli_stack c)) as [|Hle]; [done|exfalso]. pose proof (ro_cli _ _ _ RO) as H0.
  unfold pop_no_interrupts, cpu_get_eflags_if in E. unfold gets, bind at 1 2 in E. rewrite (nof_cpus_eqb _ _ _ RO) in E.
  destruct (eflags_if m) eqn:Ei; [done|]. rewrite (bind_run _ _ _ _ _ (cpu_current_run _ _ _ RO)) in E.
  rewrite (bind_run _ _ _ _ _ (write_cpu_run _ _ _ RO _)) in E. unfold bind, read_cpu, gets in E. cbn in E.
  rewrite list_lookup_insert_eq in E by (eapply lookup_lt_Some; apply RO). cbn in E.
  by rewrite (proj2 (Z.ltb_lt (cli_stack c - 1) 0)) in E by lia.
Qed.

Lemma set_active_run m i c :
  running_on m i c → cpu_set_active true m =
    Done (tt, set_nof_active (if active c then nof_active_cpus m else nof_active_cpus m + 1) (with_cpu m i (set_active true c) (eflags_if m))).
Proof.
  intros RO. unfold cpu_set_active. rewrite (bind_run _ _ _ _ _ (preempt_disable_run _ _ _ RO)).
  pose proof (ro_preempt _ _ _ RO) as Hp. pose proof (running_preempted _ _ _ RO (preempt_disabled c + 1) ltac:(lia)) as RO1.
  rewrite (bind_run _ _ _ _ _ (cpu_current_run _ _ _ RO1)). rewrite (bind_run _ _ _ _ _ (read_cpu_run _ _ _ RO1)).
  cbn [active set_preempt]. set (m1 := preempted _ _ _ _) in *. set (k := if active c then _ else _).
  match goal with |- bind ?x _ _ = _ => assert (E : x m1 = Done (tt, set_nof_active k m1)) end.
  { unfold k. destruct (active c); cbn [Bool.eqb when]; unfold ret, modify; do 2 f_equal. }
  rewrite (bind_run _ _ _ _ _ E). pose proof (running_count _ _ _ k RO1) as RO2.
  rewrite (bind_run _ _ _ _ _ (write_cpu_run _ _ _ RO2 _)). set (c2 := set_active true _).
  assert (RO3 : running_on (with_cpu (set_nof_active k m1) i c2 (eflags_if (set_nof_active k m1))) i c2).
  { destruct RO2 as [A B C D E2 F G]. eapply running_with_cpu; [by split|done|done|done|cbn; lia|done|done]. }
  rewrite (preempt_enable_run _ _ _ RO3) by (cbn; lia). do 2 f_equal. unfold preempted at 1. rewrite with_cpu_with_cpu.
  unfold m1, preempted, with_cpu, set_if, set_cpus, set_nof_active. cbn. rewrite list_insert_insert_eq. do 2 f_equal.
  unfold c2, set_active, set_preempt. cbn. f_equal. lia.
Qed.

Lemma other_run m j c s s' :
  other_code m → (j < length (sh_local s))%nat → running_on (mach_at j s) j c → on_core j m s = Done (tt, s') →
  ∃ c' f k, s' = wr j c' f k s ∧ running_on (mach_at j s') j c' ∧ magic c' = magic c ∧ lapic_id c' = lapic_id c ∧ (active c = true → active c' = true).
Proof.
  intros Ho Hj RO E.
  assert (Hm : ∃ c' f k, m (mach_at j s) = Done (tt, set_nof_active k (with_cpu (mach_at j s) j c' f)) ∧ running_on (with_cpu (mach_at j s) j c' f) j c' ∧
      magic c' = magic c ∧ lapic_id c' = lapic_id c ∧ (active c = true → active c' = true)).
  { pose proof RO as [A B C D E2 F G]. destruct Ho.
    - eexists _, _, (nof_active_cpus (mach_at j s)). split; [rewrite count_same; exact (push_run _ _ _ RO)|].
      split; [exact (running_push _ _ _ RO)|done].
    - assert (Hpos : 0 < cli_stack c).
      { unfold on_core, on_apic, zoom in E. rewrite mach_of_view in E. destruct (pop_no_interrupts (mach_at j s)) as [[[] m']| |] eqn:Em; [|done|done].
        by apply (pop_inv _ _ _ _ RO Em). }
      eexists _, _, (nof_active_cpus (mach_at j s)). split; [rewrite count_same; exact (pop_run _ _ _ RO Hpos)|].
      split; [|done]. eapply running_with_cpu; [done|done|done|cbn; lia|done| |].
      + cbn. intros H1. destruct (Z.eqb_spec (cli_stack c - 1) 0); [lia|done].
      + cbn. intros H1. by rewrite H1.
    - eexists _, _, _. split; [exact (set_active_run _ _ _ RO)|]. split; [|done]. by eapply running_with_cpu. }
  destruct Hm as (c' & f & k & Em & RO' & H1 & H2 & H3). rewrite (core_wr _ _ _ _ _ _ _ Em) in E. injection E as E.
  exists c', f, k. subst s'. split; [done|]. rewrite mach_wr by done. split; [by apply running_count|done].
Qed.

(** ** Coherent caches *)

Section protocol.
Context `{Answers}.
Variables (kernel_pd : Z) (turns : nat) (walk0 walk : Z → Z → option Z) (b : Z) (p : nat).
(** What paging_propagate_changes was called with, and the CPUs active then. *)
Variables (pd v : Z) (g : bool) (target : nat → Prop).

(** The directory a cached entry is about: those with the global bit are the kernel's. *)
Definition src (q e : Z) : Z := if has e PAGE_BIT_GLOBAL then (phys_kernel_pd kernel_pd) else q.
Definition coherent (wk : Z → Z → option Z) (x : cpu_local) : Prop :=
  ∀ w e, l_tlb x !! w = Some e → wk (src (l_cr3 x) e) w = Some e.
Definition half (x : cpu_local) : Prop :=
  ∀ w e, l_tlb x !! w = Some e → walk0 (src (l_cr3 x) e) w = Some e ∨ walk (src (l_cr3 x) e) w = Some e.

(** Entries with the global bit are the same in all directories, and the change is one
    paging_propagate_changes can announce: existing translations changed in directory [pd]
    only, at page [v] unless [v] is NULL, and not global ones. *)
Record announced : Prop := {
  an_shared : ∀ q w e, walk q w = Some e → has e PAGE_BIT_GLOBAL = true → walk (phys_kernel_pd kernel_pd) w = Some e;
  an_change : ∀ q w e, walk0 q w = Some e → walk q w ≠ Some e →
    q = pd ∧ (v = 0 ∨ w = mask_to_page v) ∧ has e PAGE_BIT_GLOBAL = false;
}.
Hypothesis AN : announced.
Hypothesis ENDS : ipi_ends turns b.

Lemma walk_kept q w e : walk0 q w = Some e → (has e PAGE_BIT_GLOBAL = true ∨ q ≠ pd ∨ (v ≠ 0 ∧ w ≠ mask_to_page v)) → walk q w = Some e.
Proof. intros H0 Hc. destruct (decide (walk q w = Some e)) as [|Hn]; [done|]. destruct (an_change AN q w e H0 Hn) as (? & Hv & ?).
  destruct Hc as [Hc|[Hc|[Hc Hd]]]; [congruence|congruence|destruct Hv; congruence]. Qed.

Lemma flushed_lookup q x w e : l_tlb (flushed q x) !! w = Some e → l_tlb x !! w = Some e ∧ has e PAGE_BIT_GLOBAL = true.
Proof. cbn. intros E. by apply map_lookup_filter_Some in E. Qed.

Lemma flushed_half q x : half x → half (flushed q x).
Proof. intros Hx w e E. destruct (flushed_lookup _ _ _ _ E) as [E1 E2]. specialize (Hx w e E1). unfold src in *. by rewrite E2 in *. Qed.

Lemma flushed_coherent q x : coherent walk x → coherent walk (flushed q x).
Proof. intros Hx w e E. destruct (flushed_lookup _ _ _ _ E) as [E1 E2]. specialize (Hx w e E1). unfold src in *. by rewrite E2 in *. Qed.

(** The handler leaves only current translations. *)
Lemma handled_coherent r s x :
  sh_updated_pd s = pd → sh_updated_page s = v → sh_global s = g → half x → coherent walk (handled (phys_kernel_pd kernel_pd) b r s x).
Proof.
  intros E1 E2 E3 Hx w e. unfold handled, handled_tlb. cbn [l_tlb l_cr3]. rewrite E1, E2, E3. destruct (g && (pd =? (phys_kernel_pd kernel_pd)) && negb (l_cr3 x =? (phys_kernel_pd kernel_pd))).
  - intros E. destruct (flushed_lookup _ _ _ _ E) as [E4 E5]. destruct (Hx w e E4) as [Hw|Hw]; [|done]. apply walk_kept; [done|by left].
  - destruct (Z.eqb_spec pd (l_cr3 x)) as [Ec|Ec].
    + destruct (Z.eqb_spec v 0) as [Ev|Ev]; cbn [negb].
      * intros E. destruct (flushed_lookup _ _ _ _ E) as [E4 E5]. destruct (Hx w e E4) as [Hw|Hw]; [|done]. apply walk_kept; [done|by left].
      * intros E. apply lookup_delete_Some in E as [Hne E]. destruct (Hx w e E) as [Hw|Hw]; [|done]. apply walk_kept; [done|right; right; by split].
    + intros E. destruct (Hx w e E) as [Hw|Hw]; [|done]. apply walk_kept; [done|]. unfold src. destruct (has e PAGE_BIT_GLOBAL); [by left|right; left; congruence].
Qed.

(** ** The invariant *)

Definition answered (s : shoot) (i n : nat) : Prop :=
  length (events b (l_log (loc p s))) = n ∧ sh_received s = true ∧ coherent walk (loc i s).
Definition asked (s : shoot) (i n : nat) : Prop :=
  length (events b (l_log (loc p s))) = S n ∧ sh_received s = false ∧
  events b (l_log (loc p s)) !! n = Some (Ipi (l_id (loc i s)) INT_FLUSH_TLB_IPI).

Definition pc_ok (s : shoot) (pc : sender) (n : nat) : Prop :=
  match pc with
  | Scan i => (i ≤ length (sh_local s))%nat ∧ length (events b (l_log (loc p s))) = n
  | Wait i => (i < length (sh_local s))%nat ∧ i ≠ p ∧ (asked s i n ∨ answered s i n)
  | Finished => length (events b (l_log (loc p s))) = n
  end.

Definition passed (pc : sender) (j : nat) : Prop :=
  match pc with Scan i | Wait i => (j < i)%nat | Finished => True end.

Definition lock_ok (s : shoot) (pc : sender) : Prop :=
  match pc with
  | Finished => sh_lock s = free_lock
  | _ => ∃ c, cpus (la_mach (sh_base s)) !! p = Some c ∧ 2 ≤ preempt_disabled c ∧ sh_lock s = mk_spinlock 1 1 (num c) ∧ num c ≠ CPU_SPINLOCK_INVALID_CPU
  end.

Record cpus_ok (s : shoot) : Prop := {
  co_n : Z.of_nat (length (sh_local s)) = nof_cpus (la_mach (sh_base s));
  co_p : (p < length (sh_local s))%nat;
  co_ptr : la_ptr (sh_base s) = Some b;
  co_run : ∀ j, (j < length (sh_local s))%nat → ∃ c, running_on (mach_at j s) j c ∧ 0 ≤ lapic_id c < 256 ∧ (target j → active c = true);
}.

Record inv (y : system) : Prop := {
  in_cpus : cpus_ok (sy_s y);
  in_update : sh_updated_pd (sy_s y) = pd ∧ sh_updated_page (sy_s y) = v ∧ sh_global (sy_s y) = g;
  in_lock : lock_ok (sy_s y) (sy_pc y);
  in_half : ∀ j, half (loc j (sy_s y));
  in_done : ∀ j, target j → (j < length (sh_local (sy_s y)))%nat → j ≠ p → passed (sy_pc y) j → coherent walk (loc j (sy_s y));
  in_pc : pc_ok (sy_s y) (sy_pc y) (sy_seen y);
}.

Lemma same_id s j k : cpus_ok s → (j < length (sh_local s))%nat → (k < length (sh_local s))%nat → l_id (loc j s) = l_id (loc k s) → j = k.
Proof.
  intros C Hj Hk E. destruct (co_run _ C j Hj) as (c & R & _). destruct (co_run _ C k Hk) as (c' & R' & _).
  pose proof (ro_find _ _ _ R) as F. pose proof (ro_find _ _ _ R') as F'. cbn in F, F'. rewrite E in F. congruence.
Qed.

Lemma own_record s j : cpus_ok s → (j < length (sh_local s))%nat →
  ∃ c, cpus (la_mach (sh_base s)) !! j = Some c ∧ running_on (mach_at j s) j c ∧ verify_cpu c = true ∧ lapic_id c = l_id (loc j s) ∧ 0 ≤ lapic_id c < 256 ∧ (target j → active c = true).
Proof.
  intros C Hj. destruct (co_run _ C j Hj) as (c & R & Hid & Ha). exists c. pose proof (ro_cpu _ _ _ R) as Hc. cbn in Hc.
  destruct (find_cpu_Some _ _ _ _ _ (ro_find _ _ _ R)) as (c' & Hc' & Hv & Hl). cbn in Hc', Hl. rewrite Hc in Hc'. injection Hc' as <-. done.
Qed.

(** ** Steps preserve it *)

Lemma loc_upd_cases k j h s : loc k (upd j h s) = loc k s ∨ (k = j ∧ (j < length (sh_local s))%nat ∧ loc k (upd j h s) = h (loc j s)).
Proof.
  destruct (decide (k = j)) as [->|Hn]; [|left; by apply loc_upd_ne]. destruct (decide (j < length (sh_local s))%nat); [right; by rewrite loc_upd|].
  left. unfold loc, upd. cbn. rewrite list_lookup_alter_eq. by rewrite lookup_ge_None_2 by lia.
Qed.

Lemma cpus_ok_upd j h s : keeps_flag h → cpus_ok s → cpus_ok (upd j h s).
Proof.
  intros Hh [C1 C2 C3 C4]. split; rewrite ?length_upd; try done. intros k Hk. destruct (C4 k Hk) as (c & R & Hc). exists c. split; [|exact Hc].
  destruct (decide (k = j)) as [->|Hn]; [by apply running_upd|]. unfold mach_at. by rewrite loc_upd_ne.
Qed.

(** A change of the local state of CPU [j] that keeps its cache as good as it was. *)
Lemma inv_upd s pc n j h :
  inv (mk_sys s pc n) → keeps_flag h → (∀ x, half x → half (h x)) → (∀ x, coherent walk x → coherent walk (h x)) → (∀ x, l_log (h x) = l_log x) →
  inv (mk_sys (upd j h s) pc n).
Proof.
  intros [C U L Hh D P] Hk Hf Hc Hl. cbn [sy_s sy_pc sy_seen] in *.
  assert (Ep : l_log (loc p (upd j h s)) = l_log (loc p s)) by (destruct (loc_upd_cases p j h s) as [->|(-> & _ & ->)]; [done|apply Hl]).
  assert (Ei : ∀ k, l_id (loc k (upd j h s)) = l_id (loc k s)) by (intros k; destruct (loc_upd_cases k j h s) as [->|(-> & _ & ->)]; [done|apply Hk]).
  assert (Ec : ∀ k, coherent walk (loc k s) → coherent walk (loc k (upd j h s))).
  { intros k Hck. destruct (loc_upd_cases k j h s) as [->|(-> & _ & ->)]; [done|by apply Hc]. }
  split; cbn [sy_s sy_pc sy_seen]; [by apply cpus_ok_upd|done|done| | |].
  - intros k. destruct (loc_upd_cases k j h s) as [->|(-> & _ & ->)]; [done|by apply Hf].
  - intros k T Hl' Hn Hp. rewrite length_upd in Hl'. by apply Ec, D.
  - destruct pc as [i|i|]; unfold pc_ok, asked, answered in *; rewrite ?length_upd, Ep; [done| |done]. destruct P as (P1 & P2 & P3).
    split; [done|]. split; [done|]. rewrite Ei. destruct P3 as [P3|(P3 & P4 & P5)]; [by left|right]. split; [done|]. split; [done|by apply Ec].
Qed.

Lemma inv_cache s pc n j w e :
  inv (mk_sys s pc n) → walk (l_cr3 (loc j s)) w = Some e →
  inv (mk_sys (upd j (fun x => mk_local (l_if x) (l_id x) (l_cr3 x) (<[w := e]> (l_tlb x)) (l_log x)) s) pc n).
Proof.
  intros I Hw. assert (Hs : walk (src (l_cr3 (loc j s)) e) w = Some e).
  { unfold src. destruct (has e PAGE_BIT_GLOBAL) eqn:E; [by apply (an_shared AN _ _ _ Hw)|done]. }
  rewrite (upd_ext j _ (fun x => mk_local (l_if x) (l_id x) (l_cr3 x) (if l_cr3 x =? l_cr3 (loc j s) then <[w := e]> (l_tlb x) else l_tlb x) (l_log x))).
  2:{ intros x Hx. unfold loc. rewrite Hx. cbn. by rewrite Z.eqb_refl. }
  apply inv_upd; [done|done| | |done]; intros x Hx w' e' E; cbn in E |- *; destruct (Z.eqb_spec (l_cr3 x) (l_cr3 (loc j s))) as [Ex|Ex]; try by apply Hx.
  - apply lookup_insert_Some in E as [[<- <-]|[_ E]]; [right; by rewrite Ex|by apply Hx].
  - apply lookup_insert_Some in E as [[<- <-]|[_ E]]; [by rewrite Ex|by apply Hx].
Qed.

Lemma running_other s j c c' f k i ci :
  cpus (la_mach (sh_base s)) !! j = Some c → magic c' = magic c → lapic_id c' = lapic_id c → i ≠ j →
  running_on (mach_at i s) i ci → running_on (mach_at i (wr j c' f k s)) i ci.
Proof.
  intros Hc Hm Hi Hn [A B C D E F G]. unfold mach_at, wr. rewrite loc_upd_ne by done. split; cbn in *; try done.
  - by rewrite (find_cpu_insert _ _ _ _ _ _ _ Hc).
  - by rewrite list_lookup_insert_ne by congruence.
Qed.

Lemma cpus_ok_wr s j c c' f k :
  cpus_ok s → (j < length (sh_local s))%nat → cpus (la_mach (sh_base s)) !! j = Some c → running_on (mach_at j (wr j c' f k s)) j c' →
  magic c' = magic c → lapic_id c' = lapic_id c → (active c = true → active c' = true) → cpus_ok (wr j c' f k s).
Proof.
  intros C Hj Hc R Hm Hi Ha. pose proof C as [C1 C2 C3 C4]. split; unfold wr at 1; rewrite ?length_upd; try done.
  intros i Hl. destruct (decide (i = j)) as [->|Hn].
  - exists c'. split; [done|]. destruct (own_record s j C Hj) as (c2 & Hc2 & _ & _ & _ & Hid & Ht). rewrite Hc in Hc2. injection Hc2 as <-.
    rewrite Hi. split; [done|]. intros T. by apply Ha, Ht.
  - destruct (C4 i Hl) as (ci & Ri & Hci). exists ci. split; [|done]. by apply (running_other s j c).
Qed.

Lemma loc_wr_tlb s j c f k i : l_tlb (loc i (wr j c f k s)) = l_tlb (loc i s) ∧ l_cr3 (loc i (wr j c f k s)) = l_cr3 (loc i s) ∧
  l_id (loc i (wr j c f k s)) = l_id (loc i s) ∧ l_log (loc i (wr j c f k s)) = l_log (loc i s).
Proof.
  unfold wr. match goal with |- context [upd j ?h ?y] => pose proof (loc_upd_cases i j h y) as L end. by destruct L as [->|(-> & _ & ->)].
Qed.

Lemma coherent_wr wk s j c f k i : coherent wk (loc i s) → coherent wk (loc i (wr j c f k s)).
Proof. destruct (loc_wr_tlb s j c f k i) as (E1 & E2 & _). unfold coherent. by rewrite E1, E2. Qed.

Lemma half_wr s j c f k i : half (loc i s) → half (loc i (wr j c f k s)).
Proof. destruct (loc_wr_tlb s j c f k i) as (E1 & E2 & _). unfold half. by rewrite E1, E2. Qed.

Lemma pc_ok_wr s j c f k pc n : pc_ok s pc n → pc_ok (wr j c f k s) pc n.
Proof.
  destruct (loc_wr_tlb s j c f k p) as (_ & _ & _ & E). destruct pc as [i|i|]; unfold pc_ok, asked, answered; rewrite E; [|destruct (loc_wr_tlb s j c f k i) as (_ & _ & -> & _)|done];
    (replace (length (sh_local (wr j c f k s))) with (length (sh_local s)) by (unfold wr; by rewrite length_upd)); [done|].
  intros (P1 & P2 & P3). split; [done|]. split; [done|]. destruct P3 as [P3|(P3 & P4 & P5)]; [by left|right]. split; [done|]. split; [done|by apply coherent_wr].
Qed.

Lemma inv_core s s' pc n j m :
  inv (mk_sys s pc n) → j ≠ p → (j < length (sh_local s))%nat → other_code m → on_core j m s = Done (tt, s') → inv (mk_sys s' pc n).
Proof.
  intros [C U L Hh D P] Hn Hj Ho E. cbn [sy_s sy_pc sy_seen] in *. destruct (own_record s j C Hj) as (c & Hc & R & _).
  destruct (other_run m j c s s' Ho Hj R E) as (c' & f & k & -> & R' & H1 & H2 & H3).
  assert (El : length (sh_local (wr j c' f k s)) = length (sh_local s)) by (unfold wr; by rewrite length_upd).
  split; cbn [sy_s sy_pc sy_seen]; [by apply (cpus_ok_wr s j c)|done| | | |by apply pc_ok_wr].
  - assert (Ep : cpus (la_mach (sh_base (wr j c' f k s))) !! p = cpus (la_mach (sh_base s)) !! p) by (unfold wr; cbn; by rewrite list_lookup_insert_ne).
    unfold lock_ok in *. change (sh_lock (wr j c' f k s)) with (sh_lock s). destruct pc; [by rewrite Ep|by rewrite Ep|done].
  - intros i. apply half_wr, Hh.
  - intros i T Hl Hi Hp. rewrite El in Hl. by apply coherent_wr, D.
Qed.

Lemma inv_switch s s' pc n j q prev :
  inv (mk_sys s pc n) → (j < length (sh_local s))%nat → cpu_set_cr3 j q s = Done (prev, s') → inv (mk_sys s' pc n).
Proof.
  intros I Hj E. destruct (own_record s j (in_cpus _ I) Hj) as (c & Hc & R & _). rewrite (switch_run j c s Hj R) in E. injection E as _ <-.
  destruct (q =? l_cr3 (loc j s)); [done|]. apply inv_upd; [done|done|intros x; apply flushed_half|intros x; apply flushed_coherent|done].
Qed.

Lemma inv_send s s' i n c :
  inv (mk_sys s (Scan i) n) → cpus (la_mach (sh_base s)) !! i = Some c → Z.of_nat i < nof_cpus (la_mach (sh_base s)) →
  verify_cpu c && negb (lapic_id c =? l_id (loc p s)) && active c = true → propagate_send turns p i s = Done (tt, s') → inv (mk_sys s' (Wait i) n).
Proof.
  intros [C U L Hh D P] Hc Hi Hv E. cbn [sy_s sy_pc sy_seen] in *. pose proof (co_n _ C) as Hlen. assert (Hil : (i < length (sh_local s))%nat) by lia.
  destruct (own_record s i C Hil) as (c2 & Hc2 & _ & _ & Hid & Hr & _). rewrite Hc in Hc2. injection Hc2 as <-.
  destruct (send_run turns b p i c s (co_p _ C) (co_ptr _ C) Hc Hr ENDS) as (l & El & Ev). rewrite El in E. injection E as <-.
  set (h := fun x : cpu_local => mk_local (l_if x) (l_id x) (l_cr3 x) (l_tlb x) l).
  assert (C' : cpus_ok (sh_set_received false s)) by (destruct C; by split).
  assert (Hip : i ≠ p). { intros ->. rewrite Hid, Z.eqb_refl in Hv. by rewrite andb_false_r in Hv. }
  assert (Hloc : ∀ k, l_tlb (loc k (upd p h (sh_set_received false s))) = l_tlb (loc k s) ∧ l_cr3 (loc k (upd p h (sh_set_received false s))) = l_cr3 (loc k s) ∧
      l_id (loc k (upd p h (sh_set_received false s))) = l_id (loc k s)).
  { intros k. by destruct (loc_upd_cases k p h (sh_set_received false s)) as [->|(-> & _ & ->)]. }
  split; cbn [sy_s sy_pc sy_seen]; [by apply cpus_ok_upd|done|done| | |].
  - intros k w e. destruct (Hloc k) as (-> & -> & _). apply Hh.
  - intros k T Hk Hn Hp w e. rewrite length_upd in Hk. destruct (Hloc k) as (-> & -> & _). by apply D.
  - unfold pc_ok. rewrite length_upd. split; [done|]. split; [done|]. left. unfold asked. destruct (Hloc i) as (_ & _ & ->).
    destruct P as [_ P]. rewrite (loc_upd p h) by apply (co_p _ C'). cbn [l_log h]. rewrite Ev, length_app, P. cbn [length]. split; [lia|]. split; [done|].
    rewrite lookup_app_r by lia. rewrite P, Nat.sub_diag. cbn. by rewrite Hid.
Qed.

Lemma inv_handle s s' pc n j cmd :
  inv (mk_sys s pc n) → events b (l_log (loc p s)) !! n = Some (Ipi (l_id (loc j s)) cmd) → (j < length (sh_local s))%nat →
  ipi_flush_tlb_handler kernel_pd j s = Done (tt, s') → inv (mk_sys s' pc (S n)) ∧ (∀ k, l_if (loc k s') = l_if (loc k s)) ∧ sh_received s' = true ∧ length (sh_local s') = length (sh_local s).
Proof.
  intros [C U L Hh D P] Hev Hj E. cbn [sy_s sy_pc sy_seen] in *. apply lookup_lt_Some in Hev as Hlt.
  assert (∃ i, pc = Wait i ∧ i ≠ p ∧ (i < length (sh_local s))%nat ∧ asked s i n) as (i & -> & Hip & Hil & A1 & A2 & A3).
  { destruct pc as [i|i|]; unfold pc_ok in P; [lia| |lia]. destruct P as (P1 & P2 & [P3|(P3 & _)]); [|lia]. by exists i. }
  rewrite A3 in Hev. injection Hev as Hid _. apply (same_id s i j C Hil Hj) in Hid as Hij. subst j.
  destruct (own_record s i C Hj) as (c & Hc & R & _). destruct (handler_run kernel_pd i c b s Hj R (co_ptr _ C)) as [r Er].
  rewrite Er in E. injection E as <-. set (h := handled (phys_kernel_pd kernel_pd) b r s). destruct U as (U1 & U2 & U3).
  assert (Hco : coherent walk (loc i (upd i h s))) by (rewrite loc_upd by done; by apply handled_coherent).
  assert (Hne : ∀ k, k ≠ i → loc k (upd i h s) = loc k s) by (intros k Hk; by apply loc_upd_ne).
  split; [|split; [|split; [done|exact (length_upd i h s)]]].
  2:{ intros k. change (loc k (sh_set_received true ?y)) with (loc k y). by destruct (loc_upd_cases k i h s) as [->|(-> & _ & ->)]. }
  assert (C' : cpus_ok (upd i h s)) by by apply cpus_ok_upd.
  split; cbn [sy_s sy_pc sy_seen]; [destruct C'; by split|done|done| | |].
  - intros k. change (half (loc k (upd i h s))). destruct (decide (k = i)) as [->|Hk]; [intros w e Hw; right; by apply Hco|rewrite Hne by done; apply Hh].
  - intros k T Hk Hn Hp. change (coherent walk (loc k (upd i h s))). change (k < length (sh_local (upd i h s)))%nat in Hk. rewrite length_upd in Hk.
    destruct (decide (k = i)) as [->|Hki]; [done|rewrite Hne by done; by apply D].
  - change (sh_local (sh_set_received true (upd i h s))) with (sh_local (upd i h s)). unfold pc_ok.
    change (sh_local (sh_set_received true (upd i h s))) with (sh_local (upd i h s)). rewrite length_upd. split; [done|]. split; [done|]. right.
    unfold answered. change (loc ?k (sh_set_received true ?y)) with (loc k y). rewrite (Hne p) by done. by split.
Qed.

Lemma inv_end s s' i n :
  inv (mk_sys s (Scan i) n) → Z.of_nat i = nof_cpus (la_mach (sh_base s)) → propagate_end p s = Done (tt, s') → inv (mk_sys s' Finished n).
Proof.
  intros [C U L Hh D P] Hi E. cbn [sy_s sy_pc sy_seen] in *. pose proof (co_n _ C) as Hlen. pose proof (co_p _ C) as Hp. destruct L as (c & Hc & H2 & Hl & Hn).
  destruct (own_record s p C Hp) as (c2 & Hc2 & R & _). rewrite Hc in Hc2. injection Hc2 as <-.
  rewrite (end_run p c s Hp R H2 Hl Hn) in E. injection E as <-. set (c' := set_preempt _ c). set (s1 := wr _ _ _ _ s).
  assert (R' : running_on (mach_at p s1) p c'). { unfold s1. rewrite mach_wr by done. apply running_count, (running_preempted _ _ _ R). lia. }
  assert (C' : cpus_ok s1) by by apply (cpus_ok_wr s p c).
  assert (El : length (sh_local s1) = length (sh_local s)) by (unfold s1, wr; by rewrite length_upd).
  split; cbn [sy_s sy_pc sy_seen]; [destruct C'; by split|done|done| | |].
  - intros k. change (half (loc k s1)). by apply half_wr.
  - intros k T Hk Hkp _. change (coherent walk (loc k s1)). change (k < length (sh_local s1))%nat in Hk. rewrite El in Hk. apply coherent_wr, D; [done|done|done|].
    cbn. lia.
  - exact (proj2 (pc_ok_wr s p c' _ _ (Scan i) n P)).
Qed.

Lemma inv_skip s i n c :
  inv (mk_sys s (Scan i) n) → cpus (la_mach (sh_base s)) !! i = Some c → Z.of_nat i < nof_cpus (la_mach (sh_base s)) →
  verify_cpu c && negb (lapic_id c =? l_id (loc p s)) && active c = false → inv (mk_sys s (Scan (S i)) n).
Proof.
  intros [C U L Hh D P] Hc Hi Hv. cbn [sy_s sy_pc sy_seen] in *. pose proof (co_n _ C) as Hlen. split; cbn [sy_s sy_pc sy_seen]; try done.
  - intros k T Hk Hn Hp. destruct (decide (k = i)) as [->|Hki]; [exfalso|apply D; [done|done|done|cbn in *; lia]].
    destruct (own_record s i C Hk) as (c2 & Hc2 & _ & Hver & Hid & _ & Ha). rewrite Hc in Hc2. injection Hc2 as <-. rewrite Hver, (Ha T), andb_true_r in Hv.
    cbn in Hv. apply negb_false_iff, Z.eqb_eq in Hv. rewrite Hid in Hv. by apply Hn, (same_id s _ _ C Hk (co_p _ C)).
  - destruct P as [P1 P2]. split; [lia|done].
Qed.

Lemma inv_answered s i n : inv (mk_sys s (Wait i) n) → sh_received s = true → inv (mk_sys s (Scan (S i)) n).
Proof.
  intros [C U L Hh D P] Hr. cbn [sy_s sy_pc sy_seen] in *. destruct P as (P1 & P2 & [(_ & P3 & _)|(P3 & P4 & P5)]); [congruence|].
  split; cbn [sy_s sy_pc sy_seen]; try done.
  intros k T Hk Hn Hp. destruct (decide (k = i)) as [->|Hki]; [done|apply D; [done|done|done|cbn in *; lia]].
Qed.

Lemma inv_step y y' : inv y → step kernel_pd turns walk b p y y' → inv y'.
Proof.
  intros I St. destruct St as [s i n c Hc Hi Hv|s s' i n c Hc Hi Hv E|s i n Hr|s s' i n Hi E|s s' pc n j cmd Hev Hcmd Hj Hif E|s pc n j w e Hw|s pc n j w|s s' pc n j q prev Hn Hj E|s s' pc n j m Hn Hj Ho E].
  - by apply (inv_skip s i n c).
  - by apply (inv_send s s' i n c).
  - by apply inv_answered.
  - by apply (inv_end s s' i n).
  - by apply (inv_handle s s' pc n j cmd).
  - by apply inv_cache.
  - apply inv_upd; [done|done| | |done]; intros x Hx w' e E; cbn in E; apply lookup_delete_Some in E as [_ E]; by apply Hx.
  - by apply (inv_switch s s' pc n j q prev).
  - by apply (inv_core s s' pc n j m).
Qed.

(** ** It ends when the other CPUs take interrupts *)

Definition enabled (s : shoot) : Prop := ∀ j, (j < length (sh_local s))%nat → l_if (loc j s) = true.

Lemma wait_ends s i n :
  inv (mk_sys s (Wait i) n) → enabled s →
  ∃ s' n', rtc (step kernel_pd turns walk b p) (mk_sys s (Wait i) n) (mk_sys s' (Scan (S i)) n') ∧ inv (mk_sys s' (Scan (S i)) n') ∧ enabled s' ∧
           length (sh_local s') = length (sh_local s).
Proof.
  intros I He. pose proof (in_pc _ I) as P. cbn in P. destruct P as (P1 & P2 & [(Q1 & Q2 & Q3)|(Q1 & Q2 & Q3)]).
  - pose proof (in_cpus _ I) as C. cbn in C. destruct (own_record s i C P1) as (c & _ & R & _).
    destruct (handler_run kernel_pd i c b s P1 R (co_ptr _ C)) as [r Er].
    destruct (inv_handle s _ (Wait i) n i _ I Q3 P1 Er) as (I' & Hif & Hrec & Hlen). eexists _, (S n). split; [|split; [exact (inv_answered _ _ _ I' Hrec)|split; [|exact Hlen]]].
    + eapply rtc_l; [by apply (step_handle _ _ _ _ _ s _ (Wait i) n i _ Q3 eq_refl P1 (He i P1) Er)|]. apply rtc_once. by apply step_answered.
    + intros j Hj. rewrite Hif. apply He. by rewrite <- Hlen.
  - exists s, n. split; [apply rtc_once; by apply step_answered|]. split; [by apply inv_answered|done].
Qed.

Lemma scan_ends d s i n :
  (d = length (sh_local s) - i)%nat → inv (mk_sys s (Scan i) n) → enabled s →
  ∃ z, rtc (step kernel_pd turns walk b p) (mk_sys s (Scan i) n) z ∧ sy_pc z = Finished.
Proof.
  revert s i n. induction d as [|d IH]; intros s i n Hd I He; pose proof (in_cpus _ I) as C; pose proof (in_pc _ I) as P; cbn in C, P; pose proof (co_n _ C) as Hn.
  - pose proof (in_lock _ I) as L. cbn in L. destruct L as (c & Hc & H2 & Hl & Hnum). destruct (own_record s p C (co_p _ C)) as (c2 & Hc2 & R & _).
    rewrite Hc in Hc2. injection Hc2 as <-. eexists. split; [apply rtc_once; apply step_end; [lia|exact (end_run p c s (co_p _ C) R H2 Hl Hnum)]|done].
  - assert (Hi : (i < length (sh_local s))%nat) by lia. destruct (own_record s i C Hi) as (c & Hc & _ & _ & _ & Hr & _).
    destruct (verify_cpu c && negb (lapic_id c =? l_id (loc p s)) && active c) eqn:Hv.
    + destruct (send_run turns b p i c s (co_p _ C) (co_ptr _ C) Hc Hr ENDS) as (l & El & _).
      pose proof (inv_send s _ i n c I Hc ltac:(lia) Hv El) as I1. set (s1 := upd p _ _) in *.
      assert (He1 : enabled s1).
      { intros j Hj. unfold s1 in Hj |- *. rewrite length_upd in Hj. match goal with |- context [upd p ?h ?y] => destruct (loc_upd_cases j p h y) as [->|(-> & _ & ->)] end; by apply He. }
      destruct (wait_ends s1 i n I1 He1) as (s2 & n2 & R2 & I2 & He2 & Hl2).
      destruct (IH s2 (S i) n2 ltac:(rewrite Hl2; unfold s1; rewrite length_upd; cbn; lia) I2 He2) as (z & Rz & Hz). exists z. split; [|done].
      eapply rtc_l; [by apply (step_send _ _ _ _ _ s s1 i n c Hc ltac:(lia) Hv)|]. by etransitivity.
    + pose proof (inv_skip s i n c I Hc ltac:(lia) Hv) as I1. destruct (IH s (S i) n ltac:(lia) I1 He) as (z & Rz & Hz). exists z. split; [|done].
      eapply rtc_l; [|exact Rz]. by apply (step_skip _ _ _ _ _ s i n c Hc ltac:(lia)).
Qed.

Lemma ends y : inv y → enabled (sy_s y) → ∃ z, rtc (step kernel_pd turns walk b p) y z ∧ sy_pc z = Finished.
Proof.
  destruct y as [s [i|i|] n]; cbn; intros I He; [by apply (scan_ends (length (sh_local s) - i))| |by eexists; split; [apply rtc_refl|]].
  destruct (wait_ends s i n I He) as (s2 & n2 & R2 & I2 & He2 & Hl2). destruct (scan_ends _ s2 (S i) n2 eq_refl I2 He2) as (z & Rz & Hz).
  exists z. split; [by etransitivity|done].
Qed.

End protocol.

(** ** The theorem *)

Definition is_active (s : shoot) (j : nat) : Prop := ∃ c, cpus (la_mach (sh_base s)) !! j = Some c ∧ active c = true.

(** All CPUs are set up, see their local APICs at [b], and nobody holds the lock. *)
Record ready (b : Z) (p : nat) (s : shoot) : Prop := {
  rd_cpus : cpus_ok b p (is_active s) s;
  rd_lock : sh_lock s = free_lock;
  rd_num : ∀ c, cpus (la_mach (sh_base s)) !! p = Some c → num c ≠ CPU_SPINLOCK_INVALID_CPU;
}.

Lemma begin_inv kernel_pd walk0 walk b p pd v g s :
  ready b p s → (∀ j, coherent kernel_pd walk0 (loc j s)) →
  ∃ s1, propagate_begin p pd v g s = Done (tt, s1) ∧
    inv kernel_pd walk0 walk b p pd v g (is_active s) (mk_sys s1 (Scan 0) (length (events b (l_log (loc p s))))).
Proof.
  intros [C Hl Hn] Hco. destruct (own_record _ _ _ s p C (co_p _ _ _ _ C)) as (c & Hc & R & _).
  exists (sh_set_update pd v g (sh_set_lock (mk_spinlock 1 1 (num c)) (wr p (set_preempt (preempt_disabled c + 2) c) (l_if (loc p s)) (active_count s) s))).
  split; [by apply begin_run; [apply (co_p _ _ _ _ C)| |]|]. set (c' := set_preempt _ c). set (s1 := wr _ _ _ _ s).
  pose proof (ro_preempt _ _ _ R) as Hpre.
  assert (R' : running_on (mach_at p s1) p c').
  { unfold s1. rewrite mach_wr by apply (co_p _ _ _ _ C). apply running_count, (running_preempted _ _ _ R). lia. }
  assert (C' : cpus_ok b p (is_active s) s1) by (apply (cpus_ok_wr _ _ _ s p c); try done; apply (co_p _ _ _ _ C)).
  split; cbn [sy_s sy_pc sy_seen]; [destruct C'; by split|done| | |intros j _ _ _ Hlt; cbn in Hlt; lia|].
  - exists c'. split; [|split; [cbn; lia|split; [done|exact (Hn c Hc)]]]. cbn. apply list_lookup_insert_eq. by eapply lookup_lt_Some.
  - intros j. change (half kernel_pd walk0 walk (loc j s1)). apply half_wr. intros w e E. left. by apply Hco.
  - split; [cbn; lia|]. destruct (loc_wr_tlb s p c' (l_if (loc p s)) (active_count s) p) as (_ & _ & _ & El).
    exact (f_equal (fun l => length (events b l)) El).
Qed.

(** C6: The TLB shootdown drops the translations it announces, under every interleaving.  [walk0] are
    the translations before a change of page tables, [walk] those after it.  The change must be
    covered by the announcement ([announced]): every translation it replaces is of the announced
    page directory and address, and is not global.  The announcement's own global flag [g] may have
    any value, but replaced global translations are outside of the theorem, since the handler leaves
    them in the cache ([global_translation_survives]).  Then, when paging_propagate_changes returns,
    no CPU that was active when it was called, other than the caller, has a translation in its cache
    that the tables do not give any more, whatever the CPUs cached, switched, masked or handled in
    the meantime, and the lock is free.  The call can still return from every state on the way in
    which all CPUs have their interrupts enabled; nothing is said of its return while one of them
    keeps them disabled. *)
Theorem shootdown_coherent `{Answers} kernel_pd turns walk0 walk b p pd v g s :
  ready b p s → (∀ j, coherent kernel_pd walk0 (loc j s)) → announced kernel_pd walk0 walk pd v → ipi_ends turns b →
  ∃ s1, propagate_begin p pd v g s = Done (tt, s1) ∧
  ∀ y, rtc (step kernel_pd turns walk b p) (mk_sys s1 (Scan 0) (length (events b (l_log (loc p s))))) y →
    (sy_pc y = Finished → sh_lock (sy_s y) = free_lock ∧
       ∀ j, is_active s j → j ≠ p → (j < length (sh_local (sy_s y)))%nat → coherent kernel_pd walk (loc j (sy_s y))) ∧
    (enabled (sy_s y) → ∃ z, rtc (step kernel_pd turns walk b p) y z ∧ sy_pc z = Finished).
Proof.
  intros R Hco Han He. destruct (begin_inv kernel_pd walk0 walk b p pd v g s R Hco) as (s1 & E & I). exists s1. split; [exact E|].
  intros y Hy. assert (Iy : inv kernel_pd walk0 walk b p pd v g (is_active s) y).
  { clear E. induction Hy as [|y1 y2 y3 Hs _ IH]; [exact I|]. apply IH. by eapply inv_step. }
  split; [|intros Hen; by eapply ends]. intros Hf. pose proof (in_lock _ _ _ _ _ _ _ _ _ _ Iy) as L. rewrite Hf in L. split; [exact L|].
  intros j Ha Hn Hj. eapply in_done; [exact Iy|done|done|done|by rewrite Hf].
Qed.

(** Two CPUs run the same process, a third one is not active; the second has a translation of
    page 0x40000000 in its cache that has been removed from the tables. *)
Definition example_shoot : shoot :=
  mk_sh (mk_la (mk_machine [mk_cpu X86_CPU_MAGIC 0 true 0 true 0 0; mk_cpu X86_CPU_MAGIC 1 true 4 true 0 0; mk_cpu X86_CPU_MAGIC 2 false 6 true 0 0] 3 zero_cpu 2 false 0 0 true)
           free_lock (fun _ => 0) None (Some 0xFEE00000) 0 0 0 [])
    [mk_local true 0 0x5000 ∅ []; mk_local true 4 0x5000 {[0x40000000 := 0x9007]} []; mk_local true 6 0x1000 ∅ []]
    free_lock 0 0 false false.
Definition example_walk0 (q w : Z) : option Z := if (q =? 0x5000) && (w =? 0x40000000) then Some 0x9007 else None.
Definition quiet_answers : Answers := {| mmio_answer := fun _ _ => 0; port_answer := fun _ _ => 0 |}.

Lemma example_ready : ready 0xFEE00000 0 example_shoot.
Proof.
  split; [split|done|by intros c [= <-]]; [done|cbn; lia|done|]. intros j Hj. cbn in Hj.
  destruct j as [|[|[|j]]]; [| | |lia]; eexists; (split; [by split|]); (split; [done|]); intros (c & Hc & Ha); cbn in Hc; by injection Hc as <-.
Qed.

Lemma shootdown_coherent_witness :
  ∃ s1, propagate_begin 0 0x5000 0x40000000 false example_shoot = Done (tt, s1) ∧
    ∃ z, rtc (@step quiet_answers 0xC0001000 1 (fun _ _ => None) 0xFEE00000 0) (mk_sys s1 (Scan 0) 0) z ∧ sy_pc z = Finished.
Proof.
  destruct (@shootdown_coherent quiet_answers 0xC0001000 1 example_walk0 (fun _ _ => None) 0xFEE00000 0 0x5000 0x40000000 false example_shoot) as (s1 & E & H).
  - apply example_ready.
  - intros j w e. destruct j as [|[|[|j]]]; cbn; try done.
    intros Hw. apply lookup_singleton_Some in Hw as [<- <-]. done.
  - split; [done|]. intros q w e Hw _. unfold example_walk0 in Hw. destruct (Z.eqb_spec q 0x5000) as [->|]; [|done]. destruct (Z.eqb_spec w 0x40000000) as [->|]; [|done].
    injection Hw as <-. split; [done|]. split; [by right|done].
  - intros l. exists 0%nat. split; [lia|done].
  - exists s1. split; [exact E|]. apply (H _ (rtc_refl _ _)). vm_compute in E. injection E as <-. intros j Hj. cbn in Hj. destruct j as [|[|[|j]]]; [done|done|done|lia].
Defined.

(** A translation with the global bit survives the handler on a CPU that runs a process: the
    handler reloads CR3, which does not drop it, even for the page that was changed. *)
Theorem global_translation_survives `{Answers} kernel_pd j c b s w e :
  (j < length (sh_local s))%nat → running_on (mach_at j s) j c → la_ptr (sh_base s) = Some b →
  sh_global s = true → sh_updated_pd s = phys_kernel_pd kernel_pd → l_cr3 (loc j s) ≠ phys_kernel_pd kernel_pd →
  l_tlb (loc j s) !! w = Some e → has e PAGE_BIT_GLOBAL = true →
  ∃ s', ipi_flush_tlb_handler kernel_pd j s = Done (tt, s') ∧ l_tlb (loc j s') !! w = Some e.
Proof.
  intros Hj R Hb Hg Hpd Hne Hw He. destruct (handler_run kernel_pd j c b s Hj R Hb) as [r E]. eexists. split; [exact E|].
  change (loc j (sh_set_received true ?y)) with (loc j y). rewrite loc_upd by done. unfold handled, handled_tlb. cbn [l_tlb].
  rewrite Hg, Hpd, Z.eqb_refl, (proj2 (Z.eqb_neq _ _) Hne). cbn. by apply map_lookup_filter_Some.
Qed.
