(* ===== verification/Serial.v ===== *)
(** * arch/i386/serial.c: serial ports

    A port has a handler thread that moves bytes between the controller and the exclusive buffers
    that subscribed to it; a character device is two such buffers.  Controller accesses go to the
    history of [Platform]; mutexes, conditions and the scheduler are those of [ThreadLock], the buffers
    those of [ExclusiveBuffer], here several of them over one memory.

    A thread may block in the middle of these functions.  They are written in a resumption
    monad: a computation ends with a value, or suspended with the rest of its work, which runs
    when the thread is dispatched again, possibly on another CPU. *)

From stdpp Require Import base list strings gmap.
From Stdlib Require Import ZArith Lia.
From S2P Require Import Prelude Memory KUtils Scheduler SchedulerLoop ThreadLock ExclusiveBuffer Interrupts Platform.

(** ** arch/serial.h, arch/interrupts.h *)

Definition INT_IRQ_COM1 : Z := INT_IRQ0 + 4.
Definition INT_IRQ_COM2 : Z := INT_IRQ0 + 3.
Definition COM1 : Z := 0x3F8.
Definition COM2 : Z := 0x2F8.
Definition COM_DEFAULT_DIVISOR : Z := 3.
Definition COM_DATA_REGISTER (com : Z) : Z := com.
Definition COM_INT_ENABL_REG (com : Z) : Z := com + 1.
Definition COM_DIVISOR_LOW (com : Z) : Z := com.
Definition COM_DIVISOR_HIGH (com : Z) : Z := com + 1.
Definition COM_INT_FIFO_REG (com : Z) : Z := com + 2.
Definition COM_LINE_CTL_REG (com : Z) : Z := com + 3.
Definition COM_MODM_CTL_REG (com : Z) : Z := com + 4.
Definition COM_LINE_STS_REG (com : Z) : Z := com + 5.
Definition COM_DLAB_BIT : Z := 0x80.
Definition COM_8_BITS : Z := 0x03.
Definition COM_1_STOP_BIT : Z := 0x00.
Definition COM_NO_PARITY_BITS : Z := 0x00.
Definition COM_IER_INPUT_BIT : Z := 0x01.
Definition COM_IER_NO_OUTPUT_BIT : Z := 0x02.
Definition COM_FIFO_SIZE : Z := 14.
Definition MAX_SUBSCRIBERS : nat := 8.

(** ** State *)

(** [se_mutex_cond] is the condition inside the mutex; a subscriber is the address of a buffer. *)
Record serial := mk_serial {
  se_port : Z;
  se_handler : Z;
  se_mutex : mptr;
  se_mutex_cond : condptr;
  se_data_available : condptr;
  se_input : list (option Z);
  se_output : list (option Z);
}.

(** [struct serial *]. *)
Inductive com : Type := com1 | com2.

Record sersys := mk_ser {
  ss_locks : locks;
  ss_mem : mem;
  ss_bufs : gmap Z exclusive_buffer;
  ss_com1 : serial;
  ss_com2 : serial;
  ss_log : list access;
}.

Definition serial_at (s : com) (x : sersys) : serial := match s with com1 => ss_com1 x | com2 => ss_com2 x end.
Definition set_serial (s : com) (v : serial) (x : sersys) : sersys :=
  match s with
  | com1 => mk_ser (ss_locks x) (ss_mem x) (ss_bufs x) v (ss_com2 x) (ss_log x)
  | com2 => mk_ser (ss_locks x) (ss_mem x) (ss_bufs x) (ss_com1 x) v (ss_log x)
  end.
Definition upd_serial (s : com) (f : serial → serial) : M sersys unit := modify (fun x => set_serial s (f (serial_at s x)) x).

Definition seset_port (p : Z) (v : serial) : serial :=
  mk_serial p (se_handler v) (se_mutex v) (se_mutex_cond v) (se_data_available v) (se_input v) (se_output v).
Definition seset_handler (t : Z) (v : serial) : serial :=
  mk_serial (se_port v) t (se_mutex v) (se_mutex_cond v) (se_data_available v) (se_input v) (se_output v).
Definition seset_input (l : list (option Z)) (v : serial) : serial :=
  mk_serial (se_port v) (se_handler v) (se_mutex v) (se_mutex_cond v) (se_data_available v) l (se_output v).
Definition seset_output (l : list (option Z)) (v : serial) : serial :=
  mk_serial (se_port v) (se_handler v) (se_mutex v) (se_mutex_cond v) (se_data_available v) (se_input v) l.

Definition ss_set_locks (l : locks) (x : sersys) : sersys := mk_ser l (ss_mem x) (ss_bufs x) (ss_com1 x) (ss_com2 x) (ss_log x).
Definition ss_set_log (l : list access) (x : sersys) : sersys := mk_ser (ss_locks x) (ss_mem x) (ss_bufs x) (ss_com1 x) (ss_com2 x) l.

Definition zero_eb : exclusive_buffer := mk_eb 0 0 0 0 0 0 false 0%nat 0%nat.
Definition buf_at (eb : Z) (x : sersys) : exclusive_buffer := default zero_eb (ss_bufs x !! eb).
Definition eb_view (eb : Z) (x : sersys) : ebsys := mk_ebsys (ss_locks x) (ss_mem x) (buf_at eb x).
Definition set_eb_view (eb : Z) (e : ebsys) (x : sersys) : sersys :=
  mk_ser (e_locks e) (e_mem e) (<[eb := e_buf e]> (ss_bufs x)) (ss_com1 x) (ss_com2 x) (ss_log x).

Definition on_locks {A} (m : M locks A) : M sersys A := zoom ss_locks ss_set_locks m.
Definition on_ports {A} (m : M (list access) A) : M sersys A := zoom ss_log ss_set_log m.
Definition on_eb {A} (eb : Z) (m : M ebsys A) : M sersys A := zoom (eb_view eb) (set_eb_view eb) m.

(** ** Suspension *)

#[local] Unset Elimination Schemes.
Inductive susp (A : Type) : Type :=
| Now (a : A)
| Later (rest : cptr → sersys → outcome (susp A * sersys)).
#[local] Set Elimination Schemes.
Arguments Now {A} a.
Arguments Later {A} rest.

(** Code of a thread, given the CPU it runs on. *)
Definition B (A : Type) : Type := cptr → M sersys (susp A).

Definition retB {A} (a : A) : B A := fun _ => ret (Now a).
Definition liftB {A} (m : M sersys A) : B A := fun _ => a <- m ;; ret (Now a).

Fixpoint bind_susp {A C} (f : A → B C) (r : susp A) (c : cptr) (x : sersys) : outcome (susp C * sersys) :=
  match r with
  | Now a => f a c x
  | Later rest => Done (Later (fun c' x' =>
      match rest c' x' with
      | Done (r', x'') => bind_susp f r' c' x''
      | Panic w => Panic w
      | Hang => Hang
      end), x)
  end.

Definition bindB {A C} (m : B A) (f : A → B C) : B C :=
  fun c x => match m c x with Done (r, x') => bind_susp f r c x' | Panic w => Panic w | Hang => Hang end.

Notation "x <~ m ;; k" := (bindB m (fun x => k)) (at level 100, m at next level, right associativity, only parsing).
Notation "m ~;; k" := (bindB m (fun _ => k)) (at level 100, right associativity, only parsing).

Definition whenB (b : bool) (m : B unit) : B unit := if b then m else retB tt.

(** ** Thread locks and buffers for a thread that may block

    [wakeups] bounds how often one call is resumed without success. *)

Section code.
Context `{Answers} `{EbHeap}.
Variables (wakeups turns : nat).

Fixpoint mutex_again (fuel : nat) (m : mptr) : B unit := fun c =>
  ok <- on_locks (mutex_resume c m) ;;
  ret (if (ok : bool) then Now tt
       else Later (match fuel with O => fun _ _ => Hang | S fuel => mutex_again fuel m end)).

Definition mutex_acquireB (m : mptr) : B unit := fun c =>
  ok <- on_locks (thread_mutex_acquire c m) ;;
  ret (if (ok : bool) then Now tt else Later (mutex_again wakeups m)).

Definition mutex_releaseB (m : mptr) : B unit := fun c => on_locks (thread_mutex_release c m) ;;; ret (Now tt).

Definition cond_waitB (cond : condptr) (m : mptr) : B unit := fun c =>
  on_locks (thread_cond_wait c cond m) ;;;
  ret (Later (fun c => ok <- on_locks (cond_resume c m) ;;
                       ret (if (ok : bool) then Now tt else Later (mutex_again wakeups m)))).

(** A buffer operation, and what it does when it was blocked on the mutex or on a change. *)
Fixpoint await (fuel : nat) (eb : Z) (on_mutex on_changed : Z → cptr → M ebsys eb_result) (m : cptr → M ebsys eb_result) : B Z := fun c =>
  r <- on_eb eb (m c) ;;
  let go n k := Later (match fuel with O => fun _ _ => Hang | S fuel => await fuel eb on_mutex on_changed (k n) end) in
  ret (match r with
       | Returned n => Now n
       | OnMutex n => go n on_mutex
       | OnChanged n => go n on_changed
       end).

Definition eb_try_readB (eb dest size : Z) : B Z :=
  let again := fun (_ : Z) c => eb_try_read_resume c dest size in await wakeups eb again again (fun c => eb_try_read c dest size).
Definition eb_try_writeB (eb src size : Z) : B Z :=
  let again := fun (_ : Z) c => eb_try_write_resume c src size in await wakeups eb again again (fun c => eb_try_write c src size).

(** After the wait for the mutex, the operation goes on where it stopped. *)
Definition relocked (k : Z → cptr → M ebsys eb_result) (n : Z) (c : cptr) : M ebsys eb_result :=
  b <- gets e_buf ;;
  ok <- in_locks (mutex_resume c (eb_mutex b)) ;;
  if (ok : bool) then k n c else ret (OnMutex n).

Definition eb_readB (eb dest size : Z) : B Z :=
  await wakeups eb (relocked (fun n c => read_loop c turns dest size n)) (fun n c => eb_read_resume c turns dest size n)
    (fun c => eb_read c turns dest size).
Definition eb_writeB (eb src size : Z) : B Z :=
  await wakeups eb
    (relocked (fun n c => b <- gets e_buf ;;
       if has_flag b EBF_GROWING then unsafe_growing_write src size ;;; write_done c 0 else write_loop c turns src size n))
    (fun n c => eb_write_resume c turns src size n) (fun c => eb_write c turns src size).

(** ** Port accesses *)

Definition serial_break (port : Z) : M sersys bool :=
  v <- on_ports (pio_inb (COM_LINE_STS_REG port)) ;; ret (negb (Z.land v 0x10 =? 0)).

Definition serial_received (port : Z) : M sersys bool :=
  b <- serial_break port ;;
  if (b : bool) then ret false else v <- on_ports (pio_inb (COM_LINE_STS_REG port)) ;; ret (negb (Z.land v 1 =? 0)).

Definition read_serial (port : Z) : M sersys Z := on_ports (pio_inb (COM_DATA_REGISTER port)).

Definition is_transmit_empty (port : Z) : M sersys bool :=
  v <- on_ports (pio_inb (COM_LINE_STS_REG port)) ;; ret (negb (Z.land v 0x20 =? 0)).

Definition write_serial (port byte : Z) : M sersys unit := on_ports (pio_outb (COM_DATA_REGISTER port) byte).

(** ** Moving bytes

    [data] is the address of the local variable of that name. *)

(** The loop over the subscribers: a byte from the first one that has one. *)
Fixpoint take_byte (n i : nat) (s : com) (dest : Z) : B bool :=
  match n with
  | O => retB false
  | S n =>
      sub <~ liftB (gets (fun x => mjoin (se_output (serial_at s x) !! i))) ;;
      match sub with
      | None => take_byte n (S i) s dest
      | Some eb =>
          r <~ eb_try_readB eb dest 1 ;;
          if negb (r =? 0) then retB true else take_byte n (S i) s dest
      end
  end.

(** The loop that fills [data] from index [p]; the number of bytes in it. *)
Fixpoint fill_data (n : nat) (p : Z) (s : com) (data : Z) : B Z :=
  match n with
  | O => retB p
  | S n =>
      read <~ take_byte MAX_SUBSCRIBERS 0 s (data + p) ;;
      if (read : bool) then fill_data n (p + 1) s data else retB p
  end.

Definition transmit (s : com) (data p : Z) : M sersys unit :=
  for_up (Z.to_nat p) 0 (fun i =>
    port <- gets (fun x => se_port (serial_at s x)) ;;
    byte <- gets (fun x => ss_mem x (data + i)) ;;
    write_serial port byte).

Definition try_serial_write (s : com) (data : Z) : B unit :=
  port <~ liftB (gets (fun x => se_port (serial_at s x))) ;;
  brk <~ liftB (serial_break port) ;;
  if (brk : bool) then retB tt else
  empty <~ liftB (is_transmit_empty port) ;;
  whenB empty (p <~ fill_data (Z.to_nat COM_FIFO_SIZE) 0 s data ;; liftB (transmit s data p)).

(** The loop over the subscribers in try_serial_read, which takes the output buffers. *)
Fixpoint spread_byte (n i : nat) (s : com) (data : Z) : B unit :=
  match n with
  | O => retB tt
  | S n =>
      sub <~ liftB (gets (fun x => mjoin (se_output (serial_at s x) !! i))) ;;
      match sub with
      | None => spread_byte n (S i) s data
      | Some eb => eb_try_writeB eb data 1 ~;; spread_byte n (S i) s data
      end
  end.

Fixpoint read_all (fuel : nat) (s : com) (port data : Z) : B unit :=
  match fuel with
  | O => fun _ => hang
  | S fuel =>
      r <~ liftB (serial_received port) ;;
      if (r : bool) then
        v <~ liftB (read_serial port) ;;
        liftB (modify (fun x => mk_ser (ss_locks x) (store8 (ss_mem x) data v) (ss_bufs x) (ss_com1 x) (ss_com2 x) (ss_log x))) ~;;
        spread_byte MAX_SUBSCRIBERS 0 s data ~;;
        read_all fuel s port data
      else retB tt
  end.

Definition try_serial_read (s : com) (data : Z) : B unit :=
  port <~ liftB (gets (fun x => se_port (serial_at s x))) ;;
  brk <~ liftB (serial_break port) ;;
  if (brk : bool) then retB tt else read_all turns s port data.

(** ** Subscriptions *)

Fixpoint subscribe (l : list (option Z)) (eb : Z) : outcome (list (option Z)) :=
  match l with
  | [] => Panic "subscribe(): exceeded max subscribers"
  | None :: l => Done (Some eb :: l)
  | Some e :: l => match subscribe l eb with Done l' => Done (Some e :: l') | o => o end
  end.

Definition unsubscribe (l : list (option Z)) (eb : Z) : list (option Z) :=
  (fun e => if bool_decide (e = Some eb) then None else e) <$> l.

Definition locked_update (s : com) (f : M sersys unit) : B unit :=
  m <~ liftB (gets (fun x => se_mutex (serial_at s x))) ;;
  mutex_acquireB m ~;; liftB f ~;; mutex_releaseB m.

Definition store_subs (r : serial → outcome serial) (s : com) : M sersys unit := fun x =>
  match r (serial_at s x) with Done v => Done (tt, set_serial s v x) | Panic w => Panic w | Hang => Hang end.

Definition serial_subscribe_input (s : com) (buffer : Z) : B unit :=
  locked_update s (store_subs (fun v => match subscribe (se_input v) buffer with Done l => Done (seset_input l v) | Panic w => Panic w | Hang => Hang end) s).
Definition serial_unsubscribe_input (s : com) (buffer : Z) : B unit :=
  locked_update s (upd_serial s (fun v => seset_input (unsubscribe (se_input v) buffer) v)).
Definition serial_subscribe_output (s : com) (buffer : Z) : B unit :=
  locked_update s (store_subs (fun v => match subscribe (se_output v) buffer with Done l => Done (seset_output l v) | Panic w => Panic w | Hang => Hang end) s).
Definition serial_unsubscribe_output (s : com) (buffer : Z) : B unit :=
  locked_update s (upd_serial s (fun v => seset_output (unsubscribe (se_output v) buffer) v)).

(** ** The handler thread *)

Fixpoint wait_data (fuel : nat) (s : com) : B unit :=
  match fuel with
  | O => fun _ => hang
  | S fuel =>
      v <~ liftB (gets (serial_at s)) ;;
      r <~ liftB (serial_received (se_port v)) ;;
      e <~ (if (r : bool) then retB true else liftB (is_transmit_empty (se_port v))) ;;
      if (r : bool) || e then retB tt else
      cond_waitB (se_data_available v) (se_mutex v) ~;; wait_data fuel s
  end.

(** One turn of the loop of serial_handler_main. *)
Definition serial_handler_turn (s : com) (data : Z) : B unit :=
  v <~ liftB (gets (serial_at s)) ;;
  mutex_acquireB (se_mutex v) ~;;
  wait_data turns s ~;;
  r <~ liftB (serial_received (se_port v)) ;;
  whenB r (try_serial_read s data) ~;;
  e <~ liftB (is_transmit_empty (se_port v)) ;;
  whenB e (try_serial_write s data) ~;;
  mutex_releaseB (se_mutex v).

(** The loop itself, for [n] turns. *)
Fixpoint serial_handler_main (n : nat) (s : com) (data : Z) : B unit :=
  match n with O => retB tt | S n => serial_handler_turn s data ~;; serial_handler_main n s data end.

Definition serial_read (s : com) : B unit := fun c => d <- gets (fun x => se_data_available (serial_at s x)) ;; on_locks (thread_cond_notify c d) ;;; ret (Now tt).
Definition serial_write (s : com) : B unit := fun c => d <- gets (fun x => se_data_available (serial_at s x)) ;; on_locks (thread_cond_notify c d) ;;; ret (Now tt).

(** ** Interrupts and set-up, through the interfaces of the other components *)

Class SerialEnv := {
  env_lapic_eoi : M sersys unit;
  env_isr_set_handler : Z → com → M sersys unit;
  env_ioapic_clear_mask : Z → M sersys unit;
  env_schedule_handler : com → M sersys Z;
  env_cdev_register : string → com → Z → M sersys unit;
}.
Context `{SerialEnv}.

Definition com_irq_handler (c : cptr) (s : com) : M sersys unit :=
  d <- gets (fun x => se_data_available (serial_at s x)) ;;
  on_locks (thread_cond_notify c d) ;;;
  env_lapic_eoi.

Definition out (port v : Z) : M sersys unit := on_ports (pio_outb port v).

Definition init_port (s : com) (port divisor : Z) : M sersys unit :=
  upd_serial s (seset_port port) ;;;
  v <- gets (serial_at s) ;;
  on_locks (_thread_cond_create (se_data_available v)) ;;;
  on_locks (_thread_mutex_create (se_mutex v) (se_mutex_cond v)) ;;;
  out (COM_INT_ENABL_REG port) 0 ;;;
  out (COM_LINE_CTL_REG port) COM_DLAB_BIT ;;;
  out (COM_DIVISOR_LOW port) divisor ;;;
  out (COM_DIVISOR_HIGH port) (Z.shiftr divisor 8) ;;;
  out (COM_LINE_CTL_REG port) (Z.lor (Z.lor COM_8_BITS COM_NO_PARITY_BITS) COM_1_STOP_BIT) ;;;
  out (COM_INT_FIFO_REG port) 0xC7 ;;;
  out (COM_MODM_CTL_REG port) 0x0B ;;;
  out (COM_INT_ENABL_REG port) (Z.lor COM_IER_INPUT_BIT COM_IER_NO_OUTPUT_BIT) ;;;
  t <- env_schedule_handler s ;;
  upd_serial s (seset_handler t).

Definition init_serial : M sersys unit :=
  init_port com1 COM1 COM_DEFAULT_DIVISOR ;;;
  init_port com2 COM2 COM_DEFAULT_DIVISOR ;;;
  env_isr_set_handler INT_IRQ_COM1 com1 ;;;
  env_isr_set_handler INT_IRQ_COM2 com2 ;;;
  env_ioapic_clear_mask INT_IRQ_COM1 ;;;
  env_ioapic_clear_mask INT_IRQ_COM2.

(** ** Character devices *)

(** The static device of a port: where its two buffers are and their locks. *)
Record serial_char_dev := mk_scdev {
  sc_com : com;
  sc_input : Z;
  sc_output : Z;
  sc_input_locks : mptr * condptr * condptr;
  sc_output_locks : mptr * condptr * condptr;
}.

Definition create_buffer (eb : Z) (l : mptr * condptr * condptr) : B unit :=
  liftB (on_eb eb (eb_create (fst (fst l)) (snd (fst l)) (snd l) 128 1 0)).

(** VFS_NODE_BIT_READABLE | VFS_NODE_BIT_WRITEABLE. *)
Definition install_com1_cdev (d : serial_char_dev) (flags : Z) : B unit :=
  create_buffer (sc_input d) (sc_input_locks d) ~;;
  create_buffer (sc_output d) (sc_output_locks d) ~;;
  liftB (env_cdev_register "com1" com1 flags) ~;;
  serial_subscribe_input com1 (sc_input d) ~;;
  serial_subscribe_output com1 (sc_output d).

(** The second device subscribes to the first one's port. *)
Definition install_com2_cdev (d1 d : serial_char_dev) (flags : Z) : B unit :=
  create_buffer (sc_input d) (sc_input_locks d) ~;;
  create_buffer (sc_output d) (sc_output_locks d) ~;;
  liftB (env_cdev_register "com2" com2 flags) ~;;
  serial_subscribe_input (sc_com d1) (sc_input d) ~;;
  serial_subscribe_output (sc_com d1) (sc_output d).

Definition serial_cdev_read (d : serial_char_dev) (buf count : Z) : B Z := eb_readB (sc_input d) buf count.

Definition serial_cdev_write (d : serial_char_dev) (buf count : Z) : B Z :=
  written <~ eb_writeB (sc_output d) buf count ;;
  serial_write (sc_com d) ~;;
  retB written.

End code.

(** ** Lemmas: suspension *)

Lemma lift_run {A C} (m : M sersys A) (f : A → B C) c st a st' : m st = Done (a, st') → bindB (liftB m) f c st = f a c st'.
Proof. intros E. unfold bindB, liftB, bind. by rewrite E. Qed.

Lemma now_run {A C} (m : B A) (f : A → B C) c st a st' : m c st = Done (Now a, st') → bindB m f c st = f a c st'.
Proof. intros E. unfold bindB. by rewrite E. Qed.

(** ** Lemmas: buffers of several subscribers *)

Definition cont (eb : Z) (st : sersys) : list Z := contents (buf_at eb st) (ss_mem st).

(** Everything but locks, memory and buffers. *)
Definition same_ports (st st' : sersys) : Prop := ss_com1 st' = ss_com1 st ∧ ss_com2 st' = ss_com2 st ∧ ss_log st' = ss_log st.

Section proofs.
Context `{AN : Answers} `{EH : EbHeap} (wakeups : nat) (c : cptr) (k : scpu) (t : tptr) (x : thread).
Context (Hints : ints_ok k) (Htid : t_tid x ≠ TID_INVALID).

(** The buffers [l] are well formed and uncontended, do not overlap each other or the local
    array at [data], and have locks of their own. *)
Record buffers (l : list Z) (data : Z) (st : sersys) : Prop := {
  bu_nodup : NoDup l;
  bu_mem : byte_mem (ss_mem st);
  bu_ok : ∀ eb, eb ∈ l → eb_ok (buf_at eb st) (ss_mem st);
  bu_ready : ∀ eb, eb ∈ l → ∃ y, ready c k t x (eb_view eb st) y ∧ mu_locked y = false;
  bu_data : ∀ eb, eb ∈ l → apart (buf_at eb st) data COM_FIFO_SIZE;
  bu_apart : ∀ eb eb', eb ∈ l → eb' ∈ l → eb ≠ eb' →
    apart (buf_at eb st) (eb_buffer (buf_at eb' st)) (eb_buffer_size (buf_at eb' st)) ∧ eb_mutex (buf_at eb st) ≠ eb_mutex (buf_at eb' st);
}.

Lemma buf_set eb e st : buf_at eb (set_eb_view eb e st) = e_buf e.
Proof. unfold buf_at, set_eb_view. cbn. by rewrite lookup_insert_eq. Qed.

Lemma buf_set_ne eb eb' e st : eb ≠ eb' → buf_at eb' (set_eb_view eb e st) = buf_at eb' st.
Proof. intros Hn. unfold buf_at, set_eb_view. cbn. by rewrite lookup_insert_ne. Qed.

Lemma cont_other b m m' : eb_ok b m → (∀ a, eb_buffer b ≤ a < eb_buffer b + eb_buffer_size b → m' a = m a) → contents b m' = contents b m.
Proof. intros [] Hf. unfold contents. apply read_bytes_ext. intros a Ha. apply Hf. lia. Qed.

Lemma eb_ok_mem b m m' : byte_mem m' → eb_ok b m → eb_ok b m'.
Proof. intros Hm []. by split. Qed.

Lemma read1_run l data st eb p :
  buffers l data st → eb ∈ l → 0 ≤ p < COM_FIFO_SIZE →
  let n := Z.min (Z.of_nat (length (cont eb st))) 1 in
  ∃ st', eb_try_readB wakeups eb (data + p) 1 c st = Done (Now n, st') ∧ buffers l data st' ∧ same_ports st st' ∧
    read_bytes (ss_mem st') (data + p) (Z.to_nat n) ++ cont eb st' = cont eb st ∧
    (∀ eb', eb' ∈ l → eb' ≠ eb → cont eb' st' = cont eb' st) ∧
    (∀ q, 0 ≤ q < COM_FIFO_SIZE → q ≠ p → ss_mem st' (data + q) = ss_mem st (data + q)).
Proof.
  intros [B1 BM B2 B3 B4 B5] He Hp n. destruct (B3 eb He) as (y & Hr & Hl). pose proof (B4 eb He) as Hd.
  assert (Ha : apart (buf_at eb st) (data + p) 1) by (unfold apart, COM_FIFO_SIZE in *; lia).
  destruct (try_read_run c k t x Hints Htid (eb_view eb st) y (data + p) 1 Hr ltac:(unfold open_to; by rewrite Hl) (B2 eb He) ltac:(lia) Ha)
    as (m & b & E & Hok & Hsa & Hc & Hfr).
  cbn [e_buf e_mem eb_view] in *. fold n in E, Hc, Hfr. set (e := mk_ebsys (closed (eb_view eb st) y n) m b) in *.
  exists (set_eb_view eb e st). pose proof (ready_closed c k t x _ y n m b Hr Hsa) as Hr'. pose proof Hsa as (S1 & S2 & S3 & S4 & S5).
  assert (Hn : 0 ≤ n ≤ 1) by lia.
  assert (Hmem : ∀ eb' a, eb' ∈ l → eb' ≠ eb → eb_buffer (buf_at eb' st) ≤ a < eb_buffer (buf_at eb' st) + eb_buffer_size (buf_at eb' st) → m a = ss_mem st a).
  { intros eb' a He' Hne Ha'. apply Hfr.
    - destruct (B5 eb eb' He He' ltac:(congruence)) as [Hap _]. unfold apart in Hap. unfold outside. rewrite S1, S2. lia.
    - pose proof (B4 eb' He') as Hd'. unfold apart, COM_FIFO_SIZE in Hd'. unfold outside. unfold COM_FIFO_SIZE in Hp. lia. }
  split; [|split; [|split; [done|split; [|split]]]].
  - unfold eb_try_readB. destruct wakeups as [|w]; cbn [await]; unfold on_eb, bind, zoom; rewrite E; done.
  - split; [done|apply Hok| | | |].
    + intros eb' He'. destruct (decide (eb' = eb)) as [->|Hne]; [by rewrite buf_set|]. rewrite buf_set_ne by done. apply (eb_ok_mem _ (ss_mem st)); [apply Hok|by apply B2].
    + intros eb' He'. destruct (decide (eb' = eb)) as [->|Hne].
      * exists (settled y). split; [|unfold settled; by rewrite Hl]. unfold eb_view. rewrite buf_set. exact Hr'.
      * destruct (B3 eb' He') as (y' & [R1 R2 R3 R4] & Hl'). exists y'. split; [|done]. destruct Hr' as [Q1 Q2 _ _].
        split; [exact Q1|exact Q2| |exact R4]. cbn [e_buf eb_view e_locks]. rewrite buf_set_ne by done. cbn. rewrite Hl.
        rewrite lookup_insert_ne; [exact R3|]. intros Em. by apply (proj2 (B5 eb eb' He He' ltac:(congruence))).
    + intros eb' He'. destruct (decide (eb' = eb)) as [->|Hne]; [rewrite buf_set; unfold apart; cbn [e_buf e]; by rewrite S1, S2|by rewrite buf_set_ne; [apply B4|]].
    + assert (Hb : ∀ z, eb_buffer (buf_at z (set_eb_view eb e st)) = eb_buffer (buf_at z st) ∧ eb_buffer_size (buf_at z (set_eb_view eb e st)) = eb_buffer_size (buf_at z st) ∧
          eb_mutex (buf_at z (set_eb_view eb e st)) = eb_mutex (buf_at z st)).
      { intros z. destruct (decide (z = eb)) as [->|Hz]; [by rewrite buf_set|by rewrite buf_set_ne]. }
      intros z z' Hz Hz' Hne. destruct (Hb z) as (Z1 & Z2 & Z3), (Hb z') as (Z4 & Z5 & Z6). unfold apart. rewrite Z1, Z2, Z3, Z4, Z5, Z6. by apply B5.
  - unfold cont. by rewrite buf_set.
  - intros eb' He' Hne. unfold cont. rewrite buf_set_ne by done. apply cont_other; [by apply B2|]. intros a Ha'. by apply (Hmem eb' a He' Hne).
  - intros q Hq Hqp. cbn. apply Hfr; unfold outside; [|lia]. unfold apart, COM_FIFO_SIZE in *. rewrite S1, S2. lia.
Qed.

(** What the subscribers [l] have to send, the first subscriber first. *)
Definition flat (l : list Z) (st : sersys) : list Z := mjoin ((fun eb => cont eb st) <$> l).

Lemma flat_cons eb l st : flat (eb :: l) st = cont eb st ++ flat l st.
Proof. done. Qed.

Lemma flat_same l st st' : (∀ eb, eb ∈ l → cont eb st' = cont eb st) → flat l st' = flat l st.
Proof. intros Hs. unfold flat. f_equal. apply list_fmap_ext. intros i eb Hi. apply Hs. by eapply list_elem_of_lookup_2. Qed.

Lemma same_serial s st st' : same_ports st st' → serial_at s st' = serial_at s st.
Proof. intros (E1 & E2 & _). by destruct s. Qed.

Lemma same_ports_trans st1 st2 st3 : same_ports st1 st2 → same_ports st2 st3 → same_ports st1 st3.
Proof. intros (A1 & A2 & A3) (B1 & B2 & B3). split; [congruence|]. split; congruence. Qed.

Lemma take_byte_run l data p s n : 0 ≤ p < COM_FIFO_SIZE → ∀ i st,
  let rest := omap id (take n (drop i (se_output (serial_at s st)))) in
  buffers l data st → NoDup rest → rest ⊆ l →
  ∃ b st', take_byte wakeups n i s (data + p) c st = Done (Now b, st') ∧ buffers l data st' ∧ same_ports st st' ∧
    (∀ q, 0 ≤ q < COM_FIFO_SIZE → q ≠ p → ss_mem st' (data + q) = ss_mem st (data + q)) ∧
    match flat rest st with
    | [] => b = false ∧ ∀ eb, eb ∈ l → cont eb st' = cont eb st
    | v :: r => b = true ∧ ss_mem st' (data + p) = v ∧ flat rest st' = r ∧ ∀ eb, eb ∈ l → eb ∉ rest → cont eb st' = cont eb st
    end.
Proof.
  intros Hp. induction n as [|n IH]; intros i st rest Hb Hnd Hin; cbn [take_byte].
  - exists false, st. split; [done|]. split; [done|]. split; [done|]. split; [done|]. done.
  - erewrite lift_run; [|reflexivity]. set (subs := se_output (serial_at s st)) in *.
    assert (Hskip : mjoin (subs !! i) = None → rest = omap id (take n (drop (S i) subs))).
    { intros Ej. unfold rest. destruct (subs !! i) as [o|] eqn:Ei.
      - rewrite (drop_S _ _ _ Ei). cbn in Ej. subst o. done.
      - apply lookup_ge_None in Ei. by rewrite !drop_ge, !take_nil by lia. }
    destruct (mjoin (subs !! i)) as [eb|] eqn:Ej; [|specialize (Hskip eq_refl); rewrite Hskip in Hnd, Hin |- *; by apply IH].
    assert (Hrest : rest = eb :: omap id (take n (drop (S i) subs))).
    { unfold rest. destruct (subs !! i) as [o|] eqn:Ei; [|done]. cbn in Ej. subst o. by rewrite (drop_S _ _ _ Ei). }
    set (rest' := omap id (take n (drop (S i) subs))) in *. rewrite Hrest in Hnd, Hin |- *. apply NoDup_cons in Hnd as [Hnot Hnd].
    assert (He : eb ∈ l) by (apply Hin; by left). assert (Hin' : rest' ⊆ l) by (intros z Hz; apply Hin; by right).
    destruct (read1_run l data st eb p Hb He Hp) as (st1 & E1 & Hb1 & Hs1 & Hc1 & Ho1 & Hq1). rewrite (now_run _ _ _ _ _ _ E1).
    destruct (cont eb st) as [|v w] eqn:Ec; cbn [length Z.of_nat] in *.
    + assert (Hc0 : cont eb st1 = []) by exact Hc1. change (negb (Z.min (Z.of_nat 0) 1 =? 0)) with false. cbv iota.
      assert (Hall : ∀ z, z ∈ l → cont z st1 = cont z st) by (intros z Hz; destruct (decide (z = eb)) as [->|]; [congruence|by apply Ho1]).
      assert (Es : se_output (serial_at s st1) = subs) by (unfold subs; by rewrite (same_serial s _ _ Hs1)).
      specialize (IH (S i) st1). cbv zeta in IH. rewrite Es in IH. fold rest' in IH. destruct (IH Hb1 Hnd Hin') as (b & st2 & E2 & Hb2 & Hs2 & Hq2 & Hm).
      exists b, st2. split; [exact E2|]. split; [done|]. split; [by eapply same_ports_trans|]. split; [intros q Hq Hne; rewrite Hq2 by done; by apply Hq1|].
      rewrite !flat_cons, Ec. cbn [app]. rewrite <- (flat_same rest' st st1) by (intros z Hz; apply Hall, Hin', Hz).
      destruct (flat rest' st1) as [|v r] eqn:Ef.
      * destruct Hm as [-> Hm]. split; [done|]. intros z Hz. rewrite Hm by done. by apply Hall.
      * destruct Hm as (-> & Hv & Hr & Hk). split; [done|]. split; [done|]. split.
        -- rewrite Hr, (Hk eb He Hnot), (Hall eb He), Ec. done.
        -- intros z Hz Hn. rewrite Hk; [by apply Hall|done|]. intros Hz'. apply Hn. by right.
    + rewrite Z.min_r in * by lia. cbn [Z.eqb negb]. change (Z.to_nat 1) with 1%nat in Hc1. cbn [read_bytes app] in Hc1. injection Hc1 as Hv Hw.
      exists true, st1. split; [done|]. split; [done|]. split; [done|]. split; [done|]. rewrite !flat_cons, Ec. cbn [app].
      split; [done|]. split; [done|]. split.
      * rewrite Hw. f_equal. apply (flat_same rest'). intros z Hz. apply Ho1; [by apply Hin'|]. intros ->. by apply Hnot.
      * intros z Hz Hn. apply Ho1; [done|]. intros ->. apply Hn. by left.
Qed.

Lemma fill_data_run l data s n : ∀ p st,
  buffers l data st → l = omap id (se_output (serial_at s st)) → length (se_output (serial_at s st)) = MAX_SUBSCRIBERS →
  0 ≤ p → p + Z.of_nat n ≤ COM_FIFO_SIZE →
  let bytes := take n (flat l st) in
  ∃ st', fill_data wakeups n p s data c st = Done (Now (p + Z.of_nat (length bytes)), st') ∧ buffers l data st' ∧ same_ports st st' ∧
    (∀ q, 0 ≤ q < p → ss_mem st' (data + q) = ss_mem st (data + q)) ∧
    read_bytes (ss_mem st') (data + p) (length bytes) = bytes ∧ flat l st' = drop n (flat l st).
Proof.
  induction n as [|n IH]; intros p st Hb Hl H8 Hp Hn bytes; cbn [fill_data].
  - exists st. unfold bytes. cbn [take length drop]. rewrite Z.add_0_r. split; [done|]. split; [done|]. split; [done|]. by split.
  - pose proof (take_byte_run l data p s MAX_SUBSCRIBERS ltac:(lia) 0 st) as T. cbv zeta in T. rewrite drop_0, take_ge in T by lia. rewrite <- Hl in T.
    destruct (T Hb (bu_nodup _ _ _ Hb) ltac:(done)) as (b & st1 & E1 & Hb1 & Hs1 & Hq1 & Hm). rewrite (now_run _ _ _ _ _ _ E1). clear T.
    unfold bytes. destruct (flat l st) as [|v r] eqn:Ef.
    + destruct Hm as [-> Hm]. exists st1. cbn [take length drop]. rewrite Z.add_0_r. split; [done|]. split; [done|]. split; [done|].
      split; [intros q Hq; apply Hq1; lia|]. split; [done|]. rewrite (flat_same l st) by done. exact Ef.
    + destruct Hm as (-> & Hv & Hr & _). pose proof (same_serial s _ _ Hs1) as Ess.
      destruct (IH (p + 1) st1 Hb1 ltac:(by rewrite Ess) ltac:(by rewrite Ess) ltac:(lia) ltac:(lia)) as (st2 & E2 & Hb2 & Hs2 & Hq2 & Hd & Hf).
      rewrite Hr in E2, Hd, Hf. exists st2. cbn [take length drop]. split.
      { rewrite E2. do 3 f_equal. lia. }
      split; [done|]. split; [by eapply same_ports_trans|]. split; [intros q Hq; rewrite Hq2 by lia; apply Hq1; lia|]. split; [|done].
      cbn [read_bytes]. rewrite Hq2 by lia. rewrite Hv. f_equal. by rewrite <- Z.add_assoc.
Qed.

Lemma transmit_loop s data n : ∀ i st, byte_mem (ss_mem st) →
  let port := se_port (serial_at s st) in
  ∃ log, for_up n i (fun i => port <- gets (fun x => se_port (serial_at s x)) ;; byte <- gets (fun x => ss_mem x (data + i)) ;; write_serial port byte) st =
      Done (tt, ss_set_log log st) ∧ sent log port = sent (ss_log st) port ++ read_bytes (ss_mem st) (data + i) n.
Proof.
  induction n as [|n IH]; intros i st Hm port; cbn [for_up].
  - exists (ss_log st). split; [by destruct st|]. by rewrite app_nil_r.
  - set (st1 := ss_set_log (PortOut port (u8 (ss_mem st (data + i))) :: ss_log st) st).
    assert (Ess : serial_at s st1 = serial_at s st) by by destruct s.
    destruct (IH (i + 1) st1 Hm) as (log & E & Es). rewrite Ess in Es. fold port in Es. exists log. split; [exact E|].
    rewrite Es. cbn [ss_log st1 ss_set_log sent ss_mem]. rewrite Z.eqb_refl, <- app_assoc. cbn [app read_bytes]. rewrite u8_small by apply Hm.
    by rewrite Z.add_assoc.
Qed.

(** The line status the controller answers: a break, room to transmit. *)
Definition status (log : list access) (port : Z) : Z := u8 (port_answer log (COM_LINE_STS_REG port)).
Definition polled (log : list access) (port : Z) : list access := PortIn (COM_LINE_STS_REG port) (status log port) :: log.
Definition breaks (log : list access) (port : Z) : bool := negb (Z.land (status log port) 0x10 =? 0).
Definition empties (log : list access) (port : Z) : bool := negb (Z.land (status log port) 0x20 =? 0).

Lemma break_run port st : serial_break port st = Done (breaks (ss_log st) port, ss_set_log (polled (ss_log st) port) st).
Proof. done. Qed.

Lemma empty_run port st : is_transmit_empty port st = Done (empties (ss_log st) port, ss_set_log (polled (ss_log st) port) st).
Proof. done. Qed.

Lemma buffers_log l data st log : buffers l data st → buffers l data (ss_set_log log st).
Proof. intros [B1 BM B2 B3 B4 B5]. by split. Qed.

Lemma serial_log s st log : serial_at s (ss_set_log log st) = serial_at s st.
Proof. by destruct s. Qed.

(** How many bytes the controller takes now. *)
Definition room (log : list access) (port : Z) : nat :=
  if breaks log port then 0 else if empties (polled log port) port then Z.to_nat COM_FIFO_SIZE else 0.

Lemma transmit_run l data s st :
  buffers l data st → l = omap id (se_output (serial_at s st)) → length (se_output (serial_at s st)) = MAX_SUBSCRIBERS →
  let port := se_port (serial_at s st) in let n := room (ss_log st) port in
  ∃ st', try_serial_write wakeups s data c st = Done (Now tt, st') ∧ buffers l data st' ∧ serial_at s st' = serial_at s st ∧
    sent (ss_log st') port = sent (ss_log st) port ++ take n (flat l st) ∧ flat l st' = drop n (flat l st).
Proof.
  intros Hb Hl H8 port n. unfold try_serial_write. erewrite lift_run; [|reflexivity]. fold port.
  rewrite (lift_run _ _ _ _ _ _ (break_run port st)). unfold n, room. destruct (breaks (ss_log st) port).
  - eexists. split; [reflexivity|]. split; [by apply buffers_log|]. split; [apply serial_log|]. split; [by rewrite app_nil_r|done].
  - rewrite (lift_run _ _ _ _ _ _ (empty_run port _)). cbn [ss_log ss_set_log]. destruct (empties (polled (ss_log st) port) port); cbn [whenB].
    2:{ eexists. split; [reflexivity|]. split; [by apply buffers_log, buffers_log|]. split; [by rewrite !serial_log|]. split; [by rewrite app_nil_r|done]. }
    set (st1 := ss_set_log _ _). assert (Ess : serial_at s st1 = serial_at s st) by (unfold st1; by rewrite !serial_log).
    destruct (fill_data_run l data s (Z.to_nat COM_FIFO_SIZE) 0 st1 ltac:(by apply buffers_log, buffers_log) ltac:(by rewrite Ess) ltac:(by rewrite Ess) ltac:(lia) ltac:(done))
      as (st2 & E2 & Hb2 & Hs2 & _ & Hd & Hf). change (flat l st1) with (flat l st) in *. rewrite Z.add_0_r, Z.add_0_l in *.
    rewrite (now_run _ _ _ _ _ _ E2). destruct (transmit_loop s data (length (take (Z.to_nat COM_FIFO_SIZE) (flat l st))) 0 st2 (bu_mem _ _ _ Hb2)) as (log & Et & Hlog).
    rewrite Z.add_0_r in Hlog. rewrite (same_serial s _ _ Hs2), Ess in Hlog. fold port in Hlog.
    exists (ss_set_log log st2). split; [|split; [by apply buffers_log|split; [by rewrite serial_log, (same_serial s _ _ Hs2)|split; [|exact Hf]]]].
    + unfold liftB, transmit. rewrite Nat2Z.id. by rewrite (bind_run _ _ _ _ _ Et).
    + cbn [ss_log ss_set_log]. rewrite Hlog, Hd. destruct Hs2 as (_ & _ & ->). done.
Qed.

Lemma cdev_write_run turns st d y buf count :
  let eb := sc_output d in
  ready c k t x (eb_view eb st) y → mu_locked y = false → eb_ok (buf_at eb st) (ss_mem st) → apart (buf_at eb st) buf count → 0 < count < 2 ^ 32 →
  count ≤ eb_buffer_size (buf_at eb st) - Z.of_nat (length (cont eb st)) →
  ∃ st', serial_cdev_write wakeups (S turns) d buf count c st = Done (Now count, st') ∧
    cont eb st' = cont eb st ++ read_bytes (ss_mem st) buf (Z.to_nat count) ∧ eb_ok (buf_at eb st') (ss_mem st') ∧ ss_log st' = ss_log st.
Proof.
  intros eb Hr Hl Hok Ha Hs Hle.
  destruct (write_enough c k t x Hints Htid (eb_view eb st) y buf count turns Hr Hl Hok Ha Hs Hle) as (m & b & E & Hb & Hsa & Hc).
  set (e := mk_ebsys (closed (eb_view eb st) y count) m b) in *. set (st1 := set_eb_view eb e st).
  assert (E1 : eb_writeB wakeups (S turns) eb buf count c st = Done (Now count, st1)).
  { unfold eb_writeB. destruct wakeups as [|w]; cbn [await]; unfold on_eb, bind, zoom; rewrite E; done. }
  unfold serial_cdev_write. fold eb. rewrite (now_run _ _ _ _ _ _ E1).
  pose proof (ready_closed c k t x _ y count m b Hr Hsa) as [Q1 Q2 _ _]. cbn [e_locks] in Q1, Q2.
  set (cond := se_data_available (serial_at (sc_com d) st1)).
  assert (E2 : thread_cond_notify c cond (ss_locks st1) = Done (tt, lset_sched (notified cond (lk_sched (ss_locks st1))) (ss_locks st1))).
  { apply in_sched_run. apply (notify_exact c k); [apply Q1|apply Q2]. }
  eexists. split.
  { unfold bindB at 1, serial_write, bind at 1, gets. fold cond. unfold on_locks, zoom, bind. rewrite E2. reflexivity. }
  split; [|split; [|done]].
  - unfold cont at 1. change (buf_at eb (ss_set_locks _ st1)) with (buf_at eb st1). unfold st1 at 1. rewrite buf_set. exact Hc.
  - change (buf_at eb (ss_set_locks _ st1)) with (buf_at eb st1). unfold st1 at 1. rewrite buf_set. exact Hb.
Qed.

End proofs.

(** C25: The output of a serial device is a queue.  Writing to the device, when the message fits in
    its buffer, appends the message and returns its length; whenever the handler looks at the
    port, it transmits the oldest bytes of the subscribed buffers, up to the 14 the controller
    takes or none when the line is broken or busy, in order and each exactly once: what was in the
    buffers is what went out followed by what is left in them. *)
Theorem serial_output_fifo `{AN : Answers} `{EH : EbHeap} wakeups c k t x :
  ints_ok k → t_tid x ≠ TID_INVALID →
  (∀ turns st d y buf count, let eb := sc_output d in
     ready c k t x (eb_view eb st) y → mu_locked y = false → eb_ok (buf_at eb st) (ss_mem st) → apart (buf_at eb st) buf count → 0 < count < 2 ^ 32 →
     count ≤ eb_buffer_size (buf_at eb st) - Z.of_nat (length (cont eb st)) →
     ∃ st', serial_cdev_write wakeups (S turns) d buf count c st = Done (Now count, st') ∧
       cont eb st' = cont eb st ++ read_bytes (ss_mem st) buf (Z.to_nat count) ∧ ss_log st' = ss_log st) ∧
  (∀ l data s st, buffers c k t x l data st → l = omap id (se_output (serial_at s st)) → length (se_output (serial_at s st)) = MAX_SUBSCRIBERS →
     let port := se_port (serial_at s st) in
     ∃ bytes st', try_serial_write wakeups s data c st = Done (Now tt, st') ∧ buffers c k t x l data st' ∧
       sent (ss_log st') port = sent (ss_log st) port ++ bytes ∧ flat l st = bytes ++ flat l st' ∧
       length bytes = Nat.min (room (ss_log st) port) (length (flat l st))).
Proof.
  intros Hi Ht. split.
  - intros turns st d y buf count eb Hr Hl Hok Ha Hs Hle.
    destruct (cdev_write_run wakeups c k t x Hi Ht turns st d y buf count Hr Hl Hok Ha Hs Hle) as (st' & E & Hc & _ & Hlog). by exists st'.
  - intros l data s st Hb Hl H8 port. destruct (transmit_run wakeups c k t x Hi Ht l data s st Hb Hl H8) as (st' & E & Hb' & _ & Hsent & Hf).
    exists (take (room (ss_log st) port) (flat l st)), st'. split; [done|]. split; [done|]. split; [done|]. split; [|by rewrite length_take].
    rewrite Hf. by rewrite take_drop.
Qed.

(** A port with one subscriber whose buffer holds three bytes and can take five more. *)
Definition example_status : Answers := {| mmio_answer := fun _ _ => 0; port_answer := fun _ _ => 0x20 |}.
Definition example_serial : serial := mk_serial COM1 0 40%nat 41%nat 42%nat (replicate MAX_SUBSCRIBERS None) (Some 7 :: replicate 7 None).
Definition example_ser : sersys :=
  mk_ser (e_locks (example_eb 3)) (e_mem (example_eb 3)) {[7 := e_buf (example_eb 3)]} example_serial (seset_output (replicate MAX_SUBSCRIBERS None) example_serial) [].
Definition example_dev : serial_char_dev := mk_scdev com1 6 7 (43%nat, 44%nat, 45%nat) (3%nat, 5%nat, 6%nat).

Lemma serial_output_fifo_witness :
  (∃ st', serial_cdev_write 4 5 example_dev 100 4 0%nat example_ser = Done (Now 4, st') ∧ cont 7 st' = [97; 98; 99] ++ [104; 101; 108; 108]) ∧
  (∃ bytes st', @try_serial_write example_status 4 com1 500 0%nat example_ser = Done (Now tt, st') ∧ length bytes = 3%nat ∧
     sent (ss_log st') COM1 = bytes ∧ [97; 98; 99] = bytes ++ flat [7] st').
Proof.
  destruct (@serial_output_fifo example_status _ 4 0%nat example_running 10%nat example_current example_ints ltac:(discriminate)) as [W R]. split.
  - destruct (W 4%nat example_ser example_dev _ 100 4 (example_eb_ready 3) eq_refl (example_eb_ok 3 (or_intror eq_refl)) ltac:(unfold apart; left; vm_compute; discriminate) ltac:(lia) ltac:(vm_compute; discriminate))
      as (st' & E & Hc & _). exists st'. split; [exact E|exact Hc].
  - destruct (R [7] 500 com1 example_ser) as (bytes & st' & E & _ & Hs & Hf & Hl); [|done|done|].
    + split.
      * apply NoDup_singleton.
      * apply (example_eb_ok 3 (or_intror eq_refl)).
      * intros eb He. apply list_elem_of_singleton in He as ->. apply (example_eb_ok 3 (or_intror eq_refl)).
      * intros eb He. apply list_elem_of_singleton in He as ->. eexists. split; [exact (example_eb_ready 3)|done].
      * intros eb He. apply list_elem_of_singleton in He as ->. unfold apart. left. vm_compute. discriminate.
      * intros eb eb' He He'. apply list_elem_of_singleton in He as ->. apply list_elem_of_singleton in He' as ->. done.
    + exists bytes, st'. split; [exact E|]. split; [exact Hl|]. split; [exact Hs|exact Hf].
Defined.
