(* ===== verification/Debug.v ===== *)
(** * The debug console: arch/vga.h, arch/i386/vga_debug.c and the call stacks of debug.c

    The VGA text terminal with printf on it, _kpanic with its inter-processor interrupts, and
    debug_fill_call_stack.  The characters [generic_printf] produces are typed on the terminal in
    order: put_one reads nothing of the printer's state.  The terminal writes to memory, 16-bit
    cells from [VGA_MEMORY] on. *)

From stdpp Require Import base list strings gmap.
From Stdlib Require Import ZArith Lia.
From S2P Require Import Prelude Memory MemLayout Cpu LibcConvert Printf FatDir Segmentation Platform Apic.

Definition INT_PANIC_IPI : Z := 0x82.
Definition VGA_COLOR_BLACK : Z := 0.
Definition VGA_COLOR_RED : Z := 4.
Definition VGA_COLOR_LIGHT_GREY : Z := 7.
Definition VGA_WIDTH : Z := 80.
Definition VGA_HEIGHT : Z := 25.
Definition VGA_MEMORY : Z := km_vaddr 0xB8000.
Definition DEBUG_MAX_CALL_DEPTH : nat := 16.

Definition vga_entry_color (fg bg : Z) : Z := u8 (Z.lor fg (Z.shiftl bg 4)).
Definition vga_entry (uc color : Z) : Z := u16 (Z.lor (u16 uc) (Z.shiftl (u16 color) 8)).

(** ** The terminal *)

Record vga := mk_vga {
  terminal_row : Z;
  terminal_column : Z;
  terminal_color : Z;
  terminal_buffer : Z;
  v_mem : mem;
}.

Definition vset_cursor (row column : Z) (s : vga) : vga := mk_vga row column (terminal_color s) (terminal_buffer s) (v_mem s).
Definition vset_color (color : Z) (s : vga) : vga := mk_vga (terminal_row s) (terminal_column s) color (terminal_buffer s) (v_mem s).
Definition vset_mem (m : mem) (s : vga) : vga := mk_vga (terminal_row s) (terminal_column s) (terminal_color s) (terminal_buffer s) m.

Definition terminal_putentryat (c color x y : Z) : M vga unit :=
  modify (fun s => vset_mem (store16 (v_mem s) (terminal_buffer s + 2 * (y * VGA_WIDTH + x)) (vga_entry c color)) s).

Definition init_vga_printf : M vga unit :=
  modify (vset_cursor 0 0) ;;;
  modify (vset_color (vga_entry_color VGA_COLOR_LIGHT_GREY VGA_COLOR_BLACK)) ;;;
  modify (fun s => mk_vga (terminal_row s) (terminal_column s) (terminal_color s) VGA_MEMORY (v_mem s)) ;;;
  for_up (Z.to_nat VGA_HEIGHT) 0 (fun y => for_up (Z.to_nat VGA_WIDTH) 0 (fun x =>
    color <- gets terminal_color ;; terminal_putentryat 32 color x y)).

Definition terminal_set_panic : M vga unit :=
  modify (vset_cursor 0 0) ;;; modify (vset_color (vga_entry_color VGA_COLOR_RED VGA_COLOR_BLACK)).

(** Column 0 of the next line. *)
Definition next_line : M vga unit :=
  modify (fun s => vset_cursor (terminal_row s) 0 s) ;;;
  modify (fun s => let row := terminal_row s + 1 in vset_cursor (if row =? VGA_HEIGHT then 0 else row) (terminal_column s) s).

Definition terminal_putchar (c : Z) : M vga unit :=
  if c =? 10 then next_line else
  s <- get ;;
  terminal_putentryat (u8 c) (terminal_color s) (terminal_column s) (terminal_row s) ;;;
  modify (fun s => vset_cursor (terminal_row s) (terminal_column s + 1) s) ;;;
  s <- get ;;
  when (terminal_column s =? VGA_WIDTH) next_line.

Fixpoint put_all (l : list Z) : M vga unit :=
  match l with [] => ret tt | c :: l => terminal_putchar c ;;; put_all l end.

Definition va_vga_printf (format : list Z) (args : list varg) : M vga Z := fun s =>
  match generic_printf format args (mk_pstate (ToPrinter []) 0 0) with
  | Done (n, p) => (put_all (match p_sink p with ToPrinter out => out | ToDest _ _ => [] end) ;;; ret n) s
  | Panic w => Panic w
  | Hang => Hang
  end.
Definition vga_printf := va_vga_printf.

(** ** _kpanic *)

Record debugsys := mk_dbg { d_apic : lapics; d_vga : vga }.
Definition on_lapic {A} (m : M lapics A) : M debugsys A := zoom d_apic (fun w s => mk_dbg w (d_vga s)) m.
Definition on_machine {A} (m : M machine A) : M lapics A := zoom la_mach lset_mach m.
Definition on_vga {A} (m : M vga A) : M debugsys A := zoom d_vga (fun v s => mk_dbg (d_apic s) v) m.

Section panic.
Context `{Answers}.
Variable turns : nat.

Definition panic_enumerate (cpu : cpu_ptr) : M lapics unit :=
  c <- on_machine (read_cpu cpu) ;;
  if negb (active c) then ret tt else
  lapic_ipi (lapic_id c) INT_PANIC_IPI 0 ;;; lapic_ipi_wait turns.

(** cpu_enumerate_other_cpus(panic_enumerate). *)
Fixpoint panic_loop (n i : nat) (cur : Z) : M lapics unit :=
  match n with
  | O => ret tt
  | S n =>
      c <- on_machine (read_cpu (CpuAt i)) ;;
      when (verify_cpu c && negb (lapic_id c =? cur)) (panic_enumerate (CpuAt i)) ;;;
      panic_loop n (S i) cur
  end.
Definition panic_others : M lapics unit :=
  on_machine preempt_disable ;;;
  m <- gets la_mach ;;
  panic_loop (Z.to_nat (nof_cpus m)) 0 (Cpu.lapic_get_id m) ;;;
  on_machine preempt_enable.

(** _kpanic before its last loop, which does nothing for ever. *)
Definition kpanic_body (reason file : list Z) (line : Z) : M debugsys unit :=
  on_lapic (on_machine cpu_force_cli) ;;;
  on_lapic (on_machine (cpu <- cpu_current ;; write_cpu cpu (fun c => set_preempt (preempt_disabled c + 1) c))) ;;;
  on_lapic panic_others ;;;
  on_vga terminal_set_panic ;;;
  on_vga (vga_printf (chars "kernel: panic: %s" ++ [10]) [VStr reason]) ;;;
  on_vga (vga_printf (chars "at %s:%d" ++ [10]) [VStr file; VWord line]) ;;;
  ret tt.
Definition _kpanic (reason file : list Z) (line : Z) : M debugsys unit := kpanic_body reason file line ;;; hang.
End panic.

(** ** Call stacks *)

Record debug_call_stack := mk_stack { cs_stack : list Z; cs_depth : Z }.

(** The stacks of a thread and of a CPU; 0 is NULL. *)
Record arch_stacks := mk_stacks { at_stack : Z; at_stack_size : Z; at_stack0 : Z; at_stack0_size : Z }.
Record cpu_stack := mk_cstack { cpu_stack_top : Z; cpu_stack_size : Z; cpu_thread : option arch_stacks }.

Record callsys := mk_call {
  c_mach : machine;
  c_mem : mem;
  c_stacks : cpu_ptr → cpu_stack;
  c_cs : debug_call_stack;
}.
Definition cset_cs (cs : debug_call_stack) (s : callsys) : callsys := mk_call (c_mach s) (c_mem s) (c_stacks s) cs.
Definition on_cmach {A} (m : M machine A) : M callsys A := zoom c_mach (fun m s => mk_call m (c_mem s) (c_stacks s) (c_cs s)) m.

Definition debug_clear_call_stack : M callsys unit :=
  for_up DEBUG_MAX_CALL_DEPTH 0 (fun i => modify (fun s => cset_cs (mk_stack (<[Z.to_nat i := 0]> (cs_stack (c_cs s))) (cs_depth (c_cs s))) s)) ;;;
  modify (fun s => cset_cs (mk_stack (cs_stack (c_cs s)) 0) s).

Definition get_stack_info (sy : symbols) : M callsys (Z * Z) :=
  p <- on_cmach cpu_current ;;
  cpu <- gets (fun s => c_stacks s p) ;;
  if cpu_stack_top cpu =? 0 then ret (boot_stack_top sy, boot_stack_bottom sy) else
  match cpu_thread cpu with
  | Some t =>
      if negb (at_stack0 t =? 0) then ret (at_stack0 t, u32 (at_stack0 t + at_stack0_size t))
      else if negb (at_stack t =? 0) then ret (at_stack t, u32 (at_stack t + at_stack_size t))
      else kpanic "assertion cpu->thread == NULL failed"
  | None => ret (cpu_stack_top cpu, u32 (cpu_stack_top cpu + cpu_stack_size cpu))
  end.

(** The walk from index [i] on; the value of [i] after it. *)
Fixpoint fill_loop (n i : nat) (stack_top stack_bottom frame : Z) : M callsys nat :=
  match n with
  | O => ret i
  | S n =>
      if (frame >? stack_bottom) || (frame <? stack_top) then ret i else
      m <- gets c_mem ;;
      modify (fun s => cset_cs (mk_stack (<[i := load32 m (frame + 4)]> (cs_stack (c_cs s))) (cs_depth (c_cs s))) s) ;;;
      fill_loop n (S i) stack_top stack_bottom (load32 m frame)
  end.

(** [ebp] is the register's value in the function. *)
Definition debug_fill_call_stack (sy : symbols) (ebp : Z) : M callsys unit :=
  debug_clear_call_stack ;;;
  on_cmach preempt_disable ;;;
  tb <- get_stack_info sy ;;
  i <- fill_loop DEBUG_MAX_CALL_DEPTH 0 tb.1 tb.2 ebp ;;
  modify (fun s => cset_cs (mk_stack (cs_stack (c_cs s)) (Z.of_nat i)) s) ;;;
  on_cmach preempt_enable.

(** ** What the terminal shows

    A screen is 2000 cells read line by line; a text is typed at a position, each character of it
    at the one after the last, a newline going on at the start of the next line; the top
    of the screen follows its bottom. *)

Definition CELLS : Z := 2000.
Definition type_char (color c : Z) (t : Z * list Z) : Z * list Z :=
  if c =? 10 then ((t.1 / 80 + 1) * 80 mod CELLS, t.2)
  else ((t.1 + 1) mod CELLS, <[Z.to_nat t.1 := u8 c + 2 ^ 8 * color]> t.2).
Fixpoint type_text (color : Z) (l : list Z) (t : Z * list Z) : Z * list Z :=
  match l with [] => t | c :: l => type_text color l (type_char color c t) end.

Definition cells (m : mem) : list Z := (fun k => load16 m (VGA_MEMORY + 2 * Z.of_nat k)) <$> seq 0 (Z.to_nat CELLS).
Definition cursor (s : vga) : Z := terminal_row s * 80 + terminal_column s.
Definition shown (s : vga) : Z * list Z := (cursor s, cells (v_mem s)).

Record vga_ok (s : vga) : Prop := {
  vo_row : 0 ≤ terminal_row s < VGA_HEIGHT;
  vo_column : 0 ≤ terminal_column s < VGA_WIDTH;
  vo_color : 0 ≤ terminal_color s < 2 ^ 8;
  vo_buffer : terminal_buffer s = VGA_MEMORY;
}.

(** [s'] differs from [s] in the cursor and in the cells only. *)
Definition vga_frame (s s' : vga) : Prop :=
  terminal_color s' = terminal_color s ∧
  ∀ a, a < VGA_MEMORY ∨ VGA_MEMORY + 2 * CELLS ≤ a → v_mem s' a = v_mem s a.

Lemma vga_frame_refl s : vga_frame s s.
Proof. by split. Qed.
Lemma vga_frame_trans s1 s2 s3 : vga_frame s1 s2 → vga_frame s2 s3 → vga_frame s1 s3.
Proof. intros [E1 F1] [E2 F2]. split; [congruence|]. intros a Ha. by rewrite F2, F1. Qed.

Lemma vga_entry_value c color : 0 ≤ color < 2 ^ 8 → vga_entry (u8 c) color = u8 c + 2 ^ 8 * color.
Proof.
  intros Hc. pose proof (u8_range c). unfold vga_entry. rewrite (u16_small (u8 c)), (u16_small color), Z.lor_comm by lia.
  rewrite Z.shiftl_mul_pow2, Z.mul_comm, lor_high, u16_small by lia. lia.
Qed.

Lemma store16_eq m a v : store16 m a v = store8 (store8 m a (u8 v)) (a + 1) (u8 (v / 2 ^ 8)).
Proof. done. Qed.

Lemma store16_other m a v x : x < a ∨ a + 2 ≤ x → store16 m a v x = m x.
Proof. intros Hx. rewrite store16_eq, !store8_ne by lia. done. Qed.

Lemma load_store16 m a v : 0 ≤ v < 2 ^ 16 → load16 (store16 m a v) a = v.
Proof.
  intros Hv. unfold load16. rewrite store16_eq, store8_eq, (store8_ne _ (a + 1)), store8_eq by lia. unfold u8.
  rewrite !Z.mod_mod by lia. rewrite (Z.mod_small (v / 2 ^ 8)) by (split; [apply Z.div_pos|apply Z.div_lt_upper_bound]; lia).
  pose proof (Z.div_mod v (2 ^ 8) ltac:(lia)). lia.
Qed.

Lemma cells_store m k v :
  0 ≤ k < CELLS → 0 ≤ v < 2 ^ 16 → cells (store16 m (VGA_MEMORY + 2 * k) v) = <[Z.to_nat k := v]> (cells m).
Proof.
  intros Hk Hv. unfold cells. apply list_eq. intros j. rewrite list_lookup_fmap.
  destruct (decide (j < Z.to_nat CELLS)%nat) as [Hj|Hj].
  - rewrite lookup_seq_lt by done. cbn [fmap option_fmap option_map Nat.add]. destruct (decide (j = Z.to_nat k)) as [->|Hne].
    + rewrite list_lookup_insert_eq by (by rewrite length_fmap, length_seq). rewrite Z2Nat.id by lia. by rewrite load_store16.
    + rewrite list_lookup_insert_ne by done. rewrite list_lookup_fmap, lookup_seq_lt by done. cbn [fmap option_fmap option_map Nat.add].
      f_equal. unfold load16. rewrite !store16_other by lia. done.
  - rewrite lookup_seq_ge, lookup_ge_None_2; [done| |lia]. rewrite length_insert, length_fmap, length_seq. lia.
Qed.

Lemma next_line_run s :
  vga_ok s → ∃ s', next_line s = Done (tt, s') ∧ vga_ok s' ∧ vga_frame s s' ∧ v_mem s' = v_mem s ∧
    cursor s' = (terminal_row s + 1) * 80 mod CELLS.
Proof.
  intros [R C K B]. unfold next_line, bind, modify. eexists. split; [reflexivity|]. cbn.
  unfold VGA_HEIGHT, VGA_WIDTH in *. unfold cursor, CELLS, vga_frame. cbn.
  destruct (Z.eqb_spec (terminal_row s + 1) 25) as [E|E].
  - split; [split; cbn; unfold VGA_HEIGHT, VGA_WIDTH; lia || done|]. do 2 (split; [done|]). by rewrite E.
  - split; [split; cbn; unfold VGA_HEIGHT, VGA_WIDTH; lia || done|]. do 2 (split; [done|]). rewrite Z.mod_small; lia.
Qed.

Lemma putchar_run c s :
  vga_ok s → ∃ s', terminal_putchar c s = Done (tt, s') ∧ vga_ok s' ∧ vga_frame s s' ∧ shown s' = type_char (terminal_color s) c (shown s).
Proof.
  intros O. pose proof O as [R C K B]. unfold terminal_putchar, type_char. unfold VGA_HEIGHT, VGA_WIDTH in *. cbn [shown fst snd].
  assert (Hd : cursor s / 80 = terminal_row s).
  { unfold cursor. rewrite Z.add_comm, Z.div_add, Z.div_small by lia. lia. }
  destruct (c =? 10).
  - destruct (next_line_run s O) as (s' & E & O' & F & M & P). exists s'. do 3 (split; [done|]). unfold shown. by rewrite M, P, Hd.
  - unfold terminal_putentryat, bind, get, modify. cbn [terminal_buffer vset_mem vset_cursor terminal_row terminal_column terminal_color v_mem].
    rewrite B. unfold VGA_WIDTH. replace (terminal_row s * 80 + terminal_column s) with (cursor s) by done.
    rewrite vga_entry_value by done. set (m := store16 _ _ _). set (s1 := vset_cursor _ _ _).
    assert (Hk : 0 ≤ cursor s < CELLS) by (unfold cursor, CELLS; lia).
    assert (Hm : cells m = <[Z.to_nat (cursor s) := u8 c + 2 ^ 8 * terminal_color s]> (cells (v_mem s))).
    { apply cells_store; [done|]. pose proof (u8_range c). lia. }
    assert (F : vga_frame s s1).
    { split; [done|]. intros a Ha. cbn. apply store16_other. lia. }
    change (terminal_column s1) with (terminal_column s + 1).
    destruct (Z.eqb_spec (terminal_column s + 1) 80) as [E|E]; cbn [when].
    + assert (O1 : vga_ok (vset_cursor (terminal_row s) 0 s1)) by (split; cbn; unfold VGA_HEIGHT, VGA_WIDTH; lia || done).
      destruct (next_line_run _ O1) as (s' & E' & O' & F' & M & P). exists s'. split; [exact E'|]. split; [done|].
      split; [eapply vga_frame_trans; [exact F|exact F']|]. unfold shown. rewrite M, P. change (v_mem (vset_cursor (terminal_row s) 0 s1)) with m. rewrite Hm. f_equal. change (terminal_row (vset_cursor (terminal_row s) 0 s1)) with (terminal_row s). f_equal. unfold cursor. lia.
    + exists s1. split; [done|]. split; [split; cbn; unfold VGA_HEIGHT, VGA_WIDTH; lia || done|]. split; [done|].
      unfold shown. change (v_mem s1) with m. rewrite Hm. f_equal. rewrite Z.mod_small by (unfold cursor, CELLS in *; lia). unfold cursor. cbn. lia.
Qed.

Lemma put_all_run l s :
  vga_ok s → ∃ s', put_all l s = Done (tt, s') ∧ vga_ok s' ∧ vga_frame s s' ∧ shown s' = type_text (terminal_color s) l (shown s).
Proof.
  revert s. induction l as [|c l IH]; intros s O; [exists s; split; [done|split; [done|split; [apply vga_frame_refl|done]]]|].
  cbn [put_all type_text]. destruct (putchar_run c s O) as (s1 & E1 & O1 & F1 & S1). destruct (IH s1 O1) as (s2 & E2 & O2 & F2 & S2).
  exists s2. rewrite (bind_run _ _ _ _ _ E1). split; [done|]. split; [done|]. split; [by eapply vga_frame_trans|].
  rewrite S2, S1. by rewrite (proj1 F1).
Qed.

(** Formatted output is typed from the cursor on; nothing else of memory changes. *)
Lemma vga_printf_run f args s out :
  vga_ok s → render f args = Some out → Z.of_nat (length out) ≤ INT_MAX →
  ∃ n s', vga_printf f args s = Done (n, s') ∧ vga_ok s' ∧ vga_frame s s' ∧ shown s' = type_text (terminal_color s) out (shown s).
Proof.
  intros O Hr%rendered Hl. destruct (put_all_run out s O) as (s' & E & O' & F & S). eexists _, s'. split; [|done].
  unfold vga_printf, va_vga_printf, generic_printf, kernel_generic_nprintf, with_limit, bind at 1, modify.
  rewrite (loop_all (ret tt) (length f) f args 0 (ToPrinter []) (-1) _ out _ Hr);
    [|done|lia|lia|unfold admits, INT_MAX in *; lia|left; by eexists].
  cbn [emit p_sink app]. rewrite (bind_run _ _ _ _ _ E). reflexivity.
Qed.

Definition blank : Z := 32 + 2 ^ 8 * VGA_COLOR_LIGHT_GREY.

(** After init_vga_printf the screen is blank and the cursor at its start. *)
Theorem init_vga_blank s :
  ∃ s', init_vga_printf s = Done (tt, s') ∧ vga_ok s' ∧ shown s' = (0, replicate (Z.to_nat CELLS) blank) ∧
    ∀ a, a < VGA_MEMORY ∨ VGA_MEMORY + 2 * CELLS ≤ a → v_mem s' a = v_mem s a.
Proof.
  set (s0 := mk_vga 0 0 (vga_entry_color VGA_COLOR_LIGHT_GREY VGA_COLOR_BLACK) VGA_MEMORY (v_mem s)).
  assert (O : ∀ m, vga_ok (vset_mem m s0)) by (intros m; split; [split; [apply Z.le_refl|reflexivity]..|split; [discriminate|reflexivity]|reflexivity]).
  set (I := fun k s1 => ∃ m, s1 = vset_mem m s0 ∧ (∀ j, (j < Z.to_nat k)%nat → cells m !! j = Some blank) ∧
    ∀ a, a < VGA_MEMORY ∨ VGA_MEMORY + 2 * CELLS ≤ a → m a = v_mem s a).
  assert (Hc : ∀ x y s1, 0 ≤ x < 80 → 0 ≤ y < 25 → I (80 * y + x) s1 →
    ∃ s2, (color <- gets terminal_color ;; terminal_putentryat 32 color x y) s1 = Done (tt, s2) ∧ I (80 * y + (x + 1)) s2).
  { intros x y s1 Hx Hy (m & -> & Hm & Hf). eexists. split; [reflexivity|]. eexists. split; [reflexivity|].
    change (terminal_buffer _) with VGA_MEMORY. change (v_mem (vset_mem m s0)) with m. change (vga_entry 32 _) with blank. unfold VGA_WIDTH. split.
    - intros j Hj. rewrite cells_store by (unfold CELLS, blank, VGA_COLOR_LIGHT_GREY; lia). destruct (decide (j = Z.to_nat (y * 80 + x))) as [->|Hne].
      + apply list_lookup_insert_eq. unfold cells. rewrite length_fmap, length_seq. unfold CELLS. lia.
      + rewrite list_lookup_insert_ne by done. apply Hm. lia.
    - intros a Ha. rewrite store16_other by (unfold CELLS in *; lia). by apply Hf. }
  destruct (for_up_inv (fun y => I (80 * y)) (fun y => for_up (Z.to_nat VGA_WIDTH) 0 (fun x => color <- gets terminal_color ;; terminal_putentryat 32 color x y))
    (Z.to_nat VGA_HEIGHT) 0 s0) as (s' & E & m & -> & Hm & Hf).
  { exists (v_mem s). split; [done|]. split; [lia|done]. }
  { intros y s1 Hy H1. unfold VGA_HEIGHT in Hy. rewrite <- (Z.add_0_r (80 * y)) in H1.
    destruct (for_up_inv (fun x => I (80 * y + x)) _ (Z.to_nat VGA_WIDTH) 0 s1 H1
      (fun x s2 Hx H2 => Hc x y s2 ltac:(unfold VGA_WIDTH in Hx; lia) ltac:(lia) H2)) as (s2 & E & H2).
    exists s2. split; [exact E|]. unfold VGA_WIDTH in H2. by replace (80 * (y + 1)) with (80 * y + (0 + Z.of_nat (Z.to_nat 80))) by lia. }
  exists (vset_mem m s0). split; [unfold init_vga_printf; do 3 rewrite (bind_run (modify _) _ _ _ _ eq_refl); exact E|]. split; [apply O|]. split; [|exact Hf]. unfold shown. f_equal.
  apply list_eq. intros j. destruct (decide (j < Z.to_nat CELLS)%nat) as [Hj|Hj].
  - rewrite lookup_replicate_2 by done. apply Hm. exact Hj.
  - rewrite !lookup_ge_None_2; [done| |]; [rewrite length_replicate|unfold cells; rewrite length_fmap, length_seq]; lia.
Qed.

(** ** The panic *)

Section ipis.
Context `{Answers}.
Variables (turns : nat) (b : Z).

(** The other active CPUs among the given records. *)
Definition is_target (cur : Z) (c : x86_cpu) : bool := verify_cpu c && negb (lapic_id c =? cur) && active c.
Definition targets (cur : Z) (l : list x86_cpu) : list Z := lapic_id <$> filter (fun c => is_target cur c = true) l.
Definition panic_ipis (cur : Z) (l : list x86_cpu) : list event := (fun id => Ipi id INT_PANIC_IPI) <$> targets cur l.

Lemma read_at_run i w : on_machine (read_cpu (CpuAt i)) w = Done (default zero_cpu (cpus (la_mach w) !! i), w).
Proof. unfold on_machine, zoom, read_cpu, gets. by destruct w. Qed.

Lemma panic_enumerate_run i c w :
  cpus (la_mach w) !! i = Some c → active c = true → la_ptr w = Some b → 0 ≤ lapic_id c < 256 → ipi_ends turns b →
  ∃ l, panic_enumerate turns (CpuAt i) w = Done (tt, lset_log l w) ∧ events b l = events b (la_log w) ++ [Ipi (lapic_id c) INT_PANIC_IPI].
Proof.
  intros Hc Ha Hb Hid He. unfold panic_enumerate. rewrite (bind_run _ _ _ _ _ (read_at_run i w)), Hc. change (default zero_cpu (Some c)) with c. rewrite Ha. cbn [negb].
  pose proof (lapic_ipi_wp b _ _ _ _ (lapic_id c) INT_PANIC_IPI 0 (at_regs_init b w Hb) Hid) as W. cbv zeta in W.
  destruct (returns_inv' _ _ _ W) as (w1 & E1 & f1 & A1 & _). destruct (returns_inv' _ _ _ (ipi_wait_wp turns b _ _ _ _ A1 He)) as (w2 & E2 & A2).
  exists (la_log w2). rewrite (bind_run _ _ _ _ _ E1), E2. split; [|exact (ar_events _ _ _ _ _ A2)]. by rewrite <- (ar_same _ _ _ _ _ A2).
Qed.

Lemma drop_cpu (l : list x86_cpu) i :
  (∃ c, l !! i = Some c ∧ drop i l = c :: drop (S i) l) ∨ (l !! i = None ∧ drop i l = []).
Proof.
  destruct (l !! i) as [c|] eqn:E; [left|right].
  - exists c. split; [done|]. by apply drop_S.
  - split; [done|]. apply drop_ge. by apply lookup_ge_None.
Qed.

Lemma targets_cons cur c l : targets cur (c :: l) = if is_target cur c then lapic_id c :: targets cur l else targets cur l.
Proof. unfold targets. rewrite filter_cons. by destruct (is_target cur c). Qed.

(** One turn of the loop: an interrupt for a target, nothing for the others. *)
Lemma panic_turn_run cur i w c :
  let m := when (verify_cpu c && negb (lapic_id c =? cur)) (panic_enumerate turns (CpuAt i)) in
  cpus (la_mach w) !! i = Some c → ipi_ends turns b →
  if is_target cur c
  then la_ptr w = Some b → 0 ≤ lapic_id c < 256 →
       ∃ l, m w = Done (tt, lset_log l w) ∧ events b l = events b (la_log w) ++ [Ipi (lapic_id c) INT_PANIC_IPI]
  else m w = Done (tt, w).
Proof.
  intros m Hc He. unfold is_target, m. destruct (verify_cpu c && _); [|done]. cbn [andb when]. destruct (active c) eqn:Ea.
  - intros Hp Hid. by apply panic_enumerate_run.
  - unfold panic_enumerate. rewrite (bind_run _ _ _ _ _ (read_at_run i w)), Hc. change (default zero_cpu (Some c)) with c. by rewrite Ea.
Qed.

Lemma panic_loop_run cur n : ∀ i w,
  let l := take n (drop i (cpus (la_mach w))) in
  Forall (fun id => 0 ≤ id < 256) (targets cur l) → (targets cur l ≠ [] → la_ptr w = Some b) → ipi_ends turns b →
  ∃ log, panic_loop turns n i cur w = Done (tt, lset_log log w) ∧ events b log = events b (la_log w) ++ panic_ipis cur l.
Proof.
  induction n as [|n IH]; intros i w l Hid Hp He.
  { exists (la_log w). split; [by destruct w|]. by rewrite app_nil_r. }
  cbn [panic_loop]. rewrite (bind_run _ _ _ _ _ (read_at_run i w)). subst l.
  destruct (drop_cpu (cpus (la_mach w)) i) as [(c & Hc & Hd)|(Hc & Hd)]; rewrite Hc.
  - change (default zero_cpu (Some c)) with c. rewrite Hd in *. cbn [take] in *. unfold panic_ipis. rewrite targets_cons in *.
    pose proof (panic_turn_run cur i w c Hc He) as T. cbv zeta in T. destruct (is_target cur c).
    + apply Forall_cons in Hid as [Hi Hid]. destruct (T (Hp ltac:(done)) Hi) as (l1 & E1 & V1).
      rewrite (bind_run _ _ _ _ _ E1). destruct (IH (S i) (lset_log l1 w) Hid (fun _ => Hp ltac:(done)) He) as (l2 & E2 & V2).
      exists l2. split; [exact E2|]. rewrite V2. cbn [la_log lset_log]. by rewrite V1, <- app_assoc.
    + rewrite (bind_run _ _ _ _ _ T). exact (IH (S i) w Hid Hp He).
  - change (default zero_cpu None) with zero_cpu.
    assert (Hn : drop (S i) (cpus (la_mach w)) = []) by (apply drop_ge; apply lookup_ge_None in Hc; lia).
    rewrite Hd, take_nil in *. change (verify_cpu zero_cpu) with false. cbn [andb when]. unfold bind at 1, ret at 1.
    specialize (IH (S i) w). cbv zeta in IH. rewrite Hn, take_nil in IH. exact (IH Hid Hp He).
Qed.
End ipis.

(** The record of the panicking CPU: interrupts turned off without cpu.h, preemption off. *)
Definition settle (c : x86_cpu) : x86_cpu := if cli_stack c =? 0 then set_int_enabled false c else c.
Definition panicked (c : x86_cpu) : x86_cpu := settle (set_preempt (preempt_disabled c + 1) c).

(** With interrupts off, what the record says of the interrupt flag before the outermost push does not matter. *)
Lemma push_settled m i c d :
  running_on m i c → magic d = magic c → lapic_id d = lapic_id c →
  push_no_interrupts (with_cpu m i d false) = push_no_interrupts (with_cpu m i (settle d) false).
Proof.
  intros RO Hm Hl. pose proof RO as [Hs Hf Hc _ _ _ _].
  assert (Hd : magic (settle d) = magic c ∧ lapic_id (settle d) = lapic_id c ∧ cli_stack (settle d) = cli_stack d) by (unfold settle; destruct (_ =? 0); done).
  destruct Hd as (Hm' & Hl' & Hs'). unfold push_no_interrupts, cpu_get_eflags_if, cpu_force_cli, cpu_current, read_cpu, write_cpu, bind, gets, modify, get. cbn.
  rewrite (proj2 (Z.eqb_neq _ _) Hs). cbn. rewrite (proj2 (Z.eqb_neq _ _) Hs). rewrite !(find_cpu_insert _ _ _ _ c) by done. rewrite Hf. cbn.
  assert (Hlt : (i < length (cpus m))%nat) by (by eapply lookup_lt_Some).
  rewrite !list_lookup_insert_eq by done. cbn. rewrite Hs'. destruct (Z.eqb_spec (cli_stack d) 0) as [E|E]; cbn.
  - unfold set_cpus, set_if. cbn. do 3 f_equal. unfold settle. rewrite E. change (0 =? 0) with true. cbv iota.
    apply list_eq. intros j. destruct (decide (i = j)) as [<-|Hne];
      [rewrite !list_lookup_alter_eq, !list_lookup_insert_eq by done; done|rewrite !list_lookup_alter_ne, !list_lookup_insert_ne by done; done].
  - unfold settle. by rewrite (proj2 (Z.eqb_neq _ _) E).
Qed.

Lemma disable_settled m i c d :
  running_on m i c → magic d = magic c → lapic_id d = lapic_id c →
  preempt_disable (with_cpu m i d false) = preempt_disable (with_cpu m i (settle d) false).
Proof.
  intros RO Hm Hl. unfold preempt_disable, bind, gets. cbn [nof_cpus with_cpu set_if set_cpus].
  rewrite (proj2 (Z.eqb_neq _ _) (ro_some _ _ _ RO)). by rewrite (push_settled _ _ _ _ RO Hm Hl).
Qed.

Lemma running_panicked m i c : running_on m i c → running_on (with_cpu m i (panicked c) false) i (panicked c).
Proof.
  intros RO. pose proof RO as [? ? ? ? ? ? ?]. unfold panicked, settle. cbn. destruct (Z.eqb_spec (cli_stack c) 0) as [E|E];
    apply (running_with_cpu _ _ _ _ _ RO); cbn; first [done|lia|intros; exfalso; lia].
Qed.

(** The record of a CPU that is no target may change. *)
Lemma targets_insert cur (l : list x86_cpu) c c' : ∀ i n,
  l !! i = Some c → is_target cur c = false → is_target cur c' = false → targets cur (take n (<[i := c']> l)) = targets cur (take n l).
Proof.
  induction l as [|x l IH]; intros [|i] [|n] Hl Ht Ht'; try done; cbn [lookup list_lookup] in Hl.
  - injection Hl as ->. cbn [insert list_insert take]. by rewrite !targets_cons, Ht, Ht'.
  - change (targets cur (x :: take n (<[i := c']> l)) = targets cur (x :: take n l)). rewrite !targets_cons. by rewrite (IH i n) by done.
Qed.

Lemma not_target m i c c' :
  running_on m i c → lapic_id c' = lapic_id c → is_target (Cpu.lapic_get_id m) c' = false.
Proof.
  intros RO Hl. destruct (find_cpu_Some _ _ _ _ _ (ro_find _ _ _ RO)) as (c0 & Hc & _ & Hid). rewrite (ro_cpu _ _ _ RO) in Hc. injection Hc as <-.
  unfold is_target. rewrite Hl, Hid, Z.eqb_refl. by rewrite andb_false_r.
Qed.

(** The CPU runs with its record in order, or no CPU is registered yet. *)
Definition live (m : machine) : Prop := (∃ i c, running_on m i c) ∨ nof_cpus m = 0.
Definition others (m : machine) : list Z := targets (Cpu.lapic_get_id m) (take (Z.to_nat (nof_cpus m)) (cpus m)).

Lemma on_machine_run {A} (f : M machine A) w a m' : f (la_mach w) = Done (a, m') → on_machine f w = Done (a, lset_mach m' w).
Proof. intros E. unfold on_machine, zoom. by rewrite E. Qed.

Section stop.
Context `{Answers}.
Variables (turns : nat) (b : Z).
Hypothesis ENDS : ipi_ends turns b.

(** The steps of _kpanic before it writes to the terminal. *)
Definition stop_others : M lapics unit :=
  on_machine cpu_force_cli ;;;
  on_machine (cpu <- cpu_current ;; write_cpu cpu (fun c => set_preempt (preempt_disabled c + 1) c)) ;;;
  panic_others turns.

Lemma stop_registered w i c :
  running_on (la_mach w) i c → Forall (fun id => 0 ≤ id < 256) (others (la_mach w)) → (others (la_mach w) ≠ [] → la_ptr w = Some b) →
  ∃ log, stop_others w = Done (tt, lset_log log (lset_mach (with_cpu (la_mach w) i (panicked c) false) w)) ∧
    events b log = events b (la_log w) ++ ((fun id => Ipi id INT_PANIC_IPI) <$> others (la_mach w)).
Proof.
  intros RO Hid Hp. set (m := la_mach w) in *. set (m1 := with_cpu m i (panicked c) false). pose proof (running_panicked _ _ _ RO) as RO1. fold m1 in RO1.
  pose proof (ro_preempt _ _ _ RO) as Hpos.
  assert (Hpp : preempt_disabled (panicked c) = preempt_disabled c + 1) by (unfold panicked, settle; by destruct (_ =? 0)).
  unfold stop_others. rewrite (bind_run _ _ _ _ _ (on_machine_run cpu_force_cli w tt (set_if false m) eq_refl)).
  assert (E1 : (cpu <- cpu_current ;; write_cpu cpu (fun c => set_preempt (preempt_disabled c + 1) c)) (set_if false m) =
    Done (tt, with_cpu m i (set_preempt (preempt_disabled c + 1) c) false)).
  { assert (Ec : cpu_current (set_if false m) = Done (CpuAt i, set_if false m)).
    { unfold cpu_current, bind, get. cbn. by rewrite (proj2 (Z.eqb_neq _ _) (ro_some _ _ _ RO)), (ro_find _ _ _ RO). }
    rewrite (bind_run _ _ _ _ _ Ec). unfold write_cpu, modify. by rewrite (alter_cpu (set_if false m) i c _ (ro_cpu _ _ _ RO)). }
  rewrite (bind_run _ _ _ _ _ (on_machine_run _ (lset_mach (set_if false m) w) _ _ E1)). unfold panic_others.
  assert (E2 : preempt_disable (with_cpu m i (set_preempt (preempt_disabled c + 1) c) false) = Done (tt, preempted m1 i (panicked c) (preempt_disabled c + 2))).
  { rewrite (disable_settled _ _ _ _ RO) by done. fold (panicked c). fold m1. rewrite (preempt_disable_run _ _ _ RO1), Hpp. do 3 f_equal. lia. }
  rewrite (bind_run _ _ _ _ _ (on_machine_run _ (lset_mach _ (lset_mach (set_if false m) w)) _ _ E2)). set (m2 := preempted _ _ _ _).
  pose proof (running_preempted _ _ _ RO1 (preempt_disabled c + 2) ltac:(lia)) as RO2. fold m2 in RO2.
  set (w2 := lset_mach m2 _). unfold bind at 1, gets. change (la_mach w2) with m2.
  assert (Ht : targets (Cpu.lapic_get_id m2) (take (Z.to_nat (nof_cpus m2)) (drop 0 (cpus m2))) = others m).
  { unfold others. rewrite drop_0. unfold m2, m1, preempted. rewrite with_cpu_with_cpu. cbn [cpus nof_cpus Cpu.lapic_get_id with_cpu set_if set_cpus].
    apply (targets_insert _ _ c); [apply RO|by apply (not_target _ i c)|]. apply (not_target _ i c _ RO). unfold panicked, settle. by destruct (_ =? 0). }
  destruct (panic_loop_run turns b (Cpu.lapic_get_id m2) (Z.to_nat (nof_cpus m2)) 0 w2) as (log & E3 & V3); [cbv zeta; change (la_mach w2) with m2; by rewrite Ht..|done|].
  unfold panic_ipis in V3. change (la_mach w2) with m2 in V3. rewrite Ht in V3. rewrite (bind_run _ _ _ _ _ E3). exists log. split; [|exact V3].
  rewrite (on_machine_run preempt_enable (lset_log log w2) tt m1); [done|]. change (la_mach (lset_log log w2)) with m2.
  rewrite (preempt_enable_run _ _ _ RO2) by (cbn; lia). unfold preempted, m2, m1, preempted. rewrite !with_cpu_with_cpu. cbn [eflags_if with_cpu set_if].
  do 3 f_equal. replace (preempt_disabled (set_preempt _ _) - 1) with (preempt_disabled (panicked c)) by (cbn; lia). by destruct (panicked c).
Qed.

Lemma stop_booting w :
  nof_cpus (la_mach w) = 0 → ∃ m', stop_others w = Done (tt, lset_mach m' w) ∧ eflags_if m' = false.
Proof.
  intros Hn. destruct w as [m ? ? ? ? ? ? ? ?]. cbn in Hn. eexists.
  unfold stop_others, panic_others, on_machine, zoom, preempt_disable, preempt_enable, cpu_current, cpu_force_cli, cpu_get_eflags_if, write_cpu, bind, gets, modify, get.
  cbn. repeat (rewrite Hn; cbn; change (Z.to_nat 0) with O; cbn). split; reflexivity.
Qed.

(** The other CPUs get their interrupts, whatever the state of this one. *)
Lemma stop_others_run w :
  live (la_mach w) → Forall (fun id => 0 ≤ id < 256) (others (la_mach w)) → (others (la_mach w) ≠ [] → la_ptr w = Some b) →
  ∃ w', stop_others w = Done (tt, w') ∧ eflags_if (la_mach w') = false ∧
    events b (la_log w') = events b (la_log w) ++ ((fun id => Ipi id INT_PANIC_IPI) <$> others (la_mach w)).
Proof.
  intros [(i & c & RO)|Hn] Hid Hp.
  - destruct (stop_registered w i c RO Hid Hp) as (log & E & V). eexists. split; [exact E|]. split; [done|exact V].
  - destruct (stop_booting w Hn) as (m' & E & V). eexists. split; [exact E|]. split; [exact V|]. unfold others. rewrite Hn. cbn. by rewrite app_nil_r.
Qed.
End stop.

(** The text of a panic. *)
Definition panic_text (reason file : list Z) (line : Z) : list Z :=
  chars "kernel: panic: " ++ reason ++ [10] ++ chars "at " ++ file ++ chars ":" ++ itext (s32 line) ++ [10].

Definition RED : Z := 4.

Lemma type_text_app color l1 l2 t : type_text color (l1 ++ l2) t = type_text color l2 (type_text color l1 t).
Proof. revert t. induction l1 as [|c l1 IH]; intros t; [done|]. cbn. apply IH. Qed.

Lemma render_reason r : render (chars "kernel: panic: %s" ++ [10]) [VStr r] = Some (chars "kernel: panic: " ++ r ++ [10]).
Proof. reflexivity. Qed.
Lemma render_place f line :
  render (chars "at %s:%d" ++ [10]) [VStr f; VWord line] = Some (chars "at " ++ f ++ chars ":" ++ itext (s32 line) ++ [10]).
Proof. reflexivity. Qed.

(** C24: A kernel panic, whatever the CPU's interrupt and preemption counters are, and also before
    the CPUs are registered: the steps of _kpanic up to its idle loop complete; interrupts are
    off afterwards; every other active CPU, and no other, has been sent one panic interrupt, in the
    order of the CPU table; the screen shows the reason and the
    place typed in red from its top left corner, wrapped at the right and at the bottom, over
    what it showed before; and no memory outside the screen has changed. *)
Theorem kpanic_stops_and_reports `{Answers} (turns : nat) (b : Z) (reason file : list Z) (line : Z) (s : debugsys) :
  live (la_mach (d_apic s)) → ipi_ends turns b →
  Forall (fun id => 0 ≤ id < 256) (others (la_mach (d_apic s))) → (others (la_mach (d_apic s)) ≠ [] → la_ptr (d_apic s) = Some b) →
  vga_ok (d_vga s) → Z.of_nat (length (panic_text reason file line)) ≤ INT_MAX →
  ∃ s', kpanic_body turns reason file line s = Done (tt, s') ∧
    eflags_if (la_mach (d_apic s')) = false ∧
    events b (la_log (d_apic s')) = events b (la_log (d_apic s)) ++ ((fun id => Ipi id INT_PANIC_IPI) <$> others (la_mach (d_apic s))) ∧
    shown (d_vga s') = type_text RED (panic_text reason file line) (0, cells (v_mem (d_vga s))) ∧
    (∀ a, a < VGA_MEMORY ∨ VGA_MEMORY + 2 * CELLS ≤ a → v_mem (d_vga s') a = v_mem (d_vga s) a).
Proof.
  intros Hl He Hid Hp O Hn. destruct (stop_others_run turns b He _ Hl Hid Hp) as (w' & E & Hif & Hev). destruct s as [w v]. cbn [d_apic d_vga] in *.
  set (v0 := vset_color RED (vset_cursor 0 0 v)).
  assert (O0 : vga_ok v0) by (split; cbn; [split; [apply Z.le_refl|reflexivity]..|split; [discriminate|reflexivity]|apply O]).
  assert (Hlen : length (panic_text reason file line) =
    Nat.add (length (chars "kernel: panic: " ++ reason ++ [10])) (length (chars "at " ++ file ++ chars ":" ++ itext (s32 line) ++ [10]))).
  { unfold panic_text. rewrite !length_app. lia. }
  destruct (vga_printf_run _ _ _ _ O0 (render_reason reason)) as (n1 & v1 & E1 & O1 & F1 & S1); [lia|].
  destruct (vga_printf_run _ _ _ _ O1 (render_place file line)) as (n2 & v2 & E2 & O2 & F2 & S2); [lia|].
  exists (mk_dbg w' v2). cbn [d_apic d_vga]. split.
  - unfold stop_others in E. apply bind_Done_inv in E as ([] & w1 & Ea & E). apply bind_Done_inv in E as ([] & w2 & Eb & E). unfold kpanic_body.
    assert (L : ∀ (m : M lapics unit) x y, m x = Done (tt, y) → ∀ u, on_lapic m (mk_dbg x u) = Done (tt, mk_dbg y u)).
    { intros m x y Em u. unfold on_lapic, zoom. cbn [d_apic]. by rewrite Em. }
    rewrite (bind_run _ _ _ _ _ (L _ _ _ Ea v)), (bind_run _ _ _ _ _ (L _ _ _ Eb v)), (bind_run _ _ _ _ _ (L _ _ _ E v)).
    rewrite (bind_run _ _ _ _ _ (eq_refl : on_vga terminal_set_panic (mk_dbg w' v) = Done (tt, mk_dbg w' v0))).
    unfold on_vga, zoom, bind. cbn [d_vga d_apic]. rewrite E1. cbn [d_vga d_apic]. by rewrite E2.
  - split; [done|]. split; [done|]. split.
    + rewrite S2, S1. rewrite (proj1 F1). unfold panic_text. rewrite !type_text_app. done.
    + intros a Ha. by rewrite (proj2 F2 a Ha), (proj2 F1 a Ha).
Qed.

(** Three CPUs of which the second also runs, interrupts disabled twice on the first. *)
#[local] Instance quiet_answers : Answers := { mmio_answer := fun _ _ => 0; port_answer := fun _ _ => 0 }.
Definition example_panic_cpu : x86_cpu := mk_cpu X86_CPU_MAGIC 0 true 0 true 2 1.
Definition example_panic_machine : machine :=
  mk_machine [example_panic_cpu; mk_cpu X86_CPU_MAGIC 1 true 5 true 0 0; mk_cpu X86_CPU_MAGIC 2 false 6 false 0 0] 3 zero_cpu 2 false 0 0x1000 true.
Definition example_panic : debugsys :=
  mk_dbg (mk_la example_panic_machine free_lock (fun _ => 0) None (Some 0xFEE00000) 0 0 0 []) (mk_vga 24 79 7 VGA_MEMORY (fun _ => 0)).

Lemma kpanic_stops_and_reports_witness :
  ∃ s', kpanic_body 1 (chars "no init") (chars "kernel.c") 42 example_panic = Done (tt, s') ∧
    events 0xFEE00000 (la_log (d_apic s')) = [Ipi 5 0x82] ∧ cursor (d_vga s') = 160.
Proof.
  destruct (kpanic_stops_and_reports 1 0xFEE00000 (chars "no init") (chars "kernel.c") 42 example_panic) as (s' & E & _ & V & S & _).
  - left. exists 0%nat, example_panic_cpu. split; try reflexivity; try discriminate; cbn; lia.
  - intros l. exists 0%nat. split; [apply Nat.lt_0_1|]. reflexivity.
  - vm_compute. repeat constructor; discriminate.
  - reflexivity.
  - split; [split; [discriminate|reflexivity]..|reflexivity].
  - vm_compute. discriminate.
  - exists s'. split; [exact E|]. split; [exact V|]. apply (f_equal fst) in S. vm_compute in S |- *. exact S.
Defined.

(** ** The call stack *)

(** [fs] are the frames linked from [fp] on, up to the first one outside the stack. *)
Fixpoint frames (m : mem) (top bottom fp : Z) (fs : list Z) : Prop :=
  match fs with
  | [] => fp < top ∨ bottom < fp
  | f :: fs => f = fp ∧ top ≤ fp ≤ bottom ∧ frames m top bottom (load32 m fp) fs
  end.

Definition eip_of (m : mem) (f : Z) : Z := load32 m (f + 4).

Lemma fill_loop_run top bottom n : ∀ i fp fs s,
  frames (c_mem s) top bottom fp fs → length (cs_stack (c_cs s)) = (i + n)%nat →
  fill_loop n i top bottom fp s = Done ((i + length (take n fs))%nat,
    cset_cs (mk_stack (take i (cs_stack (c_cs s)) ++ (eip_of (c_mem s) <$> take n fs) ++ drop (i + length (take n fs)) (cs_stack (c_cs s))) (cs_depth (c_cs s))) s).
Proof.
  induction n as [|n IH]; intros i fp fs s Hf Hl.
  - rewrite take_0. cbn [fill_loop length fmap list_fmap app]. rewrite Nat.add_0_r, take_drop. unfold ret. by destruct s as [? ? ? []].
  - destruct fs as [|f fs].
    + cbn [frames] in Hf. rewrite take_nil. cbn [fill_loop length fmap list_fmap app]. replace ((fp >? bottom) || (fp <? top)) with true by (symmetry; apply orb_true_iff; lia).
      rewrite Nat.add_0_r, take_drop. unfold ret. by destruct s as [? ? ? []].
    + destruct Hf as (-> & Hin & Hf). cbn [fill_loop]. replace ((fp >? bottom) || (fp <? top)) with false by (symmetry; apply orb_false_iff; lia).
      unfold bind at 1, gets. rewrite (bind_run (modify _) _ _ _ _ eq_refl). set (s1 := cset_cs _ s).
      rewrite (IH (S i) _ fs s1 Hf) by (cbn; rewrite length_insert; lia). cbn [take length fmap list_fmap]. change (c_mem s1) with (c_mem s).
      unfold s1. cbn [c_cs cset_cs cs_stack cs_depth]. f_equal. f_equal; [lia|]. unfold cset_cs. cbn [c_mach c_mem c_stacks]. f_equal. f_equal.
      rewrite (take_S_r _ _ (load32 (c_mem s) (fp + 4))) by (apply list_lookup_insert_eq; lia). rewrite take_insert_ge by lia. rewrite <- app_assoc. cbn [app].
      f_equal. unfold eip_of at 2. f_equal. f_equal. replace (i + S (length (take n fs)))%nat with (S i + length (take n fs))%nat by lia. by rewrite drop_insert_lt by lia.
Qed.

(** The stack a CPU runs on: the boot stack, the thread's kernel stack or its only stack, or the CPU's own. *)
Definition stack_shape (sy : symbols) (cpu : cpu_stack) : option (Z * Z) :=
  if cpu_stack_top cpu =? 0 then Some (boot_stack_top sy, boot_stack_bottom sy) else
  match cpu_thread cpu with
  | Some t =>
      if negb (at_stack0 t =? 0) then Some (at_stack0 t, u32 (at_stack0 t + at_stack0_size t))
      else if negb (at_stack t =? 0) then Some (at_stack t, u32 (at_stack t + at_stack_size t)) else None
  | None => Some (cpu_stack_top cpu, u32 (cpu_stack_top cpu + cpu_stack_size cpu))
  end.

Lemma stack_info_run sy i c s tb :
  running_on (c_mach s) i c → stack_shape sy (c_stacks s (CpuAt i)) = Some tb → get_stack_info sy s = Done (tb, s).
Proof.
  intros RO Hs. assert (E : on_cmach cpu_current s = Done (CpuAt i, s)).
  { unfold on_cmach, zoom. rewrite (cpu_current_run _ _ _ RO). by destruct s. }
  unfold get_stack_info. rewrite (bind_run _ _ _ _ _ E). unfold bind, gets. unfold stack_shape in Hs.
  destruct (cpu_stack_top _ =? 0); [by injection Hs as <-|]. destruct (cpu_thread _) as [t|]; [|by injection Hs as <-].
  destruct (negb (at_stack0 t =? 0)); [by injection Hs as <-|]. destruct (negb (at_stack t =? 0)); [by injection Hs as <-|done].
Qed.

Lemma clear_run s :
  length (cs_stack (c_cs s)) = DEBUG_MAX_CALL_DEPTH →
  debug_clear_call_stack s = Done (tt, cset_cs (mk_stack (replicate DEBUG_MAX_CALL_DEPTH 0) 0) s).
Proof. intros Hl. destruct s as [m mm st [l d]]. cbn in Hl. do 16 (destruct l as [|? l]; [done|]). by destruct l. Qed.

(** debug_fill_call_stack records the return addresses of the innermost frames, at most 16 of
    them, clears the rest, and leaves the CPU's counters as they were. *)
Theorem call_stack_recorded sy i c ebp top bottom fs s :
  running_on (c_mach s) i c → stack_shape sy (c_stacks s (CpuAt i)) = Some (top, bottom) →
  length (cs_stack (c_cs s)) = DEBUG_MAX_CALL_DEPTH → frames (c_mem s) top bottom ebp fs →
  let calls := eip_of (c_mem s) <$> take DEBUG_MAX_CALL_DEPTH fs in
  debug_fill_call_stack sy ebp s =
    Done (tt, cset_cs (mk_stack (calls ++ replicate (DEBUG_MAX_CALL_DEPTH - length calls) 0) (Z.of_nat (length calls))) s).
Proof.
  intros RO Hs Hl Hf calls. unfold debug_fill_call_stack. rewrite (bind_run _ _ _ _ _ (clear_run s Hl)). set (s1 := cset_cs _ s).
  set (s2 := mk_call (preempted (c_mach s) i c (preempt_disabled c + 1)) (c_mem s) (c_stacks s) (c_cs s1)).
  assert (E1 : on_cmach preempt_disable s1 = Done (tt, s2)) by (unfold on_cmach, zoom; by rewrite (preempt_disable_run _ _ _ (RO : running_on (c_mach s1) i c))).
  pose proof (running_preempted _ _ _ RO (preempt_disabled c + 1) ltac:(pose proof (ro_preempt _ _ _ RO); lia)) as RO2.
  rewrite (bind_run _ _ _ _ _ E1), (bind_run _ _ _ _ _ (stack_info_run sy i _ s2 (top, bottom) RO2 Hs)). cbn [fst snd].
  rewrite (bind_run _ _ _ _ _ (fill_loop_run top bottom DEBUG_MAX_CALL_DEPTH 0 ebp fs s2 Hf (length_replicate _ _))).
  rewrite (bind_run (modify _) _ _ _ _ eq_refl). unfold on_cmach, zoom. cbn [c_mach cset_cs s2 c_mem c_stacks c_cs cs_stack take app Nat.add].
  rewrite (preempt_enable_run _ _ _ RO2) by (cbn; pose proof (ro_preempt _ _ _ RO); lia).
  assert (Hc : length calls = length (take DEBUG_MAX_CALL_DEPTH fs)) by (unfold calls; by rewrite length_fmap).
  replace (preempt_disabled (set_preempt (preempt_disabled c + 1) c) - 1) with (preempt_disabled c) by (cbn; lia). rewrite (preempted_back _ _ _ RO).
  unfold cset_cs. cbn [cs_stack s1 c_cs cset_cs]. by rewrite take_0, drop_replicate, Hc.
Qed.

(** The walk takes a frame at the end of the stack to be on it: the two words it then reads are
    beyond the stack. *)
Example frame_past_stack s :
  fill_loop 16 0 0x1000 0x2000 0x2000 s =
  (m <- gets c_mem ;;
   modify (fun s => cset_cs (mk_stack (<[0%nat := load32 m 0x2004]> (cs_stack (c_cs s))) (cs_depth (c_cs s))) s) ;;;
   fill_loop 15 1 0x1000 0x2000 (load32 m 0x2000)) s.
Proof. reflexivity. Qed.
