(* ===== verification/Checkpoint.v ===== *)
(** * kernel/cpu/checkpoint.c: the CPUs wait for each other

    A checkpoint is a counter all CPUs see.  Each CPU runs cpu_checkpoint_enter once; its program
    counter says where in it the CPU is, and every access to the counters is a step of
    its own, so that the steps of the CPUs interleave.  The CPUs' records are those of [Shootdown]. *)

From stdpp Require Import base list gmap relations.
From Stdlib Require Import ZArith Lia.
From S2P Require Import Prelude Cpu Apic Shootdown.

(** In [Loaded v] the CPU has read [v] from the counter and is about to compare it with the number of
    active CPUs. *)
Inductive place : Type :=
| Outside
| Entering
| Spinning
| Loaded (v : Z)
| Leaving
| Passed.
#[export] Instance place_eq_dec : EqDecision place.
Proof. solve_decision. Defined.

Record ckpt := mk_ckpt {
  ck_sys : shoot;
  ck_num : Z;
  ck_pc : list place;
}.

Definition cpu_checkpoint_create (x : ckpt) : ckpt := mk_ckpt (ck_sys x) 0 (ck_pc x).

(** One step of cpu_checkpoint_enter on CPU [j]; [cpu_relax] is none. *)
Inductive enter_step (j : nat) : ckpt → ckpt → Prop :=
| do_disable s s' n l :
    l !! j = Some Outside → on_core j preempt_disable s = Done (tt, s') →
    enter_step j (mk_ckpt s n l) (mk_ckpt s' n (<[j := Entering]> l))
| do_add s n l :
    l !! j = Some Entering → enter_step j (mk_ckpt s n l) (mk_ckpt s (u32 (n + 1)) (<[j := Spinning]> l))
| do_load s n l :
    l !! j = Some Spinning → enter_step j (mk_ckpt s n l) (mk_ckpt s n (<[j := Loaded n]> l))
| do_again s n l v :
    l !! j = Some (Loaded v) → v ≠ active_count s → enter_step j (mk_ckpt s n l) (mk_ckpt s n (<[j := Spinning]> l))
| do_pass s n l v :
    l !! j = Some (Loaded v) → v = active_count s → enter_step j (mk_ckpt s n l) (mk_ckpt s n (<[j := Leaving]> l))
| do_enable s s' n l :
    l !! j = Some Leaving → on_core j preempt_enable s = Done (tt, s') →
    enter_step j (mk_ckpt s n l) (mk_ckpt s' n (<[j := Passed]> l)).

Definition cstep (x y : ckpt) : Prop := ∃ j, enter_step j x y.

(** ** The records while the CPUs are inside *)

Definition inside (p : place) : bool := match p with Outside | Passed => false | _ => true end.
Definition counted (p : place) : bool := match p with Outside | Entering => false | _ => true end.

Definition bump (p : place) (c : x86_cpu) : x86_cpu := if inside p then set_preempt (preempt_disabled c + 1) c else c.
Definition bumped (l : list place) (cs : list x86_cpu) : list x86_cpu := imap (fun j c => bump (default Outside (l !! j)) c) cs.

(** [s0] with the preemption counters of the CPUs that are inside raised. *)
Definition at_places (s0 : shoot) (l : list place) : shoot :=
  sh_set_base (lset_mach (set_cpus (bumped l (cpus (la_mach (sh_base s0)))) (la_mach (sh_base s0))) (sh_base s0)) s0.

(** All CPUs are registered, set up and active. *)
Record participants (s0 : shoot) (n : nat) : Prop := {
  pa_local : length (sh_local s0) = n;
  pa_few : Z.of_nat n ≤ MAX_CPUS;
  pa_run : ∀ j, (j < n)%nat → ∃ c, running_on (mach_at j s0) j c;
  pa_active : active_count s0 = Z.of_nat n;
}.

Definition count (l : list place) : nat := length (filter (fun p => counted p = true) l).

Arguments count : simpl never.

Lemma find_cpu_same id n : ∀ (l l' : list x86_cpu) i,
  (∀ j, (fun c => (magic c, lapic_id c)) <$> l !! j = (fun c => (magic c, lapic_id c)) <$> l' !! j) → find_cpu l n i id = find_cpu l' n i id.
Proof.
  induction n as [|n IH]; intros l l' i H; [done|]. cbn. specialize (IH l l' (S i) H). specialize (H i).
  destruct (l !! i) as [c|], (l' !! i) as [c'|]; try done. cbn in H. injection H as Hm Hl. unfold verify_cpu. by rewrite Hm, Hl, IH.
Qed.

Lemma bump_id p c : magic (bump p c) = magic c ∧ lapic_id (bump p c) = lapic_id c.
Proof. unfold bump. by destruct (inside p). Qed.

Lemma lookup_bumped l cs j : bumped l cs !! j = bump (default Outside (l !! j)) <$> cs !! j.
Proof. unfold bumped. by rewrite list_lookup_imap. Qed.

Lemma running_at_places s0 n l j c :
  participants s0 n → (j < n)%nat → running_on (mach_at j s0) j c → running_on (mach_at j (at_places s0 l)) j (bump (default Outside (l !! j)) c).
Proof.
  intros P Hj [A B C D E F G]. split; cbn in *; try done.
  - rewrite <- B. apply find_cpu_same. intros k. rewrite lookup_bumped. destruct (cpus _ !! k) as [d|]; [|done]. cbn.
    destruct (bump_id (default Outside (l !! k)) d) as [-> ->]. done.
  - by rewrite lookup_bumped, C.
  - unfold bump. by destruct (inside _).
  - unfold bump. destruct (inside _); cbn; lia.
  - unfold bump. by destruct (inside _).
  - unfold bump. by destruct (inside _).
Qed.

Lemma bumped_insert l cs j p c :
  (j < length l)%nat → cs !! j = Some c → bumped (<[j := p]> l) cs = <[j := bump p c]> (bumped l cs).
Proof.
  intros Hj Hc. apply list_eq. intros k. rewrite lookup_bumped. destruct (decide (k = j)) as [->|Hk].
  - rewrite !list_lookup_insert_eq; [by rewrite Hc| |done]. unfold bumped. rewrite length_imap. by eapply lookup_lt_Some.
  - by rewrite !list_lookup_insert_ne, lookup_bumped by done.
Qed.

Lemma bumped_none l cs : (∀ p, p ∈ l → inside p = false) → bumped l cs = cs.
Proof.
  intros H. apply list_eq. intros k. rewrite lookup_bumped. destruct (l !! k) as [p|] eqn:E; cbn.
  - unfold bump. rewrite (H p) by (by eapply list_elem_of_lookup_2). by destruct (cs !! k).
  - by destruct (cs !! k).
Qed.

(** The same records for places that are as much inside. *)
Lemma at_places_same s0 l j p q : l !! j = Some q → inside p = inside q → at_places s0 (<[j := p]> l) = at_places s0 l.
Proof.
  intros Hq Hi. unfold at_places. do 3 f_equal. apply list_eq. intros k. rewrite !lookup_bumped. destruct (decide (k = j)) as [->|Hk].
  - rewrite list_lookup_insert_eq by (by eapply lookup_lt_Some). rewrite Hq. cbn. unfold bump. by rewrite Hi.
  - by rewrite list_lookup_insert_ne.
Qed.

Lemma disabled_at s0 n l j c p :
  participants s0 n → length l = n → running_on (mach_at j s0) j c → l !! j = Some p → inside p = false →
  disabled j c (at_places s0 l) = at_places s0 (<[j := Entering]> l).
Proof.
  intros P Hl RO Hp Hi. assert (Hj : (j < length l)%nat) by (by eapply lookup_lt_Some). pose proof (ro_cpu _ _ _ RO) as Hc. cbn in Hc.
  unfold at_places at 2. rewrite (bumped_insert _ _ _ _ c) by done. unfold disabled, wr. change (bump Entering c) with (set_preempt (preempt_disabled c + 1) c).
  rewrite upd_id; [done|]. intros x Hx. cbn in Hx. unfold loc. cbn. rewrite Hx. by destruct x.
Qed.

Lemma disable_at s0 n l j p :
  participants s0 n → length l = n → l !! j = Some p → inside p = false →
  on_core j preempt_disable (at_places s0 l) = Done (tt, at_places s0 (<[j := Entering]> l)).
Proof.
  intros P Hl Hp Hi. assert (Hj : (j < n)%nat) by (subst n; by eapply lookup_lt_Some). destruct (pa_run _ _ P j Hj) as (c & RO).
  pose proof (running_at_places _ _ l _ _ P Hj RO) as RO1. rewrite Hp in RO1. cbn in RO1. unfold bump in RO1. rewrite Hi in RO1.
  rewrite (disable_run _ _ _ RO1). by rewrite (disabled_at _ _ _ _ _ _ P Hl RO Hp Hi).
Qed.

Lemma enable_at s0 n l j p q :
  participants s0 n → length l = n → l !! j = Some p → inside p = true → inside q = false →
  on_core j preempt_enable (at_places s0 l) = Done (tt, at_places s0 (<[j := q]> l)).
Proof.
  intros P Hl Hp Hi Hq. assert (Hj : (j < n)%nat) by (subst n; by eapply lookup_lt_Some). destruct (pa_run _ _ P j Hj) as (c & RO).
  set (l' := <[j := q]> l). assert (Hl' : length l' = n) by (unfold l'; by rewrite length_insert).
  assert (Hp' : l' !! j = Some q) by (apply list_lookup_insert_eq; lia).
  pose proof (running_at_places _ _ l' _ _ P Hj RO) as RO1. rewrite Hp' in RO1. cbn in RO1. unfold bump in RO1. rewrite Hq in RO1.
  pose proof (enable_back j c id (at_places s0 l') ltac:(by rewrite <- (pa_local _ _ P) in Hj) RO1 (fun _ => conj eq_refl eq_refl)) as E.
  rewrite !(upd_id j id) in E by done. rewrite (disabled_at _ _ _ _ _ _ P Hl' RO Hp' Hq) in E. unfold l' in E at 1. rewrite list_insert_insert_eq in E.
  by rewrite (at_places_same _ l j Entering p Hp ltac:(by rewrite Hi)) in E.
Qed.

(** ** The invariant *)

Record ck_inv (s0 : shoot) (n : nat) (x : ckpt) : Prop := {
  ci_len : length (ck_pc x) = n;
  ci_sys : ck_sys x = at_places s0 (ck_pc x);
  ci_num : ck_num x = Z.of_nat (count (ck_pc x));
  ci_loaded : ∀ j v, ck_pc x !! j = Some (Loaded v) → v ≤ ck_num x;
  ci_passed : ∀ j p, ck_pc x !! j = Some p → p = Leaving ∨ p = Passed → count (ck_pc x) = n;
}.

Lemma count_cons p l : count (p :: l) = (Nat.b2n (counted p) + count l)%nat.
Proof. unfold count. rewrite filter_cons. by destruct (counted p); case_decide. Qed.

Lemma count_insert l j p q :
  l !! j = Some q → (count (<[j := p]> l) + Nat.b2n (counted q) = count l + Nat.b2n (counted p))%nat.
Proof.
  revert j. induction l as [|x l IH]; intros j Hq; [done|]. destruct j as [|j].
  - injection Hq as ->. change (<[0%nat := p]> (q :: l)) with (p :: l). rewrite !count_cons. lia.
  - specialize (IH j Hq). change (<[S j := p]> (x :: l)) with (x :: <[j := p]> l). rewrite !count_cons. lia.
Qed.

Lemma count_le l : (count l ≤ length l)%nat.
Proof. apply length_filter. Qed.

Lemma count_full l j p : count l = length l → l !! j = Some p → counted p = true.
Proof.
  intros Hc Hp. destruct (counted p) eqn:E; [done|]. pose proof (count_insert l j Spinning p Hp) as H. rewrite E in H. cbn in H.
  pose proof (count_le (<[j := Spinning]> l)) as H2. rewrite length_insert in H2. lia.
Qed.

Lemma count_all l : (∀ k p, l !! k = Some p → p ≠ Outside ∧ p ≠ Entering) → count l = length l.
Proof.
  induction l as [|x l IH]; intros H; [done|]. rewrite count_cons, IH by (intros k p Hk; exact (H (S k) p Hk)).
  destruct (H 0%nat x eq_refl). by destruct x.
Qed.

(** Steps that leave the records of the CPUs alone. *)
Lemma inv_move s0 n s m l j p q m' :
  ck_inv s0 n (mk_ckpt s m l) → l !! j = Some q → inside p = inside q → m' = Z.of_nat (count (<[j := p]> l)) → m ≤ m' →
  (∀ v, p = Loaded v → v ≤ m') → (p = Leaving → count (<[j := p]> l) = n) → p ≠ Passed →
  ck_inv s0 n (mk_ckpt s m' (<[j := p]> l)).
Proof.
  intros [Hl Hs Hn Hv Hp] Hq Hi Hm Hle Hload Hlv Hnp. cbn [ck_pc ck_num ck_sys] in *. assert (Hj : (j < length l)%nat) by (by eapply lookup_lt_Some). split; cbn [ck_pc ck_num ck_sys].
  - by rewrite length_insert.
  - by rewrite (at_places_same _ _ _ _ q).
  - done.
  - intros k v Hk. destruct (decide (k = j)) as [->|Hne]; [rewrite list_lookup_insert_eq in Hk by done; injection Hk as ->; by apply Hload|].
    rewrite list_lookup_insert_ne in Hk by done. pose proof (Hv k v Hk). lia.
  - intros k r Hk Hr. destruct (decide (k = j)) as [->|Hne].
    + rewrite list_lookup_insert_eq in Hk by done. injection Hk as ->. destruct Hr; [by apply Hlv|done].
    + rewrite list_lookup_insert_ne in Hk by done. pose proof (Hp k r Hk Hr). pose proof (count_le (<[j := p]> l)) as H2. rewrite length_insert in H2. lia.
Qed.

(** Steps that disable or enable preemption. *)
Lemma inv_records s0 n s m l j p q :
  ck_inv s0 n (mk_ckpt s m l) → l !! j = Some q → counted p = counted q → (∀ v, p ≠ Loaded v) →
  (p = Leaving ∨ p = Passed → q = Leaving ∨ q = Passed) → ck_inv s0 n (mk_ckpt (at_places s0 (<[j := p]> l)) m (<[j := p]> l)).
Proof.
  intros [Hl Hs Hn Hv Hp] Hq Hc Hnl Hpass. cbn [ck_pc ck_num ck_sys] in *. assert (Hj : (j < length l)%nat) by (by eapply lookup_lt_Some).
  pose proof (count_insert l j p q Hq) as HC. rewrite Hc in HC. assert (E : count (<[j := p]> l) = count l) by lia. split; cbn [ck_pc ck_num ck_sys]; rewrite ?E; try done.
  - by rewrite length_insert.
  - intros k v Hk. destruct (decide (k = j)) as [->|Hne]; [rewrite list_lookup_insert_eq in Hk by done; injection Hk as ->; by destruct (Hnl v)|].
    rewrite list_lookup_insert_ne in Hk by done. by apply (Hv k v).
  - intros k r Hk Hr. destruct (decide (k = j)) as [->|Hne].
    + rewrite list_lookup_insert_eq in Hk by done. injection Hk as ->. by apply (Hp j q Hq), Hpass.
    + rewrite list_lookup_insert_ne in Hk by done. by apply (Hp k r).
Qed.

Section barrier.
Context (s0 : shoot) (n : nat).
Hypothesis P : participants s0 n.

Lemma ck_inv_step x y : ck_inv s0 n x → cstep x y → ck_inv s0 n y.
Proof.
  intros I [j S]. destruct S as [s s' m l Hq E|s m l Hq|s m l Hq|s m l v Hq Hv|s m l v Hq Hv|s s' m l Hq E];
    pose proof (ci_len _ _ _ I) as Hl; pose proof (ci_sys _ _ _ I) as Hs; pose proof (ci_num _ _ _ I) as Hn; cbn in Hl, Hs, Hn;
    pose proof (fun p => count_insert l j p _ Hq) as HC.
  - rewrite Hs, (disable_at _ _ _ _ _ P Hl Hq eq_refl) in E. injection E as <-. eapply inv_records; [exact I|exact Hq|done|done|by intros [|]].
  - specialize (HC Spinning). cbn in HC. pose proof (count_le (<[j := Spinning]> l)) as H2. rewrite length_insert in H2. pose proof (pa_few _ _ P). unfold MAX_CPUS in *.
    eapply inv_move; [exact I|exact Hq|done|rewrite u32_small by lia; lia|rewrite u32_small; lia|done|done|done].
  - specialize (HC (Loaded m)). cbn in HC. eapply inv_move; [exact I|exact Hq|done|lia|lia| |done|done]. intros v [= <-]. lia.
  - specialize (HC Spinning). cbn in HC. eapply inv_move; [exact I|exact Hq|done|lia|lia|done|done|done].
  - specialize (HC Leaving). cbn in HC. eapply inv_move; [exact I|exact Hq|done|lia|lia|done| |done]. intros _.
    pose proof (ci_loaded _ _ _ I j v Hq) as Hle. cbn in Hle. rewrite Hv, Hs in Hle. change (active_count (at_places s0 l)) with (active_count s0) in Hle.
    rewrite (pa_active _ _ P) in Hle. pose proof (count_le l). lia.
  - rewrite Hs, (enable_at _ _ _ _ _ Passed P Hl Hq eq_refl eq_refl) in E. injection E as <-. eapply inv_records; [exact I|exact Hq|done|done|by left].
Qed.

Lemma inv_start : ck_inv s0 n (mk_ckpt s0 0 (replicate n Outside)).
Proof.
  assert (Hc : count (replicate n Outside) = 0%nat) by (clear P; induction n as [|k IH]; [done|]; cbn [replicate]; by rewrite count_cons, IH).
  split; cbn [ck_pc ck_num ck_sys]; rewrite ?Hc; try done.
  - by rewrite length_replicate.
  - unfold at_places. rewrite bumped_none; [by destruct s0 as [[[] ? ? ? ? ? ? ? ?] ? ? ? ? ? ?]|].
    intros p Hin. by apply elem_of_replicate in Hin as [-> _].
  - intros j v Hj. by apply lookup_replicate in Hj as [? _].
  - intros j p Hj Hp. apply lookup_replicate in Hj as [-> _]. by destruct Hp.
Qed.

Lemma inv_reach y : rtc cstep (mk_ckpt s0 0 (replicate n Outside)) y → ck_inv s0 n y.
Proof.
  intros R. assert (H : ∀ x, rtc cstep x y → ck_inv s0 n x → ck_inv s0 n y); [|exact (H _ R inv_start)].
  clear R. intros x R. induction R as [|x y' z S _ IH]; [done|]. intros I. apply IH. by eapply ck_inv_step.
Qed.

(** A CPU that has not passed can go on. *)
Lemma inv_enabled x j p : ck_inv s0 n x → ck_pc x !! j = Some p → p ≠ Passed → ∃ y, enter_step j x y.
Proof.
  intros [Hl Hs Hn Hv Hp] Hj Hne. destruct x as [s m l]. cbn in *. subst s. destruct p as [| | |v| |]; [..|done].
  - eexists. eapply do_disable; [done|]. by eapply disable_at.
  - eexists. by eapply do_add.
  - eexists. by eapply do_load.
  - destruct (decide (v = active_count (at_places s0 l))); eexists; [by eapply do_pass|by eapply do_again].
  - eexists. eapply do_enable; [done|]. by eapply (enable_at _ _ _ _ _ Passed).
Qed.

(** What a CPU still has to do once all have entered. *)
Definition work (p : place) : nat :=
  match p with
  | Outside => 6 | Entering => 5
  | Loaded v => if v =? Z.of_nat n then 2 else 4
  | Spinning => 3 | Leaving => 1 | Passed => 0
  end.
Definition total (l : list place) : nat := sum_list (work <$> l).

Arguments total : simpl never.

Lemma total_insert l j p q : l !! j = Some q → (total (<[j := p]> l) + work q = total l + work p)%nat.
Proof.
  revert j. induction l as [|x l IH]; intros j Hq; [done|]. destruct j as [|j]; unfold total in *.
  - injection Hq as ->. change (<[0%nat := p]> (q :: l)) with (p :: l). rewrite !fmap_cons. cbn. lia.
  - specialize (IH j Hq). change (<[S j := p]> (x :: l)) with (x :: <[j := p]> l). rewrite !fmap_cons. cbn [sum_list sum_list_with] in *. unfold id in *. lia.
Qed.

Lemma work_less x y : ck_inv s0 n x → count (ck_pc x) = n → cstep x y → (total (ck_pc y) < total (ck_pc x))%nat ∧ count (ck_pc y) = n.
Proof.
  intros I Hn [j S]. pose proof (ci_len _ _ _ I) as Hl. pose proof (ci_sys _ _ _ I) as Hs. pose proof (ci_num _ _ _ I) as Hm.
  assert (Hc : ∀ p, ck_pc x !! j = Some p → counted p = true) by (intros p; apply count_full; congruence).
  destruct S as [s s' m l Hq E|s m l Hq|s m l Hq|s m l v Hq Hv|s m l v Hq Hv|s s' m l Hq E]; cbn in *; pose proof (Hc _ Hq) as Hcq; try done;
    pose proof (fun p => total_insert l j p _ Hq) as HT; pose proof (fun p => count_insert l j p _ Hq) as HC.
  - specialize (HT (Loaded m)). specialize (HC (Loaded m)). cbn in *. rewrite Hm, Hn, Z.eqb_refl in HT. rewrite Hm, Hn in *. lia.
  - specialize (HT Spinning). specialize (HC Spinning). cbn in *. subst s. change (active_count (at_places s0 l)) with (active_count s0) in Hv.
    rewrite (pa_active _ _ P) in Hv. rewrite (proj2 (Z.eqb_neq _ _) Hv) in HT. lia.
  - specialize (HT Leaving). specialize (HC Leaving). cbn in *. subst s. change (active_count (at_places s0 l)) with (active_count s0) in Hv.
    rewrite (pa_active _ _ P) in Hv. rewrite Hv, Z.eqb_refl in HT. lia.
  - specialize (HT Passed). specialize (HC Passed). cbn in *. lia.
Qed.

Lemma ends_all x : ck_inv s0 n x → count (ck_pc x) = n → sn cstep x.
Proof.
  remember (total (ck_pc x)) as k eqn:Ek. revert x Ek. induction k as [k IH] using lt_wf_ind. intros x -> I Hn. constructor. intros y S. change (cstep x y) in S.
  destruct (work_less _ _ I Hn S) as [Hw Hy]. eapply IH; [exact Hw|done|by eapply ck_inv_step|done].
Qed.
End barrier.

(** C7: The checkpoint makes the CPUs wait for each other: under every interleaving of their steps, when a
    CPU has left cpu_checkpoint_enter all active CPUs have entered it; a CPU that has not
    left always has a next step; once all have entered every execution is finite,
    so that all of them leave; and when all have left their records are what they were, preemption
    counters included. *)
Theorem checkpoint_synchronizes s0 n m0 y :
  participants s0 n → rtc cstep (cpu_checkpoint_create (mk_ckpt s0 m0 (replicate n Outside))) y →
  (∀ j, ck_pc y !! j = Some Passed → ∀ k p, ck_pc y !! k = Some p → p ≠ Outside ∧ p ≠ Entering) ∧
  (∀ j p, ck_pc y !! j = Some p → p ≠ Passed → ∃ z, enter_step j y z) ∧
  ((∀ k p, ck_pc y !! k = Some p → p ≠ Outside ∧ p ≠ Entering) → sn cstep y) ∧
  (ck_pc y = replicate n Passed → ck_sys y = s0).
Proof.
  intros P R. pose proof (inv_reach s0 n P y R) as I. pose proof (ci_len _ _ _ I) as Hl. split; [|split; [|split]].
  - intros j Hj k p Hk. pose proof (ci_passed _ _ _ I j Passed Hj (or_intror eq_refl)) as Hc.
    pose proof (count_full (ck_pc y) k p ltac:(congruence) Hk) as Hp. by destruct p.
  - intros j p Hj Hp. by eapply inv_enabled.
  - intros Ha. apply (ends_all s0 n P y I). rewrite <- Hl. by apply count_all.
  - intros Hp. rewrite (ci_sys _ _ _ I), Hp. unfold at_places. rewrite bumped_none; [by destruct s0 as [[[] ? ? ? ? ? ? ? ?] ? ? ? ? ? ?]|].
    intros p Hin. by apply elem_of_replicate in Hin as [-> _].
Qed.

Definition example_pair : shoot :=
  mk_sh (mk_la (mk_machine [mk_cpu X86_CPU_MAGIC 0 true 0 false 0 0; mk_cpu X86_CPU_MAGIC 1 true 4 false 0 0] 2 zero_cpu 2 false 0 0 true)
           free_lock (fun _ => 0) None (Some 0xFEE00000) 0 0 0 [])
    [mk_local false 0 0x1000 ∅ []; mk_local false 4 0x1000 ∅ []] free_lock 0 0 false false.

Lemma example_participants : participants example_pair 2.
Proof.
  split; [reflexivity|discriminate| |reflexivity]. intros [|[|j]] Hj; [| |lia]; eexists; (split; [discriminate|reflexivity|reflexivity|..]; cbn; try done; lia).
Qed.

(** Both CPUs enter, the second first, and spin. *)
Definition example_spinning : ckpt := mk_ckpt (at_places example_pair [Spinning; Spinning]) 2 [Spinning; Spinning].

Lemma example_enter j n l p :
  length l = 2%nat → l !! j = Some p → p = Outside →
  rtc cstep (mk_ckpt (at_places example_pair l) n l) (mk_ckpt (at_places example_pair (<[j := Spinning]> l)) (u32 (n + 1)) (<[j := Spinning]> l)).
Proof.
  intros Hl Hj ->. eapply rtc_l; [exists j; eapply do_disable; [done|exact (disable_at _ _ _ _ _ example_participants Hl Hj eq_refl)]|].
  assert (Hj' : <[j := Entering]> l !! j = Some Entering) by (apply list_lookup_insert_eq; by eapply lookup_lt_Some).
  eapply rtc_l; [exists j; eapply do_add; exact Hj'|]. rewrite list_insert_insert_eq.
  rewrite <- (at_places_same example_pair (<[j := Entering]> l) j Spinning Entering Hj' eq_refl), list_insert_insert_eq. apply rtc_refl.
Qed.

Lemma example_reached : rtc cstep (mk_ckpt example_pair 0 [Outside; Outside]) example_spinning.
Proof.
  change example_pair with (at_places example_pair [Outside; Outside]) at 1.
  etransitivity; [exact (example_enter 1 0 [Outside; Outside] Outside eq_refl eq_refl eq_refl)|].
  exact (example_enter 0 1 [Outside; Spinning] Outside eq_refl eq_refl eq_refl).
Qed.

Lemma checkpoint_synchronizes_witness : sn cstep example_spinning ∧ ∃ z, enter_step 0 example_spinning z.
Proof.
  destruct (checkpoint_synchronizes example_pair 2 7 example_spinning example_participants example_reached) as (_ & H2 & H3 & _). split.
  - apply H3. intros [|[|k]] p Hp; cbn in Hp; [injection Hp as <-; done|injection Hp as <-; done|done].
  - by apply (H2 0%nat Spinning).
Defined.

(** The counter is never reset: a checkpoint that all CPUs have passed lets no CPU pass again. *)
Example checkpoint_once s l n j :
  active_count s = 2 → l !! j = Some (Loaded n) → 2 < n → ∀ y, enter_step j (mk_ckpt s n l) y → ck_pc y !! j = Some Spinning.
Proof.
  intros Ha Hl Hn y S. assert (Hj : (j < length l)%nat) by (by eapply lookup_lt_Some).
  inversion S; subst; try congruence; cbn; [by rewrite list_lookup_insert_eq|]. simplify_eq. lia.
Qed.
